(* ===== verification/_CoqProject ===== *)
-Q . S2P
Prelude.v
Fields.v
Segments.v
Bitmap.v
Strings.v
Print.v
Ports.v
Ioapic.v
Region.v
Dll.v
Alloc.v
Queue.v
Slab.v
Setup.v
Capability.v
Sync.v
Paging.v
PageDir.v
Apic.v
Mp.v
Smp.v
Timer.v
Boot.v
AddrSpace.v
AATree.v
AndTree.v
AndTreeWalk.v
Resumption.v
Kernel.v
Scheduler.v
Message.v
Syscall.v
Interrupts.v
Reports.v
Handlers.v
Start.v
Init.v
Load.v
Handout.v
Main.v
Entry.v
