(* ===== verification/Prelude.v ===== *)
(** The C4 microkernel: a model of its C sources and what they guarantee.

    The sources are under [src/]: the kernel proper in [src/src] and
    [src/include], the i386 part in [src/arch/x86].  Names of definitions are
    those of the code; a definition whose name the code does not have is a
    part of a function (a loop, a branch) and stands next to it.

    * The program

    C4 runs threads, each in an address space and with a capability space.  A
    thread asks for everything through system calls on capabilities; threads
    exchange messages over endpoints, and a page fault or a device interrupt
    becomes a message too.  Below that there is memory (regions of pages, slabs
    of objects, page directories) and the hardware of a PC.

    * Files, from the bottom up

    Data structures and routines:
    - [Prelude]: machine words, the state-and-fault monad [ST], its tactics;
    - [Fields]: bit ranges of a word, for packed structures;
    - [Bitmap] ([klib/bitmap.h]), [Queue] ([klib/queue.c]), [Strings]
      ([klib/string.c], [bios.c]), [Print] ([debug.c]);
    - [AATree]: the balanced trees as values; [AndTree] and [AndTreeWalk]:
      the pointer structure of [klib/andtree.c], shown to compute them;
    - [Dll]: doubly linked lists, shared by [Queue] and [Slab].

    Memory:
    - [Region] ([mm/region.c]) and [Slab] ([mm/slab.c]): pages and objects;
      [Setup]: the slab of each kind of object, set up once behind a flag
      ([init_threading], [cap_space_init] and the like);
    - [Alloc]: the classes [Allocator] and [Pages] with their laws, the promise
      of a slab and of the kernel's region to their clients.  [Slab] gives the
      instance for the code; a bump allocator is the instance with which
      concrete states are run;
    - [Paging] and [PageDir] ([arch/x86/paging.c]): directories and tables in
      physical memory, reached through their own recursive entry; the TLB;
    - [AddrSpace] ([mm/addrspace.c]): frames, address maps, address spaces.

    Kernel objects and threads:
    - [Capability] ([capability.c]): the tables and what may be done on them;
    - [Sync] ([syncronization.c], [kobject.h]): locks and mutexes, with a
      relation that interleaves the calls of many threads;
    - [Kernel]: the record of the state the next three share; [Resumption]:
      computations that can give up the processor;
    - [Scheduler] ([scheduler.c], [thread.c]), [Message] ([message.c], and the
      messages of [paging.c] and [interrupts.c]), [Syscall] ([syscall.c]).

    The machine:
    - [Segments], [Ports] (the PIC, the interval timer, the serial line, the
      CMOS), [Ioapic], [Apic], [Mp], [Timer]: a driver is the sequence of
      accesses it makes, against automata written after the data sheets;
    - [Smp] ([smp_init] of [apic-utils.c]) and [Start] ([smp_thing], what a
      processor does that was started);
    - [Interrupts] ([interrupts.c]) and [Handlers] (page faults, the timer);
    - [Boot] ([init.c] up to the first region) and [Init] (the first program,
      [sigma0], and handing it the memory); [Load] shows what the first program
      finds, [Handout] what the thread does that sends it the memory;
    - [Main] ([arch_init]): the machine as one record, whose parts are the
      states of the other files, and the steps from the entry of the kernel on;
      [Entry] shows what they come to;
    - [Reports]: what the kernel prints of its own state.

    * How state and operations correspond

    A C structure is a record with its fields, an object a value in a finite
    map under its address, NULL the address 0.  A global variable is a field of
    the record of its component.  An operation is a function of type [ST],
    from a state to a result and a state, or a fault: following NULL or a
    pointer to something else, an index out of bounds, a byte that is not
    mapped, and a lock that would be spun on for ever are faults.  The theorems
    show that it does not come to that.  Operations that can switch threads
    have type [RST]: they end, or they yield with the rest of their work as a
    function of the state in which their thread runs again.  Integers are [Z]
    and wrap where the code can wrap ([w32], [w64]).  The components are
    composed by running the one on the field of the other's state ([zoom]).
    Two runs that end and yield alike are equivalent ([Resumption]), which is
    coarser than equality, as what is left to do is a function.

    The state of the kernel ([Kernel.kernel]) has a slab for each kind of
    object, as the code has.  The pages of the kernel's region ([Pages]) come
    with the slab of the component that asks for them; that two components do
    not get the same page is the invariant of [Region], shown there once.  So
    where one operation takes pages on both ways, as [addr_space_clone] does for
    the directory (the region in [Paging.mmu]) and for the map ([Pages]), the
    model has two allocators for the one region, and says nothing about those two
    pages being different.  The
    bytes of programs and devices ([Strings.bytes]) and the words of the page
    tables ([Paging.mmu]) are two maps over physical addresses; in [Init] a
    byte is found by translating its address through the tables.  While the
    kernel starts, and reads what the loader left below 4 MB, it does so through
    a window ([Main.low]) of the first of the two.  What the early heap hands out
    ([Boot.kealloc]) leaves these bytes for stores of its own, the nodes of the
    memory map and the bitmap of the physical pages, so the theorems need the
    heap to lie apart from what the loader left.

    * What is shown

    - Authority.  Every system call that touches an object went through a
      check of a capability of the caller of the right type and with the rights
      the call needs ([syscall_mediated]); no sequence of operations on
      capability spaces adds rights, whatever it is run on
      ([cap_run_no_amplification]); a grant over
      an endpoint gives no more than the sender had; the first program starts
      with exactly four capabilities.
    - Messages.  Sending and receiving implement a rendezvous of two queues,
      except that a message the kernel keeps costs the endpoint a receiver, and
      the asynchronous endpoint implements a bounded queue.
    - The scheduler.  The next thread is the one of least runtime, sleepers
      wake in time and in order, and memory for one node of a tree is enough
      for that, as what was released can be handed out again; the time a thread used is charged to it; the timer handler
      arms the next interrupt on every path.
    - Faults.  A page fault of a program reaches its pager as a message, and
      the thread is stopped; that it is stopped twice where the pager was not
      waiting is one of the findings.
    - Memory.  Regions and slabs hand out what was not handed out and keep
      their invariants; mapping, unmapping and copying directories do what the
      hardware's translation then shows, and change no other translation;
      address maps stay sorted, a new entry after those of the same address.
    - The first program.  From a booted kernel [sigma0_load] makes a space, and
      a thread that waits in the run tree; the kernel is back on its own
      directory then, and who enters the space reads the module's bytes at the
      thread's entry point.  No step on the way faults.  The thread that sends
      it the memory sends a frame for each area of the loader's map, whatever
      runs in between.
    - The whole way.  From the tables and bytes a boot loader left, on a machine
      with one processor, [arch_init] comes to its last loop with the interrupts
      on, the handlers in the table, and these two threads to run; without a
      module it returns ([arch_init_spec], [arch_init_alone]).
    - Structures.  Trees and queues in memory implement trees and lists, the
      trees stay balanced in the sense of Andersson, walks are in order.
    - Machine.  The tables of the firmware are walked entry by entry, the
      routers and timers get the words they need, reports are the text of the
      state.

    Where the code does something else than it means to, the theorem states
    what it does; these are listed with the properties of the development.

    * Bounds and fuel

    A loop over a structure is given as fuel the number of nodes or bytes of
    the state and one more: each turn visits one of its own, so it is enough,
    and the theorems show that the fuel is never used up.  The lookup of a
    capability has five turns, for the four digits of an identifier; a table
    has 256 entries; a division by the base ends a number after 32 digits.  A
    loop that waits for a device has its turns as a parameter, and its theorem
    says how many the device makes necessary.

    * What is taken from outside the sources

    The allocator classes have instances, and the theorems over them are run on
    those.  Parameters are: what a device or the clock answers, what a fresh
    page or object held before, the addresses of constant strings and of code,
    and the number of the running processor.

    * Not modelled

    - The assembly: entering and leaving interrupts, the switch of stacks, the
      code a processor starts with.  A switch is the point where a resumption
      yields.
    - [idle_thread], the loop of a started processor and the last loop of
      [arch_init], which halt or turn for ever, and [test_thread_client], which
      nothing calls.
    - Concurrency of processors, but for [Sync]: the other operations run with
      the locks they take free, and where the code would spin the model faults.
    - Messages to the console inside operations.  The reports of [Reports] are
      the exception, and [Print] shows what a message is. *)
From stdpp Require Export base tactics numbers gmap option list list_numbers.
Open Scope Z_scope.

#[global] Arguments Nat.div : simpl never.
#[global] Arguments Nat.modulo : simpl never.
#[global] Arguments Z.div : simpl never.
#[global] Arguments Z.modulo : simpl never.
#[global] Arguments Z.mul : simpl never.
#[global] Arguments Z.add : simpl never.
#[global] Arguments Z.sub : simpl never.
#[global] Arguments Z.of_nat : simpl never.
#[global] Arguments Z.land : simpl never.
#[global] Arguments Z.lor : simpl never.
#[global] Arguments Z.shiftl : simpl never.
#[global] Arguments Z.shiftr : simpl never.
#[global] Arguments Z.testbit : simpl never.
#[global] Arguments Z.pow : simpl never.
#[global] Arguments Z.eqb : simpl never.
#[global] Arguments Z.ltb : simpl never.
#[global] Arguments Z.leb : simpl never.

(** * Machine integers

    [unsigned], [uint32_t], [uintptr_t] and [size_t] are 32-bit on the i386
    target; an integer is a [Z] and each operation of the code that can wrap
    is followed by [w32]. *)

Definition W32 : Z := 2 ^ 32.
Definition w32 (x : Z) : Z := x mod 2 ^ 32.
Definition w64 (x : Z) : Z := x mod 2 ^ 64.
(** conversion to a signed 64-bit value, as gcc defines it *)
Definition i64 (x : Z) : Z := (x + 2 ^ 63) mod 2 ^ 64 - 2 ^ 63.
(** conversion to a signed 32-bit value *)
Definition i32 (x : Z) : Z := (x + 2 ^ 31) mod 2 ^ 32 - 2 ^ 31.

Definition NULL : Z := 0.

(** [x & f] used as a condition *)
Definition flag_set (x f : Z) : bool := negb (Z.land x f =? 0).

Lemma flag_set_bit x n : 0 <= n -> flag_set x (2 ^ n) = Z.testbit x n.
Proof.
  intros Hn. unfold flag_set. destruct (Z.testbit x n) eqn:Hb.
  - apply negb_true_iff, Z.eqb_neq. intros H. apply (f_equal (fun z => Z.testbit z n)) in H.
    by rewrite Z.land_spec, Hb, Z.pow2_bits_true, Z.bits_0 in H by done.
  - apply negb_false_iff, Z.eqb_eq, Z.bits_inj'. intros m Hm.
    rewrite Z.land_spec, Z.pow2_bits_eqb, Z.bits_0 by done.
    destruct (Z.eqb_spec n m) as [<-|]; [by rewrite Hb|by rewrite andb_false_r].
Qed.

Lemma w32_small x : 0 <= x < 2 ^ 32 -> w32 x = x.
Proof. intros; by apply Z.mod_small. Qed.

Lemma w32_range x : 0 <= w32 x < 2 ^ 32.
Proof. by apply Z.mod_pos_bound. Qed.

Lemma w32_idem x : w32 (w32 x) = w32 x.
Proof. apply w32_small, w32_range. Qed.

Lemma w64_small x : 0 <= x < 2 ^ 64 -> w64 x = x.
Proof. intros; by apply Z.mod_small. Qed.

Lemma i64_small x : - 2 ^ 63 <= x < 2 ^ 63 -> i64 x = x.
Proof. intros. unfold i64. rewrite Z.mod_small; lia. Qed.

Lemma i32_small x : - 2 ^ 31 <= x < 2 ^ 31 -> i32 x = x.
Proof. intros. unfold i32. rewrite Z.mod_small; lia. Qed.

(** * The state-and-fault monad

    [ST S A] is a computation over the state [S].  [None] is a fault: a
    dereference of NULL or of memory that holds no object of the type used,
    an array access out of bounds, or a loop that used up its fuel.  The
    theorems prove that it does not happen. *)

Definition ST (S A : Type) : Type := S -> option (A * S).

#[export] Instance ST_ret S : MRet (ST S) := fun A a s => Some (a, s).
#[export] Instance ST_bind S : MBind (ST S) :=
  fun A B f m s => match m s with Some (a, s') => f a s' | None => None end.

Definition fault {S A} : ST S A := fun _ => None.
Definition get_st {S} : ST S S := fun s => Some (s, s).
Definition put_st {S} (s : S) : ST S unit := fun _ => Some (tt, s).
Definition gets {S A} (f : S -> A) : ST S A := fun s => Some (f s, s).
Definition modify {S} (f : S -> S) : ST S unit := fun s => Some (tt, f s).
Definition lift_opt {S A} (o : option A) : ST S A :=
  fun s => match o with Some a => Some (a, s) | None => None end.
Definition when_st {S} (b : bool) (m : ST S unit) : ST S unit :=
  if b then m else mret tt.
(** run a computation on a component of the state *)
Definition zoom {S T A} (g : S -> T) (p : T -> S -> S) (m : ST T A) : ST S A :=
  fun s => match m (g s) with Some (a, t) => Some (a, p t s) | None => None end.
Lemma zoom_run {S T A} (g : S -> T) (p : T -> S -> S) (m : ST T A) s a t : m (g s) = Some (a, t) -> zoom g p m s = Some (a, p t s).
Proof. intros H. unfold zoom. by rewrite H. Qed.

Lemma ST_bind_eq {S A B} (m : ST S A) (f : A -> ST S B) s :
  (m ≫= f) s = match m s with Some (a, s') => f a s' | None => None end.
Proof. done. Qed.

Lemma ST_bind_Some {S A B} (m : ST S A) (f : A -> ST S B) s b s'' :
  (m ≫= f) s = Some (b, s'') <->
  exists a s', m s = Some (a, s') /\ f a s' = Some (b, s'').
Proof.
  rewrite ST_bind_eq. destruct (m s) as [[a s']|]; split.
  - eauto.
  - intros (? & ? & ? & ?); by simplify_eq.
  - done.
  - intros (? & ? & ? & ?); done.
Qed.

Lemma ST_bind_intro {S A B} (m : ST S A) (f : A -> ST S B) s a s' r :
  m s = Some (a, s') -> f a s' = r -> (m ≫= f) s = r.
Proof. intros Hm <-. by rewrite ST_bind_eq, Hm. Qed.

(** the first step of a computation whose result is known *)
Lemma ST_run {S A B} (m : ST S A) (f : A -> ST S B) s a s' :
  m s = Some (a, s') -> (m ≫= f) s = f a s'.
Proof. intros Hm. by rewrite ST_bind_eq, Hm. Qed.

(** [unfold_st] exposes the primitive operations; [inv_st] takes apart
    hypotheses that a computation succeeded. *)
Ltac unfold_st :=
  cbv [mret ST_ret gets modify get_st put_st lift_opt when_st fault zoom] in *.

Ltac inv_st :=
  repeat match goal with
  | H : @mbind (ST _) _ _ _ _ _ _ = Some (_, _) |- _ =>
      let a := fresh "a" in let s := fresh "s" in
      let H1 := fresh "Hm" in let H2 := fresh "Hk" in
      apply ST_bind_Some in H as (a & s & H1 & H2)
  | H : @mret (ST _) _ _ _ _ = Some _ |- _ => injection H as H; subst
  | H : @gets _ _ _ _ = Some _ |- _ => injection H as H; subst
  | H : @get_st _ _ = Some _ |- _ => injection H as H; subst
  | H : @put_st _ _ _ = Some _ |- _ => injection H as H; subst
  | H : @modify _ _ _ = Some _ |- _ => injection H as H; subst
  | H : @fault _ _ _ = Some _ |- _ => discriminate H
  | H : @lift_opt _ _ ?o ?s = Some _ |- _ =>
      let E := fresh "E" in
      unfold lift_opt in H; destruct o eqn:E; [|discriminate H];
      injection H as H; subst
  end.

(** step a computation in the goal: rewrite the head of a bind with the
    equation the tactic given proves *)
Ltac st_step tac := eapply ST_bind_intro; [tac|].
Ltac st_ret := eapply ST_bind_intro; [reflexivity|]; cbn beta.

(** * Generic list lemmas *)

Fixpoint count_true (l : list bool) : nat :=
  match l with [] => 0%nat | b :: l => ((if b then 1 else 0) + count_true l)%nat end.

Lemma count_true_app l1 l2 :
  count_true (l1 ++ l2) = (count_true l1 + count_true l2)%nat.
Proof. induction l1 as [|b l1 IH]; simpl; [done|rewrite IH; lia]. Qed.

Lemma count_true_le l : (count_true l <= length l)%nat.
Proof. induction l as [|[] l IH]; simpl; lia. Qed.

Lemma count_true_insert (l : list bool) (i : nat) (b c : bool) :
  l !! i = Some b ->
  (count_true (<[i:=c]> l) + (if b then 1 else 0) =
   count_true l + (if c then 1 else 0))%nat.
Proof.
  revert i. induction l as [|x l IH]; intros [|i] H; simpl in *; simplify_eq.
  - lia.
  - specialize (IH i H). destruct x; lia.
Qed.

Lemma count_true_pos (l : list bool) : (0 < count_true l)%nat <-> exists i, l !! i = Some true.
Proof.
  split.
  - induction l as [|[] l IH]; simpl; intros H; [lia|by exists 0%nat|].
    destruct (IH H) as [i Hi]. by exists (S i).
  - intros [i Hi]. revert i Hi.
    induction l as [|x l IH]; intros [|i] Hi; simpl in *; simplify_eq; [lia|].
    specialize (IH i Hi). lia.
Qed.

Lemma head_lookup_0 {A} (l : list A) : head l = l !! 0%nat.
Proof. by destruct l. Qed.

(** distinct keys of a map are no more than it has *)
Lemma nodup_dom {A} (h : gmap Z A) (ks : list Z) : NoDup ks -> (forall k, k ∈ ks -> is_Some (h !! k)) -> (length ks <= base.size h)%nat.
Proof.
  intros Hnd Hks. rewrite <- size_dom, <- (size_list_to_set (C := gset Z) _ Hnd). apply subseteq_size.
  intros k. rewrite elem_of_list_to_set, elem_of_dom. apply Hks.
Qed.

(** * Bit fields *)

(** or-ing flags below bit [k] into an aligned value adds them *)
Lemma lor_low a b k : 0 <= k -> a mod 2 ^ k = 0 -> 0 <= b < 2 ^ k -> Z.lor a b = a + b.
Proof.
  intros Hk Ha Hb. rewrite <- Z.add_lor_land. enough (Z.land a b = 0) as -> by lia.
  apply Z.bits_inj'. intros n Hn. rewrite Z.land_spec, Z.bits_0.
  destruct (decide (n < k)) as [Hlt|Hge].
  - apply Z.div_exact in Ha; [|lia]. rewrite Ha, Z.mul_comm, Z.mul_pow2_bits by lia.
    by rewrite Z.testbit_neg_r by lia.
  - rewrite andb_comm. destruct (decide (b = 0)) as [->|]; [by rewrite Z.testbit_0_l|].
    rewrite Z.bits_above_log2; [done|lia|]. apply Z.log2_lt_pow2; [lia|].
    eapply Z.lt_le_trans; [apply Hb|]. apply Z.pow_le_mono_r; lia.
Qed.

(** [x & ~(2^12 - 1)] at 32 bits: the page of an address *)
Definition page_mask (x : Z) : Z := Z.land x (w32 (Z.lnot 4095)).

Lemma page_mask_eq x : 0 <= x < 2 ^ 32 -> page_mask x = x - x mod 4096.
Proof.
  intros Hp. unfold page_mask. change (w32 (Z.lnot 4095)) with (Z.shiftl (Z.ones 20) 12).
  replace (x - x mod 4096) with (Z.shiftl (Z.shiftr x 12) 12).
  2: { rewrite Z.shiftl_mul_pow2, Z.shiftr_div_pow2 by lia. change (2 ^ 12) with 4096.
       pose proof (Z.div_mod x 4096 ltac:(done)). lia. }
  apply Z.bits_inj'. intros k Hk. rewrite Z.land_spec, !Z.shiftl_spec by lia.
  destruct (decide (k < 12)) as [Hlt|Hge].
  - rewrite !(Z.testbit_neg_r _ (k - 12)) by lia. by rewrite andb_false_r.
  - rewrite Z.shiftr_spec by lia. replace (k - 12 + 12) with k by lia.
    destruct (decide (k < 32)).
    + rewrite Z.ones_spec_low by lia. by rewrite andb_true_r.
    + rewrite (Z.ones_spec_high 20) by lia. rewrite andb_false_r. symmetry.
      destruct (decide (x = 0)) as [->|]; [apply Z.testbit_0_l|].
      apply Z.bits_above_log2; [lia|]. apply Z.log2_lt_pow2; [lia|].
      eapply Z.lt_le_trans; [apply Hp|]. apply Z.pow_le_mono_r; lia.
Qed.

Lemma page_mask_add p o : 0 <= p -> p mod 4096 = 0 -> 0 <= o < 4096 -> p + o < 2 ^ 32 ->
  page_mask (p + o) = p.
Proof.
  intros Hp Hm Ho Ht. rewrite page_mask_eq by lia. rewrite <- Zplus_mod_idemp_l, Hm, Z.add_0_l.
  rewrite Z.mod_small by lia. lia.
Qed.

(** prove a decidable fact about closed data by running its decision *)
Ltac decide_vm := refine (bool_decide_unpack _ _); vm_compute; exact I.
