(* ===== verification/Fields.v ===== *)
(** Bit fields of packed structures: the segment descriptors, the interrupt
    gates and the redirection entries are words in memory, and a field of the
    C structure is a range of bits of the word. *)
From S2P Require Export Prelude.

(** a field: where it starts and how many bits it has *)
Record bitfield := BF { bf_off : Z; bf_width : Z }.

Definition field_get (f : bitfield) (x : Z) : Z :=
  Z.land (Z.shiftr x (bf_off f)) (Z.ones (bf_width f)).
(** the assignment keeps the low bits of the value *)
Definition field_set (f : bitfield) (v x : Z) : Z :=
  Z.lor (Z.ldiff x (Z.shiftl (Z.ones (bf_width f)) (bf_off f)))
        (Z.shiftl (Z.land v (Z.ones (bf_width f))) (bf_off f)).

Definition field_ok (f : bitfield) : Prop := 0 <= bf_off f /\ 0 <= bf_width f.
Definition disjoint_fields (f g : bitfield) : Prop :=
  bf_off f + bf_width f <= bf_off g \/ bf_off g + bf_width g <= bf_off f.

(** the bits of a field *)
Definition in_field (f : bitfield) (n : Z) : bool := (bf_off f <=? n) && (n <? bf_off f + bf_width f).

Lemma ones_testbit w n : 0 <= w -> 0 <= n -> Z.testbit (Z.ones w) n = (n <? w).
Proof.
  intros Hw Hn. destruct (Z.ltb_spec n w).
  - apply Z.ones_spec_low. lia.
  - apply Z.ones_spec_high. lia.
Qed.

Lemma field_get_testbit f x n : field_ok f -> 0 <= n ->
  Z.testbit (field_get f x) n = Z.testbit x (n + bf_off f) && (n <? bf_width f).
Proof.
  intros [Ho Hw] Hn. unfold field_get. by rewrite Z.land_spec, Z.shiftr_spec, ones_testbit.
Qed.

Lemma field_set_testbit f v x n : field_ok f -> 0 <= n ->
  Z.testbit (field_set f v x) n = if in_field f n then Z.testbit v (n - bf_off f) else Z.testbit x n.
Proof.
  intros [Ho Hw] Hn. unfold field_set, in_field. rewrite Z.lor_spec, Z.ldiff_spec, !Z.shiftl_spec by lia.
  destruct (Z.leb_spec (bf_off f) n); cbn [andb].
  - rewrite Z.land_spec, !ones_testbit by lia.
    destruct (Z.ltb_spec (n - bf_off f) (bf_width f)), (Z.ltb_spec n (bf_off f + bf_width f)); try lia; cbn [negb andb].
    + by rewrite andb_false_r, andb_true_r.
    + by rewrite andb_true_r, andb_false_r, orb_false_r.
  - rewrite !(Z.testbit_neg_r _ (n - bf_off f)) by lia. cbn. by rewrite andb_true_r, orb_false_r.
Qed.

Lemma field_get_set f v x : field_ok f -> field_get f (field_set f v x) = v mod 2 ^ bf_width f.
Proof.
  intros Hf. apply Z.bits_inj'. intros n Hn. pose proof Hf as [Ho Hw].
  rewrite field_get_testbit, field_set_testbit by (done || lia). unfold in_field.
  rewrite <- Z.land_ones, Z.land_spec, ones_testbit by lia.
  destruct (Z.ltb_spec n (bf_width f)); [|by rewrite !andb_false_r].
  destruct (Z.leb_spec (bf_off f) (n + bf_off f)); [|lia].
  destruct (Z.ltb_spec (n + bf_off f) (bf_off f + bf_width f)); [|lia]. cbn. by replace (n + bf_off f - bf_off f) with n by lia.
Qed.

Lemma field_get_set_ne f g v x : field_ok f -> field_ok g -> disjoint_fields f g ->
  field_get g (field_set f v x) = field_get g x.
Proof.
  intros Hf Hg Hd. apply Z.bits_inj'. intros n Hn. pose proof Hf as [? ?]. pose proof Hg as [? ?].
  rewrite !field_get_testbit by done. rewrite field_set_testbit by (done || lia). unfold in_field.
  destruct (Z.ltb_spec n (bf_width g)); [|by rewrite !andb_false_r]. unfold disjoint_fields in Hd.
  destruct (Z.leb_spec (bf_off f) (n + bf_off g)), (Z.ltb_spec (n + bf_off g) (bf_off f + bf_width f)); try lia; done.
Qed.

Lemma field_get_range f x : field_ok f -> 0 <= field_get f x < 2 ^ bf_width f.
Proof. intros [Ho Hw]. unfold field_get. rewrite Z.land_ones by done. apply Z.mod_pos_bound. lia. Qed.

Lemma field_set_range f v x n : field_ok f -> bf_off f + bf_width f <= n -> 0 <= x < 2 ^ n -> 0 <= field_set f v x < 2 ^ n.
Proof.
  intros Hf Hn Hx. pose proof Hf as [Ho Hw].
  assert (Hpos : 0 <= field_set f v x).
  { unfold field_set. apply Z.lor_nonneg. split.
    - apply Z.ldiff_nonneg. left. apply Hx.
    - apply Z.shiftl_nonneg. rewrite Z.land_ones by lia. apply Z.mod_pos_bound. lia. }
  split; [done|]. destruct (decide (field_set f v x = 0)) as [->|Hne]; [lia|].
  apply Z.log2_lt_pow2; [lia|]. apply Z.nle_gt. intros Hle.
  pose proof (Z.bit_log2 (field_set f v x) ltac:(lia)) as Hbit. rewrite field_set_testbit in Hbit by (done || apply Z.log2_nonneg).
  unfold in_field in Hbit. destruct (Z.ltb_spec (Z.log2 (field_set f v x)) (bf_off f + bf_width f)); [lia|].
  rewrite andb_false_r in Hbit. destruct (decide (x = 0)) as [->|]; [by rewrite Z.testbit_0_l in Hbit|].
  rewrite Z.bits_above_log2 in Hbit; [done|lia|].
  apply Z.lt_le_trans with n; [|done]. apply Z.log2_lt_pow2; lia.
Qed.

(** two fields side by side, the low one first, hold a number *)
Lemma field_join f g x : field_ok f -> field_ok g ->
  field_get f x + 2 ^ bf_width f * field_get g x = Z.lor (field_get f x) (Z.shiftl (field_get g x) (bf_width f)).
Proof.
  intros Hf Hg. pose proof Hf as [? ?]. rewrite Z.lor_comm, (lor_low _ _ (bf_width f)).
  - rewrite Z.shiftl_mul_pow2 by done. lia.
  - done.
  - rewrite Z.shiftl_mul_pow2 by done. apply Z.mod_mul. lia.
  - by apply field_get_range.
Qed.

(** words built by many assignments are compared as such before they are
    taken apart into bits *)
#[global] Strategy 50 [field_get field_set].

(** reading a field of a word built by assignments *)
Create HintDb fields.
Ltac field_side := first [done | (split; simpl; lia) | (unfold disjoint_fields; simpl; lia)].
Ltac fields :=
  repeat first
    [ rewrite field_get_set by field_side
    | rewrite field_get_set_ne by field_side ].
