(* ===== verification/Segments.v ===== *)
(** Segment descriptors and task state segments: [arch/x86/segments.c] and
    [segments.h].

    A descriptor is its 64-bit word, a field of the C structure a range of its
    bits; the decoding by the processor, after the architecture manual, is the
    specification. *)
From S2P Require Export Fields.

Definition SEG_GRANULARITY_BYTE : Z := 0.
Definition SEG_GRANULARITY_PAGE : Z := 1.
Definition SEG_OP_SIZE_32BIT : Z := 1.
Definition SEG_DATA : Z := 0x0.
Definition SEG_CODE : Z := 0x8.
Definition SEG_CODE_READ : Z := 0x2.
Definition SEG_DATA_WRITE : Z := 0x2.
Definition SEG_TASK_DESC : Z := 0x9.
Definition SEG_TABLE_GDT : Z := 0.
Definition MAX_CPUS : Z := 32.

(** ** The fields *)

(** [segment_desc_t] *)
Module Seg.
Definition limit_low := BF 0 16.
Definition base_low := BF 16 16.
Definition base_mid := BF 32 8.
Definition type := BF 40 4.
Definition is_data := BF 44 1.
Definition priv_level := BF 45 2.
Definition present := BF 47 1.
Definition limit_high := BF 48 4.
Definition is_longmode := BF 53 1.
Definition op_size := BF 54 1.
Definition granularity := BF 55 1.
Definition base_high := BF 56 8.
End Seg.

(** [task_state_desc_t] *)
Module Task.
Definition limit_low := BF 0 16.
Definition base_low := BF 16 24.
Definition type := BF 40 4.
Definition priv_level := BF 45 2.
Definition present := BF 47 1.
Definition limit_high := BF 48 4.
Definition granularity := BF 55 1.
Definition base_high := BF 56 8.
End Task.

(** the fields of [task_seg_t] that the kernel writes; its size *)
Record task_seg := TaskSeg {
  ts_esp_p0 : Z; ts_ss_p0 : Z;
  ts_es : Z; ts_cs : Z; ts_ss : Z; ts_ds : Z; ts_fs : Z; ts_gs : Z;
  ts_iomap_base : Z;
}.
Definition sizeof_task_seg : Z := 104.
Definition task_seg_zero : task_seg := TaskSeg 0 0 0 0 0 0 0 0 0.
Definition set_ts_esp_p0 (v : Z) (s : task_seg) : task_seg :=
  TaskSeg v (ts_ss_p0 s) (ts_es s) (ts_cs s) (ts_ss s) (ts_ds s) (ts_fs s) (ts_gs s) (ts_iomap_base s).

Definition selector (index table priv : Z) : Z :=
  w32 (Z.lor (Z.lor (Z.shiftl index 3) (Z.shiftl table 2)) priv) mod 2 ^ 16.
Definition ring (n : Z) : Z := n.

(** ** Building descriptors *)

Definition define_descriptor (base limit type privilege : Z) (desc : Z) : Z :=
  let desc := field_set Seg.limit_low limit desc in
  let desc := field_set Seg.limit_high (Z.shiftr limit 16) desc in
  let desc := field_set Seg.base_low base desc in
  let desc := field_set Seg.base_mid (Z.shiftr base 16) desc in
  let desc := field_set Seg.base_high (Z.shiftr base 24) desc in
  let desc := field_set Seg.granularity SEG_GRANULARITY_PAGE desc in
  let desc := field_set Seg.op_size SEG_OP_SIZE_32BIT desc in
  let desc := field_set Seg.present 1 desc in
  let desc := field_set Seg.is_data 1 desc in
  let desc := field_set Seg.is_longmode 0 desc in
  let desc := field_set Seg.type type desc in
  field_set Seg.priv_level privilege desc.

Definition define_task_descriptor (base limit : Z) (desc : Z) : Z :=
  let desc := field_set Task.base_low base desc in
  let desc := field_set Task.base_high (Z.shiftr base 24) desc in
  let desc := field_set Task.limit_low limit desc in
  let desc := field_set Task.limit_high (Z.shiftr limit 16) desc in
  let desc := field_set Task.present 1 desc in
  let desc := field_set Task.granularity SEG_GRANULARITY_BYTE desc in
  let desc := field_set Task.type SEG_TASK_DESC desc in
  field_set Task.priv_level (ring 0) desc.

Definition init_task_segment (seg : task_seg) : task_seg :=
  let ds := selector 4 SEG_TABLE_GDT (ring 3) in
  TaskSeg 0 (selector 2 SEG_TABLE_GDT (ring 0)) ds (selector 3 SEG_TABLE_GDT (ring 3)) ds ds ds ds 0xffff.

(** ** The tables *)

Record segments := Segments {
  sg_task_segments : list task_seg;
  sg_gdt : Z * Z;  (** limit and base *)
  sg_descripts : list Z;
  sg_gdtr : option (Z * Z);  (** of this processor: the table loaded *)
  sg_tr : option Z;  (** and its task register *)
}.

Section segments.
(** the processor; where the linker puts the tables *)
Context (sched_current_cpu : Z) (descripts_addr task_segments_addr : Z).

Abbreviation SEGS := (ST segments).

Definition desc_write (i : Z) (f : Z -> Z) : SEGS unit := fun s =>
  match sg_descripts s !! Z.to_nat i with
  | Some d => Some (tt, Segments (sg_task_segments s) (sg_gdt s) (<[Z.to_nat i := f d]> (sg_descripts s)) (sg_gdtr s) (sg_tr s))
  | None => None
  end.
Definition task_write (i : Z) (f : task_seg -> task_seg) : SEGS unit := fun s =>
  match sg_task_segments s !! Z.to_nat i with
  | Some d => Some (tt, Segments (<[Z.to_nat i := f d]> (sg_task_segments s)) (sg_gdt s) (sg_descripts s) (sg_gdtr s) (sg_tr s))
  | None => None
  end.

Definition kernel_stack_set (addr : Z) : SEGS unit := task_write sched_current_cpu (set_ts_esp_p0 (w32 addr)).
Definition kernel_stack_get : SEGS Z := fun s =>
  match sg_task_segments s !! Z.to_nat sched_current_cpu with Some d => Some (ts_esp_p0 d, s) | None => None end.

Definition load_gdt : SEGS unit :=
  modify (fun s => Segments (sg_task_segments s) (sg_gdt s) (sg_descripts s) (Some (sg_gdt s)) (sg_tr s)).
Definition load_tss (seg : Z) : SEGS unit :=
  modify (fun s => Segments (sg_task_segments s) (sg_gdt s) (sg_descripts s) (sg_gdtr s) (Some seg)).

(** the loop over the processors, [k] turns of which are left *)
Fixpoint init_tasks (k : nat) (i : Z) : SEGS unit :=
  match k with
  | O => mret tt
  | S k =>
      _ ← desc_write (5 + i)
            (define_task_descriptor (w32 (task_segments_addr + i * sizeof_task_seg)) sizeof_task_seg);
      _ ← task_write i init_task_segment;
      init_tasks k (i + 1)
  end.

Definition init_segment_descs : SEGS unit :=
  _ ← modify (fun s => Segments (replicate (Z.to_nat MAX_CPUS) task_seg_zero) (sg_gdt s)
                         (replicate (Z.to_nat (5 + MAX_CPUS)) 0) (sg_gdtr s) (sg_tr s));
  _ ← desc_write 1 (define_descriptor 0 0xfffff (Z.lor SEG_CODE SEG_CODE_READ) (ring 0));
  _ ← desc_write 2 (define_descriptor 0 0xfffff (Z.lor SEG_DATA SEG_DATA_WRITE) (ring 0));
  _ ← desc_write 3 (define_descriptor 0 0xfffff (Z.lor SEG_CODE SEG_CODE_READ) (ring 3));
  _ ← desc_write 4 (define_descriptor 0 0xfffff (Z.lor SEG_DATA SEG_DATA_WRITE) (ring 3));
  _ ← init_tasks (Z.to_nat MAX_CPUS) 0;
  _ ← modify (fun s => Segments (sg_task_segments s) ((5 + MAX_CPUS) * 8 - 1, w32 descripts_addr)
                         (sg_descripts s) (sg_gdtr s) (sg_tr s));
  _ ← load_gdt;
  load_tss (selector 5 SEG_TABLE_GDT (ring 0)).

Definition init_cpu_segment_descs (cpu_num : Z) : SEGS unit :=
  _ ← load_gdt;
  load_tss (selector (5 + sched_current_cpu) SEG_TABLE_GDT (ring 0)).
End segments.

(** ** What the processor reads *)

(** a descriptor as the manual lays it out *)
Record descriptor := Descriptor {
  d_base : Z; d_limit : Z; d_type : Z; d_system : bool; d_dpl : Z; d_present : bool;
  d_long : bool; d_big : bool; d_pages : bool;
}.
Definition bit (n x : Z) : bool := field_get (BF n 1) x =? 1.
Definition decode (x : Z) : descriptor := Descriptor
  (field_get (BF 16 24) x + 2 ^ 24 * field_get (BF 56 8) x)
  (field_get (BF 0 16) x + 2 ^ 16 * field_get (BF 48 4) x)
  (field_get (BF 40 4) x) (negb (bit 44 x)) (field_get (BF 45 2) x) (bit 47 x)
  (bit 53 x) (bit 54 x) (bit 55 x).

(** a wide field is two fields side by side *)
Lemma field_split o a b x : 0 <= o -> 0 <= a -> 0 <= b ->
  field_get (BF o (a + b)) x = field_get (BF o a) x + 2 ^ a * field_get (BF (o + a) b) x.
Proof.
  intros Ho Ha Hb. unfold field_get. cbn [bf_off bf_width]. rewrite !Z.land_ones by lia.
  rewrite <- Z.shiftr_shiftr by lia. rewrite (Z.shiftr_div_pow2 _ a) by lia.
  rewrite Z.pow_add_r by lia. rewrite Z.rem_mul_r by lia. lia.
Qed.

Lemma split_32_16 x : 0 <= x < 2 ^ 20 -> x mod 2 ^ 16 + 2 ^ 16 * (Z.shiftr x 16 mod 2 ^ 4) = x.
Proof. intros. rewrite Z.shiftr_div_pow2 by done. Z.to_euclidean_division_equations. lia. Qed.
Lemma split_32_24 x : 0 <= x < 2 ^ 32 -> x mod 2 ^ 24 + 2 ^ 24 * (Z.shiftr x 24 mod 2 ^ 8) = x.
Proof. intros. rewrite Z.shiftr_div_pow2 by done. Z.to_euclidean_division_equations. lia. Qed.
Lemma split_24_16 x : x mod 2 ^ 16 + 2 ^ 16 * (Z.shiftr x 16 mod 2 ^ 8) = x mod 2 ^ 24.
Proof. rewrite Z.shiftr_div_pow2 by done. Z.to_euclidean_division_equations. lia. Qed.

Lemma decode_segment base limit type privilege x :
  0 <= base < 2 ^ 32 -> 0 <= limit < 2 ^ 20 -> 0 <= type < 16 -> 0 <= privilege < 4 ->
  decode (define_descriptor base limit type privilege x) =
    Descriptor base limit type false privilege true false true true.
Proof.
  intros Hb Hl Ht Hp. unfold decode, bit. change (BF 16 24) with (BF 16 (16 + 8)). rewrite (field_split 16 16 8) by lia.
  change (16 + 16) with 32. unfold define_descriptor. cbn zeta.
  unfold Seg.limit_low, Seg.limit_high, Seg.base_low, Seg.base_mid, Seg.base_high,
    Seg.granularity, Seg.op_size, Seg.present, Seg.is_data, Seg.is_longmode, Seg.type, Seg.priv_level.
  fields. cbn [bf_width]. rewrite split_24_16, split_32_24, split_32_16 by done.
  rewrite !Z.mod_small by (change (2 ^ 4) with 16; change (2 ^ 2) with 4; lia). done.
Qed.

Lemma decode_task base limit x :
  0 <= base < 2 ^ 32 -> 0 <= limit < 2 ^ 20 -> x = 0 ->
  decode (define_task_descriptor base limit x) =
    Descriptor base limit SEG_TASK_DESC true 0 true false false false.
Proof.
  intros Hb Hl ->. unfold decode, bit. unfold define_task_descriptor, ring. cbn zeta.
  unfold Task.limit_low, Task.limit_high, Task.base_low, Task.base_high,
    Task.granularity, Task.present, Task.type, Task.priv_level.
  fields. cbn [bf_width]. rewrite split_32_24, split_32_16 by done. done.
Qed.

(** what a selector names *)
Record selects (descs : list Z) (sel : Z) (rpl : Z) (d : descriptor) : Prop := {
  sel_rpl : sel mod 4 = rpl;
  sel_gdt : Z.testbit sel 2 = false;
  sel_desc : decode <$> descs !! Z.to_nat (sel / 8) = Some d;
}.

(** flat segments of four gigabytes *)
Definition flat (type privilege : Z) : descriptor := Descriptor 0 0xfffff type false privilege true false true true.

Lemma init_tasks_run addr k : forall i s,
  0 <= i -> length (sg_descripts s) = 37%nat -> length (sg_task_segments s) = 32%nat -> i + Z.of_nat k <= 32 ->
  exists s', init_tasks addr k i s = Some (tt, s') /\
    length (sg_descripts s') = 37%nat /\ length (sg_task_segments s') = 32%nat /\
    (forall j, (j < 5 + Z.to_nat i)%nat -> sg_descripts s' !! j = sg_descripts s !! j) /\
    (forall j, (j < Z.to_nat i)%nat -> sg_task_segments s' !! j = sg_task_segments s !! j) /\
    (forall j, i <= j < i + Z.of_nat k ->
       sg_descripts s' !! Z.to_nat (5 + j) =
         define_task_descriptor (w32 (addr + j * sizeof_task_seg)) sizeof_task_seg <$> sg_descripts s !! Z.to_nat (5 + j) /\
       sg_task_segments s' !! Z.to_nat j = init_task_segment <$> sg_task_segments s !! Z.to_nat j) /\
    sg_gdt s' = sg_gdt s /\ sg_gdtr s' = sg_gdtr s /\ sg_tr s' = sg_tr s.
Proof.
  induction k as [|k IH]; intros i s Hi Hd Ht Hk.
  { exists s. split; [done|]. split_and!; try done. intros j Hj. lia. }
  cbn [init_tasks].
  destruct (lookup_lt_is_Some_2 (sg_descripts s) (Z.to_nat (5 + i)) ltac:(lia)) as [d Hdi].
  destruct (lookup_lt_is_Some_2 (sg_task_segments s) (Z.to_nat i) ltac:(lia)) as [t Hti].
  set (f := define_task_descriptor (w32 (addr + i * sizeof_task_seg)) sizeof_task_seg).
  set (s2 := Segments (<[Z.to_nat i := init_task_segment t]> (sg_task_segments s)) (sg_gdt s)
    (<[Z.to_nat (5 + i) := f d]> (sg_descripts s)) (sg_gdtr s) (sg_tr s)).
  assert (H1 : (_ ← desc_write (5 + i) f; task_write i init_task_segment) s = Some (tt, s2)).
  { unfold desc_write, task_write. rewrite ST_bind_eq, Hdi. simpl. by rewrite Hti. }
  apply ST_bind_Some in H1 as (u & s1 & H1 & H2). rewrite (ST_run _ _ _ _ _ H1), (ST_run _ _ _ _ _ H2).
  destruct (IH (i + 1) s2) as (s' & Hrun & Hd' & Ht' & Hdj & Htj & Hj & Hg & Hgr & Htr);
    [lia|simpl; by rewrite length_insert|simpl; by rewrite length_insert|lia|].
  exists s'. split; [exact Hrun|]. split; [done|]. split; [done|]. split; [|split; [|split; [|done]]].
  - intros j Hlt. rewrite Hdj by lia. simpl. apply list_lookup_insert_ne. lia.
  - intros j Hlt. rewrite Htj by lia. simpl. apply list_lookup_insert_ne. lia.
  - intros j Hlt. destruct (decide (j = i)) as [->|Hne].
    + rewrite Hdj, Htj by lia. simpl. rewrite !list_lookup_insert_eq by lia. by rewrite Hdi, Hti.
    + destruct (Hj j ltac:(lia)) as [-> ->]. simpl. by rewrite !list_lookup_insert_ne by lia.
Qed.

Lemma selector_eq index priv : 0 <= index < 2 ^ 13 -> 0 <= priv < 4 -> selector index SEG_TABLE_GDT priv = 8 * index + priv.
Proof.
  intros Hi Hp. unfold selector, SEG_TABLE_GDT. rewrite Z.shiftl_0_l, Z.lor_0_r, Z.shiftl_mul_pow2 by done.
  rewrite (lor_low _ _ 3) by (try done; change (2 ^ 3) with 8; try lia; by apply Z.mod_mul).
  change (2 ^ 13) with 8192 in Hi. change (2 ^ 3) with 8. rewrite w32_small by lia. rewrite Z.mod_small; [lia|]. change (2 ^ 16) with 65536. lia.
Qed.

Lemma selects_at descs sel i rpl x d :
  sel = 8 * i + rpl -> 0 <= i -> 0 <= rpl < 4 -> descs !! Z.to_nat i = Some x -> decode x = d ->
  selects descs sel rpl d.
Proof.
  intros -> Hi Hr Hx Hd. split.
  - replace (8 * i + rpl) with (rpl + (2 * i) * 4) by lia. rewrite Z.mod_add by done. by apply Z.mod_small.
  - assert (Hb : Z.testbit (8 * i + rpl) 2 = Z.odd ((8 * i + rpl) / 4)).
    { rewrite <- (Z.bit0_odd ((8 * i + rpl) / 4)). change 4 with (2 ^ 2). by rewrite Z.div_pow2_bits by lia. }
    rewrite Hb. replace ((8 * i + rpl) / 4) with (2 * i); [by rewrite Z.odd_mul|].
    apply Z.div_unique with rpl; lia.
  - replace ((8 * i + rpl) / 8) with i by (apply Z.div_unique with rpl; lia). rewrite Hx. by rewrite <- Hd.
Qed.

Lemma desc_write_run i f (ts : list task_seg) g ds gr tr d :
  ds !! Z.to_nat i = Some d ->
  desc_write i f (Segments ts g ds gr tr) = Some (tt, Segments ts g (<[Z.to_nat i := f d]> ds) gr tr).
Proof. intros Hd. unfold desc_write. simpl. by rewrite Hd. Qed.

(** the stack the processor [i] takes on entry to the kernel is named by its
    own task segment *)
Definition tss (addr i : Z) : descriptor :=
  Descriptor (addr + i * sizeof_task_seg) sizeof_task_seg SEG_TASK_DESC true 0 true false false false.

(** after [init_segment_descs] the processor has the table loaded, and the
    selectors the kernel uses name what they are meant to: 0x08 and 0x10 flat
    code and data of ring 0, 0x1b and 0x23 flat code and data of ring 3, and
    for each of the 32 processors a selector of ring 0 names its own task
    segment, whose ring 0 stack segment is 0x10. *)
Theorem init_segment_descs_spec descripts_addr addr s :
  0 <= addr -> addr + MAX_CPUS * sizeof_task_seg <= 2 ^ 32 ->
  exists s', init_segment_descs descripts_addr addr s = Some (tt, s') /\
    sg_gdtr s' = Some (295, w32 descripts_addr) /\ sg_tr s' = Some 0x28 /\
    sg_descripts s' !! 0%nat = Some 0 /\ length (sg_descripts s') = 37%nat /\
    selects (sg_descripts s') 0x08 0 (flat 0xa 0) /\ selects (sg_descripts s') 0x10 0 (flat 0x2 0) /\
    selects (sg_descripts s') 0x1b 3 (flat 0xa 3) /\ selects (sg_descripts s') 0x23 3 (flat 0x2 3) /\
    forall i, 0 <= i < MAX_CPUS ->
      selects (sg_descripts s') (selector (5 + i) SEG_TABLE_GDT (ring 0)) 0 (tss addr i) /\
      exists t, sg_task_segments s' !! Z.to_nat i = Some t /\ ts_ss_p0 t = 0x10 /\ ts_cs t = 0x1b /\ ts_ss t = 0x23.
Proof.
  intros Ha Hend. unfold MAX_CPUS, sizeof_task_seg in Hend.
  set (ds := <[4%nat := define_descriptor 0 0xfffff 2 3 0]> (<[3%nat := define_descriptor 0 0xfffff 0xa 3 0]>
    (<[2%nat := define_descriptor 0 0xfffff 2 0 0]> (<[1%nat := define_descriptor 0 0xfffff 0xa 0 0]> (replicate 37 0))))).
  set (s1 := Segments (replicate 32 task_seg_zero) (sg_gdt s) ds (sg_gdtr s) (sg_tr s)).
  destruct (init_tasks_run addr 32 0 s1) as (s2 & Hrun & Hd & Ht & Hdj & _ & Hj & _); [done|done|done|done|].
  assert (Hlow : forall j, (j < 5)%nat -> sg_descripts s2 !! j = ds !! j) by (intros j Hlt; by apply Hdj).
  assert (Hflat : forall type p, 0 <= type < 16 -> 0 <= p < 4 -> decode (define_descriptor 0 0xfffff type p 0) = flat type p).
  { intros. rewrite decode_segment by lia. reflexivity. }
  eexists. split.
  { unfold init_segment_descs. rewrite (ST_run (modify _) _ s tt (Segments (replicate 32 task_seg_zero) (sg_gdt s) (replicate 37 0) (sg_gdtr s) (sg_tr s))) by done.
    do 4 (erewrite ST_run by (apply desc_write_run with (d := 0); reflexivity)).
    change (init_tasks addr (Z.to_nat MAX_CPUS) 0) with (init_tasks addr 32 0).
    exact (ST_bind_intro _ _ _ _ _ _ Hrun eq_refl). }
  cbn [sg_gdtr sg_tr sg_descripts sg_task_segments]. split; [done|]. split; [done|].
  split; [by rewrite Hlow by lia|]. split; [done|].
  split; [eapply (selects_at _ _ 1); [done|lia|lia|rewrite Hlow by lia; reflexivity|apply Hflat; lia]|].
  split; [eapply (selects_at _ _ 2); [done|lia|lia|rewrite Hlow by lia; reflexivity|apply Hflat; lia]|].
  split; [eapply (selects_at _ _ 3); [done|lia|lia|rewrite Hlow by lia; reflexivity|apply Hflat; lia]|].
  split; [eapply (selects_at _ _ 4); [done|lia|lia|rewrite Hlow by lia; reflexivity|apply Hflat; lia]|].
  unfold MAX_CPUS. intros i Hi. destruct (Hj i ltac:(lia)) as [Hdi Hti].
  assert (Hz : ds !! Z.to_nat (5 + i) = Some 0).
  { unfold ds. rewrite !list_lookup_insert_ne by lia. apply lookup_replicate. split; [done|lia]. }
  simpl sg_descripts in Hdi. rewrite Hz in Hdi. split.
  - eapply (selects_at _ _ (5 + i)); [apply selector_eq; unfold ring; change (2 ^ 13) with 8192; lia|lia|unfold ring; lia|exact Hdi|].
    rewrite w32_small by (unfold sizeof_task_seg; lia).
    rewrite decode_task by (unfold sizeof_task_seg; lia). reflexivity.
  - exists (init_task_segment task_seg_zero). split; [|by split_and!].
    rewrite Hti. unfold s1. cbn [sg_task_segments]. by rewrite (lookup_replicate_2 32) by lia.
Qed.

(** the kernel stack of a processor is read back as it was set, and setting
    it touches neither the descriptors nor the task segment of another
    processor. *)
Theorem kernel_stack_roundtrip cpu addr s :
  0 <= cpu < Z.of_nat (length (sg_task_segments s)) ->
  exists s', kernel_stack_set cpu addr s = Some (tt, s') /\
    kernel_stack_get cpu s' = Some (w32 addr, s') /\ sg_descripts s' = sg_descripts s /\
    (forall i, i <> Z.to_nat cpu -> sg_task_segments s' !! i = sg_task_segments s !! i).
Proof.
  intros Hcpu. destruct (lookup_lt_is_Some_2 (sg_task_segments s) (Z.to_nat cpu) ltac:(lia)) as [t Ht].
  eexists. unfold kernel_stack_set, task_write, kernel_stack_get. rewrite Ht. split; [done|]. simpl.
  rewrite list_lookup_insert_eq by lia. split; [done|]. split; [done|]. intros i Hi. by apply list_lookup_insert_ne.
Qed.

(** a processor past the 32 task segments faults *)
Lemma kernel_stack_set_oob cpu addr s : length (sg_task_segments s) = 32%nat -> 32 <= cpu -> kernel_stack_set cpu addr s = None.
Proof. intros Hl Hc. unfold kernel_stack_set, task_write. by rewrite lookup_ge_None_2 by lia. Qed.

Definition ex_segments : segments := Segments (replicate 32 task_seg_zero) (0, 0) (replicate 37 0) None None.
Lemma init_segment_descs_spec_witness : exists s',
  init_segment_descs 0x120000 0x130000 ex_segments = Some (tt, s') /\ selects (sg_descripts s') 0x1b 3 (flat 0xa 3).
Proof.
  destruct (init_segment_descs_spec 0x120000 0x130000 ex_segments) as (s' & Hrun & _ & _ & _ & _ & _ & _ & Hsel & _).
  - lia.
  - unfold MAX_CPUS, sizeof_task_seg. lia.
  - exists s'. split; [exact Hrun|exact Hsel].
Defined.

Lemma kernel_stack_roundtrip_witness : exists s', kernel_stack_set 3 0xfd001000 ex_segments = Some (tt, s') /\
  kernel_stack_get 3 s' = Some (0xfd001000, s').
Proof.
  destruct (kernel_stack_roundtrip 3 0xfd001000 ex_segments) as (s' & Hrun & Hget & _); [simpl; lia|].
  exists s'. split; [exact Hrun|exact Hget].
Defined.
