(* ===== verification/Bitmap.v ===== *)
(** The bitmaps of [include/c4/klib/bitmap.h]: an array of 32-bit sections.
    The operations are the four inline functions; the array is a list of
    words, and an index past its end is a fault ([None]).  The lemmas relate
    them to the list of booleans [bm_bits], which is what the region and slab
    allocators reason about. *)
From S2P Require Export Prelude.

Definition BITMAP_BPS : Z := 32.
Definition BITMAP_ENT_FULL : Z := 0xffffffff.

Definition bitmap_get (bitmap : list Z) (i : Z) : option bool :=
  let bitindex := i / BITMAP_BPS in
  let offset := i mod BITMAP_BPS in
  w ← bitmap !! Z.to_nat bitindex;
  Some (negb (Z.land (Z.shiftr w offset) 1 =? 0)).

Definition bitmap_set (bitmap : list Z) (i : Z) : option (list Z) :=
  let bitindex := i / BITMAP_BPS in
  let offset := i mod BITMAP_BPS in
  bitvalue ← bitmap !! Z.to_nat bitindex;
  Some (<[Z.to_nat bitindex := Z.lor bitvalue (w32 (Z.shiftl 1 offset))]> bitmap).

Definition bitmap_unset (bitmap : list Z) (i : Z) : option (list Z) :=
  let bitindex := i / BITMAP_BPS in
  let offset := i mod BITMAP_BPS in
  bitvalue ← bitmap !! Z.to_nat bitindex;
  Some (<[Z.to_nat bitindex :=
            Z.land bitvalue (w32 (Z.lnot (Z.shiftl 1 offset)))]> bitmap).

(** the loop of [bitmap_first_free], from [i] on *)
Fixpoint bitmap_first_free_from (fuel : nat) (bitmap : list Z) (i limit : Z)
    : option Z :=
  match fuel with
  | O => None
  | S fuel =>
      if i <? limit then
        b ← bitmap_get bitmap i;
        if negb b then Some (i32 i)
        else bitmap_first_free_from fuel bitmap (w32 (i + 1)) limit
      else Some (-1)
  end.

Definition bitmap_first_free (bitmap : list Z) (limit : Z) : option Z :=
  bitmap_first_free_from (S (Z.to_nat limit)) bitmap 0 limit.

(** ** Abstraction to booleans *)

(** every section is a 32-bit value *)
Definition bm_wf (bitmap : list Z) : Prop :=
  Forall (fun w => 0 <= w < 2 ^ 32) bitmap.

(** bit [i] of the bitmap, [false] past its end *)
Definition bm_bit (bitmap : list Z) (i : nat) : bool :=
  match bitmap !! (i / 32)%nat with
  | Some w => Z.testbit w (Z.of_nat (i mod 32))
  | None => false
  end.

(** the first [n] bits *)
Definition bm_bits (bitmap : list Z) (n : nat) : list bool :=
  bm_bit bitmap <$> seq 0 n.

(** ** Lemmas *)

Lemma land_shiftr_1 w o :
  0 <= o -> negb (Z.land (Z.shiftr w o) 1 =? 0) = Z.testbit w o.
Proof.
  intros Ho. change 1 with (Z.ones 1). rewrite Z.land_ones by lia.
  rewrite <- Z.bit0_mod, Z.shiftr_spec by lia. replace (0 + o) with o by lia.
  by destruct (Z.testbit w o).
Qed.

Lemma w32_testbit x k : 0 <= k -> Z.testbit (w32 x) k = Z.testbit x k && (k <? 32).
Proof.
  intros Hk. unfold w32. rewrite Z.testbit_mod_pow2 by lia. apply andb_comm.
Qed.

Lemma shiftl1_testbit o k :
  0 <= o -> 0 <= k -> Z.testbit (Z.shiftl 1 o) k = (k =? o).
Proof.
  intros Ho Hk. rewrite Z.shiftl_spec by lia.
  destruct (Z.eqb_spec k o) as [->|Hne].
  - by rewrite Z.sub_diag.
  - destruct (decide (k < o)).
    + by rewrite Z.testbit_neg_r by lia.
    + by rewrite Z.bits_above_log2 by (simpl; lia).
Qed.

Lemma testbit_high w k : 0 <= w < 2 ^ 32 -> 32 <= k -> Z.testbit w k = false.
Proof.
  intros Hw Hk. destruct (decide (w = 0)) as [->|]; [apply Z.testbit_0_l|].
  apply Z.bits_above_log2; [lia|].
  apply Z.log2_lt_pow2; [lia|]. apply Z.lt_le_trans with (2 ^ 32); [lia|].
  by apply Z.pow_le_mono_r.
Qed.

Lemma range_of_testbit w :
  0 <= w -> (forall k, 32 <= k -> Z.testbit w k = false) -> w < 2 ^ 32.
Proof.
  intros Hw Hk. destruct (decide (w < 2 ^ 32)) as [|Hge]; [done|].
  assert (w <> 0) by lia.
  assert (32 <= Z.log2 w) by (apply Z.log2_le_pow2; lia).
  specialize (Hk (Z.log2 w) ltac:(done)). rewrite Z.bit_log2 in Hk by lia. done.
Qed.

Lemma lor_bit_testbit w o k :
  0 <= o < 32 -> 0 <= k ->
  Z.testbit (Z.lor w (w32 (Z.shiftl 1 o))) k = Z.testbit w k || (k =? o).
Proof.
  intros Ho Hk. rewrite Z.lor_spec, w32_testbit, shiftl1_testbit by lia.
  f_equal. destruct (Z.eqb_spec k o); simpl; [|done]. lia.
Qed.

Lemma land_notbit_testbit w o k :
  0 <= w < 2 ^ 32 -> 0 <= o < 32 -> 0 <= k ->
  Z.testbit (Z.land w (w32 (Z.lnot (Z.shiftl 1 o)))) k
  = Z.testbit w k && negb (k =? o).
Proof.
  intros Hw Ho Hk. rewrite Z.land_spec, w32_testbit, Z.lnot_spec, shiftl1_testbit by lia.
  destruct (decide (32 <= k)).
  - by rewrite (testbit_high w k).
  - replace (k <? 32) with true by lia. by rewrite andb_true_r.
Qed.

Lemma lor_bit_range w o :
  0 <= w < 2 ^ 32 -> 0 <= o < 32 -> 0 <= Z.lor w (w32 (Z.shiftl 1 o)) < 2 ^ 32.
Proof.
  intros Hw Ho. assert (0 <= Z.lor w (w32 (Z.shiftl 1 o))).
  { apply Z.lor_nonneg. split; [lia|]. apply w32_range. }
  split; [done|]. apply range_of_testbit; [done|]. intros k Hk.
  rewrite lor_bit_testbit, testbit_high by lia. lia.
Qed.

Lemma land_notbit_range w o :
  0 <= w < 2 ^ 32 -> 0 <= o < 32 ->
  0 <= Z.land w (w32 (Z.lnot (Z.shiftl 1 o))) < 2 ^ 32.
Proof.
  intros Hw Ho. assert (0 <= Z.land w (w32 (Z.lnot (Z.shiftl 1 o)))).
  { apply Z.land_nonneg. lia. }
  split; [done|]. apply range_of_testbit; [done|]. intros k Hk.
  by rewrite land_notbit_testbit, testbit_high by lia.
Qed.

Lemma idx_div (i : nat) : Z.to_nat (Z.of_nat i / BITMAP_BPS) = (i / 32)%nat.
Proof. unfold BITMAP_BPS. change 32 with (Z.of_nat 32). rewrite <- Nat2Z.inj_div. lia. Qed.

Lemma idx_mod (i : nat) : Z.of_nat i mod BITMAP_BPS = Z.of_nat (i mod 32).
Proof. unfold BITMAP_BPS. change 32 with (Z.of_nat 32). by rewrite <- Nat2Z.inj_mod. Qed.

Lemma idx_mod_lt (i : nat) : (i mod 32 < 32)%nat.
Proof. by apply Nat.mod_upper_bound. Qed.

Lemma idx_in_range (b : list Z) (i : nat) :
  (i < 32 * length b)%nat -> exists w, b !! (i / 32)%nat = Some w.
Proof.
  intros Hi. apply lookup_lt_is_Some. apply Nat.Div0.div_lt_upper_bound. lia.
Qed.

Lemma idx_decomp (i j : nat) :
  (i = j <-> (i / 32 = j / 32)%nat /\ (i mod 32 = j mod 32)%nat).
Proof.
  split; [by intros ->|]. intros [Hd Hm].
  rewrite (Nat.div_mod_eq i 32), (Nat.div_mod_eq j 32). by rewrite Hd, Hm.
Qed.

Lemma bitmap_get_bit (b : list Z) (i : nat) :
  (i < 32 * length b)%nat -> bitmap_get b (Z.of_nat i) = Some (bm_bit b i).
Proof.
  intros Hi. unfold bitmap_get, bm_bit. rewrite idx_div, idx_mod.
  destruct (idx_in_range b i Hi) as [w ->]. simpl. f_equal.
  apply land_shiftr_1. lia.
Qed.

Lemma bm_bit_insert (b : list Z) (i j : nat) w w' v :
  b !! (i / 32)%nat = Some w ->
  (forall k, (k < 32)%nat -> Z.testbit w' (Z.of_nat k) =
     if decide (k = i mod 32)%nat then v else Z.testbit w (Z.of_nat k)) ->
  bm_bit (<[(i / 32)%nat := w']> b) j = if decide (i = j) then v else bm_bit b j.
Proof.
  intros Hw Hk. unfold bm_bit.
  destruct (decide (i / 32 = j / 32)%nat) as [Hd|Hd].
  - rewrite <- Hd. rewrite list_lookup_insert_eq by (by eapply lookup_lt_Some).
    rewrite Hw, Hk by apply idx_mod_lt.
    destruct (decide (j mod 32 = i mod 32)%nat) as [Hm|Hm];
      destruct (decide (i = j)) as [Hij|Hij]; try done.
    + exfalso. apply Hij, idx_decomp. done.
    + exfalso. by subst.
  - rewrite list_lookup_insert_ne by done.
    destruct (decide (i = j)) as [->|]; [done|done].
Qed.

Lemma bm_wf_lookup b k w : bm_wf b -> b !! k = Some w -> 0 <= w < 2 ^ 32.
Proof. intros Hb Hw. by eapply Forall_lookup_1 in Hb. Qed.

Lemma bitmap_set_spec (b : list Z) (i : nat) :
  bm_wf b -> (i < 32 * length b)%nat ->
  exists b', bitmap_set b (Z.of_nat i) = Some b' /\ bm_wf b' /\
    length b' = length b /\
    forall j, bm_bit b' j = if decide (i = j) then true else bm_bit b j.
Proof.
  intros Hwf Hi. unfold bitmap_set. rewrite idx_div, idx_mod.
  destruct (idx_in_range b i Hi) as [w Hw]. rewrite Hw. simpl.
  pose proof (idx_mod_lt i). pose proof (bm_wf_lookup _ _ _ Hwf Hw).
  eexists; split_and!; [done| | |].
  - apply Forall_insert; [done|]. apply lor_bit_range; lia.
  - apply length_insert.
  - intros j. eapply bm_bit_insert; [done|]. intros k Hk.
    rewrite lor_bit_testbit by lia. case_decide; subst.
    + by rewrite Z.eqb_refl, orb_true_r.
    + rewrite (proj2 (Z.eqb_neq (Z.of_nat k) (Z.of_nat (i mod 32)))) by lia.
      apply orb_false_r.
Qed.

Lemma bitmap_unset_spec (b : list Z) (i : nat) :
  bm_wf b -> (i < 32 * length b)%nat ->
  exists b', bitmap_unset b (Z.of_nat i) = Some b' /\ bm_wf b' /\
    length b' = length b /\
    forall j, bm_bit b' j = if decide (i = j) then false else bm_bit b j.
Proof.
  intros Hwf Hi. unfold bitmap_unset. rewrite idx_div, idx_mod.
  destruct (idx_in_range b i Hi) as [w Hw]. rewrite Hw. simpl.
  pose proof (idx_mod_lt i). pose proof (bm_wf_lookup _ _ _ Hwf Hw).
  eexists; split_and!; [done| | |].
  - apply Forall_insert; [done|]. apply land_notbit_range; lia.
  - apply length_insert.
  - intros j. eapply bm_bit_insert; [done|]. intros k Hk.
    rewrite land_notbit_testbit by lia. case_decide; subst.
    + by rewrite Z.eqb_refl, andb_false_r.
    + rewrite (proj2 (Z.eqb_neq (Z.of_nat k) (Z.of_nat (i mod 32)))) by lia.
      apply andb_true_r.
Qed.

(** two bitmaps of the same length with the same bits are equal *)
Lemma bm_ext (b b' : list Z) :
  bm_wf b -> bm_wf b' -> length b = length b' ->
  (forall i, bm_bit b i = bm_bit b' i) -> b = b'.
Proof.
  intros Hw Hw' Hl Hb. apply list_eq. intros k.
  destruct (b !! k) as [w|] eqn:E, (b' !! k) as [w'|] eqn:E'; try done.
  - f_equal. apply Z.bits_inj'. intros n Hn.
    pose proof (bm_wf_lookup _ _ _ Hw E). pose proof (bm_wf_lookup _ _ _ Hw' E').
    destruct (decide (32 <= n)); [by rewrite !testbit_high by lia|].
    specialize (Hb (k * 32 + Z.to_nat n)%nat). unfold bm_bit in Hb.
    replace ((k * 32 + Z.to_nat n) / 32)%nat with k in Hb.
    2:{ rewrite Nat.div_add_l by lia. rewrite (Nat.div_small (Z.to_nat n)); lia. }
    replace ((k * 32 + Z.to_nat n) mod 32)%nat with (Z.to_nat n) in Hb.
    2:{ rewrite Nat.add_comm, Nat.Div0.mod_add, Nat.mod_small; lia. }
    rewrite E, E' in Hb. by rewrite Z2Nat.id in Hb by lia.
  - apply lookup_lt_Some in E. apply lookup_ge_None in E'. lia.
  - apply lookup_lt_Some in E'. apply lookup_ge_None in E. lia.
Qed.

Lemma bm_bits_lookup b n i :
  bm_bits b n !! i = if decide (i < n)%nat then Some (bm_bit b i) else None.
Proof.
  unfold bm_bits. rewrite list_lookup_fmap. case_decide.
  - by rewrite lookup_seq_lt by done.
  - by rewrite lookup_seq_ge by lia.
Qed.

Lemma bm_bits_length b n : length (bm_bits b n) = n.
Proof. unfold bm_bits. by rewrite length_fmap, length_seq. Qed.

Lemma bm_bits_insert b b' n i v :
  (i < n)%nat ->
  (forall j, bm_bit b' j = if decide (i = j) then v else bm_bit b j) ->
  bm_bits b' n = <[i := v]> (bm_bits b n).
Proof.
  intros Hi Hb. apply list_eq. intros j.
  destruct (decide (i = j)) as [->|Hne].
  - rewrite list_lookup_insert_eq by (by rewrite bm_bits_length).
    rewrite bm_bits_lookup, Hb. by rewrite !decide_True by done.
  - rewrite list_lookup_insert_ne, !bm_bits_lookup, Hb by done.
    by rewrite (decide_False (P := i = j)).
Qed.

Lemma bitmap_first_free_from_spec b n fuel i :
  (n <= 32 * length b)%nat -> Z.of_nat n < 2 ^ 31 ->
  (i <= n)%nat -> (n < fuel + i)%nat ->
  (forall j, (j < i)%nat -> bm_bit b j = true) ->
  (exists k, bitmap_first_free_from fuel b (Z.of_nat i) (Z.of_nat n)
     = Some (Z.of_nat k) /\ (k < n)%nat /\ bm_bit b k = false /\
     forall j, (j < k)%nat -> bm_bit b j = true) \/
  (bitmap_first_free_from fuel b (Z.of_nat i) (Z.of_nat n) = Some (-1) /\
   forall j, (j < n)%nat -> bm_bit b j = true).
Proof.
  intros Hlen Hn. revert i. induction fuel as [|fuel IH]; intros i Hi Hf Hj; [lia|].
  simpl. destruct (Z.ltb_spec (Z.of_nat i) (Z.of_nat n)) as [Hlt|Hge].
  - rewrite bitmap_get_bit by lia. simpl. destruct (bm_bit b i) eqn:Eb; simpl.
    + replace (w32 (Z.of_nat i + 1)) with (Z.of_nat (S i)) by (rewrite w32_small; lia).
      apply IH; [lia|lia|]. intros j Hj'.
      destruct (decide (j = i)) as [->|]; [done|]. apply Hj; lia.
    + left. exists i. rewrite i32_small by lia. split_and!; try done; lia.
  - right. split; [done|]. intros j Hj'. apply Hj. lia.
Qed.

(** the loop ends and returns the least clear bit below the limit, or -1 *)
Lemma bitmap_first_free_least (b : list Z) (n : nat) :
  (n <= 32 * length b)%nat -> Z.of_nat n < 2 ^ 31 ->
  (exists k, bitmap_first_free b (Z.of_nat n) = Some (Z.of_nat k) /\
     (k < n)%nat /\ bm_bit b k = false /\
     forall j, (j < k)%nat -> bm_bit b j = true) \/
  (bitmap_first_free b (Z.of_nat n) = Some (-1) /\
   forall j, (j < n)%nat -> bm_bit b j = true).
Proof.
  intros. unfold bitmap_first_free. apply (bitmap_first_free_from_spec b n _ 0); lia.
Qed.

Lemma bm_bits_all_true b n :
  (forall j, (j < n)%nat -> bm_bit b j = true) -> count_true (bm_bits b n) = n.
Proof.
  intros Hall. assert (bm_bits b n = replicate n true) as ->.
  { apply list_eq. intros j. rewrite bm_bits_lookup. case_decide.
    - rewrite Hall by done. by rewrite lookup_replicate_2.
    - symmetry. by apply lookup_replicate_None; lia. }
  clear. induction n; simpl; lia.
Qed.
