(* ===== verification/Strings.v ===== *)
(** The byte and string routines of [src/klib/string.c], and the search for a
    signature of [arch/x86/bios.c], over a memory of bytes.

    A byte that is not in the map is not readable nor writable, and touching it
    is a fault.  [char] is signed, as gcc has it on the i386.  A loop that may
    run past its data takes as fuel the number of bytes and one more: each turn
    reads a byte of its own. *)
From S2P Require Export Prelude.

Abbreviation bytes := (gmap Z Z).
Abbreviation MEM := (ST bytes).

Definition w8 (x : Z) : Z := x mod 2 ^ 8.
(** a [char] as a number *)
Definition i8 (x : Z) : Z := (x + 2 ^ 7) mod 2 ^ 8 - 2 ^ 7.

Definition load (p : Z) : MEM Z := fun m =>
  match m !! p with Some b => Some (b, m) | None => None end.
Definition store (p v : Z) : MEM unit := fun m =>
  match m !! p with Some _ => Some (tt, <[p := w8 v]> m) | None => None end.
Definition with_bytes {B} (f : nat -> MEM B) : MEM B := fun m => f (S (base.size m)) m.

(** the words of a packed structure, low byte first *)
Definition load16 (p : Z) : MEM Z :=
  a ← load p; b ← load (p + 1); mret (a + 2 ^ 8 * b).
Definition load32 (p : Z) : MEM Z :=
  a ← load16 p; b ← load16 (p + 2); mret (a + 2 ^ 16 * b).

(** ** The routines *)

Fixpoint memcpy_loop (k : nat) (to from i : Z) : MEM unit :=
  match k with
  | O => mret tt
  | S k =>
      b ← load (from + i);
      _ ← store (to + i) b;
      memcpy_loop k to from (i + 1)
  end.
Definition memcpy (dest src n : Z) : MEM Z :=
  _ ← memcpy_loop (Z.to_nat n) dest src 0;
  mret dest.

Fixpoint memset_loop (k : nat) (s c i : Z) : MEM unit :=
  match k with
  | O => mret tt
  | S k => _ ← store (s + i) c; memset_loop k s c (i + 1)
  end.
Definition memset (s c n : Z) : MEM Z :=
  _ ← memset_loop (Z.to_nat n) s c 0;
  mret s.

Fixpoint strlen_loop (fuel : nat) (s i : Z) : MEM Z :=
  match fuel with
  | O => fault
  | S fuel =>
      b ← load (s + i);
      if b =? 0 then mret i else strlen_loop fuel s (i + 1)
  end.
Definition strlen (s : Z) : MEM Z := with_bytes (fun fuel => strlen_loop fuel s 0).

Fixpoint strncpy_loop (fuel : nat) (dest src n i : Z) : MEM Z :=
  match fuel with
  | O => fault
  | S fuel =>
      if i <? w32 (n - 1) then
        b ← load (src + i);
        if b =? 0 then mret i
        else
          _ ← store (dest + i) b;
          strncpy_loop fuel dest src n (i + 1)
      else mret i
  end.
Definition strncpy (dest src n : Z) : MEM Z :=
  i ← with_bytes (fun fuel => strncpy_loop fuel dest src n 0);
  _ ← store (dest + i) 0;
  mret dest.

Fixpoint strncmp_loop (fuel : nat) (s1 s2 n i : Z) : MEM Z :=
  match fuel with
  | O => fault
  | S fuel =>
      if i <? n then
        a ← load s1;
        if a =? 0 then mret 0
        else
          b ← load s2;
          if b =? 0 then mret 0
          else
            x ← load (s1 + i);
            y ← load (s2 + i);
            if x =? y then strncmp_loop fuel s1 s2 n (i + 1)
            else if i8 x <? i8 y then mret (-1)
            else if i8 y <? i8 x then mret 1
            else strncmp_loop fuel s1 s2 n (i + 1)
      else mret 0
  end.
Definition strncmp (s1 s2 n : Z) : MEM Z := with_bytes (fun fuel => strncmp_loop fuel s1 s2 n 0).

(** ** The signature search *)

(** the comparison of [bios.c] *)
Fixpoint asdf_loop (k : nat) (a b n : Z) : MEM bool :=
  match k with
  | O => mret true
  | S k =>
      x ← load (a + n);
      y ← load (b + n);
      if negb (x =? y) then mret false else asdf_loop k a b (n + 1)
  end.
Definition asdf (a b size : Z) : MEM bool := asdf_loop (Z.to_nat size) a b 0.

Fixpoint find_bios_loop (k : nat) (s ptr n i : Z) : MEM Z :=
  match k with
  | O => mret NULL
  | S k =>
      if i + 3 <? n then
        same ← asdf s (ptr + i) 4;
        if (same : bool) then mret (ptr + i) else find_bios_loop k s ptr n (i + 1)
      else mret NULL
  end.
Definition find_bios_key (s mem n : Z) : MEM Z := find_bios_loop (Z.to_nat n) s mem n 0.

(** ** Bytes in memory *)

(** the bytes [l] are at [p] *)
Definition bytes_at (m : bytes) (p : Z) (l : list Z) : Prop :=
  forall i b, l !! i = Some b -> m !! (p + Z.of_nat i) = Some b.
(** the string [l], with its terminator *)
Definition cstring (m : bytes) (p : Z) (l : list Z) : Prop :=
  bytes_at m p (l ++ [0]) /\ Forall (fun b => b <> 0) l.

(** addresses [p] to [p + n] *)
Definition within (p n q : Z) : Prop := p <= q < p + n.

Lemma bytes_at_cons m p b l : bytes_at m p (b :: l) <-> m !! p = Some b /\ bytes_at m (p + 1) l.
Proof.
  split.
  - intros H. split.
    + specialize (H 0%nat b eq_refl). by rewrite Z.add_0_r in H.
    + intros i x Hx. specialize (H (S i) x Hx). replace (p + 1 + Z.of_nat i) with (p + Z.of_nat (S i)) by lia. done.
  - intros [H0 H] [|i] x Hx; simpl in Hx; simplify_eq.
    + by rewrite Z.add_0_r.
    + replace (p + Z.of_nat (S i)) with (p + 1 + Z.of_nat i) by lia. by apply H.
Qed.

Lemma bytes_at_nil m p : bytes_at m p [].
Proof. intros i b. by rewrite lookup_nil. Qed.

Lemma bytes_at_app m p l k : bytes_at m p (l ++ k) <-> bytes_at m p l /\ bytes_at m (p + Z.of_nat (length l)) k.
Proof.
  revert p. induction l as [|b l IH]; intros p; simpl app.
  - rewrite Z.add_0_r. split; [split; [apply bytes_at_nil|done]|by intros [_ ?]].
  - rewrite !bytes_at_cons, IH. simpl length. replace (p + Z.of_nat (S (length l))) with (p + 1 + Z.of_nat (length l)) by lia.
    tauto.
Qed.

Lemma bytes_at_same m m' p l :
  (forall q, within p (Z.of_nat (length l)) q -> m' !! q = m !! q) -> bytes_at m p l -> bytes_at m' p l.
Proof.
  intros Hq Hl i b Hb. rewrite Hq; [by apply Hl|]. apply lookup_lt_Some in Hb. unfold within. lia.
Qed.

Lemma load_ok m p b : m !! p = Some b -> load p m = Some (b, m).
Proof. unfold load. by intros ->. Qed.
Lemma store_ok m p v : is_Some (m !! p) -> store p v m = Some (tt, <[p := w8 v]> m).
Proof. unfold store. by intros [? ->]. Qed.

Lemma load16_eq p mem n : load16 p mem = Some (n, mem) <-> exists a b, mem !! p = Some a /\ mem !! (p + 1) = Some b /\ n = a + 2 ^ 8 * b.
Proof.
  unfold load16. rewrite !ST_bind_eq. unfold load. destruct (mem !! p) as [a|].
  - rewrite ST_bind_eq. destruct (mem !! (p + 1)) as [b|].
    + split; [intros [= <-]; by exists a, b|]. by intros (a' & b' & [= ->] & [= ->] & ->).
    + split; [done|]. by intros (a' & b' & _ & ? & _).
  - split; [done|]. by intros (a' & b' & ? & _).
Qed.

Lemma load32_ok p mem a b c d : bytes_at mem p [a; b; c; d] ->
  load32 p mem = Some (a + 2 ^ 8 * b + 2 ^ 16 * (c + 2 ^ 8 * d), mem).
Proof.
  intros H. repeat (apply bytes_at_cons in H as [? H]). unfold load32.
  rewrite (ST_run _ _ _ (a + 2 ^ 8 * b) mem) by (apply load16_eq; by exists a, b).
  rewrite (ST_run _ _ _ (c + 2 ^ 8 * d) mem); [done|]. apply load16_eq. exists c, d. split; [|split; [|done]].
  - by replace (p + 2) with (p + 1 + 1) by lia.
  - by replace (p + 2 + 1) with (p + 1 + 1 + 1) by lia.
Qed.

(** the readable bytes are no fewer than those of a block *)
Lemma bytes_at_size m p l : bytes_at m p l -> (length l <= base.size m)%nat.
Proof.
  intros Hl. rewrite <- size_dom.
  assert (Hlen : length ((fun i => p + Z.of_nat i) <$> seq 0 (length l)) = length l) by (rewrite length_fmap; apply length_seq).
  rewrite <- Hlen, <- (size_list_to_set (C := gset Z)).
  - apply subseteq_size. intros q. rewrite elem_of_list_to_set, elem_of_dom, list_elem_of_fmap.
    intros (i & -> & Hi). apply elem_of_seq in Hi. destruct (lookup_lt_is_Some_2 l i ltac:(lia)) as [b Hb].
    rewrite (Hl i b Hb). by eexists.
  - apply NoDup_fmap; [intros x y; lia|apply NoDup_seq].
Qed.

(** the bytes [p] to [p + n] may be written *)
Definition writable (m : bytes) (p n : Z) : Prop := forall q, within p n q -> is_Some (m !! q).
Definition is_byte (b : Z) : Prop := 0 <= b < 256.

(** [m'] is [m] with [l] written at [p] *)
Definition written (m m' : bytes) (p : Z) (l : list Z) : Prop :=
  bytes_at m' p l /\ (forall q, ~ within p (Z.of_nat (length l)) q -> m' !! q = m !! q).

Lemma written_nil m p : written m m p [].
Proof. split; [apply bytes_at_nil|done]. Qed.

(** one byte stored, then the rest *)
Lemma written_cons m m' p b l :
  is_byte b -> written (<[p := w8 b]> m) m' (p + 1) l -> written m m' p (b :: l).
Proof.
  intros Hb [Hl Ho]. unfold written, within in *. split.
  - rewrite bytes_at_cons. split; [|done]. rewrite Ho by lia. rewrite lookup_insert_eq. unfold w8.
    by rewrite Z.mod_small by apply Hb.
  - intros q Hq. simpl in Hq. rewrite Ho by lia. apply lookup_insert_ne. lia.
Qed.

Lemma writable_insert m p n q v : writable m p n -> writable (<[q := v]> m) p n.
Proof. intros H r Hr. rewrite lookup_insert. case_decide; [by eexists|by apply H]. Qed.
Lemma writable_tail m p n : 0 <= n -> writable m p (n + 1) -> writable m (p + 1) n.
Proof. intros Hn H q [? ?]. apply H. unfold within. lia. Qed.

Lemma memcpy_loop_ok k m to from i l :
  length l = k -> Forall is_byte l -> bytes_at m (from + i) l -> writable m (to + i) (Z.of_nat k) ->
  to <= from \/ from + i + Z.of_nat k <= to + i ->
  exists m', memcpy_loop k to from i m = Some (tt, m') /\ written m m' (to + i) l.
Proof.
  revert m i l. induction k as [|k IH]; intros m i [|b l] Hlen Hb Hl Hw Hd; try done.
  { exists m. split; [done|apply written_nil]. }
  apply bytes_at_cons in Hl as [H0 Hl]. apply Forall_cons in Hb as [Hb0 Hb]. cbn [memcpy_loop].
  rewrite (ST_run _ _ _ _ _ (load_ok _ _ _ H0)).
  rewrite (ST_run _ _ _ _ _ (store_ok m (to + i) b ltac:(apply Hw; unfold within; lia))).
  destruct (IH (<[to + i := w8 b]> m) (i + 1) l) as (m' & Hrun & Hw').
  - simpl in Hlen. lia.
  - done.
  - rewrite Z.add_assoc. eapply bytes_at_same; [|exact Hl]. intros q [? ?]. simpl in Hlen.
    apply lookup_insert_ne. lia.
  - rewrite Z.add_assoc. apply writable_tail; [lia|]. apply writable_insert.
    by replace (Z.of_nat k + 1) with (Z.of_nat (S k)) by lia.
  - lia.
  - exists m'. split; [exact Hrun|]. rewrite Z.add_assoc in Hw'. by apply written_cons.
Qed.

(** [memcpy] copies the bytes in order and returns the destination, also
    when the blocks overlap with the destination first; nothing else is
    written. *)
Theorem memcpy_spec m dest src n l :
  Z.of_nat (length l) = n -> Forall is_byte l -> bytes_at m src l -> writable m dest n ->
  dest <= src \/ src + n <= dest ->
  exists m', memcpy dest src n m = Some (dest, m') /\ written m m' dest l.
Proof.
  intros Hlen Hb Hl Hw Hd. destruct (memcpy_loop_ok (Z.to_nat n) m dest src 0 l) as (m' & Hrun & Hw').
  - lia.
  - done.
  - by rewrite Z.add_0_r.
  - rewrite Z.add_0_r. by rewrite Z2Nat.id by lia.
  - lia.
  - rewrite Z.add_0_r in Hw'. exists m'. split; [|done]. unfold memcpy. by rewrite (ST_run _ _ _ _ _ Hrun).
Qed.

Lemma memset_loop_ok k m s c i :
  writable m (s + i) (Z.of_nat k) ->
  exists m', memset_loop k s c i m = Some (tt, m') /\ written m m' (s + i) (replicate k (w8 c)).
Proof.
  assert (Hc : is_byte (w8 c)) by (unfold is_byte, w8; by apply Z.mod_pos_bound).
  revert m i. induction k as [|k IH]; intros m i Hw.
  { exists m. split; [done|apply written_nil]. }
  cbn [memset_loop]. rewrite (ST_run _ _ _ _ _ (store_ok m (s + i) c ltac:(apply Hw; unfold within; lia))).
  destruct (IH (<[s + i := w8 c]> m) (i + 1)) as (m' & Hrun & Hw').
  - rewrite Z.add_assoc. apply writable_tail; [lia|]. apply writable_insert.
    by replace (Z.of_nat k + 1) with (Z.of_nat (S k)) by lia.
  - exists m'. split; [exact Hrun|]. rewrite Z.add_assoc in Hw'. simpl. apply written_cons; [done|].
    replace (w8 (w8 c)) with (w8 c); [done|]. unfold w8. by rewrite Z.mod_mod.
Qed.

Lemma memset_ok m s c n :
  0 <= n -> writable m s n ->
  exists m', memset s c n m = Some (s, m') /\ written m m' s (replicate (Z.to_nat n) (w8 c)).
Proof.
  intros Hn Hw. destruct (memset_loop_ok (Z.to_nat n) m s c 0) as (m' & Hrun & Hw').
  - rewrite Z.add_0_r. by rewrite Z2Nat.id by lia.
  - rewrite Z.add_0_r in Hw'. exists m'. split; [|done]. unfold memset. by rewrite (ST_run _ _ _ _ _ Hrun).
Qed.

(** every byte of the memory is one *)
Definition mem_wf (m : bytes) : Prop := map_Forall (fun _ => is_byte) m.

Lemma mem_wf_check m : bool_decide (map_Forall (fun _ b => 0 <= b < 256) m) = true -> mem_wf m.
Proof. by intros H%bool_decide_eq_true. Qed.

(** a word read from bytes has 32 bits *)
Lemma load32_range m p v : mem_wf m -> load32 p m = Some (v, m) -> 0 <= v < 2 ^ 32.
Proof.
  intros Hwf H. unfold load32 in H. apply ST_bind_Some in H as (a & m1 & Ha & H).
  apply ST_bind_Some in H as (b & m2 & Hb & H). injection H as <- ->.
  assert (Hload : forall q x m', load16 q m = Some (x, m') -> m' = m /\ 0 <= x < 2 ^ 16).
  { intros q x m' Hq. unfold load16, load in Hq. rewrite !ST_bind_eq in Hq. destruct (m !! q) as [c|] eqn:Hc; [|done].
    rewrite ST_bind_eq in Hq. destruct (m !! (q + 1)) as [d|] eqn:Hd; [|done]. injection Hq as <- <-. split; [done|].
    pose proof (Hwf _ _ Hc) as Hcb. pose proof (Hwf _ _ Hd) as Hdb. unfold is_byte in *. simpl in *. lia. }
  apply Hload in Ha as [-> Ha]. apply Hload in Hb as [_ Hb]. lia.
Qed.

Lemma store_frame m p v m' u : store p v m = Some (u, m') -> mem_wf m ->
  mem_wf m' /\ forall q, q <> p -> m' !! q = m !! q.
Proof.
  unfold store. destruct (m !! p); [|done]. intros [= <- <-] Hm. split.
  - apply map_Forall_insert_2; [|done]. unfold is_byte, w8. by apply Z.mod_pos_bound.
  - intros q Hq. by apply lookup_insert_ne.
Qed.

Lemma load_frame m p b m' : load p m = Some (b, m') -> m' = m /\ m !! p = Some b.
Proof. unfold load. destruct (m !! p) eqn:E; [|done]. by intros [= <- <-]. Qed.

(** a computation that only reads *)
Definition read_only {B} (f : MEM B) : Prop := forall m b m', f m = Some (b, m') -> m' = m.
Create HintDb frame.
Lemma read_only_ret {B} (b : B) : read_only (mret b).
Proof. by intros m b' m' [= _ ->]. Qed.
Lemma read_only_bind {B C} (f : MEM B) (g : B -> MEM C) : read_only f -> (forall b, read_only (g b)) -> read_only (f ≫= g).
Proof.
  intros Hf Hg m c m' (b & s & H1 & H2)%ST_bind_Some. rewrite (Hg _ _ _ _ H2). by apply Hf in H1.
Qed.
Lemma read_only_load p : read_only (load p).
Proof. by intros m b m' [-> _]%load_frame. Qed.
Lemma read_only_if {B} (b : bool) (f g : MEM B) : read_only f -> read_only g -> read_only (if b then f else g).
Proof. by destruct b. Qed.
#[export] Hint Resolve read_only_ret read_only_bind read_only_load read_only_if : frame.
Lemma read_only_strncmp s1 s2 n : read_only (strncmp s1 s2 n).
Proof.
  intros m b m' H. unfold strncmp, with_bytes in H. revert H. generalize (S (base.size m)). intros fuel.
  enough (Hr : forall i, read_only (strncmp_loop fuel s1 s2 n i)) by apply Hr.
  induction fuel as [|fuel IH]; intros i; [by intros ? ? ? ?|]. cbn [strncmp_loop]. eauto 12 with frame.
Qed.
#[export] Hint Resolve read_only_strncmp : frame.

(** whether or not the blocks overlap, [memcpy] writes its destination only *)
Lemma memcpy_frame m dest src n r m' : memcpy dest src n m = Some (r, m') -> mem_wf m ->
  mem_wf m' /\ forall q, ~ within dest n q -> m' !! q = m !! q.
Proof.
  unfold memcpy. intros H Hm. apply ST_bind_Some in H as (u & s & Hl & [= <- <-]).
  assert (Hloop : forall k i s0 s u, memcpy_loop k dest src i s0 = Some (u, s) -> 0 <= i -> i + Z.of_nat k <= Z.max 0 n -> mem_wf s0 ->
    mem_wf s /\ forall q, ~ within dest n q -> s !! q = s0 !! q).
  { clear. induction k as [|k IH]; intros i s0 s u Hk Hi Hn Hw; cbn [memcpy_loop] in Hk; [by injection Hk as <- <-|].
    apply ST_bind_Some in Hk as (b & s1 & Hl & Hk). apply load_frame in Hl as [-> _].
    apply ST_bind_Some in Hk as (u1 & s2 & Hst & Hk). destruct (store_frame _ _ _ _ _ Hst Hw) as [Hw1 Hf1].
    destruct (IH (i + 1) _ _ _ Hk ltac:(lia) ltac:(lia) Hw1) as [Hw2 Hf2]. split; [done|].
    intros q Hq. rewrite Hf2 by done. apply Hf1. intros ->. apply Hq. unfold within. lia. }
  apply (Hloop _ _ _ _ _ Hl); [lia|lia|done].
Qed.

(** ** Strings *)

Lemma strlen_loop_ok fuel m s i l :
  bytes_at m (s + i) (l ++ [0]) -> Forall (fun b => b <> 0) l -> (length l < fuel)%nat ->
  strlen_loop fuel s i m = Some (i + Z.of_nat (length l), m).
Proof.
  revert i l. induction fuel as [|fuel IH]; intros i l Hl Hnz Hfuel; [lia|]. cbn [strlen_loop].
  destruct l as [|b l]; simpl app in Hl; apply bytes_at_cons in Hl as [H0 Hl];
    rewrite (ST_run _ _ _ _ _ (load_ok _ _ _ H0)).
  - simpl. unfold mret, ST_ret. do 2 f_equal. lia.
  - apply Forall_cons in Hnz as [Hb Hnz]. rewrite (proj2 (Z.eqb_neq b 0)) by done.
    rewrite (IH _ l); [|by rewrite Z.add_assoc|done|simpl in Hfuel; lia]. simpl. do 2 f_equal. lia.
Qed.

Lemma strlen_ok m s l : cstring m s l -> strlen s m = Some (Z.of_nat (length l), m).
Proof.
  intros [Hl Hnz]. unfold strlen, with_bytes. rewrite (strlen_loop_ok _ _ _ _ l); [done|by rewrite Z.add_0_r|done|].
  pose proof (bytes_at_size _ _ _ Hl) as Hsz. rewrite length_app in Hsz. simpl in Hsz. lia.
Qed.

(** what [strncpy] copies with [k] places left before the terminator *)
Lemma strncpy_loop_ok fuel m dest src n i l :
  bytes_at m (src + i) (l ++ [0]) -> Forall (fun b => b <> 0) l -> Forall is_byte l -> (length l < fuel)%nat ->
  let k := Z.to_nat (w32 (n - 1) - i) in
  writable m (dest + i) (Z.of_nat (length (take k l))) ->
  dest + i + Z.of_nat (length (take k l)) <= src + i \/ src + i + Z.of_nat (length l) + 1 <= dest + i ->
  exists m', strncpy_loop fuel dest src n i m = Some (i + Z.of_nat (length (take k l)), m') /\
    written m m' (dest + i) (take k l).
Proof.
  revert m i l. induction fuel as [|fuel IH]; intros m i l Hl Hnz Hb Hfuel k Hw Hd; [lia|].
  cbn [strncpy_loop]. destruct (Z.ltb_spec i (w32 (n - 1))).
  2: { assert (k = 0%nat) as -> by lia. rewrite take_0. exists m. split; [|apply written_nil].
       simpl. by rewrite Z.add_0_r. }
  assert (k = S (Z.to_nat (w32 (n - 1) - (i + 1)))) as Hk by lia.
  destruct l as [|b l]; simpl app in Hl; apply bytes_at_cons in Hl as [H0 Hl];
    rewrite (ST_run _ _ _ _ _ (load_ok _ _ _ H0)).
  { rewrite take_nil. exists m. split; [|apply written_nil]. simpl. by rewrite Z.add_0_r. }
  apply Forall_cons in Hnz as [Hbz Hnz]. apply Forall_cons in Hb as [Hb0 Hb].
  rewrite (proj2 (Z.eqb_neq b 0)) by done. rewrite Hk in *. simpl take in *. simpl length in Hw, Hd, Hfuel.
  rewrite (ST_run _ _ _ _ _ (store_ok m (dest + i) b ltac:(apply Hw; unfold within; lia))).
  set (tk := take _ l) in *.
  destruct (IH (<[dest + i := w8 b]> m) (i + 1) l) as (m' & Hrun & Hw').
  - rewrite Z.add_assoc. eapply bytes_at_same; [|exact Hl]. intros q [? Hq]. rewrite length_app in Hq. simpl in Hq.
    apply lookup_insert_ne. lia.
  - done.
  - done.
  - lia.
  - fold tk. rewrite Z.add_assoc. apply writable_tail; [lia|]. apply writable_insert.
    by replace (Z.of_nat (length tk) + 1) with (Z.of_nat (S (length tk))) by lia.
  - fold tk. lia.
  - fold tk in Hrun, Hw'. exists m'. split; [rewrite Hrun; simpl; do 2 f_equal; lia|].
    rewrite Z.add_assoc in Hw'. by apply written_cons.
Qed.

Lemma written_snoc m m1 p l b :
  is_byte b -> written m m1 p l -> written m (<[p + Z.of_nat (length l) := w8 b]> m1) p (l ++ [b]).
Proof.
  intros Hb [Hl Ho]. unfold written, within in *. split.
  - apply bytes_at_app. split.
    + eapply bytes_at_same; [|exact Hl]. intros q [? ?]. apply lookup_insert_ne. lia.
    + apply bytes_at_cons. split; [|apply bytes_at_nil]. rewrite lookup_insert_eq. unfold w8.
      by rewrite Z.mod_small by apply Hb.
  - intros q Hq. rewrite length_app in Hq. simpl in Hq. rewrite lookup_insert_ne by lia. apply Ho. lia.
Qed.

Lemma strncpy_any m dest src n l :
  cstring m src l -> Forall is_byte l ->
  let tk := take (Z.to_nat (w32 (n - 1))) l in
  writable m dest (Z.of_nat (length tk) + 1) ->
  dest + Z.of_nat (length tk) <= src \/ src + Z.of_nat (length l) + 1 <= dest ->
  exists m', strncpy dest src n m = Some (dest, m') /\ written m m' dest (tk ++ [0]).
Proof.
  intros [Hl Hnz] Hb tk Hw Hd. pose proof (bytes_at_size _ _ _ Hl) as Hsz. rewrite length_app in Hsz. simpl in Hsz.
  destruct (strncpy_loop_ok (S (base.size m)) m dest src n 0 l) as (m1 & Hrun & Hw1).
  - by rewrite Z.add_0_r.
  - done.
  - done.
  - lia.
  - rewrite Z.sub_0_r, Z.add_0_r. fold tk. intros q [? ?]. apply Hw. unfold within. lia.
  - rewrite Z.sub_0_r. fold tk. lia.
  - rewrite Z.sub_0_r, Z.add_0_r in *. fold tk in Hrun, Hw1.
    assert (Hs : is_Some (m1 !! (dest + Z.of_nat (length tk)))).
    { destruct Hw1 as [_ Ho]. rewrite Ho by (unfold within; lia). apply Hw. unfold within. lia. }
    exists (<[dest + Z.of_nat (length tk) := w8 0]> m1). split; [|by apply written_snoc].
    unfold strncpy. rewrite (ST_run (with_bytes _) _ _ _ _ Hrun). by rewrite (ST_run _ _ _ _ _ (store_ok m1 _ 0 Hs)).
Qed.

(** [strncpy] into a buffer of [n] bytes, [n] at least 1: the buffer then
    holds a terminated string, the source cut to [n - 1] bytes, and no byte
    outside the buffer is written. *)
Theorem strncpy_spec m dest src n l :
  1 <= n < 2 ^ 32 -> cstring m src l -> Forall is_byte l -> writable m dest n ->
  dest + n <= src \/ src + Z.of_nat (length l) + 1 <= dest ->
  exists m', strncpy dest src n m = Some (dest, m') /\
    cstring m' dest (take (Z.to_nat (n - 1)) l) /\
    forall q, ~ within dest n q -> m' !! q = m !! q.
Proof.
  intros Hn Hl Hb Hw Hd. pose proof (strncpy_any m dest src n l Hl Hb) as Hany. cbn zeta in Hany.
  rewrite w32_small in Hany by lia. set (tk := take _ l) in *.
  assert (Htk : Z.of_nat (length tk) <= n - 1) by (unfold tk; rewrite length_take; lia).
  destruct Hany as (m' & Hrun & Hw' & Ho).
  - intros q [? ?]. apply Hw. unfold within. lia.
  - lia.
  - exists m'. split; [exact Hrun|]. split; [split; [exact Hw'|]|].
    + destruct Hl as [_ Hnz]. by apply Forall_take.
    + intros q Hq. apply Ho. unfold within in *. rewrite length_app. simpl. lia.
Qed.

(** a size of 0 is no limit at all: [n - 1] wraps around, and the whole source
    is copied *)
Lemma strncpy_zero m dest src l :
  cstring m src l -> Forall is_byte l -> Z.of_nat (length l) < 2 ^ 32 - 1 ->
  writable m dest (Z.of_nat (length l) + 1) -> src + Z.of_nat (length l) + 1 <= dest ->
  exists m', strncpy dest src 0 m = Some (dest, m') /\ written m m' dest (l ++ [0]).
Proof.
  intros Hl Hb Hlen Hw Hd. pose proof (strncpy_any m dest src 0 l Hl Hb) as Hany. cbn zeta in Hany.
  rewrite take_ge in Hany by (change (w32 (0 - 1)) with (2 ^ 32 - 1); lia). apply Hany; [done|lia].
Qed.

(** ** Comparison *)

(** the comparison of the C standard, on signed characters: up to the first
    difference, the end of a string or the [n]th byte *)
Fixpoint compare_upto (n : nat) (l1 l2 : list Z) : Z :=
  match n with
  | O => 0
  | S n =>
      match l1, l2 with
      | [], [] => 0
      | [], y :: _ => if i8 0 <? i8 y then -1 else 1
      | x :: _, [] => if i8 x <? i8 0 then -1 else 1
      | x :: l1, y :: l2 => if x =? y then compare_upto n l1 l2 else if i8 x <? i8 y then -1 else 1
      end
  end.

Lemma i8_inj x y : is_byte x -> is_byte y -> i8 x = i8 y -> x = y.
Proof.
  unfold is_byte, i8. intros Hx Hy He.
  pose proof (Z.div_mod (x + 2 ^ 7) (2 ^ 8) ltac:(done)). pose proof (Z.div_mod (y + 2 ^ 7) (2 ^ 8) ltac:(done)).
  pose proof (Z.mod_pos_bound (x + 2 ^ 7) (2 ^ 8) ltac:(done)). pose proof (Z.mod_pos_bound (y + 2 ^ 7) (2 ^ 8) ltac:(done)).
  assert (0 <= (x + 2 ^ 7) / 2 ^ 8 <= 1 /\ 0 <= (y + 2 ^ 7) / 2 ^ 8 <= 1) by lia. lia.
Qed.

Lemma strncmp_loop_ok fuel m s1 s2 n i l1 l2 a b :
  m !! s1 = Some a -> a <> 0 -> m !! s2 = Some b -> b <> 0 ->
  bytes_at m (s1 + i) (l1 ++ [0]) -> bytes_at m (s2 + i) (l2 ++ [0]) ->
  Forall is_byte l1 -> Forall is_byte l2 -> Forall (fun b => b <> 0) l1 -> Forall (fun b => b <> 0) l2 ->
  l1 <> l2 \/ n - i <= Z.of_nat (length l1) + 1 -> (length l1 + 1 < fuel)%nat ->
  strncmp_loop fuel s1 s2 n i m = Some (compare_upto (Z.to_nat (n - i)) l1 l2, m).
Proof.
  intros Ha Ha0 Hb Hb0. revert i l1 l2. induction fuel as [|fuel IH]; intros i l1 l2 H1 H2 Hb1 Hb2 Hz1 Hz2 Hc Hfuel; [lia|].
  cbn [strncmp_loop]. destruct (Z.ltb_spec i n); [|by replace (Z.to_nat (n - i)) with 0%nat by lia].
  replace (Z.to_nat (n - i)) with (S (Z.to_nat (n - (i + 1)))) by lia. cbn [compare_upto].
  rewrite (ST_run _ _ _ _ _ (load_ok _ _ _ Ha)), (proj2 (Z.eqb_neq a 0)) by done.
  rewrite (ST_run _ _ _ _ _ (load_ok _ _ _ Hb)), (proj2 (Z.eqb_neq b 0)) by done.
  assert (Hdiff : forall x y, is_byte x -> is_byte y -> x <> y ->
    (if i8 x <? i8 y then mret (-1) else if i8 y <? i8 x then mret 1 else strncmp_loop fuel s1 s2 n (i + 1)) m =
    Some (if i8 x <? i8 y then -1 else 1, m)).
  { intros x y Hx Hy Hne. assert (i8 x <> i8 y) by (intros He; by apply Hne, i8_inj).
    destruct (Z.ltb_spec (i8 x) (i8 y)); [done|]. by rewrite (proj2 (Z.ltb_lt _ _)) by lia. }
  destruct l1 as [|x l1], l2 as [|y l2]; simpl app in H1, H2;
    apply bytes_at_cons in H1 as [Hx H1]; apply bytes_at_cons in H2 as [Hy H2];
    rewrite (ST_run _ _ _ _ _ (load_ok _ _ _ Hx)), (ST_run _ _ _ _ _ (load_ok _ _ _ Hy)).
  - rewrite Z.eqb_refl. destruct Hc as [?|Hc]; [done|]. simpl in Hc. destruct fuel as [|fuel]; [simpl in Hfuel; lia|].
    cbn [strncmp_loop]. by rewrite (proj2 (Z.ltb_ge (i + 1) n)) by lia.
  - apply Forall_cons in Hb2 as [Hyb _]. apply Forall_cons in Hz2 as [Hy0 _].
    rewrite (proj2 (Z.eqb_neq 0 y)) by done. apply Hdiff; [unfold is_byte; lia|done|done].
  - apply Forall_cons in Hb1 as [Hxb _]. apply Forall_cons in Hz1 as [Hx0 _].
    rewrite (proj2 (Z.eqb_neq x 0)) by done. apply Hdiff; [done|unfold is_byte; lia|done].
  - apply Forall_cons in Hb1 as [Hxb Hb1]. apply Forall_cons in Hb2 as [Hyb Hb2].
    apply Forall_cons in Hz1 as [_ Hz1]. apply Forall_cons in Hz2 as [_ Hz2].
    destruct (Z.eqb_spec x y) as [->|Hne]; [|by apply Hdiff].
    apply IH; rewrite ?Z.add_assoc; try done; simpl in *; [|lia].
    destruct Hc as [Hc|Hc]; [left; by intros ->|right; lia].
Qed.

(** [strncmp] agrees with the comparison of the C standard (on signed
    characters) for two strings that are not empty, if they differ or the
    length given does not reach past their terminator. *)
Theorem strncmp_compares m s1 s2 n l1 l2 :
  cstring m s1 l1 -> cstring m s2 l2 -> Forall is_byte l1 -> Forall is_byte l2 ->
  l1 <> [] -> l2 <> [] -> l1 <> l2 \/ n <= Z.of_nat (length l1) + 1 ->
  strncmp s1 s2 n m = Some (compare_upto (Z.to_nat n) l1 l2, m).
Proof.
  intros [H1 Hz1] [H2 Hz2] Hb1 Hb2 Hn1 Hn2 Hc. pose proof (bytes_at_size _ _ _ H1) as Hsz.
  rewrite length_app in Hsz. simpl in Hsz. destruct l1 as [|a l1], l2 as [|b l2]; try done.
  pose proof H1 as H1'. pose proof H2 as H2'. apply bytes_at_cons in H1' as [Ha _]. apply bytes_at_cons in H2' as [Hb _].
  apply Forall_cons in Hz1 as Hz1'. apply Forall_cons in Hz2 as Hz2'.
  unfold strncmp, with_bytes. rewrite (strncmp_loop_ok _ m s1 s2 n 0 (a :: l1) (b :: l2) a b);
    rewrite ?Z.add_0_r, ?Z.sub_0_r; try done; [by destruct Hz1'|by destruct Hz2'|lia].
Qed.

(** on [n] bytes each, no terminator needed: no difference is found when the
    blocks are the same, or when one of them starts with a 0 *)
Lemma strncmp_block_loop fuel m s1 s2 n i l1 l2 a b :
  m !! s1 = Some a -> a <> 0 -> m !! s2 = Some b -> b <> 0 ->
  bytes_at m (s1 + i) l1 -> bytes_at m (s2 + i) l2 -> Forall is_byte l1 -> Forall is_byte l2 ->
  Z.of_nat (length l1) = n - i -> length l2 = length l1 -> (length l1 < fuel)%nat ->
  exists r, strncmp_loop fuel s1 s2 n i m = Some (r, m) /\ (r = 0 <-> l1 = l2).
Proof.
  intros Ha Ha0 Hb Hb0. revert i l1 l2. induction fuel as [|fuel IH]; intros i l1 l2 H1 H2 Hb1 Hb2 Hn Hl Hfuel; [lia|].
  cbn [strncmp_loop]. destruct l1 as [|x l1], l2 as [|y l2]; try done.
  { simpl in Hn. rewrite (proj2 (Z.ltb_ge i n)) by lia. by exists 0. }
  simpl in Hn. rewrite (proj2 (Z.ltb_lt i n)) by lia.
  rewrite (ST_run _ _ _ _ _ (load_ok _ _ _ Ha)), (proj2 (Z.eqb_neq a 0)) by done.
  rewrite (ST_run _ _ _ _ _ (load_ok _ _ _ Hb)), (proj2 (Z.eqb_neq b 0)) by done.
  apply bytes_at_cons in H1 as [Hx H1]. apply bytes_at_cons in H2 as [Hy H2].
  rewrite (ST_run _ _ _ _ _ (load_ok _ _ _ Hx)), (ST_run _ _ _ _ _ (load_ok _ _ _ Hy)).
  apply Forall_cons in Hb1 as [Hxb Hb1]. apply Forall_cons in Hb2 as [Hyb Hb2].
  destruct (Z.eqb_spec x y) as [->|Hne].
  - destruct (IH (i + 1) l1 l2) as (r & Hrun & Hr); rewrite ?Z.add_assoc; simpl in *; try (done || lia).
    exists r. split; [exact Hrun|]. rewrite Hr. split; [by intros ->|by intros [= ->]].
  - assert (i8 x <> i8 y) by (intros He; by apply Hne, i8_inj).
    destruct (Z.ltb_spec (i8 x) (i8 y)).
    + exists (-1). split; [done|]. split; [done|congruence].
    + rewrite (proj2 (Z.ltb_lt _ _)) by lia. exists 1. split; [done|]. split; [done|congruence].
Qed.

Lemma strncmp_block m s1 s2 n l1 l2 :
  bytes_at m s1 l1 -> bytes_at m s2 l2 -> Forall is_byte l1 -> Forall is_byte l2 ->
  Z.of_nat (length l1) = n -> Z.of_nat (length l2) = n -> 0 < n ->
  exists r, strncmp s1 s2 n m = Some (r, m) /\ (r = 0 <-> hd 0 l1 = 0 \/ hd 0 l2 = 0 \/ l1 = l2).
Proof.
  intros H1 H2 Hb1 Hb2 Hn1 Hn2 Hn. pose proof (bytes_at_size _ _ _ H1) as Hsz.
  destruct l1 as [|a l1], l2 as [|b l2]; try (simpl in *; lia).
  pose proof H1 as [Ha _]%bytes_at_cons. pose proof H2 as [Hb _]%bytes_at_cons. cbn [hd].
  unfold strncmp, with_bytes. destruct (decide (a = 0 \/ b = 0)) as [Hz|[Ha0 Hb0]%Decidable.not_or].
  - exists 0. split; [|tauto]. cbn [strncmp_loop]. rewrite (proj2 (Z.ltb_lt 0 n)) by lia.
    rewrite (ST_run _ _ _ _ _ (load_ok _ _ _ Ha)). destruct (Z.eqb_spec a 0); [done|].
    rewrite (ST_run _ _ _ _ _ (load_ok _ _ _ Hb)). destruct (Z.eqb_spec b 0); [done|tauto].
  - destruct (strncmp_block_loop (S (base.size m)) m s1 s2 n 0 (a :: l1) (b :: l2) a b) as (r & Hrun & Hr);
      rewrite ?Z.add_0_r, ?Z.sub_0_r; try done; [simpl in *; lia|lia|].
    exists r. split; [exact Hrun|]. tauto.
Qed.

(** ** The signature search *)

Definition byte_eqb (l1 l2 : list Z) : bool := bool_decide (l1 = l2).

Lemma asdf_loop_ok k m a b n l1 l2 :
  length l1 = k -> length l2 = k -> bytes_at m (a + n) l1 -> bytes_at m (b + n) l2 ->
  asdf_loop k a b n m = Some (byte_eqb l1 l2, m).
Proof.
  revert n l1 l2. induction k as [|k IH]; intros n [|x l1] [|y l2] Hk1 Hk2 H1 H2; try done.
  apply bytes_at_cons in H1 as [Hx H1]. apply bytes_at_cons in H2 as [Hy H2]. cbn [asdf_loop].
  rewrite (ST_run _ _ _ _ _ (load_ok _ _ _ Hx)), (ST_run _ _ _ _ _ (load_ok _ _ _ Hy)). unfold byte_eqb in *.
  destruct (Z.eqb_spec x y) as [->|Hne]; cbn [negb].
  - rewrite (IH (n + 1) l1 l2) by (rewrite ?Z.add_assoc; simpl in *; (done || lia)).
    do 2 f_equal. apply bool_decide_ext. naive_solver.
  - rewrite bool_decide_false; [done|]. by intros [= ].
Qed.

(** the first of the places left where the signature is *)
Fixpoint first_match (sig l : list Z) : option Z :=
  match l with
  | [] => None
  | _ :: l' =>
      if (length sig <=? length l)%nat then
        if byte_eqb sig (take (length sig) l) then Some 0
        else i ← first_match sig l'; Some (i + 1)
      else None
  end.

Lemma find_bios_loop_ok k m s ptr n i sig l :
  length l = k -> Z.of_nat k = n - i -> length sig = 4%nat -> bytes_at m s sig -> bytes_at m (ptr + i) l ->
  find_bios_loop k s ptr n i m =
    Some (match first_match sig l with Some j => ptr + i + j | None => NULL end, m).
Proof.
  revert i l. induction k as [|k IH]; intros i [|b l] Hk Hn Hsig Hs Hl; try done.
  cbn [find_bios_loop first_match]. rewrite Hsig.
  destruct (Z.ltb_spec (i + 3) n) as [Hlt|Hge].
  - destruct (Nat.leb_spec 4 (length (b :: l))); [|simpl in *; lia].
    assert (Hcmp : asdf s (ptr + i) 4 m = Some (byte_eqb sig (take 4 (b :: l)), m)).
    { apply asdf_loop_ok; rewrite ?Z.add_0_r; [done| |done|].
      - rewrite length_take. lia.
      - rewrite <- (take_drop 4 (b :: l)) in Hl. by apply bytes_at_app in Hl as [? _]. }
    rewrite (ST_run _ _ _ _ _ Hcmp). destruct (byte_eqb _ _); [unfold mret, ST_ret; do 2 f_equal; lia|].
    apply bytes_at_cons in Hl as [_ Hl]. rewrite (IH (i + 1) l); [|simpl in *; lia|lia|done|done|by rewrite Z.add_assoc].
    destruct (first_match sig l); simpl; [|done]. do 2 f_equal. lia.
  - destruct (Nat.leb_spec 4 (length (b :: l))); [simpl in *; lia|done].
Qed.

Lemma first_match_spec sig l :
  sig <> [] ->
  match first_match sig l with
  | Some j =>
      0 <= j /\ take (length sig) (drop (Z.to_nat j) l) = sig /\
      forall i, 0 <= i < j -> take (length sig) (drop (Z.to_nat i) l) <> sig
  | None => forall i, 0 <= i -> take (length sig) (drop (Z.to_nat i) l) <> sig
  end.
Proof.
  intros Hsig. assert (Hlong : forall k, (length k < length sig)%nat -> take (length sig) k <> sig).
  { intros k Hk He. apply (f_equal length) in He. rewrite length_take in He. lia. }
  induction l as [|b l IH]; cbn [first_match].
  { intros i _. rewrite drop_nil. apply Hlong. destruct sig; [done|simpl; lia]. }
  destruct (Nat.leb_spec (length sig) (length (b :: l))) as [Hle|Hlt].
  2: { intros i _. apply Hlong. rewrite length_drop. lia. }
  unfold byte_eqb. case_bool_decide as He.
  { split; [done|]. split; [by rewrite drop_0|]. lia. }
  assert (Hstep : forall i, 0 < i -> drop (Z.to_nat i) (b :: l) = drop (Z.to_nat (i - 1)) l).
  { intros i Hi. replace (Z.to_nat i) with (S (Z.to_nat (i - 1))) by lia. done. }
  destruct (first_match sig l) as [j|]; simpl.
  - destruct IH as (Hj & Hm & Hf). split; [lia|]. rewrite Hstep by lia. replace (j + 1 - 1) with j by lia.
    split; [done|]. intros i Hi. destruct (decide (i = 0)) as [->|]; [by rewrite drop_0|].
    rewrite Hstep by lia. apply Hf. lia.
  - intros i Hi. destruct (decide (i = 0)) as [->|]; [by rewrite drop_0|]. rewrite Hstep by lia. apply IH. lia.
Qed.

(** the search for the four bytes of a signature in a block of memory ends,
    and gives the first address at which they are, or NULL when they are
    nowhere in the block: what a scan of the list of bytes gives. *)
Theorem find_bios_key_spec m s mem sig l n :
  length sig = 4%nat -> bytes_at m s sig -> bytes_at m mem l -> n = Z.of_nat (length l) -> mem <> NULL ->
  exists r, find_bios_key s mem n m = Some (r, m) /\
    (r = NULL /\ (forall i, 0 <= i -> take 4 (drop (Z.to_nat i) l) <> sig) \/
     exists j, r = mem + j /\ 0 <= j /\ bytes_at m r sig /\
       forall i, 0 <= i < j -> take 4 (drop (Z.to_nat i) l) <> sig).
Proof.
  intros Hsig Hs Hl -> _. unfold find_bios_key. rewrite Nat2Z.id.
  rewrite (find_bios_loop_ok _ m s mem _ 0 sig l) by (rewrite ?Z.add_0_r; (done || lia)).
  pose proof (first_match_spec sig l ltac:(by intros ->)) as Hspec. rewrite Hsig in Hspec.
  destruct (first_match sig l) as [j|].
  - eexists. split; [done|]. right. exists j. destruct Hspec as (Hj & Hm & Hf). split; [lia|]. split; [done|].
    split; [|done]. rewrite Z.add_0_r. rewrite <- (take_drop (Z.to_nat j) l) in Hl. apply bytes_at_app in Hl as [_ Hl].
    rewrite <- (take_drop 4 (drop _ l)), Hm in Hl. apply bytes_at_app in Hl as [Hl _].
    rewrite length_take in Hl. assert (j < Z.of_nat (length l)).
    { apply Z.nle_gt. intros Hle. rewrite drop_ge in Hm by lia. by rewrite take_nil in Hm; subst sig. }
    by replace (mem + j) with (mem + Z.of_nat (Z.to_nat j `min` length l)) by lia.
  - eexists. split; [done|]. by left.
Qed.

(** ** On concrete memories *)

(** a memory with the bytes of the lists at the addresses given *)
Definition mem_of (blocks : list (Z * list Z)) : bytes :=
  list_to_map (blocks ≫= (fun '(p, l) => imap (fun i b => (p + Z.of_nat i, b)) l)).
Lemma bytes_at_check m p l :
  Forall (fun i => m !! (p + Z.of_nat i) = l !! i) (seq 0 (length l)) -> bytes_at m p l.
Proof.
  rewrite Forall_forall. intros H i b Hb. rewrite H; [done|]. apply elem_of_seq. apply lookup_lt_Some in Hb. lia.
Qed.
Lemma writable_check m p n :
  Forall (fun i => is_Some (m !! (p + Z.of_nat i))) (seq 0 (Z.to_nat n)) -> writable m p n.
Proof.
  rewrite Forall_forall. intros H q [? ?]. replace q with (p + Z.of_nat (Z.to_nat (q - p))) by lia.
  apply H, elem_of_seq. lia.
Qed.
Ltac mem_vm := first [apply bytes_at_check | apply writable_check | idtac]; decide_vm.

(** "hello" at 0x100, and 4 bytes at 0x200 *)
Definition ex_mem : bytes := mem_of [(0x100, [104; 101; 108; 108; 111; 0]); (0x200, [9; 9; 9; 9])].

Lemma memcpy_spec_witness : exists m', memcpy 0x200 0x101 4 ex_mem = Some (0x200, m') /\ bytes_at m' 0x200 [101; 108; 108; 111].
Proof.
  destruct (memcpy_spec ex_mem 0x200 0x101 4 [101; 108; 108; 111]) as (m' & Hrun & Hw & _).
  - done.
  - unfold is_byte. repeat constructor; lia.
  - mem_vm.
  - mem_vm.
  - lia.
  - by exists m'.
Defined.

Lemma ex_hello : cstring ex_mem 0x100 [104; 101; 108; 108; 111].
Proof. split; [mem_vm|]. repeat constructor; lia. Qed.

Lemma strncpy_spec_witness : exists m', strncpy 0x200 0x100 4 ex_mem = Some (0x200, m') /\ cstring m' 0x200 [104; 101; 108].
Proof.
  destruct (strncpy_spec ex_mem 0x200 0x100 4 [104; 101; 108; 108; 111]) as (m' & Hrun & Hc & _).
  - lia.
  - apply ex_hello.
  - unfold is_byte. repeat constructor; lia.
  - mem_vm.
  - right. simpl. lia.
  - by exists m'.
Defined.

Definition ex_two : bytes := mem_of [(0x100, [73; 83; 65; 0]); (0x200, [80; 67; 73; 0])].
Lemma strncmp_compares_witness : strncmp 0x100 0x200 3 ex_two = Some (-1, ex_two).
Proof.
  refine (strncmp_compares ex_two 0x100 0x200 3 [73; 83; 65] [80; 67; 73] _ _ _ _ _ _ _).
  - split; [mem_vm|]. repeat constructor; lia.
  - split; [mem_vm|]. repeat constructor; lia.
  - unfold is_byte. repeat constructor; lia.
  - unfold is_byte. repeat constructor; lia.
  - done.
  - done.
  - by left.
Defined.

(** the ends of the strings do not stop the comparison: two equal strings are
    told apart by what follows them *)
Lemma strncmp_reads_past :
  strncmp 0x100 0x200 4 (mem_of [(0x100, [97; 0; 120; 0]); (0x200, [97; 0; 121; 0])]) =
    Some (-1, mem_of [(0x100, [97; 0; 120; 0]); (0x200, [97; 0; 121; 0])]) /\
  compare_upto 4 [97] [97] = 0.
Proof. split; reflexivity. Qed.

(** and an empty string is equal to any other *)
Lemma strncmp_empty m s1 s2 n : m !! s1 = Some 0 -> strncmp s1 s2 n m = Some (0, m).
Proof.
  intros H1. unfold strncmp, with_bytes. cbn [strncmp_loop]. destruct (0 <? n); [|done].
  by rewrite (ST_run _ _ _ _ _ (load_ok _ _ _ H1)).
Qed.

(** "_MP_" in a block *)
Definition ex_bios : bytes := mem_of [(0x10, [95; 77; 80; 95]); (0x1000, [95; 95; 77; 80; 95; 1; 2])].
Lemma find_bios_key_spec_witness : find_bios_key 0x10 0x1000 7 ex_bios = Some (0x1001, ex_bios).
Proof.
  destruct (find_bios_key_spec ex_bios 0x10 0x1000 [95; 77; 80; 95] [95; 95; 77; 80; 95; 1; 2] 7)
    as (r & Hrun & [[-> Hno]|(j & -> & Hj & Hat & Hfirst)]).
  - done.
  - mem_vm.
  - mem_vm.
  - done.
  - done.
  - exfalso. by apply (Hno 1).
  - rewrite Hrun. do 2 f_equal. destruct (Z.lt_trichotomy j 1) as [Hlt|[->|Hgt]]; [|done|].
    + exfalso. assert (j = 0) as -> by lia. specialize (Hat 1%nat 77 eq_refl). vm_compute in Hat. done.
    + exfalso. by apply (Hfirst 1).
Defined.
