(* ===== verification/Print.v ===== *)
(** The debug printer of [src/debug.c]: numbers in any base, strings and the
    formats of [debug_printf], as what they put on the serial line.

    A string is the array of its characters with the terminator; reading past
    the array is a fault, as is writing past the 33 places of the digit stack. *)
From S2P Require Export Prelude.

(** the characters put out so far *)
Abbreviation PRINT := (ST (list Z)).

Definition debug_putchar (c : Z) : PRINT unit := modify (fun out => out ++ [c]).

(** "0123456789abcdef" and its prefixes *)
Definition hexadecimal : list Z := [48; 49; 50; 51; 52; 53; 54; 55; 56; 57; 97; 98; 99; 100; 101; 102].
Definition decimal : list Z := [48; 49; 50; 51; 52; 53; 54; 55; 56; 57].
Definition binary : list Z := [48; 49].

(** [str[ i ]] *)
Definition char_at (str : list Z) (i : nat) : PRINT Z := lift_opt (str !! i).

Fixpoint debug_puts_loop (fuel : nat) (str : list Z) (i : nat) : PRINT unit :=
  match fuel with
  | O => fault
  | S fuel =>
      c ← char_at str i;
      if c =? 0 then mret tt
      else _ ← debug_putchar c; debug_puts_loop fuel str (S i)
  end.
Definition debug_puts (str : list Z) : PRINT unit := debug_puts_loop (S (length str)) str 0.

(** the digits, the last one first, in an array of 33 *)
Fixpoint stack_digits (fuel : nat) (n : Z) (base_str stack : list Z) : PRINT (list Z) :=
  match fuel with
  | O => fault
  | S fuel =>
      if n =? 0 then mret stack
      else
        d ← char_at base_str (Z.to_nat (n mod Z.of_nat (length base_str)));
        if (length stack <? 33)%nat then
          stack_digits fuel (n / Z.of_nat (length base_str)) base_str (stack ++ [d])
        else fault
  end.
Fixpoint unstack (i : nat) (stack : list Z) : PRINT unit :=
  match i with
  | O => mret tt
  | S i =>
      c ← char_at stack i;
      _ ← debug_putchar c;
      unstack i stack
  end.

(** [base_str] without its terminator: its length is what [strlen] gives *)
Definition debug_print_num (n : Z) (base_str : list Z) : PRINT unit :=
  if (n =? 0) || (length base_str =? 0)%nat then debug_putchar 48
  else
    stack ← stack_digits 34 n base_str [];
    unstack (length stack) stack.

(** ** Formats *)

Inductive arg := ANum (n : Z) | AStr (s : list Z).

Definition va_num (args : list arg) : PRINT (Z * list arg) := lift_opt
  match args with ANum n :: args => Some (n, args) | _ => None end.
Definition va_str (args : list arg) : PRINT (list Z * list arg) := lift_opt
  match args with AStr s :: args => Some (s, args) | _ => None end.

(** what follows a '%': the arguments left *)
Definition debug_format (d : Z) (args : list arg) : PRINT (list arg) :=
  if d =? 115 then '(s, args) ← va_str args; _ ← debug_puts s; mret args
  else if d =? 117 then '(n, args) ← va_num args; _ ← debug_print_num n decimal; mret args
  else if d =? 120 then '(n, args) ← va_num args; _ ← debug_print_num n hexadecimal; mret args
  else if d =? 98 then '(n, args) ← va_num args; _ ← debug_print_num n binary; mret args
  else if d =? 112 then
    _ ← debug_puts [48; 120; 0];
    '(n, args) ← va_num args; _ ← debug_print_num n hexadecimal; mret args
  else mret args.

Fixpoint debug_printf_loop (fuel : nat) (format : list Z) (i : nat) (args : list arg) : PRINT unit :=
  match fuel with
  | O => fault
  | S fuel =>
      c ← char_at format i;
      if c =? 0 then mret tt
      else if c =? 37 then
        d ← char_at format (S i);
        args ← debug_format d args;
        debug_printf_loop fuel format (S (S i)) args
      else
        _ ← debug_putchar c;
        debug_printf_loop fuel format (S i) args
  end.
Definition debug_printf (format : list Z) (args : list arg) : PRINT unit :=
  debug_printf_loop (S (length format)) format 0 args.

(** ** Numbers *)

(** the value of a digit, and of a row of them *)
Definition digit_value (base_str : list Z) (c : Z) : option Z :=
  '(i, _) ← list_find (fun x => x = c) base_str; Some (Z.of_nat i).
Definition parse_num (base_str out : list Z) : option Z :=
  foldl (fun v c => v ← v; d ← digit_value base_str c; Some (v * Z.of_nat (length base_str) + d)) (Some 0) out.

Lemma parse_snoc base_str out c :
  parse_num base_str (out ++ [c]) =
  (v ← parse_num base_str out; d ← digit_value base_str c; Some (v * Z.of_nat (length base_str) + d)).
Proof. unfold parse_num. by rewrite foldl_app. Qed.

Lemma digit_value_at base_str i c :
  NoDup base_str -> base_str !! i = Some c -> digit_value base_str c = Some (Z.of_nat i).
Proof.
  intros Hnd Hi. unfold digit_value.
  assert (Hf : list_find (fun x => x = c) base_str = Some (i, c)).
  { apply list_find_Some. split; [done|]. split; [done|]. intros j y Hj Hlt ->.
    pose proof (NoDup_lookup _ _ _ _ Hnd Hj Hi). lia. }
  by rewrite Hf.
Qed.

Lemma unstack_ok stack out : forall k, (k <= length stack)%nat ->
  unstack k stack out = Some (tt, out ++ reverse (take k stack)).
Proof.
  intros k. revert out. induction k as [|k IH]; intros out Hk.
  - by rewrite take_0, app_nil_r.
  - destruct (lookup_lt_is_Some_2 stack k ltac:(lia)) as [c Hc]. cbn [unstack].
    rewrite (ST_run _ _ _ c out) by (unfold char_at, lift_opt; by rewrite Hc).
    rewrite (ST_run _ _ _ tt (out ++ [c])) by done. rewrite IH by lia.
    by rewrite (take_S_r _ _ _ Hc), reverse_app, <- app_assoc.
Qed.

(** the digits of [n], the last one first *)
Lemma stack_digits_ok (base_str : list Z) fuel k n stack out :
  (2 <= length base_str)%nat -> NoDup base_str -> 0 <= n < 2 ^ Z.of_nat k -> (k < fuel)%nat ->
  (length stack + k <= 33)%nat ->
  exists ds, stack_digits fuel n base_str stack out = Some (stack ++ ds, out) /\
    (length ds <= k)%nat /\ parse_num base_str (reverse ds) = Some n /\
    (n <> 0 -> exists c, last ds = Some c /\ Some c <> base_str !! 0%nat).
Proof.
  intros Hlen Hnd. revert fuel n stack. induction k as [|k IH]; intros fuel n stack Hn Hfuel Hst;
    (destruct fuel as [|fuel]; [lia|]); cbn [stack_digits].
  { assert (n = 0) as -> by lia. exists []. rewrite app_nil_r. split_and!; done. }
  destruct (Z.eqb_spec n 0) as [->|Hn0].
  { exists []. rewrite app_nil_r. split_and!; [done|simpl; lia|done|done]. }
  set (B := Z.of_nat (length base_str)). assert (HB : 2 <= B) by lia.
  pose proof (Z.mod_pos_bound n B ltac:(lia)) as Hmod. pose proof (Z.div_mod n B ltac:(lia)) as Hdm.
  destruct (lookup_lt_is_Some_2 base_str (Z.to_nat (n mod B)) ltac:(lia)) as [d Hd].
  rewrite (ST_run _ _ _ d out) by (unfold char_at, lift_opt; fold B; by rewrite Hd).
  destruct (Nat.ltb_spec (length stack) 33); [|lia].
  assert (Hq : 0 <= n / B < 2 ^ Z.of_nat k).
  { split; [apply Z.div_pos; lia|]. apply Z.div_lt_upper_bound; [lia|].
    rewrite Nat2Z.inj_succ, Z.pow_succ_r in Hn by lia. nia. }
  destruct (IH fuel (n / B) (stack ++ [d]) Hq) as (ds & Hrun & Hk & Hp & Hlast); [lia|rewrite length_app; simpl; lia|].
  exists (d :: ds). fold B in Hrun. rewrite Hrun, <- app_assoc. split; [done|]. split; [simpl; lia|].
  rewrite reverse_cons, parse_snoc, Hp. cbn [mbind option_bind].
  rewrite (digit_value_at base_str _ d Hnd Hd). cbn [mbind option_bind]. fold B. split; [do 2 f_equal; lia|].
  intros _. destruct (decide (n / B = 0)) as [H0|H0].
  - assert (ds = []) as ->.
    { destruct ds as [|c ds]; [done|]. exfalso. rewrite H0 in Hrun. destruct fuel as [|fuel]; [lia|].
      cbn [stack_digits] in Hrun. rewrite Z.eqb_refl in Hrun. injection Hrun as Hrun.
      apply (f_equal length) in Hrun. rewrite !length_app in Hrun. simpl in Hrun. lia. }
    exists d. split; [done|]. intros He. rewrite <- Hd in He. symmetry in He.
    assert (base_str !! 0%nat = Some d) as H0d by (by rewrite He, Hd).
    pose proof (NoDup_lookup _ _ _ _ Hnd H0d Hd). lia.
  - destruct (Hlast H0) as (c & Hc & Hne). exists c. split; [|done]. destruct ds; [done|]. exact Hc.
Qed.

(** printing a number and reading the characters back gives the number, in
    every base of at least two distinct digits: the 33 places of the digit
    stack are enough for a 32-bit number, the loop ends, the digits come out
    most significant first and without a leading zero. *)
Theorem debug_print_num_roundtrip n base_str out :
  0 <= n < 2 ^ 32 -> (2 <= length base_str)%nat -> NoDup base_str -> base_str !! 0%nat = Some 48 ->
  exists ds, debug_print_num n base_str out = Some (tt, out ++ ds) /\
    parse_num base_str ds = Some n /\ (1 <= length ds <= 32)%nat /\
    (n <> 0 -> head ds <> Some 48).
Proof.
  intros Hn Hlen Hnd H0. unfold debug_print_num.
  destruct (Z.eqb_spec n 0) as [->|Hn0]; cbn [orb].
  { exists [48]. split; [done|]. split; [|by simpl; split; [lia|]].
    change [48] with ([] ++ [48]). rewrite parse_snoc. simpl. rewrite (digit_value_at base_str 0 48 Hnd H0). simpl. done. }
  destruct (Nat.eqb_spec (length base_str) 0); [lia|].
  destruct (stack_digits_ok base_str 34 32 n [] out Hlen Hnd Hn) as (ds & Hrun & Hk & Hp & Hlast); [lia|simpl; lia|].
  rewrite (ST_run _ _ _ _ _ Hrun). simpl app. rewrite unstack_ok by lia. rewrite firstn_all.
  exists (reverse ds). split; [done|]. split; [done|]. destruct (Hlast Hn0) as (c & Hc & Hne).
  rewrite length_reverse. split; [split; [destruct ds; [done|simpl; lia]|done]|].
  intros _ Hh. apply Hne. rewrite H0. destruct ds as [|x ds] using rev_ind; [done|]. rewrite last_snoc in Hc.
  rewrite reverse_app, reverse_singleton in Hh. injection Hc as <-. by injection Hh as ->.
Qed.

Lemma debug_print_num_roundtrip_witness : exists ds,
  debug_print_num 0xdeadbeef hexadecimal [] = Some (tt, ds) /\ parse_num hexadecimal ds = Some 0xdeadbeef.
Proof.
  destruct (debug_print_num_roundtrip 0xdeadbeef hexadecimal []) as (ds & Hrun & Hp & _).
  - lia.
  - simpl. lia.
  - decide_vm.
  - done.
  - by exists ds.
Defined.

(** ** Formats *)

Lemma debug_puts_loop_ok fuel pre s out :
  Forall (fun c => c <> 0) s -> (length s < fuel)%nat ->
  debug_puts_loop fuel (pre ++ s ++ [0]) (length pre) out = Some (tt, out ++ s).
Proof.
  revert pre s out. induction fuel as [|fuel IH]; intros pre s out Hs Hfuel; [lia|]. cbn [debug_puts_loop].
  destruct s as [|c s].
  - rewrite (ST_run _ _ _ 0 out) by (unfold char_at, lift_opt; simpl app; by rewrite list_lookup_middle).
    by rewrite app_nil_r.
  - apply Forall_cons in Hs as [Hc Hs].
    rewrite (ST_run _ _ _ c out) by (unfold char_at, lift_opt; simpl app; by rewrite list_lookup_middle).
    rewrite (proj2 (Z.eqb_neq c 0)) by done. rewrite (ST_run _ _ _ tt (out ++ [c])) by done.
    specialize (IH (pre ++ [c]) s (out ++ [c]) Hs ltac:(simpl in Hfuel; lia)).
    rewrite length_app, Nat.add_1_r, <- !app_assoc in IH. exact IH.
Qed.

Lemma debug_puts_ok s out : Forall (fun c => c <> 0) s -> debug_puts (s ++ [0]) out = Some (tt, out ++ s).
Proof.
  intros Hs. apply (debug_puts_loop_ok _ [] s out Hs). rewrite length_app. simpl. lia.
Qed.

Definition plain (c : Z) : Prop := c <> 0 /\ c <> 37.

Lemma debug_printf_plain_prefix fuel pre s rest args out :
  Forall plain s ->
  debug_printf_loop (length s + fuel) (pre ++ s ++ rest) (length pre) args out =
  debug_printf_loop fuel (pre ++ s ++ rest) (length pre + length s) args (out ++ s).
Proof.
  revert pre out. induction s as [|c s IH]; intros pre out Hs.
  { by rewrite Nat.add_0_r, app_nil_r. }
  apply Forall_cons in Hs as [[H0 H37] Hs]. cbn [length Nat.add debug_printf_loop].
  rewrite (ST_run _ _ _ c out) by (unfold char_at, lift_opt; simpl app; by rewrite list_lookup_middle).
  rewrite (proj2 (Z.eqb_neq c 0)), (proj2 (Z.eqb_neq c 37)) by done.
  rewrite (ST_run _ _ _ tt (out ++ [c])) by done.
  specialize (IH (pre ++ [c]) (out ++ [c]) Hs). rewrite length_app, <- !app_assoc in IH. simpl app in IH.
  replace (length pre + length [c])%nat with (S (length pre)) in IH by (simpl; lia). simpl app. rewrite IH.
  by replace (S (length pre) + length s)%nat with (length pre + S (length s))%nat by lia.
Qed.

(** a text without '%' is put out as it is *)
Lemma debug_printf_plain s args out : Forall plain s -> debug_printf (s ++ [0]) args out = Some (tt, out ++ s).
Proof.
  intros Hs. unfold debug_printf. rewrite length_app. replace (S (length s + length [0])) with (length s + 2)%nat by (simpl; lia).
  pose proof (debug_printf_plain_prefix 2 [] s [0] args out Hs) as Hp. simpl in Hp. rewrite Hp. cbn [debug_printf_loop].
  by rewrite (ST_run _ _ _ 0 (out ++ s)) by (unfold char_at, lift_opt; by rewrite list_lookup_middle).
Qed.

(** a format that ends in '%' makes [debug_printf] read past its
    terminator: the '%' takes the terminator as the directive, and the loop
    goes on after it. *)
Theorem debug_printf_lone_percent s args out : Forall plain s -> debug_printf (s ++ [37; 0]) args out = None.
Proof.
  intros Hs. unfold debug_printf. rewrite length_app. replace (S (length s + length [37; 0])) with (length s + 3)%nat by (simpl; lia).
  pose proof (debug_printf_plain_prefix 3 [] s [37; 0] args out Hs) as Hp. simpl in Hp. rewrite Hp. cbn [debug_printf_loop].
  rewrite (ST_run _ _ _ 37 (out ++ s)) by (unfold char_at, lift_opt; by rewrite list_lookup_middle). cbn [Z.eqb].
  assert (H1 : (s ++ [37; 0]) !! S (length s) = Some 0).
  { rewrite lookup_app_r by lia. by replace (S (length s) - length s)%nat with 1%nat by lia. }
  assert (H2 : (s ++ [37; 0]) !! S (S (length s)) = None) by (apply lookup_ge_None; rewrite length_app; simpl; lia).
  change (37 =? 0) with false. change (37 =? 37) with true. cbn iota.
  rewrite (ST_run _ _ _ 0 (out ++ s)) by (unfold char_at, lift_opt; by rewrite H1).
  rewrite (ST_run _ _ _ args (out ++ s)) by done. cbn [debug_printf_loop]. rewrite ST_bind_eq.
  unfold char_at, lift_opt. by rewrite H2.
Qed.

Lemma debug_printf_lone_percent_witness : debug_printf [111; 107; 37; 0] [] [] = None.
Proof. apply (debug_printf_lone_percent [111; 107] [] []). repeat constructor; done. Defined.

(** "%d" is not a directive: nothing is put out, and the argument stays for
    the next one *)
Lemma debug_printf_d n : debug_printf [37; 100; 37; 117; 0] [ANum n; ANum 7] = debug_printf [37; 117; 0] [ANum n; ANum 7].
Proof. reflexivity. Qed.

(** ** What a format puts out

    [render] is the meaning of a format without a machine: no index into the
    format, no stack of digits, no stream. *)

(** a number, most significant digit first; [k] digits at most *)
Fixpoint num_digits (k : nat) (base_str : list Z) (n : Z) : list Z :=
  match k with
  | O => []
  | S k =>
      if n =? 0 then []
      else num_digits k base_str (n / Z.of_nat (length base_str)) ++
             [default 0 (base_str !! Z.to_nat (n mod Z.of_nat (length base_str)))]
  end.
Definition num_text (base_str : list Z) (n : Z) : list Z :=
  if n =? 0 then [48] else num_digits 32 base_str n.

(** the text of one directive, and the arguments it leaves *)
Definition render_arg (d : Z) (args : list arg) : option (list Z * list arg) :=
  let number pre base_str :=
    match args with ANum n :: args => Some (pre ++ num_text base_str n, args) | _ => None end in
  if d =? 115 then match args with AStr s :: args => Some (removelast s, args) | _ => None end
  else if d =? 117 then number [] decimal
  else if d =? 120 then number [] hexadecimal
  else if d =? 98 then number [] binary
  else if d =? 112 then number [48; 120] hexadecimal
  else Some ([], args).

Fixpoint render (format : list Z) (args : list arg) : option (list Z) :=
  match format with
  | [] => Some []
  | c :: format =>
      if c =? 37 then
        match format with
        | [] => None
        | d :: format =>
            '(text, args) ← render_arg d args;
            rest ← render format args;
            Some (text ++ rest)
        end
      else rest ← render format args; Some (c :: rest)
  end.

(** 32-bit numbers, and strings with a terminator at their end *)
Definition arg_ok (a : arg) : Prop :=
  match a with
  | ANum n => 0 <= n < 2 ^ 32
  | AStr s => exists l, s = l ++ [0] /\ Forall (fun c => c <> 0) l
  end.

Lemma stack_digits_text (base_str : list Z) fuel k n stack out :
  (2 <= length base_str)%nat -> 0 <= n < 2 ^ Z.of_nat k -> (k < fuel)%nat -> (length stack + k <= 33)%nat ->
  stack_digits fuel n base_str stack out = Some (stack ++ reverse (num_digits k base_str n), out).
Proof.
  intros Hlen. revert fuel n stack. induction k as [|k IH]; intros fuel n stack Hn Hfuel Hst;
    (destruct fuel as [|fuel]; [lia|]); cbn [stack_digits num_digits].
  { assert (n = 0) as -> by lia. by rewrite app_nil_r. }
  destruct (Z.eqb_spec n 0) as [->|Hn0]; [by rewrite app_nil_r|].
  set (B := Z.of_nat (length base_str)). assert (HB : 2 <= B) by lia.
  pose proof (Z.mod_pos_bound n B ltac:(lia)) as Hmod.
  destruct (lookup_lt_is_Some_2 base_str (Z.to_nat (n mod B)) ltac:(lia)) as [d Hd].
  rewrite (ST_run _ _ _ d out) by (unfold char_at, lift_opt; fold B; by rewrite Hd).
  destruct (Nat.ltb_spec (length stack) 33); [|lia]. fold B. rewrite Hd. rewrite IH.
  - by rewrite reverse_app, <- app_assoc.
  - split; [apply Z.div_pos; lia|]. apply Z.div_lt_upper_bound; [lia|].
    rewrite Nat2Z.inj_succ, Z.pow_succ_r in Hn by lia. nia.
  - lia.
  - rewrite length_app. simpl. lia.
Qed.

Lemma num_digits_length k base_str n : (length (num_digits k base_str n) <= k)%nat.
Proof.
  revert n. induction k as [|k IH]; intros n; simpl; [lia|]. destruct (n =? 0); [simpl; lia|].
  rewrite length_app. simpl. specialize (IH (n / Z.of_nat (length base_str))). lia.
Qed.

Lemma debug_print_num_text n base_str out :
  0 <= n < 2 ^ 32 -> (2 <= length base_str)%nat ->
  debug_print_num n base_str out = Some (tt, out ++ num_text base_str n).
Proof.
  intros Hn Hlen. unfold debug_print_num, num_text. destruct (Z.eqb_spec n 0) as [->|Hn0]; cbn [orb]; [done|].
  destruct (Nat.eqb_spec (length base_str) 0); [lia|].
  rewrite (ST_run _ _ _ _ _ (stack_digits_text base_str 34 32 n [] out Hlen Hn ltac:(lia) ltac:(simpl; lia))).
  cbn [app]. rewrite unstack_ok by lia. by rewrite firstn_all, reverse_involutive.
Qed.

Lemma removelast_snoc (l : list Z) x : removelast (l ++ [x]) = l.
Proof. apply removelast_last. Qed.

Lemma debug_format_ok d args out : Forall arg_ok args ->
  debug_format d args out = ('(text, args) ← render_arg d args; Some (args, out ++ text)) /\
  (forall text args', render_arg d args = Some (text, args') -> Forall arg_ok args').
Proof.
  intros Hargs. unfold debug_format, render_arg.
  assert (Hnum : forall base_str, (2 <= length base_str)%nat -> forall out,
    ('(n, args) ← va_num args; _ ← debug_print_num n base_str; mret args) out =
    match args with ANum n :: args => Some (args, out ++ num_text base_str n) | _ => None end).
  { intros base_str Hb o. destruct args as [|[n|s] args]; [done| |done]. apply Forall_cons in Hargs as [Hn _].
    rewrite (ST_run _ _ _ (n, args) o) by done. by rewrite (ST_run _ _ _ _ _ (debug_print_num_text n base_str o Hn Hb)). }
  assert (Hnone : (mret args : PRINT (list arg)) out = Some (args, out ++ [])) by (by rewrite app_nil_r).
  repeat case_match; subst; simplify_option_eq; try (split; [done|by intros ? ? [= <- <-]]);
    try (apply Forall_cons in Hargs as [Ha Hargs]); rewrite ?Hnum by (simpl; lia);
    try (split; [done|by intros ? ? [= <- <-]]).
  all: try (split; [exact Hnone|by intros ? ? [= <- <-]; rewrite ?Forall_cons]).
  - rewrite (ST_run _ _ _ tt (out ++ [48; 120])) by apply (debug_puts_ok [48; 120] out ltac:(by repeat constructor)).
    rewrite Hnum by (simpl; lia). rewrite <- app_assoc. split; [done|by intros ? ? [= <- <-]].
  - destruct Ha as (l0 & -> & Hl0). rewrite (ST_run _ _ _ (l0 ++ [0], l) out) by done.
    rewrite (ST_run _ _ _ _ _ (debug_puts_ok l0 out Hl0)), removelast_snoc. split; [done|by intros ? ? [= <- <-]].
Qed.

Lemma debug_printf_loop_ok fuel pre fmt args out :
  Forall (fun c => c <> 0) fmt -> Forall arg_ok args -> (length fmt < fuel)%nat ->
  debug_printf_loop fuel (pre ++ fmt ++ [0]) (length pre) args out =
  (text ← render fmt args; Some (tt, out ++ text)).
Proof.
  revert pre fmt args out. induction fuel as [|fuel IH]; intros pre fmt args out Hf Ha Hfuel; [lia|]. cbn [debug_printf_loop].
  destruct fmt as [|c fmt].
  { rewrite (ST_run _ _ _ 0 out) by (unfold char_at, lift_opt; simpl app; by rewrite list_lookup_middle).
    cbn [render mbind option_bind]. by rewrite app_nil_r. }
  rewrite (ST_run _ _ _ c out) by (unfold char_at, lift_opt; simpl app; by rewrite list_lookup_middle).
  apply Forall_cons in Hf as [Hc Hf]. rewrite (proj2 (Z.eqb_neq c 0)) by done. cbn [render].
  destruct (Z.eqb_spec c 37) as [->|Hc37].
  - destruct fmt as [|d fmt].
    + assert (H1 : (pre ++ [37] ++ [0]) !! S (length pre) = Some 0).
      { rewrite lookup_app_r by lia. by replace (S (length pre) - length pre)%nat with 1%nat by lia. }
      assert (H2 : (pre ++ [37] ++ [0]) !! S (S (length pre)) = None) by (apply lookup_ge_None; rewrite length_app; simpl; lia).
      rewrite (ST_run _ _ _ 0 out) by (unfold char_at, lift_opt; by rewrite H1).
      rewrite (ST_run _ _ _ args out) by done. destruct fuel as [|fuel]; [done|]. cbn [debug_printf_loop].
      rewrite ST_bind_eq. unfold char_at, lift_opt. by rewrite H2.
    + apply Forall_cons in Hf as [Hd Hf]. assert (H1 : (pre ++ (37 :: d :: fmt) ++ [0]) !! S (length pre) = Some d).
      { rewrite lookup_app_r by lia. by replace (S (length pre) - length pre)%nat with 1%nat by lia. }
      rewrite (ST_run _ _ _ d out) by (unfold char_at, lift_opt; by rewrite H1).
      destruct (debug_format_ok d args out Ha) as [Hrun Hargs]. rewrite ST_bind_eq, Hrun.
      destruct (render_arg d args) as [[text args']|]; [|done]. cbn [mbind option_bind].
      specialize (IH (pre ++ [37; d]) fmt args' (out ++ text) Hf (Hargs _ _ eq_refl) ltac:(simpl in Hfuel; lia)).
      rewrite length_app, <- !app_assoc in IH. cbn [length app] in IH.
      replace (length pre + 2)%nat with (S (S (length pre))) in IH by lia. cbn [app]. rewrite IH.
      destruct (render fmt args'); [|done]. cbn [mbind option_bind]. by rewrite <- app_assoc.
  - rewrite (ST_run _ _ _ tt (out ++ [c])) by done.
    specialize (IH (pre ++ [c]) fmt args (out ++ [c]) Hf Ha ltac:(simpl in Hfuel; lia)).
    rewrite length_app, Nat.add_1_r, <- !app_assoc in IH. cbn [app] in *. rewrite IH.
    destruct (render fmt args); [|done]. cbn [mbind option_bind]. by rewrite <- app_assoc.
Qed.

(** C36: on every format and all arguments, [debug_printf] puts out what the
    format means, after what was there, and faults exactly on a format that
    ends in '%' and on a directive without an argument of its kind. *)
Theorem debug_printf_renders fmt args out :
  Forall (fun c => c <> 0) fmt -> Forall arg_ok args ->
  debug_printf (fmt ++ [0]) args out = (text ← render fmt args; Some (tt, out ++ text)).
Proof.
  intros Hf Ha. apply (debug_printf_loop_ok _ [] fmt args out Hf Ha). rewrite length_app. simpl. lia.
Qed.

Lemma debug_printf_renders_witness :
  debug_printf [37; 117; 58; 37; 115; 32; 37; 120; 0] [ANum 305; AStr [111; 107; 0]; ANum 0xcafe] [] =
  Some (tt, [51; 48; 53; 58; 111; 107; 32; 99; 97; 102; 101]).
Proof.
  refine (eq_trans (debug_printf_renders [37; 117; 58; 37; 115; 32; 37; 120] [ANum 305; AStr [111; 107; 0]; ANum 0xcafe] [] _ _) _).
  - by repeat constructor.
  - apply Forall_cons_2; [simpl; lia|]. apply Forall_cons_2; [|by apply Forall_singleton].
    exists [111; 107]. split; [done|by repeat constructor].
  - vm_compute. reflexivity.
Defined.
