(* ===== verification/Ports.v ===== *)
(** The drivers that talk to a device through I/O ports: the two interrupt
    controllers ([arch/x86/pic.c]), the interval timer ([pit.c]), the serial
    line of the debug output ([arch/x86/debug.c]) and the CMOS ([cmos.h]).

    A driver is what it writes and reads, in order: its state is the trace of
    accesses to ports and device registers.  What a device answers to a read is a parameter, a function
    of the trace so far.  The effect of a trace on a device is given by a small
    automaton written after the data sheet; the automata are specifications,
    the drivers are the code. *)
From S2P Require Export Prelude.

Inductive port_event :=
  | Outb (port value : Z)
  | Inb (port value : Z)
  | MmioWrite (addr value : Z)  (** a 32-bit register in memory *)
  | MmioRead (addr value : Z)
  | MsrWrite (msr low high : Z)
  | MsrRead (msr low high : Z)
  | Tsc (value : Z).  (** the cycle counter *)
(** what a device is asked for *)
Inductive query := QPort (port : Z) | QMmio (addr : Z) | QMsr (msr : Z) | QCpuid (code : Z) | QTsc.
#[global] Instance port_event_eq_dec : EqDecision port_event.
Proof. solve_decision. Defined.

Definition u8 (x : Z) : Z := x mod 2 ^ 8.
Definition u16 (x : Z) : Z := x mod 2 ^ 16.

Record ports := Ports {
  po_trace : list port_event;
  po_initialized : bool;  (** of [debug_putchar] *)
}.
Abbreviation IO := (ST ports).

Section drivers.
(** what the devices answer *)
Context (device : list port_event -> query -> Z).

Definition emit (e : port_event) : IO unit :=
  modify (fun s => Ports (po_trace s ++ [e]) (po_initialized s)).
Definition outb (port value : Z) : IO unit := emit (Outb (u16 port) (u8 value)).
Definition inb (port : Z) : IO Z :=
  t ← gets po_trace;
  let v := u8 (device t (QPort (u16 port))) in
  _ ← emit (Inb (u16 port) v);
  mret v.

(** [volatile] accesses to device registers *)
Definition mmio_write (addr value : Z) : IO unit := emit (MmioWrite (w32 addr) (w32 value)).
Definition mmio_read (addr : Z) : IO Z :=
  t ← gets po_trace;
  let v := w32 (device t (QMmio (w32 addr))) in
  _ ← emit (MmioRead (w32 addr) v);
  mret v.

(** ** [cpu.h]: instructions that ask the processor itself *)

Definition CPUID_GET_FEATURES : Z := 1.
Definition CPUID_FEATURE_APIC : Z := Z.shiftl 1 9.
Definition IA32_MSR_APIC_BASE : Z := 0x1b.
Definition IA32_MSR_APIC_BASE_BSP : Z := Z.shiftl 1 8.
Definition IA32_MSR_APIC_BASE_ENABLE : Z := Z.shiftl 1 11.

(** what is answered holds [eax] below and [edx] above *)
Definition cpuid (code : Z) : IO (Z * Z) :=
  t ← gets po_trace;
  let v := w64 (device t (QCpuid code)) in
  mret (w32 v, Z.shiftr v 32).
Definition cpu_read_msr (msr : Z) : IO (Z * Z) :=
  t ← gets po_trace;
  let v := w64 (device t (QMsr msr)) in
  _ ← emit (MsrRead msr (w32 v) (Z.shiftr v 32));
  mret (w32 v, Z.shiftr v 32).
Definition cpu_write_msr (msr low high : Z) : IO unit := emit (MsrWrite msr (w32 low) (w32 high)).

(** ** [pic.c] *)

Definition PIC_MASTER : Z := 0x20.
Definition PIC_SLAVE : Z := 0xa0.
Definition PIC_COMMAND : Z := 0.
Definition PIC_DATA : Z := 1.
Definition PIC_WORD_PW4 : Z := Z.shiftl 1 0.
Definition PIC_WORD_INIT : Z := Z.shiftl 1 4.
Definition PIC_WORD_8086 : Z := Z.shiftl 1 0.
Definition PIC_COM_END_OF_INTR : Z := 0x20.

Definition remap_pic_vectors (master slave : Z) : IO unit :=
  mask0 ← inb (Z.lor PIC_MASTER PIC_DATA);
  mask1 ← inb (Z.lor PIC_SLAVE PIC_DATA);
  _ ← outb (Z.lor PIC_MASTER PIC_COMMAND) (Z.lor PIC_WORD_INIT PIC_WORD_PW4);
  _ ← outb (Z.lor PIC_SLAVE PIC_COMMAND) (Z.lor PIC_WORD_INIT PIC_WORD_PW4);
  _ ← outb (Z.lor PIC_MASTER PIC_DATA) master;
  _ ← outb (Z.lor PIC_SLAVE PIC_DATA) slave;
  _ ← outb (Z.lor PIC_MASTER PIC_DATA) 4;
  _ ← outb (Z.lor PIC_SLAVE PIC_DATA) 2;
  _ ← outb (Z.lor PIC_MASTER PIC_DATA) PIC_WORD_8086;
  _ ← outb (Z.lor PIC_SLAVE PIC_DATA) PIC_WORD_8086;
  _ ← outb (Z.lor PIC_MASTER PIC_DATA) mask0;
  outb (Z.lor PIC_SLAVE PIC_DATA) mask1.
Definition remap_pic_vectors_default : IO unit := remap_pic_vectors 0x20 0x28.

Definition clear_pic_interrupt : IO unit :=
  _ ← outb (Z.lor PIC_MASTER PIC_COMMAND) PIC_COM_END_OF_INTR;
  outb (Z.lor PIC_SLAVE PIC_COMMAND) PIC_COM_END_OF_INTR.

Definition disable_pic : IO unit :=
  _ ← outb 0xa1 0xff;
  outb 0x21 0xff.

(** ** [pit.c] *)

Definition PIT_CHAN0 : Z := 0x40.
Definition PIT_COMMAND : Z := 0x43.
Definition PIT_CMD_READ_BACK : Z := Z.shiftl 3 6.
Definition PIT_CMD_HILOBYTE : Z := Z.shiftl 3 4.
Definition PIT_READ_LATCH_COUNT : Z := Z.shiftl 1 5.
Definition PIT_READ_CHAN0 : Z := Z.shiftl 1 1.
Definition PIT_STATUS_STATE : Z := Z.shiftl 1 7.
Definition PIT_WAIT_10MS : Z := 11932.

(** the loop of [pit_wait_poll]: each turn asks for the status *)
Fixpoint pit_poll (fuel : nat) (status : Z) : IO unit :=
  match fuel with
  | O => fault
  | S fuel =>
      if Z.land status PIT_STATUS_STATE =? 0 then
        _ ← outb PIT_COMMAND (Z.lor (Z.lor PIT_CMD_READ_BACK PIT_READ_LATCH_COUNT) PIT_READ_CHAN0);
        status ← inb PIT_CHAN0;
        pit_poll fuel status
      else mret tt
  end.
Definition pit_wait_poll (fuel : nat) (value : Z) : IO unit :=
  _ ← outb PIT_COMMAND PIT_CMD_HILOBYTE;
  _ ← outb PIT_CHAN0 (Z.land (u16 value) 0xff);
  _ ← outb PIT_CHAN0 (Z.shiftr (u16 value) 8);
  pit_poll fuel 0.

(** ** [debug.c]: the serial line *)

Definition SERIAL_DEFAULT : Z := 0x3f8.
Definition SERIAL_DATA : Z := 0.
Definition SERIAL_INTERRUPT_ENABLE : Z := 1.
Definition SERIAL_DIVISOR_UPPER : Z := 0.
Definition SERIAL_DIVISOR_LOWER : Z := 1.
Definition SERIAL_LINE_CONTROL : Z := 3.
Definition SERIAL_LINE_STATUS : Z := 5.
Definition SERIAL_LINECTRL_DLAB : Z := Z.shiftl 1 7.
Definition SERIAL_LINESTAT_HAVE_DATA : Z := Z.shiftl 1 0.
Definition SERIAL_LINESTAT_TRANSMIT_EMPTY : Z := Z.shiftl 1 5.

Definition read_register (port reg : Z) : IO Z := inb (port + reg).
Definition write_register (port reg value : Z) : IO unit := outb (port + reg) value.

Definition set_divisor (div : Z) : IO unit :=
  linectrl ← read_register SERIAL_DEFAULT SERIAL_LINE_CONTROL;
  let linectrl := u8 (Z.lor linectrl SERIAL_LINECTRL_DLAB) in
  _ ← write_register SERIAL_DEFAULT SERIAL_DIVISOR_UPPER (Z.shiftr div 8);
  _ ← write_register SERIAL_DEFAULT SERIAL_DIVISOR_LOWER (Z.land div 0xff);
  let linectrl := u8 (Z.land linectrl (Z.lnot SERIAL_LINECTRL_DLAB)) in
  write_register SERIAL_DEFAULT SERIAL_LINE_CONTROL linectrl.

Definition set_charsize (charsize : Z) : IO unit :=
  linectrl ← read_register SERIAL_DEFAULT SERIAL_LINE_CONTROL;
  let val := w32 (charsize - 5) in
  write_register SERIAL_DEFAULT SERIAL_LINE_CONTROL (u8 (Z.lor linectrl val)).

Definition set_interrupts (interrupts : Z) : IO unit :=
  write_register SERIAL_DEFAULT SERIAL_INTERRUPT_ENABLE interrupts.

Definition serial_has_data : IO bool :=
  temp ← read_register SERIAL_DEFAULT SERIAL_LINE_STATUS;
  mret (flag_set temp SERIAL_LINESTAT_HAVE_DATA).
Definition serial_can_transmit : IO bool :=
  temp ← read_register SERIAL_DEFAULT SERIAL_LINE_STATUS;
  mret (flag_set temp SERIAL_LINESTAT_TRANSMIT_EMPTY).

Fixpoint serial_wait (fuel : nat) : IO unit :=
  match fuel with
  | O => fault
  | S fuel =>
      ready ← serial_can_transmit;
      if negb ready then serial_wait fuel else mret tt
  end.

Definition debug_putchar (fuel : nat) (c : Z) : IO unit :=
  initialized ← gets po_initialized;
  _ ← (if negb initialized then
         _ ← set_charsize 8;
         _ ← set_divisor 1;
         _ ← set_interrupts 0;
         modify (fun s => Ports (po_trace s) true)
       else mret tt);
  _ ← serial_wait fuel;
  write_register SERIAL_DEFAULT SERIAL_DATA c.

(** ** [cmos.h] *)

Definition CMOS_PORT_SELECT : Z := 0x70.
Definition CMOS_PORT_DATA : Z := 0x71.
Definition cmos_select (reg : Z) (disable_nmi : bool) : IO unit :=
  outb CMOS_PORT_SELECT (Z.lor (Z.shiftl (if disable_nmi then 1 else 0) 7) reg).
Definition cmos_read (reg : Z) : IO Z :=
  _ ← cmos_select reg false;
  inb CMOS_PORT_DATA.
Definition cmos_write (reg value : Z) : IO unit :=
  _ ← cmos_select reg false;
  outb CMOS_PORT_DATA value.
End drivers.

(** ** The devices *)

(** An 8259A at the ports [base] and [base + 1]: its vector base and its mask;
    after an initialisation word it takes the words that follow at the data
    port before it takes masks again. *)
Record pic := Pic { pic_vector : Z; pic_mask : Z; pic_wait : nat }.
Definition pic_step (base : Z) (p : pic) (e : port_event) : pic :=
  match e with
  | Outb port v =>
      if port =? base then
        if Z.testbit v 4 then Pic (pic_vector p) 0 3 else p
      else if port =? base + 1 then
        match pic_wait p with
        | 3%nat => Pic (Z.land v 0xf8) (pic_mask p) 2
        | S n => Pic (pic_vector p) (pic_mask p) n
        | O => Pic (pic_vector p) v 0
        end
      else p
  | _ => p
  end.
Definition pic_run (base : Z) (t : list port_event) (p : pic) : pic := fold_left (pic_step base) t p.

(** A 16550 at the ports of COM1: with DLAB set in the line control register
    the first two ports are the divisor, else the data and the interrupt
    enable register. *)
Record uart := Uart { u_dlab : bool; u_divisor : Z; u_enable : Z; u_sent : list Z }.
Definition uart_step (u : uart) (e : port_event) : uart :=
  match e with
  | Outb port v =>
      if port =? 0x3f8 then
        if u_dlab u then Uart true (u_divisor u / 256 * 256 + v) (u_enable u) (u_sent u)
        else Uart false (u_divisor u) (u_enable u) (u_sent u ++ [v])
      else if port =? 0x3f9 then
        if u_dlab u then Uart true (u_divisor u mod 256 + v * 256) (u_enable u) (u_sent u)
        else Uart false (u_divisor u) v (u_sent u)
      else if port =? 0x3fb then Uart (Z.testbit v 7) (u_divisor u) (u_enable u) (u_sent u)
      else u
  | _ => u
  end.
Definition uart_run (t : list port_event) (u : uart) : uart := fold_left uart_step t u.

(** the accesses of [n] turns of a wait for the timer, and the answer of one *)
Fixpoint polls (device : list port_event -> query -> Z) (t : list port_event) (n : nat) : list port_event :=
  match n with
  | O => t
  | S n =>
      let t := polls device t n ++ [Outb 0x43 0xe2] in
      t ++ [Inb 0x40 (u8 (device t (QPort 0x40)))]
  end.
Definition poll_answer (device : list port_event -> query -> Z) (t : list port_event) (n : nat) : Z :=
  u8 (device (polls device t n ++ [Outb 0x43 0xe2]) (QPort 0x40)).

(** ** What the drivers do *)

Section device.
Context (device : list port_event -> query -> Z).

Lemma u8_range x : 0 <= u8 x < 256.
Proof. by apply Z.mod_pos_bound. Qed.
Lemma u8_small x : 0 <= x < 256 -> u8 x = x.
Proof. intros. by apply Z.mod_small. Qed.

Lemma outb_run port v t i : outb port v (Ports t i) = Some (tt, Ports (t ++ [Outb (u16 port) (u8 v)]) i).
Proof. done. Qed.
Lemma inb_run port t i :
  inb device port (Ports t i) =
    Some (u8 (device t (QPort (u16 port))), Ports (t ++ [Inb (u16 port) (u8 (device t (QPort (u16 port))))]) i).
Proof. done. Qed.

Lemma u8_idem x : u8 (u8 x) = u8 x.
Proof. apply u8_small, u8_range. Qed.
Lemma pic_run_app base t1 t2 p : pic_run base (t1 ++ t2) p = pic_run base t2 (pic_run base t1 p).
Proof. apply fold_left_app. Qed.

Definition is_mask (device : list port_event -> query -> Z) (base : Z) (t : list port_event) (p : pic) : Prop :=
  pic_wait p = 0%nat /\ u8 (device t (QPort (base + 1))) = pic_mask p.

(** after [remap_pic_vectors], from any state in which the controllers
    answer a read of the data port with their mask, each controller has the
    vector base given and the mask it had, and takes no more initialisation
    words. *)
Theorem remap_pic_vectors_spec master slave t i pm ps :
  0 <= master < 256 -> 0 <= slave < 256 -> master mod 8 = 0 -> slave mod 8 = 0 ->
  is_mask device 0x20 t (pic_run 0x20 t pm) ->
  is_mask device 0xa0 (t ++ [Inb 0x21 (pic_mask (pic_run 0x20 t pm))])
    (pic_run 0xa0 (t ++ [Inb 0x21 (pic_mask (pic_run 0x20 t pm))]) ps) ->
  exists t', remap_pic_vectors device master slave (Ports t i) = Some (tt, Ports t' i) /\
    pic_run 0x20 t' pm = Pic master (pic_mask (pic_run 0x20 t pm)) 0 /\
    pic_run 0xa0 t' ps = Pic slave (pic_mask (pic_run 0xa0 t ps)) 0.
Proof.
  intros Hm Hs Hm8 Hs8 [Hwm Hmm] [Hws Hms].
  assert (Hland : forall x, 0 <= x < 256 -> x mod 8 = 0 -> Z.land (u8 x) 0xf8 = x).
  { intros x Hx Hx8. rewrite u8_small by done. assert (Hin : x / 8 ∈ seqZ 0 32) by (apply elem_of_seqZ; split; [apply Z.div_pos; lia|apply Z.div_lt_upper_bound; lia]).
    replace x with (8 * (x / 8)) by (pose proof (Z.div_mod x 8 ltac:(done)); lia).
    assert (Hall : Forall (fun q => Z.land (8 * q) 0xf8 = 8 * q) (seqZ 0 32)) by decide_vm.
    rewrite Forall_forall in Hall. by apply Hall. }
  rewrite pic_run_app in Hws, Hms. cbn in Hws, Hms.
  eexists. split; [reflexivity|].
  change (u16 (Z.lor PIC_MASTER PIC_DATA)) with 0x21. change (u16 (Z.lor PIC_SLAVE PIC_DATA)) with 0xa1.
  change (0x20 + 1) with 0x21 in Hmm. change (0xa0 + 1) with 0xa1 in Hms. cbn [po_trace]. rewrite Hmm, Hms.
  rewrite <- !app_assoc, !pic_run_app.
  assert (Hm0 : u8 (pic_mask (pic_run 0x20 t pm)) = pic_mask (pic_run 0x20 t pm)) by (by rewrite <- Hmm, u8_idem).
  assert (Hs0 : u8 (pic_mask (pic_run 0xa0 t ps)) = pic_mask (pic_run 0xa0 t ps)) by (by rewrite <- Hms, u8_idem).
  rewrite Hm0, Hs0.
  destruct (pic_run 0x20 t pm) as [vm mm wm], (pic_run 0xa0 t ps) as [vs ms ws]. simpl in Hwm, Hws. subst wm ws.
  split; [rewrite <- (Hland master Hm Hm8) at 2|rewrite <- (Hland slave Hs Hs8) at 2]; reflexivity.
Qed.

Lemma status_state status : (Z.land status PIT_STATUS_STATE =? 0) = negb (Z.testbit status 7).
Proof. rewrite <- flag_set_bit by done. unfold flag_set. by rewrite negb_involutive. Qed.

Lemma polls_step t0 n i :
  (_ ← outb PIT_COMMAND (Z.lor (Z.lor PIT_CMD_READ_BACK PIT_READ_LATCH_COUNT) PIT_READ_CHAN0);
   inb device PIT_CHAN0) (Ports (polls device t0 n) i) =
  Some (poll_answer device t0 n, Ports (polls device t0 (S n)) i).
Proof. reflexivity. Qed.

Lemma pit_poll_ok t0 i d fuel n status :
  Z.testbit status 7 = false -> Z.testbit (poll_answer device t0 (n + d)) 7 = true -> (d + 1 < fuel)%nat ->
  exists j, (n <= j <= n + d)%nat /\ Z.testbit (poll_answer device t0 j) 7 = true /\
    (forall m, (n <= m < j)%nat -> Z.testbit (poll_answer device t0 m) 7 = false) /\
    pit_poll device fuel status (Ports (polls device t0 n) i) = Some (tt, Ports (polls device t0 (S j)) i).
Proof.
  revert fuel n status. induction d as [|d IH]; intros fuel n status Hst Hd Hfuel;
    (destruct fuel as [|fuel]; [lia|]); cbn [pit_poll]; rewrite status_state, Hst; cbn [negb];
    pose proof (polls_step t0 n i) as Hstep; apply ST_bind_Some in Hstep as (u & s1 & H1 & H2);
    rewrite (ST_run _ _ _ _ _ H1), (ST_run _ _ _ _ _ H2); destruct (Z.testbit (poll_answer device t0 n) 7) eqn:Hn.
  - exists n. split; [lia|]. split; [done|]. split; [lia|]. destruct fuel as [|fuel]; [lia|].
    cbn [pit_poll]. by rewrite status_state, Hn.
  - rewrite Nat.add_0_r in Hd. congruence.
  - exists n. split; [lia|]. split; [done|]. split; [lia|]. destruct fuel as [|fuel]; [lia|].
    cbn [pit_poll]. by rewrite status_state, Hn.
  - destruct (IH fuel (S n) (poll_answer device t0 n) Hn) as (j & Hj & Hb & Hf & Hrun);
      [by replace (S n + d)%nat with (n + S d)%nat by lia|lia|].
    exists j. split; [lia|]. split; [done|]. split; [|exact Hrun].
    intros m Hm. destruct (decide (m = n)) as [->|]; [done|]. apply Hf. lia.
Qed.

(** [pit_wait_poll] ends as soon as the timer says so, if it ever does: it
    sets channel 0 to the count given, low byte first, then asks for the status
    until its top bit is set, and accesses no port but those of the timer. *)
Lemma pit_wait_poll_ok fuel value t i k :
  let t0 := t ++ [Outb 0x43 0x30; Outb 0x40 (u16 value mod 256); Outb 0x40 (u16 value / 256)] in
  Z.testbit (poll_answer device t0 k) 7 = true -> (k + 1 < fuel)%nat ->
  exists j, (j <= k)%nat /\ Z.testbit (poll_answer device t0 j) 7 = true /\
    (forall n, (n < j)%nat -> Z.testbit (poll_answer device t0 n) 7 = false) /\
    pit_wait_poll device fuel value (Ports t i) = Some (tt, Ports (polls device t0 (S j)) i).
Proof.
  intros t0 Hk Hfuel. destruct (pit_poll_ok t0 i k fuel 0 0) as (j & Hj & Hb & Hf & Hrun); [done|done|done|].
  exists j. split; [lia|]. split; [done|]. split; [intros n Hn; apply Hf; lia|]. rewrite <- Hrun.
  assert (Hv : 0 <= u16 value < 2 ^ 16) by (by apply Z.mod_pos_bound).
  unfold pit_wait_poll. rewrite (ST_run _ _ _ _ _ (outb_run _ _ _ _)), (ST_run _ _ _ _ _ (outb_run _ _ _ _)),
    (ST_run _ _ _ _ _ (outb_run _ _ _ _)). f_equal. f_equal. unfold t0. cbn [polls]. rewrite <- !app_assoc. simpl app.
  change (Z.land (u16 value) 0xff) with (Z.land (u16 value) (Z.ones 8)). rewrite Z.land_ones by done.
  rewrite Z.shiftr_div_pow2 by done. change (2 ^ 8) with 256 in *. change (2 ^ 16) with 65536 in *.
  rewrite (u8_small (u16 value mod 256)) by (by apply Z.mod_pos_bound).
  rewrite (u8_small (u16 value / 256)) by (split; [apply Z.div_pos; lia|apply Z.div_lt_upper_bound; lia]). done.
Qed.

(** ** The serial line *)

(** the accesses of [n] looks at the line status *)
Fixpoint looks (t : list port_event) (n : nat) : list port_event :=
  match n with
  | O => t
  | S n => looks t n ++ [Inb 0x3fd (u8 (device (looks t n) (QPort 0x3fd)))]
  end.
Definition line_status (t : list port_event) (n : nat) : Z := u8 (device (looks t n) (QPort 0x3fd)).

Lemma serial_wait_ok t i d fuel n :
  Z.testbit (line_status t (n + d)) 5 = true -> (d < fuel)%nat ->
  exists j, (n <= j <= n + d)%nat /\ Z.testbit (line_status t j) 5 = true /\
    serial_wait device fuel (Ports (looks t n) i) = Some (tt, Ports (looks t (S j)) i).
Proof.
  revert fuel n. induction d as [|d IH]; intros fuel n Hd Hfuel; (destruct fuel as [|fuel]; [lia|]);
    cbn [serial_wait]; unfold serial_can_transmit, read_register;
    assert (Hlook : (temp ← inb device (SERIAL_DEFAULT + SERIAL_LINE_STATUS); mret (flag_set temp SERIAL_LINESTAT_TRANSMIT_EMPTY))
      (Ports (looks t n) i) = Some (Z.testbit (line_status t n) 5, Ports (looks t (S n)) i))
      by (rewrite <- flag_set_bit by done; reflexivity);
    rewrite (ST_run _ _ _ _ _ Hlook).
  - rewrite Nat.add_0_r in Hd. rewrite Hd. exists n. split; [lia|]. by split.
  - destruct (Z.testbit (line_status t n) 5) eqn:Hn; cbn [negb].
    + exists n. split; [lia|]. by split.
    + destruct (IH fuel (S n)) as (j & Hj & Hb & Hrun); [by replace (S n + d)%nat with (n + S d)%nat by lia|lia|].
      exists j. split; [lia|]. by split.
Qed.

(** once it is set up, [debug_putchar] puts out exactly the one byte, as
    soon as the line takes it; if it ever does, the call ends. *)
Theorem debug_putchar_spec fuel c t k :
  Z.testbit (line_status t k) 5 = true -> (k < fuel)%nat ->
  exists j, (j <= k)%nat /\ Z.testbit (line_status t j) 5 = true /\
    debug_putchar device fuel c (Ports t true) = Some (tt, Ports (looks t (S j) ++ [Outb 0x3f8 (u8 c)]) true).
Proof.
  intros Hk Hfuel. destruct (serial_wait_ok t true k fuel 0 Hk Hfuel) as (j & Hj & Hb & Hrun).
  exists j. split; [lia|]. split; [done|]. unfold debug_putchar.
  rewrite (ST_run _ _ _ true (Ports t true)) by done. cbn [negb].
  rewrite (ST_run _ _ _ tt (Ports t true)) by done. simpl looks in Hrun. rewrite (ST_run _ _ _ _ _ Hrun).
  unfold write_register. by rewrite outb_run.
Qed.

Lemma uart_run_app t1 t2 u : uart_run (t1 ++ t2) u = uart_run t2 (uart_run t1 u).
Proof. apply fold_left_app. Qed.

(** [set_divisor] does not set the divisor: the line control register with
    the DLAB bit is computed but not written before the two bytes, so these go
    to the data and the interrupt enable registers, whatever the line control
    register reads. *)
Theorem set_divisor_not_latched div t i u :
  u_dlab (uart_run t u) = false -> 0 <= div < 2 ^ 16 ->
  exists t', set_divisor device div (Ports t i) = Some (tt, Ports t' i) /\
    u_divisor (uart_run t' u) = u_divisor (uart_run t u) /\ u_dlab (uart_run t' u) = false /\
    u_sent (uart_run t' u) = u_sent (uart_run t u) ++ [div / 256] /\ u_enable (uart_run t' u) = div mod 256.
Proof.
  intros Hdlab Hdiv. eexists. split.
  { unfold set_divisor, read_register, write_register. rewrite (ST_run _ _ _ _ _ (inb_run _ _ _)). cbn zeta.
    rewrite (ST_run _ _ _ _ _ (outb_run _ _ _ _)), (ST_run _ _ _ _ _ (outb_run _ _ _ _)). apply outb_run. }
  rewrite !uart_run_app.
  set (lc := u8 (device _ _)). set (v := u8 (u8 (Z.land (u8 (Z.lor lc _)) _))).
  assert (Hv : Z.testbit v 7 = false).
  { unfold v, u8. rewrite !Z.mod_pow2_bits_low by lia. rewrite Z.land_spec. by rewrite andb_false_r. }
  clearbody v. destruct (uart_run t u) as [dl dv en se]. simpl in Hdlab. subst dl.
  assert (Hhi : u8 (Z.shiftr div 8) = div / 256).
  { rewrite Z.shiftr_div_pow2 by done. change (2 ^ 8) with 256. change (2 ^ 16) with 65536 in Hdiv.
    apply u8_small. split; [apply Z.div_pos; lia|apply Z.div_lt_upper_bound; lia]. }
  assert (Hlo : u8 (Z.land div 0xff) = div mod 256).
  { change 0xff with (Z.ones 8). rewrite Z.land_ones by done. change (2 ^ 8) with 256. apply u8_small.
    by apply Z.mod_pos_bound. }
  rewrite Hhi, Hlo. split_and!; try reflexivity. exact Hv.
Qed.
End device.

(** ** On concrete devices *)

(** both controllers answer their masks, 0xb8 and 0x8e *)
Definition ex_pics (t : list port_event) (q : query) : Z :=
  match q with QPort port => if port =? 0x21 then 0xb8 else 0x8e | _ => 0 end.
Lemma remap_pic_vectors_spec_witness : exists t',
  remap_pic_vectors_default ex_pics (Ports [] true) = Some (tt, Ports t' true) /\
  pic_run 0x20 t' (Pic 8 0xb8 0) = Pic 0x20 0xb8 0 /\ pic_run 0xa0 t' (Pic 0x70 0x8e 0) = Pic 0x28 0x8e 0.
Proof.
  destruct (remap_pic_vectors_spec ex_pics 0x20 0x28 [] true (Pic 8 0xb8 0) (Pic 0x70 0x8e 0))
    as (t' & Hrun & Hm & Hs); [lia|lia|done|done|done|done|].
  exists t'. split; [exact Hrun|]. split; [exact Hm|exact Hs].
Defined.

(** a device that is ready once it has been accessed nine times *)
Definition ex_ready (t : list port_event) (q : query) : Z := if (length t <? 9)%nat then 0 else 0xff.
Lemma debug_putchar_spec_witness : exists t', debug_putchar ex_ready 20 0x41 (Ports [] true) = Some (tt, Ports (t' ++ [Outb 0x3f8 0x41]) true).
Proof.
  destruct (debug_putchar_spec ex_ready 20 0x41 [] 9) as (j & _ & _ & Hrun); [done|lia|].
  exists (looks ex_ready [] (S j)). exact Hrun.
Defined.

Lemma set_divisor_not_latched_witness : exists t',
  set_divisor ex_ready 1 (Ports [] true) = Some (tt, Ports t' true) /\
  uart_run t' (Uart false 12 0 []) = Uart false 12 1 [0].
Proof.
  destruct (set_divisor_not_latched ex_ready 1 [] true (Uart false 12 0 [])) as (t' & Hrun & Hd & Hl & Hs & He); [done|lia|].
  exists t'. split; [exact Hrun|]. destruct (uart_run t' _). simpl in *. by subst.
Defined.
