(* ===== verification/Ioapic.v ===== *)
(** The interrupt routers: [arch/x86/ioapic.c] and [ioapic.h].

    The code reaches a router through a window of two registers, which select
    and carry; a redirection entry is a 64-bit word of which the structure of
    the code names fields.  The router itself is an automaton over the trace of
    accesses, after its data sheet. *)
From S2P Require Export Fields Ports.

Definition MAX_IOAPICS : Z := 32.
Definition IOAPIC_REG_VERSION : Z := 0x1.
Definition IOAPIC_REG_REDIRECT : Z := 0x10.
Definition IOAPIC_REG_REDIRECT_END : Z := 0x3f.
Definition IOAPIC_DELIVERY_FIXED : Z := 0.
Definition IOAPIC_DESTINATION_PHYSICAL : Z := 0.

(** [ioapic_redirect_t] *)
Module Redirect.
Definition lower := BF 0 32.
Definition upper := BF 32 32.
Definition vector := BF 0 8.
Definition delivery := BF 8 3.
Definition destination_mode := BF 11 1.
Definition status := BF 12 1.
Definition polarity := BF 13 1.
Definition remote_irr := BF 14 1.
Definition trigger := BF 15 1.
Definition mask := BF 16 1.
Definition reserved := BF 17 39.
Definition destination := BF 56 8.
End Redirect.

Record routers := Routers {
  rt_ioapics : list Z;  (** [ioapics], by identifier *)
  rt_ports : ports;
}.

Section ioapic.
Context (device : list port_event -> query -> Z).
(** what a redirection entry on the stack holds before it is set *)
Context (stale_redirect : Z).

Abbreviation RT := (ST routers).

Definition on_ports {B} (m : IO B) : RT B := zoom rt_ports (fun p s => Routers (rt_ioapics s) p) m.

Definition ioapic_read (addr reg : Z) : IO Z :=
  _ ← mmio_write addr (Z.land reg 0xff);
  mmio_read device (addr + 16).
Definition ioapic_write (addr reg value : Z) : IO unit :=
  _ ← mmio_write addr (Z.land reg 0xff);
  mmio_write (addr + 16) value.

Definition ioapic_add (ioapic id : Z) : RT unit := fun s =>
  if MAX_IOAPICS <=? id then Some (tt, s)
  else
    match rt_ioapics s !! Z.to_nat id with
    | Some p =>
        if negb (p =? NULL) then Some (tt, s)
        else Some (tt, Routers (<[Z.to_nat id := ioapic]> (rt_ioapics s)) (rt_ports s))
    | None => None
    end.

Definition ioapic_get (id : Z) : RT Z := fun s =>
  if id <? MAX_IOAPICS then
    match rt_ioapics s !! Z.to_nat id with
    | Some p => if negb (p =? NULL) then Some (p, s) else Some (NULL, s)
    | None => None
    end
  else Some (NULL, s).

Definition ioapic_version_raw (id : Z) : RT Z :=
  ioapic ← ioapic_get id;
  if ioapic =? NULL then mret 0 else on_ports (ioapic_read ioapic IOAPIC_REG_VERSION).
Definition ioapic_version (id : Z) : RT Z :=
  v ← ioapic_version_raw id; mret (Z.land v 0xff).
Definition ioapic_max_redirects (id : Z) : RT Z :=
  v ← ioapic_version_raw id; mret (Z.land (Z.shiftr v 16) 0xff).

Definition is_valid_redirect (id entry : Z) : RT bool :=
  ioapic ← ioapic_get id;
  if ioapic =? NULL then mret false
  else
    max ← ioapic_max_redirects id;
    mret (entry <? max).

Definition redirect_index (entry : Z) : Z := w32 (IOAPIC_REG_REDIRECT + w32 (entry * 2)).

Definition ioapic_get_redirect (id entry : Z) : RT Z :=
  ioapic ← ioapic_get id;
  valid ← is_valid_redirect id entry;
  if negb valid then mret stale_redirect
  else
    let index := redirect_index entry in
    lower ← on_ports (ioapic_read ioapic index);
    upper ← on_ports (ioapic_read ioapic (w32 (index + 1)));
    mret (field_set Redirect.upper upper (field_set Redirect.lower lower stale_redirect)).

Definition ioapic_set_redirect (id entry redirect : Z) : RT unit :=
  ioapic ← ioapic_get id;
  valid ← is_valid_redirect id entry;
  if negb valid then mret tt
  else
    let index := redirect_index entry in
    _ ← on_ports (ioapic_write ioapic index (field_get Redirect.lower redirect));
    on_ports (ioapic_write ioapic (w32 (index + 1)) (field_get Redirect.upper redirect)).

Definition ioapic_set_mask (id entry : Z) (mask : bool) : RT unit :=
  ioapic ← ioapic_get id;
  if ioapic =? NULL then mret tt
  else
    redirect ← ioapic_get_redirect id entry;
    ioapic_set_redirect id entry (field_set Redirect.mask (if mask then 1 else 0) redirect).
Definition ioapic_unmask (id entry : Z) : RT unit := ioapic_set_mask id entry false.
Definition ioapic_mask (id entry : Z) : RT unit := ioapic_set_mask id entry true.

(** what the printing of entries does to the router: it reads *)
Definition ioapic_print_redirect (id entry : Z) : RT unit :=
  valid ← is_valid_redirect id entry;
  if negb valid then mret tt
  else
    redirect ← ioapic_get_redirect id entry;
    mret tt.
Fixpoint print_redirects_loop (k : nat) (id i : Z) : RT unit :=
  match k with
  | O => mret tt
  | S k => _ ← ioapic_print_redirect id i; print_redirects_loop k id (i + 1)
  end.
Definition ioapic_print_redirects (id : Z) : RT unit :=
  max_entries ← ioapic_max_redirects id;
  ioapic ← ioapic_get id;
  if ioapic =? NULL then mret tt else print_redirects_loop (Z.to_nat max_entries) id 0.
End ioapic.

(** ** The router *)

(** the register selected, and the registers *)
Record router := Router { ro_select : Z; ro_regs : gmap Z Z }.
Definition ro_reg (d : router) (r : Z) : Z := default 0 (ro_regs d !! r).

(** what a write leaves in a register: the version is read-only, and so are the
    delivery status and the remote IRR of an entry *)
Definition low_of_entry (r : Z) : bool :=
  (IOAPIC_REG_REDIRECT <=? r) && (r <=? IOAPIC_REG_REDIRECT_END) && Z.even r.
Definition written_reg (r old v : Z) : Z :=
  if r =? IOAPIC_REG_VERSION then old
  else if low_of_entry r then
    field_set Redirect.status (field_get Redirect.status old)
      (field_set Redirect.remote_irr (field_get Redirect.remote_irr old) v)
  else v.
Definition router_write (d : router) (v : Z) : router :=
  Router (ro_select d) (<[ro_select d := w32 (written_reg (ro_select d) (ro_reg d (ro_select d)) v)]> (ro_regs d)).
Definition router_step (base : Z) (d : router) (e : port_event) : router :=
  match e with
  | MmioWrite a v =>
      if a =? base then Router (Z.land v 0xff) (ro_regs d)
      else if a =? base + 16 then router_write d v
      else d
  | _ => d
  end.
Definition router_run (base : Z) (t : list port_event) (d : router) : router := fold_left (router_step base) t d.

(** the device at [base] answers what the router, started as [d], has in the
    register selected *)
Definition is_router (device : list port_event -> query -> Z) (base : Z) (d : router) : Prop :=
  forall t, device t (QMmio (base + 16)) = ro_reg (router_run base t d) (ro_select (router_run base t d)).

(** registers are words *)
Definition router_wf (d : router) : Prop := forall r, 0 <= ro_reg d r < 2 ^ 32.

(** the redirections a router has, as [is_valid_redirect] counts them *)
Definition router_entries (d : router) : Z := Z.land (Z.shiftr (ro_reg d IOAPIC_REG_VERSION) 16) 0xff.

Lemma router_write_wf d v : router_wf d -> router_wf (router_write d v).
Proof.
  intros Hd r. unfold router_write, ro_reg. simpl.
  destruct (decide (ro_select d = r)) as [->|]; [rewrite lookup_insert_eq; apply w32_range|].
  rewrite lookup_insert_ne by done. apply Hd.
Qed.

Lemma router_run_wf base t d : router_wf d -> router_wf (router_run base t d).
Proof.
  revert d. induction t as [|e t IH]; intros d Hd; [done|]. apply IH.
  destruct e; try exact Hd. simpl. destruct (_ =? base); [exact Hd|].
  destruct (_ =? _); [by apply router_write_wf|exact Hd].
Qed.

Lemma written_reg_same r old : 0 <= old -> written_reg r old old = old.
Proof.
  intros Ho. unfold written_reg. destruct (r =? _); [done|]. destruct (low_of_entry r); [|done].
  apply Z.bits_inj'. intros n Hn. rewrite !field_set_testbit by field_side. unfold in_field. simpl.
  destruct ((12 <=? n) && (n <? 12 + 1)) eqn:H1.
  - rewrite field_get_testbit by (first [field_side | lia]). simpl.
    replace (n - 12 + 12) with n by lia. destruct (Z.ltb_spec (n - 12) 1); [by rewrite andb_true_r|lia].
  - destruct ((14 <=? n) && (n <? 14 + 1)) eqn:H2; [|done].
    rewrite field_get_testbit by (first [field_side | lia]). simpl.
    replace (n - 14 + 14) with n by lia. destruct (Z.ltb_spec (n - 14) 1); [by rewrite andb_true_r|lia].
Qed.

(** changing the mask bit only is a write the read-only bits do not matter for *)
Lemma written_reg_mask r old b : r <> IOAPIC_REG_VERSION -> 0 <= old ->
  written_reg r old (field_set Redirect.mask b old) = field_set Redirect.mask b old.
Proof.
  intros Hr Ho. pose proof (written_reg_same r (field_set Redirect.mask b old)) as Hsame. revert Hsame.
  unfold written_reg. rewrite (proj2 (Z.eqb_neq _ _) Hr). rewrite !field_get_set_ne by field_side.
  intros Hsame. apply Hsame. unfold field_set. apply Z.lor_nonneg. split.
  - apply Z.ldiff_nonneg. by left.
  - apply Z.shiftl_nonneg. rewrite Z.land_ones by done. by apply Z.mod_pos_bound.
Qed.

(** a word with the read-only bits of the old one is written as it is *)
Lemma written_reg_keep r old v : r <> IOAPIC_REG_VERSION ->
  field_get Redirect.status v = field_get Redirect.status old ->
  field_get Redirect.remote_irr v = field_get Redirect.remote_irr old -> 0 <= v -> written_reg r old v = v.
Proof.
  intros Hr Hs Hi Hv. rewrite <- (written_reg_same r v Hv) at 2. unfold written_reg.
  rewrite (proj2 (Z.eqb_neq _ _) Hr). by rewrite Hs, Hi.
Qed.

(** the two registers of an entry as one word *)
Definition redirect_of (d : router) (entry : Z) : Z :=
  ro_reg d (16 + 2 * entry) + 2 ^ 32 * ro_reg d (17 + 2 * entry).

Lemma field_get_lower f r : field_ok f -> bf_off f + bf_width f <= 32 ->
  field_get f (field_get Redirect.lower r) = field_get f r.
Proof.
  intros Hf H32. pose proof Hf as [? ?]. apply Z.bits_inj'. intros n Hn. rewrite !field_get_testbit by (first [done|field_side|lia]).
  simpl. rewrite Z.add_0_r. destruct (Z.ltb_spec n (bf_width f)); [|by rewrite !andb_false_r].
  rewrite (proj2 (Z.ltb_lt _ 32)) by lia. by rewrite andb_true_r.
Qed.

Lemma field_get_low_half f l u : field_ok f -> bf_off f + bf_width f <= 32 -> 0 <= l < 2 ^ 32 ->
  field_get f (l + 2 ^ 32 * u) = field_get f l.
Proof.
  intros Hf H32 Hl. rewrite <- (field_get_lower f (l + 2 ^ 32 * u)) by done. f_equal.
  unfold field_get. simpl. rewrite Z.shiftr_0_r, Z.land_ones by done. rewrite Z.mul_comm, Z.mod_add by done.
  by apply Z.mod_small.
Qed.

(** a field of the word is a field of one that has the same halves *)
Lemma field_get_halves f r l u : field_ok f -> bf_off f + bf_width f <= 64 ->
  field_get Redirect.lower r = l -> field_get Redirect.upper r = u -> field_get f (l + 2 ^ 32 * u) = field_get f r.
Proof.
  intros Hf H64 <- <-. pose proof Hf as [? ?]. change (2 ^ 32) with (2 ^ bf_width Redirect.lower).
  rewrite field_join by field_side. apply Z.bits_inj'. intros n Hn.
  rewrite !field_get_testbit by done. destruct (Z.ltb_spec n (bf_width f)); [|by rewrite !andb_false_r].
  rewrite Z.lor_spec, Z.shiftl_spec by lia. rewrite !andb_true_r. rewrite field_get_testbit by (first [field_side|lia]).
  simpl. rewrite Z.add_0_r. destruct (Z.ltb_spec (n + bf_off f) 32).
  - rewrite andb_true_r, (Z.testbit_neg_r (field_get _ _)) by lia. by rewrite orb_false_r.
  - rewrite field_get_testbit by (first [field_side|lia]). simpl.
    rewrite (proj2 (Z.ltb_lt _ 32)) by lia. rewrite andb_false_r, andb_true_r. cbn [orb].
    by replace (n + bf_off f - 32 + 32) with (n + bf_off f) by lia.
Qed.

Section spec.
Context (device : list port_event -> query -> Z) (stale_redirect base id : Z) (d0 : router).
Context (Hbase : 0 < base) (Htop : base + 16 < 2 ^ 32) (Hid : 0 <= id < MAX_IOAPICS).
Context (Hdev : is_router device base d0) (Hwf : router_wf d0).

(** the code holds the address [base] under [id], and the router there is in
    the state [d] *)
Definition drives (s : routers) (d : router) : Prop :=
  rt_ioapics s !! Z.to_nat id = Some base /\ router_run base (po_trace (rt_ports s)) d0 = d.

Lemma router_run_app t1 t2 d : router_run base (t1 ++ t2) d = router_run base t2 (router_run base t1 d).
Proof. apply fold_left_app. Qed.

Lemma drives_wf s d : drives s d -> router_wf d.
Proof. intros [_ <-]. by apply router_run_wf. Qed.

Lemma ioapic_read_ok s d reg : drives s d ->
  exists s', on_ports (ioapic_read device base reg) s = Some (ro_reg d (Z.land reg 0xff), s') /\
    drives s' (Router (Z.land reg 0xff) (ro_regs d)) /\ rt_ioapics s' = rt_ioapics s.
Proof.
  intros Hd. pose proof (drives_wf s d Hd) as Hdwf. destruct Hd as [Hg Hr].
  assert (Hreg : 0 <= Z.land reg 0xff < 2 ^ 8) by (change 0xff with (Z.ones 8); rewrite Z.land_ones by done; by apply Z.mod_pos_bound).
  assert (Hsel : router_run base (po_trace (rt_ports s) ++ [MmioWrite base (Z.land reg 0xff)]) d0 = Router (Z.land reg 0xff) (ro_regs d)).
  { rewrite router_run_app, Hr. simpl. rewrite Z.eqb_refl. f_equal.
    change 0xff with (Z.ones 8). rewrite !Z.land_ones by done. by rewrite Z.mod_mod. }
  destruct s as [g [t i]]. simpl in *.
  assert (Hval : w32 (device (t ++ [MmioWrite base (Z.land reg 0xff)]) (QMmio (base + 16))) = ro_reg d (Z.land reg 0xff)).
  { rewrite (Hdev (t ++ [MmioWrite base (Z.land reg 0xff)])), Hsel. apply w32_small. apply Hdwf. }
  eexists. split; [|split; [split|]].
  - unfold on_ports, zoom, ioapic_read, mmio_write, mmio_read, emit. unfold_st. cbv [mbind ST_bind]. cbn [po_trace po_initialized rt_ports rt_ioapics].
    rewrite !(w32_small base), !(w32_small (base + 16)), !(w32_small (Z.land reg 0xff)) by lia. rewrite Hval. reflexivity.
  - simpl. exact Hg.
  - simpl. rewrite router_run_app, Hsel. reflexivity.
  - reflexivity.
Qed.

Lemma ioapic_write_ok s d reg v : drives s d -> 0 <= v < 2 ^ 32 ->
  exists s', on_ports (ioapic_write base reg v) s = Some (tt, s') /\
    drives s' (router_write (Router (Z.land reg 0xff) (ro_regs d)) v) /\ rt_ioapics s' = rt_ioapics s.
Proof.
  intros [Hg Hr] Hv.
  assert (Hreg : 0 <= Z.land reg 0xff < 2 ^ 8) by (change 0xff with (Z.ones 8); rewrite Z.land_ones by done; by apply Z.mod_pos_bound).
  destruct s as [g [t i]]. eexists. split; [reflexivity|]. split; [|reflexivity]. split; [exact Hg|].
  simpl in *. rewrite !(w32_small base), (w32_small (base + 16)), (w32_small (Z.land reg 0xff)), (w32_small v) by lia.
  rewrite !router_run_app, Hr. simpl. rewrite Z.eqb_refl. rewrite (proj2 (Z.eqb_neq (base + 16) base)) by lia.
  rewrite Z.eqb_refl. unfold router_write. simpl.
  enough (Z.land (Z.land reg 0xff) 0xff = Z.land reg 0xff) as -> by done.
  change 0xff with (Z.ones 8). rewrite !Z.land_ones by done. by rewrite Z.mod_mod.
Qed.

Lemma ioapic_get_ok s d : drives s d -> ioapic_get id s = Some (base, s).
Proof.
  intros [Hg _]. unfold ioapic_get. rewrite (proj2 (Z.ltb_lt _ _)) by lia. rewrite Hg.
  by rewrite (proj2 (Z.eqb_neq base NULL)) by (unfold NULL; lia).
Qed.

Lemma is_valid_redirect_ok s d entry : drives s d ->
  exists s', is_valid_redirect device id entry s = Some (entry <? router_entries d, s') /\
    drives s' (Router IOAPIC_REG_VERSION (ro_regs d)) /\ rt_ioapics s' = rt_ioapics s.
Proof.
  intros Hd. destruct (ioapic_read_ok s d IOAPIC_REG_VERSION Hd) as (s' & Hrun & Hd' & Hg).
  exists s'. split; [|by split]. unfold is_valid_redirect, ioapic_max_redirects, ioapic_version_raw.
  rewrite (ST_run _ _ _ _ _ (ioapic_get_ok s d Hd)). rewrite (proj2 (Z.eqb_neq base NULL)) by (unfold NULL; lia).
  rewrite !ST_bind_eq, (ioapic_get_ok s d Hd), (proj2 (Z.eqb_neq base NULL)) by (unfold NULL; lia).
  rewrite Hrun. reflexivity.
Qed.

(** an entry the router does not have is not read nor written *)
Lemma ioapic_get_redirect_bad s d entry : drives s d -> router_entries d <= entry ->
  exists s', ioapic_get_redirect device stale_redirect id entry s = Some (stale_redirect, s') /\
    drives s' (Router IOAPIC_REG_VERSION (ro_regs d)) /\ rt_ioapics s' = rt_ioapics s.
Proof.
  intros Hd He. destruct (is_valid_redirect_ok s d entry Hd) as (s1 & Hrun1 & Hd1 & Hg1).
  exists s1. split; [|by split]. unfold ioapic_get_redirect.
  rewrite (ST_run _ _ _ _ _ (ioapic_get_ok s d Hd)), (ST_run _ _ _ _ _ Hrun1).
  by rewrite (proj2 (Z.ltb_ge entry _)) by lia.
Qed.

Lemma ioapic_set_redirect_bad s d entry r : drives s d -> router_entries d <= entry ->
  exists s', ioapic_set_redirect device id entry r s = Some (tt, s') /\
    drives s' (Router IOAPIC_REG_VERSION (ro_regs d)) /\ rt_ioapics s' = rt_ioapics s.
Proof.
  intros Hd He. destruct (is_valid_redirect_ok s d entry Hd) as (s1 & Hrun1 & Hd1 & Hg1).
  exists s1. split; [|by split]. unfold ioapic_set_redirect.
  rewrite (ST_run _ _ _ _ _ (ioapic_get_ok s d Hd)), (ST_run _ _ _ _ _ Hrun1).
  by rewrite (proj2 (Z.ltb_ge entry _)) by lia.
Qed.

(** the entries can be named in a register number of eight bits *)
Context (Hmax : router_entries d0 <= 120).

Lemma entries_same t : router_entries (router_run base t d0) = router_entries d0.
Proof.
  unfold router_entries. f_equal. f_equal. clear Hmax Hdev. revert Hwf. generalize d0.
  induction t as [|e t IH]; intros d Hd; [done|]. simpl.
  assert (Hd' : router_wf (router_step base d e)) by (apply (router_run_wf base [e] d Hd)).
  rewrite (IH _ Hd'). destruct e; try done. simpl. destruct (_ =? base); [done|]. destruct (_ =? _); [|done].
  unfold router_write, ro_reg at 1. simpl. destruct (decide (ro_select d = IOAPIC_REG_VERSION)) as [->|].
  - rewrite lookup_insert_eq. simpl. unfold written_reg. rewrite Z.eqb_refl. apply w32_small, Hd.
  - by rewrite lookup_insert_ne.
Qed.

Lemma entry_register s d entry : drives s d -> 0 <= entry < router_entries d ->
  redirect_index entry = 16 + 2 * entry /\ w32 (redirect_index entry + 1) = 17 + 2 * entry /\
  Z.land (16 + 2 * entry) 0xff = 16 + 2 * entry /\ Z.land (17 + 2 * entry) 0xff = 17 + 2 * entry /\ entry < 120.
Proof.
  intros [_ Hr] He. rewrite <- Hr, entries_same in He. unfold redirect_index, IOAPIC_REG_REDIRECT.
  rewrite (w32_small (entry * 2)), (w32_small (16 + entry * 2)), (w32_small (_ + 1)) by lia.
  change 0xff with (Z.ones 8). rewrite !Z.land_ones by done. rewrite !Z.mod_small by lia. lia.
Qed.

Lemma ioapic_get_redirect_ok s d entry : drives s d -> 0 <= entry < router_entries d ->
  exists s' r, ioapic_get_redirect device stale_redirect id entry s = Some (r, s') /\
    field_get Redirect.lower r = ro_reg d (16 + 2 * entry) /\ field_get Redirect.upper r = ro_reg d (17 + 2 * entry) /\
    drives s' (Router (17 + 2 * entry) (ro_regs d)) /\ rt_ioapics s' = rt_ioapics s.
Proof.
  intros Hd He. destruct (entry_register s d entry Hd He) as (Hi & Hi1 & Hl & Hu & _). pose proof (drives_wf s d Hd) as Hdwf.
  destruct (is_valid_redirect_ok s d entry Hd) as (s1 & Hrun1 & Hd1 & Hg1).
  destruct (ioapic_read_ok s1 _ (16 + 2 * entry) Hd1) as (s2 & Hrun2 & Hd2 & Hg2).
  destruct (ioapic_read_ok s2 _ (17 + 2 * entry) Hd2) as (s3 & Hrun3 & Hd3 & Hg3).
  rewrite Hl in Hrun2, Hd2. rewrite Hu in Hrun3, Hd3. eexists s3, _. split.
  { unfold ioapic_get_redirect. rewrite (ST_run _ _ _ _ _ (ioapic_get_ok s d Hd)), (ST_run _ _ _ _ _ Hrun1).
    rewrite (proj2 (Z.ltb_lt entry _)) by lia. cbn [negb]. rewrite Hi1, Hi.
    rewrite (ST_run _ _ _ _ _ Hrun2), (ST_run _ _ _ _ _ Hrun3). reflexivity. }
  split; [|split; [|split; [exact Hd3|congruence]]].
  - rewrite field_get_set_ne, field_get_set by field_side. apply Z.mod_small, Hdwf.
  - rewrite field_get_set by field_side. apply Z.mod_small, Hdwf.
Qed.

Lemma ioapic_set_redirect_ok s d entry r : drives s d -> 0 <= entry < router_entries d ->
  exists s' d', ioapic_set_redirect device id entry r s = Some (tt, s') /\ drives s' d' /\ rt_ioapics s' = rt_ioapics s /\
    forall x, ro_reg d' x =
      if x =? 16 + 2 * entry then w32 (written_reg x (ro_reg d x) (field_get Redirect.lower r))
      else if x =? 17 + 2 * entry then w32 (written_reg x (ro_reg d x) (field_get Redirect.upper r))
      else ro_reg d x.
Proof.
  intros Hd He. destruct (entry_register s d entry Hd He) as (Hi & Hi1 & Hl & Hu & _).
  destruct (is_valid_redirect_ok s d entry Hd) as (s1 & Hrun1 & Hd1 & Hg1).
  destruct (ioapic_write_ok s1 _ (16 + 2 * entry) (field_get Redirect.lower r) Hd1) as (s2 & Hrun2 & Hd2 & Hg2);
    [by apply field_get_range|].
  destruct (ioapic_write_ok s2 _ (17 + 2 * entry) (field_get Redirect.upper r) Hd2) as (s3 & Hrun3 & Hd3 & Hg3);
    [by apply field_get_range|].
  rewrite Hl in Hd2, Hd3. rewrite Hu in Hd3. eexists s3, _. split; [|split; [exact Hd3|split; [congruence|]]].
  { unfold ioapic_set_redirect. rewrite (ST_run _ _ _ _ _ (ioapic_get_ok s d Hd)), (ST_run _ _ _ _ _ Hrun1).
    rewrite (proj2 (Z.ltb_lt entry _)) by lia. cbn [negb]. rewrite Hi1, Hi.
    rewrite (ST_run _ _ _ _ _ Hrun2). exact Hrun3. }
  intros x. unfold router_write, ro_reg. cbn [ro_select ro_regs].
  destruct (Z.eqb_spec x (16 + 2 * entry)) as [->|Hx].
  - rewrite lookup_insert_ne by lia. by rewrite lookup_insert_eq.
  - destruct (Z.eqb_spec x (17 + 2 * entry)) as [->|Hx'].
    + rewrite lookup_insert_eq. by rewrite lookup_insert_ne by lia.
    + by rewrite !lookup_insert_ne by lia.
Qed.

(** a word with the read-only bits the entry has is what the entry then is *)
Lemma ioapic_set_redirect_keep s d entry r : drives s d -> 0 <= entry < router_entries d ->
  field_get Redirect.status r = field_get Redirect.status (redirect_of d entry) ->
  field_get Redirect.remote_irr r = field_get Redirect.remote_irr (redirect_of d entry) ->
  exists s' d', ioapic_set_redirect device id entry r s = Some (tt, s') /\ drives s' d' /\ rt_ioapics s' = rt_ioapics s /\
    router_entries d' = router_entries d /\
    (forall f, field_ok f -> bf_off f + bf_width f <= 64 -> field_get f (redirect_of d' entry) = field_get f r) /\
    forall x, x <> 16 + 2 * entry -> x <> 17 + 2 * entry -> ro_reg d' x = ro_reg d x.
Proof.
  intros Hd He Hst Hirr. pose proof (drives_wf s d Hd) as Hdwf.
  destruct (ioapic_set_redirect_ok s d entry r Hd He) as (s' & d' & Hrun & Hd' & Hg & Hregs).
  assert (Hlow : ro_reg d' (16 + 2 * entry) = field_get Redirect.lower r).
  { rewrite Hregs, Z.eqb_refl. rewrite written_reg_keep; [by apply w32_small, field_get_range|unfold IOAPIC_REG_VERSION; lia| | |by apply field_get_range].
    - transitivity (field_get Redirect.status r); [by apply field_get_lower|]. rewrite Hst.
      unfold redirect_of. apply field_get_low_half; [field_side|by vm_compute|apply Hdwf].
    - transitivity (field_get Redirect.remote_irr r); [by apply field_get_lower|]. rewrite Hirr.
      unfold redirect_of. apply field_get_low_half; [field_side|by vm_compute|apply Hdwf]. }
  assert (Hup : ro_reg d' (17 + 2 * entry) = field_get Redirect.upper r).
  { rewrite Hregs, (proj2 (Z.eqb_neq (17 + 2 * entry) _)), Z.eqb_refl by lia.
    assert (Hodd : low_of_entry (17 + 2 * entry) = false).
    { unfold low_of_entry. by rewrite Z.even_add_mul_2, andb_false_r. }
    unfold written_reg. rewrite (proj2 (Z.eqb_neq _ IOAPIC_REG_VERSION)), Hodd by (unfold IOAPIC_REG_VERSION; lia).
    by apply w32_small, field_get_range. }
  exists s', d'. split; [done|]. split; [done|]. split; [done|]. split; [|split].
  - destruct Hd as [_ <-], Hd' as [_ <-]. by rewrite !entries_same.
  - intros f Hf H64. unfold redirect_of. apply (field_get_halves f r); [done|done|done|done].
  - intros x H1 H2. rewrite Hregs. by rewrite (proj2 (Z.eqb_neq x _)), (proj2 (Z.eqb_neq x (17 + 2 * entry))).
Qed.

Lemma ioapic_print_redirect_ok s d entry : drives s d -> 0 <= entry ->
  exists s' sel, ioapic_print_redirect device stale_redirect id entry s = Some (tt, s') /\
    drives s' (Router sel (ro_regs d)) /\ rt_ioapics s' = rt_ioapics s.
Proof.
  intros Hd He. unfold ioapic_print_redirect.
  destruct (is_valid_redirect_ok s d entry Hd) as (s1 & Hrun1 & Hd1 & Hg1). rewrite (ST_run _ _ _ _ _ Hrun1).
  destruct (Z.ltb_spec entry (router_entries d)) as [Hlt|Hge]; cbn [negb].
  - destruct (ioapic_get_redirect_ok s1 _ entry Hd1 (conj He Hlt)) as (s2 & r & Hrun2 & _ & _ & Hd2 & Hg2).
    exists s2, (17 + 2 * entry). rewrite (ST_run _ _ _ _ _ Hrun2). split; [done|]. split; [exact Hd2|congruence].
  - exists s1, IOAPIC_REG_VERSION. by split.
Qed.

(** masking or unmasking an interrupt changes bit 16 of the low register of
    its redirection entry and no other bit of any register of the router; for
    an entry the router does not have, no register changes, and the code leaves
    its own table alone. *)
Theorem ioapic_set_mask_spec s d entry b : drives s d -> 0 <= entry < 2 ^ 32 ->
  exists s' d', ioapic_set_mask device stale_redirect id entry b s = Some (tt, s') /\
    drives s' d' /\ rt_ioapics s' = rt_ioapics s /\
    forall x, ro_reg d' x =
      if (x =? 16 + 2 * entry) && (entry <? router_entries d)
      then field_set Redirect.mask (if b then 1 else 0) (ro_reg d x)
      else ro_reg d x.
Proof.
  intros Hd He. unfold ioapic_set_mask. rewrite (ST_run _ _ _ _ _ (ioapic_get_ok s d Hd)).
  rewrite (proj2 (Z.eqb_neq base NULL)) by (unfold NULL; lia).
  destruct (Z.ltb_spec entry (router_entries d)) as [Hlt|Hge].
  - pose proof (drives_wf s d Hd) as Hdwf.
    destruct (ioapic_get_redirect_ok s d entry Hd) as (s1 & r & Hrun1 & Hlow & Hup & Hd1 & Hg1); [lia|].
    destruct (ioapic_set_redirect_ok s1 _ entry (field_set Redirect.mask (if b then 1 else 0) r) Hd1)
      as (s2 & d2 & Hrun2 & Hd2 & Hg2 & Hregs); [exact (conj (proj1 He) Hlt)|].
    exists s2, d2. split; [by rewrite (ST_run _ _ _ _ _ Hrun1)|]. split; [done|]. split; [congruence|].
    intros x. rewrite Hregs, andb_true_r. change (ro_reg (Router _ (ro_regs d)) x) with (ro_reg d x).
    assert (Hlow' : field_get Redirect.lower (field_set Redirect.mask (if b then 1 else 0) r) =
      field_set Redirect.mask (if b then 1 else 0) (ro_reg d (16 + 2 * entry))).
    { rewrite <- Hlow. apply Z.bits_inj'. intros n Hn.
      rewrite field_get_testbit, !field_set_testbit, field_get_testbit by (first [field_side | simpl; lia]). unfold in_field. simpl.
      rewrite !Z.add_0_r. destruct ((16 <=? n) && (n <? 16 + 1)) eqn:Hin; [|done].
      apply andb_true_iff in Hin as [_ Hin%Z.ltb_lt]. rewrite (proj2 (Z.ltb_lt n 32)) by lia. by rewrite andb_true_r. }
    destruct (Z.eqb_spec x (16 + 2 * entry)) as [->|Hx].
    + rewrite Hlow', written_reg_mask by (first [apply Hdwf | unfold IOAPIC_REG_VERSION; lia]).
      apply w32_small. apply field_set_range; [field_side|simpl; lia|apply Hdwf].
    + destruct (Z.eqb_spec x (17 + 2 * entry)) as [->|Hx']; [|done].
      rewrite field_get_set_ne, Hup by field_side. rewrite written_reg_same by apply Hdwf. apply w32_small, Hdwf.
  - destruct (ioapic_get_redirect_bad s d entry Hd Hge) as (s1 & Hrun1 & Hd1 & Hg1).
    destruct (ioapic_set_redirect_bad s1 _ entry (field_set Redirect.mask (if b then 1 else 0) stale_redirect) Hd1 Hge)
      as (s2 & Hrun2 & Hd2 & Hg2).
    exists s2, (Router IOAPIC_REG_VERSION (ro_regs d)). split; [by rewrite (ST_run _ _ _ _ _ Hrun1)|].
    split; [exact Hd2|]. split; [congruence|]. intros x. by rewrite andb_false_r.
Qed.

(** what [ioapic_get_redirect] reads back after [ioapic_set_redirect] is the
    entry that was set, but for the two bits the router keeps to itself, which
    are the ones it had. *)
Theorem ioapic_redirect_roundtrip s d entry r : drives s d -> 0 <= entry < router_entries d -> 0 <= r < 2 ^ 64 ->
  entry < 24 ->
  exists s1 s2 r', ioapic_set_redirect device id entry r s = Some (tt, s1) /\
    ioapic_get_redirect device stale_redirect id entry s1 = Some (r', s2) /\
    field_get Redirect.lower r' =
      field_set Redirect.status (field_get Redirect.status (ro_reg d (16 + 2 * entry)))
        (field_set Redirect.remote_irr (field_get Redirect.remote_irr (ro_reg d (16 + 2 * entry)))
          (field_get Redirect.lower r)) /\
    field_get Redirect.upper r' = field_get Redirect.upper r.
Proof.
  intros Hd He Hr H24.
  destruct (ioapic_set_redirect_ok s d entry r Hd He) as (s1 & d1 & Hrun1 & Hd1 & _ & Hregs).
  assert (He1 : router_entries d1 = router_entries d) by (destruct Hd as [_ <-], Hd1 as [_ <-]; by rewrite !entries_same).
  destruct (ioapic_get_redirect_ok s1 d1 entry Hd1) as (s2 & r' & Hrun2 & Hlow & Hup & _); [by rewrite He1|].
  exists s1, s2, r'. split; [done|]. split; [done|]. rewrite Hlow, Hup, !Hregs, Z.eqb_refl.
  rewrite (proj2 (Z.eqb_neq (17 + 2 * entry) _)), Z.eqb_refl by lia.
  unfold written_reg, low_of_entry, IOAPIC_REG_REDIRECT, IOAPIC_REG_REDIRECT_END, IOAPIC_REG_VERSION.
  rewrite !(proj2 (Z.eqb_neq _ 1)) by lia.
  rewrite !Z.even_add_mul_2. cbn [Z.even]. rewrite andb_false_r, andb_true_r.
  rewrite (proj2 (Z.leb_le 16 (16 + 2 * entry))), (proj2 (Z.leb_le (16 + 2 * entry) 63)) by lia. cbn [andb].
  split; apply w32_small; [|by apply field_get_range].
  by repeat (apply field_set_range; [field_side|simpl; lia|]); apply field_get_range.
Qed.
End spec.

(** ** A router with 23 entries *)

Definition ex_router : router := Router 0 (<[IOAPIC_REG_VERSION := 0x170011]> (<[0x14 := 0x1931]> ∅)).
Definition ex_base : Z := 0xfec00000.
Definition ex_ioapic_device (t : list port_event) (q : query) : Z :=
  match q with
  | QMmio a => if a =? ex_base + 16 then ro_reg (router_run ex_base t ex_router) (ro_select (router_run ex_base t ex_router)) else 0
  | _ => 0
  end.
Definition ex_routers : routers := Routers (<[2%nat := ex_base]> (replicate 32 0)) (Ports [] true).

Lemma ex_router_wf : router_wf ex_router.
Proof.
  intros r. unfold ro_reg, ex_router. simpl. destruct (decide (r = 1)) as [->|]; [by vm_compute|].
  rewrite lookup_insert_ne by (unfold IOAPIC_REG_VERSION; lia).
  destruct (decide (r = 0x14)) as [->|]; [by vm_compute|]. rewrite lookup_insert_ne by lia. by vm_compute.
Qed.

Lemma ex_is_router : is_router ex_ioapic_device ex_base ex_router.
Proof. intros t. unfold ex_ioapic_device. by rewrite Z.eqb_refl. Qed.
Lemma ex_drives : drives ex_base 2 ex_router ex_routers ex_router.
Proof. split; reflexivity. Qed.

Lemma ioapic_set_mask_spec_witness : exists s' d',
  ioapic_set_mask ex_ioapic_device 7 2 2 true ex_routers = Some (tt, s') /\
  drives ex_base 2 ex_router s' d' /\ ro_reg d' 0x14 = 0x11931 /\ ro_reg d' 0x15 = 0.
Proof.
  destruct (ioapic_set_mask_spec ex_ioapic_device 7 ex_base 2 ex_router ltac:(unfold ex_base; lia) ltac:(unfold ex_base; lia)
    ltac:(unfold MAX_IOAPICS; lia) ex_is_router ex_router_wf ltac:(by vm_compute) ex_routers ex_router 2 true ex_drives ltac:(lia))
    as (s' & d' & Hrun & Hd & _ & Hregs).
  exists s', d'. split; [exact Hrun|]. split; [exact Hd|]. rewrite !Hregs. split; vm_compute; reflexivity.
Defined.

Lemma ioapic_redirect_roundtrip_witness : exists s1 s2 r',
  ioapic_set_redirect ex_ioapic_device 2 2 0x0300000000000045 ex_routers = Some (tt, s1) /\
  ioapic_get_redirect ex_ioapic_device 7 2 2 s1 = Some (r', s2) /\
  field_get Redirect.lower r' = 0x1045 /\ field_get Redirect.upper r' = 0x03000000.
Proof.
  destruct (ioapic_redirect_roundtrip ex_ioapic_device 7 ex_base 2 ex_router ltac:(unfold ex_base; lia) ltac:(unfold ex_base; lia)
    ltac:(unfold MAX_IOAPICS; lia) ex_is_router ex_router_wf ltac:(by vm_compute) ex_routers ex_router 2 0x0300000000000045
    ex_drives ltac:(by vm_compute) ltac:(lia) ltac:(lia)) as (s1 & s2 & r' & Hrun1 & Hrun2 & Hl & Hu).
  exists s1, s2, r'. split; [exact Hrun1|]. split; [exact Hrun2|]. rewrite Hl, Hu. split; vm_compute; reflexivity.
Defined.
