(* ===== verification/Region.v ===== *)
(** Regions ([src/mm/region.c], [include/c4/mm/region.h]): page-granular
    allocators over a bitmap, used for the physical memory of the kernel, and,
    with a page mapped or unmapped on the way, for its virtual memory.

    [map_page] and [unmap_page] are the functions of [arch/x86/paging.c] that
    a region in virtual mode calls; they act on a memory state [M], over which
    this file is parametric. *)
From S2P Require Export Bitmap.

Definition PAGE_SIZE : Z := 0x1000.

Definition REGION_MODE_VIRTUAL : Z := 0.
Definition REGION_MODE_PHYSICAL : Z := 1.

Definition PAGE_READ : Z := 1.
Definition PAGE_WRITE : Z := 2.
Definition PAGE_EXECUTE : Z := 4.
Definition PAGE_SUPERVISOR : Z := 8.

Record region := Region {
  r_bitmap : list Z;
  r_vaddress : Z;
  r_num_pages : Z;
  r_available : Z;
  r_page_flags : Z;
  r_mode : Z;
}.

Definition set_r_bitmap (b : list Z) (avail : Z) (r : region) : region :=
  Region b (r_vaddress r) (r_num_pages r) avail (r_page_flags r) (r_mode r).

Section region.
Context {M : Type}.
Context (map_page : Z -> Z -> ST M Z) (unmap_page : Z -> ST M unit).

Definition region_alloc (r : region) : ST M (Z * region) :=
  if r_available r =? 0 then mret (NULL, r)
  else
    n ← lift_opt (bitmap_first_free (r_bitmap r) (r_num_pages r));
    let addr := w32 (r_vaddress r + n * PAGE_SIZE) in
    b ← lift_opt (bitmap_set (r_bitmap r) (w32 n));
    let r' := set_r_bitmap b (w32 (r_available r - 1)) r in
    _ ← (if r_mode r =? REGION_MODE_VIRTUAL
         then map_page (r_page_flags r) addr else mret NULL);
    mret (addr, r').

Definition region_free (r : region) (page : Z) : ST M region :=
  let n := w32 (page - r_vaddress r) / PAGE_SIZE in
  _ ← when_st (r_mode r =? REGION_MODE_VIRTUAL) (unmap_page page);
  b ← lift_opt (bitmap_unset (r_bitmap r) n);
  mret (set_r_bitmap b (w32 (r_available r + 1)) r).

(** the clearing loop of [region_init_at] *)
Fixpoint region_clear (fuel : nat) (bitmap : list Z) (i num_pages : Z)
    : option (list Z) :=
  match fuel with
  | O => None
  | S fuel =>
      if i <? num_pages then
        b ← bitmap_unset bitmap i;
        region_clear fuel b (w32 (i + 1)) num_pages
      else Some bitmap
  end.

Definition region_init_at (vaddress : Z) (bitmap : list Z)
    (num_pages page_flags mode : Z) : option region :=
  b ← region_clear (S (Z.to_nat num_pages)) bitmap 0 num_pages;
  Some (Region b vaddress num_pages num_pages page_flags mode).

(** the static [global_region] and [initialized] of the file *)
Record region_globals := RegionGlobals {
  rg_region : region;
  rg_initialized : bool;
}.

Definition region_init_global (addr : Z) (g : region_globals)
    : option region_globals :=
  if negb (rg_initialized g) then
    r ← region_init_at addr (r_bitmap (rg_region g)) (32 * BITMAP_BPS)
          (Z.lor (Z.lor PAGE_READ PAGE_WRITE) PAGE_SUPERVISOR)
          REGION_MODE_VIRTUAL;
    Some (RegionGlobals r true)
  else Some g.

(** ** The invariant *)

Definition region_pages (r : region) : nat := Z.to_nat (r_num_pages r).

(** the page addresses handed out *)
Definition region_owns (r : region) (p : Z) : Prop :=
  exists k, (k < region_pages r)%nat /\
    p = r_vaddress r + Z.of_nat k * PAGE_SIZE /\ bm_bit (r_bitmap r) k = true.

(** the fields describe a page-aligned range of the address space, and
    [available] counts the clear bits *)
Record region_inv (r : region) : Prop := {
  ri_wf : bm_wf (r_bitmap r);
  ri_len : (region_pages r <= 32 * length (r_bitmap r))%nat;
  ri_num : 0 <= r_num_pages r;
  ri_base : 0 < r_vaddress r;
  ri_align : r_vaddress r mod PAGE_SIZE = 0;
  ri_top : r_vaddress r + r_num_pages r * PAGE_SIZE <= 2 ^ 32;
  ri_count : r_available r =
    r_num_pages r - Z.of_nat (count_true (bm_bits (r_bitmap r) (region_pages r)));
}.

Lemma region_inv_small r : region_inv r -> r_num_pages r < 2 ^ 21.
Proof. intros []. unfold PAGE_SIZE in *. lia. Qed.

Lemma region_pages_Z r : region_inv r -> Z.of_nat (region_pages r) = r_num_pages r.
Proof. intros []. unfold region_pages. lia. Qed.

Lemma region_avail_range r : region_inv r -> 0 <= r_available r <= r_num_pages r.
Proof.
  intros Hi. pose proof (region_pages_Z r Hi).
  pose proof (count_true_le (bm_bits (r_bitmap r) (region_pages r))) as Hc.
  rewrite bm_bits_length in Hc. rewrite (ri_count r Hi). lia.
Qed.

(** what [bitmap_first_free] finds when a page is left *)
Lemma region_first_free r :
  region_inv r -> r_available r <> 0 ->
  exists k, bitmap_first_free (r_bitmap r) (r_num_pages r) = Some (Z.of_nat k) /\
    (k < region_pages r)%nat /\ bm_bit (r_bitmap r) k = false /\
    forall j, (j < k)%nat -> bm_bit (r_bitmap r) j = true.
Proof.
  intros Hi Ha. pose proof (region_inv_small r Hi). pose proof (region_pages_Z r Hi) as Hp.
  destruct (bitmap_first_free_least (r_bitmap r) (region_pages r)) as [Hk|[_ Hall]].
  - apply Hi.
  - lia.
  - by rewrite Hp in Hk.
  - exfalso. apply Ha. rewrite (ri_count r Hi), bm_bits_all_true by done. lia.
Qed.

(** changing one bit below [num_pages] and [available] with it *)
Lemma region_inv_update r b k (v : bool) :
  region_inv r -> (k < region_pages r)%nat -> bm_bit (r_bitmap r) k = negb v ->
  bm_wf b -> length b = length (r_bitmap r) ->
  (forall j, bm_bit b j = if decide (k = j) then v else bm_bit (r_bitmap r) j) ->
  region_inv (set_r_bitmap b (r_available r + if v then -1 else 1) r).
Proof.
  intros Hi Hk Hold Hwf Hlen Hb. destruct Hi as [? ? ? ? ? ? Hc].
  split; simpl; try done.
  - by rewrite Hlen.
  - change (region_pages (set_r_bitmap b _ r)) with (region_pages r).
    rewrite (bm_bits_insert (r_bitmap r) b (region_pages r) k v Hk Hb).
    pose proof (count_true_insert (bm_bits (r_bitmap r) (region_pages r)) k (negb v) v) as Hi.
    rewrite bm_bits_lookup, decide_True, Hold in Hi by done.
    specialize (Hi eq_refl). rewrite Hc. destruct v; simpl in Hi; lia.
Qed.

(** the page address of index [k] *)
Lemma region_page_addr r k :
  region_inv r -> (k < region_pages r)%nat ->
  w32 (r_vaddress r + Z.of_nat k * PAGE_SIZE)
    = r_vaddress r + Z.of_nat k * PAGE_SIZE /\
  w32 (Z.of_nat k) = Z.of_nat k /\
  w32 (r_vaddress r + Z.of_nat k * PAGE_SIZE - r_vaddress r) / PAGE_SIZE
    = Z.of_nat k.
Proof.
  intros Hi Hk. pose proof (region_pages_Z r Hi). destruct Hi. unfold PAGE_SIZE in *.
  split_and!; [apply w32_small; lia|apply w32_small; lia|].
  rewrite w32_small by lia.
  replace (r_vaddress r + Z.of_nat k * 4096 - r_vaddress r) with (Z.of_nat k * 4096) by lia.
  by rewrite Z.div_mul.
Qed.

Lemma region_owns_set r b k avail p :
  (k < region_pages r)%nat ->
  (forall j, bm_bit b j = if decide (k = j) then true else bm_bit (r_bitmap r) j) ->
  region_owns (set_r_bitmap b avail r) p <->
  region_owns r p \/ p = r_vaddress r + Z.of_nat k * PAGE_SIZE.
Proof.
  intros Hk Hb. unfold region_owns; simpl.
  change (region_pages (set_r_bitmap b avail r)) with (region_pages r). split.
  - intros (j & Hj & -> & Hbit). rewrite Hb in Hbit. case_decide; subst; eauto.
  - intros [(j & Hj & -> & Hbit)| ->].
    + exists j. split_and!; try done. rewrite Hb. by case_decide.
    + exists k. split_and!; try done. rewrite Hb. by rewrite decide_True.
Qed.

Lemma region_owns_unset r b k avail p :
  region_inv r -> (k < region_pages r)%nat ->
  (forall j, bm_bit b j = if decide (k = j) then false else bm_bit (r_bitmap r) j) ->
  region_owns (set_r_bitmap b avail r) p <->
  region_owns r p /\ p <> r_vaddress r + Z.of_nat k * PAGE_SIZE.
Proof.
  intros Hi Hk Hb. unfold region_owns; simpl.
  change (region_pages (set_r_bitmap b avail r)) with (region_pages r). split.
  - intros (j & Hj & -> & Hbit). rewrite Hb in Hbit. case_decide; [done|].
    split; [eauto|]. unfold PAGE_SIZE. lia.
  - intros [(j & Hj & -> & Hbit) Hne]. exists j. split_and!; try done.
    rewrite Hb. rewrite decide_False; [done|]. intros ->. done.
Qed.

(** the shape of a successful allocation, whatever the mode *)
Lemma region_alloc_shape r m :
  region_inv r -> r_available r <> 0 ->
  exists k b,
    let addr := r_vaddress r + Z.of_nat k * PAGE_SIZE in
    let r' := set_r_bitmap b (r_available r + -1) r in
    region_alloc r m =
      (_ ← (if r_mode r =? REGION_MODE_VIRTUAL
            then map_page (r_page_flags r) addr else mret NULL);
       mret (addr, r')) m /\
    (k < region_pages r)%nat /\ bm_bit (r_bitmap r) k = false /\
    bm_wf b /\ length b = length (r_bitmap r) /\
    (forall j, bm_bit b j = if decide (k = j) then true else bm_bit (r_bitmap r) j) /\
    (forall j, (j < k)%nat -> bm_bit (r_bitmap r) j = true).
Proof.
  intros Hi Ha. destruct (region_first_free r Hi Ha) as (k & Hff & Hk & Hbit & Hleast).
  destruct (region_page_addr r k Hi Hk) as (Haddr & Hw & _).
  pose proof (ri_len r Hi).
  destruct (bitmap_set_spec (r_bitmap r) k) as (b & Hset & Hwf & Hlen & Hb);
    [apply Hi|lia|].
  exists k, b. split_and!; try done.
  unfold region_alloc. rewrite (proj2 (Z.eqb_neq _ _) Ha), Hff.
  eapply ST_bind_intro; [reflexivity|]. cbv beta zeta. rewrite Haddr, Hw, Hset.
  eapply ST_bind_intro; [reflexivity|]. cbv beta.
  pose proof (region_avail_range r Hi). pose proof (region_inv_small r Hi).
  rewrite w32_small by lia. done.
Qed.
End region.

(** ** Properties *)

(** C25: [region_alloc] returns NULL and changes nothing exactly when no page is
    available; otherwise it returns a page of the region that was not handed
    out, the lowest such page, records exactly that page as handed out, and
    keeps the invariant.  It never faults when mapping a page succeeds. *)
Theorem region_alloc_spec {M} (map_page : Z -> Z -> ST M Z) (r : region) (m : M) :
  region_inv r ->
  (r_mode r = REGION_MODE_VIRTUAL -> forall f a, exists x, map_page f a m = Some x) ->
  exists p r' m', region_alloc map_page r m = Some ((p, r'), m') /\ region_inv r' /\
    if r_available r =? 0 then p = NULL /\ r' = r /\ m' = m
    else p <> NULL /\ p mod PAGE_SIZE = 0 /\
      r_vaddress r <= p < r_vaddress r + r_num_pages r * PAGE_SIZE /\
      ~ region_owns r p /\
      (forall q, r_vaddress r <= q < p -> q mod PAGE_SIZE = 0 -> region_owns r q) /\
      (forall q, region_owns r' q <-> region_owns r q \/ q = p) /\
      r_available r' = r_available r - 1.
Proof.
  intros Hi Hmap. destruct (Z.eqb_spec (r_available r) 0) as [Ha|Ha].
  - exists NULL, r, m. unfold region_alloc. rewrite Ha. done.
  - destruct (region_alloc_shape map_page r m Hi Ha)
      as (k & b & Hal & Hk & Hbit & Hwf & Hlen & Hb & Hleast).
    pose proof (region_pages_Z r Hi) as Hn.
    assert (exists x m', (if r_mode r =? REGION_MODE_VIRTUAL
      then map_page (r_page_flags r) (r_vaddress r + Z.of_nat k * PAGE_SIZE)
      else mret NULL) m = Some (x, m')) as (x & m' & Hm).
    { destruct (Z.eqb_spec (r_mode r) REGION_MODE_VIRTUAL) as [Hv|]; [|by do 2 eexists].
      destruct (Hmap Hv (r_page_flags r) (r_vaddress r + Z.of_nat k * PAGE_SIZE))
        as [[x m'] Hx]; eauto. }
    exists (r_vaddress r + Z.of_nat k * PAGE_SIZE),
      (set_r_bitmap b (r_available r + -1) r), m'.
    split; [by rewrite Hal; eapply ST_bind_intro; [exact Hm|]|].
    split; [by apply (region_inv_update r b k true)|].
    destruct Hi. unfold PAGE_SIZE, NULL in *. split_and!; try lia.
    + rewrite Z.add_mod, Z.mod_mul by done. rewrite ri_align0. done.
    + intros (j & Hj & Heq & Hbj). replace j with k in * by (unfold PAGE_SIZE in *; lia). congruence.
    + intros q Hq Hqm. exists (Z.to_nat ((q - r_vaddress r) / 4096)).
      assert (q - r_vaddress r = 4096 * ((q - r_vaddress r) / 4096)) as Hd.
      { apply Z.div_exact; [done|]. rewrite Zminus_mod, Hqm, ri_align0. done. }
      unfold PAGE_SIZE. split_and!; [lia|lia|]. apply Hleast. lia.
    + intros q. by apply region_owns_set.
    + simpl. lia.
Qed.

Lemma region_free_shape {M} (unmap_page : Z -> ST M unit) (r : region) (k : nat) (m : M) :
  region_inv r -> (k < region_pages r)%nat ->
  exists b,
    region_free unmap_page r (r_vaddress r + Z.of_nat k * PAGE_SIZE) m =
      (_ ← when_st (r_mode r =? REGION_MODE_VIRTUAL)
             (unmap_page (r_vaddress r + Z.of_nat k * PAGE_SIZE));
       mret (set_r_bitmap b (w32 (r_available r + 1)) r)) m /\
    bm_wf b /\ length b = length (r_bitmap r) /\
    (forall j, bm_bit b j = if decide (k = j) then false else bm_bit (r_bitmap r) j).
Proof.
  intros Hi Hk. destruct (region_page_addr r k Hi Hk) as (_ & _ & Hn).
  pose proof (ri_len r Hi).
  destruct (bitmap_unset_spec (r_bitmap r) k) as (b & Hun & Hwf & Hlen & Hb); [apply Hi|lia|].
  exists b. split_and!; try done. unfold region_free. rewrite Hn, Hun.
  rewrite !ST_bind_eq. by destruct (when_st _ _ m) as [[[] m']|].
Qed.

(** C26: freeing a page the region handed out never faults, takes exactly that
    page back, and keeps the invariant. *)
Theorem region_free_spec {M} (unmap_page : Z -> ST M unit) (r : region) (p : Z) (m : M) :
  region_inv r -> region_owns r p ->
  (r_mode r = REGION_MODE_VIRTUAL -> exists x, unmap_page p m = Some x) ->
  exists r' m', region_free unmap_page r p m = Some (r', m') /\ region_inv r' /\
    (forall q, region_owns r' q <-> region_owns r q /\ q <> p) /\
    r_available r' = r_available r + 1.
Proof.
  intros Hi (k & Hk & -> & Hbit) Hun.
  destruct (region_free_shape unmap_page r k m Hi Hk) as (b & Heq & Hwf & Hlen & Hb).
  assert (exists m', when_st (r_mode r =? REGION_MODE_VIRTUAL)
    (unmap_page (r_vaddress r + Z.of_nat k * PAGE_SIZE)) m = Some (tt, m')) as (m' & Hm).
  { destruct (Z.eqb_spec (r_mode r) REGION_MODE_VIRTUAL) as [Hv|]; [|by eexists].
    destruct (Hun Hv) as [[[] m'] Hx]; eauto. }
  assert (w32 (r_available r + 1) = r_available r + 1) as Hw.
  { pose proof (region_avail_range r Hi). pose proof (region_inv_small r Hi).
    apply w32_small. lia. }
  exists (set_r_bitmap b (w32 (r_available r + 1)) r), m'.
  split; [by rewrite Heq; eapply ST_bind_intro; [exact Hm|]|]. rewrite Hw.
  split; [by apply (region_inv_update r b k false)|]. split; [|done].
  intros q. by apply region_owns_unset.
Qed.

(** freeing the page just allocated gives back the region as it was, bit
    for bit. *)
Theorem region_alloc_free_roundtrip {M} (map_page : Z -> Z -> ST M Z)
    (unmap_page : Z -> ST M unit) (r r' : region) (p : Z) (m m' : M) :
  region_inv r -> r_mode r = REGION_MODE_PHYSICAL -> r_available r <> 0 ->
  region_alloc map_page r m = Some ((p, r'), m') ->
  region_free unmap_page r' p m' = Some (r, m).
Proof.
  intros Hi Hmode Ha Hal.
  destruct (region_alloc_shape map_page r m Hi Ha)
    as (k & b & Hal' & Hk & Hbit & Hwf & Hlen & Hb & _).
  rewrite Hal, Hmode in Hal'. simpl in Hal'. injection Hal' as -> -> ->.
  pose proof (region_inv_update r b k true Hi Hk Hbit Hwf Hlen Hb) as Hi'.
  destruct (region_free_shape unmap_page _ k m Hi' Hk) as (b' & Heq & Hwf' & Hlen' & Hb').
  simpl in Heq, Hlen'. rewrite Heq, Hmode. simpl. unfold set_r_bitmap; simpl.
  pose proof (region_avail_range r Hi). pose proof (region_inv_small r Hi).
  replace (w32 (r_available r + -1 + 1)) with (r_available r) by (rewrite w32_small; lia).
  assert (b' = r_bitmap r) as ->; [|by destruct r].
  apply bm_ext; [done|apply Hi|congruence|]. intros j. rewrite Hb'. simpl.
  case_decide; subst; [by rewrite Hbit|]. rewrite Hb. by rewrite decide_False.
Qed.

Lemma region_clear_spec bitmap n fuel i :
  bm_wf bitmap -> (n <= 32 * length bitmap)%nat -> Z.of_nat n < 2 ^ 31 ->
  (i <= n)%nat -> (n < fuel + i)%nat ->
  (forall j, (j < i)%nat -> bm_bit bitmap j = false) ->
  exists b, region_clear fuel bitmap (Z.of_nat i) (Z.of_nat n) = Some b /\
    bm_wf b /\ length b = length bitmap /\ forall j, (j < n)%nat -> bm_bit b j = false.
Proof.
  intros Hwf Hlen Hn. revert bitmap i Hwf Hlen.
  induction fuel as [|fuel IH]; intros bitmap i Hwf Hlen Hi Hf Hcl; [lia|]. simpl.
  destruct (Z.ltb_spec (Z.of_nat i) (Z.of_nat n)) as [Hlt|Hge].
  - destruct (bitmap_unset_spec bitmap i) as (b & -> & Hwf' & Hlen' & Hb); [done|lia|].
    simpl. replace (w32 (Z.of_nat i + 1)) with (Z.of_nat (S i)) by (rewrite w32_small; lia).
    destruct (IH b (S i)) as (b' & ? & ? & Hl & ?); try done; try lia.
    + intros j Hj. rewrite Hb. case_decide; [done|]. apply Hcl. lia.
    + exists b'. by rewrite Hl, Hlen'.
  - exists bitmap. split_and!; try done. intros j Hj. apply Hcl. lia.
Qed.

Lemma bm_bits_all_false b n :
  (forall j, (j < n)%nat -> bm_bit b j = false) -> count_true (bm_bits b n) = 0%nat.
Proof.
  intros Hall. destruct (count_true (bm_bits b n)) eqn:E; [done|].
  destruct (proj1 (count_true_pos (bm_bits b n)) ltac:(lia)) as [i Hi].
  rewrite bm_bits_lookup in Hi. case_decide; [|done]. rewrite Hall in Hi by done. done.
Qed.

(** [region_init_at] over a bitmap large enough for the pages establishes
    the invariant with every page available and none handed out. *)
Theorem region_init_at_spec (vaddress : Z) (bitmap : list Z) (n flags mode : Z) :
  bm_wf bitmap -> 0 <= n <= 32 * Z.of_nat (length bitmap) ->
  0 < vaddress -> vaddress mod PAGE_SIZE = 0 -> vaddress + n * PAGE_SIZE <= 2 ^ 32 ->
  exists r, region_init_at vaddress bitmap n flags mode = Some r /\ region_inv r /\
    r_available r = n /\ r_num_pages r = n /\ forall p, ~ region_owns r p.
Proof.
  intros Hwf Hn Hv Hal Htop.
  destruct (region_clear_spec bitmap (Z.to_nat n) (S (Z.to_nat n)) 0)
    as (b & Hcl & Hwf' & Hlen & Hb); try done; try (unfold PAGE_SIZE in *; lia).
  rewrite Z2Nat.id in Hcl by lia. change (Z.of_nat 0) with 0 in Hcl.
  eexists. unfold region_init_at. rewrite Hcl. split; [reflexivity|]. split_and!; try done.
  - split; simpl; try done; unfold region_pages; simpl.
    + rewrite Hlen. lia.
    + lia.
    + rewrite bm_bits_all_false by done. lia.
  - intros p (k & Hk & -> & Hbit). unfold region_pages in Hk; simpl in *.
    rewrite Hb in Hbit by done. done.
Qed.

Lemma region_init_fields vaddress bitmap n flags mode r :
  region_init_at vaddress bitmap n flags mode = Some r -> r_vaddress r = vaddress /\ r_mode r = mode.
Proof. unfold region_init_at. destruct (region_clear _ _ _ _); [|done]. by intros [= <-]. Qed.

(** ** The properties on a concrete region *)

Definition region_ex : region := Region [0] 0x100000 32 32 0 REGION_MODE_PHYSICAL.
Definition map_ex (f a : Z) : ST unit Z := mret a.
Definition unmap_ex (a : Z) : ST unit unit := mret tt.

Lemma region_ex_inv : region_inv region_ex.
Proof.
  split; unfold region_pages; simpl; try (unfold PAGE_SIZE; lia).
  - repeat constructor; done.
  - vm_compute. lia.
Qed.

(** the region after one allocation *)
Definition region_ex1 : region := Region [1] 0x100000 32 31 0 REGION_MODE_PHYSICAL.

Lemma region_ex1_inv : region_inv region_ex1.
Proof.
  split; unfold region_pages; simpl; try (unfold PAGE_SIZE; lia).
  - repeat constructor; done.
  - vm_compute. lia.
Qed.

Lemma region_alloc_spec_witness :
  exists p r' m', region_alloc map_ex region_ex tt = Some ((p, r'), m') /\ region_inv r' /\
    p <> NULL /\ p mod PAGE_SIZE = 0 /\ 0x100000 <= p < 0x100000 + 32 * PAGE_SIZE /\
    ~ region_owns region_ex p /\
    (forall q, 0x100000 <= q < p -> q mod PAGE_SIZE = 0 -> region_owns region_ex q) /\
    (forall q, region_owns r' q <-> region_owns region_ex q \/ q = p) /\
    r_available r' = 32 - 1.
Proof. apply (region_alloc_spec map_ex region_ex tt); [apply region_ex_inv|done]. Defined.

Lemma region_free_spec_witness :
  exists r' m', region_free unmap_ex region_ex1 0x100000 tt = Some (r', m') /\ region_inv r' /\
    (forall q, region_owns r' q <-> region_owns region_ex1 q /\ q <> 0x100000) /\
    r_available r' = 31 + 1.
Proof.
  apply (region_free_spec unmap_ex region_ex1 0x100000 tt); [apply region_ex1_inv| |done].
  exists 0%nat. split; [|done]. unfold region_pages. simpl. lia.
Defined.

Lemma region_alloc_free_roundtrip_witness :
  region_free unmap_ex region_ex1 0x100000 tt = Some (region_ex, tt).
Proof.
  apply (region_alloc_free_roundtrip map_ex unmap_ex region_ex region_ex1 0x100000 tt tt);
    [apply region_ex_inv|done|done|reflexivity].
Defined.

Lemma region_init_at_spec_witness :
  exists r, region_init_at 0x100000 [7; 0xffffffff] 40 0 REGION_MODE_VIRTUAL = Some r /\
    region_inv r /\ r_available r = 40 /\ r_num_pages r = 40 /\ forall p, ~ region_owns r p.
Proof.
  apply region_init_at_spec; [|simpl; lia|lia|done|unfold PAGE_SIZE; lia].
  repeat constructor; done.
Defined.
