(* ===== verification/Dll.v ===== *)
(** Doubly linked lists, abstractly: the shape shared by the queues of
    [src/klib/queue.c] and the block lists of [src/mm/slab.c].

    A heap is seen through its links, [lk x = Some (prev, next)].  [dseg lk p l n]
    says that the nodes [l] are linked in order, the first with [p] behind it and
    the last with [n] after it.  NULL is 0 and ends both directions. *)
From S2P Require Export Prelude.

Definition links := Z -> option (Z * Z).

Definition hd_ptr (n : Z) (l : list Z) : Z := match l with [] => n | x :: _ => x end.
Definition last_ptr (p : Z) (l : list Z) : Z := default p (last l).

Fixpoint dseg (lk : links) (p : Z) (l : list Z) (n : Z) : Prop :=
  match l with
  | [] => True
  | x :: xs => lk x = Some (p, hd_ptr n xs) /\ dseg lk x xs n
  end.

(** a whole list: linked from NULL to NULL, no node twice, none at NULL *)
Definition dll (lk : links) (l : list Z) : Prop :=
  dseg lk NULL l NULL /\ NoDup l /\ NULL ∉ l.

Definition lk_next (a n : Z) (lk : links) : links := fun x =>
  if decide (x = a) then prod_map id (fun _ => n) <$> lk x else lk x.
Definition lk_prev (a p : Z) (lk : links) : links := fun x =>
  if decide (x = a) then prod_map (fun _ => p) id <$> lk x else lk x.
Definition lk_new (a p n : Z) (lk : links) : links := fun x =>
  if decide (x = a) then Some (p, n) else lk x.

Lemma hd_ptr_app n l1 l2 : hd_ptr n (l1 ++ l2) = hd_ptr (hd_ptr n l2) l1.
Proof. by destruct l1. Qed.

Lemma last_ptr_cons p x l : last_ptr p (x :: l) = last_ptr x l.
Proof.
  unfold last_ptr. destruct l as [|y l]; [done|]. rewrite last_cons_cons.
  destruct (last (y :: l)) eqn:E; [done|]. by apply last_None in E.
Qed.

Lemma last_ptr_app p l1 l2 : last_ptr p (l1 ++ l2) = last_ptr (last_ptr p l1) l2.
Proof.
  revert p. induction l1 as [|x l1 IH]; intros p; [done|].
  simpl. by rewrite !last_ptr_cons, IH.
Qed.

Lemma last_ptr_snoc p l x : last_ptr p (l ++ [x]) = x.
Proof. by rewrite last_ptr_app. Qed.

Lemma dseg_app lk p l1 l2 n :
  dseg lk p (l1 ++ l2) n <->
  dseg lk p l1 (hd_ptr n l2) /\ dseg lk (last_ptr p l1) l2 n.
Proof.
  revert p. induction l1 as [|x l1 IH]; intros p; simpl.
  - change (last_ptr p []) with p. tauto.
  - rewrite IH, hd_ptr_app, last_ptr_cons. tauto.
Qed.

Lemma dseg_ext lk lk' p l n :
  (forall x, x ∈ l -> lk' x = lk x) -> dseg lk p l n -> dseg lk' p l n.
Proof.
  revert p. induction l as [|x l IH]; intros p Hext; simpl; [done|].
  intros [Hx Hl]. split.
  - rewrite Hext by set_solver. done.
  - apply IH; [|done]. intros y Hy. apply Hext. set_solver.
Qed.

Lemma dseg_lookup lk p l n x :
  dseg lk p l n -> x ∈ l -> exists pn, lk x = Some pn.
Proof.
  revert p. induction l as [|y l IH]; intros p; simpl; [set_solver|].
  intros [Hy Hl] [->|Hx]%elem_of_cons; eauto.
Qed.

(** the neighbours of a node *)
Lemma dseg_mid lk p l1 x l2 n :
  dseg lk p (l1 ++ x :: l2) n -> lk x = Some (last_ptr p l1, hd_ptr n l2).
Proof. rewrite dseg_app. simpl. tauto. Qed.

Lemma dseg_set_next lk p l a n n' :
  a ∉ l -> dseg lk p (l ++ [a]) n -> dseg (lk_next a n' lk) p (l ++ [a]) n'.
Proof.
  rewrite !dseg_app. simpl. intros Ha (Hl & Hx & _). split_and!; [| |done].
  - eapply dseg_ext; [|done]. intros y Hy. unfold lk_next.
    rewrite decide_False; [done|]. set_solver.
  - unfold lk_next. by rewrite decide_True, Hx.
Qed.

Lemma dseg_set_prev lk p p' a l n :
  a ∉ l -> dseg lk p (a :: l) n -> dseg (lk_prev a p' lk) p' (a :: l) n.
Proof.
  simpl. intros Ha (Hx & Hl). split.
  - unfold lk_prev. by rewrite decide_True, Hx.
  - eapply dseg_ext; [|done]. intros y Hy. unfold lk_prev.
    rewrite decide_False; [done|]. set_solver.
Qed.

(** the segment before a point, with its end moved to [n'] *)
Definition fix_next (l : list Z) (n' : Z) (lk : links) : links :=
  match last l with Some a => lk_next a n' lk | None => lk end.
(** the segment after a point, with its start moved to [p'] *)
Definition fix_prev (l : list Z) (p' : Z) (lk : links) : links :=
  match l with a :: _ => lk_prev a p' lk | [] => lk end.

Lemma dseg_fix_next lk p l n n' :
  NoDup l -> dseg lk p l n -> dseg (fix_next l n' lk) p l n'.
Proof.
  intros Hnd Hl. unfold fix_next. destruct (last l) as [a|] eqn:E.
  - apply last_Some in E as [l' ->]. apply NoDup_app in Hnd as (_ & Hnd & _).
    eapply dseg_set_next; [|done]. intros Ha. by apply (Hnd a Ha), list_elem_of_singleton.
  - apply last_None in E as ->. done.
Qed.

Lemma dseg_fix_prev lk p p' l n :
  NoDup l -> dseg lk p l n -> dseg (fix_prev l p' lk) p' l n.
Proof.
  intros Hnd Hl. destruct l as [|a l]; [done|]. apply NoDup_cons in Hnd as [Ha _].
  by eapply dseg_set_prev.
Qed.

Lemma fix_next_ne l n' lk x : x ∉ l -> fix_next l n' lk x = lk x.
Proof.
  intros Hx. unfold fix_next. destruct (last l) as [a|] eqn:E; [|done].
  unfold lk_next. rewrite decide_False; [done|]. intros ->.
  apply Hx. apply last_Some in E as [l' ->]. set_solver.
Qed.

Lemma fix_prev_ne l p' lk x : x ∉ l -> fix_prev l p' lk x = lk x.
Proof.
  intros Hx. destruct l as [|a l]; [done|]. simpl. unfold lk_prev.
  rewrite decide_False; [done|]. set_solver.
Qed.

(** ** Whole-list operations *)

Lemma dll_nil lk : dll lk [].
Proof. split_and!; [done|apply NoDup_nil_2|set_solver]. Qed.

Lemma dll_ext lk lk' l : (forall x, x ∈ l -> lk' x = lk x) -> dll lk l -> dll lk' l.
Proof. intros Hext (Hs & ? & ?). split_and!; [|done|done]. by eapply dseg_ext. Qed.

(** linking a new node [x] in front *)
Lemma dll_push_front lk l x :
  dll lk l -> x ∉ l -> x <> NULL ->
  dll (lk_new x NULL (hd_ptr NULL l) (fix_prev l x lk)) (x :: l).
Proof.
  intros (Hs & Hnd & Hnull) Hx Hx0. split_and!.
  - simpl. unfold lk_new at 1. rewrite decide_True by done. split; [done|].
    eapply dseg_ext; [|by apply (dseg_fix_prev lk NULL x)].
    intros y Hy. unfold lk_new. rewrite decide_False; [done|]. by intros ->.
  - by constructor.
  - set_solver.
Qed.

(** linking a new node [x] at the end *)
Lemma dll_push_back lk l x :
  dll lk l -> x ∉ l -> x <> NULL ->
  dll (lk_new x (last_ptr NULL l) NULL (fix_next l x lk)) (l ++ [x]).
Proof.
  intros (Hs & Hnd & Hnull) Hx Hx0. split_and!.
  - apply dseg_app. simpl. split_and!; [| |done].
    + eapply dseg_ext; [|by apply (dseg_fix_next lk NULL l NULL x)].
      intros y Hy. unfold lk_new. rewrite decide_False; [done|]. by intros ->.
    + unfold lk_new. by rewrite decide_True.
  - apply NoDup_app. split_and!; [done| |by apply NoDup_singleton]. set_solver.
  - set_solver.
Qed.

(** unlinking a node: its neighbours point to each other *)
Lemma dll_remove lk l1 x l2 :
  dll lk (l1 ++ x :: l2) ->
  dll (fix_next l1 (hd_ptr NULL l2) (fix_prev l2 (last_ptr NULL l1) lk)) (l1 ++ l2).
Proof.
  intros (Hs & Hnd & Hnull). apply dseg_app in Hs as [Hs1 Hs2]. simpl in Hs2.
  destruct Hs2 as [Hx Hs2].
  apply NoDup_app in Hnd as (Hnd1 & Hdis & Hnd2).
  apply NoDup_cons in Hnd2 as [Hx2 Hnd2].
  split_and!.
  - apply dseg_app. split.
    + apply (dseg_fix_next _ _ _ (hd_ptr NULL (x :: l2))); [done|].
      eapply dseg_ext; [|exact Hs1]. intros y Hy. apply fix_prev_ne.
      intros Hy2. apply (Hdis y Hy). set_solver.
    + eapply dseg_ext; [|by apply (dseg_fix_prev lk x)].
      intros y Hy. apply fix_next_ne. intros Hy1. apply (Hdis y Hy1). set_solver.
  - apply NoDup_app. split_and!; [done| |done]. intros y Hy. specialize (Hdis y Hy).
    set_solver.
  - set_solver.
Qed.

Lemma lk_comm a n b p lk x :
  lk_next a n (lk_prev b p lk) x = lk_prev b p (lk_next a n lk) x.
Proof. unfold lk_next, lk_prev. repeat case_decide; subst; try done; by destruct (lk _) as [[]|]. Qed.

Lemma fix_comm l1 n l2 p lk x :
  fix_next l1 n (fix_prev l2 p lk) x = fix_prev l2 p (fix_next l1 n lk) x.
Proof. unfold fix_next, fix_prev. destruct (last l1), l2; try done. apply lk_comm. Qed.
