(* ===== verification/Alloc.v ===== *)
(** The interface of an object allocator: what [slab_alloc] and [slab_free]
    promise to the queues, the trees and the other clients of a slab.  The
    clients are proved against this class; [Slab.v] gives the instance for the
    slab allocator of [src/mm/slab.c]. *)
From S2P Require Export Prelude.

Class Allocator (A : Type) := {
  (** [slab_alloc]: the address of an object *)
  alloc : ST A Z;
  (** [slab_free] *)
  dealloc : Z -> ST A unit;
  (** the objects handed out *)
  alloc_live : A -> Z -> Prop;
  (** the consistency of the allocator's own state *)
  alloc_inv : A -> Prop;
  (** there is memory for one more object *)
  alloc_room : A -> Prop;
}.

Class AllocatorLaws (A : Type) `{!Allocator A} := {
  alloc_total a : alloc_inv a -> alloc_room a -> exists p a', alloc a = Some (p, a');
  alloc_ok a p a' : alloc_inv a -> alloc a = Some (p, a') ->
    alloc_inv a' /\ p <> NULL /\ ~ alloc_live a p /\
    (forall q, alloc_live a' q <-> alloc_live a q \/ q = p);
  dealloc_ok a p : alloc_inv a -> alloc_live a p ->
    exists a', dealloc p a = Some (tt, a') /\ alloc_inv a' /\
      forall q, alloc_live a' q <-> alloc_live a q /\ q <> p;
  (** what was released can be handed out again *)
  dealloc_room a p a' : alloc_inv a -> alloc_live a p -> dealloc p a = Some (tt, a') -> alloc_room a';
}.

(** Where a slab comes from: [slab_init_at], on a slab in static storage that
    nothing was allocated from. *)
Class SlabSetup (A : Type) := {
  (** for objects of the size given *)
  slab_setup : Z -> A -> A;
  slab_static : A -> Prop;
}.

Class SlabSetupLaws (A : Type) `{!Allocator A} `{!SlabSetup A} := {
  slab_setup_ok size a : 1 <= size <= 132 -> slab_static a ->
    alloc_inv (slab_setup size a) /\ forall p, ~ alloc_live (slab_setup size a) p;
}.

(** A bump allocator that never reuses memory: the simplest implementation,
    with which the theorems over the interface are run on concrete inputs. *)
Module Bump.
Record t := Bump { b_next : Z; b_live : gset Z }.

Definition init : t := Bump 0x1000 ∅.

#[global] Instance bump_allocator : Allocator t := {|
  alloc := fun b => Some (b_next b, Bump (b_next b + 128) ({[b_next b]} ∪ b_live b));
  dealloc := fun p b => Some (tt, Bump (b_next b) (b_live b ∖ {[p]}));
  alloc_live := fun b p => p ∈ b_live b;
  alloc_inv := fun b => 0 < b_next b /\ forall p, p ∈ b_live b -> p < b_next b;
  alloc_room := fun _ => True;
|}.

#[global] Instance bump_laws : AllocatorLaws t.
Proof.
  split; simpl.
  - eauto.
  - intros a p a' [Hpos Hlt] [= <- <-]. simpl. split_and!.
    + lia.
    + intros q [->%elem_of_singleton|Hq]%elem_of_union; [lia|]. specialize (Hlt q Hq). lia.
    + unfold NULL; lia.
    + intros Hin. specialize (Hlt _ Hin). lia.
    + set_solver.
  - intros a p [Hpos Hlt] Hp. eexists. split; [done|]. simpl. split_and!; [done| |].
    + set_solver.
    + set_solver.
  - done.
Qed.

Lemma bump_init_inv : alloc_inv init.
Proof. split; [done|]. set_solver. Qed.
End Bump.

(** The pages a client takes from the region a slab also draws on:
    [region_alloc] and [region_free] of the global region, next to the slab. *)
Class Pages (A : Type) := {
  (** [region_alloc( region_get_global() )]: NULL when no page is left *)
  page_alloc : ST A Z;
  (** [region_free( region_get_global(), page )] *)
  page_free : Z -> ST A unit;
  (** the pages handed out to clients, the slab's own left out *)
  page_live : A -> Z -> Prop;
  (** there is a page left *)
  page_room : A -> Prop;
}.

Class PagesLaws (A : Type) `{!Allocator A} `{!Pages A} := {
  page_alloc_ok a : alloc_inv a -> page_room a ->
    exists p a', page_alloc a = Some (p, a') /\ alloc_inv a' /\ 0 < p < 2 ^ 32 /\ p mod 4096 = 0 /\
      ~ page_live a p /\ (forall q, page_live a' q <-> page_live a q \/ q = p) /\
      (forall q, alloc_live a' q <-> alloc_live a q);
  page_alloc_full a : alloc_inv a -> ~ page_room a -> page_alloc a = Some (NULL, a);
  page_free_ok a p : alloc_inv a -> page_live a p ->
    exists a', page_free p a = Some (tt, a') /\ alloc_inv a' /\
      (forall q, page_live a' q <-> page_live a q /\ q <> p) /\
      (forall q, alloc_live a' q <-> alloc_live a q);
  (** the slab's own traffic with the region does not touch a client's page *)
  alloc_pages a p a' : alloc_inv a -> alloc a = Some (p, a') ->
    forall q, page_live a' q <-> page_live a q;
  dealloc_pages a p a' : alloc_inv a -> alloc_live a p -> dealloc p a = Some (tt, a') ->
    forall q, page_live a' q <-> page_live a q;
}.

Section rooms.
Context {A : Type} `{!Allocator A} `{!Pages A}.

(** there is room for [n] more objects or pages *)
Fixpoint rooms (n : nat) (a : A) : Prop :=
  match n with
  | O => True
  | S n => alloc_room a /\ page_room a /\ forall p a', alloc a = Some (p, a') \/ page_alloc a = Some (p, a') -> rooms n a'
  end.

Lemma not_live_None {V} (m : gmap Z V) (live : Z -> Prop) p :
  (forall q, is_Some (m !! q) -> live q) -> ~ live p -> m !! p = None.
Proof. intros Hm Hp. destruct (m !! p) eqn:E; [|done]. destruct Hp. apply Hm. by eexists. Qed.

End rooms.

(** The bump allocator with a supply of pages next to it. *)
Module BumpPages.
Record t := BumpPages { bp_slab : Bump.t; bp_next : Z; bp_pages : gset Z }.

Definition init : t := BumpPages Bump.init 0x100000 ∅.

#[global] Instance bump_pages_allocator : Allocator t := {|
  alloc := fun a => match alloc (bp_slab a) with
                    | Some (p, b) => Some (p, BumpPages b (bp_next a) (bp_pages a))
                    | None => None
                    end;
  dealloc := fun p a => match dealloc p (bp_slab a) with
                    | Some (_, b) => Some (tt, BumpPages b (bp_next a) (bp_pages a))
                    | None => None
                    end;
  alloc_live := fun a p => alloc_live (bp_slab a) p;
  alloc_inv := fun a => alloc_inv (bp_slab a) /\ 0 < bp_next a /\ bp_next a mod 4096 = 0 /\
    forall p, p ∈ bp_pages a -> p < bp_next a;
  alloc_room := fun _ => True;
|}.

#[global] Instance bump_pages : Pages t := {|
  page_alloc := fun a =>
    if bp_next a <? 2 ^ 31 then
      Some (bp_next a, BumpPages (bp_slab a) (bp_next a + 4096) ({[bp_next a]} ∪ bp_pages a))
    else Some (NULL, a);
  page_free := fun p a => Some (tt, BumpPages (bp_slab a) (bp_next a) (bp_pages a ∖ {[p]}));
  page_live := fun a p => p ∈ bp_pages a;
  page_room := fun a => bp_next a < 2 ^ 31;
|}.

#[global] Instance bump_pages_alloc_laws : AllocatorLaws t.
Proof.
  split; simpl.
  - eauto.
  - intros a p a' (Hi & Hp & Hm & Hlt) [= <- <-]. change (alloc_inv (bp_slab a)) in Hi.
    destruct (alloc_ok (bp_slab a) (Bump.b_next (bp_slab a)) (Bump.Bump (Bump.b_next (bp_slab a) + 128)
      ({[Bump.b_next (bp_slab a)]} ∪ Bump.b_live (bp_slab a))) Hi eq_refl) as (? & ? & ? & ?).
    split; [split; [assumption|done]|done].
  - intros a p (Hi & Hp & Hm & Hlt) Hl. change (alloc_inv (bp_slab a)) in Hi.
    destruct (dealloc_ok (bp_slab a) p Hi Hl) as (b & [= <-] & Hb & Hlv).
    eexists. split; [reflexivity|]. split; [split; [assumption|done]|assumption].
  - done.
Qed.

#[global] Instance bump_pages_laws : PagesLaws t.
Proof.
  split; simpl.
  - intros a ([Hi1 Hi2] & Hp & Hm & Hlt) Hr. do 2 eexists. split; [by rewrite (proj2 (Z.ltb_lt _ _) Hr)|].
    simpl. split_and!; try done; try lia.
    + by rewrite Z.add_mod, Hm.
    + intros q [->%elem_of_singleton|Hq]%elem_of_union; [lia|]. specialize (Hlt q Hq). lia.
    + intros Hin. specialize (Hlt _ Hin). lia.
    + set_solver.
  - intros a _ Hr. by rewrite (proj2 (Z.ltb_ge _ _)) by lia.
  - intros a p ([Hi1 Hi2] & Hp & Hm & Hlt) Hl. eexists. split; [reflexivity|]. simpl. split_and!; try done.
    + set_solver.
    + set_solver.
  - intros a p a' _ [= <- <-]. done.
  - intros a p a' _ _ [= <-]. done.
Qed.

#[global] Instance bump_pages_setup : SlabSetup t := {|
  slab_setup := fun _ a => a;
  slab_static := fun a => alloc_inv a /\ Bump.b_live (bp_slab a) = ∅;
|}.
#[global] Instance bump_pages_setup_laws : SlabSetupLaws t.
Proof. split. intros size a _ [Hi Hl]. split; [done|]. simpl. intros p. rewrite Hl. set_solver. Qed.

Lemma bump_pages_init_inv : alloc_inv init.
Proof. split; [apply Bump.bump_init_inv|]. split_and!; [done|done|set_solver]. Qed.

Lemma bump_rooms n a : bp_next a + 4096 * Z.of_nat n <= 2 ^ 31 -> rooms n a.
Proof.
  revert a. induction n as [|n IH]; intros a Ha; [done|]. split; [done|]. split; [simpl; lia|].
  intros p a' [H|H]; simpl in H; [|rewrite (proj2 (Z.ltb_lt _ _)) in H by lia]; injection H as <- <-; apply IH; simpl; lia.
Qed.
End BumpPages.
