(* ===== verification/Queue.v ===== *)
(** The generic queues of [src/klib/queue.c]: a doubly linked list of nodes
    from a slab, with a front, a back and a count.

    The node heap is a [gmap] from addresses to nodes; a freed node leaves it,
    so that using one faults.  [queue_rep] relates a queue in a heap to the
    list of the values it holds; each operation is shown to do what the
    operation on lists does. *)
From S2P Require Export Alloc.
From S2P Require Import Dll.

Record queue_node := QueueNode { qn_data : Z; qn_next : Z; qn_prev : Z }.
Record queue := MkQueue { q_front : Z; q_back : Z; q_items : Z }.

(** the nodes of every queue, and the state of [queue_slab] *)
Record qheap (A : Type) := QHeap { qh_nodes : gmap Z queue_node; qh_slab : A }.
Arguments QHeap {A} _ _.
Arguments qh_nodes {A} _.
Arguments qh_slab {A} _.

Section queue.
Context {A : Type} `{!Allocator A}.

Abbreviation QST := (ST (qheap A)).

Definition node_read (p : Z) : QST queue_node :=
  fun h => match qh_nodes h !! p with Some n => Some (n, h) | None => None end.

Definition node_write (p : Z) (f : queue_node -> queue_node) : QST unit :=
  fun h => match qh_nodes h !! p with
           | Some n => Some (tt, QHeap (<[p := f n]> (qh_nodes h)) (qh_slab h))
           | None => None
           end.

Definition set_next (v : Z) (n : queue_node) : queue_node := QueueNode (qn_data n) v (qn_prev n).
Definition set_prev (v : Z) (n : queue_node) : queue_node := QueueNode (qn_data n) (qn_next n) v.

Definition queue_init : queue := MkQueue NULL NULL 0.

Definition queue_node_create (data : Z) : QST Z := fun h =>
  match alloc (qh_slab h) with
  | Some (ret, a) => Some (ret, QHeap (<[ret := QueueNode data NULL NULL]> (qh_nodes h)) a)
  | None => None
  end.

Definition queue_node_free (node : Z) : QST unit := fun h =>
  match dealloc node (qh_slab h) with
  | Some (_, a) => Some (tt, QHeap (delete node (qh_nodes h)) a)
  | None => None
  end.

Definition queue_push_front (q : queue) (data : Z) : QST queue :=
  node ← queue_node_create data;
  _ ← node_write node (set_next (q_front q));
  let q1 := MkQueue node (q_back q) (w32 (q_items q + 1)) in
  if q_back q1 =? NULL then mret (MkQueue (q_front q1) node (q_items q1))
  else
    n ← node_read node;
    _ ← node_write (qn_next n) (set_prev node);
    mret q1.

Definition queue_push_back (q : queue) (data : Z) : QST queue :=
  node ← queue_node_create data;
  _ ← node_write node (set_prev (q_back q));
  let q1 := MkQueue (q_front q) node (w32 (q_items q + 1)) in
  if q_front q1 =? NULL then mret (MkQueue node (q_back q1) (q_items q1))
  else
    n ← node_read node;
    _ ← node_write (qn_prev n) (set_next node);
    mret q1.

Definition queue_pop_front (q : queue) : QST (Z * queue) :=
  let node := q_front q in
  if node =? NULL then mret (NULL, q)
  else
    n ← node_read node;
    let q1 := MkQueue (qn_next n) (q_back q) (w32 (q_items q - 1)) in
    q2 ← (if q_front q1 =? NULL then mret (MkQueue (q_front q1) NULL (q_items q1))
          else _ ← node_write (qn_next n) (set_prev NULL); mret q1);
    n' ← node_read node;
    let ret := qn_data n' in
    _ ← queue_node_free node;
    mret (ret, q2).

Definition queue_pop_back (q : queue) : QST (Z * queue) :=
  let node := q_back q in
  if node =? NULL then mret (NULL, q)
  else
    n ← node_read node;
    let q1 := MkQueue (q_front q) (qn_prev n) (w32 (q_items q - 1)) in
    q2 ← (if q_back q1 =? NULL then mret (MkQueue NULL (q_back q1) (q_items q1))
          else _ ← node_write (qn_prev n) (set_next NULL); mret q1);
    n' ← node_read node;
    let ret := qn_data n' in
    _ ← queue_node_free node;
    mret (ret, q2).

(** the code returns the node itself, not the data in it *)
Definition queue_peek_front (q : queue) : Z := q_front q.
Definition queue_peek_back (q : queue) : Z := q_back q.

(** [comp] compares the two objects it is handed *)
Definition queue_pop_min (a b : queue) (comp : Z -> Z -> Z) : QST (Z * (queue * queue)) :=
  if (q_items a =? 0) && (q_items b =? 0) then mret (NULL, (a, b))
  else if q_items a =? 0 then
    '(v, b') ← queue_pop_front b; mret (v, (a, b'))
  else if q_items b =? 0 then
    '(v, a') ← queue_pop_front a; mret (v, (a', b))
  else
    let diff := comp (queue_peek_front a) (queue_peek_front b) in
    if diff <=? 0 then '(v, a') ← queue_pop_front a; mret (v, (a', b))
    else '(v, b') ← queue_pop_front b; mret (v, (a, b')).

(** ** Representation *)

Definition qlinks (h : gmap Z queue_node) : links := fun x =>
  (fun n => (qn_prev n, qn_next n)) <$> h !! x.

Definition qdata (h : gmap Z queue_node) (x : Z) (v : Z) : Prop :=
  exists n, h !! x = Some n /\ qn_data n = v.

(** [q] is the queue of the nodes [ns], which hold the values [vs] *)
Record queue_at (h : qheap A) (q : queue) (ns vs : list Z) : Prop := {
  qa_dll : dll (qlinks (qh_nodes h)) ns;
  qa_front : q_front q = hd_ptr NULL ns;
  qa_back : q_back q = last_ptr NULL ns;
  qa_data : Forall2 (qdata (qh_nodes h)) ns vs;
  qa_items : q_items q = w32 (Z.of_nat (length vs));
}.

(** the heap holds exactly the objects the slab handed out *)
Record qheap_inv (h : qheap A) : Prop := {
  qi_alloc : alloc_inv (qh_slab h);
  qi_live : forall p, alloc_live (qh_slab h) p <-> is_Some (qh_nodes h !! p);
}.

Definition queue_rep (h : qheap A) (q : queue) (vs : list Z) : Prop :=
  qheap_inv h /\ exists ns, queue_at h q ns vs.

(** what an operation on the nodes [ns] leaves alone *)
Definition same_outside (ns : list Z) (h h' : qheap A) : Prop :=
  forall x, is_Some (qh_nodes h !! x) -> x ∉ ns -> qh_nodes h' !! x = qh_nodes h !! x.

(** ** Links and data under updates *)

Lemma qlinks_next h p v n x :
  h !! p = Some n -> qlinks (<[p := set_next v n]> h) x = lk_next p v (qlinks h) x.
Proof.
  intros Hp. unfold qlinks, lk_next. rewrite lookup_insert.
  repeat case_decide; subst; try done; by rewrite Hp.
Qed.

Lemma qlinks_prev h p v n x :
  h !! p = Some n -> qlinks (<[p := set_prev v n]> h) x = lk_prev p v (qlinks h) x.
Proof.
  intros Hp. unfold qlinks, lk_prev. rewrite lookup_insert.
  repeat case_decide; subst; try done; by rewrite Hp.
Qed.

Lemma qlinks_new h p n x :
  qlinks (<[p := n]> h) x = lk_new p (qn_prev n) (qn_next n) (qlinks h) x.
Proof.
  unfold qlinks, lk_new. rewrite lookup_insert.
  repeat case_decide; by subst.
Qed.

Lemma qlinks_delete h p x : x <> p -> qlinks (delete p h) x = qlinks h x.
Proof. intros. unfold qlinks. by rewrite lookup_delete_ne. Qed.

Lemma qdata_ext h h' ns vs :
  (forall x n, x ∈ ns -> h !! x = Some n ->
     exists n', h' !! x = Some n' /\ qn_data n' = qn_data n) ->
  Forall2 (qdata h) ns vs -> Forall2 (qdata h') ns vs.
Proof.
  intros Hext Hf. induction Hf as [|x v ns vs (n & Hn & Hd) Hf IH]; constructor.
  - destruct (Hext x n) as (n' & ? & ?); [set_solver|done|]. exists n'. split; congruence.
  - apply IH. intros y m Hy. apply Hext. set_solver.
Qed.

Lemma queue_at_nonnull h q ns vs x n :
  queue_at h q ns vs -> qh_nodes h !! x = Some n -> x ∈ ns -> x <> NULL.
Proof. intros [(_ & _ & Hnull)] _ Hx ->. done. Qed.

Lemma queue_at_lookup h q ns vs x :
  queue_at h q ns vs -> x ∈ ns -> exists n, qh_nodes h !! x = Some n.
Proof.
  intros [(Hs & _)] Hx. destruct (dseg_lookup _ _ _ _ _ Hs Hx) as [pn Hpn].
  unfold qlinks in Hpn. destruct (qh_nodes h !! x); [eauto|done].
Qed.

Lemma node_read_eq (h : qheap A) p n :
  qh_nodes h !! p = Some n -> node_read p h = Some (n, h).
Proof. intros Hp. unfold node_read. by rewrite Hp. Qed.

Lemma node_write_eq (h : qheap A) p f n :
  qh_nodes h !! p = Some n ->
  node_write p f h = Some (tt, QHeap (<[p := f n]> (qh_nodes h)) (qh_slab h)).
Proof. intros Hp. unfold node_write. by rewrite Hp. Qed.

Context `{!AllocatorLaws A}.

(** a new node: fresh, and the heap stays consistent *)
Lemma queue_node_create_ok (h : qheap A) data :
  qheap_inv h -> alloc_room (qh_slab h) ->
  exists node h', queue_node_create data h = Some (node, h') /\ qheap_inv h' /\
    qh_nodes h' = <[node := QueueNode data NULL NULL]> (qh_nodes h) /\
    qh_nodes h !! node = None /\ node <> NULL.
Proof.
  intros [Hinv Hlive] Hroom. destruct (alloc_total _ Hinv Hroom) as (p & a' & Hal).
  destruct (alloc_ok _ _ _ Hinv Hal) as (Hinv' & Hp & Hfresh & Hlive').
  exists p. unfold queue_node_create. rewrite Hal. eexists. split; [done|].
  assert (qh_nodes h !! p = None) as Hnone.
  { apply eq_None_not_Some. by rewrite <- Hlive. }
  split_and!; try done. split; simpl; [done|]. intros q. rewrite Hlive', Hlive, lookup_insert_is_Some.
  destruct (decide (p = q)); subst; naive_solver.
Qed.

Lemma queue_node_free_ok (h : qheap A) p :
  qheap_inv h -> is_Some (qh_nodes h !! p) ->
  exists h', queue_node_free p h = Some (tt, h') /\ qheap_inv h' /\
    qh_nodes h' = delete p (qh_nodes h).
Proof.
  intros [Hinv Hlive] Hp. rewrite <- Hlive in Hp.
  destruct (dealloc_ok _ _ Hinv Hp) as (a' & Hde & Hinv' & Hlive').
  unfold queue_node_free. rewrite Hde. eexists; split_and!; [done| |done].
  split; simpl; [done|]. intros q. rewrite Hlive', Hlive, lookup_delete_is_Some.
  naive_solver.
Qed.

Lemma qheap_inv_write (h : qheap A) p n n' :
  qheap_inv h -> qh_nodes h !! p = Some n ->
  qheap_inv (QHeap (<[p := n']> (qh_nodes h)) (qh_slab h)).
Proof.
  intros [Hinv Hlive] Hp. split; simpl; [done|]. intros q.
  rewrite Hlive, lookup_insert_is_Some. split; [|intros [->|[_ ?]]; eauto].
  intros Hq. destruct (decide (p = q)); eauto.
Qed.

Lemma w32_succ n : w32 (w32 (Z.of_nat n) + 1) = w32 (Z.of_nat (S n)).
Proof. unfold w32. rewrite Zplus_mod_idemp_l. f_equal. lia. Qed.

Lemma w32_pred n : w32 (w32 (Z.of_nat (S n)) - 1) = w32 (Z.of_nat n).
Proof. unfold w32. rewrite Zminus_mod_idemp_l. f_equal. lia. Qed.

Lemma hd_ptr_nonnull ns : NULL ∉ ns -> ns <> [] -> hd_ptr NULL ns <> NULL.
Proof. destruct ns; [done|]. simpl. set_solver. Qed.

Lemma last_ptr_nonnull ns : NULL ∉ ns -> ns <> [] -> last_ptr NULL ns <> NULL.
Proof.
  intros Hn Hne. destruct ns as [|z ns' _] using rev_ind; [done|].
  rewrite last_ptr_snoc. set_solver.
Qed.

(** the node just created and given its first link *)
Lemma queue_node_ready (h : qheap A) data (f : queue_node -> queue_node) :
  qheap_inv h -> alloc_room (qh_slab h) ->
  exists node h1 h2, queue_node_create data h = Some (node, h1) /\
    node_write node f h1 = Some (tt, h2) /\
    qh_nodes h2 = <[node := f (QueueNode data NULL NULL)]> (qh_nodes h) /\
    qheap_inv h2 /\ qh_nodes h !! node = None /\ node <> NULL.
Proof.
  intros Hh Hroom.
  destruct (queue_node_create_ok h data Hh Hroom) as (node & h1 & Hc & Hh1 & Hn1 & Hfresh & Hnn).
  assert (qh_nodes h1 !! node = Some (QueueNode data NULL NULL)) as Hl1
    by (rewrite Hn1; apply lookup_insert_eq).
  pose proof (qheap_inv_write h1 node _ (f (QueueNode data NULL NULL)) Hh1 Hl1) as Hw.
  exists node, h1. eexists. split_and!; [done|by apply node_write_eq| |done|done|done].
  simpl. by rewrite Hn1, insert_insert_eq.
Qed.

(** what the spec of an operation needs of the heaps before and after *)
Lemma same_outside_push (ns : list Z) (h h2 h3 : qheap A) node n (z : Z) m :
  qh_nodes h !! node = None -> z ∈ ns ->
  qh_nodes h2 = <[node := n]> (qh_nodes h) ->
  qh_nodes h3 = qh_nodes h2 \/ qh_nodes h3 = <[z := m]> (qh_nodes h2) ->
  same_outside ns h h3.
Proof.
  intros Hfresh Hz H2 H3 y Hy Hyn.
  assert (y <> node) by (intros ->; rewrite Hfresh in Hy; by destruct Hy).
  assert (y <> z) by (intros ->; done).
  destruct H3 as [-> | ->]; rewrite ?lookup_insert_ne by done; rewrite H2;
    by rewrite lookup_insert_ne by done.
Qed.

Lemma queue_push_back_ok h q ns vs data :
  qheap_inv h -> queue_at h q ns vs -> alloc_room (qh_slab h) ->
  exists node q' h', queue_push_back q data h = Some (q', h') /\ qheap_inv h' /\
    queue_at h' q' (ns ++ [node]) (vs ++ [data]) /\
    qh_nodes h !! node = None /\ same_outside ns h h'.
Proof.
  intros Hh Hq Hroom.
  destruct (queue_node_ready h data (set_prev (q_back q)) Hh Hroom)
    as (node & h1 & h2 & Hc & Hwr & Hn2 & Hinv & Hfresh & Hnn).
  assert (node ∉ ns) as Hnotin.
  { intros Hin. destruct (queue_at_lookup _ _ _ _ _ Hq Hin) as [? ?]. congruence. }
  pose proof Hq as [Hdll Hf Hb Hd Hi].
  pose proof (dll_push_back _ _ _ Hdll Hnotin Hnn) as Hdll'.
  assert (w32 (q_items q + 1) = w32 (Z.of_nat (length (vs ++ [data])))) as Hi'.
  { rewrite Hi, w32_succ, length_app. simpl. f_equal. lia. }
  assert (Forall2 (qdata (qh_nodes h2)) (ns ++ [node]) (vs ++ [data])) as Hd2.
  { rewrite Hn2. apply Forall2_app.
    - eapply qdata_ext; [|exact Hd]. intros x n Hx Hn. exists n.
      rewrite lookup_insert_ne by (by intros ->). done.
    - repeat constructor. eexists. by rewrite lookup_insert_eq. }
  assert (qh_nodes h2 !! node = Some (set_prev (q_back q) (QueueNode data NULL NULL))) as Hln
    by (rewrite Hn2; apply lookup_insert_eq).
  unfold queue_push_back. rewrite ST_bind_eq, Hc, ST_bind_eq, Hwr. cbv beta zeta. cbn [q_front q_back q_items].
  destruct ns as [|z ns' _] using rev_ind.
  - exists node, (MkQueue node node (w32 (q_items q + 1))), h2. split_and!; try done.
    + by rewrite Hf.
    + split; simpl; try done. eapply dll_ext; [|exact Hdll']. intros y Hy.
      rewrite Hn2, qlinks_new. simpl. by rewrite Hb.
    + intros y Hy _. rewrite Hn2, lookup_insert_ne; [done|]. intros ->.
      rewrite Hfresh in Hy. by destruct Hy.
  - assert (z ∈ ns' ++ [z]) as Hz by set_solver.
    assert (q_back q = z) as Hbz by (by rewrite Hb, last_ptr_snoc).
    destruct (queue_at_lookup _ _ _ _ _ Hq Hz) as [nz Hnz].
    assert (z <> node) as Hzn by (by intros ->).
    assert (qh_nodes h2 !! z = Some nz) as Hlz by (rewrite Hn2, lookup_insert_ne; done).
    assert ((q_front q =? NULL) = false) as ->.
    { apply Z.eqb_neq. rewrite Hf. apply hd_ptr_nonnull; [apply Hdll|by destruct ns']. }
    rewrite ST_bind_eq, (node_read_eq _ _ _ Hln), ST_bind_eq. simpl.
    rewrite Hbz, (node_write_eq _ _ _ _ Hlz).
    eexists node, _, _. split_and!; [reflexivity| | |done|].
    + by eapply qheap_inv_write.
    + split; simpl; [|by rewrite hd_ptr_app, Hf; destruct ns'|by rewrite last_ptr_snoc| |done].
      * eapply dll_ext; [|exact Hdll']. intros y Hy.
        rewrite (qlinks_next _ _ _ _ _ Hlz), last_ptr_snoc. unfold fix_next. rewrite last_snoc.
        unfold lk_next, lk_new. rewrite Hn2, qlinks_new. unfold lk_new. simpl. rewrite Hbz.
        repeat case_decide; subst; done.
      * eapply qdata_ext; [|exact Hd2]. intros x n Hx Hn. rewrite lookup_insert.
        case_decide; subst; [|eauto]. simplify_eq. eauto.
    + by eapply (same_outside_push _ h h2 _ node _ z _ Hfresh Hz Hn2); right.
Qed.

Lemma queue_push_front_ok h q ns vs data :
  qheap_inv h -> queue_at h q ns vs -> alloc_room (qh_slab h) ->
  exists node q' h', queue_push_front q data h = Some (q', h') /\ qheap_inv h' /\
    queue_at h' q' (node :: ns) (data :: vs) /\
    qh_nodes h !! node = None /\ same_outside ns h h'.
Proof.
  intros Hh Hq Hroom.
  destruct (queue_node_ready h data (set_next (q_front q)) Hh Hroom)
    as (node & h1 & h2 & Hc & Hwr & Hn2 & Hinv & Hfresh & Hnn).
  assert (node ∉ ns) as Hnotin.
  { intros Hin. destruct (queue_at_lookup _ _ _ _ _ Hq Hin) as [? ?]. congruence. }
  pose proof Hq as [Hdll Hf Hb Hd Hi].
  pose proof (dll_push_front _ _ _ Hdll Hnotin Hnn) as Hdll'.
  assert (w32 (q_items q + 1) = w32 (Z.of_nat (length (data :: vs)))) as Hi'
    by (by rewrite Hi, w32_succ).
  assert (Forall2 (qdata (qh_nodes h2)) (node :: ns) (data :: vs)) as Hd2.
  { rewrite Hn2. constructor; [eexists; by rewrite lookup_insert_eq|].
    eapply qdata_ext; [|exact Hd]. intros x n Hx Hn. exists n.
    rewrite lookup_insert_ne by (by intros ->). done. }
  assert (qh_nodes h2 !! node = Some (set_next (q_front q) (QueueNode data NULL NULL))) as Hln
    by (rewrite Hn2; apply lookup_insert_eq).
  unfold queue_push_front. rewrite ST_bind_eq, Hc, ST_bind_eq, Hwr.
  cbv beta zeta. cbn [q_front q_back q_items].
  destruct ns as [|z ns'].
  - exists node, (MkQueue node node (w32 (q_items q + 1))), h2. split_and!; try done.
    + by rewrite Hb.
    + split; simpl; try done. eapply dll_ext; [|exact Hdll']. intros y Hy.
      rewrite Hn2, qlinks_new. simpl. by rewrite Hf.
    + intros y Hy _. rewrite Hn2, lookup_insert_ne; [done|]. intros ->.
      rewrite Hfresh in Hy. by destruct Hy.
  - assert (z ∈ z :: ns') as Hz by set_solver.
    simpl in Hf.
    destruct (queue_at_lookup _ _ _ _ _ Hq Hz) as [nz Hnz].
    assert (z <> node) as Hzn by (by intros ->).
    assert (qh_nodes h2 !! z = Some nz) as Hlz by (rewrite Hn2, lookup_insert_ne; done).
    assert ((q_back q =? NULL) = false) as ->.
    { apply Z.eqb_neq. rewrite Hb. by apply last_ptr_nonnull; [apply Hdll|]. }
    rewrite ST_bind_eq, (node_read_eq _ _ _ Hln), ST_bind_eq. simpl.
    rewrite Hf, (node_write_eq _ _ _ _ Hlz).
    eexists node, _, _. split_and!; [reflexivity| | |done|].
    + by eapply qheap_inv_write.
    + split; simpl; [|done|by rewrite Hb, !last_ptr_cons| |done].
      * eapply dll_ext; [|exact Hdll']. intros y Hy.
        rewrite (qlinks_prev _ _ _ _ _ Hlz). simpl.
        unfold lk_prev, lk_new. rewrite Hn2, qlinks_new. unfold lk_new. simpl. rewrite Hf.
        repeat case_decide; subst; done.
      * eapply qdata_ext; [|exact Hd2]. intros x n Hx Hn. rewrite lookup_insert.
        case_decide; subst; [|eauto]. simplify_eq. eauto.
    + by eapply (same_outside_push _ h h2 _ node _ z _ Hfresh Hz Hn2); right.
Qed.

(** the last part of a pop: the node's data is read and the node freed *)
Lemma queue_pop_finish (h : qheap A) x n (q2 : queue) :
  qheap_inv h -> qh_nodes h !! x = Some n ->
  exists h', (n' ← node_read x; let ret := qn_data n' in
              _ ← queue_node_free x; mret (ret, q2)) h = Some ((qn_data n, q2), h') /\
    qheap_inv h' /\ qh_nodes h' = delete x (qh_nodes h).
Proof.
  intros Hh Hx. destruct (queue_node_free_ok h x Hh ltac:(eauto)) as (h' & Hfr & Hh' & Hn').
  exists h'. split_and!; [|done|done].
  by rewrite ST_bind_eq, (node_read_eq _ _ _ Hx), ST_bind_eq, Hfr.
Qed.

Lemma qdata_delete h x ns vs :
  x ∉ ns -> Forall2 (qdata h) ns vs -> Forall2 (qdata (delete x h)) ns vs.
Proof.
  intros Hx. apply qdata_ext. intros y n Hy Hn. exists n.
  rewrite lookup_delete_ne by (by intros ->). done.
Qed.

Lemma same_outside_pop (ns : list Z) (h h2 h3 : qheap A) x z m :
  x ∈ ns -> z ∈ ns ->
  qh_nodes h2 = qh_nodes h \/ qh_nodes h2 = <[z := m]> (qh_nodes h) ->
  qh_nodes h3 = delete x (qh_nodes h2) -> same_outside ns h h3.
Proof.
  intros Hx Hz H2 H3 y Hy Hyn. rewrite H3.
  rewrite lookup_delete_ne by (by intros ->).
  destruct H2 as [-> | ->]; [done|]. by rewrite lookup_insert_ne by (by intros ->).
Qed.

Lemma queue_pop_front_ok h q ns x vs v :
  qheap_inv h -> queue_at h q (x :: ns) (v :: vs) ->
  exists q' h', queue_pop_front q h = Some ((v, q'), h') /\ qheap_inv h' /\
    queue_at h' q' ns vs /\ same_outside (x :: ns) h h'.
Proof.
  intros Hh Hq. pose proof Hq as [Hdll Hf Hb Hd Hi]. simpl in Hf.
  apply Forall2_cons in Hd as [(nx & Hnx & Hv) Hd].
  pose proof (dll_remove _ [] x ns Hdll) as Hdll'. simpl in Hdll'.
  destruct Hdll as ((Hx & Hseg) & Hnd & Hnull). apply NoDup_cons in Hnd as [Hxn Hnd].
  unfold qlinks in Hx. rewrite Hnx in Hx. simpl in Hx. injection Hx as Hpv Hnext.
  assert (w32 (q_items q - 1) = w32 (Z.of_nat (length vs))) as Hi'
    by (by rewrite Hi; simpl length; rewrite w32_pred).
  unfold queue_pop_front. rewrite Hf.
  assert ((x =? NULL) = false) as -> by (apply Z.eqb_neq; intros ->; set_solver).
  rewrite ST_bind_eq, (node_read_eq _ _ _ Hnx). cbv beta zeta. cbn [q_front q_back q_items].
  rewrite Hnext, ST_bind_eq. destruct ns as [|z ns'].
  - simpl. destruct (queue_pop_finish h x nx (MkQueue NULL NULL (w32 (q_items q - 1))) Hh Hnx)
      as (h' & Hfin & Hh' & Hn').
    eexists _, h'. split_and!; [rewrite <- Hv; exact Hfin|done| |].
    + apply Forall2_nil_inv_l in Hd as ->. by split.
    + eapply (same_outside_pop _ h h h' x x nx); [set_solver|set_solver|by left|done].
  - simpl in *. assert (z <> NULL) as Hz0 by set_solver.
    rewrite (proj2 (Z.eqb_neq _ _) Hz0).
    destruct (queue_at_lookup _ _ _ _ z Hq ltac:(set_solver)) as [nz Hnz].
    assert (z <> x) as Hzx by set_solver.
    rewrite ST_bind_eq, (node_write_eq _ _ _ _ Hnz). unfold mret, ST_ret.
    pose proof (qheap_inv_write h z nz (set_prev NULL nz) Hh Hnz) as Hinv2.
    edestruct (queue_pop_finish _ x nx (MkQueue z (q_back q) (w32 (q_items q - 1))) Hinv2)
      as (h' & Hfin & Hh' & Hn'); [simpl; by rewrite lookup_insert_ne|].
    eexists _, h'. split_and!; [rewrite <- Hv; exact Hfin|done| |].
    + split; simpl; [|done|by rewrite Hb, !last_ptr_cons| |done].
      * eapply dll_ext; [|exact Hdll']. intros y Hy. rewrite Hn'. simpl.
        rewrite qlinks_delete by (intros ->; set_solver).
        by rewrite (qlinks_prev _ _ _ _ _ Hnz).
      * rewrite Hn'. simpl. apply qdata_delete; [done|].
        eapply qdata_ext; [|exact Hd]. intros w n Hw Hn. rewrite lookup_insert.
        case_decide; subst; [|eauto]. simplify_eq. eauto.
    + eapply (same_outside_pop _ h (QHeap (<[z := set_prev NULL nz]> (qh_nodes h)) (qh_slab h)) h' x z); [set_solver|set_solver|right; reflexivity|done].
Qed.

Lemma queue_pop_back_ok h q ns x vs v :
  qheap_inv h -> queue_at h q (ns ++ [x]) (vs ++ [v]) ->
  exists q' h', queue_pop_back q h = Some ((v, q'), h') /\ qheap_inv h' /\
    queue_at h' q' ns vs /\ same_outside (ns ++ [x]) h h'.
Proof.
  intros Hh Hq. pose proof Hq as [Hdll Hf Hb Hd Hi]. rewrite last_ptr_snoc in Hb.
  assert (length ns = length vs) as Hlen.
  { apply Forall2_length in Hd. rewrite !length_app in Hd. simpl in Hd. lia. }
  apply Forall2_app_inv in Hd as [Hd Hdx]; [|done].
  apply Forall2_cons in Hdx as [(nx & Hnx & Hv) _].
  pose proof (dll_remove _ ns x [] Hdll) as Hdll'. simpl in Hdll'. rewrite app_nil_r in Hdll'.
  destruct Hdll as (Hseg & Hnd & Hnull).
  apply dseg_mid in Hseg. unfold qlinks in Hseg. rewrite Hnx in Hseg. simpl in Hseg.
  injection Hseg as Hprev Hnext.
  apply NoDup_app in Hnd as (Hnd & Hdis & _).
  assert (x ∉ ns) as Hxn by (intros Hin; apply (Hdis x Hin); set_solver).
  assert (w32 (q_items q - 1) = w32 (Z.of_nat (length vs))) as Hi'.
  { rewrite Hi, length_app. simpl length. rewrite Nat.add_1_r. apply w32_pred. }
  unfold queue_pop_back. rewrite Hb.
  assert ((x =? NULL) = false) as -> by (apply Z.eqb_neq; intros ->; set_solver).
  rewrite ST_bind_eq, (node_read_eq _ _ _ Hnx). cbv beta zeta. cbn [q_front q_back q_items].
  rewrite Hprev, ST_bind_eq. destruct ns as [|z ns' _] using rev_ind.
  - simpl. destruct (queue_pop_finish h x nx (MkQueue NULL NULL (w32 (q_items q - 1))) Hh Hnx)
      as (h' & Hfin & Hh' & Hn').
    eexists _, h'. split_and!; [rewrite <- Hv; exact Hfin|done| |].
    + apply Forall2_nil_inv_l in Hd as ->. by split.
    + eapply (same_outside_pop _ h h h' x x nx); [set_solver|set_solver|by left|done].
  - rewrite last_ptr_snoc in *. assert (z <> NULL) as Hz0 by set_solver.
    rewrite (proj2 (Z.eqb_neq _ _) Hz0).
    destruct (queue_at_lookup _ _ _ _ z Hq ltac:(set_solver)) as [nz Hnz].
    assert (z <> x) as Hzx by set_solver.
    rewrite ST_bind_eq, (node_write_eq _ _ _ _ Hnz). unfold mret, ST_ret.
    pose proof (qheap_inv_write h z nz (set_next NULL nz) Hh Hnz) as Hinv2.
    edestruct (queue_pop_finish _ x nx (MkQueue (q_front q) z (w32 (q_items q - 1))) Hinv2)
      as (h' & Hfin & Hh' & Hn'); [simpl; by rewrite lookup_insert_ne|].
    eexists _, h'. split_and!; [rewrite <- Hv; exact Hfin|done| |].
    + split; simpl; [| |by rewrite last_ptr_snoc| |done].
      * eapply dll_ext; [|exact Hdll']. intros y Hy. rewrite Hn'. simpl.
        rewrite qlinks_delete by (by intros ->).
        rewrite (qlinks_next _ _ _ _ _ Hnz). unfold fix_next. by rewrite last_snoc.
      * rewrite Hf, !hd_ptr_app. by destruct ns'.
      * rewrite Hn'. simpl. apply qdata_delete; [done|].
        eapply qdata_ext; [|exact Hd]. intros w n Hw Hn. rewrite lookup_insert.
        case_decide; subst; [|eauto]. simplify_eq. eauto.
    + eapply (same_outside_pop _ h (QHeap (<[z := set_next NULL nz]> (qh_nodes h)) (qh_slab h)) h' x z); [set_solver|set_solver|right; reflexivity|done].
Qed.
End queue.

(** ** Specification: a double-ended queue of values *)

Inductive deque_op := PushFront (v : Z) | PushBack (v : Z) | PopFront | PopBack.

(** what an operation answers and leaves; an empty queue answers NULL *)
Definition deque_spec (o : deque_op) (vs : list Z) : Z * list Z :=
  match o with
  | PushFront v => (NULL, v :: vs)
  | PushBack v => (NULL, vs ++ [v])
  | PopFront => match vs with [] => (NULL, []) | v :: vs' => (v, vs') end
  | PopBack => match last vs with
               | None => (NULL, [])
               | Some v => (v, take (length vs - 1) vs)
               end
  end.

Definition deque_step {A} `{!Allocator A} (o : deque_op) (q : queue)
    : ST (qheap A) (Z * queue) :=
  match o with
  | PushFront v => q' ← queue_push_front q v; mret (NULL, q')
  | PushBack v => q' ← queue_push_back q v; mret (NULL, q')
  | PopFront => queue_pop_front q
  | PopBack => queue_pop_back q
  end.

Fixpoint deque_run {A} `{!Allocator A} (os : list deque_op) (q : queue)
    : ST (qheap A) (list Z * queue) :=
  match os with
  | [] => mret ([], q)
  | o :: os =>
      '(v, q1) ← deque_step o q;
      '(vs, q2) ← deque_run os q1;
      mret (v :: vs, q2)
  end.

Fixpoint deque_run_spec (os : list deque_op) (vs : list Z) : list Z * list Z :=
  match os with
  | [] => ([], vs)
  | o :: os =>
      let '(v, vs1) := deque_spec o vs in
      let '(out, vs2) := deque_run_spec os vs1 in (v :: out, vs2)
  end.

Section deque.
Context {A : Type} `{!Allocator A} `{!AllocatorLaws A}.

(** one step, with the nodes the queue ends up on *)
Lemma deque_step_ok (h : qheap A) q ns vs o :
  qheap_inv h -> queue_at h q ns vs -> alloc_room (qh_slab h) ->
  exists q' h' ns', deque_step o q h = Some (((deque_spec o vs).1, q'), h') /\
    qheap_inv h' /\ queue_at h' q' ns' (deque_spec o vs).2 /\ same_outside ns h h' /\
    (forall x, x ∈ ns' -> x ∈ ns \/ qh_nodes h !! x = None).
Proof.
  intros Hh Hq Hroom. destruct o as [v|v| |]; simpl.
  - destruct (queue_push_front_ok h q ns vs v Hh Hq Hroom)
      as (node & q' & h' & Hrun & Hh' & Hq' & Hfresh & Hout).
    exists q', h', (node :: ns). split_and!; try done.
    + by rewrite ST_bind_eq, Hrun.
    + intros x [->|Hx]%elem_of_cons; auto.
  - destruct (queue_push_back_ok h q ns vs v Hh Hq Hroom)
      as (node & q' & h' & Hrun & Hh' & Hq' & Hfresh & Hout).
    exists q', h', (ns ++ [node]). split_and!; try done.
    + by rewrite ST_bind_eq, Hrun.
    + intros x [Hx| ->%list_elem_of_singleton]%elem_of_app; auto.
  - pose proof (Forall2_length _ _ _ (qa_data _ _ _ _ Hq)) as Hlen.
    destruct vs as [|v vs], ns as [|x ns]; try done; simpl in Hlen.
    + exists q, h, []. split_and!; [|done|done|by intros x _ _|set_solver].
      unfold queue_pop_front. by rewrite (qa_front _ _ _ _ Hq).
    + destruct (queue_pop_front_ok h q ns x vs v Hh Hq) as (q' & h' & Hrun & Hh' & Hq' & Hout).
      exists q', h', ns. split_and!; try done. intros y Hy. left. set_solver.
  - pose proof (Forall2_length _ _ _ (qa_data _ _ _ _ Hq)) as Hlen.
    destruct vs as [|v vs _] using rev_ind; [destruct ns as [|x ns]|destruct ns as [|x ns _] using rev_ind].
    + exists q, h, []. split_and!; [|done|done|by intros x _ _|set_solver].
      unfold queue_pop_back. by rewrite (qa_back _ _ _ _ Hq).
    + done.
    + rewrite length_app in Hlen. simpl in Hlen. lia.
    + rewrite last_snoc. simpl.
      destruct (queue_pop_back_ok h q ns x vs v Hh Hq) as (q' & h' & Hrun & Hh' & Hq' & Hout).
      exists q', h', ns. rewrite take_app_length' by (rewrite length_app; simpl; lia).
      split_and!; try done. intros y Hy. left. set_solver.
Qed.

(** the slab has room for one more node before each operation of a run *)
Fixpoint room_along (os : list deque_op) (q : queue) (h : qheap A) : Prop :=
  match os with
  | [] => True
  | o :: os => alloc_room (qh_slab h) /\
      forall v q' h', deque_step o q h = Some ((v, q'), h') -> room_along os q' h'
  end.

(** C12: the linked-list queue refines a double-ended queue of values: from a
    queue holding [vs], any sequence of pushes and pops at either end runs
    without a fault, answers what the specification answers (NULL when a pop
    finds the queue empty) and leaves a well-formed queue holding what the
    specification leaves, as long as the slab does not run out of memory. *)
Theorem deque_run_refines (h : qheap A) (q : queue) (vs : list Z) (os : list deque_op) :
  room_along os q h -> queue_rep h q vs ->
  exists q' h', deque_run os q h = Some (((deque_run_spec os vs).1, q'), h') /\
    queue_rep h' q' (deque_run_spec os vs).2.
Proof.
  revert h q vs.
  induction os as [|o os IH]; intros h q vs Hroom [Hh [ns Hq]]; simpl.
  - exists q, h. split; [done|]. by split; [|exists ns].
  - destruct Hroom as [Hr Hroom]. destruct (deque_step_ok h q ns vs o Hh Hq Hr)
      as (q1 & h1 & ns1 & Hrun & Hh1 & Hq1 & _ & _). specialize (Hroom _ _ _ Hrun).
    destruct (deque_spec o vs) as [v vs1]. simpl in *.
    destruct (IH h1 q1 vs1 Hroom) as (q2 & h2 & Hrun2 & Hq2); [split; eauto|].
    destruct (deque_run_spec os vs1) as [out vs2]. simpl in *.
    exists q2, h2. split; [|done]. by rewrite ST_bind_eq, Hrun, ST_bind_eq, Hrun2.
Qed.

(** queues do not interfere: an operation on one queue leaves every queue
    on other nodes of the heap as it was, and the two stay on disjoint nodes. *)
Theorem deque_step_frame (h : qheap A) (q q2 : queue) (ns ns2 vs vs2 : list Z) (o : deque_op) :
  qheap_inv h -> queue_at h q ns vs -> queue_at h q2 ns2 vs2 -> ns ## ns2 ->
  alloc_room (qh_slab h) ->
  exists v q' h' ns' vs', deque_step o q h = Some ((v, q'), h') /\
    queue_at h' q' ns' vs' /\ queue_at h' q2 ns2 vs2 /\ ns' ## ns2.
Proof.
  intros Hh Hq Hq2 Hdis Hroom.
  destruct (deque_step_ok h q ns vs o Hh Hq Hroom)
    as (q' & h' & ns' & Hrun & Hh' & Hq' & Hout & Hfresh).
  assert (forall x, x ∈ ns2 -> qh_nodes h' !! x = qh_nodes h !! x) as Hsame.
  { intros x Hx. destruct (queue_at_lookup _ _ _ _ _ Hq2 Hx) as [n Hn].
    apply Hout; [by eexists|]. set_solver. }
  eexists _, q', h', ns', _. split_and!; [exact Hrun|exact Hq'| |].
  - destruct Hq2 as [Hdll Hf Hb Hd Hi]. split; try done.
    + eapply dll_ext; [|done]. intros x Hx. unfold qlinks. by rewrite Hsame.
    + eapply qdata_ext; [|done]. intros x n Hx Hn. rewrite <- Hsame in Hn by done. eauto.
  - intros x Hx Hx2. destruct (Hfresh x Hx) as [?|Hnone]; [set_solver|].
    destruct (queue_at_lookup _ _ _ _ _ Hq2 Hx2). congruence.
Qed.

(** [queue_pop_min] hands its comparison function the addresses of the two
    front nodes, not the two front values: on two non-empty queues the choice
    does not depend on the data at all. *)
Theorem queue_pop_min_compares_nodes (h : qheap A) (a b : queue) x y (ns ms vs ws : list Z)
    (v w : Z) (comp : Z -> Z -> Z) :
  qheap_inv h -> queue_at h a (x :: ns) (v :: vs) -> queue_at h b (y :: ms) (w :: ws) ->
  Z.of_nat (S (length vs)) < 2 ^ 32 -> Z.of_nat (S (length ws)) < 2 ^ 32 ->
  exists a' b' h', queue_pop_min a b comp h
    = Some ((if comp x y <=? 0 then v else w, (a', b')), h').
Proof.
  intros Hh Ha Hb Hla Hlb. unfold queue_pop_min.
  rewrite (qa_items _ _ _ _ Ha), (qa_items _ _ _ _ Hb). cbn [length].
  rewrite (w32_small (Z.of_nat (S (length vs)))), (w32_small (Z.of_nat (S (length ws)))) by lia.
  assert (forall n, (Z.of_nat (S n) =? 0) = false) as Hz by (intros; apply Z.eqb_neq; lia).
  rewrite !Hz. simpl. unfold queue_peek_front.
  rewrite (qa_front _ _ _ _ Ha), (qa_front _ _ _ _ Hb). simpl.
  destruct (comp x y <=? 0).
  - destruct (queue_pop_front_ok h a ns x vs v Hh Ha) as (q' & h' & Hrun & _).
    exists q', b, h'. by rewrite ST_bind_eq, Hrun.
  - destruct (queue_pop_front_ok h b ms y ws w Hh Hb) as (q' & h' & Hrun & _).
    exists a, q', h'. by rewrite ST_bind_eq, Hrun.
Qed.
End deque.

(** ** The properties on concrete queues, over the bump allocator *)

Definition heap_ex0 : qheap Bump.t := QHeap ∅ Bump.init.

(** two queues of one node each *)
Definition heap_ex2 : qheap Bump.t :=
  QHeap {[0x1000 := QueueNode 5 NULL NULL; 0x1080 := QueueNode 7 NULL NULL]}
    (Bump.Bump 0x1100 {[0x1000; 0x1080]}).

Lemma heap_ex0_rep : queue_rep heap_ex0 queue_init [].
Proof.
  split; [split; [apply Bump.bump_init_inv|]|].
  - intros p. simpl. rewrite lookup_empty. split; [set_solver|by intros []].
  - exists []. split; try done. apply dll_nil.
Qed.

Lemma heap_ex2_inv : qheap_inv heap_ex2.
Proof.
  split; simpl.
  - split; [done|]. intros p. rewrite elem_of_union, !elem_of_singleton. lia.
  - intros p. rewrite elem_of_union, !elem_of_singleton. split.
    + intros [-> | ->]; by eexists.
    + intros [n Hn]. destruct (decide (p = 0x1000)); [by left|]. right.
      rewrite lookup_insert_ne in Hn by done. apply lookup_singleton_Some in Hn as [<- _]. done.
Qed.

Lemma queue_at_single (h : qheap Bump.t) x v :
  qh_nodes h !! x = Some (QueueNode v NULL NULL) -> x <> NULL ->
  queue_at h (MkQueue x x 1) [x] [v].
Proof.
  intros Hx Hx0. split; try done.
  - split_and!; [|by apply NoDup_singleton|set_solver]. simpl. unfold qlinks. by rewrite Hx.
  - constructor; [|done]. by eexists.
Qed.

Lemma room_along_bump os q (h : qheap Bump.t) : room_along os q h.
Proof. revert q h. induction os as [|o os IH]; intros q h; [done|]. split; [done|]. intros. apply IH. Qed.

Lemma deque_run_refines_witness :
  exists q' h', deque_run [PushBack 1; PushFront 2; PopBack; PushFront 3; PopFront] queue_init heap_ex0
    = Some (([0; 0; 1; 0; 3], q'), h') /\ queue_rep h' q' [2].
Proof.
  apply (deque_run_refines heap_ex0 queue_init []
    [PushBack 1; PushFront 2; PopBack; PushFront 3; PopFront]);
    [apply room_along_bump|apply heap_ex0_rep].
Defined.

Lemma deque_step_frame_witness :
  exists v q' h' ns' vs', deque_step (PushBack 9) (MkQueue 0x1000 0x1000 1) heap_ex2 = Some ((v, q'), h') /\
    queue_at h' q' ns' vs' /\ queue_at h' (MkQueue 0x1080 0x1080 1) [0x1080] [7] /\ ns' ## [0x1080].
Proof.
  apply (deque_step_frame heap_ex2 _ _ [0x1000] [0x1080] [5] [7]);
    [apply heap_ex2_inv|by apply queue_at_single|by apply queue_at_single|set_solver|done].
Defined.

(** 7 is popped before 5 by a comparison that would prefer 5 *)
Lemma queue_pop_min_compares_nodes_witness :
  exists a' b' h', queue_pop_min (MkQueue 0x1080 0x1080 1) (MkQueue 0x1000 0x1000 1)
    (fun x y => if y =? 0x1000 then 0 else 1) heap_ex2 = Some ((7, (a', b')), h').
Proof.
  apply (queue_pop_min_compares_nodes heap_ex2 _ _ 0x1080 0x1000 [] [] [] [] 7 5);
    [apply heap_ex2_inv|by apply queue_at_single|by apply queue_at_single|done|done].
Defined.
