(* ===== verification/Slab.v ===== *)
(** The slab allocator ([src/mm/slab.c], [include/c4/mm/slab.h]): objects of one
    size cut from pages, each page a block with a header, a bitmap of its 32
    slots and a place in one of three doubly linked lists.

    The state is the [slab_t], the block headers by page address, the region
    pages come from, and the memory state [M] the region maps pages in.  The
    invariant [slab_inv] describes the three lists; the file ends with the
    [Allocator] instance the clients of a slab rely on. *)
From S2P Require Export Region Alloc.
From S2P Require Import Dll.

Definition MAGIC : Z := 0xabadc0de.
Definition MAX_FREE_SLABS : Z := 2.

(** which of the lists of its slab a [slab_list_t *] points to *)
Inductive slab_list_id := LFree | LPartial | LFull.

#[export] Instance slab_list_id_eq_dec : EqDecision slab_list_id.
Proof. solve_decision. Defined.

Record slab_blk := SlabBlk {
  sb_magic : Z;
  sb_map : Z;
  sb_slab : Z;
  sb_prev : Z;
  sb_next : Z;
  sb_list : option slab_list_id;
}.

Record slab_list := SlabList { sl_first : Z; sl_size : Z }.

Record slab := Slab {
  s_lock : bool;
  s_free : slab_list;
  s_partial : slab_list;
  s_full : slab_list;
  s_obj_size : Z;
  s_total_pages : Z;
}.

Record slab_state (M : Type) := SlabState {
  ss_slab : slab;
  ss_blocks : gmap Z slab_blk;
  ss_region : region;
  ss_mem : M;
}.
Arguments SlabState {M} _ _ _ _.
Arguments ss_slab {M} _.
Arguments ss_blocks {M} _.
Arguments ss_region {M} _.
Arguments ss_mem {M} _.

Definition slab_list_get (i : slab_list_id) (s : slab) : slab_list :=
  match i with LFree => s_free s | LPartial => s_partial s | LFull => s_full s end.

Definition slab_list_put (i : slab_list_id) (l : slab_list) (s : slab) : slab :=
  match i with
  | LFree => Slab (s_lock s) l (s_partial s) (s_full s) (s_obj_size s) (s_total_pages s)
  | LPartial => Slab (s_lock s) (s_free s) l (s_full s) (s_obj_size s) (s_total_pages s)
  | LFull => Slab (s_lock s) (s_free s) (s_partial s) l (s_obj_size s) (s_total_pages s)
  end.

Definition set_s_lock (b : bool) (s : slab) : slab :=
  Slab b (s_free s) (s_partial s) (s_full s) (s_obj_size s) (s_total_pages s).
Definition set_s_total_pages (n : Z) (s : slab) : slab :=
  Slab (s_lock s) (s_free s) (s_partial s) (s_full s) (s_obj_size s) n.

Definition set_sb_map (v : Z) (b : slab_blk) : slab_blk :=
  SlabBlk (sb_magic b) v (sb_slab b) (sb_prev b) (sb_next b) (sb_list b).
Definition set_sb_prev (v : Z) (b : slab_blk) : slab_blk :=
  SlabBlk (sb_magic b) (sb_map b) (sb_slab b) v (sb_next b) (sb_list b).
Definition set_sb_next (v : Z) (b : slab_blk) : slab_blk :=
  SlabBlk (sb_magic b) (sb_map b) (sb_slab b) (sb_prev b) v (sb_list b).
Definition set_sb_list (v : option slab_list_id) (b : slab_blk) : slab_blk :=
  SlabBlk (sb_magic b) (sb_map b) (sb_slab b) (sb_prev b) (sb_next b) v.

Section slab_ops.
Context {M : Type}.
Context (map_page : Z -> Z -> ST M Z) (unmap_page : Z -> ST M unit).
(** the constructor and destructor given to [slab_init_at], NULL in the kernel *)
Context (ctor dtor : option (Z -> ST M unit)).
(** the address of the [slab_t], and what a fresh page happens to hold *)
Context (slab_addr : Z) (stale : Z -> slab_blk).

Abbreviation SST := (ST (slab_state M)).

Definition with_slab (f : slab -> slab) : SST unit :=
  modify (fun s => SlabState (f (ss_slab s)) (ss_blocks s) (ss_region s) (ss_mem s)).
Definition with_mem {A} (m : ST M A) : SST A :=
  zoom ss_mem (fun x s => SlabState (ss_slab s) (ss_blocks s) (ss_region s) x) m.
Definition list_get (i : slab_list_id) : SST slab_list := gets (fun s => slab_list_get i (ss_slab s)).
Definition list_first (i : slab_list_id) (p : Z) : SST unit :=
  with_slab (fun s => slab_list_put i (SlabList p (sl_size (slab_list_get i s))) s).
Definition list_size (i : slab_list_id) (d : Z) : SST unit :=
  with_slab (fun s => let l := slab_list_get i s in
    slab_list_put i (SlabList (sl_first l) (w32 (sl_size l + d))) s).

Definition blk_read (p : Z) : SST slab_blk :=
  fun s => match ss_blocks s !! p with Some b => Some (b, s) | None => None end.
Definition blk_write (p : Z) (f : slab_blk -> slab_blk) : SST unit :=
  fun s => match ss_blocks s !! p with
           | Some b => Some (tt, SlabState (ss_slab s) (<[p := f b]> (ss_blocks s))
                                   (ss_region s) (ss_mem s))
           | None => None
           end.

(** spinning on a lock that is held never ends on a single processor *)
Definition slab_lock : SST unit :=
  s ← get_st;
  if s_lock (ss_slab s) then fault else with_slab (set_s_lock true).
Definition slab_unlock : SST unit := with_slab (set_s_lock false).

Definition slab_delist_block (blk : Z) : SST unit :=
  b ← blk_read blk;
  match sb_list b with
  | None => mret tt
  | Some i =>
      _ ← when_st (negb (sb_prev b =? NULL)) (blk_write (sb_prev b) (set_sb_next (sb_next b)));
      b ← blk_read blk;
      _ ← when_st (negb (sb_next b =? NULL)) (blk_write (sb_next b) (set_sb_prev (sb_prev b)));
      b ← blk_read blk;
      l ← list_get i;
      _ ← when_st (sl_first l =? blk) (list_first i (sb_next b));
      list_size i (-1)
  end.

Definition slab_insert_block (blk : Z) (i : slab_list_id) : SST unit :=
  l ← list_get i;
  _ ← (if sl_first l =? NULL then
         _ ← list_first i blk;
         blk_write blk (set_sb_next NULL)
       else
         _ ← blk_write (sl_first l) (set_sb_prev blk);
         _ ← blk_write blk (set_sb_next (sl_first l));
         list_first i blk);
  _ ← blk_write blk (set_sb_prev NULL);
  _ ← blk_write blk (set_sb_list (Some i));
  list_size i 1.

Definition slab_move_block (blk : Z) (i : slab_list_id) : SST unit :=
  _ ← slab_delist_block blk;
  slab_insert_block blk i.

Definition slab_pop_block (i : slab_list_id) : SST Z :=
  l ← list_get i;
  let temp := sl_first l in
  _ ← slab_delist_block temp;
  mret temp.

(** the page [region_alloc] gives is written to without a check for NULL *)
Definition slab_alloc_block : SST Z :=
  s ← get_st;
  '(blk, r) ← with_mem (region_alloc map_page (ss_region s));
  if blk =? NULL then fault
  else
    _ ← modify (fun s => SlabState (ss_slab s)
           (<[blk := SlabBlk MAGIC 0 slab_addr (sb_prev (stale blk)) (sb_next (stale blk)) None]>
              (ss_blocks s)) r (ss_mem s));
    b ← blk_read blk;
    m ← lift_opt (bitmap_set [sb_map b] 0);
    _ ← blk_write blk (set_sb_map (default 0 (head m)));
    _ ← with_slab (fun s => set_s_total_pages (w32 (s_total_pages s + 1)) s);
    mret blk.

Definition slab_dealloc_free_block : SST unit :=
  l ← list_get LFree;
  if MAX_FREE_SLABS <? sl_size l then
    block ← slab_pop_block LFree;
    s ← get_st;
    r ← with_mem (region_free unmap_page (ss_region s) block);
    modify (fun s => SlabState (ss_slab s) (delete block (ss_blocks s)) r (ss_mem s))
  else mret tt.

(** from the label [retry] to the choice of a block; [retries] counts the one
    retry that [retried] allows *)
Fixpoint slab_choose (retries : nat) : SST Z :=
  s ← get_st;
  if negb (sl_first (s_partial (ss_slab s)) =? NULL) then
    mret (sl_first (s_partial (ss_slab s)))
  else if negb (sl_first (s_free (ss_slab s)) =? NULL) then
    mret (sl_first (s_free (ss_slab s)))
  else
    temp ← slab_alloc_block;
    _ ← slab_move_block temp LFree;
    match retries with
    | S r => slab_choose r
    | O => mret NULL
    end.

(** the body of [if (block)] *)
Definition slab_take (block : Z) : SST Z :=
  b ← blk_read block;
  n ← lift_opt (bitmap_first_free [sb_map b] BITMAP_BPS);
  s ← get_st;
  let addr := w32 (block + n * s_obj_size (ss_slab s)) in
  m ← lift_opt (bitmap_set [sb_map b] (w32 n));
  _ ← blk_write block (set_sb_map (default 0 (head m)));
  b ← blk_read block;
  _ ← (if sb_map b =? BITMAP_ENT_FULL then slab_move_block block LFull
       else if decide (sb_list b = Some LFree) then slab_move_block block LPartial
       else mret tt);
  _ ← match ctor with Some c => with_mem (c addr) | None => mret tt end;
  mret addr.

Definition slab_alloc : SST Z :=
  _ ← slab_lock;
  block ← slab_choose 1;
  if negb (block =? NULL) then
    addr ← slab_take block;
    _ ← slab_unlock;
    mret addr
  else
    _ ← slab_unlock;
    mret NULL.

Definition slab_free (ptr : Z) : SST unit :=
  _ ← slab_lock;
  if negb (ptr =? NULL) then
    let addr := ptr / PAGE_SIZE * PAGE_SIZE in
    let pos := (ptr - addr) / (PAGE_SIZE / BITMAP_BPS) in
    let block := addr in
    b ← blk_read block;
    if negb (sb_magic b =? MAGIC) then slab_unlock
    else
      (* the destructor is given the block, not the object *)
      _ ← match dtor with Some d => with_mem (d addr) | None => mret tt end;
      m ← lift_opt (bitmap_unset [sb_map b] pos);
      _ ← blk_write block (set_sb_map (default 0 (head m)));
      b ← blk_read block;
      _ ← (if sb_map b =? 1 then
             _ ← slab_move_block block LFree;
             slab_dealloc_free_block
           else if decide (sb_list b = Some LFull) then slab_move_block block LPartial
           else mret tt);
      slab_unlock
  else slab_unlock.
End slab_ops.

Definition slab_adjust_size (size : Z) : Z :=
  let min_size := PAGE_SIZE / BITMAP_BPS in
  if min_size <=? size then
    let ret := w32 (size / min_size * min_size) in
    w32 (ret + size mod min_size)
  else min_size.

Definition slab_init_at (obj_size : Z) : slab :=
  Slab false (SlabList NULL 0) (SlabList NULL 0) (SlabList NULL 0)
    (slab_adjust_size obj_size) 0.

(** ** The three lists *)

Definition slinks (bs : gmap Z slab_blk) : links := fun x =>
  (fun b => (sb_prev b, sb_next b)) <$> bs !! x.

(** what the list operations leave alone in a block *)
Definition attrs (b : slab_blk) := (sb_magic b, sb_map b, sb_slab b, sb_list b).
Definition body (b : slab_blk) := (sb_magic b, sb_map b, sb_slab b).

Definition with_blocks {M} (bs : gmap Z slab_blk) (s : slab_state M) : slab_state M :=
  SlabState (ss_slab s) bs (ss_region s) (ss_mem s).

(** list [i] of [sl] is the blocks [l] *)
Record list_at (bs : gmap Z slab_blk) (sl : slab) (i : slab_list_id) (l : list Z) : Prop := {
  la_dll : dll (slinks bs) l;
  la_first : sl_first (slab_list_get i sl) = hd_ptr NULL l;
  la_size : sl_size (slab_list_get i sl) = w32 (Z.of_nat (length l));
  la_in : forall x, x ∈ l -> exists b, bs !! x = Some b /\ sb_list b = Some i;
}.

Definition lists_at (bs : gmap Z slab_blk) (sl : slab) (L : slab_list_id -> list Z) : Prop :=
  forall i, list_at bs sl i (L i).

Definition upd_list (L : slab_list_id -> list Z) (i : slab_list_id) (l : list Z) :=
  fun k => if decide (k = i) then l else L k.

Lemma slinks_next bs p v b x :
  bs !! p = Some b -> slinks (<[p := set_sb_next v b]> bs) x = lk_next p v (slinks bs) x.
Proof.
  intros Hp. unfold slinks, lk_next. rewrite lookup_insert.
  repeat case_decide; subst; try done. by rewrite Hp.
Qed.

Lemma slinks_prev bs p v b x :
  bs !! p = Some b -> slinks (<[p := set_sb_prev v b]> bs) x = lk_prev p v (slinks bs) x.
Proof.
  intros Hp. unfold slinks, lk_prev. rewrite lookup_insert.
  repeat case_decide; subst; try done. by rewrite Hp.
Qed.

Lemma slinks_new bs p b x :
  slinks (<[p := b]> bs) x = lk_new p (sb_prev b) (sb_next b) (slinks bs) x.
Proof.
  unfold slinks, lk_new. rewrite lookup_insert. repeat case_decide; by subst.
Qed.

Lemma same_insert {B} (f : slab_blk -> B) (bs : gmap Z slab_blk) p b b' y :
  bs !! p = Some b -> f b' = f b -> f <$> <[p := b']> bs !! y = f <$> bs !! y.
Proof.
  intros Hp Hf. rewrite lookup_insert. case_decide; [|done]. subst. rewrite Hp. simpl. congruence.
Qed.

Lemma lists_disjoint bs sl L i j x :
  lists_at bs sl L -> x ∈ L i -> x ∈ L j -> i = j.
Proof.
  intros HL Hi Hj. destruct (la_in _ _ _ _ (HL i) x Hi) as (b & Hb & Hbi).
  destruct (la_in _ _ _ _ (HL j) x Hj) as (b' & Hb' & Hbj). congruence.
Qed.

Lemma attrs_list (bs bs' : gmap Z slab_blk) x b i :
  (forall y, attrs <$> bs' !! y = attrs <$> bs !! y) ->
  bs !! x = Some b -> sb_list b = Some i -> exists b', bs' !! x = Some b' /\ sb_list b' = Some i.
Proof.
  intros Hattr Hb Hl. specialize (Hattr x). rewrite Hb in Hattr.
  apply fmap_Some in Hattr as (b' & Hb' & Heq). exists b'. split; [done|].
  unfold attrs in Heq. congruence.
Qed.

Section lists.
Context {M : Type}.
Implicit Types (s : slab_state M) (bs : gmap Z slab_blk).

(** the write to a neighbour that [slab_delist_block] guards with a NULL test *)
Lemma write_last_next s l v :
  NULL ∉ l -> (forall x, x ∈ l -> is_Some (ss_blocks s !! x)) ->
  exists bs, when_st (negb (last_ptr NULL l =? NULL)) (blk_write (last_ptr NULL l) (set_sb_next v)) s
      = Some (tt, with_blocks bs s) /\
    (forall y, slinks bs y = fix_next l v (slinks (ss_blocks s)) y) /\
    (forall y, attrs <$> bs !! y = attrs <$> ss_blocks s !! y).
Proof.
  intros Hnull Hin. destruct l as [|z l _] using rev_ind.
  - exists (ss_blocks s). split_and!; try done. by destruct s.
  - rewrite last_ptr_snoc. assert (z <> NULL) as Hz by set_solver.
    rewrite (proj2 (Z.eqb_neq _ _) Hz). simpl.
    destruct (Hin z ltac:(set_solver)) as [b Hb].
    exists (<[z := set_sb_next v b]> (ss_blocks s)). unfold blk_write. rewrite Hb.
    split_and!; [done| |].
    + intros y. rewrite (slinks_next _ _ _ _ _ Hb). unfold fix_next. by rewrite last_snoc.
    + intros y. by eapply same_insert.
Qed.

Lemma write_head_prev s l v :
  NULL ∉ l -> (forall x, x ∈ l -> is_Some (ss_blocks s !! x)) ->
  exists bs, when_st (negb (hd_ptr NULL l =? NULL)) (blk_write (hd_ptr NULL l) (set_sb_prev v)) s
      = Some (tt, with_blocks bs s) /\
    (forall y, slinks bs y = fix_prev l v (slinks (ss_blocks s)) y) /\
    (forall y, attrs <$> bs !! y = attrs <$> ss_blocks s !! y).
Proof.
  intros Hnull Hin. destruct l as [|z l].
  - exists (ss_blocks s). split_and!; try done. by destruct s.
  - simpl. assert (z <> NULL) as Hz by set_solver.
    rewrite (proj2 (Z.eqb_neq _ _) Hz). simpl.
    destruct (Hin z ltac:(set_solver)) as [b Hb].
    exists (<[z := set_sb_prev v b]> (ss_blocks s)). unfold blk_write. rewrite Hb.
    split_and!; [done| |].
    + intros y. by rewrite (slinks_prev _ _ _ _ _ Hb).
    + intros y. by eapply same_insert.
Qed.

Lemma attrs_some bs bs' x :
  (forall y, attrs <$> bs' !! y = attrs <$> bs !! y) -> is_Some (bs !! x) -> is_Some (bs' !! x).
Proof.
  intros Hattr [b Hb]. specialize (Hattr x). rewrite Hb in Hattr.
  apply fmap_Some in Hattr as (b' & Hb' & _). eauto.
Qed.

(** taking [x] out of list [i] *)
Lemma list_at_remove bs bs' sl i l1 x l2 :
  list_at bs sl i (l1 ++ x :: l2) ->
  (forall y, slinks bs' y = fix_prev l2 (last_ptr NULL l1) (fix_next l1 (hd_ptr NULL l2) (slinks bs)) y) ->
  (forall y, attrs <$> bs' !! y = attrs <$> bs !! y) ->
  list_at bs' (slab_list_put i (SlabList (hd_ptr NULL (l1 ++ l2))
    (w32 (sl_size (slab_list_get i sl) + -1))) sl) i (l1 ++ l2).
Proof.
  intros [Hdll Hf Hs Hin] Hlk Hattr. split.
  - eapply dll_ext; [|by eapply dll_remove]. intros y _. rewrite Hlk. symmetry. apply fix_comm.
  - by destruct i.
  - replace (sl_size _) with (w32 (sl_size (slab_list_get i sl) + -1)) by (by destruct i).
    rewrite Hs, !length_app. simpl length. rewrite Nat.add_succ_r.
    unfold w32. rewrite Zplus_mod_idemp_l. f_equal. lia.
  - intros y Hy. destruct (Hin y ltac:(set_solver)) as (b & Hb & Hbi). by eapply attrs_list.
Qed.

Lemma list_at_other bs bs' sl i k l lk :
  k <> i -> list_at bs sl k l ->
  (forall y, y ∈ l -> slinks bs' y = slinks bs y) ->
  (forall x, x ∈ l -> exists b, bs' !! x = Some b /\ sb_list b = Some k) ->
  list_at bs' (slab_list_put i lk sl) k l.
Proof.
  intros Hki [Hdll Hf Hs Hin] Hlk Hin'. split; [by eapply dll_ext| | |done];
    by destruct i, k.
Qed.
End lists.

Lemma slab_put_put i a b sl : slab_list_put i a (slab_list_put i b sl) = slab_list_put i a sl.
Proof. by destruct i. Qed.
Lemma slab_get_put i a sl : slab_list_get i (slab_list_put i a sl) = a.
Proof. by destruct i. Qed.
Lemma slab_get_put_ne i k a sl : k <> i -> slab_list_get k (slab_list_put i a sl) = slab_list_get k sl.
Proof. by destruct i, k. Qed.
Lemma slab_put_rest i a sl :
  s_lock (slab_list_put i a sl) = s_lock sl /\ s_obj_size (slab_list_put i a sl) = s_obj_size sl /\
  s_total_pages (slab_list_put i a sl) = s_total_pages sl.
Proof. by destruct i. Qed.

Section list_ops.
Context {M : Type}.
Implicit Types (s : slab_state M).

Abbreviation lists s := (lists_at (ss_blocks s) (ss_slab s)).

(** what moving blocks between lists leaves alone *)
Record same_rest (s s' : slab_state M) : Prop := {
  sm_region : ss_region s' = ss_region s;
  sm_mem : ss_mem s' = ss_mem s;
  sm_lock : s_lock (ss_slab s') = s_lock (ss_slab s);
  sm_obj : s_obj_size (ss_slab s') = s_obj_size (ss_slab s);
  sm_total : s_total_pages (ss_slab s') = s_total_pages (ss_slab s);
  sm_body : forall y, body <$> ss_blocks s' !! y = body <$> ss_blocks s !! y;
}.

Lemma same_rest_trans s1 s2 s3 : same_rest s1 s2 -> same_rest s2 s3 -> same_rest s1 s3.
Proof. intros [] []. split; congruence. Qed.

Lemma attrs_body (bs bs' : gmap Z slab_blk) :
  (forall y, attrs <$> bs' !! y = attrs <$> bs !! y) ->
  forall y, body <$> bs' !! y = body <$> bs !! y.
Proof.
  intros H y. specialize (H y). destruct (bs' !! y), (bs !! y); simpl in *; try done.
  f_equal. unfold attrs, body in *. congruence.
Qed.

Lemma lists_nonnull s L i : lists s L -> NULL ∉ L i.
Proof. intros HL. apply (la_dll _ _ _ _ (HL i)). Qed.

Lemma lists_some s L i x : lists s L -> x ∈ L i -> is_Some (ss_blocks s !! x).
Proof. intros HL Hx. destruct (la_in _ _ _ _ (HL i) x Hx) as (b & Hb & _). eauto. Qed.

(** a block's links and attributes read back after its neighbours changed *)
Lemma reread (bs bs' : gmap Z slab_blk) x b :
  bs !! x = Some b -> slinks bs' x = slinks bs x ->
  (forall y, attrs <$> bs' !! y = attrs <$> bs !! y) ->
  exists b', bs' !! x = Some b' /\ sb_prev b' = sb_prev b /\ sb_next b' = sb_next b /\
    sb_list b' = sb_list b.
Proof.
  intros Hb Hl Ha. specialize (Ha x). unfold slinks in Hl. rewrite Hb in *.
  destruct (bs' !! x) as [b'|]; [|done]. exists b'. simpl in *. unfold attrs in Ha.
  split_and!; congruence.
Qed.

Lemma slab_delist_block_ok s L i l1 x l2 :
  lists s L -> L i = l1 ++ x :: l2 ->
  exists s', slab_delist_block x s = Some (tt, s') /\
    lists s' (upd_list L i (l1 ++ l2)) /\ same_rest s s' /\
    (forall y, attrs <$> ss_blocks s' !! y = attrs <$> ss_blocks s !! y).
Proof.
  intros HL HLi. pose proof (HL i) as Hi. rewrite HLi in Hi.
  destruct (la_in _ _ _ _ Hi x ltac:(set_solver)) as (b & Hb & Hbi).
  pose proof (la_dll _ _ _ _ Hi) as (Hseg & Hnd & Hnull).
  apply dseg_mid in Hseg as Hx. unfold slinks in Hx. rewrite Hb in Hx. simpl in Hx.
  injection Hx as Hprev Hnext.
  apply NoDup_app in Hnd as (_ & Hdis & Hnd2). apply NoDup_cons in Hnd2 as [Hx2 _].
  assert (x ∉ l1) as Hx1 by (intros Hin; apply (Hdis x Hin); set_solver).
  assert (forall y, y ∈ l1 ++ x :: l2 -> is_Some (ss_blocks s !! y)) as Hsome
    by (intros y Hy; apply (lists_some s L i); [done|by rewrite HLi]).
  destruct (write_last_next s l1 (hd_ptr NULL l2)) as (bs1 & Hw1 & Hl1 & Ha1);
    [set_solver|intros; apply Hsome; set_solver|].
  destruct (reread _ bs1 x b Hb) as (b1 & Hb1 & Hp1 & Hn1 & Hli1);
    [by rewrite Hl1, fix_next_ne|done|].
  destruct (write_head_prev (with_blocks bs1 s) l2 (last_ptr NULL l1))
    as (bs2 & Hw2 & Hl2 & Ha2); [set_solver| |].
  { intros y Hy. apply (attrs_some _ _ _ Ha1), Hsome. set_solver. }
  simpl in Hl2, Ha2.
  destruct (reread _ bs2 x b1 Hb1) as (b2 & Hb2 & Hp2 & Hn2 & Hli2);
    [by rewrite Hl2, fix_prev_ne|done|].
  assert (forall y, attrs <$> bs2 !! y = attrs <$> ss_blocks s !! y) as Ha by (intros; by rewrite Ha2).
  exists (SlabState (slab_list_put i (SlabList (hd_ptr NULL (l1 ++ l2))
    (w32 (sl_size (slab_list_get i (ss_slab s)) + -1))) (ss_slab s)) bs2 (ss_region s) (ss_mem s)).
  split_and!.
  - unfold slab_delist_block. eapply ST_bind_intro; [unfold blk_read; by rewrite Hb|].
    cbv beta. rewrite Hbi. rewrite Hprev, Hnext.
    eapply ST_bind_intro; [exact Hw1|]. cbv beta.
    eapply ST_bind_intro; [unfold blk_read; simpl; by rewrite Hb1|]. cbv beta.
    rewrite Hp1, Hn1, Hprev, Hnext.
    eapply ST_bind_intro; [exact Hw2|]. cbv beta.
    eapply ST_bind_intro; [unfold blk_read; simpl; by rewrite Hb2|]. cbv beta.
    eapply ST_bind_intro; [reflexivity|]. cbv beta. simpl.
    rewrite (la_first _ _ _ _ Hi), Hn2, Hn1, Hnext. destruct l1 as [|z l1]; simpl.
    + rewrite Z.eqb_refl. simpl. unfold list_first, list_size, with_slab, modify.
      rewrite ST_bind_eq. simpl. by rewrite slab_put_put, slab_get_put.
    + assert (z <> x) as Hzx by set_solver. rewrite (proj2 (Z.eqb_neq _ _) Hzx).
      rewrite ST_bind_eq. simpl. unfold list_size, with_slab, modify. simpl.
      by rewrite (la_first _ _ _ _ Hi).
  - intros k. unfold upd_list. simpl. destruct (decide (k = i)) as [->|Hki].
    + eapply list_at_remove; [done| |done]. intros y. rewrite Hl2. unfold fix_prev.
      destruct l2; simpl; [by rewrite Hl1|]. unfold lk_prev. case_decide; by rewrite Hl1.
    + assert (forall y, y ∈ L k -> y ∉ l1 ++ x :: l2) as Hout.
      { intros y Hyk Hyi. rewrite <- HLi in Hyi. apply Hki. by eapply lists_disjoint. }
      eapply list_at_other; [done|apply HL| |].
      * intros y Hy%Hout. rewrite Hl2, fix_prev_ne, Hl1, fix_next_ne by set_solver. done.
      * intros y Hy. destruct (la_in _ _ _ _ (HL k) y Hy) as (c & Hc & Hck). by eapply attrs_list.
  - split; simpl; try done; try apply slab_put_rest. by apply attrs_body.
  - done.
Qed.

(** the tail of [slab_insert_block], once the old head of the list is dealt with *)
Lemma insert_links s L i x b v bs :
  lists s L -> (forall k, x ∉ L k) -> x <> NULL ->
  ss_blocks s !! x = Some b -> v = hd_ptr NULL (L i) ->
  bs !! x = Some b ->
  (forall y, slinks bs y = fix_prev (L i) x (slinks (ss_blocks s)) y) ->
  (forall y, attrs <$> bs !! y = attrs <$> ss_blocks s !! y) ->
  let s' := SlabState (slab_list_put i (SlabList x
        (w32 (sl_size (slab_list_get i (ss_slab s)) + 1))) (ss_slab s))
      (<[x := set_sb_list (Some i) (set_sb_prev NULL (set_sb_next v b))]> bs)
      (ss_region s) (ss_mem s) in
  lists s' (upd_list L i (x :: L i)) /\ same_rest s s'.
Proof.
  intros HL Hx Hx0 Hb -> Hbs Hlk Ha s'. split.
  - intros k. unfold upd_list. destruct (decide (k = i)) as [->|Hki].
    + pose proof (HL i) as [Hdll Hf Hs Hin]. split.
      * eapply dll_ext; [|by apply (dll_push_front _ _ x Hdll)]. intros y _.
        simpl. rewrite slinks_new. simpl. unfold lk_new. case_decide; [done|]. apply Hlk.
      * simpl. by rewrite slab_get_put.
      * simpl. rewrite slab_get_put. simpl. rewrite Hs. unfold w32.
        rewrite Zplus_mod_idemp_l. f_equal. lia.
      * intros y [->|Hy]%elem_of_cons; simpl.
        -- rewrite lookup_insert_eq. eauto.
        -- rewrite lookup_insert_ne by (intros ->; by apply (Hx i)).
           destruct (Hin y Hy) as (c & Hc & Hci). by eapply attrs_list.
    + apply list_at_other with (bs := ss_blocks s); [done|apply HL| |].
      * intros y Hy. simpl. rewrite slinks_new. unfold lk_new.
        rewrite decide_False by (intros ->; by apply (Hx k)). rewrite Hlk.
        apply fix_prev_ne. intros Hyi. apply Hki. by eapply lists_disjoint.
      * intros y Hy. simpl. rewrite lookup_insert_ne by (intros ->; by apply (Hx k)).
        destruct (la_in _ _ _ _ (HL k) y Hy) as (c & Hc & Hck). by eapply attrs_list.
  - split; simpl; try done; try apply slab_put_rest.
    intros y. rewrite <- (attrs_body _ bs Ha y). by eapply same_insert.
Qed.

Lemma slab_insert_block_ok s L i x :
  lists s L -> (forall k, x ∉ L k) -> x <> NULL -> is_Some (ss_blocks s !! x) ->
  exists s', slab_insert_block x i s = Some (tt, s') /\
    lists s' (upd_list L i (x :: L i)) /\ same_rest s s'.
Proof.
  intros HL Hx Hx0 [b Hb]. pose proof (la_first _ _ _ _ (HL i)) as Hf.
  destruct (L i) as [|z l] eqn:E; simpl in Hf.
  - destruct (insert_links s L i x b NULL (ss_blocks s)) as [H1 H2]; try done.
    { by rewrite E. }
    { by rewrite E. }
    rewrite E in H1. eexists. split; [|split; [exact H1|exact H2]].
    unfold slab_insert_block. st_ret. rewrite Hf. simpl. unfold blk_write, list_first, list_size,
      with_slab, modify. rewrite !ST_bind_eq. simpl.
    repeat (first [rewrite ST_bind_eq|rewrite Hb|rewrite lookup_insert_eq|rewrite insert_insert_eq]; simpl).
    by rewrite slab_put_put, slab_get_put.
  - assert (z <> NULL) as Hz.
    { intros ->. apply (lists_nonnull s L i HL). rewrite E. set_solver. }
    assert (z <> x) as Hzx by (intros ->; apply (Hx i); rewrite E; set_solver).
    destruct (lists_some s L i z HL) as [c Hc]; [rewrite E; set_solver|].
    destruct (insert_links s L i x b z (<[z := set_sb_prev x c]> (ss_blocks s))) as [H1 H2]; try done.
    { by rewrite E. }
    { by rewrite lookup_insert_ne. }
    { intros y. rewrite (slinks_prev _ _ _ _ _ Hc). by rewrite E. }
    { intros y. by eapply same_insert. }
    rewrite E in H1. eexists. split; [|split; [exact H1|exact H2]].
    unfold slab_insert_block. st_ret. rewrite Hf, (proj2 (Z.eqb_neq _ _) Hz).
    unfold blk_write, list_first, list_size, with_slab, modify. rewrite !ST_bind_eq. simpl.
    repeat (first [rewrite ST_bind_eq|rewrite Hc|rewrite lookup_insert_eq|rewrite insert_insert_eq
                  |rewrite lookup_insert_ne by done; rewrite Hb]; simpl).
    by rewrite slab_put_put, slab_get_put.
Qed.

Lemma slab_move_block_ok s L i j l1 x l2 :
  lists s L -> L i = l1 ++ x :: l2 ->
  let L' := upd_list L i (l1 ++ l2) in
  exists s', slab_move_block x j s = Some (tt, s') /\
    lists s' (upd_list L' j (x :: L' j)) /\ same_rest s s'.
Proof.
  intros HL HLi L'. destruct (slab_delist_block_ok s L i l1 x l2 HL HLi)
    as (s1 & H1 & HL1 & Hr1 & Ha1).
  assert (x ∈ L i) as Hxi by (rewrite HLi; set_solver).
  destruct (slab_insert_block_ok s1 L' j x) as (s2 & H2 & HL2 & Hr2); [done| | | |].
  - intros k. unfold L', upd_list. case_decide as Hk.
    + pose proof (la_dll _ _ _ _ (HL i)) as (_ & Hnd & _). rewrite HLi in Hnd.
      apply NoDup_app in Hnd as (_ & Hd & Hn). apply NoDup_cons in Hn as [Hn _].
      specialize (Hd x). set_solver.
    + intros Hxk. apply Hk. by apply (lists_disjoint _ _ _ _ _ _ HL Hxk).
  - intros ->. by apply (lists_nonnull s L i).
  - apply (attrs_some _ _ _ Ha1). by eapply lists_some.
  - exists s2. split; [|split; [done|by eapply same_rest_trans]].
    unfold slab_move_block. by eapply ST_bind_intro.
Qed.
End list_ops.

(** ** The invariant *)

(** the maps of the blocks, by page *)
Definition maps {M} (s : slab_state M) : gmap Z Z := sb_map <$> ss_blocks s.

(** what the map of a block looks like in each list: slot 0 is the header *)
Definition map_in (i : slab_list_id) (m : Z) : Prop :=
  match i with
  | LFree => m = 1
  | LFull => m = BITMAP_ENT_FULL
  | LPartial => 0 <= m < 2 ^ 32 /\ Z.testbit m 0 = true /\ m <> 1 /\ m <> BITMAP_ENT_FULL
  end.

(** the objects handed out: slot [n] of the page [x] *)
Definition slab_live {M} (s : slab_state M) (q : Z) : Prop :=
  exists x m n, maps s !! x = Some m /\ 1 <= n < 32 /\ Z.testbit m n = true /\
    q = x + n * s_obj_size (ss_slab s).

Record slab_rep {M} (minv : M -> Prop) (s : slab_state M) (L : slab_list_id -> list Z) : Prop := {
  rp_lists : lists_at (ss_blocks s) (ss_slab s) L;
  rp_maps : forall i x, x ∈ L i -> exists m, maps s !! x = Some m /\ map_in i m;
  rp_dom : forall x m, maps s !! x = Some m -> exists i, x ∈ L i;
  rp_magic : forall x b, ss_blocks s !! x = Some b -> sb_magic b = MAGIC;
  rp_pages : forall x m, maps s !! x = Some m -> region_owns (ss_region s) x;
  rp_size : 128 <= s_obj_size (ss_slab s) <= 132;
  rp_region : region_inv (ss_region s);
  rp_mem : minv (ss_mem s);
}.

Lemma body_maps {M} (s s' : slab_state M) :
  (forall y, body <$> ss_blocks s' !! y = body <$> ss_blocks s !! y) -> maps s' = maps s.
Proof.
  intros H. apply map_eq. intros y. unfold maps. rewrite !lookup_fmap. specialize (H y).
  destruct (ss_blocks s' !! y), (ss_blocks s !! y); simpl in *; try done. unfold body in *. congruence.
Qed.

Lemma body_magic (bs bs' : gmap Z slab_blk) :
  (forall y, body <$> bs' !! y = body <$> bs !! y) ->
  (forall x b, bs !! x = Some b -> sb_magic b = MAGIC) ->
  forall x b, bs' !! x = Some b -> sb_magic b = MAGIC.
Proof.
  intros H Hm x b Hb. specialize (H x). rewrite Hb in H. symmetry in H.
  apply fmap_Some in H as (c & Hc & Heq). specialize (Hm x c Hc). unfold body in *. congruence.
Qed.

Lemma region_owns_range r x :
  region_inv r -> region_owns r x -> 0 < x /\ x mod PAGE_SIZE = 0 /\ x + PAGE_SIZE <= 2 ^ 32.
Proof.
  intros Hi (k & Hk & -> & _). pose proof (region_pages_Z r Hi). destruct Hi.
  unfold PAGE_SIZE in *. split_and!; [lia| |lia].
  rewrite Z.add_mod, Z.mod_mul by done. by rewrite ri_align.
Qed.

(** slot addresses determine the page and the slot *)
Lemma slot_split x n size :
  x mod PAGE_SIZE = 0 -> 0 <= n < 32 -> 128 <= size <= 132 ->
  (x + n * size) / PAGE_SIZE * PAGE_SIZE = x /\
  (x + n * size - x) / (PAGE_SIZE / BITMAP_BPS) = n.
Proof.
  unfold PAGE_SIZE, BITMAP_BPS. intros Hx Hn Hs. change (4096 / 32) with 128.
  assert (0 <= n * size < 4096) by nia. set (o := n * size) in *. split.
  { pose proof (Z.div_mod x 4096 ltac:(done)) as Hd. rewrite Hx in Hd. rewrite Hd.
    replace (4096 * (x / 4096) + 0 + o) with (o + (x / 4096) * 4096) by lia.
    rewrite Z.div_add, Z.div_small by lia. lia. }
  unfold o.
  replace (x + n * size - x) with (n * (size - 128) + n * 128) by lia.
  rewrite Z.div_add by lia. rewrite Z.div_small by nia. lia.
Qed.

(** one bitmap word: setting its first clear bit, clearing a set one *)
Lemma map_first_free m :
  0 <= m < 2 ^ 32 -> m <> BITMAP_ENT_FULL -> Z.testbit m 0 = true ->
  exists n, bitmap_first_free [m] BITMAP_BPS = Some n /\ 1 <= n < 32 /\ Z.testbit m n = false.
Proof.
  intros Hm Hfull H0.
  destruct (bitmap_first_free_least [m] 32) as [(k & Hk & Hlt & Hb & _)|[_ Hall]]; try (simpl; lia).
  - exists (Z.of_nat k). split; [exact Hk|]. unfold bm_bit in Hb.
    rewrite Nat.div_small, Nat.mod_small in Hb by done. simpl in Hb. split; [|done].
    destruct k; [|lia]. change (Z.of_nat 0) with 0 in Hb. congruence.
  - exfalso. apply Hfull. apply Z.bits_inj'. intros j Hj.
    destruct (decide (j < 32)) as [Hlt|Hge].
    + specialize (Hall (Z.to_nat j) ltac:(lia)). unfold bm_bit in Hall.
      rewrite Nat.div_small, Nat.mod_small, Z2Nat.id in Hall by lia. simpl in Hall. rewrite Hall.
      symmetry. unfold BITMAP_ENT_FULL. change 4294967295 with (Z.ones 32).
      by rewrite Z.ones_spec_low by lia.
    + rewrite !testbit_high by (unfold BITMAP_ENT_FULL; lia). done.
Qed.

Lemma map_set m n :
  0 <= m < 2 ^ 32 -> 0 <= n < 32 ->
  exists m', bitmap_set [m] n = Some [m'] /\ 0 <= m' < 2 ^ 32 /\
    (forall k, 0 <= k -> Z.testbit m' k = Z.testbit m k || (k =? n)).
Proof.
  intros Hm Hn. unfold bitmap_set, BITMAP_BPS. rewrite Z.div_small, Z.mod_small by done.
  eexists. split; [reflexivity|]. split; [by apply lor_bit_range|]. intros. by apply lor_bit_testbit.
Qed.

Lemma map_unset m n :
  0 <= m < 2 ^ 32 -> 0 <= n < 32 ->
  exists m', bitmap_unset [m] n = Some [m'] /\ 0 <= m' < 2 ^ 32 /\
    (forall k, 0 <= k -> Z.testbit m' k = Z.testbit m k && negb (k =? n)).
Proof.
  intros Hm Hn. unfold bitmap_unset, BITMAP_BPS. rewrite Z.div_small, Z.mod_small by done.
  eexists. split; [reflexivity|]. split; [by apply land_notbit_range|]. intros. by apply land_notbit_testbit.
Qed.

Lemma map_in_wf i m : map_in i m -> 0 <= m < 2 ^ 32 /\ Z.testbit m 0 = true.
Proof. destruct i; simpl; unfold BITMAP_ENT_FULL; [intros ->; done|tauto|intros ->; done]. Qed.

(** the parts of the state that moving blocks does not touch *)
Record same_env {M} (s s' : slab_state M) : Prop := {
  se_region : ss_region s' = ss_region s;
  se_mem : ss_mem s' = ss_mem s;
  se_lock : s_lock (ss_slab s') = s_lock (ss_slab s);
  se_obj : s_obj_size (ss_slab s') = s_obj_size (ss_slab s);
}.

Section rep.
Context {M : Type} (minv : M -> Prop).
Implicit Types (s : slab_state M).
Abbreviation rep := (slab_rep minv).

Lemma rep_block s L i x :
  rep s L -> x ∈ L i -> exists b, ss_blocks s !! x = Some b /\ sb_list b = Some i /\
    maps s !! x = Some (sb_map b) /\ map_in i (sb_map b) /\ sb_magic b = MAGIC /\
    x <> NULL /\ x mod PAGE_SIZE = 0 /\ 0 < x /\ x + PAGE_SIZE <= 2 ^ 32.
Proof.
  intros Hr Hx. destruct (la_in _ _ _ _ (rp_lists _ _ _ Hr i) x Hx) as (b & Hb & Hl).
  assert (maps s !! x = Some (sb_map b)) as Hm by (unfold maps; by rewrite lookup_fmap, Hb).
  destruct (rp_maps _ _ _ Hr i x Hx) as (m & Hm' & Hin).
  destruct (region_owns_range _ _ (rp_region _ _ _ Hr) (rp_pages _ _ _ Hr _ _ Hm)) as (? & ? & ?).
  exists b. split_and!; try done.
  - congruence.
  - by apply (rp_magic _ _ _ Hr x).
  - unfold NULL. lia.
Qed.

(** [x] gets the map [m'] and goes to list [j] *)
Lemma rep_update s s' L L' x j m' :
  rep s L -> is_Some (maps s !! x) -> lists_at (ss_blocks s') (ss_slab s') L' ->
  maps s' = <[x := m']> (maps s) ->
  (forall y b, ss_blocks s' !! y = Some b -> sb_magic b = MAGIC) ->
  (forall k y, y ∈ L' k <-> if decide (y = x) then k = j else y ∈ L k) ->
  map_in j m' -> same_env s s' -> rep s' L'.
Proof.
  intros Hr Hx HL Hm Hmg Hmem Hj []. split; try congruence; try done.
  - intros k y. rewrite Hmem, Hm. case_decide as Hy.
    + intros ->. subst. rewrite lookup_insert_eq. eauto.
    + rewrite lookup_insert_ne by done. apply (rp_maps _ _ _ Hr).
  - intros y m. rewrite Hm. destruct (decide (y = x)) as [->|Hy].
    + intros _. exists j. apply Hmem. by rewrite decide_True.
    + rewrite lookup_insert_ne by done. intros (k & Hk)%(rp_dom _ _ _ Hr). exists k.
      apply Hmem. by rewrite decide_False.
  - intros y m. rewrite Hm, se_region0. destruct (decide (y = x)) as [->|Hy].
    + destruct Hx as [m0 Hm0]. intros _. by eapply (rp_pages _ _ _ Hr).
    + rewrite lookup_insert_ne by done. apply (rp_pages _ _ _ Hr).
  - rewrite se_obj0. apply Hr.
  - rewrite se_region0. apply Hr.
  - rewrite se_mem0. apply Hr.
Qed.

Definition put_map (x m : Z) (b : slab_blk) s : slab_state M :=
  with_blocks (<[x := set_sb_map m b]> (ss_blocks s)) s.

Lemma put_map_maps s x b m : maps (put_map x m b s) = <[x := m]> (maps s).
Proof. unfold maps, put_map, with_blocks; simpl. by rewrite fmap_insert. Qed.

Lemma put_map_lists s L x b m :
  lists_at (ss_blocks s) (ss_slab s) L -> ss_blocks s !! x = Some b ->
  lists_at (ss_blocks (put_map x m b s)) (ss_slab (put_map x m b s)) L.
Proof.
  intros HL Hb i. destruct (HL i) as [Hdll Hf Hs Hin]. split; try done.
  - eapply dll_ext; [|done]. intros y _. simpl. unfold slinks. rewrite lookup_insert.
    case_decide; [|done]. subst. by rewrite Hb.
  - intros y Hy. destruct (Hin y Hy) as (c & Hc & Hl). simpl. rewrite lookup_insert.
    case_decide; [|eauto]. subst. rewrite Hb in Hc. injection Hc as <-. eauto.
Qed.

Lemma put_map_magic s x b m :
  (forall y c, ss_blocks s !! y = Some c -> sb_magic c = MAGIC) -> ss_blocks s !! x = Some b ->
  forall y c, ss_blocks (put_map x m b s) !! y = Some c -> sb_magic c = MAGIC.
Proof.
  intros Hm Hb y c. simpl. rewrite lookup_insert. case_decide; [|apply Hm].
  intros [= <-]. subst. exact (Hm _ _ Hb).
Qed.

(** after the map of a block of list [i] changed, it may stay *)
Lemma put_map_stay s L x b m i :
  rep s L -> x ∈ L i -> ss_blocks s !! x = Some b -> map_in i m -> rep (put_map x m b s) L.
Proof.
  intros Hr Hx Hb Hm. eapply (rep_update s _ L L x i m); try done.
  - unfold maps. rewrite lookup_fmap, Hb. by eexists.
  - apply put_map_lists; [apply Hr|done].
  - apply put_map_maps.
  - apply put_map_magic; [apply Hr|done].
  - intros k y. case_decide; [|done]. subst. split; [|by intros ->].
    intros Hy. by eapply lists_disjoint; [apply Hr| |].
Qed.

(** or it is moved to list [j] *)
Lemma put_map_move s L x b m i j :
  rep s L -> x ∈ L i -> ss_blocks s !! x = Some b -> map_in j m ->
  exists s' L', slab_move_block x j (put_map x m b s) = Some (tt, s') /\ rep s' L' /\
    maps s' = <[x := m]> (maps s) /\ same_env s s' /\
    (length (L' LFree) <= length (L LFree) + if decide (j = LFree) then 1 else 0)%nat.
Proof.
  intros Hr Hx Hb Hm. pose proof Hx as Hx'. apply list_elem_of_split in Hx' as (l1 & l2 & HLi).
  destruct (slab_move_block_ok (put_map x m b s) L i j l1 x l2) as (s' & Hs' & HL & Hrest);
    [apply put_map_lists; [apply Hr|done]|done|].
  assert (same_env s s') as He by (destruct Hrest; by split).
  assert (maps s' = <[x := m]> (maps s)) as Hmaps.
  { rewrite (body_maps _ _ (sm_body _ _ Hrest)). apply put_map_maps. }
  exists s'. eexists. split; [exact Hs'|]. split_and!; try done.
  - eapply (rep_update s s' L _ x j m); try done.
    + unfold maps. rewrite lookup_fmap, Hb. by eexists.
    + eapply body_magic; [apply Hrest|]. apply put_map_magic; [apply Hr|done].
    + pose proof (la_dll _ _ _ _ (rp_lists _ _ _ Hr i)) as (_ & Hnd & _).
      rewrite HLi in Hnd. apply NoDup_app in Hnd as (_ & Hd & Hn).
      apply NoDup_cons in Hn as [Hn _]. specialize (Hd x).
      assert (x ∉ l1 ++ l2) as Hout by set_solver. clear Hd Hn.
      assert (forall k y, y ∈ upd_list L i (l1 ++ l2) k <-> y ∈ L k /\ y <> x) as Hrem.
      { intros k y. unfold upd_list. case_decide as Hk.
        - subst k. rewrite HLi. set_solver.
        - split; [|tauto]. intros Hy. split; [done|]. intros ->. apply Hk.
          by eapply lists_disjoint; [apply Hr| |]. }
      intros k y. unfold upd_list at 1. destruct (decide (k = j)) as [->|Hkj].
      * rewrite elem_of_cons, Hrem. case_decide; tauto.
      * rewrite Hrem. case_decide; [subst; split; [tauto|done]|tauto].
  - unfold upd_list. assert (length (l1 ++ l2) <= length (L i))%nat
      by (rewrite HLi, !length_app; simpl; lia).
    repeat case_decide; subst; simpl; try done; lia.
Qed.
End rep.

(** ** The operations *)

Section slab_thms.
Context {M : Type}.
Context (map_page : Z -> Z -> ST M Z) (unmap_page : Z -> ST M unit).
Context (ctor dtor : option (Z -> ST M unit)).
Context (slab_addr : Z) (stale : Z -> slab_blk).
Context (minv : M -> Prop).
Context (map_ok : forall f a m, minv m -> exists x m', map_page f a m = Some (x, m') /\ minv m').
Context (unmap_ok : forall a m, minv m -> exists m', unmap_page a m = Some (tt, m') /\ minv m').
Context (ctor_ok : forall c p m, ctor = Some c -> minv m -> exists m', c p m = Some (tt, m') /\ minv m').
Context (dtor_ok : forall c p m, dtor = Some c -> minv m -> exists m', c p m = Some (tt, m') /\ minv m').
Implicit Types (s : slab_state M).
Abbreviation rep := (slab_rep minv).

Definition set_mem (m : M) s : slab_state M := SlabState (ss_slab s) (ss_blocks s) (ss_region s) m.
Definition set_lock (b : bool) s : slab_state M :=
  SlabState (set_s_lock b (ss_slab s)) (ss_blocks s) (ss_region s) (ss_mem s).

Lemma rep_set_mem s L m : rep s L -> minv m -> rep (set_mem m s) L.
Proof. intros [] Hm. by split. Qed.

Lemma lists_at_lock bs sl L b : lists_at bs sl L -> lists_at bs (set_s_lock b sl) L.
Proof. intros HL i. destruct (HL i) as [? Hf Hs ?]. by split; destruct i. Qed.

Lemma rep_set_lock s L b : rep s L -> rep (set_lock b s) L.
Proof. intros []. split; try done. by apply lists_at_lock. Qed.

Lemma run_hook (h : option (Z -> ST M unit)) p s L :
  (forall c p m, h = Some c -> minv m -> exists m', c p m = Some (tt, m') /\ minv m') ->
  rep s L -> exists m', match h with Some c => with_mem (c p) | None => mret tt end s
    = Some (tt, set_mem m' s) /\ minv m'.
Proof.
  intros Hok Hr. pose proof (rp_mem _ _ _ Hr) as Hm. destruct h as [c|].
  - destruct (Hok c p _ eq_refl Hm) as (m' & Hc & Hm'). exists m'. split; [|done].
    unfold with_mem, zoom. by rewrite Hc.
  - exists (ss_mem s). split; [by destruct s|done].
Qed.

(** the address of a live object gives back its page and slot *)
Lemma slab_live_iff s L q :
  rep s L -> slab_live s q <-> exists x m n, maps s !! x = Some m /\ 1 <= n < 32 /\
    Z.testbit m n = true /\ q = x + n * s_obj_size (ss_slab s) /\
    q / PAGE_SIZE * PAGE_SIZE = x /\ (q - x) / (PAGE_SIZE / BITMAP_BPS) = n.
Proof.
  intros Hr. split.
  - intros (x & m & n & Hm & Hn & Hb & ->). exists x, m, n.
    destruct (region_owns_range _ _ (rp_region _ _ _ Hr) (rp_pages _ _ _ Hr _ _ Hm)) as (? & ? & ?).
    destruct (slot_split x n (s_obj_size (ss_slab s))); [done|lia|apply Hr|]. done.
  - intros (x & m & n & ? & ? & ? & ? & _). by exists x, m, n.
Qed.

(** changing bit [n] of the map of one page changes one object *)
Lemma slab_live_update s s' L x m m' n v :
  rep s L -> maps s !! x = Some m -> maps s' = <[x := m']> (maps s) ->
  s_obj_size (ss_slab s') = s_obj_size (ss_slab s) -> 1 <= n < 32 ->
  (forall k, 0 <= k -> Z.testbit m' k = if k =? n then v else Z.testbit m k) ->
  forall q, slab_live s' q <->
    if decide (q = x + n * s_obj_size (ss_slab s)) then v = true else slab_live s q.
Proof.
  intros Hr Hm Hm' Ho Hn Hbit q.
  destruct (region_owns_range _ _ (rp_region _ _ _ Hr) (rp_pages _ _ _ Hr _ _ Hm)) as (? & Hal & ?).
  destruct (slot_split x n (s_obj_size (ss_slab s))) as [Hx1 Hx2]; [done|lia|apply Hr|].
  assert (forall y k m1, maps s !! y = Some m1 -> 1 <= k < 32 ->
    y + k * s_obj_size (ss_slab s) = x + n * s_obj_size (ss_slab s) -> y = x /\ k = n) as Hinj.
  { intros y k m1 Hy Hk Heq.
    destruct (region_owns_range _ _ (rp_region _ _ _ Hr) (rp_pages _ _ _ Hr _ _ Hy)) as (? & ? & ?).
    destruct (slot_split y k (s_obj_size (ss_slab s))) as [Hy1 Hy2]; [done|lia|apply Hr|].
    rewrite Heq in Hy1, Hy2. assert (y = x) by congruence. subst y. split; [done|congruence]. }
  unfold slab_live. rewrite Ho, Hm'. case_decide as Hq.
  - subst q. split.
    + intros (y & m1 & k & Hy & Hk & Hb & Heq). rewrite lookup_insert in Hy. case_decide as Hxy.
      * injection Hy as <-. subst y. destruct (Hinj x k m Hm Hk ltac:(done)) as [_ ->].
        rewrite Hbit, Z.eqb_refl in Hb by lia. done.
      * destruct (Hinj y k m1 Hy Hk ltac:(done)) as [-> _]. done.
    + intros ->. exists x, m', n. rewrite lookup_insert_eq. split_and!; try done; try lia.
      rewrite Hbit, Z.eqb_refl by lia. done.
  - split.
    + intros (y & m1 & k & Hy & Hk & Hb & ->). exists y. rewrite lookup_insert in Hy.
      case_decide as Hxy; [|by exists m1, k]. injection Hy as <-. subst y.
      rewrite Hbit in Hb by lia. destruct (Z.eqb_spec k n); [by subst|]. by exists m, k.
    + intros (y & m1 & k & Hy & Hk & Hb & ->). exists y. rewrite lookup_insert.
      case_decide as Hxy; [|by exists m1, k]. subst y. exists m', k. split_and!; try done; try lia.
      rewrite Hbit by lia. destruct (Z.eqb_spec k n); [by subst|]. congruence.
Qed.

(** a chosen block gives one object that was free *)
Lemma slab_take_ok s L i x :
  rep s L -> x ∈ L i -> i <> LFull ->
  exists p s' L', slab_take ctor x s = Some (p, s') /\ rep s' L' /\
    p <> NULL /\ ~ slab_live s p /\ (forall q, slab_live s' q <-> slab_live s q \/ q = p) /\
    (p mod PAGE_SIZE <> 0) /\
    (length (L' LFree) <= length (L LFree))%nat /\ s_lock (ss_slab s') = s_lock (ss_slab s).
Proof.
  intros Hr Hx Hi. destruct (rep_block _ _ _ _ _ Hr Hx)
    as (b & Hb & Hl & Hm & Hin & Hmg & Hx0 & Hal & Hxp & Htop).
  destruct (map_in_wf _ _ Hin) as [Hwf H0].
  destruct (map_first_free (sb_map b) Hwf) as (n & Hff & Hn & Hclr); [|done|].
  { destruct i; simpl in Hin; [rewrite Hin; done|tauto|done]. }
  destruct (map_set (sb_map b) n Hwf ltac:(lia)) as (m' & Hset & Hwf' & Hbits).
  set (p := x + n * s_obj_size (ss_slab s)).
  pose proof (rp_size _ _ _ Hr) as Hsz.
  assert (0 < n * s_obj_size (ss_slab s) < PAGE_SIZE) as Hoff by (unfold PAGE_SIZE; nia).
  assert (w32 (x + n * s_obj_size (ss_slab s)) = p) as Hp.
  { apply w32_small. unfold PAGE_SIZE in *. lia. }
  assert (exists s' L', (if m' =? BITMAP_ENT_FULL then slab_move_block x LFull
       else if decide (sb_list b = Some LFree) then slab_move_block x LPartial
       else mret tt) (put_map x m' b s) = Some (tt, s') /\ rep s' L' /\
    maps s' = <[x := m']> (maps s) /\ same_env s s' /\
    (length (L' LFree) <= length (L LFree))%nat) as (s' & L' & Hmv & Hr' & Hm' & He & Hlen).
  { assert (m' <> 1) as Hne1.
    { intros ->. specialize (Hbits n ltac:(lia)). rewrite Z.eqb_refl, orb_true_r in Hbits.
      rewrite Z.bits_above_log2 in Hbits by (simpl; lia). done. }
    assert (Z.testbit m' 0 = true) as Ht0 by (rewrite Hbits, H0 by lia; done).
    destruct (Z.eqb_spec m' BITMAP_ENT_FULL) as [->|Hnf].
    - destruct (put_map_move minv s L x b BITMAP_ENT_FULL i LFull) as (s' & L' & ? & ? & ? & ? & Hl');
        try done. exists s', L'. simpl in Hl'. split_and!; try done. lia.
    - destruct i; [| |done].
      + rewrite decide_True by done.
        destruct (put_map_move minv s L x b m' LFree LPartial) as (s' & L' & ? & ? & ? & ? & Hl');
          try done. exists s', L'. simpl in Hl'. split_and!; try done. lia.
      + rewrite decide_False by congruence. exists (put_map x m' b s), L.
        split_and!; [done| |apply put_map_maps|done|done]. by eapply put_map_stay. }
  destruct (run_hook ctor p s' L' ctor_ok Hr') as (mm & Hc & Hmm).
  exists p, (set_mem mm s'), L'. split.
  { unfold slab_take, blk_read, blk_write.
    repeat (first [rewrite ST_bind_eq|rewrite Hb|rewrite Hff|rewrite Hp|rewrite w32_small by lia
                  |rewrite Hset|rewrite lookup_insert_eq]; simpl).
    eapply ST_bind_intro; [exact Hmv|]. eapply ST_bind_intro; [exact Hc|]. done. }
  pose proof (slab_live_update s s' L x _ m' n true Hr Hm Hm' (se_obj _ _ He) ltac:(lia)) as Hlive.
  split; [by apply rep_set_mem|]. split_and!.
  - unfold p, NULL. lia.
  - intros (y & m1 & k & Hy & Hk & Hbk & Heq & Hd1 & Hd2)%(slab_live_iff _ _ _ Hr).
    destruct (slot_split x n (s_obj_size (ss_slab s))) as [Hs1 Hs2]; [done|lia|done|].
    fold p in Hs1, Hs2. assert (y = x) by congruence. subst y.
    assert (k = n) by congruence. subst k. congruence.
  - intros q. rewrite (Hlive ltac:(intros k Hk; rewrite Hbits by done; by destruct (Z.eqb_spec k n);
      rewrite ?orb_true_r, ?orb_false_r) q). fold p.
    destruct (decide (q = p)) as [Hqp|Hqp].
    { split; [intros _; right; exact Hqp|done]. }
    split; [by left|by intros [?|?]].
  - unfold p. rewrite <- Zplus_mod_idemp_l, Hal, Z.add_0_l, Z.mod_small by lia. lia.
  - done.
  - simpl. by rewrite (se_lock _ _ He).
Qed.

(** a page from the region, whichever its mode *)
Lemma region_alloc_page r m :
  region_inv r -> r_available r <> 0 -> minv m ->
  exists p r' m', region_alloc map_page r m = Some ((p, r'), m') /\ region_inv r' /\ minv m' /\
    ~ region_owns r p /\ (forall q, region_owns r' q <-> region_owns r q \/ q = p).
Proof.
  intros Hi Ha Hm. destruct (region_alloc_shape map_page r m Hi Ha)
    as (k & b & Hal & Hk & Hbit & Hwf & Hlen & Hb & _).
  assert (exists x m', (if r_mode r =? REGION_MODE_VIRTUAL
      then map_page (r_page_flags r) (r_vaddress r + Z.of_nat k * PAGE_SIZE)
      else mret NULL) m = Some (x, m') /\ minv m') as (x & m' & Hx & Hm').
  { destruct (r_mode r =? REGION_MODE_VIRTUAL); [by apply map_ok|do 2 eexists; done]. }
  do 3 eexists. split; [rewrite Hal; eapply ST_bind_intro; [exact Hx|reflexivity]|].
  split_and!; try done.
  - by apply (region_inv_update r b k true).
  - intros (j & Hj & Heq & Hbj). replace j with k in * by (unfold PAGE_SIZE in *; lia). congruence.
  - intros q. by apply region_owns_set.
Qed.

Lemma region_free_page r p m :
  region_inv r -> region_owns r p -> minv m ->
  exists r' m', region_free unmap_page r p m = Some (r', m') /\ region_inv r' /\ minv m' /\
    (forall q, region_owns r' q <-> region_owns r q /\ q <> p).
Proof.
  intros Hi (k & Hk & -> & Hbit) Hm.
  destruct (region_free_shape unmap_page r k m Hi Hk) as (b & Heq & Hwf & Hlen & Hb).
  assert (exists m', when_st (r_mode r =? REGION_MODE_VIRTUAL)
    (unmap_page (r_vaddress r + Z.of_nat k * PAGE_SIZE)) m = Some (tt, m') /\ minv m') as (m' & Hx & Hm').
  { destruct (r_mode r =? REGION_MODE_VIRTUAL); [by apply unmap_ok|by eexists]. }
  do 2 eexists. split; [rewrite Heq; eapply ST_bind_intro; [exact Hx|reflexivity]|].
  replace (w32 (r_available r + 1)) with (r_available r + 1).
  2: { pose proof (region_avail_range r Hi). pose proof (region_inv_small r Hi).
       rewrite w32_small; lia. }
  split_and!; try done.
  - by apply (region_inv_update r b k false).
  - intros q. by apply region_owns_unset.
Qed.

Lemma delist_none s x b :
  ss_blocks s !! x = Some b -> sb_list b = None -> slab_delist_block x s = Some (tt, s).
Proof. intros Hb Hl. unfold slab_delist_block, blk_read. rewrite ST_bind_eq, Hb. by rewrite Hl. Qed.

Lemma testbit_1 n : 1 <= n -> Z.testbit 1 n = false.
Proof. intros. apply Z.bits_above_log2; simpl; lia. Qed.

(** a new page becomes a free block *)
Lemma slab_new_block_ok s L :
  rep s L -> r_available (ss_region s) <> 0 ->
  exists x s1 s2, slab_alloc_block map_page slab_addr stale s = Some (x, s1) /\
    slab_move_block x LFree s1 = Some (tt, s2) /\
    rep s2 (upd_list L LFree (x :: L LFree)) /\ x <> NULL /\
    (forall q, slab_live s2 q <-> slab_live s q) /\ s_lock (ss_slab s2) = s_lock (ss_slab s).
Proof.
  intros Hr Ha. destruct (region_alloc_page _ _ (rp_region _ _ _ Hr) Ha (rp_mem _ _ _ Hr))
    as (x & r' & m' & Hal & Hri & Hm' & Hnew & Hown).
  assert (region_owns r' x) as Hox by (apply Hown; by right).
  destruct (region_owns_range _ _ Hri Hox) as (Hx & _ & _).
  assert (x <> NULL) as Hx0 by (unfold NULL; lia).
  assert (maps s !! x = None) as Hxm.
  { destruct (maps s !! x) as [m|] eqn:E; [|done]. destruct Hnew. by eapply (rp_pages _ _ _ Hr). }
  assert (forall k, x ∉ L k) as HxL.
  { intros k Hk. destruct (rp_maps _ _ _ Hr k x Hk) as (m & Hm & _). congruence. }
  set (nb := SlabBlk MAGIC 1 slab_addr (sb_prev (stale x)) (sb_next (stale x)) None).
  set (s1 := SlabState (set_s_total_pages (w32 (s_total_pages (ss_slab s) + 1)) (ss_slab s))
    (<[x := nb]> (ss_blocks s)) r' m').
  assert (slab_alloc_block map_page slab_addr stale s = Some (x, s1)) as H1.
  { unfold slab_alloc_block. rewrite ST_bind_eq. simpl.
    unfold with_mem, zoom. rewrite ST_bind_eq, Hal. simpl. rewrite (proj2 (Z.eqb_neq _ _) Hx0).
    unfold blk_read, blk_write, with_slab.
    repeat (first [rewrite ST_bind_eq|rewrite lookup_insert_eq|rewrite insert_insert_eq]; simpl). done. }
  assert (lists_at (ss_blocks s1) (ss_slab s1) L) as HL1.
  { intros i. destruct (rp_lists _ _ _ Hr i) as [Hdll Hf Hs Hin].
    assert (forall y, y ∈ L i -> ss_blocks s1 !! y = ss_blocks s !! y) as Hsame.
    { intros y Hy. simpl. rewrite lookup_insert_ne; [done|]. intros ->. by apply (HxL i). }
    split; [|by destruct i|by destruct i|].
    - eapply dll_ext; [|done]. intros y Hy. unfold slinks. by rewrite Hsame.
    - intros y Hy. rewrite Hsame by done. by apply Hin. }
  destruct (slab_insert_block_ok s1 L LFree x HL1 HxL Hx0) as (s2 & H2 & HL2 & Hrest).
  { simpl. rewrite lookup_insert_eq. eauto. }
  assert (slab_move_block x LFree s1 = Some (tt, s2)) as H3.
  { unfold slab_move_block. eapply ST_bind_intro; [|exact H2].
    apply (delist_none _ _ nb); [apply lookup_insert_eq|done]. }
  assert (maps s2 = <[x := 1]> (maps s)) as Hm2.
  { rewrite (body_maps _ _ (sm_body _ _ Hrest)). unfold maps; simpl. by rewrite fmap_insert. }
  exists x, s1, s2. split_and!; try done; [split; try done| |by rewrite (sm_lock _ _ Hrest)].
  - intros i y. rewrite Hm2. unfold upd_list. intros Hy. destruct (decide (y = x)) as [->|Hyx].
    + rewrite lookup_insert_eq. case_decide; [subst; by eexists|]. by destruct (HxL i).
    + rewrite lookup_insert_ne by done. apply (rp_maps _ _ _ Hr). case_decide; [|done].
      subst. set_solver.
  - intros y m. rewrite Hm2. unfold upd_list. destruct (decide (y = x)) as [->|Hyx].
    + intros _. exists LFree. rewrite decide_True by done. set_solver.
    + rewrite lookup_insert_ne by done. intros [i Hi]%(rp_dom _ _ _ Hr). exists i.
      case_decide; [subst; set_solver|done].
  - apply (body_magic (ss_blocks s1)); [apply Hrest|]. intros y c. simpl. rewrite lookup_insert.
    case_decide; [by intros [= <-]|apply (rp_magic _ _ _ Hr)].
  - intros y m. rewrite Hm2, (sm_region _ _ Hrest). simpl. rewrite Hown.
    destruct (decide (y = x)) as [->|Hyx]; [by right|].
    rewrite lookup_insert_ne by done. intros Hy%(rp_pages _ _ _ Hr). by left.
  - rewrite (sm_obj _ _ Hrest). apply Hr.
  - by rewrite (sm_region _ _ Hrest).
  - by rewrite (sm_mem _ _ Hrest).
  - intros q. unfold slab_live. rewrite Hm2, (sm_obj _ _ Hrest). simpl. split.
    + intros (y & m & n & Hy & Hn & Hb & ->). exists y, m, n. rewrite lookup_insert in Hy.
      case_decide; [|done]. injection Hy as <-. rewrite testbit_1 in Hb by lia. done.
    + intros (y & m & n & Hy & Hn & Hb & ->). exists y, m, n.
      rewrite lookup_insert_ne by congruence. done.
Qed.

(** ** Allocation *)

Definition slab_inv s : Prop :=
  s_lock (ss_slab s) = false /\ exists L, rep s L /\ (length (L LFree) <= 2)%nat.

(** a block with a free slot, or a page for a new one *)
Definition slab_room s : Prop :=
  sl_first (s_partial (ss_slab s)) <> NULL \/ sl_first (s_free (ss_slab s)) <> NULL \/
  r_available (ss_region s) <> 0.

Lemma rep_first s L i :
  rep s L -> sl_first (slab_list_get i (ss_slab s)) <> NULL ->
  sl_first (slab_list_get i (ss_slab s)) ∈ L i.
Proof.
  intros Hr. rewrite (la_first _ _ _ _ (rp_lists _ _ _ Hr i)).
  destruct (L i); [done|]. intros _. apply list_elem_of_here.
Qed.

(** a block with a free slot is on one of the two lists allocation looks at *)
Definition has_free (L : slab_list_id -> list Z) : Prop := L LPartial <> [] \/ L LFree <> [].

Lemma has_free_room s L : rep s L -> has_free L -> slab_room s.
Proof.
  intros Hr Hf. assert (forall i, L i <> [] -> sl_first (slab_list_get i (ss_slab s)) <> NULL) as Hne.
  { intros i Hi E. rewrite (la_first _ _ _ _ (rp_lists _ _ _ Hr i)) in E.
    destruct (L i) as [|x l] eqn:El; [done|]. simpl in E. subst x.
    apply (lists_nonnull s L i (rp_lists _ _ _ Hr)). rewrite El. apply list_elem_of_here. }
  destruct Hf as [H|H]; [left|right; left]; by apply Hne in H.
Qed.

Lemma map_has_free s L x m : rep s L -> maps s !! x = Some m -> m <> BITMAP_ENT_FULL -> has_free L.
Proof.
  intros Hr Hm Hne. destruct (rp_dom _ _ _ Hr x m Hm) as [i Hi].
  destruct (rp_maps _ _ _ Hr i x Hi) as (m1 & Hm1 & Hin). rewrite Hm in Hm1. injection Hm1 as <-.
  destruct i; simpl in Hin.
  - right. intros E. rewrite E in Hi. by apply elem_of_nil in Hi.
  - left. intros E. rewrite E in Hi. by apply elem_of_nil in Hi.
  - done.
Qed.

Lemma slab_choose_ok s L n :
  rep s L -> slab_room s -> (length (L LFree) <= 2)%nat ->
  exists x i s' L', slab_choose map_page slab_addr stale (S n) s = Some (x, s') /\ rep s' L' /\
    x ∈ L' i /\ i <> LFull /\ x <> NULL /\ (forall q, slab_live s' q <-> slab_live s q) /\
    (length (L' LFree) <= 2)%nat /\ s_lock (ss_slab s') = s_lock (ss_slab s).
Proof.
  intros Hr Hroom Hlen. simpl. rewrite ST_bind_eq. simpl.
  pose proof (rep_first s L LPartial Hr) as Hp. pose proof (rep_first s L LFree Hr) as Hf. simpl in Hp, Hf.
  destruct (Z.eqb_spec (sl_first (s_partial (ss_slab s))) NULL) as [E1|E1]; simpl.
  2: { eexists _, LPartial, s, L. split; [reflexivity|]. split_and!; try done. by apply Hp. }
  destruct (Z.eqb_spec (sl_first (s_free (ss_slab s))) NULL) as [E2|E2]; simpl.
  2: { eexists _, LFree, s, L. split; [reflexivity|]. split_and!; try done. by apply Hf. }
  destruct Hroom as [?|[?|Ha]]; [done|done|].
  destruct (slab_new_block_ok s L Hr Ha) as (x & s1 & s2 & H1 & H2 & Hr2 & Hx0 & Hlv & Hlk).
  eexists x, LFree, s2, _. split_and!; try done.
  - eapply ST_bind_intro; [exact H1|]. eapply ST_bind_intro; [exact H2|].
    pose proof (la_first _ _ _ _ (rp_lists _ _ _ Hr2 LFree)) as Hf2.
    pose proof (la_first _ _ _ _ (rp_lists _ _ _ Hr2 LPartial)) as Hp2.
    pose proof (la_first _ _ _ _ (rp_lists _ _ _ Hr LPartial)) as Hp1.
    unfold upd_list in *. simpl in *. rewrite E1 in Hp1. rewrite <- Hp1 in Hp2.
    assert ((x =? NULL) = false) as Hxe by (by apply Z.eqb_neq).
    destruct n as [|n]; simpl; rewrite ST_bind_eq; simpl; rewrite Hp2; simpl; by rewrite Hf2, Hxe.
  - unfold upd_list. rewrite decide_True by done. apply list_elem_of_here.
  - unfold upd_list. rewrite decide_True by done.
    pose proof (la_first _ _ _ _ (rp_lists _ _ _ Hr LFree)) as Hf1. simpl in Hf1. rewrite E2 in Hf1.
    destruct (L LFree) as [|z l] eqn:E; simpl; [lia|]. simpl in Hf1.
    destruct (lists_nonnull s L LFree (rp_lists _ _ _ Hr)). rewrite E, Hf1. apply list_elem_of_here.
Qed.

Lemma slab_alloc_ok s :
  slab_inv s -> slab_room s ->
  exists p s', slab_alloc map_page ctor slab_addr stale s = Some (p, s') /\ slab_inv s' /\
    p <> NULL /\ p mod PAGE_SIZE <> 0 /\ ~ slab_live s p /\
    (forall q, slab_live s' q <-> slab_live s q \/ q = p).
Proof.
  intros (Hlk & L & Hr & Hlen) Hroom.
  destruct (slab_choose_ok (set_lock true s) L 0) as
    (x & i & s1 & L1 & H1 & Hr1 & Hx & Hi & Hx0 & Hlv1 & Hlen1 & Hlk1); [by apply rep_set_lock|done|done|].
  destruct (slab_take_ok s1 L1 i x Hr1 Hx Hi) as
    (p & s2 & L2 & H2 & Hr2 & Hp0 & Hnew & Hlv2 & Hpm & Hlen2 & Hlk2).
  exists p, (set_lock false s2). split_and!; try done.
  - unfold slab_alloc, slab_lock. rewrite ST_bind_eq, ST_bind_eq. simpl. rewrite Hlk. simpl.
    eapply ST_bind_intro; [exact H1|]. rewrite (proj2 (Z.eqb_neq _ _) Hx0). simpl.
    eapply ST_bind_intro; [exact H2|]. done.
  - split; [done|]. exists L2. split; [by apply rep_set_lock|lia].
  - intros Hl. apply Hnew, Hlv1. exact Hl.
  - intros q. etransitivity; [apply (Hlv2 q)|]. rewrite (Hlv1 q). done.
Qed.

(** with no free slot and no page left, the header is written at NULL *)
Lemma slab_alloc_no_room s :
  ~ slab_room s -> slab_alloc map_page ctor slab_addr stale s = None.
Proof.
  intros Hn. unfold slab_alloc, slab_lock. rewrite ST_bind_eq, ST_bind_eq. simpl.
  destruct (s_lock (ss_slab s)); [done|]. simpl. rewrite !ST_bind_eq. simpl. unfold slab_room in Hn.
  destruct (Z.eqb_spec (sl_first (s_partial (ss_slab s))) NULL); [|tauto].
  destruct (Z.eqb_spec (sl_first (s_free (ss_slab s))) NULL); [|tauto].
  destruct (decide (r_available (ss_region s) = 0)) as [Ha|]; [|tauto].
  simpl. rewrite !ST_bind_eq. unfold slab_alloc_block, with_mem, zoom, region_alloc. simpl.
  rewrite !ST_bind_eq. simpl. by rewrite Ha.
Qed.

(** ** Release *)

(** an empty page too many goes back to the region *)
Lemma slab_dealloc_ok s L :
  rep s L -> (length (L LFree) <= 3)%nat ->
  exists s' L', slab_dealloc_free_block unmap_page s = Some (tt, s') /\ rep s' L' /\
    (forall q, slab_live s' q <-> slab_live s q) /\
    (length (L' LFree) <= 2)%nat /\ s_lock (ss_slab s') = s_lock (ss_slab s) /\ (has_free L -> has_free L').
Proof.
  intros Hr Hlen. unfold slab_dealloc_free_block. rewrite ST_bind_eq. simpl.
  pose proof (la_size _ _ _ _ (rp_lists _ _ _ Hr LFree)) as Hsz. simpl in Hsz. rewrite Hsz.
  rewrite w32_small by lia. unfold MAX_FREE_SLABS.
  destruct (Z.ltb_spec 2 (Z.of_nat (length (L LFree)))) as [Hlt|Hge].
  2: { exists s, L. split_and!; try done. lia. }
  destruct (L LFree) as [|x l] eqn:E; [simpl in Hlt; lia|].
  assert (x ∈ L LFree) as Hx by (rewrite E; apply list_elem_of_here).
  destruct (rep_block _ _ _ _ _ Hr Hx) as (b & Hb & _ & Hm & Hin & _).
  pose proof (la_dll _ _ _ _ (rp_lists _ _ _ Hr LFree)) as (_ & Hnd & _).
  rewrite E in Hnd. apply NoDup_cons in Hnd as [Hxl _].
  destruct (slab_delist_block_ok s L LFree [] x l (rp_lists _ _ _ Hr) E) as (s1 & H1 & HL1 & Hrest & _).
  destruct (region_free_page (ss_region s) x (ss_mem s)) as (r' & m' & Hfree & Hri & Hm' & Hown);
    [apply Hr|by eapply (rp_pages _ _ _ Hr)|apply Hr|].
  pose proof (body_maps _ _ (sm_body _ _ Hrest)) as Hmaps.
  set (s2 := SlabState (ss_slab s1) (delete x (ss_blocks s1)) r' m').
  assert (maps s2 = delete x (maps s)) as Hm2 by (rewrite <- Hmaps; unfold maps; simpl; by rewrite fmap_delete).
  assert (forall k, x ∉ upd_list L LFree l k) as Hout.
  { intros k. unfold upd_list. case_decide as Hk; [done|]. intros Hxk. apply Hk.
    by apply (lists_disjoint _ _ _ _ _ _ (rp_lists _ _ _ Hr) Hxk). }
  assert (forall y m, maps s2 !! y = Some m <-> y <> x /\ maps s !! y = Some m) as Hm2'
    by (intros; rewrite Hm2, lookup_delete_Some; split; intros []; done).
  exists s2, (upd_list L LFree l). split_and!.
  - unfold slab_pop_block. rewrite !ST_bind_eq. simpl.
    pose proof (la_first _ _ _ _ (rp_lists _ _ _ Hr LFree)) as Hf. rewrite E in Hf. simpl in Hf.
    rewrite Hf, ST_bind_eq, H1. unfold with_mem, zoom. simpl. rewrite !ST_bind_eq.
    simpl. rewrite ST_bind_eq, (sm_region _ _ Hrest), (sm_mem _ _ Hrest), Hfree. done.
  - split; try done.
    + intros i. destruct (HL1 i) as [Hdll Hf Hs Hi]. simpl. split; [|done|done|].
      * eapply dll_ext; [|exact Hdll]. intros y Hy. unfold slinks.
        rewrite lookup_delete_ne; [done|]. intros ->. by apply (Hout i).
      * intros y Hy. rewrite lookup_delete_ne; [by apply Hi|]. intros ->. by apply (Hout i).
    + intros i y Hy. destruct (rp_maps _ _ _ Hr i y) as (m & Hmy & Hmi).
      { unfold upd_list in Hy. case_decide; [|done]. subst. rewrite E. by right. }
      exists m. split; [|done]. apply Hm2'. split; [|done]. intros ->. by apply (Hout i).
    + intros y m [Hy Hmy]%Hm2'. destruct (rp_dom _ _ _ Hr y m Hmy) as [i Hi]. exists i.
      unfold upd_list. case_decide; [|done]. subst. rewrite E in Hi. set_solver.
    + intros y c Hc. simpl in Hc. apply lookup_delete_Some in Hc as [_ Hc]. revert y c Hc.
      apply (body_magic (ss_blocks s)); [apply Hrest|apply Hr].
    + intros y m [Hy Hmy]%Hm2'. apply Hown. split; [|done]. by eapply (rp_pages _ _ _ Hr).
    + simpl. rewrite (sm_obj _ _ Hrest). apply Hr.
  - intros q. unfold slab_live. simpl. rewrite (sm_obj _ _ Hrest). simpl in Hin. split.
    + intros (y & m & n & [_ Hy]%Hm2' & Hrest'). by exists y, m, n.
    + intros (y & m & n & Hy & Hn & Hbn & ->). exists y, m, n. split_and!; try done; try lia.
      apply Hm2'. split; [|done]. intros ->. rewrite Hm in Hy. injection Hy as <-.
      rewrite Hin, testbit_1 in Hbn by lia. done.
  - unfold upd_list. rewrite decide_True by done. simpl in Hlen. lia.
  - apply (sm_lock _ _ Hrest).
  - intros _. right. unfold upd_list. rewrite decide_True by done. intros ->. simpl in Hlt. lia.
Qed.

Lemma slab_free_ok s p :
  slab_inv s -> slab_live s p ->
  exists s', slab_free unmap_page dtor p s = Some (tt, s') /\ slab_inv s' /\
    (forall q, slab_live s' q <-> slab_live s q /\ q <> p) /\ slab_room s'.
Proof.
  intros (Hlk & L & Hr & Hlen) Hp. pose proof Hp as (x & m & n & Hm & Hn & Hbn & Hpx & Hp1 & Hp2)%(slab_live_iff _ _ _ Hr).
  destruct (rp_dom _ _ _ Hr x m Hm) as [i Hx].
  destruct (rep_block _ _ _ _ _ Hr Hx) as (b & Hb & Hl & Hmb & Hin & Hmg & Hx0 & Hal & Hxp & Htop).
  rewrite Hm in Hmb. injection Hmb as ->. destruct (map_in_wf _ _ Hin) as [Hwf H0].
  destruct (map_unset (sb_map b) n Hwf ltac:(lia)) as (m' & Hun & Hwf' & Hbits).
  assert (p <> NULL) as Hp0.
  { intros ->. apply Hx0. rewrite <- Hp1. done. }
  destruct (run_hook dtor x (set_lock true s) L dtor_ok ltac:(by apply rep_set_lock)) as (mm & Hd & Hmm).
  set (s1 := set_mem mm (set_lock true s)).
  assert (rep s1 L) as Hr1 by (by apply rep_set_mem; [apply rep_set_lock|]).
  assert (i <> LFree) as Hif.
  { intros ->. simpl in Hin. rewrite Hin, testbit_1 in Hbn by lia. done. }
  assert (exists s2 s' L', maps s2 = <[x := m']> (maps s1) /\ same_env s1 s2 /\
    (if m' =? 1 then _ ← slab_move_block x LFree; slab_dealloc_free_block unmap_page
     else if decide (sb_list b = Some LFull) then slab_move_block x LPartial
     else mret tt) (put_map x m' b s1) = Some (tt, s') /\ rep s' L' /\
    (forall q, slab_live s' q <-> slab_live s2 q) /\ (length (L' LFree) <= 2)%nat /\ has_free L')
    as (s2 & s' & L' & Hm2 & He2 & Hmv & Hr' & Hlv & Hlen' & Hff).
  { destruct (Z.eqb_spec m' 1) as [->|Hne].
    - destruct (put_map_move minv s1 L x b 1 i LFree) as (s2 & L2 & H2 & Hr2 & Hm2 & He2 & Hl2);
        [done..|]. rewrite decide_True in Hl2 by done.
      destruct (slab_dealloc_ok s2 L2 Hr2 ltac:(lia)) as (s' & L' & H3 & Hr' & Hlv & Hl' & _ & Hff).
      exists s2, s', L'. split_and!; try done; [by eapply ST_bind_intro|].
      apply Hff, (map_has_free s2 L2 x 1 Hr2); [rewrite Hm2; apply lookup_insert_eq|done].
    - assert (map_in LPartial m') as Hmp.
      { simpl. split_and!; [lia|lia|by rewrite Hbits, H0 by lia; destruct (Z.eqb_spec 0 n); [lia|]|done|].
        intros Hfull. specialize (Hbits n ltac:(lia)). rewrite Z.eqb_refl, andb_false_r, Hfull in Hbits.
        unfold BITMAP_ENT_FULL in Hbits. change 4294967295 with (Z.ones 32) in Hbits.
        rewrite Z.ones_spec_low in Hbits by lia. done. }
      destruct i; [done| |].
      + rewrite decide_False by congruence. exists (put_map x m' b s1), (put_map x m' b s1), L.
        assert (Hst : rep (put_map x m' b s1) L) by by eapply put_map_stay.
        split_and!; [apply put_map_maps|done|done|exact Hst|done|done|].
        apply (map_has_free _ L x m' Hst); [rewrite put_map_maps; apply lookup_insert_eq|by destruct Hmp as (_ & _ & _ & ?)].
      + rewrite decide_True by done.
        destruct (put_map_move minv s1 L x b m' LFull LPartial) as (s2 & L2 & H2 & Hr2 & Hm2 & He2 & Hl2);
          [done..|]. simpl in Hl2. exists s2, s2, L2. split_and!; try done; [lia|].
        apply (map_has_free _ L2 x m' Hr2); [rewrite Hm2; apply lookup_insert_eq|by destruct Hmp as (_ & _ & _ & ?)]. }
  exists (set_lock false s'). split_and!.
  - unfold slab_free, slab_lock. rewrite !ST_bind_eq. simpl. rewrite Hlk. simpl.
    rewrite (proj2 (Z.eqb_neq _ _) Hp0). simpl. rewrite Hp1. unfold blk_read, blk_write.
    rewrite ST_bind_eq. simpl. rewrite Hb, Hmg. simpl. eapply ST_bind_intro; [exact Hd|].
    rewrite ST_bind_eq, Hp2, Hun. simpl. rewrite ST_bind_eq. simpl. rewrite Hb, ST_bind_eq. simpl.
    rewrite lookup_insert_eq. simpl. eapply ST_bind_intro; [exact Hmv|]. done.
  - split; [done|]. exists L'. split; [by apply rep_set_lock|done].
  - intros q. etransitivity; [apply (Hlv q)|].
    rewrite (slab_live_update s1 s2 L x _ m' n false Hr1 Hm Hm2 (se_obj _ _ He2) Hn).
    + change (s_obj_size (ss_slab s1)) with (s_obj_size (ss_slab s)). rewrite <- Hpx.
      destruct (decide (q = p)) as [->|Hq]; [by split; [|intros []]|]. split; [done|by intros []].
    + intros k Hk. rewrite Hbits by done. destruct (Z.eqb_spec k n); simpl;
        rewrite ?andb_false_r, ?andb_true_r; done.
  - apply (has_free_room _ L'); [by apply rep_set_lock|done].
Qed.

(** the slab allocator implements the allocator interface *)
#[export] Instance slab_allocator : Allocator (slab_state M) := {|
  alloc := slab_alloc map_page ctor slab_addr stale;
  dealloc := slab_free unmap_page dtor;
  alloc_live := slab_live;
  alloc_inv := slab_inv;
  alloc_room := slab_room;
|}.

#[export] Instance slab_allocator_laws : AllocatorLaws (slab_state M).
Proof.
  split; simpl.
  - intros s Hi Hr. destruct (slab_alloc_ok s Hi Hr) as (p & s' & H & _). eauto.
  - intros s p s' Hi Ha. assert (slab_room s) as Hr.
    { unfold slab_room.
      destruct (decide (sl_first (s_partial (ss_slab s)) = NULL)); [|tauto].
      destruct (decide (sl_first (s_free (ss_slab s)) = NULL)); [|tauto].
      destruct (decide (r_available (ss_region s) = 0)); [|tauto].
      rewrite slab_alloc_no_room in Ha; [done|]. intros [?|[?|?]]; done. }
    destruct (slab_alloc_ok s Hi Hr) as (p' & s'' & H & ? & ? & _ & ? & ?).
    rewrite H in Ha. by injection Ha as -> ->.
  - intros s p Hi Hp. destruct (slab_free_ok s p Hi Hp) as (s' & H & Hi' & Hl & _). by exists s'.
  - intros s p s' Hi Hp H. destruct (slab_free_ok s p Hi Hp) as (s1 & H1 & _ & _ & Hr).
    rewrite H in H1. by injection H1 as ->.
Qed.

Lemma slab_init_inv region m sz :
  region_inv region -> minv m -> 1 <= sz <= 132 ->
  slab_inv (SlabState (slab_init_at sz) ∅ region m).
Proof.
  intros Hr Hm Hsz. split; [done|]. exists (fun _ => []). split; [|simpl; lia].
  split; simpl; try done.
  - intros i. split; [apply dll_nil|by destruct i|by destruct i|set_solver].
  - set_solver.
  - unfold slab_adjust_size. change (PAGE_SIZE / BITMAP_BPS) with 128.
    destruct (Z.leb_spec 128 sz); [|lia]. unfold w32.
    assert (sz / 128 = 1) as -> by (symmetry; apply Z.div_unique with (sz - 128); lia).
    assert (sz mod 128 = sz - 128) as -> by (symmetry; apply Z.mod_unique with 1; lia).
    rewrite (Z.mod_small (1 * 128)), Z.mod_small by lia. lia.
Qed.
End slab_thms.

(** ** Example states *)

Definition slab_ex (sz : Z) : slab_state unit := SlabState (slab_init_at sz) ∅ region_ex tt.
Definition stale_ex (p : Z) : slab_blk := SlabBlk 0 0 0 0 0 None.
Lemma slab_ex_inv sz : 1 <= sz <= 132 -> slab_inv (fun _ => True) (slab_ex sz).
Proof.
  intros. apply (slab_init_inv map_ex unmap_ex None None (fun _ => True)); try done.
  - intros f a m _. by exists a, m.
  - intros a m _. by exists m.
  - apply region_ex_inv.
Qed.

(** ** Properties *)

(** C10: while a block with a free slot or a page is left, [slab_alloc] returns an
    object that was not handed out and is not a block header, records exactly
    that object as handed out, and keeps the three block lists, the maps, the
    bound of [MAX_FREE_SLABS] on empty pages and the lock as they must be; with
    nothing left it writes a block header at NULL. *)
Theorem slab_alloc_spec {M} map_page ctor slab_addr stale (minv : M -> Prop) (s : slab_state M) :
  (forall f a m, minv m -> exists x m', map_page f a m = Some (x, m') /\ minv m') ->
  (forall c p m, ctor = Some c -> minv m -> exists m', c p m = Some (tt, m') /\ minv m') ->
  slab_inv minv s ->
  (slab_room s -> exists p s', slab_alloc map_page ctor slab_addr stale s = Some (p, s') /\
    slab_inv minv s' /\ p <> NULL /\ p mod PAGE_SIZE <> 0 /\ ~ slab_live s p /\
    (forall q, slab_live s' q <-> slab_live s q \/ q = p)) /\
  (~ slab_room s -> slab_alloc map_page ctor slab_addr stale s = None).
Proof.
  intros Hmap Hctor Hi. split.
  - intros Hroom. apply (slab_alloc_ok map_page (fun _ => mret tt) ctor None) with (minv := minv);
      try done. intros a m Hm. by exists m.
  - apply slab_alloc_no_room.
Qed.

(** C11: [slab_free] of an object that was handed out takes back that object and
    no other, and keeps the invariant, so at most two empty pages are held
    back; the third goes to the region. *)
Theorem slab_free_spec {M} unmap_page dtor (minv : M -> Prop) (s : slab_state M) (p : Z) :
  (forall a m, minv m -> exists m', unmap_page a m = Some (tt, m') /\ minv m') ->
  (forall c q m, dtor = Some c -> minv m -> exists m', c q m = Some (tt, m') /\ minv m') ->
  slab_inv minv s -> slab_live s p ->
  exists s', slab_free unmap_page dtor p s = Some (tt, s') /\ slab_inv minv s' /\
    (forall q, slab_live s' q <-> slab_live s q /\ q <> p).
Proof.
  intros Hun Hdtor Hi Hp.
  destruct (slab_free_ok (fun _ _ => mret NULL) unmap_page None dtor stale_ex minv) with (s := s) (p := p)
    as (s' & H & Hi' & Hl & _); try done; [|by exists s'].
  intros f a m Hm. by exists NULL, m.
Qed.

(** in a slab for objects of at most 128 bytes, two objects handed out do
    not overlap, and each lies inside its page, after the 128 bytes that hold
    the block header. *)
Theorem slab_objects_disjoint {M} (minv : M -> Prop) (s : slab_state M) (p q : Z) :
  slab_inv minv s -> s_obj_size (ss_slab s) = 128 -> slab_live s p -> slab_live s q ->
  p / PAGE_SIZE = (p + 127) / PAGE_SIZE /\ 128 <= p mod PAGE_SIZE /\
  (p = q \/ p + 128 <= q \/ q + 128 <= p).
Proof.
  intros (_ & L & Hr & _) Hs (x & m & n & Hm & Hn & _ & ->) (y & m1 & k & Hy & Hk & _ & ->).
  destruct (region_owns_range _ _ (rp_region _ _ _ Hr) (rp_pages _ _ _ Hr _ _ Hm)) as (_ & Hx & _).
  destruct (region_owns_range _ _ (rp_region _ _ _ Hr) (rp_pages _ _ _ Hr _ _ Hy)) as (_ & Hy' & _).
  rewrite Hs in *. unfold PAGE_SIZE in *.
  apply Z.div_exact in Hx as Ex; [|done]. apply Z.div_exact in Hy' as Ey; [|done].
  set (a := x / 4096) in *. set (b := y / 4096) in *. rewrite Ex, Ey in *.
  split_and!; [|replace (4096 * a + n * 128) with (n * 128 + a * 4096) by lia|lia].
  - transitivity a; [symmetry; apply Z.div_unique with (n * 128); lia|].
    apply Z.div_unique with (n * 128 + 127); lia.
  - rewrite Z.mod_add, Z.mod_small by lia. lia.
Qed.

(** [n] allocations in a row, with the last object *)
Fixpoint slab_allocs {M} (map_page : Z -> Z -> ST M Z) (addr : Z) (stale : Z -> slab_blk)
    (n : nat) : ST (slab_state M) Z :=
  match n with
  | O => mret NULL
  | S n => _ ← slab_alloc map_page None addr stale; slab_allocs map_page addr stale n
  end.

(** [slab_adjust_size] leaves a size above 128 as it is, and 31 objects of
    that size do not fit the page: for [sizeof(thread_t)], 132, the last object
    of a page starts 4 bytes before its end, and the rest of the object lies in
    the next page of the region. *)
Theorem slab_thread_overflow :
  exists p s, (_ ← slab_allocs map_ex 0x1000 stale_ex 30;
     slab_alloc map_ex None 0x1000 stale_ex) (slab_ex 132) = Some (p, s) /\
    slab_live s p /\ s_obj_size (ss_slab s) = 132 /\ p mod PAGE_SIZE = PAGE_SIZE - 4.
Proof.
  eexists _, _. split; [vm_compute; reflexivity|]. split; [|done].
  exists 0x100000, BITMAP_ENT_FULL, 31. vm_compute. split_and!; done.
Qed.

Lemma slab_alloc_spec_witness :
  exists p s', slab_alloc map_ex None 0x1000 stale_ex (slab_ex 128) = Some (p, s') /\
    slab_inv (fun _ => True) s' /\ p <> NULL /\ p mod PAGE_SIZE <> 0 /\
    ~ slab_live (slab_ex 128) p /\
    (forall q, slab_live s' q <-> slab_live (slab_ex 128) q \/ q = p).
Proof.
  apply (slab_alloc_spec map_ex None 0x1000 stale_ex (fun _ => True) (slab_ex 128)).
  - intros f a m _. by exists a, m.
  - done.
  - by apply slab_ex_inv.
  - right. right. done.
Defined.

Definition slab_ex1 : slab_state unit :=
  match slab_alloc map_ex None 0x1000 stale_ex (slab_ex 128) with
  | Some (_, s) => s | None => slab_ex 128
  end.

Lemma slab_ex1_inv : slab_inv (fun _ => True) slab_ex1.
Proof.
  assert (slab_room (slab_ex 128)) as Hroom by (right; right; done).
  pose proof (slab_ex_inv 128 ltac:(lia)) as Hinv.
  assert (exists p s, slab_alloc map_ex None 0x1000 stale_ex (slab_ex 128) = Some (p, s) /\
    slab_inv (fun _ => True) s) as (p & s & Hs & Hi).
  { edestruct (slab_alloc_ok map_ex unmap_ex None None 0x1000 stale_ex (fun _ => True))
      as (p & s & Hs & Hi & _); [| | | |exact Hinv|exact Hroom|exists p, s; split; [exact Hs|exact Hi]].
    - intros f a m _. by exists a, m.
    - intros a m _. by exists m.
    - intros c p m [=].
    - intros c p m [=]. }
  unfold slab_ex1. by rewrite Hs.
Qed.

Lemma slab_ex1_live : slab_live slab_ex1 0x100080.
Proof. exists 0x100000, 3, 1. vm_compute. split_and!; done. Qed.

Lemma slab_free_spec_witness :
  exists s', slab_free unmap_ex None 0x100080 slab_ex1 = Some (tt, s') /\
    slab_inv (fun _ => True) s' /\
    (forall q, slab_live s' q <-> slab_live slab_ex1 q /\ q <> 0x100080).
Proof.
  apply (slab_free_spec unmap_ex None (fun _ => True)).
  - intros a m _. by exists m.
  - done.
  - apply slab_ex1_inv.
  - apply slab_ex1_live.
Defined.

Lemma slab_objects_disjoint_witness :
  0x100080 / PAGE_SIZE = (0x100080 + 127) / PAGE_SIZE /\ 128 <= 0x100080 mod PAGE_SIZE /\
  (0x100080 = 0x100080 \/ 0x100080 + 128 <= 0x100080 \/ 0x100080 + 128 <= 0x100080).
Proof.
  apply (slab_objects_disjoint (fun _ => True) slab_ex1);
    [apply slab_ex1_inv|vm_compute; reflexivity|apply slab_ex1_live|apply slab_ex1_live].
Defined.
