(* ===== verification/Setup.v ===== *)
(** The slabs of the kernel and the functions that set each of them up once:
    [init_threading], [cap_space_init], [phys_frame_init] and the like.

    Every kind of object has a slab in static storage, all zero when the kernel
    starts, and a flag next to it.  The clients of [Allocator] assume a slab in
    order; here is where it comes from, whoever asks first. *)
From S2P Require Export Slab.

(** ** Sizes of the objects, as the i386 compiler lays them out *)

Definition sizeof_queue_node : Z := 12.
Definition sizeof_kobject : Z := 28.
Definition sizeof_message : Z := 32.
Definition sizeof_thread : Z := 16 + 4 + sizeof_kobject + 3 * 8 + 3 * 4 + 4 * 4 + sizeof_message.
Definition sizeof_cap_space : Z := 8.
Definition sizeof_addr_space : Z := sizeof_kobject + 3 * 4.
Definition sizeof_phys_frame : Z := sizeof_kobject + 4 * 4.
Definition sizeof_anode : Z := 20.
Definition sizeof_msg_queue : Z := sizeof_kobject + 2 * 12.
Definition sizeof_message_node : Z := 4 + sizeof_message.

(** a slab and its flag *)
Record setup (M : Type) := Setup { su_initialized : bool; su_slab : slab_state M }.
Arguments Setup {M} _ _.
Arguments su_initialized {M} _.
Arguments su_slab {M} _.

Section setup.
Context {M : Type}.
Context (map_page : Z -> Z -> ST M Z) (unmap_page : Z -> ST M unit).
Context (slab_addr : Z) (stale : Z -> slab_blk).

Definition on_slab {B} (m : ST (slab_state M) B) : ST (setup M) B :=
  zoom su_slab (fun x s => Setup (su_initialized s) x) m.

Definition init_once (obj_size : Z) : ST (setup M) unit := fun s =>
  if su_initialized s then Some (tt, s)
  else
    let x := su_slab s in
    Some (tt, Setup true (SlabState (slab_init_at obj_size) (ss_blocks x) (ss_region x) (ss_mem x))).

Definition init_threading : ST (setup M) unit := init_once sizeof_thread.
Definition cap_space_init : ST (setup M) unit := init_once sizeof_cap_space.
Definition addr_space_slab_init : ST (setup M) unit := init_once sizeof_addr_space.
Definition phys_frame_init : ST (setup M) unit := init_once sizeof_phys_frame.
Definition atree_slab_init : ST (setup M) unit := init_once sizeof_anode.
Definition message_queue_slab_init : ST (setup M) unit := init_once sizeof_msg_queue.
(** the size given is that of the synchronous queue *)
Definition message_queue_async_slab_init : ST (setup M) unit := init_once sizeof_msg_queue.
Definition message_node_slab_init : ST (setup M) unit := init_once sizeof_message_node.

Definition slab_init : ST (setup M) unit := init_once sizeof_queue_node.
(** a [queue_t] comes from the slab of the nodes: both have three words *)
Definition queue_create : ST (setup M) Z :=
  _ ← slab_init; on_slab (slab_alloc map_page None slab_addr stale).

(** ** A slab is set up once *)

Context (minv : M -> Prop).
Context (map_ok : forall f a m, minv m -> exists x m', map_page f a m = Some (x, m') /\ minv m').
Context (unmap_ok : forall a m, minv m -> exists m', unmap_page a m = Some (tt, m') /\ minv m').

(** static storage before the first call, a slab in order after it *)
Definition setup_inv (obj_size : Z) (s : setup M) : Prop :=
  if su_initialized s then slab_inv minv (su_slab s) /\ s_obj_size (ss_slab (su_slab s)) = slab_adjust_size obj_size
  else ss_blocks (su_slab s) = ∅ /\ region_inv (ss_region (su_slab s)) /\ minv (ss_mem (su_slab s)).

(** the first call leaves a slab in order with nothing handed out; every
    later one leaves the slab, and what was handed out, alone *)
Lemma init_once_ok obj_size s : 1 <= obj_size <= 132 -> setup_inv obj_size s ->
  exists s', init_once obj_size s = Some (tt, s') /\ su_initialized s' = true /\ setup_inv obj_size s' /\
    (forall p, slab_live (su_slab s') p <-> su_initialized s = true /\ slab_live (su_slab s) p) /\
    init_once obj_size s' = Some (tt, s') /\ ss_region (su_slab s') = ss_region (su_slab s).
Proof using All.
  intros Hsz Hi. unfold init_once, setup_inv in *. destruct s as [[|] [sl bs r m]]; simpl in *.
  - eexists. split; [done|]. simpl. split; [done|]. split; [done|]. split; [tauto|done].
  - destruct Hi as (-> & Hr & Hm). eexists. split; [done|]. simpl. split; [done|]. split; [split; [|done]|split; [|done]].
    + by apply (slab_init_inv map_page unmap_page None None minv).
    + intros p. split; [|by intros [? _]]. intros (b & w & k & Hb & _). simpl in Hb. unfold maps in Hb. simpl in Hb.
      by rewrite fmap_empty, lookup_empty in Hb.
Qed.

(** what [slab_init_at] does to a slab that draws on the region [ss_region] *)
#[export] Instance slab_state_setup : SlabSetup (slab_state M) := {|
  slab_setup := fun obj_size x => SlabState (slab_init_at obj_size) (ss_blocks x) (ss_region x) (ss_mem x);
  slab_static := fun x => ss_blocks x = ∅ /\ region_inv (ss_region x) /\ minv (ss_mem x);
|}.
#[export] Instance slab_state_setup_laws :
  @SlabSetupLaws (slab_state M) (slab_allocator map_page unmap_page None None slab_addr stale minv) slab_state_setup.
Proof using All.
  split. intros size [sl bs r m] Hsz (Hb & Hr & Hm). simpl in *. subst. split.
  - by apply (slab_init_inv map_page unmap_page None None minv).
  - intros p (b & w & k & Hp & _). unfold maps in Hp. simpl in Hp. by rewrite fmap_empty, lookup_empty in Hp.
Qed.

(** the first queue of all is as good as any other: it is an object that was
    not handed out *)
Lemma queue_create_ok s : setup_inv sizeof_queue_node s ->
  r_available (ss_region (su_slab s)) <> 0 ->
  exists p s', queue_create s = Some (p, s') /\ p <> NULL /\ su_initialized s' = true /\ slab_inv minv (su_slab s') /\
    (forall q, slab_live (su_slab s') q <-> (su_initialized s = true /\ slab_live (su_slab s) q) \/ q = p).
Proof using All.
  intros Hi Hr. destruct (init_once_ok sizeof_queue_node s ltac:(done) Hi) as (s1 & R1 & Hf & Hi1 & Hlive & _ & Hreg).
  unfold setup_inv in Hi1. rewrite Hf in Hi1. destruct Hi1 as [Hi1 _].
  destruct (slab_alloc_ok map_page unmap_page None None slab_addr stale minv map_ok unmap_ok ltac:(done) ltac:(done) (su_slab s1) Hi1)
    as (p & x & R2 & Hx & Hp & _ & _ & Hl); [right; right; by rewrite Hreg|].
  exists p, (Setup (su_initialized s1) x). split; [|split; [done|split; [done|split; [done|]]]].
  - unfold queue_create, slab_init. rewrite (ST_run _ _ _ _ _ R1). unfold on_slab, zoom. by rewrite R2.
  - intros q. simpl. by rewrite Hl, Hlive.
Qed.
End setup.
