(* ===== verification/Capability.v ===== *)
(** Capability spaces ([src/capability.c], [include/c4/capability.h]).

    A capability space names a table, a page of 256 entries of 16 bytes; a
    pointer to an entry is the address of its table plus 16 times its index,
    and the table of an entry is found by masking the pointer, as the code
    does.  Tables and spaces live in one store, so that two spaces, or two
    entries that name the same space, share it.  Reading an object as the
    wrong kind, or past a table, is a fault. *)
From S2P Require Export Alloc.

Definition CAP_ACCESS : Z := 1.
Definition CAP_MODIFY : Z := 2.
Definition CAP_SHARE : Z := 4.
Definition CAP_MULTI_USE : Z := 8.

Definition CAP_TYPE_NULL : Z := 0.
Definition CAP_TYPE_IPC_SYNC_ENDPOINT : Z := 1.
Definition CAP_TYPE_IPC_ASYNC_ENDPOINT : Z := 2.
Definition CAP_TYPE_CAP_SPACE : Z := 3.
Definition CAP_TYPE_ADDR_SPACE : Z := 4.
Definition CAP_TYPE_THREAD : Z := 5.
Definition CAP_TYPE_IO_PORT : Z := 6.
Definition CAP_TYPE_PHYS_MEMORY : Z := 7.
Definition CAP_TYPE_RESERVED : Z := 8.

Definition CAP_INVALID_OBJECT : Z := 0.

(** [PAGE_SIZE / sizeof(cap_entry_t)] *)
Definition CAP_ENTRY_SIZE : Z := 16.
Definition CAP_PAGE : Z := 0x1000.
Definition CAP_ENTRIES_PER_PAGE : Z := CAP_PAGE / CAP_ENTRY_SIZE.

Record cap_entry := CapEntry { ce_type : Z; ce_permissions : Z; ce_object : Z }.
Record cap_space := CapSpace { cs_table : Z; cs_references : Z }.

#[export] Instance cap_entry_eq_dec : EqDecision cap_entry.
Proof. solve_decision. Defined.

Record cap_store (A : Type) := CapStore {
  st_spaces : gmap Z cap_space;
  st_tables : gmap Z (list cap_entry);
  st_alloc : A;
}.
Arguments CapStore {A} _ _ _.
Arguments st_spaces {A} _.
Arguments st_tables {A} _.
Arguments st_alloc {A} _.

(** the page of a pointer, [ptr & ~(PAGE_SIZE - 1)] *)
Definition page_of (ptr : Z) : Z := Z.land ptr (w32 (Z.lnot (CAP_PAGE - 1))).
Definition entry_index (ptr : Z) : nat := Z.to_nat ((ptr - page_of ptr) / CAP_ENTRY_SIZE).
(** [table->entries + offset] *)
Definition entry_ptr (table offset : Z) : Z := w32 (table + CAP_ENTRY_SIZE * offset).

Section capability.
Context {A : Type} `{!Allocator A} `{!Pages A}.
(** what the page of a new table happens to hold *)
Context (stale : Z -> list cap_entry).

Abbreviation CST := (ST (cap_store A)).

Definition entry_read (ptr : Z) : CST cap_entry := fun s =>
  match st_tables s !! page_of ptr ≫= (.!! entry_index ptr) with
  | Some e => Some (e, s)
  | None => None
  end.

Definition entry_write (ptr : Z) (e : cap_entry) : CST unit := fun s =>
  match st_tables s !! page_of ptr with
  | Some t =>
      if decide (entry_index ptr < length t)%nat then
        Some (tt, CapStore (st_spaces s) (<[page_of ptr := <[entry_index ptr := e]> t]> (st_tables s))
                    (st_alloc s))
      else None
  | None => None
  end.

Definition space_read (p : Z) : CST cap_space := fun s =>
  match st_spaces s !! p with Some c => Some (c, s) | None => None end.

Definition set_type (v : Z) (e : cap_entry) : cap_entry := CapEntry v (ce_permissions e) (ce_object e).
Definition set_permissions (v : Z) (e : cap_entry) : cap_entry := CapEntry (ce_type e) v (ce_object e).

(** the loop of [cap_table_lookup]; [fuel] bounds its iterations *)
Fixpoint cap_lookup_loop (fuel : nat) (table object : Z) : CST Z :=
  match fuel with
  | O => fault
  | S fuel =>
      let offset := object mod CAP_ENTRIES_PER_PAGE in
      let object := object / CAP_ENTRIES_PER_PAGE in
      let entry := entry_ptr table offset in
      if (object =? 0) && (offset =? 0) then mret entry
      else
        e ← entry_read entry;
        if ce_type e =? CAP_TYPE_CAP_SPACE then
          space ← space_read (ce_object e);
          cap_lookup_loop fuel (cs_table space) object
        else if negb (object =? 0) then mret NULL
        else mret entry
  end.

(** an identifier has four base-256 digits; the fifth iteration finds zero *)
Definition cap_table_lookup (table object : Z) : CST Z := cap_lookup_loop 5 table object.

Fixpoint cap_insert_loop (fuel : nat) (table i : Z) (entry : cap_entry) : CST Z :=
  match fuel with
  | O => fault
  | S fuel =>
      if i <? CAP_ENTRIES_PER_PAGE then
        e ← entry_read (entry_ptr table i);
        if negb (ce_type e =? CAP_TYPE_NULL) then cap_insert_loop fuel table (i + 1) entry
        else
          _ ← entry_write (entry_ptr table i) entry;
          mret i
      else mret CAP_INVALID_OBJECT
  end.

Definition cap_table_insert (table : Z) (entry : cap_entry) : CST Z :=
  cap_insert_loop 257 table 0 entry.

Definition cap_table_remove (table object : Z) : CST unit :=
  let offset := object mod CAP_ENTRIES_PER_PAGE in
  let entry := entry_ptr table offset in
  e ← entry_read entry;
  entry_write entry (set_type CAP_TYPE_NULL e).

Definition cap_table_replace (table object : Z) (entry : cap_entry) : CST unit :=
  let offset := object mod CAP_ENTRIES_PER_PAGE in
  entry_write (entry_ptr table offset) entry.

Definition cap_entry_root_space (entry : Z) : CST Z :=
  e ← entry_read (page_of entry);
  mret (ce_object e).

Definition cap_space_root_entry (space : Z) : CST Z :=
  s ← space_read space;
  mret (cs_table s).

Definition cap_space_lookup (space object : Z) : CST Z :=
  s ← space_read space;
  cap_table_lookup (cs_table s) object.

Definition cap_space_insert (space : Z) (entry : cap_entry) : CST Z :=
  root ← cap_space_root_entry space;
  space_entry ← entry_read root;
  if flag_set (ce_permissions space_entry) CAP_MODIFY then
    s ← space_read space;
    cap_table_insert (cs_table s) entry
  else mret CAP_INVALID_OBJECT.

(** [permissions] is not used by the code *)
Definition cap_space_share (source dest object permissions : Z) : CST Z :=
  s ← space_read source;
  entry ← cap_table_lookup (cs_table s) object;
  if entry =? NULL then mret CAP_INVALID_OBJECT
  else
    e ← entry_read entry;
    if negb (flag_set (ce_permissions e) CAP_SHARE) then mret CAP_INVALID_OBJECT
    else cap_space_insert dest e.

(** the permissions of the table that holds [entry] *)
Definition cap_root_permissions (entry : Z) : CST Z :=
  root_space ← cap_entry_root_space entry;
  root ← cap_space_root_entry root_space;
  space_entry ← entry_read root;
  mret (ce_permissions space_entry).

Definition cap_space_replace (space object : Z) (entry : cap_entry) : CST bool :=
  s ← space_read space;
  old_entry ← cap_table_lookup (cs_table s) object;
  if old_entry =? NULL then mret false
  else
    perms ← cap_root_permissions old_entry;
    if flag_set perms CAP_MODIFY then
      _ ← entry_write old_entry entry;
      mret true
    else mret false.

Definition cap_space_remove (space object : Z) : CST bool :=
  s ← space_read space;
  entry ← cap_table_lookup (cs_table s) object;
  if entry =? NULL then mret false
  else
    perms ← cap_root_permissions entry;
    if flag_set perms CAP_MODIFY then
      e ← entry_read entry;
      _ ← entry_write entry (set_type CAP_TYPE_NULL e);
      mret true
    else mret false.

Definition cap_space_restrict (space object permissions : Z) : CST bool :=
  s ← space_read space;
  entry ← cap_table_lookup (cs_table s) object;
  if entry =? NULL then mret false
  else
    perms ← cap_root_permissions entry;
    if negb (flag_set perms CAP_MODIFY) then mret false
    else
      e ← entry_read entry;
      if negb (Z.land (ce_permissions e) permissions =? permissions) then mret false
      else
        _ ← entry_write entry (set_permissions permissions e);
        mret true.

Definition with_alloc {B} (m : ST A B) : CST B :=
  zoom st_alloc (fun a s => CapStore (st_spaces s) (st_tables s) a) m.

(** the table's page keeps what it held, except for entry 0 *)
Definition cap_space_create : CST Z :=
  ret ← with_alloc alloc;
  if negb (ret =? NULL) then
    table ← with_alloc page_alloc;
    if table =? NULL then
      _ ← with_alloc (dealloc ret);
      mret NULL
    else
      _ ← modify (fun s => CapStore (<[ret := CapSpace table 0]> (st_spaces s))
             (<[table := stale table]> (st_tables s)) (st_alloc s));
      let entry := CapEntry CAP_TYPE_CAP_SPACE
        (Z.lor (Z.lor (Z.lor CAP_ACCESS CAP_MODIFY) CAP_SHARE) CAP_MULTI_USE) ret in
      _ ← cap_table_replace table 0 entry;
      mret ret
  else mret ret.

Definition cap_space_free (space : Z) : CST unit :=
  s ← space_read space;
  _ ← with_alloc (page_free (cs_table s));
  _ ← modify (fun st => CapStore (st_spaces st) (delete (cs_table s) (st_tables st)) (st_alloc st));
  _ ← with_alloc (dealloc space);
  modify (fun st => CapStore (delete space (st_spaces st)) (st_tables st) (st_alloc st)).
End capability.

(** ** Entry pointers *)

Lemma page_of_eq ptr : 0 <= ptr < 2 ^ 32 -> page_of ptr = ptr - ptr mod CAP_PAGE.
Proof.
  apply page_mask_eq.
Qed.

Definition table_addr (t : Z) : Prop := 0 < t < 2 ^ 32 /\ t mod CAP_PAGE = 0.

Lemma entry_ptr_ok t (i : nat) :
  table_addr t -> (i < 256)%nat ->
  page_of (entry_ptr t (Z.of_nat i)) = t /\ entry_index (entry_ptr t (Z.of_nat i)) = i /\
  entry_ptr t (Z.of_nat i) <> NULL /\ 0 <= entry_ptr t (Z.of_nat i) < 2 ^ 32.
Proof.
  intros [Ht Hm] Hi. unfold entry_ptr, CAP_PAGE, CAP_ENTRY_SIZE in *.
  apply Z.div_exact in Hm; [|done]. set (k := t / 4096) in *.
  assert (t + 16 * Z.of_nat i < 2 ^ 32) by lia.
  rewrite w32_small by lia.
  assert (page_of (t + 16 * Z.of_nat i) = t) as Hpg.
  { rewrite page_of_eq by lia. unfold CAP_PAGE.
    assert ((t + 16 * Z.of_nat i) mod 4096 = 16 * Z.of_nat i) as ->; [|lia].
    symmetry. apply Z.mod_unique with k; lia. }
  split_and!; [done| |unfold NULL; lia|lia|lia]. unfold entry_index. rewrite Hpg.
  unfold CAP_ENTRY_SIZE. replace (t + 16 * Z.of_nat i - t) with (Z.of_nat i * 16) by lia.
  rewrite Z.div_mul by done. lia.
Qed.

Lemma entry_ptr_0 t : table_addr t -> entry_ptr t 0 = t.
Proof. intros [Ht _]. unfold entry_ptr, CAP_ENTRY_SIZE. rewrite w32_small; lia. Qed.

(** ** The store *)

Definition slot {A} (s : cap_store A) (t : Z) (i : nat) : option cap_entry := st_tables s !! t ≫= (.!! i).

(** the entry 0 of a table refers to the space the table belongs to *)
Record cap_wf {A} (s : cap_store A) : Prop := {
  cw_table : forall t l, st_tables s !! t = Some l -> table_addr t /\ length l = 256%nat;
  cw_space : forall p c, st_spaces s !! p = Some c -> is_Some (st_tables s !! cs_table c);
  cw_cap : forall t i e, slot s t i = Some e -> ce_type e = CAP_TYPE_CAP_SPACE ->
    is_Some (st_spaces s !! ce_object e);
  cw_root : forall t, is_Some (st_tables s !! t) ->
    exists e c, slot s t 0 = Some e /\ st_spaces s !! ce_object e = Some c /\ cs_table c = t;
}.

Section cap_lemmas.
Context {A : Type}.
Implicit Types (s : cap_store A).

Definition slot_write s (t : Z) (i : nat) (e : cap_entry) : cap_store A :=
  CapStore (st_spaces s) (alter (<[i := e]>) t (st_tables s)) (st_alloc s).

Lemma slot_Some s t i e :
  cap_wf s -> slot s t i = Some e -> table_addr t /\ (i < 256)%nat /\ is_Some (st_tables s !! t).
Proof.
  intros Hw Hs. unfold slot in Hs. apply bind_Some in Hs as (l & Hl & Hi).
  destruct (cw_table _ Hw t l Hl) as [Ht Hlen]. apply lookup_lt_Some in Hi. split_and!; [done|lia|eauto].
Qed.

Lemma slot_is_Some s t (i : nat) :
  cap_wf s -> is_Some (st_tables s !! t) -> (i < 256)%nat -> exists e, slot s t i = Some e.
Proof.
  intros Hw [l Hl] Hi. destruct (cw_table _ Hw t l Hl) as [_ Hlen].
  destruct (lookup_lt_is_Some_2 l i) as [e He]; [lia|]. exists e. unfold slot. by rewrite Hl.
Qed.

Lemma entry_read_ok s t i e :
  cap_wf s -> slot s t i = Some e -> entry_read (entry_ptr t (Z.of_nat i)) s = Some (e, s).
Proof.
  intros Hw Hs. destruct (slot_Some _ _ _ _ Hw Hs) as (Ht & Hi & _).
  destruct (entry_ptr_ok t i Ht Hi) as (Hp & Hx & _). unfold entry_read. rewrite Hp, Hx.
  unfold slot in Hs. by rewrite Hs.
Qed.

Lemma entry_write_ok s t i e e' :
  cap_wf s -> slot s t i = Some e ->
  entry_write (entry_ptr t (Z.of_nat i)) e' s = Some (tt, slot_write s t i e').
Proof.
  intros Hw Hs. destruct (slot_Some _ _ _ _ Hw Hs) as (Ht & Hi & [l Hl]).
  destruct (entry_ptr_ok t i Ht Hi) as (Hp & Hx & _). unfold entry_write, slot_write.
  rewrite Hp, Hx, Hl. destruct (cw_table _ Hw t l Hl) as [_ Hlen]. rewrite decide_True by lia.
  do 3 f_equal. apply map_eq. intros k. rewrite lookup_alter, lookup_insert.
  repeat case_decide; subst; rewrite ?Hl; done.
Qed.

Lemma slot_write_slot s t i e t' i' :
  is_Some (slot s t i) ->
  slot (slot_write s t i e) t' i' = if decide (t' = t /\ i' = i) then Some e else slot s t' i'.
Proof.
  intros [e0 Hs]. unfold slot, slot_write in *; simpl. apply bind_Some in Hs as (l & Hl & Hi).
  destruct (decide (t' = t)) as [->|Ht].
  - rewrite lookup_alter_eq, Hl. simpl. destruct (decide (i' = i)) as [->|Hi'].
    + rewrite decide_True by done. rewrite list_lookup_insert_eq; [done|]. by eapply lookup_lt_Some.
    + rewrite decide_False by tauto. by rewrite list_lookup_insert_ne.
  - rewrite lookup_alter_ne by done. rewrite decide_False by tauto. done.
Qed.

Lemma slot_write_tables s t i e t' :
  is_Some (st_tables (slot_write s t i e) !! t') <-> is_Some (st_tables s !! t').
Proof. simpl. apply lookup_alter_is_Some. Qed.

(** writing a slot other than 0 with a sound entry keeps the store sound *)
Lemma cap_wf_write s t i e0 e :
  cap_wf s -> slot s t i = Some e0 ->
  (ce_type e = CAP_TYPE_CAP_SPACE -> is_Some (st_spaces s !! ce_object e)) ->
  (i = 0%nat -> ce_object e = ce_object e0) -> cap_wf (slot_write s t i e).
Proof.
  intros Hw Hs He H0. split.
  - intros t' l Hl. simpl in Hl. apply lookup_alter_Some in Hl as [(-> & l0 & Hl0 & ->)|[_ Hl]].
    + rewrite length_insert. by apply (cw_table _ Hw).
    + by apply (cw_table _ Hw).
  - intros p c Hc. apply slot_write_tables. by eapply (cw_space _ Hw).
  - intros t' i' e'. rewrite slot_write_slot by eauto. case_decide.
    + intros [= <-]. done.
    + apply (cw_cap _ Hw).
  - intros t' Ht'%slot_write_tables. destruct (cw_root _ Hw t' Ht') as (e' & c & Hs' & Hc & Hct).
    rewrite slot_write_slot by eauto. case_decide as Hd; [|by exists e', c].
    destruct Hd as [-> <-]. exists e, c. rewrite Hs in Hs'. injection Hs' as <-.
    by rewrite H0.
Qed.
End cap_lemmas.

(** ** Lookup *)

(** the tables reachable from a table through capabilities to spaces *)
Inductive reach {A} (s : cap_store A) (t : Z) : Z -> Prop :=
| reach_refl : reach s t t
| reach_step i e c t' : slot s t i = Some e -> ce_type e = CAP_TYPE_CAP_SPACE ->
    st_spaces s !! ce_object e = Some c -> reach s (cs_table c) t' -> reach s t t'.

(** following a list of digits, each the slot of a capability to a space *)
Fixpoint follows {A} (s : cap_store A) (t : Z) (ds : list nat) (t' : Z) : Prop :=
  match ds with
  | [] => t' = t
  | d :: ds => exists e c, slot s t d = Some e /\ ce_type e = CAP_TYPE_CAP_SPACE /\
      st_spaces s !! ce_object e = Some c /\ follows s (cs_table c) ds t'
  end.

(** the identifier with the given base-256 digits, lowest first *)
Fixpoint object_of (ds : list nat) : Z :=
  match ds with [] => 0 | d :: ds => Z.of_nat d + 256 * object_of ds end.

(** the pointer [p] is the entry [i] of the table [t] *)
Definition is_entry {A} (s : cap_store A) (p t : Z) (i : nat) (e : cap_entry) : Prop :=
  slot s t i = Some e /\ p = entry_ptr t (Z.of_nat i) /\ p <> NULL.

Section cap_lookup.
Context {A : Type}.
Implicit Types (s : cap_store A).

Lemma is_entry_ok s t i e :
  cap_wf s -> slot s t i = Some e -> is_entry s (entry_ptr t (Z.of_nat i)) t i e.
Proof.
  intros Hw Hs. destruct (slot_Some _ _ _ _ Hw Hs) as (Ht & Hi & _).
  by destruct (entry_ptr_ok t i Ht Hi) as (_ & _ & ? & _).
Qed.

Lemma is_entry_read s p t i e : cap_wf s -> is_entry s p t i e -> entry_read p s = Some (e, s).
Proof. intros Hw (Hs & -> & _). by apply entry_read_ok. Qed.

Lemma is_entry_write s p t i e e' :
  cap_wf s -> is_entry s p t i e -> entry_write p e' s = Some (tt, slot_write s t i e').
Proof. intros Hw (Hs & -> & _). by eapply entry_write_ok. Qed.

Lemma cap_wf_zero s t : cap_wf s -> is_Some (st_tables s !! t) -> exists e, is_entry s (entry_ptr t 0) t 0 e.
Proof.
  intros Hw Ht. destruct (cw_root _ Hw t Ht) as (e & c & Hs & _). exists e.
  by apply (is_entry_ok s t 0 e Hw).
Qed.

(** the digit read and the rest of the identifier *)
Lemma digit o : 0 <= o ->
  exists d : nat, (d < 256)%nat /\ o mod CAP_ENTRIES_PER_PAGE = Z.of_nat d /\
    o = Z.of_nat d + 256 * (o / CAP_ENTRIES_PER_PAGE) /\ 0 <= o / CAP_ENTRIES_PER_PAGE.
Proof.
  intros Ho. change CAP_ENTRIES_PER_PAGE with 256. pose proof (Z.mod_pos_bound o 256 ltac:(lia)).
  exists (Z.to_nat (o mod 256)). rewrite Z2Nat.id by lia. split_and!; try lia.
  - pose proof (Z.div_mod o 256 ltac:(lia)). lia.
  - apply Z.div_pos; lia.
Qed.

Lemma cap_lookup_loop_ok fuel s t o :
  cap_wf s -> is_Some (st_tables s !! t) -> 0 <= o < 256 ^ Z.of_nat fuel ->
  exists p, cap_lookup_loop (S fuel) t o s = Some (p, s) /\
    (p = NULL \/ exists t' i e, is_entry s p t' i e /\ reach s t t' /\
       (i = 0%nat \/ ce_type e <> CAP_TYPE_CAP_SPACE)).
Proof.
  intros Hw. revert t o. induction fuel as [|fuel IH]; intros t o Ht Ho.
  - replace o with 0 by (change (256 ^ Z.of_nat 0) with 1 in Ho; lia). simpl.
    destruct (cap_wf_zero s t Hw Ht) as [e He]. exists (entry_ptr t 0). split; [done|]. right.
    exists t, 0%nat, e. split_and!; [done|apply reach_refl|by left].
  - destruct (digit o ltac:(lia)) as (d & Hd & Hmod & Heq & Hpos). set (fu := S fuel). simpl.
    rewrite Hmod. set (o' := o / CAP_ENTRIES_PER_PAGE) in *.
    destruct (slot_is_Some s t d Hw Ht Hd) as [e He].
    pose proof (is_entry_ok s t d e Hw He) as Hent.
    destruct ((o' =? 0) && (Z.of_nat d =? 0)) eqn:Hz.
    + apply andb_true_iff in Hz as [_ Hd0%Z.eqb_eq]. replace d with 0%nat in * by lia.
      eexists. split; [reflexivity|]. right. exists t, 0%nat, e. split_and!; [done|apply reach_refl|by left].
    + rewrite ST_bind_eq, (entry_read_ok s t d e Hw He).
      destruct (Z.eqb_spec (ce_type e) CAP_TYPE_CAP_SPACE) as [Hty|Hty].
      * destruct (cw_cap _ Hw t d e He Hty) as [c Hc]. unfold space_read.
        rewrite ST_bind_eq, Hc. destruct (IH (cs_table c) o') as (p & Hp & Hres).
        { by eapply (cw_space _ Hw). }
        { rewrite Nat2Z.inj_succ, Z.pow_succ_r in Ho by lia. lia. }
        exists p. split; [exact Hp|]. destruct Hres as [->|(t' & i & e' & H1 & H2 & H3)]; [by left|].
        right. exists t', i, e'. split_and!; try done. by eapply reach_step.
      * destruct (Z.eqb_spec o' 0); simpl; eexists; (split; [reflexivity|]); [|by left].
        right. exists t, d, e. split_and!; [done|apply reach_refl|by right].
Qed.

Lemma cap_lookup_follow fuel s t ds d t' e :
  cap_wf s -> is_Some (st_tables s !! t) -> follows s t ds t' -> slot s t' d = Some e -> (0 < d)%nat ->
  Forall (fun d => d < 256)%nat ds -> (length ds < fuel)%nat ->
  cap_lookup_loop (S fuel) t (object_of (ds ++ [d])) s =
    if ce_type e =? CAP_TYPE_CAP_SPACE then
      match st_spaces s !! ce_object e with
      | Some c => Some (entry_ptr (cs_table c) 0, s)
      | None => None
      end
    else Some (entry_ptr t' (Z.of_nat d), s).
Proof.
  intros Hw Ht Hf He Hd Hds. revert t fuel Ht Hf.
  induction ds as [|d0 ds IH]; intros t [|fuel] Ht Hf Hlen; simpl in *; try lia.
  - subst t'. destruct (slot_Some _ _ _ _ Hw He) as (_ & Hd' & _).
    change CAP_ENTRIES_PER_PAGE with 256. rewrite Z.mul_0_r, Z.add_0_r, Z.mod_small, Z.div_small by lia.
    rewrite (proj2 (Z.eqb_neq (Z.of_nat d) 0)) by lia. simpl.
    rewrite ST_bind_eq, (entry_read_ok s t d e Hw He).
    destruct (Z.eqb_spec (ce_type e) CAP_TYPE_CAP_SPACE) as [Hty|Hty]; [|done].
    destruct (cw_cap _ Hw t d e He Hty) as [c Hc]. unfold space_read.
    rewrite ST_bind_eq, Hc. done.
  - destruct Hf as (e0 & c & He0 & Hty & Hc & Hf). apply Forall_cons in Hds as [Hd0 Hds].
    assert (0 < object_of (ds ++ [d])) as Hpos.
    { clear -Hd. induction ds as [|x ds IH]; simpl; lia. }
    assert ((Z.of_nat d0 + 256 * object_of (ds ++ [d])) mod CAP_ENTRIES_PER_PAGE = Z.of_nat d0 /\
      (Z.of_nat d0 + 256 * object_of (ds ++ [d])) / CAP_ENTRIES_PER_PAGE = object_of (ds ++ [d])) as [-> ->].
    { change CAP_ENTRIES_PER_PAGE with 256. rewrite (Z.mul_comm 256), Z.mod_add, Z.div_add by done.
      rewrite Z.mod_small, Z.div_small by lia. lia. }
    rewrite (proj2 (Z.eqb_neq (object_of _) 0)) by lia. cbn [andb].
    rewrite ST_bind_eq, (entry_read_ok s t d0 e0 Hw He0), Hty, Z.eqb_refl.
    unfold space_read. rewrite ST_bind_eq, Hc.
    apply (IH Hds (cs_table c) fuel); [by eapply (cw_space _ Hw)|done|lia].
Qed.
End cap_lookup.

(** ** The operations on entries *)

(** the store is sound and every table still names itself as a space *)
Record cap_sealed {A} (s : cap_store A) : Prop := {
  csl_wf : cap_wf s;
  csl_root : forall t e, slot s t 0 = Some e -> ce_type e = CAP_TYPE_CAP_SPACE;
}.

(** every capability of [s'] is a capability of [s], with no new permission *)
Definition derives {A} (s s' : cap_store A) : Prop :=
  forall t i e', slot s' t i = Some e' -> ce_type e' <> CAP_TYPE_NULL ->
  exists t0 i0 e, slot s t0 i0 = Some e /\ ce_type e = ce_type e' /\ ce_object e = ce_object e' /\
    Z.land (ce_permissions e') (ce_permissions e) = ce_permissions e'.

#[export] Instance derives_preorder {A} : PreOrder (@derives A).
Proof.
  split.
  - intros s t i e He _. exists t, i, e. split_and!; try done. apply Z.land_diag.
  - intros s1 s2 s3 H12 H23 t i e He Hn.
    destruct (H23 t i e He Hn) as (t2 & i2 & e2 & He2 & Hty2 & Ho2 & Hp2).
    destruct (H12 t2 i2 e2 He2) as (t1 & i1 & e1 & He1 & Hty1 & Ho1 & Hp1); [congruence|].
    exists t1, i1, e1. split_and!; [done|congruence|congruence|].
    rewrite <- Hp2 at 1. by rewrite <- Z.land_assoc, Hp1, Hp2.
Qed.

Section cap_ops.
Context {A : Type}.
Implicit Types (s : cap_store A).

Lemma cap_target s t o :
  cap_wf s -> is_Some (st_tables s !! t) -> 0 <= o < 2 ^ 32 ->
  exists p, cap_table_lookup t o s = Some (p, s) /\
    (p = NULL \/ exists t' i e, is_entry s p t' i e /\ reach s t t' /\
       (i = 0%nat \/ ce_type e <> CAP_TYPE_CAP_SPACE)).
Proof. intros. apply (cap_lookup_loop_ok 4); try done. Qed.

Lemma cap_root_permissions_ok s p t i e :
  cap_wf s -> is_entry s p t i e ->
  exists e0, slot s t 0 = Some e0 /\ cap_root_permissions p s = Some (ce_permissions e0, s).
Proof.
  intros Hw (Hs & -> & _). destruct (slot_Some _ _ _ _ Hw Hs) as (Ht & Hi & Htab).
  destruct (cw_root _ Hw t Htab) as (e0 & c & Hs0 & Hc & Hct). exists e0. split; [done|].
  destruct (entry_ptr_ok t i Ht Hi) as (Hp & _).
  pose proof (entry_read_ok s t 0 e0 Hw Hs0) as Hr. change (Z.of_nat 0) with 0 in Hr.
  rewrite entry_ptr_0 in Hr by done.
  unfold cap_root_permissions, cap_entry_root_space, cap_space_root_entry, space_read.
  rewrite Hp. rewrite !ST_bind_eq, Hr. simpl. rewrite !ST_bind_eq, Hc. simpl.
  by rewrite ST_bind_eq, Hct, Hr.
Qed.

Lemma cap_insert_loop_ok s t entry fuel (i : nat) :
  cap_wf s -> is_Some (st_tables s !! t) -> (fuel + i = 257)%nat -> (i <= 256)%nat ->
  (exists j e0, (i <= j < 256)%nat /\ slot s t j = Some e0 /\ ce_type e0 = CAP_TYPE_NULL /\
    (forall k e, (i <= k < j)%nat -> slot s t k = Some e -> ce_type e <> CAP_TYPE_NULL) /\
    cap_insert_loop fuel t (Z.of_nat i) entry s = Some (Z.of_nat j, slot_write s t j entry)) \/
  ((forall k e, (i <= k < 256)%nat -> slot s t k = Some e -> ce_type e <> CAP_TYPE_NULL) /\
    cap_insert_loop fuel t (Z.of_nat i) entry s = Some (CAP_INVALID_OBJECT, s)).
Proof.
  intros Hw Ht. revert i. induction fuel as [|fuel IH]; intros i Hf Hi; [lia|]. simpl.
  change CAP_ENTRIES_PER_PAGE with 256. destruct (Z.ltb_spec (Z.of_nat i) 256) as [Hlt|Hge].
  2: { right. split; [intros; lia|done]. }
  destruct (slot_is_Some s t i Hw Ht ltac:(lia)) as [e He].
  destruct (Z.eqb_spec (ce_type e) CAP_TYPE_NULL) as [Hn|Hn].
  - left. exists i, e. split_and!; try done; try lia.
    rewrite ST_bind_eq, (entry_read_ok s t i e Hw He), Hn. simpl.
    by rewrite ST_bind_eq, (entry_write_ok s t i e entry Hw He).
  - assert (cap_insert_loop (S fuel) t (Z.of_nat i) entry s =
      cap_insert_loop fuel t (Z.of_nat (S i)) entry s) as Hstep.
    { simpl. change CAP_ENTRIES_PER_PAGE with 256. rewrite (proj2 (Z.ltb_lt _ 256) Hlt).
      rewrite ST_bind_eq, (entry_read_ok s t i e Hw He), (proj2 (Z.eqb_neq _ _) Hn). simpl.
      f_equal. lia. }
    simpl in Hstep. change CAP_ENTRIES_PER_PAGE with 256 in Hstep.
    rewrite (proj2 (Z.ltb_lt _ 256) Hlt) in Hstep. rewrite Hstep.
    destruct (IH (S i)) as [(j & e0 & Hj & He0 & H0 & Hall & Hr)|[Hall Hr]]; [lia|lia| |].
    + left. exists j, e0. split_and!; try done; try lia. intros k e1 Hk He1.
      destruct (decide (k = i)) as [->|]; [congruence|]. apply (Hall k e1); [lia|done].
    + right. split; [|done]. intros k e1 Hk He1.
      destruct (decide (k = i)) as [->|]; [congruence|]. apply (Hall k e1); [lia|done].
Qed.

Lemma cap_table_insert_ok s t entry :
  cap_wf s -> is_Some (st_tables s !! t) ->
  (exists j e0, (j < 256)%nat /\ slot s t j = Some e0 /\ ce_type e0 = CAP_TYPE_NULL /\
    (forall k e, (k < j)%nat -> slot s t k = Some e -> ce_type e <> CAP_TYPE_NULL) /\
    cap_table_insert t entry s = Some (Z.of_nat j, slot_write s t j entry)) \/
  ((forall k e, slot s t k = Some e -> ce_type e <> CAP_TYPE_NULL) /\
    cap_table_insert t entry s = Some (CAP_INVALID_OBJECT, s)).
Proof.
  intros Hw Ht. destruct (cap_insert_loop_ok s t entry 257 0 Hw Ht)
    as [(j & e0 & Hj & He0 & H0 & Hall & Hr)|[Hall Hr]]; [lia|lia| |].
  - left. exists j, e0. split_and!; try done; try lia. intros k e Hk. apply Hall. lia.
  - right. split; [|done]. intros k e He. apply (Hall k e); [|done].
    apply (slot_Some s t k e Hw) in He as (_ & ? & _). lia.
Qed.

(** [cap_space_insert] needs the permission to modify of the space's own entry *)
Lemma cap_space_insert_ok s sp c e0 entry :
  cap_wf s -> st_spaces s !! sp = Some c -> slot s (cs_table c) 0 = Some e0 ->
  cap_space_insert sp entry s =
    if flag_set (ce_permissions e0) CAP_MODIFY then cap_table_insert (cs_table c) entry s
    else Some (CAP_INVALID_OBJECT, s).
Proof.
  intros Hw Hc He0. destruct (slot_Some _ _ _ _ Hw He0) as (Ht & _).
  pose proof (entry_read_ok s _ 0 e0 Hw He0) as Hr. change (Z.of_nat 0) with 0 in Hr.
  rewrite entry_ptr_0 in Hr by done.
  unfold cap_space_insert, cap_space_root_entry, space_read.
  rewrite !ST_bind_eq, Hc. simpl. rewrite ST_bind_eq, Hr.
  destruct (flag_set _ _); [|done]. by rewrite ST_bind_eq, Hc.
Qed.

Lemma flag_set_land p q f : Z.land p q = p -> flag_set p f = true -> flag_set q f = true.
Proof.
  unfold flag_set. rewrite !negb_true_iff, !Z.eqb_neq. intros Hpq Hp Hq. apply Hp.
  rewrite <- Hpq, <- Z.land_assoc, Hq. apply Z.land_0_r.
Qed.

(** the state after one slot changed to an entry that some slot already grants *)
Lemma derives_write s t i e e0 t0 i0 e1 :
  slot s t i = Some e0 -> slot s t0 i0 = Some e1 ->
  ce_type e = ce_type e1 \/ ce_type e = CAP_TYPE_NULL -> ce_object e = ce_object e1 ->
  Z.land (ce_permissions e) (ce_permissions e1) = ce_permissions e ->
  derives s (slot_write s t i e).
Proof.
  intros Hs H1 Hty Ho Hp t' i' e'. rewrite slot_write_slot by eauto. case_decide.
  - intros [= <-] Hn. exists t0, i0, e1. destruct Hty as [Hty|Hty]; [|done]. done.
  - intros He' _. exists t', i', e'. split_and!; try done. apply Z.land_diag.
Qed.
End cap_ops.

(** ** The operations on spaces *)

(** what an operation on an identifier finds *)
Record found {A} (s : cap_store A) (c : cap_space) (p t : Z) (i : nat) (e e0 : cap_entry) : Prop := {
  fd_entry : is_entry s p t i e;
  fd_reach : reach s (cs_table c) t;
  fd_leaf : i = 0%nat \/ ce_type e <> CAP_TYPE_CAP_SPACE;
  fd_root : slot s t 0 = Some e0;
}.

Inductive cap_op :=
| OpShare (src dst object permissions : Z)
| OpRemove (space object : Z)
| OpRestrict (space object permissions : Z).

Definition cap_step {A} (o : cap_op) : ST (cap_store A) Z :=
  match o with
  | OpShare src dst object perms => cap_space_share src dst object perms
  | OpRemove space object => b ← cap_space_remove space object; mret (if b : bool then 1 else 0)
  | OpRestrict space object perms =>
      b ← cap_space_restrict space object perms; mret (if b : bool then 1 else 0)
  end.

(** the spaces an operation names exist and its identifier is a [uint32_t] *)
Definition cap_op_ok {A} (s : cap_store A) (o : cap_op) : Prop :=
  match o with
  | OpShare src dst object _ =>
      is_Some (st_spaces s !! src) /\ is_Some (st_spaces s !! dst) /\ 0 <= object < 2 ^ 32
  | OpRemove space object | OpRestrict space object _ =>
      is_Some (st_spaces s !! space) /\ 0 <= object < 2 ^ 32
  end.

(** the operation does not remove the entry in which a table names itself *)
Definition keeps_root {A} (s : cap_store A) (o : cap_op) : Prop :=
  match o with
  | OpRemove space object =>
      forall c p, st_spaces s !! space = Some c -> cap_table_lookup (cs_table c) object s = Some (p, s) ->
        p <> NULL -> entry_index p <> 0%nat
  | _ => True
  end.

Section cap_spaces.
Context {A : Type}.
Implicit Types (s : cap_store A).

Lemma cap_find s sp c o :
  cap_wf s -> st_spaces s !! sp = Some c -> 0 <= o < 2 ^ 32 ->
  exists p, cap_table_lookup (cs_table c) o s = Some (p, s) /\
    (p = NULL \/ exists t i e e0, found s c p t i e e0 /\
      cap_root_permissions p s = Some (ce_permissions e0, s)).
Proof.
  intros Hw Hc Ho. destruct (cap_target s (cs_table c) o Hw) as (p & Hp & Hres);
    [by eapply (cw_space _ Hw)|done|]. exists p. split; [done|].
  destruct Hres as [->|(t & i & e & Hent & Hr & Hl)]; [by left|]. right.
  destruct (cap_root_permissions_ok s p t i e Hw Hent) as (e0 & He0 & Hperm).
  by exists t, i, e, e0.
Qed.

Lemma found_ne s c p t i e e0 : found s c p t i e e0 -> (p =? NULL) = false.
Proof. intros [[_ [_ ?]] _ _ _]. by apply Z.eqb_neq. Qed.

Lemma found_index s c p t i e e0 : cap_wf s -> found s c p t i e e0 -> entry_index p = i.
Proof.
  intros Hw [(Hs & -> & _) _ _ _]. destruct (slot_Some _ _ _ _ Hw Hs) as (Ht & Hi & _).
  by destruct (entry_ptr_ok t i Ht Hi) as (_ & ? & _).
Qed.

Ltac cap_run Hw Hc Hlk Hf Hperm :=
  unfold space_read; rewrite ST_bind_eq, Hc; rewrite ST_bind_eq, Hlk; rewrite ?(found_ne _ _ _ _ _ _ _ Hf);
  rewrite ST_bind_eq, Hperm.

Lemma cap_space_replace_ok s sp c o p t i e e0 entry :
  cap_wf s -> st_spaces s !! sp = Some c -> cap_table_lookup (cs_table c) o s = Some (p, s) ->
  found s c p t i e e0 -> cap_root_permissions p s = Some (ce_permissions e0, s) ->
  cap_space_replace sp o entry s =
    if flag_set (ce_permissions e0) CAP_MODIFY then Some (true, slot_write s t i entry)
    else Some (false, s).
Proof.
  intros Hw Hc Hlk Hf Hperm. unfold cap_space_replace. cap_run Hw Hc Hlk Hf Hperm.
  destruct (flag_set _ _); [|done].
  by rewrite ST_bind_eq, (is_entry_write s p t i e entry Hw (fd_entry _ _ _ _ _ _ _ Hf)).
Qed.

Lemma cap_space_remove_ok s sp c o p t i e e0 :
  cap_wf s -> st_spaces s !! sp = Some c -> cap_table_lookup (cs_table c) o s = Some (p, s) ->
  found s c p t i e e0 -> cap_root_permissions p s = Some (ce_permissions e0, s) ->
  cap_space_remove sp o s =
    if flag_set (ce_permissions e0) CAP_MODIFY then
      Some (true, slot_write s t i (set_type CAP_TYPE_NULL e))
    else Some (false, s).
Proof.
  intros Hw Hc Hlk Hf Hperm. unfold cap_space_remove. cap_run Hw Hc Hlk Hf Hperm.
  destruct (flag_set _ _); [|done].
  rewrite ST_bind_eq, (is_entry_read s p t i e Hw (fd_entry _ _ _ _ _ _ _ Hf)).
  by rewrite ST_bind_eq, (is_entry_write s p t i e _ Hw (fd_entry _ _ _ _ _ _ _ Hf)).
Qed.

Lemma cap_space_restrict_ok s sp c o perms p t i e e0 :
  cap_wf s -> st_spaces s !! sp = Some c -> cap_table_lookup (cs_table c) o s = Some (p, s) ->
  found s c p t i e e0 -> cap_root_permissions p s = Some (ce_permissions e0, s) ->
  cap_space_restrict sp o perms s =
    if flag_set (ce_permissions e0) CAP_MODIFY && (Z.land (ce_permissions e) perms =? perms) then
      Some (true, slot_write s t i (set_permissions perms e))
    else Some (false, s).
Proof.
  intros Hw Hc Hlk Hf Hperm. unfold cap_space_restrict. cap_run Hw Hc Hlk Hf Hperm.
  destruct (flag_set _ _); simpl; [|done].
  rewrite ST_bind_eq, (is_entry_read s p t i e Hw (fd_entry _ _ _ _ _ _ _ Hf)).
  destruct (Z.land _ _ =? _); simpl; [|done].
  by rewrite ST_bind_eq, (is_entry_write s p t i e _ Hw (fd_entry _ _ _ _ _ _ _ Hf)).
Qed.

Lemma cap_space_share_ok s src dst c o perms p t i e e0 :
  cap_wf s -> st_spaces s !! src = Some c -> cap_table_lookup (cs_table c) o s = Some (p, s) ->
  found s c p t i e e0 ->
  cap_space_share src dst o perms s =
    if flag_set (ce_permissions e) CAP_SHARE then cap_space_insert dst e s
    else Some (CAP_INVALID_OBJECT, s).
Proof.
  intros Hw Hc Hlk Hf. unfold cap_space_share, space_read.
  rewrite ST_bind_eq, Hc. rewrite ST_bind_eq, Hlk, (found_ne _ _ _ _ _ _ _ Hf).
  rewrite ST_bind_eq, (is_entry_read s p t i e Hw (fd_entry _ _ _ _ _ _ _ Hf)).
  by destruct (flag_set _ _).
Qed.

Lemma cap_sealed_write s t i e0 e :
  cap_sealed s -> slot s t i = Some e0 ->
  (ce_type e = CAP_TYPE_CAP_SPACE -> is_Some (st_spaces s !! ce_object e)) ->
  (i = 0%nat -> ce_object e = ce_object e0 /\ ce_type e = ce_type e0) -> cap_sealed (slot_write s t i e).
Proof.
  intros [Hw Hr] Hs He H0. split.
  - eapply cap_wf_write; try done. intros Hi. by apply H0.
  - intros t' e'. rewrite slot_write_slot by eauto. case_decide as Hd.
    + destruct Hd as [-> Hi]. intros [= <-]. destruct H0 as [_ ->]; [done|]. subst i. by apply (Hr t).
    + apply Hr.
Qed.

Lemma cap_step_ok s o :
  cap_sealed s -> cap_op_ok s o -> keeps_root s o ->
  exists r s', cap_step o s = Some (r, s') /\ cap_sealed s' /\ derives s s' /\
    st_spaces s' = st_spaces s.
Proof.
  intros Hs Hok Hk. pose proof (csl_wf _ Hs) as Hw. destruct o as [src dst o perms|sp o|sp o perms]; simpl in *.
  - destruct Hok as ([c Hc] & [d Hd] & Ho).
    destruct (cap_find s src c o Hw Hc Ho) as (p & Hlk & [->|(t & i & e & e0 & Hf & _)]).
    { exists CAP_INVALID_OBJECT, s. split_and!; [|done|done|done].
      unfold cap_space_share, space_read. by rewrite ST_bind_eq, Hc, ST_bind_eq, Hlk. }
    rewrite (cap_space_share_ok s src dst c o perms p t i e e0) by done.
    destruct (flag_set (ce_permissions e) CAP_SHARE); [|by exists CAP_INVALID_OBJECT, s].
    assert (is_Some (st_tables s !! cs_table d)) as Hdt by (by eapply (cw_space _ Hw)).
    destruct (slot_is_Some s (cs_table d) 0 Hw Hdt ltac:(lia)) as [d0 Hd0].
    rewrite (cap_space_insert_ok s dst d d0 e Hw Hd Hd0).
    destruct (flag_set (ce_permissions d0) CAP_MODIFY); [|by exists CAP_INVALID_OBJECT, s].
    destruct Hf as [(He & _) _ _ _].
    destruct (cap_table_insert_ok s (cs_table d) e Hw Hdt)
      as [(j & e1 & Hj & He1 & Hnull & _ & ->)|[_ ->]]; [|by exists CAP_INVALID_OBJECT, s].
    exists (Z.of_nat j), (slot_write s (cs_table d) j e). split_and!; try done.
    + eapply cap_sealed_write; [done|done|by apply (cw_cap _ Hw t i)|].
      intros ->. rewrite (csl_root _ Hs _ _ He1) in Hnull. done.
    + eapply derives_write; [done|exact He|by left|done|apply Z.land_diag].
  - destruct Hok as ([c Hc] & Ho).
    destruct (cap_find s sp c o Hw Hc Ho) as (p & Hlk & [->|(t & i & e & e0 & Hf & Hperm)]).
    { exists 0, s. split_and!; [|done|done|done]. unfold cap_space_remove, space_read.
      by rewrite ST_bind_eq, ST_bind_eq, Hc, ST_bind_eq, Hlk. }
    rewrite ST_bind_eq, (cap_space_remove_ok s sp c o p t i e e0) by done.
    destruct (flag_set _ _); [|by exists 0, s].
    exists 1, (slot_write s t i (set_type CAP_TYPE_NULL e)).
    pose proof (found_index _ _ _ _ _ _ _ Hw Hf) as Hidx. pose proof (found_ne _ _ _ _ _ _ _ Hf) as Hne.
    destruct Hf as [(He & _) _ _ _]. split_and!; try done.
    + eapply cap_sealed_write; [done|done|done|]. intros ->. by destruct (Hk c p Hc Hlk); [apply Z.eqb_neq|].
    + eapply derives_write; [done|exact He|by right|done|apply Z.land_diag].
  - destruct Hok as ([c Hc] & Ho).
    destruct (cap_find s sp c o Hw Hc Ho) as (p & Hlk & [->|(t & i & e & e0 & Hf & Hperm)]).
    { exists 0, s. split_and!; [|done|done|done]. unfold cap_space_restrict, space_read.
      by rewrite ST_bind_eq, ST_bind_eq, Hc, ST_bind_eq, Hlk. }
    rewrite ST_bind_eq, (cap_space_restrict_ok s sp c o perms p t i e e0) by done.
    destruct (_ && _) eqn:Hcond; [|by exists 0, s]. apply andb_true_iff in Hcond as [_ Hsub%Z.eqb_eq].
    exists 1, (slot_write s t i (set_permissions perms e)). destruct Hf as [(He & _) _ _ _].
    split_and!; try done.
    + eapply cap_sealed_write; [done|done|exact (cw_cap _ Hw t i e He)|done].
    + eapply derives_write; [done|exact He|by left|done|]. simpl. by rewrite Z.land_comm.
Qed.
End cap_spaces.

(** the store holds the spaces the slab handed out and the pages of their tables *)
Record cap_mem {A} `{!Allocator A} `{!Pages A} (s : cap_store A) : Prop := {
  cm_inv : alloc_inv (st_alloc s);
  cm_spaces : forall p, is_Some (st_spaces s !! p) -> alloc_live (st_alloc s) p;
  cm_tables : forall t, is_Some (st_tables s !! t) -> page_live (st_alloc s) t;
}.

(** ** Runs *)

(** runs of sharing, removing and restricting, by anyone in any order, whatever
    they name *)
Inductive cap_steps {A} : cap_store A -> cap_store A -> Prop :=
| cap_steps_refl s : cap_steps s s
| cap_steps_step s o r s1 s2 :
    cap_step o s = Some (r, s1) -> cap_steps s1 s2 -> cap_steps s s2.

Section cap_runs.
Context {A : Type}.
Implicit Types (s : cap_store A).

(** [m] reads the store and leaves it as it is *)
Definition reads_only {B} (m : ST (cap_store A) B) : Prop :=
  forall s r s', m s = Some (r, s') -> s' = s.

Lemma reads_only_ret {B} (b : B) : reads_only (mret b).
Proof. intros s r s' [= <- <-]. done. Qed.

Lemma reads_only_bind {B C} (m : ST (cap_store A) B) (f : B -> ST (cap_store A) C) :
  reads_only m -> (forall b, reads_only (f b)) -> reads_only (m ≫= f).
Proof.
  intros Hm Hf s r s' (b & s1 & H1 & H2)%ST_bind_Some. apply Hm in H1 as ->. by eapply Hf.
Qed.

Lemma reads_only_entry p : reads_only (entry_read p).
Proof. intros s r s'. unfold entry_read. destruct (_ ≫= _); [|done]. by intros [= <- <-]. Qed.

Lemma reads_only_space p : reads_only (space_read p).
Proof. intros s r s'. unfold space_read. destruct (_ !! _); [|done]. by intros [= <- <-]. Qed.

Lemma reads_only_lookup fuel t o : reads_only (cap_lookup_loop fuel t o).
Proof.
  revert t o. induction fuel as [|fuel IH]; intros t o; [by intros s r s'|]. simpl.
  destruct (_ && _); [apply reads_only_ret|]. apply reads_only_bind; [apply reads_only_entry|].
  intros e. destruct (_ =? _).
  - apply reads_only_bind; [apply reads_only_space|]. intros c. apply IH.
  - destruct (negb _); apply reads_only_ret.
Qed.

Lemma reads_only_root_permissions p : reads_only (cap_root_permissions p).
Proof.
  repeat (apply reads_only_bind || apply reads_only_entry || apply reads_only_space ||
    apply reads_only_ret || intros ?).
Qed.

Lemma entry_read_Some p s e s' :
  entry_read p s = Some (e, s') -> s' = s /\ slot s (page_of p) (entry_index p) = Some e.
Proof.
  unfold entry_read, slot. destruct (_ ≫= _) eqn:He; [|done]. by intros [= <- <-].
Qed.

(** writing an entry that some slot already grants, or no capability at all *)
Lemma entry_write_derives p e s r s' t0 i0 e1 :
  entry_write p e s = Some (r, s') -> slot s t0 i0 = Some e1 ->
  ce_type e = ce_type e1 \/ ce_type e = CAP_TYPE_NULL -> ce_object e = ce_object e1 ->
  Z.land (ce_permissions e) (ce_permissions e1) = ce_permissions e -> derives s s'.
Proof.
  unfold entry_write. destruct (st_tables s !! page_of p) as [l|] eqn:Hl; [|done].
  destruct (decide _) as [Hi|]; [|done]. intros [= _ <-] H1 Hty Ho Hp t i e' He' Hn.
  unfold slot in He'. simpl in He'. destruct (decide (t = page_of p)) as [->|Ht].
  - rewrite lookup_insert_eq in He'. simpl in He'. destruct (decide (i = entry_index p)) as [->|Hne].
    + rewrite list_lookup_insert_eq in He' by done. injection He' as <-.
      destruct Hty as [Hty|Hty]; [|done]. by exists t0, i0, e1.
    + rewrite list_lookup_insert_ne in He' by done. exists (page_of p), i, e'.
      split_and!; try done; [unfold slot; by rewrite Hl|apply Z.land_diag].
  - rewrite lookup_insert_ne in He' by done. exists t, i, e'. split_and!; try done. apply Z.land_diag.
Qed.

Lemma cap_insert_loop_derives fuel t i e s r s' t0 i0 :
  cap_insert_loop fuel t i e s = Some (r, s') -> slot s t0 i0 = Some e -> derives s s'.
Proof.
  revert i. induction fuel as [|fuel IH]; intros i; simpl; [done|].
  destruct (_ <? _); [|by intros [= <- <-]].
  intros (e1 & s1 & H1 & H)%ST_bind_Some He. apply reads_only_entry in H1 as ->.
  destruct (negb _); [by eapply IH|]. apply ST_bind_Some in H as ([] & s2 & Hw & Hr).
  injection Hr as <- <-. eapply entry_write_derives; [exact Hw|exact He|by left|done|apply Z.land_diag].
Qed.

Lemma cap_space_insert_derives sp e s r s' t0 i0 :
  cap_space_insert sp e s = Some (r, s') -> slot s t0 i0 = Some e -> derives s s'.
Proof.
  unfold cap_space_insert, cap_space_root_entry.
  intros (root & s1 & (c & s2 & H1 & [= <- <-])%ST_bind_Some & H)%ST_bind_Some He.
  apply reads_only_space in H1 as ->. apply ST_bind_Some in H as (se & s3 & H3 & H).
  apply reads_only_entry in H3 as ->. destruct (flag_set _ _); [|by injection H as <- <-].
  apply ST_bind_Some in H as (c' & s4 & H4 & H). apply reads_only_space in H4 as ->.
  by eapply cap_insert_loop_derives.
Qed.

Lemma cap_space_share_derives src dst o perms s r s' :
  cap_space_share src dst o perms s = Some (r, s') -> derives s s'.
Proof.
  unfold cap_space_share. intros (c & s1 & H1 & H)%ST_bind_Some. apply reads_only_space in H1 as ->.
  apply ST_bind_Some in H as (p & s2 & H2 & H). apply reads_only_lookup in H2 as ->.
  destruct (_ =? _); [by injection H as <- <-|].
  apply ST_bind_Some in H as (e & s3 & [-> He]%entry_read_Some & H).
  destruct (negb _); [by injection H as <- <-|]. by eapply cap_space_insert_derives.
Qed.

Lemma cap_space_remove_derives sp o s r s' : cap_space_remove sp o s = Some (r, s') -> derives s s'.
Proof.
  unfold cap_space_remove. intros (c & s1 & H1 & H)%ST_bind_Some. apply reads_only_space in H1 as ->.
  apply ST_bind_Some in H as (p & s2 & H2 & H). apply reads_only_lookup in H2 as ->.
  destruct (_ =? _); [by injection H as <- <-|].
  apply ST_bind_Some in H as (perms & s3 & H3 & H). apply reads_only_root_permissions in H3 as ->.
  destruct (flag_set _ _); [|by injection H as <- <-].
  apply ST_bind_Some in H as (e & s4 & [-> He]%entry_read_Some & H).
  apply ST_bind_Some in H as ([] & s5 & Hw & Hr). injection Hr as <- <-.
  eapply entry_write_derives; [exact Hw|exact He|by right|done|apply Z.land_diag].
Qed.

Lemma cap_space_restrict_derives sp o perms s r s' :
  cap_space_restrict sp o perms s = Some (r, s') -> derives s s'.
Proof.
  unfold cap_space_restrict. intros (c & s1 & H1 & H)%ST_bind_Some. apply reads_only_space in H1 as ->.
  apply ST_bind_Some in H as (p & s2 & H2 & H). apply reads_only_lookup in H2 as ->.
  destruct (_ =? _); [by injection H as <- <-|].
  apply ST_bind_Some in H as (ps & s3 & H3 & H). apply reads_only_root_permissions in H3 as ->.
  destruct (negb _); [by injection H as <- <-|].
  apply ST_bind_Some in H as (e & s4 & [-> He]%entry_read_Some & H).
  destruct (negb _) eqn:Hsub; [by injection H as <- <-|].
  apply negb_false_iff, Z.eqb_eq in Hsub.
  apply ST_bind_Some in H as ([] & s5 & Hw & Hr). injection Hr as <- <-.
  eapply entry_write_derives; [exact Hw|exact He|by left|done|]. simpl. by rewrite Z.land_comm.
Qed.

Lemma cap_step_derives o s r s' : cap_step o s = Some (r, s') -> derives s s'.
Proof.
  destruct o as [src dst o perms|sp o|sp o perms]; simpl.
  - apply cap_space_share_derives.
  - intros (b & s1 & H%cap_space_remove_derives & [= <- <-])%ST_bind_Some. done.
  - intros (b & s1 & H%cap_space_restrict_derives & [= <- <-])%ST_bind_Some. done.
Qed.
End cap_runs.

(** ** A store with two spaces *)

Definition null_entry : cap_entry := CapEntry CAP_TYPE_NULL 0 0.
Definition all_perms : Z := 15.
Definition table_ex (l : list cap_entry) : list cap_entry := l ++ replicate (256 - length l) null_entry.

(** the space at 0x8000 holds a thread at 1 and the space at 0x8080 at 2 *)
Definition store_ex : cap_store Bump.t := CapStore
  {[0x8000 := CapSpace 0x100000 0; 0x8080 := CapSpace 0x101000 0]}
  {[0x100000 := table_ex [CapEntry CAP_TYPE_CAP_SPACE all_perms 0x8000;
                          CapEntry CAP_TYPE_THREAD all_perms 0x9000;
                          CapEntry CAP_TYPE_CAP_SPACE all_perms 0x8080];
    0x101000 := table_ex [CapEntry CAP_TYPE_CAP_SPACE all_perms 0x8080]]}
  Bump.init.

Lemma table_ex_lookup l i e : table_ex l !! i = Some e -> l !! i = Some e \/ e = null_entry.
Proof.
  unfold table_ex. intros [H|[_ H]]%lookup_app_Some; [by left|].
  right. by apply lookup_replicate in H as [-> _].
Qed.

Lemma store_ex_slot t i e :
  slot store_ex t i = Some e -> e = null_entry \/
  (t = 0x100000 /\ i = 0%nat /\ e = CapEntry CAP_TYPE_CAP_SPACE all_perms 0x8000) \/
  (t = 0x100000 /\ i = 1%nat /\ e = CapEntry CAP_TYPE_THREAD all_perms 0x9000) \/
  (t = 0x100000 /\ i = 2%nat /\ e = CapEntry CAP_TYPE_CAP_SPACE all_perms 0x8080) \/
  (t = 0x101000 /\ i = 0%nat /\ e = CapEntry CAP_TYPE_CAP_SPACE all_perms 0x8080).
Proof.
  unfold slot. intros (l & Hl & Hi)%bind_Some. simpl in Hl.
  apply lookup_insert_Some in Hl as [[<- <-]|[_ Hl]].
  - apply table_ex_lookup in Hi as [Hi|?]; [|by left].
    destruct i as [|[|[|i]]]; simpl in Hi; simplify_eq; tauto.
  - apply lookup_singleton_Some in Hl as [<- <-].
    apply table_ex_lookup in Hi as [Hi|?]; [|by left]. destruct i as [|i]; simpl in Hi; simplify_eq; tauto.
Qed.

Lemma store_ex_sealed : cap_sealed store_ex.
Proof.
  split; [split|].
  - intros t l Hl. simpl in Hl.
    apply lookup_insert_Some in Hl as [[<- <-]|[_ [<- <-]%lookup_singleton_Some]]; done.
  - intros p c Hc. simpl in Hc.
    apply lookup_insert_Some in Hc as [[<- <-]|[_ [<- <-]%lookup_singleton_Some]]; by eexists.
  - intros t i e He Hty.
    destruct (store_ex_slot t i e He) as [->|[(-> & -> & ->)|[(-> & -> & ->)|[(-> & -> & ->)|(-> & -> & ->)]]]];
      try done; by eexists.
  - intros t [l Hl]. simpl in Hl.
    apply lookup_insert_Some in Hl as [[<- <-]|[_ [<- <-]%lookup_singleton_Some]]; by do 2 eexists.
  - intros t e He.
    destruct (store_ex_slot t 0 e He) as [->|[(-> & ? & ->)|[(-> & ? & ->)|[(-> & ? & ->)|(-> & ? & ->)]]]];
      try done. exfalso.
    unfold slot in He. apply bind_Some in He as (l & Hl & Hi). simpl in Hl.
    apply lookup_insert_Some in Hl as [[<- <-]|[_ [<- <-]%lookup_singleton_Some]]; done.
Qed.

(** ** Properties *)

(** C27: looking up any 32-bit identifier from any table ends (in at most five
    iterations) without changing the store, and answers NULL or an entry of a
    table that can be reached through capabilities to spaces; that entry is
    either one in which a table names itself or no capability to a space at
    all, so the slot that holds a capability to another space is never
    returned. *)
Theorem cap_table_lookup_spec {A} (s : cap_store A) (t object : Z) :
  cap_wf s -> is_Some (st_tables s !! t) -> 0 <= object < 2 ^ 32 ->
  exists p, cap_table_lookup t object s = Some (p, s) /\
    (p = NULL \/ exists t' i e, is_entry s p t' i e /\ reach s t t' /\
       (i = 0%nat \/ ce_type e <> CAP_TYPE_CAP_SPACE)).
Proof. apply cap_target. Qed.

(** an identifier is a path, its base-256 digits the slots to go through,
    lowest first: when all but the last name capabilities to spaces, the lookup
    ends at the last slot, or at entry 0 of the space it names. *)
Theorem cap_table_lookup_path {A} (s : cap_store A) (t t' : Z) (ds : list nat) (d : nat) (e : cap_entry) :
  cap_wf s -> is_Some (st_tables s !! t) -> Forall (fun d => (d < 256)%nat) ds ->
  (length ds <= 3)%nat -> (0 < d)%nat -> follows s t ds t' -> slot s t' d = Some e ->
  cap_table_lookup t (object_of (ds ++ [d])) s =
    if ce_type e =? CAP_TYPE_CAP_SPACE then
      match st_spaces s !! ce_object e with
      | Some c => Some (entry_ptr (cs_table c) 0, s)
      | None => None
      end
    else Some (entry_ptr t' (Z.of_nat d), s).
Proof. intros. apply cap_lookup_follow; try done. lia. Qed.

(** [cap_table_insert] writes the first entry of type NULL and returns its
    index, leaving every other slot alone; a full table is unchanged and the
    answer is [CAP_INVALID_OBJECT]. *)
Theorem cap_table_insert_spec {A} (s : cap_store A) (t : Z) (entry : cap_entry) :
  cap_wf s -> is_Some (st_tables s !! t) ->
  exists r s', cap_table_insert t entry s = Some (r, s') /\
    ((exists j : nat, r = Z.of_nat j /\ (j < 256)%nat /\
        (exists e0, slot s t j = Some e0 /\ ce_type e0 = CAP_TYPE_NULL) /\
        (forall k e, (k < j)%nat -> slot s t k = Some e -> ce_type e <> CAP_TYPE_NULL) /\
        (forall t' i, slot s' t' i = if decide (t' = t /\ i = j) then Some entry else slot s t' i)) \/
     (r = CAP_INVALID_OBJECT /\ s' = s /\
        forall k e, slot s t k = Some e -> ce_type e <> CAP_TYPE_NULL)).
Proof.
  intros Hw Ht.
  destruct (cap_table_insert_ok s t entry Hw Ht) as [(j & e0 & Hj & He0 & Hn & Hall & Hr)|[Hall Hr]].
  - exists (Z.of_nat j), (slot_write s t j entry). split; [done|]. left. exists j. split_and!; try done.
    + by exists e0.
    + intros t' i. apply slot_write_slot. by exists e0.
  - exists CAP_INVALID_OBJECT, s. split; [done|]. by right.
Qed.

(** restricting an entry succeeds exactly when the table that holds it may
    be modified and the new permissions are a subset of the ones it has; then
    it changes that entry's permissions and nothing else, and otherwise nothing
    at all. *)
Theorem cap_space_restrict_spec {A} (s : cap_store A) (sp object perms : Z) (c : cap_space)
    (p t : Z) (i : nat) (e e0 : cap_entry) :
  cap_wf s -> st_spaces s !! sp = Some c -> cap_table_lookup (cs_table c) object s = Some (p, s) ->
  is_entry s p t i e -> slot s t 0 = Some e0 ->
  exists s', cap_space_restrict sp object perms s =
      Some (flag_set (ce_permissions e0) CAP_MODIFY && (Z.land (ce_permissions e) perms =? perms), s') /\
    forall t' i', slot s' t' i' =
      if flag_set (ce_permissions e0) CAP_MODIFY && (Z.land (ce_permissions e) perms =? perms) then
        if decide (t' = t /\ i' = i) then Some (CapEntry (ce_type e) perms (ce_object e)) else slot s t' i'
      else slot s t' i'.
Proof.
  intros Hw Hc Hlk Hent He0. unfold cap_space_restrict, space_read.
  destruct (cap_root_permissions_ok s p t i e Hw Hent) as (e1 & He1 & Hperm).
  rewrite He0 in He1. injection He1 as <-.
  rewrite ST_bind_eq, Hc, ST_bind_eq, Hlk. destruct Hent as (He & Hp & Hp0).
  rewrite (proj2 (Z.eqb_neq _ _) Hp0), ST_bind_eq, Hperm.
  destruct (flag_set _ _); simpl; [|by exists s].
  rewrite ST_bind_eq, (is_entry_read s p t i e Hw) by done.
  destruct (Z.land _ _ =? _); simpl; [|by exists s].
  rewrite ST_bind_eq, (is_entry_write s p t i e) by done.
  eexists. split; [reflexivity|]. intros. apply slot_write_slot. eauto.
Qed.

(** C2: no amplification: whatever sequence of sharing, removing and restricting
    capabilities is run, in any store and on whatever spaces and identifiers,
    the removal of the entries in which tables name themselves included, every
    capability of the final store was in the initial one, for the same object
    and with at least its permissions. From a sealed store (well formed, and
    every table's entry 0 still a capability to its own space) each operation on
    spaces that exist and a 32-bit identifier ends, without a fault, and leaves
    the store sealed, except that removing an entry 0 is not covered there. *)
Theorem cap_run_no_amplification {A} (s s' : cap_store A) :
  cap_steps s s' ->
  derives s s' /\
  (cap_sealed s' -> forall o, cap_op_ok s' o -> keeps_root s' o ->
     exists r s2, cap_step o s' = Some (r, s2) /\ cap_sealed s2).
Proof.
  intros Hsteps. split.
  - induction Hsteps as [|s o r s1 s2 Hstep _ IH]; [done|].
    etransitivity; [by eapply cap_step_derives|exact IH].
  - intros Hs' o Hok Hk. destruct (cap_step_ok s' o Hs' Hok Hk) as (r & s2 & H & Hs2 & _). eauto.
Qed.

(** entry 0 is not protected: a space whose own entry allows modification
    can remove it, and the next insertion then goes to slot 0, is answered with
    [CAP_INVALID_OBJECT], the error value, and leaves a table whose entry 0
    names another object, which the kernel will use as a capability space. *)
Theorem cap_remove_root_insert {A} (s : cap_store A) (sp : Z) (c : cap_space) (e0 entry : cap_entry) :
  cap_sealed s -> st_spaces s !! sp = Some c -> slot s (cs_table c) 0 = Some e0 ->
  flag_set (ce_permissions e0) CAP_MODIFY = true ->
  exists s', (_ ← cap_space_remove sp 0; cap_space_insert sp entry) s = Some (CAP_INVALID_OBJECT, s') /\
    slot s' (cs_table c) 0 = Some entry.
Proof.
  intros Hs Hc He0 Hm. pose proof (csl_wf _ Hs) as Hw.
  destruct (cap_find s sp c 0 Hw Hc ltac:(lia)) as (p & Hlk & _).
  assert (p = entry_ptr (cs_table c) 0) as -> by (by injection Hlk as <-).
  pose proof (is_entry_ok s (cs_table c) 0 e0 Hw He0) as Hent.
  destruct (cap_root_permissions_ok s _ _ _ _ Hw Hent) as (e1 & He1 & Hperm).
  rewrite He0 in He1. injection He1 as <-.
  assert (found s c (entry_ptr (cs_table c) 0) (cs_table c) 0 e0 e0) as Hf
    by (by split; [|apply reach_refl|left|]).
  set (s1 := slot_write s (cs_table c) 0 (set_type CAP_TYPE_NULL e0)).
  assert (cap_space_remove sp 0 s = Some (true, s1)) as Hrem.
  { rewrite (cap_space_remove_ok s sp c 0 _ _ _ _ _ Hw Hc Hlk Hf Hperm). by rewrite Hm. }
  assert (cap_wf s1) as Hw1 by (by eapply cap_wf_write).
  assert (slot s1 (cs_table c) 0 = Some (set_type CAP_TYPE_NULL e0)) as Hs1.
  { unfold s1. rewrite slot_write_slot by eauto. by rewrite decide_True. }
  rewrite ST_bind_eq, Hrem. rewrite (cap_space_insert_ok s1 sp c _ entry Hw1 Hc Hs1).
  change (ce_permissions (set_type CAP_TYPE_NULL e0)) with (ce_permissions e0). rewrite Hm.
  destruct (cap_table_insert_ok s1 (cs_table c) entry Hw1) as [(j & e2 & _ & He2 & _ & Hall & ->)|[Hall _]].
  - apply slot_write_tables. by eapply (cw_space _ Hw).
  - destruct j as [|j]; [|by destruct (Hall 0%nat _ ltac:(lia) Hs1)].
    eexists. split; [reflexivity|]. rewrite slot_write_slot by eauto. by rewrite decide_True.
  - by destruct (Hall 0%nat _ Hs1).
Qed.

(** with memory left, [cap_space_create] returns a new space with a new
    table whose entry 0 names the space with every permission; the other 255
    entries are whatever the page held before, since the code does not clear
    it. *)
Theorem cap_space_create_spec {A} `{!Allocator A} `{!Pages A} `{!AllocatorLaws A} `{!PagesLaws A}
    (stale : Z -> list cap_entry) (s : cap_store A) :
  cap_mem s -> alloc_room (st_alloc s) -> (forall t, length (stale t) = 256%nat) ->
  (forall p a, alloc (st_alloc s) = Some (p, a) -> page_room a) ->
  exists sp t s', cap_space_create stale s = Some (sp, s') /\ cap_mem s' /\ sp <> NULL /\
    st_spaces s !! sp = None /\ st_tables s !! t = None /\ table_addr t /\
    st_spaces s' = <[sp := CapSpace t 0]> (st_spaces s) /\
    (forall t', t' <> t -> st_tables s' !! t' = st_tables s !! t') /\
    slot s' t 0 = Some (CapEntry CAP_TYPE_CAP_SPACE 15 sp) /\
    (forall i, i <> 0%nat -> slot s' t i = stale t !! i).
Proof.
  intros [Hi Hsp Htb] Hroom Hst Hpage.
  destruct (alloc_total _ Hi Hroom) as (sp & a1 & Ha).
  destruct (alloc_ok _ _ _ Hi Ha) as (Hi1 & Hsp0 & Hspnew & Hlive1).
  pose proof (alloc_pages _ _ _ Hi Ha) as Hpl1.
  destruct (page_alloc_ok a1 Hi1 (Hpage _ _ Ha)) as (t & a2 & Hp & Hi2 & Ht & Htm & Htnew & Hpl2 & Hlive2).
  assert (table_addr t) as Htaddr by done.
  assert (st_spaces s !! sp = None) as Hn1.
  { destruct (st_spaces s !! sp) eqn:E; [|done]. destruct Hspnew. apply Hsp. eauto. }
  assert (st_tables s !! t = None) as Hn2.
  { destruct (st_tables s !! t) eqn:E; [|done]. destruct Htnew. apply Hpl1, Htb. eauto. }
  set (e := CapEntry CAP_TYPE_CAP_SPACE 15 sp).
  exists sp, t, (CapStore (<[sp := CapSpace t 0]> (st_spaces s))
    (<[t := <[0%nat := e]> (stale t)]> (st_tables s)) a2). split_and!; try done.
  - unfold cap_space_create, with_alloc, zoom. rewrite ST_bind_eq, Ha, (proj2 (Z.eqb_neq _ _) Hsp0). simpl.
    rewrite ST_bind_eq. simpl. rewrite Hp. unfold NULL. rewrite (proj2 (Z.eqb_neq t 0)) by lia.
    rewrite ST_bind_eq. simpl. unfold cap_table_replace. rewrite ST_bind_eq.
    change (0 mod CAP_ENTRIES_PER_PAGE) with (Z.of_nat 0). unfold entry_write.
    destruct (entry_ptr_ok t 0 Htaddr ltac:(lia)) as (-> & -> & _). simpl.
    rewrite lookup_insert_eq, decide_True by (rewrite Hst; lia).
    unfold mret, ST_ret. do 3 f_equal. apply insert_insert_eq.
  - split; simpl; [done| |].
    + intros p [c Hc]. apply Hlive2, Hlive1. apply lookup_insert_Some in Hc as [[<- _]|[_ Hc]]; [by right|].
      left. apply Hsp. eauto.
    + intros t' [l Hl]. apply Hpl2. apply lookup_insert_Some in Hl as [[<- _]|[_ Hl]]; [by right|].
      left. apply Hpl1, Htb. eauto.
  - intros t' Ht'. simpl. by rewrite lookup_insert_ne.
  - unfold slot. simpl. rewrite lookup_insert_eq. simpl. apply list_lookup_insert_eq. rewrite Hst. lia.
  - intros i Hi0. unfold slot. simpl. rewrite lookup_insert_eq. simpl. by apply list_lookup_insert_ne.
Qed.

(** with no page left for the table, [cap_space_create] gives the space back
    to the slab and returns NULL, and no space or table changes. *)
Theorem cap_space_create_no_page {A} `{!Allocator A} `{!Pages A} `{!AllocatorLaws A} `{!PagesLaws A}
    (stale : Z -> list cap_entry) (s : cap_store A) :
  cap_mem s -> alloc_room (st_alloc s) ->
  (forall p a, alloc (st_alloc s) = Some (p, a) -> ~ page_room a) ->
  exists s', cap_space_create stale s = Some (NULL, s') /\ cap_mem s' /\
    st_spaces s' = st_spaces s /\ st_tables s' = st_tables s /\
    forall p, alloc_live (st_alloc s') p <-> alloc_live (st_alloc s) p.
Proof.
  intros [Hi Hsp Htb] Hroom Hpage.
  destruct (alloc_total _ Hi Hroom) as (sp & a1 & Ha).
  destruct (alloc_ok _ _ _ Hi Ha) as (Hi1 & Hsp0 & Hspnew & Hlive1).
  pose proof (alloc_pages _ _ _ Hi Ha) as Hpl1.
  pose proof (page_alloc_full a1 Hi1 (Hpage _ _ Ha)) as Hp.
  assert (alloc_live a1 sp) as Hl by (apply Hlive1; by right).
  destruct (dealloc_ok a1 sp Hi1 Hl) as (a2 & Hd & Hi2 & Hlive2).
  pose proof (dealloc_pages a1 sp a2 Hi1 Hl Hd) as Hpl2.
  assert (forall p, alloc_live a2 p <-> alloc_live (st_alloc s) p) as Hlive.
  { intros p. rewrite Hlive2, Hlive1. split; [tauto|]. intros ?. split; [by left|]. by intros ->. }
  exists (CapStore (st_spaces s) (st_tables s) a2). split_and!; try done.
  - unfold cap_space_create, with_alloc, zoom. rewrite ST_bind_eq, Ha, (proj2 (Z.eqb_neq _ _) Hsp0). simpl.
    rewrite ST_bind_eq. simpl. rewrite Hp. simpl. rewrite ST_bind_eq. simpl. by rewrite Hd.
  - split; simpl; [done| |].
    + intros p Hs. by apply Hlive, Hsp.
    + intros t Ht. by apply Hpl2, Hpl1, Htb.
Qed.

(** ** The properties on concrete stores *)

Lemma store_ex_wf : cap_wf store_ex.
Proof. apply store_ex_sealed. Qed.

Lemma cap_table_lookup_spec_witness :
  exists p, cap_table_lookup 0x100000 0x020102 store_ex = Some (p, store_ex) /\
    (p = NULL \/ exists t' i e, is_entry store_ex p t' i e /\ reach store_ex 0x100000 t' /\
       (i = 0%nat \/ ce_type e <> CAP_TYPE_CAP_SPACE)).
Proof. apply cap_table_lookup_spec; [apply store_ex_wf|by eexists|lia]. Defined.

(** slot 1 of the first space; slot 2 leads to entry 0 of the second *)
Lemma cap_table_lookup_path_witness :
  cap_table_lookup 0x100000 (object_of ([2%nat] ++ [1%nat])) store_ex = Some (0x101010, store_ex).
Proof.
  apply (cap_table_lookup_path store_ex 0x100000 0x101000 [2%nat] 1 null_entry);
    [apply store_ex_wf|by eexists|by repeat constructor; lia|simpl; lia|lia| |done].
  do 2 eexists. split_and!; try reflexivity.
Defined.

Lemma cap_table_insert_spec_witness :
  exists r s', cap_table_insert 0x100000 (CapEntry CAP_TYPE_THREAD 1 0x9080) store_ex = Some (r, s') /\
    ((exists j : nat, r = Z.of_nat j /\ (j < 256)%nat /\
        (exists e0, slot store_ex 0x100000 j = Some e0 /\ ce_type e0 = CAP_TYPE_NULL) /\
        (forall k e, (k < j)%nat -> slot store_ex 0x100000 k = Some e -> ce_type e <> CAP_TYPE_NULL) /\
        (forall t' i, slot s' t' i = if decide (t' = 0x100000 /\ i = j)
           then Some (CapEntry CAP_TYPE_THREAD 1 0x9080) else slot store_ex t' i)) \/
     (r = CAP_INVALID_OBJECT /\ s' = store_ex /\
        forall k e, slot store_ex 0x100000 k = Some e -> ce_type e <> CAP_TYPE_NULL)).
Proof. apply cap_table_insert_spec; [apply store_ex_wf|by eexists]. Defined.

Lemma cap_space_restrict_spec_witness :
  exists s', cap_space_restrict 0x8000 1 CAP_ACCESS store_ex = Some (true, s') /\
    forall t' i', slot s' t' i' = if decide (t' = 0x100000 /\ i' = 1%nat)
      then Some (CapEntry CAP_TYPE_THREAD CAP_ACCESS 0x9000) else slot store_ex t' i'.
Proof.
  apply (cap_space_restrict_spec store_ex 0x8000 1 CAP_ACCESS (CapSpace 0x100000 0) 0x100010 0x100000 1
    (CapEntry CAP_TYPE_THREAD all_perms 0x9000) (CapEntry CAP_TYPE_CAP_SPACE all_perms 0x8000));
    [apply store_ex_wf|done|vm_compute; reflexivity|split_and!; done|done].
Defined.

Definition store_ex1 : cap_store Bump.t :=
  match cap_step (OpRemove 0x8080 0) store_ex with Some (_, s) => s | None => store_ex end.

Lemma cap_run_no_amplification_witness :
  derives store_ex store_ex1 /\
  (cap_sealed store_ex1 -> forall o, cap_op_ok store_ex1 o -> keeps_root store_ex1 o ->
     exists r s2, cap_step o store_ex1 = Some (r, s2) /\ cap_sealed s2).
Proof.
  apply cap_run_no_amplification.
  eapply (cap_steps_step store_ex (OpRemove 0x8080 0) 1); [reflexivity|apply cap_steps_refl].
Defined.

Lemma cap_remove_root_insert_witness :
  exists s', (_ ← cap_space_remove 0x8080 0; cap_space_insert 0x8080 (CapEntry CAP_TYPE_THREAD 15 0x9000)) store_ex
      = Some (CAP_INVALID_OBJECT, s') /\
    slot s' 0x101000 0 = Some (CapEntry CAP_TYPE_THREAD 15 0x9000).
Proof.
  apply (cap_remove_root_insert store_ex 0x8080 (CapSpace 0x101000 0)
    (CapEntry CAP_TYPE_CAP_SPACE all_perms 0x8080)); [apply store_ex_sealed|done|done|done].
Defined.

Definition store_empty : cap_store BumpPages.t := CapStore ∅ ∅ BumpPages.init.
Definition store_no_page : cap_store BumpPages.t :=
  CapStore ∅ ∅ (BumpPages.BumpPages Bump.init (2 ^ 31) ∅).
Definition stale_table (t : Z) : list cap_entry := replicate 256 (CapEntry CAP_TYPE_THREAD 15 0x9000).

Lemma store_empty_mem : cap_mem store_empty.
Proof.
  split; [apply BumpPages.bump_pages_init_inv| |]; intros p [c Hc]; simpl in Hc; by rewrite lookup_empty in Hc.
Qed.

Lemma cap_space_create_spec_witness :
  exists sp t s', cap_space_create stale_table store_empty = Some (sp, s') /\ cap_mem s' /\ sp <> NULL /\
    st_spaces store_empty !! sp = None /\ st_tables store_empty !! t = None /\ table_addr t /\
    st_spaces s' = <[sp := CapSpace t 0]> (st_spaces store_empty) /\
    (forall t', t' <> t -> st_tables s' !! t' = st_tables store_empty !! t') /\
    slot s' t 0 = Some (CapEntry CAP_TYPE_CAP_SPACE 15 sp) /\
    (forall i, i <> 0%nat -> slot s' t i = stale_table t !! i).
Proof.
  apply (cap_space_create_spec stale_table store_empty); [apply store_empty_mem|done|done|].
  intros p a. intros [= <- <-]. done.
Defined.

Lemma cap_space_create_no_page_witness :
  exists s', cap_space_create stale_table store_no_page = Some (NULL, s') /\ cap_mem s' /\
    st_spaces s' = st_spaces store_no_page /\ st_tables s' = st_tables store_no_page /\
    forall p, alloc_live (st_alloc s') p <-> alloc_live (st_alloc store_no_page) p.
Proof.
  apply (cap_space_create_no_page stale_table store_no_page); [|done|].
  - split; simpl; [split; [apply Bump.bump_init_inv|split_and!; [done|done|set_solver]]| |];
      intros p [c Hc]; by rewrite lookup_empty in Hc.
  - intros p a. intros [= <- <-]. simpl. lia.
Defined.
