(* ===== verification/Sync.v ===== *)
(** Locks and mutexes ([src/syncronization.c], [include/c4/syncronization.h])
    and the lock of a kernel object ([include/c4/kobject.h]).

    The queue of sleepers is the list its operations are shown to implement in
    [Queue.v].  A call of [mutex_lock] either returns with the mutex, or leaves
    the thread asleep or spinning; [mutex_step] interleaves the calls of many
    threads, each call one step, with the moments a sleeper or a spinner tries
    again. *)
From S2P Require Export Prelude.

Record mutex := Mutex {
  mx_run_waiting : Z;
  mx_sleep_waiting : list Z;
  mx_active : Z;
  mx_lock : bool;
}.

(** whether the lock was taken, and the flag afterwards *)
Definition lock_trylock (l : bool) : bool * bool := (negb l, true).

Definition mutex_init : mutex := Mutex 0 [] NULL false.

Inductive lock_result :=
| Locked (m : mutex)  (** the call returned *)
| Asleep (m : mutex)  (** queued on [sleep_waiting], yielded *)
| Spinning (m : mutex). (** counted in [run_waiting], spinning on the flag *)

Definition set_lock_flag (b : bool) (m : mutex) : mutex :=
  Mutex (mx_run_waiting m) (mx_sleep_waiting m) (mx_active m) b.
Definition set_active (t : Z) (m : mutex) : mutex :=
  Mutex (mx_run_waiting m) (mx_sleep_waiting m) t (mx_lock m).
Definition add_run_waiting (d : Z) (m : mutex) : mutex :=
  Mutex (w32 (mx_run_waiting m + d)) (mx_sleep_waiting m) (mx_active m) (mx_lock m).

(** one round of the loop of [mutex_wait] *)
Definition mutex_wait (cur : Z) (m : mutex) : lock_result :=
  let '(ok, l) := lock_trylock (mx_lock m) in
  if ok then Locked (set_lock_flag l m)
  else Asleep (Mutex (mx_run_waiting m) (mx_sleep_waiting m ++ [cur]) (mx_active m) l).

(** one try of [lock_spinlock] in [mutex_do_spinlock], after the increment *)
Definition mutex_spin (m : mutex) : lock_result :=
  let '(ok, l) := lock_trylock (mx_lock m) in
  if ok then Locked (add_run_waiting (-1) (set_lock_flag l m)) else Spinning m.

Definition mutex_do_spinlock (m : mutex) : lock_result := mutex_spin (add_run_waiting 1 m).

(** the store of [active] that ends [mutex_lock] *)
Definition mutex_own (cur : Z) (r : lock_result) : lock_result :=
  match r with Locked m => Locked (set_active cur m) | r => r end.

Definition mutex_lock (cur num_cpus : Z) (m : mutex) : lock_result :=
  if cur =? NULL then mutex_own cur (mutex_do_spinlock m)
  else if mx_active m =? cur then Locked m
  else if 1 <? num_cpus then mutex_own cur (mutex_do_spinlock m)
  else mutex_own cur (mutex_wait cur m).

(** the thread to wake, NULL if none, and the mutex *)
Definition mutex_unlock (m : mutex) : Z * mutex :=
  let '(next_thread, q) :=
    if mx_run_waiting m =? 0 then
      match mx_sleep_waiting m with [] => (NULL, []) | t :: q => (t, q) end
    else (NULL, mx_sleep_waiting m) in
  (next_thread, Mutex (mx_run_waiting m) q (mx_active m) false).

(** ** The lock of a kernel object *)

Record kobject := Kobject { ko_mutex : mutex; ko_type : Z }.

Definition kobject_init (type : Z) : kobject := Kobject mutex_init type.

(** [None]: the thread does not get the lock now *)
Definition kobject_lock (cur num_cpus : Z) (o : kobject) : option kobject :=
  match mutex_lock cur num_cpus (ko_mutex o) with
  | Locked m => Some (Kobject m (ko_type o))
  | _ => None
  end.

Definition kobject_unlock (o : kobject) : Z * kobject :=
  let '(next, m) := mutex_unlock (ko_mutex o) in (next, Kobject m (ko_type o)).

(** the unlock where no sleeper has to be woken; waking one goes through the
    scheduler *)
Definition kobject_release (o : kobject) : option kobject :=
  let '(next, o') := kobject_unlock o in if next =? NULL then Some o' else None.

(** nobody holds or waits for the lock *)
Definition obj_free (o : kobject) : Prop :=
  mx_lock (ko_mutex o) = false /\ mx_sleep_waiting (ko_mutex o) = [] /\ mx_run_waiting (ko_mutex o) = 0.

Lemma obj_free_lock cur num_cpus o : obj_free o ->
  exists o', kobject_lock cur num_cpus o = Some o' /\
    (kobject_unlock o').1 = NULL /\ obj_free (kobject_unlock o').2.
Proof.
  destruct o as [[rw sl ac lk] ty]. unfold obj_free. simpl. intros (-> & -> & ->).
  unfold kobject_lock, mutex_lock. destruct (cur =? NULL); [by eexists|]. simpl.
  destruct (ac =? cur); [by eexists|]. destruct (1 <? num_cpus); by eexists.
Qed.

Lemma release_ok o : (kobject_unlock o).1 = NULL -> kobject_release o = Some (kobject_unlock o).2.
Proof. unfold kobject_release. destruct (kobject_unlock o) as [w o']. simpl. by intros ->. Qed.

(** a free lock is taken, given back, and free again *)
Lemma obj_free_cycle cur num_cpus o : obj_free o ->
  exists o1 o2, kobject_lock cur num_cpus o = Some o1 /\ kobject_release o1 = Some o2 /\ obj_free o2.
Proof.
  intros Hf. destruct (obj_free_lock cur num_cpus o Hf) as (o1 & Hl & Hu & Hf2).
  exists o1, (kobject_unlock o1).2. split; [done|]. split; [by apply release_ok|done].
Qed.

(** ** Many threads *)

(** the mutex, the threads between a [mutex_lock] that returned and their next
    [mutex_unlock], the ones woken that have not tried again, the spinning ones *)
Record mstate := MState {
  ms_mutex : mutex;
  ms_in : gset Z;
  ms_woken : gset Z;
  ms_spin : gset Z;
}.

Definition mstate_init : mstate := MState mutex_init ∅ ∅ ∅.

Section threads.
Context (num_cpus : Z).

Definition ms_result (t : Z) (r : lock_result) (s : mstate) : mstate :=
  match r with
  | Locked m => MState m ({[t]} ∪ ms_in s) (ms_woken s ∖ {[t]}) (ms_spin s ∖ {[t]})
  | Asleep m => MState m (ms_in s) (ms_woken s ∖ {[t]}) (ms_spin s)
  | Spinning m => MState m (ms_in s) (ms_woken s) ({[t]} ∪ ms_spin s)
  end.

Inductive mutex_event := ELock (t : Z) | ERetry (t : Z) | ESpin (t : Z) | EUnlock (t : Z).

Inductive mutex_step : mutex_event -> mstate -> mstate -> Prop :=
| MLock t s :
    t <> NULL -> t ∉ mx_sleep_waiting (ms_mutex s) -> t ∉ ms_woken s -> t ∉ ms_spin s ->
    mutex_step (ELock t) s (ms_result t (mutex_lock t num_cpus (ms_mutex s)) s)
| MRetry t s :
    t ∈ ms_woken s ->
    mutex_step (ERetry t) s (ms_result t (mutex_own t (mutex_wait t (ms_mutex s))) s)
| MSpin t s :
    t ∈ ms_spin s ->
    mutex_step (ESpin t) s (ms_result t (mutex_own t (mutex_spin (ms_mutex s))) s)
| MUnlock t s next m :
    t ∈ ms_in s -> mutex_unlock (ms_mutex s) = (next, m) ->
    mutex_step (EUnlock t) s (MState m (ms_in s ∖ {[t]})
      (if next =? NULL then ms_woken s else {[next]} ∪ ms_woken s) (ms_spin s)).

(** the states reached by steps that satisfy [P] *)
Inductive mutex_reach (P : mutex_event -> mstate -> Prop) : mstate -> Prop :=
| reach_init : mutex_reach P mstate_init
| reach_next e s s' : mutex_reach P s -> P e s -> mutex_step e s s' -> mutex_reach P s'.

(** the thread does not lock the mutex while [active] still names it *)
Definition no_relock (e : mutex_event) (s : mstate) : Prop :=
  match e with ELock t => mx_active (ms_mutex s) <> t | _ => True end.

(** ** Lemmas *)

Definition exclusive (s : mstate) : Prop :=
  if mx_lock (ms_mutex s) then exists t, ms_in s = {[t]} else ms_in s = ∅.

Lemma exclusive_take t s m :
  exclusive s -> mx_lock (ms_mutex s) = false -> mx_lock m = true ->
  exclusive (MState m ({[t]} ∪ ms_in s) (ms_woken s ∖ {[t]}) (ms_spin s ∖ {[t]})).
Proof.
  unfold exclusive. intros He Hl Hm. rewrite Hl in He. simpl. rewrite Hm, He.
  exists t. set_solver.
Qed.

Lemma exclusive_wait t s :
  exclusive s -> exclusive (ms_result t (mutex_own t (mutex_wait t (ms_mutex s))) s).
Proof.
  intros He. unfold mutex_wait. destruct (mx_lock (ms_mutex s)) eqn:Hl; simpl.
  - unfold exclusive in *. rewrite Hl in He. done.
  - by apply exclusive_take.
Qed.

Lemma exclusive_spin t s m :
  exclusive s -> mx_lock m = mx_lock (ms_mutex s) ->
  exclusive (ms_result t (mutex_own t (mutex_spin m)) s).
Proof.
  intros He Hm. unfold mutex_spin. rewrite Hm.
  destruct (mx_lock (ms_mutex s)) eqn:Hl; simpl.
  - unfold exclusive in *. rewrite Hl in He. simpl. by rewrite Hm.
  - by apply exclusive_take.
Qed.

Lemma exclusive_step e s s' :
  exclusive s -> no_relock e s -> mutex_step e s s' -> exclusive s'.
Proof.
  intros He Hn Hs. destruct Hs as [t s Ht _ _ _|t s _|t s _|t s next m Ht Hu]; simpl in Hn.
  - unfold mutex_lock. rewrite (proj2 (Z.eqb_neq _ _) Ht), (proj2 (Z.eqb_neq _ _) Hn).
    destruct (1 <? num_cpus); [by apply exclusive_spin|by apply exclusive_wait].
  - by apply exclusive_wait.
  - by apply exclusive_spin.
  - unfold exclusive in *. unfold mutex_unlock in Hu.
    assert (mx_lock m = false) as Hm.
    { destruct (mx_run_waiting (ms_mutex s) =? 0), (mx_sleep_waiting (ms_mutex s)); by injection Hu as _ <-. }
    simpl. rewrite Hm. destruct (mx_lock (ms_mutex s)).
    + destruct He as [u Hu']. rewrite Hu' in *. set_solver.
    + set_solver.
Qed.

End threads.




Definition any_step (e : mutex_event) (s : mstate) : Prop := True.

Lemma reach_lock P t s :
  mutex_reach 1 P s -> P (ELock t) s -> t <> NULL -> t ∉ mx_sleep_waiting (ms_mutex s) ->
  t ∉ ms_woken s -> t ∉ ms_spin s ->
  mutex_reach 1 P (ms_result t (mutex_lock t 1 (ms_mutex s)) s).
Proof. intros Hr HP ? ? ? ?. eapply reach_next; [exact Hr|exact HP|]. by constructor. Qed.

(** the first thread has locked the mutex *)
Definition mutex_held : mstate :=
  MState (Mutex 0 [] 0x1000 true) ({[0x1000]} ∪ ∅) (∅ ∖ {[0x1000]}) (∅ ∖ {[0x1000]}).

Lemma mutex_held_reach P : P (ELock 0x1000) mstate_init -> mutex_reach 1 P mutex_held.
Proof. intros HP. apply (reach_lock P 0x1000 mstate_init); [constructor|done|done|set_solver..]. Qed.

(** ** Properties *)

(** C18: mutual exclusion: as long as no thread calls [mutex_lock] while [active]
    still names it, at most one thread at a time has the mutex, on one
    processor or on several, and the lock is free exactly when no thread has
    it. *)
Theorem mutex_exclusion (num_cpus : Z) (s : mstate) :
  mutex_reach num_cpus no_relock s ->
  (forall t u, t ∈ ms_in s -> u ∈ ms_in s -> t = u) /\
  (mx_lock (ms_mutex s) = false <-> ms_in s = ∅).
Proof.
  intros Hr. assert (exclusive s) as He.
  { induction Hr as [|e s s' _ IH Hn Hs]; [done|]. by eapply exclusive_step. }
  unfold exclusive in He. destruct (mx_lock (ms_mutex s)).
  - destruct He as [x ->]. split; [set_solver|]. split; [done|]. set_solver.
  - rewrite He. split; [set_solver|done].
Qed.

(** [mutex_unlock] leaves [active] as it is, so a thread that locks the mutex
    again after unlocking it returns at once without the lock: two threads can
    then be inside at the same time.  Here the first locks, unlocks and locks
    again, and the second locks. *)
Theorem mutex_exclusion_fails :
  exists s, mutex_reach 1 any_step s /\ 0x1000 ∈ ms_in s /\ 0x2000 ∈ ms_in s.
Proof.
  pose proof (mutex_held_reach any_step I) as H1.
  pose proof (reach_next 1 any_step (EUnlock 0x1000) _ _ H1 I
    (MUnlock 1 0x1000 mutex_held _ _ ltac:(simpl; set_solver) eq_refl)) as H2.
  pose proof (reach_lock any_step 0x1000 _ H2 I) as H3. simpl in H3.
  specialize (H3 ltac:(done) ltac:(set_solver) ltac:(set_solver) ltac:(set_solver)).
  pose proof (reach_lock any_step 0x2000 _ H3 I) as H4. simpl in H4.
  specialize (H4 ltac:(done) ltac:(set_solver) ltac:(set_solver) ltac:(set_solver)).
  eexists. split; [exact H4|]. simpl. set_solver.
Qed.


(** [mutex_unlock] hands out the sleepers in the order they came, one per
    unlock, and none while a processor spins on the lock. *)
Theorem mutex_unlock_fifo (m : mutex) :
  let '(next, m') := mutex_unlock m in
  mx_lock m' = false /\
  if decide (mx_run_waiting m = 0) then
    mx_sleep_waiting m = match mx_sleep_waiting m with [] => [] | _ => next :: mx_sleep_waiting m' end /\
    (mx_sleep_waiting m = [] -> next = NULL)
  else next = NULL /\ mx_sleep_waiting m' = mx_sleep_waiting m.
Proof.
  unfold mutex_unlock. case_decide as Hr.
  - rewrite Hr. simpl. by destruct (mx_sleep_waiting m).
  - by rewrite (proj2 (Z.eqb_neq _ _) Hr).
Qed.

Lemma mutex_exclusion_witness :
  (forall t u, t ∈ ms_in mutex_held -> u ∈ ms_in mutex_held -> t = u) /\
  (mx_lock (ms_mutex mutex_held) = false <-> ms_in mutex_held = ∅).
Proof. apply (mutex_exclusion 1). by apply mutex_held_reach. Defined.


