(* ===== verification/Paging.v ===== *)
(** Paging on the i386 ([arch/x86/paging.c], [include/c4/arch/paging.h]).

    The memory is physical, read and written through the page tables as the
    hardware does: [walk] is the two-level translation, and the kernel reaches
    the tables at the virtual addresses the recursive entry 1023 of the page
    directory gives them, so the functions of the file run on the very
    structure they change.  A separate map holds the translations the TLB has
    cached for the accesses of programs. *)
From S2P Require Export Region.

Definition KERNEL_BASE : Z := 0xfd000000.
Definition PAGE_ARCH_PRESENT : Z := 1.
Definition PAGE_ARCH_WRITABLE : Z := 2.
Definition PAGE_ARCH_SUPERVISOR : Z := 4.
Definition PAGE_ARCH_ACCESSED : Z := 32.
Definition PAGE_ARCH_4MB_ENTRY : Z := 128.

Definition page_dir_entry (vaddress : Z) : Z := Z.shiftr vaddress 22.
Definition page_table_entry (vaddress : Z) : Z := Z.land (Z.shiftr vaddress 12) 0x3ff.

Record mmu := Mmu {
  pm_mem : gmap Z Z;        (** physical memory, by word address *)
  pm_cr3 : Z;
  pm_tlb : gmap Z Z;        (** virtual page to physical page *)
  pm_physical : region;     (** [physical_region] *)
  pm_global : region;       (** the region of the kernel's virtual pages *)
}.

Definition mem_get (s : mmu) (a : Z) : Z := default 0 (pm_mem s !! a).
Definition mem_set (a v : Z) (s : mmu) : mmu :=
  Mmu (<[a := v]> (pm_mem s)) (pm_cr3 s) (pm_tlb s) (pm_physical s) (pm_global s).
Definition set_tlb (t : gmap Z Z) (s : mmu) : mmu :=
  Mmu (pm_mem s) (pm_cr3 s) t (pm_physical s) (pm_global s).
Definition set_physical (r : region) (s : mmu) : mmu :=
  Mmu (pm_mem s) (pm_cr3 s) (pm_tlb s) r (pm_global s).
Definition set_global (r : region) (s : mmu) : mmu :=
  Mmu (pm_mem s) (pm_cr3 s) (pm_tlb s) (pm_physical s) r.

(** the hardware's translation; [None] is a page fault *)
Definition walk (s : mmu) (v : Z) : option Z :=
  let pde := mem_get s (page_mask (pm_cr3 s) + 4 * page_dir_entry v) in
  if negb (flag_set pde PAGE_ARCH_PRESENT) then None
  else if flag_set pde PAGE_ARCH_4MB_ENTRY then
    Some (pde / 2 ^ 22 * 2 ^ 22 + v mod 2 ^ 22)
  else
    let pte := mem_get s (page_mask pde + 4 * page_table_entry v) in
    if negb (flag_set pte PAGE_ARCH_PRESENT) then None
    else Some (page_mask pte + v mod 4096).

Abbreviation PST := (ST mmu).

Definition vread (v : Z) : PST Z := fun s =>
  match walk s v with Some p => Some (mem_get s p, s) | None => None end.
Definition vwrite (v x : Z) : PST unit := fun s =>
  match walk s v with Some p => Some (tt, mem_set p x s) | None => None end.

(** an access of a program: the TLB first, the tables if it does not know *)
Definition access (v : Z) : PST Z := fun s =>
  match pm_tlb s !! (v / 4096) with
  | Some p => Some (p + v mod 4096, s)
  | None =>
      match walk s v with
      | Some p => Some (p, set_tlb (<[v / 4096 := p - v mod 4096]> (pm_tlb s)) s)
      | None => None
      end
  end.

Definition page_flags (flags : Z) : Z :=
  Z.lor (Z.lor (Z.shiftl (Z.b2z (flag_set flags PAGE_WRITE)) 1)
    (Z.shiftl (Z.b2z (negb (flag_set flags PAGE_SUPERVISOR))) 2)) PAGE_ARCH_PRESENT.

Definition add_page_flags (addr flags : Z) : Z := Z.lor addr (page_flags flags).

Definition flush_tlb : PST unit := modify (set_tlb ∅).

(** [invlpg] drops the translation of the page its operand lies in *)
Definition invalidate_page (operand : Z) : PST unit :=
  modify (fun s => set_tlb (delete (operand / 4096) (pm_tlb s)) s).

Definition alloc_phys_page : PST Z := fun s =>
  match region_alloc (fun _ _ => fault) (pm_physical s) tt with
  | Some ((p, r), _) => Some (p, set_physical r s)
  | None => None
  end.

Definition free_phys_page (addr : Z) : PST unit := fun s =>
  match region_free (fun _ => fault) (pm_physical s) addr tt with
  | Some (r, _) => Some (tt, set_physical r s)
  | None => None
  end.

Definition page_current_table_entry (entry : Z) : Z :=
  Z.lor 0xffc00000 (w32 (Z.shiftl entry 12)).

Definition current_page_dir : Z := 0xfffff000.

(** [dir[i]] and [table[i]]: the word [i] of a page at virtual address [base] *)
Definition word_at (base i : Z) : Z := w32 (base + 4 * i).

(** with no translation the code prints a warning and loops for ever *)
Definition page_phys_addr (vaddress : Z) : PST Z :=
  let dirent := page_dir_entry vaddress in
  let tableent := page_table_entry vaddress in
  let table := page_current_table_entry dirent in
  e ← vread (word_at current_page_dir dirent);
  ret ← (if negb (e =? 0) then
           if flag_set e PAGE_ARCH_4MB_ENTRY then mret (Z.lor e (w32 (Z.shiftl tableent 12)))
           else
             t ← vread (word_at table tableent);
             if negb (t =? 0) then mret t else mret 0
         else mret 0);
  if ret =? 0 then fault else mret (Z.land ret (w32 (Z.lnot PAGE_ARCH_ACCESSED))).

Definition map_phys_page (perms vaddr raddr : Z) : PST Z :=
  let dirent := page_dir_entry vaddr in
  let tableent := page_table_entry vaddr in
  let table := page_current_table_entry dirent in
  e ← vread (word_at current_page_dir dirent);
  _ ← when_st (e =? 0)
        (p ← alloc_phys_page;
         vwrite (word_at current_page_dir dirent) (add_page_flags p PAGE_WRITE));
  _ ← vwrite (word_at table tableent) (add_page_flags raddr perms);
  mret vaddr.

Definition map_page (perms vaddr : Z) : PST Z :=
  raddr ← alloc_phys_page;
  map_phys_page perms vaddr raddr.

Definition map_phys_page_4mb (perms vaddr raddr : Z) : PST Z :=
  let dirent := page_dir_entry vaddr in
  _ ← vwrite (word_at current_page_dir dirent)
        (Z.lor (add_page_flags raddr perms) PAGE_ARCH_4MB_ENTRY);
  mret vaddr.

(** [paddr_var] is the address of the local variable [paddr], which is what the
    operand ["m"(paddr)] names *)
Definition unmap_page (paddr_var vaddress : Z) : PST unit :=
  let dirent := page_dir_entry vaddress in
  let tableent := page_table_entry vaddress in
  let table := page_current_table_entry dirent in
  e ← vread (word_at current_page_dir dirent);
  if negb (e =? 0) then
    paddr ← vread (word_at table tableent);
    if negb (paddr =? 0) then
      _ ← vwrite (word_at table tableent) 0;
      _ ← invalidate_page paddr_var;
      free_phys_page paddr
    else mret tt
  else mret tt.

Definition set_cr3 (v : Z) (s : mmu) : mmu :=
  Mmu (pm_mem s) v (pm_tlb s) (pm_physical s) (pm_global s).

Definition set_page_dir (dir : Z) : PST unit :=
  addr ← page_phys_addr dir;
  let addr := Z.lor (Z.lor addr PAGE_ARCH_PRESENT) PAGE_ARCH_WRITABLE in
  _ ← modify (set_cr3 addr);
  flush_tlb.

(** the loop of [clone_page_dir] *)
Fixpoint clone_loop (fuel : nat) (newdir dir i : Z) : PST unit :=
  match fuel with
  | O => fault
  | S fuel =>
      if i <? 1023 then
        e ← vread (word_at dir i);
        _ ← vwrite (word_at newdir i) (Z.land e (w32 (Z.lnot PAGE_ARCH_ACCESSED)));
        clone_loop fuel newdir dir (i + 1)
      else mret tt
  end.

(** a failed [KASSERT] only prints a message: the code goes on with NULL *)
Definition clone_page_dir (dir : Z) : PST Z :=
  s ← get_st;
  '(newdir, g) ← region_alloc map_page (pm_global s);
  _ ← modify (set_global g);
  _ ← clone_loop 1024 newdir dir 0;
  p ← page_phys_addr newdir;
  _ ← vwrite (word_at newdir 1023) p;
  mret newdir.

Definition low_virt_to_phys (addr : Z) : Z := w32 (addr - KERNEL_BASE).
Definition low_phys_to_virt (addr : Z) : Z := w32 (addr + KERNEL_BASE).
Definition is_kernel_address (addr : Z) : bool := KERNEL_BASE <=? addr.
Definition is_user_address (addr : Z) : bool := negb (is_kernel_address addr).

(** [init_paging]: the recursive entry, and the region of physical pages *)
Definition init_paging (boot_page_dir : Z) (phys_map : region) : PST unit :=
  _ ← vwrite (word_at boot_page_dir 1023)
        (Z.lor (Z.lor (low_virt_to_phys boot_page_dir) PAGE_ARCH_PRESENT) PAGE_ARCH_WRITABLE);
  modify (set_physical phys_map).

(** converts between physical I/O addresses and their virtual window *)
Definition IO_PHYS_BASE : Z := 0xfec00000.
Definition IO_VIRTUAL_BASE : Z := 0xfe800000.
Definition io_phys_to_virt (addr : Z) : Z := w32 (w32 (addr - IO_PHYS_BASE) + IO_VIRTUAL_BASE).
Definition io_virt_to_phys (addr : Z) : Z := w32 (w32 (addr - IO_VIRTUAL_BASE) + IO_PHYS_BASE).

(** ** Addresses *)

(** the virtual address with the given indices and offset *)
Definition vaddr_of (d t o : Z) : Z := d * 2 ^ 22 + t * 4096 + o.

Definition indices (d t o : Z) : Prop := 0 <= d < 1024 /\ 0 <= t < 1024 /\ 0 <= o < 4096.

Lemma vaddr_range d t o : indices d t o -> 0 <= vaddr_of d t o < 2 ^ 32.
Proof. unfold indices, vaddr_of. lia. Qed.

Lemma vaddr_split v : 0 <= v < 2 ^ 32 ->
  exists d t o, indices d t o /\ v = vaddr_of d t o.
Proof.
  intros Hv. exists (v / 2 ^ 22), ((v / 4096) mod 1024), (v mod 4096). unfold indices, vaddr_of.
  pose proof (Z.mod_pos_bound v 4096). pose proof (Z.mod_pos_bound (v / 4096) 1024).
  pose proof (Z.div_mod v 4096). pose proof (Z.div_mod (v / 4096) 1024).
  assert (v / 2 ^ 22 = v / 4096 / 1024) as -> by (rewrite Z.div_div by lia; done).
  assert (0 <= v / 4096 / 1024 < 1024); [|lia].
  rewrite Z.div_div by lia. change (4096 * 1024) with (2 ^ 22). split; [apply Z.div_pos; lia|].
  apply Z.div_lt_upper_bound; lia.
Qed.

Lemma vaddr_div d t o : indices d t o -> vaddr_of d t o / 4096 = d * 1024 + t.
Proof.
  unfold indices, vaddr_of. intros (Hd & Ht & Ho). symmetry. apply Z.div_unique with o; lia.
Qed.

Lemma vaddr_dirent d t o : indices d t o -> page_dir_entry (vaddr_of d t o) = d.
Proof.
  unfold indices, vaddr_of, page_dir_entry. intros (Hd & Ht & Ho).
  rewrite Z.shiftr_div_pow2 by lia. symmetry. apply Z.div_unique with (t * 4096 + o); lia.
Qed.

Lemma vaddr_tableent d t o : indices d t o -> page_table_entry (vaddr_of d t o) = t.
Proof.
  intros Hi. unfold page_table_entry. rewrite Z.shiftr_div_pow2 by lia. change (2 ^ 12) with 4096.
  rewrite vaddr_div by done. change 0x3ff with (Z.ones 10). rewrite Z.land_ones by lia.
  unfold indices in Hi. change (2 ^ 10) with 1024.
  symmetry. apply Z.mod_unique with d; lia.
Qed.

Lemma vaddr_offset d t o : indices d t o -> vaddr_of d t o mod 4096 = o.
Proof.
  unfold indices, vaddr_of. intros (Hd & Ht & Ho). symmetry. apply Z.mod_unique with (d * 1024 + t); lia.
Qed.

Lemma vaddr_inj d t o d' t' o' :
  indices d t o -> indices d' t' o' -> vaddr_of d t o / 4096 = vaddr_of d' t' o' / 4096 <-> d = d' /\ t = t'.
Proof. intros Hi Hi'. rewrite !vaddr_div by done. unfold indices in *. lia. Qed.

Lemma window_addr d t : 0 <= d < 1024 -> 0 <= t < 1024 ->
  word_at (page_current_table_entry d) t = vaddr_of 1023 d (4 * t).
Proof.
  intros Hd Ht. unfold word_at, page_current_table_entry, vaddr_of.
  rewrite Z.shiftl_mul_pow2 by lia. change (2 ^ 12) with 4096.
  rewrite (w32_small (d * 4096)) by lia. rewrite (lor_low _ _ 22) by (try done; lia).
  rewrite w32_small; lia.
Qed.

Lemma dir_addr d : 0 <= d < 1024 -> word_at current_page_dir d = vaddr_of 1023 1023 (4 * d).
Proof. intros Hd. unfold word_at, current_page_dir, vaddr_of. rewrite w32_small; lia. Qed.

Lemma page_flags_range f : 0 <= page_flags f < 8 /\ flag_set (page_flags f) PAGE_ARCH_PRESENT = true.
Proof.
  unfold page_flags. destruct (flag_set f PAGE_WRITE), (flag_set f PAGE_SUPERVISOR); done.
Qed.

Lemma present_odd x : flag_set x PAGE_ARCH_PRESENT = Z.testbit x 0.
Proof.
  unfold flag_set, PAGE_ARCH_PRESENT. change 1 with (Z.ones 1). rewrite Z.land_ones by lia.
  change (2 ^ 1) with 2. rewrite <- Z.bit0_mod. by destruct (Z.testbit x 0).
Qed.

Lemma bit7_flag x : flag_set x PAGE_ARCH_4MB_ENTRY = Z.testbit x 7.
Proof.
  unfold flag_set, PAGE_ARCH_4MB_ENTRY. rewrite Z.land_comm. change 128 with (Z.shiftl 1 7).
  destruct (Z.testbit x 7) eqn:E.
  - apply negb_true_iff, Z.eqb_neq. intros H.
    assert (Z.testbit (Z.land (Z.shiftl 1 7) x) 7 = true) as Hb by (by rewrite Z.land_spec, E).
    rewrite H in Hb. done.
  - apply negb_false_iff, Z.eqb_eq. apply Z.bits_inj'. intros n Hn.
    rewrite Z.land_spec, Z.bits_0, Z.shiftl_spec by lia.
    destruct (decide (n = 7)) as [->|]; [by rewrite E, andb_false_r|].
    destruct (decide (n < 7)); [by rewrite Z.testbit_neg_r by lia|].
    rewrite Z.bits_above_log2 by (simpl; lia). done.
Qed.

(** an entry made from a page-aligned address *)
Lemma entry_fields p f : 0 <= p -> p mod 4096 = 0 -> p + 4096 <= 2 ^ 32 ->
  0 <= add_page_flags p f < 2 ^ 32 /\ page_mask (add_page_flags p f) = p /\
  flag_set (add_page_flags p f) PAGE_ARCH_PRESENT = true /\
  flag_set (add_page_flags p f) PAGE_ARCH_4MB_ENTRY = false.
Proof.
  intros Hp Hm Ht. destruct (page_flags_range f) as [Hr Hpr]. unfold add_page_flags.
  pose proof (lor_low p (page_flags f) 12 ltac:(lia) Hm ltac:(lia)) as Hor.
  split_and!; [lia|lia|rewrite Hor; apply page_mask_add; lia| |].
  - rewrite present_odd in *. by rewrite Z.lor_spec, Hpr, orb_true_r.
  - rewrite bit7_flag, Z.lor_spec. apply orb_false_iff. split.
    + apply Z.div_exact in Hm; [|done]. rewrite Hm, Z.mul_comm. change 4096 with (2 ^ 12).
      rewrite Z.mul_pow2_bits by lia. by rewrite Z.testbit_neg_r by lia.
    + destruct (decide (page_flags f = 0)) as [->|]; [done|].
      apply Z.bits_above_log2; [lia|]. apply Z.log2_lt_pow2; lia.
Qed.

(** ** The structure of the tables *)

Definition pd (s : mmu) : Z := page_mask (pm_cr3 s).
Definition pde (s : mmu) (d : Z) : Z := mem_get s (pd s + 4 * d).
Definition table_of (s : mmu) (d : Z) : Z := page_mask (pde s d).
Definition pte (s : mmu) (d t : Z) : Z := mem_get s (table_of s d + 4 * t).

Definition is_table (s : mmu) (d : Z) : Prop :=
  0 <= d < 1024 /\ flag_set (pde s d) PAGE_ARCH_PRESENT = true /\
  flag_set (pde s d) PAGE_ARCH_4MB_ENTRY = false.

(** a page the region can still hand out *)
Definition region_spare (r : region) (p : Z) : Prop :=
  exists k, (k < region_pages r)%nat /\ p = r_vaddress r + Z.of_nat k * PAGE_SIZE /\
    bm_bit (r_bitmap r) k = false.

(** entry 1023 maps the directory itself, no two entries share a table, and no
    table is a page the physical region counts as free *)
Record mmu_wf (s : mmu) : Prop := {
  mw_range : forall a, 0 <= mem_get s a < 2 ^ 32;
  mw_cr3 : 0 <= pm_cr3 s < 2 ^ 32;
  mw_rec : is_table s 1023 /\ table_of s 1023 = pd s;
  mw_tables : forall i j, is_table s i -> is_table s j -> table_of s i = table_of s j -> i = j;
  mw_region : region_inv (pm_physical s) /\ r_mode (pm_physical s) = REGION_MODE_PHYSICAL;
  mw_used : forall d, is_table s d -> ~ region_spare (pm_physical s) (table_of s d);
}.

Section tables.
Implicit Types (s : mmu).

Lemma walk_eq s d t o : indices d t o ->
  walk s (vaddr_of d t o) =
    if negb (flag_set (pde s d) PAGE_ARCH_PRESENT) then None
    else if flag_set (pde s d) PAGE_ARCH_4MB_ENTRY then Some (pde s d / 2 ^ 22 * 2 ^ 22 + (t * 4096 + o))
    else if negb (flag_set (pte s d t) PAGE_ARCH_PRESENT) then None
    else Some (page_mask (pte s d t) + o).
Proof.
  intros Hi. unfold walk. rewrite (vaddr_dirent d t o), (vaddr_tableent d t o), (vaddr_offset d t o) by done.
  change (page_mask (pm_cr3 s)) with (pd s). fold (pde s d). fold (table_of s d). fold (pte s d t).
  assert (vaddr_of d t o mod 2 ^ 22 = t * 4096 + o) as ->; [|done].
  symmetry. unfold indices, vaddr_of in *. apply Z.mod_unique with d; lia.
Qed.

Lemma walk_dir s i : mmu_wf s -> 0 <= i < 1024 -> walk s (vaddr_of 1023 1023 (4 * i)) = Some (pd s + 4 * i).
Proof.
  intros Hw Hi. destruct (mw_rec s Hw) as ((_ & Hp & H4) & Hpd).
  rewrite walk_eq by (unfold indices; lia). rewrite Hp, H4. simpl.
  assert (pte s 1023 1023 = pde s 1023) as Hpte by (unfold pte; by rewrite Hpd).
  rewrite Hpte, Hp. simpl. f_equal. f_equal. exact Hpd.
Qed.

Lemma walk_window s d t : mmu_wf s -> 0 <= d < 1024 -> 0 <= t < 1024 ->
  flag_set (pde s d) PAGE_ARCH_PRESENT = true ->
  walk s (vaddr_of 1023 d (4 * t)) = Some (table_of s d + 4 * t).
Proof.
  intros Hw Hd Ht Hp. destruct (mw_rec s Hw) as ((_ & Hp' & H4) & Hpd).
  rewrite walk_eq by (unfold indices; lia). rewrite Hp', H4. simpl.
  assert (pte s 1023 d = pde s d) as Hpte by (unfold pte; by rewrite Hpd).
  by rewrite Hpte, Hp.
Qed.

Lemma page_mask_mult x : 0 <= x < 2 ^ 32 -> page_mask x mod 4096 = 0 /\ 0 <= page_mask x /\ page_mask x + 4096 <= 2 ^ 32.
Proof.
  intros Hx. rewrite page_mask_eq by done. pose proof (Z.div_mod x 4096 ltac:(done)) as Hd.
  pose proof (Z.mod_pos_bound x 4096 ltac:(lia)).
  assert (x - x mod 4096 = x / 4096 * 4096) as -> by lia.
  rewrite Z.mod_mul by done. split; [done|]. lia.
Qed.

Lemma word_inj f g i j : f mod 4096 = 0 -> g mod 4096 = 0 -> 0 <= i < 1024 -> 0 <= j < 1024 ->
  f + 4 * i = g + 4 * j -> f = g /\ i = j.
Proof.
  intros Hf Hg Hi Hj He. apply Z.div_exact in Hf, Hg; try done.
  set (a := f / 4096) in *. set (b := g / 4096) in *. lia.
Qed.

Lemma mem_get_set s a x b : mem_get (mem_set a x s) b = if decide (b = a) then x else mem_get s b.
Proof. unfold mem_get, mem_set; simpl. rewrite lookup_insert. repeat case_decide; by subst. Qed.

Lemma pd_mult s : mmu_wf s -> pd s mod 4096 = 0.
Proof. intros Hw. by apply page_mask_mult, (mw_cr3 s Hw). Qed.

Lemma table_mult s d : mmu_wf s -> table_of s d mod 4096 = 0.
Proof. intros Hw. by apply page_mask_mult, (mw_range s Hw). Qed.

(** ** Writing one entry of a table *)

Section set_pte.
Context (s : mmu) (d t x : Z).
Context (Hw : mmu_wf s) (Hd : is_table s d) (Hd1 : d <> 1023) (Ht : 0 <= t < 1024) (Hx : 0 <= x < 2 ^ 32).
Let s' := mem_set (table_of s d + 4 * t) x s.

Lemma set_pte_pde i : 0 <= i < 1024 -> pde s' i = pde s i.
Proof.
  intros Hi. unfold pde, s'. change (pd (mem_set _ _ s)) with (pd s). rewrite mem_get_set.
  case_decide as He; [|done]. exfalso. apply Hd1.
  apply word_inj in He as [He _]; [|by apply pd_mult|by apply table_mult|done|done].
  destruct (mw_rec s Hw) as (Hr & Hpd). apply (mw_tables s Hw); [done|done|congruence].
Qed.

Lemma set_pte_pte i j : is_table s i -> 0 <= j < 1024 ->
  pte s' i j = if decide (i = d /\ j = t) then x else pte s i j.
Proof.
  intros Hi Hj. unfold pte, table_of. rewrite set_pte_pde by apply Hi. unfold s'.
  rewrite mem_get_set. fold (table_of s i). case_decide as He.
  - apply word_inj in He as [He ->]; [|by apply table_mult|by apply table_mult|done|done].
    apply (mw_tables s Hw) in He; [|done|done]. by rewrite decide_True.
  - rewrite decide_False; [done|]. intros [-> ->]. done.
Qed.

Lemma set_pte_is_table i : is_table s' i <-> is_table s i.
Proof.
  unfold is_table. split; intros (Hi & H1 & H2); rewrite set_pte_pde in * by done; done.
Qed.

Lemma set_pte_wf : mmu_wf s'.
Proof.
  split.
  - intros a. unfold s'. rewrite mem_get_set. case_decide; [done|]. apply (mw_range s Hw).
  - apply (mw_cr3 s Hw).
  - rewrite set_pte_is_table. unfold table_of. rewrite set_pte_pde by lia. apply (mw_rec s Hw).
  - intros i j Hi%set_pte_is_table Hj%set_pte_is_table. unfold table_of.
    rewrite !set_pte_pde by (apply Hi || apply Hj). by apply (mw_tables s Hw).
  - apply (mw_region s Hw).
  - intros i Hi%set_pte_is_table. unfold table_of. rewrite set_pte_pde by apply Hi. by apply (mw_used s Hw).
Qed.

Lemma set_pte_walk i j o : indices i j o -> ~ (i = d /\ j = t) -> walk s' (vaddr_of i j o) = walk s (vaddr_of i j o).
Proof.
  intros Hi Hne. rewrite !walk_eq by done. pose proof Hi as (Hi1 & Hj & _).
  rewrite set_pte_pde by done. destruct (flag_set (pde s i) PAGE_ARCH_PRESENT) eqn:E1; [|done].
  destruct (flag_set (pde s i) PAGE_ARCH_4MB_ENTRY) eqn:E2; [done|]. simpl.
  rewrite set_pte_pte; [by rewrite decide_False|done|done].
Qed.

Lemma set_pte_walk_eq o : 0 <= o < 4096 -> walk s' (vaddr_of d t o) =
  if flag_set x PAGE_ARCH_PRESENT then Some (page_mask x + o) else None.
Proof.
  intros Ho. rewrite walk_eq by (by split; [apply Hd|]). rewrite set_pte_pde by apply Hd.
  destruct Hd as (_ & -> & ->). simpl. rewrite set_pte_pte by done. rewrite decide_True by done.
  by destruct (flag_set x PAGE_ARCH_PRESENT).
Qed.
End set_pte.

(** ** A new table *)

Section set_pde.
Context (s : mmu) (d p : Z) (r : region).
Context (Hw : mmu_wf s) (Hd : 0 <= d < 1024) (H0 : pde s d = 0).
Context (Hp : region_spare (pm_physical s) p).
Context (Hr : region_inv r) (Hmode : r_mode r = REGION_MODE_PHYSICAL).
Context (Hsp : forall q, region_spare r q <-> region_spare (pm_physical s) q /\ q <> p).
Let s' := mem_set (pd s + 4 * d) (add_page_flags p PAGE_WRITE) (set_physical r s).

Lemma spare_page q : region_spare (pm_physical s) q -> 0 <= q /\ q mod 4096 = 0 /\ q + 4096 <= 2 ^ 32.
Proof.
  intros (k & Hk & -> & _). destruct (mw_region s Hw) as [Hi _].
  pose proof (region_pages_Z _ Hi). destruct Hi. unfold PAGE_SIZE in *.
  split_and!; [lia| |lia]. by rewrite Z.add_mod, Z.mod_mul, ri_align by done.
Qed.

Lemma set_pde_pde i : 0 <= i < 1024 ->
  pde s' i = if decide (i = d) then add_page_flags p PAGE_WRITE else pde s i.
Proof.
  intros Hi. unfold pde, s'. change (pd (mem_set _ _ _)) with (pd s). rewrite mem_get_set.
  case_decide as He.
  - assert (i = d) as -> by lia. by rewrite decide_True.
  - rewrite decide_False by (intros ->; done). done.
Qed.

Lemma set_pde_fields : 0 <= add_page_flags p PAGE_WRITE < 2 ^ 32 /\ page_mask (add_page_flags p PAGE_WRITE) = p /\
  flag_set (add_page_flags p PAGE_WRITE) PAGE_ARCH_PRESENT = true /\
  flag_set (add_page_flags p PAGE_WRITE) PAGE_ARCH_4MB_ENTRY = false.
Proof. destruct (spare_page p Hp) as (? & ? & ?). by apply entry_fields. Qed.

Lemma set_pde_not_rec : d <> 1023.
Proof. intros ->. destruct (mw_rec s Hw) as ((_ & Hpr & _) & _). by rewrite H0 in Hpr. Qed.

Lemma set_pde_is_table i : is_table s' i <-> i = d \/ is_table s i.
Proof.
  destruct set_pde_fields as (_ & _ & F1 & F2). unfold is_table. split.
  - intros (Hi & H1 & H2). rewrite set_pde_pde in * by done. case_decide; [by left|]. by right.
  - intros [->|(Hi & H1 & H2)].
    + rewrite set_pde_pde, decide_True by done. done.
    + rewrite set_pde_pde by done. case_decide; done.
Qed.

Lemma set_pde_table i : 0 <= i < 1024 -> table_of s' i = if decide (i = d) then p else table_of s i.
Proof.
  destruct set_pde_fields as (_ & F & _). intros Hi. unfold table_of.
  rewrite set_pde_pde by done. by case_decide.
Qed.

Lemma set_pde_wf : mmu_wf s'.
Proof.
  destruct set_pde_fields as (F0 & _). pose proof set_pde_not_rec as Hd1. split.
  - intros a. unfold s'. rewrite mem_get_set. case_decide; [done|]. apply (mw_range s Hw).
  - apply (mw_cr3 s Hw).
  - split; [apply set_pde_is_table; right; apply (mw_rec s Hw)|].
    rewrite set_pde_table by lia. rewrite decide_False by congruence. apply (mw_rec s Hw).
  - intros i j Hi Hj. rewrite !set_pde_table by (apply Hi || apply Hj).
    apply set_pde_is_table in Hi, Hj. repeat case_decide; subst; try done.
    + destruct Hj as [?|Hj]; [congruence|]. intros He. destruct (mw_used s Hw j Hj). by rewrite <- He.
    + destruct Hi as [?|Hi]; [congruence|]. intros He. destruct (mw_used s Hw i Hi). by rewrite He.
    + destruct Hi as [?|Hi]; [congruence|]. destruct Hj as [?|Hj]; [congruence|]. by apply (mw_tables s Hw).
  - done.
  - intros i Hi. rewrite set_pde_table by apply Hi. simpl. rewrite Hsp.
    apply set_pde_is_table in Hi. case_decide; [tauto|].
    destruct Hi as [?|Hi]; [done|]. intros [Hs _]. by apply (mw_used s Hw i Hi).
Qed.

(** the entries of the other tables, and of the new one, are as they were *)
Lemma set_pde_pte i j : is_table s' i -> i <> 1023 -> 0 <= j < 1024 ->
  pte s' i j = if decide (i = d) then mem_get s (p + 4 * j) else pte s i j.
Proof.
  intros Hi H1 Hj. unfold pte. rewrite set_pde_table by apply Hi. unfold s'. rewrite mem_get_set.
  rewrite decide_False.
  { by case_decide. }
  intros He. destruct (mw_rec s Hw) as (Hrec & Hpd).
  destruct (spare_page p Hp) as (_ & Hpm & _). apply set_pde_is_table in Hi. case_decide.
  - apply word_inj in He as [He _]; [|done|by apply pd_mult|done|done].
    apply (mw_used s Hw 1023 Hrec). by rewrite Hpd, <- He.
  - destruct Hi as [?|Hi]; [done|].
    apply word_inj in He as [He _]; [|by apply table_mult|by apply pd_mult|done|done].
    apply H1. apply (mw_tables s Hw); [done|done|congruence].
Qed.

Lemma set_pde_walk i j o : indices i j o -> i <> d -> i <> 1023 ->
  walk s' (vaddr_of i j o) = walk s (vaddr_of i j o).
Proof.
  intros Hi Hne H1. rewrite !walk_eq by done. pose proof Hi as (Hi1 & Hj & _).
  rewrite set_pde_pde by done. rewrite decide_False by done.
  destruct (flag_set (pde s i) PAGE_ARCH_PRESENT) eqn:E1; [|done].
  destruct (flag_set (pde s i) PAGE_ARCH_4MB_ENTRY) eqn:E2; [done|]. simpl.
  rewrite set_pde_pte; [by rewrite decide_False| |done|done].
  apply set_pde_is_table. by right.
Qed.
End set_pde.

(** ** Physical pages *)

Lemma spare_owns r p : region_inv r ->
  region_spare r p -> ~ region_owns r p.
Proof.
  intros Hi (k & Hk & -> & Hb) (j & Hj & He & Hb'). replace j with k in * by (unfold PAGE_SIZE in *; lia).
  congruence.
Qed.

Lemma alloc_phys_page_ok s : mmu_wf s -> r_available (pm_physical s) <> 0 ->
  exists p r, alloc_phys_page s = Some (p, set_physical r s) /\ region_inv r /\
    r_mode r = REGION_MODE_PHYSICAL /\ region_spare (pm_physical s) p /\ region_owns r p /\
    (forall q, region_spare r q <-> region_spare (pm_physical s) q /\ q <> p) /\
    (forall m : unit, region_free (fun _ => fault) r p m = Some (pm_physical s, m)) /\
    r_available r = r_available (pm_physical s) - 1.
Proof.
  intros Hw Ha. destruct (mw_region s Hw) as [Hi Hm].
  destruct (region_alloc_shape (fun _ _ => fault) (pm_physical s) tt Hi Ha)
    as (k & b & Hal & Hk & Hbit & Hwf & Hlen & Hb & _). rewrite Hm in Hal. simpl in Hal.
  pose proof (region_inv_update (pm_physical s) b k true Hi Hk Hbit Hwf Hlen Hb) as Hi'.
  do 2 eexists. split; [unfold alloc_phys_page; by rewrite Hal|]. split_and!; try done.
  - by exists k.
  - exists k. split_and!; [done|done|]. simpl. rewrite Hb. by rewrite decide_True.
  - intros q. unfold region_spare. simpl. change (region_pages (set_r_bitmap b _ _)) with (region_pages (pm_physical s)).
    split.
    + intros (j & Hj & -> & Hbj). rewrite Hb in Hbj. case_decide; [done|]. split; [by exists j|].
      unfold PAGE_SIZE. lia.
    + intros [(j & Hj & -> & Hbj) Hne]. exists j. split_and!; try done. rewrite Hb.
      rewrite decide_False; [done|]. by intros ->.
  - intros m.
    destruct (region_free_shape (fun _ => fault) _ k m Hi' Hk) as (b' & Heq & Hwf' & Hlen' & Hb').
    simpl in Heq, Hlen'. rewrite Heq, Hm. simpl. unfold set_r_bitmap; simpl.
    pose proof (region_avail_range _ Hi). pose proof (region_inv_small _ Hi).
    replace (w32 (r_available (pm_physical s) + -1 + 1)) with (r_available (pm_physical s))
      by (rewrite w32_small; lia).
    assert (b' = r_bitmap (pm_physical s)) as ->; [|by destruct (pm_physical s)].
    apply bm_ext; [done|apply Hi|congruence|]. intros j. rewrite Hb'. simpl.
    case_decide; subst; [by rewrite Hbit|]. rewrite Hb. by rewrite decide_False.
Qed.

(** ** Mapping a page *)

Definition frame_ok (p : Z) : Prop := 0 <= p /\ p mod 4096 = 0 /\ p + 4096 <= 2 ^ 32.

(** the effect of [map_phys_page] when the table exists *)
Lemma map_phys_page_present s perms d t o raddr :
  mmu_wf s -> indices d t o -> is_table s d -> d <> 1023 ->
  map_phys_page perms (vaddr_of d t o) raddr s =
    Some (vaddr_of d t o, mem_set (table_of s d + 4 * t) (add_page_flags raddr perms) s).
Proof.
  intros Hw Hi Hd Hd1. pose proof Hi as (Hd2 & Ht & _). unfold map_phys_page.
  rewrite (vaddr_dirent d t o), (vaddr_tableent d t o) by done.
  rewrite dir_addr, window_addr by done. unfold vread, vwrite.
  rewrite ST_bind_eq, walk_dir by done. fold (pde s d).
  assert ((pde s d =? 0) = false) as ->.
  { destruct Hd as (_ & Hp & _). apply Z.eqb_neq. intros H. by rewrite H in Hp. }
  simpl. rewrite ST_bind_eq. simpl. rewrite ST_bind_eq, walk_window by (done || apply Hd). done.
Qed.

(** when it does not, a page is taken for it and linked into the directory *)
Lemma map_phys_page_absent s perms d t o raddr p r :
  mmu_wf s -> indices d t o -> pde s d = 0 -> alloc_phys_page s = Some (p, set_physical r s) ->
  region_spare (pm_physical s) p -> region_inv r -> r_mode r = REGION_MODE_PHYSICAL ->
  (forall q, region_spare r q <-> region_spare (pm_physical s) q /\ q <> p) ->
  map_phys_page perms (vaddr_of d t o) raddr s =
    map_phys_page perms (vaddr_of d t o) raddr
      (mem_set (pd s + 4 * d) (add_page_flags p PAGE_WRITE) (set_physical r s)).
Proof.
  intros Hw Hi H0 Hal Hsp Hri Hm Hsp'. pose proof Hi as (Hd2 & Ht & _).
  set (s1 := mem_set _ _ _).
  assert (mmu_wf s1) as Hw1 by (by apply (set_pde_wf s d p r)).
  assert (is_table s1 d) as Hd1 by (apply (set_pde_is_table s d p r); try done; by left).
  assert (d <> 1023) as Hd3 by (by apply (set_pde_not_rec s d)).
  rewrite (map_phys_page_present s1) by done. unfold map_phys_page.
  rewrite (vaddr_dirent d t o), (vaddr_tableent d t o) by done.
  rewrite dir_addr, window_addr by done. unfold vread.
  rewrite ST_bind_eq, walk_dir by done. fold (pde s d). rewrite H0. simpl.
  rewrite ST_bind_eq, ST_bind_eq, Hal. unfold vwrite.
  assert (walk (set_physical r s) (vaddr_of 1023 1023 (4 * d)) = Some (pd s + 4 * d)) as ->
    by exact (walk_dir s d Hw Hd2).
  fold s1. rewrite ST_bind_eq. rewrite walk_window by (done || apply Hd1). done.
Qed.
End tables.

(** ** Unmapping a page *)

Lemma region_free_flags r p fl (m : unit) :
  region_inv r -> r_mode r = REGION_MODE_PHYSICAL -> region_owns r p -> 0 <= fl < 4096 ->
  region_free (fun _ => fault) r (p + fl) m = region_free (fun _ => fault) r p m.
Proof.
  intros Hi Hm (k & Hk & -> & _) Hfl. unfold region_free. rewrite Hm. simpl.
  pose proof (region_pages_Z r Hi). pose proof (ri_top r Hi). pose proof (ri_base r Hi).
  unfold PAGE_SIZE in *. set (n := Z.of_nat k) in *.
  assert (n + 1 <= r_num_pages r) by lia. assert (0 <= n) by lia.
  rewrite (w32_small (_ + fl - _)), (w32_small (_ - _)) by lia.
  replace (r_vaddress r + n * 4096 + fl - r_vaddress r) with (fl + n * 4096) by lia.
  replace (r_vaddress r + n * 4096 - r_vaddress r) with (n * 4096) by lia.
  rewrite Z.div_add, Z.div_mul, Z.div_small by lia. done.
Qed.

Lemma unmap_page_eq s d t o pv :
  mmu_wf s -> indices d t o -> is_table s d -> d <> 1023 ->
  unmap_page pv (vaddr_of d t o) s =
    if pte s d t =? 0 then Some (tt, s)
    else free_phys_page (pte s d t)
      (set_tlb (delete (pv / 4096) (pm_tlb s)) (mem_set (table_of s d + 4 * t) 0 s)).
Proof.
  intros Hw Hi Hd Hd1. pose proof Hi as (Hd2 & Ht & _). unfold unmap_page.
  rewrite (vaddr_dirent d t o), (vaddr_tableent d t o) by done.
  rewrite dir_addr, window_addr by done. unfold vread, vwrite.
  rewrite ST_bind_eq, walk_dir by done. fold (pde s d).
  assert ((pde s d =? 0) = false) as ->.
  { destruct Hd as (_ & Hp & _). apply Z.eqb_neq. intros H. by rewrite H in Hp. }
  simpl. rewrite ST_bind_eq, walk_window by (done || apply Hd). fold (pte s d t).
  destruct (pte s d t =? 0); [done|]. simpl. rewrite ST_bind_eq, walk_window by (done || apply Hd). done.
Qed.

(** unmapping a page whose frame came from the physical region *)
Lemma unmap_page_owned s d t o pv p fl :
  mmu_wf s -> indices d t o -> is_table s d -> d <> 1023 ->
  pte s d t = p + fl -> 0 <= fl < 4096 -> region_owns (pm_physical s) p ->
  exists r, unmap_page pv (vaddr_of d t o) s = Some (tt, set_physical r
      (set_tlb (delete (pv / 4096) (pm_tlb s)) (mem_set (table_of s d + 4 * t) 0 s))) /\
    region_inv r /\ r_mode r = REGION_MODE_PHYSICAL /\
    (forall q, region_owns r q <-> region_owns (pm_physical s) q /\ q <> p) /\
    (forall q, region_spare r q -> region_spare (pm_physical s) q \/ q = p) /\
    (forall m : unit, region_free (fun _ => fault) (pm_physical s) p m = Some (r, m)).
Proof.
  intros Hw Hi Hd Hd1 Hpte Hfl Hown. destruct (mw_region s Hw) as [Hri Hm].
  rewrite unmap_page_eq by done. rewrite Hpte.
  pose proof Hown as (k & Hk & Hp & Hbit).
  assert ((p + fl =? 0) = false) as ->.
  { apply Z.eqb_neq. pose proof (ri_base _ Hri). unfold PAGE_SIZE in *. lia. }
  destruct (region_free_shape (fun _ => fault) (pm_physical s) k tt Hri Hk) as (b & Heq & Hwf & Hlen & Hb).
  rewrite <- Hp, Hm in Heq. simpl in Heq.
  pose proof (region_avail_range _ Hri). pose proof (region_inv_small _ Hri).
  rewrite w32_small in Heq by lia.
  exists (set_r_bitmap b (r_available (pm_physical s) + 1) (pm_physical s)). split_and!; try done.
  - unfold free_phys_page. simpl. rewrite region_free_flags by done. by rewrite Heq.
  - by apply (region_inv_update (pm_physical s) b k false).
  - intros q. rewrite Hp. by apply region_owns_unset.
  - intros q (j & Hj & -> & Hbj). simpl in Hbj. rewrite Hb in Hbj.
    case_decide; [right; by subst|left; by exists j].
  - intros []. done.
Qed.

(** ** Properties *)

(** C20: mapping a page at an address whose table exists, or for which a page is
    left to make one, never faults; afterwards every address of the page
    translates to the frame, with the access bits [page_flags] computes, the
    pages of every other directory entry, and those of the same table when it
    already existed, translate as before, and the tables stay well formed. *)
Theorem map_phys_page_spec (s : mmu) (perms d t o raddr : Z) :
  mmu_wf s -> indices d t o -> d <> 1023 -> frame_ok raddr ->
  is_table s d \/ (pde s d = 0 /\ r_available (pm_physical s) <> 0) ->
  exists s', map_phys_page perms (vaddr_of d t o) raddr s = Some (vaddr_of d t o, s') /\ mmu_wf s' /\
    is_table s' d /\ pte s' d t = add_page_flags raddr perms /\
    (forall o', 0 <= o' < 4096 -> walk s' (vaddr_of d t o') = Some (raddr + o')) /\
    (forall i j o', indices i j o' -> i <> 1023 -> i <> d \/ (is_table s d /\ j <> t) ->
       walk s' (vaddr_of i j o') = walk s (vaddr_of i j o')).
Proof.
  intros Hw Hi Hd1 (Hf1 & Hf2 & Hf3) Hcase. pose proof Hi as (Hd2 & Ht & _).
  destruct (entry_fields raddr perms Hf1 Hf2 Hf3) as (Hx & Hmask & Hpr & _).
  assert (exists s1, mmu_wf s1 /\ is_table s1 d /\
    map_phys_page perms (vaddr_of d t o) raddr s = map_phys_page perms (vaddr_of d t o) raddr s1 /\
    (forall i j o', indices i j o' -> i <> 1023 -> i <> d \/ is_table s d ->
       walk s1 (vaddr_of i j o') = walk s (vaddr_of i j o'))) as (s1 & Hw1 & Ht1 & Heq & Hwalk).
  { destruct Hcase as [Ht1|[H0 Ha]]; [by exists s|].
    destruct (alloc_phys_page_ok s Hw Ha) as (p & r & Hal & Hr & Hm & Hsp & _ & Hsp' & _).
    eexists. split_and!; [by apply (set_pde_wf s d p r)| |by eapply map_phys_page_absent|].
    - apply (set_pde_is_table s d p r); try done. by left.
    - intros i j o' Hi' H1 [Hne|(_ & Hp & _)]; [|by rewrite H0 in Hp].
      by apply (set_pde_walk s d p r). }
  rewrite Heq, map_phys_page_present by done. eexists. split; [reflexivity|]. split_and!.
  - by apply set_pte_wf.
  - by apply set_pte_is_table.
  - rewrite set_pte_pte by done. by rewrite decide_True.
  - intros o' Ho'. rewrite set_pte_walk_eq by done. by rewrite Hpr, Hmask.
  - intros i j o' Hi' H1 Hc. rewrite set_pte_walk; [|done..|].
    + apply Hwalk; [done|done|]. destruct Hc as [?|[? _]]; [by left|by right].
    + intros [-> ->]. by destruct Hc as [?|[_ ?]].
Qed.

(** the page taken for a new table is not cleared: the other 1023 pages of
    its four megabytes translate as whatever words the page held before. *)
Theorem map_phys_page_stale_table (s : mmu) (perms d t o raddr : Z) :
  mmu_wf s -> indices d t o -> frame_ok raddr -> pde s d = 0 -> r_available (pm_physical s) <> 0 ->
  exists s' p, map_phys_page perms (vaddr_of d t o) raddr s = Some (vaddr_of d t o, s') /\
    region_spare (pm_physical s) p /\
    forall j o', indices d j o' -> j <> t ->
      walk s' (vaddr_of d j o') =
        let w := mem_get s (p + 4 * j) in
        if flag_set w PAGE_ARCH_PRESENT then Some (page_mask w + o') else None.
Proof.
  intros Hw Hi (Hf1 & Hf2 & Hf3) H0 Ha. pose proof Hi as (Hd2 & Ht & _).
  destruct (entry_fields raddr perms Hf1 Hf2 Hf3) as (Hx & _).
  destruct (alloc_phys_page_ok s Hw Ha) as (p & r & Hal & Hr & Hm & Hsp & _ & Hsp' & _).
  set (s1 := mem_set (pd s + 4 * d) (add_page_flags p PAGE_WRITE) (set_physical r s)).
  assert (mmu_wf s1) as Hw1 by (by apply (set_pde_wf s d p r)).
  assert (is_table s1 d) as Hd1 by (apply (set_pde_is_table s d p r); try done; by left).
  assert (d <> 1023) as Hd3 by (by apply (set_pde_not_rec s d)).
  eexists _, p. split_and!; [|done|].
  - erewrite map_phys_page_absent by done. by apply map_phys_page_present.
  - intros j o' Hj Hne. fold s1. rewrite set_pte_walk by (try done; by intros [_ ->]).
    rewrite walk_eq by done. destruct Hd1 as (Hd4 & E1 & E2). rewrite E1, E2. simpl.
    unfold s1. rewrite (set_pde_pte s d p r); try done; [|apply Hj].
    rewrite decide_True by done. by destruct (flag_set (mem_get s (p + 4 * j)) PAGE_ARCH_PRESENT).
Qed.

(** unmapping a page whose frame the physical region handed out makes its
    addresses fault in the tables, gives back exactly that frame, and leaves
    every other translation alone. *)
Theorem unmap_page_spec (s : mmu) (pv d t o p fl : Z) :
  mmu_wf s -> indices d t o -> is_table s d -> d <> 1023 ->
  pte s d t = p + fl -> 0 <= fl < 4096 -> region_owns (pm_physical s) p ->
  (forall i, is_table s i -> table_of s i <> p) ->
  exists s', unmap_page pv (vaddr_of d t o) s = Some (tt, s') /\ mmu_wf s' /\
    (forall o', 0 <= o' < 4096 -> walk s' (vaddr_of d t o') = None) /\
    (forall i j o', indices i j o' -> ~ (i = d /\ j = t) ->
       walk s' (vaddr_of i j o') = walk s (vaddr_of i j o')) /\
    (forall q, region_owns (pm_physical s') q <-> region_owns (pm_physical s) q /\ q <> p).
Proof.
  intros Hw Hi Hd Hd1 Hpte Hfl Hown Hnt. pose proof Hi as (Hd2 & Ht & _).
  destruct (unmap_page_owned s d t o pv p fl) as (r & Heq & Hri & Hm & Ho & Hsp & _); try done.
  pose proof (set_pte_wf s d t 0 Hw Hd Hd1 Ht ltac:(lia)) as Hw'.
  eexists. split; [exact Heq|]. split_and!; [|intros o' Ho'|intros i j o' Hi' Hne|done].
  - destruct Hw'. split; try done. intros i Hi'.
    assert (is_table s i) as Hti by (by apply (set_pte_is_table s d t 0)).
    assert (table_of (mem_set (table_of s d + 4 * t) 0 s) i = table_of s i) as Hsame.
    { unfold table_of at 1. rewrite set_pte_pde; [done|done|done|done|done|apply Hti]. }
    intros [Hs|Hs]%Hsp.
    + apply (mw_used s Hw i Hti). rewrite <- Hsame. exact Hs.
    + apply (Hnt i Hti). rewrite <- Hsame. exact Hs.
  - exact (set_pte_walk_eq s d t 0 Hw Hd Hd1 Ht o' Ho').
  - exact (set_pte_walk s d t 0 Hw Hd Hd1 Ht i j o' Hi' Hne).
Qed.

(** C21: [map_page] at an unmapped page of an existing table, then [unmap_page],
    gives the frame back: the physical region is as it was, and every address
    translates as before. *)
Theorem map_unmap_roundtrip (s : mmu) (perms pv d t o : Z) :
  mmu_wf s -> indices d t o -> is_table s d -> d <> 1023 -> pte s d t = 0 ->
  r_available (pm_physical s) <> 0 ->
  exists s', (_ ← map_page perms (vaddr_of d t o); unmap_page pv (vaddr_of d t o)) s = Some (tt, s') /\
    pm_physical s' = pm_physical s /\
    forall i j o', indices i j o' -> walk s' (vaddr_of i j o') = walk s (vaddr_of i j o').
Proof.
  intros Hw Hi Hd Hd1 H0 Ha. pose proof Hi as (Hd2 & Ht & _).
  destruct (alloc_phys_page_ok s Hw Ha) as (p & r & Hal & Hr & Hm & Hsp & Hown & Hsp' & Hback & _).
  destruct (spare_page s Hw p Hsp) as (Hf1 & Hf2 & Hf3).
  destruct (entry_fields p perms Hf1 Hf2 Hf3) as (Hx & Hmask & Hpr & _).
  destruct (page_flags_range perms) as [Hfl _].
  set (s1 := set_physical r s).
  assert (mmu_wf s1) as Hw1.
  { destruct Hw as [? ? ? ? ? Hu]. split; try done. intros i Hi'. simpl. rewrite Hsp'.
    intros [Hs _]. by apply (Hu i Hi'). }
  set (s2 := mem_set (table_of s1 d + 4 * t) (add_page_flags p perms) s1).
  assert (mmu_wf s2) as Hw2 by (by apply set_pte_wf).
  assert (is_table s2 d) as Hd3 by (by apply set_pte_is_table).
  assert (pte s2 d t = p + page_flags perms) as Hpte.
  { unfold s2. rewrite set_pte_pte by done. rewrite decide_True by done.
    apply (lor_low _ _ 12); [lia|done|lia]. }
  destruct (unmap_page_owned s2 d t o pv p (page_flags perms)) as (r2 & Hun & _ & _ & _ & _ & Hfree);
    try done; [lia|].
  assert (r2 = pm_physical s) as ->.
  { specialize (Hfree tt). simpl in Hfree. rewrite Hback in Hfree. by injection Hfree as ->. }
  eexists. split; [|split].
  - unfold map_page. rewrite ST_bind_eq, ST_bind_eq, Hal. fold s1.
    rewrite (map_phys_page_present s1) by done. exact Hun.
  - done.
  - intros i j o' Hi'. destruct (decide (i = d /\ j = t)) as [[-> ->]|Hne].
    + etransitivity; [apply (set_pte_walk_eq s2 d t 0 Hw2 Hd3 Hd1 Ht o'), Hi'|].
      rewrite (walk_eq s) by done. destruct Hd as (_ & E1 & E2). by rewrite E1, E2, H0.
    + etransitivity; [exact (set_pte_walk s2 d t 0 Hw2 Hd3 Hd1 Ht i j o' Hi' Hne)|].
      exact (set_pte_walk s1 d t _ Hw1 Hd Hd1 Ht i j o' Hi' Hne).
Qed.

(** [unmap_page] hands [invlpg] the address of its own variable [paddr] and
    not the page: unless that variable lies in the very page being unmapped, a
    translation the TLB has cached survives, so a program keeps access to the
    frame although the region counts it as free again. *)
Theorem unmap_page_stale_tlb (s : mmu) (pv d t o p fl : Z) :
  mmu_wf s -> indices d t o -> is_table s d -> d <> 1023 ->
  pte s d t = p + fl -> 0 <= fl < 4096 -> region_owns (pm_physical s) p ->
  pm_tlb s !! (vaddr_of d t o / 4096) = Some p -> pv / 4096 <> vaddr_of d t o / 4096 ->
  exists s', (_ ← unmap_page pv (vaddr_of d t o); access (vaddr_of d t o)) s = Some (p + o, s') /\
    ~ region_owns (pm_physical s') p /\ walk s' (vaddr_of d t o) = None.
Proof.
  intros Hw Hi Hd Hd1 Hpte Hfl Hown Htlb Hpv. pose proof Hi as (Hd2 & Ht & Ho).
  destruct (unmap_page_owned s d t o pv p fl) as (r & Heq & _ & _ & Hfree & _); try done.
  eexists. split; [|split].
  - rewrite ST_bind_eq, Heq. unfold access. simpl. rewrite lookup_delete_ne by done.
    rewrite Htlb. rewrite (vaddr_offset d t o) by done. reflexivity.
  - simpl. rewrite Hfree. by intros [_ ?].
  - exact (set_pte_walk_eq s d t 0 Hw Hd Hd1 Ht o Ho).
Qed.

(** [unmap_page] gives the frame back to the physical region whatever its
    origin: for a frame past the pages the region's bitmap stands for, such as
    the memory of a device mapped at a fixed address, it writes past the end of
    the bitmap. *)
Theorem unmap_page_foreign_frame (s : mmu) (pv d t o x : Z) :
  mmu_wf s -> indices d t o -> is_table s d -> d <> 1023 -> pte s d t = x -> x <> 0 ->
  r_vaddress (pm_physical s) + 32 * Z.of_nat (length (r_bitmap (pm_physical s))) * PAGE_SIZE <= x ->
  unmap_page pv (vaddr_of d t o) s = None.
Proof.
  intros Hw Hi Hd Hd1 Hpte Hx Hlo. destruct (mw_region s Hw) as [Hri Hm].
  rewrite unmap_page_eq, Hpte, (proj2 (Z.eqb_neq _ _) Hx) by done.
  unfold free_phys_page, region_free. simpl. rewrite Hm. simpl.
  pose proof (mw_range s Hw (table_of s d + 4 * t)) as Hr. fold (pte s d t) in Hr. rewrite Hpte in Hr.
  pose proof (ri_base _ Hri). unfold PAGE_SIZE in *.
  set (n := Z.of_nat (length (r_bitmap (pm_physical s)))) in *. assert (0 <= n) by lia.
  rewrite (w32_small (x - _)) by lia.
  assert (32 * n <= (x - r_vaddress (pm_physical s)) / 4096) as Hn by (apply Z.div_le_lower_bound; lia).
  assert (n <= (x - r_vaddress (pm_physical s)) / 4096 / BITMAP_BPS) as Hn'
    by (apply Z.div_le_lower_bound; unfold BITMAP_BPS; lia).
  unfold bitmap_unset. rewrite lookup_ge_None_2 by lia. done.
Qed.

(** ** The properties on a concrete memory *)

(** a directory at 0x1000 with one table, at 0x2000, which maps page 5 to the
    first page of the region *)
Definition mmu_ex : mmu :=
  Mmu {[0x1ffc := 0x1003; 0x1000 := 0x2003; 0x2014 := 0x100007]} 0x1000
    {[5 := 0x100000]} region_ex1 region_ex.

Lemma mmu_ex_mem a v : pm_mem mmu_ex !! a = Some v ->
  (a = 0x1ffc /\ v = 0x1003) \/ (a = 0x1000 /\ v = 0x2003) \/ (a = 0x2014 /\ v = 0x100007).
Proof.
  simpl. intros [[<- <-]|[_ [[<- <-]|[_ [<- <-]%lookup_singleton_Some]]%lookup_insert_Some]]%lookup_insert_Some;
    tauto.
Qed.

Lemma mmu_ex_table i : is_table mmu_ex i -> i = 0 \/ i = 1023.
Proof.
  intros (Hi & Hp & _). unfold pde in Hp. change (pd mmu_ex) with 0x1000 in Hp. unfold mem_get in Hp.
  destruct (pm_mem mmu_ex !! (0x1000 + 4 * i)) as [v|] eqn:E; [|done].
  apply mmu_ex_mem in E. lia.
Qed.

Lemma mmu_ex_wf : mmu_wf mmu_ex.
Proof.
  split; simpl; try done.
  - intros a. unfold mem_get. destruct (pm_mem mmu_ex !! a) as [v|] eqn:E; simpl; [|lia].
    apply mmu_ex_mem in E. lia.
  - intros i j [-> | ->]%mmu_ex_table [-> | ->]%mmu_ex_table; done.
  - split; [apply region_ex1_inv|done].
  - intros d [-> | ->]%mmu_ex_table (k & Hk & Hp & _).
    + change (table_of mmu_ex 0) with 0x2000 in Hp. simpl in Hp. unfold PAGE_SIZE in Hp. lia.
    + change (table_of mmu_ex 1023) with 0x1000 in Hp. simpl in Hp. unfold PAGE_SIZE in Hp. lia.
Qed.

Lemma mmu_ex_table0 : is_table mmu_ex 0.
Proof. by split; [lia|]. Qed.

Lemma map_phys_page_spec_witness :
  exists s', map_phys_page 3 (vaddr_of 0 7 0) 0x800000 mmu_ex = Some (vaddr_of 0 7 0, s') /\ mmu_wf s' /\
    is_table s' 0 /\ pte s' 0 7 = add_page_flags 0x800000 3 /\
    (forall o', 0 <= o' < 4096 -> walk s' (vaddr_of 0 7 o') = Some (0x800000 + o')) /\
    (forall i j o', indices i j o' -> i <> 1023 -> i <> 0 \/ (is_table mmu_ex 0 /\ j <> 7) ->
       walk s' (vaddr_of i j o') = walk mmu_ex (vaddr_of i j o')).
Proof.
  apply (map_phys_page_spec mmu_ex 3 0 7 0 0x800000);
    [apply mmu_ex_wf|unfold indices; lia|lia|split_and!; [lia|done|lia]|left; apply mmu_ex_table0].
Defined.

Lemma map_phys_page_stale_table_witness :
  exists s' p, map_phys_page 3 (vaddr_of 2 7 0) 0x800000 mmu_ex = Some (vaddr_of 2 7 0, s') /\
    region_spare (pm_physical mmu_ex) p /\
    forall j o', indices 2 j o' -> j <> 7 ->
      walk s' (vaddr_of 2 j o') =
        let w := mem_get mmu_ex (p + 4 * j) in
        if flag_set w PAGE_ARCH_PRESENT then Some (page_mask w + o') else None.
Proof.
  apply (map_phys_page_stale_table mmu_ex 3 2 7 0 0x800000);
    [apply mmu_ex_wf|unfold indices; lia|split_and!; [lia|done|lia]|done|done].
Defined.

Lemma mmu_ex_owns : region_owns (pm_physical mmu_ex) 0x100000.
Proof. exists 0%nat. split; [|done]. unfold region_pages. simpl. lia. Qed.

Lemma unmap_page_spec_witness :
  exists s', unmap_page 0xfd001000 (vaddr_of 0 5 0) mmu_ex = Some (tt, s') /\ mmu_wf s' /\
    (forall o', 0 <= o' < 4096 -> walk s' (vaddr_of 0 5 o') = None) /\
    (forall i j o', indices i j o' -> ~ (i = 0 /\ j = 5) ->
       walk s' (vaddr_of i j o') = walk mmu_ex (vaddr_of i j o')) /\
    (forall q, region_owns (pm_physical s') q <-> region_owns (pm_physical mmu_ex) q /\ q <> 0x100000).
Proof.
  apply (unmap_page_spec mmu_ex 0xfd001000 0 5 0 0x100000 7);
    [apply mmu_ex_wf|unfold indices; lia|apply mmu_ex_table0|lia|done|lia|apply mmu_ex_owns|].
  by intros i [-> | ->]%mmu_ex_table.
Defined.

Lemma map_unmap_roundtrip_witness :
  exists s', (_ ← map_page 3 (vaddr_of 0 7 0); unmap_page 0xfd001000 (vaddr_of 0 7 0)) mmu_ex = Some (tt, s') /\
    pm_physical s' = pm_physical mmu_ex /\
    forall i j o', indices i j o' -> walk s' (vaddr_of i j o') = walk mmu_ex (vaddr_of i j o').
Proof.
  apply (map_unmap_roundtrip mmu_ex 3 0xfd001000 0 7 0);
    [apply mmu_ex_wf|unfold indices; lia|apply mmu_ex_table0|lia|done|done].
Defined.

Lemma unmap_page_stale_tlb_witness :
  exists s', (_ ← unmap_page 0xfd001000 (vaddr_of 0 5 0); access (vaddr_of 0 5 0)) mmu_ex = Some (0x100000 + 0, s') /\
    ~ region_owns (pm_physical s') 0x100000 /\ walk s' (vaddr_of 0 5 0) = None.
Proof.
  apply (unmap_page_stale_tlb mmu_ex 0xfd001000 0 5 0 0x100000 7);
    [apply mmu_ex_wf|unfold indices; lia|apply mmu_ex_table0|lia|done|lia|apply mmu_ex_owns|done|done].
Defined.

(** page 9 maps a device at 0xfee00000 *)
Definition mmu_dev : mmu := mem_set 0x2024 0xfee00003 mmu_ex.

Lemma unmap_page_foreign_frame_witness : unmap_page 0xfd001000 (vaddr_of 0 9 0) mmu_dev = None.
Proof.
  apply (unmap_page_foreign_frame mmu_dev 0xfd001000 0 9 0 0xfee00003);
    [|unfold indices; lia|by split; [lia|]|lia|done|lia|simpl; unfold PAGE_SIZE; lia].
  apply (set_pte_wf mmu_ex 0 9 0xfee00003 mmu_ex_wf mmu_ex_table0); lia.
Defined.
