(* ===== verification/PageDir.v ===== *)
(** A copy of the page directory: [clone_page_dir] and [set_page_dir] of
    [arch/x86/paging.c], on well-formed tables.

    The copy is made through the mapping of a fresh page; the directory that is
    current is not touched but for that mapping.  Switching to the copy keeps
    the invariant of [Paging] and every translation below the window of the
    tables. *)
From S2P Require Export Paging.

(** ** An entry without its accessed bit *)

Definition clean (x : Z) : Z := Z.land x (w32 (Z.lnot PAGE_ARCH_ACCESSED)).

Lemma clean_range x : 0 <= x < 2 ^ 32 -> 0 <= clean x < 2 ^ 32.
Proof.
  intros Hx. unfold clean. change (w32 (Z.lnot PAGE_ARCH_ACCESSED)) with 0xffffffdf. split; [apply Z.land_nonneg; lia|].
  destruct (decide (Z.land x 0xffffffdf = 0)) as [->|Hn]; [lia|]. apply Z.log2_lt_pow2; [pose proof (Z.land_nonneg x 0xffffffdf); lia|].
  pose proof (Z.log2_land x 0xffffffdf ltac:(lia) ltac:(lia)). assert (Z.log2 x < 32); [|lia].
  destruct (decide (x = 0)) as [->|]; [done|]. apply Z.log2_lt_pow2; lia.
Qed.

Lemma clean_flag x f : Z.land 0xffffffdf f = f -> flag_set (clean x) f = flag_set x f.
Proof.
  intros Hf. unfold flag_set, clean. change (w32 (Z.lnot PAGE_ARCH_ACCESSED)) with 0xffffffdf.
  by rewrite <- Z.land_assoc, Hf.
Qed.
Lemma clean_present x : flag_set (clean x) PAGE_ARCH_PRESENT = flag_set x PAGE_ARCH_PRESENT.
Proof. by apply clean_flag. Qed.
Lemma clean_4mb x : flag_set (clean x) PAGE_ARCH_4MB_ENTRY = flag_set x PAGE_ARCH_4MB_ENTRY.
Proof. by apply clean_flag. Qed.
Lemma clean_mask x : page_mask (clean x) = page_mask x.
Proof. unfold page_mask, clean. by rewrite <- Z.land_assoc. Qed.
Lemma clean_big x : 0 <= x < 2 ^ 32 -> clean x / 2 ^ 22 = x / 2 ^ 22.
Proof.
  intros Hx. rewrite <- !Z.shiftr_div_pow2 by lia. unfold clean. rewrite Z.shiftr_land.
  change (Z.shiftr (w32 (Z.lnot PAGE_ARCH_ACCESSED)) 22) with (Z.ones 10). rewrite Z.land_ones by lia.
  apply Z.mod_small. rewrite Z.shiftr_div_pow2 by lia. split; [apply Z.div_pos; lia|]. apply Z.div_lt_upper_bound; lia.
Qed.

(** an entry made from a frame has the bit clear *)
Lemma clean_entry p f : frame_ok p -> clean (add_page_flags p f) = add_page_flags p f.
Proof.
  intros (Hp & Hm & Ht). destruct (page_flags_range f) as [Hf _]. unfold add_page_flags, clean.
  rewrite (Z.land_comm (Z.lor _ _)), Z.land_lor_distr_r, !(Z.land_comm (w32 _)). f_equal.
  - apply Z.bits_inj'. intros n Hn. rewrite Z.land_spec. destruct (decide (n < 12)) as [Hlt|Hge].
    + apply Z.div_exact in Hm; [|done]. rewrite Hm, Z.mul_comm. change 4096 with (2 ^ 12).
      rewrite Z.mul_pow2_bits by lia. by rewrite Z.testbit_neg_r by lia.
    + change (w32 (Z.lnot PAGE_ARCH_ACCESSED)) with 0xffffffdf. destruct (decide (n < 32)) as [Hlt|Hge'].
      * replace (Z.testbit 0xffffffdf n) with true; [apply andb_true_r|].
        change 0xffffffdf with (Z.shiftl (Z.ones 20) 12 + 0xfdf).
        rewrite <- (lor_low (Z.shiftl (Z.ones 20) 12) 0xfdf 12) by (done || lia).
        rewrite Z.lor_spec, Z.shiftl_spec, Z.ones_spec_low by lia. done.
      * destruct (decide (p = 0)) as [->|]; [by rewrite Z.testbit_0_l|].
        rewrite Z.bits_above_log2; [done|lia|]. assert (Z.log2 p < 32) by (apply Z.log2_lt_pow2; lia). lia.
  - assert (Hc : page_flags f = 0 \/ page_flags f = 1 \/ page_flags f = 2 \/ page_flags f = 3 \/
      page_flags f = 4 \/ page_flags f = 5 \/ page_flags f = 6 \/ page_flags f = 7) by lia.
    by destruct Hc as [->|[->|[->|[->|[->|[->|[->| ->]]]]]]].
Qed.

(** the value the directory register is given *)
Lemma cr3_of_entry p f : frame_ok p ->
  let v := Z.lor (Z.lor (add_page_flags p f) PAGE_ARCH_PRESENT) PAGE_ARCH_WRITABLE in
  page_mask v = p /\ 0 <= v < 2 ^ 32.
Proof.
  intros (Hp & Hm & Ht) v. destruct (page_flags_range f) as [Hf _]. unfold v, add_page_flags. rewrite <- !Z.lor_assoc.
  assert (Hc : 0 <= Z.lor (page_flags f) (Z.lor PAGE_ARCH_PRESENT PAGE_ARCH_WRITABLE) < 8).
  { assert (Hc : page_flags f = 0 \/ page_flags f = 1 \/ page_flags f = 2 \/ page_flags f = 3 \/
      page_flags f = 4 \/ page_flags f = 5 \/ page_flags f = 6 \/ page_flags f = 7) by lia.
    by destruct Hc as [->|[->|[->|[->|[->|[->|[->| ->]]]]]]]. }
  rewrite (lor_low p _ 12) by (done || lia). split; [apply page_mask_add; lia|lia].
Qed.

(** ** States that differ in one page *)

Definition off_page (N : Z) (s s' : mmu) : Prop :=
  s' = Mmu (pm_mem s') (pm_cr3 s) (pm_tlb s) (pm_physical s) (pm_global s) /\
  forall a, a < N \/ N + 4096 <= a -> mem_get s' a = mem_get s a.

Lemma off_page_refl N s : off_page N s s.
Proof. split; [by destruct s|done]. Qed.

Lemma off_page_set N s s' o x : off_page N s s' -> 0 <= o < 4096 -> off_page N s (mem_set (N + o) x s').
Proof.
  intros [E H] Ho. split; [destruct s'; unfold mem_set; simpl in *; by injection E as -> -> -> ->|]. intros a Ha. rewrite mem_get_set.
  rewrite decide_False by lia. by apply H.
Qed.

Section off_page.
Context (N : Z) (s s' : mmu) (Hw : mmu_wf s) (Hoff : off_page N s s').
Context (HN : N mod 4096 = 0) (Hnt : forall d, is_table s d -> table_of s d <> N).

Lemma off_word F i : F mod 4096 = 0 -> F <> N -> 0 <= i < 1024 -> mem_get s' (F + 4 * i) = mem_get s (F + 4 * i).
Proof.
  intros HF Hne Hi. apply (proj2 Hoff). apply Z.div_exact in HF, HN; try done.
  set (a := F / 4096) in *. set (b := N / 4096) in *. lia.
Qed.

Lemma off_pd : pd s' = pd s.
Proof. unfold pd. by rewrite (proj1 Hoff). Qed.

Lemma pd_not_page : pd s <> N.
Proof. destruct (mw_rec s Hw) as [Hr <-]. by apply Hnt. Qed.

Lemma off_pde d : 0 <= d < 1024 -> pde s' d = pde s d.
Proof. intros Hd. unfold pde. rewrite off_pd. apply off_word; [by apply pd_mult|apply pd_not_page|done]. Qed.

Lemma off_walk d t o : indices d t o -> walk s' (vaddr_of d t o) = walk s (vaddr_of d t o).
Proof.
  intros Hi. rewrite !walk_eq by done. pose proof Hi as (Hd & Ht & _). rewrite off_pde by done.
  destruct (flag_set (pde s d) PAGE_ARCH_PRESENT) eqn:E1; [|done].
  destruct (flag_set (pde s d) PAGE_ARCH_4MB_ENTRY) eqn:E2; [done|]. cbn [negb].
  enough (pte s' d t = pte s d t) as -> by done. unfold pte, table_of. rewrite off_pde by done.
  apply off_word; [by apply table_mult| |done]. by apply Hnt.
Qed.
End off_page.

(** ** Copying the directory *)

Section clone.
Context (s : mmu) (N D newdir dir : Z) (Hw : mmu_wf s) (HN : frame_ok N).
Context (Hnt : forall d, is_table s d -> table_of s d <> N).
Context (HD : D mod 4096 = 0) (HDN : D <> N).
(** where the two directories are mapped *)
Context (Hdir : forall i, 0 <= i < 1024 -> exists d t o, indices d t o /\ word_at dir i = vaddr_of d t o /\
  walk s (vaddr_of d t o) = Some (D + 4 * i)).
Context (Hnew : forall i, 0 <= i < 1024 -> exists d t o, indices d t o /\ word_at newdir i = vaddr_of d t o /\
  walk s (vaddr_of d t o) = Some (N + 4 * i)).

Lemma clone_read s' i : off_page N s s' -> 0 <= i < 1024 -> vread (word_at dir i) s' = Some (mem_get s (D + 4 * i), s').
Proof.
  intros Hoff Hi. destruct (Hdir i Hi) as (d & t & o & Hin & -> & Hwalk). unfold vread.
  rewrite (off_walk N s s' Hw Hoff (proj1 (proj2 HN)) Hnt) by done. rewrite Hwalk.
  by rewrite (off_word N s s' Hoff (proj1 (proj2 HN)) D i HD HDN Hi).
Qed.

Lemma clone_write s' i x : off_page N s s' -> 0 <= i < 1024 -> vwrite (word_at newdir i) x s' = Some (tt, mem_set (N + 4 * i) x s').
Proof.
  intros Hoff Hi. destruct (Hnew i Hi) as (d & t & o & Hin & -> & Hwalk). unfold vwrite.
  by rewrite (off_walk N s s' Hw Hoff (proj1 (proj2 HN)) Hnt), Hwalk.
Qed.

Lemma clone_loop_ok n fuel i s' :
  Z.of_nat n + i = 1023 -> (n < fuel)%nat -> 0 <= i -> off_page N s s' -> (forall a, 0 <= mem_get s' a < 2 ^ 32) ->
  (forall j, 0 <= j < i -> mem_get s' (N + 4 * j) = clean (mem_get s (D + 4 * j))) ->
  exists s2, clone_loop fuel newdir dir i s' = Some (tt, s2) /\ off_page N s s2 /\
    (forall a, 0 <= mem_get s2 a < 2 ^ 32) /\
    forall j, 0 <= j < 1023 -> mem_get s2 (N + 4 * j) = clean (mem_get s (D + 4 * j)).
Proof.
  revert fuel i s'. induction n as [|n IH]; intros [|fuel] i s' Hi Hfuel H0 Hoff Hr Hc; try lia; cbn [clone_loop].
  - rewrite (proj2 (Z.ltb_ge i 1023)) by lia. exists s'. split; [done|]. split; [done|]. split; [done|]. intros j Hj. apply Hc. lia.
  - rewrite (proj2 (Z.ltb_lt i 1023)) by lia. rewrite (ST_run _ _ _ _ _ (clone_read s' i Hoff ltac:(lia))).
    rewrite (ST_run _ _ _ _ _ (clone_write s' i _ Hoff ltac:(lia))). fold (clean (mem_get s (D + 4 * i))).
    apply IH; [lia|lia|lia|by apply off_page_set; [|lia]| |].
    + intros a. rewrite mem_get_set. case_decide; [|done]. apply clean_range, (mw_range s Hw).
    + intros j Hj. rewrite mem_get_set.
      destruct (decide (j = i)) as [->|Hne]; [by rewrite decide_True|]. rewrite decide_False by lia. apply Hc. lia.
Qed.
End clone.

Section off_more.
Context (N : Z) (s s' : mmu) (Hw : mmu_wf s) (Hoff : off_page N s s').
Context (HN : N mod 4096 = 0) (Hnt : forall d, is_table s d -> table_of s d <> N).

Lemma off_table d : 0 <= d < 1024 -> table_of s' d = table_of s d.
Proof. intros Hd. unfold table_of. by rewrite (off_pde N s s'). Qed.

Lemma off_is_table d : is_table s' d <-> is_table s d.
Proof. unfold is_table. split; intros (Hd & H1 & H2); rewrite (off_pde N s s') in * by done; done. Qed.

Lemma off_pte d t : is_table s d -> 0 <= t < 1024 -> pte s' d t = pte s d t.
Proof.
  intros Hd Ht. unfold pte. rewrite off_table by apply Hd. apply (off_word N s s' Hoff HN); [by apply table_mult| |done].
  by apply Hnt.
Qed.

Lemma off_wf : (forall a, 0 <= mem_get s' a < 2 ^ 32) -> mmu_wf s'.
Proof.
  intros Hr. assert (Hphys : pm_physical s' = pm_physical s) by (by rewrite (proj1 Hoff)). split.
  - done.
  - rewrite (proj1 Hoff). apply (mw_cr3 s Hw).
  - rewrite off_is_table, off_table, (off_pd N s s' Hoff) by lia. apply (mw_rec s Hw).
  - intros i j Hi%off_is_table Hj%off_is_table. rewrite !off_table by (apply Hi || apply Hj). by apply (mw_tables s Hw).
  - rewrite Hphys. apply (mw_region s Hw).
  - intros d Hd%off_is_table. rewrite Hphys, off_table by apply Hd. by apply (mw_used s Hw).
Qed.

Lemma page_phys_addr_ok d t : is_table s d -> d <> 1023 -> 0 <= t < 1024 -> pte s d t <> 0 ->
  page_phys_addr (vaddr_of d t 0) s' = Some (clean (pte s d t), s').
Proof.
  intros Hd Hd1 Ht Hne. pose proof Hd as (Hd2 & Hp & H4). assert (Hi : indices d t 0) by (unfold indices; lia).
  unfold page_phys_addr. rewrite (vaddr_dirent d t 0), (vaddr_tableent d t 0) by done. rewrite dir_addr, window_addr by done.
  assert (H1 : vread (vaddr_of 1023 1023 (4 * d)) s' = Some (pde s d, s')).
  { unfold vread. rewrite (off_walk N s s' Hw Hoff HN Hnt) by (unfold indices; lia). rewrite walk_dir by done.
    by rewrite <- (off_pde N s s' Hw Hoff HN Hnt d Hd2), <- (off_pd N s s' Hoff). }
  assert (H2 : vread (vaddr_of 1023 d (4 * t)) s' = Some (pte s d t, s')).
  { unfold vread. rewrite (off_walk N s s' Hw Hoff HN Hnt) by (unfold indices; lia). rewrite walk_window by done.
    rewrite <- (off_pte d t Hd Ht). unfold pte. by rewrite off_table. }
  rewrite (ST_run _ _ _ _ _ H1). rewrite (proj2 (Z.eqb_neq (pde s d) 0)) by (intros E; by rewrite E in Hp). cbn [negb].
  rewrite H4. rewrite (ST_run _ _ _ (pte s d t) s').
  - rewrite (proj2 (Z.eqb_neq (pte s d t) 0)) by done. reflexivity.
  - rewrite (ST_run _ _ _ _ _ H2). by rewrite (proj2 (Z.eqb_neq (pte s d t) 0)).
Qed.
End off_more.

(** ** The copy as the directory *)

Section switched.
Context (s s' s2 : mmu) (N x : Z) (Hw : mmu_wf s) (Hoff : off_page N s s') (HN : frame_ok N).
Context (Hnt : forall d, is_table s d -> table_of s d <> N) (Hsp : ~ region_spare (pm_physical s) N).
Context (Hr : forall a, 0 <= mem_get s' a < 2 ^ 32).
Context (Hcopy : forall j, 0 <= j < 1023 -> mem_get s' (N + 4 * j) = clean (pde s j)).
Context (Hlast : mem_get s' (N + 4 * 1023) = x).
Context (Hx : page_mask x = N /\ flag_set x PAGE_ARCH_PRESENT = true /\ flag_set x PAGE_ARCH_4MB_ENTRY = false).
Context (Hpd : pd s2 = N) (Hcr3 : 0 <= pm_cr3 s2 < 2 ^ 32).
Context (Hmem : forall a, mem_get s2 a = mem_get s' a) (Hphys : pm_physical s2 = pm_physical s).

Lemma switched_pde d : 0 <= d < 1023 -> pde s2 d = clean (pde s d).
Proof. intros Hd. unfold pde at 1. rewrite Hpd, Hmem. by apply Hcopy. Qed.
Lemma switched_last : pde s2 1023 = x.
Proof. unfold pde. by rewrite Hpd, Hmem. Qed.

Lemma switched_is_table d : is_table s2 d <-> is_table s d.
Proof.
  unfold is_table. destruct (decide (d = 1023)) as [->|Hd].
  - rewrite switched_last. destruct Hx as (_ & H1 & H2). pose proof (mw_rec s Hw) as [(_ & H3 & H4) _].
    split; intros _; split; try lia; done.
  - split; intros (Hd' & H1 & H2); rewrite switched_pde, clean_present, clean_4mb in * by lia; done.
Qed.

Lemma switched_table d : 0 <= d < 1024 -> table_of s2 d = if decide (d = 1023) then N else table_of s d.
Proof.
  intros Hd. unfold table_of. case_decide as E.
  - rewrite E, switched_last. apply Hx.
  - by rewrite switched_pde, clean_mask by lia.
Qed.

Lemma switched_wf : mmu_wf s2.
Proof.
  split.
  - intros a. by rewrite Hmem.
  - done.
  - split; [apply switched_is_table, (mw_rec s Hw)|]. rewrite switched_table by lia. by rewrite decide_True.
  - intros i j Hi%switched_is_table Hj%switched_is_table. rewrite !switched_table by (apply Hi || apply Hj).
    repeat case_decide; intros He; try congruence.
    + by destruct (Hnt j Hj).
    + by destruct (Hnt i Hi).
    + by apply (mw_tables s Hw).
  - rewrite Hphys. apply (mw_region s Hw).
  - intros d Hd%switched_is_table. rewrite Hphys, switched_table by apply Hd. case_decide; [done|]. by apply (mw_used s Hw).
Qed.

Lemma switched_walk d t o : indices d t o -> d <> 1023 -> walk s2 (vaddr_of d t o) = walk s' (vaddr_of d t o).
Proof.
  intros Hi Hd. pose proof Hi as (Hd' & Ht & Ho). rewrite (off_walk N s s' Hw Hoff (proj1 (proj2 HN)) Hnt) by done.
  rewrite !walk_eq by done. rewrite switched_pde, clean_present, clean_4mb, clean_big by (apply (mw_range s Hw) || lia).
  destruct (flag_set (pde s d) PAGE_ARCH_PRESENT) eqn:E1; [|done].
  destruct (flag_set (pde s d) PAGE_ARCH_4MB_ENTRY) eqn:E2; [done|]. cbn [negb].
  assert (Htab : is_table s d) by (by split).
  assert (pte s2 d t = pte s d t) as ->; [|done]. unfold pte. rewrite switched_table by done. rewrite decide_False by done.
  rewrite Hmem. apply (off_word N s s' Hoff (proj1 (proj2 HN))); [by apply table_mult|by apply Hnt|done].
Qed.
End switched.

(** ** A fresh page mapped *)

(** the entry has a table and there is a page, or it has none and there is a
    page for that too *)
Definition table_or_room (s : mmu) (gd : Z) : Prop :=
  is_table s gd /\ r_available (pm_physical s) <> 0 \/ pde s gd = 0 /\ 2 <= r_available (pm_physical s).

(** page [t] of the entry [gd] is mapped to the page [N], which was spare *)
Record fresh_page (s : mmu) (gd t N flags : Z) (s' : mmu) : Prop := {
  fp_wf : mmu_wf s';
  fp_pd : pd s' = pd s;
  fp_global : pm_global s' = pm_global s;
  fp_table : is_table s' gd;
  fp_pde : forall i, 0 <= i < 1024 -> i <> gd \/ is_table s gd -> pde s' i = pde s i;
  fp_frame : frame_ok N;
  fp_spare : region_spare (pm_physical s) N;
  fp_rest : forall p, region_spare (pm_physical s') p -> region_spare (pm_physical s) p /\ p <> N;
  fp_no_table : forall d, is_table s' d -> table_of s' d <> N;
  fp_pte : pte s' gd t = add_page_flags N flags;
  fp_walk : forall d t' o, indices d t' o -> d <> 1023 -> ~ (d = gd /\ (t' = t \/ ~ is_table s gd)) ->
    walk s' (vaddr_of d t' o) = walk s (vaddr_of d t' o);
  fp_available : r_available (pm_physical s) - 2 <= r_available (pm_physical s');
}.

(** from a state in which [N] is taken and the entry has its table *)
Lemma fresh_page_intro s u gd t N flags :
  mmu_wf u -> 0 <= gd < 1023 -> 0 <= t < 1024 -> is_table u gd -> pd u = pd s -> pm_global u = pm_global s ->
  (forall i, 0 <= i < 1024 -> i <> gd \/ is_table s gd -> pde u i = pde s i) -> frame_ok N -> region_spare (pm_physical s) N ->
  (forall p, region_spare (pm_physical u) p -> region_spare (pm_physical s) p /\ p <> N) ->
  (forall d, is_table u d -> table_of u d <> N) -> r_available (pm_physical s) - 2 <= r_available (pm_physical u) ->
  (forall d t' o, indices d t' o -> d <> 1023 -> d <> gd \/ is_table s gd -> walk u (vaddr_of d t' o) = walk s (vaddr_of d t' o)) ->
  fresh_page s gd t N flags (mem_set (table_of u gd + 4 * t) (add_page_flags N flags) u).
Proof.
  intros Hw Hgd Ht Htab Hpd Hgl Hpde HN Hsp Hrest Hnt Hav Hwalk.
  destruct (entry_fields N flags (proj1 HN) (proj1 (proj2 HN)) (proj2 (proj2 HN))) as (Hx & _).
  set (x := add_page_flags N flags) in *. assert (Hg1 : gd <> 1023) by lia.
  pose proof (set_pte_pde u gd t x Hw Htab Hg1 Ht) as Hpde'. split; try done.
  - by apply set_pte_wf.
  - by apply set_pte_is_table.
  - intros i Hi Hor. rewrite Hpde' by done. by apply Hpde.
  - intros d Hd%(set_pte_is_table u gd t x Hw Htab Hg1 Ht). unfold table_of. rewrite Hpde' by apply Hd. by apply Hnt.
  - rewrite (set_pte_pte u gd t x Hw Htab Hg1 Ht gd t Htab Ht). by rewrite decide_True.
  - intros d t' o Hi Hd Hne. rewrite (set_pte_walk u gd t x Hw Htab Hg1 Ht) by (done || tauto). apply Hwalk; [done|done|].
    destruct (decide (d = gd)) as [->|]; [|by left]. right. unfold is_table in *. 
    destruct (decide (flag_set (pde s gd) PAGE_ARCH_PRESENT = true)), (decide (flag_set (pde s gd) PAGE_ARCH_4MB_ENTRY = false)); tauto.
Qed.

Lemma map_page_fresh s flags gd t : mmu_wf s -> 0 <= gd < 1023 -> 0 <= t < 1024 -> table_or_room s gd ->
  exists N s', map_page flags (vaddr_of gd t 0) s = Some (vaddr_of gd t 0, s') /\ fresh_page s gd t N flags s'.
Proof.
  intros Hw Hgd Ht Hroom. assert (Hin : indices gd t 0) by (unfold indices; lia).
  destruct (alloc_phys_page_ok s Hw) as (N & r & Hap & Hri & Hrm & Hspare & _ & Hsp & _ & Hcount).
  { destruct Hroom as [[_ ?]|[_ ?]]; lia. }
  pose proof (spare_page s Hw N Hspare) as HN. set (s1 := set_physical r s).
  assert (Hw1 : mmu_wf s1).
  { destruct Hw as [? ? ? ? ? Hu]. split; try done. intros i Hi'. simpl. rewrite Hsp. intros [Hs' _]. by apply (Hu i Hi'). }
  assert (Hnt1 : forall d, is_table s1 d -> table_of s1 d <> N). { intros d Hd E. apply (mw_used s Hw d Hd). by rewrite <- E in Hspare. }
  exists N. destruct Hroom as [[Htab _]|[Hzero Hav]].
  - eexists. split; [unfold map_page; rewrite ST_bind_eq, Hap; fold s1; apply map_phys_page_present; [done|done|done|lia]|].
    apply fresh_page_intro; try done; [intros p; simpl; by rewrite Hsp|simpl; lia].
  - destruct (alloc_phys_page_ok s1 Hw1) as (p & r2 & Hap2 & Hri2 & Hrm2 & Hspare2 & _ & Hsp2 & _ & Hcount2); [simpl; lia|].
    set (s2 := mem_set (pd s1 + 4 * gd) (add_page_flags p PAGE_WRITE) (set_physical r2 s1)).
    assert (Hgd2 : 0 <= gd < 1024) by lia. pose proof (set_pde_wf s1 gd p r2 Hw1 Hgd2 Hzero Hspare2 Hri2 Hrm2 Hsp2) as Hw2. fold s2 in Hw2.
    assert (Htab2 : is_table s2 gd) by (apply (set_pde_is_table s1 gd p r2); try done; by left).
    assert (Hno : ~ is_table s gd) by (intros (_ & Hp & _); by rewrite Hzero in Hp).
    pose proof (proj1 (Hsp p) Hspare2) as [Hps HpN].
    eexists. split.
    { unfold map_page. rewrite ST_bind_eq, Hap. fold s1. rewrite (map_phys_page_absent s1 flags gd t 0 N p r2) by done.
      apply map_phys_page_present; [done|done|done|lia]. }
    apply fresh_page_intro; try done.
    + intros i Hi [Hne|]; [|done]. rewrite (set_pde_pde s1 gd p r2) by done. by rewrite decide_False.
    + intros q. simpl. rewrite Hsp2. intros [[? ?]%Hsp _]. done.
    + intros d [->|Hd]%(set_pde_is_table s1 gd p r2); try done; rewrite (set_pde_table s1 gd p r2) by (done || apply Hd);
        [by rewrite decide_True|]. case_decide; [done|by apply Hnt1].
    + simpl. simpl in Hcount2. lia.
    + intros d t' o Hi Hd [Hne|]; [|done]. by rewrite (set_pde_walk s1 gd p r2).
Qed.

(** the directory [dir], which is the current one, is mapped, at a place that
    the page for the copy is not going to take: in another entry than the pages
    of the kernel's region, or in its table and in use; those pages lie in one
    entry of the directory, which has a table or will be given one *)
Record can_clone (s : mmu) (dir gd : Z) : Prop := {
  cc_wf : mmu_wf s;
  cc_dir : exists dd dt, indices dd dt 0 /\ dd <> 1023 /\ dir = vaddr_of dd dt 0 /\
    (forall o, 0 <= o < 4096 -> walk s (vaddr_of dd dt o) = Some (pd s + o)) /\
    (dd = gd -> is_table s gd /\ ~ region_spare (pm_global s) dir);
  cc_table : 0 <= gd < 1023 /\ table_or_room s gd;
  cc_region : region_inv (pm_global s) /\ r_mode (pm_global s) = REGION_MODE_VIRTUAL /\ r_available (pm_global s) <> 0;
  cc_pages : forall k, (k < region_pages (pm_global s))%nat ->
    exists t, 0 <= t < 1024 /\ r_vaddress (pm_global s) + Z.of_nat k * PAGE_SIZE = vaddr_of gd t 0;
}.

(** the directory is mapped by an entry of 4 MB, as the directory of the boot
    code is *)
Definition big_dir (s : mmu) (dir : Z) : Prop :=
  exists dd dt, indices dd dt 0 /\ dir = vaddr_of dd dt 0 /\
    flag_set (pde s dd) PAGE_ARCH_PRESENT = true /\ flag_set (pde s dd) PAGE_ARCH_4MB_ENTRY = true /\
    pde s dd / 2 ^ 22 * 2 ^ 22 + dt * 4096 = pd s.

Lemma big_dir_mapped s dir gd : mmu_wf s -> table_or_room s gd -> big_dir s dir ->
  exists dd dt, indices dd dt 0 /\ dd <> 1023 /\ dir = vaddr_of dd dt 0 /\
    (forall o, 0 <= o < 4096 -> walk s (vaddr_of dd dt o) = Some (pd s + o)) /\
    (dd = gd -> is_table s gd /\ ~ region_spare (pm_global s) dir).
Proof.
  intros Hw Hroom (dd & dt & Hi & -> & Hp & H4 & Hv). exists dd, dt. split; [done|]. split; [|split; [done|split]].
  - intros ->. destruct (mw_rec _ Hw) as [(_ & _ & H) _]. congruence.
  - intros o Ho. rewrite walk_eq by (unfold indices in *; lia). rewrite Hp, H4. cbn [negb]. f_equal. lia.
  - intros ->. exfalso. destruct Hroom as [[(_ & _ & E) _]|[E _]]; [congruence|by rewrite E in Hp].
Qed.

(** the page for the copy, mapped *)
Lemma clone_page_alloc s dir gd : can_clone s dir gd ->
  exists t N sg g, 0 <= t < 1024 /\ region_spare (pm_global s) (vaddr_of gd t 0) /\
    region_alloc map_page (pm_global s) s = Some ((vaddr_of gd t 0, g), sg) /\ region_inv g /\
    fresh_page s gd t N (r_page_flags (pm_global s)) sg.
Proof.
  intros [Hw _ [Hgd Hroom] (Hgi & Hgm & Hga) Hpages].
  destruct (region_alloc_shape map_page (pm_global s) s Hgi Hga) as (k & b & Hal & Hk & Hbit & Hbw & Hbl & Hb & _).
  cbn zeta in Hal. destruct (Hpages k Hk) as (t & Ht & Hvt). rewrite Hvt, Hgm in Hal.
  destruct (map_page_fresh s (r_page_flags (pm_global s)) gd t Hw Hgd Ht Hroom) as (N & sg & Hrun & Hfresh).
  set (g := set_r_bitmap b (r_available (pm_global s) + -1) (pm_global s)) in *.
  exists t, N, sg, g. split; [done|]. split; [by exists k|]. split; [|split; [|done]].
  - rewrite Hal. change (REGION_MODE_VIRTUAL =? REGION_MODE_VIRTUAL) with true. cbn iota. by rewrite (ST_run _ _ _ _ _ Hrun).
  - exact (region_inv_update (pm_global s) b k true Hgi Hk Hbit Hbw Hbl Hb).
Qed.

Lemma word_at_vaddr d t i : indices d t 0 -> 0 <= i < 1024 -> word_at (vaddr_of d t 0) i = vaddr_of d t (4 * i).
Proof. unfold indices, word_at, vaddr_of. intros Hi Hi'. rewrite w32_small; lia. Qed.

(** the copy [newdir], in the page [N], first mapped and then current: [b] is
    the state in which the page is mapped and nothing copied yet *)
Record cloned (s : mmu) (gd newdir t N : Z) (b s1 s2 : mmu) : Prop := {
  cl_place : 0 <= t < 1024 /\ newdir = vaddr_of gd t 0;
  cl_base : fresh_page s gd t N (r_page_flags (pm_global s)) b;
  cl_wf1 : mmu_wf s1;
  cl_wf2 : mmu_wf s2;
  cl_region : region_inv (pm_global s1);
  cl_pd1 : pd s1 = pd s;
  cl_pd2 : pd s2 = N;
  cl_taken : ~ region_spare (pm_physical s2) N;
  cl_tlb : pm_tlb s2 = ∅;
  cl_walk1 : forall d t' o, indices d t' o -> walk s1 (vaddr_of d t' o) = walk b (vaddr_of d t' o);
  cl_walk2 : forall d t' o, indices d t' o -> d <> 1023 -> walk s2 (vaddr_of d t' o) = walk s1 (vaddr_of d t' o);
  cl_pde : forall d, 0 <= d < 1023 -> pde s2 d = clean (pde b d);
  cl_physical : pm_physical s2 = pm_physical b;
  cl_old : forall i, 0 <= i < 1024 -> mem_get s2 (pd b + 4 * i) = pde b i;
  cl_mapped : walk s2 newdir = Some N;
}.

Lemma clone_page_dir_ok (s : mmu) dir gd :
  can_clone s dir gd ->
  exists newdir t N b s1 s2, clone_page_dir dir s = Some (newdir, s1) /\ set_page_dir newdir s1 = Some (tt, s2) /\
    cloned s gd newdir t N b s1 s2.
Proof.
  intros Hcc. destruct (clone_page_alloc s dir gd Hcc) as (t & N & sg & g & Ht & Htsp & Hal & Hg & Hfr).
  destruct Hcc as [Hws (dd & dt & Hdi & Hd1 & -> & Hdw & Hdg) [Hgr Hroom] _ _].
  pose proof Hfr as [Hw0 Hpd _ Hgd Hpde HN Hsp Hnsp Hnt0 Hpte Hwalk0 _]. assert (Hg1 : gd <> 1023) by lia.
  set (s0 := set_global g sg) in *. assert (Hoff0 : off_page N s0 s0) by apply off_page_refl.
  assert (Hw : mmu_wf s0) by (destruct Hw0; by split).
  assert (Hnt : forall d, is_table s0 d -> table_of s0 d <> N) by exact Hnt0.
  assert (Hpte0 : pte s0 gd t = add_page_flags N (r_page_flags (pm_global s))) by exact Hpte.
  assert (Hgd0 : is_table s0 gd) by exact Hgd.
  set (x := add_page_flags N _) in *. destruct HN as (HN0 & HNm & HNt).
  destruct (entry_fields N (r_page_flags (pm_global s)) HN0 HNm HNt) as (Hxr & Hxm & Hxp & Hx4). fold x in Hxr, Hxm, Hxp, Hx4.
  assert (Hx0 : x <> 0) by (intros E; by rewrite E in Hxp).
  assert (HN : frame_ok N) by done.
  assert (Hgi : indices gd t 0) by (unfold indices; lia).
  assert (Hdir : forall i, 0 <= i < 1024 -> exists d t o, indices d t o /\ word_at (vaddr_of dd dt 0) i = vaddr_of d t o /\
    walk s0 (vaddr_of d t o) = Some (pd s + 4 * i)).
  { intros i Hi. exists dd, dt, (4 * i). assert (Hin : indices dd dt (4 * i)) by (unfold indices in *; lia).
    split; [done|]. split; [by apply word_at_vaddr|].
    rewrite <- Hdw by lia. apply Hwalk0; [done|done|]. intros [-> Hor]. destruct (Hdg eq_refl) as [Htab Hnot].
    destruct Hor as [->|Hn]; [by apply Hnot|by apply Hn]. }
  assert (Hnew : forall i, 0 <= i < 1024 -> exists d t' o, indices d t' o /\ word_at (vaddr_of gd t 0) i = vaddr_of d t' o /\
    walk s0 (vaddr_of d t' o) = Some (N + 4 * i)).
  { intros i Hi. exists gd, t, (4 * i). assert (Hin : indices gd t (4 * i)) by (unfold indices; lia).
    split; [done|]. split; [by apply word_at_vaddr|]. rewrite walk_eq by done. pose proof Hgd0 as (_ & -> & ->).
    rewrite Hpte0, Hxp. simpl. by rewrite Hxm. }
  assert (HDN : pd s <> N) by (rewrite <- Hpd; apply (pd_not_page N s0 Hw Hnt)).
  destruct (clone_loop_ok s0 N (pd s) (vaddr_of gd t 0) (vaddr_of dd dt 0) Hw HN Hnt (pd_mult s Hws) HDN Hdir Hnew 1023 1024 0 s0
    ltac:(lia) ltac:(lia) ltac:(lia) Hoff0 (mw_range s0 Hw) ltac:(intros; lia)) as (s3 & Hloop & Hoff3 & Hr3 & Hc3).
  assert (Hphys0 : forall s', off_page N s0 s' -> page_phys_addr (vaddr_of gd t 0) s' = Some (x, s')).
  { intros s' Hoff. rewrite (page_phys_addr_ok N s0 s' Hw Hoff HNm Hnt gd t Hgd0 Hg1 Ht ltac:(by rewrite Hpte0)).
    rewrite Hpte0. unfold x. by rewrite clean_entry. }
  set (s4 := mem_set (N + 4 * 1023) x s3).
  assert (Hoff4 : off_page N s0 s4) by (by apply off_page_set; [|lia]).
  assert (Hr4 : forall a, 0 <= mem_get s4 a < 2 ^ 32) by (intros a; unfold s4; rewrite mem_get_set; by case_decide).
  destruct (cr3_of_entry N (r_page_flags (pm_global s)) HN) as [Hcm Hcr]. fold x in Hcm, Hcr.
  set (v := Z.lor (Z.lor x PAGE_ARCH_PRESENT) PAGE_ARCH_WRITABLE) in *. set (s5 := set_tlb ∅ (set_cr3 v s4)).
  exists (vaddr_of gd t 0), t, N, sg, s4, s5.
  assert (Hphys : pm_physical s5 = pm_physical sg) by (unfold s5; change (pm_physical s4 = pm_physical s0); by rewrite (proj1 Hoff4)).
  assert (Hcopy : forall j, 0 <= j < 1023 -> mem_get s4 (N + 4 * j) = clean (pde s0 j)).
  { intros j Hj. unfold s4. rewrite mem_get_set, decide_False by lia. rewrite Hc3 by done. f_equal. unfold pde.
    change (pd s0) with (pd sg). by rewrite Hpd. }
  assert (Hlast : mem_get s4 (N + 4 * 1023) = x) by (unfold s4; by rewrite mem_get_set, decide_True).
  assert (Hnotsp : ~ region_spare (pm_physical s0) N) by (by intros [_ ?]%Hnsp).
  assert (Hwalk12 : forall d t' o, indices d t' o -> d <> 1023 -> walk s5 (vaddr_of d t' o) = walk s4 (vaddr_of d t' o)).
  { intros d t' o Hi Hne. by apply (switched_walk s0 s4 s5 N x). }
  split; [|split; [|split]].
  { unfold clone_page_dir. rewrite (ST_run _ _ _ s s) by done. rewrite (ST_run _ _ _ _ _ Hal).
    rewrite (ST_run _ _ _ tt s0) by done. rewrite (ST_run _ _ _ _ _ Hloop), (ST_run _ _ _ _ _ (Hphys0 s3 Hoff3)).
    rewrite (ST_run _ _ _ _ _ (clone_write s0 N _ Hw HN Hnt Hnew s3 1023 x Hoff3 ltac:(lia))). done. }
  { unfold set_page_dir. rewrite (ST_run _ _ _ _ _ (Hphys0 s4 Hoff4)). done. }
  all: try done.
  - exact (off_wf N s0 s4 Hw Hoff4 HNm Hnt Hr4).
  - by apply (switched_wf s0 s4 s5 N x).
  - by rewrite (proj1 Hoff4).
  - rewrite (off_pd N s0 s4 Hoff4). exact Hpd.
  - by rewrite Hphys.
  - intros d t' o Hi. exact (off_walk N s0 s4 Hw Hoff4 HNm Hnt d t' o Hi).
  - intros d Hd. exact (switched_pde s0 s4 s5 N Hcopy Hcm (fun _ => eq_refl) d Hd).
  - intros i Hi. change (mem_get s5 (pd sg + 4 * i)) with (mem_get s4 (pd sg + 4 * i)).
    rewrite Hpd, (off_word N s0 s4 Hoff4 HNm (pd s) i (pd_mult s Hws) HDN Hi), <- Hpd. done.
  - rewrite Hwalk12 by done. rewrite (off_walk N s0 s4 Hw Hoff4 HNm Hnt) by done. rewrite walk_eq by done.
    destruct Hgd0 as (_ & -> & ->). rewrite Hpte0, Hxp. cbn [negb]. rewrite Hxm. f_equal. lia.
Qed.

(** C29: cloning the current directory gives a directory of its own, in a page
    that was free; switching to it keeps the invariant of the tables, and every
    address below the window of the tables translates as it did.  Before that,
    only the page where the copy is mapped translates differently from the
    start, and the pages next to it if they had no table.  No step faults, and
    the loop ends. This is where the address given is that of the current
    directory, mapped by a 4 MB entry or by a table (if with the kernel's
    region, in a page of it that is in use), the kernel's region lies in one entry
    of the directory and has a free page, and the physical region has a page for
    the copy and, if that entry has no table, one for the table. *)
Theorem clone_page_dir_spec (s : mmu) dir gd :
  can_clone s dir gd ->
  exists newdir t N s1 s2,
    clone_page_dir dir s = Some (newdir, s1) /\ 0 <= t < 1024 /\ newdir = vaddr_of gd t 0 /\
    set_page_dir newdir s1 = Some (tt, s2) /\ mmu_wf s1 /\ mmu_wf s2 /\ region_inv (pm_global s1) /\
    pd s1 = pd s /\ pd s2 = N /\ region_spare (pm_physical s) N /\ ~ region_spare (pm_physical s2) N /\ pm_tlb s2 = ∅ /\
    (forall d t' o, indices d t' o -> d <> 1023 -> ~ (d = gd /\ (t' = t \/ ~ is_table s gd)) ->
       walk s1 (vaddr_of d t' o) = walk s (vaddr_of d t' o)) /\
    (forall d t' o, indices d t' o -> d <> 1023 -> walk s2 (vaddr_of d t' o) = walk s1 (vaddr_of d t' o)).
Proof.
  intros H. destruct (clone_page_dir_ok s dir gd H) as (newdir & t & N & b & s1 & s2 & R1 & R2 & [[]]). exists newdir, t, N, s1, s2.
  split_and!; try done; try lia; [by apply (fp_spare _ _ _ _ _ _ cl_base0)|]. intros d t' o Hi Hd Hne. rewrite cl_walk3 by done.
  by apply (fp_walk _ _ _ _ _ _ cl_base0).
Qed.

(** ** Entering a directory *)

Lemma lor_range a b : 0 <= a < 2 ^ 32 -> 0 <= b < 2 ^ 32 -> 0 <= Z.lor a b < 2 ^ 32.
Proof.
  intros Ha Hb. split; [apply Z.lor_nonneg; lia|]. destruct (decide (Z.lor a b = 0)) as [->|Hn]; [lia|].
  pose proof (proj2 (Z.lor_nonneg a b) (conj (proj1 Ha) (proj1 Hb))). apply Z.log2_lt_pow2; [lia|]. rewrite Z.log2_lor by lia.
  enough (Hlog : forall x, 0 <= x < 2 ^ 32 -> Z.log2 x < 32) by (by apply Z.max_lub_lt; apply Hlog).
  intros x Hx. destruct (decide (x = 0)) as [->|]; [done|]. apply Z.log2_lt_pow2; lia.
Qed.

(** what [set_page_dir] puts in the register for an entry *)
Lemma cr3_value e : 0 <= e < 2 ^ 32 ->
  let v := Z.lor (Z.lor (clean e) PAGE_ARCH_PRESENT) PAGE_ARCH_WRITABLE in page_mask v = page_mask e /\ 0 <= v < 2 ^ 32.
Proof.
  intros He v. unfold v. split.
  - rewrite <- (clean_mask e). unfold page_mask. rewrite !Z.land_lor_distr_l. change (Z.land PAGE_ARCH_PRESENT _) with 0.
    change (Z.land PAGE_ARCH_WRITABLE _) with 0. by rewrite !Z.lor_0_r.
  - pose proof (clean_range e He). unfold PAGE_ARCH_PRESENT, PAGE_ARCH_WRITABLE. apply lor_range; [by apply lor_range|done].
Qed.

(** a directory mapped by a table *)
Lemma set_page_dir_table m gd t N : mmu_wf m -> is_table m gd -> gd <> 1023 -> 0 <= t < 1024 -> walk m (vaddr_of gd t 0) = Some N ->
  exists v, set_page_dir (vaddr_of gd t 0) m = Some (tt, set_tlb ∅ (set_cr3 v m)) /\ page_mask v = N /\ 0 <= v < 2 ^ 32.
Proof.
  intros Hw Hgd H1 Ht Hwalk. assert (Hi : indices gd t 0) by (unfold indices; pose proof (proj1 Hgd); lia).
  rewrite walk_eq in Hwalk by done. pose proof Hgd as (_ & E1 & E2). rewrite E1, E2 in Hwalk. cbn [negb] in Hwalk.
  destruct (flag_set (pte m gd t) PAGE_ARCH_PRESENT) eqn:Hp; [|done]. cbn [negb] in Hwalk. injection Hwalk as <-. rewrite Z.add_0_r.
  pose proof (mw_range m Hw (table_of m gd + 4 * t)) as Hr. fold (pte m gd t) in Hr. pose proof (cr3_value _ Hr) as Hv. cbn zeta in Hv.
  assert (Hnt : forall d, is_table m d -> table_of m d <> 2 ^ 32).
  { intros d Hd. pose proof (page_mask_mult (pde m d) (mw_range m Hw _)) as (_ & _ & Hb). unfold table_of. lia. }
  eexists. split; [|exact Hv]. unfold set_page_dir.
  rewrite (ST_run _ _ _ _ _ (page_phys_addr_ok (2 ^ 32) m m Hw (off_page_refl _ _) eq_refl Hnt gd t Hgd H1 Ht ltac:(intros E; by rewrite E in Hp))). done.
Qed.

(** a directory mapped by an entry of 4 MB *)
Lemma set_page_dir_big m dd dt : mmu_wf m -> indices dd dt 0 -> flag_set (pde m dd) PAGE_ARCH_PRESENT = true ->
  flag_set (pde m dd) PAGE_ARCH_4MB_ENTRY = true -> pde m dd mod 2 ^ 22 < 4096 ->
  exists v, set_page_dir (vaddr_of dd dt 0) m = Some (tt, set_tlb ∅ (set_cr3 v m)) /\
    page_mask v = pde m dd / 2 ^ 22 * 2 ^ 22 + dt * 4096 /\ 0 <= v < 2 ^ 32.
Proof.
  intros Hw Hi Hp H4 Hlow. pose proof Hi as (Hd & Ht & _). set (e := pde m dd) in *.
  pose proof (mw_range m Hw (pd m + 4 * dd)) as He. fold (pde m dd) in He. fold e in He.
  pose proof (Z.div_mod e (2 ^ 22) ltac:(done)). pose proof (Z.mod_pos_bound e (2 ^ 22) ltac:(lia)).
  assert (Hor : Z.lor e (w32 (Z.shiftl dt 12)) = e / 2 ^ 22 * 2 ^ 22 + dt * 4096 + e mod 2 ^ 22).
  { rewrite Z.shiftl_mul_pow2 by done. change (2 ^ 12) with 4096. rewrite w32_small by lia.
    assert (E1 : e = Z.lor (e / 2 ^ 22 * 2 ^ 22) (e mod 2 ^ 22)).
    { rewrite (lor_low _ _ 22) by (try done; try lia; by apply Z.mod_mul). lia. }
    rewrite E1 at 1. rewrite <- Z.lor_assoc, (Z.lor_comm (e mod 2 ^ 22)).
    rewrite (lor_low (dt * 4096) _ 12) by (try done; try lia; by apply (Z.mod_mul dt 4096)).
    rewrite (lor_low _ _ 22) by (try done; try lia; by apply Z.mod_mul). lia. }
  assert (0 <= e / 2 ^ 22 * 2 ^ 22 + dt * 4096 + e mod 2 ^ 22 < 2 ^ 32) as Hr.
  { assert (0 <= e / 2 ^ 22 < 1024) by (split; [apply Z.div_pos; lia|apply Z.div_lt_upper_bound; lia]). lia. }
  pose proof (cr3_value _ Hr) as Hv. cbn zeta in Hv. rewrite page_mask_add in Hv; [|assert (0 <= e / 2 ^ 22) by (apply Z.div_pos; lia); lia| |lia|lia].
  2: { replace (e / 2 ^ 22 * 2 ^ 22 + dt * 4096) with ((e / 2 ^ 22 * 1024 + dt) * 4096) by lia. by apply Z.mod_mul. }
  assert (Ha : page_phys_addr (vaddr_of dd dt 0) m = Some (clean (e / 2 ^ 22 * 2 ^ 22 + dt * 4096 + e mod 2 ^ 22), m)).
  { unfold page_phys_addr. rewrite (vaddr_dirent dd dt 0), (vaddr_tableent dd dt 0), dir_addr by done.
    assert (Hrd : vread (vaddr_of 1023 1023 (4 * dd)) m = Some (e, m)) by (unfold vread; by rewrite walk_dir).
    rewrite (ST_run _ _ _ _ _ Hrd). rewrite (proj2 (Z.eqb_neq e 0)) by (intros E; by rewrite E in Hp). cbn [negb].
    rewrite H4, Hor. unfold mret, ST_ret. rewrite ST_bind_eq. rewrite (proj2 (Z.eqb_neq _ 0)); [done|].
    intros E. assert (e = 0) as E0 by lia. by rewrite E0 in Hp. }
  eexists. split; [|exact Hv]. unfold set_page_dir. by rewrite (ST_run _ _ _ _ _ Ha).
Qed.

(** the directory of [s], when [m] has grown from the copy of it and another
    register value names it again *)
Section view.
Context (s m : mmu) (c : Z) (Hws : mmu_wf s) (Hwm : mmu_wf m) (Hc : page_mask c = pd s) (Hcr : 0 <= c < 2 ^ 32).
Context (Hold : forall i, 0 <= i < 1024 -> mem_get m (pd s + 4 * i) = pde s i).
Context (Hsp : forall p, region_spare (pm_physical m) p -> region_spare (pm_physical s) p).
Context (Hpde : forall i, 0 <= i < 1023 -> flag_set (pde s i) PAGE_ARCH_PRESENT = true -> pde m i = clean (pde s i)).
Let k : mmu := set_tlb ∅ (set_cr3 c m).

Lemma view_pde i : 0 <= i < 1024 -> pde k i = pde s i.
Proof using Hold Hc. intros Hi. unfold pde at 1, pd. simpl. rewrite Hc. by apply Hold. Qed.
Lemma view_table i : is_table k i <-> is_table s i.
Proof using Hold Hc. unfold is_table. split; intros (Hi & H1 & H2); rewrite view_pde in * by done; done. Qed.
Lemma view_table_of i : 0 <= i < 1024 -> table_of k i = table_of s i.
Proof using Hold Hc. intros Hi. unfold table_of. by rewrite view_pde. Qed.

Lemma view_wf : mmu_wf k.
Proof using All.
  split.
  - apply (mw_range m Hwm).
  - done.
  - rewrite view_table, view_table_of by lia. destruct (mw_rec s Hws) as [H1 H2]. split; [done|]. unfold k, pd at 1. simpl. congruence.
  - intros i j Hi%view_table Hj%view_table. rewrite !view_table_of by (apply Hi || apply Hj). by apply (mw_tables s Hws).
  - apply (mw_region m Hwm).
  - intros i Hi%view_table. rewrite view_table_of by apply Hi. intros H. by apply (mw_used s Hws i Hi), Hsp.
Qed.

Lemma view_walk d t o : indices d t o -> d <> 1023 -> flag_set (pde s d) PAGE_ARCH_PRESENT = true ->
  walk k (vaddr_of d t o) = walk m (vaddr_of d t o).
Proof using All.
  intros Hi Hd Hp. pose proof Hi as (Hd' & _ & _). rewrite !walk_eq by done. rewrite view_pde by lia.
  assert (E : pde m d = clean (pde s d)) by (apply Hpde; [lia|done]).
  rewrite E, clean_present, clean_4mb, clean_big by apply (mw_range s Hws).
  unfold pte, table_of. by rewrite view_pde, E, clean_mask by lia.
Qed.
End view.

(** ** A directory at 0x1000, in the first 4 MB, which entry 4 maps *)

Definition clone_region_ex : region := Region [0] 0x100000 32 32 0 REGION_MODE_VIRTUAL.
Definition clone_ex : mmu :=
  Mmu {[0x1ffc := 0x1003; 0x1000 := 0x2003; 0x1010 := 0x83]} 0x1000 ∅ region_ex1 clone_region_ex.

Lemma clone_ex_mem a v : pm_mem clone_ex !! a = Some v ->
  (a = 0x1ffc /\ v = 0x1003) \/ (a = 0x1000 /\ v = 0x2003) \/ (a = 0x1010 /\ v = 0x83).
Proof.
  simpl. intros [[<- <-]|[_ [[<- <-]|[_ [<- <-]%lookup_singleton_Some]]%lookup_insert_Some]]%lookup_insert_Some;
    tauto.
Qed.

Lemma clone_ex_table i : is_table clone_ex i -> i = 0 \/ i = 1023.
Proof.
  intros (Hi & Hp & H4). unfold pde in Hp, H4. change (pd clone_ex) with 0x1000 in Hp, H4. unfold mem_get in Hp, H4.
  destruct (pm_mem clone_ex !! (0x1000 + 4 * i)) as [v|] eqn:E; [|done].
  apply clone_ex_mem in E as [[? ->]|[[? ->]|[? ->]]]; [lia|lia|done].
Qed.

Lemma clone_ex_wf : mmu_wf clone_ex.
Proof.
  split; simpl; try done.
  - intros a. unfold mem_get. destruct (pm_mem clone_ex !! a) as [v|] eqn:E; simpl; [|lia].
      apply clone_ex_mem in E. lia.
  - intros i j [-> | ->]%clone_ex_table [-> | ->]%clone_ex_table; done.
  - split; [apply region_ex1_inv|done].
  - intros d [-> | ->]%clone_ex_table (k & Hk & Hp & _).
    + change (table_of clone_ex 0) with 0x2000 in Hp. simpl in Hp. unfold PAGE_SIZE in Hp. lia.
    + change (table_of clone_ex 1023) with 0x1000 in Hp. simpl in Hp. unfold PAGE_SIZE in Hp. lia.
Qed.

Lemma clone_ex_can_clone : can_clone clone_ex 0x1001000 0.
Proof.
  split.
  - exact clone_ex_wf.
  - apply big_dir_mapped.
    + exact clone_ex_wf.
    + left. by split; [split; [lia|]|].
    + exists 4, 1. split; [unfold indices; lia|]. split; [reflexivity|]. split; [reflexivity|]. by split.
  - split; [lia|]. left. by split; [split; [lia|]|].
  - split; [|by split]. destruct region_ex_inv as [? ? ? ? ? ? ?]. by split.
  - intros k Hk. simpl in Hk. exists (256 + Z.of_nat k). change (region_pages clone_region_ex) with 32%nat in Hk.
    split; [lia|]. unfold vaddr_of, PAGE_SIZE. simpl. lia.
Qed.

Lemma clone_page_dir_spec_witness : exists newdir s1 s2,
  clone_page_dir 0x1001000 clone_ex = Some (newdir, s1) /\ set_page_dir newdir s1 = Some (tt, s2) /\ mmu_wf s2 /\
  walk s2 0x1001234 = Some 0x1234.
Proof.
  destruct (clone_page_dir_spec clone_ex 0x1001000 0 clone_ex_can_clone)
    as (newdir & t & N & s1 & s2 & H1 & Ht & _ & H2 & _ & Hw & _ & _ & _ & _ & _ & _ & Hwalk1 & Hwalk2).
  exists newdir, s1, s2. split; [exact H1|]. split; [exact H2|]. split; [exact Hw|].
  change 0x1001234 with (vaddr_of 4 1 0x234). rewrite Hwalk2, Hwalk1; [reflexivity|unfold indices; lia..].
Defined.
