(* ===== verification/Apic.v ===== *)
(** The local interrupt controller of a processor: [arch/x86/apic.c], and the
    record of the processors that run, of [arch/x86/apic-utils.c].

    The registers are in memory, at the base the processor's own register says;
    an access is an event of the trace, and what a register answers is the
    device's.  Other processors register themselves in the words
    [booted_cpus] and [num_booted_cpus] while this one goes on: which of them
    have by a point of the trace is a parameter. *)
From S2P Require Export Ports Paging.

Definition APIC_REG_ID : Z := 0x20.
Definition APIC_REG_VERSION : Z := 0x30.
Definition APIC_REG_TASK_PRIORITY : Z := 0x80.
Definition APIC_REG_END_OF_INTR : Z := 0xb0.
Definition APIC_REG_SPURIOUS_INTR_VEC : Z := 0xf0.
Definition APIC_REG_IN_SERVICE : Z := 0x100.
Definition APIC_REG_INTR_REQUEST : Z := 0x200.
Definition APIC_REG_INTR_COMMAND_UPPER : Z := 0x300.
Definition APIC_REG_INTR_COMMAND_LOWER : Z := 0x310.
Definition APIC_REG_LOCAL_TIMER : Z := 0x320.
Definition APIC_REG_TIMER_INIT_COUNT : Z := 0x380.
Definition APIC_REG_TIMER_CUR_COUNT : Z := 0x390.
Definition APIC_REG_TIMER_DIV_CONF : Z := 0x3e0.

Definition APIC_ICR_DELIVERY_STATUS : Z := Z.shiftl 1 12.
Definition APIC_ICR_LEVEL_ASSERT : Z := Z.shiftl 1 14.
Definition APIC_ICR_LEVEL : Z := Z.shiftl 1 15.
Definition APIC_IPI_INIT : Z := Z.shiftl 5 8.
Definition APIC_IPI_START : Z := Z.shiftl 6 8.
Definition APIC_TIMER_DIV_16 : Z := 3.
Definition APIC_TIMER_PERIODIC : Z := 0x20000.
Definition APIC_TIMER_ONE_SHOT : Z := 0x00000.

Record lapic := Lapic {
  la_ports : ports;
  la_enabled : bool;      (** [apic_enabled] *)
  la_ticks : Z;           (** [ticks_per_10ms] *)
  la_booted : Z;          (** [booted_cpus], the bits set here *)
  la_num_booted : Z;      (** [num_booted_cpus], counted here *)
}.
Abbreviation LA := (ST lapic).

Definition timer_vector : Z := 32.

Section apic.
Context (device : list port_event -> query -> Z).
(** the processors that registered themselves *)
Context (arrivals : list port_event -> list Z).

Definition on_io {B} (m : IO B) : LA B :=
  zoom la_ports (fun p s => Lapic p (la_enabled s) (la_ticks s) (la_booted s) (la_num_booted s)) m.

Definition apic_read (addr reg : Z) : IO Z := mmio_read device (addr + 4 * (reg / 4)).
Definition apic_write (addr reg value : Z) : IO unit := mmio_write (addr + 4 * (reg / 4)) value.

Definition apic_send_ipi (addr type lapic_id : Z) : IO unit :=
  let x := Z.lor 0 (w32 (Z.shiftl (u8 lapic_id) 24)) in
  _ ← apic_write addr APIC_REG_INTR_COMMAND_LOWER x;
  apic_write addr APIC_REG_INTR_COMMAND_UPPER type.

Definition apic_ipi_recieved (apic : Z) : IO bool :=
  status ← apic_read apic APIC_REG_INTR_COMMAND_LOWER;
  mret (Z.land status APIC_ICR_DELIVERY_STATUS =? 0).

Definition apic_supported : IO bool :=
  ad ← cpuid device CPUID_GET_FEATURES;
  mret (flag_set (snd ad) CPUID_FEATURE_APIC).

Definition apic_set_base (apic : Z) : IO unit :=
  let apic := io_virt_to_phys apic in
  let edx := 0 in
  let eax := Z.lor (Z.land apic (w32 (Z.lnot 0xfff))) IA32_MSR_APIC_BASE_ENABLE in
  cpu_write_msr IA32_MSR_APIC_BASE eax edx.

Definition apic_get_base : IO Z :=
  ad ← cpu_read_msr device IA32_MSR_APIC_BASE;
  mret (io_phys_to_virt (Z.land (fst ad) (w32 (Z.lnot 0xfff)))).

Definition apic_end_of_interrupt : IO unit :=
  apic ← apic_get_base;
  apic_write apic APIC_REG_END_OF_INTR 0.

Definition apic_enable : LA unit :=
  apic ← on_io apic_get_base;
  _ ← on_io (apic_set_base apic);
  spiv ← on_io (apic_read apic APIC_REG_SPURIOUS_INTR_VEC);
  _ ← on_io (apic_write apic APIC_REG_SPURIOUS_INTR_VEC (Z.lor spiv 0x100));
  _ ← on_io apic_end_of_interrupt;
  modify (fun s => Lapic (la_ports s) true (la_ticks s) (la_booted s) (la_num_booted s)).

Definition apic_is_enabled : LA bool := gets la_enabled.

Definition apic_version : IO Z :=
  apic ← apic_get_base;
  apic_read apic APIC_REG_VERSION.
Definition apic_get_id : IO Z :=
  apic ← apic_get_base;
  id ← apic_read apic APIC_REG_ID;
  mret (Z.shiftr id 24).

(** the loops of the two functions that print registers *)
Fixpoint apic_debug_regs (k : nat) (apic i : Z) : IO unit :=
  match k with
  | O => mret tt
  | S k => _ ← apic_read apic i; apic_debug_regs k apic (i + 0x10)
  end.
Definition apic_debug_isr : IO unit :=
  apic ← apic_get_base;
  apic_debug_regs 8 apic APIC_REG_IN_SERVICE.
Definition apic_debug_irr : IO unit :=
  apic ← apic_get_base;
  apic_debug_regs 8 apic APIC_REG_INTR_REQUEST.

(** ** The timer *)

Definition apic_timer_stop : IO unit :=
  apic ← apic_get_base;
  apic_write apic APIC_REG_TIMER_INIT_COUNT 0.
Definition apic_timer_periodic (initial_count : Z) : IO unit :=
  apic ← apic_get_base;
  _ ← apic_write apic APIC_REG_LOCAL_TIMER (Z.lor APIC_TIMER_PERIODIC timer_vector);
  _ ← apic_write apic APIC_REG_TIMER_DIV_CONF APIC_TIMER_DIV_16;
  apic_write apic APIC_REG_TIMER_INIT_COUNT 0x8000000.
Definition apic_timer_one_shot (initial_count : Z) : IO unit :=
  apic ← apic_get_base;
  _ ← apic_write apic APIC_REG_LOCAL_TIMER (Z.lor APIC_TIMER_ONE_SHOT timer_vector);
  _ ← apic_write apic APIC_REG_TIMER_DIV_CONF APIC_TIMER_DIV_16;
  apic_write apic APIC_REG_TIMER_INIT_COUNT initial_count.

Definition apic_timer_measure (fuel : nat) (pit_time : Z) : IO Z :=
  apic ← apic_get_base;
  _ ← apic_write apic APIC_REG_TIMER_DIV_CONF APIC_TIMER_DIV_16;
  _ ← apic_write apic APIC_REG_TIMER_INIT_COUNT 0xffffffff;
  _ ← pit_wait_poll device fuel pit_time;
  counter ← apic_read apic APIC_REG_TIMER_CUR_COUNT;
  _ ← apic_write apic APIC_REG_TIMER_INIT_COUNT 0;
  mret (w32 (0xffffffff - counter)).

Definition apic_timer_usec_to_ticks (fuel : nat) (useconds : Z) : LA Z :=
  ticks ← gets la_ticks;
  _ ← (if ticks =? 0 then
         ticks ← on_io (apic_timer_measure fuel PIT_WAIT_10MS);
         modify (fun s => Lapic (la_ports s) (la_enabled s) ticks (la_booted s) (la_num_booted s))
       else mret tt);
  ticks ← gets la_ticks;
  mret (w32 (w64 (ticks * useconds) / 10000)).

(** ** The processors that run *)

(** [1 << cpu_num] has no value from 32 on *)
Definition cpu_bit (cpu_num : Z) : LA Z :=
  if (0 <=? cpu_num) && (cpu_num <? 32) then mret (Z.shiftl 1 cpu_num) else fault.

Definition cpu_register (cpu_num : Z) : LA unit :=
  bit ← cpu_bit cpu_num;
  modify (fun s => Lapic (la_ports s) (la_enabled s) (la_ticks s) (Z.lor (la_booted s) bit) (w32 (la_num_booted s + 1))).

(** the two words as they are read: with what the other processors added *)
Definition booted_word (s : lapic) : Z :=
  fold_right (fun c w => Z.lor (Z.shiftl 1 c) w) (la_booted s) (arrivals (po_trace (la_ports s))).
Definition booted_cpus : LA Z := gets booted_word.
Definition num_booted_cpus : LA Z := fun s =>
  Some (w32 (la_num_booted s + Z.of_nat (length (arrivals (po_trace (la_ports s))))), s).

Definition cpu_is_booted (cpu_num : Z) : LA bool :=
  bit ← cpu_bit cpu_num;
  booted ← booted_cpus;
  mret (negb (Z.land booted bit =? 0)).

Definition sched_num_cpus : LA Z := num_booted_cpus.
Definition sched_current_cpu : LA Z :=
  n ← sched_num_cpus;
  if 1 <? n then on_io apic_get_id else mret 0.
End apic.

(** ** What the controller sees *)

(** The interrupt command register, after the processor's manual: a write of
    the word at 0x310 sets the destination, one of the word at 0x300 sends an
    interrupt there. *)
Record icr := Icr { ic_dest : Z; ic_sent : list (Z * Z) }.
Definition icr_step (base : Z) (c : icr) (e : port_event) : icr :=
  match e with
  | MmioWrite a v =>
      if a =? base + 0x310 then Icr (Z.shiftr v 24) (ic_sent c)
      else if a =? base + 0x300 then Icr (ic_dest c) (ic_sent c ++ [(v, ic_dest c)])
      else c
  | _ => c
  end.
Definition icr_run (base : Z) (t : list port_event) (c : icr) : icr := fold_left (icr_step base) t c.

Lemma icr_run_app base t1 t2 c : icr_run base (t1 ++ t2) c = icr_run base t2 (icr_run base t1 c).
Proof. apply fold_left_app. Qed.

(** where the registers can be *)
Definition apic_at (base : Z) : Prop := 0 <= base /\ base + 0x1000 <= 2 ^ 32.

Lemma apic_write_run base reg v p : apic_at base -> 0 <= reg < 0x1000 -> reg mod 4 = 0 -> 0 <= v < 2 ^ 32 ->
  apic_write base reg v p = Some (tt, Ports (po_trace p ++ [MmioWrite (base + reg) v]) (po_initialized p)).
Proof.
  intros [H0 H1] Hr Hm Hv. assert (4 * (reg / 4) = reg) as Hreg by (pose proof (Z.div_mod reg 4 ltac:(done)); lia).
  unfold apic_write, mmio_write, emit. rewrite Hreg. rewrite (w32_small (base + reg)), (w32_small v) by lia. done.
Qed.

Lemma apic_read_run device base reg p : apic_at base -> 0 <= reg < 0x1000 -> reg mod 4 = 0 ->
  let v := w32 (device (po_trace p) (QMmio (base + reg))) in
  apic_read device base reg p = Some (v, Ports (po_trace p ++ [MmioRead (base + reg) v]) (po_initialized p)).
Proof.
  intros [H0 H1] Hr Hm. assert (4 * (reg / 4) = reg) as Hreg by (pose proof (Z.div_mod reg 4 ltac:(done)); lia).
  unfold apic_read, mmio_read, emit. rewrite Hreg. rewrite (w32_small (base + reg)) by lia. done.
Qed.

(** one interrupt of the type given to the processor given, and nothing else *)
Lemma apic_send_ipi_ok base type id p c : apic_at base -> 0 <= type < 2 ^ 32 -> 0 <= id < 256 ->
  exists p', apic_send_ipi base type id p = Some (tt, p') /\
    icr_run base (po_trace p') c = Icr id (ic_sent (icr_run base (po_trace p) c) ++ [(type, id)]) /\
    po_initialized p' = po_initialized p.
Proof.
  intros Hb Ht Hid. unfold apic_send_ipi.
  assert (Hx : Z.lor 0 (w32 (Z.shiftl (u8 id) 24)) = id * 2 ^ 24).
  { rewrite Z.lor_0_l, u8_small, Z.shiftl_mul_pow2 by lia. apply w32_small. lia. }
  rewrite Hx. rewrite (ST_run _ _ _ _ _ (apic_write_run base APIC_REG_INTR_COMMAND_LOWER (id * 2 ^ 24) p Hb ltac:(unfold APIC_REG_INTR_COMMAND_LOWER; lia) eq_refl ltac:(lia))).
  rewrite apic_write_run by (done || unfold APIC_REG_INTR_COMMAND_UPPER; lia). eexists. split; [reflexivity|]. split; [|done].
  cbn [po_trace]. rewrite <- app_assoc, icr_run_app. simpl. rewrite Z.eqb_refl.
  unfold APIC_REG_INTR_COMMAND_UPPER, APIC_REG_INTR_COMMAND_LOWER.
  rewrite (proj2 (Z.eqb_neq (base + 768) _)), Z.eqb_refl by lia. simpl.
  rewrite Z.shiftr_div_pow2, Z.div_mul by lia. done.
Qed.

(** polling the interval timer is nothing to the controller *)
Lemma icr_run_polls device base t n c : icr_run base (polls device t n) c = icr_run base t c.
Proof. induction n as [|n IH]; [done|]. cbn [polls]. rewrite !icr_run_app, IH. done. Qed.

(** ** What the functions do *)

Definition with_ports (p : ports) (s : lapic) : lapic :=
  Lapic p (la_enabled s) (la_ticks s) (la_booted s) (la_num_booted s).

Lemma on_io_run {B} (m : IO B) s b p : m (la_ports s) = Some (b, p) -> on_io m s = Some (b, with_ports p s).
Proof. intros Hm. unfold on_io, zoom. by rewrite Hm. Qed.

(** from [s] to [s'] only devices were accessed, and the controller at [base]
    sent the interrupts [l] *)
Definition told (base : Z) (s s' : lapic) (l : list (Z * Z)) : Prop :=
  s' = with_ports (la_ports s') s /\
  (exists t, po_trace (la_ports s') = po_trace (la_ports s) ++ t) /\
  forall c, ic_sent (icr_run base (po_trace (la_ports s')) c) = ic_sent (icr_run base (po_trace (la_ports s)) c) ++ l.

Lemma told_trans base s1 s2 s3 l1 l2 : told base s1 s2 l1 -> told base s2 s3 l2 -> told base s1 s3 (l1 ++ l2).
Proof.
  intros (E1 & [t1 Ht1] & H1) (E2 & [t2 Ht2] & H2). split; [|split].
  - rewrite E2, E1. reflexivity.
  - exists (t1 ++ t2). by rewrite Ht2, Ht1, app_assoc.
  - intros c. by rewrite H2, H1, app_assoc.
Qed.

(** a step that adds accesses which are nothing to the controller *)
Lemma told_quiet {B} base (m : IO B) s b p t :
  m (la_ports s) = Some (b, p) -> po_trace p = po_trace (la_ports s) ++ t ->
  (forall c, icr_run base t c = c) -> on_io m s = Some (b, with_ports p s) /\ told base s (with_ports p s) [].
Proof.
  intros Hm Ht Hq. split; [by apply on_io_run|]. split; [done|]. split; [by exists t|].
  intros c. simpl. by rewrite Ht, icr_run_app, Hq, app_nil_r.
Qed.

Lemma told_send base type id s : apic_at base -> 0 <= type < 2 ^ 32 -> 0 <= id < 256 ->
  exists s', on_io (apic_send_ipi base type id) s = Some (tt, s') /\ told base s s' [(type, id)].
Proof.
  intros Hb Ht Hid. destruct (apic_send_ipi_ok base type id (la_ports s) (Icr 0 []) Hb Ht Hid) as (p & Hrun & _).
  exists (with_ports p s). split; [by apply on_io_run|]. split; [done|]. split.
  - unfold apic_send_ipi, apic_write, mmio_write, emit in Hrun. inv_st. simplify_eq/=. rewrite <- app_assoc. by eexists.
  - intros c. destruct (apic_send_ipi_ok base type id (la_ports s) c Hb Ht Hid) as (p' & Hrun' & Hic & _).
    rewrite Hrun in Hrun'. injection Hrun' as <-. simpl. by rewrite Hic.
Qed.

Section spec.
Context (device : list port_event -> query -> Z) (arrivals : list port_event -> list Z).
Context (fuel : nat) (base : Z) (Hat : apic_at base).
(** the base register says where the registers are *)
Context (Hbase : forall t, io_phys_to_virt (Z.land (w32 (w64 (device t (QMsr IA32_MSR_APIC_BASE)))) (w32 (Z.lnot 0xfff))) = base).
(** whatever was done before, the interval timer reaches its end *)
Context (Htimer : forall t, exists k, (k + 1 < fuel)%nat /\ Z.testbit (poll_answer device t k) 7 = true).

Lemma apic_get_base_ok p : exists low high,
  apic_get_base device p = Some (base, Ports (po_trace p ++ [MsrRead IA32_MSR_APIC_BASE low high]) (po_initialized p)).
Proof.
  eexists _, _. rewrite <- (Hbase (po_trace p)). reflexivity.
Qed.

Lemma pit_wait_ok value p : exists j, pit_wait_poll device fuel value p =
  Some (tt, Ports (polls device (po_trace p ++ [Outb 0x43 0x30; Outb 0x40 (u16 value mod 256); Outb 0x40 (u16 value / 256)]) (S j))
    (po_initialized p)).
Proof.
  destruct p as [t i].
  destruct (Htimer (t ++ [Outb 0x43 0x30; Outb 0x40 (u16 value mod 256); Outb 0x40 (u16 value / 256)])) as (k & Hk & Hb).
  destruct (pit_wait_poll_ok device fuel value t i k Hb Hk) as (j & _ & _ & _ & Hrun). by exists j.
Qed.

Lemma polls_app t n : exists t', polls device t n = t ++ t'.
Proof.
  induction n as [|n [t' IH]]; [exists []; by rewrite app_nil_r|]. cbn [polls]. rewrite IH, <- !app_assoc. by eexists.
Qed.

Lemma told_pit value at_ s : exists s', on_io (pit_wait_poll device fuel value) s = Some (tt, s') /\ told at_ s s' [].
Proof.
  destruct (pit_wait_ok value (la_ports s)) as (j & Hrun).
  exists (with_ports (Ports (polls device (po_trace (la_ports s) ++
    [Outb 67 48; Outb 64 (u16 value mod 256); Outb 64 (u16 value / 256)]) (S j)) (po_initialized (la_ports s))) s).
  split; [by apply on_io_run|]. split; [done|]. split.
  - cbn [la_ports with_ports po_trace]. destruct (polls_app (po_trace (la_ports s) ++
      [Outb 67 48; Outb 64 (u16 value mod 256); Outb 64 (u16 value / 256)]) (S j)) as [t' ->]. rewrite <- app_assoc. by eexists.
  - intros c. cbn [la_ports with_ports po_trace]. by rewrite icr_run_polls, icr_run_app, app_nil_r.
Qed.

Lemma told_recieved at_ lapic_ s : exists b s', on_io (apic_ipi_recieved device lapic_) s = Some (b, s') /\ told at_ s s' [].
Proof.
  eexists _, _. apply told_quiet with (t := [MmioRead (w32 (lapic_ + 4 * (APIC_REG_INTR_COMMAND_LOWER / 4)))
    (w32 (device (po_trace (la_ports s)) (QMmio (w32 (lapic_ + 4 * (APIC_REG_INTR_COMMAND_LOWER / 4))))))]); reflexivity.
Qed.

(** the trace of a measurement up to the reading of the counter *)
Definition measured (t : list port_event) (low high : Z) (j : nat) : list port_event :=
  polls device (t ++ [MsrRead IA32_MSR_APIC_BASE low high; MmioWrite (base + 0x3e0) 3; MmioWrite (base + 0x380) 0xffffffff;
    Outb 0x43 0x30; Outb 0x40 156; Outb 0x40 46]) (S j).

Lemma apic_timer_measure_ok p : exists low high j,
  let t := measured (po_trace p) low high j in
  let c := w32 (device t (QMmio (base + 0x390))) in
  apic_timer_measure device fuel PIT_WAIT_10MS p =
    Some (0xffffffff - c, Ports (t ++ [MmioRead (base + 0x390) c; MmioWrite (base + 0x380) 0]) (po_initialized p)).
Proof.
  destruct (apic_get_base_ok p) as (low & high & Hb). unfold apic_timer_measure.
  rewrite (ST_run _ _ _ _ _ Hb). set (p1 := Ports _ _) in *.
  pose proof (apic_write_run base 0x3e0 3 p1 Hat ltac:(lia) eq_refl ltac:(lia)) as H2.
  rewrite (ST_run _ _ _ _ _ H2). set (p2 := Ports (po_trace p1 ++ _) _) in *.
  pose proof (apic_write_run base 0x380 0xffffffff p2 Hat ltac:(lia) eq_refl ltac:(lia)) as H3.
  rewrite (ST_run _ _ _ _ _ H3). set (p3 := Ports (po_trace p2 ++ _) _) in *.
  destruct (pit_wait_ok PIT_WAIT_10MS p3) as (j & H4). exists low, high, j. cbn zeta.
  rewrite (ST_run _ _ _ _ _ H4). set (p4 := Ports (polls _ _ _) _) in *.
  assert (Ht : measured (po_trace p) low high j = po_trace p4).
  { unfold measured, p4, p3, p2, p1. cbn [po_trace]. f_equal. rewrite <- !app_assoc. reflexivity. }
  pose proof (apic_read_run device base 0x390 p4 Hat ltac:(lia) eq_refl) as H5. cbn zeta in H5.
  rewrite (ST_run _ _ _ _ _ H5). rewrite Ht. set (c := w32 (device (po_trace p4) _)).
  pose proof (apic_write_run base 0x380 0 (Ports (po_trace p4 ++ [MmioRead (base + 0x390) c]) (po_initialized p4)) Hat ltac:(lia) eq_refl ltac:(lia)) as H6.
  rewrite (ST_run _ _ _ _ _ H6). unfold mret, ST_ret. pose proof (w32_range (device (po_trace p4) (QMmio (base + 0x390)))).
  rewrite w32_small by (unfold c; lia). cbn [po_trace po_initialized]. rewrite <- app_assoc. reflexivity.
Qed.

(** the first call measures, and a later one converts with what was measured
    and touches no device: the ticks of 10 ms are those the counter lost from
    2^32 - 1 between its start and the end of a wait of 10 ms, and the ticks of
    a number of microseconds are in proportion, rounded down and cut to 32
    bits, with no overflow on the way. *)
Theorem apic_timer_usec_to_ticks_spec useconds useconds' s :
  la_ticks s = 0 -> 0 <= useconds < 2 ^ 32 -> 0 <= useconds' < 2 ^ 32 ->
  exists low high j s1,
    let t := measured (po_trace (la_ports s)) low high j in
    let c := w32 (device t (QMmio (base + 0x390))) in
    apic_timer_usec_to_ticks device fuel useconds s = Some (w32 ((0xffffffff - c) * useconds / 10000), s1) /\
    po_trace (la_ports s1) = t ++ [MmioRead (base + 0x390) c; MmioWrite (base + 0x380) 0] /\
    (c <> 0xffffffff -> apic_timer_usec_to_ticks device fuel useconds' s1 = Some (w32 ((0xffffffff - c) * useconds' / 10000), s1)).
Proof.
  intros Hz Hu Hu'. destruct (apic_timer_measure_ok (la_ports s)) as (low & high & j & Hrun). cbn zeta in Hrun.
  exists low, high, j, (Lapic (Ports (measured (po_trace (la_ports s)) low high j ++
    [MmioRead (base + 0x390) (w32 (device (measured (po_trace (la_ports s)) low high j) (QMmio (base + 0x390))));
     MmioWrite (base + 0x380) 0]) (po_initialized (la_ports s))) (la_enabled s)
    (0xffffffff - w32 (device (measured (po_trace (la_ports s)) low high j) (QMmio (base + 0x390)))) (la_booted s) (la_num_booted s)).
  cbn zeta. set (t := measured _ _ _ _) in *. set (c := w32 (device t _)) in *.
  assert (Hc : 0 <= c < 2 ^ 32) by apply w32_range.
  split; [|split; [done|]].
  - unfold apic_timer_usec_to_ticks. rewrite (ST_run _ _ _ (la_ticks s) s) by done. rewrite Hz. cbn [Z.eqb].
    assert (Hon : on_io (apic_timer_measure device fuel PIT_WAIT_10MS) s = Some (0xffffffff - c,
      Lapic (Ports (t ++ [MmioRead (base + 0x390) c; MmioWrite (base + 0x380) 0]) (po_initialized (la_ports s)))
        (la_enabled s) (la_ticks s) (la_booted s) (la_num_booted s))) by (unfold on_io, zoom; by rewrite Hrun).
    rewrite Z.eqb_refl. rewrite !ST_bind_eq. rewrite Hon. unfold_st. rewrite ST_bind_eq. cbn [la_ports la_enabled la_ticks la_booted la_num_booted].
    rewrite w64_small; [done|]. split; [apply Z.mul_nonneg_nonneg; lia|]. change (2 ^ 64) with (2 ^ 32 * 2 ^ 32). apply Z.mul_lt_mono_nonneg; lia.
  - intros Hne. unfold apic_timer_usec_to_ticks. rewrite !ST_bind_eq. unfold gets. cbn [la_ticks].
    rewrite (proj2 (Z.eqb_neq (0xffffffff - c) 0)) by lia. unfold mret, ST_ret. rewrite ?ST_bind_eq. cbn [la_ticks].
    rewrite w64_small; [done|]. split; [apply Z.mul_nonneg_nonneg; lia|]. change (2 ^ 64) with (2 ^ 32 * 2 ^ 32). apply Z.mul_lt_mono_nonneg; lia.
Qed.
End spec.

(** ** A controller whose timer counted down by 125000 *)

Definition ex_apic_device (t : list port_event) (q : query) : Z :=
  match q with
  | QPort _ => 0xff
  | QMsr _ => 0xfee00900
  | QMmio _ => 0xffffffff - 125000
  | QCpuid _ => 0
  | QTsc => 3000 * Z.of_nat (length t)
  end.
Definition ex_apic_base : Z := 0xfea00000.
Definition ex_lapic : lapic := Lapic (Ports [] true) false 0 1 1.

Lemma ex_apic_base_ok t :
  io_phys_to_virt (Z.land (w32 (w64 (ex_apic_device t (QMsr IA32_MSR_APIC_BASE)))) (w32 (Z.lnot 0xfff))) = ex_apic_base.
Proof. by vm_compute. Qed.
Lemma ex_timer t : exists k, (k + 1 < 2)%nat /\ Z.testbit (poll_answer ex_apic_device t k) 7 = true.
Proof. exists 0%nat. split; [lia|]. by vm_compute. Qed.
Lemma ex_apic_at : apic_at ex_apic_base.
Proof. unfold apic_at, ex_apic_base. lia. Qed.

Lemma apic_timer_usec_to_ticks_spec_witness : exists s1,
  apic_timer_usec_to_ticks ex_apic_device 2 1000000 ex_lapic = Some (12500000, s1) /\
  apic_timer_usec_to_ticks ex_apic_device 2 10000 s1 = Some (125000, s1).
Proof.
  destruct (apic_timer_usec_to_ticks_spec ex_apic_device 2 ex_apic_base ex_apic_at ex_apic_base_ok ex_timer
    1000000 10000 ex_lapic eq_refl ltac:(lia) ltac:(lia)) as (low & high & j & s1 & Hrun & _ & Hnext).
  exists s1. split; [exact Hrun|]. apply Hnext. discriminate.
Defined.
