(* ===== verification/Mp.v ===== *)
(** The multiprocessor tables: [arch/x86/mp.c].

    The tables are read from memory, byte by byte as the packed structures lay
    them out; [buses], the table of the code, is in the same memory, and so are
    the constant strings.  The entries start processors through the local
    controller ([Apic]) and set up the routers ([Ioapic]); the accesses of both
    are in one trace. *)
From S2P Require Export Strings Ioapic Apic.

Definition MP_MAX_BUSES : Z := 32.
Definition BUS_TYPE_UNKNOWN : Z := 0.
Definition BUS_TYPE_ISA : Z := 1.
Definition BUS_TYPE_PCI : Z := 2.

Definition MP_TYPE_CPU : Z := 0.
Definition MP_TYPE_BUS : Z := 1.
Definition MP_TYPE_IOAPIC : Z := 2.
Definition MP_TYPE_INTERRUPT : Z := 3.
Definition MP_TYPE_INTERRUPT_A : Z := 4.
Definition MP_CPU_FLAG_BOOTSTRAPPER : Z := 0x2.
Definition BIOS_RESET_VECTOR : Z := 0x467.
Definition CMOS_REG_RESET : Z := 0xf.
Definition CMOS_RESET_POWERON : Z := 0.
Definition CMOS_RESET_JUMP : Z := 0xa.

(** where the fields of the packed structures are *)
Module Cpu.
Definition type : Z := 0.
Definition local_apic_id : Z := 1.
Definition flags : Z := 3.
End Cpu.
Module Bus.
Definition id : Z := 1.
Definition name : Z := 2.
Definition sizeof_mp_bus : Z := 8.
End Bus.
Module IoApic.
Definition id : Z := 1.
Definition address : Z := 4.
End IoApic.
Module Intr.
Definition int_type : Z := 1.
Definition flags : Z := 2.
Definition source_bus_id : Z := 4.
Definition source_bus_irq : Z := 5.
Definition dest_apic_id : Z := 6.
Definition dest_apic_intin : Z := 7.
End Intr.
Module Config.
Definition config_table : Z := 4.  (** of the floating structure *)
Definition entry_count : Z := 34.
Definition lapic_addr : Z := 36.
Definition sizeof_mp_config : Z := 44.
End Config.

Record machine := Machine {
  mc_lapic : lapic;
  mc_ioapics : list Z;
  mc_cpu_count : Z;  (** of [mp_handle_cpu] *)
  mc_mem : bytes;
}.
Abbreviation MP := (ST machine).

Section mp.
Context (device : list port_event -> query -> Z) (arrivals : list port_event -> list Z).
(** what a redirection entry on the stack holds before it is set *)
Context (stale_redirect : Z).
(** the turns a wait for the timer may take *)
Context (fuel : nat).
(** where the table of buses and the constant strings are *)
Context (buses str_isa str_pci str_mp : Z).

Definition on_mem {B} (m : MEM B) : MP B :=
  zoom mc_mem (fun b s => Machine (mc_lapic s) (mc_ioapics s) (mc_cpu_count s) b) m.
Definition on_lapic {B} (m : LA B) : MP B :=
  zoom mc_lapic (fun l s => Machine l (mc_ioapics s) (mc_cpu_count s) (mc_mem s)) m.
Definition on_routers {B} (m : ST routers B) : MP B :=
  zoom (fun s => Routers (mc_ioapics s) (la_ports (mc_lapic s)))
    (fun r s => Machine (Lapic (rt_ports r) (la_enabled (mc_lapic s)) (la_ticks (mc_lapic s)) (la_booted (mc_lapic s)) (la_num_booted (mc_lapic s)))
      (rt_ioapics r) (mc_cpu_count s) (mc_mem s)) m.

(** ** The buses *)

Definition bus_register (bus : Z) : MEM unit :=
  id ← load (bus + Bus.id);
  if MP_MAX_BUSES <=? id then mret tt
  else _ ← memcpy (buses + Bus.sizeof_mp_bus * id) bus Bus.sizeof_mp_bus; mret tt.

Definition bus_get_by_id (bus_id : Z) : Z :=
  if bus_id <? MP_MAX_BUSES then buses + Bus.sizeof_mp_bus * bus_id
  else buses + Bus.sizeof_mp_bus * bus_id.

Definition bus_type (bus_id : Z) : MEM Z :=
  let bus := bus_get_by_id bus_id in
  if bus =? NULL then mret BUS_TYPE_UNKNOWN
  else
    isa ← strncmp (bus + Bus.name) str_isa 3;
    if isa =? 0 then mret BUS_TYPE_ISA
    else
      pci ← strncmp (bus + Bus.name) str_pci 3;
      if pci =? 0 then mret BUS_TYPE_PCI else mret BUS_TYPE_UNKNOWN.

Definition bus_default_polarity (bus_id : Z) (level_triggered : bool) : MEM bool :=
  type ← bus_type bus_id;
  if type =? BUS_TYPE_ISA then mret (negb level_triggered)
  else if type =? BUS_TYPE_PCI then mret false
  else mret true.

Definition bus_default_trigger (bus_id : Z) : MEM bool :=
  type ← bus_type bus_id;
  if type =? BUS_TYPE_ISA then mret false
  else if type =? BUS_TYPE_PCI then mret true
  else mret true.

(** ** The processors *)

(** [flags] and [apic_id] are the fields of the entry of the processor *)
Definition mp_boot_cpu (lapic flags apic_id cpu_num : Z) : LA unit :=
  if flag_set flags MP_CPU_FLAG_BOOTSTRAPPER then cpu_register cpu_num
  else
    let bootaddr := 0xa000 in
    _ ← on_io (cmos_write CMOS_REG_RESET CMOS_RESET_JUMP);
    _ ← on_io (mmio_write (low_phys_to_virt BIOS_RESET_VECTOR) (w32 (Z.shiftl (Z.land bootaddr 0xff000) 12)));
    _ ← on_io (apic_send_ipi lapic (Z.lor (Z.lor APIC_ICR_LEVEL APIC_ICR_LEVEL_ASSERT) APIC_IPI_INIT) apic_id);
    _ ← on_io (pit_wait_poll device fuel PIT_WAIT_10MS);
    _ ← on_io (apic_send_ipi lapic (Z.lor APIC_ICR_LEVEL APIC_IPI_INIT) apic_id);
    _ ← on_io (pit_wait_poll device fuel PIT_WAIT_10MS);
    _ ← on_io (apic_ipi_recieved device lapic);
    _ ← on_io (apic_send_ipi lapic (Z.lor APIC_IPI_START (Z.land (Z.shiftr bootaddr 12) 0xff)) apic_id);
    _ ← on_io (pit_wait_poll device fuel (PIT_WAIT_10MS * 3));
    booted ← cpu_is_booted arrivals cpu_num;
    _ ← (if negb booted then
           _ ← on_io (apic_send_ipi lapic (Z.lor APIC_IPI_START (Z.land (Z.shiftr bootaddr 12) 0xff)) apic_id);
           on_io (pit_wait_poll device fuel PIT_WAIT_10MS)
         else mret tt);
    _ ← on_io (apic_ipi_recieved device lapic);
    _ ← cpu_is_booted arrivals cpu_num;
    _ ← on_io (cmos_write CMOS_REG_RESET CMOS_RESET_POWERON);
    on_io (mmio_write (low_phys_to_virt BIOS_RESET_VECTOR) (w32 (Z.shiftl (Z.land bootaddr 0xff000) 12))).

Definition mp_handle_cpu (lapic ptr : Z) : MP unit :=
  flags ← on_mem (load (ptr + Cpu.flags));
  apic_id ← on_mem (load (ptr + Cpu.local_apic_id));
  cpu_count ← gets mc_cpu_count;
  _ ← modify (fun s => Machine (mc_lapic s) (mc_ioapics s) (w32 (cpu_count + 1)) (mc_mem s));
  on_lapic (mp_boot_cpu lapic flags apic_id cpu_count).

(** ** The other entries *)

Definition mp_handle_bus (lapic ptr : Z) : MP unit := on_mem (bus_register ptr).

Definition mp_handle_ioapic (lapic ptr : Z) : MP unit :=
  id ← on_mem (load (ptr + IoApic.id));
  address ← on_mem (load32 (ptr + IoApic.address));
  let ioapic_ptr := io_phys_to_virt address in
  _ ← on_routers (ioapic_add ioapic_ptr id);
  _ ← on_routers (ioapic_print_redirects device stale_redirect id);
  _ ← on_routers (on_ports (ioapic_read device ioapic_ptr IOAPIC_REG_VERSION));
  _ ← on_routers (on_ports (ioapic_read device ioapic_ptr IOAPIC_REG_REDIRECT));
  _ ← on_routers (on_ports (ioapic_read device ioapic_ptr IOAPIC_REG_REDIRECT_END));
  mret tt.

Definition mp_handle_io_interrupt (lapic ptr : Z) : MP unit :=
  int_type ← on_mem (load (ptr + Intr.int_type));
  source_bus_id ← on_mem (load (ptr + Intr.source_bus_id));
  dest_apic_id ← on_mem (load (ptr + Intr.dest_apic_id));
  dest_apic_intin ← on_mem (load (ptr + Intr.dest_apic_intin));
  type ← on_mem (bus_type source_bus_id);
  if type =? BUS_TYPE_UNKNOWN then mret tt
  else
    let destination := if dest_apic_id =? 0xff then 0 else dest_apic_id in
    redirect ← on_routers (ioapic_get_redirect device stale_redirect destination dest_apic_intin);
    let trigger_bits := Z.land (Z.shiftr int_type 2) 3 in
    let polarity_bits := Z.land int_type 3 in
    level_triggered ← (if negb (trigger_bits =? 0) then mret (trigger_bits =? 3)
                       else on_mem (bus_default_trigger source_bus_id));
    active_high ← (if negb (polarity_bits =? 0) then mret (polarity_bits =? 1)
                   else on_mem (bus_default_polarity source_bus_id level_triggered));
    if field_get Redirect.mask redirect =? 0 then mret tt
    else
      let redirect := field_set Redirect.vector (dest_apic_intin + 32) redirect in
      let redirect := field_set Redirect.delivery IOAPIC_DELIVERY_FIXED redirect in
      let redirect := field_set Redirect.destination_mode IOAPIC_DESTINATION_PHYSICAL redirect in
      let redirect := field_set Redirect.polarity (if active_high : bool then 0 else 1) redirect in
      let redirect := field_set Redirect.trigger (if level_triggered : bool then 1 else 0) redirect in
      let redirect := field_set Redirect.mask 0 redirect in
      let redirect := field_set Redirect.reserved 0 redirect in
      let redirect := field_set Redirect.destination 0 redirect in
      _ ← on_routers (ioapic_set_redirect device destination dest_apic_intin redirect);
      on_routers (ioapic_print_redirect device stale_redirect destination dest_apic_intin).

(** prints the fields *)
Definition mp_handle_interrupt (lapic ptr : Z) : MP unit :=
  _ ← on_mem (load (ptr + Intr.int_type));
  _ ← on_mem (load (ptr + Intr.source_bus_id));
  _ ← on_mem (load (ptr + Intr.source_bus_irq));
  _ ← on_mem (load (ptr + Intr.dest_apic_id));
  _ ← on_mem (load (ptr + Intr.dest_apic_intin));
  mret tt.

(** ** The walk *)

Definition mp_find : MEM Z := find_bios_key str_mp (low_phys_to_virt 0xf0000) (1024 * 64).

Definition mp_handle (type lapic entry : Z) : MP unit :=
  if type =? MP_TYPE_CPU then mp_handle_cpu lapic entry
  else if type =? MP_TYPE_BUS then mp_handle_bus lapic entry
  else if type =? MP_TYPE_IOAPIC then mp_handle_ioapic lapic entry
  else if type =? MP_TYPE_INTERRUPT then mp_handle_io_interrupt lapic entry
  else if type =? MP_TYPE_INTERRUPT_A then mp_handle_interrupt lapic entry
  else mret tt.

Fixpoint mp_enumerate_loop (turns : nat) (config lapic entry i : Z) : MP unit :=
  match turns with
  | O => fault
  | S turns =>
      entry_count ← on_mem (load16 (config + Config.entry_count));
      if i <? entry_count then
        type ← on_mem (load (entry + Cpu.type));
        let is_cpu := type =? MP_TYPE_CPU in
        _ ← mp_handle type lapic entry;
        mp_enumerate_loop turns config lapic (w32 (entry + (if is_cpu then 20 else 8))) (w32 (i + 1))
      else mret tt
  end.

(** a count of 16 bits: the loop ends in 2^16 turns *)
Definition mp_enumerate (mp : Z) : MP unit :=
  if mp =? NULL then mret tt
  else
    supported ← on_lapic (on_io (apic_supported device));
    if negb supported then mret tt
    else
      config_table ← on_mem (load32 (mp + Config.config_table));
      let config := low_phys_to_virt config_table in
      lapic_addr ← on_mem (load32 (config + Config.lapic_addr));
      let lapic := io_phys_to_virt lapic_addr in
      let entry := w32 (config + Config.sizeof_mp_config) in
      mp_enumerate_loop (Z.to_nat 65536) config lapic entry 0.
End mp.

Lemma on_mem_run {B} (f : MEM B) m b : f (mc_mem m) = Some (b, mc_mem m) -> on_mem f m = Some (b, m).
Proof. intros Hf. unfold on_mem, zoom. rewrite Hf. by destruct m. Qed.

(** ** The buses *)

Section buses.
Context (buses str_isa str_pci : Z) (Hbuses : 0 < buses).

(** the constant strings, as far as they are compared *)
Definition literals (m : bytes) : Prop :=
  bytes_at m str_isa [73; 83; 65] /\ bytes_at m str_pci [80; 67; 73].

(** the type the code finds for the six characters of an entry *)
Definition kind_of (name : list Z) : Z :=
  if hd 0 name =? 0 then BUS_TYPE_ISA
  else if bool_decide (take 3 name = [73; 83; 65]) then BUS_TYPE_ISA
  else if bool_decide (take 3 name = [80; 67; 73]) then BUS_TYPE_PCI
  else BUS_TYPE_UNKNOWN.

Lemma kind_of_cases name : kind_of name = BUS_TYPE_UNKNOWN \/ kind_of name = BUS_TYPE_ISA \/ kind_of name = BUS_TYPE_PCI.
Proof. unfold kind_of. destruct (hd 0 name =? 0); [tauto|]. case_bool_decide; [tauto|]. case_bool_decide; tauto. Qed.

Lemma bus_type_ok m id name : literals m -> 0 <= id ->
  bytes_at m (buses + 8 * id + 2) name -> length name = 6%nat -> Forall is_byte name ->
  bus_type buses str_isa str_pci id m = Some (kind_of name, m).
Proof.
  intros [Hisa Hpci] Hid Hname Hlen Hb. unfold bus_type, bus_get_by_id, Bus.sizeof_mp_bus, Bus.name.
  replace (if id <? MP_MAX_BUSES then _ else _) with (buses + 8 * id) by (by destruct (id <? _)).
  rewrite (proj2 (Z.eqb_neq _ NULL)) by (unfold NULL; lia).
  destruct name as [|a [|b [|c name]]]; try done.
  assert (Hthree : bytes_at m (buses + 8 * id + 2) [a; b; c]) by (by apply (bytes_at_app m _ [a; b; c] name)).
  assert (Hb3 : Forall is_byte [a; b; c]) by (by apply (Forall_app is_byte [a; b; c] name)).
  destruct (strncmp_block m _ _ 3 _ _ Hthree Hisa Hb3 ltac:(by repeat constructor) eq_refl eq_refl ltac:(lia)) as (r1 & Hr1 & Hz1).
  destruct (strncmp_block m _ _ 3 _ _ Hthree Hpci Hb3 ltac:(by repeat constructor) eq_refl eq_refl ltac:(lia)) as (r2 & Hr2 & Hz2).
  rewrite (ST_run _ _ _ _ _ Hr1). unfold kind_of. change (take 3 (a :: b :: c :: name)) with [a; b; c]. cbn [hd] in *.
  destruct (Z.eqb_spec r1 0) as [H1|H1].
  - apply Hz1 in H1 as [->|[H1|H1]]; [done|done|]. rewrite H1, bool_decide_true by done. by destruct (a =? 0).
  - assert (a <> 0 /\ [a; b; c] <> [73; 83; 65]) as [Ha Hni] by tauto. rewrite (proj2 (Z.eqb_neq a 0)) by done.
    rewrite bool_decide_false by done. rewrite (ST_run _ _ _ _ _ Hr2). destruct (Z.eqb_spec r2 0) as [H2|H2].
    + apply Hz2 in H2 as [?|[H2|H2]]; [done|done|]. by rewrite bool_decide_true.
    + by rewrite bool_decide_false by tauto.
Qed.
End buses.

(** ** Starting a processor *)

Section boot.
Context (device : list port_event -> query -> Z) (arrivals : list port_event -> list Z).
Context (fuel : nat) (lapic apic_id cpu_num : Z) (Hat : apic_at lapic) (Hpage : lapic mod 4096 = 0).
Context (Htimer : forall t, exists k, (k + 1 < fuel)%nat /\ Z.testbit (poll_answer device t k) 7 = true).
Context (Hid : 0 <= apic_id < 256) (Hcpu : 0 <= cpu_num < 32).

Lemma told_cmos reg value s : exists s', on_io (cmos_write reg value) s = Some (tt, s') /\ told lapic s s' [].
Proof.
  eexists. apply told_quiet with (t := [Outb (u16 CMOS_PORT_SELECT) (u8 (Z.lor (Z.shiftl 0 7) reg)); Outb (u16 CMOS_PORT_DATA) (u8 value)]);
    [reflexivity| |reflexivity]. simpl. by rewrite <- app_assoc.
Qed.

(** the word of the BIOS is not a register of the controller *)
Lemma told_reset_vector value s : exists s',
  on_io (mmio_write (low_phys_to_virt BIOS_RESET_VECTOR) value) s = Some (tt, s') /\ told lapic s s' [].
Proof.
  eexists. apply told_quiet with (t := [MmioWrite (w32 (low_phys_to_virt BIOS_RESET_VECTOR)) (w32 value)]); [reflexivity|done|].
  intros c. simpl. change (w32 (low_phys_to_virt BIOS_RESET_VECTOR)) with 0xfd000467.
  pose proof (Z.div_mod lapic 4096 ltac:(done)). rewrite !(proj2 (Z.eqb_neq _ _)) by lia. done.
Qed.

Lemma cpu_is_booted_run s : cpu_is_booted arrivals cpu_num s = Some (Z.testbit (booted_word arrivals s) cpu_num, s).
Proof.
  unfold cpu_is_booted, cpu_bit. rewrite (proj2 (Z.leb_le 0 cpu_num)), (proj2 (Z.ltb_lt cpu_num 32)) by lia.
  cbn [andb]. rewrite Z.shiftl_mul_pow2, Z.mul_1_l by lia. change (negb (Z.land ?a ?b =? 0)) with (flag_set a b).
  rewrite <- flag_set_bit by lia. reflexivity.
Qed.

(** the second attempt *)
Lemma boot_retry (booted : bool) s : exists s',
  (if negb booted then
     _ ← on_io (apic_send_ipi lapic 0x060a apic_id);
     on_io (pit_wait_poll device fuel PIT_WAIT_10MS)
   else mret tt) s = Some (tt, s') /\ told lapic s s' (if booted then [] else [(0x060a, apic_id)]).
Proof.
  destruct booted; cbn [negb].
  - exists s. split; [done|]. split; [by destruct s as []|]. split; [exists []; by rewrite app_nil_r|].
    intros c. by rewrite app_nil_r.
  - destruct (told_send lapic 0x060a apic_id s Hat ltac:(lia) Hid) as (t1 & R1 & T1).
    destruct (told_pit device fuel Htimer PIT_WAIT_10MS lapic t1) as (t2 & R2 & T2).
    exists t2. rewrite (ST_run _ _ _ _ _ R1). split; [exact R2|]. exact (told_trans _ _ _ _ _ _ T1 T2).
Qed.

(** what is left to do then *)
Lemma boot_end s : exists s',
  (_ ← on_io (apic_ipi_recieved device lapic);
   _ ← cpu_is_booted arrivals cpu_num;
   _ ← on_io (cmos_write CMOS_REG_RESET CMOS_RESET_POWERON);
   on_io (mmio_write (low_phys_to_virt BIOS_RESET_VECTOR) (w32 (Z.shiftl (Z.land 0xa000 0xff000) 12)))) s = Some (tt, s') /\
  told lapic s s' [].
Proof.
  destruct (told_recieved device lapic lapic s) as (b & t1 & R1 & T1).
  destruct (told_cmos CMOS_REG_RESET CMOS_RESET_POWERON t1) as (t2 & R2 & T2).
  destruct (told_reset_vector (w32 (Z.shiftl (Z.land 0xa000 0xff000) 12)) t2) as (t3 & R3 & T3).
  exists t3. rewrite (ST_run _ _ _ _ _ R1), (ST_run _ _ _ _ _ (cpu_is_booted_run t1)), (ST_run _ _ _ _ _ R2).
  split; [exact R3|]. exact (told_trans _ _ _ _ _ _ T1 (told_trans _ _ _ _ _ _ T2 T3)).
Qed.

(** starting a processor that is not the one that runs sends it an INIT, its
    end and a START at 0xa000 and then, exactly if the processor has not
    registered by the end of the wait, a second START; every wait ends, no
    other interrupt is sent, and nothing but devices is touched. *)
Theorem mp_boot_cpu_spec flags s : Z.testbit flags 1 = false ->
  exists s1 s', mp_boot_cpu device arrivals fuel lapic flags apic_id cpu_num s = Some (tt, s') /\
    told lapic s s1 [(0xc500, apic_id); (0x8500, apic_id); (0x060a, apic_id)] /\
    told lapic s1 s' (if Z.testbit (booted_word arrivals s1) cpu_num then [] else [(0x060a, apic_id)]).
Proof.
  intros Hflag. unfold mp_boot_cpu. change MP_CPU_FLAG_BOOTSTRAPPER with (2 ^ 1). rewrite flag_set_bit, Hflag by lia. cbn zeta.
  change (Z.lor (Z.lor APIC_ICR_LEVEL APIC_ICR_LEVEL_ASSERT) APIC_IPI_INIT) with 0xc500.
  change (Z.lor APIC_ICR_LEVEL APIC_IPI_INIT) with 0x8500.
  change (Z.lor APIC_IPI_START (Z.land (Z.shiftr 0xa000 12) 0xff)) with 0x060a.
  destruct (told_cmos CMOS_REG_RESET CMOS_RESET_JUMP s) as (t1 & R1 & T1).
  destruct (told_reset_vector (w32 (Z.shiftl (Z.land 0xa000 0xff000) 12)) t1) as (t2 & R2 & T2).
  destruct (told_send lapic 0xc500 apic_id t2 Hat ltac:(lia) Hid) as (t3 & R3 & T3).
  destruct (told_pit device fuel Htimer PIT_WAIT_10MS lapic t3) as (t4 & R4 & T4).
  destruct (told_send lapic 0x8500 apic_id t4 Hat ltac:(lia) Hid) as (t5 & R5 & T5).
  destruct (told_pit device fuel Htimer PIT_WAIT_10MS lapic t5) as (t6 & R6 & T6).
  destruct (told_recieved device lapic lapic t6) as (b & t7 & R7 & T7).
  destruct (told_send lapic 0x060a apic_id t7 Hat ltac:(lia) Hid) as (t8 & R8 & T8).
  destruct (told_pit device fuel Htimer (PIT_WAIT_10MS * 3) lapic t8) as (s1 & R9 & T9).
  rewrite (ST_run _ _ _ _ _ R1), (ST_run _ _ _ _ _ R2), (ST_run _ _ _ _ _ R3), (ST_run _ _ _ _ _ R4), (ST_run _ _ _ _ _ R5),
    (ST_run _ _ _ _ _ R6), (ST_run _ _ _ _ _ R7), (ST_run _ _ _ _ _ R8), (ST_run _ _ _ _ _ R9), (ST_run _ _ _ _ _ (cpu_is_booted_run s1)).
  assert (Hthree : told lapic s s1 [(0xc500, apic_id); (0x8500, apic_id); (0x060a, apic_id)]).
  { pose proof (told_trans _ _ _ _ _ _ T1 (told_trans _ _ _ _ _ _ T2 (told_trans _ _ _ _ _ _ T3 (told_trans _ _ _ _ _ _ T4
      (told_trans _ _ _ _ _ _ T5 (told_trans _ _ _ _ _ _ T6 (told_trans _ _ _ _ _ _ T7 (told_trans _ _ _ _ _ _ T8 T9)))))))) as H.
    exact H. }
  destruct (boot_retry (Z.testbit (booted_word arrivals s1) cpu_num) s1) as (t10 & R10 & T10).
  destruct (boot_end t10) as (s' & R11 & T11).
  exists s1, s'. split; [rewrite (ST_run _ _ _ _ _ R10); exact R11|]. split; [exact Hthree|].
  rewrite <- (app_nil_r (if Z.testbit (booted_word arrivals s1) cpu_num then [] else [(0x060a, apic_id)])). by apply told_trans with t10.
Qed.
End boot.

(** ** The walk over the entries *)

Section walk.
Context (device : list port_event -> query -> Z) (arrivals : list port_event -> list Z) (stale_redirect : Z) (fuel : nat).
Context (buses str_isa str_pci : Z).

(** memory but for the table of buses *)
Definition keeps (m m' : machine) : Prop :=
  mem_wf (mc_mem m') /\ forall q, ~ within buses 256 q -> mc_mem m' !! q = mc_mem m !! q.
Definition framed {B} (f : MP B) : Prop :=
  forall m b m', f m = Some (b, m') -> mem_wf (mc_mem m) -> keeps m m'.

Lemma framed_ret {B} (b : B) : framed (mret b).
Proof. intros m b' m' [= _ ->] Hm. by split. Qed.
Lemma framed_bind {B C} (f : MP B) (g : B -> MP C) : framed f -> (forall b, framed (g b)) -> framed (f ≫= g).
Proof.
  intros Hf Hg m c m' (b & s & H1 & H2)%ST_bind_Some Hm. destruct (Hf _ _ _ H1 Hm) as [Hw1 He1].
  destruct (Hg _ _ _ _ H2 Hw1) as [Hw2 He2]. split; [done|]. intros q Hq. by rewrite He2, He1.
Qed.
Lemma framed_if {B} (b : bool) (f g : MP B) : framed f -> framed g -> framed (if b then f else g).
Proof. by destruct b. Qed.
Lemma framed_lapic {B} (f : LA B) : framed (on_lapic f).
Proof. intros m b m' H Hm. unfold on_lapic, zoom in H. destruct (f _) as [[? ?]|]; [|done]. injection H as <- <-. by split. Qed.
Lemma framed_routers {B} (f : ST routers B) : framed (on_routers f).
Proof. intros m b m' H Hm. unfold on_routers, zoom in H. destruct (f _) as [[? ?]|]; [|done]. injection H as <- <-. by split. Qed.
Lemma framed_mem {B} (f : MEM B) : read_only f -> framed (on_mem f).
Proof.
  intros Hf m b m' H Hm. unfold on_mem, zoom in H. destruct (f _) as [[? s]|] eqn:E; [|done]. injection H as <- <-.
  apply Hf in E as ->. by split.
Qed.
Lemma framed_gets {B} (f : machine -> B) : framed (gets f).
Proof. intros m b m' [= _ ->] Hm. by split. Qed.
Hint Resolve framed_ret framed_bind framed_if framed_lapic framed_routers framed_mem framed_gets : frame.

Lemma read_only_bus_type id : read_only (bus_type buses str_isa str_pci id).
Proof. unfold bus_type. cbn zeta. eauto 10 with frame. Qed.
Hint Resolve read_only_bus_type : frame.

Lemma framed_bus lapic ptr : framed (mp_handle_bus buses lapic ptr).
Proof.
  intros m b m' H Hm. unfold mp_handle_bus, on_mem, zoom in H. destruct (bus_register _ _ _) as [[[] s]|] eqn:E; [|done].
  injection H as _ <-. unfold keeps. simpl. unfold bus_register in E. apply ST_bind_Some in E as (id & s1 & [-> Hid]%load_frame & E).
  destruct (Z.leb_spec MP_MAX_BUSES id); [by injection E as <-|]. apply ST_bind_Some in E as (r & s2 & E & [= <-]).
  destruct (memcpy_frame _ _ _ _ _ _ E Hm) as [Hw Hf]. split; [done|]. intros q Hq. apply Hf. intros Hin. apply Hq.
  pose proof (Hm _ _ Hid) as Hb. unfold is_byte, within, MP_MAX_BUSES, Bus.sizeof_mp_bus in *. lia.
Qed.
Hint Resolve framed_bus : frame.

Lemma framed_handle type lapic entry :
  framed (mp_handle device arrivals stale_redirect fuel buses str_isa str_pci type lapic entry).
Proof.
  unfold mp_handle. repeat apply framed_if; auto with frame.
  - unfold mp_handle_cpu. repeat first [apply framed_bind; [eauto with frame|intro] | eauto with frame].
    intros ? ? ? [= _ <-] ?. by split.
  - unfold mp_handle_ioapic, load32, load16. cbn zeta. eauto 20 with frame.
  - unfold mp_handle_io_interrupt, bus_default_trigger, bus_default_polarity. cbn zeta. eauto 40 with frame.
  - unfold mp_handle_interrupt. eauto 20 with frame.
Qed.

(** the handlers, in the order of the entries and each at its own *)
Definition size_of (type : Z) : Z := if type =? MP_TYPE_CPU then 20 else 8.
Lemma size_of_range type : 8 <= size_of type <= 20.
Proof. unfold size_of. destruct (_ =? _); lia. Qed.
Fixpoint mp_walk (lapic entry : Z) (types : list Z) : MP unit :=
  match types with
  | [] => mret tt
  | type :: types =>
      _ ← mp_handle device arrivals stale_redirect fuel buses str_isa str_pci type lapic entry;
      mp_walk lapic (entry + size_of type) types
  end.

(** entries of the types given from [entry] on, clear of the code's own table *)
Fixpoint types_at (mem : bytes) (entry : Z) (types : list Z) : Prop :=
  match types with
  | [] => True
  | type :: types =>
      mem !! entry = Some type /\ ~ within buses 256 entry /\ 0 <= entry /\ entry + size_of type < 2 ^ 32 /\
      types_at mem (entry + size_of type) types
  end.
Definition counts (mem : bytes) (config n : Z) : Prop :=
  load16 (config + Config.entry_count) mem = Some (n, mem) /\
  ~ within buses 256 (config + Config.entry_count) /\ ~ within buses 256 (config + Config.entry_count + 1).

Lemma types_at_keeps m m' entry types : keeps m m' -> types_at (mc_mem m) entry types -> types_at (mc_mem m') entry types.
Proof.
  intros [_ Hk]. revert entry. induction types as [|type types IH]; intros entry; [done|]. simpl.
  intros (H1 & H2 & H3 & H4 & H5). split_and!; try done; [by rewrite Hk|by apply IH].
Qed.

Lemma counts_keeps m m' config n : keeps m m' -> counts (mc_mem m) config n -> counts (mc_mem m') config n.
Proof.
  intros [_ Hk] ((a & b & Ha & Hb & ->)%load16_eq & H1 & H2). split; [|done]. apply load16_eq. exists a, b.
  by rewrite !Hk.
Qed.

Lemma mp_enumerate_loop_eq turns config lapic entry i types m :
  mem_wf (mc_mem m) -> types_at (mc_mem m) entry types -> 0 <= i ->
  counts (mc_mem m) config (i + Z.of_nat (length types)) -> i + Z.of_nat (length types) < 2 ^ 32 ->
  (length types < turns)%nat ->
  mp_enumerate_loop device arrivals stale_redirect fuel buses str_isa str_pci turns config lapic entry i m =
    mp_walk lapic entry types m.
Proof.
  revert turns entry i m. induction types as [|type types IH]; intros [|turns] entry i m Hm Ht Hi Hc Hn Hturns;
    try (simpl in *; lia); cbn [mp_enumerate_loop]; pose proof Hc as [Hload _];
    rewrite (ST_run _ _ _ _ _ (on_mem_run _ m _ Hload)).
  - rewrite (proj2 (Z.ltb_ge i (i + Z.of_nat (length (@nil Z))))) by (simpl; lia). done.
  - rewrite (proj2 (Z.ltb_lt i (i + Z.of_nat (length (type :: types))))) by (simpl; lia). cbn [length] in *. destruct Ht as (Hty & Hout & H0 & H32 & Ht).
    assert (Hty' : load (entry + Cpu.type) (mc_mem m) = Some (type, mc_mem m)) by (apply load_ok; unfold Cpu.type; by rewrite Z.add_0_r).
    rewrite (ST_run _ _ _ _ _ (on_mem_run _ m _ Hty')). cbn [mp_walk]. rewrite !ST_bind_eq.
    destruct (mp_handle _ _ _ _ _ _ _ type lapic entry m) as [[u m1]|] eqn:Hh; [|done].
    pose proof (framed_handle _ _ _ _ _ _ Hh Hm) as Hk. change (if type =? MP_TYPE_CPU then 20 else 8) with (size_of type). pose proof (size_of_range type).
    rewrite (w32_small (entry + size_of type)), (w32_small (i + 1)) by lia.
    apply IH; [apply Hk|by apply (types_at_keeps m)|lia| |lia|lia].
    apply (counts_keeps m); [done|]. by replace (i + 1 + Z.of_nat (length types)) with (i + Z.of_nat (S (length types))) by lia.
Qed.

(** C37: the walk over the table calls the handler of each entry once, in order
    and at the entry, and ends, for every table of less than 2^16 entries that
    does not overlap the code's own table of buses: it is the plain recursion
    over the list of types, faults included. *)
Theorem mp_enumerate_walks mp config_table lapic_addr types m :
  mp <> NULL -> flag_set (Z.shiftr (w64 (device (po_trace (la_ports (mc_lapic m))) (QCpuid 1))) 32) CPUID_FEATURE_APIC = true ->
  mem_wf (mc_mem m) -> load32 (mp + 4) (mc_mem m) = Some (config_table, mc_mem m) ->
  let config := low_phys_to_virt config_table in
  load32 (config + 36) (mc_mem m) = Some (lapic_addr, mc_mem m) -> config + 44 < 2 ^ 32 ->
  counts (mc_mem m) config (Z.of_nat (length types)) -> types_at (mc_mem m) (config + 44) types ->
  mp_enumerate device arrivals stale_redirect fuel buses str_isa str_pci mp m =
    mp_walk (io_phys_to_virt lapic_addr) (config + 44) types m.
Proof.
  intros Hmp Hsup Hwf Hcfg config Hla Htop Hc Ht. unfold mp_enumerate. rewrite (proj2 (Z.eqb_neq mp NULL)) by done.
  assert (Hs : on_lapic (on_io (apic_supported device)) m = Some (true, m)).
  { rewrite <- Hsup. destruct m as [[[t i] ? ? ? ?] ? ? ?]. reflexivity. }
  rewrite (ST_run _ _ _ _ _ Hs). cbn [negb]. rewrite (ST_run _ _ _ _ _ (on_mem_run _ m _ Hcfg)). cbn zeta. fold config.
  rewrite (ST_run _ _ _ _ _ (on_mem_run _ m _ Hla)). unfold Config.sizeof_mp_config.
  assert (0 <= config) by (unfold config, low_phys_to_virt; apply w32_range). rewrite (w32_small (config + 44)) by lia.
  assert (Hcount : Z.of_nat (length types) < 65536).
  { destruct Hc as [(a & b & Ha & Hb & ->)%load16_eq _]. pose proof (Hwf _ _ Ha) as H1. pose proof (Hwf _ _ Hb) as H2.
    unfold is_byte in *. change (2 ^ 8) with 256. lia. }
  apply mp_enumerate_loop_eq; try done; lia.
Qed.
End walk.

(** ** An interrupt source *)

(** what the tables and the type of the bus ask for *)
Definition wanted_level (type int_type : Z) : bool :=
  let bits := Z.land (Z.shiftr int_type 2) 3 in
  if bits =? 0 then negb (type =? BUS_TYPE_ISA) else bits =? 3.
Definition wanted_high (type int_type : Z) : bool :=
  let bits := Z.land int_type 3 in
  if bits =? 0 then (type =? BUS_TYPE_ISA) && negb (wanted_level type int_type) else bits =? 1.

(** the entry [new] for the interrupt that arrives at the input [intin] *)
Record routed (type int_type intin old new : Z) : Prop := {
  routed_vector : field_get Redirect.vector new = (intin + 32) mod 256;
  routed_delivery : field_get Redirect.delivery new = 0;
  routed_mode : field_get Redirect.destination_mode new = 0;
  routed_status : field_get Redirect.status new = field_get Redirect.status old;
  routed_polarity : field_get Redirect.polarity new = if wanted_high type int_type then 0 else 1;
  routed_irr : field_get Redirect.remote_irr new = field_get Redirect.remote_irr old;
  routed_trigger : field_get Redirect.trigger new = if wanted_level type int_type then 1 else 0;
  routed_mask : field_get Redirect.mask new = 0;
  routed_reserved : field_get Redirect.reserved new = 0;
  routed_destination : field_get Redirect.destination new = 0;
}.

(** the word the code makes of the one it read *)
Definition wired (active_high level_triggered : bool) (intin redirect : Z) : Z :=
  let redirect := field_set Redirect.vector (intin + 32) redirect in
  let redirect := field_set Redirect.delivery IOAPIC_DELIVERY_FIXED redirect in
  let redirect := field_set Redirect.destination_mode IOAPIC_DESTINATION_PHYSICAL redirect in
  let redirect := field_set Redirect.polarity (if active_high then 0 else 1) redirect in
  let redirect := field_set Redirect.trigger (if level_triggered then 1 else 0) redirect in
  let redirect := field_set Redirect.mask 0 redirect in
  let redirect := field_set Redirect.reserved 0 redirect in
  field_set Redirect.destination 0 redirect.

Lemma routed_wired type int_type intin r old new :
  (forall f, field_ok f -> bf_off f + bf_width f <= 64 -> field_get f old = field_get f r) ->
  (forall f, field_ok f -> bf_off f + bf_width f <= 64 ->
    field_get f new = field_get f (wired (wanted_high type int_type) (wanted_level type int_type) intin r)) ->
  routed type int_type intin old new.
Proof.
  intros Hold Hnew. unfold wired in Hnew. cbn zeta in Hnew.
  split; rewrite Hnew by (first [field_side | by vm_compute]); fields; try reflexivity.
  - symmetry. apply Hold; [field_side|by vm_compute].
  - by destruct (wanted_high _ _).
  - symmetry. apply Hold; [field_side|by vm_compute].
  - by destruct (wanted_level _ _).
Qed.

Section io_interrupt.
Context (device : list port_event -> query -> Z) (stale_redirect : Z) (buses str_isa str_pci : Z) (Hbuses : 0 < buses).
Context (base id : Z) (d0 : router).
Context (Hbase : 0 < base) (Htop : base + 16 < 2 ^ 32) (Hid : 0 <= id < MAX_IOAPICS).
Context (Hdev : is_router device base d0) (Hwf : router_wf d0) (Hmax : router_entries d0 <= 120).

Definition routers_of (m : machine) : routers := Routers (mc_ioapics m) (la_ports (mc_lapic m)).
Definition with_routers (r : routers) (m : machine) : machine :=
  Machine (Lapic (rt_ports r) (la_enabled (mc_lapic m)) (la_ticks (mc_lapic m)) (la_booted (mc_lapic m)) (la_num_booted (mc_lapic m)))
    (rt_ioapics r) (mc_cpu_count m) (mc_mem m).
Definition drives_m (m : machine) (d : router) : Prop := drives base id d0 (routers_of m) d.

Lemma on_routers_run {B} (f : ST routers B) m b r :
  f (routers_of m) = Some (b, r) -> on_routers f m = Some (b, with_routers r m).
Proof. intros Hf. unfold on_routers, zoom. fold (routers_of m). by rewrite Hf. Qed.
Lemma routers_of_with r m : routers_of (with_routers r m) = r.
Proof. by destruct r. Qed.

(** the entry at [ptr] of the tables *)
Definition intr_at (mem : bytes) (ptr int_type flags_lo flags_hi bus irq apic intin : Z) : Prop :=
  bytes_at mem ptr [3; int_type; flags_lo; flags_hi; bus; irq; apic; intin] /\
  Forall is_byte [int_type; bus; apic; intin].

Lemma intr_field m ptr int_type f0 f1 bus irq apic intin k b :
  intr_at (mc_mem m) ptr int_type f0 f1 bus irq apic intin ->
  [3; int_type; f0; f1; bus; irq; apic; intin] !! k = Some b -> on_mem (load (ptr + Z.of_nat k)) m = Some (b, m).
Proof. intros [Hl _] Hk. apply on_mem_run, load_ok. by apply Hl. Qed.

Lemma bus_default_trigger_ok mem bus name : literals str_isa str_pci mem -> 0 <= bus ->
  bytes_at mem (buses + 8 * bus + 2) name -> length name = 6%nat -> Forall is_byte name ->
  bus_default_trigger buses str_isa str_pci bus mem = Some (negb (kind_of name =? BUS_TYPE_ISA), mem).
Proof.
  intros Hlit Hb Hn Hlen Hby. unfold bus_default_trigger.
  rewrite (ST_run _ _ _ _ _ (bus_type_ok buses str_isa str_pci Hbuses mem bus name Hlit Hb Hn Hlen Hby)).
  destruct (kind_of name =? BUS_TYPE_ISA); [done|]. by destruct (kind_of name =? BUS_TYPE_PCI).
Qed.

Lemma bus_default_polarity_ok mem bus name level : literals str_isa str_pci mem -> 0 <= bus ->
  bytes_at mem (buses + 8 * bus + 2) name -> length name = 6%nat -> Forall is_byte name -> kind_of name <> BUS_TYPE_UNKNOWN ->
  bus_default_polarity buses str_isa str_pci bus level mem = Some ((kind_of name =? BUS_TYPE_ISA) && negb level, mem).
Proof.
  intros Hlit Hb Hn Hlen Hby Hk. unfold bus_default_polarity.
  rewrite (ST_run _ _ _ _ _ (bus_type_ok buses str_isa str_pci Hbuses mem bus name Hlit Hb Hn Hlen Hby)).
  destruct (kind_of_cases name) as [E|[E|E]]; rewrite E in *; done.
Qed.

(** the wiring of an input that was read as [r] *)
Lemma wire_ok m d type int_type intin r :
  drives_m m d -> 0 <= intin < router_entries d ->
  (forall f, field_ok f -> bf_off f + bf_width f <= 64 -> field_get f (redirect_of d intin) = field_get f r) ->
  exists m' d',
    (_ ← on_routers (ioapic_set_redirect device id intin (wired (wanted_high type int_type) (wanted_level type int_type) intin r));
     on_routers (ioapic_print_redirect device stale_redirect id intin)) m = Some (tt, m') /\
    drives_m m' d' /\ mc_mem m' = mc_mem m /\
    (forall x, x <> 16 + 2 * intin -> x <> 17 + 2 * intin -> ro_reg d' x = ro_reg d x) /\
    routed type int_type intin (redirect_of d intin) (redirect_of d' intin).
Proof.
  intros Hd Hlt Hr. set (w := wired _ _ _ _).
  assert (Hsame : forall f, field_ok f -> f = Redirect.status \/ f = Redirect.remote_irr -> field_get f w = field_get f r).
  { intros f _ [->| ->]; unfold w, wired; cbn zeta; by fields. }
  destruct (ioapic_set_redirect_keep device base id d0 Hbase Htop Hid Hdev Hwf Hmax (routers_of m) d intin w Hd Hlt)
    as (s1 & d1 & Hrun1 & Hd1 & Hg1 & He1 & Hf1 & Hx1).
  { rewrite Hsame by (first [field_side | tauto]). symmetry. apply Hr; [field_side|by vm_compute]. }
  { rewrite Hsame by (first [field_side | tauto]). symmetry. apply Hr; [field_side|by vm_compute]. }
  destruct (ioapic_print_redirect_ok device stale_redirect base id d0 Hbase Htop Hid Hdev Hwf Hmax s1 d1 intin Hd1 ltac:(lia))
    as (s2 & sel & Hrun2 & Hd2 & Hg2).
  exists (with_routers s2 (with_routers s1 m)), (Router sel (ro_regs d1)). split; [|split; [|split; [done|split]]].
  - rewrite (ST_run _ _ _ _ _ (on_routers_run _ m _ _ Hrun1)). apply on_routers_run. by rewrite routers_of_with.
  - unfold drives_m. by rewrite routers_of_with.
  - intros x H1 H2. exact (Hx1 x H1 H2).
  - apply (routed_wired _ _ _ r); [exact Hr|exact Hf1].
Qed.

(** an input the router does not have *)
Lemma unwired_ok m d intin w :
  drives_m m d -> 0 <= intin /\ router_entries d <= intin ->
  exists m' d',
    (_ ← on_routers (ioapic_set_redirect device id intin w);
     on_routers (ioapic_print_redirect device stale_redirect id intin)) m = Some (tt, m') /\
    drives_m m' d' /\ mc_mem m' = mc_mem m /\ ro_regs d' = ro_regs d.
Proof.
  intros Hd [Hint Hge].
  destruct (ioapic_set_redirect_bad device base id d0 Hbase Htop Hid Hdev Hwf (routers_of m) d intin w Hd Hge)
    as (s1 & Hrun1 & Hd1 & Hg1).
  destruct (ioapic_print_redirect_ok device stale_redirect base id d0 Hbase Htop Hid Hdev Hwf Hmax s1 _ intin Hd1 Hint)
    as (s2 & sel & Hrun2 & Hd2 & Hg2).
  exists (with_routers s2 (with_routers s1 m)), (Router sel (ro_regs d)). split; [|split; [|done]].
  - rewrite (ST_run _ _ _ _ _ (on_routers_run _ m _ _ Hrun1)). apply on_routers_run. by rewrite routers_of_with.
  - unfold drives_m. by rewrite routers_of_with.
Qed.

(** an entry of the tables for an interrupt of a bus that is known sets up
    the input of the router it names, if that is there and still masked: vector
    32 and up, delivered to processor 0, unmasked, with the trigger and polarity
    the entry's byte says or else those of the bus; the two bits the router
    keeps are kept.  Nothing else of the router changes, nothing at all changes
    for another entry, and no byte of memory is written.  What the [flags] of
    the entry say does not matter. *)
Theorem mp_handle_io_interrupt_spec m d lapic ptr int_type f0 f1 bus irq apic intin name :
  drives_m m d -> intr_at (mc_mem m) ptr int_type f0 f1 bus irq apic intin ->
  (if apic =? 0xff then 0 else apic) = id -> literals str_isa str_pci (mc_mem m) ->
  bytes_at (mc_mem m) (buses + 8 * bus + 2) name -> length name = 6%nat -> Forall is_byte name ->
  exists m' d',
    mp_handle_io_interrupt device stale_redirect buses str_isa str_pci lapic ptr m = Some (tt, m') /\
    drives_m m' d' /\ mc_mem m' = mc_mem m /\
    (forall x, x <> 16 + 2 * intin -> x <> 17 + 2 * intin -> ro_reg d' x = ro_reg d x) /\
    if negb (kind_of name =? BUS_TYPE_UNKNOWN) && (intin <? router_entries d) &&
       (field_get Redirect.mask (redirect_of d intin) =? 1)
    then routed (kind_of name) int_type intin (redirect_of d intin) (redirect_of d' intin)
    else redirect_of d' intin = redirect_of d intin.
Proof.
  intros Hd Hat Hdest Hlit Hn Hlen Hby. pose proof Hat as [Hl Hbytes]. repeat apply Forall_cons in Hbytes as [? Hbytes].
  assert (Hbus : 0 <= bus) by (unfold is_byte in *; lia). assert (Hint : 0 <= intin) by (unfold is_byte in *; lia).
  pose proof (intr_field m ptr int_type f0 f1 bus irq apic intin) as Hf.
  unfold mp_handle_io_interrupt, Intr.int_type, Intr.source_bus_id, Intr.dest_apic_id, Intr.dest_apic_intin.
  rewrite (ST_run _ _ _ _ _ (Hf 1%nat int_type Hat eq_refl)), (ST_run _ _ _ _ _ (Hf 4%nat bus Hat eq_refl)),
    (ST_run _ _ _ _ _ (Hf 6%nat apic Hat eq_refl)), (ST_run _ _ _ _ _ (Hf 7%nat intin Hat eq_refl)).
  rewrite (ST_run _ _ _ _ _ (on_mem_run _ m _ (bus_type_ok buses str_isa str_pci Hbuses _ bus name Hlit Hbus Hn Hlen Hby))).
  destruct (Z.eqb_spec (kind_of name) BUS_TYPE_UNKNOWN) as [Hk|Hk].
  { exists m, d. cbn [negb andb]. done. }
  cbn zeta. rewrite Hdest.
  assert (Hlevel : forall m1, mc_mem m1 = mc_mem m ->
    (if negb (Z.land (Z.shiftr int_type 2) 3 =? 0) then mret (Z.land (Z.shiftr int_type 2) 3 =? 3)
     else on_mem (bus_default_trigger buses str_isa str_pci bus)) m1 = Some (wanted_level (kind_of name) int_type, m1)).
  { intros m1 Hm1. unfold wanted_level. destruct (_ =? 0); cbn [negb]; [|done].
    apply on_mem_run. rewrite Hm1. by apply bus_default_trigger_ok. }
  assert (Hhigh : forall m1, mc_mem m1 = mc_mem m ->
    (if negb (Z.land int_type 3 =? 0) then mret (Z.land int_type 3 =? 1)
     else on_mem (bus_default_polarity buses str_isa str_pci bus (wanted_level (kind_of name) int_type))) m1 =
      Some (wanted_high (kind_of name) int_type, m1)).
  { intros m1 Hm1. unfold wanted_high. destruct (Z.land int_type 3 =? 0); cbn [negb]; [|done].
    apply on_mem_run. rewrite Hm1. by apply bus_default_polarity_ok. }
  destruct (Z.ltb_spec intin (router_entries d)) as [Hlt|Hge]; cbn [negb andb].
  - destruct (ioapic_get_redirect_ok device stale_redirect base id d0 Hbase Htop Hid Hdev Hwf Hmax (routers_of m) d intin Hd (conj Hint Hlt))
      as (s1 & r & Hrun1 & Hrl & Hru & Hd1 & Hg1).
    rewrite (ST_run _ _ _ _ _ (on_routers_run _ m _ _ Hrun1)), (ST_run _ _ _ _ _ (Hlevel (with_routers s1 m) eq_refl)),
      (ST_run _ _ _ _ _ (Hhigh (with_routers s1 m) eq_refl)).
    assert (Hfield : forall f, field_ok f -> bf_off f + bf_width f <= 64 -> field_get f (redirect_of d intin) = field_get f r).
    { intros f Hfo Hf64. by apply field_get_halves. }
    rewrite (Hfield Redirect.mask) by (first [field_side|by vm_compute]).
    pose proof (field_get_range Redirect.mask r ltac:(field_side)) as Hmr. simpl in Hmr. change (2 ^ 1) with 2 in Hmr.
    destruct (Z.eqb_spec (field_get Redirect.mask r) 0) as [Hm0|Hm0].
    + rewrite Hm0. exists (with_routers s1 m), (Router (17 + 2 * intin) (ro_regs d)).
      split; [done|]. split; [unfold drives_m; rewrite routers_of_with; exact Hd1|]. done.
    + assert (field_get Redirect.mask r = 1) as -> by lia. rewrite Z.eqb_refl.
      destruct (wire_ok (with_routers s1 m) (Router (17 + 2 * intin) (ro_regs d)) (kind_of name) int_type intin r)
        as (m' & d' & Hrun & Hd' & Hmem & Hregs & Hrt).
      * unfold drives_m. by rewrite routers_of_with.
      * exact (conj Hint Hlt).
      * exact Hfield.
      * exists m', d'. split; [exact Hrun|]. split; [done|]. split; [exact Hmem|]. split; [exact Hregs|exact Hrt].
  - destruct (ioapic_get_redirect_bad device stale_redirect base id d0 Hbase Htop Hid Hdev Hwf (routers_of m) d intin Hd Hge)
      as (s1 & Hrun1 & Hd1 & Hg1).
    rewrite (ST_run _ _ _ _ _ (on_routers_run _ m _ _ Hrun1)), (ST_run _ _ _ _ _ (Hlevel (with_routers s1 m) eq_refl)),
      (ST_run _ _ _ _ _ (Hhigh (with_routers s1 m) eq_refl)).
    destruct (field_get Redirect.mask stale_redirect =? 0).
    + exists (with_routers s1 m), (Router IOAPIC_REG_VERSION (ro_regs d)).
      split; [done|]. split; [unfold drives_m; by rewrite routers_of_with|]. done.
    + destruct (unwired_ok (with_routers s1 m) (Router IOAPIC_REG_VERSION (ro_regs d)) intin
        (wired (wanted_high (kind_of name) int_type) (wanted_level (kind_of name) int_type) intin stale_redirect))
        as (m' & d' & Hrun & Hd' & Hmem & Hregs).
      * unfold drives_m. by rewrite routers_of_with.
      * exact (conj Hint Hge).
      * exists m', d'. split; [exact Hrun|]. split; [done|]. split; [exact Hmem|].
        split; [intros x _ _; unfold ro_reg; by rewrite Hregs|]. unfold redirect_of, ro_reg. by rewrite Hregs.
Qed.
End io_interrupt.

(** ** Concrete tables *)

(** bus 1 is an ISA bus; a source of it is wired to the input 4 of router 2 *)
Definition ex_tables : bytes := mem_of
  [(0x10, [73; 83; 65; 0]); (0x20, [80; 67; 73; 0]);
   (0x100, replicate 8 0 ++ [1; 1; 73; 83; 65; 32; 32; 32] ++ replicate 240 0);
   (0x300, [3; 0; 0; 0; 1; 4; 2; 4]);
   (0x400, [95; 77; 80; 95; 0; 0x10; 0; 0]);
   (0xfd001000, replicate 34 0 ++ [2; 0; 0; 0; 0xe0; 0xfe] ++ replicate 4 0 ++
     [1; 3; 80; 67; 73; 32; 32; 32] ++ [4; 0; 0; 0; 3; 0; 0; 0])].
Definition ex_masked : router := Router 0 (<[IOAPIC_REG_VERSION := 0x170011]> (<[0x18 := 0x10000]> ∅)).
Definition ex_mp_device (t : list port_event) (q : query) : Z :=
  match q with
  | QMmio a => if a =? ex_base + 16 then ro_reg (router_run ex_base t ex_masked) (ro_select (router_run ex_base t ex_masked)) else 0
  | QPort _ => 0xff
  | QMsr _ => 0xfee00900
  | QCpuid _ => 2 ^ 41
  | QTsc => 0
  end.
Definition ex_machine : machine := Machine ex_lapic (<[2%nat := ex_base]> (replicate 32 0)) 0 ex_tables.

Lemma ex_masked_wf : router_wf ex_masked.
Proof.
  intros r. unfold ro_reg, ex_masked. simpl. destruct (decide (r = 1)) as [->|]; [by vm_compute|].
  rewrite lookup_insert_ne by (unfold IOAPIC_REG_VERSION; lia).
  destruct (decide (r = 0x18)) as [->|]; [by vm_compute|]. rewrite lookup_insert_ne by lia. by vm_compute.
Qed.
Lemma ex_is_masked_router : is_router ex_mp_device ex_base ex_masked.
Proof. intros t. unfold ex_mp_device. by rewrite Z.eqb_refl. Qed.
Lemma ex_drives_m : drives_m ex_base 2 ex_masked ex_machine ex_masked.
Proof. split; reflexivity. Qed.
Lemma ex_literals : literals 0x10 0x20 ex_tables.
Proof. split; mem_vm. Qed.
Lemma ex_intr_at : intr_at ex_tables 0x300 0 0 0 1 4 2 4.
Proof. split; [mem_vm|]. by repeat constructor. Qed.

Lemma mp_handle_io_interrupt_spec_witness : exists m' d',
  mp_handle_io_interrupt ex_mp_device 7 0x100 0x10 0x20 0xfea00000 0x300 ex_machine = Some (tt, m') /\
  drives_m ex_base 2 ex_masked m' d' /\ field_get Redirect.vector (redirect_of d' 4) = 36 /\
  field_get Redirect.mask (redirect_of d' 4) = 0 /\ field_get Redirect.polarity (redirect_of d' 4) = 0.
Proof.
  destruct (mp_handle_io_interrupt_spec ex_mp_device 7 0x100 0x10 0x20 ltac:(lia) ex_base 2 ex_masked ltac:(unfold ex_base; lia)
    ltac:(unfold ex_base; lia) ltac:(unfold MAX_IOAPICS; lia) ex_is_masked_router ex_masked_wf ltac:(by vm_compute)
    ex_machine ex_masked 0xfea00000 0x300 0 0 0 1 4 2 4 [73; 83; 65; 32; 32; 32] ex_drives_m ex_intr_at eq_refl ex_literals
    ltac:(mem_vm) eq_refl ltac:(by repeat constructor))
    as (m' & d' & Hrun & Hd & _ & _ & Hw).
  exists m', d'. split; [exact Hrun|]. split; [exact Hd|].
  assert (Hc : negb (kind_of [73; 83; 65; 32; 32; 32] =? BUS_TYPE_UNKNOWN) && (4 <? router_entries ex_masked) &&
    (field_get Redirect.mask (redirect_of ex_masked 4) =? 1) = true) by (vm_compute; reflexivity).
  rewrite Hc in Hw. destruct Hw. split; [rewrite routed_vector0; vm_compute; reflexivity|].
  split; [exact routed_mask0|]. rewrite routed_polarity0. vm_compute. reflexivity.
Defined.

Lemma ex_mp_timer t : exists k, (k + 1 < 2)%nat /\ Z.testbit (poll_answer ex_mp_device t k) 7 = true.
Proof. exists 0%nat. split; [lia|]. by vm_compute. Qed.

Lemma mp_boot_cpu_spec_witness : exists s1 s',
  mp_boot_cpu ex_mp_device (fun _ => []) 2 0xfea00000 1 3 2 ex_lapic = Some (tt, s') /\
  told 0xfea00000 ex_lapic s1 [(0xc500, 3); (0x8500, 3); (0x060a, 3)] /\ told 0xfea00000 s1 s' [(0x060a, 3)].
Proof.
  destruct (mp_boot_cpu_spec ex_mp_device (fun _ => []) 2 0xfea00000 3 2 ltac:(unfold apic_at; lia) eq_refl ex_mp_timer
    ltac:(lia) ltac:(lia) 1 ex_lapic eq_refl) as (s1 & s' & Hrun & Ht1 & Ht2).
  exists s1, s'. split; [exact Hrun|]. split; [exact Ht1|].
  destruct Ht1 as (E & _). assert (Hb : booted_word (fun _ => []) s1 = 1) by (rewrite E; reflexivity).
  rewrite Hb in Ht2. exact Ht2.
Defined.

Lemma mp_enumerate_walks_witness :
  mp_enumerate ex_mp_device (fun _ => []) 7 2 0x100 0x10 0x20 0x400 ex_machine =
    mp_walk ex_mp_device (fun _ => []) 7 2 0x100 0x10 0x20 0xfea00000 0xfd00102c [1; 4] ex_machine.
Proof.
  apply (mp_enumerate_walks ex_mp_device (fun _ => []) 7 2 0x100 0x10 0x20 0x400 0x1000 0xfee00000 [1; 4] ex_machine).
  - unfold NULL. lia.
  - vm_compute. reflexivity.
  - apply mem_wf_check. vm_compute. reflexivity.
  - apply (load32_ok _ _ 0 0x10 0 0). mem_vm.
  - apply (load32_ok _ _ 0 0 0xe0 0xfe). mem_vm.
  - vm_compute. reflexivity.
  - split; [apply load16_eq; exists 2, 0; split; [|split]; vm_compute; reflexivity|].
    unfold within. vm_compute. split; intros [? ?]; congruence.
  - split_and!; unfold within; vm_compute; intuition congruence.
Defined.
