(* ===== verification/Smp.v ===== *)
(** Starting the other processors: [smp_init] and the code before the idle loop
    of a started processor, of [arch/x86/apic-utils.c].

    The state is that of the tables and the controllers ([Mp]) and that of the
    page tables ([Paging]); messages to the console are left out. *)
From S2P Require Export Mp.

Record smp := Smp { sm_machine : machine; sm_mmu : mmu }.
Abbreviation SMP := (ST smp).

Section smp.
Context (device : list port_event -> query -> Z) (arrivals : list port_event -> list Z).
Context (stale_redirect : Z) (fuel : nat).
Context (buses str_isa str_pci str_mp : Z).
(** where the code for a processor that starts is, and how long it is *)
Context (smp_boot_start smp_boot_size : Z).

Definition on_machine {B} (m : MP B) : SMP B := zoom sm_machine (fun x s => Smp x (sm_mmu s)) m.
Definition on_mmu {B} (m : PST B) : SMP B := zoom sm_mmu (fun x s => Smp (sm_machine s) x) m.

Definition smp_copy_boot_code : MEM unit :=
  let bootaddr := low_phys_to_virt 0xa000 in
  _ ← memcpy bootaddr smp_boot_start smp_boot_size; mret tt.

(** the loop ends when the address wraps around to 0 *)
Fixpoint smp_map_loop (turns : nat) (p : Z) : PST unit :=
  match turns with
  | O => fault
  | S turns =>
      if p =? 0 then mret tt
      else
        _ ← map_phys_page_4mb (Z.lor (Z.lor PAGE_READ PAGE_WRITE) PAGE_SUPERVISOR) (io_phys_to_virt p) p;
        smp_map_loop turns (w32 (p + 0x400000))
  end.

Definition smp_init : SMP unit :=
  _ ← on_mmu (smp_map_loop 6 IO_PHYS_BASE);
  supported ← on_machine (on_lapic (on_io (apic_supported device)));
  _ ← (if negb supported then mret tt
       else
         _ ← on_machine (on_lapic (apic_timer_usec_to_ticks device fuel 1000000));
         _ ← on_machine (on_lapic (on_io disable_pic));
         _ ← on_machine (on_mem smp_copy_boot_code);
         _ ← on_machine (on_lapic (apic_enable device));
         mp ← on_machine (on_mem (mp_find str_mp));
         if negb (mp =? NULL)
         then on_machine (mp_enumerate device arrivals stale_redirect fuel buses str_isa str_pci mp)
         else mret tt);
  on_machine (on_lapic (on_io (apic_timer_one_shot device 0x800000))).
End smp.

(** ** The memory of the devices *)

(** an entry of the directory that maps the 4 MB at [p] *)
Definition maps_4mb (x p : Z) : Prop :=
  flag_set x PAGE_ARCH_PRESENT = true /\ flag_set x PAGE_ARCH_4MB_ENTRY = true /\ x / 2 ^ 22 * 2 ^ 22 = p.

Lemma entry_4mb p perms : 0 <= p -> p mod 2 ^ 22 = 0 -> p + 2 ^ 22 <= 2 ^ 32 ->
  let x := Z.lor (add_page_flags p perms) PAGE_ARCH_4MB_ENTRY in maps_4mb x p /\ 0 <= x < 2 ^ 32.
Proof.
  intros Hp Hm Ht x. destruct (page_flags_range perms) as [Hf Hpres].
  assert (Hlow : 0 <= Z.lor (page_flags perms) PAGE_ARCH_4MB_ENTRY < 256).
  { rewrite Z.lor_comm, (lor_low _ _ 7); unfold PAGE_ARCH_4MB_ENTRY; [lia|lia|reflexivity|lia]. }
  assert (Hx : x = p + Z.lor (page_flags perms) PAGE_ARCH_4MB_ENTRY).
  { unfold x, add_page_flags. rewrite <- Z.lor_assoc. apply (lor_low _ _ 22); [lia|done|]. lia. }
  split; [split; [|split]|lia].
  - unfold x, add_page_flags. rewrite present_odd, !Z.lor_spec, <- (present_odd (page_flags perms)), Hpres. by rewrite orb_true_r.
  - unfold x. rewrite bit7_flag, Z.lor_spec. by rewrite orb_true_r.
  - rewrite Hx. apply Z.div_exact in Hm; [|done]. rewrite Hm at 1. rewrite (Z.mul_comm (2 ^ 22)), Z.div_add_l by done.
    rewrite (Z.div_small (Z.lor _ _)) by lia. lia.
Qed.

Section entry.
Context (s : mmu) (d x : Z) (Hw : mmu_wf s) (Hd : 0 <= d < 1023) (Hx : 0 <= x < 2 ^ 32).
Context (H4 : flag_set x PAGE_ARCH_4MB_ENTRY = true).

Lemma set_4mb_pde i : 0 <= i < 1024 -> pde (mem_set (pd s + 4 * d) x s) i = if decide (i = d) then x else pde s i.
Proof.
  intros Hi. unfold pde. change (pd (mem_set _ _ s)) with (pd s). rewrite mem_get_set.
  destruct (decide (i = d)) as [->|Hne]; [by rewrite decide_True|]. rewrite decide_False; [done|]. lia.
Qed.

Lemma set_4mb_is_table i : is_table (mem_set (pd s + 4 * d) x s) i -> is_table s i /\ i <> d.
Proof.
  intros (Hi & Hp & Hb). rewrite set_4mb_pde in * by done. destruct (decide (i = d)) as [->|]; [congruence|]. done.
Qed.

Lemma set_4mb_wf : mmu_wf (mem_set (pd s + 4 * d) x s).
Proof.
  assert (Htab : forall i, is_table (mem_set (pd s + 4 * d) x s) i -> table_of (mem_set (pd s + 4 * d) x s) i = table_of s i).
  { intros i Hi. unfold table_of. rewrite set_4mb_pde by apply Hi. apply set_4mb_is_table in Hi as [_ ?]. by rewrite decide_False. }
  destruct (mw_rec s Hw) as [Hr Hrt].
  assert (Hrec : is_table (mem_set (pd s + 4 * d) x s) 1023).
  { unfold is_table. rewrite set_4mb_pde by lia. rewrite decide_False by lia. apply Hr. }
  split.
  - intros a. rewrite mem_get_set. case_decide; [done|]. apply (mw_range s Hw).
  - apply (mw_cr3 s Hw).
  - split; [done|]. by rewrite Htab.
  - intros i j Hi Hj. rewrite !Htab by done. apply set_4mb_is_table in Hi as [Hi _], Hj as [Hj _]. by apply (mw_tables s Hw).
  - apply (mw_region s Hw).
  - intros i Hi. rewrite Htab by done. apply set_4mb_is_table in Hi as [Hi _]. by apply (mw_used s Hw).
Qed.
End entry.

(** the words of memory are all that changed *)
Definition words_only (s s' : mmu) : Prop := s' = Mmu (pm_mem s') (pm_cr3 s) (pm_tlb s) (pm_physical s) (pm_global s).
Lemma words_refl s : words_only s s.
Proof. by destruct s. Qed.
Lemma words_trans s1 s2 s3 : words_only s1 s2 -> words_only s2 s3 -> words_only s1 s3.
Proof. unfold words_only. intros -> ->. done. Qed.

Lemma map_phys_page_4mb_ok s perms d t o p :
  mmu_wf s -> indices d t o -> d <> 1023 -> 0 <= p -> p mod 2 ^ 22 = 0 -> p + 2 ^ 22 <= 2 ^ 32 ->
  exists s', map_phys_page_4mb perms (vaddr_of d t o) p s = Some (vaddr_of d t o, s') /\ mmu_wf s' /\
    maps_4mb (pde s' d) p /\ words_only s s' /\ forall i, 0 <= i < 1024 -> i <> d -> pde s' i = pde s i.
Proof.
  intros Hw Hi Hd Hp Hm Ht. destruct (entry_4mb p perms Hp Hm Ht) as [Hbig Hx]. pose proof Hi as (Hd' & _).
  unfold map_phys_page_4mb. rewrite vaddr_dirent by done.
  exists (mem_set (pd s + 4 * d) (Z.lor (add_page_flags p perms) PAGE_ARCH_4MB_ENTRY) s). split; [|split; [|split; [|split; [done|]]]].
  - unfold vwrite. rewrite dir_addr, ST_bind_eq, walk_dir by done. reflexivity.
  - apply set_4mb_wf; [done|lia|done|apply Hbig].
  - rewrite set_4mb_pde by (done || lia). by rewrite decide_True.
  - intros i Hi' Hne. rewrite set_4mb_pde by (done || lia). by rewrite decide_False.
Qed.

Lemma io_page k : 0 <= k < 5 -> io_phys_to_virt (IO_PHYS_BASE + k * 2 ^ 22) = vaddr_of (1018 + k) 0 0.
Proof.
  intros Hk. unfold io_phys_to_virt, vaddr_of, IO_PHYS_BASE, IO_VIRTUAL_BASE.
  rewrite (w32_small (_ - _)) by lia. rewrite w32_small by lia. lia.
Qed.

Lemma smp_map_loop_ok n k s turns :
  mmu_wf s -> 0 <= k -> Z.of_nat n + k = 5 -> (n < turns)%nat ->
  exists s', smp_map_loop turns (w32 (IO_PHYS_BASE + k * 2 ^ 22)) s = Some (tt, s') /\ mmu_wf s' /\
    (forall j, k <= j < 5 -> maps_4mb (pde s' (1018 + j)) (IO_PHYS_BASE + j * 2 ^ 22)) /\ words_only s s' /\
    forall i, 0 <= i < 1024 -> i < 1018 + k \/ i = 1023 -> pde s' i = pde s i.
Proof.
  revert k s turns. induction n as [|n IH]; intros k s [|turns] Hw Hk Hn Hturns; try lia.
  - assert (k = 5) as -> by lia. exists s. split; [reflexivity|]. split; [done|]. split; [lia|]. split; [apply words_refl|done].
  - assert (Hp : w32 (IO_PHYS_BASE + k * 2 ^ 22) = IO_PHYS_BASE + k * 2 ^ 22) by (apply w32_small; unfold IO_PHYS_BASE; lia).
    cbn [smp_map_loop]. rewrite Hp. rewrite (proj2 (Z.eqb_neq _ 0)) by (unfold IO_PHYS_BASE; lia).
    rewrite io_page by lia.
    destruct (map_phys_page_4mb_ok s (Z.lor (Z.lor PAGE_READ PAGE_WRITE) PAGE_SUPERVISOR) (1018 + k) 0 0 (IO_PHYS_BASE + k * 2 ^ 22))
      as (s1 & Hrun & Hw1 & Hbig & Hwo & Hother); [done|split; lia|lia|unfold IO_PHYS_BASE; lia| |unfold IO_PHYS_BASE; lia|].
    { rewrite Z.mod_add by done. reflexivity. }
    rewrite (ST_run _ _ _ _ _ Hrun).
    destruct (IH (k + 1) s1 turns) as (s2 & Hrun2 & Hw2 & Hbig2 & Hwo2 & Hother2); [done|lia|lia|lia|].
    exists s2. split; [|split; [done|split; [|split; [by eapply words_trans|]]]].
    + rewrite <- Hrun2. f_equal. f_equal. lia.
    + intros j Hj. destruct (decide (j = k)) as [->|]; [|apply Hbig2; lia]. rewrite Hother2 by lia. exact Hbig.
    + intros i Hi Hi'. rewrite Hother2 by lia. apply Hother; lia.
Qed.

(** a processor without a local APIC: nothing but the mapping and the timer *)
Lemma smp_init_alone device arrivals stale fuel buses isa pci mp start size s :
  mmu_wf (sm_mmu s) -> Z.testbit (Z.shiftr (w64 (device (po_trace (la_ports (mc_lapic (sm_machine s)))) (QCpuid CPUID_GET_FEATURES))) 32) 9 = false ->
  exists p m, smp_init device arrivals stale fuel buses isa pci mp start size s =
      Some (tt, Smp (Machine (with_ports p (mc_lapic (sm_machine s))) (mc_ioapics (sm_machine s)) (mc_cpu_count (sm_machine s)) (mc_mem (sm_machine s))) m) /\
    mmu_wf m /\ words_only (sm_mmu s) m /\ forall i, 0 <= i < 1024 -> i < 1018 \/ i = 1023 -> pde m i = pde (sm_mmu s) i.
Proof.
  intros Hw Hno. destruct (smp_map_loop_ok 5 0 (sm_mmu s) 6 Hw) as (m & Hrun & Hw' & _ & Hwo & Hother); [lia|lia|lia|].
  destruct s as [[l io n b] m0]. cbn [sm_mmu sm_machine mc_lapic mc_ioapics mc_cpu_count mc_mem] in *.
  eexists _, m. split; [|split; [done|split; [done|]]].
  - unfold smp_init. rewrite (ST_run _ _ _ tt (Smp (Machine l io n b) m)) by (change (w32 (IO_PHYS_BASE + 0 * 2 ^ 22)) with IO_PHYS_BASE in Hrun; unfold on_mmu, zoom; cbn [sm_mmu]; by rewrite Hrun).
    rewrite (ST_run _ _ _ false (Smp (Machine (with_ports (la_ports l) l) io n b) m)).
    2: { assert (Hs : apic_supported device (la_ports l) = Some (false, la_ports l)).
         { unfold apic_supported, cpuid, gets. rewrite !ST_bind_eq. unfold mret, ST_ret. cbn [snd].
           change CPUID_FEATURE_APIC with (2 ^ 9). by rewrite flag_set_bit, Hno by lia. }
         unfold on_machine, on_lapic, zoom. cbn [sm_machine mc_lapic]. by rewrite (on_io_run _ l _ _ Hs). }
    cbn [negb]. rewrite (ST_run _ _ _ tt (Smp (Machine (with_ports (la_ports l) l) io n b) m)) by done.
    reflexivity.
  - intros i Hi Hi'. apply Hother; lia.
Qed.

(** the first thing [smp_init] does, mapping the device registers, ends after
    five entries, when the address wraps around: each physical address from
    0xfec00000 to the end is then at the address [io_phys_to_virt] says, the
    page tables keep their invariant, and no other entry of the directory
    changes, the one that maps the directory itself included. *)
Theorem smp_map_spec s : mmu_wf s ->
  exists s', smp_map_loop 6 IO_PHYS_BASE s = Some (tt, s') /\ mmu_wf s' /\
    (forall a, IO_PHYS_BASE <= a < 2 ^ 32 -> Paging.walk s' (io_phys_to_virt a) = Some a) /\
    forall i, 0 <= i < 1024 -> i < 1018 \/ i = 1023 -> pde s' i = pde s i.
Proof.
  intros Hw. destruct (smp_map_loop_ok 5 0 s 6 Hw) as (s' & Hrun & Hw' & Hbig & _ & Hother); [lia|lia|lia|].
  exists s'. split; [exact Hrun|]. split; [done|]. split; [|intros i Hi Hi'; apply Hother; lia].
  intros a Ha. set (r := a - IO_PHYS_BASE). set (j := r / 2 ^ 22).
  assert (Hr : 0 <= r < 5 * 2 ^ 22) by (unfold r, IO_PHYS_BASE in *; lia).
  pose proof (Z.div_mod r (2 ^ 22) ltac:(done)) as Hd. fold j in Hd.
  pose proof (Z.mod_pos_bound r (2 ^ 22) ltac:(done)) as Hm.
  pose proof (Z.div_mod (r mod 2 ^ 22) 4096 ltac:(done)) as Hd2. pose proof (Z.mod_pos_bound (r mod 2 ^ 22) 4096 ltac:(done)) as Hm2.
  assert (Hj : 0 <= j < 5) by lia.
  assert (Ht : 0 <= r mod 2 ^ 22 / 4096 < 1024) by (change (2 ^ 22) with 4194304 in *; lia).
  assert (Hv : io_phys_to_virt a = vaddr_of (1018 + j) (r mod 2 ^ 22 / 4096) (r mod 2 ^ 22 mod 4096)).
  { unfold io_phys_to_virt. fold r. rewrite (w32_small r) by lia. unfold vaddr_of, IO_VIRTUAL_BASE.
    rewrite w32_small by lia. change (2 ^ 22) with 4194304 in *. lia. }
  rewrite Hv, walk_eq by (split; [lia|split; [exact Ht|lia]]).
  destruct (Hbig j) as (Hp & H4 & Hb); [lia|]. rewrite Hp, H4, Hb. f_equal. unfold r in *. change (2 ^ 22) with 4194304 in *. lia.
Qed.

Lemma smp_map_spec_witness : exists s', smp_map_loop 6 IO_PHYS_BASE mmu_ex = Some (tt, s') /\
  Paging.walk s' 0xfea00020 = Some 0xfee00020.
Proof.
  destruct (smp_map_spec mmu_ex mmu_ex_wf) as (s' & Hrun & _ & Hwalk & _).
  exists s'. split; [exact Hrun|]. apply (Hwalk 0xfee00020). unfold IO_PHYS_BASE. lia.
Defined.
