(* ===== verification/Timer.v ===== *)
(** Time by the cycle counter: [arch/x86/timer.c].

    A reading of the counter is an event of the trace; its 64 bits are the
    processor's.  The frequency is measured once, against the interval timer. *)
From S2P Require Export Apic.

Record timers := Timers {
  tm_lapic : lapic;
  tm_starting_cpu : Z;
  tm_cpu_frequency : Z;
}.
Abbreviation TM := (ST timers).

Section timer.
Context (device : list port_event -> query -> Z) (arrivals : list port_event -> list Z) (fuel : nat).

Definition on_la {B} (m : LA B) : TM B :=
  zoom tm_lapic (fun l s => Timers l (tm_starting_cpu s) (tm_cpu_frequency s)) m.

(** [rdtsc] *)
Definition timer_get_timestamp : IO Z :=
  t ← gets po_trace;
  let v := w64 (device t QTsc) in
  _ ← emit (Tsc v);
  let a := w32 v in
  let d := Z.shiftr v 32 in
  mret (Z.lor (w64 (Z.shiftl d 32)) a).

Definition measure_cpu_freq : IO Z :=
  start ← timer_get_timestamp;
  _ ← pit_wait_poll device fuel PIT_WAIT_10MS;
  end_ ← timer_get_timestamp;
  mret (w64 (w64 (end_ - start) * 100)).

(** a division by 0 is a fault of the processor *)
Definition div64 (a b : Z) : TM Z := if b =? 0 then fault else mret (a / b).

Definition timer_get_timestamp_ns : TM Z :=
  ts ← on_la (on_io timer_get_timestamp);
  f ← gets tm_cpu_frequency;
  div64 (w64 (ts * 1000000)) (f / 1000).

Definition timers_init : TM unit :=
  starting_cpu ← on_la (sched_current_cpu device arrivals);
  _ ← modify (fun s => Timers (tm_lapic s) starting_cpu (tm_cpu_frequency s));
  cpu_frequency ← on_la (on_io measure_cpu_freq);
  modify (fun s => Timers (tm_lapic s) (tm_starting_cpu s) cpu_frequency).

(** the product is one of signed integers, which wrap around as gcc has them;
    it is divided as an unsigned one; the assertion only prints *)
Definition timer_uptime : TM Z :=
  ts ← on_la (on_io timer_get_timestamp);
  let uptime := i64 ts in
  f ← gets tm_cpu_frequency;
  div64 (w64 (i64 (uptime * 1000000))) (f / 1000).

(** ** Accuracy and overflow *)

Lemma timestamp_run s : exists p,
  on_la (on_io timer_get_timestamp) s = Some (w64 (device (po_trace (la_ports (tm_lapic s))) QTsc),
    Timers (with_ports p (tm_lapic s)) (tm_starting_cpu s) (tm_cpu_frequency s)) /\
  po_trace p = po_trace (la_ports (tm_lapic s)) ++ [Tsc (w64 (device (po_trace (la_ports (tm_lapic s))) QTsc))].
Proof.
  eexists. unfold on_la, on_io, zoom, timer_get_timestamp. rewrite !ST_bind_eq. unfold gets. rewrite ST_bind_eq.
  set (v := w64 _). assert (Hv : 0 <= v < 2 ^ 64) by (apply Z.mod_pos_bound; lia).
  assert (Hjoin : Z.lor (w64 (Z.shiftl (Z.shiftr v 32) 32)) (w32 v) = v).
  { rewrite Z.shiftl_mul_pow2, Z.shiftr_div_pow2 by lia. pose proof (Z.div_mod v (2 ^ 32) ltac:(done)) as Hd.
    assert (0 <= v mod 2 ^ 32 < 2 ^ 32) by (by apply Z.mod_pos_bound).
    rewrite w64_small by lia. unfold w32. rewrite (lor_low _ _ 32); [lia|lia| |done]. apply Z.mod_mul. lia. }
  unfold emit, modify, mret, ST_ret. cbn zeta. rewrite Hjoin. split; [reflexivity|done].
Qed.

Definition ns_of (ts f : Z) : Z := w64 (ts * 1000000) / (f / 1000).

Lemma timer_get_timestamp_ns_run s : 1000 <= tm_cpu_frequency s -> exists s',
  timer_get_timestamp_ns s = Some (ns_of (w64 (device (po_trace (la_ports (tm_lapic s))) QTsc)) (tm_cpu_frequency s), s').
Proof.
  intros Hf. destruct (timestamp_run s) as (p & Hrun & _). unfold timer_get_timestamp_ns.
  rewrite (ST_run _ _ _ _ _ Hrun). unfold gets. rewrite ST_bind_eq. unfold div64. cbn [tm_cpu_frequency].
  assert (1 <= tm_cpu_frequency s / 1000) by (apply Z.div_le_lower_bound; lia).
  rewrite (proj2 (Z.eqb_neq _ 0)) by lia. by eexists.
Qed.
End timer.

Section accuracy.
Context (device : list port_event -> query -> Z).

(** what the next reading of the counter gives *)
Definition cycles (s : timers) : Z := w64 (device (po_trace (la_ports (tm_lapic s))) QTsc).

Lemma cycles_range s : 0 <= cycles s < 2 ^ 64.
Proof. apply Z.mod_pos_bound. lia. Qed.

Lemma ns_of_accurate ts f : 0 <= ts -> ts * 1000000 < 2 ^ 64 -> 1000 <= f ->
  ts * 1000000000 / f <= ns_of ts f /\ ns_of ts f * (f - 999) <= ts * 1000000000.
Proof.
  intros Hts Hov Hf. unfold ns_of. rewrite w64_small by lia.
  pose proof (Z.div_mod f 1000 ltac:(done)) as Hd. pose proof (Z.mod_pos_bound f 1000 ltac:(lia)) as Hm.
  assert (Hq : 1 <= f / 1000) by lia. set (q := f / 1000) in *. split.
  - replace (ts * 1000000 / q) with (ts * 1000000000 / (1000 * q)).
    + apply Z.div_le_compat_l; lia.
    + replace (ts * 1000000000) with (1000 * (ts * 1000000)) by lia. apply Z.div_mul_cancel_l; lia.
  - pose proof (Z.mul_div_le (ts * 1000000) q ltac:(lia)) as Hle.
    assert (0 <= ts * 1000000 / q) by (apply Z.div_pos; lia). nia.
Qed.

(** the product overflows between these two readings *)
Lemma ns_of_wraps f : 1000 <= f < 2 ^ 64 -> ns_of 18446744073710 f < ns_of 18446744073709 f.
Proof.
  intros Hf. unfold ns_of. change (w64 (18446744073710 * 1000000)) with 448384.
  change (w64 (18446744073709 * 1000000)) with 18446744073709000000.
  assert (Hq : 1 <= f / 1000 < 18446744073709552) by (split; [apply Z.div_le_lower_bound|apply Z.div_lt_upper_bound]; lia).
  set (q := f / 1000) in *. apply Z.lt_le_trans with (448384 / q + 1); [lia|].
  rewrite <- Z.div_add by lia. apply Z.div_le_mono; lia.
Qed.

(** C40: the time in nanoseconds is right but for the rounding of the frequency,
    as long as a million times the cycle counter fits 64 bits, and no longer:
    whatever the frequency, the time goes back when the counter passes
    18446744073709, which a processor of 3 GHz reaches in less than two hours. *)
Theorem timer_get_timestamp_ns_spec s1 s2 :
  let f := tm_cpu_frequency s1 in
  1000 <= f < 2 ^ 64 -> tm_cpu_frequency s2 = f ->
  exists r1 r2 s1' s2',
    timer_get_timestamp_ns device s1 = Some (r1, s1') /\ timer_get_timestamp_ns device s2 = Some (r2, s2') /\
    (cycles s1 * 1000000 < 2 ^ 64 ->
      cycles s1 * 1000000000 / f <= r1 /\ r1 * (f - 999) <= cycles s1 * 1000000000) /\
    (cycles s1 <= cycles s2 -> cycles s2 * 1000000 < 2 ^ 64 -> r1 <= r2) /\
    (cycles s1 = 18446744073709 -> cycles s2 = 18446744073710 -> r2 < r1).
Proof.
  intros f Hf Hf2. destruct (timer_get_timestamp_ns_run device s1) as [s1' Hrun1]; [by apply Hf|].
  destruct (timer_get_timestamp_ns_run device s2) as [s2' Hrun2]; [rewrite Hf2; by apply Hf|].
  rewrite Hf2 in Hrun2. fold (cycles s1) f in Hrun1. fold (cycles s2) in Hrun2.
  exists (ns_of (cycles s1) f), (ns_of (cycles s2) f), s1', s2'. split; [done|]. split; [done|].
  pose proof (cycles_range s1). split; [|split].
  - intros Hov. apply ns_of_accurate; lia.
  - intros Hle Hov. unfold ns_of. rewrite !w64_small by lia. apply Z.div_le_mono; [|lia].
    enough (1 <= f / 1000) by lia. apply Z.div_le_lower_bound; lia.
  - intros -> ->. by apply ns_of_wraps.
Qed.
End accuracy.

(** ** At 3 GHz, two readings apart by a cycle *)

Definition ex_tsc (n : Z) (t : list port_event) (q : query) : Z := n + Z.of_nat (length t).
Definition ex_timers (t : list port_event) : timers := Timers (Lapic (Ports t true) false 0 1 1) 0 3000000000.

Lemma timer_get_timestamp_ns_spec_witness : exists r1 r2 s1' s2',
  timer_get_timestamp_ns (ex_tsc 18446744073709) (ex_timers []) = Some (r1, s1') /\
  timer_get_timestamp_ns (ex_tsc 18446744073709) (ex_timers [Tsc 0]) = Some (r2, s2') /\ r2 < r1 /\
  18446744073709 * 1000000000 / 3000000000 <= r1.
Proof.
  destruct (timer_get_timestamp_ns_spec (ex_tsc 18446744073709) (ex_timers []) (ex_timers [Tsc 0]))
    as (r1 & r2 & s1' & s2' & H1 & H2 & Ha & _ & Hw); [simpl; lia|done|].
  exists r1, r2, s1', s2'. split; [exact H1|]. split; [exact H2|]. split; [apply Hw; vm_compute; reflexivity|].
  apply Ha. vm_compute. reflexivity.
Defined.
