(* ===== verification/Boot.v ===== *)
(** What happens to memory before the kernel runs: [arch/x86/init.c] up to the
    first address space, and the heap of [arch/x86/earlyheap.c].

    What the boot loader left is read from memory byte by byte; the nodes the
    code makes of the memory map are a store of records.  What [kealloc] hands
    out is no longer part of the bytes: reading what the loader left there would
    be a fault.  The maps are printed in [Reports]. *)
From S2P Require Export Strings Paging.

Definition MULTIBOOT_FLAG_CMDLINE : Z := Z.shiftl 1 2.
Definition MULTIBOOT_FLAG_MMAP : Z := Z.shiftl 1 6.
Definition MULTIBOOT_FLAG_VBE : Z := Z.shiftl 1 11.
Definition MULTIBOOT_MEM_AVAILABLE : Z := 1.
Definition BOOTINFO_MAGIC : Z := 0xc0ffee.

(** where the fields of the structures are *)
Module Mboot.
Definition flags : Z := 0.
Definition cmdline : Z := 16.
Definition mods_count : Z := 20.
Definition mods_addr : Z := 24.
Definition mmap_length : Z := 44.
Definition mmap_addr : Z := 48.
Definition vbe_mode_info : Z := 76.
End Mboot.
Module MemMap.
Definition size : Z := 0.
Definition addr_high : Z := 4.
Definition len_high : Z := 12.
Definition type : Z := 20.
End MemMap.
Module Vbe.
Definition x_res : Z := 18.
Definition y_res : Z := 20.
Definition bpp : Z := 25.
Definition physbase : Z := 40.
End Vbe.
Module Info.
Definition magic : Z := 0.
Definition major : Z := 4.
Definition minor : Z := 8.
Definition patch : Z := 12.
Definition cmdline : Z := 16.
Definition sizeof_cmdline : Z := 256.
Definition num_pages : Z := 272.
Definition exists_ : Z := 276.
Definition addr : Z := 280.
Definition width : Z := 284.
Definition height : Z := 288.
Definition bpp : Z := 292.
Definition sizeof_bootinfo : Z := 296.
End Info.

(** [phys_memmap_t] *)
Record phys_memmap := PhysMemmap { mm_next : Z; mm_addr : Z; mm_length : Z }.
Definition sizeof_phys_memmap : Z := 12.

Record boot := Boot {
  bt_mem : bytes;
  bt_heap : Z;  (** [heap_ptr] *)
  bt_maps : gmap Z phys_memmap;
}.
Abbreviation BOOT := (ST boot).

Definition on_bytes {B} (m : MEM B) : BOOT B := zoom bt_mem (fun b s => Boot b (bt_heap s) (bt_maps s)) m.
Definition memmap_put (p : Z) (x : phys_memmap) : BOOT unit :=
  modify (fun s => Boot (bt_mem s) (bt_heap s) (<[p := x]> (bt_maps s))).

(** ** The heap *)

(** the bytes without the [n] at [p] *)
Definition mem_drop (p n : Z) (m : bytes) : bytes := filter (fun pb => ~ (p <= pb.1 < p + n)) m.

(** how far an allocation moves the heap's pointer *)
Definition heap_size (size : Z) : Z := w32 (size + (8 - size mod 8)).
Definition kealloc (size : Z) : BOOT Z := fun s =>
  Some (bt_heap s, Boot (mem_drop (bt_heap s) (heap_size size) (bt_mem s)) (w32 (bt_heap s + heap_size size)) (bt_maps s)).

(** ** The memory map *)

(** an entry that is memory above 1 MB *)
Definition memmaps_add (ret kmem addr length : Z) : BOOT (Z * Z) :=
  nmap ← kealloc sizeof_phys_memmap;
  _ ← memmap_put nmap (PhysMemmap ret addr length);
  if addr =? 0x100000 then
    kmap ← kealloc sizeof_phys_memmap;
    _ ← memmap_put kmap (PhysMemmap NULL 0x400000 0x800000);
    _ ← memmap_put nmap (PhysMemmap ret (w32 (addr + 0x800000)) (w32 (length - 0x800000)));
    mret (nmap, kmap)
  else mret (nmap, kmem).

Fixpoint memmaps_loop (fuel : nat) (map mmap_length ret kmem offset : Z) : BOOT (Z * Z) :=
  match fuel with
  | O => fault
  | S fuel =>
      if offset <? mmap_length then
        let foo := w32 (map + offset) in
        size ← on_bytes (load32 (foo + MemMap.size));
        let offset := w32 (offset + w32 (size + 4)) in
        type ← on_bytes (load32 (foo + MemMap.type));
        addr_high ← on_bytes (load32 (foo + MemMap.addr_high));
        if (type =? MULTIBOOT_MEM_AVAILABLE) && (0x100000 <=? addr_high) then
          len_high ← on_bytes (load32 (foo + MemMap.len_high));
          rk ← memmaps_add ret kmem addr_high len_high;
          memmaps_loop fuel map mmap_length (fst rk) (snd rk) offset
        else memmaps_loop fuel map mmap_length ret kmem offset
      else mret (ret, kmem)
  end.

(** the list, and what [*kmemptr] is set to; a turn takes four bytes at least *)
Definition memmaps_init (mboot kmem : Z) : BOOT (Z * Z) :=
  flags ← on_bytes (load32 (mboot + Mboot.flags));
  if negb (flag_set flags MULTIBOOT_FLAG_MMAP) then mret (NULL, kmem)
  else
    mmap_addr ← on_bytes (load32 (mboot + Mboot.mmap_addr));
    mmap_length ← on_bytes (load32 (mboot + Mboot.mmap_length));
    memmaps_loop (S (Z.to_nat mmap_length)) (low_phys_to_virt mmap_addr) mmap_length NULL kmem 0.

(** ** The boot information *)

Definition store32 (p v : Z) : MEM unit :=
  _ ← store p v; _ ← store (p + 1) (Z.shiftr v 8); _ ← store (p + 2) (Z.shiftr v 16); store (p + 3) (Z.shiftr v 24).

Definition is_valid_vbe (mode : Z) : MEM bool :=
  physbase ← load32 (mode + Vbe.physbase);
  if physbase =? 0 then mret false
  else
    bpp ← load (mode + Vbe.bpp);
    if bpp =? 0 then mret false else mret (negb (bpp =? 0xff)).

Definition bootinfo_framebuffer (info mode : Z) : MEM unit :=
  _ ← store (info + Info.exists_) 1;
  x_res ← load16 (mode + Vbe.x_res);
  _ ← store32 (info + Info.width) x_res;
  y_res ← load16 (mode + Vbe.y_res);
  _ ← store32 (info + Info.height) y_res;
  physbase ← load32 (mode + Vbe.physbase);
  _ ← store32 (info + Info.addr) physbase;
  bpp ← load (mode + Vbe.bpp);
  store32 (info + Info.bpp) bpp.

(** [str_c4] is the command line if there is none *)
Definition bootinfo_init (str_c4 info header : Z) : MEM unit :=
  _ ← store32 (info + Info.magic) BOOTINFO_MAGIC;
  _ ← store32 (info + Info.num_pages) 0;
  _ ← store32 (info + Info.major) 0;
  _ ← store32 (info + Info.minor) 0;
  _ ← store32 (info + Info.patch) 0;
  flags ← load32 (header + Mboot.flags);
  cmd ← (if flag_set flags MULTIBOOT_FLAG_CMDLINE then
           cmdline ← load32 (header + Mboot.cmdline); mret (low_phys_to_virt cmdline)
         else mret str_c4);
  _ ← strncpy (info + Info.cmdline) cmd Info.sizeof_cmdline;
  _ ← store (info + Info.exists_) 0;
  flags ← load32 (header + Mboot.flags);
  if flag_set flags MULTIBOOT_FLAG_VBE then
    vbe_mode_info ← load32 (header + Mboot.vbe_mode_info);
    let mode := low_phys_to_virt vbe_mode_info in
    valid ← is_valid_vbe mode;
    if (valid : bool) then bootinfo_framebuffer info mode else mret tt
  else mret tt.

(** the first module of the loader, as an address *)
Definition sigma0_find_module (header : Z) : MEM Z :=
  mods_count ← load32 (header + Mboot.mods_count);
  if 0 <? mods_count then
    mods_addr ← load32 (header + Mboot.mods_addr); mret (low_phys_to_virt mods_addr)
  else mret NULL.

(** ** The pages of the kernel *)

Record memory := Memory {
  my_boot : boot;
  my_mmu : mmu;
  my_initialized : bool;  (** of [region_init_global] *)
}.

(** [stale] is what the words of the heap hold from the bitmap's place on, of
    which the bitmap has those that were allocated, and [boot_page_dir] the page
    directory the boot code set up *)
Definition init_memory (boot_page_dir : Z) (stale : Z -> list Z) (mem : phys_memmap) : ST memory unit := fun s =>
  let npages := mm_length mem / PAGE_SIZE in
  '(map, b) ← kealloc (npages / 8) (my_boot s);
  let bitmap := take (Z.to_nat (heap_size (npages / 8) / 4)) (stale map) in
  region ← region_init_at (mm_addr mem) bitmap npages (Z.lor (Z.lor PAGE_READ PAGE_WRITE) PAGE_SUPERVISOR) REGION_MODE_PHYSICAL;
  '(_, m) ← init_paging boot_page_dir region (my_mmu s);
  g ← region_init_global (w32 (KERNEL_BASE + 0x400000)) (RegionGlobals (pm_global m) (my_initialized s));
  Some (tt, Memory b (set_global (rg_region g) m) (rg_initialized g)).

(** ** What the memory map becomes *)

(** an entry of the loader's map *)
Record mb_entry := MbEntry { me_size : Z; me_addr : Z; me_length : Z; me_type : Z }.

Fixpoint entries_at (m : bytes) (map length offset : Z) (es : list mb_entry) : Prop :=
  match es with
  | [] => length <= offset
  | e :: es =>
      let foo := w32 (map + offset) in
      offset < length /\ 0 <= me_size e /\ offset + me_size e + 4 < 2 ^ 32 /\
      load32 foo m = Some (me_size e, m) /\ load32 (foo + 4) m = Some (me_addr e, m) /\
      load32 (foo + 12) m = Some (me_length e, m) /\ load32 (foo + 20) m = Some (me_type e, m) /\
      entries_at m map length (offset + me_size e + 4) es
  end.

Definition usable (e : mb_entry) : bool := (me_type e =? 1) && (0x100000 <=? me_addr e).
(** what is handed out of an entry: the first 8 MB above 1 MB are held back *)
Definition handed_out (e : mb_entry) : Z * Z :=
  if me_addr e =? 0x100000 then (0x900000, w32 (me_length e - 0x800000)) else (me_addr e, me_length e).
Definition areas (es : list mb_entry) : list (Z * Z) := handed_out <$> filter (fun e => usable e = true) es.
(** there is memory for the kernel at 1 MB *)
Definition has_base (es : list mb_entry) : bool := existsb (fun e => usable e && (me_addr e =? 0x100000)) es.

(** a list of nodes *)
Fixpoint maps_at (s : gmap Z phys_memmap) (p : Z) (l : list (Z * Z)) : Prop :=
  match l with
  | [] => p = NULL
  | (a, n) :: l => p <> NULL /\ exists next, s !! p = Some (PhysMemmap next a n) /\ maps_at s next l
  end.

Lemma mem_drop_id p n m : (forall q, p <= q < p + n -> m !! q = None) -> mem_drop p n m = m.
Proof.
  intros H. apply map_filter_id. intros q b Hq Hin. simpl in Hin. by rewrite H in Hq.
Qed.

(** the bitmap of the kernel's 8 MB is the last thing the heap holds *)
Definition bitmap_bytes : Z := heap_size (0x800000 / PAGE_SIZE / 8).

(** there is room in the heap for two nodes for each of [room] entries and for
    the bitmap, none of which is among the loader's bytes; the nodes there are
    lie below *)
Definition heap_ok (s : boot) (room : nat) : Prop :=
  0 < bt_heap s /\ bt_heap s + 32 * Z.of_nat room + bitmap_bytes < 2 ^ 32 /\
  (forall q, bt_heap s <= q < bt_heap s + 32 * Z.of_nat room + bitmap_bytes -> bt_mem s !! q = None) /\
  forall p x, bt_maps s !! p = Some x -> p + sizeof_phys_memmap <= bt_heap s.

Lemma bitmap_bytes_eq : bitmap_bytes = 264.
Proof. done. Qed.

(** the nodes from [lo] on *)
Definition newer (lo : Z) (s : gmap Z phys_memmap) : gmap Z phys_memmap := filter (fun px => lo <= px.1) s.

Lemma newer_insert lo s p x : lo <= p -> newer lo (<[p := x]> s) = <[p := x]> (newer lo s).
Proof. intros Hp. unfold newer. by apply map_filter_insert_True. Qed.
Lemma newer_bound lo s (q : Z) : (forall p x, s !! p = Some x -> p + sizeof_phys_memmap <= q) ->
  forall p x, newer lo s !! p = Some x -> p + sizeof_phys_memmap <= q.
Proof. intros H p x Hp. apply map_lookup_filter_Some in Hp as [Hp _]. by eapply H. Qed.
Lemma maps_at_newer lo s p l : maps_at (newer lo s) p l -> maps_at s p l.
Proof.
  revert p. induction l as [|[a n] l IH]; intros p; [done|]. intros (Hp & next & Hn & Hl).
  apply map_lookup_filter_Some in Hn as [Hn _]. split; [done|]. exists next. split; [done|]. by apply IH.
Qed.

Lemma maps_at_fresh s q x p l : (forall p y, s !! p = Some y -> p < q) -> maps_at s p l -> maps_at (<[q := x]> s) p l.
Proof.
  intros Hs. revert p. induction l as [|[a n] l IH]; intros p; [done|]. intros (Hp & next & Hn & Hl).
  split; [done|]. exists next. split; [|by apply IH]. rewrite lookup_insert_ne; [done|]. intros ->. apply Hs in Hn. lia.
Qed.

Lemma maps_at_det s p l l' : maps_at s p l -> maps_at s p l' -> l = l'.
Proof.
  revert p l'. induction l as [|[a n] l IH]; intros p [|[a' n'] l'] H H'; try done; simpl in *.
  - by destruct H'.
  - by destruct H.
  - destruct H as (_ & q & Hp & H). destruct H' as (_ & q' & Hp' & H'). simplify_eq. by rewrite (IH q l').
Qed.

(** the nodes of a list are distinct, so there are no more of them than nodes *)
Lemma maps_at_size s p l : maps_at s p l -> (length l <= base.size s)%nat.
Proof.
  intros Hl. enough (exists ps, length ps = length l /\ NoDup ps /\
    forall q, q ∈ ps -> is_Some (s !! q) /\ exists l', maps_at s q l' /\ (length l' <= length l)%nat) as (ps & <- & Hnd & Hps).
  { apply nodup_dom; [done|]. intros q Hq. by apply Hps. }
  revert p Hl. induction l as [|[a n] l IH]; intros p Hl.
  { exists []. split; [done|]. split; [constructor|]. by intros q ?%not_elem_of_nil. }
  pose proof Hl as (Hp & next & Hs & Hn). destruct (IH next Hn) as (ps & Hlen & Hnd & Hps).
  exists (p :: ps). split; [simpl; lia|]. split.
  - constructor; [|done]. intros (_ & l' & Hl' & Hle)%Hps. apply (maps_at_det _ _ _ _ Hl) in Hl' as <-.
    simpl in Hle. lia.
  - intros q [->|Hq]%elem_of_cons.
    + split; [by eexists|]. by exists ((a, n) :: l).
    + destruct (Hps q Hq) as [? (l' & ? & ?)]. split; [done|]. exists l'. simpl. split; [done|lia].
Qed.

(** one allocation for a node, which the heap has room for *)
Lemma kealloc_node s room : heap_ok s (S room) ->
  kealloc sizeof_phys_memmap s = Some (bt_heap s, Boot (bt_mem s) (bt_heap s + 16) (bt_maps s)).
Proof.
  intros (H0 & Htop & Hb & _). unfold kealloc. rewrite bitmap_bytes_eq in Htop, Hb. change (heap_size sizeof_phys_memmap) with 16.
  rewrite w32_small by lia. rewrite mem_drop_id; [done|]. intros q Hq. apply Hb. lia.
Qed.

(** the nodes added are the ones the heap's pointer has gone past *)
Definition added (s s' : boot) : Prop :=
  bt_mem s' = bt_mem s /\ bt_heap s <= bt_heap s' /\
  forall p, p < bt_heap s -> bt_maps s' !! p = bt_maps s !! p.
Lemma added_trans s1 s2 s3 : added s1 s2 -> added s2 s3 -> added s1 s3.
Proof.
  intros (M1 & H1 & E1) (M2 & H2 & E2). split; [congruence|]. split; [lia|]. intros p Hp. rewrite E2, E1 by lia. done.
Qed.

Lemma memmaps_add_ok lo s ret kmem addr length room l lk :
  heap_ok s (S room) -> lo <= bt_heap s -> maps_at (newer lo (bt_maps s)) ret l -> maps_at (newer lo (bt_maps s)) kmem lk ->
  exists ret' kmem' s', memmaps_add ret kmem addr length s = Some ((ret', kmem'), s') /\ added s s' /\ heap_ok s' room /\
    bt_heap s' = bt_heap s + (if addr =? 0x100000 then 32 else 16) /\
    maps_at (newer lo (bt_maps s')) ret' ((if addr =? 0x100000 then (0x900000, w32 (length - 0x800000)) else (addr, length)) :: l) /\
    maps_at (newer lo (bt_maps s')) kmem' (if addr =? 0x100000 then [(0x400000, 0x800000)] else lk).
Proof.
  intros Hh Hlo Hl Hk. pose proof Hh as (H0 & Htop & Hb & Hs). pose proof (newer_bound lo _ _ Hs) as Hn.
  rewrite bitmap_bytes_eq in Htop, Hb. unfold sizeof_phys_memmap in Hs, Hn. set (h := bt_heap s) in *.
  unfold memmaps_add. rewrite (ST_run _ _ _ _ _ (kealloc_node s room Hh)). fold h. unfold memmap_put, modify.
  rewrite ST_bind_eq. cbn [bt_heap bt_mem bt_maps]. set (s1 := Boot _ _ _).
  destruct (Z.eqb_spec addr 0x100000) as [->|Hne].
  - assert (Hrun : kealloc sizeof_phys_memmap s1 = Some (h + 16, Boot (bt_mem s) (h + 32) (bt_maps s1))).
    { unfold kealloc, s1. cbn [bt_heap bt_mem bt_maps]. change (heap_size sizeof_phys_memmap) with 16.
      rewrite w32_small by lia. rewrite mem_drop_id by (intros q Hq; apply Hb; lia). do 3 f_equal. lia. }
    rewrite (ST_run _ _ _ _ _ Hrun), !ST_bind_eq. unfold s1. cbn [bt_heap bt_mem bt_maps].
    change (w32 (0x100000 + 0x800000)) with 0x900000. rewrite (insert_insert_ne _ h (h + 16)), insert_insert_eq by lia.
    eexists h, (h + 16), _. split; [reflexivity|]. split; [|split; [|split; [done|split]]]; cbn [bt_heap bt_mem bt_maps].
    + split; [done|]. split; [simpl; lia|]. intros p Hp. cbn [bt_maps]. fold h in Hp. rewrite !lookup_insert_ne by lia. done.
    + split; [simpl; lia|]. split; [rewrite bitmap_bytes_eq; simpl; lia|]. split.
      * intros q. rewrite bitmap_bytes_eq. simpl. intros Hq. apply Hb. lia.
      * unfold sizeof_phys_memmap. intros p y. cbn [bt_maps bt_heap]. rewrite !lookup_insert. repeat case_decide; [lia|lia|]. intros Hy%Hs. lia.
    + rewrite !newer_insert by lia. simpl. split; [unfold NULL; lia|]. exists ret. rewrite lookup_insert_ne, lookup_insert_eq by lia. split; [done|].
      apply maps_at_fresh.
      * intros p y. rewrite lookup_insert. case_decide; [lia|]. intros Hy%Hn. lia.
      * apply maps_at_fresh; [|done]. intros p y Hy%Hn. lia.
    + rewrite !newer_insert by lia. simpl. split; [unfold NULL; lia|]. exists NULL. by rewrite lookup_insert_eq.
  - eexists h, kmem, _. split; [reflexivity|]. unfold s1. split; [|split; [|split; [done|split]]]; cbn [bt_heap bt_mem bt_maps].
    + split; [done|]. split; [simpl; lia|]. intros p Hp. cbn [bt_maps]. fold h in Hp. by rewrite lookup_insert_ne by lia.
    + split; [simpl; lia|]. split; [rewrite bitmap_bytes_eq; simpl; lia|]. split.
      * intros q. rewrite bitmap_bytes_eq. simpl. intros Hq. apply Hb. lia.
      * unfold sizeof_phys_memmap. intros p y. cbn [bt_maps bt_heap]. rewrite lookup_insert. case_decide; [lia|]. intros Hy%Hs. lia.
    + rewrite newer_insert by lia. simpl. split; [unfold NULL; lia|]. exists ret. rewrite lookup_insert_eq. split; [done|].
      apply maps_at_fresh; [|done]. intros p y Hy%Hn. lia.
    + rewrite newer_insert by lia. apply maps_at_fresh; [|done]. intros p y Hy%Hn. lia.
Qed.

Lemma on_bytes_run {B} (f : MEM B) s b : f (bt_mem s) = Some (b, bt_mem s) -> on_bytes f s = Some (b, s).
Proof. intros Hf. unfold on_bytes, zoom. rewrite Hf. by destruct s. Qed.

Lemma areas_cons e es : areas (e :: es) = (if usable e then [handed_out e] else []) ++ areas es.
Proof. unfold areas. rewrite filter_cons. by destruct (usable e). Qed.

(** the node for the kernel, if there was one before or one is made *)
Definition kernel_area (es : list mb_entry) (lk : list (Z * Z)) : list (Z * Z) :=
  if has_base es then [(0x400000, 0x800000)] else lk.
Lemma kernel_area_cons e es lk :
  kernel_area (e :: es) lk = kernel_area es (if usable e && (me_addr e =? 0x100000) then [(0x400000, 0x800000)] else lk).
Proof. unfold kernel_area. simpl. by destruct (has_base es), (usable e && (me_addr e =? 0x100000)). Qed.

(** what the nodes for the entries take *)
Definition nodes_size (es : list mb_entry) : Z :=
  16 * Z.of_nat (length (areas es)) +
  16 * Z.of_nat (length (filter (fun e => usable e && (me_addr e =? 0x100000) = true) es)).
Lemma nodes_size_cons e es :
  nodes_size (e :: es) = (if usable e then if me_addr e =? 0x100000 then 32 else 16 else 0) + nodes_size es.
Proof.
  unfold nodes_size. rewrite areas_cons, length_app, filter_cons.
  destruct (usable e), (me_addr e =? 0x100000); simpl; repeat case_decide; simpl; (lia || done).
Qed.

Lemma heap_ok_fewer s room : heap_ok s (S room) -> heap_ok s room.
Proof.
  intros (? & Htop & Hb & ?). split; [done|]. split; [lia|]. split; [|done]. intros q Hq. apply Hb. lia.
Qed.

Lemma memmaps_loop_ok lo fuel map len ret kmem offset es l lk s :
  entries_at (bt_mem s) map len offset es -> 0 <= offset -> (length es < fuel)%nat ->
  heap_ok s (length es) -> lo <= bt_heap s -> maps_at (newer lo (bt_maps s)) ret l -> maps_at (newer lo (bt_maps s)) kmem lk ->
  exists ret' kmem' s', memmaps_loop fuel map len ret kmem offset s = Some ((ret', kmem'), s') /\
    added s s' /\ heap_ok s' 0 /\ bt_heap s' = bt_heap s + nodes_size es /\
    maps_at (newer lo (bt_maps s')) ret' (rev (areas es) ++ l) /\ maps_at (newer lo (bt_maps s')) kmem' (kernel_area es lk).
Proof.
  revert fuel ret kmem offset l lk s. induction es as [|e es IH]; intros [|fuel] ret kmem offset l lk s He Ho Hfuel Hh Hlo Hl Hk;
    try (simpl in *; lia); cbn [memmaps_loop].
  - simpl in He. rewrite (proj2 (Z.ltb_ge offset len)) by lia. exists ret, kmem, s. split; [done|]. split; [done|]. split; [done|].
    split; [unfold nodes_size; simpl; lia|done].
  - simpl in He. destruct He as (Hlt & Hsz & H32 & R1 & R2 & R3 & R4 & He).
    rewrite (proj2 (Z.ltb_lt offset len)) by lia. cbn zeta. unfold MemMap.size, MemMap.type, MemMap.addr_high, MemMap.len_high.
    rewrite Z.add_0_r. rewrite (ST_run _ _ _ _ _ (on_bytes_run _ s _ R1)), (ST_run _ _ _ _ _ (on_bytes_run _ s _ R4)),
      (ST_run _ _ _ _ _ (on_bytes_run _ s _ R2)).
    rewrite (w32_small (me_size e + 4)), (w32_small (offset + _)) by lia.
    replace (offset + (me_size e + 4)) with (offset + me_size e + 4) by lia.
    change ((me_type e =? MULTIBOOT_MEM_AVAILABLE) && _) with (usable e). rewrite areas_cons, kernel_area_cons, nodes_size_cons.
    simpl in Hfuel. destruct (usable e); cbn [andb].
    + rewrite (ST_run _ _ _ _ _ (on_bytes_run _ s _ R3)).
      destruct (memmaps_add_ok lo s ret kmem (me_addr e) (me_length e) _ l lk Hh Hlo Hl Hk) as (r1 & k1 & s1 & Hrun & Ha1 & Hh1 & E1 & Hl1 & Hk1).
      rewrite (ST_run _ _ _ _ _ Hrun). cbn [fst snd]. fold (handed_out e) in Hl1. pose proof Ha1 as (Hm1 & Hle & _).
      destruct (IH fuel r1 k1 (offset + me_size e + 4) _ _ s1 ltac:(by rewrite Hm1) ltac:(lia) ltac:(lia) Hh1 ltac:(lia) Hl1 Hk1)
        as (r2 & k2 & s2 & Hrun2 & Ha2 & Hh2 & E2 & Hl2 & Hk2).
      exists r2, k2, s2. split; [done|]. split; [by eapply added_trans|]. split; [done|]. split; [lia|]. split; [|done].
      cbn [app rev]. rewrite <- app_assoc. exact Hl2.
    + destruct (IH fuel ret kmem (offset + me_size e + 4) l lk s He ltac:(lia) ltac:(lia) (heap_ok_fewer s _ Hh) Hlo Hl Hk)
        as (r2 & k2 & s2 & Hrun2 & H). exists r2, k2, s2. rewrite app_nil_l, Z.add_0_l. done.
Qed.

(** a map of [len] bytes has fewer entries *)
Lemma entries_at_length m map len offset es : entries_at m map len offset es -> 0 <= offset ->
  (length es <= Z.to_nat (len - offset))%nat.
Proof.
  revert offset. induction es as [|e es IH]; intros offset He Ho; [simpl; lia|]. simpl in *.
  destruct He as (? & ? & ? & _ & _ & _ & _ & He). apply IH in He; lia.
Qed.

Lemma memmaps_init_ok mboot flags mmap_addr mmap_length es s :
  load32 (mboot + 0) (bt_mem s) = Some (flags, bt_mem s) -> Z.testbit flags 6 = true ->
  load32 (mboot + 48) (bt_mem s) = Some (mmap_addr, bt_mem s) ->
  load32 (mboot + 44) (bt_mem s) = Some (mmap_length, bt_mem s) ->
  entries_at (bt_mem s) (low_phys_to_virt mmap_addr) mmap_length 0 es -> heap_ok s (length es) ->
  exists maps kmem s', memmaps_init mboot NULL s = Some ((maps, kmem), s') /\ added s s' /\ heap_ok s' 0 /\
    bt_heap s' = bt_heap s + nodes_size es /\
    maps_at (newer (bt_heap s) (bt_maps s')) maps (rev (areas es)) /\
    maps_at (newer (bt_heap s) (bt_maps s')) kmem (if has_base es then [(0x400000, 0x800000)] else []).
Proof.
  intros R1 Hflag R2 R3 He Hh. unfold memmaps_init, Mboot.flags, Mboot.mmap_addr, Mboot.mmap_length.
  rewrite (ST_run _ _ _ _ _ (on_bytes_run _ s _ R1)). change MULTIBOOT_FLAG_MMAP with (2 ^ 6). rewrite flag_set_bit, Hflag by lia.
  cbn [negb]. rewrite (ST_run _ _ _ _ _ (on_bytes_run _ s _ R2)), (ST_run _ _ _ _ _ (on_bytes_run _ s _ R3)).
  pose proof (entries_at_length _ _ _ _ _ He ltac:(lia)) as Hlen.
  destruct (memmaps_loop_ok (bt_heap s) (S (Z.to_nat mmap_length)) (low_phys_to_virt mmap_addr) mmap_length NULL NULL 0 es [] [] s He)
    as (r & k & s' & Hrun & Ha & Hh' & Hsz & Hl & Hk); [lia|lia|done|done|done|done|].
  exists r, k, s'. rewrite app_nil_r in Hl. done.
Qed.

(** C38: from any memory map that the loader announces and whose entries are in
    order, and a heap with room that lies apart from everything the loader left, the code makes,
    and it ends, the list of the usable memory from 1 MB up, last entry first,
    with 8 MB held back where an entry starts at 1 MB; the kernel is then given
    8 MB at 4 MB. All nodes of both lists are fresh: they lie in the part of the
    heap between the old and the new pointer, 16 bytes for each entry used and 16
    more for one at 1 MB, where no node was; every older node and every byte the
    loader left is as it was. *)
Theorem memmaps_init_spec mboot flags mmap_addr mmap_length es s :
  load32 (mboot + 0) (bt_mem s) = Some (flags, bt_mem s) -> Z.testbit flags 6 = true ->
  load32 (mboot + 48) (bt_mem s) = Some (mmap_addr, bt_mem s) ->
  load32 (mboot + 44) (bt_mem s) = Some (mmap_length, bt_mem s) ->
  entries_at (bt_mem s) (low_phys_to_virt mmap_addr) mmap_length 0 es -> heap_ok s (length es) ->
  exists maps kmem s', memmaps_init mboot NULL s = Some ((maps, kmem), s') /\
    maps_at (newer (bt_heap s) (bt_maps s')) maps (rev (areas es)) /\
    maps_at (newer (bt_heap s) (bt_maps s')) kmem (if has_base es then [(0x400000, 0x800000)] else []) /\
    bt_heap s' = bt_heap s + nodes_size es /\
    (forall p x, bt_maps s' !! p = Some x -> p + sizeof_phys_memmap <= bt_heap s') /\
    (forall p, p < bt_heap s -> bt_maps s' !! p = bt_maps s !! p) /\ newer (bt_heap s) (bt_maps s) = ∅ /\
    bt_mem s' = bt_mem s.
Proof.
  intros R1 Hflag R2 R3 He Hh. pose proof Hh as (_ & _ & _ & Hold).
  destruct (memmaps_init_ok mboot flags mmap_addr mmap_length es s R1 Hflag R2 R3 He Hh)
    as (maps & kmem & s' & Hrun & (Hm & Hle & Hsame) & (_ & _ & _ & Hn) & Hsz & Hl & Hk).
  exists maps, kmem, s'. split_and!; try done.
  apply map_empty. intros p. apply map_lookup_filter_None. right. intros x Hx Hp. simpl in Hp.
  apply Hold in Hx. unfold sizeof_phys_memmap in Hx. lia.
Qed.

(** the two overlap: what starts at 1 MB is handed out from 9 MB on, and the
    kernel keeps its pages up to 12 MB *)
Lemma kernel_memory_handed_out e es :
  usable e = true -> me_addr e = 0x100000 -> 0x800000 < me_length e < 2 ^ 32 ->
  exists n, In (0x900000, n) (areas (e :: es)) /\ 0 < n /\ kernel_area (e :: es) [] = [(0x400000, 0x800000)] /\
    0x900000 < 0x400000 + 0x800000.
Proof.
  intros Hu Ha Hn. exists (me_length e - 0x800000). rewrite areas_cons, Hu. unfold handed_out. rewrite Ha, Z.eqb_refl.
  rewrite w32_small by lia. split; [by left|]. split; [lia|]. split; [|lia]. unfold kernel_area. simpl. by rewrite Hu, Ha.
Qed.

(** ** The boot information *)

(** from [m] to [m'] no byte came or went, and only the [n] bytes at [p] changed *)
Definition wrote (m m' : bytes) (p n : Z) : Prop :=
  (forall q, is_Some (m' !! q) <-> is_Some (m !! q)) /\ forall q, ~ within p n q -> m' !! q = m !! q.

Lemma wrote_refl m p n : wrote m m p n.
Proof. by split. Qed.
Lemma wrote_trans m1 m2 m3 p n : wrote m1 m2 p n -> wrote m2 m3 p n -> wrote m1 m3 p n.
Proof. intros [D1 H1] [D2 H2]. split; [intros q; by rewrite D2|]. intros q Hq. by rewrite H2, H1. Qed.
Lemma wrote_part m m' p n P N : P <= p -> p + n <= P + N -> wrote m m' p n -> wrote m m' P N.
Proof. intros H1 H2 [D H]. split; [done|]. intros q Hq. apply H. unfold within in *. lia. Qed.
Lemma wrote_writable m m' p n P N : wrote m m' p n -> writable m P N -> writable m' P N.
Proof. intros [D _] Hw q Hq. apply D. by apply Hw. Qed.

Lemma store_wrote m p v : is_Some (m !! p) -> exists m', store p v m = Some (tt, m') /\ wrote m m' p 1 /\ m' !! p = Some (w8 v).
Proof.
  intros Hp. exists (<[p := w8 v]> m). split; [by apply store_ok|]. split; [split|apply lookup_insert_eq].
  - intros q. rewrite lookup_insert. case_decide; [subst; split; eauto|done].
  - intros q Hq. apply lookup_insert_ne. unfold within in Hq. lia.
Qed.

Lemma store32_wrote m p v : writable m p 4 -> exists m', store32 p v m = Some (tt, m') /\ wrote m m' p 4.
Proof.
  intros Hw. unfold store32.
  destruct (store_wrote m p v) as (m1 & R1 & W1 & _); [apply Hw; unfold within; lia|].
  destruct (store_wrote m1 (p + 1) (Z.shiftr v 8)) as (m2 & R2 & W2 & _); [apply W1, Hw; unfold within; lia|].
  destruct (store_wrote m2 (p + 2) (Z.shiftr v 16)) as (m3 & R3 & W3 & _); [apply W2, W1, Hw; unfold within; lia|].
  destruct (store_wrote m3 (p + 3) (Z.shiftr v 24)) as (m4 & R4 & W4 & _); [apply W3, W2, W1, Hw; unfold within; lia|].
  exists m4. rewrite (ST_run _ _ _ _ _ R1), (ST_run _ _ _ _ _ R2), (ST_run _ _ _ _ _ R3). split; [done|].
  apply (wrote_part _ _ p 1 p 4) in W1; [|lia|lia]. apply (wrote_part _ _ (p + 1) 1 p 4) in W2; [|lia|lia].
  apply (wrote_part _ _ (p + 2) 1 p 4) in W3; [|lia|lia]. apply (wrote_part _ _ (p + 3) 1 p 4) in W4; [|lia|lia].
  eauto using wrote_trans.
Qed.

(** a word as bytes in memory *)
Definition le_word (m : bytes) (p v : Z) : Prop :=
  exists a b c d, bytes_at m p [a; b; c; d] /\ v = a + 2 ^ 8 * b + 2 ^ 16 * (c + 2 ^ 8 * d).
Lemma word_load m p v : le_word m p v -> load32 p m = Some (v, m).
Proof. intros (a & b & c & d & H & ->). by apply load32_ok. Qed.
Lemma store32_word m p v m' : store32 p v m = Some (tt, m') -> 0 <= v < 2 ^ 32 -> le_word m' p v.
Proof.
  intros H Hv. unfold store32 in H. apply ST_bind_Some in H as ([] & m1 & R1 & H). apply ST_bind_Some in H as ([] & m2 & R2 & H).
  apply ST_bind_Some in H as ([] & m3 & R3 & R4). unfold store in *. do 4 case_match; try done. simplify_eq.
  exists (w8 v), (w8 (Z.shiftr v 8)), (w8 (Z.shiftr v 16)), (w8 (Z.shiftr v 24)). split.
  - rewrite !bytes_at_cons. replace (p + 1 + 1) with (p + 2) by lia. replace (p + 2 + 1) with (p + 3) by lia.
    split_and!; [| | | |apply bytes_at_nil]; rewrite ?lookup_insert_eq, ?lookup_insert_ne by lia; rewrite ?lookup_insert_eq; done.
  - unfold w8. rewrite !Z.shiftr_div_pow2 by lia. change (2 ^ 8) with 256. change (2 ^ 16) with 65536. change (2 ^ 24) with 16777216.
    change (2 ^ 32) with 4294967296 in Hv. pose proof (Z.div_mod v 256 ltac:(done)). pose proof (Z.div_mod (v / 256) 256 ltac:(done)).
    pose proof (Z.div_mod (v / 65536) 256 ltac:(done)). pose proof (Z.div_mod (v / 16777216) 256 ltac:(done)).
    pose proof (Z.div_div v 256 256 ltac:(done) ltac:(done)). pose proof (Z.div_div v 65536 256 ltac:(done) ltac:(done)).
    change (256 * 256) with 65536 in *. change (65536 * 256) with 16777216 in *.
    assert (v / 16777216 / 256 = 0) by (apply Z.div_small; split; [apply Z.div_pos; lia|apply Z.div_lt_upper_bound; lia]). lia.
Qed.

(** what is outside the structure reads the same *)
Lemma bytes_at_wrote m m' p l P N : wrote m m' P N -> p + Z.of_nat (length l) <= P \/ P + N <= p ->
  bytes_at m p l -> bytes_at m' p l.
Proof. intros [_ H] Hd. apply bytes_at_same. intros q [? ?]. apply H. unfold within. lia. Qed.

Lemma word_wrote m m' p v P N : wrote m m' P N -> p + 4 <= P \/ P + N <= p -> le_word m p v -> le_word m' p v.
Proof.
  intros Hw Hd (a & b & c & d & H & ->). exists a, b, c, d. split; [|done].
  eapply bytes_at_wrote; [exact Hw| |exact H]. simpl. lia.
Qed.

(** the block of a video mode, of which [vbe_word] is the address of the frame
    buffer *)
Definition vbe_word (blk : list Z) : Z :=
  nth 40 blk 0 + 2 ^ 8 * nth 41 blk 0 + 2 ^ 16 * (nth 42 blk 0 + 2 ^ 8 * nth 43 blk 0).
Definition vbe_ok (blk : list Z) : bool :=
  negb (vbe_word blk =? 0) && negb (nth 25 blk 0 =? 0) && negb (nth 25 blk 0 =? 0xff).

Lemma block_byte m p blk i : bytes_at m p blk -> (i < length blk)%nat -> m !! (p + Z.of_nat i) = Some (nth i blk 0).
Proof. intros H Hi. apply H. destruct (nth_lookup_or_length blk i 0) as [?|?]; [done|lia]. Qed.

Lemma block_word m p blk i : bytes_at m p blk -> (i + 4 <= length blk)%nat ->
  load32 (p + Z.of_nat i) m = Some (nth i blk 0 + 2 ^ 8 * nth (i + 1) blk 0 + 2 ^ 16 * (nth (i + 2) blk 0 + 2 ^ 8 * nth (i + 3) blk 0), m).
Proof.
  intros H Hi. apply load32_ok. rewrite !bytes_at_cons. split_and!; [| | | |apply bytes_at_nil].
  - apply (block_byte _ _ _ i H). lia.
  - replace (p + Z.of_nat i + 1) with (p + Z.of_nat (i + 1)) by lia. apply (block_byte _ _ _ _ H). lia.
  - replace (p + Z.of_nat i + 1 + 1) with (p + Z.of_nat (i + 2)) by lia. apply (block_byte _ _ _ _ H). lia.
  - replace (p + Z.of_nat i + 1 + 1 + 1) with (p + Z.of_nat (i + 3)) by lia. apply (block_byte _ _ _ _ H). lia.
Qed.

Lemma block_half m p blk i : bytes_at m p blk -> (i + 2 <= length blk)%nat ->
  load16 (p + Z.of_nat i) m = Some (nth i blk 0 + 2 ^ 8 * nth (i + 1) blk 0, m).
Proof.
  intros H Hi. apply load16_eq. eexists _, _. split; [|split; [|done]].
  - apply (block_byte _ _ _ i H). lia.
  - replace (p + Z.of_nat i + 1) with (p + Z.of_nat (i + 1)) by lia. apply (block_byte _ _ _ _ H). lia.
Qed.

Lemma is_valid_vbe_ok m mode blk : bytes_at m mode blk -> length blk = 44%nat -> is_valid_vbe mode m = Some (vbe_ok blk, m).
Proof.
  intros H Hl. unfold is_valid_vbe, Vbe.physbase, Vbe.bpp.
  assert (Hp : load32 (mode + 40) m = Some (vbe_word blk, m)) by (apply (block_word m mode blk 40 H); lia).
  rewrite (ST_run _ _ _ _ _ Hp). unfold vbe_ok.
  destruct (vbe_word blk =? 0); [done|]. cbn [negb andb].
  rewrite (ST_run _ _ _ _ _ (load_ok m _ _ (block_byte m mode blk 25 H ltac:(lia)))).
  by destruct (nth 25 blk 0 =? 0).
Qed.

Section info.
Context (info : Z).

(** a store to a word of the structure from the field [f] on *)
Lemma word_step m lo f v : 0 <= lo <= f -> f + 4 <= Info.sizeof_bootinfo -> writable m info Info.sizeof_bootinfo ->
  exists m', store32 (info + f) v m = Some (tt, m') /\ wrote m m' (info + lo) (Info.sizeof_bootinfo - lo).
Proof.
  intros Hf H4 Hw. destruct (store32_wrote m (info + f) v) as (m' & R & W).
  - intros q [? ?]. apply Hw. unfold within. lia.
  - exists m'. split; [done|]. eapply wrote_part; [| |exact W]; lia.
Qed.

(** a store after the flag of the frame buffer *)
Lemma fb_step m f v mode blk : 280 <= f -> f + 4 <= 296 -> writable m info 296 -> bytes_at m mode blk ->
  mode + 44 <= info \/ info + 296 <= mode -> length blk = 44%nat ->
  exists m', store32 (info + f) v m = Some (tt, m') /\ wrote m m' (info + 280) 16 /\ writable m' info 296 /\ bytes_at m' mode blk.
Proof.
  intros Hf H4 Hw Hb Hd Hl. destruct (word_step m 280 f v) as (m2 & R & W); [lia|done|done|].
  exists m2. split; [done|]. split; [exact W|]. split; [by apply (wrote_writable m m2 _ _ info 296 W)|].
  eapply bytes_at_wrote; [exact W| |exact Hb]. unfold Info.sizeof_bootinfo. lia.
Qed.

Lemma bootinfo_framebuffer_ok m mode blk : writable m info Info.sizeof_bootinfo -> bytes_at m mode blk -> length blk = 44%nat ->
  mode + 44 <= info \/ info + Info.sizeof_bootinfo <= mode ->
  exists m', bootinfo_framebuffer info mode m = Some (tt, m') /\ wrote m m' (info + 276) 20 /\ m' !! (info + 276) = Some 1.
Proof.
  intros Hw Hb Hl Hd. unfold bootinfo_framebuffer, Info.sizeof_bootinfo in *.
  destruct (store_wrote m (info + Info.exists_) 1) as (m1 & R1 & W1 & E1); [apply Hw; unfold within, Info.exists_; lia|].
  apply (wrote_writable _ _ _ _ info 296 W1) in Hw as Hw1.
  assert (Hb1 : bytes_at m1 mode blk) by (eapply bytes_at_wrote; [exact W1| |exact Hb]; unfold Info.exists_; lia).
  pose proof (block_half m1 mode blk 18 Hb1 ltac:(lia)) as L2. rewrite (ST_run _ _ _ _ _ R1), (ST_run _ _ _ _ _ L2).
  destruct (fb_step m1 Info.width (nth 18 blk 0 + 2 ^ 8 * nth 19 blk 0) mode blk ltac:(unfold Info.width; lia) ltac:(unfold Info.width; lia) Hw1 Hb1 Hd Hl) as (m2 & R2 & W2 & Hw2 & Hb2).
  rewrite (ST_run _ _ _ _ _ R2), (ST_run _ _ _ _ _ (block_half m2 mode blk 20 Hb2 ltac:(lia))).
  destruct (fb_step m2 Info.height (nth 20 blk 0 + 2 ^ 8 * nth 21 blk 0) mode blk ltac:(unfold Info.height; lia) ltac:(unfold Info.height; lia) Hw2 Hb2 Hd Hl) as (m3 & R3 & W3 & Hw3 & Hb3).
  rewrite (ST_run _ _ _ _ _ R3), (ST_run _ _ _ _ _ (block_word m3 mode blk 40 Hb3 ltac:(lia))).
  destruct (fb_step m3 Info.addr (vbe_word blk) mode blk ltac:(unfold Info.addr; lia) ltac:(unfold Info.addr; lia) Hw3 Hb3 Hd Hl) as (m4 & R4 & W4 & Hw4 & Hb4).
  rewrite (ST_run _ _ _ _ _ R4), (ST_run _ _ _ _ _ (load_ok m4 _ _ (block_byte m4 mode blk 25 Hb4 ltac:(lia)))).
  destruct (fb_step m4 Info.bpp (nth 25 blk 0) mode blk ltac:(unfold Info.bpp; lia) ltac:(unfold Info.bpp; lia) Hw4 Hb4 Hd Hl) as (m5 & R5 & W5 & Hw5 & Hb5).
  exists m5. split; [exact R5|]. pose proof (wrote_trans _ _ _ _ _ (wrote_trans _ _ _ _ _ (wrote_trans _ _ _ _ _ W2 W3) W4) W5) as W.
  split.
  - apply wrote_trans with m1; [eapply wrote_part; [| |exact W1]; unfold Info.exists_; lia|eapply wrote_part; [| |exact W]; lia].
  - destruct W as [_ W]. rewrite W by (unfold within; lia). exact E1.
Qed.

(** the fields that are words *)
Lemma bootinfo_head m : writable m info Info.sizeof_bootinfo ->
  exists m', (forall k : MEM unit,
      (_ ← store32 (info + Info.magic) BOOTINFO_MAGIC; _ ← store32 (info + Info.num_pages) 0;
       _ ← store32 (info + Info.major) 0; _ ← store32 (info + Info.minor) 0; _ ← store32 (info + Info.patch) 0; k) m = k m') /\
    wrote m m' info Info.sizeof_bootinfo /\ le_word m' info BOOTINFO_MAGIC.
Proof.
  intros Hw. unfold Info.magic. rewrite Z.add_0_r.
  destruct (store32_wrote m info BOOTINFO_MAGIC) as (m1 & R1 & W1).
  { intros q [? ?]. apply Hw. unfold within, Info.sizeof_bootinfo. lia. }
  pose proof (store32_word m info BOOTINFO_MAGIC m1 R1 ltac:(unfold BOOTINFO_MAGIC; lia)) as V1.
  apply (wrote_part _ _ info 4 info 296) in W1; [|lia|lia].
  apply (wrote_writable _ _ _ _ info 296 W1) in Hw as Hw1.
  destruct (word_step m1 4 Info.num_pages 0 ltac:(unfold Info.num_pages; lia) ltac:(by vm_compute) Hw1) as (m2 & R2 & W2).
  apply (wrote_writable _ _ _ _ info 296 W2) in Hw1 as Hw2.
  destruct (word_step m2 4 Info.major 0 ltac:(unfold Info.major; lia) ltac:(by vm_compute) Hw2) as (m3 & R3 & W3).
  apply (wrote_writable _ _ _ _ info 296 W3) in Hw2 as Hw3.
  destruct (word_step m3 4 Info.minor 0 ltac:(unfold Info.minor; lia) ltac:(by vm_compute) Hw3) as (m4 & R4 & W4).
  apply (wrote_writable _ _ _ _ info 296 W4) in Hw3 as Hw4.
  destruct (word_step m4 4 Info.patch 0 ltac:(unfold Info.patch; lia) ltac:(by vm_compute) Hw4) as (m5 & R5 & W5).
  exists m5. split.
  { intros k. rewrite (ST_run _ _ _ _ _ R1), (ST_run _ _ _ _ _ R2), (ST_run _ _ _ _ _ R3), (ST_run _ _ _ _ _ R4).
    by rewrite (ST_run _ _ _ _ _ R5). }
  pose proof (wrote_trans _ _ _ _ _ W2 (wrote_trans _ _ _ _ _ W3 (wrote_trans _ _ _ _ _ W4 W5))) as W. split.
  - apply wrote_trans with m1; [exact W1|]. eapply wrote_part; [| |exact W]; lia.
  - eapply word_wrote; [exact W|lia|exact V1].
Qed.

(** the command line *)
Lemma bootinfo_cmdline m cmd l : writable m info Info.sizeof_bootinfo -> cstring m cmd l -> Forall is_byte l ->
  cmd + (Z.of_nat (length l) + 1) <= info \/ info + Info.sizeof_bootinfo <= cmd ->
  exists m', strncpy (info + Info.cmdline) cmd Info.sizeof_cmdline m = Some (info + Info.cmdline, m') /\
    cstring m' (info + 16) (take 255 l) /\ wrote m m' (info + Info.cmdline) 256.
Proof.
  intros Hw Hl Hby Hd. unfold Info.cmdline, Info.sizeof_cmdline, Info.sizeof_bootinfo in *.
  pose proof (strncpy_any m (info + 16) cmd 256 l Hl Hby) as Hany. cbn zeta in Hany.
  change (Z.to_nat (w32 (256 - 1))) with 255%nat in Hany.
  assert (Htk : (length (take 255 l) <= 255)%nat) by (rewrite length_take; lia).
  assert (Htl : (length (take 255 l) <= length l)%nat) by (rewrite length_take; lia).
  assert (Hwr : writable m (info + 16) (Z.of_nat (length (take 255 l)) + 1)).
  { intros q [? ?]. apply Hw. unfold within. lia. }
  destruct Hany as (m' & Hrun & Hat & Hout); [done|lia|].
  exists m'. split; [done|]. destruct Hl as [_ Hnz]. split; [split; [done|by apply Forall_take]|].
  rewrite length_app in Hout. cbn [length] in Hout. split.
  - intros q. destruct (decide (info + 16 <= q < info + 16 + Z.of_nat (length (take 255 l) + 1))) as [Hin|Hin].
    + split; intros _; [by apply Hwr; unfold within; lia|].
      destruct (lookup_lt_is_Some_2 (take 255 l ++ [0]) (Z.to_nat (q - (info + 16)))) as [b Hb];
        [rewrite length_app; simpl; lia|].
      apply Hat in Hb. replace (info + 16 + Z.of_nat (Z.to_nat (q - (info + 16)))) with q in Hb by lia. by exists b.
    + by rewrite Hout by (unfold within; lia).
  - intros q Hq. apply Hout. unfold within in *. lia.
Qed.

(** the frame buffer *)
Lemma bootinfo_vbe m header flags vbe blk : writable m info Info.sizeof_bootinfo ->
  load32 (header + 76) m = Some (vbe, m) ->
  (Z.testbit flags 11 = true -> bytes_at m (low_phys_to_virt vbe) blk /\ length blk = 44%nat /\
    (low_phys_to_virt vbe + 44 <= info \/ info + 296 <= low_phys_to_virt vbe)) ->
  m !! (info + 276) = Some 0 ->
  exists m', (if Z.testbit flags 11 then
      vbe_mode_info ← load32 (header + 76);
      valid ← is_valid_vbe (low_phys_to_virt vbe_mode_info);
      if (valid : bool) then bootinfo_framebuffer info (low_phys_to_virt vbe_mode_info) else mret tt
    else mret tt) m = Some (tt, m') /\
    wrote m m' (info + 276) 20 /\ m' !! (info + 276) = Some (if Z.testbit flags 11 && vbe_ok blk then 1 else 0).
Proof.
  intros Hw L H E. destruct (Z.testbit flags 11); [|exists m; split; [done|]; split; [apply wrote_refl|exact E]].
  destruct (H eq_refl) as (Hb & Hlen & Hap). rewrite (ST_run _ _ _ _ _ L).
  rewrite (ST_run _ _ _ _ _ (is_valid_vbe_ok m _ blk Hb Hlen)). destruct (vbe_ok blk); cbn [andb].
  - by apply (bootinfo_framebuffer_ok m _ blk).
  - exists m. split; [done|]. split; [apply wrote_refl|exact E].
Qed.

(** the boot information ends up with the magic number, a command line that
    is a terminated string, the loader's cut to 255 characters or the default
    one, and a mark that there is a frame buffer exactly if the loader says so
    and its block is a valid one; no byte outside the structure is written. *)
Theorem bootinfo_init_spec m str_c4 header flags cmdline vbe blk l :
  let cmd := if Z.testbit flags 2 then low_phys_to_virt cmdline else str_c4 in
  let mode := low_phys_to_virt vbe in
  let apart p n := p + n <= info \/ info + Info.sizeof_bootinfo <= p in
  writable m info Info.sizeof_bootinfo ->
  le_word m header flags -> le_word m (header + 16) cmdline -> le_word m (header + 76) vbe -> apart header 80 ->
  cstring m cmd l -> Forall is_byte l -> apart cmd (Z.of_nat (length l) + 1) ->
  (Z.testbit flags 11 = true -> bytes_at m mode blk /\ length blk = 44%nat /\ apart mode 44) ->
  exists m', bootinfo_init str_c4 info header m = Some (tt, m') /\
    le_word m' info BOOTINFO_MAGIC /\ cstring m' (info + 16) (take 255 l) /\
    m' !! (info + 276) = Some (if Z.testbit flags 11 && vbe_ok blk then 1 else 0) /\
    wrote m m' info Info.sizeof_bootinfo.
Proof.
  intros cmd mode apart Hw Hfl Hcl Hvbe Hh Hl Hby Hd Hmode. destruct (bootinfo_head m Hw) as (m1 & R1 & W1 & V1).
  unfold bootinfo_init. rewrite R1. unfold Mboot.flags, Mboot.cmdline, Mboot.vbe_mode_info, apart, Info.sizeof_bootinfo in *.
  rewrite Z.add_0_r.
  assert (Hread : forall m', wrote m m' info 296 -> load32 header m' = Some (flags, m') /\ load32 (header + 16) m' = Some (cmdline, m') /\
    load32 (header + 76) m' = Some (vbe, m')).
  { intros m' Hm'. split_and!; apply word_load; (eapply word_wrote; [exact Hm'|lia|done]). }
  destruct (Hread m1 W1) as (L1 & L2 & _). rewrite (ST_run _ _ _ _ _ L1).
  change MULTIBOOT_FLAG_CMDLINE with (2 ^ 2). change MULTIBOOT_FLAG_VBE with (2 ^ 11). rewrite !flag_set_bit by lia.
  assert (Lc : (if Z.testbit flags 2 then cmdline ← load32 (header + 16); mret (low_phys_to_virt cmdline) else mret str_c4) m1 = Some (cmd, m1)).
  { unfold cmd. destruct (Z.testbit flags 2); [|done]. by rewrite (ST_run _ _ _ _ _ L2). }
  rewrite (ST_run _ _ _ _ _ Lc).
  destruct (bootinfo_cmdline m1 cmd l) as (m2 & R2 & C2 & W2); [by apply (wrote_writable m m1 info 296 info 296)| |done|done|].
  { destruct Hl as [Hl Hnz]. split; [|done]. eapply bytes_at_wrote; [exact W1| |exact Hl]. rewrite length_app. simpl. lia. }
  rewrite (ST_run _ _ _ _ _ R2).
  assert (W02 : wrote m m2 info 296) by (apply wrote_trans with m1; [done|]; eapply wrote_part; [| |exact W2]; unfold Info.cmdline; lia).
  destruct (store_wrote m2 (info + Info.exists_) 0) as (m3 & R3 & W3 & E3).
  { apply (wrote_writable m m2 info 296 info 296); [done|done|]. unfold within, Info.exists_. lia. }
  rewrite (ST_run _ _ _ _ _ R3).
  assert (W03 : wrote m m3 info 296) by (apply wrote_trans with m2; [done|]; eapply wrote_part; [| |exact W3]; unfold Info.exists_; lia).
  destruct (Hread m3 W03) as (L3 & _ & L4). rewrite (ST_run _ _ _ _ _ L3). rewrite flag_set_bit by lia.
  destruct (bootinfo_vbe m3 header flags vbe blk) as (m4 & R4 & W4 & E4);
    [by apply (wrote_writable m m3 info 296 info 296)|exact L4| |exact E3|].
  { intros Hf. destruct (Hmode Hf) as (Hb & Hlen & Hap). split; [|done]. eapply bytes_at_wrote; [exact W03| |exact Hb]. lia. }
  exists m4. split; [exact R4|]. split; [|split; [|split; [exact E4|]]].
  - eapply word_wrote; [exact W4|lia|]. eapply word_wrote; [exact W3|unfold Info.exists_; lia|].
    eapply word_wrote; [exact W2|unfold Info.cmdline; lia|exact V1].
  - destruct C2 as [C2 Cnz]. split; [|done].
    assert (Z.of_nat (length (take 255 l ++ [0])) <= 256) by (rewrite length_app, length_take; cbn [length]; lia).
    eapply bytes_at_wrote; [exact W4|lia|]. eapply bytes_at_wrote; [exact W3|unfold Info.exists_; lia|exact C2].
  - apply wrote_trans with m3; [done|]. eapply wrote_part; [| |exact W4]; lia.
Qed.
End info.

(** ** A loader's tables *)

Definition le32 (v : Z) : list Z := [v mod 256; v / 256 mod 256; v / 65536 mod 256; v / 16777216].
Definition ex_entries : list mb_entry :=
  [MbEntry 20 0 0x9fc00 1; MbEntry 20 0xf0000 0x10000 2; MbEntry 20 0x100000 0x7ee0000 1].
Definition ex_entry_bytes (e : mb_entry) : list Z :=
  le32 (me_size e) ++ le32 (me_addr e) ++ le32 0 ++ le32 (me_length e) ++ le32 0 ++ le32 (me_type e).
(** a memory map, a command line and no video mode *)
Definition ex_header : list Z :=
  le32 0x44 ++ replicate 12 0 ++ le32 0x3000 ++ replicate 24 0 ++ le32 72 ++ le32 0x2000 ++ replicate 28 0.
Definition ex_boot_mem : bytes := mem_of
  [(0xfd001000, ex_header); (0xfd002000, ex_entries ≫= ex_entry_bytes); (0xfd003000, [113; 117; 105; 101; 116; 0]);
   (0x100, [99; 52; 0]); (0x1000, replicate 296 0xff)].
Definition ex_boot : boot := Boot ex_boot_mem 0xfd200000 ∅.

Lemma word_check m p v : 0 <= v < 2 ^ 32 -> bytes_at m p (le32 v) -> le_word m p v.
Proof.
  intros Hv H. exists (v mod 256), (v / 256 mod 256), (v / 65536 mod 256), (v / 16777216). split; [exact H|].
  change (2 ^ 8) with 256. change (2 ^ 16) with 65536.
  pose proof (Z.div_mod v 256 ltac:(done)). pose proof (Z.div_mod (v / 256) 256 ltac:(done)).
  pose proof (Z.div_mod (v / 65536) 256 ltac:(done)).
  pose proof (Z.div_div v 256 256 ltac:(done) ltac:(done)). pose proof (Z.div_div v 65536 256 ltac:(done) ltac:(done)).
  change (256 * 256) with 65536 in *. change (65536 * 256) with 16777216 in *. lia.
Qed.
Ltac word_vm := apply word_check; [lia|mem_vm].

(** nothing is left in the heap *)
Lemma none_between (m : bytes) p n :
  forallb (fun pb => negb ((p <=? pb.1) && (pb.1 <? p + n))) (map_to_list m) = true ->
  forall q, p <= q < p + n -> m !! q = None.
Proof.
  intros H q Hq. destruct (m !! q) as [b|] eqn:E; [|done]. exfalso.
  rewrite forallb_forall in H. specialize (H (q, b)). simpl in H.
  assert (Hin : In (q, b) (map_to_list m)) by (apply list_elem_of_In, elem_of_map_to_list; done).
  specialize (H Hin). lia.
Qed.
Lemma ex_heap_free q :
  bt_heap ex_boot <= q < bt_heap ex_boot + 32 * Z.of_nat (length ex_entries) + bitmap_bytes -> bt_mem ex_boot !! q = None.
Proof. intros Hq. apply (none_between _ 0xfd200000 360); [by vm_compute|]. rewrite bitmap_bytes_eq in Hq. simpl in Hq. lia. Qed.

Lemma memmaps_init_spec_witness : exists maps kmem s',
  memmaps_init 0xfd001000 NULL ex_boot = Some ((maps, kmem), s') /\
  maps_at (newer 0xfd200000 (bt_maps s')) maps [(0x900000, 0x76e0000)] /\
  maps_at (newer 0xfd200000 (bt_maps s')) kmem [(0x400000, 0x800000)] /\ bt_heap s' = 0xfd200020.
Proof.
  destruct (memmaps_init_spec 0xfd001000 0x44 0x2000 72 ex_entries ex_boot) as (maps & kmem & s' & Hrun & Hm & Hk & Hsz & _).
  - apply word_load. word_vm.
  - reflexivity.
  - apply word_load. word_vm.
  - apply word_load. word_vm.
  - cbn [entries_at ex_entries me_size me_addr me_length me_type].
    split_and!; try (apply word_load; word_vm); vm_compute; congruence.
  - split_and!; [simpl; lia|rewrite bitmap_bytes_eq; simpl; lia| |].
    + apply ex_heap_free.
    + intros p x Hx. cbn [ex_boot bt_maps] in Hx. by rewrite lookup_empty in Hx.
  - exists maps, kmem, s'. split; [exact Hrun|]. split; [exact Hm|]. split; [exact Hk|exact Hsz].
Defined.

Lemma bootinfo_init_spec_witness : exists m',
  bootinfo_init 0x100 0x1000 0xfd001000 ex_boot_mem = Some (tt, m') /\
  le_word m' 0x1000 BOOTINFO_MAGIC /\ cstring m' 0x1010 [113; 117; 105; 101; 116] /\ m' !! 0x1114 = Some 0.
Proof.
  destruct (bootinfo_init_spec 0x1000 ex_boot_mem 0x100 0xfd001000 0x44 0x3000 0 [] [113; 117; 105; 101; 116])
    as (m' & Hrun & Hmagic & Hcmd & Hfb & _).
  - mem_vm.
  - word_vm.
  - word_vm.
  - word_vm.
  - right. unfold Info.sizeof_bootinfo. lia.
  - split; [mem_vm|]. repeat (apply Forall_cons; split; [discriminate|]). apply Forall_nil. exact I.
  - repeat (apply Forall_cons; split; [unfold is_byte; lia|]). apply Forall_nil. exact I.
  - right. vm_compute. congruence.
  - discriminate.
  - exists m'. split; [exact Hrun|]. split; [exact Hmagic|]. split; [exact Hcmd|exact Hfb].
Defined.

(** ** The pages of the kernel *)

(** the memory as the boot code leaves it: the directory at [boot_page_dir] is
    the one in use, maps itself, has no tables, and is not in what the kernel
    will hand out *)
Record boot_mmu (s : mmu) (boot_page_dir : Z) (mem : phys_memmap) : Prop := {
  bm_words : forall a, 0 <= mem_get s a < 2 ^ 32;
  bm_dir : 0 <= pm_cr3 s < 2 ^ 32 - 4096 /\ pm_cr3 s mod 4096 = 0 /\ low_virt_to_phys boot_page_dir = pm_cr3 s;
  bm_mapped : Paging.walk s (word_at boot_page_dir 1023) = Some (pm_cr3 s + 4 * 1023);
  bm_tables : forall d, 0 <= d < 1023 -> ~ is_table s d;
  bm_apart : pm_cr3 s + 4096 <= mm_addr mem \/ mm_addr mem + mm_length mem <= pm_cr3 s;
}.

Section recursive.
Context (s : mmu) (boot_page_dir : Z) (mem : phys_memmap) (Hb : boot_mmu s boot_page_dir mem) (r : region).

Definition recursive_entry : Z :=
  Z.lor (Z.lor (low_virt_to_phys boot_page_dir) PAGE_ARCH_PRESENT) PAGE_ARCH_WRITABLE.

Lemma recursive_entry_eq : recursive_entry = pm_cr3 s + 3.
Proof.
  destruct Hb as [_ (Hr & Ha & Hd) _ _ _]. unfold recursive_entry. rewrite Hd, <- Z.lor_assoc.
  rewrite (lor_low _ _ 12); [done|lia|exact Ha|vm_compute; split; congruence].
Qed.

Lemma cr3_mask : page_mask (pm_cr3 s) = pm_cr3 s.
Proof. destruct Hb as [_ (Hr & Ha & _) _ _ _]. rewrite page_mask_eq by lia. lia. Qed.

Lemma init_paging_run : exists s', init_paging boot_page_dir r s = Some (tt, s') /\
  s' = set_physical r (mem_set (pm_cr3 s + 4 * 1023) (pm_cr3 s + 3) s).
Proof.
  eexists. split; [|reflexivity]. unfold init_paging. fold recursive_entry. rewrite recursive_entry_eq.
  unfold vwrite. rewrite ST_bind_eq, (bm_mapped _ _ _ Hb). reflexivity.
Qed.

Lemma recursive_wf : region_inv r -> r_mode r = REGION_MODE_PHYSICAL ->
  (forall p, region_spare r p -> pm_cr3 s + 4096 <= p \/ p + 4096 <= pm_cr3 s) ->
  mmu_wf (set_physical r (mem_set (pm_cr3 s + 4 * 1023) (pm_cr3 s + 3) s)).
Proof.
  intros Hr Hmode Hsp. pose proof Hb as [Hw (Hrng & Hal & _) _ Ht _]. set (s' := set_physical _ _).
  assert (Hpd : pd s' = pm_cr3 s) by (unfold pd; simpl; apply cr3_mask).
  assert (Hget : forall a, mem_get s' a = if decide (pm_cr3 s + 4 * 1023 = a) then pm_cr3 s + 3 else mem_get s a).
  { intros a. unfold mem_get. simpl. rewrite lookup_insert. by case_decide. }
  assert (Hpde : forall d, pde s' d = if decide (d = 1023) then pm_cr3 s + 3 else pde s d).
  { intros d. unfold pde. rewrite Hpd, Hget. unfold pd. rewrite cr3_mask.
    destruct (decide (d = 1023)) as [->|]; [by rewrite decide_True|]. by rewrite decide_False by lia. }
  assert (Hflag : forall n, 2 <= n < 12 -> Z.testbit (pm_cr3 s + 3) n = false).
  { intros n Hn. rewrite <- (lor_low _ 3 12) by (lia || done). rewrite Z.lor_spec.
    replace (Z.testbit 3 n) with false; [|symmetry; apply Z.bits_above_log2; [lia|change (Z.log2 3) with 1; lia]].
    rewrite orb_false_r. rewrite <- (Z.mod_pow2_bits_low _ 12) by lia. change (2 ^ 12) with 4096. rewrite Hal. apply Z.testbit_0_l. }
  assert (Hrec : is_table s' 1023 /\ table_of s' 1023 = pd s').
  { unfold is_table, table_of. rewrite Hpde, decide_True by done. split; [split; [lia|split]|].
    - change PAGE_ARCH_PRESENT with (2 ^ 0). rewrite flag_set_bit by lia. rewrite <- (lor_low _ 3 12) by (lia || done).
      rewrite Z.lor_spec. by rewrite orb_true_r.
    - change PAGE_ARCH_4MB_ENTRY with (2 ^ 7). rewrite flag_set_bit by lia. apply Hflag. lia.
    - rewrite Hpd. apply page_mask_add; lia. }
  assert (Honly : forall d, is_table s' d -> d = 1023).
  { intros d Hd. destruct (decide (d = 1023)); [done|]. exfalso. apply (Ht d); [destruct Hd as [? _]; lia|].
    unfold is_table in *. by rewrite Hpde, decide_False in Hd by done. }
  split; try done.
  - intros a. rewrite Hget. case_decide; [lia|apply Hw].
  - simpl. lia.
  - intros i j Hi Hj _. by rewrite (Honly i Hi), (Honly j Hj).
  - intros d Hd. rewrite (Honly d Hd). destruct Hrec as [_ ->]. rewrite Hpd. simpl. intros Hs%Hsp. lia.
Qed.
End recursive.

(** the words allocated for a bitmap are enough *)
Lemma bitmap_words n (l : list Z) : 0 <= n < 2 ^ 20 -> n <= 32 * Z.of_nat (length l) -> bm_wf l ->
  let b := take (Z.to_nat (heap_size (n / 8) / 4)) l in bm_wf b /\ n <= 32 * Z.of_nat (length b).
Proof.
  intros Hn Hl Hw b. split; [by apply Forall_take|]. unfold b. rewrite length_take.
  assert (Hd : 0 <= n / 8 < 2 ^ 17) by (split; [apply Z.div_pos; lia|apply Z.div_lt_upper_bound; lia]).
  pose proof (Z.mod_pos_bound (n / 8) 8 ltac:(lia)). pose proof (Z.div_mod n 8 ltac:(done)) as E1.
  pose proof (Z.mod_pos_bound n 8 ltac:(lia)). pose proof (Z.div_mod (n / 8) 8 ltac:(done)) as E2.
  assert (E : heap_size (n / 8) / 4 = 2 * (n / 8 / 8 + 1)).
  { unfold heap_size. rewrite w32_small by lia. symmetry. apply Z.div_unique with 0; [lia|]. lia. }
  rewrite E. assert (0 <= n / 8 / 8) by (apply Z.div_pos; lia). lia.
Qed.

(** the state [init_memory] ends in, with the two page allocators [r] and [g] *)
Definition memory_up (r g : region) (size h : Z) (s : memory) : memory :=
  let m := my_mmu s in
  Memory (Boot (mem_drop (bt_heap (my_boot s)) (heap_size size) (bt_mem (my_boot s))) h (bt_maps (my_boot s)))
    (set_global g (set_physical r (mem_set (pm_cr3 m + 4 * 1023) (pm_cr3 m + 3) m))) true.

Lemma init_memory_ok s boot_page_dir stale mem :
  boot_mmu (my_mmu s) boot_page_dir mem -> my_initialized s = false ->
  bm_wf (stale (bt_heap (my_boot s))) ->
  mm_length mem / PAGE_SIZE <= 32 * Z.of_nat (length (stale (bt_heap (my_boot s)))) ->
  0 < mm_addr mem -> mm_addr mem mod PAGE_SIZE = 0 -> 0 <= mm_length mem -> mm_addr mem + mm_length mem <= 2 ^ 32 ->
  bm_wf (r_bitmap (pm_global (my_mmu s))) -> length (r_bitmap (pm_global (my_mmu s))) = 32%nat ->
  exists r g h, init_memory boot_page_dir stale mem s = Some (tt, memory_up r g (mm_length mem / PAGE_SIZE / 8) h s) /\ mmu_wf (my_mmu (memory_up r g (mm_length mem / PAGE_SIZE / 8) h s)) /\
    region_inv g /\ r_mode g = REGION_MODE_VIRTUAL /\ r_vaddress g = 0xfd400000 /\ region_pages g = 1024%nat /\
    r_available r = mm_length mem / PAGE_SIZE /\ r_available g = 1024 /\
    (forall p, ~ region_owns r p /\ ~ region_owns g p).
Proof.
  intros Hb Hini Hst Hlen Haddr Hal Hl0 Htop Hgw Hgl. pose proof (Z.div_pos (mm_length mem) PAGE_SIZE Hl0 ltac:(done)).
  pose proof (Z.mul_div_le (mm_length mem) PAGE_SIZE ltac:(done)) as Hle.
  assert (Hpages : mm_length mem / PAGE_SIZE < 2 ^ 20) by (apply Z.div_lt_upper_bound; unfold PAGE_SIZE; lia).
  destruct (bitmap_words (mm_length mem / PAGE_SIZE) (stale (bt_heap (my_boot s)))) as [Hbw Hbl]; [lia|done|done|].
  set (bm := take _ _) in *.
  destruct (region_init_at_spec (mm_addr mem) bm (mm_length mem / PAGE_SIZE)
    (Z.lor (Z.lor PAGE_READ PAGE_WRITE) PAGE_SUPERVISOR) REGION_MODE_PHYSICAL) as (r & Hr & Hinv & Hav & Hnum & Hown); try (done || lia).
  destruct (init_paging_run (my_mmu s) boot_page_dir mem Hb r) as (m & Hrun & Hm).
  destruct (region_init_at_spec (w32 (KERNEL_BASE + 0x400000)) (r_bitmap (pm_global (my_mmu s))) (32 * BITMAP_BPS)
    (Z.lor (Z.lor PAGE_READ PAGE_WRITE) PAGE_SUPERVISOR) REGION_MODE_VIRTUAL) as (g & Hg & Hginv & Hgav & Hgnum & Hgown);
    [done|rewrite Hgl; unfold BITMAP_BPS; lia|done|done|by vm_compute|].
  pose proof (region_init_fields _ _ _ _ _ _ Hr) as (Hrv & Hrm). pose proof (region_init_fields _ _ _ _ _ _ Hg) as (Hgv & Hgm).
  eexists r, g, _. split.
  { unfold init_memory, kealloc. cbn [mbind option_bind]. cbv zeta. fold bm. rewrite Hr. cbn [mbind option_bind]. rewrite Hrun. cbn [mbind option_bind].
    unfold region_init_global. rewrite Hini. cbn [negb rg_initialized rg_region].
    replace (pm_global m) with (pm_global (my_mmu s)) by (by rewrite Hm). rewrite Hg, Hm. reflexivity. }
  split_and!; try done.
  - assert (Hwf : mmu_wf m).
    { rewrite Hm. apply (recursive_wf (my_mmu s) boot_page_dir mem Hb r); [done|done|]. intros p (k & Hk & -> & _).
      destruct Hb as [_ (? & ? & _) _ _ Hap]. unfold region_pages in Hk. rewrite Hnum in Hk. rewrite Hrv.
      unfold PAGE_SIZE in *. lia. }
    rewrite Hm in Hwf. destruct Hwf. split; done.
  - unfold region_pages. by rewrite Hgnum.
Qed.

(** C39: from the directory of the boot code and the memory kept back for the
    kernel, [init_memory] establishes the invariant of the page tables and both
    page allocators, with every page to be had and none in use, whatever the
    heap held where the bitmap is. *)
Theorem init_memory_spec s boot_page_dir stale mem :
  boot_mmu (my_mmu s) boot_page_dir mem -> my_initialized s = false ->
  bm_wf (stale (bt_heap (my_boot s))) ->
  mm_length mem / PAGE_SIZE <= 32 * Z.of_nat (length (stale (bt_heap (my_boot s)))) ->
  0 < mm_addr mem -> mm_addr mem mod PAGE_SIZE = 0 -> 0 <= mm_length mem -> mm_addr mem + mm_length mem <= 2 ^ 32 ->
  bm_wf (r_bitmap (pm_global (my_mmu s))) -> length (r_bitmap (pm_global (my_mmu s))) = 32%nat ->
  exists s', init_memory boot_page_dir stale mem s = Some (tt, s') /\ mmu_wf (my_mmu s') /\
    region_inv (pm_global (my_mmu s')) /\ r_mode (pm_global (my_mmu s')) = REGION_MODE_VIRTUAL /\
    r_available (pm_physical (my_mmu s')) = mm_length mem / PAGE_SIZE /\ r_available (pm_global (my_mmu s')) = 1024 /\
    (forall p, ~ region_owns (pm_physical (my_mmu s')) p /\ ~ region_owns (pm_global (my_mmu s')) p).
Proof.
  intros Hb Hini Hst Hlen Haddr Hal Hl0 Htop Hgw Hgl.
  destruct (init_memory_ok s boot_page_dir stale mem) as (r & g & h & Hrun & Hw & Hg & Hm & _ & _ & Hr & Hga & Hown); try done.
  by exists (memory_up r g (mm_length mem / PAGE_SIZE / 8) h s).
Qed.

(** 4 MB at the kernel's base, in a directory at 0x101000 *)
Definition ex_boot_mmu : mmu :=
  Mmu {[ 0x101000 + 4 * 1012 := 0x83 ]} 0x101000 ∅ (Region [] 0 0 0 0 0) (Region (replicate 32 0xffffffff) 0 0 0 0 0).
Definition ex_kernel_mem : phys_memmap := PhysMemmap NULL 0x400000 0x800000.
Lemma ex_boot_mmu_ok : boot_mmu ex_boot_mmu 0xfd101000 ex_kernel_mem.
Proof.
  split.
  - intros a. unfold mem_get, ex_boot_mmu. simpl. rewrite lookup_singleton. case_decide; simpl; lia.
  - split_and!; vm_compute; congruence.
  - by vm_compute.
  - intros d Hd (_ & Hp & H4). unfold pde, mem_get, pd, ex_boot_mmu in *. cbn [pm_mem pm_cr3] in *.
    change (page_mask 0x101000) with 0x101000 in *. rewrite lookup_singleton in *. case_decide; cbn [default] in *.
    + by vm_compute in H4.
    + by vm_compute in Hp.
  - left. vm_compute. congruence.
Qed.
Lemma init_memory_spec_witness : exists s',
  init_memory 0xfd101000 (fun _ => replicate 64 0xdeadbeef) ex_kernel_mem (Memory ex_boot ex_boot_mmu false) = Some (tt, s') /\
  mmu_wf (my_mmu s') /\ r_available (pm_physical (my_mmu s')) = 2048.
Proof.
  destruct (init_memory_spec (Memory ex_boot ex_boot_mmu false) 0xfd101000 (fun _ => replicate 64 0xdeadbeef) ex_kernel_mem)
    as (s' & Hrun & Hwf & _ & _ & Hav & _).
  - exact ex_boot_mmu_ok.
  - reflexivity.
  - apply Forall_replicate. vm_compute. split; congruence.
  - vm_compute. congruence.
  - reflexivity.
  - reflexivity.
  - vm_compute. congruence.
  - vm_compute. congruence.
  - apply Forall_replicate. vm_compute. split; congruence.
  - reflexivity.
  - exists s'. split; [exact Hrun|]. split; [exact Hwf|exact Hav].
Defined.
