(* ===== verification/AddrSpace.v ===== *)
(** Address spaces and physical frames ([src/mm/addrspace.c],
    [include/c4/mm/addrspace.h]).

    An address space owns a page directory and a map, a page holding an array
    of entries sorted by address, each naming a frame, a run of physical pages
    with a count of its mappings.  Spaces, frames and maps live in one store
    beside the memory of [Paging.v].  A pointer to an entry is the address of
    its map plus 12 for the header and 12 for each entry before it.  A lock
    that cannot be taken at once ends the computation, like a fault. *)
From S2P Require Export Paging Sync Alloc.

Definition KOBJECT_TYPE_ADDR_SPACE : Z := 4.
Definition KOBJECT_TYPE_PHYS_MEMORY : Z := 7.

Definition C4_ERROR_NONE : Z := 0.
Definition C4_ERROR_INVALID_ARGUMENT : Z := 1.

Record phys_frame := PhysFrame {
  pf_object : kobject;
  pf_address : Z;
  pf_size : Z;
  pf_flags : Z;
  pf_mappings : Z;
}.

Record addr_entry := AddrEntry { ae_addr : Z; ae_frame : Z; ae_permissions : Z }.

Definition ADDR_ENTRY_SIZE : Z := 12.
Definition ADDR_MAP_ENTRIES_PER_PAGE : Z := PAGE_SIZE / ADDR_ENTRY_SIZE - 1.

(** [am_map] is the array, of [ADDR_MAP_ENTRIES_PER_PAGE] entries *)
Record addr_map := AddrMap {
  am_entries : Z;
  am_used : Z;
  am_map : list addr_entry;
}.

Record addr_space := AddrSpace {
  as_object : kobject;
  as_page_dir : Z;
  as_map : Z;
}.

Definition zero_entry : addr_entry := AddrEntry 0 0 0.

(** ** The sorted array *)

(** [map[i] = map[i - 1]] for [i] from [used] down to [index + 1] *)
Fixpoint shift_up (n : nat) (i : nat) (l : list addr_entry) : option (list addr_entry) :=
  match n with
  | O => Some l
  | S n =>
      e ← l !! (i - 1)%nat;
      _ ← l !! i;
      shift_up n (i - 1) (<[i := e]> l)
  end.

Definition addr_map_shift_upwards (m : addr_map) (index : nat) : option addr_map :=
  l ← shift_up (Z.to_nat (am_used m) - index) (Z.to_nat (am_used m)) (am_map m);
  _ ← l !! index;
  Some (AddrMap (am_entries m) (am_used m + 1) (<[index := zero_entry]> l)).

(** [map[i] = map[i + 1]] for [i] from [index] to [used - 1] *)
Fixpoint shift_down (n : nat) (i : nat) (l : list addr_entry) : option (list addr_entry) :=
  match n with
  | O => Some l
  | S n =>
      e ← l !! (i + 1)%nat;
      _ ← l !! i;
      shift_down n (i + 1) (<[i := e]> l)
  end.

Definition addr_map_shift_downwards (m : addr_map) (index : nat) : option addr_map :=
  l ← shift_down (Z.to_nat (am_used m) - index) index (am_map m);
  Some (AddrMap (am_entries m) (am_used m - 1) l).

(** the loop of [addr_map_insert] that looks for a place *)
Fixpoint find_place (n : nat) (i : nat) (l : list addr_entry) (addr : Z) : option (option nat) :=
  match n with
  | O => Some None
  | S n =>
      e ← l !! i;
      if addr <? ae_addr e then Some (Some i) else find_place n (i + 1) l addr
  end.

(** the index of the new entry, or [None] for NULL, and the map *)
Definition addr_map_insert (m : addr_map) (entry : addr_entry) : option (option nat * addr_map) :=
  if am_entries m <=? am_used m then Some (None, m)
  else
    place ← find_place (Z.to_nat (am_used m)) 0 (am_map m) (ae_addr entry);
    '(i, m') ← match place with
               | Some i => m' ← addr_map_shift_upwards m i; Some (i, m')
               | None => Some (Z.to_nat (am_used m),
                               AddrMap (am_entries m) (am_used m + 1) (am_map m))
               end;
    _ ← am_map m' !! i;
    Some (Some i, AddrMap (am_entries m') (am_used m') (<[i := entry]> (am_map m'))).

(** ** The store *)

Record space_store (A : Type) := SpaceStore {
  sp_mmu : mmu;
  sp_spaces : gmap Z addr_space;
  sp_frames : gmap Z phys_frame;
  sp_maps : gmap Z addr_map;
  sp_kernel : Z;
  sp_alloc : A;  (** [addr_space_slab], and the pages of the region *)
  sp_frame_slab : A;  (** [phys_frame_slab] *)
}.
Arguments SpaceStore {A} _ _ _ _ _ _ _.
Arguments sp_mmu {A} _.
Arguments sp_spaces {A} _.
Arguments sp_frames {A} _.
Arguments sp_maps {A} _.
Arguments sp_kernel {A} _.
Arguments sp_alloc {A} _.
Arguments sp_frame_slab {A} _.

Section addrspace.
Context {A : Type} `{!Allocator A} `{!Pages A}.
(** the running thread, the number of processors, and where [unmap_page] keeps
    its local variable *)
Context (cur num_cpus paddr_var : Z).

Abbreviation AST := (ST (space_store A)).

Definition set_mmu (m : mmu) (s : space_store A) : space_store A :=
  SpaceStore m (sp_spaces s) (sp_frames s) (sp_maps s) (sp_kernel s) (sp_alloc s) (sp_frame_slab s).
Definition set_spaces (x : gmap Z addr_space) (s : space_store A) : space_store A :=
  SpaceStore (sp_mmu s) x (sp_frames s) (sp_maps s) (sp_kernel s) (sp_alloc s) (sp_frame_slab s).
Definition set_frames (x : gmap Z phys_frame) (s : space_store A) : space_store A :=
  SpaceStore (sp_mmu s) (sp_spaces s) x (sp_maps s) (sp_kernel s) (sp_alloc s) (sp_frame_slab s).
Definition set_maps (x : gmap Z addr_map) (s : space_store A) : space_store A :=
  SpaceStore (sp_mmu s) (sp_spaces s) (sp_frames s) x (sp_kernel s) (sp_alloc s) (sp_frame_slab s).
Definition set_kernel (x : Z) (s : space_store A) : space_store A :=
  SpaceStore (sp_mmu s) (sp_spaces s) (sp_frames s) (sp_maps s) x (sp_alloc s) (sp_frame_slab s).
Definition set_sp_alloc (a : A) (s : space_store A) : space_store A :=
  SpaceStore (sp_mmu s) (sp_spaces s) (sp_frames s) (sp_maps s) (sp_kernel s) a (sp_frame_slab s).
Definition set_sp_frame_slab (a : A) (s : space_store A) : space_store A :=
  SpaceStore (sp_mmu s) (sp_spaces s) (sp_frames s) (sp_maps s) (sp_kernel s) (sp_alloc s) a.

Definition on_mmu {B} (m : ST mmu B) : AST B := zoom sp_mmu set_mmu m.
Definition on_alloc {B} (m : ST A B) : AST B := zoom sp_alloc set_sp_alloc m.
Definition on_frame_slab {B} (m : ST A B) : AST B := zoom sp_frame_slab set_sp_frame_slab m.
Definition space_get (p : Z) : AST addr_space := s ← get_st; lift_opt (sp_spaces s !! p).
Definition space_put (p : Z) (x : addr_space) : AST unit :=
  modify (fun s => set_spaces (<[p := x]> (sp_spaces s)) s).
Definition frame_get (p : Z) : AST phys_frame := s ← get_st; lift_opt (sp_frames s !! p).
Definition frame_put (p : Z) (x : phys_frame) : AST unit :=
  modify (fun s => set_frames (<[p := x]> (sp_frames s)) s).
Definition map_get (p : Z) : AST addr_map := s ← get_st; lift_opt (sp_maps s !! p).
Definition map_put (p : Z) (x : addr_map) : AST unit :=
  modify (fun s => set_maps (<[p := x]> (sp_maps s)) s).

Definition set_pf_object (o : kobject) (f : phys_frame) : phys_frame :=
  PhysFrame o (pf_address f) (pf_size f) (pf_flags f) (pf_mappings f).
Definition set_pf_size (n : Z) (f : phys_frame) : phys_frame :=
  PhysFrame (pf_object f) (pf_address f) n (pf_flags f) (pf_mappings f).
Definition set_pf_mappings (n : Z) (f : phys_frame) : phys_frame :=
  PhysFrame (pf_object f) (pf_address f) (pf_size f) (pf_flags f) n.

Definition space_lock (p : Z) : AST unit :=
  x ← space_get p;
  o ← lift_opt (kobject_lock cur num_cpus (as_object x));
  space_put p (AddrSpace o (as_page_dir x) (as_map x)).
Definition space_unlock (p : Z) : AST unit :=
  x ← space_get p;
  o ← lift_opt (kobject_release (as_object x));
  space_put p (AddrSpace o (as_page_dir x) (as_map x)).
Definition frame_lock (p : Z) : AST unit :=
  f ← frame_get p;
  o ← lift_opt (kobject_lock cur num_cpus (pf_object f));
  frame_put p (set_pf_object o f).
Definition frame_unlock (p : Z) : AST unit :=
  f ← frame_get p;
  o ← lift_opt (kobject_release (pf_object f));
  frame_put p (set_pf_object o f).

(** ** Physical frames *)

Definition phys_frame_create (addr size flags : Z) : AST Z :=
  ret ← on_frame_slab alloc;
  _ ← frame_put ret (PhysFrame (kobject_init KOBJECT_TYPE_PHYS_MEMORY) addr size flags 0);
  mret ret.

Definition phys_frame_map (phys : Z) : AST unit :=
  f ← frame_get phys;
  frame_put phys (set_pf_mappings (w32 (pf_mappings f + 1)) f).

(** the assertion that [mappings] is not 0 only prints a message *)
Definition phys_frame_unmap (phys : Z) : AST unit :=
  f ← frame_get phys;
  frame_put phys (set_pf_mappings (w32 (pf_mappings f - 1)) f).

Definition phys_frame_split (phys offset : Z) : AST Z :=
  _ ← frame_lock phys;
  f ← frame_get phys;
  if negb (pf_mappings f =? 0) then _ ← frame_unlock phys; mret NULL
  else if (offset =? 0) || (pf_size f <=? offset) then _ ← frame_unlock phys; mret NULL
  else
    ret ← phys_frame_create (w32 (pf_address f + w32 (offset * PAGE_SIZE)))
            (w32 (pf_size f - offset)) (pf_flags f);
    f ← frame_get phys;
    _ ← frame_put phys (set_pf_size offset f);
    _ ← frame_unlock phys;
    mret ret.

(** ** Maps *)

(** [map->map + i] *)
Definition map_entry_ptr (map : Z) (i : nat) : Z := map + ADDR_ENTRY_SIZE * (1 + Z.of_nat i).

Definition addr_map_create : AST Z :=
  ret ← on_alloc page_alloc;
  if negb (ret =? NULL) then
    _ ← map_put ret (AddrMap ADDR_MAP_ENTRIES_PER_PAGE 0
           (replicate (Z.to_nat ADDR_MAP_ENTRIES_PER_PAGE) zero_entry));
    mret ret
  else mret ret.

Definition addr_map_get_root (entry : Z) : Z :=
  if negb (entry =? NULL) then entry - entry mod PAGE_SIZE else NULL.

(** the loop of [addr_map_lookup] *)
Fixpoint lookup_loop (n i : nat) (map address : Z) : AST Z :=
  match n with
  | O => mret NULL
  | S n =>
      m ← map_get map;
      e ← lift_opt (am_map m !! i);
      f ← frame_get (ae_frame e);
      let start := ae_addr e in
      let end_ := w32 (start + w32 (pf_size f * PAGE_SIZE)) in
      if (start <=? address) && (address <? end_) then mret (map_entry_ptr map i)
      else lookup_loop n (i + 1) map address
  end.

Definition addr_map_lookup (map address : Z) : AST Z :=
  m ← map_get map;
  lookup_loop (Z.to_nat (am_used m)) 0 map address.

(** the assertion on [index] only prints a message *)
Definition addr_map_remove (map entry : Z) : AST unit :=
  let index := (entry - (map + ADDR_ENTRY_SIZE)) / ADDR_ENTRY_SIZE in
  m ← map_get map;
  m' ← lift_opt (addr_map_shift_downwards m (Z.to_nat index));
  map_put map m'.

(** the entry a pointer names *)
Definition entry_get (ptr : Z) : AST addr_entry :=
  let map := addr_map_get_root ptr in
  m ← map_get map;
  lift_opt (am_map m !! Z.to_nat ((ptr - (map + ADDR_ENTRY_SIZE)) / ADDR_ENTRY_SIZE)).

(** ** Address spaces *)

Definition addr_space_set (space : Z) : AST unit :=
  x ← space_get space;
  on_mmu (set_page_dir (as_page_dir x)).

Definition addr_space_make_ent (addr permissions frame : Z) : addr_entry :=
  AddrEntry addr frame permissions.

(** the loop of [addr_space_insert_map] over the pages of the frame *)
Fixpoint map_loop (n : nat) (perms v p : Z) : PST unit :=
  match n with
  | O => mret tt
  | S n => _ ← map_phys_page perms v p; map_loop n perms (w32 (v + PAGE_SIZE)) (w32 (p + PAGE_SIZE))
  end.

Fixpoint unmap_loop (n : nat) (v : Z) : PST unit :=
  match n with
  | O => mret tt
  | S n => _ ← unmap_page paddr_var v; unmap_loop n (w32 (v + PAGE_SIZE))
  end.

(** the number of rounds of [for (page = 0; page < size * PAGE_SIZE; ...)] *)
Definition page_rounds (size : Z) : nat := Z.to_nat (w32 (size * PAGE_SIZE) / PAGE_SIZE).

Definition addr_space_insert_map (space : Z) (ent : addr_entry) : AST Z :=
  let phys := ae_frame ent in
  f ← frame_get phys;
  let v_start := ae_addr ent - ae_addr ent mod PAGE_SIZE in
  let p_start := pf_address f - pf_address f mod PAGE_SIZE in
  _ ← space_lock space;
  _ ← frame_lock phys;
  _ ← phys_frame_map phys;
  x ← space_get space;
  m ← map_get (as_map x);
  '(_, m') ← lift_opt (addr_map_insert m ent);
  _ ← map_put (as_map x) m';
  f ← frame_get phys;
  _ ← on_mmu (map_loop (page_rounds (pf_size f)) (ae_permissions ent) v_start p_start);
  _ ← frame_unlock phys;
  _ ← space_unlock space;
  mret 0.

Definition addr_space_remove_map (space ent : Z) : AST Z :=
  e ← entry_get ent;
  let phys := ae_frame e in
  let v_start := ae_addr e - ae_addr e mod PAGE_SIZE in
  _ ← frame_lock phys;
  f ← frame_get phys;
  _ ← on_mmu (unmap_loop (page_rounds (pf_size f)) v_start);
  _ ← phys_frame_unmap phys;
  x ← space_get space;
  _ ← addr_map_remove (as_map x) ent;
  _ ← frame_unlock phys;
  mret 0.

Definition addr_space_unmap (space address : Z) : AST Z :=
  _ ← space_lock space;
  x ← space_get space;
  ent ← addr_map_lookup (as_map x) address;
  if ent =? NULL then
    _ ← space_unlock space;
    mret (- C4_ERROR_INVALID_ARGUMENT)
  else
    _ ← addr_space_remove_map space ent;
    _ ← space_unlock space;
    mret (- C4_ERROR_NONE).

Definition addr_space_kernel : AST Z := s ← get_st; mret (sp_kernel s).

(** the page of the directory comes from the region in [sp_mmu], the page of
    the map from [sp_alloc]: both stand for the region of the kernel *)
Definition addr_space_clone (space : Z) : AST Z :=
  _ ← space_lock space;
  ret ← on_alloc alloc;
  x ← space_get space;
  page_dir ← on_mmu (clone_page_dir (as_page_dir x));
  map ← addr_map_create;
  _ ← space_put ret (AddrSpace (kobject_init KOBJECT_TYPE_ADDR_SPACE) page_dir map);
  m ← map_get (as_map x);
  _ ← (if map =? NULL then fault else map_put map m);
  _ ← space_unlock space;
  mret ret.

(** the part of [addr_space_init] that makes the space of the kernel *)
Definition addr_space_init (kernel_dir : Z) : AST unit :=
  ret ← on_alloc alloc;
  map ← addr_map_create;
  _ ← space_put ret (AddrSpace (kobject_init KOBJECT_TYPE_ADDR_SPACE) kernel_dir map);
  modify (set_kernel ret).
End addrspace.

(** ** Lemmas on the array *)

Lemma shift_up_spec n index l :
  (index + n < length l)%nat ->
  exists l', shift_up n (index + n) l = Some l' /\ length l' = length l /\
    forall k, l' !! k = if decide (index < k <= index + n)%nat then l !! (k - 1)%nat else l !! k.
Proof.
  revert l. induction n as [|n IH]; intros l Hlen; simpl.
  - exists l. split_and!; [done|done|]. intros k. by rewrite decide_False by lia.
  - destruct (lookup_lt_is_Some_2 l (index + S n - 1)%nat) as [e He]; [lia|].
    destruct (lookup_lt_is_Some_2 l (index + S n)%nat) as [e' He']; [lia|]. rewrite He, He'. simpl.
    replace (index + S n - 1)%nat with (index + n)%nat in * by lia.
    destruct (IH (<[(index + S n)%nat := e]> l)) as (l' & Hl' & Hlen' & Hk); [rewrite length_insert; lia|].
    exists l'. rewrite length_insert in Hlen'. split_and!; [done|done|]. intros k. rewrite Hk.
    destruct (decide (k = index + S n)%nat) as [->|Hne].
    + rewrite decide_False by lia. rewrite decide_True by lia.
      rewrite list_lookup_insert_eq by lia. by replace (index + S n - 1)%nat with (index + n)%nat by lia.
    + repeat case_decide; try lia; by rewrite list_lookup_insert_ne by lia.
Qed.

Lemma shift_down_spec n i l :
  (i + n < length l)%nat ->
  exists l', shift_down n i l = Some l' /\ length l' = length l /\
    forall k, l' !! k = if decide (i <= k < i + n)%nat then l !! (k + 1)%nat else l !! k.
Proof.
  revert i l. induction n as [|n IH]; intros i l Hlen; simpl.
  - exists l. split_and!; [done|done|]. intros k. by rewrite decide_False by lia.
  - destruct (lookup_lt_is_Some_2 l (i + 1)%nat) as [e He]; [lia|].
    destruct (lookup_lt_is_Some_2 l i) as [e' He']; [lia|]. rewrite He, He'. simpl.
    destruct (IH (i + 1)%nat (<[i := e]> l)) as (l' & Hl' & Hlen' & Hk); [rewrite length_insert; lia|].
    exists l'. rewrite length_insert in Hlen'. split_and!; [done|done|]. intros k. rewrite Hk.
    destruct (decide (k = i)) as [->|Hne].
    + rewrite decide_False by lia. rewrite decide_True by lia. by rewrite list_lookup_insert_eq by lia.
    + repeat case_decide; try lia; by rewrite list_lookup_insert_ne by lia.
Qed.

(** one read past the array stops the loop *)
Lemma shift_down_out n i l :
  (i < length l)%nat -> (length l <= i + n)%nat -> shift_down n i l = None.
Proof.
  revert i l. induction n as [|n IH]; intros i l Hi Hlen; simpl; [lia|].
  destruct (l !! (i + 1)%nat) as [e|] eqn:He; [|done]. simpl.
  destruct (l !! i) as [e'|] eqn:He'; [|done]. simpl.
  apply IH; rewrite length_insert; [|lia]. by apply lookup_lt_Some in He.
Qed.

Lemma find_place_spec n i l addr :
  (i + n <= length l)%nat ->
  (exists k e, (i <= k < i + n)%nat /\ find_place n i l addr = Some (Some k) /\
     l !! k = Some e /\ addr < ae_addr e /\
     forall j e', (i <= j < k)%nat -> l !! j = Some e' -> ae_addr e' <= addr) \/
  (find_place n i l addr = Some None /\
     forall j e', (i <= j < i + n)%nat -> l !! j = Some e' -> ae_addr e' <= addr).
Proof.
  revert i. induction n as [|n IH]; intros i Hlen; simpl.
  - right. split; [done|]. intros; lia.
  - destruct (lookup_lt_is_Some_2 l i) as [e He]; [lia|]. rewrite He. simpl.
    destruct (Z.ltb_spec addr (ae_addr e)) as [Hlt|Hge].
    + left. exists i, e. split_and!; try done; try lia.
    + destruct (IH (i + 1)%nat) as [(k & e1 & Hk & Hf & He1 & Ha & Hj)|[Hf Hj]]; [lia| |].
      * left. exists k, e1. split_and!; try done; try lia. intros j e' Hj1 Hj2.
        destruct (decide (j = i)) as [->|]; [congruence|]. apply (Hj j e'); [lia|done].
      * right. split; [done|]. intros j e' Hj1 Hj2.
        destruct (decide (j = i)) as [->|]; [congruence|]. apply (Hj j e'); [lia|done].
Qed.

(** ** The map as a sorted list *)

(** the entries in use *)
Definition entries (m : addr_map) : list addr_entry := take (Z.to_nat (am_used m)) (am_map m).

Record map_wf (m : addr_map) : Prop := {
  mp_len : Z.of_nat (length (am_map m)) = ADDR_MAP_ENTRIES_PER_PAGE;
  mp_entries : am_entries m = ADDR_MAP_ENTRIES_PER_PAGE;
  mp_used : 0 <= am_used m <= ADDR_MAP_ENTRIES_PER_PAGE;
}.

Definition addr_le (a b : addr_entry) : Prop := ae_addr a <= ae_addr b.

Definition sorted_map (m : addr_map) : Prop :=
  forall i j a b, (i < j)%nat -> entries m !! i = Some a -> entries m !! j = Some b -> addr_le a b.

Lemma entries_lookup m i : entries m !! i = if decide (i < Z.to_nat (am_used m))%nat then am_map m !! i else None.
Proof.
  unfold entries. case_decide.
  - by rewrite lookup_take_lt.
  - by rewrite lookup_take_ge by lia.
Qed.

Lemma entries_length m : map_wf m -> length (entries m) = Z.to_nat (am_used m).
Proof. intros []. unfold entries. rewrite length_take. lia. Qed.

(** the entry goes to index [i]: the ones before stay, the ones after move up *)
Lemma addr_map_insert_at m e :
  map_wf m -> am_used m < ADDR_MAP_ENTRIES_PER_PAGE ->
  exists i m', addr_map_insert m e = Some (Some i, m') /\ map_wf m' /\ am_used m' = am_used m + 1 /\
    (i <= Z.to_nat (am_used m))%nat /\
    (forall j a, (j < i)%nat -> entries m !! j = Some a -> ae_addr a <= ae_addr e) /\
    ((i < Z.to_nat (am_used m))%nat -> exists a, entries m !! i = Some a /\ ae_addr e < ae_addr a) /\
    forall k, entries m' !! k =
      if decide (k < i)%nat then entries m !! k
      else if decide (k = i) then Some e else entries m !! (k - 1)%nat.
Proof.
  intros Hw Hu. destruct Hw as [Hl He [Hu0 Hu1]]. set (u := Z.to_nat (am_used m)) in *.
  assert (u < length (am_map m))%nat as Hul by lia.
  unfold addr_map_insert. rewrite He, (proj2 (Z.leb_gt _ _) Hu). fold u.
  destruct (find_place_spec u 0 (am_map m) (ae_addr e)) as
    [(i & a & Hi & Hf & Ha & Hlt & Hj)|[Hf Hj]]; [lia| |]; rewrite Hf; simpl.
  - unfold addr_map_shift_upwards. fold u.
    destruct (shift_up_spec (u - i) i (am_map m)) as (l' & Hl' & Hlen' & Hk); [lia|].
    replace (i + (u - i))%nat with u in * by lia. rewrite Hl'. simpl.
    destruct (lookup_lt_is_Some_2 l' i) as [z Hz]; [lia|]. rewrite Hz. simpl.
    rewrite list_lookup_insert_eq by lia. simpl. rewrite list_insert_insert_eq.
    eexists i, _. split; [reflexivity|]. split_and!; simpl; try lia.
    + split; simpl; try lia. by rewrite length_insert, Hlen'.
    + intros j b Hjb. rewrite entries_lookup. case_decide; [|done]. apply Hj. lia.
    + intros _. exists a. rewrite entries_lookup. rewrite decide_True by lia. done.
    + intros k. rewrite !entries_lookup. simpl. replace (Z.to_nat (am_used m + 1)) with (S u) by lia. fold u.
      destruct (decide (k = i)) as [->|Hne].
      * rewrite decide_True, decide_False by lia. apply list_lookup_insert_eq. lia.
      * rewrite list_lookup_insert_ne by done. rewrite Hk.
        repeat case_decide; try lia; done.
  - assert (is_Some (am_map m !! u)) as [z Hz] by (by apply lookup_lt_is_Some_2). rewrite Hz. simpl.
    eexists u, _. split; [reflexivity|]. split_and!; simpl; try lia.
    + split; simpl; try lia. by rewrite length_insert.
    + intros j b Hjb. rewrite entries_lookup. case_decide; [|done]. apply Hj. lia.
    + intros k. rewrite !entries_lookup. simpl. replace (Z.to_nat (am_used m + 1)) with (S u) by lia. fold u.
      destruct (decide (k = u)) as [->|Hne].
      * rewrite decide_True, decide_False by lia. apply list_lookup_insert_eq. lia.
      * rewrite list_lookup_insert_ne by done. repeat case_decide; try lia; done.
Qed.

(** removing index [i]: the entries after it move down *)
Lemma addr_map_remove_at m i :
  map_wf m -> (i < Z.to_nat (am_used m))%nat -> am_used m < ADDR_MAP_ENTRIES_PER_PAGE ->
  exists m', addr_map_shift_downwards m i = Some m' /\ map_wf m' /\ am_used m' = am_used m - 1 /\
    forall k, entries m' !! k = if decide (k < i)%nat then entries m !! k else entries m !! (k + 1)%nat.
Proof.
  intros [Hl He [Hu0 Hu1]] Hi Hu. set (u := Z.to_nat (am_used m)) in *.
  unfold addr_map_shift_downwards. fold u.
  destruct (shift_down_spec (u - i) i (am_map m)) as (l' & Hl' & Hlen' & Hk); [lia|].
  rewrite Hl'. simpl. eexists. split; [reflexivity|]. split_and!; simpl.
  - split; simpl; [by rewrite Hlen'|done|lia].
  - done.
  - intros k. rewrite !entries_lookup. simpl. replace (Z.to_nat (am_used m - 1)) with (u - 1)%nat by lia.
    fold u. rewrite Hk. repeat case_decide; try lia; done.
Qed.

Lemma entry_index_ptr map (i : nat) :
  (map_entry_ptr map i - (map + ADDR_ENTRY_SIZE)) / ADDR_ENTRY_SIZE = Z.of_nat i.
Proof.
  unfold map_entry_ptr, ADDR_ENTRY_SIZE.
  replace (map + 12 * (1 + Z.of_nat i) - (map + 12)) with (Z.of_nat i * 12) by lia.
  by rewrite Z.div_mul.
Qed.

(** ** Properties of the maps *)

(** the entry [e] is at index [i] of [m'], after every entry of [m] with an
    address that is not larger and before the first one with a larger address;
    the entries of [m] are all there, in their order *)
Record placed (m : addr_map) (e : addr_entry) (i : nat) (m' : addr_map) : Prop := {
  pl_used : am_used m' = am_used m + 1;
  pl_entries : entries m' = take i (entries m) ++ e :: drop i (entries m);
  pl_before : Forall (fun a => ae_addr a <= ae_addr e) (take i (entries m));
  pl_next : forall a, entries m !! i = Some a -> ae_addr e < ae_addr a;
}.

(** in a map in order, it is before all entries of larger addresses *)
Definition in_order (m : addr_map) (e : addr_entry) (i : nat) (m' : addr_map) : Prop :=
  Forall (fun a => ae_addr e < ae_addr a) (drop i (entries m)) /\ sorted_map m'.

Lemma placed_in_order m e i m' : placed m e i m' -> sorted_map m -> in_order m e i m'.
Proof.
  intros [_ He Hb Hn] Hs.
  assert (Ha : Forall (fun a => ae_addr e < ae_addr a) (drop i (entries m))).
  { apply Forall_lookup_2. intros j b. rewrite lookup_drop. intros Hj.
    destruct (entries m !! i) as [a|] eqn:Hi.
    - specialize (Hn a eq_refl). destruct (decide (j = 0%nat)) as [->|]; [rewrite Nat.add_0_r in Hj; congruence|].
      assert (addr_le a b) by (apply (Hs i (i + j)%nat); [lia|done|done]). unfold addr_le in *. lia.
    - apply lookup_ge_None in Hi. apply lookup_lt_Some in Hj. lia. }
  split; [exact Ha|]. rewrite Forall_lookup in Ha, Hb. intros j k a b Hjk. rewrite He. unfold addr_le.
  rewrite !lookup_app, !lookup_cons.
  destruct (take i (entries m) !! j) as [a1|] eqn:Hj.
  - intros [= <-]. destruct (take i (entries m) !! k) as [b1|] eqn:Hk.
    + intros [= <-]. apply lookup_take_Some in Hj as [Hj _]. apply lookup_take_Some in Hk as [Hk _].
      exact (Hs j k a1 b1 Hjk Hj Hk).
    + specialize (Hb j a1 Hj). destruct (k - _)%nat as [|k']; [by intros [= <-]|].
      intros Hk'. specialize (Ha k' b Hk'). lia.
  - assert (Hlen : (length (take i (entries m)) <= j)%nat) by (by apply lookup_ge_None).
    rewrite (lookup_ge_None_2 (take i (entries m)) k) by lia.
    destruct (j - _)%nat as [|j'] eqn:Ej, (k - _)%nat as [|k'] eqn:Ek; try lia.
    + intros [= <-] Hk'. specialize (Ha k' b Hk'). lia.
    + rewrite !lookup_drop. intros Hj' Hk'. apply (Hs (i + j')%nat (i + k')%nat a b); [lia|done|done].
Qed.

Lemma addr_map_insert_placed m e :
  map_wf m -> am_used m < ADDR_MAP_ENTRIES_PER_PAGE ->
  exists i m', addr_map_insert m e = Some (Some i, m') /\ map_wf m' /\ placed m e i m'.
Proof.
  intros Hw Hu. destruct (addr_map_insert_at m e Hw Hu) as (i & m' & Hr & Hw' & Hu' & Hi & Hbefore & Hafter & Hk).
  pose proof (entries_length m Hw) as Hlen. exists i, m'. split; [exact Hr|]. split; [exact Hw'|]. split; [exact Hu'| | |].
  - apply list_eq. intros k. rewrite Hk.
    rewrite lookup_app. destruct (decide (k < i)%nat) as [Hlt|Hge].
    + destruct (entries m !! k) as [a|] eqn:Ha.
      * by rewrite (proj2 (lookup_take_Some _ _ _ _) (conj Ha Hlt)).
      * apply lookup_ge_None in Ha. lia.
    + rewrite (lookup_ge_None_2 (take i (entries m)) k) by (rewrite length_take; lia).
      rewrite length_take, Nat.min_l by lia. destruct (decide (k = i)) as [->|Hne]; [by rewrite Nat.sub_diag|].
      destruct (k - i)%nat as [|k'] eqn:Ek; [lia|]. simpl. rewrite lookup_drop. f_equal. lia.
  - apply Forall_lookup_2. intros j a [Ha Hj]%lookup_take_Some. by apply (Hbefore j a).
  - intros a Ha. assert (i < Z.to_nat (am_used m))%nat as Hlt by (apply lookup_lt_Some in Ha; lia).
    destruct (Hafter Hlt) as (a' & Ha' & ?). congruence.
Qed.

(** C22: inserting into a map with room puts the entry after every entry of a
    smaller or equal address and before every entry of a larger one, moving the
    latter up by one and losing none, so a sorted map stays sorted; a full map
    is unchanged and the answer is NULL. *)
Theorem addr_map_insert_spec (m : addr_map) (e : addr_entry) :
  map_wf m -> sorted_map m ->
  if am_used m <? ADDR_MAP_ENTRIES_PER_PAGE then
    exists i m', addr_map_insert m e = Some (Some i, m') /\ map_wf m' /\ sorted_map m' /\
      am_used m' = am_used m + 1 /\
      entries m' = take i (entries m) ++ e :: drop i (entries m) /\
      Forall (fun a => ae_addr a <= ae_addr e) (take i (entries m)) /\
      Forall (fun a => ae_addr e < ae_addr a) (drop i (entries m))
  else addr_map_insert m e = Some (None, m).
Proof.
  intros Hw Hs. destruct (Z.ltb_spec (am_used m) ADDR_MAP_ENTRIES_PER_PAGE) as [Hu|Hu].
  2: { unfold addr_map_insert. rewrite (mp_entries _ Hw). by rewrite (proj2 (Z.leb_le _ _) Hu). }
  destruct (addr_map_insert_placed m e Hw Hu) as (i & m' & Hr & Hw' & Hp).
  destruct (placed_in_order m e i m' Hp Hs) as [Ha Hs']. destruct Hp. by exists i, m'.
Qed.

(** removing an entry of a map that is not full moves the entries after it
    down by one and keeps the rest, so a sorted map stays sorted; removing one
    from a full map reads the array one entry past its end, at the end of the
    map's page. *)
Theorem addr_map_remove_spec (m : addr_map) (i : nat) :
  map_wf m -> sorted_map m -> (i < Z.to_nat (am_used m))%nat ->
  if am_used m <? ADDR_MAP_ENTRIES_PER_PAGE then
    exists m', addr_map_shift_downwards m i = Some m' /\ map_wf m' /\ sorted_map m' /\
      am_used m' = am_used m - 1 /\
      forall k, entries m' !! k = if decide (k < i)%nat then entries m !! k else entries m !! (k + 1)%nat
  else addr_map_shift_downwards m i = None.
Proof.
  intros Hw Hs Hi. destruct (Z.ltb_spec (am_used m) ADDR_MAP_ENTRIES_PER_PAGE) as [Hu|Hu].
  - destruct (addr_map_remove_at m i Hw Hi Hu) as (m' & Hr & Hw' & Hu' & Hk).
    exists m'. split_and!; try done. intros j k a b Hjk. rewrite !Hk.
    repeat case_decide; try lia; apply Hs; lia.
  - destruct Hw as [Hl He Hu']. unfold addr_map_shift_downwards.
    rewrite shift_down_out; [done|lia|lia].
Qed.

Section lookup.
Context {A : Type}.

(** the entry covers the address, with the end computed at 32 bits *)
Definition covers (s : space_store A) (e : addr_entry) (address : Z) : bool :=
  match sp_frames s !! ae_frame e with
  | Some f => (ae_addr e <=? address) && (address <? w32 (ae_addr e + w32 (pf_size f * PAGE_SIZE)))
  | None => false
  end.

Lemma lookup_loop_ok (s : space_store A) map m address n i :
  sp_maps s !! map = Some m -> map_wf m -> (i + n = Z.to_nat (am_used m))%nat ->
  (forall k e, entries m !! k = Some e -> is_Some (sp_frames s !! ae_frame e)) ->
  (exists k e, (i <= k)%nat /\ entries m !! k = Some e /\ covers s e address = true /\
     (forall j e', (i <= j < k)%nat -> entries m !! j = Some e' -> covers s e' address = false) /\
     lookup_loop n i map address s = Some (map_entry_ptr map k, s)) \/
  ((forall k e, (i <= k)%nat -> entries m !! k = Some e -> covers s e address = false) /\
     lookup_loop n i map address s = Some (NULL, s)).
Proof.
  intros Hm Hw Hn Hfr. revert i Hn. induction n as [|n IH]; intros i Hn; simpl.
  - right. split; [|done]. intros k e Hk. rewrite entries_lookup. rewrite decide_False by lia. done.
  - destruct (lookup_lt_is_Some_2 (entries m) i) as [e He]; [rewrite entries_length by done; lia|].
    pose proof He as He'. rewrite entries_lookup in He'. rewrite decide_True in He' by lia.
    destruct (Hfr i e He) as [f Hf].
    assert (lookup_loop (S n) i map address s =
      if covers s e address then Some (map_entry_ptr map i, s) else lookup_loop n (i + 1) map address s) as Hstep.
    { simpl. unfold map_get, frame_get, lift_opt. rewrite !ST_bind_eq. simpl. rewrite Hm.
      rewrite ST_bind_eq, He', !ST_bind_eq. simpl. rewrite Hf. unfold covers. rewrite Hf.
      by destruct (_ && _). }
    simpl in Hstep. rewrite Hstep. destruct (covers s e address) eqn:Hcov.
    + left. exists i, e. split_and!; try done; try lia.
    + destruct (IH (i + 1)%nat) as [(k & e1 & Hk & He1 & Hc1 & Hj & Hr)|[Hj Hr]]; [lia| |]; rewrite Hr.
      * left. exists k, e1. split_and!; try done; try lia. intros j e' Hj1 Hj2.
        destruct (decide (j = i)) as [->|]; [congruence|]. apply (Hj j e'); [lia|done].
      * right. split; [|done]. intros j e' Hj1 Hj2.
        destruct (decide (j = i)) as [->|]; [congruence|]. apply (Hj j e'); [lia|done].
Qed.

(** C23: [addr_map_lookup] returns the first entry in use that covers the address,
    or NULL exactly when none does, and changes nothing. *)
Theorem addr_map_lookup_spec (s : space_store A) (map address : Z) (m : addr_map) :
  sp_maps s !! map = Some m -> map_wf m ->
  (forall k e, entries m !! k = Some e -> is_Some (sp_frames s !! ae_frame e)) ->
  (exists k e, entries m !! k = Some e /\ covers s e address = true /\
     (forall j e', (j < k)%nat -> entries m !! j = Some e' -> covers s e' address = false) /\
     addr_map_lookup map address s = Some (map_entry_ptr map k, s)) \/
  ((forall k e, entries m !! k = Some e -> covers s e address = false) /\
     addr_map_lookup map address s = Some (NULL, s)).
Proof.
  intros Hm Hw Hfr. unfold addr_map_lookup, map_get. rewrite !ST_bind_eq. simpl.
  unfold lift_opt. rewrite Hm.
  destruct (lookup_loop_ok s map m address (Z.to_nat (am_used m)) 0 Hm Hw ltac:(lia) Hfr)
    as [(k & e & _ & He & Hc & Hj & Hr)|[Hj Hr]].
  - left. exists k, e. split_and!; try done. intros j e' Hjk. apply Hj. lia.
  - right. split; [|done]. intros k e. apply Hj. lia.
Qed.
End lookup.

(** ** Mapping a run of pages *)

Lemma page_vaddr V o : 0 <= V < 2 ^ 20 -> 0 <= o < 4096 ->
  V * 4096 + o = vaddr_of (V / 1024) (V mod 1024) o /\ indices (V / 1024) (V mod 1024) o.
Proof.
  intros HV Ho. pose proof (Z.div_mod V 1024 ltac:(done)). pose proof (Z.mod_pos_bound V 1024 ltac:(lia)).
  unfold vaddr_of, indices. assert (0 <= V / 1024 < 1024); [|lia].
  split; [apply Z.div_pos; lia|]. apply Z.div_lt_upper_bound; lia.
Qed.

(** the tables for the pages [V], ..., [V + n - 1] exist *)
Definition tables_ready (s : mmu) (V : Z) (n : nat) : Prop :=
  forall k, 0 <= k < Z.of_nat n -> is_table s ((V + k) / 1024) /\ (V + k) / 1024 <> 1023.

(** a page that is no table, and that no table will be made of *)
Definition unused (s : mmu) (F : Z) : Prop :=
  F mod 4096 = 0 /\ ~ region_spare (pm_physical s) F /\ forall d, is_table s d -> table_of s d <> F.
(** its words are those of [s] *)
Definition same_page (F : Z) (s s' : mmu) : Prop := forall i, 0 <= i < 1024 -> mem_get s' (F + 4 * i) = mem_get s (F + 4 * i).

Lemma same_page_set F s a j x : F mod 4096 = 0 -> a mod 4096 = 0 -> a <> F -> 0 <= j < 1024 -> same_page F s (mem_set (a + 4 * j) x s).
Proof.
  intros HF Ha Hne Hj i Hi. rewrite mem_get_set, decide_False; [done|]. intros E.
  by apply word_inj in E as [E _].
Qed.

(** only the tables changed, and they are where they were *)
Definition same_directory (s s' : mmu) : Prop :=
  pm_cr3 s' = pm_cr3 s /\ pm_tlb s' = pm_tlb s /\ pm_physical s' = pm_physical s /\ pm_global s' = pm_global s /\
  forall i, 0 <= i < 1024 -> pde s' i = pde s i.

Lemma same_directory_trans s1 s2 s3 : same_directory s1 s2 -> same_directory s2 s3 -> same_directory s1 s3.
Proof.
  intros (H1 & H2 & H3 & H4 & H5) (H1' & H2' & H3' & H4' & H5'). repeat split; try congruence.
  intros i Hi. by rewrite H5', H5.
Qed.

Lemma unused_same_directory s s' F : same_directory s s' -> unused s F -> unused s' F.
Proof.
  intros (_ & _ & Hp & _ & Hpde) (HF & Hs & Ht). split; [done|]. rewrite Hp. split; [done|].
  assert (Hpd : forall d, 0 <= d < 1024 -> table_of s' d = table_of s d) by (intros d Hd; unfold table_of; by rewrite Hpde).
  intros d (Hd & H1 & H2). rewrite Hpd by done. apply Ht. rewrite Hpde in H1, H2 by done. by split.
Qed.

Lemma map_loop_ok n perms V P s :
  mmu_wf s -> 0 <= V -> V + Z.of_nat n <= 2 ^ 20 -> 0 <= P -> P + Z.of_nat n <= 2 ^ 20 ->
  tables_ready s V n ->
  exists s', map_loop n perms (V * 4096) (P * 4096) s = Some (tt, s') /\ mmu_wf s' /\
    (forall k o, 0 <= k < Z.of_nat n -> 0 <= o < 4096 ->
       walk s' ((V + k) * 4096 + o) = Some ((P + k) * 4096 + o)) /\
    (forall U o, 0 <= U < 2 ^ 20 -> 0 <= o < 4096 -> ~ (V <= U < V + Z.of_nat n) ->
       walk s' (U * 4096 + o) = walk s (U * 4096 + o)) /\
    (forall d, is_table s' d <-> is_table s d) /\ same_directory s s' /\
    (forall F, unused s F -> same_page F s s').
Proof.
  revert V P s. induction n as [|n IH]; intros V P s Hw HV HVn HP HPn Ht.
  - exists s. split_and!; try done. intros; lia.
  - destruct (Ht 0) as [Ht0 Hd1]; [lia|]. rewrite Z.add_0_r in Ht0, Hd1.
    destruct (page_vaddr V 0 ltac:(lia) ltac:(lia)) as [Hv Hi]. rewrite Z.add_0_r in Hv.
    pose proof Hi as (Hd & Htt & _).
    destruct (entry_fields (P * 4096) perms ltac:(lia) ltac:(by apply Z.mod_mul) ltac:(lia)) as (Hx & Hmask & Hpr & _).
    set (d := V / 1024) in *. set (t := V mod 1024) in *.
    set (s1 := mem_set (table_of s d + 4 * t) (add_page_flags (P * 4096) perms) s).
    assert (mmu_wf s1) as Hw1 by (by apply set_pte_wf).
    assert (forall i, is_table s1 i <-> is_table s i) as Htab by (intros; by apply set_pte_is_table).
    assert (same_directory s s1) as Hsame by (repeat split; intros; by apply set_pte_pde).
    assert (forall F, unused s F -> same_page F s s1) as Hun.
    { intros F (HF & _ & HFt). apply same_page_set; [done|by apply table_mult|by apply HFt|done]. }
    assert (forall o, 0 <= o < 4096 -> walk s1 (V * 4096 + o) = Some (P * 4096 + o)) as Hhere.
    { intros o Ho. destruct (page_vaddr V o ltac:(lia) Ho) as [-> _].
      unfold s1. fold d t. rewrite set_pte_walk_eq by done. by rewrite Hpr, Hmask. }
    assert (forall U o, 0 <= U < 2 ^ 20 -> 0 <= o < 4096 -> U <> V ->
      walk s1 (U * 4096 + o) = walk s (U * 4096 + o)) as Hother.
    { intros U o HU Ho Hne. destruct (page_vaddr U o HU Ho) as [-> HiU].
      unfold s1. apply set_pte_walk; try done. intros [H1 H2]. apply Hne.
      pose proof (Z.div_mod U 1024 ltac:(done)). pose proof (Z.div_mod V 1024 ltac:(done)). lia. }
    assert (map_loop (S n) perms (V * 4096) (P * 4096) s =
      map_loop n perms (w32 (V * 4096 + PAGE_SIZE)) (w32 (P * 4096 + PAGE_SIZE)) s1) as Hstep.
    { simpl. rewrite ST_bind_eq, Hv. rewrite map_phys_page_present by done. by rewrite <- Hv. }
    rewrite Hstep. destruct n as [|n].
    + exists s1. split_and!; try done.
      * intros k o Hk Ho. replace k with 0 by lia. rewrite !Z.add_0_r. by apply Hhere.
      * intros U o HU Ho Hne. apply Hother; [done|done|lia].
    + unfold PAGE_SIZE. rewrite !w32_small by lia.
      replace (V * 4096 + 4096) with ((V + 1) * 4096) by lia.
      replace (P * 4096 + 4096) with ((P + 1) * 4096) by lia.
      destruct (IH (V + 1) (P + 1) s1) as (s2 & Hr & Hw2 & Hin & Hout & Htab2 & Hsame2 & Hun2); try done; try lia.
      { intros k Hk. destruct (Ht (k + 1)) as [H1 H2]; [lia|].
        replace (V + 1 + k) with (V + (k + 1)) by lia. by rewrite Htab. }
      exists s2. split_and!; try done.
      * intros k o Hk Ho. destruct (decide (k = 0)) as [->|Hk0].
        -- rewrite !Z.add_0_r. rewrite Hout by lia. by apply Hhere.
        -- replace (V + k) with (V + 1 + (k - 1)) by lia. replace (P + k) with (P + 1 + (k - 1)) by lia.
           apply Hin; [lia|done].
      * intros U o HU Ho Hne. rewrite Hout by lia. apply Hother; [done|done|lia].
      * intros i. rewrite Htab2. apply Htab.
      * by apply (same_directory_trans _ s1).
      * intros F HF i Hi2. rewrite Hun2 by (done || by apply (unused_same_directory s)). by apply Hun.
Qed.

(** what translated before translates so still, the entries of the directory
    that were used are kept, and tables are made of spare pages only *)
Record extends (s s' : mmu) : Prop := {
  ex_walk : forall v p, 0 <= v < 2 ^ 32 -> walk s v = Some p -> walk s' v = Some p;
  ex_pde : forall i, 0 <= i < 1024 -> pde s i <> 0 -> pde s' i = pde s i;
  ex_cr3 : pm_cr3 s' = pm_cr3 s;
  ex_spare : forall p, region_spare (pm_physical s') p -> region_spare (pm_physical s) p;
  ex_unused : forall F, unused s F -> unused s' F /\ same_page F s s';
}.

Lemma extends_refl s : extends s s.
Proof. by split. Qed.
Lemma extends_trans s1 s2 s3 : extends s1 s2 -> extends s2 s3 -> extends s1 s3.
Proof.
  intros [H1 P1 C1 S1 U1] [H2 P2 C2 S2 U2]. split.
  - intros v p Hv Hp. by apply H2, H1.
  - intros i Hi Hn. rewrite P2; [by apply P1|done|by rewrite P1].
  - congruence.
  - intros p Hp. by apply S1, S2.
  - intros F HF. destruct (U1 F HF) as [HF1 W1]. destruct (U2 F HF1) as [HF2 W2]. split; [done|].
    intros i Hi. by rewrite W2, W1.
Qed.
Lemma address_page v : 0 <= v < 2 ^ 32 ->
  v = v / 4096 * 4096 + v mod 4096 /\ 0 <= v / 4096 < 2 ^ 20 /\ 0 <= v mod 4096 < 4096.
Proof.
  intros Hv. pose proof (Z.div_mod v 4096 ltac:(done)). pose proof (Z.mod_pos_bound v 4096 ltac:(lia)).
  split; [lia|]. split; [|done]. split; [apply Z.div_pos; lia|apply Z.div_lt_upper_bound; lia].
Qed.

Lemma address_indices v : 0 <= v < 2 ^ 32 -> exists d t o, v = vaddr_of d t o /\ indices d t o /\ d = v / 4096 / 1024.
Proof.
  intros Hv. destruct (address_page v Hv) as (E & HV & Ho). destruct (page_vaddr _ _ HV Ho) as [Hp Hi].
  rewrite <- E in Hp. by eexists _, _, _.
Qed.

(** linking a table hides nothing, not even in the window *)
Lemma set_pde_extends s d p r :
  mmu_wf s -> 0 <= d < 1024 -> pde s d = 0 -> region_spare (pm_physical s) p -> region_inv r ->
  r_mode r = REGION_MODE_PHYSICAL -> (forall q, region_spare r q <-> region_spare (pm_physical s) q /\ q <> p) ->
  extends s (mem_set (pd s + 4 * d) (add_page_flags p PAGE_WRITE) (set_physical r s)).
Proof.
  intros Hw Hd H0 Hp Hri Hrm Hsp. split.
  2: { intros i Hi Hn. rewrite (set_pde_pde s d p r) by done. rewrite decide_False; [done|]. by intros ->. }
  2: done.
  2: { intros q. simpl. rewrite Hsp. tauto. }
  2: { intros F (HF & HFs & HFt). destruct (mw_rec s Hw) as [Hrec Htab]. split; [split; [done|split; [simpl; rewrite Hsp; tauto|]]|].
    - intros i [->|Hi]%(set_pde_is_table s d p r); try done; rewrite (set_pde_table s d p r) by (done || apply Hi);
        [rewrite decide_True by done; by intros ->|]. case_decide; [by intros ->|by apply HFt].
    - apply (same_page_set F (set_physical r s)); [done|by apply pd_mult|rewrite <- Htab; by apply HFt|done]. }
  intros v q Hv Hq. destruct (address_indices v Hv) as (i & j & o & -> & Hi & _).
  pose proof Hi as (Hi1 & Hj & _). destruct (decide (i = d)) as [->|Hne].
  { rewrite walk_eq, H0 in Hq by done. done. }
  destruct (decide (i = 1023)) as [->|H1]; [|by rewrite (set_pde_walk s d p r)].
  assert (Hd1 : d <> 1023) by done. destruct (mw_rec s Hw) as [(_ & Hpr & H4) Htab].
  rewrite walk_eq in * by done. rewrite (set_pde_pde s d p r) by (done || lia). rewrite decide_False by done.
  rewrite Hpr, H4 in *. cbn [negb] in *. unfold pte in *. unfold table_of in Htab.
  assert (Ht : table_of (mem_set (pd s + 4 * d) (add_page_flags p PAGE_WRITE) (set_physical r s)) 1023 = pd s).
  { rewrite (set_pde_table s d p r) by (done || lia). by rewrite decide_False. }
  rewrite Ht. unfold table_of in Hq. rewrite Htab in Hq. change (mem_get s (pd s + 4 * j)) with (pde s j) in Hq.
  destruct (decide (j = d)) as [->|Hjd]; [by rewrite H0 in Hq|].
  rewrite mem_get_set, decide_False by lia. exact Hq.
Qed.

(** a run of pages of one entry of the directory whose table is still to be
    made: the first page makes it *)
Lemma map_run_ok n perms V P s :
  mmu_wf s -> 0 <= V < 2 ^ 20 -> V mod 1024 + Z.of_nat (S n) <= 1024 -> 0 <= P -> P + Z.of_nat (S n) <= 2 ^ 20 ->
  V / 1024 <> 1023 -> pde s (V / 1024) = 0 -> r_available (pm_physical s) <> 0 ->
  exists s', map_loop (S n) perms (V * 4096) (P * 4096) s = Some (tt, s') /\ mmu_wf s' /\
    (forall k o, 0 <= k < Z.of_nat (S n) -> 0 <= o < 4096 ->
       walk s' ((V + k) * 4096 + o) = Some ((P + k) * 4096 + o)) /\
    extends s s' /\ pm_tlb s' = pm_tlb s /\
    (forall i, 0 <= i < 1024 -> i <> V / 1024 -> pde s' i = pde s i) /\
    r_available (pm_physical s') = r_available (pm_physical s) - 1.
Proof.
  intros Hw HV Hn HP HPn Hd Hzero Hav. set (d := V / 1024) in *.
  destruct (page_vaddr V 0 HV ltac:(lia)) as [Hv Hi]. rewrite Z.add_0_r in Hv. pose proof Hi as (Hd2 & _). fold d in Hv, Hi, Hd2.
  destruct (alloc_phys_page_ok s Hw Hav) as (p & r & Hal & Hri & Hrm & Hsp & _ & Hsp' & _ & Hcount).
  set (s1 := mem_set (pd s + 4 * d) (add_page_flags p PAGE_WRITE) (set_physical r s)).
  assert (Hw1 : mmu_wf s1) by (by apply (set_pde_wf s d p r)).
  assert (Htab : is_table s1 d) by (apply (set_pde_is_table s d p r); try done; by left).
  assert (Hdiv : forall k, 0 <= k < Z.of_nat (S n) -> (V + k) / 1024 = d).
  { intros k Hk. pose proof (Z.div_mod V 1024 ltac:(done)) as H. fold d in H. pose proof (Z.mod_pos_bound V 1024 ltac:(lia)).
    symmetry. apply Z.div_unique with (V mod 1024 + k); lia. }
  assert (Hstep : map_loop (S n) perms (V * 4096) (P * 4096) s = map_loop (S n) perms (V * 4096) (P * 4096) s1).
  { cbn [map_loop]. rewrite !ST_bind_eq, Hv. by rewrite (map_phys_page_absent s perms d _ 0 _ p r). }
  destruct (map_loop_ok (S n) perms V P s1 Hw1) as (s' & Hrun & Hw' & Hin & Hout & _ & Hsame & Hun); [lia| |done|done|..].
  { pose proof (Hdiv (Z.of_nat n) ltac:(lia)) as H. pose proof (Z.div_mod (V + Z.of_nat n) 1024 ltac:(done)). pose proof (Z.mod_pos_bound (V + Z.of_nat n) 1024 ltac:(lia)). lia. }
  { intros k Hk. by rewrite Hdiv. }
  pose proof Hsame as (Hcr3 & Htlb & Hphys & Hglob & Hpde). exists s'. rewrite Hstep.
  pose proof (set_pde_extends s d p r Hw Hd2 Hzero Hsp Hri Hrm Hsp') as Hext. fold s1 in Hext. split_and!; try done.
  - destruct Hext as [Ew Ep Ec Es Eu]. split.
    2: { intros i Hi2 Hused. rewrite Hpde by done. by apply Ep. }
    2: congruence.
    2: { intros q. rewrite Hphys. apply Es. }
    2: { intros F HF. destruct (Eu F HF) as [HF1 W1]. split; [by apply (unused_same_directory s1)|]. intros i Hi2. by rewrite Hun, W1. }
    intros v q Hrange Hq. destruct (address_page v Hrange) as (E & HU & Ho). pose proof (Ew v q Hrange Hq) as Hq1.
    rewrite E in Hq1 |- *. rewrite Hout; [done|done|done|]. intros Hr.
    destruct (address_indices v Hrange) as (i & j & o & Hv' & Hi' & Hdi). rewrite Hv', walk_eq in Hq by done.
    assert (i = d) as ->; [|by rewrite Hzero in Hq]. rewrite Hdi, <- (Hdiv (v / 4096 - V)) by lia. f_equal. lia.
  - intros i Hi2 Hne. rewrite Hpde by done. unfold s1. rewrite (set_pde_pde s d p r) by done. by rewrite decide_False.
  - rewrite Hphys. exact Hcount.
Qed.

(** ** Spaces *)

(** the running thread gets the lock of the object at once, and nobody sleeps
    on it *)
Definition lockable (cur num_cpus : Z) (o : kobject) : Prop :=
  exists o1 o2, kobject_lock cur num_cpus o = Some o1 /\ kobject_release o1 = Some o2.

Section spaces.
Context {A : Type} (cur num_cpus : Z).
Implicit Types (s : space_store A).

Lemma page_rounds_small n : 0 <= n < 2 ^ 20 -> page_rounds n = Z.to_nat n.
Proof.
  intros Hn. unfold page_rounds, PAGE_SIZE. rewrite w32_small by lia. by rewrite Z.div_mul.
Qed.

(** what a call of [addr_space_insert_map] needs *)
Record can_map s (space : Z) (ent : addr_entry) (x : addr_space) (f : phys_frame) (m : addr_map) : Prop := {
  cn_space : sp_spaces s !! space = Some x;
  cn_frame : sp_frames s !! ae_frame ent = Some f;
  cn_map : sp_maps s !! as_map x = Some m;
  cn_locks : lockable cur num_cpus (as_object x) /\ lockable cur num_cpus (pf_object f);
  cn_mmu : mmu_wf (sp_mmu s);
  cn_size : 0 <= pf_size f < 2 ^ 20;
  cn_virt : 0 <= ae_addr ent /\ ae_addr ent / 4096 + pf_size f <= 2 ^ 20;
  cn_phys : 0 <= pf_address f /\ pf_address f / 4096 + pf_size f <= 2 ^ 20;
  cn_tables : tables_ready (sp_mmu s) (ae_addr ent / 4096) (Z.to_nat (pf_size f));
}.

(** the whole of it, once the run of its pages is known *)
Lemma insert_map_run s space ent x f m i m' mm ox ox2 og og2 :
  sp_spaces s !! space = Some x -> sp_frames s !! ae_frame ent = Some f -> sp_maps s !! as_map x = Some m ->
  kobject_lock cur num_cpus (as_object x) = Some ox -> kobject_release ox = Some ox2 ->
  kobject_lock cur num_cpus (pf_object f) = Some og -> kobject_release og = Some og2 ->
  0 <= pf_size f < 2 ^ 20 -> addr_map_insert m ent = Some (i, m') ->
  map_loop (Z.to_nat (pf_size f)) (ae_permissions ent) (ae_addr ent / 4096 * 4096) (pf_address f / 4096 * 4096)
    (sp_mmu s) = Some (tt, mm) ->
  addr_space_insert_map cur num_cpus space ent s =
    Some (0, SpaceStore mm (<[space := AddrSpace ox2 (as_page_dir x) (as_map x)]> (sp_spaces s))
      (<[ae_frame ent := set_pf_object og2 (set_pf_mappings (w32 (pf_mappings f + 1)) f)]> (sp_frames s))
      (<[as_map x := m']> (sp_maps s)) (sp_kernel s) (sp_alloc s) (sp_frame_slab s)).
Proof.
  intros Hx Hf Hm Hox Hrx Hog Hrg Hsz Hins Hrun.
  assert (Hpage : forall a, a - a mod PAGE_SIZE = a / 4096 * 4096).
  { intros a. unfold PAGE_SIZE. pose proof (Z.div_mod a 4096 ltac:(done)). lia. }
  unfold addr_space_insert_map, space_lock, space_unlock, frame_lock, frame_unlock, phys_frame_map,
    space_get, space_put, frame_get, frame_put, map_get, map_put, on_mmu, zoom.
  repeat (first [rewrite ST_bind_eq|rewrite Hf|rewrite Hx|rewrite Hox|rewrite Hog|rewrite Hrx|rewrite Hrg|rewrite Hm|rewrite Hins
    |rewrite lookup_insert_eq|rewrite insert_insert_eq|rewrite Hpage
    |rewrite page_rounds_small by done|rewrite Hrun]; simpl).
  reflexivity.
Qed.

Lemma insert_map_ok s space ent x f m i m' :
  can_map s space ent x f m -> addr_map_insert m ent = Some (i, m') ->
  exists s' f', addr_space_insert_map cur num_cpus space ent s = Some (0, s') /\
    mmu_wf (sp_mmu s') /\
    (forall k o, 0 <= k < pf_size f -> 0 <= o < 4096 ->
       walk (sp_mmu s') ((ae_addr ent / 4096 + k) * 4096 + o) = Some ((pf_address f / 4096 + k) * 4096 + o)) /\
    (forall U o, 0 <= U < 2 ^ 20 -> 0 <= o < 4096 ->
       ~ (ae_addr ent / 4096 <= U < ae_addr ent / 4096 + pf_size f) ->
       walk (sp_mmu s') (U * 4096 + o) = walk (sp_mmu s) (U * 4096 + o)) /\
    sp_maps s' = <[as_map x := m']> (sp_maps s) /\
    sp_frames s' = <[ae_frame ent := f']> (sp_frames s) /\
    pf_address f' = pf_address f /\ pf_size f' = pf_size f /\ pf_mappings f' = w32 (pf_mappings f + 1).
Proof.
  intros [Hx Hf Hm [(ox & ox2 & Hox & Hrx) (og & og2 & Hog & Hrg)] Hw Hsz [Hv0 Hv] [Hp0 Hp] Ht] Hins.
  destruct (map_loop_ok (Z.to_nat (pf_size f)) (ae_permissions ent) (ae_addr ent / 4096)
    (pf_address f / 4096) (sp_mmu s) Hw) as (mm & Hrun & Hwm & Hin & Hout & _); try done; try lia.
  { apply Z.div_pos; lia. }
  { apply Z.div_pos; lia. }
  rewrite Z2Nat.id in * by lia.
  eexists _, _. split; [by apply (insert_map_run s space ent x f m i m' mm ox ox2 og og2)|].
  simpl. split_and!; try done.
Qed.

(** C24: mapping a frame into a space with room in its map, where the page tables
    for the frame's range are there already and neither the space nor the frame
    is locked by another thread, the frame of less than 2^20 pages fitting both
    address spaces: the entry goes into the space's map after every
    entry of a smaller or equal address and before the first of a larger one,
    with all other entries kept in their order (so a map in order stays in
    order, with every larger address after the new one), no other map changes,
    the frame counts one more mapping, and each of its pages becomes reachable
    at its place in the tables, leaving every other page's translation alone. *)
Theorem addr_space_insert_map_spec s space ent x f m :
  can_map s space ent x f m -> map_wf m -> am_used m < ADDR_MAP_ENTRIES_PER_PAGE ->
  exists s' f' m' i, addr_space_insert_map cur num_cpus space ent s = Some (0, s') /\
    mmu_wf (sp_mmu s') /\
    (forall k o, 0 <= k < pf_size f -> 0 <= o < 4096 ->
       walk (sp_mmu s') ((ae_addr ent / 4096 + k) * 4096 + o) = Some ((pf_address f / 4096 + k) * 4096 + o)) /\
    (forall U o, 0 <= U < 2 ^ 20 -> 0 <= o < 4096 ->
       ~ (ae_addr ent / 4096 <= U < ae_addr ent / 4096 + pf_size f) ->
       walk (sp_mmu s') (U * 4096 + o) = walk (sp_mmu s) (U * 4096 + o)) /\
    sp_maps s' = <[as_map x := m']> (sp_maps s) /\ map_wf m' /\ placed m ent i m' /\
    (sorted_map m -> in_order m ent i m') /\
    sp_frames s' !! ae_frame ent = Some f' /\ pf_mappings f' = w32 (pf_mappings f + 1).
Proof.
  intros Hc Hw Hu. destruct (addr_map_insert_placed m ent Hw Hu) as (i & m' & Hins & Hw' & Hp).
  destruct (insert_map_ok s space ent x f m (Some i) m' Hc Hins)
    as (s' & f' & Hrun & Hwm & Hin & Hout & Hmaps & Hframes & _ & _ & Hcount).
  exists s', f', m', i. split_and!; try done.
  - by apply placed_in_order.
  - rewrite Hframes. apply lookup_insert_eq.
Qed.

(** when the map of the space is full, [addr_space_insert_map] still maps the
    pages, counts the mapping and answers 0, without any entry: the mapping can
    never be found again to be removed. *)
Theorem addr_space_insert_map_full s space ent x f m :
  can_map s space ent x f m -> map_wf m -> am_used m = ADDR_MAP_ENTRIES_PER_PAGE ->
  exists s' f', addr_space_insert_map cur num_cpus space ent s = Some (0, s') /\
    (forall k o, 0 <= k < pf_size f -> 0 <= o < 4096 ->
       walk (sp_mmu s') ((ae_addr ent / 4096 + k) * 4096 + o) = Some ((pf_address f / 4096 + k) * 4096 + o)) /\
    sp_maps s' = sp_maps s /\
    sp_frames s' !! ae_frame ent = Some f' /\ pf_mappings f' = w32 (pf_mappings f + 1).
Proof.
  intros Hc Hw Hu.
  assert (addr_map_insert m ent = Some (None, m)) as Hins.
  { unfold addr_map_insert. rewrite (mp_entries _ Hw), Hu. by rewrite Z.leb_refl. }
  destruct (insert_map_ok s space ent x f m None m Hc Hins)
    as (s' & f' & Hrun & _ & Hin & _ & Hmaps & Hframes & _ & _ & Hcount).
  exists s', f'. split_and!; try done.
  - rewrite Hmaps. apply insert_id. apply Hc.
  - rewrite Hframes. apply lookup_insert_eq.
Qed.

(** a frame that cannot be split so is left alone *)
Lemma phys_frame_split_refused `{!Allocator A} s (phys offset : Z) (f : phys_frame) :
  sp_frames s !! phys = Some f -> lockable cur num_cpus (pf_object f) -> 0 <= offset ->
  (pf_mappings f =? 0) && (0 <? offset) && (offset <? pf_size f) = false ->
  exists o, phys_frame_split cur num_cpus phys offset s =
    Some (NULL, set_frames (<[phys := set_pf_object o f]> (sp_frames s)) s).
Proof.
  intros Hf (og & og2 & Hog & Hrg) Hoff Hcond. exists og2.
  unfold phys_frame_split, frame_lock, frame_unlock, frame_get, frame_put.
  repeat (first [rewrite ST_bind_eq|rewrite Hf|rewrite Hog|rewrite Hrg|rewrite lookup_insert_eq]; simpl).
  destruct (pf_mappings f =? 0); simpl in *.
  2: { rewrite ?ST_bind_eq; simpl. rewrite lookup_insert_eq; simpl. rewrite Hrg. simpl.
       unfold set_frames; simpl. by rewrite insert_insert_eq. }
  assert ((offset =? 0) || (pf_size f <=? offset) = true) as ->.
  { apply andb_false_iff in Hcond as [?%Z.ltb_ge|?%Z.ltb_ge]; apply orb_true_iff;
      [left; apply Z.eqb_eq|right; apply Z.leb_le]; lia. }
  rewrite ?ST_bind_eq; simpl. rewrite lookup_insert_eq; simpl. rewrite Hrg. simpl.
  unfold set_frames; simpl. by rewrite insert_insert_eq.
Qed.

(** a frame that is not mapped splits into two frames, of the sizes asked
    for, that cover the same pages, one after the other; a mapped frame, an
    offset of 0 and an offset past the end are refused, leaving address, size
    and mappings as they were. *)
Theorem phys_frame_split_spec `{!Allocator A} `{!AllocatorLaws A} s (phys offset : Z) (f : phys_frame) :
  sp_frames s !! phys = Some f -> lockable cur num_cpus (pf_object f) ->
  alloc_inv (sp_frame_slab s) -> alloc_room (sp_frame_slab s) -> alloc_live (sp_frame_slab s) phys ->
  0 <= pf_size f -> 0 <= offset -> 0 <= pf_address f ->
  pf_address f + pf_size f * PAGE_SIZE < 2 ^ 32 ->
  exists r s' f', phys_frame_split cur num_cpus phys offset s = Some (r, s') /\
    sp_frames s' !! phys = Some f' /\ pf_address f' = pf_address f /\ pf_mappings f' = pf_mappings f /\
    if (pf_mappings f =? 0) && (0 <? offset) && (offset <? pf_size f) then
      exists g, r <> NULL /\ r <> phys /\ sp_frames s' !! r = Some g /\ pf_size f' = offset /\
        pf_address g = pf_address f + pf_size f' * PAGE_SIZE /\
        pf_size f' + pf_size g = pf_size f /\ pf_mappings g = 0 /\ pf_flags g = pf_flags f
    else r = NULL /\ pf_size f' = pf_size f.
Proof.
  intros Hf Hlock Hi Hroom Hlive Hsz Hoff Ha Htop.
  destruct ((pf_mappings f =? 0) && (0 <? offset) && (offset <? pf_size f)) eqn:Hcond.
  2: { destruct (phys_frame_split_refused s phys offset f Hf Hlock Hoff Hcond) as [o Hrun].
       eexists NULL, _, (set_pf_object o f). split; [exact Hrun|]. simpl. by rewrite lookup_insert_eq. }
  destruct Hlock as (og & og2 & Hog & Hrg). set (fl := set_pf_object og f).
  apply andb_true_iff in Hcond as [[Hm%Z.eqb_eq H1%Z.ltb_lt]%andb_true_iff H2%Z.ltb_lt].
  destruct (alloc_total _ Hi Hroom) as (r & a' & Hal).
  destruct (alloc_ok _ _ _ Hi Hal) as (_ & Hr0 & Hrn & _).
  assert (r <> phys) as Hne by (by intros ->).
  assert (((offset =? 0) || (pf_size f <=? offset)) = false) as Hc
    by (apply orb_false_iff; split; [apply Z.eqb_neq|apply Z.leb_gt]; lia).
  unfold PAGE_SIZE in *.
  assert (w32 (pf_address f + w32 (offset * 4096)) = pf_address f + offset * 4096) as Hw1
    by (rewrite (w32_small (offset * 4096)) by lia; apply w32_small; lia).
  assert (w32 (pf_size f - offset) = pf_size f - offset) as Hw2 by (apply w32_small; lia).
  eexists r, _, (set_pf_object og2 (set_pf_size offset fl)). split.
  { unfold phys_frame_split, phys_frame_create, frame_lock, frame_unlock, frame_get, frame_put, on_frame_slab, zoom,
      PAGE_SIZE.
    repeat (first [rewrite ST_bind_eq|rewrite Hf|rewrite Hog|rewrite Hrg|rewrite Hm|rewrite Hc|rewrite Hal
      |rewrite lookup_insert_eq|rewrite lookup_insert_ne by done]; simpl). reflexivity. }
  simpl. split_and!; [by rewrite lookup_insert_eq|done|done|].
  eexists. split_and!; [done|done| |done|..].
  - rewrite !lookup_insert_ne by done. rewrite lookup_insert_eq. reflexivity.
  - simpl. by rewrite Hw1.
  - simpl. rewrite Hw2. lia.
  - done.
  - done.
Qed.

End spaces.

(** ** Concrete stores *)

(** a thread at 0x9000; the space at 0x8000 with an empty map at 0x50000; a frame
    of two pages at 0x7000; the tables of [mmu_ex] *)
Definition map_empty : addr_map := AddrMap ADDR_MAP_ENTRIES_PER_PAGE 0 (replicate 340 zero_entry).
Definition map_full : addr_map := AddrMap ADDR_MAP_ENTRIES_PER_PAGE 340 (replicate 340 zero_entry).
Definition frame_ex : phys_frame := PhysFrame (kobject_init KOBJECT_TYPE_PHYS_MEMORY) 0x110000 2 0 0.
Definition space_ex : addr_space := AddrSpace (kobject_init KOBJECT_TYPE_ADDR_SPACE) current_page_dir 0x50000.
Definition global_ex : region := Region [0] 0x100000 32 32 0 REGION_MODE_VIRTUAL.
Definition store_of (m : addr_map) : space_store BumpPages.t :=
  SpaceStore (set_global global_ex mmu_ex) {[0x8000 := space_ex]} {[0x7000 := frame_ex]} {[0x50000 := m]}
    0x8000 (BumpPages.BumpPages (Bump.Bump 0x10000 {[0x8000]}) 0x100000 ∅) (BumpPages.BumpPages (Bump.Bump 0x10000 {[0x7000]}) 0x100000 ∅).
Definition ent_ex : addr_entry := AddrEntry 0x7000 0x7000 3.

(** whether the split succeeded, the entries of the clone's map, and the count and
    size of the frame *)
Definition clone_outcome (r : option ((Z * Z) * space_store BumpPages.t))
    : option (bool * list addr_entry * Z * Z) :=
  '((clone, frame2), s) ← r;
  y ← sp_spaces s !! clone;
  m ← sp_maps s !! as_map y;
  f ← sp_frames s !! 0x7000;
  Some (negb (frame2 =? NULL), entries m, pf_mappings f, pf_size f).

(** cloning a space copies the entries of its map, but the frames do not count
    the copies: once the original has unmapped its entry, the frame's count is 0
    and it is split, while the clone's map still maps all of it. *)
Theorem addr_space_clone_uncounted :
  clone_outcome ((_ ← addr_space_insert_map 0x9000 1 0x8000 ent_ex;
       clone ← addr_space_clone 0x9000 1 0x8000;
       _ ← addr_space_unmap 0x9000 1 0xfd001000 0x8000 0x7000;
       frame2 ← phys_frame_split 0x9000 1 0x7000 1;
       mret (clone, frame2)) (store_of map_empty)) = Some (true, [ent_ex], 0, 1).
Proof. vm_compute. reflexivity. Qed.

(** an entry at the address of [ent_ex], and one above it *)
Definition map_two : addr_map := AddrMap ADDR_MAP_ENTRIES_PER_PAGE 2
  (AddrEntry 0x7000 0x7100 1 :: AddrEntry 0x9000 0x7200 1 :: replicate 338 zero_entry).

Lemma map_two_wf : map_wf map_two.
Proof. done. Qed.

Lemma map_two_sorted : sorted_map map_two.
Proof.
  intros i j a b Hij. unfold entries, addr_le.
  destruct i as [|[|i]], j as [|[|j]]; simpl; intros; simplify_eq; simpl; lia.
Qed.

Lemma addr_map_insert_spec_witness :
  exists i m', addr_map_insert map_two ent_ex = Some (Some i, m') /\ map_wf m' /\ sorted_map m' /\
    am_used m' = 2 + 1 /\ entries m' = take i (entries map_two) ++ ent_ex :: drop i (entries map_two) /\
    Forall (fun a => ae_addr a <= 0x7000) (take i (entries map_two)) /\
    Forall (fun a => 0x7000 < ae_addr a) (drop i (entries map_two)).
Proof. apply (addr_map_insert_spec map_two ent_ex); [exact map_two_wf|exact map_two_sorted]. Defined.

(** it goes between the two *)
Example addr_map_insert_ex : fst <$> addr_map_insert map_two ent_ex = Some (Some 1%nat).
Proof. vm_compute. reflexivity. Qed.

Lemma map_full_wf : map_wf map_full.
Proof. done. Qed.

Lemma map_full_sorted : sorted_map map_full.
Proof.
  intros i j a b _. rewrite !entries_lookup. repeat case_decide; try done.
  change (am_map map_full) with (replicate 340 zero_entry).
  intros [-> _]%lookup_replicate [-> _]%lookup_replicate. unfold addr_le. done.
Qed.

Lemma addr_map_remove_spec_witness : addr_map_shift_downwards map_full 3 = None.
Proof.
  apply (addr_map_remove_spec map_full 3); [apply map_full_wf|apply map_full_sorted|simpl; lia].
Defined.

Lemma addr_map_lookup_spec_witness :
  (exists k e, entries map_empty !! k = Some e /\ covers (store_of map_empty) e 0x7000 = true /\
     (forall j e', (j < k)%nat -> entries map_empty !! j = Some e' -> covers (store_of map_empty) e' 0x7000 = false) /\
     addr_map_lookup 0x50000 0x7000 (store_of map_empty) = Some (map_entry_ptr 0x50000 k, store_of map_empty)) \/
  ((forall k e, entries map_empty !! k = Some e -> covers (store_of map_empty) e 0x7000 = false) /\
     addr_map_lookup 0x50000 0x7000 (store_of map_empty) = Some (NULL, store_of map_empty)).
Proof. apply addr_map_lookup_spec; [done|done|]. intros k e H. done. Defined.

Lemma store_of_mmu_wf m : mmu_wf (sp_mmu (store_of m)).
Proof. pose proof mmu_ex_wf as []. by split. Qed.

Lemma store_of_can_map m : can_map 0x9000 1 (store_of m) 0x8000 ent_ex space_ex frame_ex m.
Proof.
  split; try done.
  - by split; do 2 eexists.
  - apply store_of_mmu_wf.
  - intros k Hk. assert (k = 0 \/ k = 1) as [-> | ->] by (simpl in Hk; lia); split; done.
Qed.

Lemma addr_space_insert_map_spec_witness :
  exists s' f' m' i, addr_space_insert_map 0x9000 1 0x8000 ent_ex (store_of map_empty) = Some (0, s') /\
    mmu_wf (sp_mmu s') /\
    (forall k o, 0 <= k < 2 -> 0 <= o < 4096 ->
       walk (sp_mmu s') ((0x7000 / 4096 + k) * 4096 + o) = Some ((0x110000 / 4096 + k) * 4096 + o)) /\
    (forall U o, 0 <= U < 2 ^ 20 -> 0 <= o < 4096 -> ~ (0x7000 / 4096 <= U < 0x7000 / 4096 + 2) ->
       walk (sp_mmu s') (U * 4096 + o) = walk (sp_mmu (store_of map_empty)) (U * 4096 + o)) /\
    sp_maps s' = <[0x50000 := m']> (sp_maps (store_of map_empty)) /\ map_wf m' /\ placed map_empty ent_ex i m' /\
    (sorted_map map_empty -> in_order map_empty ent_ex i m') /\
    sp_frames s' !! 0x7000 = Some f' /\ pf_mappings f' = w32 (0 + 1).
Proof.
  apply (addr_space_insert_map_spec 0x9000 1 (store_of map_empty) 0x8000 ent_ex space_ex frame_ex map_empty);
    [apply store_of_can_map|done|done].
Defined.

Lemma addr_space_insert_map_full_witness :
  exists s' f', addr_space_insert_map 0x9000 1 0x8000 ent_ex (store_of map_full) = Some (0, s') /\
    (forall k o, 0 <= k < 2 -> 0 <= o < 4096 ->
       walk (sp_mmu s') ((0x7000 / 4096 + k) * 4096 + o) = Some ((0x110000 / 4096 + k) * 4096 + o)) /\
    sp_maps s' = sp_maps (store_of map_full) /\
    sp_frames s' !! 0x7000 = Some f' /\ pf_mappings f' = w32 (0 + 1).
Proof.
  apply (addr_space_insert_map_full 0x9000 1 (store_of map_full) 0x8000 ent_ex space_ex frame_ex map_full);
    [apply store_of_can_map|apply map_full_wf|done].
Defined.

Lemma phys_frame_split_spec_witness :
  exists r s' f', phys_frame_split 0x9000 1 0x7000 1 (store_of map_empty) = Some (r, s') /\
    sp_frames s' !! 0x7000 = Some f' /\ pf_address f' = 0x110000 /\ pf_mappings f' = 0 /\
    exists g, r <> NULL /\ r <> 0x7000 /\ sp_frames s' !! r = Some g /\ pf_size f' = 1 /\
      pf_address g = 0x110000 + pf_size f' * PAGE_SIZE /\
      pf_size f' + pf_size g = 2 /\ pf_mappings g = 0 /\ pf_flags g = 0.
Proof.
  apply (phys_frame_split_spec 0x9000 1 (store_of map_empty) 0x7000 1 frame_ex);
    [done|by do 2 eexists| |done|simpl; set_solver|done|done|done|done].
  split; [split; [done|]|split_and!; [done|done|set_solver]].
  intros p Hp. simpl in Hp. apply elem_of_singleton in Hp as ->. done.
Defined.
