(* ===== verification/AATree.v ===== *)
(** Anderson (AA) trees as values: what the pointer structure of
    [src/klib/andtree.c] holds, with the rebalancing steps of that file as
    functions on trees.

    A node carries its address, so that a tree names the nodes it is made of;
    [AndTree] shows that the code, on its heap of nodes, computes these
    functions, and the scheduler is proved against them.  The key of a node is
    computed from its data each time two nodes are compared, as [get_key] is in
    the code, so the functions take it as a parameter. *)
From S2P Require Export Prelude.
From Stdlib Require Import Sorted.

Module AA.

Inductive tree :=
  | E
  | N (id : Z) (lv : Z) (l : tree) (d : Z) (r : tree).
#[global] Instance tree_eq_dec : EqDecision tree.
Proof. solve_decision. Defined.

Definition level (t : tree) : Z := match t with E => 0 | N _ lv _ _ _ => lv end.
Definition root_id (nil : Z) (t : tree) : Z := match t with E => nil | N i _ _ _ _ => i end.
Definition right_of (t : tree) : tree := match t with E => E | N _ _ _ _ r => r end.
Definition left_of (t : tree) : tree := match t with E => E | N _ _ l _ _ => l end.

Fixpoint size (t : tree) : nat :=
  match t with E => 0 | N _ _ l _ r => size l + 1 + size r end%nat.

(** nodes in order, as pairs of address and data *)
Fixpoint nodes (t : tree) : list (Z * Z) :=
  match t with E => [] | N i _ l d r => nodes l ++ (i, d) :: nodes r end.
Definition ids (t : tree) : list Z := (nodes t).*1.
Definition contents (t : tree) : list Z := (nodes t).*2.

(** ** Rebalancing *)

(** [atree_skew] at a node with the parts given *)
Fixpoint skew_at (l : tree) (i lv d : Z) (r : tree) : tree :=
  match l with
  | N j lj ll dj lr =>
      if lj =? lv then N j lj ll dj (skew_at lr i lv d r) else N i lv l d r
  | E => N i lv l d r
  end.
Definition skew (t : tree) : tree :=
  match t with E => E | N i lv l d r => skew_at l i lv d r end.

Fixpoint split (t : tree) : tree :=
  match t with
  | N i lv l d (N j lj rl dj rr) =>
      if lv =? level rr then N j (lj + 1) (N i lv l d rl) dj (split rr)
      else t
  | _ => t
  end.

(** the levels and shape [atree_check] tests, and what makes it a tree of
    logarithmic height *)
Fixpoint aa (t : tree) : Prop :=
  match t with
  | E => True
  | N _ lv l _ r =>
      1 <= lv /\ level l = lv - 1 /\ (level r = lv - 1 \/ level r = lv) /\
      level (right_of r) < lv /\ aa l /\ aa r
  end.

(** one turn of the loop of [atree_remove_repair] *)
Definition repair (t : tree) : tree :=
  match t with
  | E => E
  | N i lv l d r =>
      if (level l <? lv - 1) || (level r <? lv - 1) then
        let lv := lv - 1 in
        let r := match r with
                 | N j lj rl dj rr => N j (if lv <? lj then lv else lj) rl dj rr
                 | E => E
                 end in
        match split (skew (N i lv l d r)) with
        | N i lv l d r => skew (N i lv (split l) d r)
        | E => E
        end
      else t
  end.

(** remove the last node: the tree left and the node removed *)
Fixpoint remove_max (t : tree) : option (tree * (Z * Z)) :=
  match t with
  | E => None
  | N i lv l d r =>
      match remove_max r with
      | None => Some (l, (i, d))
      | Some (r', x) => Some (repair (N i lv l d r'), x)
      end
  end.
Fixpoint remove_min (t : tree) : option (tree * (Z * Z)) :=
  match t with
  | E => None
  | N i lv l d r =>
      match remove_min l with
      | None => Some (r, (i, d))
      | Some (l', x) => Some (repair (N i lv l' d r), x)
      end
  end.

(** remove the data at a node: that of its neighbour moves into the node, and
    it is the neighbour's node that goes *)
Definition remove_root (t : tree) : tree :=
  match t with
  | E => E
  | N i lv l d r =>
      match remove_max l with
      | Some (l', (_, d')) => repair (N i lv l' d' r)
      | None =>
          match remove_min r with
          | Some (r', (_, d')) => repair (N i lv l d' r')
          | None => E
          end
      end
  end.

(** [atree_remove] of the node at address [x] *)
Fixpoint remove (x : Z) (t : tree) : tree :=
  match t with
  | E => E
  | N i lv l d r =>
      if i =? x then remove_root t
      else if decide (x ∈ ids l) then repair (N i lv (remove x l) d r)
      else if decide (x ∈ ids r) then repair (N i lv l d (remove x r))
      else t
  end.

(** the node [remove] gives up: the one whose data moved, or the node itself *)
Definition victim_root (t : tree) : Z :=
  match t with
  | E => NULL
  | N i _ l _ r =>
      match remove_max l with
      | Some (_, (j, _)) => j
      | None => match remove_min r with Some (_, (j, _)) => j | None => i end
      end
  end.
Fixpoint victim (x : Z) (t : tree) : Z :=
  match t with
  | E => NULL
  | N i _ l _ r =>
      if i =? x then victim_root t
      else if decide (x ∈ ids l) then victim x l else victim x r
  end.

(** ** Searching *)

Fixpoint min_node (t : tree) : option (Z * Z) :=
  match t with
  | E => None
  | N i _ E d _ => Some (i, d)
  | N _ _ l _ _ => min_node l
  end.
Fixpoint max_node (t : tree) : option (Z * Z) :=
  match t with
  | E => None
  | N i _ _ d E => Some (i, d)
  | N _ _ _ _ r => max_node r
  end.

Section keyed.
Context (get_key : Z -> Z).

Definition atree_compare (key d : Z) : Z := i64 (key - get_key d).

(** insert the data [x] at the node [k] *)
Fixpoint insert (k x : Z) (t : tree) : tree :=
  match t with
  | E => N k 1 E x E
  | N i lv l d r =>
      if atree_compare (get_key x) d <? 0
      then split (skew (N i lv (insert k x l) d r))
      else split (skew (N i lv l d (insert k x r)))
  end.

Fixpoint find_key (key : Z) (t : tree) : option (Z * Z) :=
  match t with
  | E => None
  | N i _ l d r =>
      let diff := atree_compare key d in
      if diff =? 0 then Some (i, d)
      else if diff <=? 0 then find_key key l else find_key key r
  end.

Fixpoint find_dupe (x : Z) (t : tree) : option (Z * Z) :=
  match t with
  | E => None
  | N i _ l d r =>
      if d =? x then Some (i, d)
      else
        let diff := atree_compare (get_key x) d in
        let again := if diff <=? 0 then find_dupe x l else find_dupe x r in
        if diff =? 0 then
          match find_dupe x l with
          | Some a => Some a
          | None => match find_dupe x r with Some a => Some a | None => again end
          end
        else again
  end.

Fixpoint find_data (x : Z) (t : tree) : option (Z * Z) :=
  match t with
  | E => None
  | N i _ l d r =>
      let diff := atree_compare (get_key x) d in
      if diff =? 0 then find_dupe x t
      else if diff <=? 0 then find_data x l else find_data x r
  end.

Fixpoint find_at_least (key : Z) (t : tree) : option (Z * Z) :=
  match t with
  | E => None
  | N i _ l d r =>
      let diff := atree_compare key d in
      if diff =? 0 then Some (i, d)
      else
        let temp := if diff <=? 0 then find_at_least key l else find_at_least key r in
        if diff <? 0 then
          match temp with
          | Some (j, e) => if diff <? atree_compare key e then temp else Some (i, d)
          | None => Some (i, d)
          end
        else temp
  end.

(** ** Order *)

Definition key_le (a b : Z) : Prop := get_key a <= get_key b.
Definition ordered (t : tree) : Prop := StronglySorted key_le (contents t).
(** keys whose differences do not overflow *)
Definition key_ok (d : Z) : Prop := - 2 ^ 62 <= get_key d < 2 ^ 62.
Definition keys_ok (t : tree) : Prop := Forall key_ok (contents t).

End keyed.

(** ** What rebalancing keeps *)

Lemma nodes_skew_at l i lv d r : nodes (skew_at l i lv d r) = nodes l ++ (i, d) :: nodes r.
Proof.
  revert i lv d r. induction l as [|j lj ll _ e lr IH]; intros; simpl; [done|].
  destruct (lj =? lv); simpl; [|done]. by rewrite IH, <- app_assoc.
Qed.

Lemma nodes_skew t : nodes (skew t) = nodes t.
Proof. destruct t; [done|]. apply nodes_skew_at. Qed.

Lemma split_cons i lv l d r :
  split (N i lv l d r) =
  match r with
  | N j lj rl e rr =>
      if lv =? level rr then N j (lj + 1) (N i lv l d rl) e (split rr) else N i lv l d r
  | E => N i lv l d r
  end.
Proof. by destruct r. Qed.

#[local] Arguments split : simpl never.

(** [split] recurs two levels down *)
Lemma split_ind (P : tree -> Prop) :
  P E -> (forall i lv l d, P (N i lv l d E)) ->
  (forall i lv l d j lj rl e rr, P rr -> P (N i lv l d (N j lj rl e rr))) ->
  forall t, P t.
Proof.
  intros H0 H1 H2.
  assert (H : forall t, P t /\ forall i lv l d, P (N i lv l d t)).
  { induction t as [|? ? ? [] ? ? []]; auto. }
  intros t. apply H.
Qed.

Lemma nodes_split t : nodes (split t) = nodes t.
Proof.
  induction t as [| |i lv l d j lj rl e rr IH] using split_ind; [done..|].
  rewrite split_cons. destruct (lv =? level rr); [|done].
  simpl. by rewrite IH, <- app_assoc.
Qed.

Lemma nodes_repair t : nodes (repair t) = nodes t.
Proof.
  destruct t as [|i lv l d r]; [done|]. unfold repair.
  destruct (_ || _); [|done]. cbn zeta.
  set (r' := match r with E => E | _ => _ end).
  assert (Hr : nodes r' = nodes r) by (unfold r'; by destruct r).
  clearbody r'.
  assert (Hs : nodes (split (skew (N i (lv - 1) l d r'))) = nodes (N i lv l d r)).
  { rewrite nodes_split, nodes_skew. simpl. by rewrite Hr. }
  destruct (split _) as [|i' lv' l' d' r''].
  - by rewrite <- Hs.
  - rewrite nodes_skew, <- Hs. simpl. by rewrite nodes_split.
Qed.

Lemma level_skew_at_ge l i lv d r :
  level (skew_at l i lv d r) = lv.
Proof.
  destruct l as [|j lj ll e lr]; simpl; [done|].
  destruct (Z.eqb_spec lj lv); simpl; lia.
Qed.

(** ** The shape *)

Lemma aa_level t : aa t -> 0 <= level t.
Proof. destruct t; simpl; [lia|]. naive_solver lia. Qed.

Lemma aa_level_E t : aa t -> level t = 0 -> t = E.
Proof. destruct t; simpl; [done|]. naive_solver lia. Qed.

(** the horizontal link to the right *)
Definition rlevel (t : tree) : Z := level (right_of t).

Lemma skew_id i lv l d r : level l < lv -> skew (N i lv l d r) = N i lv l d r.
Proof. destruct l; simpl; [done|]. intros. by destruct (Z.eqb_spec lv0 lv); [lia|]. Qed.

Lemma skew_at_id l i lv d r : level l < lv -> skew_at l i lv d r = N i lv l d r.
Proof. apply (skew_id i lv l d r). Qed.

Lemma split_id t : level (right_of (right_of t)) <> level t -> split t = t.
Proof.
  destruct t as [|i lv l d [|j lj rl e rr]]; [done..|]. rewrite split_cons. simpl.
  intros H. by destruct (Z.eqb_spec lv (level rr)); [lia|].
Qed.

Lemma aa_split_id t : aa t -> split t = t.
Proof.
  destruct t as [|i lv l d [|j lj rl e rr]]; [done..|]. rewrite split_cons. simpl.
  intros (? & ? & ? & ? & ?). by destruct (Z.eqb_spec lv (level rr)); [lia|].
Qed.

Lemma aa_skew_id t : aa t -> skew t = t.
Proof. destruct t; [done|]. intros (? & ? & ?). apply skew_id. lia. Qed.

Lemma aa_cons i lv l d r :
  aa (N i lv l d r) <->
  1 <= lv /\ level l = lv - 1 /\ (level r = lv - 1 \/ level r = lv) /\
  rlevel r < lv /\ aa l /\ aa r.
Proof. done. Qed.

Lemma aa_pos i lv l d r : aa (N i lv l d r) -> 1 <= lv.
Proof. by intros (? & _). Qed.

Lemma level_cases t : aa t -> 1 <= level t -> exists i lv l d r, t = N i lv l d r /\ level t = lv.
Proof. destruct t; simpl; [lia|]. eauto 10. Qed.

Lemma aa_rlevel t : aa t -> 0 <= level t /\ level (right_of t) <= level t.
Proof. destruct t; simpl; [lia|]. intros (? & ? & ? & ? & ? & ?). lia. Qed.

(** a level of an [aa] tree is never negative; [zs] decides the comparisons
    of the rebalancing steps *)
Ltac aa_levels :=
  repeat match goal with
  | H : aa ?t |- _ =>
      lazymatch goal with
      | _ : 0 <= level t /\ _ |- _ => fail
      | _ => pose proof (aa_rlevel t H)
      end
  end.
Ltac aa_step :=
  match goal with
  | |- context [Z.eqb ?a ?b] => destruct (Z.eqb_spec a b); try lia
  | |- context [Z.ltb ?a ?b] => destruct (Z.ltb_spec a b); try lia
  end.

(** how inserting below changes a tree *)
Definition grown (t t' : tree) : Prop :=
  aa t' /\ (level t' = level t \/
            level t' = level t + 1 /\ rlevel t = level t /\ rlevel t' = level t).

(** and how removing below does *)
Definition shrunk (t t' : tree) : Prop :=
  aa t' /\ (level t' = level t \/ level t' = level t - 1) /\
  (rlevel t < level t -> rlevel t' < level t).

Ltac aa_done := unfold grown, shrunk, rlevel in *; simpl in *; aa_levels; split_and!; try tauto; try done; try lia.

Lemma grown_left i lv l l' d r :
  aa (N i lv l d r) -> grown l l' -> grown (N i lv l d r) (split (skew (N i lv l' d r))).
Proof.
  intros (? & ? & Hr & Hrr & ? & Har) [Hl' [Hsame|(Hup & _ & Hrl)]].
  - rewrite aa_skew_id, aa_split_id by (aa_done).
    split; [aa_done|by left].
  - destruct l' as [|j lj ll e lr]; [simpl in *; lia|].
    unfold rlevel in *. simpl in *. replace lj with lv by lia. rewrite Z.eqb_refl.
    destruct Hl' as (? & ? & ? & ? & ? & ?).
    rewrite skew_at_id by lia. rewrite split_cons. aa_step.
    + rewrite aa_split_id by done.
      split; [aa_done|right; unfold rlevel; simpl; lia].
    + split; [aa_done|left; done].
Qed.

Lemma grown_right i lv l d r r' :
  aa (N i lv l d r) -> grown r r' -> grown (N i lv l d r) (split (skew (N i lv l d r'))).
Proof.
  intros (? & ? & Hr & Hrr & ? & Har) [Hr' Hcase]. rewrite skew_id by lia.
  destruct r' as [|j lj rl e rr].
  { aa_levels. simpl in Hcase. unfold grown. simpl. split_and!; try done; try lia. }
  rewrite split_cons. unfold rlevel in *. simpl in Hcase.
  pose proof Hr' as (? & ? & ? & ? & ? & ?). aa_step.
  - rewrite aa_split_id by done.
    assert (lj = lv) as -> by lia. aa_levels.
    split; [simpl; split_and!; (done || lia)|right; unfold rlevel; simpl; lia].
  - split; [|by left]. simpl. split_and!; try done; lia.
Qed.

Lemma repair_id i lv l d r :
  lv - 1 <= level l -> lv - 1 <= level r -> repair (N i lv l d r) = N i lv l d r.
Proof. intros. unfold repair. by repeat aa_step. Qed.

Lemma shrunk_left_horizontal i lv l' d j rl e rr :
  level l' = lv - 2 -> aa l' -> aa (N j lv rl e rr) -> level rr = lv - 1 ->
  let t' := repair (N i lv l' d (N j lv rl e rr)) in aa t' /\ level t' = lv.
Proof.
  intros Hl Hal (? & Hrl & _ & ? & Harl & Harr) Hrr. aa_levels.
  unfold repair. simpl level. aa_step. simpl. aa_step.
  rewrite skew_at_id by lia. rewrite split_cons, Hrr, Z.eqb_refl, (aa_split_id rr) by done.
  destruct rl as [|k lk rll f rlr]; [simpl in *; lia|].
  destruct Harl as (? & ? & ? & ? & ? & ?). simpl in *. assert (lk = lv - 1) as -> by lia.
  replace (lv - 1 + 1) with lv by lia. rewrite split_cons.
  destruct (Z.eqb_spec (lv - 1) (level rlr)) as [Hk|Hk].
  - rewrite (aa_split_id rlr) by done. replace (lv - 1 + 1) with lv by lia.
    simpl. rewrite Z.eqb_refl.
    rewrite skew_at_id by lia. split; [aa_done|done].
  - simpl. aa_step. split; [aa_done|done].
Qed.

Lemma shrunk_left i lv l l' d0 d r :
  aa (N i lv l d0 r) -> shrunk l l' -> shrunk (N i lv l d0 r) (repair (N i lv l' d r)).
Proof.
  intros (? & Hl & Hr & Hrr & ? & Har) (Hal' & Hl' & _).
  destruct Hl' as [Hl'|Hl'].
  { rewrite repair_id by lia. split; [aa_done|]. split; [by left|].
    unfold rlevel. simpl. lia. }
  destruct Hr as [Hr|Hr].
  - aa_levels. destruct r as [|j lj rl e rr]; [simpl in *; lia|].
    unfold repair. simpl level. aa_step. simpl in Hr. subst lj.
    destruct Har as (? & ? & ? & ? & ? & ?). simpl. aa_step.
    rewrite skew_at_id by lia. rewrite split_cons. aa_step.
    + rewrite (aa_split_id rr) by done.
      rewrite (aa_split_id (N i (lv - 1) l' d rl)) by (aa_done).
      cbn [skew]. rewrite skew_at_id by (simpl; lia). aa_done.
    + rewrite (aa_split_id l') by done. cbn [skew]. rewrite skew_at_id by lia.
      aa_done.
  - destruct r as [|j lj rl e rr]; [simpl in *; lia|]. simpl in Hr. subst lj.
    pose proof Har as (? & ? & ? & ? & ? & ?). unfold rlevel in Hrr. simpl in Hrr.
    destruct (shrunk_left_horizontal i lv l' d j rl e rr) as [? Hlv]; [lia|done..|lia|].
    split; [done|]. split; [by left|]. unfold rlevel. simpl. lia.
Qed.

Lemma shrunk_right i lv l d0 d r r' :
  aa (N i lv l d0 r) -> shrunk r r' -> shrunk (N i lv l d0 r) (repair (N i lv l d r')).
Proof.
  intros (? & Hl & Hr & Hrr & Hal & Har) (Har' & Hr' & Hrr').
  assert (Hcase : lv - 1 <= level r' \/ level r' = lv - 2) by lia.
  destruct Hcase as [Hge|Hlo].
  { rewrite repair_id by lia. unfold shrunk, rlevel in *. simpl.
    assert (level (right_of r') < lv).
    { destruct r' as [|? ? ? ? rr']; simpl in *; [lia|]. destruct Har' as (? & ? & ? & ? & ? & ?). lia. }
    split_and!; try done; try lia. }
  aa_levels. destruct l as [|j lj ll e lr]; [simpl in *; lia|]. simpl in Hl. subst lj.
  destruct Hal as (? & ? & ? & ? & ? & ?).
  unfold repair. simpl level. destruct (Z.ltb_spec (lv - 1) (lv - 1)); [lia|]. aa_step.
  set (r2 := match r' with E => E | _ => _ end).
  assert (r2 = r') as ->.
  { unfold r2. destruct r' as [|j' lj' ? ? ?]; [done|]. simpl in Hlo. aa_step. done. }
  cbn [orb]. cbn zeta. unfold skew. simpl. rewrite Z.eqb_refl.
  assert (level (right_of r') <> lv - 1).
  { destruct r'; simpl in *; [lia|]. destruct Har' as (? & ? & ? & ? & ? & ?). lia. }
  destruct lr as [|k lk lrl f lrr]; simpl.
  { simpl in *. rewrite split_cons. aa_step.
    rewrite (aa_split_id ll), skew_at_id by (done || (simpl in *; lia)). aa_done. }
  destruct (Z.eqb_spec lk (lv - 1)) as [->|Hk].
  - match goal with Hlr : aa (N k _ _ _ _) |- _ => destruct Hlr as (? & ? & ? & ? & ? & ?) end.
    simpl in *.
    rewrite skew_at_id by lia. rewrite split_cons. simpl level. rewrite Z.eqb_refl.
    rewrite (split_id (N i (lv - 1) lrr d r')) by (simpl; lia).
    rewrite (aa_split_id (N j (lv - 1) ll e lrl)) by aa_done. simpl.
    replace (lv - 1 + 1) with lv by lia. aa_step.
    aa_done.
  - simpl in *. rewrite split_cons. simpl. aa_step.
    rewrite (aa_split_id ll), skew_at_id by (done || (simpl in *; lia)). aa_done.
Qed.

Lemma shrunk_leaf i lv l d : aa (N i lv l d E) -> shrunk (N i lv l d E) l.
Proof. intros (? & ? & ? & ? & ? & _). aa_done. Qed.

Lemma shrunk_first i lv d r : aa (N i lv E d r) -> shrunk (N i lv E d r) r.
Proof. intros (? & ? & ? & ? & ? & ?). aa_done. Qed.

(** ** Removal *)

#[local] Arguments repair : simpl never.

Lemma remove_max_spec t :
  aa t ->
  match remove_max t with
  | None => t = E
  | Some (t', x) => shrunk t t' /\ nodes t = nodes t' ++ [x]
  end.
Proof.
  induction t as [|i lv l _ d r IH]; [done|]. intros Hal. simpl.
  pose proof Hal as (_ & _ & _ & _ & _ & Har). specialize (IH Har).
  destruct (remove_max r) as [[r' x]|].
  - destruct IH as [Hs Hn]. split; [by apply (shrunk_right i lv l d d r r')|].
    rewrite nodes_repair. simpl. by rewrite Hn, <- app_assoc.
  - subst r. split; [by eapply shrunk_leaf|]. done.
Qed.

Lemma remove_min_spec t :
  aa t ->
  match remove_min t with
  | None => t = E
  | Some (t', x) => shrunk t t' /\ nodes t = x :: nodes t'
  end.
Proof.
  induction t as [|i lv l IH d r _]; [done|]. intros Hal. simpl.
  pose proof Hal as (_ & _ & _ & _ & Hll & _). specialize (IH Hll).
  destruct (remove_min l) as [[l' x]|].
  - destruct IH as [Hs Hn]. split; [by apply (shrunk_left i lv l l' d d r)|].
    rewrite nodes_repair. simpl. by rewrite Hn.
  - subst l. split; [by eapply shrunk_first|]. done.
Qed.

(** the data around the removed one stay in order, and the nodes are those of
    before less one *)
Lemma remove_root_spec i lv l d r :
  aa (N i lv l d r) ->
  let t' := remove_root (N i lv l d r) in
  shrunk (N i lv l d r) t' /\ contents t' = contents l ++ contents r /\
  Permutation (ids (N i lv l d r)) (victim_root (N i lv l d r) :: ids t').
Proof.
  intros Hal. pose proof Hal as (_ & _ & _ & _ & Hll & Har). unfold remove_root, victim_root. cbn zeta.
  pose proof (remove_max_spec l Hll) as Hmax. pose proof (remove_min_spec r Har) as Hmin.
  unfold contents, ids in *.
  destruct (remove_max l) as [[l' [j e]]|].
  - destruct Hmax as [Hs Hn]. split; [by apply (shrunk_left i lv l l' d e r)|].
    rewrite nodes_repair. simpl. rewrite Hn, !fmap_app. simpl. split; [by rewrite <- app_assoc|].
    rewrite <- app_assoc. symmetry. apply Permutation_middle.
  - subst l. destruct (remove_min r) as [[r' [j e]]|].
    + destruct Hmin as [Hs Hn]. split; [by apply (shrunk_right i lv E d e r r')|].
      rewrite nodes_repair. simpl. rewrite Hn. simpl. split; [done|]. by constructor.
    + subst r. split; [by eapply shrunk_leaf|]. done.
Qed.

Lemma ids_cons i lv l d r : ids (N i lv l d r) = ids l ++ i :: ids r.
Proof. unfold ids. simpl. by rewrite fmap_app. Qed.
Lemma contents_cons i lv l d r : contents (N i lv l d r) = contents l ++ d :: contents r.
Proof. unfold contents. simpl. by rewrite fmap_app. Qed.

Lemma remove_spec_aux x t :
  aa t -> x ∈ ids t ->
  shrunk t (remove x t) /\
  (exists before d after,
     nodes t = before ++ (x, d) :: after /\
     contents (remove x t) = before.*2 ++ after.*2 /\
     Permutation (ids t) (victim x t :: ids (remove x t))).
Proof.
  induction t as [|i lv l IHl d r IHr]; intros Hal Hx; [set_solver|].
  pose proof Hal as (_ & _ & _ & _ & Hll & Har). rewrite ids_cons in Hx.
  cbn [remove victim]. destruct (Z.eqb_spec i x) as [->|Hne].
  { destruct (remove_root_spec x lv l d r Hal) as (Hs & Hc & Hj). split; [done|].
    exists (nodes l), d, (nodes r). done. }
  destruct (decide (x ∈ ids l)) as [Hin|Hnl].
  - destruct (IHl Hll Hin) as (Hs & before & e & after & Hn & Hc & Hj).
    split; [by eapply shrunk_left|].
    exists before, e, (after ++ (i, d) :: nodes r). unfold contents, ids in *.
    rewrite nodes_repair. simpl. csimpl. rewrite !fmap_app. csimpl. rewrite Hc. simpl. split_and!.
    + rewrite Hn. by rewrite <- app_assoc.
    + by rewrite <- app_assoc.
    + by rewrite Hj.
  - destruct (decide (x ∈ ids r)) as [Hin|]; [|set_solver].
    destruct (IHr Har Hin) as (Hs & before & e & after & Hn & Hc & Hj).
    split; [by eapply shrunk_right|].
    exists (nodes l ++ (i, d) :: before), e, after. unfold contents, ids in *.
    rewrite nodes_repair. simpl. csimpl. rewrite !fmap_app. csimpl. rewrite Hc. simpl. split_and!.
    + rewrite Hn. by rewrite <- app_assoc.
    + by rewrite <- app_assoc.
    + rewrite Hj.
      rewrite <- Permutation_middle, <- Permutation_middle. simpl.
      rewrite <- Permutation_middle. constructor.
Qed.

Lemma remove_absent x t : x ∉ ids t -> remove x t = t.
Proof.
  destruct t as [|i lv l d r]; [done|]. rewrite ids_cons. intros Hx. cbn [remove].
  destruct (Z.eqb_spec i x); [set_solver|]. by repeat (destruct (decide _); [set_solver|]).
Qed.

Lemma remove_aa x t : aa t -> aa (remove x t).
Proof.
  intros Ht. destruct (decide (x ∈ ids t)) as [Hx|Hx].
  - by apply (remove_spec_aux x t Ht Hx).
  - by rewrite remove_absent.
Qed.

Lemma ordered_ext (f g : Z -> Z) t :
  (forall d, d ∈ contents t -> f d = g d) -> ordered f t -> ordered g t.
Proof.
  unfold ordered. generalize (contents t) as c. intros c. induction c as [|x c IH]; [constructor|].
  intros Hfg Hs. apply StronglySorted_inv in Hs as [Hs Hx]. constructor; [apply IH; [set_solver|done]|].
  rewrite Forall_forall in *. intros y Hy. unfold key_le in *. rewrite <- !Hfg by set_solver. auto.
Qed.

(** ** The first and the last node *)

Lemma min_node_head t : min_node t = head (nodes t).
Proof.
  induction t as [|i lv l IH d r _]; [done|]. destruct l as [|j lj ll e lr]; [done|].
  change (min_node (N i lv (N j lj ll e lr) d r)) with (min_node (N j lj ll e lr)).
  rewrite IH. simpl. by destruct (nodes ll).
Qed.

Lemma max_node_last t : max_node t = last (nodes t).
Proof.
  induction t as [|i lv l _ d r IH]; [done|]. destruct r as [|j lj rl e rr].
  - simpl. by rewrite last_snoc.
  - change (max_node (N i lv l d (N j lj rl e rr))) with (max_node (N j lj rl e rr)).
    rewrite IH. cbn [nodes]. rewrite (last_app_cons (nodes l)). simpl.
    destruct (nodes rl); simpl; by rewrite ?last_cons_cons.
Qed.

(** removal of the first node, as the scheduler does *)
Lemma remove_min_node t i d :
  aa t -> NoDup (ids t) -> min_node t = Some (i, d) ->
  contents t = d :: contents (remove i t) /\ Permutation (ids t) (victim i t :: ids (remove i t)).
Proof.
  intros Hal Hnd Hmin. rewrite min_node_head in Hmin.
  assert (Hi : i ∈ ids t).
  { unfold ids. destruct (nodes t) as [|[? ?] ?]; [done|]. simplify_eq/=. set_solver. }
  destruct (remove_spec_aux i t Hal Hi) as (_ & b & e & a & Hn & Hc & Hp). split; [|done].
  rewrite Hc. unfold contents, ids in *. rewrite Hn in *. destruct b as [|[j f] b]; simplify_eq/=; [done|].
  exfalso. apply NoDup_cons in Hnd as [Hnd _]. apply Hnd. rewrite fmap_app. set_solver.
Qed.

Lemma size_contents t : size t = length (contents t).
Proof.
  unfold contents. rewrite length_fmap. induction t as [|i lv l IHl d r IHr]; [done|]. simpl.
  rewrite length_app. simpl. lia.
Qed.

Lemma min_node_contents t :
  match min_node t with
  | None => contents t = []
  | Some (i, d) => exists rest, contents t = d :: rest
  end.
Proof.
  rewrite min_node_head. unfold contents. destruct (nodes t) as [|[i d] rest]; [done|]. simpl. eauto.
Qed.

(** ** The height *)

Fixpoint depth (t : tree) : nat :=
  match t with E => 0 | N _ _ l _ r => S (Nat.max (depth l) (depth r)) end.

Lemma level_size t : aa t -> 2 ^ level t <= Z.of_nat (size t) + 1.
Proof.
  induction t as [|i lv l IHl d r IHr]; [simpl; lia|].
  intros (? & Hl & Hr & _ & Hal & Har). specialize (IHl Hal). specialize (IHr Har).
  simpl. rewrite Hl in IHl.
  assert (2 ^ (lv - 1) <= 2 ^ level r) by (apply Z.pow_le_mono_r; lia).
  replace lv with (Z.succ (lv - 1)) at 1 by lia. rewrite Z.pow_succ_r by lia. lia.
Qed.

Lemma depth_level t : aa t -> Z.of_nat (depth t) <= 2 * level t - (if rlevel t =? level t then 0 else 1) \/ t = E.
Proof.
  induction t as [|i lv l IHl d r IHr]; [by right|]. left.
  pose proof H as (? & Hl & Hr & Hrr & Hal & Har).
  specialize (IHl Hal). specialize (IHr Har). unfold rlevel in *. simpl in *.
  assert (Hdl : Z.of_nat (depth l) <= 2 * level l).
  { destruct IHl as [IHl|IHl]; [destruct (level (right_of l) =? level l); lia|subst l; simpl; lia]. }
  assert (Hdr : Z.of_nat (depth r) <= 2 * level r - (if level (right_of r) =? level r then 0 else 1) \/ r = E) by done.
  destruct (Z.eqb_spec (level r) lv) as [Hrl|Hrl].
  - destruct Hdr as [Hdr|Hdr]; [|subst r; simpl in *; lia].
    destruct (Z.eqb_spec (level (right_of r)) (level r)); lia.
  - assert (Z.of_nat (depth r) <= 2 * level r).
    { destruct Hdr as [Hdr|Hdr]; [destruct (level (right_of r) =? level r); lia|subst r; simpl; lia]. }
    lia.
Qed.

Section keyed_proofs.
Context (get_key : Z -> Z).

Abbreviation key_ok := (key_ok get_key).
Abbreviation atree_compare := (atree_compare get_key).

Lemma compare_exact k d : - 2 ^ 62 <= k < 2 ^ 62 -> key_ok d -> atree_compare k d = k - get_key d.
Proof. unfold AA.key_ok, AA.atree_compare. intros. apply i64_small. lia. Qed.

Lemma keys_ok_cons i lv l d r :
  keys_ok get_key (N i lv l d r) <-> keys_ok get_key l /\ key_ok d /\ keys_ok get_key r.
Proof. unfold keys_ok. by rewrite contents_cons, Forall_app, Forall_cons. Qed.

(** in order is: each subtree is, and the root lies between *)
Lemma ordered_cons i lv l d r :
  ordered get_key (N i lv l d r) <->
  ordered get_key l /\ ordered get_key r /\
  Forall (fun a => get_key a <= get_key d) (contents l) /\
  Forall (fun a => get_key d <= get_key a) (contents r).
Proof.
  unfold ordered. rewrite contents_cons. generalize (contents l) as cl. generalize (contents r) as cr.
  intros cr cl. induction cl as [|a cl IH]; simpl.
  - split; [|intros (_ & Hr & _ & Hd); by constructor].
    intros Hs. apply StronglySorted_inv in Hs as [? ?].
    split_and!; [constructor|done|constructor|done].
  - split.
    + intros Hs. apply StronglySorted_inv in Hs as [Hs Ha].
      apply IH in Hs as (? & ? & ? & ?). apply Forall_app in Ha as [Ha Hd].
      apply Forall_cons in Hd as [Hd _]. split_and!; try done; constructor; done.
    + intros (Hs & ? & Hle & Hge). apply StronglySorted_inv in Hs as [Hs Ha].
      apply Forall_cons in Hle as [Hl Hle]. constructor; [by apply IH|].
      apply Forall_app; split; [done|]. constructor; [done|].
      eapply Forall_impl; [done|]. unfold key_le. simpl. intros; lia.
Qed.

(** whatever the keys, [insert] keeps the shape and adds one node *)
Lemma insert_shape k x t :
  aa t -> grown t (insert get_key k x t) /\ Permutation (nodes (insert get_key k x t)) ((k, x) :: nodes t).
Proof.
  intros Hal. induction t as [|i lv l IHl d r IHr].
  { split; [unfold grown, rlevel; simpl; split_and!; lia|done]. }
  pose proof Hal as (_ & _ & _ & _ & Hll & Har). cbn [insert].
  destruct (_ <? 0).
  - destruct (IHl Hll) as [Hg Hn]. split; [by apply (grown_left i lv l _ d r)|].
    rewrite nodes_split, nodes_skew. simpl. by rewrite Hn.
  - destruct (IHr Har) as [Hg Hn]. split; [by apply (grown_right i lv l d r)|].
    rewrite nodes_split, nodes_skew. simpl. rewrite Hn.
    rewrite (Permutation_middle (nodes l) _ (k, x)). apply Permutation_app_head, perm_swap.
Qed.

Lemma insert_aa k x t : aa t -> aa (insert get_key k x t).
Proof. intros Hal. by destruct (insert_shape k x t Hal) as [[? _] _]. Qed.

Lemma insert_ids k x t : aa t -> Permutation (ids (insert get_key k x t)) (k :: ids t).
Proof. intros Hal. unfold ids. destruct (insert_shape k x t Hal) as [_ ->]. done. Qed.

Lemma insert_contents k x t : aa t -> Permutation (contents (insert get_key k x t)) (x :: contents t).
Proof. intros Hal. unfold contents. destruct (insert_shape k x t Hal) as [_ ->]. done. Qed.

(** [insert] puts the new data after everything with a key not above its own *)
Lemma insert_spec_aux k x t :
  aa t -> ordered get_key t -> keys_ok get_key t -> key_ok x ->
  exists b a, nodes t = b ++ a /\ nodes (insert get_key k x t) = b ++ (k, x) :: a /\
    Forall (fun y => get_key y <= get_key x) b.*2 /\ Forall (fun y => get_key x < get_key y) a.*2.
Proof.
  intros Hal Hord Hok Hx. induction t as [|i lv l IHl d r IHr].
  { exists [], []. split_and!; try done; constructor. }
  pose proof Hal as (_ & _ & _ & _ & Hll & Har).
  apply ordered_cons in Hord as (Hol & Hor & Hle & Hge).
  apply keys_ok_cons in Hok as (Hkl & Hkd & Hkr).
  cbn [insert]. rewrite compare_exact by done.
  destruct (Z.ltb_spec (get_key x - get_key d) 0).
  - destruct IHl as (b & a & Hn & Hn' & Hb & Ha); [done..|].
    exists b, (a ++ (i, d) :: nodes r).
    rewrite nodes_split, nodes_skew. simpl. rewrite Hn, Hn', <- !app_assoc.
    split_and!; [done..|]. rewrite fmap_app. csimpl.
    apply Forall_app; split; [done|]. constructor; [lia|].
    eapply Forall_impl; [exact Hge|]. simpl. lia.
  - destruct IHr as (b & a & Hn & Hn' & Hb & Ha); [done..|].
    exists (nodes l ++ (i, d) :: b), a.
    rewrite nodes_split, nodes_skew. simpl. rewrite Hn, Hn', <- !app_assoc.
    split_and!; [done..| |done]. rewrite fmap_app. csimpl.
    apply Forall_app; split; [|constructor; [lia|done]].
    eapply Forall_impl; [exact Hle|]. simpl. lia.
Qed.

Lemma insert_ordered k x t :
  aa t -> ordered get_key t -> keys_ok get_key t -> key_ok x ->
  ordered get_key (insert get_key k x t) /\ keys_ok get_key (insert get_key k x t).
Proof.
  intros Hal Hord Hok Hx.
  destruct (insert_spec_aux k x t) as (b & a & Hn & Hn' & Hb & Ha); [done..|].
  unfold ordered, keys_ok, contents in *. rewrite Hn' in *. rewrite Hn in *.
  rewrite !fmap_app in *. csimpl. split.
  - clear Hn Hn'. induction b as [|y b IH]; csimpl in *.
    + constructor; [done|]. eapply Forall_impl; [exact Ha|]. unfold key_le. simpl. lia.
    + apply StronglySorted_inv in Hord as [Hs Hy]. apply Forall_cons in Hb as [Hxy Hb].
      apply Forall_cons in Hok as [_ Hok]. constructor; [by apply IH|].
      apply Forall_app in Hy as [Hy1 Hy2]. apply Forall_app; split; [done|]. by constructor.
  - apply Forall_app in Hok as [? ?]. apply Forall_app; split; [done|]. by constructor.
Qed.

(** the first node of an ordered tree has the least key *)
Lemma min_node_least t i d :
  ordered get_key t -> min_node t = Some (i, d) ->
  exists rest, nodes t = (i, d) :: rest /\ Forall (fun e => get_key d <= get_key e) (contents t).
Proof.
  intros Hord. rewrite min_node_head. unfold ordered, contents in *.
  destruct (nodes t) as [|[j e] rest]; [done|]. intros [= -> ->]. exists rest. split; [done|].
  apply StronglySorted_inv in Hord as [_ Hle]. csimpl. constructor; [lia|done].
Qed.

Lemma ordered_remove x t : aa t -> ordered get_key t -> ordered get_key (remove x t).
Proof.
  intros Hal Hord. destruct (decide (x ∈ ids t)) as [Hx|Hx].
  - destruct (remove_spec_aux x t Hal Hx) as (_ & b & d & a & Hn & Hc & _).
    unfold ordered, contents in *. rewrite Hc. rewrite Hn, fmap_app in Hord. csimpl in Hord.
    clear -Hord. induction b as [|y b IH]; csimpl in *; apply StronglySorted_inv in Hord as [Hs Hy]; [done|].
    constructor; [by apply IH|]. apply Forall_app in Hy as [? Hy]. apply Forall_cons in Hy as [_ ?].
    by apply Forall_app.
  - by rewrite remove_absent.
Qed.

(** ** Searching *)

(** [r] is a node of [t] with data that satisfies [P], or there is none *)
Definition found (P : Z -> Prop) (t : tree) (r : option (Z * Z)) : Prop :=
  match r with
  | Some (i, d) => (i, d) ∈ nodes t /\ P d
  | None => Forall (fun d => ~ P d) (contents t)
  end.

Lemma found_root P i lv l d r : P d -> found P (N i lv l d r) (Some (i, d)).
Proof. intros. simpl. set_solver. Qed.

Lemma found_left P i lv l d r x :
  ~ P d -> Forall (fun d => ~ P d) (contents r) -> found P l x -> found P (N i lv l d r) x.
Proof.
  destruct x as [[j e]|]; simpl; intros.
  - set_solver.
  - rewrite contents_cons. apply Forall_app; split; [done|by constructor].
Qed.

Lemma found_right P i lv l d r x :
  ~ P d -> Forall (fun d => ~ P d) (contents l) -> found P r x -> found P (N i lv l d r) x.
Proof.
  destruct x as [[j e]|]; simpl; intros.
  - set_solver.
  - rewrite contents_cons. apply Forall_app; split; [done|by constructor].
Qed.

(** open one node of an ordered tree with good keys *)
Ltac open_node Hord Hok :=
  let Hol := fresh "Hol" in let Hor := fresh "Hor" in
  let Hle := fresh "Hle" in let Hge := fresh "Hge" in
  let Hkl := fresh "Hkl" in let Hkd := fresh "Hkd" in let Hkr := fresh "Hkr" in
  apply ordered_cons in Hord as (Hol & Hor & Hle & Hge);
  apply keys_ok_cons in Hok as (Hkl & Hkd & Hkr).
Ltac by_side :=
  match goal with
  | H : Forall _ ?l |- Forall _ ?l =>
      eapply Forall_impl; [exact H|]; simpl; intros; first [lia | intros ?; subst; lia]
  end.

Lemma find_key_spec key t :
  ordered get_key t -> keys_ok get_key t -> - 2 ^ 62 <= key < 2 ^ 62 ->
  found (fun d => get_key d = key) t (find_key get_key key t).
Proof.
  induction t as [|i lv l IHl d r IHr]; [intros; constructor|]. intros Hord Hok Hkey.
  open_node Hord Hok. cbn [find_key]. rewrite compare_exact by done. cbn zeta.
  destruct (Z.eqb_spec (key - get_key d) 0); [apply found_root; lia|].
  destruct (Z.leb_spec (key - get_key d) 0).
  - apply found_left; [lia|by_side|auto].
  - apply found_right; [lia|by_side|auto].
Qed.

Lemma find_dupe_spec x t :
  ordered get_key t -> keys_ok get_key t -> key_ok x ->
  found (fun d => d = x) t (find_dupe get_key x t).
Proof.
  intros Hord Hok Hx.
  induction t as [|i lv l IHl d r IHr]; [intros; constructor|].
  open_node Hord Hok. cbn [find_dupe]. destruct (Z.eqb_spec d x) as [->|Hd].
  { by apply found_root. }
  rewrite compare_exact by done. cbn zeta. specialize (IHl Hol Hkl). specialize (IHr Hor Hkr).
  destruct (Z.eqb_spec (get_key x - get_key d) 0) as [He|He].
  - destruct (Z.leb_spec (get_key x - get_key d) 0); [|lia].
    destruct (find_dupe get_key x l) as [[j e]|]; simpl in IHl; [simpl; set_solver|].
    destruct (find_dupe get_key x r) as [[j e]|]; simpl in IHr; [simpl; set_solver|].
    simpl. rewrite contents_cons. apply Forall_app; split; [done|by constructor].
  - destruct (Z.leb_spec (get_key x - get_key d) 0).
    + apply found_left; [done| |done]. by_side.
    + apply found_right; [done| |done]. by_side.
Qed.

Lemma find_data_spec x t :
  ordered get_key t -> keys_ok get_key t -> key_ok x ->
  found (fun d => d = x) t (find_data get_key x t).
Proof.
  intros Hord Hok Hx.
  induction t as [|i lv l IHl d r IHr]; [intros; constructor|]. cbn [find_data].
  pose proof Hord as Hord'. pose proof Hok as Hok'. open_node Hord' Hok'.
  rewrite compare_exact by done. cbn zeta.
  destruct (Z.eqb_spec (get_key x - get_key d) 0) as [He|He].
  { by apply find_dupe_spec. }
  assert (d <> x) by (intros ->; lia).
  destruct (Z.leb_spec (get_key x - get_key d) 0).
  - apply found_left; [done| |auto]. by_side.
  - apply found_right; [done| |auto]. by_side.
Qed.

(** the node found has the least key of those not under [key] *)
Lemma find_at_least_spec key t :
  ordered get_key t -> keys_ok get_key t -> - 2 ^ 62 <= key < 2 ^ 62 ->
  match find_at_least get_key key t with
  | Some (i, d) =>
      (i, d) ∈ nodes t /\ key <= get_key d /\
      Forall (fun e => key <= get_key e -> get_key d <= get_key e) (contents t)
  | None => Forall (fun e => get_key e < key) (contents t)
  end.
Proof.
  induction t as [|i lv l IHl d r IHr]; [intros; constructor|]. intros Hord Hok Hkey.
  open_node Hord Hok. cbn [find_at_least]. rewrite compare_exact by done. cbn zeta.
  specialize (IHl Hol Hkl Hkey). specialize (IHr Hor Hkr Hkey).
  assert (Hkeys : forall j e, (j, e) ∈ nodes l -> key_ok e /\ get_key e <= get_key d).
  { intros j e He. assert (e ∈ contents l) by (apply list_elem_of_fmap; by exists (j, e)).
    unfold keys_ok in *. rewrite Forall_forall in Hkl, Hle. auto. }
  destruct (Z.eqb_spec (key - get_key d) 0) as [He|He].
  { split; [simpl; set_solver|]. split; [lia|]. rewrite contents_cons.
    apply Forall_app; split; [by_side|]. constructor; [lia|by_side]. }
  destruct (Z.leb_spec (key - get_key d) 0); destruct (Z.ltb_spec (key - get_key d) 0); try lia.
  - destruct (find_at_least get_key key l) as [[j e]|].
    + destruct IHl as (Hin & Hke & Hall). destruct (Hkeys _ _ Hin) as [? ?].
      rewrite compare_exact by done.
      destruct (Z.ltb_spec (key - get_key d) (key - get_key e)).
      * split; [simpl; set_solver|]. split; [done|]. rewrite contents_cons.
        apply Forall_app; split; [done|]. constructor; [lia|by_side].
      * split; [simpl; set_solver|]. split; [lia|]. rewrite contents_cons.
        apply Forall_app; split; [|constructor; [lia|by_side]].
        eapply Forall_impl; [exact Hall|]. simpl. lia.
    + split; [simpl; set_solver|]. split; [lia|]. rewrite contents_cons.
      apply Forall_app; split; [by_side|]. constructor; [lia|by_side].
  - destruct (find_at_least get_key key r) as [[j e]|].
    + destruct IHr as (Hin & Hke & Hall). split; [simpl; set_solver|]. split; [done|].
      rewrite contents_cons. apply Forall_app; split; [by_side|]. constructor; [lia|done].
    + rewrite contents_cons. apply Forall_app; split; [by_side|]. constructor; [lia|done].
Qed.

End keyed_proofs.

End AA.
