(* ===== verification/AndTree.v ===== *)
(** The balanced trees of [src/klib/andtree.c], on a heap of nodes.

    A node has pointers to its parent and its two leaves; every missing leaf is
    the one static [sentinel], of level 0, whose parent field is scribbled on.
    The operations are translated pointer by pointer, and shown to compute the
    functions of [AATree] on the tree that the heap holds.  A loop takes as
    fuel the number of nodes of the heap and one more. *)
From S2P Require Export Alloc AATree.

Record anode := Anode {
  an_parent : Z;
  an_left : Z;
  an_right : Z;
  an_level : Z;
  an_data : Z;
}.
Definition set_an_parent (v : Z) (n : anode) : anode :=
  Anode v (an_left n) (an_right n) (an_level n) (an_data n).
Definition set_an_level (v : Z) (n : anode) : anode :=
  Anode (an_parent n) (an_left n) (an_right n) v (an_data n).
Definition set_an_data (v : Z) (n : anode) : anode :=
  Anode (an_parent n) (an_left n) (an_right n) (an_level n) v.

(** [node->leaves[ dir ]], where [LEFT] is false and [RIGHT] is true *)
Definition leaf (dir : bool) (n : anode) : Z := if dir then an_right n else an_left n.
Definition set_leaf (dir : bool) (v : Z) (n : anode) : anode :=
  if dir then Anode (an_parent n) (an_left n) v (an_level n) (an_data n)
  else Anode (an_parent n) v (an_right n) (an_level n) (an_data n).
Definition LEFT : bool := false.
Definition RIGHT : bool := true.

Record atree := Atree { at_root : Z; at_nodes : Z }.

Record astore (A : Type) := Astore {
  as_nodes : gmap Z anode;
  as_tree : atree;
  as_slab : A;  (** [atree_slab] *)
}.
Arguments Astore {A} _ _ _.
Arguments as_nodes {A} _.
Arguments as_tree {A} _.
Arguments as_slab {A} _.

Section andtree.
Context {A : Type} `{!Allocator A}.
(** the address of the sentinel; the key of an object *)
Context (sentinel : Z) (get_key : Z -> Z).

Abbreviation TST := (ST (astore A)).

Definition node_get (p : Z) : TST anode := fun s =>
  match as_nodes s !! p with Some n => Some (n, s) | None => None end.
Definition node_update (p : Z) (f : anode -> anode) : TST unit := fun s =>
  match as_nodes s !! p with
  | Some n => Some (tt, Astore (alter f p (as_nodes s)) (as_tree s) (as_slab s))
  | None => None
  end.
Definition root_get : TST Z := gets (fun s => at_root (as_tree s)).
Definition root_set (p : Z) : TST unit :=
  modify (fun s => Astore (as_nodes s) (Atree p (at_nodes (as_tree s))) (as_slab s)).
Definition count_set (f : Z -> Z) : TST unit :=
  modify (fun s => Astore (as_nodes s) (Atree (at_root (as_tree s)) (f (at_nodes (as_tree s)))) (as_slab s)).
(** enough fuel for any walk along a tree *)
Definition with_fuel {B} (m : nat -> TST B) : TST B := fun s => m (S (base.size (as_nodes s))) s.

Definition is_nil (node : Z) : TST bool :=
  if node =? NULL then mret true
  else n ← node_get node; mret (an_level n =? 0).

Definition parentside (node : Z) : TST bool :=
  if node =? NULL then mret RIGHT
  else
    n ← node_get node;
    if an_parent n =? NULL then mret RIGHT
    else
      p ← node_get (an_parent n);
      mret (negb (leaf LEFT p =? node)).

Definition direction (n : Z) : bool := negb (n <=? 0).

(** [atree_compare] with the data of a node *)
Definition compare_node (key node : Z) : TST Z :=
  n ← node_get node;
  mret (AA.atree_compare get_key key (an_data n)).

(** the loops of [find_min_node] and [find_max_node] *)
Fixpoint walk (fuel : nat) (dir : bool) (node : Z) : TST Z :=
  match fuel with
  | O => fault
  | S fuel =>
      n ← node_get node;
      nil ← is_nil (leaf dir n);
      if (nil : bool) then mret node else walk fuel dir (leaf dir n)
  end.

Definition find_min_node (node : Z) : TST Z :=
  n ← node_get node;
  if an_level n =? 0 then mret NULL else with_fuel (fun fuel => walk fuel LEFT node).

Definition find_max_node (node : Z) : TST Z :=
  nil ← is_nil node;
  if (nil : bool) then mret NULL else with_fuel (fun fuel => walk fuel RIGHT node).

(** ** Searching *)

Fixpoint find_key_loop (fuel : nat) (key temp : Z) : TST Z :=
  match fuel with
  | O => fault
  | S fuel =>
      nil ← is_nil temp;
      if (nil : bool) then mret NULL
      else
        diff ← compare_node key temp;
        if diff =? 0 then mret temp
        else
          n ← node_get temp;
          find_key_loop fuel key (leaf (direction diff) n)
  end.
Definition atree_find_key (key : Z) : TST Z :=
  root ← root_get;
  with_fuel (fun fuel => find_key_loop fuel key root).

Fixpoint atree_find_dupe_data (fuel : nat) (node data : Z) : TST Z :=
  match fuel with
  | O => fault
  | S fuel =>
      nil ← is_nil node;
      if (nil : bool) then mret NULL
      else
        n ← node_get node;
        if an_data n =? data then mret node
        else
          diff ← compare_node (get_key data) node;
          if diff =? 0 then
            a ← atree_find_dupe_data fuel (leaf LEFT n) data;
            if negb (a =? NULL) then mret a
            else
              b ← atree_find_dupe_data fuel (leaf RIGHT n) data;
              if negb (b =? NULL) then mret b
              else atree_find_dupe_data fuel (leaf (direction diff) n) data
          else atree_find_dupe_data fuel (leaf (direction diff) n) data
  end.

Fixpoint find_data_loop (fuel : nat) (temp data : Z) : TST Z :=
  match fuel with
  | O => fault
  | S fuel =>
      nil ← is_nil temp;
      if (nil : bool) then mret NULL
      else
        diff ← compare_node (get_key data) temp;
        if diff =? 0 then with_fuel (fun fuel => atree_find_dupe_data fuel temp data)
        else
          n ← node_get temp;
          find_data_loop fuel (leaf (direction diff) n) data
  end.
Definition atree_find_data (data : Z) : TST Z :=
  root ← root_get;
  with_fuel (fun fuel => find_data_loop fuel root data).

Fixpoint do_find_at_least (fuel : nat) (node key : Z) : TST Z :=
  match fuel with
  | O => fault
  | S fuel =>
      nil ← is_nil node;
      if (nil : bool) then mret NULL
      else
        diff ← compare_node key node;
        if diff =? 0 then mret node
        else
          n ← node_get node;
          temp ← do_find_at_least fuel (leaf (direction diff) n) key;
          if diff <? 0 then
            if temp =? NULL then mret node
            else
              d ← compare_node key temp;
              if diff <? d then mret temp else mret node
          else mret temp
  end.
Definition atree_find_at_least (key : Z) : TST Z :=
  root ← root_get;
  with_fuel (fun fuel => do_find_at_least fuel root key).

Definition atree_start : TST Z := root ← root_get; find_min_node root.
Definition atree_end : TST Z := root ← root_get; find_max_node root.

(** up from a node for as long as it is the leaf [dir] of its parent *)
Fixpoint climb (fuel : nat) (dir : bool) (last p : Z) : TST Z :=
  match fuel with
  | O => fault
  | S fuel =>
      nil ← is_nil p;
      if (nil : bool) then mret p
      else
        n ← node_get p;
        if leaf dir n =? last then climb fuel dir p (an_parent n) else mret p
  end.

Definition atree_next (node : Z) : TST Z :=
  if node =? NULL then mret node
  else
    n ← node_get node;
    right ← find_min_node (leaf RIGHT n);
    nil ← is_nil right;
    if negb nil then mret right
    else with_fuel (fun fuel => climb fuel RIGHT node (an_parent n)).

Definition atree_previous (node : Z) : TST Z :=
  if node =? NULL then mret node
  else
    n ← node_get node;
    left ← find_max_node (leaf LEFT n);
    nil ← is_nil left;
    if negb nil then mret left
    else with_fuel (fun fuel => climb fuel LEFT node (an_parent n)).

(** ** Rebalancing *)

Definition replace_in_parent (node value : Z) : TST unit :=
  n ← node_get node;
  _ ← (if negb (an_parent n =? NULL) then
         side ← parentside node;
         node_update (an_parent n) (set_leaf side value)
       else mret tt);
  nil ← is_nil value;
  if negb nil then
    n ← node_get node;
    node_update value (set_an_parent (an_parent n))
  else mret tt.

Definition rotate (node : Z) (dir : bool) : TST Z :=
  n ← node_get node;
  let temp := leaf (negb dir) n in
  t ← node_get temp;
  _ ← node_update node (set_leaf (negb dir) (leaf dir t));
  _ ← node_update temp (set_leaf dir node);
  n ← node_get node;
  _ ← (if negb (leaf (negb dir) n =? NULL) then node_update (leaf (negb dir) n) (set_an_parent node)
       else mret tt);
  _ ← replace_in_parent node temp;
  _ ← node_update node (set_an_parent temp);
  root ← root_get;
  _ ← (if node =? root then root_set temp else mret tt);
  mret temp.

Fixpoint atree_skew (fuel : nat) (node : Z) : TST Z :=
  match fuel with
  | O => fault
  | S fuel =>
      nil ← is_nil node;
      if (nil : bool) then mret node
      else
        n ← node_get node;
        l ← node_get (leaf LEFT n);
        if an_level l =? an_level n then
          ret ← rotate node RIGHT;
          r ← node_get ret;
          _ ← atree_skew fuel (leaf RIGHT r);
          mret ret
        else mret node
  end.

Fixpoint atree_split (fuel : nat) (node : Z) : TST Z :=
  match fuel with
  | O => fault
  | S fuel =>
      nil ← is_nil node;
      if (nil : bool) then mret node
      else
        n ← node_get node;
        r ← node_get (leaf RIGHT n);
        rr ← node_get (leaf RIGHT r);
        if an_level n =? an_level rr then
          ret ← rotate node LEFT;
          _ ← node_update ret (fun n => set_an_level (w32 (an_level n + 1)) n);
          r ← node_get ret;
          _ ← atree_split fuel (leaf RIGHT r);
          mret ret
        else mret node
  end.

Definition skew_node (node : Z) : TST Z := with_fuel (fun fuel => atree_skew fuel node).
Definition split_node (node : Z) : TST Z := with_fuel (fun fuel => atree_split fuel node).

(** ** Insertion *)

Fixpoint bin_insert_loop (fuel : nat) (node temp : Z) : TST unit :=
  match fuel with
  | O => fault
  | S fuel =>
      if temp =? node then mret tt
      else
        n ← node_get node;
        diff ← compare_node (get_key (an_data n)) temp;
        let dir := negb (diff <? 0) in
        t ← node_get temp;
        nil ← is_nil (leaf dir t);
        _ ← (if (nil : bool) then
               _ ← node_update temp (set_leaf dir node);
               node_update node (set_an_parent temp)
             else mret tt);
        t ← node_get temp;
        bin_insert_loop fuel node (leaf dir t)
  end.

Definition atree_bin_insert (node : Z) : TST unit :=
  root ← root_get;
  nil ← is_nil root;
  if (nil : bool) then root_set node
  else with_fuel (fun fuel => bin_insert_loop fuel node root).

Fixpoint atree_insert_repair (fuel : nat) (temp : Z) : TST unit :=
  match fuel with
  | O => fault
  | S fuel =>
      if negb (temp =? NULL) then
        temp ← skew_node temp;
        temp ← split_node temp;
        n ← node_get temp;
        atree_insert_repair fuel (an_parent n)
      else mret tt
  end.

Definition make_anode (data : Z) : TST Z := fun s =>
  match alloc (as_slab s) with
  | Some (ret, a) =>
      Some (ret, Astore (<[ret := Anode NULL sentinel sentinel 1 data]> (as_nodes s)) (as_tree s) a)
  | None => None
  end.

Definition atree_insert (data : Z) : TST Z :=
  node ← make_anode data;
  _ ← atree_bin_insert node;
  _ ← with_fuel (fun fuel => atree_insert_repair fuel node);
  _ ← count_set (fun n => w32 (n + 1));
  mret node.

(** ** Removal *)

Definition do_remove_node (node replacement : Z) : TST unit :=
  root ← root_get;
  _ ← (if node =? root then root_set replacement else mret tt);
  _ ← replace_in_parent node replacement;
  _ ← (fun s =>
         match dealloc node (as_slab s) with
         | Some (_, a) => Some (tt, Astore (delete node (as_nodes s)) (as_tree s) a)
         | None => None
         end);
  count_set (fun n => w32 (n - 1)).

(** one turn of the loop of [atree_remove_repair]: the root of the subtree *)
Definition repair_node (repair : Z) : TST Z :=
  n ← node_get repair;
  l ← node_get (leaf LEFT n);
  r ← node_get (leaf RIGHT n);
  if (an_level l <? w32 (an_level n - 1)) || (an_level r <? w32 (an_level n - 1)) then
    let lv := w32 (an_level n - 1) in
    _ ← node_update repair (set_an_level lv);
    r ← node_get (leaf RIGHT n);
    _ ← (if lv <? an_level r then node_update (leaf RIGHT n) (set_an_level lv) else mret tt);
    repair ← skew_node repair;
    repair ← split_node repair;
    n ← node_get repair;
    _ ← split_node (leaf LEFT n);
    skew_node repair
  else mret repair.

Fixpoint remove_repair_loop (fuel : nat) (repair : Z) : TST unit :=
  match fuel with
  | O => fault
  | S fuel =>
      nil ← is_nil repair;
      if (nil : bool) then mret tt
      else
        repair ← repair_node repair;
        n ← node_get repair;
        remove_repair_loop fuel (an_parent n)
  end.

Definition atree_remove_repair (node : Z) : TST unit :=
  n ← node_get node;
  successor ← find_max_node (leaf LEFT n);
  successor ← (if negb (successor =? NULL) then mret successor else find_min_node (leaf RIGHT n));
  nil ← is_nil successor;
  let temp := if negb nil then successor else node in
  t ← node_get temp;
  let repair := an_parent t in
  _ ← (if negb (successor =? NULL) then
         s ← node_get successor;
         _ ← node_update node (set_an_data (an_data s));
         nil ← is_nil (leaf LEFT s);
         do_remove_node successor (leaf nil s)
       else do_remove_node node sentinel);
  with_fuel (fun fuel => remove_repair_loop fuel repair).

Definition atree_remove (node : Z) : TST unit := atree_remove_repair node.

Definition atree_remove_key (key : Z) : TST Z :=
  node ← atree_find_key key;
  if negb (node =? NULL) then
    n ← node_get node;
    _ ← atree_remove node;
    mret (an_data n)
  else mret NULL.

Definition atree_remove_data (data : Z) : TST Z :=
  node ← atree_find_data data;
  if negb (node =? NULL) then
    n ← node_get node;
    _ ← atree_remove node;
    mret (an_data n)
  else mret NULL.

(** the slab of the nodes is set up before *)
Definition atree_init : TST unit :=
  modify (fun s => Astore (as_nodes s) (Atree sentinel 0) (as_slab s)).

(** ** Checking *)

Fixpoint count_nodes (fuel : nat) (node : Z) : TST Z :=
  match fuel with
  | O => fault
  | S fuel =>
      nil ← is_nil node;
      if (nil : bool) then mret 0
      else
        n ← node_get node;
        a ← count_nodes fuel (leaf LEFT n);
        b ← count_nodes fuel (leaf RIGHT n);
        mret (w32 (w32 (a + b) + 1))
  end.

(** one turn of the loop over the leaves of a node of level above 1 *)
Definition check_leaf (lv child : Z) : TST bool :=
  nil ← is_nil child;
  if (nil : bool) then mret true
  else
    c ← node_get child;
    mret (negb (an_level c <? w32 (lv - 1)) && negb (lv <? an_level c)).

Fixpoint check_tree (fuel : nat) (node : Z) : TST bool :=
  match fuel with
  | O => fault
  | S fuel =>
      nil ← is_nil node;
      if (nil : bool) then mret true
      else
        n ← node_get node;
        left ← check_tree fuel (leaf LEFT n);
        right ← check_tree fuel (leaf RIGHT n);
        nl ← is_nil (leaf LEFT n);
        nr ← is_nil (leaf RIGHT n);
        inner ← (if 1 <? an_level n then
                   a ← check_leaf (an_level n) (leaf LEFT n);
                   b ← check_leaf (an_level n) (leaf RIGHT n);
                   mret (negb (nl && nr) && a && b)
                 else mret true);
        l ← node_get (leaf LEFT n);
        r ← node_get (leaf RIGHT n);
        rr ← node_get (leaf RIGHT r);
        mret (left && right && inner && negb (an_level l =? an_level n) && negb (an_level rr =? an_level n))
  end.
Definition atree_check : TST bool :=
  root ← root_get;
  with_fuel (fun fuel => check_tree fuel root).
End andtree.

(** ** The tree a heap holds *)

(** where a subtree hangs: the node above, its level and data, its other leaf *)
Record frame := Frame { fr_side : bool; fr_id : Z; fr_level : Z; fr_data : Z; fr_other : AA.tree }.

Definition plug (f : frame) (t : AA.tree) : AA.tree :=
  if fr_side f then AA.N (fr_id f) (fr_level f) (fr_other f) (fr_data f) t
  else AA.N (fr_id f) (fr_level f) t (fr_data f) (fr_other f).
Definition plugs (c : list frame) (t : AA.tree) : AA.tree := foldl (fun t f => plug f t) t c.
Definition parent_of (c : list frame) : Z := match c with [] => NULL | f :: _ => fr_id f end.
Definition frame_ids (f : frame) : list Z := fr_id f :: AA.ids (fr_other f).
Definition ctx_ids (c : list frame) : list Z := c ≫= frame_ids.

Lemma ctx_ids_cons f c : ctx_ids (f :: c) = fr_id f :: AA.ids (fr_other f) ++ ctx_ids c.
Proof. done. Qed.
#[global] Arguments ctx_ids : simpl never.

Section rep.
Context (sentinel : Z).
Implicit Types (h : gmap Z anode) (t l r : AA.tree) (c : list frame).

Abbreviation ptr := (AA.root_id sentinel).

Definition real (p : Z) : Prop := p <> NULL /\ p <> sentinel.

Fixpoint tree_in h (parent : Z) t : Prop :=
  match t with
  | AA.E => True
  | AA.N i lv l d r =>
      real i /\ 0 < lv < 2 ^ 32 /\ h !! i = Some (Anode parent (ptr l) (ptr r) lv d) /\
      tree_in h i l /\ tree_in h i r
  end.

(** the node of a frame, above a subtree whose root is [p] *)
Definition frame_node (parent p : Z) (f : frame) : anode :=
  if fr_side f then Anode parent (ptr (fr_other f)) p (fr_level f) (fr_data f)
  else Anode parent p (ptr (fr_other f)) (fr_level f) (fr_data f).

Fixpoint ctx_in h (p : Z) c : Prop :=
  match c with
  | [] => True
  | f :: c =>
      real (fr_id f) /\ 0 < fr_level f < 2 ^ 32 /\ h !! fr_id f = Some (frame_node (parent_of c) p f) /\
      tree_in h (fr_id f) (fr_other f) /\ ctx_in h (fr_id f) c
  end.

Definition sentinel_in h : Prop :=
  sentinel <> NULL /\ h !! NULL = None /\
  exists p, h !! sentinel = Some (Anode p sentinel sentinel 0 NULL).

(** the focus [t] under the context [c] *)
Record zip h c t : Prop := {
  zp_ctx : ctx_in h (ptr t) c;
  zp_tree : tree_in h (parent_of c) t;
  zp_nodup : NoDup (ctx_ids c ++ AA.ids t);
  zp_sentinel : sentinel_in h;
}.

Lemma tree_in_frame h h' p t :
  (forall i, i ∈ AA.ids t -> h' !! i = h !! i) -> tree_in h p t -> tree_in h' p t.
Proof.
  revert p. induction t as [|i lv l IHl d r IHr]; intros p Hh; simpl; [done|].
  rewrite AA.ids_cons in Hh. intros (Hi & Hlv & Hn & Hl & Hr).
  split_and!; try done; [..|apply IHl|apply IHr]; try apply Hi; try apply Hlv; try done.
  - rewrite Hh by set_solver. done.
  - intros. apply Hh. set_solver.
  - intros. apply Hh. set_solver.
Qed.

Lemma ctx_in_frame h h' p c :
  (forall i, i ∈ ctx_ids c -> h' !! i = h !! i) -> ctx_in h p c -> ctx_in h' p c.
Proof.
  revert p. induction c as [|f c IH]; intros p Hh; simpl; [done|].
  intros (Hi & Hlv & Hn & Ht & Hc). rewrite ctx_ids_cons in Hh.
  split; [done|]. split; [done|]. split; [|split].
  - rewrite Hh by set_solver. done.
  - eapply tree_in_frame; [|done]. intros. apply Hh. set_solver.
  - apply IH; [|done]. intros. apply Hh. set_solver.
Qed.

Lemma tree_in_alter h f i p t : i ∉ AA.ids t -> tree_in h p t -> tree_in (alter f i h) p t.
Proof. intros Hi. apply tree_in_frame. intros j Hj. apply lookup_alter_ne. by intros ->. Qed.

Lemma ctx_in_alter h f i p c : i ∉ ctx_ids c -> ctx_in h p c -> ctx_in (alter f i h) p c.
Proof. intros Hi. apply ctx_in_frame. intros j Hj. apply lookup_alter_ne. by intros ->. Qed.

Lemma tree_in_real h p t i : tree_in h p t -> i ∈ AA.ids t -> real i.
Proof.
  revert p. induction t as [|j lv l IHl d r IHr]; intros p; [set_solver|]. rewrite AA.ids_cons. simpl.
  intros (Hj & _ & _ & Hl & Hr) [Hin|[->|Hin]%elem_of_cons]%elem_of_app; eauto.
Qed.

Lemma ctx_in_real h p c i : ctx_in h p c -> i ∈ ctx_ids c -> real i.
Proof.
  revert p. induction c as [|f c IH]; intros p; simpl; [unfold ctx_ids; set_solver|].
  intros (Hj & _ & _ & Ht & Hc). rewrite ctx_ids_cons.
  intros [->|[Hin|Hin]%elem_of_app]%elem_of_cons; [done|by eapply tree_in_real|by eapply IH].
Qed.

Lemma tree_in_ptr h p t : tree_in h p t -> t = AA.E \/ real (ptr t).
Proof. destruct t; simpl; [by left|]. right. tauto. Qed.

(** a node written where no node of the tree is *)
Lemma zip_frame h h' c t :
  (forall i, i ∈ ctx_ids c ++ AA.ids t -> h' !! i = h !! i) -> sentinel_in h' -> zip h c t -> zip h' c t.
Proof.
  intros Hh Hs [Hc Ht Hnd _]. split; [|eapply tree_in_frame; [|done]|done|done].
  - eapply ctx_in_frame; [|done]. intros. apply Hh. set_solver.
  - intros. apply Hh. set_solver.
Qed.

(** moving the focus *)
Lemma zip_plug h c f t : zip h c (plug f t) <-> zip h (f :: c) t.
Proof.
  assert (Hp : AA.ids (plug f t) ≡ₚ frame_ids f ++ AA.ids t).
  { unfold plug, frame_ids. destruct (fr_side f); rewrite AA.ids_cons; simpl; by solve_Permutation. }
  assert (Hnd : NoDup (ctx_ids c ++ AA.ids (plug f t)) <-> NoDup (ctx_ids (f :: c) ++ AA.ids t)).
  { rewrite ctx_ids_cons. apply NoDup_Permutation_proper. rewrite Hp. unfold frame_ids. by solve_Permutation. }
  assert (Hptr : ptr (plug f t) = fr_id f) by (unfold plug; by destruct (fr_side f)).
  split; intros [Hc Ht Hn Hs]; (split; [| |by apply Hnd|done]).
  - rewrite Hptr in Hc. unfold plug in Ht. simpl. unfold frame_node. destruct (fr_side f); simpl in Ht; tauto.
  - unfold plug in Ht. simpl. destruct (fr_side f); simpl in Ht; tauto.
  - rewrite Hptr. simpl in Hc. tauto.
  - simpl in Hc, Ht. unfold frame_node, plug in *. destruct (fr_side f); simpl; tauto.
Qed.

Lemma plugs_cons f c t : plugs (f :: c) t = plugs c (plug f t).
Proof. done. Qed.

Lemma zip_plugs h c c' t : zip h c' (plugs c t) <-> zip h (c ++ c') t.
Proof.
  revert t. induction c as [|f c IH]; intros t; [done|]. rewrite plugs_cons, IH. apply zip_plug.
Qed.

(** the root is the focus or a node of the context *)
Lemma ptr_plugs c t : match c with [] => ptr (plugs c t) = ptr t | _ => ptr (plugs c t) ∈ ctx_ids c end.
Proof.
  destruct c as [|f c]; [done|]. revert f t.
  induction c as [|g c IH]; intros f t; rewrite plugs_cons.
  - unfold plugs, plug, ctx_ids, frame_ids. cbn. destruct (fr_side f); simpl; set_solver.
  - specialize (IH g (plug f t)). unfold ctx_ids in *. cbn in *. set_solver.
Qed.

Lemma ptr_plugs_any c t t' : c <> [] -> ptr (plugs c t) = ptr (plugs c t').
Proof.
  intros Hc. revert t t'. induction c as [|f c IH]; intros t t'; [done|]. rewrite !plugs_cons.
  destruct c as [|g c]; [|by apply IH]. unfold plugs, plug. simpl. by destruct (fr_side f).
Qed.
End rep.

(** ** Steps on the heap *)

(** a node with the leaf [far] on the side opposite to [dir] and [near] on the
    side [dir] *)
Definition mkn (dir : bool) (p far near lv d : Z) : anode :=
  if dir then Anode p far near lv d else Anode p near far lv d.
Definition nd (dir : bool) (i lv : Z) (far : AA.tree) (d : Z) (near : AA.tree) : AA.tree :=
  if dir then AA.N i lv far d near else AA.N i lv near d far.

Lemma leaf_near dir p f n lv d : leaf dir (mkn dir p f n lv d) = n.
Proof. by destruct dir. Qed.
Lemma leaf_far dir p f n lv d : leaf (negb dir) (mkn dir p f n lv d) = f.
Proof. by destruct dir. Qed.
Lemma set_leaf_near dir v p f n lv d : set_leaf dir v (mkn dir p f n lv d) = mkn dir p f v lv d.
Proof. by destruct dir. Qed.
Lemma set_leaf_far dir v p f n lv d : set_leaf (negb dir) v (mkn dir p f n lv d) = mkn dir p v n lv d.
Proof. by destruct dir. Qed.
Lemma parent_mkn dir p f n lv d : an_parent (mkn dir p f n lv d) = p.
Proof. by destruct dir. Qed.
Lemma set_parent_mkn dir v p f n lv d : set_an_parent v (mkn dir p f n lv d) = mkn dir v f n lv d.
Proof. by destruct dir. Qed.
Lemma level_mkn dir p f n lv d : an_level (mkn dir p f n lv d) = lv.
Proof. by destruct dir. Qed.
Lemma ids_nd dir i lv x d y : AA.ids (nd dir i lv x d y) ≡ₚ i :: AA.ids x ++ AA.ids y.
Proof. destruct dir; simpl; rewrite AA.ids_cons; by solve_Permutation. Qed.
Lemma plug_nd f t : plug f t = nd (fr_side f) (fr_id f) (fr_level f) (fr_other f) (fr_data f) t.
Proof. done. Qed.

Section steps.
Context {A : Type} `{!Allocator A}.
Context (sentinel : Z).
Implicit Types (h : gmap Z anode) (t l r : AA.tree) (c : list frame) (tr : atree) (a : A).

Abbreviation ptr := (AA.root_id sentinel).
Abbreviation zip := (zip sentinel).
Abbreviation tree_in := (tree_in sentinel).
Abbreviation ctx_in := (ctx_in sentinel).
Abbreviation real := (real sentinel).

(** nodes that belong to neither the tree nor the context are as before *)
Definition others h h' (l : list Z) : Prop :=
  forall k, k ∉ l -> k <> sentinel -> h' !! k = h !! k.

Lemma others_trans h1 h2 h3 (l1 l2 : list Z) :
  others h1 h2 l1 -> others h2 h3 l2 -> l1 ≡ₚ l2 -> others h1 h3 l1.
Proof. intros H1 H2 Hp k Hk Hs. rewrite H2, H1; try done. by rewrite <- Hp. Qed.

Lemma others_perm h h' (l1 l2 : list Z) : l1 ≡ₚ l2 -> others h h' l1 -> others h h' l2.
Proof. intros Hp Ho k Hk. apply Ho. by rewrite Hp. Qed.

Lemma tree_in_nd h p dir i lv x d y :
  tree_in h p (nd dir i lv x d y) <->
  real i /\ 0 < lv < 2 ^ 32 /\ h !! i = Some (mkn dir p (ptr x) (ptr y) lv d) /\
  tree_in h i x /\ tree_in h i y.
Proof. destruct dir; simpl; tauto. Qed.

Lemma node_get_ok h tr a p n : h !! p = Some n -> node_get p (Astore h tr a) = Some (n, Astore h tr a).
Proof. unfold node_get. simpl. by intros ->. Qed.
Lemma node_update_ok h tr a p f n :
  h !! p = Some n -> node_update p f (Astore h tr a) = Some (tt, Astore (alter f p h) tr a).
Proof. unfold node_update. simpl. by intros ->. Qed.

Lemma is_nil_node h tr a p n :
  p <> NULL -> h !! p = Some n -> is_nil p (Astore h tr a) = Some (an_level n =? 0, Astore h tr a).
Proof.
  intros Hp Hn. unfold is_nil. rewrite (proj2 (Z.eqb_neq _ _) Hp).
  by rewrite ST_bind_eq, (node_get_ok _ _ _ _ _ Hn).
Qed.

Definition is_E t : bool := match t with AA.E => true | _ => false end.

Lemma is_nil_tree h tr a p t :
  sentinel_in sentinel h -> tree_in h p t ->
  is_nil (ptr t) (Astore h tr a) = Some (is_E t, Astore h tr a).
Proof.
  intros (Hs & _ & q & Hq) Ht. destruct t as [|i lv l d r].
  - by rewrite (is_nil_node _ _ _ _ _ Hs Hq).
  - destruct Ht as ([Hi _] & Hlv & Hn & _). rewrite (is_nil_node _ _ _ _ _ Hi Hn). simpl.
    by rewrite (proj2 (Z.eqb_neq lv 0)) by lia.
Qed.

Lemma is_nil_parent h tr a q c :
  ctx_in h q c -> is_nil (parent_of c) (Astore h tr a) = Some (bool_decide (c = []), Astore h tr a).
Proof.
  destruct c as [|f c]; [done|]. intros ([Hi _] & Hlv & Hn & _).
  simpl parent_of. rewrite (is_nil_node _ _ _ _ _ Hi Hn). unfold frame_node.
  destruct (fr_side f); simpl; by rewrite (proj2 (Z.eqb_neq (fr_level f) 0)) by lia.
Qed.

(** the root of a subtree, or the sentinel, is given a parent *)
Lemma reparent_ok h tr a p q t :
  sentinel_in sentinel h -> tree_in h p t -> NoDup (AA.ids t) ->
  exists h', node_update (ptr t) (set_an_parent q) (Astore h tr a) = Some (tt, Astore h' tr a) /\
    tree_in h' q t /\ sentinel_in sentinel h' /\ forall k, k <> ptr t -> h' !! k = h !! k.
Proof.
  intros Hs Ht Hnd. pose proof Hs as (Hs0 & Hs1 & sp & Hsp).
  assert (Hk : forall k, k <> ptr t -> alter (set_an_parent q) (ptr t) h !! k = h !! k)
    by (intros; by apply lookup_alter_ne).
  exists (alter (set_an_parent q) (ptr t) h).
  destruct t as [|i lv l d r]; [|destruct Ht as (Hi & Hlv & Hn & Hl & Hr)].
  - split; [by eapply node_update_ok|]. split; [done|]. split; [|done]. split; [done|]. split.
    + by rewrite Hk.
    + exists q. simpl. by rewrite lookup_alter_eq, Hsp.
  - rewrite AA.ids_cons in Hnd. apply NoDup_app in Hnd as (Hn1 & Hn2 & Hn3). apply NoDup_cons in Hn3 as [Hn3 _].
    split; [by eapply node_update_ok|]. split; [|split; [|done]].
    + split; [done|]. split; [done|]. split; [|split].
      * simpl. by rewrite lookup_alter_eq, Hn.
      * apply tree_in_alter; [|done]. intros Hin. by apply (Hn2 i Hin), list_elem_of_here.
      * by apply tree_in_alter.
    + split; [done|]. destruct Hi. split; [rewrite Hk; [done|simpl; congruence]|].
      exists sp. rewrite Hk; [done|simpl; congruence].
Qed.

(** the parent's pointer to [i] becomes [v] *)
Lemma replace_leaf_ok h tr a i v ni c :
  real i -> h !! i = Some ni -> an_parent ni = parent_of c -> ctx_in h i c -> NoDup (ctx_ids c) ->
  i ∉ ctx_ids c ->
  exists h', (if negb (an_parent ni =? NULL) then
                side ← parentside i; node_update (an_parent ni) (set_leaf side v)
              else mret tt) (Astore h tr a) = Some (tt, Astore h' tr a) /\
    ctx_in h' v c /\ forall k, k ∉ ctx_ids c -> h' !! k = h !! k.
Proof.
  intros [Hi Hi'] Hn Hp Hc Hnd Hout. rewrite Hp. destruct c as [|f c]; [by exists h|].
  change (parent_of (f :: c)) with (fr_id f). destruct Hc as ([Hf0 Hf1] & Hlv & Hf & Ht & Hc). rewrite (proj2 (Z.eqb_neq _ _) Hf0). cbn [negb].
  assert (Hside : parentside i (Astore h tr a) = Some (fr_side f, Astore h tr a)).
  { unfold parentside. rewrite (proj2 (Z.eqb_neq _ _) Hi), ST_bind_eq, (node_get_ok _ _ _ _ _ Hn), Hp.
    change (parent_of (f :: c)) with (fr_id f). rewrite (proj2 (Z.eqb_neq _ _) Hf0), ST_bind_eq, (node_get_ok _ _ _ _ _ Hf).
    unfold frame_node. destruct (fr_side f) eqn:Hside; unfold LEFT, mret, ST_ret; simpl; [|by rewrite Z.eqb_refl].
    rewrite (proj2 (Z.eqb_neq _ _)); [done|]. rewrite ctx_ids_cons in Hout.
    destruct (fr_other f); simpl in *; [done|]. rewrite AA.ids_cons in Hout. set_solver. }
  rewrite ST_bind_eq, Hside, (node_update_ok _ _ _ _ _ _ Hf).
  exists (alter (set_leaf (fr_side f) v) (fr_id f) h). split; [done|].
  rewrite ctx_ids_cons in Hnd. apply NoDup_cons in Hnd as [Hn1 Hn2]. split.
  - split; [done|]. split; [done|]. split; [|split].
    + rewrite lookup_alter_eq, Hf. simpl. unfold frame_node. by destruct (fr_side f).
    + apply tree_in_alter; [set_solver|done].
    + apply ctx_in_alter; [set_solver|done].
  - intros k Hk. rewrite ctx_ids_cons in Hk. apply lookup_alter_ne. set_solver.
Qed.

Lemma replace_in_parent_ok h tr a i v ni nv c :
  sentinel_in sentinel h ->
  real i -> h !! i = Some ni -> an_parent ni = parent_of c -> ctx_in h i c -> NoDup (ctx_ids c) ->
  i ∉ ctx_ids c -> v ∉ ctx_ids c -> h !! v = Some nv -> v = sentinel \/ (real v /\ 0 < an_level nv) ->
  exists h', replace_in_parent i v (Astore h tr a) = Some (tt, Astore h' tr a) /\ ctx_in h' v c /\
    (forall k, k ∉ ctx_ids c -> k <> v -> h' !! k = h !! k) /\
    h' !! v = Some (if decide (v = sentinel) then nv else set_an_parent (parent_of c) nv).
Proof.
  intros Hs Hi Hn Hp Hc Hnd Hout Hv Hnv Hval.
  destruct (replace_leaf_ok h tr a i v ni c Hi Hn Hp Hc Hnd Hout) as (h1 & Hrun & Hc1 & Hk1).
  assert (Hn1 : h1 !! i = Some ni) by by rewrite Hk1.
  assert (Hv1 : h1 !! v = Some nv) by by rewrite Hk1.
  unfold replace_in_parent. rewrite ST_bind_eq, (node_get_ok _ _ _ _ _ Hn), ST_bind_eq.
  rewrite Hrun, ST_bind_eq.
  destruct Hval as [->|[[Hv0 Hvs] Hlv]].
  - destruct Hs as (Hs0 & _ & q & Hq). rewrite Hq in Hnv. injection Hnv as <-.
    rewrite (is_nil_node _ _ _ _ _ Hs0 Hv1). simpl. exists h1. rewrite decide_True by done.
    split; [done|]. split; [done|]. split; [by intros; apply Hk1|done].
  - rewrite (is_nil_node _ _ _ _ _ Hv0 Hv1), (proj2 (Z.eqb_neq (an_level nv) 0)) by lia. cbn [negb].
    rewrite ST_bind_eq, (node_get_ok _ _ _ _ _ Hn1), (node_update_ok _ _ _ _ _ _ Hv1), Hp.
    eexists. split; [done|]. rewrite decide_False by done. split; [by apply ctx_in_alter|]. split.
    + intros k Hk Hkv. by rewrite lookup_alter_ne, Hk1.
    + by rewrite lookup_alter_eq, Hv1.
Qed.

Lemma nodup_parts (cs x y z : list Z) (i j : Z) :
  NoDup (cs ++ i :: (j :: x ++ y) ++ z) ->
  NoDup cs /\ NoDup y /\ i <> j /\ (i ∉ cs) /\ (j ∉ cs) /\
  ((i ∉ x) /\ (i ∉ y) /\ (i ∉ z)) /\ ((j ∉ x) /\ (j ∉ y) /\ (j ∉ z)) /\
  (forall k, k ∈ y -> (k ∉ x) /\ (k ∉ z) /\ (k ∉ cs)) /\ (forall k, k ∈ cs -> (k ∉ x) /\ (k ∉ z)).
Proof.
  intros (Hcs & Hd & Hn)%NoDup_app. simpl in *.
  apply NoDup_cons in Hn as [Hi Hn]. apply NoDup_cons in Hn as [Hj Hn].
  rewrite <- app_assoc in Hn. apply NoDup_app in Hn as (Hx & Hxd & Hn). apply NoDup_app in Hn as (Hy & Hyd & Hz).
  split_and!; try done; set_solver.
Qed.

(** a rotation: the child on the far side comes up *)
Lemma rotate_ok h tr a c dir i lv j lj x e y d z :
  zip h c (nd dir i lv (nd dir j lj x e y) d z) ->
  at_root tr = ptr (plugs c (nd dir i lv (nd dir j lj x e y) d z)) ->
  exists h', rotate i dir (Astore h tr a) =
      Some (j, Astore h' (Atree (ptr (plugs c (nd dir j lj x e (nd dir i lv y d z)))) (at_nodes tr)) a) /\
    zip h' c (nd dir j lj x e (nd dir i lv y d z)) /\
    others h h' (ctx_ids c ++ AA.ids (nd dir i lv (nd dir j lj x e y) d z)).
Proof.
  intros [Hc Ht Hnd Hs] Hroot. set (P := parent_of c).
  apply tree_in_nd in Ht as (Hi & Hlv & Hni & Hj & Hz). apply tree_in_nd in Hj as (Hj & Hlj & Hnj & Hx & Hy).
  assert (Hpj : ptr (nd dir j lj x e y) = j) by by destruct dir.
  assert (Hpi : ptr (nd dir i lv (nd dir j lj x e y) d z) = i) by by destruct dir.
  rewrite Hpj in Hni. rewrite Hpi in Hc.
  rewrite !ids_nd in Hnd. pose proof Hnd as Hnd0.
  apply nodup_parts in Hnd as (Hnc & Hny & Hij & Hic & Hjc & (Hix & Hiy & Hiz) & (Hjx & Hjy & Hjz) & Hyd & Hcd).
  assert (Hyb : forall k, k = i \/ k = j \/ k ∈ AA.ids x \/ k ∈ AA.ids z \/ k ∈ ctx_ids c -> k <> ptr y).
  { intros k Hk ->. destruct (tree_in_ptr sentinel h j y Hy) as [->|Hry].
    - simpl in Hk. destruct Hi, Hj. destruct Hk as [?|[?|[Hk|[Hk|Hk]]]]; try congruence.
      + by apply (tree_in_real _ _ _ _ _ Hx) in Hk as [_ ?].
      + by apply (tree_in_real _ _ _ _ _ Hz) in Hk as [_ ?].
      + by apply (ctx_in_real _ _ _ _ _ Hc) in Hk as [_ ?].
    - assert (Hin : ptr y ∈ AA.ids y).
      { destruct y; [by destruct Hry|]. rewrite AA.ids_cons. simpl. set_solver. }
      destruct (Hyd _ Hin) as (? & ? & ?). destruct Hk as [Hk|[Hk|[?|[?|?]]]]; try done; rewrite Hk in Hin; done. }
  set (h1 := alter (set_leaf (negb dir) (ptr y)) i h). set (h2 := alter (set_leaf dir i) j h1).
  assert (Hi2 : h2 !! i = Some (mkn dir P (ptr y) (ptr z) lv d)).
  { unfold h2, h1. rewrite lookup_alter_ne by done. rewrite lookup_alter_eq, Hni. simpl. by rewrite set_leaf_far. }
  assert (Hj1' : h1 !! j = Some (mkn dir i (ptr x) (ptr y) lj e)).
  { unfold h1. by rewrite lookup_alter_ne. }
  assert (Hj2 : h2 !! j = Some (mkn dir i (ptr x) i lj e)).
  { unfold h2. rewrite lookup_alter_eq, Hj1'. simpl. by rewrite set_leaf_near. }
  assert (Hk2 : forall k, k <> i -> k <> j -> h2 !! k = h !! k)
    by (intros; unfold h2, h1; by rewrite !lookup_alter_ne).
  assert (Hs2 : sentinel_in sentinel h2).
  { destruct Hs as (? & ? & q & ?), Hi, Hj. split; [done|]. split; [by rewrite Hk2|]. exists q. by rewrite Hk2. }
  destruct (reparent_ok h2 tr a j i y Hs2) as (h3 & Hrun3 & Hy3 & Hs3 & Hk3); [|done|].
  { eapply tree_in_frame; [|exact Hy]. intros k Hk. apply Hk2; by intros ->. }
  assert (Hi3 : h3 !! i = Some (mkn dir P (ptr y) (ptr z) lv d)) by (rewrite Hk3; auto).
  assert (Hj3 : h3 !! j = Some (mkn dir i (ptr x) i lj e)) by (rewrite Hk3; auto).
  destruct (replace_in_parent_ok h3 tr a i j (mkn dir P (ptr y) (ptr z) lv d) (mkn dir i (ptr x) i lj e) c Hs3 Hi Hi3) as (h4 & Hrun4 & Hc4 & Hk4 & Hj4);
    [by rewrite parent_mkn| |done|done|done|exact Hj3|right; rewrite level_mkn; split; [exact Hj|apply Hlj]|].
  { eapply ctx_in_frame; [|exact Hc]. intros k Hk. rewrite Hk3 by (apply Hyb; tauto). apply Hk2; by intros ->. }
  rewrite decide_False in Hj4 by apply Hj. rewrite set_parent_mkn in Hj4. fold P in Hj4.
  assert (Hi4 : h4 !! i = Some (mkn dir P (ptr y) (ptr z) lv d)) by by rewrite Hk4.
  set (h5 := alter (set_an_parent j) i h4).
  assert (Hi5 : h5 !! i = Some (mkn dir j (ptr y) (ptr z) lv d)).
  { unfold h5. rewrite lookup_alter_eq, Hi4. simpl. by rewrite set_parent_mkn. }
  assert (Hk5 : forall k, k <> i -> k <> j -> k <> ptr y -> k ∉ ctx_ids c -> h5 !! k = h !! k).
  { intros. unfold h5. rewrite lookup_alter_ne, Hk4, Hk3, Hk2; done. }
  assert (Hpi' : ptr (nd dir i lv y d z) = i) by by destruct dir.
  assert (Hpj' : ptr (nd dir j lj x e (nd dir i lv y d z)) = j) by by destruct dir.
  exists h5. split; [|split; [split|]].
  - unfold rotate. rewrite ST_bind_eq, (node_get_ok _ _ _ _ _ Hni), leaf_far.
    rewrite ST_bind_eq, (node_get_ok _ _ _ _ _ Hnj), leaf_near.
    rewrite ST_bind_eq, (node_update_ok _ _ _ _ _ _ Hni). fold h1.
    rewrite ST_bind_eq, (node_update_ok _ _ _ _ _ _ Hj1'). fold h2.
    rewrite ST_bind_eq, (node_get_ok _ _ _ _ _ Hi2), leaf_far.
    assert (Hy0 : ptr y <> NULL) by (destruct y; simpl; [apply Hs|apply Hy]).
    rewrite (proj2 (Z.eqb_neq _ _) Hy0). cbn [negb]. rewrite ST_bind_eq, Hrun3.
    rewrite ST_bind_eq, Hrun4. rewrite ST_bind_eq, (node_update_ok _ _ _ _ _ _ Hi4). fold h5.
    unfold root_get, root_set. rewrite ST_bind_eq. unfold gets. simpl as_tree. rewrite Hroot.
    pose proof (ptr_plugs sentinel c (nd dir i lv (nd dir j lj x e y) d z)) as Hpp.
    pose proof (ptr_plugs_any sentinel c (nd dir i lv (nd dir j lj x e y) d z) (nd dir j lj x e (nd dir i lv y d z))) as Hany.
    destruct c as [|f c].
    + rewrite Hpp, Hpi, Z.eqb_refl. unfold plugs. simpl foldl. by rewrite Hpj'.
    + rewrite (proj2 (Z.eqb_neq i _)) by (by intros Heq; rewrite <- Heq in Hpp). rewrite <- Hany by done. destruct tr. simpl in *. by subst.
  - rewrite Hpj'. eapply ctx_in_frame; [|exact Hc4]. intros k Hk. apply lookup_alter_ne. by intros ->.
  - apply tree_in_nd. split; [done|]. split; [done|]. split; [|split].
    + rewrite Hpi'. unfold h5. by rewrite lookup_alter_ne.
    + eapply tree_in_frame; [|exact Hx]. intros k Hk.
      apply Hk5; [by intros ->|by intros ->|apply Hyb; tauto|by intros Hkc; destruct (Hcd k Hkc)].
    + apply tree_in_nd. split; [done|]. split; [done|]. split; [done|]. split.
      * eapply tree_in_frame; [|exact Hy3]. intros k Hk. unfold h5. rewrite lookup_alter_ne by by intros ->.
        apply Hk4; [by apply Hyd|by intros ->].
      * eapply tree_in_frame; [|exact Hz]. intros k Hk.
        apply Hk5; [by intros ->|by intros ->|apply Hyb; tauto|by intros Hkc; destruct (Hcd k Hkc)].
  - rewrite !ids_nd. eapply NoDup_Permutation_proper; [|exact Hnd0]. by solve_Permutation.
  - destruct Hs3 as (? & ? & q & Hq), Hi, Hj. split; [done|]. unfold h5.
    assert (Hcr : forall k, k ∈ ctx_ids c -> real k) by (intros k; apply (ctx_in_real _ _ _ _ _ Hc)).
    split; [|exists q]; rewrite lookup_alter_ne, Hk4; try done; by intros Hk%Hcr; destruct Hk.
  - intros k Hk Hks. rewrite !ids_nd in Hk. simpl in Hk.
    rewrite elem_of_app, elem_of_cons, elem_of_cons, !elem_of_app in Hk. apply Hk5; [tauto|tauto| |tauto].
    destruct y; simpl; [done|]. rewrite AA.ids_cons, elem_of_app, elem_of_cons in Hk. tauto.
Qed.

Lemma focus_ids c f t : ctx_ids c ++ AA.ids (plug f t) ≡ₚ ctx_ids (f :: c) ++ AA.ids t.
Proof. rewrite plug_nd, ids_nd, ctx_ids_cons. by solve_Permutation. Qed.

Lemma ids_plugs c t : AA.ids (plugs c t) ≡ₚ ctx_ids c ++ AA.ids t.
Proof.
  revert t. induction c as [|f c IH]; intros t; [done|]. by rewrite plugs_cons, IH, focus_ids.
Qed.

(** a run on the focus [t] that leaves [t'] there and returns its root *)
Definition yields h tr a c t (r : option (Z * astore A)) t' : Prop :=
  exists h', r = Some (ptr t', Astore h' (Atree (ptr (plugs c t')) (at_nodes tr)) a) /\
    zip h' c t' /\ others h h' (ctx_ids c ++ AA.ids t).

Lemma yields_same h tr a c t :
  zip h c t -> at_root tr = ptr (plugs c t) -> yields h tr a c t (Some (ptr t, Astore h tr a)) t.
Proof. intros Hz Hr. exists h. rewrite <- Hr. destruct tr. done. Qed.

Lemma zip_get h c i lv l d r :
  zip h c (AA.N i lv l d r) ->
  real i /\ 0 < lv < 2 ^ 32 /\ h !! i = Some (Anode (parent_of c) (ptr l) (ptr r) lv d) /\
  tree_in h i l /\ tree_in h i r.
Proof. intros [_ Ht _ _]. exact Ht. Qed.

(** the level of a subtree, read through the pointer to it *)
Lemma level_get h tr a p t :
  sentinel_in sentinel h -> tree_in h p t ->
  exists n, node_get (ptr t) (Astore h tr a) = Some (n, Astore h tr a) /\ an_level n = AA.level t /\
    an_left n = ptr (AA.left_of t) /\ an_right n = ptr (AA.right_of t).
Proof.
  intros (_ & _ & q & Hq) Ht. destruct t as [|i lv l d r].
  - exists (Anode q sentinel sentinel 0 NULL). split; [by apply node_get_ok|done].
  - destruct Ht as (_ & _ & Hn & _). eexists. split; [by apply node_get_ok|done].
Qed.

Lemma skew_ok fuel h tr a c t :
  zip h c t -> at_root tr = ptr (plugs c t) -> (AA.size t < fuel)%nat ->
  yields h tr a c t (atree_skew fuel (ptr t) (Astore h tr a)) (AA.skew t).
Proof.
  revert h tr c t. induction fuel as [|fuel IH]; intros h tr c t Hz Hroot Hfuel; [lia|].
  pose proof Hz as [Hc Ht Hnd Hs]. cbn [atree_skew].
  rewrite (ST_run _ _ _ _ _ (is_nil_tree _ _ _ _ _ Hs Ht)). destruct t as [|i lv l d r]; [by apply yields_same|].
  cbn [is_E]. destruct (zip_get _ _ _ _ _ _ _ Hz) as (Hi & Hlv & Hn & Hl & Hr).
  change (ptr (AA.N i lv l d r)) with i. rewrite (ST_run _ _ _ _ _ (node_get_ok _ _ _ _ _ Hn)).
  destruct (level_get h tr a i l Hs Hl) as (nl & Hgl & Hll & _). cbn [leaf LEFT RIGHT an_left an_right]. rewrite (ST_run _ _ _ _ _ Hgl), Hll.
  cbn [an_level]. cbn [AA.skew]. destruct l as [|j lj ll e lr]; cbn [AA.level].
  { rewrite (proj2 (Z.eqb_neq 0 lv)) by lia. by apply yields_same. }
  cbn [AA.skew_at]. destruct (Z.eqb_spec lj lv) as [->|Hne]; [|by apply yields_same].
  destruct (rotate_ok h tr a c RIGHT i lv j lv ll e lr d r Hz Hroot) as (h1 & Hrun & Hz1 & Ho1).
  simpl nd in *. rewrite (ST_run _ _ _ _ _ Hrun).
  destruct (zip_get _ _ _ _ _ _ _ Hz1) as (Hj1 & _ & Hn1 & _). rewrite (ST_run _ _ _ _ _ (node_get_ok _ _ _ _ _ Hn1)).
  set (f := Frame true j lv e ll). change (AA.N j lv ll e (AA.N i lv lr d r)) with (plug f (AA.N i lv lr d r)) in *.
  apply zip_plug in Hz1. cbn [leaf LEFT RIGHT an_left an_right].
  destruct (IH h1 (Atree (ptr (plugs c (plug f (AA.N i lv lr d r)))) (at_nodes tr)) (f :: c) (AA.N i lv lr d r))
    as (h2 & Hrun2 & Hz2 & Ho2); [done|done|simpl in *; lia|].
  change (ptr (AA.N i lv lr d r)) with i in Hrun2. rewrite (ST_run _ _ _ _ _ Hrun2).
  exists h2. split; [done|]. split; [by apply zip_plug in Hz2|].
  eapply others_trans; [exact Ho1|exact Ho2|]. rewrite <- focus_ids. unfold f, plug. simpl.
  rewrite !AA.ids_cons. by solve_Permutation.
Qed.

Fixpoint levels_lt (n : Z) t : Prop :=
  match t with AA.E => True | AA.N _ lv l _ r => lv < n /\ levels_lt n l /\ levels_lt n r end.

Lemma set_level_ok h tr a c i lv lv' l d r :
  zip h c (AA.N i lv l d r) -> 0 < lv' < 2 ^ 32 ->
  zip (alter (set_an_level lv') i h) c (AA.N i lv' l d r) /\
  others h (alter (set_an_level lv') i h) (ctx_ids c ++ AA.ids (AA.N i lv l d r)).
Proof.
  intros [Hc (Hi & Hlv & Hn & Hl & Hr) Hnd Hs] Hlv'. pose proof Hnd as Hnd0.
  rewrite AA.ids_cons in Hnd0. split; [split|].
  - apply ctx_in_alter; [|exact Hc]. apply NoDup_app in Hnd0 as (_ & Hd & _).
    intros Hin. apply (Hd i Hin), elem_of_app. right. apply elem_of_cons. by left.
  - apply NoDup_app in Hnd0 as (_ & _ & Hd). apply NoDup_app in Hd as (_ & Hd1 & Hd). apply NoDup_cons in Hd as [Hd _].
    split; [done|]. split; [done|]. split; [by rewrite lookup_alter_eq, Hn|].
    split; (apply tree_in_alter; [set_solver|done]).
  - done.
  - destruct Hs as (? & ? & q & ?), Hi. split; [done|]. split; [|exists q]; by rewrite lookup_alter_ne.
  - intros k Hk _. apply lookup_alter_ne. intros ->. apply Hk. rewrite AA.ids_cons. set_solver.
Qed.

Lemma split_ok fuel h tr a c t :
  zip h c t -> at_root tr = ptr (plugs c t) -> (AA.size t < fuel)%nat -> levels_lt (2 ^ 32 - 1) t ->
  yields h tr a c t (atree_split fuel (ptr t) (Astore h tr a)) (AA.split t).
Proof.
  revert h tr c t. induction fuel as [|fuel IH]; intros h tr c t Hz Hroot Hfuel Hlow; [lia|].
  pose proof Hz as [Hc Ht Hnd Hs]. cbn [atree_split].
  rewrite (ST_run _ _ _ _ _ (is_nil_tree _ _ _ _ _ Hs Ht)). destruct t as [|i lv l d r]; [by apply yields_same|].
  cbn [is_E]. destruct (zip_get _ _ _ _ _ _ _ Hz) as (Hi & Hlv & Hn & Hl & Hr).
  change (ptr (AA.N i lv l d r)) with i. rewrite (ST_run _ _ _ _ _ (node_get_ok _ _ _ _ _ Hn)). cbn [leaf LEFT RIGHT an_left an_right].
  destruct (level_get h tr a i r Hs Hr) as (nr & Hgr & _ & _ & Hrr). rewrite (ST_run _ _ _ _ _ Hgr), Hrr.
  assert (Htr : exists q, tree_in h q (AA.right_of r)) by (destruct r; [by exists i|eexists; apply Hr]).
  destruct Htr as [q Htr]. destruct (level_get h tr a q (AA.right_of r) Hs Htr) as (nrr & Hgrr & Hlrr & _).
  rewrite (ST_run _ _ _ _ _ Hgrr), Hlrr. cbn [an_level]. rewrite AA.split_cons.
  destruct r as [|j lj rl e rr]; cbn [AA.right_of]; cbn [AA.level].
  { rewrite (proj2 (Z.eqb_neq lv 0)) by lia. by apply yields_same. }
  destruct (Z.eqb_spec lv (AA.level rr)) as [Heq|Hne]; [|by apply yields_same].
  destruct (rotate_ok h tr a c LEFT i lv j lj rr e rl d l Hz Hroot) as (h1 & Hrun & Hz1 & Ho1).
  simpl nd in *. rewrite (ST_run _ _ _ _ _ Hrun).
  destruct Hlow as (_ & _ & Hlj & _ & Hlow). destruct (zip_get _ _ _ _ _ _ _ Hz1) as (_ & Hlj0 & Hn1 & _).
  rewrite (ST_run _ _ _ _ _ (node_update_ok _ _ _ _ _ _ Hn1)).
  set (h2 := alter (fun n => set_an_level (w32 (an_level n + 1)) n) j h1).
  assert (Hh2 : h2 = alter (set_an_level (lj + 1)) j h1).
  { unfold h2. apply map_eq. intros k. rewrite !lookup_alter. case_decide; [|done]. subst k. rewrite Hn1. simpl.
    by rewrite w32_small by lia. }
  destruct (set_level_ok h1 tr a c j lj (lj + 1) _ e rr Hz1) as [Hz2 Ho2]; [lia|]. rewrite <- Hh2 in *. clearbody h2.
  destruct (zip_get _ _ _ _ _ _ _ Hz2) as (_ & _ & Hn2 & _). rewrite (ST_run _ _ _ _ _ (node_get_ok _ _ _ _ _ Hn2)).
  set (f := Frame true j (lj + 1) e (AA.N i lv l d rl)).
  change (AA.N j (lj + 1) (AA.N i lv l d rl) e rr) with (plug f rr) in *. apply zip_plug in Hz2. cbn [leaf LEFT RIGHT an_left an_right].
  match goal with |- context [Astore h2 ?tr2 a] => set (tr2' := tr2) end.
  assert (Hroot2 : at_root tr2' = ptr (plugs (f :: c) rr)).
  { unfold tr2'. cbn [at_root]. rewrite plugs_cons. destruct c as [|g c]; [done|]. by apply ptr_plugs_any. }
  destruct (IH h2 tr2' (f :: c) rr Hz2 Hroot2) as (h3 & Hrun3 & Hz3 & Ho3); [simpl in *; lia|done|].
  rewrite (ST_run _ _ _ _ _ Hrun3). exists h3. split; [done|]. split; [by apply zip_plug in Hz3|].
  assert (Hp : ctx_ids c ++ AA.ids (AA.N i lv l d (AA.N j lj rl e rr)) ≡ₚ
               ctx_ids c ++ AA.ids (AA.N j lj (AA.N i lv l d rl) e rr)).
  { rewrite !AA.ids_cons. by solve_Permutation. }
  eapply others_trans; [exact Ho1| |exact Hp]. eapply others_trans; [exact Ho2|exact Ho3|].
  rewrite <- focus_ids. unfold f, plug. simpl. by rewrite !AA.ids_cons.
Qed.

(** ** Fuel *)

Lemma length_ids t : length (AA.ids t) = AA.size t.
Proof. rewrite AA.size_contents. unfold AA.ids, AA.contents. by rewrite !length_fmap. Qed.

Lemma tree_in_dom h p t k : tree_in h p t -> k ∈ AA.ids t -> is_Some (h !! k).
Proof.
  revert p. induction t as [|i lv l IHl d r IHr]; intros p; [set_solver|]. rewrite AA.ids_cons. simpl.
  intros (_ & _ & Hn & Hl & Hr) [Hin|[->|Hin]%elem_of_cons]%elem_of_app; eauto.
Qed.

Lemma ctx_in_dom h p c k : ctx_in h p c -> k ∈ ctx_ids c -> is_Some (h !! k).
Proof.
  revert p. induction c as [|f c IH]; intros p; simpl; [unfold ctx_ids; set_solver|].
  intros (_ & _ & Hn & Ht & Hc). rewrite ctx_ids_cons.
  intros [->|[Hin|Hin]%elem_of_app]%elem_of_cons; [done|by eapply tree_in_dom|by eapply IH].
Qed.

Lemma zip_dom h c t k : zip h c t -> k ∈ ctx_ids c ++ AA.ids t -> is_Some (h !! k).
Proof. intros [Hc Ht _ _] [Hk|Hk]%elem_of_app; [by eapply ctx_in_dom|by eapply tree_in_dom]. Qed.

Lemma zip_size h c t : zip h c t -> (length (ctx_ids c) + AA.size t <= base.size h)%nat.
Proof.
  intros Hz. rewrite <- length_ids, <- length_app. apply nodup_dom; [apply Hz|]. intros k. by apply zip_dom.
Qed.

Lemma length_ctx c : (length c <= length (ctx_ids c))%nat.
Proof. induction c as [|f c IH]; [done|]. rewrite ctx_ids_cons. simpl. rewrite length_app. lia. Qed.

Lemma skew_node_ok h tr a c t :
  zip h c t -> at_root tr = ptr (plugs c t) ->
  yields h tr a c t (skew_node (ptr t) (Astore h tr a)) (AA.skew t).
Proof. intros Hz Hr. apply skew_ok; [done|done|]. apply zip_size in Hz. simpl. lia. Qed.

Lemma split_node_ok h tr a c t :
  zip h c t -> at_root tr = ptr (plugs c t) -> levels_lt (2 ^ 32 - 1) t ->
  yields h tr a c t (split_node (ptr t) (Astore h tr a)) (AA.split t).
Proof. intros Hz Hr Hl. apply split_ok; [done|done| |done]. apply zip_size in Hz. simpl. lia. Qed.

(** ** Levels *)

Lemma aa_levels_lt n t : AA.aa t -> AA.level t < n -> levels_lt n t.
Proof.
  revert n. induction t as [|i lv l IHl d r IHr]; intros n; [done|]. simpl.
  intros (? & ? & ? & ? & Hl & Hr) ?. split; [done|]. split; [apply IHl|apply IHr]; try done; lia.
Qed.

Lemma levels_lt_mono n m t : levels_lt n t -> n <= m -> levels_lt m t.
Proof. induction t; simpl; [done|]. intros (? & ? & ?) ?. split_and!; auto. lia. Qed.

Lemma levels_skew n t : levels_lt n t -> levels_lt n (AA.skew t).
Proof.
  destruct t as [|i lv l d r]; [done|]. simpl. intros (Hlv & Hl & Hr). revert i lv d r Hlv Hr.
  induction l as [|j lj ll _ e lr IH]; intros; simpl; [done|].
  destruct Hl as (? & ? & ?). destruct (lj =? lv); simpl; [|tauto]. split_and!; auto.
Qed.

Lemma levels_split n t : levels_lt n t -> levels_lt (n + 1) (AA.split t).
Proof.
  induction t as [| |i lv l d j lj rl e rr IH] using AA.split_ind.
  - done.
  - intros Hl. rewrite AA.split_cons. by eapply levels_lt_mono; [exact Hl|lia].
  - intros Hl. rewrite AA.split_cons. destruct (lv =? AA.level rr); [|by eapply levels_lt_mono; [exact Hl|lia]].
    simpl in Hl. destruct Hl as (? & Hl & ? & Hrl & Hrr). simpl. split_and!; try lia; auto.
    + by eapply levels_lt_mono; [exact Hl|lia].
    + by eapply levels_lt_mono; [exact Hrl|lia].
Qed.

Lemma aa_plug f t :
  AA.aa (plug f t) -> AA.aa t /\ AA.aa (fr_other f) /\ 1 <= fr_level f /\
    AA.level t <= fr_level f /\ AA.level (fr_other f) <= fr_level f.
Proof. unfold plug. destruct (fr_side f); simpl; intros (? & ? & ? & ? & ? & ?); split_and!; try done; lia. Qed.

Lemma aa_plugs c t : AA.aa (plugs c t) -> AA.aa t /\ AA.level t <= AA.level (plugs c t).
Proof.
  revert t. induction c as [|f c IH]; intros t H; [split; [done|reflexivity]|].
  rewrite plugs_cons in *. destruct (IH _ H) as [H1 H2]. destruct (aa_plug _ _ H1) as (? & ? & ? & ? & ?).
  split; [done|]. etransitivity; [|exact H2]. unfold plug. by destruct (fr_side f).
Qed.

Lemma level_plug f t : AA.level (plug f t) = fr_level f.
Proof. unfold plug. by destruct (fr_side f). Qed.

(** ** Insertion *)

(** the subtrees along the path up are rebalanced one after the other *)
Definition ups (fix_ : AA.tree -> AA.tree) c t : AA.tree := foldl (fun t f => fix_ (plug f t)) t c.

Lemma ups_cons fix_ f c t : ups fix_ (f :: c) t = ups fix_ c (fix_ (plug f t)).
Proof. done. Qed.

Definition balance (t : AA.tree) : AA.tree := AA.split (AA.skew t).

Lemma grown_plug f t t' : AA.aa (plug f t) -> AA.grown t t' -> AA.grown (plug f t) (balance (plug f t')).
Proof.
  unfold plug, balance. destruct (fr_side f).
  - apply AA.grown_right.
  - apply AA.grown_left.
Qed.

(** a run that leaves the whole tree [t] *)
Definition finishes h tr a (l : list Z) (r : option (unit * astore A)) t : Prop :=
  exists h', r = Some (tt, Astore h' (Atree (ptr t) (at_nodes tr)) a) /\ zip h' [] t /\ others h h' l.

Lemma parent_get h tr a c t :
  zip h c t -> t <> AA.E ->
  exists n, node_get (ptr t) (Astore h tr a) = Some (n, Astore h tr a) /\ an_parent n = parent_of c /\
    ptr t <> NULL.
Proof.
  intros Hz Ht. destruct t as [|i lv l d r]; [done|].
  destruct (zip_get _ _ _ _ _ _ _ Hz) as ([Hi _] & _ & Hn & _). eexists. split; [by apply node_get_ok|]. done.
Qed.

Lemma same_size_E t t' : AA.ids t' = AA.ids t -> t <> AA.E -> t' <> AA.E.
Proof.
  intros Hids Ht ->. apply (f_equal length) in Hids. rewrite !length_ids in Hids.
  destruct t; simpl in Hids; [done|lia].
Qed.

Lemma ids_balance t : AA.ids (balance t) = AA.ids t.
Proof. unfold balance, AA.ids. by rewrite AA.nodes_split, AA.nodes_skew. Qed.

Lemma plug_E f t : plug f t <> AA.E.
Proof. unfold plug. by destruct (fr_side f). Qed.

Lemma ptr_plug f t : ptr (plug f t) = fr_id f.
Proof. unfold plug. by destruct (fr_side f). Qed.

Lemma balance_node_ok h tr a c t :
  zip h c t -> at_root tr = ptr (plugs c t) -> levels_lt (2 ^ 32 - 1) t ->
  yields h tr a c t ((temp ← skew_node (ptr t); split_node temp) (Astore h tr a)) (balance t).
Proof.
  intros Hz Hroot Hlow. destruct (skew_node_ok h tr a c t Hz Hroot) as (h1 & Hrun1 & Hz1 & Ho1).
  rewrite (ST_run _ _ _ _ _ Hrun1).
  set (tr1 := Atree (ptr (plugs c (AA.skew t))) (at_nodes tr)) in *.
  destruct (split_node_ok h1 tr1 a c (AA.skew t) Hz1 eq_refl) as (h2 & Hrun2 & Hz2 & Ho2); [by apply levels_skew|].
  exists h2. split; [exact Hrun2|]. split; [exact Hz2|].
  eapply others_trans; [exact Ho1|exact Ho2|]. unfold AA.ids. by rewrite AA.nodes_skew.
Qed.

(** what a tree of the right shape allows above a subtree that has grown *)
Lemma grown_levels f t0 t' :
  AA.aa (plug f t0) -> AA.grown t0 t' -> fr_level f < 2 ^ 32 - 2 -> levels_lt (2 ^ 32 - 1) (plug f t').
Proof.
  intros Haa [Hgaa Hcase] Hlev. destruct (aa_plug _ _ Haa) as (Haat & Hoth & Hl1 & Hl2 & Hl3).
  assert (AA.level t' <= fr_level f + 1) by lia.
  rewrite plug_nd. unfold nd. destruct (fr_side f); simpl; (split; [lia|split]); apply aa_levels_lt; done || lia.
Qed.

Lemma insert_repair_ok fuel h tr a c t t0 :
  zip h c t -> at_root tr = ptr (plugs c t) -> t <> AA.E -> (length c + 1 < fuel)%nat ->
  AA.aa (plugs c t0) -> AA.level (plugs c t0) < 2 ^ 32 - 2 ->
  AA.grown t0 (balance t) -> levels_lt (2 ^ 32 - 1) t ->
  finishes h tr a (ctx_ids c ++ AA.ids t) (atree_insert_repair fuel (ptr t) (Astore h tr a))
    (ups balance c (balance t)).
Proof.
  revert h tr t t0 c. induction fuel as [|fuel IH]; intros h tr t t0 c Hz Hroot Ht Hfuel Haa Hlev Hgr Hlow; [lia|].
  cbn [atree_insert_repair]. destruct (parent_get h tr a c t Hz Ht) as (n0 & _ & _ & Hnn).
  rewrite (proj2 (Z.eqb_neq _ _) Hnn). cbn [negb].
  destruct (balance_node_ok h tr a c t Hz Hroot Hlow) as (h2 & Hrun & Hz2 & Ho).
  apply ST_bind_Some in Hrun as (temp & s1 & Hrun1 & Hrun2).
  rewrite (ST_run _ _ _ _ _ Hrun1), (ST_run _ _ _ _ _ Hrun2).
  set (tr2 := Atree (ptr (plugs c (balance t))) (at_nodes tr)) in *.
  assert (Hb : balance t <> AA.E) by (apply (same_size_E t); [apply ids_balance|done]).
  destruct (parent_get h2 tr2 a c (balance t) Hz2 Hb) as (n & Hget & Hpar & _).
  rewrite (ST_run _ _ _ _ _ Hget), Hpar.
  destruct c as [|f c].
  - destruct fuel as [|fuel]; [simpl in Hfuel; lia|]. exists h2. by split.
  - rewrite plugs_cons in Haa, Hlev. destruct (aa_plugs _ _ Haa) as [Haaf Hlevf]. rewrite level_plug in Hlevf.
    change (parent_of (f :: c)) with (fr_id f). rewrite <- (ptr_plug f (balance t)), ups_cons.
    destruct (IH h2 tr2 (plug f (balance t)) (plug f t0) c) as (h3 & Hrun3 & Hz3 & Ho3);
      [by apply zip_plug|done|apply plug_E|simpl in Hfuel; lia|done|done|by apply grown_plug
      |eapply grown_levels; [done|done|lia]|].
    exists h3. split; [exact Hrun3|]. split; [exact Hz3|].
    eapply others_trans; [exact Ho|exact Ho3|]. by rewrite focus_ids, ids_balance.
Qed.

(** a node not yet in the tree *)
Definition fresh_node h c t (k x : Z) : Prop :=
  real k /\ (k ∉ ctx_ids c ++ AA.ids t) /\ h !! k = Some (Anode NULL sentinel sentinel 1 x).

Lemma fresh_plug h c f t k x : fresh_node h c (plug f t) k x <-> fresh_node h (f :: c) t k x.
Proof. unfold fresh_node. by rewrite focus_ids. Qed.

Lemma attach_ok h tr a c f k x :
  zip h (f :: c) AA.E -> fresh_node h (f :: c) AA.E k x ->
  exists h', (_ ← node_update (fr_id f) (set_leaf (fr_side f) k); node_update k (set_an_parent (fr_id f)))
      (Astore h tr a) = Some (tt, Astore h' tr a) /\
    zip h' (f :: c) (AA.N k 1 AA.E x AA.E) /\ others h h' (k :: ctx_ids (f :: c)).
Proof.
  intros [Hc _ Hnd Hs] (Hk & Hout & Hq). rewrite app_nil_r in Hnd, Hout.
  destruct Hc as (Hf & Hlv & Hn & Ht & Hc). rewrite ctx_ids_cons in *.
  apply not_elem_of_cons in Hout as [Hkf Hout]. apply not_elem_of_app in Hout as [Hkt Hkc].
  pose proof Hnd as Hnd0. apply NoDup_cons in Hnd0 as [Hf1 Hnd0]. apply not_elem_of_app in Hf1 as [Hft Hfc].
  set (h1 := alter (set_leaf (fr_side f) k) (fr_id f) h).
  assert (Hq1 : h1 !! k = Some (Anode NULL sentinel sentinel 1 x)) by (unfold h1; by rewrite lookup_alter_ne).
  exists (alter (set_an_parent (fr_id f)) k h1). split; [|split; [split|]].
  - rewrite (ST_run _ _ _ _ _ (node_update_ok _ _ _ _ _ _ Hn)). fold h1. by eapply node_update_ok.
  - split; [done|]. split; [done|]. split; [|split].
    + rewrite lookup_alter_ne by done. unfold h1. rewrite lookup_alter_eq, Hn. simpl. unfold frame_node.
      by destruct (fr_side f).
    + apply tree_in_alter; [done|]. by apply tree_in_alter.
    + apply ctx_in_alter; [done|]. by apply ctx_in_alter.
  - split; [done|]. split; [lia|]. split; [|done]. by rewrite lookup_alter_eq, Hq1.
  - rewrite ctx_ids_cons. apply NoDup_app. split; [done|]. split; [|apply NoDup_singleton].
    intros y Hy Hyk. apply list_elem_of_singleton in Hyk. simpl in Hyk. subst y.
    apply elem_of_cons in Hy as [?|[?|?]%elem_of_app]; done.
  - destruct Hs as (? & ? & sp & ?), Hk, Hf. unfold h1. split; [done|].
    split; [|exists sp]; by rewrite !lookup_alter_ne.
  - intros y Hy Hys. apply not_elem_of_cons in Hy as [Hy1 Hy2]. apply not_elem_of_cons in Hy2 as [Hy2 _].
    unfold h1. by rewrite !lookup_alter_ne.
Qed.

(** the store holds the tree [t]: its nodes, its root and its count; the nodes
    are objects of the slab *)
Record holds_tree (s : astore A) t : Prop := {
  ht_zip : zip (as_nodes s) [] t;
  ht_root : at_root (as_tree s) = ptr t;
  ht_count : at_nodes (as_tree s) = Z.of_nat (AA.size t);
  ht_aa : AA.aa t;
  ht_size : Z.of_nat (AA.size t) < 2 ^ 32;
  ht_inv : alloc_inv (as_slab s);
  ht_live : forall k, k ∈ AA.ids t -> alloc_live (as_slab s) k;
}.

(** a tree that can be counted is low *)
Lemma low_levels t : AA.aa t -> Z.of_nat (AA.size t) < 2 ^ 32 -> AA.level t <= 32.
Proof.
  intros Haa Hs. pose proof (AA.level_size t Haa). apply Z.le_ngt. intros Hlt.
  assert (2 ^ 33 <= 2 ^ AA.level t) by (apply Z.pow_le_mono_r; lia). lia.
Qed.

Context `{!AllocatorLaws A}.

(** ** The ends of a tree *)

Definition id_of (o : option (Z * Z)) : Z := match o with Some (i, _) => i | None => NULL end.

Lemma walk_ok fuel h tr a p t :
  sentinel_in sentinel h -> tree_in h p t -> t <> AA.E -> (AA.size t < fuel)%nat ->
  walk fuel LEFT (ptr t) (Astore h tr a) = Some (id_of (AA.min_node t), Astore h tr a) /\
  walk fuel RIGHT (ptr t) (Astore h tr a) = Some (id_of (AA.max_node t), Astore h tr a).
Proof.
  intros Hs. revert p t. induction fuel as [|fuel IH]; intros p t Ht Hne Hfuel; [lia|].
  destruct t as [|i lv l d r]; [done|]. destruct Ht as (Hi & Hlv & Hn & Hl & Hr). cbn [walk].
  change (ptr (AA.N i lv l d r)) with i. simpl in Hfuel.
  split; rewrite (ST_run _ _ _ _ _ (node_get_ok _ _ _ _ _ Hn)); cbn [leaf LEFT RIGHT an_left an_right].
  - rewrite (ST_run _ _ _ _ _ (is_nil_tree _ _ _ _ _ Hs Hl)).
    destruct l as [|j lj ll e lr]; [done|]. cbn [is_E]. destruct (IH i (AA.N j lj ll e lr)) as [-> _]; [done|done|lia|done].
  - rewrite (ST_run _ _ _ _ _ (is_nil_tree _ _ _ _ _ Hs Hr)).
    destruct r as [|j lj rl e rr]; [done|]. cbn [is_E]. destruct (IH i (AA.N j lj rl e rr)) as [_ ->]; [done|done|lia|done].
Qed.

Lemma tree_size h p t : tree_in h p t -> NoDup (AA.ids t) -> (AA.size t <= base.size h)%nat.
Proof. intros Ht Hnd. rewrite <- length_ids. apply nodup_dom; [done|]. intros k. by eapply tree_in_dom. Qed.

Lemma find_ends_ok h tr a p t :
  sentinel_in sentinel h -> tree_in h p t -> NoDup (AA.ids t) ->
  find_min_node (ptr t) (Astore h tr a) = Some (id_of (AA.min_node t), Astore h tr a) /\
  find_max_node (ptr t) (Astore h tr a) = Some (id_of (AA.max_node t), Astore h tr a).
Proof.
  intros Hs Ht Hnd. destruct (level_get h tr a p t Hs Ht) as (n & Hget & Hlev & _).
  unfold find_min_node, find_max_node.
  rewrite (ST_run _ _ _ _ _ Hget), (ST_run _ _ _ _ _ (is_nil_tree _ _ _ _ _ Hs Ht)), Hlev.
  destruct t as [|i lv l d r]; [done|]. cbn [AA.level is_E].
  assert (0 < lv) by apply Ht. rewrite (proj2 (Z.eqb_neq lv 0)) by lia.
  apply (walk_ok _ h tr a p); [done|done|done|]. pose proof (tree_size h p _ Ht Hnd). simpl as_nodes. lia.
Qed.

Lemma ups_app fix_ c1 c2 t : ups fix_ (c1 ++ c2) t = ups fix_ c2 (ups fix_ c1 t).
Proof. apply foldl_app. Qed.
Lemma plugs_app c1 c2 t : plugs (c1 ++ c2) t = plugs c2 (plugs c1 t).
Proof. apply foldl_app. Qed.

Lemma remove_max_ups t : t <> AA.E -> exists c j lj l e,
  t = plugs c (AA.N j lj l e AA.E) /\ AA.max_node t = Some (j, e) /\
  AA.remove_max t = Some (ups AA.repair c l, (j, e)).
Proof.
  induction t as [|i lv l _ d r IH]; [done|]. intros _. destruct r as [|k lk rl f rr].
  - by exists [], i, lv, l, d.
  - destruct IH as (c & j & lj & l' & e & Ht & Hm & Hr); [done|].
    exists (c ++ [Frame true i lv d l]), j, lj, l', e. rewrite plugs_app, ups_app, <- Ht. split_and!; [done|done|].
    cbn [AA.remove_max] in *. by rewrite Hr.
Qed.

Lemma remove_min_ups t : t <> AA.E -> exists c j lj r e,
  t = plugs c (AA.N j lj AA.E e r) /\ AA.min_node t = Some (j, e) /\
  AA.remove_min t = Some (ups AA.repair c r, (j, e)).
Proof.
  induction t as [|i lv l IH d r _]; [done|]. intros _. destruct l as [|k lk ll f lr].
  - by exists [], i, lv, r, d.
  - destruct IH as (c & j & lj & r' & e & Ht & Hm & Hr); [done|].
    exists (c ++ [Frame false i lv d r]), j, lj, r', e. rewrite plugs_app, ups_app, <- Ht. split_and!; [done|done|].
    cbn [AA.remove_min] in *. by rewrite Hr.
Qed.

(** a node of the focus is not in the frames above *)
Lemma focus_nodup f c t x :
  x ∈ AA.ids t -> NoDup (AA.ids (plugs (f :: c) t)) -> fr_id f <> x /\ (x ∉ AA.ids (fr_other f)).
Proof.
  rewrite plugs_cons, ids_plugs, plug_nd, ids_nd. intros Hx Hnd. apply NoDup_app in Hnd as (_ & _ & Hnd).
  apply NoDup_cons in Hnd as [H1 Hnd]. apply NoDup_app in Hnd as (_ & H2 & _).
  rewrite elem_of_app in H1. split; [intros <-; tauto|]. intros Hin. by apply (H2 x Hin).
Qed.

Lemma remove_ups x c t :
  x ∈ AA.ids t -> NoDup (AA.ids (plugs c t)) ->
  AA.remove x (plugs c t) = ups AA.repair c (AA.remove x t) /\ AA.victim x (plugs c t) = AA.victim x t.
Proof.
  revert t. induction c as [|f c IH]; intros t Hx Hnd; [done|].
  destruct (focus_nodup f c t x Hx Hnd) as [Hf Ho]. rewrite plugs_cons in *.
  destruct (IH (plug f t)) as [-> ->];
    [rewrite plug_nd, ids_nd, elem_of_cons, elem_of_app; by right; right|done|]. rewrite ups_cons.
  unfold plug. destruct (fr_side f); cbn [AA.remove AA.victim]; rewrite (proj2 (Z.eqb_neq (fr_id f) x)) by done.
  - rewrite !(decide_False (P := x ∈ AA.ids (fr_other f))) by done. by rewrite decide_True.
  - by rewrite !decide_True.
Qed.

(** ** Removal *)

Lemma set_data_ok h c i lv l d d' r :
  zip h c (AA.N i lv l d r) ->
  zip (alter (set_an_data d') i h) c (AA.N i lv l d' r) /\
  others h (alter (set_an_data d') i h) (ctx_ids c ++ AA.ids (AA.N i lv l d r)).
Proof.
  intros [Hc (Hi & Hlv & Hn & Hl & Hr) Hnd Hs]. pose proof Hnd as Hnd0.
  rewrite AA.ids_cons in Hnd0. apply NoDup_app in Hnd0 as (_ & Hd0 & Hd). apply NoDup_app in Hd as (_ & Hd1 & Hd).
  apply NoDup_cons in Hd as [Hd _]. split; [split|].
  - apply ctx_in_alter; [|exact Hc]. intros Hin. apply (Hd0 i Hin), elem_of_app. right. apply elem_of_cons. by left.
  - split; [done|]. split; [done|]. split; [by rewrite lookup_alter_eq, Hn|].
    split; (apply tree_in_alter; [|done]); [|done]. intros Hin. apply (Hd1 i Hin), elem_of_cons. by left.
  - by rewrite !AA.ids_cons in *.
  - destruct Hs as (? & ? & q & ?), Hi. split; [done|]. split; [|exists q]; by rewrite lookup_alter_ne.
  - intros k Hk _. apply lookup_alter_ne. intros ->. apply Hk. rewrite AA.ids_cons, !elem_of_app, elem_of_cons. tauto.
Qed.

(** a node with one leaf at most makes place for it *)
Lemma do_remove_ok h tr a a' c j lj l d r u :
  zip h c (AA.N j lj l d r) -> at_root tr = ptr (plugs c (AA.N j lj l d r)) ->
  (l = AA.E /\ u = r) \/ (r = AA.E /\ u = l) -> dealloc j a = Some (tt, a') ->
  exists h', do_remove_node j (ptr u) (Astore h tr a) =
      Some (tt, Astore h' (Atree (ptr (plugs c u)) (w32 (at_nodes tr - 1))) a') /\
    zip h' c u /\ others h h' (ctx_ids c ++ AA.ids (AA.N j lj l d r)).
Proof.
  intros Hz Hroot Hu Hd. pose proof Hz as [Hc (Hj & Hlj & Hn & Hl & Hr) Hnd Hs].
  assert (Hids : AA.ids (AA.N j lj l d r) ≡ₚ j :: AA.ids u).
  { rewrite AA.ids_cons. destruct Hu as [[-> ->]|[-> ->]]; simpl; [done|]. by solve_Permutation. }
  assert (Htu : tree_in h j u) by (by destruct Hu as [[_ ->]|[_ ->]]).
  rewrite Hids in Hnd. apply NoDup_app in Hnd as (Hnc & Hdis & Hnu). apply NoDup_cons in Hnu as [Hju Hnu].
  assert (Hjc : j ∉ ctx_ids c) by (intros Hin; apply (Hdis j Hin), elem_of_cons; by left).
  assert (Huc : (ptr u ∉ ctx_ids c) /\ exists nu, h !! ptr u = Some nu /\
    (ptr u = sentinel \/ (real (ptr u) /\ 0 < an_level nu)) /\
    (ptr u <> sentinel -> an_left nu = ptr (AA.left_of u) /\ an_right nu = ptr (AA.right_of u) /\
       an_level nu = AA.level u)).
  { destruct u as [|k lk u1 e u2].
    - split; [intros Hin; by apply (ctx_in_real _ _ _ _ _ Hc) in Hin as [_ ?]|].
      destruct Hs as (_ & _ & q & Hq). eexists. split; [exact Hq|]. split; [by left|done].
    - destruct Htu as (Hk & Hlk & Hnk & _). split.
      + intros Hin. apply (Hdis _ Hin), elem_of_cons. right. rewrite AA.ids_cons, elem_of_app, elem_of_cons. tauto.
      + eexists. split; [exact Hnk|]. split; [right; split; [done|simpl; lia]|done]. }
  destruct Huc as (Huc & nu & Hnu' & Hcase & _).
  destruct (replace_in_parent_ok h (Atree (ptr (plugs c u)) (at_nodes tr)) a j (ptr u) _ nu c Hs Hj Hn)
    as (h1 & Hrun & Hc1 & Hk1 & Hv1); [done|exact Hc|done|done|done|done|done|].
  exists (delete j h1). split; [|split; [split|]].
  - unfold do_remove_node, root_get. rewrite (ST_run _ _ _ (at_root tr) (Astore h tr a)) by done. rewrite Hroot.
    assert (Hset : (if j =? ptr (plugs c (AA.N j lj l d r)) then root_set (ptr u) else mret tt) (Astore h tr a) =
      Some (tt, Astore h (Atree (ptr (plugs c u)) (at_nodes tr)) a)).
    { pose proof (ptr_plugs sentinel c (AA.N j lj l d r)) as Hpp.
      pose proof (ptr_plugs_any sentinel c (AA.N j lj l d r) u) as Hany. destruct c as [|f c].
      - rewrite Hpp. simpl ptr. by rewrite Z.eqb_refl.
      - rewrite (proj2 (Z.eqb_neq j _)) by (by intros Heq; rewrite <- Heq in Hpp). rewrite <- Hany by done.
        rewrite <- Hroot. by destruct tr. }
    rewrite (ST_run _ _ _ _ _ Hset), (ST_run _ _ _ _ _ Hrun). rewrite ST_bind_eq. simpl as_slab. by rewrite Hd.
  - eapply ctx_in_frame; [|exact Hc1]. intros k Hk. apply lookup_delete_ne. by intros <-.
  - destruct u as [|k lk u1 e u2]; [done|]. destruct Htu as (Hk & Hlk & Hnk & Hu1 & Hu2).
    simpl ptr in *. rewrite Hnk in Hnu'. injection Hnu' as <-.
    rewrite decide_False in Hv1 by apply Hk. rewrite AA.ids_cons in Hju, Hdis, Hnu.
    apply not_elem_of_app in Hju as [Hj1 Hj2]. apply not_elem_of_cons in Hj2 as [Hjk Hj2].
    apply NoDup_app in Hnu as (_ & Hd1 & Hnu2). apply NoDup_cons in Hnu2 as [Hd2 _].
    assert (Hsame : forall y, y ∈ AA.ids u1 \/ y ∈ AA.ids u2 -> delete j h1 !! y = h !! y).
    { intros y Hy. rewrite lookup_delete_ne by (intros <-; tauto). apply Hk1.
      - intros Hin. apply (Hdis y Hin). rewrite elem_of_cons, elem_of_app, elem_of_cons. tauto.
      - intros ->. destruct Hy as [Hy|Hy]; [|done]. apply (Hd1 k Hy), elem_of_cons. by left. }
    split; [done|]. split; [done|]. split; [by rewrite lookup_delete_ne|].
    split; [eapply tree_in_frame; [|exact Hu1]|eapply tree_in_frame; [|exact Hu2]]; intros y Hy; apply Hsame; tauto.
  - apply NoDup_app. split; [done|]. split; [|done]. intros y Hy Hin. apply (Hdis y Hy), elem_of_cons. by right.
  - destruct Hs as (Hs0 & Hs1 & q & Hq). split; [done|].
    assert (Hcr : forall k, k ∈ ctx_ids c -> real k) by (intros k; apply (ctx_in_real _ _ _ _ _ Hc)).
    destruct Hj as [Hj0 Hj1]. split.
    + rewrite lookup_delete_ne by done. rewrite Hk1; [done|by intros [? _]%Hcr|].
      intros Heq. destruct u; simpl in Heq; [done|]. by destruct Htu as ([? _] & _).
    + exists q. rewrite lookup_delete_ne by done. destruct (decide (sentinel = ptr u)) as [Heq|Hne].
      * rewrite <- Heq in Hv1, Hnu'. rewrite Hv1, decide_True by done. by rewrite Hq in Hnu'.
      * rewrite Hk1; [done|by intros [_ ?]%Hcr|done].
  - intros k Hk Hks. rewrite Hids, elem_of_app, elem_of_cons in Hk.
    rewrite lookup_delete_ne by (intros <-; tauto). apply Hk1; [tauto|].
    intros ->. destruct u as [|y ly u1 e u2]; [done|]. apply Hk. right. right. rewrite AA.ids_cons. simpl.
    rewrite elem_of_app, elem_of_cons. tauto.
Qed.

Lemma yields_bind h tr a c t t1 t2 (m : ST (astore A) Z) (k : Z -> ST (astore A) Z) :
  yields h tr a c t (m (Astore h tr a)) t1 -> AA.ids t1 ≡ₚ AA.ids t ->
  (forall h1, zip h1 c t1 ->
     let tr1 := Atree (ptr (plugs c t1)) (at_nodes tr) in
     yields h1 tr1 a c t1 (k (ptr t1) (Astore h1 tr1 a)) t2) ->
  yields h tr a c t ((m ≫= k) (Astore h tr a)) t2.
Proof.
  intros (h1 & Hrun & Hz & Ho) Hp Hk. rewrite (ST_run _ _ _ _ _ Hrun).
  destruct (Hk h1 Hz) as (h2 & Hrun2 & Hz2 & Ho2). exists h2. split; [exact Hrun2|]. split; [exact Hz2|].
  eapply others_trans; [exact Ho|exact Ho2|]. by rewrite Hp.
Qed.

(** the level of the right leaf is cut to that of the node *)
Definition lower_right (lv : Z) r : AA.tree :=
  match r with
  | AA.N j lj rl e rr => AA.N j (if lv <? lj then lv else lj) rl e rr
  | AA.E => AA.E
  end.
Lemma ids_lower_right lv r : AA.ids (lower_right lv r) = AA.ids r.
Proof. by destruct r. Qed.
Lemma levels_lower_right n lv r : lv < n -> levels_lt n r -> levels_lt n (lower_right lv r).
Proof. destruct r; [done|]. simpl. intros ? (? & ? & ?). split_and!; try done. by destruct (_ <? _). Qed.

Lemma repair_eq i lv l d r :
  AA.repair (AA.N i lv l d r) =
  if (AA.level l <? lv - 1) || (AA.level r <? lv - 1) then
    match balance (AA.N i (lv - 1) l d (lower_right (lv - 1) r)) with
    | AA.N i lv l d r => AA.skew (AA.N i lv (AA.split l) d r)
    | AA.E => AA.E
    end
  else AA.N i lv l d r.
Proof. by destruct r. Qed.

Lemma lower_ok h tr a c i lv lv' l d r :
  zip h c (AA.N i lv l d r) -> 0 < lv' < 2 ^ 32 ->
  exists h', (_ ← node_update i (set_an_level lv'); r' ← node_get (ptr r);
              if lv' <? an_level r' then node_update (ptr r) (set_an_level lv') else mret tt)
      (Astore h tr a) = Some (tt, Astore h' tr a) /\
    zip h' c (AA.N i lv' l d (lower_right lv' r)) /\ others h h' (ctx_ids c ++ AA.ids (AA.N i lv l d r)).
Proof.
  intros Hz Hlv'. destruct (zip_get _ _ _ _ _ _ _ Hz) as (_ & _ & Hn & _).
  rewrite (ST_run _ _ _ _ _ (node_update_ok _ _ _ _ _ _ Hn)).
  destruct (set_level_ok h tr a c i lv lv' l d r Hz Hlv') as [Hz1 Ho1]. set (h1 := alter _ _ _) in *. clearbody h1.
  pose proof Hz1 as [_ _ _ Hs1]. destruct (zip_get _ _ _ _ _ _ _ Hz1) as (_ & _ & _ & _ & Hr1).
  destruct (level_get h1 tr a i r Hs1 Hr1) as (nr & Hgr & Hlr & _). rewrite (ST_run _ _ _ _ _ Hgr), Hlr.
  destruct r as [|j lj rl e rr]; cbn [AA.level lower_right].
  { rewrite (proj2 (Z.ltb_ge lv' 0)) by lia. by exists h1. }
  destruct (lv' <? lj); [|by exists h1]. pose proof Hz1 as Hz2.
  change (AA.N i lv' l d (AA.N j lj rl e rr)) with (plug (Frame true i lv' d l) (AA.N j lj rl e rr)) in Hz2.
  apply zip_plug in Hz2. destruct (zip_get _ _ _ _ _ _ _ Hz2) as (_ & _ & Hj & _).
  destruct (set_level_ok h1 tr a _ j lj lv' rl e rr Hz2 Hlv') as [Hz3 Ho3].
  eexists. split; [exact (node_update_ok _ _ _ _ _ _ Hj)|]. split; [by apply zip_plug in Hz3|].
  eapply others_trans; [exact Ho1|exact Ho3|]. rewrite ctx_ids_cons, !AA.ids_cons. simpl. by solve_Permutation.
Qed.

(** the left leaf of the focus is split, and the focus skewed *)
Lemma split_left_ok h tr a c i lv l d r :
  zip h c (AA.N i lv l d r) -> at_root tr = ptr (plugs c (AA.N i lv l d r)) -> levels_lt (2 ^ 32 - 1) l ->
  yields h tr a c (AA.N i lv l d r)
    ((n ← node_get i; _ ← split_node (leaf LEFT n); skew_node i) (Astore h tr a))
    (AA.skew (AA.N i lv (AA.split l) d r)).
Proof.
  intros Hz Hroot Hlow. destruct (zip_get _ _ _ _ _ _ _ Hz) as (_ & _ & Hn & _).
  rewrite (ST_run _ _ _ _ _ (node_get_ok _ _ _ _ _ Hn)). cbn [leaf LEFT an_left].
  set (f := Frame false i lv d r). change (AA.N i lv l d r) with (plug f l) in *. apply zip_plug in Hz.
  destruct (split_node_ok h tr a (f :: c) l Hz Hroot Hlow) as (h1 & Hrun1 & Hz1 & Ho1).
  rewrite (ST_run _ _ _ _ _ Hrun1). set (tr1 := Atree _ _) in *.
  apply zip_plug in Hz1. destruct (skew_node_ok h1 tr1 a c (plug f (AA.split l)) Hz1 eq_refl) as (h2 & Hrun2 & Hz2 & Ho2).
  exists h2. split; [exact Hrun2|]. split; [exact Hz2|].
  eapply others_trans; [|exact Ho2|].
  - eapply others_perm; [|exact Ho1]. by rewrite focus_ids.
  - rewrite !focus_ids. unfold AA.ids. by rewrite AA.nodes_split.
Qed.

Lemma tree_in_level h p t : tree_in h p t -> 0 <= AA.level t.
Proof. destruct t; simpl; lia. Qed.

Lemma repair_node_ok h tr a c t :
  zip h c t -> at_root tr = ptr (plugs c t) -> t <> AA.E -> levels_lt (2 ^ 32 - 3) t ->
  yields h tr a c t (repair_node (ptr t) (Astore h tr a)) (AA.repair t).
Proof.
  intros Hz Hroot Ht Hlow. destruct t as [|i lv l d r]; [done|]. change (ptr (AA.N i lv l d r)) with i.
  pose proof Hz as [_ _ _ Hs]. destruct (zip_get _ _ _ _ _ _ _ Hz) as (_ & Hlv & Hn & Hl & Hr).
  unfold repair_node. rewrite (ST_run _ _ _ _ _ (node_get_ok _ _ _ _ _ Hn)). cbn [leaf LEFT RIGHT an_left an_right an_level].
  destruct (level_get h tr a i l Hs Hl) as (nl & Hgl & Hll & _).
  destruct (level_get h tr a i r Hs Hr) as (nr & Hgr & Hlr & _).
  rewrite (ST_run _ _ _ _ _ Hgl), (ST_run _ _ _ _ _ Hgr), Hll, Hlr, repair_eq.
  pose proof (tree_in_level _ _ _ Hl). pose proof (tree_in_level _ _ _ Hr). rewrite w32_small by lia.
  destruct (_ || _) eqn:Hcase; [|by apply yields_same].
  assert (Hlv' : 0 < lv - 1 < 2 ^ 32).
  { split; [|lia]. apply orb_true_iff in Hcase as [Hcase|Hcase]; apply Z.ltb_lt in Hcase; lia. }
  destruct (lower_ok h tr a c i lv (lv - 1) l d r Hz Hlv') as (h1 & Hrun1 & Hz1 & Ho1). cbn zeta.
  apply ST_bind_Some in Hrun1 as (u1 & s1 & Hrun1 & Hrun2). apply ST_bind_Some in Hrun2 as (nr2 & s2 & Hrun2 & Hrun3).
  rewrite (ST_run _ _ _ _ _ Hrun1), (ST_run _ _ _ _ _ Hrun2), (ST_run _ _ _ _ _ Hrun3).
  set (t1 := AA.N i (lv - 1) l d (lower_right (lv - 1) r)) in *.
  assert (Hroot1 : at_root tr = ptr (plugs c t1)).
  { rewrite Hroot. destruct c as [|f c]; [done|]. by apply ptr_plugs_any. }
  assert (Hids1 : AA.ids t1 = AA.ids (AA.N i lv l d r)) by (unfold t1; by rewrite !AA.ids_cons, ids_lower_right).
  assert (Hlow1 : levels_lt (2 ^ 32 - 3) t1).
  { destruct Hlow as (? & ? & ?). split; [lia|]. split; [done|]. apply levels_lower_right; [lia|done]. }
  enough (Hy : yields h1 tr a c t1 ((x ← (temp ← skew_node (ptr t1); split_node temp);
      n ← node_get x; _ ← split_node (leaf LEFT n); skew_node x) (Astore h1 tr a))
      (match balance t1 with AA.N i lv l d r => AA.skew (AA.N i lv (AA.split l) d r) | AA.E => AA.E end)).
  { destruct Hy as (h2 & Hrun4 & Hz4 & Ho4). exists h2. split; [|split; [exact Hz4|]].
    - rewrite <- Hrun4. unfold mbind, ST_bind. by destruct (skew_node _ _) as [[? ?]|].
    - eapply others_trans; [exact Ho1|exact Ho4|]. by rewrite Hids1. }
  eapply yields_bind; [apply balance_node_ok; [done|done|by eapply levels_lt_mono; [exact Hlow1|lia]]|by rewrite ids_balance|].
  intros h2 Hz2. assert (Hlow2 : levels_lt (2 ^ 32 - 2) (balance t1)).
  { eapply levels_lt_mono; [apply levels_split, levels_skew, Hlow1|lia]. }
  assert (Hne : balance t1 <> AA.E) by (by apply (same_size_E t1); [apply ids_balance|]).
  destruct (balance t1) as [|i' lv2 l2 d2 r2]; [done|]. apply split_left_ok; [done|done|].
  eapply levels_lt_mono; [apply Hlow2|lia].
Qed.

Lemma shrunk_plug f t t' : AA.aa (plug f t) -> AA.shrunk t t' -> AA.shrunk (plug f t) (AA.repair (plug f t')).
Proof.
  unfold plug. destruct (fr_side f).
  - apply AA.shrunk_right.
  - apply AA.shrunk_left.
Qed.

Lemma ids_repair t : AA.ids (AA.repair t) = AA.ids t.
Proof. unfold AA.ids. by rewrite AA.nodes_repair. Qed.

Lemma shrunk_levels n f t0 t :
  AA.aa (plug f t0) -> AA.shrunk t0 t -> fr_level f < n -> levels_lt n (plug f t).
Proof.
  intros Haa (Hal & Hcase & _) Hlev. destruct (aa_plug _ _ Haa) as (_ & ? & _ & ? & ?).
  rewrite plug_nd. unfold nd. destruct (fr_side f); simpl; (split; [lia|split]); apply aa_levels_lt; done || lia.
Qed.

Lemma remove_repair_loop_ok fuel h tr a c t t0 :
  zip h c t -> at_root tr = ptr (plugs c t) -> (length c < fuel)%nat ->
  AA.aa (plugs c t0) -> AA.level (plugs c t0) < 2 ^ 32 - 3 -> AA.shrunk t0 t ->
  finishes h tr a (ctx_ids c ++ AA.ids t) (remove_repair_loop fuel (parent_of c) (Astore h tr a))
    (ups AA.repair c t).
Proof.
  revert h tr t t0 c. induction fuel as [|fuel IH]; intros h tr t t0 c Hz Hroot Hfuel Haa Hlev Hsh; [lia|].
  cbn [remove_repair_loop]. pose proof Hz as [Hc _ _ _]. rewrite (ST_run _ _ _ _ _ (is_nil_parent _ _ _ _ _ Hc)).
  destruct c as [|f c].
  { rewrite bool_decide_true by done. exists h. split; [|done]. unfold plugs in Hroot. unfold ups. simpl in *.
    rewrite <- Hroot. by destruct tr. }
  rewrite bool_decide_false by done. change (parent_of (f :: c)) with (fr_id f). rewrite <- (ptr_plug f t), ups_cons.
  rewrite plugs_cons in *. destruct (aa_plugs _ _ Haa) as [Haaf Hlevf]. rewrite level_plug in Hlevf.
  apply zip_plug in Hz.
  destruct (repair_node_ok h tr a c (plug f t) Hz Hroot) as (h1 & Hrun1 & Hz1 & Ho1);
    [apply plug_E|eapply shrunk_levels; [done|done|lia]|].
  rewrite (ST_run _ _ _ _ _ Hrun1). set (tr1 := Atree _ _) in *.
  destruct (parent_get h1 tr1 a c _ Hz1) as (n & Hget & Hpar & _);
    [apply (same_size_E (plug f t)); [apply ids_repair|apply plug_E]|].
  rewrite (ST_run _ _ _ _ _ Hget), Hpar.
  destruct (IH h1 tr1 (AA.repair (plug f t)) (plug f t0) c) as (h2 & Hrun2 & Hz2 & Ho2);
    [done|done|simpl in Hfuel; lia|done|done|by apply shrunk_plug|].
  exists h2. split; [exact Hrun2|]. split; [exact Hz2|].
  assert (Hp : ctx_ids (f :: c) ++ AA.ids t ≡ₚ ctx_ids c ++ AA.ids (plug f t)) by by rewrite focus_ids.
  eapply others_trans; [|exact Ho2|by rewrite ids_repair].
  eapply others_perm; [|exact Ho1]. by rewrite Hp.
Qed.

(** the data at a node do not matter to the shape around it *)
Lemma aa_plugs_swap c t t' :
  AA.aa t' -> AA.level t' = AA.level t -> AA.rlevel t' = AA.rlevel t -> AA.aa (plugs c t) -> AA.aa (plugs c t').
Proof.
  revert t t'. induction c as [|f c IH]; intros t t' Ht' Hl Hr Haa; [done|]. rewrite plugs_cons in *.
  destruct (aa_plugs _ _ Haa) as [Hf _]. apply (IH (plug f t)); [| | |done].
  - unfold AA.rlevel, plug in *. destruct (fr_side f); simpl in *; rewrite ?Hl, ?Hr; tauto.
  - by rewrite !level_plug.
  - unfold AA.rlevel, plug. by destruct (fr_side f).
Qed.

(** a node with one leaf at most is shrunk to it *)
Lemma shrunk_only j lj x e y u :
  (x = AA.E /\ u = y) \/ (y = AA.E /\ u = x) -> AA.aa (AA.N j lj x e y) -> AA.shrunk (AA.N j lj x e y) u.
Proof.
  intros [[-> ->]|[-> ->]].
  - apply AA.shrunk_first.
  - apply AA.shrunk_leaf.
Qed.

(** the successor [j] hangs at [c1] in a leaf of the node [i]: its data move up
    and its node goes *)
Lemma remove_via_ok h tr a a' c c1 side oth i lv l d r j lj x e y u :
  (forall d, AA.N i lv l d r = plug (Frame side i lv d oth) (plugs c1 (AA.N j lj x e y))) ->
  zip h c (AA.N i lv l d r) -> at_root tr = ptr (plugs c (AA.N i lv l d r)) ->
  (succ ← find_max_node (ptr l); if negb (succ =? NULL) then mret succ else find_min_node (ptr r))
    (Astore h tr a) = Some (j, Astore h tr a) ->
  (x = AA.E /\ u = y) \/ (y = AA.E /\ u = x) -> dealloc j a = Some (tt, a') ->
  AA.aa (plugs c (AA.N i lv l d r)) -> AA.level (plugs c (AA.N i lv l d r)) < 2 ^ 32 - 3 ->
  exists h', let t' := ups AA.repair c (AA.repair (plug (Frame side i lv e oth) (ups AA.repair c1 u))) in
    atree_remove_repair sentinel i (Astore h tr a) =
      Some (tt, Astore h' (Atree (ptr t') (w32 (at_nodes tr - 1))) a') /\
    zip h' [] t' /\ others h h' (ctx_ids c ++ AA.ids (AA.N i lv l d r)).
Proof.
  intros Hplug Hz Hroot Hsucc Hu Hd Haa Hlev. set (F := fun d => Frame side i lv d oth).
  set (C := fun d => c1 ++ F d :: c).
  assert (Hsplit : forall d t, plugs (C d) t = plugs c (plug (F d) (plugs c1 t))) by (intros; apply plugs_app).
  assert (Hback : forall d, plug (F d) (plugs c1 (AA.N j lj x e y)) = AA.N i lv l d r) by (intros; symmetry; apply Hplug).
  assert (Hzip : forall h d, zip h c (AA.N i lv l d r) <-> zip h (C d) (AA.N j lj x e y)).
  { intros h0 d0. rewrite (Hplug d0). unfold C. rewrite <- zip_plugs. apply zip_plug. }
  pose proof Hz as Hzj. rewrite Hzip in Hzj.
  destruct (zip_get _ _ _ _ _ _ _ Hz) as (_ & _ & Hni & _).
  destruct (zip_get _ _ _ _ _ _ _ Hzj) as (Hj & Hlj & Hnj & _).
  destruct (set_data_ok h c i lv l d e r Hz) as [Hz1 Ho1]. set (h1 := alter (set_an_data e) i h) in *.
  assert (Hany : ptr (plugs c (AA.N i lv l e r)) = ptr (plugs c (AA.N i lv l d r))).
  { destruct c as [|f c]; [done|]. by apply ptr_plugs_any. }
  assert (Hroot1 : at_root tr = ptr (plugs (C e) (AA.N j lj x e y))).
  { by rewrite Hsplit, Hback, Hany. }
  pose proof Hz1 as Hz1'. rewrite Hzip in Hz1'. pose proof Hz1' as [_ _ _ Hs1].
  destruct (zip_get _ _ _ _ _ _ _ Hz1') as (_ & _ & _ & Hx1 & _).
  destruct (do_remove_ok h1 tr a a' (C e) j lj x e y u Hz1' Hroot1 Hu Hd) as (h2 & Hrun2 & Hz2 & Ho2).
  set (tr2 := Atree _ _) in *.
  assert (Haa1 : AA.aa (plugs (C e) (AA.N j lj x e y))).
  { rewrite Hsplit, Hback. destruct (aa_plugs _ _ Haa) as [Hi _]. by eapply aa_plugs_swap; [exact Hi|..|exact Haa]. }
  assert (Hlev1 : AA.level (plugs (C e) (AA.N j lj x e y)) < 2 ^ 32 - 3).
  { rewrite Hsplit, Hback. clear -Hlev. destruct c as [|f c] using rev_ind; [done|].
    rewrite plugs_app in *. cbn in *. by rewrite !level_plug in *. }
  destruct (remove_repair_loop_ok (S (base.size h2)) h2 tr2 a' (C e) u (AA.N j lj x e y) Hz2) as (h3 & Hrun3 & Hz3 & Ho3);
    [done| |done|done|by apply shrunk_only; [|apply (aa_plugs _ _ Haa1)]|].
  { pose proof (zip_size h2 (C e) u Hz2). pose proof (length_ctx (C e)). lia. }
  assert (Hups : ups AA.repair (C e) u = ups AA.repair c (AA.repair (plug (F e) (ups AA.repair c1 u)))).
  { unfold C. by rewrite ups_app, ups_cons. }
  rewrite Hups in *. exists h3. split; [|split; [exact Hz3|]].
  - apply ST_bind_Some in Hsucc as (s0 & st0 & Hsucc1 & Hsucc2).
    unfold atree_remove_repair. rewrite (ST_run _ _ _ _ _ (node_get_ok _ _ _ _ _ Hni)). cbn [leaf LEFT RIGHT an_left an_right].
    rewrite (ST_run _ _ _ _ _ Hsucc1), (ST_run _ _ _ _ _ Hsucc2).
    destruct Hj as [Hj0 Hj1]. rewrite (ST_run _ _ _ _ _ (is_nil_node _ _ _ _ _ Hj0 Hnj)). cbn [an_level].
    rewrite (proj2 (Z.eqb_neq lj 0)), (proj2 (Z.eqb_neq j NULL)) by (done || lia). cbn [negb]. cbn zeta.
    rewrite (ST_run _ _ _ _ _ (node_get_ok _ _ _ _ _ Hnj)). cbn [an_parent].
    assert (Hdo : (s ← node_get j; _ ← node_update i (set_an_data (an_data s)); nil ← is_nil (leaf LEFT s);
                   do_remove_node j (leaf nil s)) (Astore h tr a) = Some (tt, Astore h2 tr2 a')).
    { rewrite (ST_run _ _ _ _ _ (node_get_ok _ _ _ _ _ Hnj)). cbn [an_data].
      rewrite (ST_run _ _ _ _ _ (node_update_ok _ _ _ _ _ _ Hni)). fold h1. cbn [leaf LEFT an_left].
      rewrite (ST_run _ _ _ _ _ (is_nil_tree _ _ _ _ _ Hs1 Hx1)). rewrite <- Hrun2. f_equal.
      destruct Hu as [[-> ->]|[-> ->]]; [done|]. by destruct x. }
    rewrite (ST_run _ _ _ _ _ Hdo).
    assert (Hpar : forall d d', parent_of (C d) = parent_of (C d')) by (intros; unfold C; by destruct c1).
    rewrite (Hpar d e). exact Hrun3.
  - assert (Hp : ctx_ids (C e) ++ AA.ids (AA.N j lj x e y) ≡ₚ ctx_ids c ++ AA.ids (AA.N i lv l d r)).
    { rewrite <- !ids_plugs, Hsplit, Hback, !ids_plugs. by rewrite !AA.ids_cons. }
    intros k Hk Hks.
    assert (Hk' : k ∉ ctx_ids (C e) ++ AA.ids (AA.N j lj x e y)) by by rewrite Hp.
    assert (Hju : AA.ids (AA.N j lj x e y) ≡ₚ j :: AA.ids u).
    { rewrite AA.ids_cons. destruct Hu as [[-> ->]|[-> ->]]; [done|]. by rewrite Permutation_app_comm. }
    rewrite Hju, elem_of_app, elem_of_cons in Hk'.
    rewrite Ho3, Ho2, Ho1; [done|done|done| |done| |done].
    + rewrite Hju, elem_of_app, elem_of_cons. tauto.
    + rewrite elem_of_app. tauto.
Qed.

Lemma remove_leaf_ok h tr a a' c i lv d :
  zip h c (AA.N i lv AA.E d AA.E) -> at_root tr = ptr (plugs c (AA.N i lv AA.E d AA.E)) ->
  dealloc i a = Some (tt, a') ->
  AA.aa (plugs c (AA.N i lv AA.E d AA.E)) -> AA.level (plugs c (AA.N i lv AA.E d AA.E)) < 2 ^ 32 - 3 ->
  exists h', let t' := ups AA.repair c AA.E in
    atree_remove_repair sentinel i (Astore h tr a) =
      Some (tt, Astore h' (Atree (ptr t') (w32 (at_nodes tr - 1))) a') /\
    zip h' [] t' /\ others h h' (ctx_ids c ++ [i]).
Proof.
  intros Hz Hroot Hd Haa Hlev. pose proof Hz as [_ _ _ Hs].
  destruct (zip_get _ _ _ _ _ _ _ Hz) as (_ & _ & Hn & _).
  destruct (do_remove_ok h tr a a' c i lv AA.E d AA.E AA.E Hz Hroot) as (h1 & Hrun1 & Hz1 & Ho1); [by left|done|].
  set (tr1 := Atree _ _) in *. pose proof (zip_size h1 c AA.E Hz1). pose proof (length_ctx c).
  destruct (remove_repair_loop_ok (S (base.size h1)) h1 tr1 a' c AA.E (AA.N i lv AA.E d AA.E) Hz1) as (h2 & Hrun2 & Hz2 & Ho2);
    [done|lia|done|done|by apply AA.shrunk_leaf, (aa_plugs _ _ Haa)|].
  destruct (find_ends_ok h tr a i AA.E Hs I (NoDup_nil_2)) as [Hmin Hmax].
  exists h2. split; [|split; [exact Hz2|]].
  - unfold atree_remove_repair. rewrite (ST_run _ _ _ _ _ (node_get_ok _ _ _ _ _ Hn)). cbn [leaf LEFT RIGHT an_left an_right].
    rewrite (ST_run _ _ _ _ _ Hmax). cbn [AA.max_node id_of]. rewrite Z.eqb_refl. cbn [negb].
    rewrite (ST_run _ _ _ _ _ Hmin), (ST_run (is_nil NULL) _ _ true (Astore h tr a)) by done. cbn [negb].
    rewrite (ST_run _ _ _ _ _ (node_get_ok _ _ _ _ _ Hn)). cbn [AA.min_node id_of an_parent].
    rewrite Z.eqb_refl. cbn [negb]. change sentinel with (ptr AA.E) at 1.
    rewrite (ST_run _ _ _ _ _ Hrun1). exact Hrun2.
  - intros k Hk Hks. rewrite Ho2, Ho1; [done|done|done| |done].
    intros Hin. apply Hk. rewrite elem_of_app in *. destruct Hin as [?|Hin]; [by left|]. by apply not_elem_of_nil in Hin.
Qed.

Lemma focus_at i t : i ∈ AA.ids t -> exists c lv l d r, t = plugs c (AA.N i lv l d r).
Proof.
  induction t as [|j lv l IHl d r IHr]; [intros H; by apply not_elem_of_nil in H|].
  rewrite AA.ids_cons, elem_of_app, elem_of_cons. intros [H|[->|H]].
  - destruct (IHl H) as (c & lv' & l' & d' & r' & ->). exists (c ++ [Frame false j lv d r]), lv', l', d', r'.
    by rewrite plugs_app.
  - by exists [], lv, l, d, r.
  - destruct (IHr H) as (c & lv' & l' & d' & r' & ->). exists (c ++ [Frame true j lv d l]), lv', l', d', r'.
    by rewrite plugs_app.
Qed.

(** removal on the heap, before the bookkeeping *)
Lemma remove_run_ok h tr a a' t i :
  zip h [] t -> at_root tr = ptr t -> i ∈ AA.ids t -> dealloc (AA.victim i t) a = Some (tt, a') ->
  AA.aa t -> AA.level t < 2 ^ 32 - 3 ->
  exists h', let t' := AA.remove i t in
    atree_remove sentinel i (Astore h tr a) =
      Some (tt, Astore h' (Atree (ptr t') (w32 (at_nodes tr - 1))) a') /\
    zip h' [] t' /\ others h h' (AA.ids t).
Proof.
  intros Hz Hroot Hi Hd Haa Hlev. pose proof Hz as [_ _ Hnd _]. simpl in Hnd.
  destruct (focus_at i t Hi) as (c & lv & l & d & r & ->). apply (zip_plugs sentinel h c []) in Hz. rewrite app_nil_r in Hz.
  destruct (remove_ups i c (AA.N i lv l d r)) as [Hrem Hvic];
    [rewrite AA.ids_cons, elem_of_app, elem_of_cons; tauto|done|].
  rewrite Hrem, Hvic in *. cbn [AA.remove AA.victim] in *. rewrite Z.eqb_refl in *.
  cbn [AA.remove_root AA.victim_root] in *.
  pose proof Hz as [_ _ _ Hs]. destruct (zip_get _ _ _ _ _ _ _ Hz) as (_ & _ & _ & Hl & Hr).
  rewrite ids_plugs in Hnd. apply NoDup_app in Hnd as (_ & _ & Hnd). rewrite AA.ids_cons in Hnd.
  apply NoDup_app in Hnd as (Hndl & _ & Hndr). apply NoDup_cons in Hndr as [_ Hndr].
  destruct (find_ends_ok h tr a i l Hs Hl Hndl) as [_ Hmax]. destruct (find_ends_ok h tr a i r Hs Hr Hndr) as [Hmin _].
  assert (Hids : forall t', AA.ids (plugs c t') ≡ₚ ctx_ids c ++ AA.ids t') by (intros; apply ids_plugs).
  destruct (decide (l = AA.E)) as [->|Hne].
  - cbn [AA.remove_max AA.max_node id_of] in *. destruct (decide (r = AA.E)) as [->|Hne].
    + destruct (remove_leaf_ok h tr a a' c i lv d) as (h' & Hrun & Hz' & Ho); [done..|].
      exists h'. split; [exact Hrun|]. split; [exact Hz'|]. eapply others_perm; [|exact Ho]. by rewrite Hids.
    + destruct (remove_min_ups r Hne) as (c1 & j & lj & y & e & -> & Hmn & Hrm). rewrite Hrm, Hmn in *.
      destruct (remove_via_ok h tr a a' c c1 true AA.E i lv AA.E d (plugs c1 (AA.N j lj AA.E e y)) j lj AA.E e y y)
        as (h' & Hrun & Hz' & Ho); [done|done|done| |by left|done|done|done|].
      { rewrite (ST_run _ _ _ _ _ Hmax). exact Hmin. }
      exists h'. split; [exact Hrun|]. split; [exact Hz'|]. eapply others_perm; [|exact Ho]. by rewrite Hids.
  - destruct (remove_max_ups l Hne) as (c1 & j & lj & x & e & -> & Hmn & Hrm). rewrite Hrm, Hmn in *.
    destruct (remove_via_ok h tr a a' c c1 false r i lv (plugs c1 (AA.N j lj x e AA.E)) d r j lj x e AA.E x)
      as (h' & Hrun & Hz' & Ho); [done|done|done| |by right|done|done|done|].
    { rewrite (ST_run _ _ _ _ _ Hmax). cbn [id_of]. rewrite (proj2 (Z.eqb_neq j NULL)); [done|].
      assert (Hj : j ∈ AA.ids (plugs c1 (AA.N j lj x e AA.E))).
      { rewrite ids_plugs, AA.ids_cons, !elem_of_app, elem_of_cons. tauto. }
      by apply (tree_in_real _ _ _ _ _ Hl) in Hj as [? _]. }
    exists h'. split; [exact Hrun|]. split; [exact Hz'|]. eapply others_perm; [|exact Ho]. by rewrite Hids.
Qed.

Lemma ids_victim i t : AA.aa t -> i ∈ AA.ids t -> AA.ids t ≡ₚ AA.victim i t :: AA.ids (AA.remove i t).
Proof. intros Haa Hi. by destruct (AA.remove_spec_aux i t Haa Hi) as (_ & ? & ? & ? & _ & _ & Hp). Qed.

Lemma atree_remove_ok s t i :
  holds_tree s t -> i ∈ AA.ids t ->
  exists s', atree_remove sentinel i s = Some (tt, s') /\ holds_tree s' (AA.remove i t) /\
    (forall p, alloc_live (as_slab s') p <-> alloc_live (as_slab s) p /\ p <> AA.victim i t) /\
    others (as_nodes s) (as_nodes s') (AA.ids t).
Proof.
  destruct s as [h tr a]. intros [Hz Hroot Hcount Haa Hsize Hinv Hlive] Hi. simpl in *.
  pose proof (ids_victim i t Haa Hi) as Hp.
  assert (Hvl : alloc_live a (AA.victim i t)) by (apply Hlive; rewrite Hp; apply elem_of_cons; by left).
  destruct (dealloc_ok a _ Hinv Hvl) as (a' & Hd & Hinv' & Hlive').
  destruct (remove_run_ok h tr a a' t i Hz Hroot Hi Hd Haa) as (h' & Hrun & Hz' & Ho).
  { pose proof (low_levels t Haa Hsize). lia. }
  assert (Hsz : AA.size t = S (AA.size (AA.remove i t))) by (rewrite <- !length_ids, Hp; done).
  pose proof Hz as [_ _ Hnd _]. simpl in Hnd. rewrite Hp in Hnd. apply NoDup_cons in Hnd as [Hnv _].
  eexists. split; [exact Hrun|]. split; [|by split]. split; simpl.
  - exact Hz'.
  - done.
  - rewrite Hcount, w32_small by lia. lia.
  - by apply AA.remove_aa.
  - lia.
  - done.
  - intros k Hk. apply Hlive'. split; [|by intros ->]. apply Hlive. rewrite Hp. apply elem_of_cons. by right.
Qed.

(** ** Insertion in order of the keys *)

Context (get_key : Z -> Z).

(** the path to where [x] goes *)
Fixpoint ins_path (x : Z) t c : list frame :=
  match t with
  | AA.E => c
  | AA.N i lv l d r =>
      if AA.atree_compare get_key (get_key x) d <? 0 then ins_path x l (Frame false i lv d r :: c)
      else ins_path x r (Frame true i lv d l :: c)
  end.

Lemma insert_ups k x t c :
  ups balance c (AA.insert get_key k x t) = ups balance (ins_path x t c) (AA.N k 1 AA.E x AA.E).
Proof.
  revert c. induction t as [|i lv l IHl d r IHr]; intros c; [done|]. cbn [AA.insert ins_path].
  destruct (_ <? 0); [rewrite <- IHl|rewrite <- IHr]; by rewrite ups_cons.
Qed.

Lemma plugs_path x t c : plugs (ins_path x t c) AA.E = plugs c t.
Proof.
  revert c. induction t as [|i lv l IHl d r IHr]; intros c; [done|]. cbn [ins_path].
  destruct (_ <? 0); [rewrite IHl|rewrite IHr]; by rewrite plugs_cons.
Qed.

Lemma bin_insert_loop_ok fuel h tr a c t k x :
  zip h c t -> t <> AA.E -> fresh_node h c t k x -> (AA.size t + 1 < fuel)%nat ->
  exists h', bin_insert_loop get_key fuel k (ptr t) (Astore h tr a) = Some (tt, Astore h' tr a) /\
    zip h' (ins_path x t c) (AA.N k 1 AA.E x AA.E) /\ others h h' (k :: ctx_ids c ++ AA.ids t).
Proof.
  revert h c t. induction fuel as [|fuel IH]; intros h c t Hz Ht Hk Hfuel; [lia|].
  pose proof Hz as [Hc Htr Hnd Hs]. destruct t as [|i lv l d r]; [done|].
  destruct (zip_get _ _ _ _ _ _ _ Hz) as (Hi & Hlv & Hn & Hl & Hr).
  pose proof Hk as (Hkr & Hout & Hq).
  assert (Hik : i <> k) by (intros ->; apply Hout; rewrite AA.ids_cons; set_solver).
  cbn [bin_insert_loop]. change (ptr (AA.N i lv l d r)) with i. rewrite (proj2 (Z.eqb_neq _ _) Hik).
  rewrite (ST_run _ _ _ _ _ (node_get_ok _ _ _ _ _ Hq)). cbn [an_data].
  assert (Hcmp : compare_node get_key (get_key x) i (Astore h tr a) =
    Some (AA.atree_compare get_key (get_key x) d, Astore h tr a)).
  { unfold compare_node. by rewrite (ST_run _ _ _ _ _ (node_get_ok _ _ _ _ _ Hn)). }
  rewrite (ST_run _ _ _ _ _ Hcmp), (ST_run _ _ _ _ _ (node_get_ok _ _ _ _ _ Hn)). cbn [ins_path].
  set (dir := negb (AA.atree_compare get_key (get_key x) d <? 0)).
  set (f := Frame dir i lv d (if dir then l else r)). set (u := if dir then r else l).
  assert (Hplug : plug f u = AA.N i lv l d r) by (unfold f, u, plug; by destruct dir).
  assert (Hleaf : leaf dir (Anode (parent_of c) (ptr l) (ptr r) lv d) = ptr u) by (unfold u; by destruct dir).
  assert (Hpath : (if AA.atree_compare get_key (get_key x) d <? 0
                   then ins_path x l (Frame false i lv d r :: c) else ins_path x r (Frame true i lv d l :: c)) =
                  ins_path x u (f :: c)).
  { unfold u, f, dir. by destruct (_ <? 0). }
  assert (Hu : tree_in h i u) by (unfold u; by destruct dir).
  rewrite Hpath, Hleaf, (ST_run _ _ _ _ _ (is_nil_tree _ _ _ _ _ Hs Hu)).
  rewrite <- Hplug in Hz, Hk. apply zip_plug in Hz. apply fresh_plug in Hk.
  destruct u as [|j lj ul e ur] eqn:Hue; cbn [is_E].
  - destruct (attach_ok h tr a c f k x Hz Hk) as (h1 & Hrun1 & Hz1 & Ho1).
    change (fr_id f) with i in Hrun1. change (fr_side f) with dir in Hrun1. rewrite (ST_run _ _ _ _ _ Hrun1).
    pose proof Hz1 as [(_ & _ & Hn1 & _) _ _ _].
    rewrite (ST_run _ _ _ _ _ (node_get_ok _ _ _ _ _ Hn1)).
    assert (Hl1 : leaf dir (frame_node sentinel (parent_of c) (ptr (AA.N k 1 AA.E x AA.E)) f) = k)
      by (unfold frame_node; simpl fr_side; by destruct dir).
    rewrite Hl1. destruct fuel as [|fuel]; [simpl in Hfuel; lia|]. cbn [bin_insert_loop]. rewrite Z.eqb_refl.
    exists h1. split; [done|]. split; [done|]. rewrite <- Hplug.
    eapply others_perm; [|exact Ho1]. by rewrite focus_ids, app_nil_r.
  - rewrite (ST_run (mret tt) _ _ tt (Astore h tr a)) by done.
    rewrite (ST_run _ _ _ _ _ (node_get_ok _ _ _ _ _ Hn)), Hleaf.
    destruct (IH h (f :: c) (AA.N j lj ul e ur)) as (h1 & Hrun1 & Hz1 & Ho1); [done|done|done| |].
    { assert (AA.size (plug f (AA.N j lj ul e ur)) = AA.size (AA.N i lv l d r)) as Hsz by by rewrite Hplug.
      rewrite plug_nd in Hsz. unfold nd in Hsz. destruct (fr_side f); simpl in *; lia. }
    exists h1. split; [done|]. split; [done|]. rewrite <- Hplug.
    eapply others_perm; [|exact Ho1]. by rewrite focus_ids.
Qed.

Lemma ins_path_nonempty x t c : c <> [] -> ins_path x t c <> [].
Proof.
  revert c. induction t as [|i lv l IHl d r IHr]; intros c Hc; [done|]. cbn [ins_path].
  destruct (_ <? 0); auto.
Qed.

Lemma bin_insert_ok h tr a t k x :
  zip h [] t -> at_root tr = ptr t -> fresh_node h [] t k x ->
  exists h' tr', atree_bin_insert get_key k (Astore h tr a) = Some (tt, Astore h' tr' a) /\
    zip h' (ins_path x t []) (AA.N k 1 AA.E x AA.E) /\
    at_root tr' = ptr (plugs (ins_path x t []) (AA.N k 1 AA.E x AA.E)) /\ at_nodes tr' = at_nodes tr /\
    others h h' (k :: AA.ids t).
Proof.
  intros Hz Hroot Hk. pose proof Hz as [Hc Ht Hnd Hs]. unfold atree_bin_insert, root_get.
  rewrite (ST_run _ _ _ (at_root tr) (Astore h tr a)) by done. rewrite Hroot.
  rewrite (ST_run _ _ _ _ _ (is_nil_tree _ _ _ _ _ Hs Ht)). destruct t as [|i lv l d r]; cbn [is_E].
  - destruct Hk as ([Hk0 Hks] & Hout & Hq). exists h, (Atree k (at_nodes tr)). split; [done|].
    split; [|by split_and!]. split; [done| |by apply NoDup_singleton|done].
    split; [done|]. split; [lia|]. by split.
  - destruct (bin_insert_loop_ok (S (base.size h)) h tr a [] (AA.N i lv l d r) k x Hz) as (h1 & Hrun & Hz1 & Ho1);
      [done|done| |].
    { destruct Hk as (_ & Hout & Hq). rewrite <- length_ids.
      enough (length (k :: AA.ids (AA.N i lv l d r)) <= base.size h)%nat as Hle by (cbn [length] in Hle; lia).
      apply nodup_dom; [by apply NoDup_cons|]. intros y [->|Hy]%elem_of_cons; [by eexists|].
      by eapply zip_dom. }
    exists h1, tr. split; [exact Hrun|]. split; [exact Hz1|]. split; [|by split].
    rewrite Hroot. rewrite <- (plugs_path x (AA.N i lv l d r) []) at 1. apply ptr_plugs_any.
    cbn [ins_path]. destruct (_ <? 0); by apply ins_path_nonempty.
Qed.

Lemma size_insert k x t : AA.aa t -> AA.size (AA.insert get_key k x t) = S (AA.size t).
Proof.
  intros Haa. rewrite <- !length_ids. by rewrite (AA.insert_ids get_key k x t Haa).
Qed.

Lemma atree_insert_ok s t x :
  holds_tree s t -> alloc_room (as_slab s) -> Z.of_nat (AA.size t) < 2 ^ 32 - 1 ->
  (forall p a', alloc (as_slab s) = Some (p, a') -> p <> sentinel) ->
  exists node s', atree_insert sentinel get_key x s = Some (node, s') /\
    holds_tree s' (AA.insert get_key node x t) /\ ~ alloc_live (as_slab s) node /\
    others (as_nodes s) (as_nodes s') (node :: AA.ids t).
Proof.
  destruct s as [h tr a]. intros [Hz Hroot Hcount Haa Hsize Hinv Hlive] Hroom Hsz Hnew. simpl in *.
  destruct (alloc_total a Hinv Hroom) as (k & a' & Hal). destruct (alloc_ok a k a' Hinv Hal) as (Hinv' & Hk0 & Hkn & Hlive').
  assert (Hks : k <> sentinel) by (by eapply Hnew).
  assert (Hout : k ∉ AA.ids t) by (intros Hin; by apply Hkn, Hlive).
  set (h1 := <[k := Anode NULL sentinel sentinel 1 x]> h).
  assert (Hz1 : zip h1 [] t).
  { eapply zip_frame; [| |exact Hz].
    - intros i Hi. unfold h1. apply lookup_insert_ne. by intros <-.
    - destruct (zp_sentinel _ _ _ _ Hz) as (? & ? & q & ?). unfold h1.
      split; [done|]. split; [|exists q]; by rewrite lookup_insert_ne. }
  assert (Hfresh : fresh_node h1 [] t k x).
  { split; [done|]. split; [done|]. apply lookup_insert_eq. }
  destruct (bin_insert_ok h1 tr a' t k x Hz1 Hroot Hfresh) as (h2 & tr2 & Hrun2 & Hz2 & Hr2 & Hn2 & Ho2).
  set (c := ins_path x t []) in *. set (u := AA.N k 1 AA.E x AA.E) in *.
  assert (Hu : AA.aa u) by (simpl; lia).
  assert (Hbal : balance u = u) by done.
  assert (Hgr : AA.grown AA.E (balance u)) by (rewrite Hbal; unfold AA.grown, AA.rlevel; simpl; lia).
  assert (Hpath : plugs c AA.E = t) by apply (plugs_path x t []).
  pose proof (low_levels t Haa Hsize) as Hlow.
  destruct (insert_repair_ok (S (base.size h2)) h2 tr2 a' c u AA.E Hz2 Hr2) as (h3 & Hrun3 & Hz3 & Ho3);
    [done| |by rewrite Hpath|rewrite Hpath; lia|done|simpl; lia|].
  { pose proof (zip_size h2 c u Hz2). pose proof (length_ctx c). simpl in *. lia. }
  assert (Hups : ups balance c (balance u) = AA.insert get_key k x t) by (rewrite Hbal; symmetry; apply (insert_ups k x t [])).
  rewrite Hups in Hrun3, Hz3. eexists k, _. split; [|split; [split|split]].
  - unfold atree_insert. assert (Hmk : make_anode sentinel x (Astore h tr a) = Some (k, Astore h1 tr a'))
      by (unfold make_anode; simpl; by rewrite Hal).
    rewrite (ST_run _ _ _ _ _ Hmk), (ST_run _ _ _ _ _ Hrun2).
    rewrite (ST_run (with_fuel _) _ _ tt _ Hrun3). reflexivity.
  - exact Hz3.
  - done.
  - simpl. rewrite Hn2, Hcount, size_insert by done. rewrite w32_small by lia. lia.
  - by apply AA.insert_aa.
  - rewrite size_insert by done. lia.
  - done.
  - intros y. rewrite (AA.insert_ids get_key k x t Haa). intros [->|Hy]%elem_of_cons; apply Hlive'; [by right|left; by apply Hlive].
  - done.
  - intros y Hy Hys. simpl. apply not_elem_of_cons in Hy as [Hyk Hyt].
    rewrite Ho3; [|intros Hin; apply Hyt|done].
    + rewrite Ho2; [|by apply not_elem_of_cons|done]. unfold h1. by apply lookup_insert_ne.
    + assert (Hp : ctx_ids c ≡ₚ AA.ids t).
      { rewrite <- Hpath, ids_plugs. by rewrite app_nil_r. }
      apply elem_of_app in Hin as [Hin|Hin]; [by rewrite <- Hp|]. exfalso. apply Hyk.
      apply list_elem_of_singleton in Hin. done.
Qed.

End steps.

(** * Properties *)

Lemma nodup_middle (l1 l2 k1 k2 : list (Z * Z)) (i d e : Z) :
  NoDup (l1 ++ (i, d) :: l2).*1 -> l1 ++ (i, d) :: l2 = k1 ++ (i, e) :: k2 -> l1 = k1 /\ d = e /\ l2 = k2.
Proof.
  revert k1. induction l1 as [|x l1 IH]; intros [|y k1] Hnd Heq; csimpl in *; injection Heq; clear Heq.
  - by intros -> ->.
  - intros -> <-. apply NoDup_cons in Hnd as [Hn _]. exfalso. apply Hn. rewrite fmap_app. set_solver.
  - intros _ ->. apply NoDup_cons in Hnd as [Hn _]. exfalso. apply Hn. rewrite fmap_app. set_solver.
  - intros Heq <-. apply NoDup_cons in Hnd as [_ Hnd]. by destruct (IH k1 Hnd Heq) as (-> & -> & ->).
Qed.

Section properties.
Context {A : Type} `{!Allocator A} `{!AllocatorLaws A}.
Context (sentinel : Z) (get_key : Z -> Z).

Lemma atree_init_ok (h : gmap Z anode) (tr : atree) (a : A) :
  sentinel_in sentinel h -> alloc_inv a ->
  exists s', atree_init sentinel (Astore h tr a) = Some (tt, s') /\ holds_tree sentinel s' AA.E.
Proof. intros Hs Ha. eexists. split; [reflexivity|]. split; [split|..]; try done.
  - constructor.
  - by intros k Hk%not_elem_of_nil.
Qed.

(** C13: [atree_insert] on the heap of nodes: with room in the slab it does not
    fault and terminates; the heap then holds a tree of the AA shape whose
    nodes, in order, are those of before with a new one for the data, put after
    everything with a key not above its own; the node is fresh, the count is
    right, and no node outside the tree is touched. *)
Theorem atree_insert_refines s t x :
  holds_tree sentinel s t -> AA.ordered get_key t -> AA.keys_ok get_key t -> AA.key_ok get_key x ->
  alloc_room (as_slab s) -> (forall p a', alloc (as_slab s) = Some (p, a') -> p <> sentinel) ->
  Z.of_nat (AA.size t) < 2 ^ 32 - 1 ->
  exists node s' t' below above,
    atree_insert sentinel get_key x s = Some (node, s') /\ ~ alloc_live (as_slab s) node /\
    holds_tree sentinel s' t' /\ AA.ordered get_key t' /\ AA.keys_ok get_key t' /\
    AA.nodes t = below ++ above /\ AA.nodes t' = below ++ (node, x) :: above /\
    Forall (fun y => get_key y <= get_key x) below.*2 /\ Forall (fun y => get_key x < get_key y) above.*2 /\
    others sentinel (as_nodes s) (as_nodes s') (node :: AA.ids t).
Proof.
  intros Hs Hord Hok Hx Hroom Hnew Hsz.
  destruct (atree_insert_ok sentinel get_key s t x Hs Hroom Hsz Hnew) as (node & s' & Hrun & Hs' & Hfresh & Ho).
  pose proof (ht_aa _ _ _ Hs) as Haa.
  destruct (AA.insert_spec_aux get_key node x t Haa Hord Hok Hx) as (b & e & Hn & Hn' & Hb & He).
  destruct (AA.insert_ordered get_key node x t Haa Hord Hok Hx).
  by exists node, s', (AA.insert get_key node x t), b, e.
Qed.

(** C14: [atree_remove] of a node of the tree: it does not fault and terminates;
    the heap then holds a tree of the AA shape with exactly the data of that
    node gone and the rest in the same order; one node of the tree goes back to
    the slab (not always the one given: the data of a neighbour may move into
    it), and no node outside the tree is touched. *)
Theorem atree_remove_refines s t i d before after :
  holds_tree sentinel s t -> AA.nodes t = before ++ (i, d) :: after ->
  exists s' t' freed,
    atree_remove sentinel i s = Some (tt, s') /\ holds_tree sentinel s' t' /\
    AA.contents t' = before.*2 ++ after.*2 /\ AA.ids t ≡ₚ freed :: AA.ids t' /\
    (AA.ordered get_key t -> AA.ordered get_key t') /\
    (forall p, alloc_live (as_slab s') p <-> alloc_live (as_slab s) p /\ p <> freed) /\
    others sentinel (as_nodes s) (as_nodes s') (AA.ids t).
Proof.
  intros Hs Hn. assert (Hi : i ∈ AA.ids t).
  { unfold AA.ids. rewrite Hn, fmap_app. csimpl. rewrite elem_of_app, elem_of_cons. tauto. }
  destruct (atree_remove_ok sentinel s t i Hs Hi) as (s' & Hrun & Hs' & Hlive & Ho).
  pose proof (ht_aa _ _ _ Hs) as Haa. pose proof (zp_nodup _ _ _ _ (ht_zip _ _ _ Hs)) as Hnd. simpl in Hnd.
  destruct (AA.remove_spec_aux i t Haa Hi) as (_ & b & e & f & Hn' & Hc & Hp).
  unfold AA.ids in Hnd. rewrite Hn in Hnd, Hn'. apply nodup_middle in Hn' as (<- & _ & <-); [|done].
  exists s', (AA.remove i t), (AA.victim i t). split_and!; try done. by apply AA.ordered_remove.
Qed.
End properties.

(** ** On concrete trees *)

(** keys that are the data; the sentinel at 0x10 *)
Definition ex_key (d : Z) : Z := d.
Definition ex_sentinel : Z := 0x10.
Definition ex_nil : astore Bump.t :=
  Astore {[ex_sentinel := Anode NULL ex_sentinel ex_sentinel 0 NULL]} (Atree NULL 0) Bump.init.
Definition ex_empty : astore Bump.t := Astore (as_nodes ex_nil) (Atree ex_sentinel 0) Bump.init.
Definition ex_insert (xs : list Z) (s : astore Bump.t) : option (unit * astore Bump.t) :=
  (foldr (fun x m => _ ← atree_insert ex_sentinel ex_key x; m) (mret tt) xs) s.

Lemma ex_nil_ok : holds_tree ex_sentinel ex_empty AA.E.
Proof.
  destruct (atree_init_ok ex_sentinel (as_nodes ex_nil) (Atree NULL 0) Bump.init) as (s & Hrun & Hs).
  - split; [done|]. split; [done|]. by exists NULL.
  - apply Bump.bump_init_inv.
  - by injection Hrun as <-.
Qed.

Lemma atree_insert_refines_witness : exists node s' t',
  atree_insert ex_sentinel ex_key 7 ex_empty = Some (node, s') /\ holds_tree ex_sentinel s' t' /\
  AA.nodes t' = [(node, 7)].
Proof.
  destruct (atree_insert_refines ex_sentinel ex_key ex_empty AA.E 7 ex_nil_ok) as
    (node & s' & t' & b & e & Hrun & _ & Hs & _ & _ & Hn & Hn' & _).
  - constructor.
  - constructor.
  - unfold AA.key_ok, ex_key. lia.
  - exact I.
  - intros p a' [= <- _]. done.
  - done.
  - exists node, s', t'. split; [exact Hrun|]. split; [exact Hs|]. rewrite Hn'.
    symmetry in Hn. by apply app_nil in Hn as [-> ->].
Defined.

Definition ex_five : option (unit * astore Bump.t) := ex_insert [5; 3; 8; 1; 4] ex_empty.
Definition ex_store : astore Bump.t := match ex_five with Some (_, s) => s | None => ex_empty end.
Definition ex_tree : AA.tree :=
  Eval vm_compute in fold_left (fun t (kx : Z * Z) => AA.insert ex_key kx.1 kx.2 t)
    [(0x1000, 5); (0x1080, 3); (0x1100, 8); (0x1180, 1); (0x1200, 4)] AA.E.
Example ex_tree_nodes : AA.nodes ex_tree = [(0x1180, 1); (0x1080, 3); (0x1200, 4); (0x1000, 5); (0x1100, 8)].
Proof. reflexivity. Qed.

Lemma ex_store_ok : holds_tree ex_sentinel ex_store ex_tree.
Proof.
  split; [split| | | | | |].
  - exact I.
  - vm_compute. repeat (split || done).
  - decide_vm.
  - split; [done|]. split; [reflexivity|]. eexists. vm_compute. reflexivity.
  - reflexivity.
  - reflexivity.
  - vm_compute. repeat (split || done || (left; done) || (right; done)).
  - done.
  - split; [done|]. intros p Hp.
    assert (Hall : Forall (fun p => p < Bump.b_next (as_slab ex_store)) (elements (Bump.b_live (as_slab ex_store)))) by decide_vm.
    rewrite Forall_forall in Hall. by apply Hall, elem_of_elements.
  - intros k Hk. assert (Hall : Forall (fun k => k ∈ Bump.b_live (as_slab ex_store)) (AA.ids ex_tree)) by decide_vm.
    rewrite Forall_forall in Hall. by apply Hall.
Qed.

(** removing the node of data 3: the data of its predecessor move into it *)
Lemma atree_remove_refines_witness : exists s' t',
  atree_remove ex_sentinel 0x1080 ex_store = Some (tt, s') /\ holds_tree ex_sentinel s' t' /\
  AA.contents t' = [1; 4; 5; 8].
Proof.
  destruct (atree_remove_refines ex_sentinel ex_key ex_store ex_tree 0x1080 3 [(0x1180, 1)]
    [(0x1200, 4); (0x1000, 5); (0x1100, 8)] ex_store_ok ex_tree_nodes) as (s' & t' & v & Hrun & Hs & Hc & _).
  exists s', t'. split; [exact Hrun|]. split; [exact Hs|exact Hc].
Defined.
