(* ===== verification/AndTreeWalk.v ===== *)
(** Reading the balanced trees of [src/klib/andtree.c]: the searches, the walk
    in order and the check of [AndTree] run on the tree that the heap holds,
    and compute the functions of [AATree]. *)
From S2P Require Export AndTree.

(** ** Searches give nodes of the tree *)

Section found.
Context (get_key : Z -> Z).

Lemma find_at_least_in key t p : AA.find_at_least get_key key t = Some p -> p ∈ AA.nodes t.
Proof.
  revert p. induction t as [|i lv l IHl d r IHr]; intros p; [done|]. cbn [AA.find_at_least AA.nodes]. cbn zeta.
  rewrite elem_of_app, elem_of_cons. destruct (_ =? 0); [intros [= <-]; tauto|].
  destruct (_ <=? 0); destruct (_ <? 0); try (intros H; naive_solver).
  - destruct (AA.find_at_least get_key key l) as [[j e]|]; [destruct (_ <? _)|]; intros [= <-]; naive_solver.
  - destruct (AA.find_at_least get_key key r) as [[j e]|]; [destruct (_ <? _)|]; intros [= <-]; naive_solver.
Qed.

Lemma find_dupe_in x t p : AA.find_dupe get_key x t = Some p -> p ∈ AA.nodes t.
Proof.
  revert p. induction t as [|i lv l IHl d r IHr]; intros p; [done|]. cbn [AA.find_dupe AA.nodes]. cbn zeta.
  rewrite elem_of_app, elem_of_cons. destruct (d =? x); [intros [= <-]; tauto|].
  destruct (_ <=? 0); destruct (_ =? 0); try (intros H; naive_solver);
    destruct (AA.find_dupe get_key x l) as [?|]; try (intros [= <-]; naive_solver);
    destruct (AA.find_dupe get_key x r) as [?|]; intros; simplify_eq; naive_solver.
Qed.
End found.

Section walks.
Context {A : Type} `{!Allocator A}.
Context (sentinel : Z).
Implicit Types (h : gmap Z anode) (t l r : AA.tree) (c : list frame) (tr : atree) (a : A).

Abbreviation ptr := (AA.root_id sentinel).
Abbreviation tree_in := (tree_in sentinel).
Abbreviation ctx_in := (ctx_in sentinel).
Abbreviation zip := (zip sentinel).

Lemma node_in h p t i d :
  tree_in h p t -> (i, d) ∈ AA.nodes t -> real sentinel i /\ exists n, h !! i = Some n /\ an_data n = d /\ 0 < an_level n.
Proof.
  revert p. induction t as [|j lv l IHl e r IHr]; intros p; [by intros _ ?%not_elem_of_nil|].
  intros (Hj & Hlv & Hn & Hl & Hr). cbn [AA.nodes]. rewrite elem_of_app, elem_of_cons.
  intros [H|[[= -> ->]|H]]; [by eapply IHl| |by eapply IHr]. split; [done|]. eexists. split; [done|]. simpl. lia.
Qed.

(** ** The walk in order *)

Fixpoint before c : list (Z * Z) :=
  match c with
  | [] => []
  | f :: c => before c ++ (if fr_side f then AA.nodes (fr_other f) ++ [(fr_id f, fr_data f)] else [])
  end.
Fixpoint after c : list (Z * Z) :=
  match c with
  | [] => []
  | f :: c => (if fr_side f then [] else (fr_id f, fr_data f) :: AA.nodes (fr_other f)) ++ after c
  end.

Lemma nodes_plugs c t : AA.nodes (plugs c t) = before c ++ AA.nodes t ++ after c.
Proof.
  revert t. induction c as [|f c IH]; intros t; [by rewrite app_nil_r|]. rewrite plugs_cons, IH. cbn [before after].
  unfold plug. destruct (fr_side f); cbn [AA.nodes]; by rewrite <- ?app_assoc, ?app_nil_r.
Qed.

(** a node has its parent on the side of its frame only *)
Lemma frame_leaf h c f t dir :
  zip h (f :: c) t -> t <> AA.E ->
  (leaf dir (frame_node sentinel (parent_of c) (ptr t) f) =? ptr t) = eqb dir (fr_side f).
Proof.
  intros Hz Ht. pose proof Hz as [(_ & _ & _ & Ho & _) Htt Hnd _].
  assert (Hne : ptr (fr_other f) <> ptr t).
  { destruct t as [|i lv l d r]; [done|]. destruct Htt as ([_ Hi] & _). simpl. intros Heq.
    destruct (fr_other f) as [|j lj x e y] eqn:Hf; [done|]. simpl in Heq. subst j.
    apply NoDup_app in Hnd as (_ & Hd & _). apply (Hd i).
    - rewrite ctx_ids_cons, Hf, AA.ids_cons, !elem_of_cons, !elem_of_app, elem_of_cons. tauto.
    - rewrite AA.ids_cons, elem_of_app, elem_of_cons. tauto. }
  unfold frame_node. destruct dir, (fr_side f); simpl; rewrite ?Z.eqb_refl; try done; by apply Z.eqb_neq.
Qed.

Lemma climb_ok fuel h tr a c t :
  zip h c t -> t <> AA.E -> (length c < fuel)%nat ->
  climb fuel RIGHT (ptr t) (parent_of c) (Astore h tr a) = Some (id_of (head (after c)), Astore h tr a) /\
  climb fuel LEFT (ptr t) (parent_of c) (Astore h tr a) = Some (id_of (last (before c)), Astore h tr a).
Proof.
  revert c t. induction fuel as [|fuel IH]; intros c t Hz Ht Hfuel; [lia|]. cbn [climb].
  pose proof Hz as [Hc _ _ _]. rewrite !(ST_run _ _ _ _ _ (is_nil_parent _ _ _ _ _ _ Hc)).
  destruct c as [|f c]; [done|]. rewrite bool_decide_false by done. destruct Hc as (_ & _ & Hn & _).
  change (parent_of (f :: c)) with (fr_id f). rewrite !(ST_run _ _ _ _ _ (node_get_ok _ _ _ _ _ Hn)).
  rewrite !(frame_leaf h) by done. apply zip_plug in Hz. simpl in Hfuel.
  destruct (IH c (plug f t) Hz (plug_E f t) ltac:(lia)) as [HR HL]. rewrite ptr_plug in *.
  assert (Hp : an_parent (frame_node sentinel (parent_of c) (ptr t) f) = parent_of c)
    by (unfold frame_node; by destruct (fr_side f)).
  rewrite Hp. cbn [before after]. destruct (fr_side f); cbn [eqb RIGHT LEFT].
  - split; [exact HR|]. by rewrite app_assoc, last_snoc.
  - split; [done|]. by rewrite app_nil_r.
Qed.

Lemma zip_climb h tr a c t :
  zip h c t -> t <> AA.E ->
  with_fuel (fun fuel => climb fuel RIGHT (ptr t) (parent_of c)) (Astore h tr a) =
    Some (id_of (head (after c)), Astore h tr a) /\
  with_fuel (fun fuel => climb fuel LEFT (ptr t) (parent_of c)) (Astore h tr a) =
    Some (id_of (last (before c)), Astore h tr a).
Proof.
  intros Hz Ht. apply climb_ok; [done|done|]. cbn [as_nodes].
  pose proof (zip_size _ _ _ _ Hz). pose proof (length_ctx c). lia.
Qed.

Lemma step_ok h tr a t i d front back :
  zip h [] t -> AA.nodes t = front ++ (i, d) :: back ->
  atree_next i (Astore h tr a) = Some (id_of (head back), Astore h tr a) /\
  atree_previous i (Astore h tr a) = Some (id_of (last front), Astore h tr a).
Proof.
  intros Hz Hnodes. assert (Hi : i ∈ AA.ids t).
  { unfold AA.ids. rewrite Hnodes, fmap_app. csimpl. rewrite elem_of_app, elem_of_cons. tauto. }
  pose proof Hz as [_ _ Hnd0 _]. unfold AA.ids in Hnd0. simpl in Hnd0.
  destruct (focus_at i t Hi) as (c & lv & l & e & r & ->). rewrite nodes_plugs in *. cbn [AA.nodes] in *.
  apply (zip_plugs sentinel h c []) in Hz. rewrite app_nil_r in Hz.
  rewrite <- app_assoc in Hnodes, Hnd0. simpl in Hnodes, Hnd0. rewrite (app_assoc (before c)) in Hnodes, Hnd0.
  apply nodup_middle in Hnodes as (<- & <- & <-); [|done].
  destruct (zip_get _ _ _ _ _ _ _ _ Hz) as ([Hi0 _] & _ & Hn & Hl & Hr).
  destruct (zip_climb h tr a c (AA.N i lv l e r) Hz) as [HcR HcL]; [done|]. simpl ptr in *.
  pose proof Hz as [_ _ Hnd Hs]. apply NoDup_app in Hnd as (_ & _ & Hnd). rewrite AA.ids_cons in Hnd.
  apply NoDup_app in Hnd as (Hndl & _ & Hndr). apply NoDup_cons in Hndr as [_ Hndr].
  destruct (find_ends_ok _ h tr a i l Hs Hl Hndl) as [_ Hmax]. destruct (find_ends_ok _ h tr a i r Hs Hr Hndr) as [Hmin _].
  unfold atree_next, atree_previous. rewrite (proj2 (Z.eqb_neq _ _) Hi0).
  rewrite !(ST_run _ _ _ _ _ (node_get_ok _ _ _ _ _ Hn)). cbn [leaf LEFT RIGHT an_left an_right an_parent].
  rewrite (ST_run _ _ _ _ _ Hmin), (ST_run _ _ _ _ _ Hmax), AA.min_node_head, AA.max_node_last.
  assert (Hnil : forall j f u, tree_in h i u -> (j, f) ∈ AA.nodes u ->
    is_nil j (Astore h tr a) = Some (false, Astore h tr a)).
  { intros j f u Hu Hj. destruct (node_in _ _ _ _ _ Hu Hj) as ([Hj0 _] & nj & Hnj & _ & Hlj).
    rewrite (is_nil_node _ _ _ _ _ Hj0 Hnj). by rewrite (proj2 (Z.eqb_neq _ 0)) by lia. }
  rewrite (head_app (AA.nodes r)), (last_app (before c)).
  split.
  - destruct (AA.nodes r) as [|[j f] rest] eqn:Hrn; cbn [head id_of].
    + by rewrite (ST_run (is_nil NULL) _ _ true (Astore h tr a)) by done.
    + rewrite (ST_run _ _ _ _ _ (Hnil j f r Hr ltac:(rewrite Hrn; apply elem_of_cons; by left))). done.
  - destruct (last (AA.nodes l)) as [[j f]|] eqn:Hln; cbn [id_of].
    + apply last_Some_elem_of in Hln. by rewrite (ST_run _ _ _ _ _ (Hnil j f l Hl Hln)).
    + by rewrite (ST_run (is_nil NULL) _ _ true (Astore h tr a)) by done.
Qed.

(** ** The check *)

(** what [check_tree] tests, on the value *)
Definition leaf_ok (lv : Z) t : bool := is_E t || negb (AA.level t <? lv - 1) && negb (lv <? AA.level t).
Fixpoint tree_ok t : bool :=
  match t with
  | AA.E => true
  | AA.N _ lv l _ r =>
      tree_ok l && tree_ok r &&
      (if 1 <? lv then negb (is_E l && is_E r) && leaf_ok lv l && leaf_ok lv r else true) &&
      negb (AA.level l =? lv) && negb (AA.level (AA.right_of r) =? lv)
  end.

Lemma check_leaf_ok h tr a p t lv :
  sentinel_in sentinel h -> tree_in h p t -> 1 < lv < 2 ^ 32 ->
  check_leaf lv (ptr t) (Astore h tr a) = Some (leaf_ok lv t, Astore h tr a).
Proof.
  intros Hs Ht Hlv. unfold check_leaf, leaf_ok. rewrite (ST_run _ _ _ _ _ (is_nil_tree _ _ _ _ _ _ Hs Ht)).
  destruct (is_E t); [done|]. destruct (level_get _ h tr a p t Hs Ht) as (n & Hget & Hl & _).
  rewrite (ST_run _ _ _ _ _ Hget), Hl. by rewrite w32_small by lia.
Qed.

Lemma check_tree_ok fuel h tr a p t :
  sentinel_in sentinel h -> tree_in h p t -> (AA.size t < fuel)%nat ->
  check_tree fuel (ptr t) (Astore h tr a) = Some (tree_ok t, Astore h tr a).
Proof.
  intros Hs. revert p t. induction fuel as [|fuel IH]; intros p t Ht Hfuel; [lia|].
  cbn [check_tree]. rewrite (ST_run _ _ _ _ _ (is_nil_tree _ _ _ _ _ _ Hs Ht)).
  destruct t as [|i lv l d r]; [done|]. destruct Ht as (_ & Hlv & Hn & Hl & Hr). cbn [is_E]. simpl in Hfuel.
  change (ptr (AA.N i lv l d r)) with i. rewrite (ST_run _ _ _ _ _ (node_get_ok _ _ _ _ _ Hn)).
  cbn [leaf LEFT RIGHT an_left an_right an_level].
  rewrite (ST_run _ _ _ _ _ (IH i l Hl ltac:(lia))), (ST_run _ _ _ _ _ (IH i r Hr ltac:(lia))).
  rewrite (ST_run _ _ _ _ _ (is_nil_tree _ _ _ _ _ _ Hs Hl)), (ST_run _ _ _ _ _ (is_nil_tree _ _ _ _ _ _ Hs Hr)).
  assert (Hin : (if 1 <? lv then a' ← check_leaf lv (ptr l); b ← check_leaf lv (ptr r);
                                mret (negb (is_E l && is_E r) && a' && b) else mret true) (Astore h tr a) =
    Some (if 1 <? lv then negb (is_E l && is_E r) && leaf_ok lv l && leaf_ok lv r else true, Astore h tr a)).
  { destruct (Z.ltb_spec 1 lv); [|done].
    by rewrite (ST_run _ _ _ _ _ (check_leaf_ok _ _ _ i l lv Hs Hl ltac:(lia))),
      (ST_run _ _ _ _ _ (check_leaf_ok _ _ _ i r lv Hs Hr ltac:(lia))). }
  rewrite (ST_run _ _ _ _ _ Hin).
  destruct (level_get _ h tr a i l Hs Hl) as (nl & Hgl & Hll & _).
  destruct (level_get _ h tr a i r Hs Hr) as (nr & Hgr & _ & _ & Hrr).
  assert (Htr : exists q, tree_in h q (AA.right_of r)) by (destruct r; [by exists i|eexists; apply Hr]).
  destruct Htr as [q Htr]. destruct (level_get _ h tr a q _ Hs Htr) as (nrr & Hgrr & Hlrr & _).
  rewrite (ST_run _ _ _ _ _ Hgl), (ST_run _ _ _ _ _ Hgr), Hrr, (ST_run _ _ _ _ _ Hgrr), Hll, Hlrr. done.
Qed.

Lemma leaf_ok_spec lv t : AA.level t = lv - 1 \/ AA.level t = lv -> leaf_ok lv t = true.
Proof.
  intros Hl. unfold leaf_ok. apply orb_true_iff. right. apply andb_true_iff.
  rewrite !negb_true_iff, !Z.ltb_ge. lia.
Qed.

Lemma aa_tree_ok t : AA.aa t -> tree_ok t = true.
Proof.
  induction t as [|i lv l IHl d r IHr]; [done|]. intros (? & ? & ? & ? & Hl & Hr). cbn [tree_ok].
  rewrite IHl, IHr by done.
  rewrite (proj2 (Z.eqb_neq (AA.level l) lv)), (proj2 (Z.eqb_neq (AA.level (AA.right_of r)) lv)) by lia. cbn [andb negb]. rewrite !andb_true_r.
  destruct (Z.ltb_spec 1 lv); [|done]. rewrite !leaf_ok_spec, !andb_true_r by lia.
  destruct l; [simpl in *; lia|done].
Qed.

Lemma count_nodes_ok fuel h tr a p t :
  sentinel_in sentinel h -> tree_in h p t -> (AA.size t < fuel)%nat -> Z.of_nat (AA.size t) < 2 ^ 32 ->
  count_nodes fuel (ptr t) (Astore h tr a) = Some (Z.of_nat (AA.size t), Astore h tr a).
Proof.
  intros Hs. revert p t. induction fuel as [|fuel IH]; intros p t Ht Hfuel Hsz; [lia|].
  cbn [count_nodes]. rewrite (ST_run _ _ _ _ _ (is_nil_tree _ _ _ _ _ _ Hs Ht)).
  destruct t as [|i lv l d r]; [done|]. destruct Ht as (_ & Hlv & Hn & Hl & Hr). cbn [is_E]. simpl in Hfuel, Hsz.
  change (ptr (AA.N i lv l d r)) with i. rewrite (ST_run _ _ _ _ _ (node_get_ok _ _ _ _ _ Hn)).
  cbn [leaf LEFT RIGHT an_left an_right]. rewrite (ST_run _ _ _ _ _ (IH i l Hl ltac:(lia) ltac:(lia))).
  rewrite (ST_run _ _ _ _ _ (IH i r Hr ltac:(lia) ltac:(lia))). simpl AA.size.
  rewrite (w32_small (Z.of_nat (AA.size l) + _)), w32_small by lia. unfold mret, ST_ret. do 2 f_equal. lia.
Qed.

(** ** Searching *)

Context (get_key : Z -> Z).

Lemma compare_ok h tr a i n key :
  h !! i = Some n ->
  compare_node get_key key i (Astore h tr a) = Some (AA.atree_compare get_key key (an_data n), Astore h tr a).
Proof. intros Hn. unfold compare_node. by rewrite (ST_run _ _ _ _ _ (node_get_ok _ _ _ _ _ Hn)). Qed.

Lemma leaf_direction diff p l r lv d :
  leaf (direction diff) (Anode p (ptr l) (ptr r) lv d) = ptr (if diff <=? 0 then l else r).
Proof. unfold direction. by destruct (diff <=? 0). Qed.

Lemma find_key_loop_ok fuel h tr a p t key :
  sentinel_in sentinel h -> tree_in h p t -> (AA.size t < fuel)%nat ->
  find_key_loop get_key fuel key (ptr t) (Astore h tr a) =
    Some (id_of (AA.find_key get_key key t), Astore h tr a).
Proof.
  intros Hs. revert p t. induction fuel as [|fuel IH]; intros p t Ht Hfuel; [lia|].
  cbn [find_key_loop]. rewrite (ST_run _ _ _ _ _ (is_nil_tree _ _ _ _ _ _ Hs Ht)).
  destruct t as [|i lv l d r]; [done|]. destruct Ht as (_ & _ & Hn & Hl & Hr). cbn [is_E]. simpl in Hfuel.
  change (ptr (AA.N i lv l d r)) with i. rewrite (ST_run _ _ _ _ _ (compare_ok _ _ _ _ _ _ Hn)).
  cbn [an_data AA.find_key]. cbn zeta. destruct (_ =? 0); [done|].
  rewrite (ST_run _ _ _ _ _ (node_get_ok _ _ _ _ _ Hn)), leaf_direction.
  destruct (_ <=? 0); (rewrite (IH i); [done|done|lia]).
Qed.

Lemma find_dupe_ok fuel h tr a p t x :
  sentinel_in sentinel h -> tree_in h p t -> (AA.size t < fuel)%nat ->
  atree_find_dupe_data get_key fuel (ptr t) x (Astore h tr a) =
    Some (id_of (AA.find_dupe get_key x t), Astore h tr a).
Proof.
  intros Hs. revert p t. induction fuel as [|fuel IH]; intros p t Ht Hfuel; [lia|].
  cbn [atree_find_dupe_data]. rewrite (ST_run _ _ _ _ _ (is_nil_tree _ _ _ _ _ _ Hs Ht)).
  destruct t as [|i lv l d r]; [done|]. destruct Ht as (_ & _ & Hn & Hl & Hr). cbn [is_E]. simpl in Hfuel.
  change (ptr (AA.N i lv l d r)) with i. rewrite (ST_run _ _ _ _ _ (node_get_ok _ _ _ _ _ Hn)).
  cbn [an_data AA.find_dupe]. cbn zeta. destruct (d =? x); [done|].
  rewrite (ST_run _ _ _ _ _ (compare_ok _ _ _ _ _ _ Hn)), leaf_direction. cbn [an_data leaf LEFT RIGHT an_left an_right].
  pose proof (IH i l Hl ltac:(lia)) as Hrl. pose proof (IH i r Hr ltac:(lia)) as Hrr.
  assert (Hagain : forall b : bool, atree_find_dupe_data get_key fuel (ptr (if b then l else r)) x (Astore h tr a) =
    Some (id_of (if b then AA.find_dupe get_key x l else AA.find_dupe get_key x r), Astore h tr a)) by by intros [].
  assert (Hnz : forall u i', tree_in h i' u -> negb (id_of (AA.find_dupe get_key x u) =? NULL) =
    match AA.find_dupe get_key x u with Some _ => true | None => false end).
  { intros u i' Hu. destruct (AA.find_dupe get_key x u) as [[j e]|] eqn:He; [|done]. simpl.
    apply find_dupe_in in He. destruct (node_in _ _ _ _ _ Hu He) as [[Hj _] _]. by rewrite (proj2 (Z.eqb_neq _ _) Hj). }
  destruct (_ =? 0) eqn:Hd0; [|apply Hagain].
  rewrite (ST_run _ _ _ _ _ Hrl), (Hnz l i Hl). destruct (AA.find_dupe get_key x l) as [[? ?]|]; [done|].
  rewrite (ST_run _ _ _ _ _ Hrr), (Hnz r i Hr). destruct (AA.find_dupe get_key x r) as [[? ?]|]; [done|].
  apply Hagain.
Qed.

Lemma find_data_loop_ok fuel h tr a p t x :
  sentinel_in sentinel h -> tree_in h p t -> NoDup (AA.ids t) -> (AA.size t < fuel)%nat ->
  find_data_loop get_key fuel (ptr t) x (Astore h tr a) =
    Some (id_of (AA.find_data get_key x t), Astore h tr a).
Proof.
  intros Hs. revert p t. induction fuel as [|fuel IH]; intros p t Ht Hnd Hfuel; [lia|].
  cbn [find_data_loop]. rewrite (ST_run _ _ _ _ _ (is_nil_tree _ _ _ _ _ _ Hs Ht)).
  destruct t as [|i lv l d r]; [done|]. pose proof Ht as (_ & _ & Hn & Hl & Hr). cbn [is_E].
  change (ptr (AA.N i lv l d r)) with i. rewrite (ST_run _ _ _ _ _ (compare_ok _ _ _ _ _ _ Hn)).
  cbn [an_data AA.find_data]. cbn zeta. destruct (_ =? 0) eqn:Hd0.
  - pose proof (tree_size _ _ _ _ Ht Hnd). unfold with_fuel. apply (find_dupe_ok _ _ _ _ p (AA.N i lv l d r)); [done|done|].
    cbn [as_nodes]. lia.
  - rewrite (ST_run _ _ _ _ _ (node_get_ok _ _ _ _ _ Hn)), leaf_direction. simpl in Hfuel.
    rewrite AA.ids_cons in Hnd. apply NoDup_app in Hnd as (? & _ & Hnd). apply NoDup_cons in Hnd as [_ ?].
    destruct (_ <=? 0); (rewrite (IH i); [done|done|done|lia]).
Qed.

Lemma find_at_least_ok fuel h tr a p t key :
  sentinel_in sentinel h -> tree_in h p t -> (AA.size t < fuel)%nat ->
  do_find_at_least get_key fuel (ptr t) key (Astore h tr a) =
    Some (id_of (AA.find_at_least get_key key t), Astore h tr a).
Proof.
  intros Hs. revert p t. induction fuel as [|fuel IH]; intros p t Ht Hfuel; [lia|].
  cbn [do_find_at_least]. rewrite (ST_run _ _ _ _ _ (is_nil_tree _ _ _ _ _ _ Hs Ht)).
  destruct t as [|i lv l d r]; [done|]. destruct Ht as (_ & _ & Hn & Hl & Hr). cbn [is_E]. simpl in Hfuel.
  change (ptr (AA.N i lv l d r)) with i. rewrite (ST_run _ _ _ _ _ (compare_ok _ _ _ _ _ _ Hn)).
  cbn [an_data AA.find_at_least]. cbn zeta. set (diff := AA.atree_compare get_key key d).
  destruct (diff =? 0); [done|].
  rewrite (ST_run _ _ _ _ _ (node_get_ok _ _ _ _ _ Hn)), leaf_direction.
  set (u := if diff <=? 0 then l else r). assert (Hu : tree_in h i u) by (unfold u; by destruct (_ <=? 0)).
  assert (Hres : (if diff <=? 0 then AA.find_at_least get_key key l else AA.find_at_least get_key key r) =
    AA.find_at_least get_key key u) by (unfold u; by destruct (_ <=? 0)).
  rewrite (ST_run _ _ _ _ _ (IH i u Hu ltac:(unfold u; destruct (_ <=? 0); lia))), Hres.
  destruct (diff <? 0); [|done].
  destruct (AA.find_at_least get_key key u) as [[j e]|] eqn:He; [|done]. cbn [id_of].
  apply find_at_least_in in He. destruct (node_in _ _ _ _ _ Hu He) as ([Hj _] & nj & Hnj & Hdj & _).
  rewrite (proj2 (Z.eqb_neq _ _) Hj), (ST_run _ _ _ _ _ (compare_ok _ _ _ _ _ _ Hnj)), Hdj. by destruct (diff <? _).
Qed.

End walks.

(** * Properties *)

Section properties.
Context {A : Type} `{!Allocator A}.
Context (sentinel : Z).

Lemma holds_parts (s : astore A) t :
  holds_tree sentinel s t ->
  as_tree s = Atree (AA.root_id sentinel t) (Z.of_nat (AA.size t)) /\ tree_in sentinel (as_nodes s) NULL t /\
  sentinel_in sentinel (as_nodes s) /\ NoDup (AA.ids t) /\ (AA.size t < S (base.size (as_nodes s)))%nat.
Proof.
  intros [[_ Ht Hnd Hs] Hr Hc _ _ _ _]. simpl in *. split_and!; try done.
  - destruct s as [h [root n] a]. simpl in *. by subst.
  - pose proof (tree_size _ _ _ _ Ht Hnd). lia.
Qed.

(** C16: the walk visits the nodes in order: [atree_start] and [atree_end] give
    the first and the last one, [atree_next] and [atree_previous] the
    neighbours of a node, and each gives NULL when there is none. *)
Theorem atree_walk_in_order (s : astore A) t :
  holds_tree sentinel s t ->
  atree_start s = Some (id_of (head (AA.nodes t)), s) /\
  atree_end s = Some (id_of (last (AA.nodes t)), s) /\
  forall front i d back, AA.nodes t = front ++ (i, d) :: back ->
    atree_next i s = Some (id_of (head back), s) /\ atree_previous i s = Some (id_of (last front), s).
Proof.
  intros Hs. destruct (holds_parts s t Hs) as (Htr & Ht & Hsent & Hnd & Hfuel).
  destruct (find_ends_ok sentinel (as_nodes s) (as_tree s) (as_slab s) NULL t Hsent Ht Hnd) as [Hmin Hmax].
  rewrite AA.min_node_head in Hmin. rewrite AA.max_node_last in Hmax. pose proof (ht_zip _ _ _ Hs) as Hz.
  destruct s as [h tr a]. simpl in *. subst tr. split; [exact Hmin|]. split; [exact Hmax|].
  intros front i d back Hn. by apply (step_ok sentinel h _ a t i d front back).
Qed.

(** C17: the assertions that [ATREE_CHECK_OPS] compiles into [atree_insert] and
    [atree_remove] hold of every tree these build: [atree_check] answers true
    and [count_nodes] agrees with the count kept. *)
Theorem atree_checks_pass (s : astore A) t :
  holds_tree sentinel s t ->
  atree_check s = Some (true, s) /\
  with_fuel (fun fuel => count_nodes fuel (at_root (as_tree s))) s = Some (at_nodes (as_tree s), s).
Proof.
  intros Hs. destruct (holds_parts s t Hs) as (Htr & Ht & Hsent & Hnd & Hfuel). pose proof (ht_size _ _ _ Hs) as Hsz.
  pose proof (ht_aa _ _ _ Hs) as Haa. destruct s as [h tr a]. simpl in *. subst tr. split.
  - unfold atree_check, root_get. rewrite (ST_run _ _ _ (AA.root_id sentinel t) (Astore h _ a)) by done.
    rewrite <- (aa_tree_ok t Haa). by apply (check_tree_ok sentinel _ _ _ _ NULL).
  - by apply (count_nodes_ok sentinel _ _ _ _ NULL).
Qed.

Context (get_key : Z -> Z).

(** C15: the searches do not fault, change nothing and find what they promise in
    a tree in order: [atree_find_key] a node with the key if there is one,
    [atree_find_data] the node of the data even among equal keys, and
    [atree_find_at_least] the node with the least key not under the one given. *)
Theorem atree_find_spec (s : astore A) t key x :
  holds_tree sentinel s t -> AA.ordered get_key t -> AA.keys_ok get_key t ->
  - 2 ^ 62 <= key < 2 ^ 62 -> AA.key_ok get_key x ->
  (exists r, atree_find_key get_key key s = Some (id_of r, s) /\ AA.found (fun d => get_key d = key) t r) /\
  (exists r, atree_find_data get_key x s = Some (id_of r, s) /\ AA.found (fun d => d = x) t r) /\
  (exists r, atree_find_at_least get_key key s = Some (id_of r, s) /\
     match r with
     | Some (i, d) => (i, d) ∈ AA.nodes t /\ key <= get_key d /\
         Forall (fun e => key <= get_key e -> get_key d <= get_key e) (AA.contents t)
     | None => Forall (fun e => get_key e < key) (AA.contents t)
     end).
Proof.
  intros Hs Hord Hok Hkey Hx. destruct (holds_parts s t Hs) as (Htr & Ht & Hsent & Hnd & Hfuel).
  destruct s as [h tr a]. simpl in *. subst tr. split_and!.
  - exists (AA.find_key get_key key t). split; [|by apply AA.find_key_spec].
    by apply (find_key_loop_ok _ _ _ _ _ _ NULL).
  - exists (AA.find_data get_key x t). split; [|by apply AA.find_data_spec].
    by apply (find_data_loop_ok _ _ _ _ _ _ NULL).
  - exists (AA.find_at_least get_key key t). split; [|by apply AA.find_at_least_spec].
    by apply (find_at_least_ok _ _ _ _ _ _ NULL).
Qed.

End properties.

(** [atree_check] looks at the levels below a node of level above 1 only, so
    the converse fails: it accepts a node of level 1 over one of level 3. *)
Lemma atree_check_accepts : exists t, tree_ok t = true /\ ~ AA.aa t.
Proof.
  exists (AA.N 1 1 AA.E 0 (AA.N 2 3 (AA.N 3 2 (AA.N 4 1 AA.E 0 AA.E) 0 AA.E) 0 AA.E)).
  split; [reflexivity|]. simpl. lia.
Qed.

Lemma atree_find_spec_witness : exists r,
  atree_find_at_least ex_key 6 ex_store = Some (id_of (Some r), ex_store) /\ r.2 = 8.
Proof.
  destruct (atree_find_spec ex_sentinel ex_key ex_store ex_tree 6 4 ex_store_ok) as (_ & _ & r & Hrun & Hr).
  - unfold AA.ordered. change (AA.contents ex_tree) with [1; 3; 4; 5; 8].
    repeat (constructor; [|repeat constructor; unfold AA.key_le, ex_key; lia]). constructor.
  - unfold AA.keys_ok. change (AA.contents ex_tree) with [1; 3; 4; 5; 8].
    repeat (constructor; [unfold AA.key_ok, ex_key; lia|]). constructor.
  - lia.
  - unfold AA.key_ok, ex_key. lia.
  - destruct r as [[i d]|].
    + exists (i, d). split; [exact Hrun|]. clear Hrun. destruct Hr as (Hin & Hge & Hall).
      unfold ex_key in *. simpl.
      pose proof (list_elem_of_fmap_2 snd _ _ Hin) as Hd. change (AA.nodes ex_tree).*2 with (AA.contents ex_tree) in Hd.
      change (AA.contents ex_tree) with [1; 3; 4; 5; 8] in *.
      rewrite Forall_forall in Hall. specialize (Hall 8 ltac:(decide_vm) ltac:(lia)).
      cbn [snd] in Hd. rewrite !elem_of_cons in Hd. destruct Hd as [->|[->|[->|[->|[->|Hd]]]]]; try lia. by apply not_elem_of_nil in Hd.
    + exfalso. clear Hrun. rewrite Forall_forall in Hr. specialize (Hr 8 ltac:(decide_vm)). unfold ex_key in Hr. lia.
Defined.

Lemma atree_walk_in_order_witness :
  atree_start ex_store = Some (0x1180, ex_store) /\ atree_end ex_store = Some (0x1100, ex_store) /\
  atree_next 0x1200 ex_store = Some (0x1000, ex_store) /\ atree_next 0x1100 ex_store = Some (NULL, ex_store).
Proof.
  destruct (atree_walk_in_order ex_sentinel ex_store ex_tree ex_store_ok) as (H1 & H2 & H3).
  split; [exact H1|]. split; [exact H2|]. split.
  - exact (proj1 (H3 [(0x1180, 1); (0x1080, 3)] 0x1200 4 [(0x1000, 5); (0x1100, 8)] eq_refl)).
  - exact (proj1 (H3 [(0x1180, 1); (0x1080, 3); (0x1200, 4); (0x1000, 5)] 0x1100 8 [] eq_refl)).
Defined.

Lemma atree_checks_pass_witness : atree_check ex_store = Some (true, ex_store) /\ at_nodes (as_tree ex_store) = 5.
Proof. split; [exact (proj1 (atree_checks_pass ex_sentinel ex_store ex_tree ex_store_ok))|reflexivity]. Defined.
