(* ===== verification/Resumption.v ===== *)
(** Computations that can give up the processor.

    [sched_do_thread_switch] returns when the scheduler comes back to the
    thread that called it, and other threads run in the meantime.  A run of
    kernel code is therefore a resumption: it is done, or it yields with what
    is left to do, to be given the state in which the thread runs again.
    [None] is a fault, as in [ST]. *)
From S2P Require Export Prelude.

#[warnings="-register-all"]
Inductive res (S A : Type) :=
  | Done (a : A) (s : S)
  | Yielded (s : S) (k : S -> option (res S A)).
Arguments Done {S A} _ _.
Arguments Yielded {S A} _ _.

Definition RST (S A : Type) : Type := S -> option (res S A).

Fixpoint res_bind {S A B} (f : A -> RST S B) (r : res S A) : option (res S B) :=
  match r with
  | Done a s => f a s
  | Yielded s k =>
      Some (Yielded s (fun s' => match k s' with Some r' => res_bind f r' | None => None end))
  end.

#[export] Instance RST_ret S : MRet (RST S) := fun A a s => Some (Done a s).
#[export] Instance RST_bind S : MBind (RST S) :=
  fun A B f m s => match m s with Some r => res_bind f r | None => None end.

(** a computation that does not give up the processor *)
Definition lift {S A} (m : ST S A) : RST S A :=
  fun s => match m s with Some (a, s') => Some (Done a s') | None => None end.

(** the switch to another thread, and the return from it *)
Definition yield_cpu {S} : RST S unit :=
  fun s => Some (Yielded s (fun s' => Some (Done tt s'))).

(** run a computation on a component of the state, wherever it gives up the
    processor *)
Fixpoint res_zoom {S T A} (g : T -> S) (p : S -> T -> T) (t : T) (r : res S A) : res T A :=
  match r with
  | Done a s => Done a (p s t)
  | Yielded s k =>
      Yielded (p s t) (fun t' => match k (g t') with Some r' => Some (res_zoom g p t' r') | None => None end)
  end.
Definition rzoom {S T A} (g : T -> S) (p : S -> T -> T) (m : RST S A) : RST T A :=
  fun t => match m (g t) with Some r => Some (res_zoom g p t r) | None => None end.

Definition rfault {S A} : RST S A := fun _ => None.
Definition rwhen {S} (b : bool) (m : RST S unit) : RST S unit :=
  if b then m else mret tt.

(** the state in which a computation first gives up the processor or ends *)
Definition res_state {S A} (r : res S A) : S :=
  match r with Done _ s => s | Yielded s _ => s end.

Section laws.
Context {S A B : Type}.
Implicit Types (m : RST S A) (f : A -> RST S B).

Lemma R_done m f s a s' : m s = Some (Done a s') -> (m ≫= f) s = f a s'.
Proof. unfold mbind, RST_bind. by intros ->. Qed.

Lemma R_yield m f s s' k :
  m s = Some (Yielded s' k) ->
  (m ≫= f) s = Some (Yielded s' (fun s => match k s with Some r => res_bind f r | None => None end)).
Proof. unfold mbind, RST_bind. by intros ->. Qed.

Lemma lift_Some (n : ST S A) s a s' : n s = Some (a, s') -> lift n s = Some (Done a s').
Proof. unfold lift. by intros ->. Qed.

Lemma R_lift (n : ST S A) f s a s' : n s = Some (a, s') -> (lift n ≫= f) s = f a s'.
Proof. intros H. by apply R_done, lift_Some. Qed.
(** a computation that runs as another does, with what follows it *)
Lemma R_same m n f s s' : m s = n s' -> (m ≫= f) s = (n ≫= f) s'.
Proof. unfold mbind, RST_bind. by intros ->. Qed.

Lemma rzoom_done {T} (g : T -> S) (p : S -> T -> T) m t a s :
  m (g t) = Some (Done a s) -> rzoom g p m t = Some (Done a (p s t)).
Proof. intros H. unfold rzoom. by rewrite H. Qed.
End laws.

(** ** The same runs

    Two runs are the same if they end alike, or yield in the same state and go
    on alike whatever state they are given. *)

Fixpoint res_equiv {S A} (r1 r2 : res S A) : Prop :=
  match r1, r2 with
  | Done a s, Done b t => a = b /\ s = t
  | Yielded s k, Yielded t l => s = t /\ forall x,
      match k x, l x with
      | Some r, Some r' => res_equiv r r'
      | None, None => True
      | _, _ => False
      end
  | _, _ => False
  end.
#[export] Instance res_equiv_equiv S A : Equiv (res S A) := res_equiv.
#[export] Instance RST_equiv S A : Equiv (RST S A) := fun m n => forall s, m s ≡ n s.

(** by cases on how both runs go on *)
Lemma yielded_equiv {S A} (s : S) (k l : S -> option (res S A)) : (forall x, k x ≡ l x) -> Yielded s k ≡ Yielded s l.
Proof. intros H. split; [done|]. intros x. specialize (H x). destruct H; done. Qed.

Section equiv.
Context {S A B C : Type}.
Implicit Types (r : res S A).

(** a run by what it does next *)
Definition res_next (P : res S A -> Prop) (Hd : forall a s, P (Done a s))
    (Hy : forall s k, (forall x, match k x with Some r => P r | None => True end) -> P (Yielded s k)) : forall r, P r :=
  fix go r := match r with
  | Done a s => Hd a s
  | Yielded s k => Hy s k (fun x => match k x as o return match o with Some r => P r | None => True end with
                                    | Some r => go r
                                    | None => I
                                    end)
  end.

#[export] Instance res_equivalence : Equivalence (≡@{res S A}).
Proof.
  split.
  - intros r. induction r as [a s|s k IH] using res_next; [done|]. apply yielded_equiv. intros x. specialize (IH x).
    destruct (k x); by constructor.
  - intros r. induction r as [a s|s k IH] using res_next; intros [b t|t l]; try done; [by intros [-> ->]|].
    intros [-> H]. split; [done|]. intros x. specialize (IH x). specialize (H x). destruct (k x), (l x); try done. by apply IH.
  - intros r. induction r as [a s|s k IH] using res_next; intros [b t|t l] [c u|u m]; try done; [by intros [-> ->] [-> ->]|].
    intros [-> H1] [-> H2]. split; [done|]. intros x. specialize (IH x). specialize (H1 x). specialize (H2 x).
    destruct (k x), (l x), (m x); try done. by eapply IH.
Qed.
#[export] Instance RST_equivalence : Equivalence (≡@{RST S A}).
Proof.
  split; [intros m s; reflexivity|intros m n H s; by symmetry|intros m n o H1 H2 s; by transitivity (n s)].
Qed.
End equiv.

Lemma equiv_of_eq {S A} (x y : option (res S A)) : x = y -> x ≡ y.
Proof. by intros ->. Qed.

Section bind.
Context {S A B C : Type}.

Lemma res_bind_equiv (f g : A -> RST S B) r1 r2 : (forall a, f a ≡ g a) -> r1 ≡ r2 -> res_bind f r1 ≡ res_bind g r2.
Proof.
  intros Hfg. revert r2. induction r1 as [a s|s k IH] using res_next; intros [b t|t l]; try done.
  - intros [-> ->]. apply Hfg.
  - intros [-> H]. simpl. constructor. apply yielded_equiv. intros x. specialize (IH x). specialize (H x).
    destruct (k x), (l x); try done. by apply IH.
Qed.

(** equal parts make equal computations *)
#[export] Instance RST_bind_proper : Proper (pointwise_relation A (≡) ==> (≡) ==> (≡)) (mbind (M := RST S) (A := A) (B := B)).
Proof.
  intros f g Hfg m n Hmn s. unfold mbind, RST_bind. specialize (Hmn s). destruct Hmn; [|constructor]. by apply res_bind_equiv.
Qed.

Lemma res_bind_assoc (f : A -> RST S B) (g : B -> RST S C) r :
  match res_bind f r with Some r' => res_bind g r' | None => None end ≡ res_bind (fun a => f a ≫= g) r.
Proof.
  induction r as [a s|s k IH] using res_next; [done|]. simpl. constructor. apply yielded_equiv. intros x. specialize (IH x).
  destruct (k x); [exact IH|constructor].
Qed.

Lemma R_assoc (m : RST S A) (f : A -> RST S B) (g : B -> RST S C) : (m ≫= f) ≫= g ≡ m ≫= (fun a => f a ≫= g).
Proof.
  intros s. unfold mbind at 1 3, RST_bind at 1 3. unfold mbind at 1, RST_bind at 1. destruct (m s) as [r|]; [|constructor]. apply res_bind_assoc.
Qed.
End bind.
