(* ===== verification/Kernel.v ===== *)
(** The data of the kernel proper: threads, messages, IPC endpoints, and the
    state the scheduler, the endpoints and the system calls share.

    Every slab and every global of the C files is a field; the capability
    spaces and the address spaces are the stores of [Capability] and
    [AddrSpace].  The queues of threads are lists, which the operations of
    [Queue] are shown to implement. *)
From S2P Require Export Alloc Sync Capability AddrSpace AATree Resumption.

Definition SCHED_MAX_CPUS : Z := 32.
Definition SCHED_STATE_RUNNING : Z := 0.
Definition SCHED_STATE_STOPPED : Z := 1.
Definition SCHED_STATE_WAITING : Z := 2.
Definition SCHED_STATE_WAITING_ASYNC : Z := 3.
Definition SCHED_STATE_SENDING : Z := 4.
Definition SCHED_STATE_SLEEPING : Z := 5.

Definition THREAD_DEFAULT_PRIORITY : Z := 2048.
Definition THREAD_FLAG_NONE : Z := 0.
Definition THREAD_FLAG_USER : Z := 1.
Definition THREAD_FLAG_PENDING_MSG : Z := 4.
Definition THREAD_FLAG_FAULTED : Z := 8.
Definition THREAD_FLAG_RUNNING : Z := 16.

Definition MESSAGE_TYPE_NOP : Z := 0.
Definition MESSAGE_TYPE_DEBUG_PRINT : Z := 1.
Definition MESSAGE_TYPE_GRANT_OBJECT : Z := 2.
Definition MESSAGE_TYPE_PAGE_FAULT : Z := 9.
Definition MESSAGE_TYPE_INTERRUPT : Z := 16.
Definition MESSAGE_TYPE_END_RESERVED : Z := 0x100.
Definition MESSAGE_ASYNC_BLOCK : Z := 1.
Definition MESSAGE_MAX_QUEUE_ELEMENTS : Z := 64.
Definition INTERRUPT_MAX : Z := 256.

Definition KOBJECT_TYPE_THREAD : Z := 5.

(** ** Messages and threads *)

Record message := Message { msg_type : Z; msg_sender : Z; msg_data : list Z }.

Definition set_msg_sender (v : Z) (m : message) : message := Message (msg_type m) v (msg_data m).
Definition set_msg_data (i : nat) (v : Z) (m : message) : message :=
  Message (msg_type m) (msg_sender m) (<[i := v]> (msg_data m)).
(** [msg->data[ i ]] *)
Definition msg_arg (i : nat) (m : message) : Z := default 0 (msg_data m !! i).
(** an initialiser names the first words; the others are 0 *)
Definition msg_init (type : Z) (data : list Z) : message :=
  Message type 0 (data ++ replicate (6 - length data) 0).

Record thread_regs := ThreadRegs {
  tr_ebp : Z; tr_esp : Z; tr_eip : Z; tr_do_user_switch : Z }.

Record thread := Thread {
  th_registers : thread_regs;
  th_kernel_stack : Z;
  th_object : kobject;
  th_runtime : Z;
  th_start_timestamp : Z;
  th_sleep_target : Z;
  th_addr_space : Z;
  th_cap_space : Z;
  th_pager : Z;
  th_id : Z;
  th_state : Z;
  th_flags : Z;
  th_priority : Z;
  th_message : message;
}.

Definition set_th_registers (v : thread_regs) (x : thread) : thread :=
  Thread v (th_kernel_stack x) (th_object x) (th_runtime x) (th_start_timestamp x) (th_sleep_target x) (th_addr_space x) (th_cap_space x) (th_pager x) (th_id x) (th_state x) (th_flags x) (th_priority x) (th_message x).
Definition set_th_kernel_stack (v : Z) (x : thread) : thread :=
  Thread (th_registers x) v (th_object x) (th_runtime x) (th_start_timestamp x) (th_sleep_target x) (th_addr_space x) (th_cap_space x) (th_pager x) (th_id x) (th_state x) (th_flags x) (th_priority x) (th_message x).
Definition set_th_object (v : kobject) (x : thread) : thread :=
  Thread (th_registers x) (th_kernel_stack x) v (th_runtime x) (th_start_timestamp x) (th_sleep_target x) (th_addr_space x) (th_cap_space x) (th_pager x) (th_id x) (th_state x) (th_flags x) (th_priority x) (th_message x).
Definition set_th_runtime (v : Z) (x : thread) : thread :=
  Thread (th_registers x) (th_kernel_stack x) (th_object x) v (th_start_timestamp x) (th_sleep_target x) (th_addr_space x) (th_cap_space x) (th_pager x) (th_id x) (th_state x) (th_flags x) (th_priority x) (th_message x).
Definition set_th_start_timestamp (v : Z) (x : thread) : thread :=
  Thread (th_registers x) (th_kernel_stack x) (th_object x) (th_runtime x) v (th_sleep_target x) (th_addr_space x) (th_cap_space x) (th_pager x) (th_id x) (th_state x) (th_flags x) (th_priority x) (th_message x).
Definition set_th_sleep_target (v : Z) (x : thread) : thread :=
  Thread (th_registers x) (th_kernel_stack x) (th_object x) (th_runtime x) (th_start_timestamp x) v (th_addr_space x) (th_cap_space x) (th_pager x) (th_id x) (th_state x) (th_flags x) (th_priority x) (th_message x).
Definition set_th_addr_space (v : Z) (x : thread) : thread :=
  Thread (th_registers x) (th_kernel_stack x) (th_object x) (th_runtime x) (th_start_timestamp x) (th_sleep_target x) v (th_cap_space x) (th_pager x) (th_id x) (th_state x) (th_flags x) (th_priority x) (th_message x).
Definition set_th_cap_space (v : Z) (x : thread) : thread :=
  Thread (th_registers x) (th_kernel_stack x) (th_object x) (th_runtime x) (th_start_timestamp x) (th_sleep_target x) (th_addr_space x) v (th_pager x) (th_id x) (th_state x) (th_flags x) (th_priority x) (th_message x).
Definition set_th_pager (v : Z) (x : thread) : thread :=
  Thread (th_registers x) (th_kernel_stack x) (th_object x) (th_runtime x) (th_start_timestamp x) (th_sleep_target x) (th_addr_space x) (th_cap_space x) v (th_id x) (th_state x) (th_flags x) (th_priority x) (th_message x).
Definition set_th_id (v : Z) (x : thread) : thread :=
  Thread (th_registers x) (th_kernel_stack x) (th_object x) (th_runtime x) (th_start_timestamp x) (th_sleep_target x) (th_addr_space x) (th_cap_space x) (th_pager x) v (th_state x) (th_flags x) (th_priority x) (th_message x).
Definition set_th_state (v : Z) (x : thread) : thread :=
  Thread (th_registers x) (th_kernel_stack x) (th_object x) (th_runtime x) (th_start_timestamp x) (th_sleep_target x) (th_addr_space x) (th_cap_space x) (th_pager x) (th_id x) v (th_flags x) (th_priority x) (th_message x).
Definition set_th_flags (v : Z) (x : thread) : thread :=
  Thread (th_registers x) (th_kernel_stack x) (th_object x) (th_runtime x) (th_start_timestamp x) (th_sleep_target x) (th_addr_space x) (th_cap_space x) (th_pager x) (th_id x) (th_state x) v (th_priority x) (th_message x).
Definition set_th_priority (v : Z) (x : thread) : thread :=
  Thread (th_registers x) (th_kernel_stack x) (th_object x) (th_runtime x) (th_start_timestamp x) (th_sleep_target x) (th_addr_space x) (th_cap_space x) (th_pager x) (th_id x) (th_state x) (th_flags x) v (th_message x).
Definition set_th_message (v : message) (x : thread) : thread :=
  Thread (th_registers x) (th_kernel_stack x) (th_object x) (th_runtime x) (th_start_timestamp x) (th_sleep_target x) (th_addr_space x) (th_cap_space x) (th_pager x) (th_id x) (th_state x) (th_flags x) (th_priority x) v.

Definition SET_FLAG (f : Z) (t : thread) : thread := set_th_flags (Z.lor (th_flags t) f) t.
Definition UNSET_FLAG (f : Z) (t : thread) : thread :=
  set_th_flags (Z.land (th_flags t) (w32 (Z.lnot f))) t.
Definition FLAG (t : thread) (f : Z) : bool := flag_set (th_flags t) f.

(** ** Endpoints *)

Record msg_queue := MsgQueue {
  mq_object : kobject;
  mq_recievers : list Z;
  mq_senders : list Z;
}.
Definition set_mq_object (v : kobject) (x : msg_queue) : msg_queue :=
  MsgQueue v (mq_recievers x) (mq_senders x).
Definition set_mq_recievers (v : list Z) (x : msg_queue) : msg_queue :=
  MsgQueue (mq_object x) v (mq_senders x).
Definition set_mq_senders (v : list Z) (x : msg_queue) : msg_queue :=
  MsgQueue (mq_object x) (mq_recievers x) v.

Record message_node := MessageNode { mn_next : Z; mn_message : message }.

Record msg_queue_async := MsgQueueAsync {
  ma_object : kobject;
  ma_recievers : list Z;
  ma_first : Z;
  ma_last : Z;
  ma_elements : Z;
}.
Definition set_ma_object (v : kobject) (x : msg_queue_async) : msg_queue_async :=
  MsgQueueAsync v (ma_recievers x) (ma_first x) (ma_last x) (ma_elements x).
Definition set_ma_recievers (v : list Z) (x : msg_queue_async) : msg_queue_async :=
  MsgQueueAsync (ma_object x) v (ma_first x) (ma_last x) (ma_elements x).
Definition set_ma_first (v : Z) (x : msg_queue_async) : msg_queue_async :=
  MsgQueueAsync (ma_object x) (ma_recievers x) v (ma_last x) (ma_elements x).
Definition set_ma_last (v : Z) (x : msg_queue_async) : msg_queue_async :=
  MsgQueueAsync (ma_object x) (ma_recievers x) (ma_first x) v (ma_elements x).
Definition set_ma_elements (v : Z) (x : msg_queue_async) : msg_queue_async :=
  MsgQueueAsync (ma_object x) (ma_recievers x) (ma_first x) (ma_last x) v.

(** ** The state of the kernel *)

Inductive io_event := PortOut (width port value : Z) | PutChar (c : Z) | MmioOut (addr value : Z).

Record kernel (A : Type) := Kernel {
  k_threads : gmap Z thread;
  k_thread_slab : A;
  k_thread_counter : Z;
  k_run_tree : AA.tree;  (** [sched_run_tree] *)
  k_sleep_tree : AA.tree;  (** [sched_sleep_tree] *)
  k_atree_slab : A;  (** the slab of the trees' nodes *)
  k_current : list Z;  (** [current_threads] *)
  k_idle : list Z;  (** [global_idle_threads] *)
  k_sched_lock : bool;
  k_reads : nat;  (** readings of the clock so far *)
  k_ipis : list Z;  (** processors sent an interrupt *)
  k_esp0 : Z;  (** [kernel_stack_get], the stack of the TSS *)
  k_syncs : gmap Z msg_queue;
  k_asyncs : gmap Z msg_queue_async;
  k_msg_nodes : gmap Z message_node;
  k_queue_slab : A;  (** [message_queue_slab] *)
  k_async_slab : A;  (** [message_queue_async_slab] *)
  k_node_slab : A;  (** [message_node_slab] *)
  k_listening : list Z;  (** [listening_endpoints] *)
  k_bufs : gmap Z message;  (** message buffers of the programs *)
  k_caps : cap_store A;
  k_spaces : space_store A;
  k_io : list io_event;  (** output to ports and to the console *)
}.
Arguments Kernel {A} _ _ _ _ _ _ _ _ _ _ _ _ _ _ _ _ _ _ _ _ _ _ _.
Arguments k_threads {A} _.
Arguments k_thread_slab {A} _.
Arguments k_thread_counter {A} _.
Arguments k_run_tree {A} _.
Arguments k_sleep_tree {A} _.
Arguments k_atree_slab {A} _.
Arguments k_current {A} _.
Arguments k_idle {A} _.
Arguments k_sched_lock {A} _.
Arguments k_reads {A} _.
Arguments k_ipis {A} _.
Arguments k_esp0 {A} _.
Arguments k_syncs {A} _.
Arguments k_asyncs {A} _.
Arguments k_msg_nodes {A} _.
Arguments k_queue_slab {A} _.
Arguments k_async_slab {A} _.
Arguments k_node_slab {A} _.
Arguments k_listening {A} _.
Arguments k_bufs {A} _.
Arguments k_caps {A} _.
Arguments k_spaces {A} _.
Arguments k_io {A} _.

Definition set_k_threads {A} (v : gmap Z thread) (x : kernel A) : kernel A :=
  Kernel v (k_thread_slab x) (k_thread_counter x) (k_run_tree x) (k_sleep_tree x) (k_atree_slab x) (k_current x) (k_idle x) (k_sched_lock x) (k_reads x) (k_ipis x) (k_esp0 x) (k_syncs x) (k_asyncs x) (k_msg_nodes x) (k_queue_slab x) (k_async_slab x) (k_node_slab x) (k_listening x) (k_bufs x) (k_caps x) (k_spaces x) (k_io x).
Definition set_k_thread_slab {A} (v : A) (x : kernel A) : kernel A :=
  Kernel (k_threads x) v (k_thread_counter x) (k_run_tree x) (k_sleep_tree x) (k_atree_slab x) (k_current x) (k_idle x) (k_sched_lock x) (k_reads x) (k_ipis x) (k_esp0 x) (k_syncs x) (k_asyncs x) (k_msg_nodes x) (k_queue_slab x) (k_async_slab x) (k_node_slab x) (k_listening x) (k_bufs x) (k_caps x) (k_spaces x) (k_io x).
Definition set_k_thread_counter {A} (v : Z) (x : kernel A) : kernel A :=
  Kernel (k_threads x) (k_thread_slab x) v (k_run_tree x) (k_sleep_tree x) (k_atree_slab x) (k_current x) (k_idle x) (k_sched_lock x) (k_reads x) (k_ipis x) (k_esp0 x) (k_syncs x) (k_asyncs x) (k_msg_nodes x) (k_queue_slab x) (k_async_slab x) (k_node_slab x) (k_listening x) (k_bufs x) (k_caps x) (k_spaces x) (k_io x).
Definition set_k_run_tree {A} (v : AA.tree) (x : kernel A) : kernel A :=
  Kernel (k_threads x) (k_thread_slab x) (k_thread_counter x) v (k_sleep_tree x) (k_atree_slab x) (k_current x) (k_idle x) (k_sched_lock x) (k_reads x) (k_ipis x) (k_esp0 x) (k_syncs x) (k_asyncs x) (k_msg_nodes x) (k_queue_slab x) (k_async_slab x) (k_node_slab x) (k_listening x) (k_bufs x) (k_caps x) (k_spaces x) (k_io x).
Definition set_k_sleep_tree {A} (v : AA.tree) (x : kernel A) : kernel A :=
  Kernel (k_threads x) (k_thread_slab x) (k_thread_counter x) (k_run_tree x) v (k_atree_slab x) (k_current x) (k_idle x) (k_sched_lock x) (k_reads x) (k_ipis x) (k_esp0 x) (k_syncs x) (k_asyncs x) (k_msg_nodes x) (k_queue_slab x) (k_async_slab x) (k_node_slab x) (k_listening x) (k_bufs x) (k_caps x) (k_spaces x) (k_io x).
Definition set_k_atree_slab {A} (v : A) (x : kernel A) : kernel A :=
  Kernel (k_threads x) (k_thread_slab x) (k_thread_counter x) (k_run_tree x) (k_sleep_tree x) v (k_current x) (k_idle x) (k_sched_lock x) (k_reads x) (k_ipis x) (k_esp0 x) (k_syncs x) (k_asyncs x) (k_msg_nodes x) (k_queue_slab x) (k_async_slab x) (k_node_slab x) (k_listening x) (k_bufs x) (k_caps x) (k_spaces x) (k_io x).
Definition set_k_current {A} (v : list Z) (x : kernel A) : kernel A :=
  Kernel (k_threads x) (k_thread_slab x) (k_thread_counter x) (k_run_tree x) (k_sleep_tree x) (k_atree_slab x) v (k_idle x) (k_sched_lock x) (k_reads x) (k_ipis x) (k_esp0 x) (k_syncs x) (k_asyncs x) (k_msg_nodes x) (k_queue_slab x) (k_async_slab x) (k_node_slab x) (k_listening x) (k_bufs x) (k_caps x) (k_spaces x) (k_io x).
Definition set_k_idle {A} (v : list Z) (x : kernel A) : kernel A :=
  Kernel (k_threads x) (k_thread_slab x) (k_thread_counter x) (k_run_tree x) (k_sleep_tree x) (k_atree_slab x) (k_current x) v (k_sched_lock x) (k_reads x) (k_ipis x) (k_esp0 x) (k_syncs x) (k_asyncs x) (k_msg_nodes x) (k_queue_slab x) (k_async_slab x) (k_node_slab x) (k_listening x) (k_bufs x) (k_caps x) (k_spaces x) (k_io x).
Definition set_k_sched_lock {A} (v : bool) (x : kernel A) : kernel A :=
  Kernel (k_threads x) (k_thread_slab x) (k_thread_counter x) (k_run_tree x) (k_sleep_tree x) (k_atree_slab x) (k_current x) (k_idle x) v (k_reads x) (k_ipis x) (k_esp0 x) (k_syncs x) (k_asyncs x) (k_msg_nodes x) (k_queue_slab x) (k_async_slab x) (k_node_slab x) (k_listening x) (k_bufs x) (k_caps x) (k_spaces x) (k_io x).
Definition set_k_reads {A} (v : nat) (x : kernel A) : kernel A :=
  Kernel (k_threads x) (k_thread_slab x) (k_thread_counter x) (k_run_tree x) (k_sleep_tree x) (k_atree_slab x) (k_current x) (k_idle x) (k_sched_lock x) v (k_ipis x) (k_esp0 x) (k_syncs x) (k_asyncs x) (k_msg_nodes x) (k_queue_slab x) (k_async_slab x) (k_node_slab x) (k_listening x) (k_bufs x) (k_caps x) (k_spaces x) (k_io x).
Definition set_k_ipis {A} (v : list Z) (x : kernel A) : kernel A :=
  Kernel (k_threads x) (k_thread_slab x) (k_thread_counter x) (k_run_tree x) (k_sleep_tree x) (k_atree_slab x) (k_current x) (k_idle x) (k_sched_lock x) (k_reads x) v (k_esp0 x) (k_syncs x) (k_asyncs x) (k_msg_nodes x) (k_queue_slab x) (k_async_slab x) (k_node_slab x) (k_listening x) (k_bufs x) (k_caps x) (k_spaces x) (k_io x).
Definition set_k_esp0 {A} (v : Z) (x : kernel A) : kernel A :=
  Kernel (k_threads x) (k_thread_slab x) (k_thread_counter x) (k_run_tree x) (k_sleep_tree x) (k_atree_slab x) (k_current x) (k_idle x) (k_sched_lock x) (k_reads x) (k_ipis x) v (k_syncs x) (k_asyncs x) (k_msg_nodes x) (k_queue_slab x) (k_async_slab x) (k_node_slab x) (k_listening x) (k_bufs x) (k_caps x) (k_spaces x) (k_io x).
Definition set_k_syncs {A} (v : gmap Z msg_queue) (x : kernel A) : kernel A :=
  Kernel (k_threads x) (k_thread_slab x) (k_thread_counter x) (k_run_tree x) (k_sleep_tree x) (k_atree_slab x) (k_current x) (k_idle x) (k_sched_lock x) (k_reads x) (k_ipis x) (k_esp0 x) v (k_asyncs x) (k_msg_nodes x) (k_queue_slab x) (k_async_slab x) (k_node_slab x) (k_listening x) (k_bufs x) (k_caps x) (k_spaces x) (k_io x).
Definition set_k_asyncs {A} (v : gmap Z msg_queue_async) (x : kernel A) : kernel A :=
  Kernel (k_threads x) (k_thread_slab x) (k_thread_counter x) (k_run_tree x) (k_sleep_tree x) (k_atree_slab x) (k_current x) (k_idle x) (k_sched_lock x) (k_reads x) (k_ipis x) (k_esp0 x) (k_syncs x) v (k_msg_nodes x) (k_queue_slab x) (k_async_slab x) (k_node_slab x) (k_listening x) (k_bufs x) (k_caps x) (k_spaces x) (k_io x).
Definition set_k_msg_nodes {A} (v : gmap Z message_node) (x : kernel A) : kernel A :=
  Kernel (k_threads x) (k_thread_slab x) (k_thread_counter x) (k_run_tree x) (k_sleep_tree x) (k_atree_slab x) (k_current x) (k_idle x) (k_sched_lock x) (k_reads x) (k_ipis x) (k_esp0 x) (k_syncs x) (k_asyncs x) v (k_queue_slab x) (k_async_slab x) (k_node_slab x) (k_listening x) (k_bufs x) (k_caps x) (k_spaces x) (k_io x).
Definition set_k_queue_slab {A} (v : A) (x : kernel A) : kernel A :=
  Kernel (k_threads x) (k_thread_slab x) (k_thread_counter x) (k_run_tree x) (k_sleep_tree x) (k_atree_slab x) (k_current x) (k_idle x) (k_sched_lock x) (k_reads x) (k_ipis x) (k_esp0 x) (k_syncs x) (k_asyncs x) (k_msg_nodes x) v (k_async_slab x) (k_node_slab x) (k_listening x) (k_bufs x) (k_caps x) (k_spaces x) (k_io x).
Definition set_k_async_slab {A} (v : A) (x : kernel A) : kernel A :=
  Kernel (k_threads x) (k_thread_slab x) (k_thread_counter x) (k_run_tree x) (k_sleep_tree x) (k_atree_slab x) (k_current x) (k_idle x) (k_sched_lock x) (k_reads x) (k_ipis x) (k_esp0 x) (k_syncs x) (k_asyncs x) (k_msg_nodes x) (k_queue_slab x) v (k_node_slab x) (k_listening x) (k_bufs x) (k_caps x) (k_spaces x) (k_io x).
Definition set_k_node_slab {A} (v : A) (x : kernel A) : kernel A :=
  Kernel (k_threads x) (k_thread_slab x) (k_thread_counter x) (k_run_tree x) (k_sleep_tree x) (k_atree_slab x) (k_current x) (k_idle x) (k_sched_lock x) (k_reads x) (k_ipis x) (k_esp0 x) (k_syncs x) (k_asyncs x) (k_msg_nodes x) (k_queue_slab x) (k_async_slab x) v (k_listening x) (k_bufs x) (k_caps x) (k_spaces x) (k_io x).
Definition set_k_listening {A} (v : list Z) (x : kernel A) : kernel A :=
  Kernel (k_threads x) (k_thread_slab x) (k_thread_counter x) (k_run_tree x) (k_sleep_tree x) (k_atree_slab x) (k_current x) (k_idle x) (k_sched_lock x) (k_reads x) (k_ipis x) (k_esp0 x) (k_syncs x) (k_asyncs x) (k_msg_nodes x) (k_queue_slab x) (k_async_slab x) (k_node_slab x) v (k_bufs x) (k_caps x) (k_spaces x) (k_io x).
Definition set_k_bufs {A} (v : gmap Z message) (x : kernel A) : kernel A :=
  Kernel (k_threads x) (k_thread_slab x) (k_thread_counter x) (k_run_tree x) (k_sleep_tree x) (k_atree_slab x) (k_current x) (k_idle x) (k_sched_lock x) (k_reads x) (k_ipis x) (k_esp0 x) (k_syncs x) (k_asyncs x) (k_msg_nodes x) (k_queue_slab x) (k_async_slab x) (k_node_slab x) (k_listening x) v (k_caps x) (k_spaces x) (k_io x).
Definition set_k_caps {A} (v : cap_store A) (x : kernel A) : kernel A :=
  Kernel (k_threads x) (k_thread_slab x) (k_thread_counter x) (k_run_tree x) (k_sleep_tree x) (k_atree_slab x) (k_current x) (k_idle x) (k_sched_lock x) (k_reads x) (k_ipis x) (k_esp0 x) (k_syncs x) (k_asyncs x) (k_msg_nodes x) (k_queue_slab x) (k_async_slab x) (k_node_slab x) (k_listening x) (k_bufs x) v (k_spaces x) (k_io x).
Definition set_k_spaces {A} (v : space_store A) (x : kernel A) : kernel A :=
  Kernel (k_threads x) (k_thread_slab x) (k_thread_counter x) (k_run_tree x) (k_sleep_tree x) (k_atree_slab x) (k_current x) (k_idle x) (k_sched_lock x) (k_reads x) (k_ipis x) (k_esp0 x) (k_syncs x) (k_asyncs x) (k_msg_nodes x) (k_queue_slab x) (k_async_slab x) (k_node_slab x) (k_listening x) (k_bufs x) (k_caps x) v (k_io x).
Definition set_k_io {A} (v : list io_event) (x : kernel A) : kernel A :=
  Kernel (k_threads x) (k_thread_slab x) (k_thread_counter x) (k_run_tree x) (k_sleep_tree x) (k_atree_slab x) (k_current x) (k_idle x) (k_sched_lock x) (k_reads x) (k_ipis x) (k_esp0 x) (k_syncs x) (k_asyncs x) (k_msg_nodes x) (k_queue_slab x) (k_async_slab x) (k_node_slab x) (k_listening x) (k_bufs x) (k_caps x) (k_spaces x) v.

Section access.
Context {A : Type} `{!Allocator A}.

Abbreviation KST := (ST (kernel A)).

Definition thread_get (p : Z) : KST thread := fun k =>
  match k_threads k !! p with Some t => Some (t, k) | None => None end.
Definition thread_update (p : Z) (f : thread -> thread) : KST unit := fun k =>
  match k_threads k !! p with
  | Some t => Some (tt, set_k_threads (<[p := f t]> (k_threads k)) k)
  | None => None
  end.
Definition sync_get (p : Z) : KST msg_queue := fun k =>
  match k_syncs k !! p with Some t => Some (t, k) | None => None end.
Definition sync_update (p : Z) (f : msg_queue -> msg_queue) : KST unit := fun k =>
  match k_syncs k !! p with
  | Some t => Some (tt, set_k_syncs (<[p := f t]> (k_syncs k)) k)
  | None => None
  end.
Definition async_get (p : Z) : KST msg_queue_async := fun k =>
  match k_asyncs k !! p with Some t => Some (t, k) | None => None end.
Definition async_update (p : Z) (f : msg_queue_async -> msg_queue_async) : KST unit := fun k =>
  match k_asyncs k !! p with
  | Some t => Some (tt, set_k_asyncs (<[p := f t]> (k_asyncs k)) k)
  | None => None
  end.
(** a message buffer of a program; one that is not mapped is a fault *)
Definition buf_get (p : Z) : KST message := fun k =>
  match k_bufs k !! p with Some t => Some (t, k) | None => None end.
Definition buf_put (p : Z) (m : message) : KST unit := fun k =>
  match k_bufs k !! p with
  | Some _ => Some (tt, set_k_bufs (<[p := m]> (k_bufs k)) k)
  | None => None
  end.

Definition on_caps {B} (m : ST (cap_store A) B) : KST B := zoom k_caps set_k_caps m.
Definition on_spaces {B} (m : ST (space_store A) B) : KST B := zoom k_spaces set_k_spaces m.
Definition on_atree {B} (m : ST A B) : KST B := zoom k_atree_slab set_k_atree_slab m.
Definition on_thread_slab {B} (m : ST A B) : KST B := zoom k_thread_slab set_k_thread_slab m.
Definition on_queue_slab {B} (m : ST A B) : KST B := zoom k_queue_slab set_k_queue_slab m.
Definition on_async_slab {B} (m : ST A B) : KST B := zoom k_async_slab set_k_async_slab m.
Definition on_node_slab {B} (m : ST A B) : KST B := zoom k_node_slab set_k_node_slab m.
End access.
