(* ===== verification/Scheduler.v ===== *)
(** The scheduler ([src/scheduler.c]) and the life of threads
    ([src/thread.c], [src/arch/x86/thread.c]).

    Runnable threads are in a tree ordered by virtual runtime and sleeping
    ones in a tree ordered by the time to wake them; both are the trees of
    [AATree], whose keys are read from the threads at the time of comparison.
    The clock is the sequence of values its successive readings return.  A
    lock that is held is a fault for who spins on it, since on one processor
    the holder never runs again; the same holds for an assertion-like use of
    memory that is no thread. *)
From stdpp Require Import sorting.
From S2P Require Export Kernel.

Section scheduler.
Context {A : Type} `{!Allocator A} `{!Pages A}.
(** the processor, the number of processors, whether the APIC is enabled, and
    the readings of [timer_get_timestamp_ns] *)
Context (cpu : nat) (num_cpus : Z) (apic_is_enabled : bool) (clock : nat -> Z).

Abbreviation KST := (ST (kernel A)).
Abbreviation KR := (RST (kernel A)).

Definition read_clock : KST Z := fun k =>
  Some (clock (k_reads k), set_k_reads (S (k_reads k)) k).

Definition sched_current_thread : KST Z := fun k =>
  match k_current k !! cpu with Some t => Some (t, k) | None => None end.
Definition set_current_thread (t : Z) : KST unit :=
  modify (fun k => set_k_current (<[cpu := t]> (k_current k)) k).
Definition idle_thread_of : KST Z := fun k =>
  match k_idle k !! cpu with Some t => Some (t, k) | None => None end.

Definition sched_spinlock : KST unit := fun k =>
  if k_sched_lock k then None else Some (tt, set_k_sched_lock true k).
Definition sched_unlock : KST unit := modify (set_k_sched_lock false).

(** ** Keys and trees *)

Definition vruntime (t : thread) : Z := i64 (th_runtime t / th_priority t).
Definition sched_thread_vruntime (ts : gmap Z thread) (p : Z) : Z :=
  match ts !! p with Some t => vruntime t | None => 0 end.
Definition sched_thread_sleeptime (ts : gmap Z thread) (p : Z) : Z :=
  match ts !! p with Some t => i64 (th_sleep_target t) | None => 0 end.

Definition run_insert (p : Z) : KST unit :=
  node ← on_atree alloc;
  modify (fun k => set_k_run_tree
    (AA.insert (sched_thread_vruntime (k_threads k)) node p (k_run_tree k)) k).
Definition sleep_insert (p : Z) : KST unit :=
  node ← on_atree alloc;
  modify (fun k => set_k_sleep_tree
    (AA.insert (sched_thread_sleeptime (k_threads k)) node p (k_sleep_tree k)) k).
Definition run_remove (node : Z) : KST unit :=
  k ← get_st;
  _ ← modify (set_k_run_tree (AA.remove node (k_run_tree k)));
  on_atree (dealloc (AA.victim node (k_run_tree k))).
Definition sleep_remove (node : Z) : KST unit :=
  k ← get_st;
  _ ← modify (set_k_sleep_tree (AA.remove node (k_sleep_tree k)));
  on_atree (dealloc (AA.victim node (k_sleep_tree k))).

(** ** Switching *)

(** reinsert the running thread *)
Definition sched_requeue : KST unit :=
  cur ← sched_current_thread;
  idle ← idle_thread_of;
  if negb (cur =? NULL) && negb (cur =? idle) then
    t ← thread_get cur;
    when_st (th_state t =? SCHED_STATE_RUNNING)
      (_ ← thread_update cur (UNSET_FLAG THREAD_FLAG_RUNNING);
       run_insert cur)
  else mret tt.

Definition awake (t : thread) : thread := set_th_state SCHED_STATE_RUNNING (set_th_sleep_target 0 t).

(** wake the sleepers whose time has come *)
Fixpoint sched_wake (fuel : nat) : KST unit :=
  match fuel with
  | O => fault
  | S fuel =>
      k ← get_st;
      match AA.min_node (k_sleep_tree k) with
      | None => mret tt
      | Some (sleep_node, sleeper) =>
          now ← read_clock;
          t ← thread_get sleeper;
          if th_sleep_target t <=? now then
            _ ← sleep_remove sleep_node;
            _ ← thread_update sleeper awake;
            _ ← run_insert sleeper;
            sched_wake fuel
          else mret tt
      end
  end.

(** take the first thread of the run tree, if it can run *)
Definition sched_take : KST Z :=
  idle ← idle_thread_of;
  k ← get_st;
  match AA.min_node (k_run_tree k) with
  | None => mret idle
  | Some (next_node, next) =>
      _ ← run_remove next_node;
      t ← thread_get next;
      if negb (th_state t =? SCHED_STATE_RUNNING) || FLAG t THREAD_FLAG_RUNNING
      then mret idle else mret next
  end.

(** [sched_switch_thread] up to the jump *)
Definition sched_pick : KST Z :=
  _ ← sched_spinlock;
  _ ← sched_requeue;
  k ← get_st;
  _ ← sched_wake (S (AA.size (k_sleep_tree k)));
  next ← sched_take;
  _ ← sched_unlock;
  mret next.

(** the lock of a thread's object; waking a sleeper on it is left out *)
Definition thread_lock (p : Z) : KST unit :=
  cur ← sched_current_thread;
  t ← thread_get p;
  o ← lift_opt (kobject_lock cur num_cpus (th_object t));
  thread_update p (set_th_object o).
Definition thread_unlock (p : Z) : KST unit :=
  t ← thread_get p;
  o ← lift_opt (kobject_release (th_object t));
  thread_update p (set_th_object o).

(** enter the address space of [thread]; the page directory is read first, so
    that it is mapped *)
Definition sched_enter_space (cur thread : Z) : KST unit :=
  t ← thread_get thread;
  same ← (if cur =? NULL then mret false
          else c ← thread_get cur; mret (th_addr_space t =? th_addr_space c));
  when_st (negb same)
    (on_spaces (
       x ← space_get (th_addr_space t);
       _ ← on_mmu (vread (as_page_dir x));
       addr_space_set (th_addr_space t))).

(** the part of [sched_jump_to_thread] before the switch of stacks *)
Definition sched_jump_prepare (cur thread : Z) : KST unit :=
  _ ← sched_enter_space cur thread;
  _ ← (if cur =? NULL then mret tt
       else
         k ← get_st;
         _ ← thread_update cur (set_th_kernel_stack (k_esp0 k));
         now ← read_clock;
         thread_update cur (fun c =>
           UNSET_FLAG THREAD_FLAG_RUNNING
             (set_th_runtime (w64 (th_runtime c + w64 (now - th_start_timestamp c))) c)));
  _ ← thread_lock thread;
  _ ← thread_update thread (SET_FLAG THREAD_FLAG_RUNNING);
  now ← read_clock;
  _ ← thread_update thread (set_th_start_timestamp now);
  t ← thread_get thread;
  _ ← modify (set_k_esp0 (th_kernel_stack t));
  if cur =? NULL then mret tt else thread_unlock cur.

(** a thread enters user mode when it runs for the first time *)
Definition entered_user (t : thread) : thread :=
  let r := th_registers t in
  set_th_registers (ThreadRegs (tr_ebp r) (tr_esp r) (tr_eip r) 0) t.
Definition sched_do_thread_switch (thread : Z) : KR unit :=
  _ ← lift (thread_update thread entered_user);
  yield_cpu.

Definition sched_jump_to_thread (thread : Z) : KR unit :=
  cur ← lift sched_current_thread;
  _ ← lift (set_current_thread thread);
  if cur =? thread then mret tt
  else
    _ ← lift (sched_jump_prepare cur thread);
    sched_do_thread_switch thread.

Definition sched_switch_thread : KR unit :=
  next ← lift sched_pick;
  sched_jump_to_thread next.

Definition sched_thread_yield : KR unit := sched_switch_thread.

(** ** Threads entering and leaving the trees *)

(** the first processor that idles *)
Fixpoint find_idle_cpu (i : nat) (current idle : list Z) : option nat :=
  match current, idle with
  | c :: current, d :: idle =>
      if negb (d =? NULL) && (c =? d) then Some i else find_idle_cpu (S i) current idle
  | _, _ => None
  end.

(** whether the caller has to yield *)
Definition sched_add (thread : Z) : KST bool :=
  _ ← sched_spinlock;
  t ← thread_get thread;
  if th_state t =? SCHED_STATE_RUNNING then
    _ ← run_insert thread;
    k ← get_st;
    let sent := if apic_is_enabled then find_idle_cpu 0 (k_current k) (k_idle k) else None in
    _ ← (match sent with
         | Some i => modify (set_k_ipis (k_ipis k ++ [Z.of_nat i]))
         | None => mret tt
         end);
    cur ← sched_current_thread;
    let ts := k_threads k in
    let preempt := bool_decide (sent = None) && negb (cur =? NULL) &&
      (sched_thread_vruntime ts cur <? sched_thread_vruntime ts thread) in
    _ ← sched_unlock;
    mret preempt
  else
    _ ← sched_unlock;
    mret false.

Definition sched_add_thread (thread : Z) : KR unit :=
  preempt ← lift (sched_add thread);
  if (preempt : bool) then sched_thread_yield else mret tt.

Definition sched_thread_continue (thread : Z) : KST unit :=
  _ ← sched_spinlock;
  t ← thread_get thread;
  _ ← when_st (th_state t =? SCHED_STATE_STOPPED)
        (_ ← thread_update thread (fun t =>
               UNSET_FLAG THREAD_FLAG_FAULTED (set_th_state SCHED_STATE_RUNNING t));
         run_insert thread);
  sched_unlock.

Definition sched_thread_stop (thread : Z) : KST unit :=
  t ← thread_get thread;
  when_st (th_state t =? SCHED_STATE_RUNNING) (thread_update thread (set_th_state SCHED_STATE_STOPPED)).

Definition thread_destroy (thread : Z) : KST unit :=
  _ ← on_thread_slab (dealloc thread);
  modify (fun k => set_k_threads (delete thread (k_threads k)) k).

Definition sched_thread_kill (thread : Z) : KST unit :=
  if negb (thread =? NULL) then
    cur ← sched_current_thread;
    _ ← when_st (thread =? cur) (set_current_thread NULL);
    _ ← sched_spinlock;
    _ ← sched_thread_stop thread;
    _ ← sched_unlock;
    thread_destroy thread
  else mret tt.

(** the loop after the switch is never left: a return to it is a fault *)
Definition sched_thread_exit : KR unit :=
  cur ← lift sched_current_thread;
  _ ← lift (sched_thread_kill cur);
  _ ← sched_thread_yield;
  rfault.

(** what [sched_thread_sleep] does before it yields *)
Definition sched_sleep (useconds : Z) : KST unit :=
  cur ← sched_current_thread;
  _ ← sched_spinlock;
  _ ← thread_update cur (set_th_state SCHED_STATE_SLEEPING);
  now ← read_clock;
  _ ← thread_update cur (set_th_sleep_target (w64 (now + useconds * 1000)));
  _ ← sleep_insert cur;
  sched_unlock.

Definition sched_thread_sleep (useconds : Z) : KR unit :=
  if useconds =? 0 then mret tt
  else
    _ ← lift (sched_sleep useconds);
    sched_thread_yield.

(** ** Creating threads *)

(** the thread's page of kernel stack comes from the global region *)
Definition thread_set_init_state (entry stack flags : Z) : KST thread :=
  kern_stack ← on_thread_slab page_alloc;
  mret (Thread (ThreadRegs 0 stack entry (if flag_set flags THREAD_FLAG_USER then 1 else 0))
    (w32 (kern_stack + PAGE_SIZE)) (kobject_init 0) 0 0 0 0 0 0 0 0 0 0 (Message 0 0 (replicate 6 0))).

Definition thread_create (entry space stack flags : Z) : KST Z :=
  ret ← on_thread_slab alloc;
  t ← thread_set_init_state entry stack flags;
  k ← get_st;
  let id := k_thread_counter k in
  let t := set_th_object (kobject_init KOBJECT_TYPE_THREAD)
    (set_th_priority THREAD_DEFAULT_PRIORITY (set_th_cap_space NULL
      (set_th_flags flags (set_th_addr_space space (set_th_id id t))))) in
  _ ← modify (fun k => set_k_thread_counter (w32 (id + 1)) (set_k_threads (<[ret := t]> (k_threads k)) k));
  mret ret.

Definition thread_create_kthread (entry : Z) : KST Z :=
  stack ← on_thread_slab page_alloc;
  k ← get_st;
  thread_create entry (sp_kernel (k_spaces k)) (w32 (stack + PAGE_SIZE)) THREAD_FLAG_NONE.

Definition thread_set_addrspace (thread aspace : Z) : KST unit :=
  thread_update thread (set_th_addr_space aspace).
Definition thread_set_capspace (thread cspace : Z) : KST unit :=
  thread_update thread (set_th_cap_space cspace).

Definition sched_init : KST unit :=
  modify (fun k =>
    set_k_idle (replicate (Z.to_nat SCHED_MAX_CPUS) NULL)
      (set_k_current (replicate (Z.to_nat SCHED_MAX_CPUS) NULL)
        (set_k_sleep_tree AA.E (set_k_run_tree AA.E k)))).

(** [entry] is the address of [idle_thread]; both tables have an entry for each
    of [SCHED_MAX_CPUS] processors *)
Definition sched_init_cpu (entry : Z) : KST unit :=
  t ← thread_create_kthread entry;
  _ ← (fun k => if decide (cpu < length (k_idle k))%nat then Some (tt, set_k_idle (<[cpu := t]> (k_idle k)) k) else None);
  set_current_thread NULL.
End scheduler.

(** ** Invariants *)

(** [k'] with the fields of the scheduler's inner work taken from [k]: two
    states that agree outside that work become equal *)
Definition sched_part {A} (k k' : kernel A) : kernel A :=
  set_k_threads (k_threads k') (set_k_run_tree (k_run_tree k') (set_k_sleep_tree (k_sleep_tree k')
    (set_k_atree_slab (k_atree_slab k') (set_k_reads (k_reads k') (set_k_sched_lock (k_sched_lock k') k))))).
Definition sched_frame {A} (k k' : kernel A) : Prop := k' = sched_part k k'.

(** the trees are AA trees, and their nodes are the slab's objects *)
Record trees_wf {A} `{!Allocator A} (k : kernel A) : Prop := {
  tw_run : AA.aa (k_run_tree k);
  tw_sleep : AA.aa (k_sleep_tree k);
  tw_inv : alloc_inv (k_atree_slab k);
  tw_live : forall p, alloc_live (k_atree_slab k) p <-> p ∈ AA.ids (k_run_tree k) ++ AA.ids (k_sleep_tree k);
  tw_nodup : NoDup (AA.ids (k_run_tree k) ++ AA.ids (k_sleep_tree k));
}.

(** the threads the scheduler names exist *)
Record sched_wf {A} `{!Allocator A} (cpu : nat) (k : kernel A) : Prop := {
  sw_trees : trees_wf k;
  sw_lock : k_sched_lock k = false;
  sw_queued : Forall (fun t => is_Some (k_threads k !! t)) (AA.contents (k_run_tree k));
  sw_asleep : Forall (fun t => is_Some (k_threads k !! t)) (AA.contents (k_sleep_tree k));
  sw_current : exists c, k_current k !! cpu = Some c /\ (c = NULL \/ is_Some (k_threads k !! c));
  sw_idle : exists i, k_idle k !! cpu = Some i;
}.

Lemma frame_refl {A} (k : kernel A) : sched_frame k k.
Proof. by destruct k. Qed.

Lemma frame_trans {A} (k1 k2 k3 : kernel A) : sched_frame k1 k2 -> sched_frame k2 k3 -> sched_frame k1 k3.
Proof. destruct k1, k2, k3. unfold sched_frame, sched_part. simpl. intros [=] [=]. by subst. Qed.

Section insert.
Context {A : Type} `{!Allocator A} `{!AllocatorLaws A}.
Implicit Types (k : kernel A).

Lemma run_insert_room k p :
  trees_wf k -> alloc_room (k_atree_slab k) ->
  exists node a, alloc (k_atree_slab k) = Some (node, a) /\
    run_insert p k = Some (tt, set_k_run_tree
      (AA.insert (sched_thread_vruntime (k_threads k)) node p (k_run_tree k)) (set_k_atree_slab a k)) /\
    trees_wf (set_k_run_tree (AA.insert (sched_thread_vruntime (k_threads k)) node p (k_run_tree k))
      (set_k_atree_slab a k)).
Proof.
  intros [Hr Hs Hi Hl Hn] Hroom.
  destruct (alloc_total _ Hi Hroom) as (node & a & Ha). exists node, a.
  destruct (alloc_ok _ _ _ Hi Ha) as (Hi' & Hnull & Hfresh & Hl'). split; [done|]. split.
  { unfold run_insert. rewrite ST_bind_eq. unfold on_atree, zoom. rewrite Ha. done. }
  split; simpl; try done.
  - by apply AA.insert_aa.
  - intros q. rewrite Hl', Hl, AA.insert_ids by done. set_solver.
  - rewrite AA.insert_ids by done. simpl. constructor; [|done]. by rewrite <- Hl.
Qed.
End insert.

Section scheduler_proofs.
Context {A : Type} `{!Allocator A} `{!AllocatorLaws A}.
Context (cpu : nat) (num_cpus : Z) (apic_is_enabled : bool) (clock : nat -> Z).
Implicit Types (k : kernel A).

Lemma frame_current k k' : sched_frame k k' -> k_current k' = k_current k /\ k_idle k' = k_idle k.
Proof. intros ->. done. Qed.

(** ** The trees *)

Lemma run_remove_ok k node p :
  trees_wf k -> AA.min_node (k_run_tree k) = Some (node, p) ->
  exists a,
    run_remove node k = Some (tt, set_k_atree_slab a (set_k_run_tree (AA.remove node (k_run_tree k)) k)) /\
    trees_wf (set_k_atree_slab a (set_k_run_tree (AA.remove node (k_run_tree k)) k)) /\
    AA.contents (k_run_tree k) = p :: AA.contents (AA.remove node (k_run_tree k)) /\ alloc_room a.
Proof.
  intros [Hr Hs Hi Hl Hn] Hmin.
  assert (Hnr : NoDup (AA.ids (k_run_tree k))) by (apply NoDup_app in Hn; tauto).
  destruct (AA.remove_min_node _ _ _ Hr Hnr Hmin) as [Hc Hp].
  rewrite Hp in Hn. simpl in Hn. apply NoDup_cons in Hn as [Hv Hn].
  destruct (dealloc_ok (k_atree_slab k) (AA.victim node (k_run_tree k)) Hi) as (a & Ha & Hi' & Hl').
  { rewrite Hl, Hp. set_solver. }
  assert (Hroom : alloc_room a).
  { apply (dealloc_room _ (AA.victim node (k_run_tree k)) _ Hi); [rewrite Hl, Hp; set_solver|exact Ha]. }
  exists a. split; [|split; [|done]].
  - unfold run_remove, on_atree, zoom, mbind, ST_bind. simpl. by rewrite Ha.
  - split; simpl; try done.
    + by apply AA.remove_aa.
    + intros q. rewrite Hl', Hl, Hp. simpl. rewrite elem_of_cons. split; [tauto|].
      intros Hq. split; [by right|]. intros ->. done.
Qed.

Lemma sleep_remove_ok k node p :
  trees_wf k -> AA.min_node (k_sleep_tree k) = Some (node, p) ->
  exists a,
    sleep_remove node k = Some (tt, set_k_atree_slab a (set_k_sleep_tree (AA.remove node (k_sleep_tree k)) k)) /\
    trees_wf (set_k_atree_slab a (set_k_sleep_tree (AA.remove node (k_sleep_tree k)) k)) /\
    AA.contents (k_sleep_tree k) = p :: AA.contents (AA.remove node (k_sleep_tree k)) /\ alloc_room a.
Proof.
  intros [Hr Hs Hi Hl Hn] Hmin.
  assert (Hnr : NoDup (AA.ids (k_sleep_tree k))) by (apply NoDup_app in Hn; tauto).
  destruct (AA.remove_min_node _ _ _ Hs Hnr Hmin) as [Hc Hp].
  rewrite Hp, <- Permutation_middle in Hn. apply NoDup_cons in Hn as [Hv Hn].
  destruct (dealloc_ok (k_atree_slab k) (AA.victim node (k_sleep_tree k)) Hi) as (a & Ha & Hi' & Hl').
  { rewrite Hl, Hp. set_solver. }
  assert (Hroom : alloc_room a).
  { apply (dealloc_room _ (AA.victim node (k_sleep_tree k)) _ Hi); [rewrite Hl, Hp; set_solver|exact Ha]. }
  exists a. split; [|split; [|done]].
  - unfold sleep_remove, on_atree, zoom, mbind, ST_bind. simpl. by rewrite Ha.
  - split; simpl; try done.
    + by apply AA.remove_aa.
    + intros q. rewrite Hl', Hl, Hp, <- Permutation_middle, elem_of_cons. split; [tauto|].
      intros Hq. split; [by right|]. intros ->. done.
Qed.

(** ** The steps of a switch *)

(** what each of them keeps *)
Record sched_step k k' : Prop := {
  ss_frame : sched_frame k k';
  ss_trees : trees_wf k';
  ss_exist : forall p, is_Some (k_threads k' !! p) <-> is_Some (k_threads k !! p);
  ss_keys : forall p, sched_thread_vruntime (k_threads k') p = sched_thread_vruntime (k_threads k) p;
  ss_lock : k_sched_lock k' = k_sched_lock k;
}.

Lemma step_refl k : trees_wf k -> sched_step k k.
Proof. intros. by split; [apply frame_refl|..]. Qed.

Lemma step_trans k1 k2 k3 : sched_step k1 k2 -> sched_step k2 k3 -> sched_step k1 k3.
Proof.
  intros [? ? He1 Hk1 Hl1] [? ? He2 Hk2 Hl2]. split; [by eapply frame_trans|done| | |congruence].
  - intros p. by rewrite He2, He1.
  - intros p. by rewrite Hk2, Hk1.
Qed.

(** the run tree is in order, and no comparison of keys overflows *)
Definition run_ordered k : Prop :=
  AA.ordered (sched_thread_vruntime (k_threads k)) (k_run_tree k) /\
  AA.keys_ok (sched_thread_vruntime (k_threads k)) (k_run_tree k).
Definition vruntime_ok k (p : Z) : Prop := AA.key_ok (sched_thread_vruntime (k_threads k)) p.

Lemma keys_change (f g : Z -> Z) t : (forall p, f p = g p) -> AA.keys_ok f t -> AA.keys_ok g t.
Proof.
  intros He. unfold AA.keys_ok. intros Hf. eapply Forall_impl; [exact Hf|].
  unfold AA.key_ok. simpl. intros p. by rewrite He.
Qed.

Lemma run_ordered_insert k (ts : gmap Z thread) node p :
  AA.aa (k_run_tree k) -> run_ordered k -> vruntime_ok k p ->
  (forall q, sched_thread_vruntime ts q = sched_thread_vruntime (k_threads k) q) ->
  AA.ordered (sched_thread_vruntime ts) (AA.insert (sched_thread_vruntime ts) node p (k_run_tree k)) /\
  AA.keys_ok (sched_thread_vruntime ts) (AA.insert (sched_thread_vruntime ts) node p (k_run_tree k)).
Proof.
  intros Hal [Hord Hok] Hp He. apply AA.insert_ordered; [done| | |].
  - eapply AA.ordered_ext; [|exact Hord]. intros; by rewrite He.
  - eapply keys_change; [|exact Hok]. intros; by rewrite He.
  - unfold vruntime_ok, AA.key_ok in *. by rewrite He.
Qed.

(** updating a thread with a function that leaves its runtime and priority *)
Lemma vruntime_update (ts : gmap Z thread) p t f :
  ts !! p = Some t -> vruntime (f t) = vruntime t ->
  forall q, sched_thread_vruntime (<[p := f t]> ts) q = sched_thread_vruntime ts q.
Proof.
  intros Hp Hf q. unfold sched_thread_vruntime. rewrite lookup_insert.
  destruct (decide (p = q)) as [->|]; [|done]. by rewrite Hp, Hf.
Qed.

Lemma exist_update (ts : gmap Z thread) p t t' :
  ts !! p = Some t -> forall q, is_Some (<[p := t']> ts !! q) <-> is_Some (ts !! q).
Proof.
  intros Hp q. rewrite lookup_insert. destruct (decide (p = q)) as [->|]; [|done].
  rewrite Hp. split; eauto.
Qed.

(** the threads put back in the run tree: the running one, or none *)
Definition requeued k : list Z :=
  match k_current k !! cpu, k_idle k !! cpu with
  | Some cur, Some idle =>
      if negb (cur =? NULL) && negb (cur =? idle) then
        match k_threads k !! cur with
        | Some t => if th_state t =? SCHED_STATE_RUNNING then [cur] else []
        | None => []
        end
      else []
  | _, _ => []
  end.

Lemma update_insert_ok k p t f :
  trees_wf k -> alloc_room (k_atree_slab k) -> k_threads k !! p = Some t -> vruntime (f t) = vruntime t ->
  exists k',
    (_ ← thread_update p f; run_insert p) k = Some (tt, k') /\ sched_step k k' /\
    k_threads k' = <[p := f t]> (k_threads k) /\
    Permutation (AA.contents (k_run_tree k')) (p :: AA.contents (k_run_tree k)) /\
    k_sleep_tree k' = k_sleep_tree k /\ k_reads k' = k_reads k /\
    (run_ordered k -> vruntime_ok k p -> run_ordered k').
Proof.
  intros Hw Hroom Hp Hf. set (k1 := set_k_threads (<[p := f t]> (k_threads k)) k).
  assert (Hw1 : trees_wf k1) by (destruct Hw; by split).
  destruct (run_insert_room k1 p Hw1 Hroom) as (node & a & _ & Hrun & Hw'). eexists. split; [|split; [split|]].
  - rewrite ST_bind_eq. unfold thread_update. rewrite Hp. exact Hrun.
  - destruct k. done.
  - exact Hw'.
  - simpl. by eapply exist_update.
  - simpl. by apply vruntime_update.
  - done.
  - simpl. split; [done|]. split; [by apply AA.insert_contents; destruct Hw|]. split_and!; [done..|].
    intros Hord Hok. apply run_ordered_insert; [by destruct Hw|done..|]. by apply vruntime_update.
Qed.

Lemma sched_requeue_ok k cur idle :
  trees_wf k -> k_current k !! cpu = Some cur -> k_idle k !! cpu = Some idle ->
  cur = NULL \/ is_Some (k_threads k !! cur) ->
  (requeued k <> [] -> alloc_room (k_atree_slab k)) ->
  exists k',
    sched_requeue cpu k = Some (tt, k') /\ sched_step k k' /\
    Permutation (AA.contents (k_run_tree k')) (requeued k ++ AA.contents (k_run_tree k)) /\
    k_sleep_tree k' = k_sleep_tree k /\ k_reads k' = k_reads k /\
    (requeued k = [] -> k' = k) /\
    (forall t, k_threads k !! cur = Some t -> requeued k = [cur] ->
       k_threads k' = <[cur := UNSET_FLAG THREAD_FLAG_RUNNING t]> (k_threads k)) /\
    (run_ordered k -> vruntime_ok k cur -> run_ordered k').
Proof.
  intros Hw Hc Hi Hcur Hroom. unfold sched_requeue, requeued in *. rewrite Hc, Hi in *.
  rewrite ST_bind_eq. unfold sched_current_thread at 1. rewrite Hc.
  rewrite ST_bind_eq. unfold idle_thread_of at 1. rewrite Hi.
  destruct (negb (cur =? NULL) && negb (cur =? idle)) eqn:Hb.
  2: { exists k. split_and!; try done. by apply step_refl. }
  destruct Hcur as [->|[t Ht]]; [done|]. rewrite ST_bind_eq. unfold thread_get at 1. rewrite Ht in *.
  destruct (th_state t =? SCHED_STATE_RUNNING); simpl.
  2: { exists k. split_and!; try done. by apply step_refl. }
  specialize (Hroom ltac:(done)).
  destruct (update_insert_ok k cur t (UNSET_FLAG THREAD_FLAG_RUNNING)) as (k' & Hrun & Hs & Hts & Hp & ? & ? & ?);
    [done..|].
  exists k'. split_and!; try done. intros t' [= <-] _. done.
Qed.

(** the threads woken are due, in the order of their time, each at the reading
    of the clock that tests it *)
Definition woken_due k (woken : list Z) : Prop :=
  forall i p t, woken !! i = Some p -> k_threads k !! p = Some t ->
    th_sleep_target t <= clock (k_reads k + i)%nat.
(** and the first one left is not *)
Definition next_not_due k (woken rest : list Z) : Prop :=
  forall p t, head rest = Some p -> k_threads k !! p = Some t ->
    clock (k_reads k + length woken)%nat < th_sleep_target t.

Record wakes k k' (woken : list Z) : Prop := {
  wk_step : sched_step k k';
  wk_sleep : AA.contents (k_sleep_tree k) = woken ++ AA.contents (k_sleep_tree k');
  wk_run : Permutation (AA.contents (k_run_tree k')) (woken ++ AA.contents (k_run_tree k));
  wk_due : woken_due k woken;
  wk_rest : next_not_due k woken (AA.contents (k_sleep_tree k'));
  wk_woken : forall p, p ∈ woken -> k_threads k' !! p = awake <$> k_threads k !! p;
  wk_others : forall p, p ∉ woken -> k_threads k' !! p = k_threads k !! p;
  wk_order : run_ordered k -> (forall p, vruntime_ok k p) -> run_ordered k';
}.

Lemma wakes_nobody k k' :
  sched_step k k' -> k_threads k' = k_threads k -> k_run_tree k' = k_run_tree k ->
  k_sleep_tree k' = k_sleep_tree k ->
  next_not_due k [] (AA.contents (k_sleep_tree k)) -> wakes k k' [].
Proof.
  intros Hs Ht Hr Hsl Hn. split; simpl; rewrite ?Hr, ?Hsl, ?Ht; try done.
  - intros p Hp. set_solver.
  - unfold run_ordered. by rewrite Hr, Ht.
Qed.

Lemma wakes_one k k1 k2 p t woken :
  sched_step k k1 -> k_threads k1 = <[p := awake t]> (k_threads k) -> k_threads k !! p = Some t ->
  Permutation (AA.contents (k_run_tree k1)) (p :: AA.contents (k_run_tree k)) ->
  AA.contents (k_sleep_tree k) = p :: AA.contents (k_sleep_tree k1) ->
  NoDup (AA.contents (k_sleep_tree k)) ->
  k_reads k1 = S (k_reads k) -> th_sleep_target t <= clock (k_reads k) ->
  (run_ordered k -> vruntime_ok k p -> run_ordered k1) ->
  wakes k1 k2 woken -> wakes k k2 (p :: woken).
Proof.
  intros Hs1 Hts Hp Hr1 Hsl Hnd Hrd Hdue Hord [Hs2 Hsl2 Hr2 Hdue2 Hrest Hw Ho Hord2].
  rewrite Hsl in Hnd. apply NoDup_cons in Hnd as [Hnp Hnd].
  assert (Hother : forall q, q <> p -> k_threads k1 !! q = k_threads k !! q).
  { intros q Hq. by rewrite Hts, lookup_insert_ne. }
  split.
  - by eapply step_trans.
  - by rewrite Hsl, Hsl2.
  - rewrite Hr2, Hr1. simpl. by rewrite Permutation_middle.
  - intros [|i] q tq Hi Hq; simpl in Hi; simplify_eq.
    + by rewrite Nat.add_0_r.
    + assert (q <> p).
      { intros ->. apply Hnp. rewrite Hsl2. apply elem_of_app. left. by eapply list_elem_of_lookup_2. }
      rewrite <- Hother in Hq by done. specialize (Hdue2 i q tq Hi Hq). rewrite Hrd in Hdue2.
      by replace (k_reads k + S i)%nat with (S (k_reads k) + i)%nat by lia.
  - intros q tq Hh Hq. assert (q <> p).
    { intros ->. apply Hnp. rewrite Hsl2. apply elem_of_app. right.
      destruct (AA.contents (k_sleep_tree k2)); [done|]. simplify_eq/=. set_solver. }
    rewrite <- Hother in Hq by done. specialize (Hrest q tq Hh Hq). rewrite Hrd in Hrest.
    simpl. by replace (k_reads k + S (length woken))%nat with (S (k_reads k) + length woken)%nat by lia.
  - intros q Hq. destruct (decide (q = p)) as [->|Hne].
    + rewrite Ho, Hts, lookup_insert_eq, Hp; [done|]. intros Hin. apply Hnp. rewrite Hsl2. set_solver.
    + rewrite Hw, Hother by set_solver. done.
  - intros q Hq. rewrite Ho, Hother by set_solver. done.
  - intros Hro Hok. apply Hord2; [by apply Hord|]. intros q. unfold vruntime_ok, AA.key_ok.
    rewrite (ss_keys _ _ Hs1). apply Hok.
Qed.

Lemma sched_wake_ok fuel k :
  trees_wf k -> (length (AA.contents (k_sleep_tree k)) < fuel)%nat ->
  NoDup (AA.contents (k_sleep_tree k)) ->
  Forall (fun p => is_Some (k_threads k !! p)) (AA.contents (k_sleep_tree k)) ->
  exists k' woken, sched_wake clock fuel k = Some (tt, k') /\ wakes k k' woken.
Proof.
  revert k. induction fuel as [|fuel IH]; intros k Hw Hlen Hnd Hex; [lia|].
  cbn [sched_wake]. rewrite ST_bind_eq. unfold get_st at 1.
  destruct (AA.min_node (k_sleep_tree k)) as [[node p]|] eqn:Hmin.
  2: { pose proof (AA.min_node_contents (k_sleep_tree k)) as Hc. rewrite Hmin in Hc.
       exists k, []. split; [done|]. apply wakes_nobody; try done; [by apply step_refl|].
       intros p t. by rewrite Hc. }
  set (k1 := set_k_reads (S (k_reads k)) k).
  assert (Hw1 : trees_wf k1) by (destruct Hw; by split).
  destruct (sleep_remove_ok k1 node p Hw1 Hmin) as (a & Hrm & Hw2 & Hc & Hroom). simpl in Hc.
  rewrite Hc in Hex, Hnd, Hlen. apply Forall_cons in Hex as [[t Ht] Hex].
  rewrite ST_bind_eq. unfold read_clock at 1. fold k1.
  rewrite ST_bind_eq. unfold thread_get at 1. change (k_threads k1) with (k_threads k). rewrite Ht.
  destruct (Z.leb_spec (th_sleep_target t) (clock (k_reads k))) as [Hdue|Hnot].
  2: { exists k1, []. split; [done|]. apply wakes_nobody; try done.
       intros q tq. rewrite Hc. simpl. intros [= <-] Hq. rewrite Nat.add_0_r. by simplify_eq. }
  rewrite ST_bind_eq, Hrm. set (k2 := set_k_atree_slab _ _) in *.
  destruct (update_insert_ok k2 p t awake Hw2 Hroom Ht eq_refl) as (k3 & Hrun & Hs3 & Hts & Hr3 & Hsl3 & Hrd3 & Ho3).
  rewrite ST_bind_eq in Hrun. rewrite ST_bind_eq.
  destruct (thread_update p awake k2) as [[[] k4]|]; [|done]. rewrite ST_bind_eq, Hrun.
  assert (Hstep : sched_step k k3).
  { by apply step_trans with k2. }
  assert (Hts' : k_threads k3 = <[p := awake t]> (k_threads k)) by exact Hts.
  destruct (IH k3) as (k' & woken & Hgo & Hwk).
  - by destruct Hs3.
  - rewrite Hsl3. simpl in *. lia.
  - rewrite Hsl3. simpl. by apply NoDup_cons in Hnd as [_ ?].
  - rewrite Hsl3. simpl. eapply Forall_impl; [exact Hex|]. intros q Hq. by apply (ss_exist _ _ Hstep).
  - exists k', (p :: woken). split; [done|]. eapply wakes_one; try done.
    + rewrite Hsl3. exact Hc.
    + by rewrite Hc.
Qed.

Definition can_run (ts : gmap Z thread) (p : Z) : bool :=
  match ts !! p with
  | Some t => (th_state t =? SCHED_STATE_RUNNING) && negb (FLAG t THREAD_FLAG_RUNNING)
  | None => false
  end.

Lemma sched_take_ok k idle :
  trees_wf k -> k_idle k !! cpu = Some idle ->
  Forall (fun p => is_Some (k_threads k !! p)) (AA.contents (k_run_tree k)) ->
  exists next k',
    sched_take cpu k = Some (next, k') /\ sched_step k k' /\
    k_threads k' = k_threads k /\ k_sleep_tree k' = k_sleep_tree k /\
    (run_ordered k -> run_ordered k') /\
    (AA.contents (k_run_tree k) = [] /\ next = idle /\ AA.contents (k_run_tree k') = [] \/
     exists first, AA.contents (k_run_tree k) = first :: AA.contents (k_run_tree k') /\
       next = (if can_run (k_threads k) first then first else idle) /\ alloc_room (k_atree_slab k') /\
       (run_ordered k -> Forall (fun p => sched_thread_vruntime (k_threads k) first <=
          sched_thread_vruntime (k_threads k) p) (AA.contents (k_run_tree k)))).
Proof.
  intros Hw Hi Hex. unfold sched_take. rewrite ST_bind_eq. unfold idle_thread_of at 1. rewrite Hi.
  rewrite ST_bind_eq. unfold get_st at 1.
  pose proof (AA.min_node_contents (k_run_tree k)) as Hc.
  destruct (AA.min_node (k_run_tree k)) as [[node p]|] eqn:Hmin.
  2: { exists idle, k. split_and!; try done; [by apply step_refl|by left]. }
  destruct (run_remove_ok k node p Hw Hmin) as (a & Hrm & Hw' & Hcont & Hroom).
  rewrite ST_bind_eq, Hrm. set (k1 := set_k_atree_slab _ _) in *.
  rewrite Hcont in Hex. apply Forall_cons in Hex as [[t Ht] _].
  rewrite ST_bind_eq. unfold thread_get at 1. change (k_threads k1) with (k_threads k). rewrite Ht.
  exists (if can_run (k_threads k) p then p else idle), k1. split_and!; try done.
  2: { intros [Hord Hok]. split; [by apply AA.ordered_remove; [destruct Hw|]|].
       unfold AA.keys_ok in *. simpl in *. rewrite Hcont in Hok. by apply Forall_cons in Hok as [_ ?]. }
  - unfold can_run. rewrite Ht. by destruct (th_state t =? SCHED_STATE_RUNNING), (FLAG t THREAD_FLAG_RUNNING).
  - right. exists p. split_and!; [done..|]. intros [Hord _].
    destruct (AA.min_node_least _ _ _ _ Hord Hmin) as (_ & _ & Hle). done.
Qed.

(** a thread's runtime is a 64-bit count, and its priority never changes *)
Definition thread_sane (t : thread) : Prop :=
  0 <= th_runtime t < 2 ^ 64 /\ th_priority t = THREAD_DEFAULT_PRIORITY.

Lemma sane_vruntime k :
  map_Forall (fun _ => thread_sane) (k_threads k) -> forall p, vruntime_ok k p.
Proof.
  intros Hs p. unfold vruntime_ok, AA.key_ok, sched_thread_vruntime.
  destruct (k_threads k !! p) as [t|] eqn:Hp; [|lia]. destruct (Hs p t Hp) as [Hr Hpr].
  unfold vruntime. rewrite Hpr. unfold THREAD_DEFAULT_PRIORITY.
  assert (0 <= th_runtime t / 2048 < 2 ^ 53).
  { split; [by apply Z.div_pos; lia|]. apply Z.div_lt_upper_bound; lia. }
  rewrite i64_small by lia. lia.
Qed.

(** ** Choosing the next thread *)

(** what a switch chooses from: the running thread if it goes on, the sleepers
    it wakes, and the threads of the run tree *)
Definition pool k (woken : list Z) : list Z := requeued k ++ woken ++ AA.contents (k_run_tree k).

Lemma requeued_exist k : Forall (fun p => is_Some (k_threads k !! p)) (requeued k).
Proof.
  unfold requeued. destruct (k_current k !! cpu) as [c|]; [|constructor].
  destruct (k_idle k !! cpu); [|constructor]. destruct (_ && _); [|constructor].
  destruct (k_threads k !! c) as [t|] eqn:Hc; [|constructor]. destruct (_ =? _); [|constructor].
  constructor; [by rewrite Hc|constructor].
Qed.

(** a thread after the choice *)
Definition picked k (woken : list Z) (p : Z) (t : thread) : thread :=
  let t := if bool_decide (p ∈ requeued k) then UNSET_FLAG THREAD_FLAG_RUNNING t else t in
  if bool_decide (p ∈ woken) then awake t else t.

(** the sleep tree is in order of the wake-up times, none of which is so late
    that the comparison takes it for negative *)
Definition sleep_target k (p : Z) : Z := default 0 (th_sleep_target <$> k_threads k !! p).
Definition sleep_ordered k : Prop :=
  AA.ordered (sched_thread_sleeptime (k_threads k)) (k_sleep_tree k) /\
  Forall (fun p => 0 <= sleep_target k p < 2 ^ 63) (AA.contents (k_sleep_tree k)).

Lemma sleep_ordered_sorted k :
  sleep_ordered k -> StronglySorted (fun p q => sleep_target k p <= sleep_target k q) (AA.contents (k_sleep_tree k)).
Proof using Type.
  intros [Hs Hb]. unfold AA.ordered in Hs. induction Hs as [|p l Hs IH Hp]; [constructor|].
  apply Forall_cons in Hb as [Hb Hbs]. constructor; [by apply IH|].
  rewrite Forall_forall in *. intros q Hq. specialize (Hp q Hq). specialize (Hbs q Hq).
  unfold AA.key_le, sched_thread_sleeptime, sleep_target in *.
  destruct (k_threads k !! p), (k_threads k !! q); simpl in *; rewrite ?i64_small in Hp; lia.
Qed.

(** the sleepers left after the first ones were taken *)
Lemma sleep_ordered_rest k k' woken :
  AA.contents (k_sleep_tree k) = woken ++ AA.contents (k_sleep_tree k') ->
  (forall p, p ∈ AA.contents (k_sleep_tree k') ->
     th_sleep_target <$> k_threads k' !! p = th_sleep_target <$> k_threads k !! p) ->
  sleep_ordered k -> sleep_ordered k'.
Proof using Type.
  intros Hc Ht [Hs Hb]. unfold AA.ordered in Hs. rewrite Hc in Hs, Hb. apply Forall_app in Hb as [_ Hb]. split.
  - apply (AA.ordered_ext (sched_thread_sleeptime (k_threads k))).
    + intros p Hp. specialize (Ht p Hp). unfold sched_thread_sleeptime.
      destruct (k_threads k' !! p), (k_threads k !! p); simpl in *; congruence.
    + unfold AA.ordered. by apply StronglySorted_app in Hs as (_ & _ & ?).
  - rewrite Forall_forall in *. intros p Hp. unfold sleep_target. rewrite (Ht p Hp). by apply Hb.
Qed.

Lemma sleep_ordered_none_due k k' woken :
  AA.contents (k_sleep_tree k) = woken ++ AA.contents (k_sleep_tree k') ->
  next_not_due k woken (AA.contents (k_sleep_tree k')) -> sleep_ordered k ->
  Forall (fun p => is_Some (k_threads k !! p)) (AA.contents (k_sleep_tree k)) ->
  Forall (fun p => clock (k_reads k + length woken)%nat < sleep_target k p) (AA.contents (k_sleep_tree k')).
Proof using Type.
  intros Hc Hn Hs%sleep_ordered_sorted Hex. rewrite Hc in Hs, Hex. apply StronglySorted_app in Hs as (_ & _ & Hs).
  apply Forall_app in Hex as [_ Hex]. destruct (AA.contents (k_sleep_tree k')) as [|p l]; [constructor|].
  apply Forall_cons in Hex as [[t Ht] _]. specialize (Hn p t eq_refl Ht).
  assert (Hp : clock (k_reads k + length woken)%nat < sleep_target k p) by (unfold sleep_target; by rewrite Ht).
  constructor; [done|]. inversion Hs as [|? ? _ Hall]; subst. eapply Forall_impl; [exact Hall|]. simpl. lia.
Qed.

(** what the parts of a switch amount to *)
Record picks k k' (woken : list Z) (idle next : Z) : Prop := {
  pk_frame : sched_frame k k';
  pk_wf : sched_wf cpu k';
  pk_exist : forall p, is_Some (k_threads k' !! p) <-> is_Some (k_threads k !! p);
  pk_threads : forall p, k_threads k' !! p = picked k woken p <$> k_threads k !! p;
  pk_sleep : AA.contents (k_sleep_tree k) = woken ++ AA.contents (k_sleep_tree k');
  pk_due : woken_due k woken;
  pk_rest : next_not_due k woken (AA.contents (k_sleep_tree k'));
  pk_sorted : sleep_ordered k ->
    StronglySorted (fun p q => sleep_target k p <= sleep_target k q) woken /\
    Forall (fun p => clock (k_reads k + length woken)%nat < sleep_target k p) (AA.contents (k_sleep_tree k')) /\
    sleep_ordered k';
  pk_order : run_ordered k -> run_ordered k';
  pk_room : pool k woken <> [] -> alloc_room (k_atree_slab k');
  pk_next :
    pool k woken = [] /\ next = idle /\ AA.contents (k_run_tree k') = [] \/
    exists first, Permutation (pool k woken) (first :: AA.contents (k_run_tree k')) /\
      next = (if can_run (k_threads k') first then first else idle) /\
      (run_ordered k -> Forall (fun p => sched_thread_vruntime (k_threads k) first <=
         sched_thread_vruntime (k_threads k) p) (pool k woken));
}.

Lemma exist_weaken (ts ts' : gmap Z thread) l :
  (forall p, is_Some (ts' !! p) <-> is_Some (ts !! p)) ->
  Forall (fun p => is_Some (ts !! p)) l -> Forall (fun p => is_Some (ts' !! p)) l.
Proof. intros He Hl. eapply Forall_impl; [exact Hl|]. intros p. apply He. Qed.

(** the lock of the scheduler, around the choice *)
Lemma locked_trees k b : trees_wf k -> trees_wf (set_k_sched_lock b k).
Proof. intros []. by split. Qed.

Lemma requeue_threads k k' cur :
  k_current k !! cpu = Some cur ->
  (requeued k = [] -> k' = k) ->
  (forall t, k_threads k !! cur = Some t -> requeued k = [cur] ->
     k_threads k' = <[cur := UNSET_FLAG THREAD_FLAG_RUNNING t]> (k_threads k)) ->
  forall p, k_threads k' !! p = picked k [] p <$> k_threads k !! p.
Proof.
  intros Hc Hnone Hsome p. unfold picked. rewrite (bool_decide_false (p ∈ [])) by set_solver.
  destruct (requeued k) as [|c l] eqn:Hrq.
  { rewrite Hnone, bool_decide_false by set_solver. by destruct (k_threads k !! p). }
  assert (c = cur /\ l = []) as [-> ->].
  { unfold requeued in Hrq. rewrite Hc in Hrq. destruct (k_idle k !! cpu); [|done].
    destruct (_ && _); [|done]. destruct (k_threads k !! cur); [|done]. destruct (_ =? _); [|done]. by simplify_eq. }
  pose proof (requeued_exist k) as Hex. rewrite Hrq in Hex. apply Forall_cons in Hex as [[t Ht] _].
  rewrite (Hsome t Ht eq_refl), lookup_insert. destruct (decide (cur = p)) as [->|].
  - rewrite bool_decide_true by set_solver. by rewrite Ht.
  - rewrite bool_decide_false by set_solver. by destruct (k_threads k !! p).
Qed.

Lemma woken_due_change k k' woken :
  (forall p t, k_threads k !! p = Some t ->
     exists t', k_threads k' !! p = Some t' /\ th_sleep_target t' = th_sleep_target t) ->
  k_reads k' = k_reads k -> woken_due k' woken -> woken_due k woken.
Proof.
  intros Ht Hr Hd i p t Hi Hp. destruct (Ht p t Hp) as (t' & Hp' & <-). rewrite <- Hr. by apply (Hd i p).
Qed.

Lemma next_not_due_change k k' woken rest :
  (forall p t, k_threads k !! p = Some t ->
     exists t', k_threads k' !! p = Some t' /\ th_sleep_target t' = th_sleep_target t) ->
  k_reads k' = k_reads k -> next_not_due k' woken rest -> next_not_due k woken rest.
Proof.
  intros Ht Hr Hd p t Hi Hp. destruct (Ht p t Hp) as (t' & Hp' & <-). rewrite <- Hr. by apply (Hd p).
Qed.

Lemma run_ordered_lock k b : run_ordered (set_k_sched_lock b k) <-> run_ordered k.
Proof. done. Qed.

Lemma vruntimes_ok_step k k' : sched_step k k' -> (forall p, vruntime_ok k p) -> forall p, vruntime_ok k' p.
Proof.
  intros Hs Hok p. unfold vruntime_ok, AA.key_ok. rewrite (ss_keys _ _ Hs). apply Hok.
Qed.

Lemma sched_pick_ok k cur idle :
  sched_wf cpu k -> k_current k !! cpu = Some cur -> k_idle k !! cpu = Some idle ->
  (requeued k <> [] -> alloc_room (k_atree_slab k)) ->
  NoDup (AA.contents (k_sleep_tree k)) -> (forall p, vruntime_ok k p) ->
  exists next k' woken, sched_pick cpu clock k = Some (next, k') /\ picks k k' woken idle next.
Proof.
  intros [Hw Hlock Hq Hsl [c0 [Hc0 Hcur]] _] Hc Hi Hroom Hnd Hok.
  rewrite Hc in Hc0. injection Hc0 as <-.
  set (k0 := set_k_sched_lock true k).
  destruct (sched_requeue_ok k0 cur idle) as (k1 & Hrun1 & Hs1 & Hp1 & Hsl1 & Hrd1 & Hn1 & Hu1 & Ho1);
    [by apply locked_trees|done..|].
  assert (Hrq : requeued k0 = requeued k) by done.
  assert (Hbound : (length (AA.contents (k_sleep_tree k1)) < S (AA.size (k_sleep_tree k1)))%nat)
    by (rewrite AA.size_contents; lia).
  destruct (sched_wake_ok _ k1 (ss_trees _ _ Hs1) Hbound) as (k2 & woken & Hrun2 & Hwk).
  { by rewrite Hsl1. }
  { rewrite Hsl1. eapply exist_weaken; [apply (ss_exist _ _ Hs1)|]. exact Hsl. }
  pose proof Hwk as [Hs2 Hslp Hr2 Hdue Hrest Hwok Hoth Hord2].
  pose proof (step_trans _ _ _ Hs1 Hs2) as Hs12.
  assert (Hpool : Permutation (AA.contents (k_run_tree k2)) (pool k woken)).
  { rewrite Hr2, Hp1, Hrq. unfold pool. rewrite !app_assoc. by rewrite (Permutation_app_comm woken). }
  assert (Hidle2 : k_idle k2 !! cpu = Some idle).
  { by destruct (frame_current _ _ (ss_frame _ _ Hs12)) as [_ ->]. }
  assert (Hex2 : Forall (fun p => is_Some (k_threads k2 !! p)) (AA.contents (k_run_tree k2))).
  { rewrite Hpool. eapply exist_weaken; [apply (ss_exist _ _ Hs12)|]. unfold pool.
    apply Forall_app; split; [exact (requeued_exist k)|]. apply Forall_app; split; [|exact Hq].
    rewrite Hsl1 in Hslp. simpl in Hslp. rewrite Hslp in Hsl. apply Forall_app in Hsl. tauto. }
  destruct (sched_take_ok k2 idle (ss_trees _ _ Hs2) Hidle2 Hex2)
    as (next & k3 & Hrun3 & Hs3 & Hts3 & Hsl3 & Hord3 & Hnext).
  pose proof (step_trans _ _ _ Hs12 Hs3) as Hs.
  exists next, (set_k_sched_lock false k3), woken. split.
  { unfold sched_pick. rewrite ST_bind_eq. unfold sched_spinlock at 1. rewrite Hlock. fold k0.
    rewrite ST_bind_eq, Hrun1. rewrite ST_bind_eq. unfold get_st at 1.
    rewrite ST_bind_eq, Hrun2. rewrite ST_bind_eq, Hrun3. done. }
  assert (Hord12 : run_ordered k -> run_ordered k2).
  { intros Hord. apply Hord2; [apply Ho1; [exact Hord|apply Hok]|]. by apply (vruntimes_ok_step k0). }
  assert (Hsleep : AA.contents (k_sleep_tree k) = woken ++ AA.contents (k_sleep_tree k3)).
  { rewrite Hsl3, <- Hslp. by rewrite Hsl1. }
  assert (Hsleepers : forall p t, k_threads k !! p = Some t ->
     exists t', k_threads k1 !! p = Some t' /\ th_sleep_target t' = th_sleep_target t).
  { intros p t Hp. destruct (proj2 (ss_exist _ _ Hs1 p) (mk_is_Some _ _ Hp)) as [t' Ht'].
    exists t'. split; [done|]. rewrite (requeue_threads k0 k1 cur Hc Hn1 Hu1 p) in Ht'.
    change (k_threads k0) with (k_threads k) in Ht'. rewrite Hp in Ht'. simplify_eq/=.
    unfold picked. rewrite bool_decide_false by set_solver. by destruct (bool_decide _). }
  assert (Hnot : next_not_due k woken (AA.contents (k_sleep_tree k3))) by (rewrite Hsl3; by eapply next_not_due_change).
  split.
  - apply frame_trans with k3; [|done]. by apply frame_trans with k0; [|apply Hs].
  - split; simpl.
    + apply locked_trees, Hs3.
    + done.
    + destruct Hnext as [(_ & _ & ->)|(f & Hf & _)]; [constructor|]. rewrite Hts3.
      rewrite Hf in Hex2. by apply Forall_cons in Hex2 as [_ ?].
    + rewrite Hts3, Hsl3. eapply exist_weaken; [apply (ss_exist _ _ Hs12)|].
      rewrite Hsl1 in Hslp. simpl in Hslp. rewrite Hslp in Hsl. apply Forall_app in Hsl. tauto.
    + destruct (frame_current _ _ (ss_frame _ _ Hs)) as [-> _]. exists cur. split; [done|].
      destruct Hcur as [->|He]; [by left|right]. by apply (ss_exist _ _ Hs).
    + destruct (frame_current _ _ (ss_frame _ _ Hs)) as [_ ->]. eauto.
  - apply (ss_exist _ _ Hs).
  - intros p. simpl. rewrite Hts3. unfold picked at 1.
    pose proof (requeue_threads k0 k1 cur Hc Hn1 Hu1 p) as Hth. unfold picked in Hth.
    rewrite (bool_decide_false (p ∈ [])) in Hth by set_solver. change (requeued k0) with (requeued k) in Hth.
    destruct (decide (p ∈ woken)) as [Hin|Hin].
    + rewrite Hwok, Hth by done. change (k_threads k0) with (k_threads k).
      destruct (k_threads k !! p); [|done]. simpl. by rewrite (bool_decide_true (p ∈ woken)).
    + rewrite Hoth, Hth by done. change (k_threads k0) with (k_threads k).
      destruct (k_threads k !! p); [|done]. simpl. by rewrite (bool_decide_false (p ∈ woken)).
  - exact Hsleep.
  - by eapply woken_due_change.
  - exact Hnot.
  - intros Hso. split; [|split].
    + pose proof (sleep_ordered_sorted k Hso) as Hsort. rewrite Hsleep in Hsort. by apply StronglySorted_app in Hsort as (_ & ? & _).
    + by apply sleep_ordered_none_due.
    + eapply (sleep_ordered_rest k); [exact Hsleep| |exact Hso]. intros p Hp. simpl in *. rewrite Hts3.
      rewrite Hsleep in Hnd. apply NoDup_app in Hnd as (_ & Hnd & _).
      rewrite Hoth by (intros Hin; by apply (Hnd p Hin)).
      pose proof (requeue_threads k0 k1 cur Hc Hn1 Hu1 p) as Hth. rewrite Hth.
      change (k_threads k0) with (k_threads k). destruct (k_threads k !! p); [|done]. simpl. unfold picked.
      rewrite (bool_decide_false (p ∈ [])) by set_solver. by destruct (bool_decide _).
  - intros Hord. apply run_ordered_lock, Hord3, Hord12, Hord.
  - intros Hne. destruct Hnext as [(He & _)|(f & _ & _ & Hr & _)]; [|exact Hr].
    destruct Hne. rewrite He in Hpool. by apply Permutation_nil_l in Hpool.
  - destruct Hnext as [(He & -> & He')|(f & Hf & -> & _ & Hmin)].
    + left. rewrite He in Hpool. apply Permutation_nil_l in Hpool. done.
    + right. exists f. simpl. rewrite <- Hpool, Hf. split; [done|]. rewrite Hts3. split; [done|].
      intros Hord. rewrite <- Hf. specialize (Hmin (Hord12 Hord)). eapply Forall_impl; [exact Hmin|]. simpl. intros p.
      by rewrite !(ss_keys _ _ Hs12).
Qed.

(** C6: choosing the next thread, in a kernel whose queues are well formed, where
    no thread sleeps twice, runtimes are 64-bit counts at the default priority
    and, when the running thread goes on, there is memory for its one tree node:
    the choice never faults. It wakes a prefix of the sleepers, in the tree's
    order, each due at the reading of the clock that tests it and the first one
    left not; where the sleep tree is in order of the wake-up times, all below
    2^63, they are woken in the order of their time, no sleeper left is due at
    the last reading, and the tree stays in order. From the running thread, the
    woken ones and the run tree it takes one with the least virtual runtime if
    the run tree is in order (the idle thread runs if there is none, or if that
    one cannot run), leaving the others in the run tree. Of the kernel only the
    two trees with their slab, the count of clock readings, and the woken and
    the running thread change. *)
Theorem sched_pick_spec k cur idle :
  sched_wf cpu k -> k_current k !! cpu = Some cur -> k_idle k !! cpu = Some idle ->
  (requeued k <> [] -> alloc_room (k_atree_slab k)) ->
  NoDup (AA.contents (k_sleep_tree k)) -> map_Forall (fun _ => thread_sane) (k_threads k) ->
  exists next k' woken, sched_pick cpu clock k = Some (next, k') /\ picks k k' woken idle next.
Proof. intros Hw Hc Hi Hroom Hnd Hs. by apply (sched_pick_ok k cur idle), sane_vruntime. Qed.

(** ** A thread below the others keeps the processor *)

(** the timer interrupt, [n] times, each calling [sched_switch_thread] *)
Fixpoint ticks (n : nat) : RST (kernel A) unit :=
  match n with
  | O => mret tt
  | S n => _ ← sched_switch_thread cpu num_cpus clock; ticks n
  end.

(** [cur] runs and has used less than every other runnable thread, none sleeps *)
Record below_others k (cur : Z) : Prop := {
  bo_wf : sched_wf cpu k;
  bo_idle : exists idle, k_idle k !! cpu = Some idle /\ cur <> idle;
  bo_current : k_current k !! cpu = Some cur;
  bo_null : cur <> NULL;
  bo_running : exists t, k_threads k !! cur = Some t /\ th_state t = SCHED_STATE_RUNNING;
  bo_sleep : AA.contents (k_sleep_tree k) = [];
  bo_order : run_ordered k;
  bo_ok : forall p, vruntime_ok k p;
  bo_room : alloc_room (k_atree_slab k);
  bo_least : Forall (fun p => sched_thread_vruntime (k_threads k) cur <
    sched_thread_vruntime (k_threads k) p) (AA.contents (k_run_tree k));
}.

Lemma unset_running t : FLAG (UNSET_FLAG THREAD_FLAG_RUNNING t) THREAD_FLAG_RUNNING = false.
Proof.
  unfold FLAG, flag_set. simpl. rewrite <- Z.land_assoc.
  assert (Z.land (w32 (Z.lnot THREAD_FLAG_RUNNING)) THREAD_FLAG_RUNNING = 0) as -> by done.
  by rewrite Z.land_0_r.
Qed.

Lemma below_others_tick k cur :
  below_others k cur ->
  exists k', sched_switch_thread cpu num_cpus clock k = Some (Done tt k') /\ below_others k' cur /\
    Permutation (AA.contents (k_run_tree k')) (AA.contents (k_run_tree k)) /\
    th_runtime <$> k_threads k' !! cur = th_runtime <$> k_threads k !! cur.
Proof.
  intros [Hw (idle & Hi & Hne) Hc Hnull (t & Ht & Hst) Hsl Hord Hok Hroom Hleast].
  destruct (sched_pick_ok k cur idle) as (next & k1 & woken & Hrun & Hp); [done|done|done|done| |done|].
  { rewrite Hsl. constructor. }
  destruct Hp as [Hf Hw1 Hex Hth Hslp _ _ _ Hord1 Hroom1 Hnext].
  rewrite Hsl in Hslp. symmetry in Hslp. apply app_nil in Hslp as [-> Hsl1].
  assert (Hrq : requeued k = [cur]).
  { unfold requeued. rewrite Hc, Hi, Ht. rewrite (proj2 (Z.eqb_neq _ _) Hnull), (proj2 (Z.eqb_neq _ _) Hne).
    simpl. by rewrite Hst. }
  assert (Hth1 : k_threads k1 !! cur = Some (UNSET_FLAG THREAD_FLAG_RUNNING t)).
  { rewrite Hth, Ht. simpl. unfold picked. rewrite Hrq, bool_decide_false by set_solver.
    by rewrite bool_decide_true by set_solver. }
  assert (Hvr : forall p, sched_thread_vruntime (k_threads k1) p = sched_thread_vruntime (k_threads k) p).
  { intros p. unfold sched_thread_vruntime. rewrite Hth. destruct (k_threads k !! p); [|done]. simpl.
    unfold picked. rewrite (bool_decide_false (p ∈ [])) by set_solver. by destruct (bool_decide _). }
  unfold pool in Hnext, Hroom1. rewrite Hrq in Hnext, Hroom1. simpl in Hnext. specialize (Hroom1 ltac:(done)).
  destruct Hnext as [[? _]|(first & Hperm & Hn & Hmin)]; [done|].
  assert (first = cur) as ->.
  { specialize (Hmin Hord). apply Forall_cons in Hmin as [Hle _].
    assert (Hin : first ∈ cur :: AA.contents (k_run_tree k)) by (rewrite Hperm; set_solver).
    apply elem_of_cons in Hin as [?|Hin]; [done|]. rewrite Forall_forall in Hleast.
    specialize (Hleast _ Hin). lia. }
  apply Permutation_cons_inv in Hperm.
  assert (next = cur) as ->.
  { rewrite Hn. unfold can_run. rewrite Hth1. simpl. rewrite Hst, unset_running. done. }
  destruct (frame_current _ _ Hf) as [Hc1 Hi1].
  exists k1. split; [|split; [split|split]]; try done.
  - unfold sched_switch_thread. erewrite R_lift by exact Hrun. unfold sched_jump_to_thread.
    erewrite R_lift by (unfold sched_current_thread; by rewrite Hc1, Hc).
    erewrite R_lift by (unfold set_current_thread, modify; reflexivity).
    rewrite Z.eqb_refl. unfold mret, RST_ret. do 2 f_equal.
    assert (Hid : <[cpu := cur]> (k_current k1) = k_current k1) by (apply list_insert_id; by rewrite Hc1).
    rewrite Hid. by destruct k1.
  - exists idle. by rewrite Hi1.
  - by rewrite Hc1.
  - eexists. split; [exact Hth1|]. done.
  - by apply Hord1.
  - intros p. unfold vruntime_ok, AA.key_ok. rewrite Hvr. apply Hok.
  - rewrite <- Hperm. eapply Forall_impl; [exact Hleast|]. simpl. intros p. by rewrite !Hvr.
  - by rewrite Hth1, Ht.
Qed.

(** preemption does not reach a running thread whose virtual runtime is
    below that of every runnable thread: its runtime is only counted when it
    is switched out, the timer puts it back in the run tree with the old
    count, takes it out again as the least, and jumps to itself; however many
    timer interrupts there are, it keeps the processor and its count stays. *)
Theorem sched_switch_monopoly k cur n :
  below_others k cur ->
  exists k', ticks n k = Some (Done tt k') /\ k_current k' !! cpu = Some cur /\
    Permutation (AA.contents (k_run_tree k')) (AA.contents (k_run_tree k)) /\
    th_runtime <$> k_threads k' !! cur = th_runtime <$> k_threads k !! cur.
Proof.
  revert k. induction n as [|n IH]; intros k Hb.
  { exists k. split_and!; try done. apply Hb. }
  destruct (below_others_tick k cur Hb) as (k1 & Hrun & Hb1 & Hp1 & Hr1).
  destruct (IH k1 Hb1) as (k2 & Hgo & Hc & Hp2 & Hr2). exists k2. split_and!; try done.
  - cbn [ticks]. by rewrite (R_done _ _ _ _ _ Hrun).
  - by rewrite Hp2.
  - by rewrite Hr2.
Qed.

(** ** The jump *)

Lemma thread_update_ok k p f t :
  k_threads k !! p = Some t ->
  thread_update p f k = Some (tt, set_k_threads (<[p := f t]> (k_threads k)) k).
Proof. unfold thread_update. by intros ->. Qed.

(** the thread a switch leaves, and the one it enters *)
Definition left_thread (esp0 now : Z) (c : thread) : thread :=
  set_th_object (kobject_unlock (th_object c)).2
    (UNSET_FLAG THREAD_FLAG_RUNNING
      (set_th_runtime (w64 (th_runtime c + w64 (now - th_start_timestamp c))) (set_th_kernel_stack esp0 c))).
Definition entered_thread (o : kobject) (now : Z) (t : thread) : thread :=
  entered_user (set_th_start_timestamp now (SET_FLAG THREAD_FLAG_RUNNING (set_th_object o t))).

(** the fields a jump changes outside the address spaces *)
Record jumps k k' (cur next : Z) (c t : thread) (o : kobject) : Prop := {
  jp_current : k_current k' = <[cpu := next]> (k_current k);
  jp_left : k_threads k' !! cur = Some (left_thread (k_esp0 k) (clock (k_reads k)) c);
  jp_entered : k_threads k' !! next = Some (entered_thread o (clock (S (k_reads k))) t);
  jp_others : forall p, p <> cur -> p <> next -> k_threads k' !! p = k_threads k !! p;
  jp_esp0 : k_esp0 k' = th_kernel_stack t;
  jp_trees : k_run_tree k' = k_run_tree k /\ k_sleep_tree k' = k_sleep_tree k /\ k_atree_slab k' = k_atree_slab k;
}.

Lemma sched_jump_prepare_ok k sp cur next c t o :
  cur <> NULL -> next <> cur ->
  k_current k !! cpu = Some next -> k_threads k !! cur = Some c -> k_threads k !! next = Some t ->
  sched_enter_space cur next k = Some (tt, set_k_spaces sp k) ->
  kobject_lock next num_cpus (th_object t) = Some o ->
  (kobject_unlock (th_object c)).1 = NULL ->
  sched_jump_prepare cpu num_cpus clock cur next k =
    Some (tt, set_k_esp0 (th_kernel_stack t) (set_k_reads (S (S (k_reads k)))
      (set_k_threads (<[next := set_th_start_timestamp (clock (S (k_reads k)))
              (SET_FLAG THREAD_FLAG_RUNNING (set_th_object o t))]>
         (<[cur := left_thread (k_esp0 k) (clock (k_reads k)) c]> (k_threads k)))
        (set_k_spaces sp k)))).
Proof.
  intros Hnull Hne Hcur Hc Ht Henter Hlock Hunlock. apply Z.eqb_neq in Hnull.
  unfold sched_jump_prepare. rewrite ST_bind_eq, Henter, Hnull.
  rewrite ST_bind_eq. rewrite (ST_bind_eq get_st). unfold get_st at 1.
  rewrite ST_bind_eq, (thread_update_ok _ _ _ c) by done.
  rewrite ST_bind_eq. unfold read_clock at 1.
  rewrite (thread_update_ok _ _ _ (set_th_kernel_stack (k_esp0 k) c)) by apply lookup_insert_eq.
  simpl. rewrite insert_insert_eq.
  rewrite ST_bind_eq. unfold thread_lock. rewrite ST_bind_eq.
  unfold sched_current_thread at 1. simpl. rewrite Hcur.
  assert (Hget : forall x, (<[cur := x]> (k_threads k)) !! next = Some t) by (intros; by rewrite lookup_insert_ne).
  rewrite ST_bind_eq. unfold thread_get at 1. simpl. rewrite Hget.
  rewrite ST_bind_eq, Hlock. simpl.
  rewrite (thread_update_ok _ _ _ t) by apply Hget.
  rewrite ST_bind_eq, (thread_update_ok _ _ _ (set_th_object o t)) by apply lookup_insert_eq.
  rewrite ST_bind_eq. unfold read_clock at 1.
  rewrite ST_bind_eq, (thread_update_ok _ _ _ (SET_FLAG THREAD_FLAG_RUNNING (set_th_object o t)))
    by (simpl; apply lookup_insert_eq).
  simpl. rewrite !insert_insert_eq.
  rewrite ST_bind_eq. unfold thread_get at 1. simpl. rewrite lookup_insert_eq.
  rewrite ST_bind_eq. unfold modify. unfold thread_unlock. rewrite ST_bind_eq. unfold thread_get at 1. simpl.
  rewrite lookup_insert_ne, lookup_insert_eq by done. simpl.
  unfold kobject_release.
  destruct (kobject_unlock (th_object c)) as [w o'] eqn:Hu. simpl in Hunlock. subst w. simpl.
  rewrite ST_bind_eq. simpl. erewrite thread_update_ok by (simpl; by rewrite lookup_insert_ne, lookup_insert_eq).
  simpl. rewrite (insert_insert_ne _ cur next), insert_insert_eq by done.
  unfold left_thread. rewrite Hu. done.
Qed.

(** C7: a jump to another thread accounts the time since it started to the
    thread left, releases its object and clears its flag, locks the object of
    the thread entered, sets its flag, its start time and the kernel stack,
    and gives up the processor; when the thread left is scheduled again the
    jump returns without further effect. *)
Theorem sched_jump_spec k sp cur next c t o :
  k_current k !! cpu = Some cur -> cur <> NULL -> next <> cur ->
  k_threads k !! cur = Some c -> k_threads k !! next = Some t ->
  sched_enter_space cur next (set_k_current (<[cpu := next]> (k_current k)) k) =
    Some (tt, set_k_spaces sp (set_k_current (<[cpu := next]> (k_current k)) k)) ->
  kobject_lock next num_cpus (th_object t) = Some o ->
  (kobject_unlock (th_object c)).1 = NULL ->
  exists k' rest,
    sched_jump_to_thread cpu num_cpus clock next k = Some (Yielded k' rest) /\
    jumps k k' cur next c t o /\ k_spaces k' = sp /\
    forall k'', rest k'' = Some (Done tt k'').
Proof.
  intros Hcur Hnull Hne Hc Ht Henter Hlock Hunlock. set (k0 := set_k_current _ k) in *.
  assert (Hcur0 : k_current k0 !! cpu = Some next).
  { simpl. apply list_lookup_insert_eq. by eapply lookup_lt_Some. }
  pose proof (sched_jump_prepare_ok k0 sp cur next c t o Hnull Hne Hcur0 Hc Ht Henter Hlock Hunlock) as Hprep.
  unfold sched_jump_to_thread.
  erewrite R_lift by (unfold sched_current_thread; by rewrite Hcur).
  erewrite R_lift by (unfold set_current_thread, modify; reflexivity). fold k0.
  rewrite (proj2 (Z.eqb_neq cur next)) by done.
  erewrite R_lift by exact Hprep. unfold sched_do_thread_switch.
  erewrite R_lift by (apply thread_update_ok; simpl; apply lookup_insert_eq).
  unfold yield_cpu. do 2 eexists. split; [done|]. split; [|split; [done|done]]. split; try done; simpl.
  - by rewrite !lookup_insert_ne, lookup_insert_eq by done.
  - by rewrite lookup_insert_eq.
  - intros p Hp1 Hp2. by rewrite !lookup_insert_ne.
Qed.

(** ** Threads stopped, continued and killed *)

(** [sched_thread_stop] leaves a runnable thread in the run tree, and
    [sched_thread_continue] inserts it once more: a thread stopped and
    continued before the scheduler meets it is in the run tree twice. *)
Theorem sched_stop_continue_twice k p t :
  trees_wf k -> alloc_room (k_atree_slab k) -> k_sched_lock k = false -> k_threads k !! p = Some t ->
  th_state t = SCHED_STATE_RUNNING -> p ∈ AA.contents (k_run_tree k) ->
  exists k', (_ ← sched_thread_stop p; sched_thread_continue p) k = Some (tt, k') /\
    Permutation (AA.contents (k_run_tree k')) (p :: AA.contents (k_run_tree k)) /\
    th_state <$> k_threads k' !! p = Some SCHED_STATE_RUNNING.
Proof.
  intros Hw Hroom Hlock Ht Hst Hin. set (t1 := set_th_state SCHED_STATE_STOPPED t).
  set (k1 := set_k_threads (<[p := t1]> (k_threads k)) k).
  assert (Hw1 : trees_wf (set_k_sched_lock true k1)) by (destruct Hw; by split).
  destruct (update_insert_ok (set_k_sched_lock true k1) p t1
    (fun t => UNSET_FLAG THREAD_FLAG_FAULTED (set_th_state SCHED_STATE_RUNNING t)) Hw1 Hroom)
    as (k2 & Hrun & Hs & Hts & Hp & _); [apply lookup_insert_eq|done|].
  exists (set_k_sched_lock false k2). split; [|split].
  - unfold sched_thread_stop. rewrite !ST_bind_eq. unfold thread_get at 1. rewrite Ht, Hst. simpl.
    rewrite (thread_update_ok k p _ t Ht). fold t1 k1.
    unfold sched_thread_continue. rewrite ST_bind_eq. unfold sched_spinlock.
    change (k_sched_lock k1) with (k_sched_lock k). rewrite Hlock.
    rewrite ST_bind_eq. unfold thread_get at 1. simpl. rewrite lookup_insert_eq. simpl.
    rewrite ST_bind_eq. unfold when_st. by rewrite Hrun.
  - exact Hp.
  - simpl. by rewrite Hts, lookup_insert_eq.
Qed.

(** [sched_thread_kill] frees a thread that is in the run tree, where the
    scheduler will meet it. *)
Theorem sched_kill_dangling k p t cur a :
  k_sched_lock k = false -> k_threads k !! p = Some t -> p <> NULL ->
  k_current k !! cpu = Some cur -> cur <> p ->
  p ∈ AA.contents (k_run_tree k) -> dealloc p (k_thread_slab k) = Some (tt, a) ->
  exists k', sched_thread_kill cpu p k = Some (tt, k') /\
    p ∈ AA.contents (k_run_tree k') /\ k_threads k' !! p = None.
Proof.
  intros Hlock Ht Hnull Hcur Hne Hin Hd.
  assert (Hstop : exists ts, sched_thread_stop p (set_k_sched_lock true k) =
    Some (tt, set_k_threads ts (set_k_sched_lock true k))).
  { unfold sched_thread_stop. rewrite ST_bind_eq. unfold thread_get at 1. simpl. rewrite Ht.
    destruct (_ =? _); simpl; [rewrite (thread_update_ok _ _ _ t) by done; eauto|].
    exists (k_threads k). by destruct k. }
  destruct Hstop as [ts Hstop]. eexists. split.
  - unfold sched_thread_kill. rewrite (proj2 (Z.eqb_neq _ _) Hnull). simpl.
    rewrite ST_bind_eq. unfold sched_current_thread at 1. rewrite Hcur.
    rewrite (proj2 (Z.eqb_neq p cur)) by done. rewrite ST_bind_eq. simpl.
    rewrite ST_bind_eq. unfold sched_spinlock at 1. rewrite Hlock.
    rewrite ST_bind_eq, Hstop. rewrite ST_bind_eq. simpl.
    unfold thread_destroy, on_thread_slab, zoom. rewrite ST_bind_eq. simpl. rewrite Hd. reflexivity.
  - simpl. split; [done|]. apply lookup_delete_eq.
Qed.
End scheduler_proofs.

Section create.
Context {A : Type} `{!Allocator A} `{!Pages A} `{!AllocatorLaws A} `{!PagesLaws A}.
Implicit Types (k : kernel A).

(** the threads are objects of the slab, and there is room for [n] more
    objects and pages *)
Record thread_room (n : nat) k : Prop := {
  trm_inv : alloc_inv (k_thread_slab k);
  trm_rooms : rooms n (k_thread_slab k);
  trm_live : forall p, is_Some (k_threads k !! p) -> alloc_live (k_thread_slab k) p;
}.

Lemma thread_create_ok n k entry space stack flags :
  thread_room (S (S n)) k ->
  exists t a page, let th := Thread (ThreadRegs 0 stack entry (if flag_set flags THREAD_FLAG_USER then 1 else 0))
      (w32 (page + PAGE_SIZE)) (kobject_init KOBJECT_TYPE_THREAD) 0 0 0 space NULL 0 (k_thread_counter k) 0 flags
      THREAD_DEFAULT_PRIORITY (Message 0 0 (replicate 6 0)) in
    let k' := set_k_thread_counter (w32 (k_thread_counter k + 1))
        (set_k_threads (<[t := th]> (k_threads k)) (set_k_thread_slab a k)) in
    thread_create entry space stack flags k = Some (t, k') /\
    k_threads k !! t = None /\ t <> NULL /\ page mod 4096 = 0 /\ thread_room n k'.
Proof using All.
  intros [Hi (Hr & _ & Hn) Hlive]. destruct (alloc_total _ Hi Hr) as (t & a1 & Ha).
  destruct (alloc_ok _ _ _ Hi Ha) as (Hi1 & Hnull & Ht & Hl1). destruct (Hn t a1 (or_introl Ha)) as (_ & Hp & Hn1).
  destruct (page_alloc_ok a1 Hi1 Hp) as (page & a2 & Hpa & Hi2 & _ & Hpm & _ & _ & Hl2).
  exists t, a2, page. split; [|split; [|split; [done|split; [done|]]]].
  - unfold thread_create, thread_set_init_state, on_thread_slab, zoom. rewrite ST_bind_eq, Ha. simpl.
    rewrite !ST_bind_eq. simpl. rewrite Hpa. reflexivity.
  - by apply (not_live_None _ (alloc_live (k_thread_slab k))).
  - split; simpl; [done|by apply (Hn1 page); right|]. intros q Hq. apply Hl2, Hl1. rewrite lookup_insert in Hq.
    case_decide; [by right|]. left. by apply Hlive.
Qed.

(** a thread of the kernel, with a stack of its own *)
Lemma thread_create_kthread_ok n k entry :
  thread_room (S (S (S n))) k ->
  exists t th a, let k' := set_k_thread_counter (w32 (k_thread_counter k + 1))
      (set_k_threads (<[t := th]> (k_threads k)) (set_k_thread_slab a k)) in
    thread_create_kthread entry k = Some (t, k') /\ k_threads k !! t = None /\ t <> NULL /\
    tr_eip (th_registers th) = entry /\ th_addr_space th = sp_kernel (k_spaces k) /\
    th_state th = SCHED_STATE_RUNNING /\ vruntime th = 0 /\ thread_room n k'.
Proof using All.
  intros [Hi (_ & Hp & Hn) Hlive]. destruct (page_alloc_ok _ Hi Hp) as (stack & a & Hpa & Hi1 & _ & _ & _ & _ & Hl1).
  set (k1 := set_k_thread_slab a k).
  destruct (thread_create_ok n k1 entry (sp_kernel (k_spaces k1)) (w32 (stack + PAGE_SIZE)) THREAD_FLAG_NONE)
    as (t & a2 & page & R2 & Ht & Hnull & _ & Hroom).
  { split; [done|by apply (Hn stack); right|]. intros p Hp'. by apply Hl1, Hlive. }
  eexists t, _, a2. split; [|split; [exact Ht|split; [done|split; [|split; [|split; [|split; [|exact Hroom]]]]]]]; try done.
  unfold thread_create_kthread. rewrite ST_bind_eq. unfold on_thread_slab, zoom. rewrite Hpa. fold k1.
  rewrite ST_bind_eq. unfold get_st at 1. exact R2.
Qed.

(** *** Making a thread runnable *)

(** the processor that is told of a new thread: the first that idles *)
Definition told (apic_is_enabled : bool) k : option nat :=
  if apic_is_enabled then find_idle_cpu 0 (k_current k) (k_idle k) else None.
(** whether the running thread gives way to [p]: none idles, and it has used
    less than [p] *)
Definition gives_way (apic_is_enabled : bool) k (cur p : Z) : bool :=
  bool_decide (told apic_is_enabled k = None) && negb (cur =? NULL) &&
  (sched_thread_vruntime (k_threads k) cur <? sched_thread_vruntime (k_threads k) p).

Lemma sched_add_ok cpu apic_is_enabled k p t cur :
  sched_wf cpu k -> alloc_room (k_atree_slab k) -> k_threads k !! p = Some t -> th_state t = SCHED_STATE_RUNNING ->
  k_current k !! cpu = Some cur ->
  exists tree a, let k' := set_k_ipis (k_ipis k ++ (if told apic_is_enabled k is Some i then [Z.of_nat i] else []))
      (set_k_run_tree tree (set_k_atree_slab a k)) in
    sched_add cpu apic_is_enabled p k = Some (gives_way apic_is_enabled k cur p, k') /\ sched_wf cpu k' /\
    Permutation (AA.contents tree) (p :: AA.contents (k_run_tree k)) /\
    (run_ordered k -> vruntime_ok k p -> run_ordered k') /\
    exists node, alloc (k_atree_slab k) = Some (node, a).
Proof.
  intros [Hw Hlock Hq Hsl Hc Hi] Hroom Hp Hst Hcur. set (k0 := set_k_sched_lock true k).
  assert (Hw0 : trees_wf k0) by (destruct Hw; by split).
  destruct (run_insert_room k0 p Hw0 Hroom) as (node & a & Halloc & Hrun & Hw1).
  set (tree := AA.insert _ node p _) in *. change (k_run_tree k0) with (k_run_tree k) in tree.
  assert (Hperm : Permutation (AA.contents tree) (p :: AA.contents (k_run_tree k))) by apply AA.insert_contents, Hw.
  exists tree, a. cbn zeta. split; [|split; [split|split; [|split; [|by exists node]]]]; simpl; try done.
  - unfold sched_add. rewrite (ST_run _ _ _ tt k0) by (unfold sched_spinlock; by rewrite Hlock).
    rewrite (ST_run _ _ _ t k0) by (unfold thread_get; change (k_threads k0) with (k_threads k); by rewrite Hp).
    rewrite Hst. change (SCHED_STATE_RUNNING =? SCHED_STATE_RUNNING) with true. cbn iota.
    rewrite (ST_run _ _ _ _ _ Hrun). set (k1 := set_k_run_tree _ _). rewrite (ST_run _ _ _ k1 k1) by done. cbv zeta.
    change (if apic_is_enabled then find_idle_cpu 0 (k_current k1) (k_idle k1) else None) with (told apic_is_enabled k).
    set (k2 := set_k_ipis (k_ipis k ++ (if told apic_is_enabled k is Some i then [Z.of_nat i] else [])) k1).
    rewrite (ST_run _ _ _ tt k2) by (unfold k2; destruct (told apic_is_enabled k); [done|]; rewrite app_nil_r; by destruct k).
    rewrite (ST_run _ _ _ cur k2) by (unfold sched_current_thread; change (k_current k2) with (k_current k); by rewrite Hcur).
    unfold sched_unlock. rewrite (ST_run _ _ _ tt (set_k_sched_lock false k2)) by done.
    unfold k2, k1, k0, gives_way. destruct k. simpl in Hlock. by subst.
  - destruct Hw1; by split.
  - rewrite Hperm. constructor; [by eexists|done].
  - intros Hord Hok. exact (run_ordered_insert k (k_threads k) node p (tw_run _ Hw) Hord Hok (fun _ => eq_refl)).
Qed.
End create.

(** ** Examples *)

Definition regs_ex : thread_regs := ThreadRegs 0 0 0 0.
(** a thread of the kernel's address space *)
Definition thread_ex (id state flags runtime target : Z) : thread :=
  Thread regs_ex 0x5000 (kobject_init KOBJECT_TYPE_THREAD) runtime 0 target 0x6000 0 0 id state flags
    THREAD_DEFAULT_PRIORITY (Message 0 0 (replicate 6 0)).
Definition clock_ex (n : nat) : Z := 1000000 + 1000 * Z.of_nat n.
Definition slab_of (next : Z) (live : gset Z) : BumpPages.t := BumpPages.BumpPages (Bump.Bump next live) 0x100000 ∅.

(** thread 0x10 runs, 0x20 waits for the processor, 0x40 sleeps, 0x30 idles *)
Definition kernel_with (runtime20 : Z) (sleep : AA.tree) (live : gset Z) : kernel BumpPages.t :=
  Kernel
    (<[0x10 := thread_ex 1 SCHED_STATE_RUNNING THREAD_FLAG_RUNNING 0 0]>
      (<[0x20 := thread_ex 2 SCHED_STATE_RUNNING 0 runtime20 0]>
        (<[0x30 := thread_ex 3 SCHED_STATE_RUNNING 0 0 0]>
          {[0x40 := thread_ex 4 SCHED_STATE_SLEEPING 0 0 500]})))
    (slab_of 0x1000 ∅) 5
    (AA.N 0x1000 1 AA.E 0x20 AA.E) sleep (slab_of 0x2000 live)
    [0x10; NULL] [0x30; NULL] false 0 [] 0x7000 ∅ ∅ ∅
    (slab_of 0x1000 ∅) (slab_of 0x1000 ∅) (slab_of 0x1000 ∅)
    (replicate 256 NULL) ∅
    (CapStore ∅ ∅ (slab_of 0x1000 ∅)) (store_of AddrSpace.map_empty) [].
Definition kernel_ex : kernel BumpPages.t :=
  kernel_with 0 (AA.N 0x1080 1 AA.E 0x40 AA.E) {[0x1000; 0x1080]}.
Definition kernel_low : kernel BumpPages.t := kernel_with 4096 AA.E {[0x1000]}.

Lemma slab_of_inv live :
  bool_decide (set_Forall (fun p => p < 0x2000) live) = true -> alloc_inv (slab_of 0x2000 live).
Proof.
  intros Hl%bool_decide_eq_true. split; [|done]. split; [done|]. exact Hl.
Qed.

Lemma kernel_ex_wf : sched_wf 0 kernel_ex.
Proof.
  split.
  - split.
    + simpl. lia.
    + simpl. lia.
    + apply slab_of_inv. vm_compute. reflexivity.
    + intros p. change (p ∈ ({[0x1000; 0x1080]} : gset Z) <-> p ∈ [0x1000; 0x1080]). set_solver.
    + decide_vm.
  - done.
  - decide_vm.
  - decide_vm.
  - exists 0x10. split; [done|]. right. by eexists.
  - by exists 0x30.
Qed.

Lemma kernel_low_wf : sched_wf 0 kernel_low.
Proof.
  split.
  - split.
    + simpl. lia.
    + done.
    + apply slab_of_inv. vm_compute. reflexivity.
    + intros p. change (p ∈ ({[0x1000]} : gset Z) <-> p ∈ [0x1000]). set_solver.
    + decide_vm.
  - done.
  - decide_vm.
  - decide_vm.
  - exists 0x10. split; [done|]. right. by eexists.
  - by exists 0x30.
Qed.

Definition sane_b (t : thread) : bool :=
  (0 <=? th_runtime t) && (th_runtime t <? 2 ^ 64) && (th_priority t =? THREAD_DEFAULT_PRIORITY).

Lemma sane_b_ok (ts : gmap Z thread) :
  forallb (fun x => sane_b x.2) (map_to_list ts) = true -> map_Forall (fun _ => thread_sane) ts.
Proof.
  intros Hb p t Hp. rewrite forallb_forall in Hb. specialize (Hb (p, t)).
  assert (Hin : In (p, t) (map_to_list ts)) by (apply list_elem_of_In, elem_of_map_to_list; done).
  specialize (Hb Hin). unfold sane_b in Hb. simpl in Hb. unfold thread_sane. lia.
Qed.

Lemma sched_pick_spec_witness :
  exists next k' woken, sched_pick 0 clock_ex kernel_ex = Some (next, k') /\
    picks 0 clock_ex kernel_ex k' woken 0x30 next.
Proof.
  apply (sched_pick_spec 0 clock_ex kernel_ex 0x10 0x30).
  - exact kernel_ex_wf.
  - reflexivity.
  - reflexivity.
  - done.
  - decide_vm.
  - apply sane_b_ok. vm_compute. reflexivity.
Defined.

(** the sleeper is woken, and the thread of the run tree goes first *)
Example sched_pick_ex :
  match sched_pick 0 clock_ex kernel_ex with
  | Some (next, k) => (next, AA.contents (k_run_tree k), AA.contents (k_sleep_tree k))
  | None => (0, [], [])
  end = (0x20, [0x10; 0x40], []).
Proof. vm_compute. reflexivity. Qed.

Lemma kernel_low_below : below_others 0 kernel_low 0x10.
Proof.
  split.
  - exact kernel_low_wf.
  - exists 0x30. by split.
  - done.
  - done.
  - by eexists.
  - done.
  - split; [repeat constructor|]. repeat constructor; vm_compute; congruence.
  - apply sane_vruntime, sane_b_ok. vm_compute. reflexivity.
  - done.
  - repeat constructor.
Qed.

Lemma sched_switch_monopoly_witness :
  exists k', ticks 0 1 clock_ex 100 kernel_low = Some (Done tt k') /\ k_current k' !! 0%nat = Some 0x10 /\
    Permutation (AA.contents (k_run_tree k')) (AA.contents (k_run_tree kernel_low)) /\
    th_runtime <$> k_threads k' !! 0x10 = th_runtime <$> k_threads kernel_low !! 0x10.
Proof. apply (sched_switch_monopoly 0 1 clock_ex), kernel_low_below. Defined.

Lemma sched_jump_spec_witness :
  exists k' rest,
    sched_jump_to_thread 0 1 clock_ex 0x20 kernel_ex = Some (Yielded k' rest) /\
    jumps 0 clock_ex kernel_ex k' 0x10 0x20 (thread_ex 1 SCHED_STATE_RUNNING THREAD_FLAG_RUNNING 0 0)
      (thread_ex 2 SCHED_STATE_RUNNING 0 0 0) (Kobject (Mutex 0 [] 0x20 true) KOBJECT_TYPE_THREAD) /\
    k_spaces k' = store_of AddrSpace.map_empty /\ forall k'', rest k'' = Some (Done tt k'').
Proof. apply (sched_jump_spec 0 1 clock_ex kernel_ex (store_of AddrSpace.map_empty)); done. Defined.

Lemma sched_stop_continue_twice_witness :
  exists k', (_ ← sched_thread_stop 0x20; sched_thread_continue 0x20) kernel_ex = Some (tt, k') /\
    Permutation (AA.contents (k_run_tree k')) [0x20; 0x20] /\
    th_state <$> k_threads k' !! 0x20 = Some SCHED_STATE_RUNNING.
Proof.
  apply (sched_stop_continue_twice kernel_ex 0x20 (thread_ex 2 SCHED_STATE_RUNNING 0 0 0)); try done.
  - exact (sw_trees _ _ kernel_ex_wf).
  - decide_vm.
Defined.

Lemma sched_kill_dangling_witness :
  exists k', sched_thread_kill 0 0x20 kernel_ex = Some (tt, k') /\
    0x20 ∈ AA.contents (k_run_tree k') /\ k_threads k' !! 0x20 = None.
Proof.
  eapply (sched_kill_dangling 0 kernel_ex 0x20 (thread_ex 2 SCHED_STATE_RUNNING 0 0 0) 0x10); try done.
  decide_vm.
Defined.
