(* ===== verification/Message.v ===== *)
(** Message passing ([src/message.c]), and its two uses inside the kernel: the
    page fault message of [src/paging.c] and the interrupt messages of
    [src/interrupts.c].

    A message is read from a buffer of a program, or is a local variable of
    the kernel.  An operation that blocks yields the processor; when its thread
    runs again it starts over, as the [goto retry] of the code does.  A lock
    that is not free is a fault here: on one processor nobody holds the lock of
    an endpoint across a switch, except for the switch inside
    [sched_add_thread], and then the mutex is held by the thread switched out. *)
From S2P Require Export Scheduler.

Inductive msg_ref := UserBuf (p : Z) | Local (m : message).

Section message.
Context {A : Type} `{!Allocator A} `{!Pages A}.
Context (cpu : nat) (num_cpus : Z) (apic_is_enabled : bool) (clock : nat -> Z).

Abbreviation KST := (ST (kernel A)).
Abbreviation KR := (RST (kernel A)).
Abbreviation sched_current_thread := (@sched_current_thread A cpu).
Abbreviation sched_add_thread := (@sched_add_thread A _ cpu num_cpus apic_is_enabled clock).
Abbreviation sched_thread_yield := (@sched_thread_yield A _ cpu num_cpus clock).
Abbreviation thread_lock := (@thread_lock A cpu num_cpus).
Abbreviation thread_unlock := (@thread_unlock A).

Definition msg_read (r : msg_ref) : KST message :=
  match r with UserBuf p => buf_get p | Local m => mret m end.
(** [msg->sender = id] *)
Definition msg_write_sender (id : Z) (r : msg_ref) : KST msg_ref :=
  match r with
  | UserBuf p => m ← buf_get p; _ ← buf_put p (set_msg_sender id m); mret r
  | Local m => mret (Local (set_msg_sender id m))
  end.

Definition is_kernel_msg (m : message) : bool := msg_type m <? MESSAGE_TYPE_END_RESERVED.

Definition set_sender_state (t : thread) : thread :=
  if FLAG t THREAD_FLAG_FAULTED then set_th_state SCHED_STATE_STOPPED t
  else set_th_state SCHED_STATE_RUNNING t.

(** used nowhere *)
Definition message_thread_can_recieve (target : thread) : bool :=
  (th_state target =? SCHED_STATE_WAITING) && negb (FLAG target THREAD_FLAG_PENDING_MSG).

(** ** The locks and queues of an endpoint *)

Definition sync_lock (p : Z) : KST unit :=
  q ← sync_get p;
  cur ← sched_current_thread;
  o ← lift_opt (kobject_lock cur num_cpus (mq_object q));
  sync_update p (set_mq_object o).
Definition sync_unlock (p : Z) : KST unit :=
  q ← sync_get p;
  o ← lift_opt (kobject_release (mq_object q));
  sync_update p (set_mq_object o).
Definition async_lock (p : Z) : KST unit :=
  q ← async_get p;
  cur ← sched_current_thread;
  o ← lift_opt (kobject_lock cur num_cpus (ma_object q));
  async_update p (set_ma_object o).
Definition async_unlock (p : Z) : KST unit :=
  q ← async_get p;
  o ← lift_opt (kobject_release (ma_object q));
  async_update p (set_ma_object o).

Definition pop_sender (p : Z) : KST Z :=
  q ← sync_get p;
  match mq_senders q with
  | [] => mret NULL
  | t :: l => _ ← sync_update p (set_mq_senders l); mret t
  end.
Definition pop_reciever (p : Z) : KST Z :=
  q ← sync_get p;
  match mq_recievers q with
  | [] => mret NULL
  | t :: l => _ ← sync_update p (set_mq_recievers l); mret t
  end.
Definition push_sender (p t : Z) : KST unit :=
  sync_update p (fun q => set_mq_senders (mq_senders q ++ [t]) q).
Definition push_reciever (p t : Z) : KST unit :=
  sync_update p (fun q => set_mq_recievers (mq_recievers q ++ [t]) q).
Definition pop_async_reciever (p : Z) : KST Z :=
  q ← async_get p;
  match ma_recievers q with
  | [] => mret NULL
  | t :: l => _ ← async_update p (set_ma_recievers l); mret t
  end.

(** ** Messages the kernel takes part in *)

(** whether the message is passed on *)
Definition kernel_msg_handle_send (m : message) : bool :=
  if msg_type m =? MESSAGE_TYPE_DEBUG_PRINT then false
  else if msg_type m =? MESSAGE_TYPE_GRANT_OBJECT then true
  else if msg_type m =? MESSAGE_TYPE_PAGE_FAULT then true
  else false.

(** works on the message of the running thread *)
Definition kernel_msg_handle_recieve : KST bool :=
  cur ← sched_current_thread;
  t ← thread_get cur;
  if msg_type (th_message t) =? MESSAGE_TYPE_GRANT_OBJECT then
    _ ← thread_update cur (fun t => set_th_message (set_msg_data 5 0 (th_message t)) t);
    if th_cap_space t =? NULL then mret false
    else
      let m := th_message t in
      obj ← on_caps (cap_space_insert (th_cap_space t) (CapEntry (msg_arg 0 m) (msg_arg 1 m) (msg_arg 2 m)));
      _ ← thread_update cur (fun t =>
            set_th_message (set_msg_data 2 0 (set_msg_data 5 obj (th_message t))) t);
      mret true
  else mret true.

(** ** Synchronous endpoints *)

(** the end of [message_recieve], with the message in the thread *)
Definition message_recieve_finish (queue msg cur : Z) : KST unit :=
  t ← thread_get cur;
  _ ← when_st (is_kernel_msg (th_message t)) (_ ← kernel_msg_handle_recieve; mret tt);
  _ ← thread_update cur (fun t => UNSET_FLAG THREAD_FLAG_PENDING_MSG (set_th_state SCHED_STATE_RUNNING t));
  t ← thread_get cur;
  _ ← buf_put msg (th_message t);
  sync_unlock queue.

(** take over the message of a blocked sender *)
Definition message_take (sender cur : Z) : KST unit :=
  _ ← thread_lock sender;
  s ← thread_get sender;
  _ ← thread_update cur (set_th_message (th_message s));
  _ ← thread_update sender set_sender_state;
  thread_unlock sender.

(** block on the endpoint, up to the yield *)
Definition message_wait (queue cur : Z) : KST unit :=
  _ ← thread_update cur (set_th_state SCHED_STATE_WAITING);
  _ ← push_reciever queue cur;
  sync_unlock queue.

Fixpoint message_recieve_loop (fuel : nat) (queue msg cur : Z) : KR unit :=
  match fuel with
  | O => rfault
  | S fuel =>
      _ ← lift (sync_lock queue);
      t ← lift (thread_get cur);
      if negb (FLAG t THREAD_FLAG_PENDING_MSG) then
        sender ← lift (pop_sender queue);
        if negb (sender =? NULL) then
          _ ← lift (message_take sender cur);
          _ ← sched_add_thread sender;
          lift (message_recieve_finish queue msg cur)
        else
          _ ← lift (message_wait queue cur);
          _ ← sched_thread_yield;
          message_recieve_loop fuel queue msg cur
      else lift (message_recieve_finish queue msg cur)
  end.

(** [fuel] bounds how often the thread is woken without a message *)
Definition message_recieve (fuel : nat) (queue msg : Z) : KR unit :=
  cur ← lift sched_current_thread;
  message_recieve_loop fuel queue msg cur.

(** hand the message to a waiting thread: whether it is to be woken *)
Definition message_hand_over (thread cur : Z) (msg : msg_ref) : KST bool :=
  _ ← thread_lock thread;
  m ← msg_read msg;
  if is_kernel_msg m && negb (kernel_msg_handle_send m) then
    _ ← thread_unlock thread;
    mret false
  else
    c ← thread_get cur;
    msg ← msg_write_sender (th_id c) msg;
    _ ← thread_update thread (SET_FLAG THREAD_FLAG_PENDING_MSG);
    _ ← thread_update thread (set_th_state SCHED_STATE_RUNNING);
    m ← msg_read msg;
    _ ← thread_update thread (set_th_message m);
    _ ← thread_unlock thread;
    mret true.

Definition message_try_send (queue : Z) (msg : msg_ref) : KR bool :=
  cur ← lift sched_current_thread;
  thread ← lift (pop_reciever queue);
  if thread =? NULL then mret false
  else
    wake ← lift (message_hand_over thread cur msg);
    if (wake : bool) then
      _ ← sched_add_thread thread;
      mret true
    else mret true.

(** block with the message, up to the yield *)
Definition message_block (queue cur : Z) (msg : msg_ref) : KST unit :=
  m ← msg_read msg;
  _ ← thread_update cur (set_th_message m);
  _ ← thread_update cur (set_th_state SCHED_STATE_SENDING);
  _ ← push_sender queue cur;
  sync_unlock queue.

(** the two ends of [message_send] *)
Definition message_sent (queue cur : Z) (msg : msg_ref) (sent : bool) : KR unit :=
  if sent then
    _ ← lift (thread_update cur set_sender_state);
    lift (sync_unlock queue)
  else
    _ ← lift (message_block queue cur msg);
    sched_thread_yield.

Definition message_send (queue : Z) (msg : msg_ref) : KR unit :=
  cur ← lift sched_current_thread;
  _ ← lift (sync_lock queue);
  sent ← message_try_send queue msg;
  message_sent queue cur msg sent.

Definition message_send_capability (queue : Z) (cap : cap_entry) : KR unit :=
  message_send queue (Local (msg_init MESSAGE_TYPE_GRANT_OBJECT
    [ce_type cap; ce_permissions cap; ce_object cap])).

(** a new endpoint has its queues set; the object is left as the slab gave it *)
Definition message_queue_create (stale : kobject) : KST Z :=
  ret ← on_queue_slab alloc;
  _ ← modify (fun k => set_k_syncs (<[ret := MsgQueue stale [] []]> (k_syncs k)) k);
  mret ret.

(** ** Asynchronous endpoints *)

Definition msg_node_get (p : Z) : KST message_node := fun k =>
  match k_msg_nodes k !! p with Some n => Some (n, k) | None => None end.
Definition msg_node_update (p : Z) (f : message_node -> message_node) : KST unit := fun k =>
  match k_msg_nodes k !! p with
  | Some n => Some (tt, set_k_msg_nodes (<[p := f n]> (k_msg_nodes k)) k)
  | None => None
  end.
Definition set_mn_next (v : Z) (n : message_node) : message_node := MessageNode v (mn_message n).

(** only the message is written; [stale] is what the slab left in [next] *)
Definition message_node_alloc (stale : Z) (m : message) : KST Z :=
  ret ← on_node_slab alloc;
  _ ← modify (fun k => set_k_msg_nodes (<[ret := MessageNode stale m]> (k_msg_nodes k)) k);
  mret ret.
Definition message_node_free (node : Z) : KST unit :=
  _ ← on_node_slab (dealloc node);
  modify (fun k => set_k_msg_nodes (delete node (k_msg_nodes k)) k).

Definition message_queue_async_insert (queue node : Z) : KST unit :=
  q ← async_get queue;
  _ ← (if negb (ma_first q =? NULL) then
         _ ← msg_node_update (ma_last q) (set_mn_next node);
         async_update queue (set_ma_last node)
       else async_update queue (fun q => set_ma_last node (set_ma_first node q)));
  _ ← async_update queue (fun q => set_ma_elements (w32 (ma_elements q + 1)) q);
  msg_node_update node (set_mn_next NULL).

Definition message_queue_async_remove (queue : Z) : KST Z :=
  q ← async_get queue;
  if negb (ma_first q =? NULL) then
    let ret := ma_first q in
    n ← msg_node_get ret;
    _ ← async_update queue (set_ma_first (mn_next n));
    _ ← when_st (mn_next n =? NULL) (async_update queue (set_ma_last NULL));
    _ ← async_update queue (fun q => set_ma_elements (w32 (ma_elements q - 1)) q);
    mret ret
  else mret NULL.

(** the object, the list and the count are left as the slab gave them *)
Definition message_queue_async_create (stale : msg_queue_async) : KST Z :=
  ret ← on_async_slab alloc;
  _ ← modify (fun k => set_k_asyncs (<[ret := set_ma_recievers [] stale]> (k_asyncs k)) k);
  mret ret.

(** up to the wake-up: whether it was sent, and the thread to wake *)
Definition message_post (stale queue : Z) (msg : msg_ref) : KST (option Z) :=
  _ ← async_lock queue;
  q ← async_get queue;
  if MESSAGE_MAX_QUEUE_ELEMENTS <=? ma_elements q then
    _ ← async_unlock queue;
    mret None
  else
    m ← msg_read msg;
    node ← message_node_alloc stale m;
    _ ← message_queue_async_insert queue node;
    target ← pop_async_reciever queue;
    _ ← (if negb (target =? NULL) then
           _ ← thread_lock target;
           _ ← thread_update target (set_th_state SCHED_STATE_RUNNING);
           thread_unlock target
         else mret tt);
    mret (Some target).

Definition message_send_async (stale queue : Z) (msg : msg_ref) : KR bool :=
  r ← lift (message_post stale queue msg);
  match (r : option Z) with
  | None => mret false
  | Some target =>
      _ ← rwhen (negb (target =? NULL)) (sched_add_thread target);
      _ ← lift (async_unlock queue);
      mret true
  end.

(** [None]: the thread is queued and has to yield *)
Definition message_poll (queue msg flags cur : Z) : KST (option bool) :=
  _ ← async_lock queue;
  node ← message_queue_async_remove queue;
  if negb (node =? NULL) then
    n ← msg_node_get node;
    _ ← buf_put msg (mn_message n);
    _ ← message_node_free node;
    _ ← async_unlock queue;
    mret (Some true)
  else if flag_set flags MESSAGE_ASYNC_BLOCK then
    _ ← thread_update cur (set_th_state SCHED_STATE_WAITING_ASYNC);
    _ ← async_update queue (fun q => set_ma_recievers (ma_recievers q ++ [cur]) q);
    _ ← async_unlock queue;
    mret None
  else
    _ ← async_unlock queue;
    mret (Some false).

Fixpoint message_recieve_async_loop (fuel : nat) (queue msg flags cur : Z) : KR bool :=
  match fuel with
  | O => rfault
  | S fuel =>
      r ← lift (message_poll queue msg flags cur);
      match (r : option bool) with
      | Some b => mret b
      | None =>
          _ ← sched_thread_yield;
          message_recieve_async_loop fuel queue msg flags cur
      end
  end.
Definition message_recieve_async (fuel : nat) (queue msg flags : Z) : KR bool :=
  cur ← lift sched_current_thread;
  message_recieve_async_loop fuel queue msg flags cur.

(** ** Page faults and interrupts *)

(** a fault before there are threads halts the machine *)
Definition page_fault_message (address ip perms : Z) : KR unit :=
  cur ← lift sched_current_thread;
  if cur =? NULL then rfault
  else
    _ ← lift (thread_update cur (SET_FLAG THREAD_FLAG_FAULTED));
    t ← lift (thread_get cur);
    _ ← rwhen (negb (th_pager t =? NULL))
          (message_send (th_pager t) (Local (msg_init MESSAGE_TYPE_PAGE_FAULT [address; ip; perms])));
    _ ← lift (sched_thread_stop cur);
    sched_thread_yield.

Definition interrupt_callback (stale num : Z) : KR bool :=
  k ← lift get_st;
  queue ← lift (lift_opt (k_listening k !! Z.to_nat num));
  if queue =? NULL then mret false
  else
    _ ← message_send_async stale queue (Local (msg_init MESSAGE_TYPE_INTERRUPT [num]));
    mret true.

Definition interrupt_listen (num queue : Z) : KST Z :=
  if INTERRUPT_MAX <=? num then mret (-1)
  else
    _ ← modify (fun k => set_k_listening (<[Z.to_nat num := queue]> (k_listening k)) k);
    mret 0.
End message.

(** ** Running the operations *)

Section runs.
Context {A : Type} `{!Allocator A}.
Implicit Types (k : kernel A).

Lemma thread_get_ok k p t : k_threads k !! p = Some t -> thread_get p k = Some (t, k).
Proof. unfold thread_get. by intros ->. Qed.
Lemma sync_get_ok k p q : k_syncs k !! p = Some q -> sync_get p k = Some (q, k).
Proof. unfold sync_get. by intros ->. Qed.
Lemma sync_update_ok k p f q :
  k_syncs k !! p = Some q -> sync_update p f k = Some (tt, set_k_syncs (<[p := f q]> (k_syncs k)) k).
Proof. unfold sync_update. by intros ->. Qed.
Lemma async_get_ok k p q : k_asyncs k !! p = Some q -> async_get p k = Some (q, k).
Proof. unfold async_get. by intros ->. Qed.
Lemma async_update_ok k p f q :
  k_asyncs k !! p = Some q -> async_update p f k = Some (tt, set_k_asyncs (<[p := f q]> (k_asyncs k)) k).
Proof. unfold async_update. by intros ->. Qed.
Lemma buf_put_ok k p m m' :
  k_bufs k !! p = Some m' -> buf_put p m k = Some (tt, set_k_bufs (<[p := m]> (k_bufs k)) k).
Proof. unfold buf_put. by intros ->. Qed.
Lemma current_ok cpu k c : k_current k !! cpu = Some c -> sched_current_thread cpu k = Some (c, k).
Proof. unfold sched_current_thread. by intros ->. Qed.

Lemma thread_lock_ok cpu num_cpus k cur p t o :
  k_current k !! cpu = Some cur -> k_threads k !! p = Some t -> kobject_lock cur num_cpus (th_object t) = Some o ->
  thread_lock cpu num_cpus p k = Some (tt, set_k_threads (<[p := set_th_object o t]> (k_threads k)) k).
Proof.
  intros Hc Hp Ho. unfold thread_lock. rewrite ST_bind_eq, (current_ok _ _ _ Hc).
  rewrite ST_bind_eq, (thread_get_ok _ _ _ Hp). rewrite ST_bind_eq, Ho. by apply thread_update_ok.
Qed.

Lemma thread_unlock_ok k p t :
  k_threads k !! p = Some t -> (kobject_unlock (th_object t)).1 = NULL ->
  thread_unlock p k = Some (tt, set_k_threads
    (<[p := set_th_object (kobject_unlock (th_object t)).2 t]> (k_threads k)) k).
Proof.
  intros Hp Ho. unfold thread_unlock. rewrite ST_bind_eq, (thread_get_ok _ _ _ Hp).
  rewrite ST_bind_eq, (release_ok _ Ho). by apply thread_update_ok.
Qed.

Lemma sync_lock_ok cpu num_cpus k cur p q o :
  k_current k !! cpu = Some cur -> k_syncs k !! p = Some q -> kobject_lock cur num_cpus (mq_object q) = Some o ->
  sync_lock cpu num_cpus p k = Some (tt, set_k_syncs (<[p := set_mq_object o q]> (k_syncs k)) k).
Proof.
  intros Hc Hp Ho. unfold sync_lock. rewrite ST_bind_eq, (sync_get_ok _ _ _ Hp).
  rewrite ST_bind_eq, (current_ok _ _ _ Hc). rewrite ST_bind_eq, Ho. by apply sync_update_ok.
Qed.

Lemma sync_unlock_ok k p q :
  k_syncs k !! p = Some q -> (kobject_unlock (mq_object q)).1 = NULL ->
  sync_unlock p k = Some (tt, set_k_syncs
    (<[p := set_mq_object (kobject_unlock (mq_object q)).2 q]> (k_syncs k)) k).
Proof.
  intros Hp Ho. unfold sync_unlock. rewrite ST_bind_eq, (sync_get_ok _ _ _ Hp).
  rewrite ST_bind_eq, (release_ok _ Ho). by apply sync_update_ok.
Qed.

Lemma async_lock_ok cpu num_cpus k cur p q o :
  k_current k !! cpu = Some cur -> k_asyncs k !! p = Some q -> kobject_lock cur num_cpus (ma_object q) = Some o ->
  async_lock cpu num_cpus p k = Some (tt, set_k_asyncs (<[p := set_ma_object o q]> (k_asyncs k)) k).
Proof.
  intros Hc Hp Ho. unfold async_lock. rewrite ST_bind_eq, (async_get_ok _ _ _ Hp).
  rewrite ST_bind_eq, (current_ok _ _ _ Hc). rewrite ST_bind_eq, Ho. by apply async_update_ok.
Qed.

Lemma async_unlock_ok k p q :
  k_asyncs k !! p = Some q -> (kobject_unlock (ma_object q)).1 = NULL ->
  async_unlock p k = Some (tt, set_k_asyncs
    (<[p := set_ma_object (kobject_unlock (ma_object q)).2 q]> (k_asyncs k)) k).
Proof.
  intros Hp Ho. unfold async_unlock. rewrite ST_bind_eq, (async_get_ok _ _ _ Hp).
  rewrite ST_bind_eq, (release_ok _ Ho). by apply async_update_ok.
Qed.

(** what a message reference holds *)
Definition msg_holds k (r : msg_ref) (m : message) : Prop :=
  match r with UserBuf p => k_bufs k !! p = Some m | Local m' => m' = m end.

Lemma msg_read_ok k r m : msg_holds k r m -> msg_read r k = Some (m, k).
Proof. destruct r as [p|m']; simpl; [unfold buf_get; by intros ->|by intros ->]. Qed.

(** the state once the sender's identity is written into the message *)
Definition stamped k (id : Z) (r : msg_ref) (m : message) : kernel A :=
  match r with
  | UserBuf p => set_k_bufs (<[p := set_msg_sender id m]> (k_bufs k)) k
  | Local _ => k
  end.
Definition stamped_ref (id : Z) (r : msg_ref) : msg_ref :=
  match r with UserBuf p => UserBuf p | Local m => Local (set_msg_sender id m) end.

Lemma msg_write_sender_ok k id r m :
  msg_holds k r m ->
  msg_write_sender id r k = Some (stamped_ref id r, stamped k id r m) /\
  msg_holds (stamped k id r m) (stamped_ref id r) (set_msg_sender id m).
Proof.
  destruct r as [p|m']; simpl; intros H.
  - unfold msg_write_sender. rewrite ST_bind_eq. unfold buf_get. rewrite H.
    rewrite ST_bind_eq, (buf_put_ok _ _ _ _ H). split; [done|]. simpl. by rewrite lookup_insert_eq.
  - by subst m'.
Qed.
End runs.

(** ** Synchronous endpoints, abstractly

    An endpoint is the threads that wait for a message and the threads that
    wait with one, in order; never both. *)

Record endpoint := Endpoint { ep_recievers : list Z; ep_senders : list (Z * message) }.

(** what message passing may change *)
Definition ipc_frame {A} (k k' : kernel A) : Prop :=
  k' = set_k_threads (k_threads k') (set_k_bufs (k_bufs k') (set_k_syncs (k_syncs k') (set_k_caps (k_caps k') k))).

(** a mutex whose holder gives it free *)
Definition obj_held (o : kobject) : Prop := (kobject_unlock o).1 = NULL /\ obj_free (kobject_unlock o).2.
(** the lock a thread takes on itself when it is entered *)
Lemma obj_held_locked cur num_cpus o o' : obj_free o -> kobject_lock cur num_cpus o = Some o' -> obj_held o'.
Proof. intros Hf Ho. destruct (obj_free_lock cur num_cpus o Hf) as (o2 & H2 & H). rewrite Ho in H2. by injection H2 as <-. Qed.
(** a thread that does not run has its lock free, and the running one will leave
    it so *)
Definition thread_left {A} (cpu : nat) (k : kernel A) (p : Z) (t : thread) : Prop :=
  obj_free (th_object t) \/ k_current k !! cpu = Some p /\ obj_held (th_object t).

Definition thread_waits {A} (cpu : nat) (k : kernel A) (p : Z) : Prop :=
  p <> NULL /\ exists t, k_threads k !! p = Some t /\ th_state t = SCHED_STATE_WAITING /\
    FLAG t THREAD_FLAG_PENDING_MSG = false /\ thread_left cpu k p t.
Definition thread_sends {A} (cpu : nat) (k : kernel A) (pm : Z * message) : Prop :=
  pm.1 <> NULL /\ exists t, k_threads k !! pm.1 = Some t /\ th_state t = SCHED_STATE_SENDING /\
    th_message t = pm.2 /\ thread_left cpu k pm.1 t.

Definition ep_threads (ep : endpoint) : list Z := ep_recievers ep ++ (ep_senders ep).*1.

(** the endpoint at [queue] is [ep]; nobody has its lock *)
Record ep_rep {A} (cpu : nat) (k : kernel A) (queue : Z) (ep : endpoint) : Prop := {
  er_queue : exists q, k_syncs k !! queue = Some q /\ mq_recievers q = ep_recievers ep /\
    mq_senders q = (ep_senders ep).*1 /\ obj_free (mq_object q);
  er_recievers : Forall (thread_waits cpu k) (ep_recievers ep);
  er_senders : Forall (thread_sends cpu k) (ep_senders ep);
  er_nodup : NoDup (ep_threads ep);
  er_one : ep_recievers ep = [] \/ ep_senders ep = [];
}.

(** the same while the running thread has the lock *)
Record ep_locked {A} (cpu : nat) (k : kernel A) (queue : Z) (ep : endpoint) : Prop := {
  el_queue : exists q, k_syncs k !! queue = Some q /\ mq_recievers q = ep_recievers ep /\
    mq_senders q = (ep_senders ep).*1 /\
    (kobject_unlock (mq_object q)).1 = NULL /\ obj_free (kobject_unlock (mq_object q)).2;
  el_recievers : Forall (thread_waits cpu k) (ep_recievers ep);
  el_senders : Forall (thread_sends cpu k) (ep_senders ep);
  el_nodup : NoDup (ep_threads ep);
  el_one : ep_recievers ep = [] \/ ep_senders ep = [];
}.

(** the running thread, not blocked on the endpoint *)
Record ready {A} (cpu : nat) (k : kernel A) (cur : Z) (t : thread) (ep : endpoint) : Prop := {
  rd_current : k_current k !! cpu = Some cur;
  rd_null : cur <> NULL;
  rd_thread : k_threads k !! cur = Some t;
  rd_out : cur ∉ ep_threads ep;
}.

Section endpoints.
Context {A : Type} `{!Allocator A}.
Context (cpu : nat) (num_cpus : Z) (apic_is_enabled : bool) (clock : nat -> Z).
Implicit Types (k : kernel A).

Abbreviation send := (message_send cpu num_cpus apic_is_enabled clock).
Abbreviation recieve_loop := (message_recieve_loop cpu num_cpus apic_is_enabled clock).
Abbreviation add_thread := (sched_add_thread cpu num_cpus apic_is_enabled clock).
Abbreviation yield := (sched_thread_yield cpu num_cpus clock).

Lemma ipc_frame_refl k : ipc_frame k k.
Proof. by destruct k. Qed.
Lemma ipc_frame_trans k1 k2 k3 : ipc_frame k1 k2 -> ipc_frame k2 k3 -> ipc_frame k1 k3.
Proof. destruct k1, k2, k3. unfold ipc_frame. simpl. intros [=] [=]. by subst. Qed.

Lemma ipc_frame_current k k' : ipc_frame k k' -> k_current k' = k_current k.
Proof. intros ->. done. Qed.

Lemma thread_left_same k k' p t t' : k_current k' = k_current k -> th_object t' = th_object t ->
  thread_left cpu k p t -> thread_left cpu k' p t'.
Proof using Type. unfold thread_left. by intros -> ->. Qed.
(** the threads of an endpoint do not run when another does *)
Lemma thread_left_free k cur p t : k_current k !! cpu = Some cur -> p <> cur -> thread_left cpu k p t -> obj_free (th_object t).
Proof using Type. intros Hc Hne [H|[Hp _]]; [done|]. rewrite Hc in Hp. by injection Hp as <-. Qed.

Lemma thread_waits_other k k' p :
  k_current k' = k_current k -> k_threads k' !! p = k_threads k !! p -> thread_waits cpu k p -> thread_waits cpu k' p.
Proof using Type. intros Hc He (? & t & Ht & ?). split; [done|]. exists t. unfold thread_left. by rewrite Hc, He. Qed.
Lemma thread_sends_other k k' pm :
  k_current k' = k_current k -> k_threads k' !! pm.1 = k_threads k !! pm.1 -> thread_sends cpu k pm -> thread_sends cpu k' pm.
Proof using Type. intros Hc He (? & t & Ht & ?). split; [done|]. exists t. unfold thread_left. by rewrite Hc, He. Qed.

(** the threads of the endpoint are untouched *)
Definition agree (k k' : kernel A) (ep : endpoint) : Prop :=
  k_current k' = k_current k /\ forall p, p ∈ ep_threads ep -> k_threads k' !! p = k_threads k !! p.

Lemma recievers_agree k k' ep :
  agree k k' ep -> Forall (thread_waits cpu k) (ep_recievers ep) -> Forall (thread_waits cpu k') (ep_recievers ep).
Proof using Type.
  intros [Hc Ha]. rewrite !Forall_forall. intros Hf p Hp. eapply thread_waits_other; [exact Hc| |by apply Hf].
  apply Ha. unfold ep_threads. apply elem_of_app. by left.
Qed.
Lemma senders_agree k k' ep :
  agree k k' ep -> Forall (thread_sends cpu k) (ep_senders ep) -> Forall (thread_sends cpu k') (ep_senders ep).
Proof using Type.
  intros [Hc Ha]. rewrite !Forall_forall. intros Hf p Hp. eapply thread_sends_other; [exact Hc| |by apply Hf].
  apply Ha. unfold ep_threads. apply elem_of_app. right. apply list_elem_of_fmap. eauto.
Qed.

(** taking and releasing the lock *)
Lemma ep_lock k queue ep cur t :
  ep_rep cpu k queue ep -> ready cpu k cur t ep ->
  exists k', sync_lock cpu num_cpus queue k = Some (tt, k') /\ ep_locked cpu k' queue ep /\
    ready cpu k' cur t ep /\ ipc_frame k k' /\ k_threads k' = k_threads k /\ k_bufs k' = k_bufs k /\
    k_caps k' = k_caps k.
Proof.
  intros [(q & Hq & Hr & Hs & Hfree) Hrs Hss Hnd Hone] [Hc Hnull Ht Hout].
  destruct (obj_free_lock cur num_cpus _ Hfree) as (o & Ho & Hu & Hf).
  eexists. split; [by eapply sync_lock_ok|]. split_and!; try done.
  split; try done. exists (set_mq_object o q). simpl. by rewrite lookup_insert_eq.
Qed.

Lemma ep_unlock k queue ep :
  ep_locked cpu k queue ep ->
  exists k', sync_unlock queue k = Some (tt, k') /\ ep_rep cpu k' queue ep /\
    ipc_frame k k' /\ k_threads k' = k_threads k /\ k_bufs k' = k_bufs k /\ k_caps k' = k_caps k.
Proof.
  intros [(q & Hq & Hr & Hs & Hu & Hf) Hrs Hss Hnd Hone].
  eexists. split; [by eapply sync_unlock_ok|]. split_and!; try done.
  split; try done. simpl. rewrite lookup_insert_eq. eexists. by split.
Qed.

(** changing a thread that is not blocked on the endpoint *)
Lemma ep_locked_update k queue ep p t :
  ep_locked cpu k queue ep -> p ∉ ep_threads ep ->
  ep_locked cpu (set_k_threads (<[p := t]> (k_threads k)) k) queue ep.
Proof.
  intros [? Hrs Hss Hnd Hone] Hp.
  assert (Ha : agree k (set_k_threads (<[p := t]> (k_threads k)) k) ep).
  { split; [done|]. intros q Hq. simpl. rewrite lookup_insert_ne; [done|]. by intros ->. }
  split; [done| | |done|done]; [by eapply recievers_agree|by eapply senders_agree].
Qed.

Lemma ep_locked_bufs k queue ep b : ep_locked cpu k queue ep -> ep_locked cpu (set_k_bufs b k) queue ep.
Proof. intros []. by split. Qed.

(** the queues under the lock *)
Lemma pop_reciever_ok k queue r rs ss :
  ep_locked cpu k queue (Endpoint (r :: rs) ss) ->
  exists k', pop_reciever queue k = Some (r, k') /\ ep_locked cpu k' queue (Endpoint rs ss) /\
    ipc_frame k k' /\ k_threads k' = k_threads k /\ k_bufs k' = k_bufs k.
Proof.
  intros [(q & Hq & Hr & Hs & Hu & Hf) Hrs Hss Hnd Hone]. simpl in *.
  unfold pop_reciever. eexists. split.
  { rewrite ST_bind_eq, (sync_get_ok _ _ _ Hq), Hr. rewrite ST_bind_eq, (sync_update_ok _ _ _ _ Hq). reflexivity. }
  split_and!; try done. split; simpl.
  - rewrite lookup_insert_eq. eexists. by split.
  - by apply Forall_cons in Hrs as [_ ?].
  - done.
  - by apply NoDup_cons in Hnd as [_ ?].
  - destruct Hone; [done|by right].
Qed.

Lemma pop_reciever_none k queue ss :
  ep_locked cpu k queue (Endpoint [] ss) -> pop_reciever queue k = Some (NULL, k).
Proof.
  intros [(q & Hq & Hr & _) _ _ _ _]. unfold pop_reciever.
  rewrite ST_bind_eq, (sync_get_ok _ _ _ Hq), Hr. done.
Qed.

Lemma pop_sender_ok k queue s m rs ss :
  ep_locked cpu k queue (Endpoint rs ((s, m) :: ss)) ->
  exists k', pop_sender queue k = Some (s, k') /\ ep_locked cpu k' queue (Endpoint rs ss) /\
    ipc_frame k k' /\ k_threads k' = k_threads k /\ k_bufs k' = k_bufs k.
Proof.
  intros [(q & Hq & Hr & Hs & Hu & Hf) Hrs Hss Hnd Hone]. simpl in *.
  unfold pop_sender. eexists. split.
  { rewrite ST_bind_eq, (sync_get_ok _ _ _ Hq), Hs. rewrite ST_bind_eq, (sync_update_ok _ _ _ _ Hq). reflexivity. }
  split_and!; try done. split; simpl.
  - rewrite lookup_insert_eq. eexists. by split.
  - done.
  - by apply Forall_cons in Hss as [_ ?].
  - unfold ep_threads in *. simpl in *. rewrite <- Permutation_middle in Hnd. by apply NoDup_cons in Hnd as [_ ?].
  - destruct Hone; [by left|done].
Qed.

Lemma pop_sender_none k queue rs :
  ep_locked cpu k queue (Endpoint rs []) -> pop_sender queue k = Some (NULL, k).
Proof.
  intros [(q & Hq & _ & Hs & _) _ _ _ _]. unfold pop_sender.
  rewrite ST_bind_eq, (sync_get_ok _ _ _ Hq), Hs. done.
Qed.

(** ** Handing a message over *)

(** a message that is not one the kernel keeps to itself *)
Definition passed_on (m : message) : Prop := is_kernel_msg m && negb (kernel_msg_handle_send m) = false.

(** a thread that has been given a message *)
Definition handed (o : kobject) (m : message) (t : thread) : thread :=
  set_th_object o (set_th_message m (set_th_state SCHED_STATE_RUNNING (SET_FLAG THREAD_FLAG_PENDING_MSG t))).

Lemma hand_over_ok k queue ep cur c r t msg m :
  ep_locked cpu k queue ep -> ready cpu k cur c ep -> r ∉ ep_threads ep -> r <> cur ->
  k_threads k !! r = Some t -> obj_free (th_object t) -> msg_holds k msg m -> passed_on m ->
  exists k' o, message_hand_over cpu num_cpus r cur msg k = Some (true, k') /\
    ep_locked cpu k' queue ep /\ ipc_frame k k' /\ obj_free o /\ k_caps k' = k_caps k /\
    k_threads k' = <[r := handed o (set_msg_sender (th_id c) m) t]> (k_threads k).
Proof.
  intros Hl [Hc Hnull Hct Hout] Hr Hne Ht Hfree Hm Hpass.
  destruct (obj_free_lock cur num_cpus _ Hfree) as (o & Ho & Hu & Hf).
  set (t1 := set_th_object o t). set (k1 := set_k_threads (<[r := t1]> (k_threads k)) k).
  assert (Hm1 : msg_holds k1 msg m) by (destruct msg; done).
  destruct (msg_write_sender_ok k1 (th_id c) msg m Hm1) as [Hw Hm2].
  set (k2 := stamped k1 (th_id c) msg m) in *.
  assert (Hts2 : k_threads k2 = <[r := t1]> (k_threads k)) by (unfold k2; by destruct msg).
  assert (Hs2 : k_syncs k2 = k_syncs k /\ k_caps k2 = k_caps k) by (unfold k2; by destruct msg).
  assert (Hf2 : ipc_frame k k2) by (unfold k2; by destruct msg).
  set (t2 := SET_FLAG THREAD_FLAG_PENDING_MSG t1). set (t3 := set_th_state SCHED_STATE_RUNNING t2).
  set (m' := set_msg_sender (th_id c) m) in *. set (t4 := set_th_message m' t3).
  set (t5 := set_th_object (kobject_unlock o).2 t4).
  exists (set_k_threads (<[r := t5]> (k_threads k)) k2), (kobject_unlock o).2. split_and!.
  - unfold message_hand_over. rewrite ST_bind_eq, (thread_lock_ok _ _ _ _ _ _ _ Hc Ht Ho). fold t1 k1.
    rewrite ST_bind_eq, (msg_read_ok _ _ _ Hm1). unfold passed_on in Hpass. rewrite Hpass.
    rewrite ST_bind_eq, (thread_get_ok k1 cur c) by (simpl; by rewrite lookup_insert_ne).
    rewrite ST_bind_eq, Hw.
    rewrite ST_bind_eq, (thread_update_ok k2 r _ t1) by (rewrite Hts2; apply lookup_insert_eq).
    rewrite ST_bind_eq, (thread_update_ok _ r _ t2) by (simpl; apply lookup_insert_eq). simpl.
    rewrite ST_bind_eq, (msg_read_ok _ _ m') by (destruct msg; exact Hm2).
    rewrite ST_bind_eq, (thread_update_ok _ r _ t3) by (simpl; apply lookup_insert_eq). simpl.
    rewrite ST_bind_eq, (thread_unlock_ok _ r t4); [|simpl; apply lookup_insert_eq|exact Hu].
    simpl. rewrite Hts2, !insert_insert_eq. done.
  - assert (Hk : ep_locked cpu (set_k_threads (<[r := t5]> (k_threads k)) k) queue ep) by by apply ep_locked_update.
    assert (Ha : agree (set_k_threads (<[r := t5]> (k_threads k)) k) (set_k_threads (<[r := t5]> (k_threads k)) k2) ep)
      by (split; [apply (ipc_frame_current _ _ Hf2)|done]).
    destruct Hk as [Hq Hrs Hss ? ?]. split; [|exact (recievers_agree _ _ _ Ha Hrs)|exact (senders_agree _ _ _ Ha Hss)|done..].
    simpl in *. by rewrite (proj1 Hs2).
  - eapply ipc_frame_trans; [exact Hf2|done].
  - done.
  - apply Hs2.
  - done.
Qed.

Lemma message_send_ok k queue ep cur c msg m :
  ep_rep cpu k queue ep -> ready cpu k cur c ep -> thread_left cpu k cur c ->
  msg_holds k msg m -> (ep_recievers ep <> [] -> passed_on m) ->
  match ep_recievers ep with
  | r :: rs =>
      exists k1 t o, k_threads k !! r = Some t /\ obj_free o /\ ipc_frame k k1 /\
        ep_locked cpu k1 queue (Endpoint rs (ep_senders ep)) /\
        k_threads k1 = <[r := handed o (set_msg_sender (th_id c) m) t]> (k_threads k) /\
        send queue msg k =
          ((_ ← add_thread r; mret true) ≫=
           message_sent cpu num_cpus clock queue cur msg) k1
  | [] =>
      exists k1, ipc_frame k k1 /\ ep_rep cpu k1 queue (Endpoint [] (ep_senders ep ++ [(cur, m)])) /\
        k_threads k1 = <[cur := set_th_state SCHED_STATE_SENDING (set_th_message m c)]> (k_threads k) /\
        send queue msg k = yield k1
  end.
Proof.
  intros Hrep Hready Hcfree Hm Hpass. pose proof Hready as [Hc Hnull Hct Hout].
  destruct (ep_lock k queue ep cur c Hrep Hready) as (k1 & Hlock & Hl1 & Hrd1 & Hf1 & Hts1 & Hb1 & Hcap1).
  assert (Hm1 : msg_holds k1 msg m) by (destruct msg; simpl in *; by rewrite ?Hb1).
  unfold send. erewrite R_lift by by apply current_ok. erewrite R_lift by exact Hlock.
  destruct ep as [[|r rs] ss]; cbn [ep_recievers ep_senders].
  - set (c1 := set_th_message m c).
    assert (Hct1 : k_threads k1 !! cur = Some c) by (by rewrite Hts1).
    pose proof (ep_locked_update k1 queue _ cur (set_th_state SCHED_STATE_SENDING c1) Hl1 Hout) as Hl2.
    set (k2 := set_k_threads _ k1) in *. destruct Hl2 as [(q & Hq & Hqr & Hqs & Hu & Hfr) Hrs Hss Hnd _].
    cbn [ep_recievers ep_senders] in *.
    set (q1 := set_mq_senders (mq_senders q ++ [cur]) q). set (k3 := set_k_syncs (<[queue := q1]> (k_syncs k2)) k2).
    assert (Hl3 : ep_locked cpu k3 queue (Endpoint [] (ss ++ [(cur, m)]))).
    { split; simpl.
      - rewrite lookup_insert_eq. exists q1. split_and!; try done. simpl. by rewrite Hqs, fmap_app.
      - done.
      - apply Forall_app; split; [done|]. constructor; [|done]. split; [done|]. simpl. rewrite lookup_insert_eq.
        eexists. split; [done|]. split; [done|]. split; [done|].
        exact (thread_left_same k k3 cur c _ (ipc_frame_current _ _ Hf1) eq_refl Hcfree).
      - unfold ep_threads in *. simpl in *. rewrite fmap_app. simpl. apply NoDup_app. split_and!; [done| |apply NoDup_singleton].
        intros x Hx ->%list_elem_of_singleton. done.
      - by left. }
    destruct (ep_unlock k3 queue _ Hl3) as (k4 & Hun & Hrep4 & Hf4 & Hts4 & Hb4 & Hcap4).
    exists k4. split_and!; try done.
    + eapply ipc_frame_trans; [exact Hf1|]. by eapply ipc_frame_trans; [|exact Hf4].
    + rewrite Hts4. simpl. by rewrite Hts1.
    + assert (Hts : message_try_send cpu num_cpus apic_is_enabled clock queue msg k1 = Some (Done false k1)).
      { unfold message_try_send. erewrite R_lift by (apply current_ok; by rewrite (ipc_frame_current _ _ Hf1)).
        erewrite R_lift by by eapply pop_reciever_none. done. }
      rewrite (R_done _ _ _ _ _ Hts).
      unfold message_sent. rewrite (R_lift _ _ _ tt k4); [done|]. unfold message_block. rewrite ST_bind_eq, (msg_read_ok _ _ _ Hm1).
      rewrite ST_bind_eq, (thread_update_ok _ _ _ c) by done. fold c1.
      rewrite ST_bind_eq, (thread_update_ok _ _ _ c1) by (simpl; apply lookup_insert_eq).
      simpl. rewrite insert_insert_eq. change (set_k_threads _ _) with k2.
      rewrite ST_bind_eq. unfold push_sender. rewrite (sync_update_ok _ _ _ q) by done. exact Hun.
  - destruct (pop_reciever_ok _ _ _ _ _ Hl1) as (k2 & Hpop & Hl2 & Hf2 & Hts2 & Hb2).
    destruct Hrep as [_ Hrs _ Hnd _]. cbn [ep_recievers ep_senders] in *.
    apply Forall_cons in Hrs as [[Hrnull (t & Ht & Hst & Hfl & Hof)] _].
    unfold ep_threads in *. cbn [ep_recievers ep_senders] in *. apply NoDup_cons in Hnd as [Hrn _].
    apply (thread_left_free k cur) in Hof; [|exact Hc|set_solver].
    assert (Hrd2 : ready cpu k2 cur c (Endpoint rs ss)).
    { split; [|done| |].
      - by rewrite (ipc_frame_current _ _ Hf2), (ipc_frame_current _ _ Hf1).
      - by rewrite Hts2, Hts1.
      - unfold ep_threads. simpl. set_solver. }
    destruct (hand_over_ok k2 queue (Endpoint rs ss) cur c r t msg m) as (k3 & o & Hho & Hl3 & Hf3 & Hof3 & _ & Hts3);
      try done.
    + set_solver.
    + by rewrite Hts2, Hts1.
    + destruct msg; simpl in *; by rewrite ?Hb2.
    + by apply Hpass.
    + exists k3, t, o. split_and!; try done.
      * eapply ipc_frame_trans; [exact Hf1|]. by eapply ipc_frame_trans.
      * by rewrite Hts3, Hts2, Hts1.
      * assert (Hts : message_try_send cpu num_cpus apic_is_enabled clock queue msg k1 =
          (_ ← add_thread r; mret true) k3).
        { unfold message_try_send. erewrite R_lift by (apply current_ok; by rewrite (ipc_frame_current _ _ Hf1)).
          erewrite R_lift by exact Hpop. rewrite (proj2 (Z.eqb_neq _ _) Hrnull).
          by erewrite R_lift by exact Hho. }
        unfold mbind at 1 3, RST_bind at 1 3. by rewrite Hts.
Qed.

(** a message the kernel keeps: the receiver only has its lock taken and
    released *)
Lemma message_send_kept k queue r rs ss cur c msg m :
  ep_rep cpu k queue (Endpoint (r :: rs) ss) -> ready cpu k cur c (Endpoint (r :: rs) ss) ->
  msg_holds k msg m -> ~ passed_on m ->
  exists k' t o, send queue msg k = Some (Done tt k') /\ ep_rep cpu k' queue (Endpoint rs ss) /\
    (r ∉ ep_threads (Endpoint rs ss)) /\ r <> cur /\ k_threads k !! r = Some t /\ th_state t = SCHED_STATE_WAITING /\
    obj_free o /\ ipc_frame k k' /\
    k_threads k' = <[cur := set_sender_state c]> (<[r := set_th_object o t]> (k_threads k)).
Proof.
  intros Hrep Hready Hm Hnot. pose proof Hready as [Hc Hnull Hct Hout].
  destruct (ep_lock k queue _ cur c Hrep Hready) as (k1 & Hlock & Hl1 & Hrd1 & Hf1 & Hts1 & Hb1 & _).
  destruct (pop_reciever_ok _ _ _ _ _ Hl1) as (k2 & Hpop & Hl2 & Hf2 & Hts2 & Hb2).
  destruct Hrep as [_ Hrs _ Hnd _]. cbn [ep_recievers ep_senders] in *.
  apply Forall_cons in Hrs as [[Hrnull (t & Ht & Hst & Hfl & Hof)] _].
  unfold ep_threads in Hnd, Hout. cbn [ep_recievers ep_senders] in *. apply NoDup_cons in Hnd as [Hrn _].
  assert (Hne : r <> cur) by set_solver. assert (Hout2 : cur ∉ ep_threads (Endpoint rs ss)) by (unfold ep_threads; simpl; set_solver).
  assert (Hm2 : forall ts, msg_holds (set_k_threads ts k2) msg m) by (intros; destruct msg; simpl in *; by rewrite ?Hb2, ?Hb1).
  apply (thread_left_free k cur) in Hof; [|exact Hc|exact Hne].
  destruct (obj_free_lock cur num_cpus _ Hof) as (o & Ho & Hu & Hfr).
  assert (Ht2 : k_threads k2 !! r = Some t) by (by rewrite Hts2, Hts1).
  assert (Hc2 : k_current k2 !! cpu = Some cur) by (by rewrite (ipc_frame_current _ _ Hf2), (ipc_frame_current _ _ Hf1)).
  set (t1 := set_th_object o t). set (t2 := set_th_object (kobject_unlock o).2 t1).
  pose proof (ep_locked_update k2 queue (Endpoint rs ss) r t2 Hl2 Hrn) as Hl3. set (k3 := set_k_threads _ k2) in *.
  assert (Hct3 : k_threads k3 !! cur = Some c) by (simpl; by rewrite lookup_insert_ne, Hts2, Hts1).
  pose proof (ep_locked_update k3 queue _ cur (set_sender_state c) Hl3 Hout2) as Hl4. set (k4 := set_k_threads _ k3) in *.
  destruct (ep_unlock k4 queue _ Hl4) as (k5 & Hun & Hrep5 & Hf5 & Hts5 & _).
  exists k5, t, (kobject_unlock o).2. split_and!; try done.
  2: { eapply ipc_frame_trans; [exact Hf1|]. eapply ipc_frame_trans; [exact Hf2|exact Hf5]. }
  2: { rewrite Hts5. change (<[cur := set_sender_state c]> (<[r := t2]> (k_threads k2)) =
         <[cur := set_sender_state c]> (<[r := t2]> (k_threads k))). by rewrite Hts2, Hts1. }
  - unfold send. erewrite R_lift by by apply current_ok. erewrite R_lift by exact Hlock.
    assert (Hho : message_hand_over cpu num_cpus r cur msg k2 = Some (false, k3)).
    { unfold message_hand_over. rewrite ST_bind_eq, (thread_lock_ok _ _ _ _ _ _ _ Hc2 Ht2 Ho). fold t1.
      rewrite ST_bind_eq, (msg_read_ok _ _ m) by apply Hm2.
      unfold passed_on in Hnot. apply not_false_is_true in Hnot. rewrite Hnot.
      rewrite ST_bind_eq, (thread_unlock_ok _ r t1); [|simpl; apply lookup_insert_eq|done].
      simpl. by rewrite insert_insert_eq. }
    assert (Hts : message_try_send cpu num_cpus apic_is_enabled clock queue msg k1 = Some (Done true k3)).
    { unfold message_try_send. erewrite R_lift by (apply current_ok; by rewrite (ipc_frame_current _ _ Hf1)).
      erewrite R_lift by exact Hpop. rewrite (proj2 (Z.eqb_neq _ _) Hrnull). by erewrite R_lift by exact Hho. }
    rewrite (R_done _ _ _ _ _ Hts). unfold message_sent.
    erewrite R_lift by by apply thread_update_ok. by apply lift_Some.
Qed.

(** C3: sending on an endpoint implements the abstract one, for a running thread
    that is not itself on the endpoint and whose own lock is free or held by
    itself. If a thread waits, the first one leaves the queue: a message that
    the kernel passes on becomes its message, with the identity of the sender in
    it, and it is handed to the scheduler; a message that the kernel keeps to
    itself (a debug print, for one) is delivered to nobody, the send
    ends, and that first receiver is left in the waiting state on no queue. If
    none waits the sender, whatever the message and its [sender] field, is
    queued with it and gives up the processor. *)
Theorem message_send_refines k queue ep cur c msg m :
  ep_rep cpu k queue ep -> ready cpu k cur c ep -> thread_left cpu k cur c -> msg_holds k msg m ->
  match ep_recievers ep with
  | r :: rs =>
      (passed_on m -> exists k1 t o, k_threads k !! r = Some t /\ obj_free o /\ ipc_frame k k1 /\
        ep_locked cpu k1 queue (Endpoint rs (ep_senders ep)) /\
        k_threads k1 = <[r := handed o (set_msg_sender (th_id c) m) t]> (k_threads k) /\
        send queue msg k =
          ((_ ← add_thread r; mret true) ≫=
           message_sent cpu num_cpus clock queue cur msg) k1) /\
      (~ passed_on m -> exists k' t o, send queue msg k = Some (Done tt k') /\
        ep_rep cpu k' queue (Endpoint rs (ep_senders ep)) /\ (r ∉ ep_threads (Endpoint rs (ep_senders ep))) /\
        k_threads k !! r = Some t /\ th_state t = SCHED_STATE_WAITING /\ obj_free o /\ ipc_frame k k' /\
        k_threads k' = <[cur := set_sender_state c]> (<[r := set_th_object o t]> (k_threads k)))
  | [] =>
      exists k1, ipc_frame k k1 /\ ep_rep cpu k1 queue (Endpoint [] (ep_senders ep ++ [(cur, m)])) /\
        k_threads k1 = <[cur := set_th_state SCHED_STATE_SENDING (set_th_message m c)]> (k_threads k) /\
        send queue msg k = yield k1
  end.
Proof.
  intros Hrep Hready Hleft Hm. pose proof (message_send_ok k queue ep cur c msg m Hrep Hready Hleft Hm) as Hok.
  destruct ep as [[|r rs] ss]; cbn [ep_recievers ep_senders] in *.
  - apply Hok. by destruct 1.
  - split; [intros Hp; by apply Hok|]. intros Hnot.
    destruct (message_send_kept k queue r rs ss cur c msg m Hrep Hready Hm Hnot)
      as (k' & t & o & H1 & H2 & H3 & _ & H). by exists k', t, o.
Qed.

(** ** Receiving *)

Lemma take_ok k queue ep cur c s t :
  ep_locked cpu k queue ep -> ready cpu k cur c ep -> s ∉ ep_threads ep -> s <> cur ->
  k_threads k !! s = Some t -> obj_free (th_object t) ->
  exists k' o, message_take cpu num_cpus s cur k = Some (tt, k') /\
    ep_locked cpu k' queue ep /\ ready cpu k' cur (set_th_message (th_message t) c) ep /\ ipc_frame k k' /\ obj_free o /\
    k_threads k' = <[s := set_th_object o (set_sender_state t)]>
      (<[cur := set_th_message (th_message t) c]> (k_threads k)) /\
    k_bufs k' = k_bufs k /\ k_caps k' = k_caps k.
Proof.
  intros Hl Hrd Hs Hne Ht Hfree. pose proof Hrd as [Hc Hnull Hct Hout].
  destruct (obj_free_lock cur num_cpus _ Hfree) as (o & Ho & Hu & Hf).
  set (t1 := set_th_object o t). set (c1 := set_th_message (th_message t) c).
  set (t2 := set_th_object (kobject_unlock o).2 (set_sender_state t)).
  exists (set_k_threads (<[s := t2]> (<[cur := c1]> (k_threads k))) k), (kobject_unlock o).2. split_and!; try done.
  - unfold message_take. rewrite ST_bind_eq, (thread_lock_ok _ _ _ _ _ _ _ Hc Ht Ho). fold t1.
    rewrite ST_bind_eq, (thread_get_ok _ s t1) by (simpl; apply lookup_insert_eq).
    rewrite ST_bind_eq, (thread_update_ok _ cur _ c) by (simpl; by rewrite lookup_insert_ne).
    rewrite ST_bind_eq, (thread_update_ok _ s _ t1) by (simpl; by rewrite lookup_insert_ne, lookup_insert_eq).
    assert (Hob : th_object (set_sender_state t1) = o) by (unfold set_sender_state; by destruct (FLAG t1 _)).
    rewrite (thread_unlock_ok _ s (set_sender_state t1)); [|simpl; apply lookup_insert_eq|by rewrite Hob].
    simpl. rewrite insert_insert_eq, (insert_insert_ne _ s cur) by done. rewrite insert_insert_eq.
    rewrite (insert_insert_ne _ cur s) by done. rewrite Hob.
    assert (set_th_object (kobject_unlock o).2 (set_sender_state t1) = t2) as ->; [|done].
    unfold t2, set_sender_state. change (FLAG t1 THREAD_FLAG_FAULTED) with (FLAG t THREAD_FLAG_FAULTED).
    by destruct (FLAG t THREAD_FLAG_FAULTED).
  - exact (ep_locked_update _ queue ep s t2 (ep_locked_update k queue ep cur c1 Hl Hout) Hs).
  - split; try done. simpl. rewrite lookup_insert_ne by done. apply lookup_insert_eq.
Qed.

(** C4: receiving on an endpoint implements the abstract one.  If a thread is
    blocked with a message, the first one's message becomes the receiver's
    unchanged, and that thread is made runnable and handed to the scheduler
    (stopped, if it was sending for a page fault); otherwise the receiver is
    queued, gives up the processor, and starts over when it runs again. *)
Theorem message_recieve_refines k queue ep cur c msg fuel :
  ep_rep cpu k queue ep -> ready cpu k cur c ep -> thread_left cpu k cur c ->
  FLAG c THREAD_FLAG_PENDING_MSG = false ->
  match ep_senders ep with
  | (s, m) :: ss =>
      exists k1 t o, k_threads k !! s = Some t /\ obj_free o /\ ipc_frame k k1 /\
        ep_locked cpu k1 queue (Endpoint (ep_recievers ep) ss) /\
        k_threads k1 = <[s := set_th_object o (set_sender_state t)]> (<[cur := set_th_message m c]> (k_threads k)) /\
        recieve_loop (S fuel) queue msg cur k =
          (_ ← add_thread s; lift (message_recieve_finish cpu queue msg cur)) k1
  | [] =>
      exists k1, ipc_frame k k1 /\ ep_rep cpu k1 queue (Endpoint (ep_recievers ep ++ [cur]) []) /\
        k_threads k1 = <[cur := set_th_state SCHED_STATE_WAITING c]> (k_threads k) /\
        recieve_loop (S fuel) queue msg cur k = (_ ← yield; recieve_loop fuel queue msg cur) k1
  end.
Proof.
  intros Hrep Hready Hcfree Hpend. pose proof Hready as [Hc Hnull Hct Hout].
  destruct (ep_lock k queue ep cur c Hrep Hready) as (k1 & Hlock & Hl1 & Hrd1 & Hf1 & Hts1 & Hb1 & Hcap1).
  assert (Hct1 : k_threads k1 !! cur = Some c) by (by rewrite Hts1).
  cbn [message_recieve_loop]. erewrite R_lift by exact Hlock.
  erewrite R_lift by by apply thread_get_ok. rewrite Hpend. cbn [negb].
  destruct ep as [rs [|[s m] ss]]; cbn [ep_recievers ep_senders].
  - erewrite R_lift by by eapply pop_sender_none.
    set (c1 := set_th_state SCHED_STATE_WAITING c).
    pose proof (ep_locked_update k1 queue _ cur c1 Hl1 Hout) as Hl2.
    set (k2 := set_k_threads _ k1) in *. destruct Hl2 as [(q & Hq & Hqr & Hqs & Hu & Hfr) Hrs Hss Hnd _].
    cbn [ep_recievers ep_senders] in *.
    set (q1 := set_mq_recievers (mq_recievers q ++ [cur]) q). set (k3 := set_k_syncs (<[queue := q1]> (k_syncs k2)) k2).
    assert (Hl3 : ep_locked cpu k3 queue (Endpoint (rs ++ [cur]) [])).
    { split; simpl.
      - rewrite lookup_insert_eq. exists q1. split_and!; try done. simpl. by rewrite Hqr.
      - apply Forall_app; split; [done|]. constructor; [|done]. split; [done|]. simpl. rewrite lookup_insert_eq.
        eexists. split; [done|]. split; [done|]. split; [done|].
        exact (thread_left_same k k3 cur c _ (ipc_frame_current _ _ Hf1) eq_refl Hcfree).
      - done.
      - unfold ep_threads in *. simpl in *. rewrite app_nil_r in *. apply NoDup_app. split_and!; [done| |apply NoDup_singleton].
        intros x Hx ->%list_elem_of_singleton. done.
      - by right. }
    destruct (ep_unlock k3 queue _ Hl3) as (k4 & Hun & Hrep4 & Hf4 & Hts4 & Hb4 & Hcap4).
    exists k4. split_and!; try done.
    + eapply ipc_frame_trans; [exact Hf1|]. by eapply ipc_frame_trans; [|exact Hf4].
    + rewrite Hts4. simpl. by rewrite Hts1.
    + change (negb (NULL =? NULL)) with false. cbn iota. rewrite (R_lift _ _ _ tt k4); [done|].
      unfold message_wait. rewrite ST_bind_eq, (thread_update_ok _ _ _ c) by done. fold c1 k2.
      rewrite ST_bind_eq. unfold push_reciever. rewrite (sync_update_ok _ _ _ q) by done. exact Hun.
  - destruct (pop_sender_ok _ _ _ _ _ _ Hl1) as (k2 & Hpop & Hl2 & Hf2 & Hts2 & Hb2).
    destruct Hrep as [_ _ Hss Hnd _]. cbn [ep_recievers ep_senders] in *.
    apply Forall_cons in Hss as [[Hsnull (t & Ht & Hst & Hmsg & Hof)] _]. simpl in Hsnull, Ht, Hmsg.
    unfold ep_threads in *. cbn [ep_recievers ep_senders] in *. rewrite fmap_cons in Hnd, Hout. simpl in Hnd, Hout.
    rewrite <- Permutation_middle in Hnd. apply NoDup_cons in Hnd as [Hsn _].
    apply (thread_left_free k cur) in Hof; [|exact Hc|set_solver].
    assert (Hrd2 : ready cpu k2 cur c (Endpoint rs ss)).
    { split; [|done| |].
      - by rewrite (ipc_frame_current _ _ Hf2), (ipc_frame_current _ _ Hf1).
      - by rewrite Hts2, Hts1.
      - unfold ep_threads. simpl. set_solver. }
    destruct (take_ok k2 queue (Endpoint rs ss) cur c s t) as (k3 & o & Htk & Hl3 & Hrd3 & Hf3 & Hof3 & Hts3 & _);
      try done.
    + set_solver.
    + by rewrite Hts2, Hts1.
    + exists k3, t, o. split_and!; try done.
      * eapply ipc_frame_trans; [exact Hf1|]. by eapply ipc_frame_trans.
      * by rewrite Hts3, Hts2, Hts1, Hmsg.
      * erewrite R_lift by exact Hpop. rewrite (proj2 (Z.eqb_neq _ _) Hsnull). cbn [negb].
        by erewrite R_lift by exact Htk.
Qed.

(** the end of receiving a message the kernel has no part in *)
Lemma finish_user_ok k queue ep cur c msg m0 :
  ep_locked cpu k queue ep -> ready cpu k cur c ep -> is_kernel_msg (th_message c) = false ->
  k_bufs k !! msg = Some m0 ->
  exists k', message_recieve_finish cpu queue msg cur k = Some (tt, k') /\ ep_rep cpu k' queue ep /\
    ipc_frame k k' /\ k_caps k' = k_caps k /\ k_bufs k' = <[msg := th_message c]> (k_bufs k) /\
    k_threads k' = <[cur := UNSET_FLAG THREAD_FLAG_PENDING_MSG (set_th_state SCHED_STATE_RUNNING c)]> (k_threads k).
Proof.
  intros Hl [Hc Hnull Hct Hout] Hkm Hb. set (c1 := UNSET_FLAG _ _).
  pose proof (ep_locked_update k queue ep cur c1 Hl Hout) as Hl1. set (k1 := set_k_threads _ k) in *.
  pose proof (ep_locked_bufs k1 queue ep (<[msg := th_message c]> (k_bufs k1)) Hl1) as Hl2. set (k2 := set_k_bufs _ k1) in *.
  destruct (ep_unlock k2 queue ep Hl2) as (k3 & Hun & Hrep & Hf & Hts & Hbs & Hcap).
  exists k3. split_and!; try done.
  unfold message_recieve_finish. rewrite ST_bind_eq, (thread_get_ok _ _ _ Hct), Hkm.
    rewrite ST_bind_eq. cbn [when_st].
    unfold mret, ST_ret.
    rewrite ST_bind_eq, (thread_update_ok _ _ _ c) by done. fold c1 k1.
    rewrite ST_bind_eq, (thread_get_ok k1 cur c1) by apply lookup_insert_eq.
    rewrite ST_bind_eq, (buf_put_ok k1 _ _ m0) by done. exact Hun.
Qed.

(** a receiver that has been handed a message returns with it in its
    buffer, running, its pending flag cleared, and the endpoint as it was. *)
Theorem message_recieve_handed k queue ep cur c msg m0 fuel :
  ep_rep cpu k queue ep -> ready cpu k cur c ep -> FLAG c THREAD_FLAG_PENDING_MSG = true ->
  is_kernel_msg (th_message c) = false -> k_bufs k !! msg = Some m0 ->
  exists k', recieve_loop (S fuel) queue msg cur k = Some (Done tt k') /\ ep_rep cpu k' queue ep /\
    k_bufs k' = <[msg := th_message c]> (k_bufs k) /\
    k_threads k' = <[cur := UNSET_FLAG THREAD_FLAG_PENDING_MSG (set_th_state SCHED_STATE_RUNNING c)]> (k_threads k).
Proof.
  intros Hrep Hready Hpend Hkm Hb.
  destruct (ep_lock k queue ep cur c Hrep Hready) as (k1 & Hlock & Hl1 & Hrd1 & Hf1 & Hts1 & Hb1 & Hcap1).
  destruct (finish_user_ok k1 queue ep cur c msg m0) as (k2 & Hfin & Hrep2 & Hf2 & _ & Hb2 & Hts2); try done.
  { by rewrite Hb1. }
  exists k2. split_and!; [|done|by rewrite Hb2, Hb1|by rewrite Hts2, Hts1].
  cbn [message_recieve_loop]. erewrite R_lift by exact Hlock.
  erewrite R_lift by (apply thread_get_ok, Hrd1). rewrite Hpend. cbn [negb].
  by apply lift_Some.
Qed.

(** ** Messages the kernel takes part in *)

Lemma on_caps_ok {B} k (m : ST (cap_store A) B) b caps :
  m (k_caps k) = Some (b, caps) -> on_caps m k = Some (b, set_k_caps caps k).
Proof. unfold on_caps, zoom. by intros ->. Qed.

(** a granted object enters the receiver's capability space *)
Lemma handle_grant_ok k cur c m obj caps :
  k_current k !! cpu = Some cur -> k_threads k !! cur = Some c -> th_message c = m ->
  msg_type m = MESSAGE_TYPE_GRANT_OBJECT -> th_cap_space c <> NULL ->
  cap_space_insert (th_cap_space c) (CapEntry (msg_arg 0 m) (msg_arg 1 m) (msg_arg 2 m)) (k_caps k) =
    Some (obj, caps) ->
  kernel_msg_handle_recieve cpu k = Some (true, set_k_threads
    (<[cur := set_th_message (set_msg_data 2 0 (set_msg_data 5 obj (set_msg_data 5 0 m))) c]> (k_threads k))
    (set_k_caps caps k)).
Proof.
  intros Hc Hct <- Hty Hnull Hins. unfold kernel_msg_handle_recieve.
  rewrite ST_bind_eq, (current_ok _ _ _ Hc). rewrite ST_bind_eq, (thread_get_ok _ _ _ Hct), Hty.
  rewrite Z.eqb_refl. rewrite ST_bind_eq, (thread_update_ok _ _ _ c) by done.
  rewrite (proj2 (Z.eqb_neq _ _) Hnull).
  rewrite ST_bind_eq, (on_caps_ok _ _ obj caps) by done.
  rewrite ST_bind_eq. erewrite (thread_update_ok _ cur) by (simpl; apply lookup_insert_eq).
  simpl. by rewrite insert_insert_eq.
Qed.

(** a grant message is believed.  Whoever may send on an endpoint can send
    the type the kernel uses to grant objects with three words of its choice;
    the message is passed on, and when it is received a capability of that
    type, with those permissions, to that address appears in the receiver's
    space, although nobody held it. *)
Theorem message_grant_forges k queue ep cur c msg m0 sp e0 free j d0 d1 d2 rest sender :
  ep_locked cpu k queue ep -> ready cpu k cur c ep -> k_bufs k !! msg = Some m0 ->
  th_message c = Message MESSAGE_TYPE_GRANT_OBJECT sender (d0 :: d1 :: d2 :: rest) ->
  cap_wf (k_caps k) -> th_cap_space c <> NULL -> st_spaces (k_caps k) !! th_cap_space c = Some sp ->
  slot (k_caps k) (cs_table sp) 0 = Some e0 -> flag_set (ce_permissions e0) CAP_MODIFY = true ->
  slot (k_caps k) (cs_table sp) j = Some free -> ce_type free = CAP_TYPE_NULL ->
  passed_on (th_message c) /\
  exists k' i, message_recieve_finish cpu queue msg cur k = Some (tt, k') /\
    slot (k_caps k') (cs_table sp) i = Some (CapEntry d0 d1 d2).
Proof.
  intros Hl [Hc Hnull Hct Hout] Hb Hm Hw Hsp Hspace He0 Hmod Hfree Hty.
  split; [by rewrite Hm|].
  assert (Htab : is_Some (st_tables (k_caps k) !! cs_table sp)) by by apply (slot_Some _ _ _ _ Hw Hfree).
  destruct (cap_table_insert_ok (k_caps k) (cs_table sp) (CapEntry d0 d1 d2) Hw Htab)
    as [(i & e1 & Hi & He1 & _ & _ & Hins)|[Hall _]]; [|by destruct (Hall j free Hfree)].
  assert (Hci : cap_space_insert (th_cap_space c) (CapEntry d0 d1 d2) (k_caps k) =
    Some (Z.of_nat i, slot_write (k_caps k) (cs_table sp) i (CapEntry d0 d1 d2))).
  { rewrite (cap_space_insert_ok _ _ sp e0) by done. by rewrite Hmod. }
  pose proof (handle_grant_ok k cur c _ _ _ Hc Hct Hm eq_refl Hsp Hci) as Hgrant.
  set (m' := set_msg_data 2 0 _) in Hgrant. set (caps := slot_write _ _ _ _) in *.
  set (k1 := set_k_threads _ _) in Hgrant.
  assert (Hl1 : ep_locked cpu k1 queue ep).
  { destruct (ep_locked_update k queue ep cur (set_th_message m' c) Hl Hout). by split. }
  set (c2 := UNSET_FLAG THREAD_FLAG_PENDING_MSG (set_th_state SCHED_STATE_RUNNING (set_th_message m' c))).
  pose proof (ep_locked_update k1 queue ep cur c2 Hl1 Hout) as Hl2. set (k2 := set_k_threads _ k1) in *.
  pose proof (ep_locked_bufs k2 queue ep (<[msg := m']> (k_bufs k2)) Hl2) as Hl3. set (k3 := set_k_bufs _ k2) in *.
  destruct (ep_unlock k3 queue ep Hl3) as (k4 & Hun & _ & _ & _ & _ & Hcap).
  exists k4, i. split.
  - unfold message_recieve_finish. rewrite ST_bind_eq, (thread_get_ok _ _ _ Hct), Hm.
    change (is_kernel_msg _) with true. cbn [when_st].
    rewrite ST_bind_eq, (ST_bind_eq (kernel_msg_handle_recieve cpu)), Hgrant. unfold mret, ST_ret.
    rewrite ST_bind_eq, (thread_update_ok k1 _ _ (set_th_message m' c)) by apply lookup_insert_eq. fold c2 k2.
    rewrite ST_bind_eq, (thread_get_ok k2 cur c2) by apply lookup_insert_eq.
    rewrite ST_bind_eq, (buf_put_ok k2 _ _ m0) by done. exact Hun.
  - rewrite Hcap. simpl. unfold caps. rewrite slot_write_slot by by eexists. by rewrite decide_True.
Qed.

(** a message the kernel keeps to itself, such as a debug print, costs the
    endpoint a receiver: the first waiting thread is taken off the queue, and
    stays in the waiting state, neither queued nor runnable. *)
Theorem message_send_swallows k queue r rs ss cur c msg m :
  ep_rep cpu k queue (Endpoint (r :: rs) ss) -> ready cpu k cur c (Endpoint (r :: rs) ss) ->
  msg_holds k msg m -> ~ passed_on m ->
  exists k', send queue msg k = Some (Done tt k') /\ ep_rep cpu k' queue (Endpoint rs ss) /\
    (r ∉ ep_threads (Endpoint rs ss)) /\ (th_state <$> k_threads k' !! r) = Some SCHED_STATE_WAITING /\
    k_run_tree k' = k_run_tree k.
Proof.
  intros Hrep Hready Hm Hnot.
  destruct (message_send_kept k queue r rs ss cur c msg m Hrep Hready Hm Hnot)
    as (k' & t & o & H1 & H2 & H3 & Hne & Ht & Hst & _ & Hf & Hts).
  exists k'. split_and!; [done..| |by rewrite Hf].
  rewrite Hts, lookup_insert_ne, lookup_insert_eq by done. simpl. by rewrite Hst.
Qed.
End endpoints.

(** ** Asynchronous endpoints

    The messages of an endpoint are a singly linked list of nodes. *)

Fixpoint chain (h : gmap Z message_node) (first : Z) (ps : list Z) (ms : list message) : Prop :=
  match ps, ms with
  | [], [] => first = NULL
  | p :: ps, m :: ms =>
      first = p /\ p <> NULL /\ exists next, h !! p = Some (MessageNode next m) /\ chain h next ps ms
  | _, _ => False
  end.

Lemma chain_change h h' first ps ms :
  (forall p, p ∈ ps -> h' !! p = h !! p) -> chain h first ps ms -> chain h' first ps ms.
Proof.
  revert first ms. induction ps as [|p ps IH]; intros first [|m ms] Hh; simpl; try done.
  intros (-> & Hp & next & Hn & Hc). split_and!; try done. exists next.
  split; [by rewrite Hh by set_solver|]. apply IH; [|done]. intros q Hq. apply Hh. set_solver.
Qed.

Lemma chain_length h first ps ms : chain h first ps ms -> length ps = length ms.
Proof.
  revert first ms. induction ps as [|p ps IH]; intros first [|m ms]; simpl; try done.
  intros (_ & _ & next & _ & Hc). f_equal. by eapply IH.
Qed.

Lemma chain_null h first ps ms : chain h first ps ms -> first = NULL <-> ms = [].
Proof.
  destruct ps as [|p ps], ms as [|m ms]; simpl; try done. intros (-> & Hp & _). split; [done|discriminate].
Qed.

(** append a node whose [next] is NULL, linking the last one to it *)
Lemma chain_snoc h first ps l ms m0 p m :
  chain h first (ps ++ [l]) (ms ++ [m0]) -> length ps = length ms -> NoDup (ps ++ [l]) ->
  p <> NULL -> h !! p = Some (MessageNode NULL m) -> p ∉ ps ++ [l] ->
  chain (<[l := MessageNode p m0]> h) first ((ps ++ [l]) ++ [p]) ((ms ++ [m0]) ++ [m]).
Proof.
  revert first ms. induction ps as [|q ps IH]; intros first [|m1 ms] Hc Hlen Hnd Hp Hh Hnp; simplify_eq/=.
  - destruct Hc as (-> & Hl & next & Hn & ->). split_and!; try done. exists p.
    rewrite lookup_insert_eq. split; [done|]. split_and!; try done. exists NULL.
    rewrite lookup_insert_ne by set_solver. done.
  - destruct Hc as (-> & Hq & next & Hn & Hc). apply NoDup_cons in Hnd as [Hqn Hnd]. split_and!; try done.
    exists next. rewrite lookup_insert_ne by set_solver. split; [done|]. apply IH; try done. set_solver.
Qed.

Lemma chain_last h first ps l ms m0 :
  chain h first (ps ++ [l]) (ms ++ [m0]) -> length ps = length ms -> h !! l = Some (MessageNode NULL m0).
Proof.
  revert first ms. induction ps as [|q ps IH]; intros first [|m1 ms] Hc Hlen; simplify_eq/=.
  - by destruct Hc as (-> & Hl & next & Hn & ->).
  - destruct Hc as (-> & Hq & next & Hn & Hc). by eapply IH.
Qed.

Lemma node_exist (h : gmap Z message_node) p n n' :
  h !! p = Some n -> forall x, is_Some (<[p := n']> h !! x) <-> is_Some (h !! x).
Proof.
  intros Hp x. rewrite lookup_insert. destruct (decide (p = x)) as [->|]; [|done]. rewrite Hp. split; eauto.
Qed.

Section async.
Context {A : Type} `{!Allocator A} `{!AllocatorLaws A}.
Context (cpu : nat) (num_cpus : Z) (apic_is_enabled : bool) (clock : nat -> Z) (stale : Z).
Implicit Types (k : kernel A).

(** the messages [ms] are in the endpoint; no thread waits on it *)
Record async_rep k (queue : Z) (ms : list message) : Prop := {
  ar_queue : exists q ps, k_asyncs k !! queue = Some q /\ obj_free (ma_object q) /\ ma_recievers q = [] /\
    chain (k_msg_nodes k) (ma_first q) ps ms /\ NoDup ps /\
    (forall p, last ps = Some p -> ma_last q = p) /\ ma_elements q = Z.of_nat (length ms);
  ar_bound : (length ms <= 64)%nat;
  ar_inv : alloc_inv (k_node_slab k);
  ar_live : forall p, alloc_live (k_node_slab k) p <-> is_Some (k_msg_nodes k !! p);
}.

(** the specification: a queue of at most 64 messages *)
Inductive async_op := Post (m : message) | Poll.
Inductive async_answer := Posted | Full | Got (m : message) | Empty.
Definition fifo_step (ms : list message) (o : async_op) : list message * async_answer :=
  match o with
  | Post m => if decide (length ms < 64)%nat then (ms ++ [m], Posted) else (ms, Full)
  | Poll => match ms with [] => ([], Empty) | m :: ms => (ms, Got m) end
  end.
Fixpoint fifo_run (ms : list message) (os : list async_op) : list message * list async_answer :=
  match os with
  | [] => (ms, [])
  | o :: os => let '(ms, a) := fifo_step ms o in let '(ms, l) := fifo_run ms os in (ms, a :: l)
  end.

(** the code, with messages posted by the kernel and received into [buf] *)
Definition async_step (queue buf : Z) (o : async_op) : RST (kernel A) async_answer :=
  match o with
  | Post m =>
      b ← message_send_async cpu num_cpus apic_is_enabled clock stale queue (Local m);
      mret (if (b : bool) then Posted else Full)
  | Poll =>
      b ← message_recieve_async cpu num_cpus clock 1 queue buf 0;
      m ← lift (buf_get buf);
      mret (if (b : bool) then Got m else Empty)
  end.
Fixpoint async_run (queue buf : Z) (os : list async_op) : RST (kernel A) (list async_answer) :=
  match os with
  | [] => mret []
  | o :: os => a ← async_step queue buf o; l ← async_run queue buf os; mret (a :: l)
  end.

(** the slab has room for the node of each message that is queued *)
Fixpoint post_room (queue buf : Z) (ms : list message) (os : list async_op) k : Prop :=
  match os with
  | [] => True
  | o :: os =>
      match o with Post _ => (length ms < 64)%nat -> alloc_room (k_node_slab k) | Poll => True end /\
      forall r k', async_step queue buf o k = Some (Done r k') -> post_room queue buf (fifo_step ms o).1 os k'
  end.

Definition caller_ok k (cur buf : Z) : Prop :=
  k_current k !! cpu = Some cur /\ cur <> NULL /\ is_Some (k_bufs k !! buf).

Lemma msg_node_update_ok k p f n :
  k_msg_nodes k !! p = Some n ->
  msg_node_update p f k = Some (tt, set_k_msg_nodes (<[p := f n]> (k_msg_nodes k)) k).
Proof. unfold msg_node_update. by intros ->. Qed.

(** a new node at the end of the list *)
Lemma async_insert_ok k queue q ps ms p m next :
  k_asyncs k !! queue = Some q -> chain (k_msg_nodes k) (ma_first q) ps ms -> NoDup ps ->
  (forall l, last ps = Some l -> ma_last q = l) -> p <> NULL -> p ∉ ps ->
  k_msg_nodes k !! p = Some (MessageNode next m) ->
  exists q' h, message_queue_async_insert queue p k = Some (tt, set_k_msg_nodes h
      (set_k_asyncs (<[queue := q']> (k_asyncs k)) k)) /\
    chain h (ma_first q') (ps ++ [p]) (ms ++ [m]) /\ ma_last q' = p /\
    ma_elements q' = w32 (ma_elements q + 1) /\ ma_object q' = ma_object q /\ ma_recievers q' = ma_recievers q /\
    forall x, is_Some (h !! x) <-> is_Some (k_msg_nodes k !! x).
Proof.
  intros Hq Hc Hnd Hlast Hp Hnp Hn. unfold message_queue_async_insert.
  rewrite ST_bind_eq, (async_get_ok _ _ _ Hq). set (h0 := k_msg_nodes k) in *.
  assert (Hfresh : chain (<[p := MessageNode NULL m]> h0) (ma_first q) ps ms).
  { eapply chain_change; [|exact Hc]. intros x Hx. by rewrite lookup_insert_ne by set_solver. }
  destruct (decide (ms = [])) as [->|Hne].
  - assert (Hf : ma_first q = NULL) by by eapply chain_null. rewrite Hf. cbn [negb].
    rewrite Z.eqb_refl. cbn [negb]. destruct ps; [|done].
    rewrite ST_bind_eq, (async_update_ok _ _ _ _ Hq).
    rewrite ST_bind_eq. erewrite async_update_ok by (simpl; apply lookup_insert_eq).
    simpl. rewrite insert_insert_eq. erewrite msg_node_update_ok by exact Hn.
    do 2 eexists. split; [reflexivity|]. split_and!; try done.
    + exists NULL. by rewrite lookup_insert_eq.
    + by eapply node_exist.
  - assert (Hlen : length ps = length ms) by by eapply chain_length.
    destruct (exists_last Hne) as (ms0 & m0 & ->).
    assert (Hps : ps <> []) by (intros ->; rewrite length_app in Hlen; simpl in Hlen; lia).
    destruct (exists_last Hps) as (ps0 & l & ->).
    rewrite !length_app in Hlen. simpl in Hlen. assert (Hlen0 : length ps0 = length ms0) by lia.
    assert (Hf : ma_first q <> NULL).
    { intros Hf. apply (chain_null _ _ _ _ Hc) in Hf. by destruct ms0. }
    rewrite (proj2 (Z.eqb_neq _ _) Hf). cbn [negb].
    assert (Hl : ma_last q = l) by (apply Hlast; by rewrite last_snoc). rewrite Hl.
    pose proof (chain_last _ _ _ _ _ _ Hc Hlen0) as Hln. assert (Hlp : l <> p) by set_solver.
    rewrite ST_bind_eq. rewrite (ST_bind_eq (msg_node_update l _)), (msg_node_update_ok _ _ _ _ Hln).
    rewrite (async_update_ok _ _ _ q) by done.
    rewrite ST_bind_eq. erewrite async_update_ok by (simpl; apply lookup_insert_eq).
    simpl. rewrite insert_insert_eq. erewrite msg_node_update_ok by (simpl; rewrite lookup_insert_ne by done; exact Hn).
    do 2 eexists. split; [reflexivity|]. split_and!; try done.
    + simpl. rewrite insert_insert_ne by done. apply chain_snoc; try done. by rewrite lookup_insert_eq.
    + intros x. simpl. rewrite (node_exist _ p (MessageNode next m)) by (by rewrite lookup_insert_ne).
      by eapply node_exist.
Qed.

Lemma async_lock_step k queue ms cur :
  async_rep k queue ms -> k_current k !! cpu = Some cur -> cur <> NULL ->
  exists q ps, async_lock cpu num_cpus queue k = Some (tt, set_k_asyncs (<[queue := q]> (k_asyncs k)) k) /\
    (kobject_unlock (ma_object q)).1 = NULL /\ obj_free (kobject_unlock (ma_object q)).2 /\ ma_recievers q = [] /\
    chain (k_msg_nodes k) (ma_first q) ps ms /\ NoDup ps /\ (forall p, last ps = Some p -> ma_last q = p) /\
    ma_elements q = Z.of_nat (length ms).
Proof.
  intros [(q & ps & Hq & Hfree & Hr & Hc & Hnd & Hlast & Hel) _ _ _] Hcur Hnull.
  destruct (obj_free_lock cur num_cpus _ Hfree) as (o & Ho & Hu & Hf).
  exists (set_ma_object o q), ps. split; [by eapply async_lock_ok|]. done.
Qed.

(** release of the lock, with the list as [q] has it *)
Lemma async_unlock_step k queue q ps ms :
  k_asyncs k !! queue = Some q ->
  (kobject_unlock (ma_object q)).1 = NULL -> obj_free (kobject_unlock (ma_object q)).2 -> ma_recievers q = [] ->
  chain (k_msg_nodes k) (ma_first q) ps ms -> NoDup ps -> (forall p, last ps = Some p -> ma_last q = p) ->
  ma_elements q = Z.of_nat (length ms) -> (length ms <= 64)%nat -> alloc_inv (k_node_slab k) ->
  (forall p, alloc_live (k_node_slab k) p <-> is_Some (k_msg_nodes k !! p)) ->
  exists q', async_unlock queue k = Some (tt, set_k_asyncs (<[queue := q']> (k_asyncs k)) k) /\
    async_rep (set_k_asyncs (<[queue := q']> (k_asyncs k)) k) queue ms.
Proof.
  intros Hq Hu Hf Hr Hc Hnd Hlast Hel Hb Hi Hl. eexists. split; [by eapply async_unlock_ok|].
  split; try done. simpl. rewrite lookup_insert_eq. do 2 eexists. split; [reflexivity|]. done.
Qed.

Lemma message_node_alloc_ok k p a m :
  alloc (k_node_slab k) = Some (p, a) ->
  message_node_alloc stale m k = Some (p, set_k_msg_nodes (<[p := MessageNode stale m]> (k_msg_nodes k))
    (set_k_node_slab a k)).
Proof.
  intros Ha. unfold message_node_alloc, on_node_slab, zoom, mbind, ST_bind. simpl. by rewrite Ha.
Qed.

Lemma message_node_free_ok k p a :
  dealloc p (k_node_slab k) = Some (tt, a) ->
  message_node_free p k = Some (tt, set_k_msg_nodes (delete p (k_msg_nodes k)) (set_k_node_slab a k)).
Proof.
  intros Ha. unfold message_node_free, on_node_slab, zoom, mbind, ST_bind. simpl. by rewrite Ha.
Qed.

Lemma async_post_ok k queue ms cur m :
  async_rep k queue ms -> k_current k !! cpu = Some cur -> cur <> NULL ->
  ((length ms < 64)%nat -> alloc_room (k_node_slab k)) ->
  exists k', message_send_async cpu num_cpus apic_is_enabled clock stale queue (Local m) k =
      Some (Done (bool_decide (length ms < 64)%nat) k') /\
    async_rep k' queue (fifo_step ms (Post m)).1 /\ k_current k' = k_current k /\ k_bufs k' = k_bufs k.
Proof.
  intros Hrep Hcur Hnull Hroom. destruct (async_lock_step k queue ms cur Hrep Hcur Hnull)
    as (q & ps & Hlock & Hu & Hf & Hr & Hc & Hnd & Hlast & Hel).
  destruct Hrep as [_ Hb Hi Hlv]. set (k1 := set_k_asyncs _ k) in *.
  assert (Hq1 : k_asyncs k1 !! queue = Some q) by apply lookup_insert_eq.
  simpl. destruct (decide (length ms < 64)%nat) as [Hlt|Hge].
  2: { rewrite bool_decide_false by done.
       destruct (async_unlock_step k1 queue q ps ms) as (q' & Hun & Hrep'); try done.
       eexists. split; [|split; [exact Hrep'|done]]. set (k2 := set_k_asyncs _ k1) in *.
       assert (Hpost : message_post cpu num_cpus stale queue (Local m) k = Some (None, k2)).
       { unfold message_post. rewrite ST_bind_eq, Hlock. rewrite ST_bind_eq, (async_get_ok _ _ _ Hq1).
         rewrite (proj2 (Z.leb_le _ _)) by (rewrite Hel; unfold MESSAGE_MAX_QUEUE_ELEMENTS; lia).
         by rewrite ST_bind_eq, Hun. }
       unfold message_send_async. by erewrite R_lift by exact Hpost. }
  rewrite bool_decide_true by done.
  destruct (alloc_total _ Hi (Hroom Hlt)) as (p & a & Ha).
  destruct (alloc_ok _ _ _ Hi Ha) as (Hi' & Hpn & Hfresh & Hlv').
  set (k2 := set_k_msg_nodes (<[p := MessageNode stale m]> (k_msg_nodes k1)) (set_k_node_slab a k1)).
  assert (Hnew : k_msg_nodes k !! p = None).
  { rewrite eq_None_not_Some, <- Hlv. done. }
  assert (Hps : forall x, x ∈ ps -> is_Some (k_msg_nodes k !! x)).
  { clear -Hc. revert Hc. generalize (ma_first q). revert ms. induction ps as [|y ps IH]; [set_solver|].
    intros [|m0 ms] f; simpl; [done|]. intros (-> & _ & nx & Hn & Hc) x [->|Hx]%elem_of_cons; [by eexists|by eapply IH]. }
  assert (Hpps : p ∉ ps) by (intros Hin; destruct (Hps p Hin); congruence).
  destruct (async_insert_ok k2 queue q ps ms p m stale) as (q' & h & Hins & Hc' & Hl' & He' & Ho' & Hr' & Hex); try done.
  { eapply chain_change; [|exact Hc]. intros x Hx. simpl. rewrite lookup_insert_ne; [done|]. by intros ->. }
  { apply lookup_insert_eq. }
  set (k3 := set_k_msg_nodes h _) in *.
  assert (Hq3 : k_asyncs k3 !! queue = Some q') by apply lookup_insert_eq.
  destruct (async_unlock_step k3 queue q' (ps ++ [p]) (ms ++ [m])) as (q'' & Hun & Hrep'); try done.
  - by rewrite Ho'.
  - by rewrite Ho'.
  - by rewrite Hr'.
  - apply NoDup_app. split_and!; [done| |apply NoDup_singleton]. intros x Hx ->%list_elem_of_singleton. done.
  - intros x. rewrite last_snoc. congruence.
  - rewrite He', Hel, length_app. simpl. rewrite w32_small; lia.
  - rewrite length_app. simpl. lia.
  - intros x. change (k_node_slab k3) with a. rewrite Hlv', Hlv. simpl. rewrite Hex. simpl. rewrite lookup_insert.
    destruct (decide (p = x)) as [->|Hne]; [split; [by eexists|by right]|]. split; [intros [?|?]; [done|congruence]|by left].
  - eexists. split; [|split; [exact Hrep'|done]].
    assert (Hpost : message_post cpu num_cpus stale queue (Local m) k = Some (Some NULL, k3)).
    { unfold message_post. rewrite ST_bind_eq, Hlock. rewrite ST_bind_eq, (async_get_ok _ _ _ Hq1).
         rewrite (proj2 (Z.leb_gt _ _)) by (rewrite Hel; unfold MESSAGE_MAX_QUEUE_ELEMENTS; lia).
         rewrite ST_bind_eq. cbn [msg_read]. unfold mret at 1, ST_ret at 1.
         rewrite ST_bind_eq, (message_node_alloc_ok k1 p a m) by exact Ha. fold k2.
         rewrite ST_bind_eq, Hins.
         rewrite ST_bind_eq. unfold pop_async_reciever. rewrite ST_bind_eq, (async_get_ok _ _ _ Hq3), Hr', Hr. reflexivity. }
    unfold message_send_async. erewrite R_lift by exact Hpost.
    cbn iota. erewrite R_done by reflexivity. by erewrite R_lift by exact Hun.
Qed.

Definition without_first (next : Z) (q : msg_queue_async) : msg_queue_async :=
  set_ma_elements (w32 (ma_elements q - 1))
    (if next =? NULL then set_ma_last NULL (set_ma_first next q) else set_ma_first next q).

Lemma async_remove_ok k queue q p next m :
  k_asyncs k !! queue = Some q -> ma_first q = p -> p <> NULL ->
  k_msg_nodes k !! p = Some (MessageNode next m) ->
  message_queue_async_remove queue k =
    Some (p, set_k_asyncs (<[queue := without_first next q]> (k_asyncs k)) k).
Proof.
  intros Hq Hf Hp Hn. unfold message_queue_async_remove, without_first.
  rewrite ST_bind_eq, (async_get_ok _ _ _ Hq), Hf, (proj2 (Z.eqb_neq _ _) Hp). cbn [negb].
  rewrite ST_bind_eq. unfold msg_node_get at 1. rewrite Hn.
  rewrite ST_bind_eq, (async_update_ok _ _ _ _ Hq). cbn [mn_next].
  destruct (next =? NULL); cbn [when_st].
  - rewrite ST_bind_eq. erewrite async_update_ok by (simpl; apply lookup_insert_eq).
    rewrite ST_bind_eq. erewrite async_update_ok by (simpl; apply lookup_insert_eq).
    simpl. by rewrite !insert_insert_eq.
  - rewrite ST_bind_eq. unfold mret at 1, ST_ret at 1.
    rewrite ST_bind_eq. erewrite async_update_ok by (simpl; apply lookup_insert_eq).
    simpl. by rewrite insert_insert_eq.
Qed.

Lemma async_poll_ok k queue ms cur buf :
  async_rep k queue ms -> caller_ok k cur buf ->
  exists k', message_recieve_async cpu num_cpus clock 1 queue buf 0 k =
      Some (Done (bool_decide (ms <> [])) k') /\
    async_rep k' queue (fifo_step ms Poll).1 /\ caller_ok k' cur buf /\
    (forall m rest, ms = m :: rest -> k_bufs k' !! buf = Some m).
Proof.
  intros Hrep (Hcur & Hnull & [m0 Hbuf]). destruct (async_lock_step k queue ms cur Hrep Hcur Hnull)
    as (q & ps & Hlock & Hu & Hf & Hr & Hc & Hnd & Hlast & Hel).
  destruct Hrep as [_ Hb Hi Hlv]. set (k1 := set_k_asyncs _ k) in *.
  assert (Hq1 : k_asyncs k1 !! queue = Some q) by apply lookup_insert_eq.
  unfold message_recieve_async. rewrite (R_lift _ _ _ cur k) by by apply current_ok. cbn [message_recieve_async_loop].
  destruct ms as [|m ms].
  - assert (Hfi : ma_first q = NULL) by by eapply chain_null.
    destruct (async_unlock_step k1 queue q ps []) as (q' & Hun & Hrep'); try done.
    eexists. split; [|split; [exact Hrep'|split; [|done]]].
    + assert (Hpoll : message_poll cpu num_cpus queue buf 0 cur k =
        Some (Some false, set_k_asyncs (<[queue := q']> (k_asyncs k1)) k1)).
      { unfold message_poll. rewrite ST_bind_eq, Hlock.
        rewrite ST_bind_eq. unfold message_queue_async_remove. rewrite ST_bind_eq, (async_get_ok _ _ _ Hq1), Hfi.
        change (NULL =? NULL) with true. cbn [negb]. unfold mret at 1, ST_ret at 1.
        change (NULL =? NULL) with true. cbn [negb]. change (flag_set 0 MESSAGE_ASYNC_BLOCK) with false. cbn iota.
        by rewrite ST_bind_eq, Hun. }
      by erewrite R_lift by exact Hpoll.
    + split_and!; try done.
  - destruct ps as [|p ps]; [done|]. destruct Hc as (Hfi & Hp & next & Hn & Hc).
    apply NoDup_cons in Hnd as [Hpn Hnd].
    assert (Hlive : alloc_live (k_node_slab k) p) by (apply Hlv; by eexists).
    destruct (dealloc_ok _ p Hi Hlive) as (a & Ha & Hi' & Hlv').
    set (q2 := without_first next q).
    set (k2 := set_k_asyncs (<[queue := q2]> (k_asyncs k1)) k1).
    set (k3 := set_k_msg_nodes (delete p (k_msg_nodes k2)) (set_k_node_slab a (set_k_bufs (<[buf := m]> (k_bufs k2)) k2))).
    assert (Hq2 : ma_object q2 = ma_object q /\ ma_recievers q2 = [] /\ ma_first q2 = next /\
      (forall l, last ps = Some l -> ma_last q2 = l)).
    { unfold q2, without_first. split_and!; try (by destruct (next =? NULL)).
      intros l Hl. destruct ps as [|p2 ps]; [done|]. destruct ms as [|m2 ms]; [done|].
      destruct Hc as (-> & Hp2 & _). rewrite (proj2 (Z.eqb_neq _ _) Hp2). simpl. apply Hlast.
      by rewrite last_cons_cons. }
    destruct Hq2 as (Ho2 & Hr2 & Hf2 & Hl2).
    destruct (async_unlock_step k3 queue q2 ps ms) as (q' & Hun & Hrep'); try done.
    + apply lookup_insert_eq.
    + by rewrite Ho2.
    + by rewrite Ho2.
    + rewrite Hf2. eapply chain_change; [|exact Hc]. intros x Hx. simpl. apply lookup_delete_ne. by intros ->.
    + simpl. rewrite Hel. simpl. rewrite w32_small; simpl in Hb; lia.
    + simpl in Hb. lia.
    + intros x. change (k_node_slab k3) with a. simpl. rewrite Hlv', Hlv, lookup_delete. destruct (decide (p = x)) as [->|Hne].
      * split; [by intros [_ ?]|by intros [? ?]].
      * split; [tauto|]. intros. split; [done|]. by intros ->.
    + eexists. split; [|split; [exact Hrep'|split]].
      * match goal with |- context [Done _ ?kk] => assert (Hpoll : message_poll cpu num_cpus queue buf 0 cur k =
          Some (Some true, kk)); [|by erewrite R_lift by exact Hpoll] end.
        unfold message_poll. rewrite ST_bind_eq, Hlock.
        rewrite ST_bind_eq, (async_remove_ok k1 queue q p next m) by done. fold q2 k2.
        rewrite (proj2 (Z.eqb_neq _ _) Hp). cbn [negb].
        rewrite ST_bind_eq. unfold msg_node_get at 1. simpl. rewrite Hn.
        rewrite ST_bind_eq. erewrite (buf_put_ok _ buf _ m0) by exact Hbuf.
        rewrite ST_bind_eq, (message_node_free_ok _ p a) by exact Ha. rewrite ST_bind_eq.
        assert (Hk3 : forall kk, kk = k3 -> async_unlock queue kk = async_unlock queue k3) by (by intros ? ->).
        erewrite Hk3; [rewrite Hun; reflexivity|]. unfold k3, k2, k1. simpl. rewrite !insert_insert_eq. done.
      * split_and!; try done. simpl. rewrite lookup_insert_eq. by eexists.
      * intros m' rest [= <- <-]. simpl. apply lookup_insert_eq.
Qed.

(** C5: an asynchronous endpoint nobody waits on is a queue of at most 64
    messages, whatever the order of sends and receives without blocking: messages
    come out unchanged in the order they went in, a send to a full endpoint is
    refused and loses nothing but itself, and no operation faults or gives up
    the processor, as long as the slab has room for a node at each send to an
    endpoint that is not full. *)
Theorem async_run_refines k queue ms cur buf os :
  async_rep k queue ms -> caller_ok k cur buf -> post_room queue buf ms os k ->
  exists k', async_run queue buf os k = Some (Done (fifo_run ms os).2 k') /\
    async_rep k' queue (fifo_run ms os).1 /\ caller_ok k' cur buf.
Proof.
  revert k ms. induction os as [|o os IH]; intros k ms Hrep Hok Hroom; [by exists k|].
  destruct Hroom as [Hr Hroom].
  assert (Hstep : exists k1, async_step queue buf o k = Some (Done (fifo_step ms o).2 k1) /\
    async_rep k1 queue (fifo_step ms o).1 /\ caller_ok k1 cur buf).
  { destruct o as [m|].
    - destruct Hok as (Hc & Hnull & Hb).
      destruct (async_post_ok k queue ms cur m Hrep Hc Hnull Hr) as (k1 & Hrun & Hrep1 & Hc1 & Hb1).
      exists k1. split; [|split; [exact Hrep1|unfold caller_ok; by rewrite Hc1, Hb1]].
      cbn [async_step]. rewrite (R_done _ _ _ _ _ Hrun). simpl.
      destruct (decide _) as [Hlt|Hge]; [by rewrite bool_decide_true|by rewrite bool_decide_false].
    - destruct (async_poll_ok k queue ms cur buf Hrep Hok) as (k1 & Hrun & Hrep1 & Hok1 & Hbuf).
      exists k1. split_and!; try done. cbn [async_step]. rewrite (R_done _ _ _ _ _ Hrun).
      destruct Hok1 as (_ & _ & [m1 Hm1]).
      rewrite (R_lift _ _ _ m1 k1) by (unfold buf_get; by rewrite Hm1).
      destruct ms as [|m ms]; simpl; [done|]. specialize (Hbuf m ms eq_refl). by simplify_eq. }
  destruct Hstep as (k1 & Hrun & Hrep1 & Hok1). destruct (IH k1 _ Hrep1 Hok1 (Hroom _ _ Hrun)) as (k2 & Hgo & Hrep2 & Hok2).
  cbn [fifo_run async_run]. destruct (fifo_step ms o) as [ms1 a]. simpl in *.
  destruct (fifo_run ms1 os) as [ms2 l]. simpl in *. exists k2. split_and!; try done.
  rewrite (R_done _ _ _ _ _ Hrun). by rewrite (R_done _ _ _ _ _ Hgo).
Qed.
End async.

(** ** Examples *)

Definition with_message (m : message) (t : thread) : thread := set_th_message m t.
Definition msg_ex : message := Message 0x200 77 [1; 2; 3; 0; 0; 0].
Definition threads_with (t10 t20 : thread) : gmap Z thread :=
  <[0x10 := t10]> (<[0x20 := t20]> {[0x30 := thread_ex 3 SCHED_STATE_RUNNING 0 0 0]}).
Definition runner : thread := thread_ex 1 SCHED_STATE_RUNNING THREAD_FLAG_RUNNING 0 0.

(** thread 0x10 runs; 0x20 is blocked on the endpoint 0x8000; 0x4000 is a
    buffer with a message *)
Definition ipc_ex (t10 t20 : thread) (recievers senders : list Z) : kernel BumpPages.t :=
  set_k_bufs {[0x4000 := msg_ex]}
    (set_k_threads (threads_with t10 t20)
      (set_k_syncs {[0x8000 := MsgQueue (kobject_init 1) recievers senders]}
        (set_k_asyncs {[0x9000 := MsgQueueAsync (kobject_init 2) [] NULL NULL 0]} kernel_low))).
Definition waiter : thread := thread_ex 2 SCHED_STATE_WAITING 0 4096 0.
Definition sender_ex : thread := with_message msg_ex (thread_ex 2 SCHED_STATE_SENDING 0 4096 0).
Definition ipc_waiting : kernel BumpPages.t := ipc_ex runner waiter [0x20] [].
Definition ipc_sending : kernel BumpPages.t := ipc_ex runner sender_ex [] [0x20].

Lemma kobject_init_free ty : obj_free (kobject_init ty).
Proof. done. Qed.

Lemma ipc_waiting_rep : ep_rep 0 ipc_waiting 0x8000 (Endpoint [0x20] []).
Proof.
  split.
  - by eexists.
  - constructor; [|done]. split; [done|]. eexists. split_and!; [done..|by left].
  - done.
  - apply NoDup_singleton.
  - by right.
Qed.

Lemma ipc_sending_rep : ep_rep 0 ipc_sending 0x8000 (Endpoint [] [(0x20, msg_ex)]).
Proof.
  split.
  - by eexists.
  - done.
  - constructor; [|done]. split; [done|]. eexists. split_and!; [done..|by left].
  - apply NoDup_singleton.
  - by left.
Qed.

Lemma ipc_ready t20 rs ss ep : ep_threads ep = [0x20] -> ready 0 (ipc_ex runner t20 rs ss) 0x10 runner ep.
Proof. intros He. split; try done. rewrite He. set_solver. Qed.

(** the sender's own number replaces the 77 it wrote *)
Lemma message_send_refines_witness :
  (passed_on msg_ex -> exists k1 t o, k_threads ipc_waiting !! 0x20 = Some t /\ obj_free o /\ ipc_frame ipc_waiting k1 /\
    ep_locked 0 k1 0x8000 (Endpoint [] []) /\
    k_threads k1 = <[0x20 := handed o (Message 0x200 1 [1; 2; 3; 0; 0; 0]) t]> (k_threads ipc_waiting) /\
    message_send 0 1 false clock_ex 0x8000 (UserBuf 0x4000) ipc_waiting =
      ((_ ← sched_add_thread 0 1 false clock_ex 0x20; mret true) ≫=
       message_sent 0 1 clock_ex 0x8000 0x10 (UserBuf 0x4000)) k1) /\
  (~ passed_on msg_ex -> exists k' t o,
    message_send 0 1 false clock_ex 0x8000 (UserBuf 0x4000) ipc_waiting = Some (Done tt k') /\
    ep_rep 0 k' 0x8000 (Endpoint [] []) /\ (0x20 ∉ ep_threads (Endpoint [] [])) /\
    k_threads ipc_waiting !! 0x20 = Some t /\ th_state t = SCHED_STATE_WAITING /\ obj_free o /\
    ipc_frame ipc_waiting k' /\
    k_threads k' = <[0x10 := set_sender_state runner]> (<[0x20 := set_th_object o t]> (k_threads ipc_waiting))).
Proof.
  apply (message_send_refines 0 1 false clock_ex ipc_waiting 0x8000 (Endpoint [0x20] []) 0x10 runner
    (UserBuf 0x4000) msg_ex); [exact ipc_waiting_rep|by apply ipc_ready|by left|done].
Defined.

(** a blocked sender's message keeps the 77 *)
Lemma message_recieve_refines_witness :
  exists k1 t o, k_threads ipc_sending !! 0x20 = Some t /\ obj_free o /\ ipc_frame ipc_sending k1 /\
    ep_locked 0 k1 0x8000 (Endpoint [] []) /\
    k_threads k1 = <[0x20 := set_th_object o (set_sender_state t)]>
      (<[0x10 := set_th_message (Message 0x200 77 [1; 2; 3; 0; 0; 0]) runner]> (k_threads ipc_sending)) /\
    message_recieve_loop 0 1 false clock_ex 1 0x8000 0x4000 0x10 ipc_sending =
      (_ ← sched_add_thread 0 1 false clock_ex 0x20;
       lift (message_recieve_finish 0 0x8000 0x4000 0x10)) k1.
Proof.
  apply (message_recieve_refines 0 1 false clock_ex ipc_sending 0x8000 (Endpoint [] [(0x20, msg_ex)]) 0x10 runner
    0x4000 0); [exact ipc_sending_rep|by apply ipc_ready|by left|done].
Defined.

Definition runner_handed : thread := with_message msg_ex (SET_FLAG THREAD_FLAG_PENDING_MSG runner).
Definition ipc_handed : kernel BumpPages.t := ipc_ex runner_handed waiter [] [].

Lemma ipc_handed_rep : ep_rep 0 ipc_handed 0x8000 (Endpoint [] []).
Proof. split; [by eexists|done|done|apply NoDup_nil_2|by right]. Qed.

Lemma message_recieve_handed_witness :
  exists k', message_recieve_loop 0 1 false clock_ex 1 0x8000 0x4000 0x10 ipc_handed = Some (Done tt k') /\
    ep_rep 0 k' 0x8000 (Endpoint [] []) /\ k_bufs k' = <[0x4000 := msg_ex]> (k_bufs ipc_handed) /\
    k_threads k' = <[0x10 := UNSET_FLAG THREAD_FLAG_PENDING_MSG (set_th_state SCHED_STATE_RUNNING runner_handed)]>
      (k_threads ipc_handed).
Proof.
  apply (message_recieve_handed 0 1 false clock_ex ipc_handed 0x8000 (Endpoint [] []) 0x10 runner_handed 0x4000 msg_ex 0);
    [exact ipc_handed_rep|split; try done; set_solver|done|done|done].
Defined.

(** words that name a thread nobody granted *)
Definition forged : message := Message MESSAGE_TYPE_GRANT_OBJECT 77 [CAP_TYPE_THREAD; 15; 0x30; 0; 0; 0].
Definition runner_forged : thread := set_th_cap_space 0x8000 (with_message forged runner).
Definition caps_ex : cap_store BumpPages.t := CapStore (st_spaces store_ex) (st_tables store_ex) BumpPages.init.
Definition ipc_forged : kernel BumpPages.t := set_k_caps caps_ex (ipc_ex runner_forged waiter [] []).

Lemma caps_ex_wf : cap_wf caps_ex.
Proof. destruct store_ex_wf as [H1 H2 H3 H4]. split; [exact H1|exact H2|exact H3|exact H4]. Qed.

Lemma message_grant_forges_witness :
  passed_on forged /\
  exists k' i, message_recieve_finish 0 0x8000 0x4000 0x10 ipc_forged = Some (tt, k') /\
    slot (k_caps k') 0x100000 i = Some (CapEntry CAP_TYPE_THREAD 15 0x30).
Proof.
  apply (message_grant_forges 0 ipc_forged 0x8000 (Endpoint [] []) 0x10 runner_forged 0x4000 msg_ex
    (CapSpace 0x100000 0) (CapEntry CAP_TYPE_CAP_SPACE all_perms 0x8000) null_entry 3 CAP_TYPE_THREAD 15 0x30
    [0; 0; 0] 77); try done.
  - split; [by eexists|done|done|apply NoDup_nil_2|by right].
  - split; try done. set_solver.
  - exact caps_ex_wf.
Defined.

Definition debug_ex : message := Message MESSAGE_TYPE_DEBUG_PRINT 0 [1; 2; 3; 0; 0; 0].

Lemma message_send_swallows_witness :
  exists k', message_send 0 1 false clock_ex 0x8000 (Local debug_ex) ipc_waiting = Some (Done tt k') /\
    ep_rep 0 k' 0x8000 (Endpoint [] []) /\ (0x20 ∉ ep_threads (Endpoint [] [])) /\
    (th_state <$> k_threads k' !! 0x20) = Some SCHED_STATE_WAITING /\ k_run_tree k' = k_run_tree ipc_waiting.
Proof.
  apply (message_send_swallows 0 1 false clock_ex ipc_waiting 0x8000 0x20 [] [] 0x10 runner (Local debug_ex) debug_ex);
    [exact ipc_waiting_rep|by apply ipc_ready|done|done].
Defined.

Lemma ipc_async_rep : async_rep ipc_waiting 0x9000 [].
Proof.
  split.
  - eexists _, []. split; [reflexivity|]. split_and!; try done. apply NoDup_nil_2.
  - simpl. lia.
  - split; [|done]. split; [done|]. change (forall p, p ∈ (∅ : gset Z) -> p < 0x1000). set_solver.
  - intros p. split; [|by intros [? ?]]. change (p ∈ (∅ : gset Z) -> is_Some ((∅ : gmap Z message_node) !! p)).
    set_solver.
Qed.

Lemma async_run_refines_witness :
  exists k', async_run 0 1 false clock_ex 0 0x9000 0x4000 [Post msg_ex; Post debug_ex; Poll] ipc_waiting =
      Some (Done [Posted; Posted; Got msg_ex] k') /\
    async_rep k' 0x9000 [debug_ex] /\ caller_ok 0 k' 0x10 0x4000.
Proof.
  apply (async_run_refines 0 1 false clock_ex 0 ipc_waiting 0x9000 [] 0x10 0x4000
    [Post msg_ex; Post debug_ex; Poll]); [exact ipc_async_rep|by split_and!|].
  by repeat (split; [done|intros ? ? _]).
Defined.
