(* ===== verification/Syscall.v ===== *)
(** System calls ([src/syscall.c], [src/arch/x86/syscall.c]).

    Every handler is one definition, with its checks in the order of the code.
    [CAP_CHECK] is the macro: it looks a capability up in the space of the
    running thread and returns from the handler if the check fails.  The
    console messages are left out, except [debug_putchar]. *)
From S2P Require Export Message Paging.

Definition C4_ERROR_INVALID_OBJECT : Z := 2.
Definition C4_ERROR_PERMISSION_DENIED : Z := 4.
Definition C4_ERROR_NOT_IMPLEMENTED : Z := 5.
Definition C4_ERROR_ENTITY_FULL : Z := 6.

Definition SYSCALL_MAX : Z := 35.
Definition PHYS_FRAME_FLAG_NONFREEABLE : Z := 1.
(** [CAP_ACCESS | CAP_MODIFY | CAP_SHARE | CAP_MULTI_USE] *)
Definition CAP_ALL : Z := Z.lor (Z.lor (Z.lor CAP_ACCESS CAP_MODIFY) CAP_SHARE) CAP_MULTI_USE.

Section syscall.
Context {A : Type} `{!Allocator A} `{!Pages A}.
Context (cpu : nat) (num_cpus : Z) (apic_is_enabled : bool) (clock : nat -> Z).
(** what fresh memory holds: the table of a capability space, the object of an
    endpoint, an asynchronous endpoint, the link of a message node; the address
    of a local variable of [unmap_page]; how often a receiver may be woken in
    vain; the value read from a port of a width *)
Context (stale_table : Z -> list cap_entry) (stale_object : kobject) (stale_async : msg_queue_async)
  (stale_node paddr_var : Z) (fuel : nat) (port_in : Z -> Z -> Z).

Abbreviation KST := (ST (kernel A)).
Abbreviation KR := (RST (kernel A)).
Abbreviation sched_current_thread := (@sched_current_thread A cpu).

(** ** Capability checks *)

(** the error, and the entry found; the names of the types are read before the
    error is printed, past their array for a type the kernel does not know *)
Definition do_cap_check (thread object type permissions : Z) : KST (Z * Z) :=
  t ← thread_get thread;
  if th_cap_space t =? NULL then mret (- C4_ERROR_PERMISSION_DENIED, NULL)
  else
    cap ← on_caps (cap_space_lookup (th_cap_space t) object);
    if cap =? NULL then mret (- C4_ERROR_INVALID_OBJECT, NULL)
    else
      e ← on_caps (entry_read cap);
      if negb (ce_type e =? type) && negb (type =? CAP_TYPE_NULL) then
        if CAP_TYPE_RESERVED <? ce_type e then fault
        else mret (- C4_ERROR_INVALID_OBJECT, NULL)
      else if negb (Z.land (ce_permissions e) permissions =? permissions) then
        mret (- C4_ERROR_PERMISSION_DENIED, NULL)
      else mret (C4_ERROR_NONE, cap).

Definition do_newobj_cap_check (thread : Z) : KST Z :=
  t ← thread_get thread;
  if th_cap_space t =? NULL then mret (- C4_ERROR_PERMISSION_DENIED)
  else
    root ← on_caps (cap_space_root_entry (th_cap_space t));
    root_entry ← on_caps (entry_read root);
    if negb (flag_set (ce_permissions root_entry) CAP_MODIFY) then mret (- C4_ERROR_PERMISSION_DENIED)
    else
      object ← on_caps (cap_space_insert (th_cap_space t) (CapEntry CAP_TYPE_RESERVED 0 NULL));
      if object =? CAP_INVALID_OBJECT then mret (- C4_ERROR_ENTITY_FULL) else mret object.

(** the rest of the handler gets the entry and the object *)
Definition CAP_CHECK (x type perms : Z) (rest : Z -> Z -> KR Z) : KR Z :=
  cur ← lift sched_current_thread;
  r ← lift (do_cap_check cur x type perms);
  let '(check, ent) := (r : Z * Z) in
  if negb (check =? C4_ERROR_NONE) then mret check
  else
    e ← lift (on_caps (entry_read ent));
    rest ent (ce_object e).

(** reserve a slot, or return the error *)
Definition with_new_object (rest : Z -> Z -> KR Z) : KR Z :=
  cur ← lift sched_current_thread;
  check ← lift (do_newobj_cap_check cur);
  if check <? 0 then mret check else rest cur check.

(** put a capability into the reserved slot, and return its number *)
Definition install (cur object : Z) (entry : cap_entry) : KR Z :=
  t ← lift (thread_get cur);
  _ ← lift (on_caps (cap_space_replace (th_cap_space t) object entry));
  mret object.

(** ** Threads *)

Definition syscall_thread_exit (a b c d : Z) : KR Z :=
  _ ← sched_thread_exit cpu num_cpus clock;
  mret 0.

Definition syscall_thread_sleep (useconds b c d : Z) : KR Z :=
  _ ← sched_thread_sleep cpu num_cpus clock useconds;
  mret C4_ERROR_NONE.

Definition syscall_thread_create (user_entry user_stack flags d : Z) : KR Z :=
  if negb (is_user_address user_entry) || negb (is_user_address user_stack)
  then mret (- C4_ERROR_INVALID_ARGUMENT)
  else
    with_new_object (fun cur object =>
      c ← lift (thread_get cur);
      thread ← lift (thread_create user_entry (th_addr_space c) user_stack THREAD_FLAG_USER);
      _ ← lift (sched_thread_stop thread);
      r ← install cur object (CapEntry CAP_TYPE_THREAD CAP_ALL thread);
      _ ← sched_add_thread cpu num_cpus apic_is_enabled clock thread;
      mret (r : Z)).

Definition syscall_thread_set_addrspace (thread aspace c d : Z) : KR Z :=
  CAP_CHECK thread CAP_TYPE_THREAD CAP_MODIFY (fun _ target =>
  CAP_CHECK aspace CAP_TYPE_ADDR_SPACE CAP_ACCESS (fun _ new_aspace =>
    _ ← lift (thread_set_addrspace target new_aspace);
    mret C4_ERROR_NONE)).

Definition syscall_thread_set_pager (thread queue c d : Z) : KR Z :=
  CAP_CHECK thread CAP_TYPE_THREAD CAP_MODIFY (fun _ target =>
  CAP_CHECK queue CAP_TYPE_IPC_SYNC_ENDPOINT (Z.lor CAP_ACCESS CAP_MODIFY) (fun _ endpoint =>
    _ ← lift (thread_update target (set_th_pager endpoint));
    mret C4_ERROR_NONE)).

Definition syscall_thread_continue (thread b c d : Z) : KR Z :=
  CAP_CHECK thread CAP_TYPE_THREAD CAP_MODIFY (fun _ target =>
    _ ← lift (sched_thread_continue target);
    mret C4_ERROR_NONE).

Definition syscall_thread_stop (thread b c d : Z) : KR Z :=
  CAP_CHECK thread CAP_TYPE_THREAD CAP_MODIFY (fun _ target =>
    _ ← lift (sched_thread_stop target);
    mret C4_ERROR_NONE).

Definition syscall_thread_set_capspace (thread aspace c d : Z) : KR Z :=
  CAP_CHECK thread CAP_TYPE_THREAD CAP_MODIFY (fun _ target =>
  CAP_CHECK aspace CAP_TYPE_CAP_SPACE CAP_ACCESS (fun _ new_cspace =>
    _ ← lift (thread_set_capspace target new_cspace);
    mret C4_ERROR_NONE)).

Definition syscall_thread_set_stack (a b c d : Z) : KR Z := mret (- C4_ERROR_NOT_IMPLEMENTED).
Definition syscall_thread_set_ip (a b c d : Z) : KR Z := mret (- C4_ERROR_NOT_IMPLEMENTED).
Definition syscall_thread_set_priority (a b c d : Z) : KR Z := mret (- C4_ERROR_NOT_IMPLEMENTED).

(** ** Message passing *)

Definition bool_to_int (b : bool) : Z := if b then 1 else 0.

Definition syscall_sync_create (a b c d : Z) : KR Z :=
  with_new_object (fun cur object =>
    msgq ← lift (message_queue_create stale_object);
    install cur object (CapEntry CAP_TYPE_IPC_SYNC_ENDPOINT CAP_ALL msgq)).

Definition syscall_sync_send (buffer target c d : Z) : KR Z :=
  CAP_CHECK target CAP_TYPE_IPC_SYNC_ENDPOINT CAP_MODIFY (fun _ queue =>
    if negb (is_user_address buffer) then mret (- C4_ERROR_INVALID_ARGUMENT)
    else
      _ ← message_send cpu num_cpus apic_is_enabled clock queue (UserBuf buffer);
      mret 0).

Definition syscall_sync_recieve (buffer from c d : Z) : KR Z :=
  CAP_CHECK from CAP_TYPE_IPC_SYNC_ENDPOINT CAP_ACCESS (fun _ queue =>
    if negb (is_user_address buffer) then mret (- C4_ERROR_INVALID_ARGUMENT)
    else
      _ ← message_recieve cpu num_cpus apic_is_enabled clock fuel queue buffer;
      mret 0).

Definition syscall_async_create (a b c d : Z) : KR Z :=
  with_new_object (fun cur object =>
    msgq ← lift (message_queue_async_create stale_async);
    install cur object (CapEntry CAP_TYPE_IPC_ASYNC_ENDPOINT CAP_ALL msgq)).

Definition syscall_async_send (buffer to c d : Z) : KR Z :=
  CAP_CHECK to CAP_TYPE_IPC_ASYNC_ENDPOINT CAP_MODIFY (fun _ queue =>
    if negb (is_user_address buffer) then mret (- C4_ERROR_INVALID_ARGUMENT)
    else
      r ← message_send_async cpu num_cpus apic_is_enabled clock stale_node queue (UserBuf buffer);
      mret (bool_to_int r)).

Definition syscall_async_recieve (buffer from flags d : Z) : KR Z :=
  CAP_CHECK from CAP_TYPE_IPC_ASYNC_ENDPOINT CAP_ACCESS (fun _ queue =>
    if negb (is_user_address buffer) then mret (bool_to_int false)
    else
      r ← message_recieve_async cpu num_cpus clock fuel queue buffer flags;
      mret (bool_to_int r)).

(** ** Address spaces and frames *)

Definition syscall_addrspace_create (a b c d : Z) : KR Z :=
  with_new_object (fun cur object =>
    addr ← lift (on_spaces (kernel ← addr_space_kernel; addr_space_clone cur num_cpus kernel));
    install cur object (CapEntry CAP_TYPE_ADDR_SPACE CAP_ALL addr)).

Definition syscall_addrspace_map (addrspace phys_frame address permissions : Z) : KR Z :=
  cur ← lift sched_current_thread;
  CAP_CHECK addrspace CAP_TYPE_ADDR_SPACE CAP_MODIFY (fun _ space =>
  CAP_CHECK phys_frame CAP_TYPE_PHYS_MEMORY CAP_ACCESS (fun _ frame =>
    _ ← lift (on_spaces (
          _ ← addr_space_set space;
          addr_space_insert_map cur num_cpus space (addr_space_make_ent address permissions frame)));
    t ← lift (thread_get cur);
    _ ← lift (on_spaces (addr_space_set (th_addr_space t)));
    mret C4_ERROR_NONE)).

Definition syscall_addrspace_unmap (addrspace address c d : Z) : KR Z :=
  CAP_CHECK addrspace CAP_TYPE_ADDR_SPACE CAP_MODIFY (fun _ space =>
    cur ← lift sched_current_thread;
    lift (on_spaces (addr_space_unmap cur num_cpus paddr_var space address))).

Definition syscall_phys_frame_create (phys_addr size context d : Z) : KR Z :=
  with_new_object (fun cur object =>
    newframe ← lift (on_spaces (phys_frame_create phys_addr size PHYS_FRAME_FLAG_NONFREEABLE));
    if newframe =? NULL then mret (- C4_ERROR_INVALID_ARGUMENT)
    else install cur object (CapEntry CAP_TYPE_PHYS_MEMORY CAP_ALL newframe)).

Definition syscall_phys_frame_split (phys_frame offset c d : Z) : KR Z :=
  CAP_CHECK phys_frame CAP_TYPE_PHYS_MEMORY CAP_MODIFY (fun cap_ent frame =>
  with_new_object (fun cur object =>
    newframe ← lift (on_spaces (phys_frame_split cur num_cpus frame offset));
    if newframe =? NULL then mret (- C4_ERROR_INVALID_ARGUMENT)
    else
      e ← lift (on_caps (entry_read cap_ent));
      install cur object (CapEntry CAP_TYPE_PHYS_MEMORY (ce_permissions e) newframe))).

Definition syscall_phys_frame_join (a b c d : Z) : KR Z := mret (- C4_ERROR_NOT_IMPLEMENTED).

(** ** Capability spaces *)

Definition syscall_cspace_create (a b c d : Z) : KR Z :=
  with_new_object (fun cur object =>
    cspace ← lift (on_caps (cap_space_create stale_table));
    install cur object (CapEntry CAP_TYPE_CAP_SPACE CAP_ALL cspace)).

(** [srcobj] and [destobj] are looked up in the space of the caller *)
Definition syscall_cspace_cap_move (src srcobj dest destobj : Z) : KR Z :=
  CAP_CHECK src CAP_TYPE_CAP_SPACE (Z.lor CAP_MODIFY CAP_SHARE) (fun _ srcspace =>
  CAP_CHECK dest CAP_TYPE_CAP_SPACE CAP_MODIFY (fun _ destspace =>
  CAP_CHECK destobj CAP_TYPE_NULL 0 (fun _ _ =>
  CAP_CHECK srcobj CAP_TYPE_NULL CAP_SHARE (fun srcent _ =>
    e ← lift (on_caps (entry_read srcent));
    _ ← lift (on_caps (cap_space_replace destspace destobj e));
    _ ← lift (on_caps (cap_space_remove srcspace srcobj));
    mret C4_ERROR_NONE)))).

Definition syscall_cspace_cap_copy (src srcobj dest destobj : Z) : KR Z :=
  CAP_CHECK src CAP_TYPE_CAP_SPACE (Z.lor CAP_MODIFY CAP_SHARE) (fun _ srcspace =>
  CAP_CHECK dest CAP_TYPE_CAP_SPACE CAP_MODIFY (fun _ destspace =>
  CAP_CHECK destobj CAP_TYPE_NULL 0 (fun _ _ =>
  CAP_CHECK srcobj CAP_TYPE_NULL CAP_SHARE (fun srcent _ =>
    e ← lift (on_caps (entry_read srcent));
    _ ← lift (on_caps (cap_space_replace destspace destobj e));
    mret C4_ERROR_NONE)))).

Definition syscall_cspace_cap_remove (capspace object c d : Z) : KR Z :=
  CAP_CHECK capspace CAP_TYPE_CAP_SPACE CAP_MODIFY (fun _ cspace =>
  CAP_CHECK object CAP_TYPE_NULL 0 (fun _ _ =>
    b ← lift (on_caps (cap_space_remove cspace object));
    if negb b then mret (- C4_ERROR_PERMISSION_DENIED) else mret C4_ERROR_NONE)).

Definition syscall_cspace_cap_restrict (capspace object permissions d : Z) : KR Z :=
  CAP_CHECK capspace CAP_TYPE_CAP_SPACE CAP_MODIFY (fun _ cspace =>
    b ← lift (on_caps (cap_space_restrict cspace object permissions));
    if negb b then mret (- C4_ERROR_PERMISSION_DENIED) else mret C4_ERROR_NONE).

Definition syscall_cspace_cap_share (a b c d : Z) : KR Z := mret (- C4_ERROR_NOT_IMPLEMENTED).

Definition syscall_cspace_cap_grant (object queue permissions d : Z) : KR Z :=
  CAP_CHECK queue CAP_TYPE_IPC_SYNC_ENDPOINT CAP_MODIFY (fun _ endpoint =>
  CAP_CHECK object CAP_TYPE_NULL (Z.lor permissions CAP_SHARE) (fun cap _ =>
    e ← lift (on_caps (entry_read cap));
    _ ← message_send_capability cpu num_cpus apic_is_enabled clock endpoint (set_permissions permissions e);
    mret (- C4_ERROR_NONE))).

(** ** Interrupts, ports and the rest *)

Definition syscall_interrupt_subscribe (interrupt endpoint c d : Z) : KR Z :=
  CAP_CHECK endpoint CAP_TYPE_IPC_ASYNC_ENDPOINT CAP_MODIFY (fun _ queue =>
    _ ← lift (interrupt_listen interrupt queue);
    mret C4_ERROR_NONE).

Definition syscall_interrupt_unsubscribe (a b c d : Z) : KR Z := mret (- C4_ERROR_NOT_IMPLEMENTED).

Definition emit (e : io_event) : KST unit := modify (fun k => set_k_io (k_io k ++ [e]) k).
Definition port_read (width port : Z) : KR Z := mret (port_in width (port mod 2 ^ 16) mod 2 ^ (8 * width)).
Definition port_write (width port value : Z) : KR Z :=
  _ ← lift (emit (PortOut width (port mod 2 ^ 16) (value mod 2 ^ (8 * width))));
  mret 0.

Definition syscall_ioport (action port value d : Z) : KR Z :=
  if action =? 0 then port_read 1 port
  else if action =? 1 then port_read 2 port
  else if action =? 2 then r ← port_read 4 port; mret (i32 r)
  else if action =? 3 then port_write 1 port value
  else if action =? 4 then port_write 2 port value
  else if action =? 5 then port_write 4 port value
  else mret (-1).

Definition syscall_info (action b c d : Z) : KR Z :=
  if action =? 0 then
    cur ← lift sched_current_thread;
    t ← lift (thread_get cur);
    mret (i32 (th_id t))
  else mret (-1).

Definition syscall_debug_putchar (character b c d : Z) : KR Z :=
  _ ← lift (emit (PutChar character));
  mret 0.

(** ** Dispatch *)

Definition syscall_table : list (Z -> Z -> Z -> Z -> KR Z) := [
  syscall_thread_exit; syscall_thread_sleep; syscall_thread_create;
  syscall_thread_set_addrspace; syscall_thread_set_capspace; syscall_thread_set_stack;
  syscall_thread_set_ip; syscall_thread_set_priority; syscall_thread_set_pager;
  syscall_thread_continue; syscall_thread_stop;
  syscall_sync_create; syscall_sync_send; syscall_sync_recieve;
  syscall_async_create; syscall_async_send; syscall_async_recieve;
  syscall_addrspace_create; syscall_addrspace_map; syscall_addrspace_unmap;
  syscall_phys_frame_create; syscall_phys_frame_split; syscall_phys_frame_join;
  syscall_cspace_create; syscall_cspace_cap_move; syscall_cspace_cap_copy;
  syscall_cspace_cap_remove; syscall_cspace_cap_restrict; syscall_cspace_cap_share;
  syscall_cspace_cap_grant;
  syscall_interrupt_subscribe; syscall_interrupt_unsubscribe; syscall_ioport;
  syscall_info; syscall_debug_putchar ].

Definition syscall_dispatch (num a b c d : Z) : KR Z :=
  if SYSCALL_MAX <=? num then mret (-1)
  else
    match syscall_table !! Z.to_nat num with
    | Some f => f a b c d
    | None => rfault
    end.

(** the registers of the interrupt frame a system call uses *)
Record syscall_frame := SyscallFrame { sf_eax : Z; sf_edi : Z; sf_esi : Z; sf_edx : Z; sf_ebx : Z }.
Definition syscall_handler (f : syscall_frame) : KR syscall_frame :=
  r ← syscall_dispatch (sf_eax f) (sf_edi f) (sf_esi f) (sf_edx f) (sf_ebx f);
  mret (SyscallFrame (w32 r) (sf_edi f) (sf_esi f) (sf_edx f) (sf_ebx f)).
End syscall.

(** ** What a capability check decides *)

(** the running thread and its capability space *)
Record caller {A} (cpu : nat) (k : kernel A) (cur : Z) (c : thread) (sp : cap_space) : Prop := {
  cl_current : k_current k !! cpu = Some cur;
  cl_thread : k_threads k !! cur = Some c;
  cl_null : th_cap_space c <> NULL;
  cl_wf : cap_wf (k_caps k);
  cl_space : st_spaces (k_caps k) !! th_cap_space c = Some sp;
  (** every entry has a type the kernel has a name for *)
  cl_types : forall t i e, slot (k_caps k) t i = Some e -> 0 <= ce_type e <= CAP_TYPE_RESERVED;
}.

(** the answer of a check of an entry *)
Definition entry_check (e : cap_entry) (type permissions : Z) : Z :=
  if negb (ce_type e =? type) && negb (type =? CAP_TYPE_NULL) then - C4_ERROR_INVALID_OBJECT
  else if negb (Z.land (ce_permissions e) permissions =? permissions) then - C4_ERROR_PERMISSION_DENIED
  else C4_ERROR_NONE.

(** the caller holds, in a table it can reach, a capability of the type with
    the permissions, and [object] names it *)
Definition holds {A} (k : kernel A) (c : thread) (sp : cap_space) (object type permissions : Z) : Prop :=
  exists p t i e, cap_space_lookup (th_cap_space c) object (k_caps k) = Some (p, k_caps k) /\
    is_entry (k_caps k) p t i e /\ reach (k_caps k) (cs_table sp) t /\
    (type = CAP_TYPE_NULL \/ ce_type e = type) /\
    Z.land (ce_permissions e) permissions = permissions.

(** an object of a system call's check: which one, its type, its permissions *)
Definition check : Type := Z * Z * Z.

(** the checks of a system call, in the order the handler makes them *)
Definition syscall_checks (num a b c d : Z) : list check :=
  match num with
  | 3 => [(a, CAP_TYPE_THREAD, CAP_MODIFY); (b, CAP_TYPE_ADDR_SPACE, CAP_ACCESS)]
  | 4 => [(a, CAP_TYPE_THREAD, CAP_MODIFY); (b, CAP_TYPE_CAP_SPACE, CAP_ACCESS)]
  | 8 => [(a, CAP_TYPE_THREAD, CAP_MODIFY); (b, CAP_TYPE_IPC_SYNC_ENDPOINT, Z.lor CAP_ACCESS CAP_MODIFY)]
  | 9 | 10 => [(a, CAP_TYPE_THREAD, CAP_MODIFY)]
  | 12 => [(b, CAP_TYPE_IPC_SYNC_ENDPOINT, CAP_MODIFY)]
  | 13 => [(b, CAP_TYPE_IPC_SYNC_ENDPOINT, CAP_ACCESS)]
  | 15 => [(b, CAP_TYPE_IPC_ASYNC_ENDPOINT, CAP_MODIFY)]
  | 16 => [(b, CAP_TYPE_IPC_ASYNC_ENDPOINT, CAP_ACCESS)]
  | 18 => [(a, CAP_TYPE_ADDR_SPACE, CAP_MODIFY); (b, CAP_TYPE_PHYS_MEMORY, CAP_ACCESS)]
  | 19 => [(a, CAP_TYPE_ADDR_SPACE, CAP_MODIFY)]
  | 21 => [(a, CAP_TYPE_PHYS_MEMORY, CAP_MODIFY)]
  | 24 | 25 => [(a, CAP_TYPE_CAP_SPACE, Z.lor CAP_MODIFY CAP_SHARE); (c, CAP_TYPE_CAP_SPACE, CAP_MODIFY);
                (d, CAP_TYPE_NULL, 0); (b, CAP_TYPE_NULL, CAP_SHARE)]
  | 26 => [(a, CAP_TYPE_CAP_SPACE, CAP_MODIFY); (b, CAP_TYPE_NULL, 0)]
  | 27 => [(a, CAP_TYPE_CAP_SPACE, CAP_MODIFY)]
  | 29 => [(b, CAP_TYPE_IPC_SYNC_ENDPOINT, CAP_MODIFY); (a, CAP_TYPE_NULL, Z.lor c CAP_SHARE)]
  | 30 => [(b, CAP_TYPE_IPC_ASYNC_ENDPOINT, CAP_MODIFY)]
  | _ => []
  end.

Section checks.
Context {A : Type} `{!Allocator A} `{!Pages A}.
Context (cpu : nat).
Implicit Types (k : kernel A) (c : thread) (sp : cap_space).

Lemma on_caps_read {B} k (m : ST (cap_store A) B) b :
  m (k_caps k) = Some (b, k_caps k) -> on_caps m k = Some (b, k).
Proof. intros H. rewrite (on_caps_ok _ _ _ _ H). by destruct k. Qed.

Lemma cap_check_ok k cur c sp object type perms :
  caller cpu k cur c sp -> 0 <= object < 2 ^ 32 ->
  exists p, cap_space_lookup (th_cap_space c) object (k_caps k) = Some (p, k_caps k) /\
    ((p = NULL /\ do_cap_check cur object type perms k = Some ((- C4_ERROR_INVALID_OBJECT, NULL), k)) \/
     exists t i e, is_entry (k_caps k) p t i e /\ reach (k_caps k) (cs_table sp) t /\
       (i = 0%nat \/ ce_type e <> CAP_TYPE_CAP_SPACE) /\
       do_cap_check cur object type perms k =
         Some ((entry_check e type perms, if entry_check e type perms =? C4_ERROR_NONE then p else NULL), k)).
Proof.
  intros [Hcur Hct Hnull Hw Hsp Hty] Ho.
  destruct (cap_target (k_caps k) (cs_table sp) object Hw) as (p & Hlk & Hres); [by eapply cw_space|done|].
  assert (Hl : cap_space_lookup (th_cap_space c) object (k_caps k) = Some (p, k_caps k)).
  { unfold cap_space_lookup, space_read. by rewrite ST_bind_eq, Hsp. }
  exists p. split; [done|]. unfold do_cap_check.
  rewrite ST_bind_eq, (thread_get_ok _ _ _ Hct), (proj2 (Z.eqb_neq _ _) Hnull).
  rewrite ST_bind_eq, (on_caps_read _ _ _ Hl).
  destruct Hres as [->|(t & i & e & Hent & Hr & Hleaf)]; [by left|]. right. exists t, i, e.
  split_and!; try done. pose proof (is_entry_read _ _ _ _ _ Hw Hent) as Hrd.
  destruct Hent as (Hs & Hp & Hp0). rewrite (proj2 (Z.eqb_neq _ _) Hp0).
  rewrite ST_bind_eq, (on_caps_read _ _ _ Hrd). unfold entry_check.
  rewrite (proj2 (Z.ltb_ge CAP_TYPE_RESERVED (ce_type e))) by apply (Hty t i e Hs).
  destruct (negb (ce_type e =? type) && _); [done|]. by destruct (negb _).
Qed.

Lemma entry_check_holds k c sp object p t i e type perms :
  cap_space_lookup (th_cap_space c) object (k_caps k) = Some (p, k_caps k) ->
  is_entry (k_caps k) p t i e -> reach (k_caps k) (cs_table sp) t ->
  entry_check e type perms = C4_ERROR_NONE -> holds k c sp object type perms.
Proof.
  intros Hl Hent Hr Hc. exists p, t, i, e. split_and!; try done.
  - unfold entry_check in Hc. destruct (Z.eqb_spec (ce_type e) type); [by right|].
    destruct (Z.eqb_spec type CAP_TYPE_NULL); [by left|done].
  - unfold entry_check in Hc. destruct (negb (ce_type e =? type) && _); [done|].
    by destruct (Z.eqb_spec (Z.land (ce_permissions e) perms) perms).
Qed.

(** the macro: the caller holds the capability and the handler goes on with its
    object, or the handler returns an error and nothing has changed *)
Lemma CAP_CHECK_ok k cur c sp object type perms rest :
  caller cpu k cur c sp -> 0 <= object < 2 ^ 32 ->
  (exists p e, holds k c sp object type perms /\ entry_read p (k_caps k) = Some (e, k_caps k) /\
     CAP_CHECK cpu object type perms rest k = rest p (ce_object e) k) \/
  (exists err, err < 0 /\ CAP_CHECK cpu object type perms rest k = Some (Done err k)).
Proof.
  intros Hcl Ho. destruct (cap_check_ok k cur c sp object type perms Hcl Ho) as (p & Hl & Hres).
  unfold CAP_CHECK. rewrite (R_lift _ _ _ _ _ (current_ok _ _ _ (cl_current _ _ _ _ _ Hcl))).
  destruct Hres as [(-> & Hc)|(t & i & e & Hent & Hr & Hleaf & Hc)].
  - right. exists (- C4_ERROR_INVALID_OBJECT). split; [done|]. by rewrite (R_lift _ _ _ _ _ Hc).
  - rewrite (R_lift _ _ _ _ _ Hc). destruct (Z.eqb_spec (entry_check e type perms) C4_ERROR_NONE) as [H0|Hne].
    + left. exists p, e. rewrite H0. simpl.
      assert (Hrd : entry_read p (k_caps k) = Some (e, k_caps k)) by (eapply is_entry_read; [apply Hcl|done]).
      split_and!; [by eapply entry_check_holds|done|].
      by rewrite (R_lift _ _ _ _ _ (on_caps_read _ _ _ Hrd)).
    + right. eexists. split; [|simpl; reflexivity]. unfold entry_check, C4_ERROR_NONE in *.
      destruct (negb (ce_type e =? type) && _); [done|]. by destruct (negb _).
Qed.

(** a check that passes *)
Lemma CAP_CHECK_pass k cur c sp object type perms rest p t i e :
  caller cpu k cur c sp -> 0 <= object < 2 ^ 32 ->
  cap_space_lookup (th_cap_space c) object (k_caps k) = Some (p, k_caps k) ->
  is_entry (k_caps k) p t i e -> entry_check e type perms = C4_ERROR_NONE ->
  CAP_CHECK cpu object type perms rest k = rest p (ce_object e) k.
Proof.
  intros Hcl Ho Hl Hent He. pose proof (cl_wf _ _ _ _ _ Hcl) as Hw.
  pose proof (is_entry_read _ _ _ _ _ Hw Hent) as Hrd.
  destruct (cap_check_ok k cur c sp object type perms Hcl Ho) as (p' & Hl' & Hres).
  rewrite Hl in Hl'. injection Hl' as <-.
  destruct Hres as [(-> & _)|(t' & i' & e' & Hent' & _ & _ & Hc)]; [by destruct Hent as (_ & _ & ?)|].
  pose proof (is_entry_read _ _ _ _ _ Hw Hent') as Hrd'. rewrite Hrd in Hrd'. injection Hrd' as <-.
  rewrite He in Hc. unfold CAP_CHECK.
  rewrite (R_lift _ _ _ _ _ (current_ok _ _ _ (cl_current _ _ _ _ _ Hcl))).
  rewrite (R_lift _ _ _ _ _ Hc). simpl. by rewrite (R_lift _ _ _ _ _ (on_caps_read _ _ _ Hrd)).
Qed.

(** C9: a capability check ends, changes nothing, and says no error exactly when
    the identifier leads, through tables the caller can reach, to an entry of
    the type asked for (any type, for NULL) with every permission asked for;
    then it hands out that entry.  Otherwise the answer is that the object is
    invalid or that permission is denied. *)
Theorem do_cap_check_spec k cur c sp object type perms :
  caller cpu k cur c sp -> 0 <= object < 2 ^ 32 ->
  exists r ent, do_cap_check cur object type perms k = Some ((r, ent), k) /\
    (r = C4_ERROR_NONE <-> holds k c sp object type perms) /\
    (r = C4_ERROR_NONE -> cap_space_lookup (th_cap_space c) object (k_caps k) = Some (ent, k_caps k)) /\
    (r = C4_ERROR_NONE \/ r = - C4_ERROR_INVALID_OBJECT \/ r = - C4_ERROR_PERMISSION_DENIED).
Proof.
  intros Hcl Ho. destruct (cap_check_ok k cur c sp object type perms Hcl Ho) as (p & Hl & Hres).
  destruct Hres as [(-> & Hc)|(t & i & e & Hent & Hr & _ & Hc)]; do 2 eexists; split; [exact Hc| |exact Hc|].
  - split_and!; [split|done|tauto]; [done|]. intros (p & t & i & e & Hl' & (_ & _ & Hp) & _).
    by rewrite Hl in Hl'; simplify_eq.
  - split_and!.
    + split; [by eapply entry_check_holds|]. intros (p' & t' & i' & e' & Hl' & Hent' & _ & Hty & Hperm).
      rewrite Hl in Hl'. injection Hl' as <-.
      pose proof (is_entry_read _ _ _ _ _ (cl_wf _ _ _ _ _ Hcl) Hent) as H1.
      rewrite (is_entry_read _ _ _ _ _ (cl_wf _ _ _ _ _ Hcl) Hent') in H1. injection H1 as ->.
      unfold entry_check. rewrite Hperm, Z.eqb_refl. simpl.
      destruct Hty as [->| ->]; [|by rewrite Z.eqb_refl]. by rewrite andb_false_r.
    + by intros ->.
    + unfold entry_check. destruct (_ && _); [tauto|]. destruct (negb _); tauto.
Qed.

Definition mediated k c sp (l : list check) (m : RST (kernel A) Z) : Prop :=
  Forall (fun '(object, type, perms) => holds k c sp object type perms) l \/
  exists err, err < 0 /\ m k = Some (Done err k).

Lemma mediated_nil k c sp m : mediated k c sp [] m.
Proof. by left. Qed.

Lemma mediated_cons k cur c sp object type perms l rest :
  caller cpu k cur c sp -> 0 <= object < 2 ^ 32 -> (forall p o, mediated k c sp l (rest p o)) ->
  mediated k c sp ((object, type, perms) :: l) (CAP_CHECK cpu object type perms rest).
Proof.
  intros Hcl Ho Hrest. destruct (CAP_CHECK_ok k cur c sp object type perms rest Hcl Ho)
    as [(p & e & Hh & _ & Hrun)|(err & Herr & Hrun)]; [|right; by exists err].
  destruct (Hrest p (ce_object e)) as [Hl|(err & Herr & Hm)].
  - left. by constructor.
  - right. exists err. by rewrite Hrun.
Qed.

Lemma mediated_current k cur c sp l f :
  caller cpu k cur c sp -> mediated k c sp l (f cur) ->
  mediated k c sp l (lift (@sched_current_thread A cpu) ≫= f).
Proof.
  intros Hcl [?|(err & ? & Hm)]; [by left|right; exists err].
  by rewrite (R_lift _ _ _ _ _ (current_ok _ _ _ (cl_current _ _ _ _ _ Hcl))).
Qed.

Context (num_cpus : Z) (apic_is_enabled : bool) (clock : nat -> Z).
Context (stale_table : Z -> list cap_entry) (stale_object : kobject) (stale_async : msg_queue_async)
  (stale_node paddr_var : Z) (fuel : nat) (port_in : Z -> Z -> Z).

Abbreviation dispatch := (syscall_dispatch cpu num_cpus apic_is_enabled clock stale_table stale_object
  stale_async stale_node paddr_var fuel port_in).

(** C1: complete mediation.  Whatever system call is made with whatever
    arguments, either the caller holds every capability the call is to check,
    of the right type and with the permissions it needs, or the call returns a
    negative error in the state it was made in. *)
Theorem syscall_mediated k cur c sp num a0 a1 a2 a3 :
  caller cpu k cur c sp -> 0 <= num ->
  0 <= a0 < 2 ^ 32 -> 0 <= a1 < 2 ^ 32 -> 0 <= a2 < 2 ^ 32 -> 0 <= a3 < 2 ^ 32 ->
  Forall (fun '(object, type, perms) => holds k c sp object type perms) (syscall_checks num a0 a1 a2 a3) \/
  exists err, err < 0 /\ dispatch num a0 a1 a2 a3 k = Some (Done err k).
Proof.
  intros Hcl Hnum H0 H1 H2 H3. change (mediated k c sp (syscall_checks num a0 a1 a2 a3) (dispatch num a0 a1 a2 a3)).
  unfold syscall_dispatch. destruct (Z.leb_spec SYSCALL_MAX num) as [Hge|Hlt]; [right; by exists (-1)|].
  unfold SYSCALL_MAX in Hlt. destruct (Z_of_nat_complete num Hnum) as [n ->]. rewrite Nat2Z.id.
  do 35 (destruct n as [|n]; [first [apply mediated_nil
    |cbn; repeat first [eapply mediated_cons; [exact Hcl|done|intros]|eapply mediated_current; [exact Hcl|]];
     apply mediated_nil]|]). lia.
Qed.
End checks.

(** ** New objects *)

Definition reserved_entry : cap_entry := CapEntry CAP_TYPE_RESERVED 0 NULL.

(** slot [j] is the first free one of the table [t] *)
Definition first_free {A} (s : cap_store A) (t : Z) (j : nat) : Prop :=
  (exists free, slot s t j = Some free /\ ce_type free = CAP_TYPE_NULL) /\
  forall i e, (i < j)%nat -> slot s t i = Some e -> ce_type e <> CAP_TYPE_NULL.
Definition table_full {A} (s : cap_store A) (t : Z) : Prop :=
  forall i e, slot s t i = Some e -> ce_type e <> CAP_TYPE_NULL.

(** the state with another entry in a slot of a capability table *)
Definition with_slot {A} (k : kernel A) (t : Z) (j : nat) (e : cap_entry) : kernel A :=
  set_k_caps (slot_write (k_caps k) t j e) k.

(** the caller's own table names itself in entry 0, with permissions [perms] *)
Record own_table {A} (k : kernel A) (sp : cap_space) (e0 : cap_entry) : Prop := {
  ot_root : slot (k_caps k) (cs_table sp) 0 = Some e0;
  ot_type : ce_type e0 = CAP_TYPE_CAP_SPACE;
}.

Section creation.
Context {A : Type} `{!Allocator A} `{!Pages A}.
Context (cpu : nat).
Implicit Types (k : kernel A) (c : thread) (sp : cap_space).

Lemma reserve_ok k cur c sp e0 :
  caller cpu k cur c sp -> own_table k sp e0 ->
  if flag_set (ce_permissions e0) CAP_MODIFY then
    (exists j, (0 < j < 256)%nat /\ first_free (k_caps k) (cs_table sp) j /\
       do_newobj_cap_check cur k = Some (Z.of_nat j, with_slot k (cs_table sp) j reserved_entry)) \/
    (table_full (k_caps k) (cs_table sp) /\ do_newobj_cap_check cur k = Some (- C4_ERROR_ENTITY_FULL, k))
  else do_newobj_cap_check cur k = Some (- C4_ERROR_PERMISSION_DENIED, k).
Proof.
  intros [Hcur Hct Hnull Hw Hsp Hty] [He0 Ht0].
  assert (Htab : is_Some (st_tables (k_caps k) !! cs_table sp)) by by apply (slot_Some _ _ _ _ Hw He0).
  assert (Hroot : cap_space_root_entry (th_cap_space c) (k_caps k) = Some (cs_table sp, k_caps k)).
  { unfold cap_space_root_entry, space_read. by rewrite ST_bind_eq, Hsp. }
  assert (Hrd : entry_read (cs_table sp) (k_caps k) = Some (e0, k_caps k)).
  { pose proof (entry_read_ok _ _ 0 e0 Hw He0) as Hr. change (Z.of_nat 0) with 0 in Hr.
    by rewrite entry_ptr_0 in Hr by by apply (slot_Some _ _ _ _ Hw He0). }
  assert (Hcheck : do_newobj_cap_check cur k =
    if flag_set (ce_permissions e0) CAP_MODIFY then
      (object ← on_caps (cap_space_insert (th_cap_space c) reserved_entry);
       if object =? CAP_INVALID_OBJECT then mret (- C4_ERROR_ENTITY_FULL) else mret object) k
    else Some (- C4_ERROR_PERMISSION_DENIED, k)).
  { unfold do_newobj_cap_check. rewrite ST_bind_eq, (thread_get_ok _ _ _ Hct), (proj2 (Z.eqb_neq _ _) Hnull).
    rewrite ST_bind_eq, (on_caps_read _ _ _ Hroot). rewrite ST_bind_eq, (on_caps_read _ _ _ Hrd).
    by destruct (flag_set _ _). }
  rewrite Hcheck. destruct (flag_set _ _) eqn:Hm; [|done].
  pose proof (cap_space_insert_ok _ _ _ _ reserved_entry Hw Hsp He0) as Hins. rewrite Hm in Hins.
  destruct (cap_table_insert_ok (k_caps k) (cs_table sp) reserved_entry Hw Htab)
    as [(j & free & Hj & Hfree & Hfty & Hall & Hr)|[Hfull Hr]]; rewrite Hr in Hins.
  - assert (j <> 0%nat) as Hj0 by (intros ->; rewrite He0 in Hfree; injection Hfree as <-; by rewrite Ht0 in Hfty).
    left. exists j. split_and!; [lia|lia|split; [by exists free|done]|].
    rewrite ST_bind_eq, (on_caps_ok _ _ _ _ Hins).
    by rewrite (proj2 (Z.eqb_neq (Z.of_nat j) CAP_INVALID_OBJECT)) by (unfold CAP_INVALID_OBJECT; lia).
  - right. split; [done|]. by rewrite ST_bind_eq, (on_caps_read _ _ _ Hins).
Qed.

(** writing an entry that names no space into a slot other than 0 *)
Lemma caller_write k cur c sp e0 (j : nat) (e e' : cap_entry) :
  caller cpu k cur c sp -> own_table k sp e0 -> (0 < j)%nat -> slot (k_caps k) (cs_table sp) j = Some e ->
  (ce_type e' = CAP_TYPE_CAP_SPACE -> is_Some (st_spaces (k_caps k) !! ce_object e')) ->
  0 <= ce_type e' <= CAP_TYPE_RESERVED ->
  caller cpu (with_slot k (cs_table sp) j e') cur c sp /\ own_table (with_slot k (cs_table sp) j e') sp e0.
Proof.
  intros [Hcur Hct Hnull Hw Hsp Hty] [He0 Ht0] Hj He Hspace Hrange. unfold with_slot. split; split; try done.
  - simpl. eapply cap_wf_write; [done|exact He|done|lia].
  - intros t i e1. simpl. rewrite slot_write_slot by eauto. case_decide; [intros [= <-]; done|apply Hty].
  - simpl. rewrite slot_write_slot by eauto. rewrite decide_False; [done|lia].
Qed.

Lemma slot_lookup k cur c sp (j : nat) e :
  caller cpu k cur c sp -> (0 < j)%nat -> slot (k_caps k) (cs_table sp) j = Some e ->
  ce_type e <> CAP_TYPE_CAP_SPACE ->
  cap_table_lookup (cs_table sp) (Z.of_nat j) (k_caps k) = Some (entry_ptr (cs_table sp) (Z.of_nat j), k_caps k).
Proof.
  intros [_ _ _ Hw Hsp _] Hj He Hty. destruct (slot_Some _ _ _ _ Hw He) as (_ & Hj2 & Htab).
  pose proof (cap_lookup_follow 4 (k_caps k) (cs_table sp) [] j (cs_table sp) e Hw Htab eq_refl He Hj
    (proj2 (Forall_nil _) I) ltac:(simpl; lia)) as Hl.
  rewrite (proj2 (Z.eqb_neq _ _) Hty) in Hl. simpl in Hl. by rewrite Z.add_0_r in Hl.
Qed.

Lemma install_ok k cur c sp e0 (j : nat) e entry :
  caller cpu k cur c sp -> own_table k sp e0 -> flag_set (ce_permissions e0) CAP_MODIFY = true ->
  (0 < j)%nat -> slot (k_caps k) (cs_table sp) j = Some e -> ce_type e <> CAP_TYPE_CAP_SPACE ->
  install cur (Z.of_nat j) entry k = Some (Done (Z.of_nat j) (with_slot k (cs_table sp) j entry)).
Proof.
  intros Hcl [He0 Ht0] Hm Hj He Hty. pose proof Hcl as [Hcur Hct Hnull Hw Hsp _].
  pose proof (slot_lookup _ _ _ _ _ _ Hcl Hj He Hty) as Hl.
  pose proof (is_entry_ok _ _ _ _ Hw He) as Hent.
  destruct (cap_root_permissions_ok _ _ _ _ _ Hw Hent) as (e1 & He1 & Hperm).
  rewrite He0 in He1. injection He1 as <-.
  assert (Hf : found (k_caps k) sp (entry_ptr (cs_table sp) (Z.of_nat j)) (cs_table sp) j e e0)
    by (split; [done|apply reach_refl|by right|done]).
  pose proof (cap_space_replace_ok _ _ _ _ _ _ _ _ _ entry Hw Hsp Hl Hf Hperm) as Hrep. rewrite Hm in Hrep.
  unfold install. rewrite (R_lift _ _ _ _ _ (thread_get_ok _ _ _ Hct)).
  by rewrite (R_lift _ _ _ _ _ (on_caps_ok _ _ _ _ Hrep)).
Qed.

(** the caller can use what a slot of its table holds *)
Lemma slot_holds k cur c sp (j : nat) e perms :
  caller cpu k cur c sp -> (0 < j)%nat -> slot (k_caps k) (cs_table sp) j = Some e ->
  ce_type e <> CAP_TYPE_CAP_SPACE -> Z.land (ce_permissions e) perms = perms ->
  holds k c sp (Z.of_nat j) (ce_type e) perms.
Proof.
  intros Hcl Hj He Hty Hp. pose proof Hcl as [_ _ _ Hw Hsp _].
  exists (entry_ptr (cs_table sp) (Z.of_nat j)), (cs_table sp), j, e.
  split_and!; [|by apply is_entry_ok|apply reach_refl|by right|done].
  unfold cap_space_lookup, space_read. rewrite ST_bind_eq, Hsp. by eapply slot_lookup.
Qed.
End creation.

Section creators.
Context {A : Type} `{!Allocator A} `{!AllocatorLaws A} `{!Pages A}.
Context (cpu : nat).
Implicit Types (k : kernel A) (c : thread) (sp : cap_space).

(** creating an endpoint.  If the caller's space may not be modified, or its
    table is full, the call returns the error for that and changes nothing.
    Otherwise the first free slot of the table, whose number is returned, comes
    to hold a capability with every permission to a new endpoint on which
    nobody waits; no other slot changes, and the caller can use the number as
    an endpoint from then on. *)
Theorem syscall_sync_create_spec (stale_object : kobject) k cur c sp e0 a0 a1 a2 a3 :
  caller cpu k cur c sp -> own_table k sp e0 ->
  alloc_inv (k_queue_slab k) -> alloc_room (k_queue_slab k) ->
  let run := syscall_sync_create cpu stale_object a0 a1 a2 a3 k in
  if negb (flag_set (ce_permissions e0) CAP_MODIFY) then run = Some (Done (- C4_ERROR_PERMISSION_DENIED) k)
  else
    (table_full (k_caps k) (cs_table sp) /\ run = Some (Done (- C4_ERROR_ENTITY_FULL) k)) \/
    exists j msgq k', (0 < j < 256)%nat /\ first_free (k_caps k) (cs_table sp) j /\
      run = Some (Done (Z.of_nat j) k') /\ msgq <> NULL /\ ~ alloc_live (k_queue_slab k) msgq /\
      k_syncs k' = <[msgq := MsgQueue stale_object [] []]> (k_syncs k) /\ k_threads k' = k_threads k /\
      (forall t i, slot (k_caps k') t i = if decide (t = cs_table sp /\ i = j)
         then Some (CapEntry CAP_TYPE_IPC_SYNC_ENDPOINT CAP_ALL msgq) else slot (k_caps k) t i) /\
      holds k' c sp (Z.of_nat j) CAP_TYPE_IPC_SYNC_ENDPOINT CAP_ALL.
Proof.
  intros Hcl Hown Hi Hroom run. subst run. unfold syscall_sync_create, with_new_object.
  rewrite (R_lift _ _ _ _ _ (current_ok _ _ _ (cl_current _ _ _ _ _ Hcl))).
  pose proof (reserve_ok cpu k cur c sp e0 Hcl Hown) as Hres.
  destruct (flag_set (ce_permissions e0) CAP_MODIFY) eqn:Hm; [|by rewrite (R_lift _ _ _ _ _ Hres)].
  destruct Hres as [(j & Hj & Hfree & Hres)|[Hfull Hres]]; [right|left; by rewrite (R_lift _ _ _ _ _ Hres)].
  rewrite (R_lift _ _ _ _ _ Hres), (proj2 (Z.ltb_ge (Z.of_nat j) 0)) by lia.
  destruct Hfree as [(free & Hslot & Hfty) Hfirst].
  destruct (caller_write cpu k cur c sp e0 j free reserved_entry) as [Hcl1 Hown1]; [done|done|lia|done|done|done|].
  destruct (alloc_total _ Hi Hroom) as (msgq & a & Hal). destruct (alloc_ok _ _ _ Hi Hal) as (_ & Hq0 & Hqn & _).
  set (k1 := with_slot k (cs_table sp) j reserved_entry) in *.
  set (k2 := set_k_syncs (<[msgq := MsgQueue stale_object [] []]> (k_syncs k)) (set_k_queue_slab a k1)).
  assert (Hcreate : message_queue_create stale_object k1 = Some (msgq, k2)).
  { unfold message_queue_create, on_queue_slab, zoom, mbind, ST_bind. simpl. by rewrite Hal. }
  rewrite (R_lift _ _ _ _ _ Hcreate).
  assert (Hs1 : slot (k_caps k1) (cs_table sp) j = Some reserved_entry).
  { simpl. rewrite slot_write_slot by by eexists. by rewrite decide_True. }
  set (entry := CapEntry CAP_TYPE_IPC_SYNC_ENDPOINT CAP_ALL msgq).
  assert (Hcl2 : caller cpu k2 cur c sp /\ own_table k2 sp e0) by (split; [by destruct Hcl1|by destruct Hown1]).
  destruct Hcl2 as [Hcl2 Hown2].
  pose proof (install_ok cpu k2 cur c sp e0 j reserved_entry entry Hcl2 Hown2 Hm ltac:(lia) Hs1 ltac:(done)) as Hin.
  destruct (caller_write cpu k2 cur c sp e0 j reserved_entry entry) as [Hcl3 _]; [done|done|lia|done|done|done|].
  assert (Hs3 : forall t i, slot (k_caps (with_slot k2 (cs_table sp) j entry)) t i =
    if decide (t = cs_table sp /\ i = j) then Some entry else slot (k_caps k) t i).
  { intros t i. simpl. rewrite slot_write_slot by by eexists. case_decide; [done|].
    rewrite slot_write_slot by by eexists. by rewrite decide_False. }
  exists j, msgq, (with_slot k2 (cs_table sp) j entry). split_and!; try done; try lia.
  - split; [by exists free|done].
  - apply (slot_holds cpu _ cur c sp j entry CAP_ALL Hcl3); [lia| |done|done].
    rewrite Hs3. by rewrite decide_True.
Qed.

(** the identifier [object] of the caller names the entry [i] of the table [t] *)
Definition names k c (object p t : Z) (i : nat) (e : cap_entry) : Prop :=
  cap_space_lookup (th_cap_space c) object (k_caps k) = Some (p, k_caps k) /\ is_entry (k_caps k) p t i e.

Context (num_cpus : Z).

(** a failed split costs a slot.  When the frame cannot be split there (it is
    mapped, or the offset is 0 or past its end) the call returns the error, but
    the slot reserved for the new frame stays reserved: a type that no later
    insertion takes for free. *)
Theorem syscall_phys_frame_split_leaks k cur c sp e0 e p t (i : nat) object offset f a2 a3 :
  caller cpu k cur c sp -> own_table k sp e0 -> flag_set (ce_permissions e0) CAP_MODIFY = true ->
  0 <= object < 2 ^ 32 -> names k c object p t i e ->
  entry_check e CAP_TYPE_PHYS_MEMORY CAP_MODIFY = C4_ERROR_NONE ->
  sp_frames (k_spaces k) !! ce_object e = Some f -> lockable cur num_cpus (pf_object f) -> 0 <= offset ->
  (pf_mappings f =? 0) && (0 <? offset) && (offset <? pf_size f) = false ->
  ~ table_full (k_caps k) (cs_table sp) ->
  exists j k', first_free (k_caps k) (cs_table sp) j /\
    syscall_phys_frame_split cpu num_cpus object offset a2 a3 k =
      Some (Done (- C4_ERROR_INVALID_ARGUMENT) k') /\
    forall t' i', slot (k_caps k') t' i' = if decide (t' = cs_table sp /\ i' = j)
      then Some (CapEntry CAP_TYPE_RESERVED 0 NULL) else slot (k_caps k) t' i'.
Proof.
  intros Hcl Hown Hm Ho [Hl Hent] He Hf Hlock Hoff Hcond Hnfull. unfold syscall_phys_frame_split.
  rewrite (CAP_CHECK_pass cpu k cur c sp object _ _ _ p t i e Hcl Ho Hl Hent He).
  unfold with_new_object. rewrite (R_lift _ _ _ _ _ (current_ok _ _ _ (cl_current _ _ _ _ _ Hcl))).
  pose proof (reserve_ok cpu k cur c sp e0 Hcl Hown) as Hres. rewrite Hm in Hres.
  destruct Hres as [(j & Hj & Hfree & Hres)|[? _]]; [|done].
  rewrite (R_lift _ _ _ _ _ Hres), (proj2 (Z.ltb_ge (Z.of_nat j) 0)) by lia.
  set (k1 := with_slot k (cs_table sp) j reserved_entry).
  destruct (phys_frame_split_refused cur num_cpus (k_spaces k1) (ce_object e) offset f Hf Hlock Hoff Hcond)
    as [o Hsplit].
  assert (Hon : on_spaces (phys_frame_split cur num_cpus (ce_object e) offset) k1 =
    Some (NULL, set_k_spaces (set_frames (<[ce_object e := set_pf_object o f]> (sp_frames (k_spaces k)))
      (k_spaces k)) k1)) by (unfold on_spaces, zoom; by rewrite Hsplit).
  rewrite (R_lift _ _ _ _ _ Hon). simpl. eexists j, _. split_and!; [done|reflexivity|].
  destruct Hfree as [(free & Hs & _) _]. intros t' i'. apply slot_write_slot. by eexists.
Qed.
End creators.

(** ** Moving capabilities *)

(** permissions that include two sets include each of them *)
Lemma land_lor_sub x a b : Z.land x (Z.lor a b) = Z.lor a b -> Z.land x a = a.
Proof.
  intros H. apply Z.bits_inj'. intros n Hn. apply (f_equal (fun z => Z.testbit z n)) in H.
  rewrite Z.land_spec, Z.lor_spec in H. rewrite Z.land_spec.
  by destruct (Z.testbit x n), (Z.testbit a n), (Z.testbit b n).
Qed.

Lemma land_lor_flag x a n :
  0 <= n -> Z.land x a = a -> flag_set x (2 ^ n) = true -> Z.land x (Z.lor a (2 ^ n)) = Z.lor a (2 ^ n).
Proof.
  intros Hn Ha Hf. rewrite flag_set_bit in Hf by done. rewrite Z.land_lor_distr_r, Ha. f_equal.
  apply Z.bits_inj'. intros m Hm. rewrite Z.land_spec, Z.pow2_bits_eqb by done.
  destruct (Z.eqb_spec n m) as [<-|]; [by rewrite Hf|]. by rewrite andb_false_r.
Qed.

Section moving.
Context {A : Type} `{!Allocator A} `{!Pages A}.
Context (cpu : nat).
Implicit Types (k : kernel A) (c : thread) (sp : cap_space).

Lemma cap_space_replace_cases (s : cap_store A) space cd object e :
  cap_wf s -> st_spaces s !! space = Some cd -> 0 <= object < 2 ^ 32 ->
  exists q, cap_table_lookup (cs_table cd) object s = Some (q, s) /\
    ((q = NULL /\ cap_space_replace space object e s = Some (false, s)) \/
     exists t i eo e1, is_entry s q t i eo /\ slot s t 0 = Some e1 /\
       cap_space_replace space object e s =
         if flag_set (ce_permissions e1) CAP_MODIFY then Some (true, slot_write s t i e) else Some (false, s)).
Proof.
  intros Hw Hc Ho. destruct (cap_find s space cd object Hw Hc Ho) as (q & Hlk & Hres). exists q. split; [done|].
  destruct Hres as [->|(t & i & eo & e1 & Hf & Hperm)].
  - left. split; [done|]. unfold cap_space_replace, space_read. by rewrite ST_bind_eq, Hc, ST_bind_eq, Hlk.
  - right. exists t, i, eo, e1. split_and!; [apply Hf|apply Hf|by eapply cap_space_replace_ok].
Qed.

(** copying a capability.  With the capabilities the call checks, it puts the
    entry that [srcobj] names in the caller's own space, whole, under [destobj]
    in the destination; [src] does not matter to what is copied.  When the
    destination has nothing under that number, or its table may not be
    modified, nothing is copied, and the call reports success all the same. *)
Theorem syscall_cspace_cap_copy_spec k cur c sp src ps ts i1 es dest pd td id ed srcobj p t i e
    destobj px tx ix ex cd :
  caller cpu k cur c sp -> 0 <= src < 2 ^ 32 -> 0 <= dest < 2 ^ 32 -> 0 <= srcobj < 2 ^ 32 ->
  0 <= destobj < 2 ^ 32 ->
  names k c src ps ts i1 es -> entry_check es CAP_TYPE_CAP_SPACE (Z.lor CAP_MODIFY CAP_SHARE) = C4_ERROR_NONE ->
  names k c dest pd td id ed -> entry_check ed CAP_TYPE_CAP_SPACE CAP_MODIFY = C4_ERROR_NONE ->
  names k c destobj px tx ix ex ->
  names k c srcobj p t i e -> entry_check e CAP_TYPE_NULL CAP_SHARE = C4_ERROR_NONE ->
  st_spaces (k_caps k) !! ce_object ed = Some cd ->
  exists q, cap_table_lookup (cs_table cd) destobj (k_caps k) = Some (q, k_caps k) /\
    ((q = NULL /\ syscall_cspace_cap_copy cpu src srcobj dest destobj k = Some (Done C4_ERROR_NONE k)) \/
     exists t' i' old e1, is_entry (k_caps k) q t' i' old /\ slot (k_caps k) t' 0 = Some e1 /\
       syscall_cspace_cap_copy cpu src srcobj dest destobj k =
         Some (Done C4_ERROR_NONE (if flag_set (ce_permissions e1) CAP_MODIFY then with_slot k t' i' e else k))).
Proof.
  intros Hcl Hr1 Hr2 Hr3 Hr4 [Hl1 Hn1] Hc1 [Hl2 Hn2] Hc2 [Hl3 Hn3] [Hl4 Hn4] Hc4 Hcd.
  pose proof (cl_wf _ _ _ _ _ Hcl) as Hw.
  assert (Hc3 : entry_check ex CAP_TYPE_NULL 0 = C4_ERROR_NONE).
  { unfold entry_check. by rewrite andb_false_r, Z.land_0_r. }
  assert (Hrun : syscall_cspace_cap_copy cpu src srcobj dest destobj k =
    (_ ← lift (on_caps (cap_space_replace (ce_object ed) destobj e)); mret C4_ERROR_NONE) k).
  { unfold syscall_cspace_cap_copy.
    rewrite (CAP_CHECK_pass cpu k cur c sp _ _ _ _ ps ts i1 es Hcl Hr1 Hl1 Hn1 Hc1).
    rewrite (CAP_CHECK_pass cpu k cur c sp _ _ _ _ pd td id ed Hcl Hr2 Hl2 Hn2 Hc2).
    rewrite (CAP_CHECK_pass cpu k cur c sp _ _ _ _ px tx ix ex Hcl Hr4 Hl3 Hn3 Hc3).
    rewrite (CAP_CHECK_pass cpu k cur c sp _ _ _ _ p t i e Hcl Hr3 Hl4 Hn4 Hc4).
    by rewrite (R_lift _ _ _ _ _ (on_caps_read _ _ _ (is_entry_read _ _ _ _ _ Hw Hn4))). }
  rewrite Hrun.
  destruct (cap_space_replace_cases _ _ cd destobj e Hw Hcd Hr4) as (q & Hq & Hres). exists q. split; [done|].
  destruct Hres as [[-> Hrep]|(t' & i' & old & e1 & Hent & He1 & Hrep)].
  - left. split; [done|]. by rewrite (R_lift _ _ _ _ _ (on_caps_read _ _ _ Hrep)).
  - right. exists t', i', old, e1. split; [exact Hent|]. split; [exact He1|].
    destruct (flag_set _ _).
    + by rewrite (R_lift _ _ _ _ _ (on_caps_ok _ _ _ _ Hrep)).
    + by rewrite (R_lift _ _ _ _ _ (on_caps_read _ _ _ Hrep)).
Qed.

Context (num_cpus : Z) (apic_is_enabled : bool) (clock : nat -> Z).

(** C28: granting a capability.  What the call sends on the endpoint is the entry
    the caller named with the permissions it asked for, and only if the caller
    has all of these on it and may share it; otherwise nothing is sent and
    permission is denied. *)
Theorem syscall_grant_attenuates k cur c sp queue pq tq iq qe object p t i e permissions a3 :
  caller cpu k cur c sp -> 0 <= queue < 2 ^ 32 -> 0 <= object < 2 ^ 32 ->
  names k c queue pq tq iq qe -> entry_check qe CAP_TYPE_IPC_SYNC_ENDPOINT CAP_MODIFY = C4_ERROR_NONE ->
  names k c object p t i e ->
  let run := syscall_cspace_cap_grant cpu num_cpus apic_is_enabled clock object queue permissions a3 k in
  (Z.land (ce_permissions e) permissions = permissions /\ flag_set (ce_permissions e) CAP_SHARE = true /\
     run = (_ ← message_send_capability cpu num_cpus apic_is_enabled clock (ce_object qe)
                  (CapEntry (ce_type e) permissions (ce_object e)); mret C4_ERROR_NONE) k) \/
  (run = Some (Done (- C4_ERROR_PERMISSION_DENIED) k) /\
     ~ (Z.land (ce_permissions e) permissions = permissions /\ flag_set (ce_permissions e) CAP_SHARE = true)).
Proof.
  intros Hcl Hr1 Hr2 [Hl1 Hn1] Hc1 [Hl2 Hn2] run. subst run. pose proof (cl_wf _ _ _ _ _ Hcl) as Hw.
  unfold syscall_cspace_cap_grant.
  rewrite (CAP_CHECK_pass cpu k cur c sp _ _ _ _ pq tq iq qe Hcl Hr1 Hl1 Hn1 Hc1).
  destruct (Z.eqb_spec (Z.land (ce_permissions e) (Z.lor permissions CAP_SHARE)) (Z.lor permissions CAP_SHARE))
    as [Hsub|Hnot].
  - left. assert (Hc2 : entry_check e CAP_TYPE_NULL (Z.lor permissions CAP_SHARE) = C4_ERROR_NONE).
    { unfold entry_check. rewrite andb_false_r, Hsub, Z.eqb_refl. done. }
    rewrite (CAP_CHECK_pass cpu k cur c sp _ _ _ _ p t i e Hcl Hr2 Hl2 Hn2 Hc2).
    rewrite (R_lift _ _ _ _ _ (on_caps_read _ _ _ (is_entry_read _ _ _ _ _ Hw Hn2))).
    split_and!; [by eapply land_lor_sub| |done]. rewrite Z.lor_comm in Hsub. apply land_lor_sub in Hsub.
    unfold flag_set. by rewrite Hsub.
  - right. split.
    + destruct (cap_check_ok cpu k cur c sp object CAP_TYPE_NULL (Z.lor permissions CAP_SHARE) Hcl Hr2)
        as (p' & Hl' & Hres). rewrite Hl2 in Hl'. injection Hl' as <-.
      destruct Hres as [(-> & _)|(t' & i' & e' & Hent' & _ & _ & Hc)]; [by destruct Hn2 as (_ & _ & ?)|].
      pose proof (is_entry_read _ _ _ _ _ Hw Hent') as Hrd. rewrite (is_entry_read _ _ _ _ _ Hw Hn2) in Hrd.
      injection Hrd as <-. unfold CAP_CHECK.
      rewrite (R_lift _ _ _ _ _ (current_ok _ _ _ (cl_current _ _ _ _ _ Hcl))), (R_lift _ _ _ _ _ Hc).
      unfold entry_check. by rewrite andb_false_r, (proj2 (Z.eqb_neq _ _) Hnot).
    + intros [H1 H2]. apply Hnot. by apply (land_lor_flag _ _ 2).
Qed.
End moving.

(** ** A kernel with a caller *)

(** the caller's table: an endpoint at 1, another capability space at 2, a frame
    of two pages at 3, a thread at 4 *)
Definition sys_table : list cap_entry := table_ex
  [CapEntry CAP_TYPE_CAP_SPACE all_perms 0x8000; CapEntry CAP_TYPE_IPC_SYNC_ENDPOINT all_perms 0x8000;
   CapEntry CAP_TYPE_CAP_SPACE all_perms 0x8080; CapEntry CAP_TYPE_PHYS_MEMORY all_perms 0x7000;
   CapEntry CAP_TYPE_THREAD (Z.lor CAP_ACCESS CAP_SHARE) 0x30].
Definition sys_other : list cap_entry :=
  table_ex [CapEntry CAP_TYPE_CAP_SPACE all_perms 0x8080; CapEntry CAP_TYPE_THREAD CAP_ACCESS 0x20].
Definition sys_caps : cap_store BumpPages.t := CapStore
  {[0x8000 := CapSpace 0x100000 0; 0x8080 := CapSpace 0x101000 0]}
  {[0x100000 := sys_table; 0x101000 := sys_other]} BumpPages.init.
Definition sys_runner : thread := set_th_cap_space 0x8000 runner.
Definition sys_ex : kernel BumpPages.t :=
  set_k_spaces (store_of AddrSpace.map_empty) (set_k_caps sys_caps (ipc_ex sys_runner waiter [0x20] [])).

Lemma sys_slot t i e : slot sys_caps t i = Some e ->
  (t = 0x100000 /\ sys_table !! i = Some e) \/ (t = 0x101000 /\ sys_other !! i = Some e).
Proof.
  unfold slot. intros (l & Hl & Hi)%bind_Some. simpl in Hl.
  apply lookup_insert_Some in Hl as [[<- <-]|[_ [<- <-]%lookup_singleton_Some]]; tauto.
Qed.

Lemma sys_entry t i e : slot sys_caps t i = Some e ->
  0 <= ce_type e <= CAP_TYPE_RESERVED /\
  (ce_type e = CAP_TYPE_CAP_SPACE -> is_Some (st_spaces sys_caps !! ce_object e)).
Proof.
  assert (Hall : Forall (fun e => 0 <= ce_type e <= CAP_TYPE_RESERVED /\
    (ce_type e = CAP_TYPE_CAP_SPACE -> is_Some (st_spaces sys_caps !! ce_object e))) (sys_table ++ sys_other))
    by decide_vm.
  apply Forall_app in Hall as [H1 H2].
  intros [[_ Hi]|[_ Hi]]%sys_slot; [exact (proj1 (Forall_lookup _ _) H1 i e Hi)|exact (proj1 (Forall_lookup _ _) H2 i e Hi)].
Qed.

Lemma sys_wf : cap_wf sys_caps.
Proof.
  split.
  - intros t l Hl. simpl in Hl.
    apply lookup_insert_Some in Hl as [[<- <-]|[_ [<- <-]%lookup_singleton_Some]]; done.
  - intros p c Hc. simpl in Hc.
    apply lookup_insert_Some in Hc as [[<- <-]|[_ [<- <-]%lookup_singleton_Some]]; by eexists.
  - intros t i e He. by apply (sys_entry t i e He).
  - intros t [l Hl]. simpl in Hl.
    apply lookup_insert_Some in Hl as [[<- <-]|[_ [<- <-]%lookup_singleton_Some]]; by do 2 eexists.
Qed.

Lemma sys_caller : caller 0 sys_ex 0x10 sys_runner (CapSpace 0x100000 0).
Proof. split; [done|done|done|exact sys_wf|done|]. intros t i e He. apply (sys_entry t i e He). Qed.

Lemma sys_own : own_table sys_ex (CapSpace 0x100000 0) (CapEntry CAP_TYPE_CAP_SPACE all_perms 0x8000).
Proof. by split. Qed.

Lemma sys_names object p t i e :
  cap_space_lookup 0x8000 object sys_caps = Some (p, sys_caps) -> slot sys_caps t i = Some e ->
  p = entry_ptr t (Z.of_nat i) -> p <> NULL -> names sys_ex sys_runner object p t i e.
Proof. by repeat split. Qed.

Ltac sys_named := apply sys_names; [vm_compute; reflexivity|reflexivity|reflexivity|done].

Lemma do_cap_check_spec_witness :
  exists r ent, do_cap_check 0x10 1 CAP_TYPE_IPC_SYNC_ENDPOINT CAP_MODIFY sys_ex = Some ((r, ent), sys_ex) /\
    (r = C4_ERROR_NONE <-> holds sys_ex sys_runner (CapSpace 0x100000 0) 1 CAP_TYPE_IPC_SYNC_ENDPOINT CAP_MODIFY) /\
    (r = C4_ERROR_NONE -> cap_space_lookup 0x8000 1 sys_caps = Some (ent, sys_caps)) /\
    (r = C4_ERROR_NONE \/ r = - C4_ERROR_INVALID_OBJECT \/ r = - C4_ERROR_PERMISSION_DENIED).
Proof.
  apply (do_cap_check_spec 0 sys_ex 0x10 sys_runner (CapSpace 0x100000 0) 1 CAP_TYPE_IPC_SYNC_ENDPOINT CAP_MODIFY);
    [exact sys_caller|lia].
Defined.

(** the thread of slot 4 may not be modified, and stopping it is refused *)
Example syscall_stop_denied :
  (r ← syscall_dispatch 0 1 false clock_ex (fun _ => []) (kobject_init 0) (MsgQueueAsync (kobject_init 0) [] 0 0 0)
    0 0 0 (fun _ _ => 0) 10 4 0 0 0 sys_ex;
   match r with Done x _ => Some x | Yielded _ _ => None end) = Some (- C4_ERROR_PERMISSION_DENIED).
Proof. vm_compute. reflexivity. Qed.

Lemma syscall_mediated_witness :
  Forall (fun '(object, type, perms) => holds sys_ex sys_runner (CapSpace 0x100000 0) object type perms)
    [(2, CAP_TYPE_CAP_SPACE, Z.lor CAP_MODIFY CAP_SHARE); (2, CAP_TYPE_CAP_SPACE, CAP_MODIFY);
     (4, CAP_TYPE_NULL, 0); (4, CAP_TYPE_NULL, CAP_SHARE)] \/
  exists err, err < 0 /\
    syscall_dispatch 0 1 false clock_ex (fun _ => []) (kobject_init 0) (MsgQueueAsync (kobject_init 0) [] 0 0 0)
      0 0 0 (fun _ _ => 0) 25 2 4 2 4 sys_ex = Some (Done err sys_ex).
Proof.
  apply (syscall_mediated 0 1 false clock_ex (fun _ => []) (kobject_init 0) (MsgQueueAsync (kobject_init 0) [] 0 0 0)
    0 0 0 (fun _ _ => 0) sys_ex 0x10 sys_runner (CapSpace 0x100000 0) 25 2 4 2 4); [exact sys_caller|lia..].
Defined.

Lemma syscall_sync_create_spec_witness :
  let run := syscall_sync_create 0 (kobject_init 1) 0 0 0 0 sys_ex in
  (table_full sys_caps 0x100000 /\ run = Some (Done (- C4_ERROR_ENTITY_FULL) sys_ex)) \/
  exists j msgq k', (0 < j < 256)%nat /\ first_free sys_caps 0x100000 j /\
    run = Some (Done (Z.of_nat j) k') /\ msgq <> NULL /\ ~ alloc_live (k_queue_slab sys_ex) msgq /\
    k_syncs k' = <[msgq := MsgQueue (kobject_init 1) [] []]> (k_syncs sys_ex) /\
    k_threads k' = k_threads sys_ex /\
    (forall t i, slot (k_caps k') t i = if decide (t = 0x100000 /\ i = j)
       then Some (CapEntry CAP_TYPE_IPC_SYNC_ENDPOINT CAP_ALL msgq) else slot sys_caps t i) /\
    holds k' sys_runner (CapSpace 0x100000 0) (Z.of_nat j) CAP_TYPE_IPC_SYNC_ENDPOINT CAP_ALL.
Proof.
  apply (syscall_sync_create_spec 0 (kobject_init 1) sys_ex 0x10 sys_runner (CapSpace 0x100000 0)
    (CapEntry CAP_TYPE_CAP_SPACE all_perms 0x8000) 0 0 0 0); [exact sys_caller|exact sys_own| |done].
  split; [|done]. split; [done|]. change (forall p, p ∈ (∅ : gset Z) -> p < 0x1000). set_solver.
Defined.

Lemma syscall_phys_frame_split_leaks_witness :
  exists j k', first_free sys_caps 0x100000 j /\
    syscall_phys_frame_split 0 1 3 2 0 0 sys_ex = Some (Done (- C4_ERROR_INVALID_ARGUMENT) k') /\
    forall t' i', slot (k_caps k') t' i' = if decide (t' = 0x100000 /\ i' = j)
      then Some (CapEntry CAP_TYPE_RESERVED 0 NULL) else slot sys_caps t' i'.
Proof.
  apply (syscall_phys_frame_split_leaks 0 1 sys_ex 0x10 sys_runner (CapSpace 0x100000 0)
    (CapEntry CAP_TYPE_CAP_SPACE all_perms 0x8000) (CapEntry CAP_TYPE_PHYS_MEMORY all_perms 0x7000)
    0x100030 0x100000 3 3 2 frame_ex 0 0);
    [exact sys_caller|exact sys_own|done|done|sys_named|done|done| |lia|done|].
  - by do 2 eexists.
  - intros Hfull. by apply (Hfull 5%nat null_entry).
Defined.

(** the entry copied is the caller's slot 4, over slot 1 of the other space *)
Lemma syscall_cspace_cap_copy_spec_witness :
  exists q, cap_table_lookup 0x101000 1 sys_caps = Some (q, sys_caps) /\
    ((q = NULL /\ syscall_cspace_cap_copy 0 2 4 2 1 sys_ex = Some (Done C4_ERROR_NONE sys_ex)) \/
     exists t' i' old e1, is_entry sys_caps q t' i' old /\ slot sys_caps t' 0 = Some e1 /\
       syscall_cspace_cap_copy 0 2 4 2 1 sys_ex = Some (Done C4_ERROR_NONE
         (if flag_set (ce_permissions e1) CAP_MODIFY
          then with_slot sys_ex t' i' (CapEntry CAP_TYPE_THREAD 5 0x30) else sys_ex))).
Proof.
  apply (syscall_cspace_cap_copy_spec 0 sys_ex 0x10 sys_runner (CapSpace 0x100000 0)
    2 0x101000 0x101000 0 (CapEntry CAP_TYPE_CAP_SPACE all_perms 0x8080)
    2 0x101000 0x101000 0 (CapEntry CAP_TYPE_CAP_SPACE all_perms 0x8080)
    4 0x100040 0x100000 4 (CapEntry CAP_TYPE_THREAD 5 0x30)
    1 0x100010 0x100000 1 (CapEntry CAP_TYPE_IPC_SYNC_ENDPOINT all_perms 0x8000) (CapSpace 0x101000 0));
    [exact sys_caller|lia|lia|lia|lia|sys_named|done|sys_named|done|sys_named|sys_named|done|done].
Defined.

(** the thread of slot 4 may be shared and accessed *)
Lemma syscall_grant_attenuates_witness :
  let run := syscall_cspace_cap_grant 0 1 false clock_ex 4 1 CAP_ACCESS 0 sys_ex in
  (Z.land 5 CAP_ACCESS = CAP_ACCESS /\ flag_set 5 CAP_SHARE = true /\
     run = (_ ← message_send_capability 0 1 false clock_ex 0x8000 (CapEntry CAP_TYPE_THREAD CAP_ACCESS 0x30);
            mret C4_ERROR_NONE) sys_ex) \/
  (run = Some (Done (- C4_ERROR_PERMISSION_DENIED) sys_ex) /\
     ~ (Z.land 5 CAP_ACCESS = CAP_ACCESS /\ flag_set 5 CAP_SHARE = true)).
Proof.
  apply (syscall_grant_attenuates 0 1 false clock_ex sys_ex 0x10 sys_runner (CapSpace 0x100000 0)
    1 0x100010 0x100000 1 (CapEntry CAP_TYPE_IPC_SYNC_ENDPOINT all_perms 0x8000)
    4 0x100040 0x100000 4 (CapEntry CAP_TYPE_THREAD 5 0x30) CAP_ACCESS 0);
    [exact sys_caller|lia|lia|sys_named|done|sys_named].
Defined.
