(* ===== verification/Interrupts.v ===== *)
(** The interrupt table and its dispatch: [arch/x86/interrupts.c] and
    [interrupts.h].

    A gate is its 64-bit word.  A handler is the function the table points to:
    it returns to the interrupted program with the registers it leaves in the
    frame, or it ends in [for (;;)] and the processor stays there.  The
    messages to the console are left out. *)
From S2P Require Export Segments Syscall.

(** [interrupt_gate_t] *)
Module Gate.
Definition offset_low := BF 0 16.
Definition code_select := BF 16 16.
Definition type := BF 40 3.
Definition gate_size := BF 43 1.
Definition priv_level := BF 45 2.
Definition present := BF 47 1.
Definition offset_high := BF 48 16.
End Gate.

Definition INTR_DESC_TYPE_INTERRUPT : Z := 0x6.
Definition INTR_SIZE_32BIT : Z := 1.
Definition INTERRUPT_DEBUG : Z := 1.
Definition INTERRUPT_DOUBLE_FAULT : Z := 8.
Definition INTERRUPT_GEN_PROTECT : Z := 13.
Definition INTERRUPT_SYSCALL : Z := 0x60.

Definition define_intr_descript (offset priv_level : Z) : Z :=
  let gate := 0 in
  let gate := field_set Gate.offset_low offset gate in
  let gate := field_set Gate.offset_high (Z.shiftr offset 16) gate in
  let gate := field_set Gate.code_select (selector 1 SEG_TABLE_GDT (ring 0)) gate in
  let gate := field_set Gate.type INTR_DESC_TYPE_INTERRUPT gate in
  let gate := field_set Gate.gate_size INTR_SIZE_32BIT gate in
  let gate := field_set Gate.priv_level priv_level gate in
  field_set Gate.present 1 gate.

Record interrupt_frame := InterruptFrame {
  if_edi : Z; if_esi : Z; if_ebp : Z; if_esp : Z; if_ebx : Z; if_edx : Z; if_ecx : Z; if_eax : Z;
  if_intr_num : Z; if_error_num : Z; if_eip : Z;
}.
Definition set_if_eax (v : Z) (f : interrupt_frame) : interrupt_frame :=
  InterruptFrame (if_edi f) (if_esi f) (if_ebp f) (if_esp f) (if_ebx f) (if_edx f) (if_ecx f) v
    (if_intr_num f) (if_error_num f) (if_eip f).

(** the frame the handler leaves; none if it loops for ever *)
Definition handler (A : Type) : Type := interrupt_frame -> RST (kernel A) (option interrupt_frame).
Definition hangs {A} : handler A := fun _ => mret None.

Record idt (A : Type) := Idt {
  it_table : list Z;  (** [intr_table] *)
  it_handlers : list (option (handler A));  (** [intr_handlers] *)
  it_stats : list Z;  (** [intr_stats] *)
  it_idtr : Z * Z;
  it_loaded : option (Z * Z);  (** what [lidt] was given *)
}.
Arguments Idt {A} _ _ _ _ _.
Arguments it_table {A} _.
Arguments it_handlers {A} _.
Arguments it_stats {A} _.
Arguments it_idtr {A} _.
Arguments it_loaded {A} _.

Section interrupts.
Context {A : Type} `{!Allocator A} `{!Pages A}.
Context (cpu : nat) (num_cpus : Z) (apic_is_enabled : bool) (clock : nat -> Z).
Context (stale_table : Z -> list cap_entry) (stale_object : kobject) (stale_async : msg_queue_async)
  (stale_node paddr_var : Z) (fuel : nat) (port_in : Z -> Z -> Z).
(** where the linker puts the table; where the registers of the APIC are *)
Context (intr_table_addr apic_base : Z).

Abbreviation KST := (ST (kernel A)).
Abbreviation KR := (RST (kernel A)).
Abbreviation IST := (ST (idt A)).
Abbreviation IR := (RST (kernel A * idt A)).

(** ** Setting up *)

Definition gate_write (i v : Z) : IST unit := fun s =>
  match it_table s !! Z.to_nat i with
  | Some _ => Some (tt, Idt (<[Z.to_nat i := v]> (it_table s)) (it_handlers s) (it_stats s) (it_idtr s) (it_loaded s))
  | None => None
  end.
Definition register_interrupt (num : Z) (func : handler A) : IST unit := fun s =>
  match it_handlers s !! Z.to_nat num with
  | Some _ => Some (tt, Idt (it_table s) (<[Z.to_nat num := Some func]> (it_handlers s)) (it_stats s) (it_idtr s) (it_loaded s))
  | None => None
  end.

Definition test_handler : handler A := fun frame => mret (Some frame).
Definition gen_protect_fault : handler A := hangs.
Definition double_fault_handler : handler A := hangs.
(** [syscall_handler] on the whole frame *)
Definition syscall_interrupt : handler A := fun frame =>
  r ← syscall_handler cpu num_cpus apic_is_enabled clock stale_table stale_object stale_async
        stale_node paddr_var fuel port_in
        (SyscallFrame (if_eax frame) (if_edi frame) (if_esi frame) (if_edx frame) (if_ebx frame));
  mret (Some (set_if_eax (sf_eax r) frame)).

Definition load_idt : IST unit := modify (fun s =>
  Idt (it_table s) (it_handlers s) (it_stats s) (it_idtr s) (Some (it_idtr s))).

(** the loop over the stubs, [k] turns of which are left *)
Fixpoint init_gates (k : nat) (i : Z) (stubs : list Z) : IST unit :=
  match k with
  | O => mret tt
  | S k =>
      stub ← lift_opt (stubs !! Z.to_nat i);
      _ ← gate_write i (define_intr_descript stub (ring 0));
      init_gates k (i + 1) stubs
  end.

Definition init_interrupts (stubs : list Z) : IST unit :=
  _ ← modify (fun s => Idt (replicate 256 0) (replicate 256 None) (it_stats s) (it_idtr s) (it_loaded s));
  _ ← init_gates 256 0 stubs;
  stub ← lift_opt (stubs !! Z.to_nat INTERRUPT_SYSCALL);
  _ ← gate_write INTERRUPT_SYSCALL (define_intr_descript stub (ring 3));
  _ ← register_interrupt INTERRUPT_DEBUG test_handler;
  _ ← register_interrupt INTERRUPT_GEN_PROTECT gen_protect_fault;
  _ ← register_interrupt INTERRUPT_DOUBLE_FAULT double_fault_handler;
  _ ← register_interrupt INTERRUPT_SYSCALL syscall_interrupt;
  _ ← modify (fun s => Idt (it_table s) (it_handlers s) (it_stats s) (8 * 256 - 1, w32 intr_table_addr) (it_loaded s));
  load_idt.

Definition init_cpu_interrupts : IST unit := load_idt.

(** ** Dispatch *)

(** a run of kernel code next to the interrupt table *)
Definition on_kernel {B} (m : KR B) : IR B := rzoom fst (fun k ki => (k, ki.2)) m.
Definition on_idt {B} (m : IST B) : IR B := fun ki =>
  match m ki.2 with Some (b, i) => Some (Done b (ki.1, i)) | None => None end.

(** the frame to return with; none if the handler does not return *)
Definition isr_dispatch (frame : interrupt_frame) : IR (option interrupt_frame) :=
  let num := Z.to_nat (if_intr_num frame) in
  _ ← on_idt (fun s =>
        match it_stats s !! num with
        | Some n => Some (tt, Idt (it_table s) (it_handlers s) (<[num := w32 (n + 1)]> (it_stats s)) (it_idtr s) (it_loaded s))
        | None => None
        end);
  _ ← on_kernel (interrupt_callback cpu num_cpus apic_is_enabled clock stale_node (if_intr_num frame));
  h ← on_idt (fun s => match it_handlers s !! num with Some h => Some (h, s) | None => None end);
  match h with
  | Some f => on_kernel (f frame)
  | None => mret (Some frame)
  end.

Definition clear_pic : KST unit :=
  _ ← emit (PortOut 1 0x20 0x20);
  emit (PortOut 1 0xa0 0x20).
Definition end_of_interrupt : KST unit := emit (MmioOut (apic_base + 0xb0) 0).

Definition irq_dispatch (frame : interrupt_frame) : IR (option interrupt_frame) :=
  _ ← on_kernel (lift (if apic_is_enabled then end_of_interrupt else clear_pic));
  isr_dispatch frame.
End interrupts.

(** ** What the processor reads *)

Record gate := MkGate {
  g_offset : Z; g_selector : Z; g_type : Z; g_system : bool; g_dpl : Z; g_present : bool }.
Definition decode_gate (x : Z) : gate := MkGate
  (field_get (BF 0 16) x + 2 ^ 16 * field_get (BF 48 16) x)
  (field_get (BF 16 16) x) (field_get (BF 40 4) x) (negb (bit 44 x)) (field_get (BF 45 2) x) (bit 47 x).

(** an interrupt gate of 32 bits into the code segment of the kernel *)
Definition interrupt_gate (offset privilege : Z) : gate := MkGate offset 0x08 0xe true privilege true.

Lemma split_32_high x : 0 <= x < 2 ^ 32 -> x mod 2 ^ 16 + 2 ^ 16 * (Z.shiftr x 16 mod 2 ^ 16) = x.
Proof. intros. rewrite Z.shiftr_div_pow2 by done. Z.to_euclidean_division_equations. lia. Qed.

Lemma bit_0 n : bit n 0 = false.
Proof. unfold bit, field_get. by rewrite Z.shiftr_0_l. Qed.

Lemma decode_interrupt_gate offset privilege :
  0 <= offset < 2 ^ 32 -> 0 <= privilege < 4 ->
  decode_gate (define_intr_descript offset privilege) = interrupt_gate offset privilege.
Proof.
  intros Ho Hp. unfold decode_gate. change (BF 40 4) with (BF 40 (3 + 1)). rewrite (field_split 40 3 1) by lia.
  change (40 + 3) with 43. unfold define_intr_descript. cbn zeta.
  assert (Hs : bit 44 (field_set Gate.present 1 (field_set Gate.priv_level privilege
    (field_set Gate.gate_size INTR_SIZE_32BIT (field_set Gate.type INTR_DESC_TYPE_INTERRUPT
      (field_set Gate.code_select (selector 1 SEG_TABLE_GDT (ring 0))
        (field_set Gate.offset_high (Z.shiftr offset 16) (field_set Gate.offset_low offset 0))))))) = false).
  { unfold bit, Gate.offset_low, Gate.offset_high, Gate.code_select, Gate.type, Gate.gate_size, Gate.priv_level, Gate.present.
    fields. apply bit_0. }
  rewrite Hs. clear Hs. unfold bit, Gate.offset_low, Gate.offset_high, Gate.code_select, Gate.type, Gate.gate_size,
    Gate.priv_level, Gate.present.
  fields. cbn [bf_width]. rewrite split_32_high by done. rewrite selector_eq by (unfold ring; change (2 ^ 13) with 8192; lia).
  unfold interrupt_gate. f_equal. apply Z.mod_small. change (2 ^ 2) with 4. lia.
Qed.

Section specs.
Context {A : Type} `{!Allocator A} `{!Pages A}.
Context (cpu : nat) (num_cpus : Z) (apic_is_enabled : bool) (clock : nat -> Z).
Context (stale_table : Z -> list cap_entry) (stale_object : kobject) (stale_async : msg_queue_async)
  (stale_node paddr_var : Z) (fuel : nat) (port_in : Z -> Z -> Z).
Context (intr_table_addr : Z).

Abbreviation system_call := (syscall_interrupt (A := A) cpu num_cpus apic_is_enabled clock stale_table stale_object
  stale_async stale_node paddr_var fuel port_in).
Abbreviation init := (init_interrupts (A := A) cpu num_cpus apic_is_enabled clock stale_table stale_object stale_async
  stale_node paddr_var fuel port_in intr_table_addr).
Abbreviation dispatch := (isr_dispatch (A := A) cpu num_cpus apic_is_enabled clock stale_node).

Lemma init_gates_run stubs k : forall i (s : idt A),
  0 <= i -> length stubs = 256%nat -> length (it_table s) = 256%nat -> i + Z.of_nat k <= 256 ->
  exists t, init_gates k i stubs s = Some (tt, Idt t (it_handlers s) (it_stats s) (it_idtr s) (it_loaded s)) /\
    length t = 256%nat /\
    (forall j, ~ i <= Z.of_nat j < i + Z.of_nat k -> t !! j = it_table s !! j) /\
    (forall j, i <= Z.of_nat j < i + Z.of_nat k -> t !! j = (fun stub => define_intr_descript stub 0) <$> stubs !! j).
Proof.
  induction k as [|k IH]; intros i s Hi Hst Ht Hk.
  { exists (it_table s). split; [by destruct s|]. split; [done|]. split; [done|]. lia. }
  cbn [init_gates]. destruct (lookup_lt_is_Some_2 stubs (Z.to_nat i) ltac:(lia)) as [stub Hs].
  destruct (lookup_lt_is_Some_2 (it_table s) (Z.to_nat i) ltac:(lia)) as [g Hg].
  rewrite (ST_run _ _ _ stub s) by (unfold lift_opt; by rewrite Hs).
  set (s1 := Idt (<[Z.to_nat i := define_intr_descript stub (ring 0)]> (it_table s)) (it_handlers s) (it_stats s) (it_idtr s) (it_loaded s)).
  rewrite (ST_run _ _ _ tt s1) by (unfold gate_write; by rewrite Hg).
  destruct (IH (i + 1) s1) as (t & Hrun & Hlt & Hsame & Hset); [lia|done|simpl; by rewrite length_insert|lia|].
  exists t. split; [exact Hrun|]. split; [done|]. split.
  - intros j Hj. rewrite Hsame by lia. simpl. apply list_lookup_insert_ne. lia.
  - intros j Hj. destruct (decide (j = Z.to_nat i)) as [->|Hne]; [|apply Hset; lia].
    rewrite Hsame by lia. simpl. rewrite list_lookup_insert_eq by lia. by rewrite Hs.
Qed.

(** after [init_interrupts] every one of the 256 gates leads to its stub in
    the code segment of the kernel with interrupts off, and the gate of the
    system call is the only one a program may enter: all the others have
    privilege level 0.  Handlers are set for the system call, the debug
    exception and the two faults that stop the machine, and no other. *)
Theorem init_interrupts_spec stubs s :
  length stubs = 256%nat -> Forall (fun p => 0 <= p < 2 ^ 32) stubs ->
  exists s', init stubs s = Some (tt, s') /\
    it_loaded s' = Some (2047, w32 intr_table_addr) /\
    (forall n stub, stubs !! n = Some stub ->
       decode_gate <$> it_table s' !! n =
         Some (interrupt_gate stub (if decide (n = Z.to_nat INTERRUPT_SYSCALL) then 3 else 0))) /\
    (forall n, (n < 256)%nat -> it_handlers s' !! n = Some
       (if decide (n = 1%nat) then Some test_handler
        else if decide (n = 8%nat \/ n = 13%nat) then Some hangs
        else if decide (n = Z.to_nat INTERRUPT_SYSCALL) then Some system_call else None)).
Proof.
  intros Hlen Hr. set (s1 := Idt (replicate 256 0) (replicate 256 None) (it_stats s) (it_idtr s) (it_loaded s) : idt A).
  destruct (init_gates_run stubs 256 0 s1) as (t & Hrun & Hlt & _ & Hset); [done|done|done|done|].
  destruct (lookup_lt_is_Some_2 stubs (Z.to_nat INTERRUPT_SYSCALL)) as [st Hst]; [unfold INTERRUPT_SYSCALL; lia|].
  destruct (lookup_lt_is_Some_2 t (Z.to_nat INTERRUPT_SYSCALL)) as [g Hg]; [unfold INTERRUPT_SYSCALL; lia|].
  set (hs := <[96%nat := Some system_call]> (<[8%nat := Some hangs]> (<[13%nat := Some hangs]>
    (<[1%nat := Some test_handler]> (replicate 256 (None : option (handler A))))))).
  exists (Idt (<[Z.to_nat INTERRUPT_SYSCALL := define_intr_descript st 3]> t) hs (it_stats s) (2047, w32 intr_table_addr)
    (Some (2047, w32 intr_table_addr))).
  split; [|split; [done|split]].
  - unfold init_interrupts. rewrite (ST_run (modify _) _ s tt s1) by done. rewrite (ST_run _ _ _ _ _ Hrun).
    set (s2 := Idt t _ _ _ _).
    rewrite (ST_run (lift_opt _) _ s2 st s2) by (unfold lift_opt; by rewrite Hst).
    unfold gate_write at 1. rewrite ST_bind_eq. unfold s2. cbn [it_table]. rewrite Hg. reflexivity.
  - intros n stub Hn. cbn [it_table]. assert (Hb : 0 <= stub < 2 ^ 32).
    { rewrite Forall_lookup in Hr. by eapply Hr. }
    case_decide as Hd.
    + subst n. rewrite list_lookup_insert_eq by (unfold INTERRUPT_SYSCALL; lia). rewrite Hst in Hn. injection Hn as ->.
      simpl. by rewrite decode_interrupt_gate.
    + rewrite list_lookup_insert_ne by done. apply lookup_lt_Some in Hn as Hnl. rewrite Hset by lia. rewrite Hn. simpl.
      by rewrite decode_interrupt_gate.
  - intros n Hn. cbn [it_handlers]. unfold hs. rewrite !list_lookup_insert.
    change (Z.to_nat INTERRUPT_SYSCALL) with 96%nat. rewrite !length_insert, length_replicate.
    repeat case_decide; try lia; try done. rewrite lookup_replicate_2 by done. done.
Qed.

(** the table with one more interrupt counted *)
Definition counted (num : nat) (n : Z) (i : idt A) : idt A :=
  Idt (it_table i) (it_handlers i) (<[num := w32 (n + 1)]> (it_stats i)) (it_idtr i) (it_loaded i).

Lemma on_kernel_done {B} (m : RST (kernel A) B) (k k' : kernel A) (i : idt A) b :
  m k = Some (Done b k') -> on_kernel m (k, i) = Some (Done b (k', i)).
Proof. intros Hm. unfold on_kernel, rzoom. simpl. by rewrite Hm. Qed.

Lemma isr_dispatch_run frame (k k1 : kernel A) (i : idt A) n h b :
  let num := Z.to_nat (if_intr_num frame) in
  it_stats i !! num = Some n -> it_handlers i !! num = Some h ->
  interrupt_callback cpu num_cpus apic_is_enabled clock stale_node (if_intr_num frame) k = Some (Done b k1) ->
  dispatch frame (k, i) =
    match h with
    | Some f => on_kernel (f frame) (k1, counted num n i)
    | None => Some (Done (Some frame) (k1, counted num n i))
    end.
Proof.
  intros num Hn Hh Hcb. unfold isr_dispatch. fold num.
  erewrite R_done by (unfold on_idt; simpl; rewrite Hn; reflexivity).
  erewrite R_done by (apply on_kernel_done, Hcb).
  erewrite R_done by (unfold on_idt; simpl; rewrite Hh; reflexivity). by destruct h.
Qed.

(** the system call interrupt, with nothing listening to it: the dispatch
    counts the interrupt, runs the system call that the registers name, and
    returns with its result in [eax] and every other register as it was. *)
Theorem isr_dispatch_system_call frame (k k' : kernel A) (i : idt A) n r :
  if_intr_num frame = INTERRUPT_SYSCALL ->
  it_stats i !! Z.to_nat INTERRUPT_SYSCALL = Some n ->
  it_handlers i !! Z.to_nat INTERRUPT_SYSCALL = Some (Some system_call) ->
  k_listening k !! Z.to_nat INTERRUPT_SYSCALL = Some NULL ->
  syscall_dispatch cpu num_cpus apic_is_enabled clock stale_table stale_object stale_async stale_node paddr_var
    fuel port_in (if_eax frame) (if_edi frame) (if_esi frame) (if_edx frame) (if_ebx frame) k = Some (Done r k') ->
  dispatch frame (k, i) = Some (Done (Some (set_if_eax (w32 r) frame)) (k', counted (Z.to_nat INTERRUPT_SYSCALL) n i)).
Proof.
  intros Hnum Hn Hh Hl Hrun.
  assert (Hcb : interrupt_callback cpu num_cpus apic_is_enabled clock stale_node (if_intr_num frame) k = Some (Done false k)).
  { unfold interrupt_callback. rewrite (R_lift get_st _ k k k) by done. rewrite Hnum.
    rewrite (R_lift (lift_opt _) _ k NULL k) by (unfold lift_opt; by rewrite Hl). by rewrite Z.eqb_refl. }
  rewrite <- Hnum in Hn, Hh. rewrite (isr_dispatch_run _ _ _ _ _ _ _ Hn Hh Hcb). rewrite Hnum.
  assert (Hf : (r ← syscall_handler cpu num_cpus apic_is_enabled clock stale_table stale_object stale_async stale_node paddr_var
      fuel port_in (SyscallFrame (if_eax frame) (if_edi frame) (if_esi frame) (if_edx frame) (if_ebx frame));
      mret (Some (set_if_eax (sf_eax r) frame))) k = Some (Done (Some (set_if_eax (w32 r) frame)) k')).
  { set (sf := SyscallFrame _ _ _ _ _).
    erewrite (R_done _ _ _ (SyscallFrame (w32 r) (if_edi frame) (if_esi frame) (if_edx frame) (if_ebx frame)) k'); [reflexivity|].
    unfold syscall_handler, sf. cbn [sf_eax sf_edi sf_esi sf_edx sf_ebx]. by erewrite R_done by exact Hrun. }
  unfold syscall_interrupt at 1. by apply on_kernel_done.
Qed.
End specs.

(** ** On concrete tables *)

Definition ex_idt : idt BumpPages.t := Idt (replicate 256 0) (replicate 256 None) (replicate 256 0) (0, 0) None.
Definition ex_stubs : list Z := imap (fun i _ => 0xfd110000 + 16 * Z.of_nat i) (replicate 256 tt).
Definition ex_call : handler BumpPages.t :=
  syscall_interrupt 0 1 false clock_ex (fun _ => []) (kobject_init 1) (MsgQueueAsync (kobject_init 2) [] 0 0 0) 0 0 1
    (fun _ _ => 0).

Lemma init_interrupts_spec_witness : exists s',
  init_interrupts 0 1 false clock_ex (fun _ => []) (kobject_init 1) (MsgQueueAsync (kobject_init 2) [] 0 0 0) 0 0 1
    (fun _ _ => 0) 0x140000 ex_stubs ex_idt = Some (tt, s') /\
  decode_gate <$> it_table s' !! 96%nat = Some (interrupt_gate 0xfd110600 3) /\
  decode_gate <$> it_table s' !! 14%nat = Some (interrupt_gate 0xfd1100e0 0).
Proof.
  destruct (init_interrupts_spec 0 1 false clock_ex (fun _ => []) (kobject_init 1) (MsgQueueAsync (kobject_init 2) [] 0 0 0) 0 0 1
    (fun _ _ => 0) 0x140000 ex_stubs ex_idt) as (s' & Hrun & _ & Hg & _).
  - reflexivity.
  - decide_vm.
  - exists s'. split; [exact Hrun|]. split; [exact (Hg 96%nat 0xfd110600 eq_refl)|exact (Hg 14%nat 0xfd1100e0 eq_refl)].
Defined.

(** the program asks for the number of its thread *)
Definition ex_frame : interrupt_frame := InterruptFrame 0 0 0 0 0 0 7 33 96 0 0x1000.
Lemma isr_dispatch_system_call_witness : exists r,
  isr_dispatch 0 1 false clock_ex 0 ex_frame
    (sys_ex, Idt (replicate 256 0) (<[96%nat := Some ex_call]> (replicate 256 None)) (replicate 256 0) (0, 0) None) =
  Some (Done (Some (set_if_eax (w32 r) ex_frame)) (sys_ex, counted 96 0
    (Idt (replicate 256 0) (<[96%nat := Some ex_call]> (replicate 256 None)) (replicate 256 0) (0, 0) None))).
Proof.
  exists (i32 (th_id sys_runner)).
  apply (isr_dispatch_system_call 0 1 false clock_ex (fun _ => []) (kobject_init 1) (MsgQueueAsync (kobject_init 2) [] 0 0 0) 0 0 1
    (fun _ _ => 0) ex_frame sys_ex sys_ex); reflexivity.
Defined.
