(* ===== verification/Reports.v ===== *)
(** What the kernel prints of its own state: the memory maps, an address map, a
    balanced tree, an interrupt frame.

    A report runs next to the stream of characters of [Print]: it reads the
    state of the component it reports on and puts out text.  Each is shown to
    print exactly the text a plain function of the abstract state gives, and to
    leave the state as it was. *)
From stdpp Require Import strings.
From S2P Require Export Print Boot AndTreeWalk AddrSpace Interrupts.

(** ** Text *)

(** a string literal of the code: "\n" is one character *)
Fixpoint chars (s : string) : list Z :=
  match s with
  | EmptyString => []
  | String a s => Z.of_N (Ascii.N_of_ascii a) :: chars s
  end.
Fixpoint unescape (l : list Z) : list Z :=
  match l with
  | [] => []
  | c :: l =>
      match l with
      | d :: l' => if (c =? 92) && (d =? 110) then 10 :: unescape l' else c :: unescape l
      | [] => [c]
      end
  end.
Definition txt (s : string) : list Z := unescape (chars s).
(** what a format and its arguments come to, by [render] *)
Definition line (format : string) (args : list arg) : list Z := default [] (render (txt format) args).
#[global] Arguments txt : simpl never.
#[global] Arguments line : simpl never.

Section console.
Context {T : Type}.

(** a state and the stream *)
Abbreviation LOG := (ST (T * list Z)).

Definition with_state {B} (m : ST T B) : LOG B := zoom fst (fun s p => (s, snd p)) m.
Definition print (format : string) (args : list arg) : LOG unit :=
  zoom snd (fun o p => (fst p, o)) (debug_printf (txt format ++ [0]) args).

Lemma with_state_run {B} (m : ST T B) b s s' o : m s = Some (b, s') -> with_state m (s, o) = Some (b, (s', o)).
Proof. intros Hm. unfold with_state, zoom. simpl. by rewrite Hm. Qed.

Lemma print_run format args s o :
  Forall (fun c => c <> 0) (txt format) -> Forall arg_ok args -> is_Some (render (txt format) args) ->
  print format args (s, o) = Some (tt, (s, o ++ line format args)).
Proof.
  intros Hf Ha [text Ht]. unfold print, zoom, line. cbn [snd fst].
  pose proof (debug_printf_loop_ok (S (length (txt format ++ [0]))) [] _ _ o Hf Ha) as Hrun.
  rewrite Ht in *. unfold debug_printf. setoid_rewrite Hrun; [done|]. rewrite length_app. simpl. lia.
Qed.
End console.

(** run a [print] whose format is known *)
Ltac args_ok := repeat (apply Forall_cons_2); try apply Forall_nil_2; try (simpl; lia).
Ltac print_step :=
  erewrite (ST_run (print _ _));
  [|apply print_run; [decide_vm|args_ok|eexists; reflexivity]].

(** ** An address map *)

Section dumps.
Context {A : Type}.

(** the turns of the loop left, and the entry of this one *)
Fixpoint addr_map_dump_loop (n i : nat) (map : Z) : ST (space_store A * list Z) unit :=
  match n with
  | O => mret tt
  | S n =>
      m ← with_state (map_get map);
      e ← with_state (lift_opt (am_map m !! i));
      f ← with_state (frame_get (ae_frame e));
      let start := ae_addr e in
      let end_ := w32 (start + w32 (pf_size f * PAGE_SIZE)) in
      let p_start := pf_address f in
      let p_end := w32 (p_start + w32 (pf_size f * PAGE_SIZE)) in
      _ ← print "  entry %u : %x -> %x\n" [ANum (Z.of_nat i); ANum start; ANum end_];
      _ ← print "          : %x -> %x\n" [ANum p_start; ANum p_end];
      addr_map_dump_loop n (S i) map
  end.
Definition addr_map_dump (map : Z) : ST (space_store A * list Z) unit :=
  _ ← print "address map @ %p:\n" [ANum map];
  m ← with_state (map_get map);
  addr_map_dump_loop (Z.to_nat (am_used m)) 0 map.

Definition entry_text (i : nat) (e : addr_entry) (f : phys_frame) : list Z :=
  line "  entry %u : %x -> %x\n" [ANum (Z.of_nat i); ANum (ae_addr e); ANum (w32 (ae_addr e + w32 (pf_size f * PAGE_SIZE)))] ++
  line "          : %x -> %x\n" [ANum (pf_address f); ANum (w32 (pf_address f + w32 (pf_size f * PAGE_SIZE)))].

(** addresses and sizes are those of a 32-bit machine *)
Definition entry_ok (e : addr_entry) (f : phys_frame) : Prop :=
  0 <= ae_addr e < 2 ^ 32 /\ 0 <= pf_address f < 2 ^ 32.

Fixpoint entries_text (i : nat) (s : space_store A) (es : list addr_entry) : list Z :=
  match es with
  | [] => []
  | e :: es =>
      match sp_frames s !! ae_frame e with Some f => entry_text i e f | None => [] end ++ entries_text (S i) s es
  end.

Lemma addr_map_dump_loop_ok s map m es n i o :
  sp_maps s !! map = Some m -> drop i (entries m) = es -> n = length es -> Z.of_nat (i + n) < 2 ^ 32 ->
  Forall (fun e => exists f, sp_frames s !! ae_frame e = Some f /\ entry_ok e f) es ->
  addr_map_dump_loop n i map (s, o) = Some (tt, (s, o ++ entries_text i s es)).
Proof.
  intros Hm. revert es i o. induction n as [|n IH]; intros es i o Hes Hn Hi Hok; destruct es as [|e es]; try done.
  { by rewrite app_nil_r. }
  cbn [addr_map_dump_loop entries_text]. apply Forall_cons in Hok as [(f & Hf & Ha & Hp) Hok]. rewrite Hf.
  assert (He : entries m !! i = Some e) by (rewrite <- (Nat.add_0_r i), <- lookup_drop, Hes; done).
  rewrite entries_lookup in He. case_decide; [|done].
  rewrite (ST_run _ _ _ _ _ (with_state_run (map_get map) m s s o ltac:(unfold map_get; rewrite ST_bind_eq; simpl; unfold lift_opt; by rewrite Hm))).
  rewrite (ST_run _ _ _ _ _ (with_state_run (lift_opt (am_map m !! i)) e s s o ltac:(unfold lift_opt; by rewrite He))).
  rewrite (ST_run _ _ _ _ _ (with_state_run (frame_get (ae_frame e)) f s s o ltac:(unfold frame_get; rewrite ST_bind_eq; simpl; unfold lift_opt; by rewrite Hf))).
  cbn zeta. pose proof (w32_range (ae_addr e + w32 (pf_size f * PAGE_SIZE))).
  pose proof (w32_range (pf_address f + w32 (pf_size f * PAGE_SIZE))).
  print_step. print_step.
  rewrite (IH es (S i)); [|rewrite <- Nat.add_1_r, <- drop_drop, Hes; done|by injection Hn|lia|done].
  unfold entry_text. by rewrite <- !app_assoc.
Qed.

(** an address map prints as its header and two lines for each of its entries,
    in order: where it is mapped, and the frame it maps.  The space is only
    read. *)
Theorem addr_map_dump_spec s map (m : addr_map) o :
  0 <= map < 2 ^ 32 -> sp_maps s !! map = Some m -> AddrSpace.map_wf m ->
  Forall (fun e => exists f, sp_frames s !! ae_frame e = Some f /\ entry_ok e f) (entries m) ->
  addr_map_dump map (s, o) =
    Some (tt, (s, o ++ line "address map @ %p:\n" [ANum map] ++ entries_text 0 s (entries m))).
Proof.
  intros Hmap Hm Hwf Hok. unfold addr_map_dump. print_step.
  rewrite (ST_run _ _ _ _ _ (with_state_run (map_get map) m s s _ ltac:(unfold map_get; rewrite ST_bind_eq; simpl; unfold lift_opt; by rewrite Hm))).
  pose proof (entries_length m Hwf) as Hlen.
  rewrite (addr_map_dump_loop_ok s map m (entries m)); try done; [by rewrite <- app_assoc|].
  destruct Hwf as [_ _ Hu]. change ADDR_MAP_ENTRIES_PER_PAGE with 340 in Hu. lia.
Qed.
End dumps.

(** ** A balanced tree *)

Section trees.
Context {A : Type} `{!Allocator A}.
Context (sentinel : Z) (get_key : Z -> Z).

Fixpoint print_indent (n : nat) : ST (astore A * list Z) unit :=
  match n with
  | O => mret tt
  | S n => _ ← print "  |" []; print_indent n
  end.
(** [fuel] bounds the depth of the calls *)
Fixpoint do_node_print (fuel : nat) (node : Z) (indent : nat) : ST (astore A * list Z) unit :=
  match fuel with
  | O => fault
  | S fuel =>
      n ← with_state (node_get node);
      if negb (an_level n =? 0) then
        _ ← do_node_print fuel (leaf LEFT n) (S indent);
        _ ← print_indent indent;
        _ ← print "- (%u) %p : %p : %d"
              [ANum (an_level n); ANum node; ANum (an_data n); ANum (get_key (an_data n))];
        _ ← print "\n" [];
        do_node_print fuel (leaf RIGHT n) (S indent)
      else mret tt
  end.
Definition atree_print : ST (astore A * list Z) unit :=
  root ← with_state root_get;
  fuel ← with_state (with_fuel mret);
  do_node_print (S fuel) root 0.

Definition node_text (indent : nat) (i lv d : Z) : list Z :=
  mjoin (replicate indent (txt "  |")) ++
  line "- (%u) %p : %p : " [ANum lv; ANum i; ANum d] ++ txt "\n".
Fixpoint tree_text (indent : nat) (t : AA.tree) : list Z :=
  match t with
  | AA.E => []
  | AA.N i lv l d r => tree_text (S indent) l ++ node_text indent i lv d ++ tree_text (S indent) r
  end.

(** the words of a node are 32 bits wide *)
Definition words_ok (t : AA.tree) : Prop :=
  Forall (fun id => 0 <= id.1 < 2 ^ 32 /\ 0 <= id.2 < 2 ^ 32 /\ 0 <= get_key id.2 < 2 ^ 32) (AA.nodes t).

Lemma print_indent_ok n s o : print_indent n (s, o) = Some (tt, (s, o ++ mjoin (replicate n (txt "  |")))).
Proof.
  revert o. induction n as [|n IH]; intros o; cbn [print_indent replicate]; [by rewrite app_nil_r|].
  print_step. rewrite IH, <- app_assoc. done.
Qed.

(** "%d" takes no argument and puts out nothing *)
Lemma line_without_key lv i d k :
  line "- (%u) %p : %p : %d" [ANum lv; ANum i; ANum d; ANum k] = line "- (%u) %p : %p : " [ANum lv; ANum i; ANum d].
Proof. reflexivity. Qed.

Lemma do_node_print_ok fuel h tr a p t indent o :
  tree_in sentinel h p t -> sentinel_in sentinel h -> words_ok t -> (AA.size t < fuel)%nat ->
  do_node_print fuel (AA.root_id sentinel t) indent (Astore h tr a, o) =
    Some (tt, (Astore h tr a, o ++ tree_text indent t)).
Proof.
  revert p t indent o. induction fuel as [|fuel IH]; intros p t indent o Ht Hs Hw Hfuel; [lia|]. cbn [do_node_print].
  destruct t as [|i lv l d r]; cbn [AA.root_id tree_text].
  - destruct Hs as (_ & _ & q & Hn). erewrite (ST_run (with_state _)) by (apply with_state_run, node_get_ok, Hn).
    by rewrite app_nil_r.
  - destruct Ht as (Hi & Hlv & Hn & Htl & Htr). cbn [AA.size] in Hfuel.
    unfold words_ok in Hw. cbn [AA.nodes] in Hw. apply Forall_app in Hw as [Hwl Hw]. apply Forall_cons in Hw as [(Hwi & Hwd & Hwk) Hwr].
    cbn [fst snd] in *. erewrite (ST_run (with_state _)) by (apply with_state_run, node_get_ok, Hn). cbn [an_level an_data leaf LEFT RIGHT an_left an_right].
    rewrite (proj2 (Z.eqb_neq lv 0)) by lia. cbn [negb].
    rewrite (ST_run _ _ _ _ _ (IH i l (S indent) o Htl Hs Hwl ltac:(lia))), (ST_run _ _ _ _ _ (print_indent_ok _ _ _)).
    print_step. print_step. rewrite (IH i r) by (done || lia).
    rewrite line_without_key. unfold node_text. by rewrite <- !app_assoc.
Qed.

(** a tree prints its nodes in the order of the walk, each on a line of its own
    behind as many bars as it has ancestors; the keys, which the format gives
    as "%d", are missing.  Nothing of the tree changes, and the recursion ends. *)
Theorem atree_print_spec (s : astore A) t o :
  holds_tree sentinel s t -> words_ok t -> atree_print (s, o) = Some (tt, (s, o ++ tree_text 0 t)).
Proof.
  intros Hs Hw. destruct (holds_parts _ s t Hs) as (Htr & Ht & Hsent & Hnd & Hfuel). unfold atree_print.
  rewrite (ST_run _ _ _ _ _ (with_state_run root_get (at_root (as_tree s)) s s o eq_refl)).
  rewrite (ST_run _ _ _ _ _ (with_state_run (with_fuel mret) (S (base.size (as_nodes s))) s s o eq_refl)).
  rewrite Htr. destruct s as [h tr a]. apply (do_node_print_ok _ h tr a NULL t); try done. cbn [as_nodes] in *. lia.
Qed.
End trees.

(** ** The memory maps *)

(** [foo] is the entry at [offset], whose size field does not count itself; a
    turn takes four bytes at least *)
Fixpoint dump_raw_loop (fuel : nat) (map length offset : Z) : ST (boot * list Z) unit :=
  match fuel with
  | O => fault
  | S fuel =>
      if offset <? length then
        let foo := w32 (map + offset) in
        a ← with_state (on_bytes (load32 (foo + MemMap.addr_high)));
        len_high ← with_state (on_bytes (load32 (foo + MemMap.len_high)));
        let b := w32 (a + len_high) in
        type ← with_state (on_bytes (load32 (foo + MemMap.type)));
        let s := if type =? MULTIBOOT_MEM_AVAILABLE then "available" else "reserved" in
        size ← with_state (on_bytes (load32 (foo + MemMap.size)));
        _ ← print "%p (%u)> %p -> %p (%u: %s)\n"
              [ANum foo; ANum size; ANum a; ANum b; ANum type; AStr (txt s ++ [0])];
        dump_raw_loop fuel map length (w32 (offset + w32 (size + 4)))
      else mret tt
  end.
Definition dump_raw_memmaps (map length : Z) : ST (boot * list Z) unit :=
  dump_raw_loop (S (Z.to_nat length)) map length 0.

Fixpoint dump_cooked_loop (fuel : nat) (map : Z) : ST (boot * list Z) unit :=
  match fuel with
  | O => fault
  | S fuel =>
      if map =? NULL then mret tt
      else
        m ← with_state (fun s => match bt_maps s !! map with Some m => Some (m, s) | None => None end);
        _ ← print "map %p > %p, %u bytes\n" [ANum (mm_addr m); ANum (w32 (mm_addr m + mm_length m)); ANum (mm_length m)];
        dump_cooked_loop fuel (mm_next m)
  end.
(** a list has no more nodes than there are *)
Definition dump_cooked_memmaps (maps : Z) : ST (boot * list Z) unit :=
  s ← with_state get_st;
  dump_cooked_loop (S (base.size (bt_maps s))) maps.

Definition area_text (x : Z * Z) : list Z :=
  line "map %p > %p, %u bytes\n" [ANum x.1; ANum (w32 (x.1 + x.2)); ANum x.2].
Definition raw_text (map offset : Z) (e : mb_entry) : list Z :=
  line "%p (%u)> %p -> %p (%u: %s)\n"
    [ANum (w32 (map + offset)); ANum (me_size e); ANum (me_addr e); ANum (w32 (me_addr e + me_length e));
     ANum (me_type e); AStr (txt (if me_type e =? MULTIBOOT_MEM_AVAILABLE then "available" else "reserved") ++ [0])].
Fixpoint raw_texts (map offset : Z) (es : list mb_entry) : list Z :=
  match es with
  | [] => []
  | e :: es => raw_text map offset e ++ raw_texts map (offset + me_size e + 4) es
  end.

Lemma dump_cooked_loop_ok fuel map l (s : boot) o :
  maps_at (bt_maps s) map l -> (length l < fuel)%nat ->
  Forall (fun x => 0 <= x.1 < 2 ^ 32 /\ 0 <= x.2 < 2 ^ 32) l ->
  dump_cooked_loop fuel map (s, o) = Some (tt, (s, o ++ mjoin (area_text <$> l))).
Proof.
  revert fuel map o. induction l as [|[a n] l IH]; intros [|fuel] map o Hm Hfuel Hl; try (simpl in Hfuel; lia); cbn [dump_cooked_loop].
  - simpl in Hm. subst map. by rewrite app_nil_r.
  - destruct Hm as (Hn & next & Hp & Hm). apply Forall_cons in Hl as [[Ha Hlen] Hl]. cbn [fst snd] in *.
    rewrite (proj2 (Z.eqb_neq map NULL)) by done.
    rewrite (ST_run (with_state _) _ _ (PhysMemmap next a n) (s, o)) by (apply with_state_run; by rewrite Hp).
    cbn [mm_addr mm_length mm_next]. pose proof (w32_range (a + n)). print_step.
    rewrite IH by (done || (simpl in Hfuel; lia)). cbn [fmap list_fmap mjoin list_join]. by rewrite <- app_assoc.
Qed.

Lemma dump_raw_loop_ok fuel map len offset es (s : boot) o :
  entries_at (bt_mem s) map len offset es -> 0 <= offset -> (length es < fuel)%nat -> mem_wf (bt_mem s) ->
  dump_raw_loop fuel map len offset (s, o) = Some (tt, (s, o ++ raw_texts map offset es)).
Proof.
  revert fuel offset o. induction es as [|e es IH]; intros [|fuel] offset o He Ho Hfuel Hwf; try (simpl in Hfuel; lia);
    cbn [dump_raw_loop].
  - simpl in He. rewrite (proj2 (Z.ltb_ge offset len)) by lia. by rewrite app_nil_r.
  - simpl in He. destruct He as (Hlt & Hsz & H32 & R1 & R2 & R3 & R4 & He).
    rewrite (proj2 (Z.ltb_lt offset len)) by lia. cbn zeta. unfold MemMap.size, MemMap.type, MemMap.addr_high, MemMap.len_high.
    rewrite (ST_run _ _ _ _ _ (with_state_run _ _ s s o (on_bytes_run _ s _ R2))),
      (ST_run _ _ _ _ _ (with_state_run _ _ s s o (on_bytes_run _ s _ R3))),
      (ST_run _ _ _ _ _ (with_state_run _ _ s s o (on_bytes_run _ s _ R4))).
    rewrite Z.add_0_r, (ST_run _ _ _ _ _ (with_state_run _ _ s s o (on_bytes_run _ s _ R1))).
    assert (Hstr : arg_ok (AStr (txt (if me_type e =? MULTIBOOT_MEM_AVAILABLE then "available" else "reserved") ++ [0]))).
    { eexists. split; [reflexivity|]. destruct (me_type e =? MULTIBOOT_MEM_AVAILABLE); decide_vm. }
    pose proof (w32_range (map + offset)). pose proof (w32_range (me_addr e + me_length e)).
    pose proof (load32_range _ _ _ Hwf R1). pose proof (load32_range _ _ _ Hwf R2). pose proof (load32_range _ _ _ Hwf R4).
    erewrite (ST_run (print _ _)); [|apply print_run; [decide_vm|by args_ok|eexists; reflexivity]].
    rewrite (w32_small (me_size e + 4)), (w32_small (offset + _)) by lia.
    replace (offset + (me_size e + 4)) with (offset + me_size e + 4) by lia.
    rewrite IH by (done || (simpl in Hfuel; lia)). cbn [raw_texts]. unfold raw_text. by rewrite <- app_assoc.
Qed.

(** the loader's map prints as a line for each of its entries, and the loop
    ends; the memory is only read. *)
Theorem dump_raw_memmaps_spec map len es (s : boot) o :
  entries_at (bt_mem s) map len 0 es -> mem_wf (bt_mem s) ->
  dump_raw_memmaps map len (s, o) = Some (tt, (s, o ++ raw_texts map 0 es)).
Proof.
  intros He Hwf. pose proof (entries_at_length _ _ _ _ _ He ltac:(lia)) as Hlen.
  apply dump_raw_loop_ok; [done|done|rewrite Z.sub_0_r in Hlen; lia|done].
Qed.


(** the kernel's own map prints as a line for each area, and the walk ends *)
Theorem dump_cooked_memmaps_spec maps l (s : boot) o :
  maps_at (bt_maps s) maps l -> Forall (fun x => 0 <= x.1 < 2 ^ 32 /\ 0 <= x.2 < 2 ^ 32) l ->
  dump_cooked_memmaps maps (s, o) = Some (tt, (s, o ++ mjoin (area_text <$> l))).
Proof.
  intros Hm Hl. unfold dump_cooked_memmaps. pose proof (maps_at_size _ _ _ Hm).
  rewrite (ST_run _ _ _ _ _ (with_state_run get_st s s s o eq_refl)). by apply dump_cooked_loop_ok; [|lia|].
Qed.

(** ** An interrupt frame *)

Definition interrupt_print_frame {S} (frame : interrupt_frame) : ST (S * list Z) unit :=
  print (" => edi: 0x%x \n => esi: 0x%x \n => ebp: 0x%x \n => esp: 0x%x \n => ebx: 0x%x \n => edx: 0x%x \n" +:+
         " => ecx: 0x%x \n => eax: 0x%x \n => eip: 0x%x \n => interrupt: %u \n => error:     %u \n")
    [ANum (if_edi frame); ANum (if_esi frame); ANum (if_ebp frame); ANum (if_esp frame);
     ANum (if_ebx frame); ANum (if_edx frame); ANum (if_ecx frame); ANum (if_eax frame);
     ANum (if_eip frame); ANum (if_intr_num frame); ANum (if_error_num frame)].

(** ** On concrete states *)

Definition map_one : addr_map := AddrMap ADDR_MAP_ENTRIES_PER_PAGE 1 (ent_ex :: replicate 339 zero_entry).
Lemma addr_map_dump_spec_witness :
  addr_map_dump 0x50000 (store_of map_one, []) = Some (tt, (store_of map_one,
    txt ("address map @ 0x50000:\n  entry 0 : 7000 -> 9000\n" +:+ "          : 110000 -> 112000\n"))).
Proof.
  refine (eq_trans (addr_map_dump_spec (store_of map_one) 0x50000 map_one [] _ _ _ _) _).
  - lia.
  - done.
  - split; [done|done|]. change (0 <= 1 <= 340). lia.
  - apply Forall_singleton. exists frame_ex. split; [done|]. split; simpl; lia.
  - assert (Ht : [] ++ line "address map @ %p:\n" [ANum 0x50000] ++ entries_text 0 (store_of map_one) (entries map_one) =
      txt ("address map @ 0x50000:\n  entry 0 : 7000 -> 9000\n" +:+ "          : 110000 -> 112000\n")) by (vm_compute; reflexivity).
    by rewrite Ht.
Defined.

Lemma atree_print_spec_witness : exists o,
  atree_print ex_key (ex_store, []) = Some (tt, (ex_store, o)) /\
  take 24 o = txt "  |- (1) 0x1180 : 0x1 : ".
Proof.
  eexists. split.
  - apply (atree_print_spec ex_sentinel ex_key ex_store ex_tree [] ex_store_ok).
    repeat (apply Forall_cons_2; [unfold ex_key; simpl; lia|]). apply Forall_nil_2.
  - vm_compute. reflexivity.
Defined.

Lemma ex_entries_there : entries_at (bt_mem ex_boot) 0xfd002000 72 0 ex_entries.
Proof.
  cbn [entries_at ex_entries me_size me_addr me_length me_type].
  split_and!; try (apply word_load; word_vm); vm_compute; congruence.
Qed.

Lemma dump_raw_memmaps_spec_witness : exists text,
  dump_raw_memmaps 0xfd002000 72 (ex_boot, []) = Some (tt, (ex_boot, text)) /\
  take 52 text = txt "0xfd002000 (20)> 0x0 -> 0x9fc00 (1: available)\n0xfd0".
Proof.
  eexists. split.
  - apply (dump_raw_memmaps_spec 0xfd002000 72 ex_entries ex_boot []); [apply ex_entries_there|].
    apply mem_wf_check. vm_compute. reflexivity.
  - vm_compute. reflexivity.
Defined.

Lemma dump_cooked_memmaps_spec_witness :
  dump_cooked_memmaps 0x10 (Boot ∅ 0x20 {[ 0x10 := PhysMemmap NULL 0x900000 0x76e0000 ]}, []) =
  Some (tt, (Boot ∅ 0x20 {[ 0x10 := PhysMemmap NULL 0x900000 0x76e0000 ]}, txt "map 0x900000 > 0x7fe0000, 124649472 bytes\n")).
Proof.
  refine (eq_trans (dump_cooked_memmaps_spec 0x10 [(0x900000, 0x76e0000)] (Boot ∅ 0x20 {[ 0x10 := PhysMemmap NULL 0x900000 0x76e0000 ]}) [] _ _) _).
  - split; [done|]. by exists NULL.
  - repeat constructor; simpl; lia.
  - reflexivity.
Defined.
