(* ===== verification/Handlers.v ===== *)
(** The handlers of interrupts that are not system calls: page faults
    ([arch/x86/paging.c], [src/paging.c]) and the timer ([arch/x86/init.c]).

    A page fault of a program becomes a message to its pager; the timer arms
    its next interrupt and calls the scheduler. *)
From S2P Require Export Interrupts Apic.

Section faults.
Context {A : Type} `{!Allocator A} `{!Pages A}.
Context (cpu : nat) (num_cpus : Z) (apic_is_enabled : bool) (clock : nat -> Z).

(** [cr_2] is the register of the address that faulted.  A fault of the kernel
    itself is printed and the processor loops *)
Definition page_fault_handler (cr_2 : Z) : handler A := fun frame =>
  let err := if_error_num frame in
  if flag_set err PAGE_ARCH_SUPERVISOR then
    let perms := if flag_set err PAGE_ARCH_WRITABLE then PAGE_WRITE else PAGE_READ in
    _ ← page_fault_message cpu num_cpus apic_is_enabled clock cr_2 (if_eip frame) perms;
    mret (Some frame)
  else hangs frame.

(** what is left to do once the message is on its way *)
Definition after_fault (cur : Z) : RST (kernel A) unit :=
  _ ← lift (sched_thread_stop cur);
  sched_thread_yield cpu num_cpus clock.

Definition fault_perms (frame : interrupt_frame) : Z :=
  if flag_set (if_error_num frame) PAGE_ARCH_WRITABLE then PAGE_WRITE else PAGE_READ.
Definition fault_message (cr_2 : Z) (frame : interrupt_frame) : message :=
  msg_init MESSAGE_TYPE_PAGE_FAULT [cr_2; if_eip frame; fault_perms frame].

Lemma page_fault_message_run cr_2 ip perms (k : kernel A) cur c :
  k_current k !! cpu = Some cur -> cur <> NULL -> k_threads k !! cur = Some c -> th_pager c <> NULL ->
  page_fault_message cpu num_cpus apic_is_enabled clock cr_2 ip perms k =
    (_ ← message_send cpu num_cpus apic_is_enabled clock (th_pager c)
           (Local (msg_init MESSAGE_TYPE_PAGE_FAULT [cr_2; ip; perms]));
     after_fault cur) (set_k_threads (<[cur := SET_FLAG THREAD_FLAG_FAULTED c]> (k_threads k)) k).
Proof.
  intros Hc Hnull Ht Hp. unfold page_fault_message. erewrite R_lift by by apply current_ok.
  rewrite (proj2 (Z.eqb_neq cur NULL)) by done. rewrite (R_lift _ _ _ _ _ (thread_update_ok k cur _ c Ht)).
  rewrite (R_lift _ _ _ (SET_FLAG THREAD_FLAG_FAULTED c) _) by (apply thread_get_ok; simpl; apply lookup_insert_eq).
  change (th_pager (SET_FLAG THREAD_FLAG_FAULTED c)) with (th_pager c). by rewrite (proj2 (Z.eqb_neq _ _) Hp).
Qed.

(** the faulted flag changes neither the endpoint nor the thread's place *)
Lemma faulted_rep (k : kernel A) queue ep cur c :
  ep_rep cpu k queue ep -> ready cpu k cur c ep ->
  let k' := set_k_threads (<[cur := SET_FLAG THREAD_FLAG_FAULTED c]> (k_threads k)) k in
  ep_rep cpu k' queue ep /\ ready cpu k' cur (SET_FLAG THREAD_FLAG_FAULTED c) ep.
Proof.
  intros [Hq Hr Hs Hnd Hone] [Hc Hnull Hct Hout] k'.
  assert (Hag : agree k k' ep).
  { split; [done|]. intros p Hp. unfold k'. simpl. rewrite lookup_insert_ne; [done|]. by intros ->. }
  split; split; try done.
  - eapply recievers_agree; [exact Hag|exact Hr].
  - eapply senders_agree; [exact Hag|exact Hs].
  - simpl. apply lookup_insert_eq.
Qed.

Lemma set_faulted (t : thread) : FLAG (SET_FLAG THREAD_FLAG_FAULTED t) THREAD_FLAG_FAULTED = true.
Proof.
  unfold FLAG, SET_FLAG. simpl. unfold THREAD_FLAG_FAULTED. change 8 with (2 ^ 3).
  rewrite flag_set_bit, Z.lor_spec by lia. rewrite Z.pow2_bits_true by lia. apply orb_true_r.
Qed.

(** going on after the fault's message was given to a receiver: the thread is
    stopped, the endpoint unlocked, and the processor given up *)
Lemma fault_sent_ok (k2 : kernel A) queue ep cur t2 m :
  ep_locked cpu k2 queue ep -> cur ∉ ep_threads ep -> k_threads k2 !! cur = Some t2 ->
  FLAG t2 THREAD_FLAG_FAULTED = true ->
  exists k3, (_ ← message_sent cpu num_cpus clock queue cur (Local m) true; after_fault cur) k2 =
      sched_thread_yield cpu num_cpus clock k3 /\
    ep_rep cpu k3 queue ep /\ ipc_frame k2 k3 /\
    k_threads k3 = <[cur := set_th_state SCHED_STATE_STOPPED t2]> (k_threads k2).
Proof.
  intros Hl Hout Ht Hfl. set (t3 := set_th_state SCHED_STATE_STOPPED t2).
  assert (Hst : set_sender_state t2 = t3) by (unfold set_sender_state; by rewrite Hfl).
  pose proof (ep_locked_update cpu k2 queue ep cur t3 Hl Hout) as Hl1.
  set (k21 := set_k_threads _ k2) in *.
  destruct (ep_unlock cpu k21 queue ep Hl1) as (k3 & Hun & Hrep & Hf & Hts & _).
  exists k3. split; [|split; [exact Hrep|split; [exact Hf|exact Hts]]].
  assert (Hsent : message_sent cpu num_cpus clock queue cur (Local m) true k2 = Some (Done tt k3)).
  { unfold message_sent. erewrite R_lift by by apply thread_update_ok. rewrite Hst. by apply lift_Some. }
  rewrite (R_done _ _ _ _ _ Hsent). unfold after_fault. erewrite R_lift; [reflexivity|].
  unfold sched_thread_stop. rewrite ST_bind_eq, (thread_get_ok k3 cur t3); [done|].
  rewrite Hts. apply lookup_insert_eq.
Qed.

(** C30: a fault of a program with a pager, which is on no endpoint itself and whose
    lock is free or its own, marks it faulted and tells the pager. Where the
    pager waits, its first receiver is handed the address, the instruction and
    the kind of access, with the identity of the thread, and is handed to the
    scheduler; whenever the handler goes on after that, with the endpoint still
    locked, the thread is stopped, the endpoint unlocked and the processor given
    up. Otherwise the thread is queued with them on the pager's endpoint and
    gives up the processor; a receiver that takes the message stops it; and when
    the handler goes on, the thread running again, it stops the thread a second
    time and gives up the processor. *)
Theorem page_fault_handler_spec cr_2 frame (k : kernel A) queue ep cur c :
  flag_set (if_error_num frame) PAGE_ARCH_SUPERVISOR = true ->
  th_pager c = queue -> queue <> NULL -> ep_rep cpu k queue ep -> ready cpu k cur c ep -> thread_left cpu k cur c ->
  let m := fault_message cr_2 frame in
  match ep_recievers ep with
  | r :: rs =>
      exists k1 t o,
        page_fault_handler cr_2 frame k =
          (_ ← (_ ← ((_ ← sched_add_thread cpu num_cpus apic_is_enabled clock r; mret true) ≫=
                     message_sent cpu num_cpus clock queue cur (Local m));
                after_fault cur);
           mret (Some frame)) k1 /\
        k_threads k !! r = Some t /\
        k_threads k1 = <[r := handed o (set_msg_sender (th_id c) m) t]>
          (<[cur := SET_FLAG THREAD_FLAG_FAULTED c]> (k_threads k)) /\
        ep_locked cpu k1 queue (Endpoint rs (ep_senders ep)) /\
        (forall (k2 : kernel A) t2 ep2, ep_locked cpu k2 queue ep2 -> cur ∉ ep_threads ep2 ->
           k_threads k2 !! cur = Some t2 -> FLAG t2 THREAD_FLAG_FAULTED = true ->
           exists k3, (_ ← message_sent cpu num_cpus clock queue cur (Local m) true; after_fault cur) k2 =
               sched_thread_yield cpu num_cpus clock k3 /\
             ep_rep cpu k3 queue ep2 /\ ipc_frame k2 k3 /\
             k_threads k3 = <[cur := set_th_state SCHED_STATE_STOPPED t2]> (k_threads k2))
  | [] =>
      exists k1 t,
        page_fault_handler cr_2 frame k =
          (_ ← (_ ← sched_thread_yield cpu num_cpus clock; after_fault cur); mret (Some frame)) k1 /\
        ep_rep cpu k1 queue (Endpoint [] (ep_senders ep ++ [(cur, m)])) /\
        k_threads k1 = <[cur := t]> (k_threads k) /\ th_state t = SCHED_STATE_SENDING /\
        th_state (set_sender_state t) = SCHED_STATE_STOPPED /\
        forall (k2 : kernel A) t2, k_threads k2 !! cur = Some t2 -> th_state t2 = SCHED_STATE_RUNNING ->
          after_fault cur k2 = sched_thread_yield cpu num_cpus clock
            (set_k_threads (<[cur := set_th_state SCHED_STATE_STOPPED t2]> (k_threads k2)) k2)
  end.
Proof.
  intros Herr Hpager Hq Hrep Hready Hfree m. pose proof Hready as [Hc Hnull Hct _].
  destruct (faulted_rep k queue ep cur c Hrep Hready) as [Hrep1 Hready1].
  pose proof (page_fault_message_run cr_2 (if_eip frame) (fault_perms frame) k cur c Hc Hnull Hct ltac:(congruence)) as Hrun.
  pose proof (message_send_ok cpu num_cpus apic_is_enabled clock _ queue ep cur _ (Local m) m Hrep1 Hready1 Hfree eq_refl (fun _ => eq_refl)) as Hsend.
  set (k' := set_k_threads _ k) in *. rewrite Hpager in Hrun.
  assert (Hhandler : page_fault_handler cr_2 frame k =
    (_ ← page_fault_message cpu num_cpus apic_is_enabled clock cr_2 (if_eip frame) (fault_perms frame); mret (Some frame)) k).
  { unfold page_fault_handler. by rewrite Herr. }
  destruct (ep_recievers ep) as [|r rs] eqn:Hrs.
  - destruct Hsend as (k1 & _ & Hrep2 & Hts & Hs). exists k1, (set_th_state SCHED_STATE_SENDING
      (set_th_message m (SET_FLAG THREAD_FLAG_FAULTED c))).
    rewrite Hhandler. split; [|split; [exact Hrep2|split; [|split; [done|split]]]].
    + apply R_same. rewrite Hrun. by apply R_same.
    + rewrite Hts. unfold k'. simpl. apply insert_insert_eq.
    + unfold set_sender_state. change (FLAG _ THREAD_FLAG_FAULTED) with (FLAG (SET_FLAG THREAD_FLAG_FAULTED c) THREAD_FLAG_FAULTED).
      by rewrite set_faulted.
    + intros k2 t2 Ht2 Hst. unfold after_fault. erewrite R_lift; [reflexivity|].
      unfold sched_thread_stop. rewrite ST_bind_eq, (thread_get_ok _ _ _ Ht2), Hst. cbn [Z.eqb]. by apply thread_update_ok.
  - destruct Hsend as (k1 & t & o & Ht & _ & _ & Hl & Hts & Hs). exists k1, t, o. rewrite Hhandler.
    split; [|split; [|split; [exact Hts|split; [exact Hl|intros k2 t2 ep2; apply fault_sent_ok]]]].
    + apply R_same. rewrite Hrun. by apply R_same.
    + unfold k' in Ht. simpl in Ht. rewrite lookup_insert_ne in Ht; [done|]. intros ->.
      destruct Hready as [_ _ _ Hout]. apply Hout. unfold ep_threads. rewrite Hrs. apply elem_of_app. left. apply elem_of_cons. by left.
Qed.
End faults.

(** ** The timer *)

Record tick (A : Type) := Tick {
  tk_kernel : kernel A;
  tk_lapic : lapic;
  tk_counter : Z;  (** [counter] *)
  tk_called : list bool;  (** [called] *)
  tk_lock : bool;  (** [asdf.lock] *)
}.
Arguments Tick {A} _ _ _ _ _.
Arguments tk_kernel {A} _.
Arguments tk_lapic {A} _.
Arguments tk_counter {A} _.
Arguments tk_called {A} _.
Arguments tk_lock {A} _.

Section timer.
Context {A : Type} `{!Allocator A}.
Context (cpu : nat) (num_cpus : Z) (clock : nat -> Z).
Context (device : list port_event -> query -> Z) (fuel : nat).

Abbreviation TK := (ST (tick A)).

Definition on_lapic {B} (m : LA B) : TK B :=
  zoom tk_lapic (fun l s => Tick (tk_kernel s) l (tk_counter s) (tk_called s) (tk_lock s)) m.

(** the first interrupt of a processor prints the pending interrupts *)
Definition timer_first (id : Z) : TK unit :=
  called ← (fun s => match tk_called s !! Z.to_nat id with Some b => Some (b, s) | None => None end);
  if negb called then
    _ ← modify (fun s => Tick (tk_kernel s) (tk_lapic s) (tk_counter s) (<[Z.to_nat id := true]> (tk_called s)) (tk_lock s));
    _ ← on_lapic (on_io (apic_debug_isr device));
    on_lapic (on_io (apic_debug_irr device))
  else mret tt.

(** up to the release of the lock *)
Definition timer_arm : TK unit :=
  _ ← modify (fun s =>
        if tk_counter s =? 0 then Tick (tk_kernel s) (tk_lapic s) (w32 (tk_counter s + 1)) (tk_called s) (mx_lock mutex_init) else s);
  _ ← (fun s => if tk_lock s then None else Some (tt, Tick (tk_kernel s) (tk_lapic s) (tk_counter s) (tk_called s) true));
  _ ← modify (fun s => Tick (tk_kernel s) (tk_lapic s) (w32 (tk_counter s + 1)) (tk_called s) (tk_lock s));
  enabled ← on_lapic apic_is_enabled;
  _ ← (if (enabled : bool) then
         id ← on_lapic (on_io (apic_get_id device));
         _ ← timer_first id;
         ticks ← on_lapic (apic_timer_usec_to_ticks device fuel 10000);
         on_lapic (on_io (apic_timer_one_shot device ticks))
       else mret tt);
  modify (fun s => Tick (tk_kernel s) (tk_lapic s) (tk_counter s) (tk_called s) false).

Definition timer_handler : RST (tick A) unit :=
  _ ← lift timer_arm;
  rzoom tk_kernel (fun k s => Tick k (tk_lapic s) (tk_counter s) (tk_called s) (tk_lock s))
    (sched_switch_thread cpu num_cpus clock).
End timer.

(** accesses that only read *)
Definition is_read (e : port_event) : bool :=
  match e with Inb _ _ | MmioRead _ _ | MsrRead _ _ _ | Tsc _ => true | _ => false end.
Definition only_read (p p' : ports) : Prop :=
  po_initialized p' = po_initialized p /\
  exists t, po_trace p' = po_trace p ++ t /\ Forall (fun e => is_read e = true) t.

Lemma only_read_refl p : only_read p p.
Proof. split; [done|]. exists []. by rewrite app_nil_r. Qed.
Lemma only_read_trans p1 p2 p3 : only_read p1 p2 -> only_read p2 p3 -> only_read p1 p3.
Proof.
  intros [H1 (t1 & E1 & F1)] [H2 (t2 & E2 & F2)]. split; [congruence|]. exists (t1 ++ t2).
  split; [by rewrite E2, E1, app_assoc|by apply Forall_app].
Qed.
Lemma only_read_one p e : is_read e = true -> only_read p (Ports (po_trace p ++ [e]) (po_initialized p)).
Proof. intros He. split; [done|]. exists [e]. split; [done|]. by constructor. Qed.

Section timer_spec.
Context {A : Type} `{!Allocator A}.
Context (cpu : nat) (num_cpus : Z) (clock : nat -> Z).
Context (device : list port_event -> query -> Z) (fuel : nat) (base : Z) (Hat : apic_at base).
Context (Hbase : forall t, io_phys_to_virt (Z.land (w32 (w64 (device t (QMsr IA32_MSR_APIC_BASE)))) (w32 (Z.lnot 0xfff))) = base).

Lemma get_base_reads p : exists p', apic_get_base device p = Some (base, p') /\ only_read p p'.
Proof.
  destruct (apic_get_base_ok device base Hbase p) as (low & high & Hrun). eexists. split; [exact Hrun|].
  by apply only_read_one.
Qed.

Lemma debug_regs_reads k apic i p : exists p', apic_debug_regs device k apic i p = Some (tt, p') /\ only_read p p'.
Proof.
  revert i p. induction k as [|k IH]; intros i p; cbn [apic_debug_regs].
  - exists p. split; [done|apply only_read_refl].
  - set (p1 := Ports (po_trace p ++ [MmioRead (w32 (apic + 4 * (i / 4))) (w32 (device (po_trace p) (QMmio (w32 (apic + 4 * (i / 4))))))])
      (po_initialized p)).
    destruct (IH (i + 0x10) p1) as (p2 & Hrun & Hr). exists p2. split.
    + rewrite (ST_run _ _ _ (w32 (device (po_trace p) (QMmio (w32 (apic + 4 * (i / 4)))))) p1) by reflexivity. exact Hrun.
    + eapply only_read_trans; [|exact Hr]. by apply only_read_one.
Qed.

Lemma debug_reads i p :
  exists p', (apic ← apic_get_base device; apic_debug_regs device 8 apic i) p = Some (tt, p') /\ only_read p p'.
Proof.
  destruct (get_base_reads p) as (p1 & H1 & R1). destruct (debug_regs_reads 8 base i p1) as (p2 & H2 & R2).
  exists p2. rewrite (ST_run _ _ _ _ _ H1). split; [done|]. by eapply only_read_trans.
Qed.

Lemma get_id_reads p : exists t p', apic_get_id device p = Some (Z.shiftr (w32 (device t (QMmio (base + 0x20)))) 24, p') /\ only_read p p'.
Proof.
  destruct (get_base_reads p) as (p1 & H1 & R1). unfold apic_get_id.
  pose proof (apic_read_run device base APIC_REG_ID p1 Hat ltac:(unfold APIC_REG_ID; lia) eq_refl) as H2. cbn zeta in H2.
  eexists (po_trace p1), _. rewrite (ST_run _ _ _ _ _ H1), (ST_run _ _ _ _ _ H2). split; [reflexivity|].
  eapply only_read_trans; [exact R1|]. by apply only_read_one.
Qed.

(** the three writes that start the timer, once *)
Definition armed (count : Z) : list port_event :=
  [MmioWrite (base + 0x320) 32; MmioWrite (base + 0x3e0) 3; MmioWrite (base + 0x380) count].

Lemma one_shot_arms count p : 0 <= count < 2 ^ 32 -> exists p' low high,
  apic_timer_one_shot device count p = Some (tt, p') /\
  po_trace p' = po_trace p ++ [MsrRead IA32_MSR_APIC_BASE low high] ++ armed count.
Proof.
  intros Hc. destruct (apic_get_base_ok device base Hbase p) as (low & high & H1). unfold apic_timer_one_shot.
  change (Z.lor APIC_TIMER_ONE_SHOT timer_vector) with 32. eexists _, low, high.
  rewrite (ST_run _ _ _ _ _ H1).
  rewrite (ST_run _ _ _ _ _ (apic_write_run base APIC_REG_LOCAL_TIMER 32 _ Hat ltac:(unfold APIC_REG_LOCAL_TIMER; lia) eq_refl ltac:(lia))).
  rewrite (ST_run _ _ _ _ _ (apic_write_run base APIC_REG_TIMER_DIV_CONF APIC_TIMER_DIV_16 _ Hat
    ltac:(unfold APIC_REG_TIMER_DIV_CONF; lia) eq_refl ltac:(unfold APIC_TIMER_DIV_16; lia))).
  rewrite (apic_write_run base APIC_REG_TIMER_INIT_COUNT count _ Hat ltac:(unfold APIC_REG_TIMER_INIT_COUNT; lia) eq_refl Hc).
  split; [reflexivity|]. cbn [po_trace]. rewrite <- !app_assoc. reflexivity.
Qed.

(** 10 ms are the ticks measured in 10 ms *)
Lemma ticks_of_10ms s : 0 < la_ticks s < 2 ^ 32 -> apic_timer_usec_to_ticks device fuel 10000 s = Some (la_ticks s, s).
Proof.
  intros Ht. unfold apic_timer_usec_to_ticks. rewrite (ST_run _ _ _ (la_ticks s) s) by done.
  rewrite (proj2 (Z.eqb_neq (la_ticks s) 0)) by lia. rewrite (ST_run _ _ _ tt s) by done.
  rewrite (ST_run _ _ _ (la_ticks s) s) by done. unfold mret, ST_ret.
  rewrite w64_small by lia. rewrite Z.div_mul by done. by rewrite w32_small by lia.
Qed.

Definition with_lapic (l : lapic) (s : tick A) : tick A :=
  Tick (tk_kernel s) l (tk_counter s) (tk_called s) (tk_lock s).
Lemma on_lapic_run {B} (m : LA B) (s : tick A) b l : m (tk_lapic s) = Some (b, l) -> on_lapic m s = Some (b, with_lapic l s).
Proof. intros Hm. unfold on_lapic, zoom. by rewrite Hm. Qed.

Lemma timer_first_ok (s : tick A) id b :
  tk_called s !! Z.to_nat id = Some b -> exists s', timer_first device id s = Some (tt, s') /\
    tk_kernel s' = tk_kernel s /\ tk_counter s' = tk_counter s /\ tk_lock s' = tk_lock s /\
    tk_called s' = <[Z.to_nat id := true]> (tk_called s) /\
    tk_lapic s' = with_ports (la_ports (tk_lapic s')) (tk_lapic s) /\
    only_read (la_ports (tk_lapic s)) (la_ports (tk_lapic s')).
Proof.
  intros Hb. unfold timer_first. rewrite (ST_run _ _ _ b s) by (by rewrite Hb). destruct b; cbn [negb].
  - exists s. split_and!; try done; [by rewrite list_insert_id|by destruct s as [? []]|apply only_read_refl].
  - set (s1 := Tick (tk_kernel s) (tk_lapic s) (tk_counter s) (<[Z.to_nat id := true]> (tk_called s)) (tk_lock s)).
    rewrite (ST_run _ _ s tt s1) by done.
    destruct (debug_reads APIC_REG_IN_SERVICE (la_ports (tk_lapic s))) as (p1 & H1 & R1).
    destruct (debug_reads APIC_REG_INTR_REQUEST p1) as (p2 & H2 & R2).
    rewrite (ST_run _ _ _ _ _ (on_lapic_run _ s1 _ _ (on_io_run _ (tk_lapic s) _ _ H1))).
    exists (with_lapic (with_ports p2 (tk_lapic s)) s1). split_and!; try done; [|by eapply only_read_trans].
    exact (on_lapic_run _ (with_lapic (with_ports p1 (tk_lapic s)) s1) _ _ (on_io_run _ (with_ports p1 (tk_lapic s)) _ _ H2)).
Qed.

(** C31: a timer interrupt on a processor whose timer was measured before ends
    by starting the timer for the next 10 ms, after accesses that only read,
    and calls the scheduler with the lock of the handler free again and the
    threads as they were: as long as the processor takes interrupts, the
    scheduler is called again. *)
Theorem timer_handler_spec (s : tick A) :
  tk_lock s = false \/ tk_counter s = 0 -> la_enabled (tk_lapic s) = true -> 0 < la_ticks (tk_lapic s) < 2 ^ 32 ->
  (forall t, Z.shiftr (w32 (device t (QMmio (base + 0x20)))) 24 < Z.of_nat (length (tk_called s))) ->
  exists s' t,
    timer_handler cpu num_cpus clock device fuel s =
      rzoom tk_kernel (fun k s => Tick k (tk_lapic s) (tk_counter s) (tk_called s) (tk_lock s))
        (sched_switch_thread cpu num_cpus clock) s' /\
    tk_kernel s' = tk_kernel s /\ tk_lock s' = false /\
    tk_counter s' = w32 ((if tk_counter s =? 0 then 1 else tk_counter s) + 1) /\
    la_ticks (tk_lapic s') = la_ticks (tk_lapic s) /\ la_enabled (tk_lapic s') = true /\
    po_trace (la_ports (tk_lapic s')) = po_trace (la_ports (tk_lapic s)) ++ t ++ armed (la_ticks (tk_lapic s)) /\
    Forall (fun e => is_read e = true) t.
Proof.
  intros Hlock Hen Hticks Hid. set (n := if tk_counter s =? 0 then 1 else tk_counter s).
  set (s1 := Tick (tk_kernel s) (tk_lapic s) (w32 (n + 1)) (tk_called s) true).
  destruct (get_id_reads (la_ports (tk_lapic s))) as (t0 & p1 & H1 & R1). specialize (Hid t0).
  set (id := Z.shiftr _ _) in *. set (s2 := with_lapic (with_ports p1 (tk_lapic s)) s1).
  assert (Hid0 : 0 <= id) by (apply Z.shiftr_nonneg, w32_range).
  destruct (lookup_lt_is_Some_2 (tk_called s) (Z.to_nat id) ltac:(lia)) as [b Hb].
  destruct (timer_first_ok s2 id b Hb) as (s3 & H3 & Hk3 & Hc3 & Hl3 & _ & Hla3 & R3).
  assert (Ht3 : la_ticks (tk_lapic s3) = la_ticks (tk_lapic s)) by (by rewrite Hla3).
  destruct (one_shot_arms (la_ticks (tk_lapic s)) (la_ports (tk_lapic s3)) ltac:(lia)) as (p4 & low & high & H4 & E4).
  set (s4 := with_lapic (with_ports p4 (tk_lapic s3)) s3).
  destruct (only_read_trans _ _ _ R1 R3) as [_ (t & Et & Ft)].
  exists (Tick (tk_kernel s4) (tk_lapic s4) (tk_counter s4) (tk_called s4) false), (t ++ [MsrRead IA32_MSR_APIC_BASE low high]).
  split.
  - unfold timer_handler. refine (R_lift (timer_arm device fuel) (fun _ => _) s tt _ _). unfold timer_arm.
    assert (Hs1 : forall f : unit -> ST (tick A) unit, (_ ← modify (fun s : tick A =>
        if tk_counter s =? 0 then Tick (tk_kernel s) (tk_lapic s) (w32 (tk_counter s + 1)) (tk_called s) (mx_lock mutex_init) else s);
      _ ← (fun s => if tk_lock s then None else Some (tt, Tick (tk_kernel s) (tk_lapic s) (tk_counter s) (tk_called s) true));
      _ ← modify (fun s => Tick (tk_kernel s) (tk_lapic s) (w32 (tk_counter s + 1)) (tk_called s) (tk_lock s)); f tt) s = f tt s1).
    { intros f. rewrite ST_bind_eq. unfold modify. unfold s1, n. destruct (Z.eqb_spec (tk_counter s) 0) as [E|E].
      - rewrite ST_bind_eq. simpl. rewrite ST_bind_eq. cbn [tk_counter]. by rewrite E.
      - destruct Hlock as [Hlock|]; [|done]. rewrite ST_bind_eq, Hlock. done. }
    rewrite (Hs1 (fun _ => _)). assert (He : apic_is_enabled (tk_lapic s) = Some (true, tk_lapic s)) by (unfold apic_is_enabled, gets; by rewrite Hen).
    rewrite (ST_run _ _ _ _ _ (on_lapic_run _ s1 _ _ He)). change (with_lapic (tk_lapic s) s1) with s1.
    rewrite !ST_bind_eq.
    rewrite (on_lapic_run _ s1 _ _ (on_io_run _ (tk_lapic s) _ _ H1)). fold s2.
    rewrite ST_bind_eq, H3, ST_bind_eq.
    rewrite (on_lapic_run _ s3 _ _ (ticks_of_10ms (tk_lapic s3) ltac:(by rewrite Ht3))).
    pose proof H4 as H5. rewrite <- Ht3 in H5.
    rewrite (on_lapic_run _ (with_lapic (tk_lapic s3) s3) _ _ (on_io_run _ (tk_lapic s3) _ _ H5)). reflexivity.
  - assert (Hen3 : la_enabled (tk_lapic s3) = true) by (by rewrite Hla3).
    split; [exact Hk3|]. split; [done|]. split; [exact Hc3|]. split; [exact Ht3|]. split; [exact Hen3|].
    split; [|apply Forall_app; split; [done|by constructor]].
    unfold s4. cbn [tk_lapic with_lapic la_ports with_ports]. rewrite E4, Et, <- !app_assoc. done.
Qed.
End timer_spec.

(** ** On concrete states *)

Definition ex_faulter : thread := set_th_pager 0x8000 runner.
Definition ex_fault_frame : interrupt_frame := InterruptFrame 0 0 0 0 0 0 7 33 14 6 0x1000.

(** a write of a program to 0xdead000, whose pager waits for nothing yet *)
Lemma page_fault_handler_spec_witness : exists k1 t,
  page_fault_handler 0 1 false clock_ex 0xdead000 ex_fault_frame (ipc_ex ex_faulter waiter [] []) =
    (_ ← (_ ← sched_thread_yield 0 1 clock_ex; after_fault 0 1 clock_ex 0x10); mret (Some ex_fault_frame)) k1 /\
  ep_rep 0 k1 0x8000 (Endpoint [] [(0x10, Message MESSAGE_TYPE_PAGE_FAULT 0 [0xdead000; 0x1000; PAGE_WRITE; 0; 0; 0])]) /\
  k_threads k1 !! 0x10 = Some t /\ th_state t = SCHED_STATE_SENDING.
Proof.
  assert (Hrep : ep_rep 0 (ipc_ex ex_faulter waiter [] []) 0x8000 (Endpoint [] [])).
  { split; [by eexists|done|done|apply NoDup_nil_2|by right]. }
  assert (Hready : ready 0 (ipc_ex ex_faulter waiter [] []) 0x10 ex_faulter (Endpoint [] [])) by (split; try done; set_solver).
  destruct (page_fault_handler_spec 0 1 false clock_ex 0xdead000 ex_fault_frame (ipc_ex ex_faulter waiter [] []) 0x8000
    (Endpoint [] []) 0x10 ex_faulter eq_refl eq_refl ltac:(done) Hrep Hready ltac:(by left)) as (k1 & t & Hrun & Hr & Hts & Hst & _).
  exists k1, t. split; [exact Hrun|]. split; [exact Hr|]. split; [|exact Hst]. rewrite Hts. apply lookup_insert_eq.
Defined.

Definition ex_tick_device (t : list port_event) (q : query) : Z :=
  match q with QMsr _ => 0xfee00900 | _ => 0 end.
Definition ex_tick : tick BumpPages.t :=
  Tick kernel_ex (Lapic (Ports [] true) true 125000 1 1) 0 (replicate 32 false) false.

Lemma timer_handler_spec_witness : exists s' t,
  timer_handler 0 1 clock_ex ex_tick_device 2 ex_tick =
    rzoom tk_kernel (fun k s => Tick k (tk_lapic s) (tk_counter s) (tk_called s) (tk_lock s))
      (sched_switch_thread 0 1 clock_ex) s' /\
  tk_counter s' = 2 /\ po_trace (la_ports (tk_lapic s')) = t ++ armed ex_apic_base 125000.
Proof.
  destruct (timer_handler_spec 0 1 clock_ex ex_tick_device 2 ex_apic_base ex_apic_at ltac:(intros t; by vm_compute) ex_tick)
    as (s' & t & Hrun & _ & _ & Hc & _ & _ & Ht & _).
  - by left.
  - done.
  - simpl. lia.
  - intros t. by vm_compute.
  - exists s', t. split; [exact Hrun|]. split; [exact Hc|exact Ht].
Defined.
