(* ===== verification/Start.v ===== *)
(** A processor that has been started: [smp_thing] of [arch/x86/apic-utils.c],
    up to the loop in which it waits for interrupts.

    It runs on the state of four components; the messages to the console are
    left out, but the registers they print are read. *)
From S2P Require Export Handlers.

Record started (A : Type) := Started {
  sd_lapic : lapic;
  sd_segments : segments;
  sd_idt : idt A;
  sd_kernel : kernel A;
  sd_interrupts : bool;  (** the interrupt flag *)
}.
Arguments Started {A} _ _ _ _ _.
Arguments sd_lapic {A} _.
Arguments sd_segments {A} _.
Arguments sd_idt {A} _.
Arguments sd_kernel {A} _.
Arguments sd_interrupts {A} _.

Section start.
Context {A : Type} `{!Allocator A} `{!Pages A}.
Context (device : list port_event -> query -> Z) (arrivals : list port_event -> list Z).
(** the address of [idle_thread] *)
Context (idle_entry : Z).

Abbreviation SD := (ST (started A)).

Definition sd_on_lapic {B} (m : LA B) : SD B :=
  zoom sd_lapic (fun x s => Started x (sd_segments s) (sd_idt s) (sd_kernel s) (sd_interrupts s)) m.
Definition sd_on_segments {B} (m : ST segments B) : SD B :=
  zoom sd_segments (fun x s => Started (sd_lapic s) x (sd_idt s) (sd_kernel s) (sd_interrupts s)) m.
Definition sd_on_idt {B} (m : ST (idt A) B) : SD B :=
  zoom sd_idt (fun x s => Started (sd_lapic s) (sd_segments s) x (sd_kernel s) (sd_interrupts s)) m.
Definition sd_on_kernel {B} (m : ST (kernel A) B) : SD B :=
  zoom sd_kernel (fun x s => Started (sd_lapic s) (sd_segments s) (sd_idt s) x (sd_interrupts s)) m.
Definition set_interrupts (b : bool) : SD unit :=
  modify (fun s => Started (sd_lapic s) (sd_segments s) (sd_idt s) (sd_kernel s) b).

(** up to the first [sti]; from there the processor halts between interrupts *)
Definition smp_thing (cpu_num : Z) : SD unit :=
  _ ← set_interrupts false;
  _ ← sd_on_lapic (cpu_register cpu_num);
  _ ← sd_on_lapic (apic_enable device);
  cur ← sd_on_lapic (sched_current_cpu device arrivals);
  _ ← sd_on_segments (init_cpu_segment_descs cur cpu_num);
  _ ← sd_on_idt init_cpu_interrupts;
  cur ← sd_on_lapic (sched_current_cpu device arrivals);
  _ ← sd_on_kernel (sched_init_cpu (Z.to_nat cur) idle_entry);
  _ ← sd_on_lapic (on_io (apic ← apic_get_base device; apic_read device apic APIC_REG_TASK_PRIORITY));
  _ ← sd_on_lapic (on_io (apic_timer_one_shot device 0x8000000));
  set_interrupts true.
End start.

Section start_spec.
Context {A : Type} `{!Allocator A} `{!Pages A} `{!AllocatorLaws A} `{!PagesLaws A}.
Context (device : list port_event -> query -> Z) (arrivals : list port_event -> list Z) (idle_entry base cpu_num id : Z).
Context (Hat : apic_at base).
(** the base the hardware reports, and the number of this processor as its
    controller has it *)
Context (Hbase : forall t, io_phys_to_virt (Z.land (w32 (w64 (device t (QMsr IA32_MSR_APIC_BASE)))) (w32 (Z.lnot 0xfff))) = base).
Context (Hid : forall t, Z.shiftr (w32 (device t (QMmio (base + 0x20)))) 24 = id).

(** the number is the upper byte of a word *)
Lemma id_range : 0 <= id < 256.
Proof using Hid.
  rewrite <- (Hid []), Z.shiftr_div_pow2 by done. pose proof (w32_range (device [] (QMmio (base + 0x20)))) as Hr.
  split; [by apply Z.div_pos; [apply Hr|]|]. apply Z.div_lt_upper_bound; [done|]. apply Hr.
Qed.

(** accesses to devices end, whatever they answer *)
Lemma apic_enable_ok (l : lapic) : exists p,
  apic_enable device l = Some (tt, Lapic p true (la_ticks l) (la_booted l) (la_num_booted l)).
Proof. eexists. reflexivity. Qed.

Lemma current_cpu_ok (l : lapic) : 1 < la_num_booted l ->
  (forall t, la_num_booted l + Z.of_nat (length (arrivals t)) < 2 ^ 32) ->
  exists p, sched_current_cpu device arrivals l = Some (id, with_ports p l).
Proof using Hat Hbase Hid.
  intros Hn Hmax. unfold sched_current_cpu, sched_num_cpus, num_booted_cpus. rewrite ST_bind_eq. cbv beta.
  rewrite w32_small by (specialize (Hmax (po_trace (la_ports l))); lia). rewrite (proj2 (Z.ltb_lt 1 _)) by lia.
  destruct (get_id_reads device base Hat Hbase (la_ports l)) as (t & p & Hrun & _). rewrite Hid in Hrun.
  exists p. by apply on_io_run.
Qed.

Lemma sd_lapic_run {B} (m : LA B) (s : started A) b l : m (sd_lapic s) = Some (b, l) ->
  sd_on_lapic m s = Some (b, Started l (sd_segments s) (sd_idt s) (sd_kernel s) (sd_interrupts s)).
Proof. intros Hm. unfold sd_on_lapic, zoom. by rewrite Hm. Qed.

(** the idle thread of a processor *)
Lemma sched_init_cpu_ok n cpu (k : kernel A) : (cpu < length (k_idle k))%nat -> thread_room (S (S (S n))) k ->
  exists t th a, let k' := set_k_current (<[cpu := NULL]> (k_current k)) (set_k_idle (<[cpu := t]> (k_idle k))
      (set_k_thread_counter (w32 (k_thread_counter k + 1)) (set_k_threads (<[t := th]> (k_threads k)) (set_k_thread_slab a k)))) in
    sched_init_cpu cpu idle_entry k = Some (tt, k') /\ k_threads k !! t = None /\ t <> NULL /\
    tr_eip (th_registers th) = idle_entry /\ thread_room n k'.
Proof.
  intros Hc Hroom. destruct (thread_create_kthread_ok n k idle_entry Hroom) as (t & th & a & R & Ht & Hn & He & _ & _ & _ & Hroom').
  exists t, th, a. split; [|split; [done|split; [done|split; [done|by destruct Hroom']]]].
  unfold sched_init_cpu. rewrite (ST_run _ _ _ _ _ R). rewrite ST_bind_eq. cbv beta. simpl. by rewrite decide_True.
Qed.

(** the number of this processor, when asked for on the way *)
Lemma sd_current_cpu_ok (s : started A) : 1 < la_num_booted (sd_lapic s) ->
  (forall t, la_num_booted (sd_lapic s) + Z.of_nat (length (arrivals t)) < 2 ^ 32) ->
  exists p, sd_on_lapic (sched_current_cpu device arrivals) s =
    Some (id, Started (with_ports p (sd_lapic s)) (sd_segments s) (sd_idt s) (sd_kernel s) (sd_interrupts s)).
Proof using Hat Hbase Hid.
  intros Hn Hmax. destruct (current_cpu_ok _ Hn Hmax) as (p & Hrun). exists p. by apply (sd_lapic_run _ s).
Qed.

(** C35: a processor that was started as number [cpu_num], below 32, counts itself
    under that number among those that run, enables its controller, starts its
    timer, and only then takes interrupts. The task segment it loads, and the
    slots in which it puts an idle thread and no current one, are those of the
    number [id] that its controller has, which the code takes to be the same; all
    other slots stay. No step faults, where the hardware reports the base at which
    the controller's registers are and that one number, whatever else the
    devices answer, another processor is counted already and fewer than 2^32
    are, the tables have a slot for [id], and there is memory for the thread. *)
Theorem smp_thing_spec (s : started A) :
  0 <= cpu_num < 32 -> 0 < la_num_booted (sd_lapic s) ->
  (forall t, la_num_booted (sd_lapic s) + 1 + Z.of_nat (length (arrivals t)) < 2 ^ 32) ->
  (Z.to_nat id < length (k_idle (sd_kernel s)))%nat ->
  thread_room 3 (sd_kernel s) ->
  exists s' t tr, smp_thing device arrivals idle_entry cpu_num s = Some (tt, s') /\ sd_interrupts s' = true /\
    la_booted (sd_lapic s') = Z.lor (la_booted (sd_lapic s)) (Z.shiftl 1 cpu_num) /\
    la_num_booted (sd_lapic s') = la_num_booted (sd_lapic s) + 1 /\ la_enabled (sd_lapic s') = true /\
    sg_gdtr (sd_segments s') = Some (sg_gdt (sd_segments s)) /\ sg_tr (sd_segments s') = Some (8 * (5 + id)) /\
    it_loaded (sd_idt s') = Some (it_idtr (sd_idt s)) /\
    k_threads (sd_kernel s) !! t = None /\ k_idle (sd_kernel s') = <[Z.to_nat id := t]> (k_idle (sd_kernel s)) /\
    k_current (sd_kernel s') = <[Z.to_nat id := NULL]> (k_current (sd_kernel s)) /\
    k_run_tree (sd_kernel s') = k_run_tree (sd_kernel s) /\
    po_trace (la_ports (sd_lapic s')) = tr ++ armed base 0x8000000.
Proof using All.
  intros Hc Hn Hmax Hidle Hroom. destruct s as [l sg it k i]. simpl in Hn, Hmax, Hidle, Hroom. cbn [sd_lapic sd_segments sd_idt sd_kernel].
  assert (Hid0 : 0 <= id < 256) by (by apply id_range).
  pose proof (Hmax []) as H0. assert (Hreg : cpu_register cpu_num l = Some (tt, Lapic (la_ports l) (la_enabled l) (la_ticks l)
    (Z.lor (la_booted l) (Z.shiftl 1 cpu_num)) (la_num_booted l + 1))).
  { unfold cpu_register, cpu_bit. rewrite (proj2 (Z.leb_le 0 _)), (proj2 (Z.ltb_lt _ 32)) by lia. cbn [andb].
    rewrite ST_bind_eq. unfold mret, ST_ret, modify. rewrite w32_small by lia. done. }
  set (l1 := Lapic _ _ _ _ _) in Hreg. destruct (apic_enable_ok l1) as [p2 R2]. set (l2 := Lapic _ _ _ _ _) in R2.
  destruct (sd_current_cpu_ok (Started l2 sg it k false) ltac:(simpl; lia) ltac:(simpl; intros t; specialize (Hmax t); lia)) as [p3 R3].
  set (l3 := with_ports p3 _) in R3. cbn [sd_segments sd_idt sd_kernel sd_interrupts] in R3.
  set (sg' := Segments (sg_task_segments sg) (sg_gdt sg) (sg_descripts sg) (Some (sg_gdt sg)) (Some (selector (5 + id) SEG_TABLE_GDT (ring 0)))).
  set (it' := Idt (it_table it) (it_handlers it) (it_stats it) (it_idtr it) (Some (it_idtr it))).
  destruct (sd_current_cpu_ok (Started l3 sg' it' k false) ltac:(simpl; lia) ltac:(simpl; intros t; specialize (Hmax t); lia)) as [p4 R4].
  set (l4 := with_ports p4 _) in R4. cbn [sd_segments sd_idt sd_kernel sd_interrupts] in R4.
  destruct (sched_init_cpu_ok 0 (Z.to_nat id) k Hidle Hroom) as (t & th & a & R5 & Ht & _). cbn zeta in R5.
  set (k' := set_k_current _ _) in R5.
  destruct (apic_get_base_ok device base Hbase (la_ports l4)) as (low & high & R6).
  pose proof (apic_read_run device base APIC_REG_TASK_PRIORITY _ Hat ltac:(unfold APIC_REG_TASK_PRIORITY; lia) eq_refl
    : apic_read device base APIC_REG_TASK_PRIORITY (Ports (po_trace (la_ports l4) ++ [MsrRead IA32_MSR_APIC_BASE low high]) (po_initialized (la_ports l4))) = _) as R7.
  cbn zeta in R7. set (p7 := Ports (_ ++ [MmioRead _ _]) _) in R7.
  destruct (one_shot_arms device base Hat Hbase 0x8000000 p7 ltac:(lia)) as (p8 & low' & high' & R8 & E8).
  exists (Started (with_ports p8 (with_ports p7 l4)) sg' it' k' true), t, (po_trace p7 ++ [MsrRead IA32_MSR_APIC_BASE low' high']).
  split; [|split_and!; try done].
  - unfold smp_thing. rewrite (ST_run _ _ _ tt (Started l sg it k false)) by done.
    rewrite (ST_run _ _ _ _ _ (sd_lapic_run _ (Started l sg it k false) _ _ Hreg)).
    rewrite (ST_run _ _ _ _ _ (sd_lapic_run _ (Started l1 sg it k false) _ _ R2)), (ST_run _ _ _ _ _ R3).
    rewrite (ST_run _ _ _ tt (Started l3 sg' it k false)) by done. rewrite (ST_run _ _ _ tt (Started l3 sg' it' k false)) by done.
    rewrite (ST_run _ _ _ _ _ R4). rewrite (ST_run _ _ _ tt (Started l4 sg' it' k' false)) by (unfold sd_on_kernel, zoom; simpl; by rewrite R5).
    rewrite (ST_run _ _ _ _ _ (sd_lapic_run _ (Started l4 sg' it' k' false) _ _ (on_io_run _ l4 _ p7 (eq_trans (ST_run _ _ _ _ _ R6) R7)))).
    rewrite (ST_run _ _ _ _ _ (sd_lapic_run _ (Started (with_ports p7 l4) sg' it' k' false) _ _ (on_io_run _ (with_ports p7 l4) _ p8 R8))). done.
  - change (Some (selector (5 + id) SEG_TABLE_GDT (ring 0)) = Some (8 * (5 + id))). f_equal. rewrite (selector_eq (5 + id) (ring 0)) by (unfold ring; lia). unfold ring. lia.
  - cbn [sd_lapic with_ports la_ports]. rewrite E8, <- app_assoc. done.
Qed.
End start_spec.

(** ** On a concrete state *)

(** the registers of processor 1 *)
Definition ex_start_device (t : list port_event) (q : query) : Z :=
  match q with QMsr _ => 0xfee00900 | _ => 0x1000000 end.
Definition ex_started : started BumpPages.t :=
  Started (Lapic (Ports [] true) false 125000 1 1) (Segments [] (303, 0xfd010000) [] None None)
    (Idt [] [] [] (2047, 0xfd020000) None) (set_k_threads ∅ kernel_ex) true.

Lemma smp_thing_spec_witness : exists s', smp_thing ex_start_device (fun _ => []) 0xfd003000 1 ex_started = Some (tt, s') /\
  la_booted (sd_lapic s') = 3 /\ sg_tr (sd_segments s') = Some 0x30.
Proof.
  destruct (smp_thing_spec ex_start_device (fun _ => []) 0xfd003000 ex_apic_base 1 1 ex_apic_at ltac:(intros t; by vm_compute)
    ltac:(intros t; by vm_compute) ex_started) as (s' & t & tr & Hrun & _ & Hb & _ & _ & _ & Htr & _).
  - done.
  - done.
  - intros t. simpl. lia.
  - simpl. lia.
  - split.
    + split; [split; [done|set_solver]|split_and!; [done|done|set_solver]].
    + apply BumpPages.bump_rooms. simpl. lia.
    + intros p [x Hx]. simpl in Hx. by rewrite lookup_empty in Hx.
  - exists s'. split; [exact Hrun|]. split; [by rewrite Hb|by rewrite Htr].
Defined.
