(* ===== verification/Init.v ===== *)
(** The first program: [sigma0_load], and the thread that sends it the memory
    of the machine, of [arch/x86/init.c].

    Bytes are at physical addresses; the code copies through the translation of
    the directory that is current, so that what it writes is what the program
    sees.  The nodes of the memory map are those of [Boot]. *)
From S2P Require Export Handlers Boot PageDir.

Record init (A : Type) := Init {
  in_kernel : kernel A;
  in_mem : bytes;  (** by physical address *)
  in_maps : gmap Z phys_memmap;
  in_sigma0_maps : Z;  (** [sigma0_maps] *)
  in_sigma0_msgq : Z;  (** [sigma0_msgq] *)
}.
Arguments Init {A} _ _ _ _ _.
Arguments in_kernel {A} _.
Arguments in_mem {A} _.
Arguments in_maps {A} _.
Arguments in_sigma0_maps {A} _.
Arguments in_sigma0_msgq {A} _.

Definition BOOTINFO_ADDR : Z := KERNEL_BASE - PAGE_SIZE.
Definition code_start : Z := 0xc0000000.
Definition data_start : Z := 0xd0000000.
Definition sizeof_modules_start : Z := 0.
Definition sizeof_modules_end : Z := 4.

Section init.
Context {A : Type} `{!Allocator A} `{!Pages A}.
Context (cpu : nat) (num_cpus : Z) (apic_is_enabled : bool) (clock : nat -> Z).
Context (stale_table : Z -> list cap_entry) (stale_object : kobject).
(** [page_get_kernel_dir], and the address of [send_memmaps_thread] *)
Context (kernel_page_dir send_memmaps_entry : Z).

Abbreviation KST := (ST (kernel A)).
Abbreviation INI := (ST (init A)).
Abbreviation INR := (RST (init A)).

Definition set_in_kernel (k : kernel A) (s : init A) : init A :=
  Init k (in_mem s) (in_maps s) (in_sigma0_maps s) (in_sigma0_msgq s).
Definition set_in_mem (m : bytes) (s : init A) : init A :=
  Init (in_kernel s) m (in_maps s) (in_sigma0_maps s) (in_sigma0_msgq s).
Definition on_k {B} (m : KST B) : INI B := zoom in_kernel set_in_kernel m.
Definition on_kr {B} (m : RST (kernel A) B) : INR B := rzoom in_kernel set_in_kernel m.
Definition on_sp {B} (m : ST (space_store A) B) : INI B := on_k (on_spaces m).

(** ** Memory as the code sees it *)

Definition translate (v : Z) : INI Z := on_sp (AddrSpace.on_mmu (access v)).
Definition vload (v : Z) : INI Z := fun s =>
  match translate v s with
  | Some (p, s) => match in_mem s !! p with Some b => Some (b, s) | None => None end
  | None => None
  end.
Definition vstore (v b : Z) : INI unit := fun s =>
  match translate v s with
  | Some (p, s) =>
      match in_mem s !! p with Some _ => Some (tt, set_in_mem (<[p := w8 b]> (in_mem s)) s) | None => None end
  | None => None
  end.
Definition vload32 (v : Z) : INI Z :=
  a ← vload v; b ← vload (v + 1); c ← vload (v + 2); d ← vload (v + 3);
  mret (a + 2 ^ 8 * b + 2 ^ 16 * c + 2 ^ 24 * d).

(** [memcpy] on it *)
Fixpoint vmemcpy_loop (k : nat) (dest src i : Z) : INI unit :=
  match k with
  | O => mret tt
  | S k =>
      b ← vload (src + i);
      _ ← vstore (dest + i) b;
      vmemcpy_loop k dest src (i + 1)
  end.
Definition vmemcpy (dest src n : Z) : INI unit := vmemcpy_loop (Z.to_nat n) dest src 0.

(** ** The first program *)

(** a frame mapped into the new space *)
Definition sigma0_map (cur new_space addr perms frame : Z) : INI unit :=
  _ ← on_sp (addr_space_insert_map cur num_cpus new_space (addr_space_make_ent addr perms frame)); mret tt.

(** the capabilities it starts with *)
Definition sigma0_msgq_cap (msgq : Z) : cap_entry :=
  CapEntry CAP_TYPE_IPC_SYNC_ENDPOINT (Z.lor (Z.lor (Z.lor CAP_ACCESS CAP_MODIFY) CAP_SHARE) CAP_MULTI_USE) msgq.
Definition sigma0_space_cap (new_space : Z) : cap_entry :=
  CapEntry CAP_TYPE_ADDR_SPACE (Z.lor (Z.lor (Z.lor CAP_ACCESS CAP_MODIFY) CAP_SHARE) CAP_MULTI_USE) new_space.
Definition sigma0_info_cap (info : Z) : cap_entry :=
  CapEntry CAP_TYPE_PHYS_MEMORY (Z.lor (Z.lor CAP_ACCESS CAP_SHARE) CAP_MULTI_USE) info.

Definition sigma0_caps (cs msgq new_space info : Z) : ST (cap_store A) unit :=
  _ ← cap_space_replace cs 1 (sigma0_msgq_cap msgq);
  _ ← cap_space_replace cs 2 (sigma0_space_cap new_space);
  _ ← cap_space_replace cs 3 (sigma0_info_cap info);
  mret tt.

(** the three areas of the new space, filled *)
Definition sigma0_fill (cur new_space info code data bootinfo sigma0_addr func_size : Z) : INI unit :=
  _ ← sigma0_map cur new_space BOOTINFO_ADDR PAGE_READ info;
  _ ← vmemcpy BOOTINFO_ADDR bootinfo Info.sizeof_bootinfo;
  _ ← sigma0_map cur new_space code_start (Z.lor PAGE_READ PAGE_WRITE) code;
  _ ← sigma0_map cur new_space data_start (Z.lor PAGE_READ PAGE_WRITE) data;
  vmemcpy code_start sigma0_addr func_size.

(** the new address space, with the program, the boot information and the room
    for data *)
Definition sigma0_image (module bootinfo : Z) : INI (Z * Z) :=
  cur ← on_k (sched_current_thread cpu);
  kspace ← on_sp addr_space_kernel;
  new_space ← on_sp (addr_space_clone cur num_cpus kspace);
  _ ← on_sp (addr_space_set new_space);
  mod_end ← vload32 (module + sizeof_modules_end);
  mod_start ← vload32 (module + sizeof_modules_start);
  let func_size := w32 (w32 (mod_end - mod_start) + 0x200) in
  let sigma0_addr := low_phys_to_virt mod_start in
  info ← on_sp (phys_frame_create 0x200000 1 0);
  code ← on_sp (phys_frame_create 0x201000 255 0);
  data ← on_sp (phys_frame_create 0x300000 256 0);
  _ ← sigma0_fill cur new_space info code data bootinfo sigma0_addr func_size;
  mret (new_space, info).

(** the thread and the endpoint *)
Definition sigma0_thread (new_space info : Z) : KST (Z * Z) :=
  let new_stack := data_start + 0xff8 in
  new_thread ← thread_create code_start new_space new_stack THREAD_FLAG_USER;
  cs ← on_caps (cap_space_create stale_table);
  _ ← thread_set_capspace new_thread cs;
  msgq ← message_queue_create stale_object;
  _ ← on_caps (sigma0_caps cs msgq new_space info);
  mret (new_thread, msgq).

Definition sigma0_load (module bootinfo : Z) : INR Z :=
  si ← lift (sigma0_image module bootinfo);
  tm ← lift (on_k (sigma0_thread (fst si) (snd si)));
  _ ← lift (on_sp (AddrSpace.on_mmu (set_page_dir kernel_page_dir)));
  _ ← on_kr (sched_add_thread cpu num_cpus apic_is_enabled clock (fst tm));
  mret (snd tm).

(** ** Handing out the memory *)

Definition memmap_get (p : Z) : INI phys_memmap := fun s =>
  match in_maps s !! p with Some m => Some (m, s) | None => None end.

(** the capability sent for an area: all of its pages, and every right *)
Definition memmap_cap (frame : Z) : cap_entry :=
  CapEntry CAP_TYPE_PHYS_MEMORY (Z.lor (Z.lor (Z.lor CAP_ACCESS CAP_MODIFY) CAP_SHARE) CAP_MULTI_USE) frame.

Fixpoint send_memmaps_loop (fuel : nat) (m : Z) : INR unit :=
  match fuel with
  | O => rfault
  | S fuel =>
      if m =? NULL then mret tt
      else
        x ← lift (memmap_get m);
        frame ← lift (on_sp (phys_frame_create (mm_addr x) (mm_length x / PAGE_SIZE) 0));
        s ← lift get_st;
        _ ← on_kr (message_send_capability cpu num_cpus apic_is_enabled clock (in_sigma0_msgq s) (memmap_cap frame));
        x ← lift (memmap_get m);
        send_memmaps_loop fuel (mm_next x)
  end.
(** a list has no more nodes than there are *)
Definition send_memmaps_thread : INR unit :=
  s ← lift get_st;
  _ ← send_memmaps_loop (S (base.size (in_maps s))) (in_sigma0_maps s);
  s ← lift get_st;
  _ ← on_kr (message_send cpu num_cpus apic_is_enabled clock (in_sigma0_msgq s) (Local (msg_init 1234 [0])));
  on_kr (sched_thread_exit cpu num_cpus clock).

Definition sigma0_send_memmaps (maps queue : Z) : INR unit :=
  _ ← lift (modify (fun s => Init (in_kernel s) (in_mem s) (in_maps s) maps queue));
  t ← lift (on_k (thread_create_kthread send_memmaps_entry));
  on_kr (sched_add_thread cpu num_cpus apic_is_enabled clock t).
End init.

(** ** Copying through translations *)

(** a walk moves all the bytes of a page together *)
Lemma walk_page m v v' p : v / 4096 = v' / 4096 -> walk m v = Some p -> walk m v' = Some (p - v mod 4096 + v' mod 4096).
Proof.
  intros Hv. assert (H12 : Z.shiftr v 12 = Z.shiftr v' 12) by (rewrite !Z.shiftr_div_pow2 by done; exact Hv).
  assert (H22 : Z.shiftr v 22 = Z.shiftr v' 22).
  { replace 22 with (12 + 10) by done. rewrite <- !Z.shiftr_shiftr by done. by rewrite H12. }
  assert (Hmod : forall x, x mod 2 ^ 22 = 4096 * (x / 4096 mod 1024) + x mod 4096).
  { intros x. change (2 ^ 22) with (4096 * 1024). rewrite Z.rem_mul_r by done. lia. }
  unfold walk, page_dir_entry, page_table_entry. rewrite <- H12, <- H22, !Hmod, <- Hv.
  repeat case_match; intros [= <-]; f_equal; lia.
Qed.

(** the TLB holds only what a walk would find *)
Definition tlb_ok (m : mmu) : Prop :=
  forall v p, 0 <= v < 2 ^ 32 -> pm_tlb m !! (v / 4096) = Some p -> walk m v = Some (p + v mod 4096).
(** the tables are where and what they were *)
Definition same_tables (m m' : mmu) : Prop :=
  pm_mem m' = pm_mem m /\ pm_cr3 m' = pm_cr3 m /\ pm_physical m' = pm_physical m /\ pm_global m' = pm_global m.

Lemma same_tables_refl m : same_tables m m.
Proof. done. Qed.
Lemma same_tables_walk m m' v : same_tables m m' -> walk m' v = walk m v.
Proof. intros (H1 & H2 & _). unfold walk, mem_get. by rewrite H1, H2. Qed.

Lemma access_ok m v p : 0 <= v < 2 ^ 32 -> tlb_ok m -> walk m v = Some p ->
  exists m', access v m = Some (p, m') /\ tlb_ok m' /\ same_tables m m'.
Proof.
  intros Hv Htlb Hw. unfold access. destruct (pm_tlb m !! (v / 4096)) as [q|] eqn:Hq.
  - apply Htlb in Hq; [|done]. assert (p = q + v mod 4096) as -> by congruence. by exists m.
  - rewrite Hw. eexists. split; [done|]. split; [|done]. intros v' q Hv'. simpl. rewrite lookup_insert.
    rewrite (same_tables_walk m) by done. case_decide as Hp; [|by apply Htlb].
    intros [= <-]. by apply (walk_page m v).
Qed.

Section copy.
Context {A : Type}.

Definition mmu_of (s : init A) : mmu := sp_mmu (k_spaces (in_kernel s)).
(** where the byte at [v] is *)
Definition frame_of (s : init A) (v : Z) : option Z := walk (mmu_of s) v.
Definition byte_at (s : init A) (v : Z) : option Z := frame_of s v ≫= fun p => in_mem s !! p.

(** everything but the TLB and the bytes is the same *)
Definition moved (s s' : init A) : Prop :=
  same_tables (mmu_of s) (mmu_of s') /\
  s' = set_in_kernel (set_k_spaces (AddrSpace.set_mmu (mmu_of s') (k_spaces (in_kernel s))) (in_kernel s)) (set_in_mem (in_mem s') s).

Lemma moved_refl s : moved s s.
Proof. split; [done|]. by destruct s as [[] ? ? ? ?]; destruct k_spaces. Qed.
Lemma moved_trans s1 s2 s3 : moved s1 s2 -> moved s2 s3 -> moved s1 s3.
Proof.
  intros [(Ha & Hb & Hc & Hd) He] [(Ha' & Hb' & Hc' & Hd') He'].
  split; [repeat split; congruence|]. rewrite He', He. done.
Qed.
Lemma moved_frame s s' v : moved s s' -> frame_of s' v = frame_of s v.
Proof. intros [H _]. by apply same_tables_walk. Qed.

Lemma translate_ok s v p : 0 <= v < 2 ^ 32 -> tlb_ok (mmu_of s) -> frame_of s v = Some p ->
  exists s', translate v s = Some (p, s') /\ tlb_ok (mmu_of s') /\ moved s s' /\ in_mem s' = in_mem s.
Proof.
  intros Hv Htlb Hw. destruct (access_ok _ _ _ Hv Htlb Hw) as (m' & Hrun & Htlb' & Hsame).
  eexists. split; [unfold translate, on_sp, on_k, on_spaces, AddrSpace.on_mmu, zoom|].
  { fold (mmu_of s). by rewrite Hrun. }
  by split.
Qed.

Lemma vload_ok s v b : 0 <= v < 2 ^ 32 -> tlb_ok (mmu_of s) -> byte_at s v = Some b ->
  exists s', vload v s = Some (b, s') /\ tlb_ok (mmu_of s') /\ moved s s' /\ in_mem s' = in_mem s.
Proof.
  intros Hv Htlb Hb. unfold byte_at in Hb. destruct (frame_of s v) as [p|] eqn:Hw; [|done]. simpl in Hb.
  destruct (translate_ok s v p Hv Htlb Hw) as (s' & Hrun & Htlb' & Hm & Hmem).
  exists s'. unfold vload. by rewrite Hrun, Hmem, Hb.
Qed.

Lemma vstore_ok s v p b : 0 <= v < 2 ^ 32 -> tlb_ok (mmu_of s) -> frame_of s v = Some p -> is_Some (in_mem s !! p) ->
  exists s', vstore v b s = Some (tt, s') /\ tlb_ok (mmu_of s') /\ moved s s' /\ in_mem s' = <[p := w8 b]> (in_mem s).
Proof.
  intros Hv Htlb Hw [b0 Hb]. destruct (translate_ok s v p Hv Htlb Hw) as (s' & Hrun & Htlb' & Hm & Hmem).
  exists (set_in_mem (<[p := w8 b]> (in_mem s')) s'). unfold vstore. rewrite Hrun, Hmem, Hb.
  split; [done|]. split; [done|]. split; [|done]. destruct Hm as [H1 H2]. split; [done|].
  rewrite H2 at 1. done.
Qed.

(** the bytes [l] are what a program reads from [v] on *)
Definition seen (s : init A) (v : Z) (l : list Z) : Prop :=
  forall i b, l !! i = Some b -> byte_at s (v + Z.of_nat i) = Some b.
(** the [n] bytes from [v] on lie in memory, each in a place of its own *)
Definition placed (s : init A) (v : Z) (n : nat) : Prop :=
  forall i, (i < n)%nat -> exists p, frame_of s (v + Z.of_nat i) = Some p /\ is_Some (in_mem s !! p) /\
    forall j, (j < n)%nat -> frame_of s (v + Z.of_nat j) = Some p -> j = i.
(** no byte of the one block is a byte of the other *)
Definition apart (s : init A) (v w : Z) (n : nat) : Prop :=
  forall i j p, (i < n)%nat -> (j < n)%nat -> frame_of s (v + Z.of_nat i) = Some p -> frame_of s (w + Z.of_nat j) <> Some p.

Lemma nat_succ_addr (v : Z) (i : nat) : v + Z.of_nat (S i) = v + 1 + Z.of_nat i.
Proof. lia. Qed.

Lemma seen_cons s v b l : seen s v (b :: l) <-> byte_at s v = Some b /\ seen s (v + 1) l.
Proof.
  split.
  - intros H. split; [rewrite <- (Z.add_0_r v); by apply (H 0%nat)|]. intros i c Hi. rewrite <- nat_succ_addr. by apply (H (S i)).
  - intros [H0 H] [|i] c Hi; [injection Hi as <-; by rewrite Z.add_0_r|]. rewrite nat_succ_addr. by apply H.
Qed.

(** what a store elsewhere leaves of the three *)
Section store.
Context (s s' : init A) (p b : Z) (Hm : moved s s') (Hmem : in_mem s' = <[p := b]> (in_mem s)).

Lemma seen_store v l : seen s v l -> (forall i, (i < length l)%nat -> frame_of s (v + Z.of_nat i) <> Some p) -> seen s' v l.
Proof using Hm Hmem.
  intros Hs Hp i c Hi. pose proof (Hs i c Hi) as Hb. unfold byte_at in *. rewrite (moved_frame s s') by done.
  pose proof (Hp i ltac:(by apply lookup_lt_Some in Hi)) as Hne. destruct (frame_of s _) as [q|]; [|done]. simpl in *.
  rewrite Hmem, lookup_insert_ne by congruence. done.
Qed.
Lemma placed_store v n : placed s v (S n) -> placed s' (v + 1) n.
Proof using Hm Hmem.
  intros H i Hi. destruct (H (S i) ltac:(lia)) as (q & Hq & Hin & Huniq). exists q. rewrite (moved_frame s s') by done.
  rewrite <- nat_succ_addr. split; [done|]. split.
  - rewrite Hmem, lookup_insert. by case_decide.
  - intros j Hj. rewrite (moved_frame s s'), <- nat_succ_addr by done. intros Hj'. apply Huniq in Hj'; lia.
Qed.
Lemma apart_store v w n : apart s v w (S n) -> apart s' (v + 1) (w + 1) n.
Proof using Hm.
  intros H i j q Hi Hj. rewrite !(moved_frame s s') by done. rewrite <- !nat_succ_addr. by apply H; lia.
Qed.
End store.

(** the addresses of a block *)
Definition block (v : Z) (n : nat) : Prop := 0 <= v /\ v + Z.of_nat n <= 2 ^ 32.

Lemma vmemcpy_loop_ok k s dest src i l :
  length l = k -> block (dest + i) k -> block (src + i) k -> Forall is_byte l -> tlb_ok (mmu_of s) -> seen s (src + i) l -> placed s (dest + i) k ->
  apart s (dest + i) (src + i) k ->
  exists s', vmemcpy_loop k dest src i s = Some (tt, s') /\ tlb_ok (mmu_of s') /\ moved s s' /\ seen s' (dest + i) l /\
    forall p, (forall j, (j < k)%nat -> frame_of s (dest + i + Z.of_nat j) <> Some p) -> in_mem s' !! p = in_mem s !! p.
Proof.
  revert s i l. induction k as [|k IH]; intros s i [|b l] Hlen [Hd0 Hd1] [Hs0 Hs1] Hbyte Htlb Hseen Hplaced Hapart; try done.
  { exists s. split; [done|]. split; [done|]. split; [apply moved_refl|done]. }
  apply Forall_cons in Hbyte as [Hb0 Hbyte]. apply seen_cons in Hseen as [Hb Hseen]. injection Hlen as Hlen.
  destruct (vload_ok s (src + i) b ltac:(lia) Htlb Hb) as (s1 & Hrun1 & Htlb1 & Hm1 & Hmem1).
  destruct (Hplaced 0%nat ltac:(lia)) as (p & Hp & Hin & Huniq). rewrite Z.add_0_r in Hp.
  destruct (vstore_ok s1 (dest + i) p b ltac:(lia) Htlb1) as (s2 & Hrun2 & Htlb2 & Hm2 & Hmem2).
  { by rewrite (moved_frame s s1). }
  { by rewrite Hmem1. }
  rewrite Hmem1 in Hmem2. pose proof (moved_trans _ _ _ Hm1 Hm2) as Hm.
  destruct (IH s2 (i + 1) l) as (s3 & Hrun3 & Htlb3 & Hm3 & Hseen3 & Hother); [done|unfold block; lia|unfold block; lia|done|done|..].
  { rewrite Z.add_assoc. apply (seen_store s s2 p _ Hm Hmem2); [done|]. intros j Hj. rewrite <- nat_succ_addr.
    apply (Hapart 0%nat (S j) p); [lia|lia|by rewrite Z.add_0_r]. }
  { rewrite Z.add_assoc. by apply (placed_store s s2 p _ Hm Hmem2). }
  { rewrite !Z.add_assoc. by apply (apart_store s s2 Hm). }
  rewrite Z.add_assoc in Hseen3, Hother.
  assert (Hfree : forall j, (j < k)%nat -> frame_of s2 (dest + i + 1 + Z.of_nat j) <> Some p).
  { intros j Hj. rewrite (moved_frame s s2), <- nat_succ_addr by done. intros H. apply Huniq in H; lia. }
  exists s3. split; [cbn [vmemcpy_loop]; by rewrite (ST_run _ _ _ _ _ Hrun1), (ST_run _ _ _ _ _ Hrun2)|].
  split; [done|]. split; [by apply (moved_trans _ s2)|]. split.
  - apply seen_cons. split; [|done]. unfold byte_at. rewrite (moved_frame s2 s3), (moved_frame s s2), Hp by done. simpl.
    rewrite Hother, Hmem2, lookup_insert_eq by done. unfold w8. by rewrite Z.mod_small.
  - intros q Hq. rewrite Hother, Hmem2.
    + apply lookup_insert_ne. intros ->. apply (Hq 0%nat); [lia|by rewrite Z.add_0_r].
    + intros j Hj. rewrite (moved_frame s s2), <- nat_succ_addr by done. apply Hq. lia.
Qed.

Lemma vmemcpy_ok s dest src n l :
  Z.of_nat (length l) = n -> block dest (length l) -> block src (length l) -> Forall is_byte l -> tlb_ok (mmu_of s) ->
  seen s src l -> placed s dest (length l) -> apart s dest src (length l) ->
  exists s', vmemcpy dest src n s = Some (tt, s') /\ tlb_ok (mmu_of s') /\ moved s s' /\ seen s' dest l /\
    forall p, (forall j, (j < length l)%nat -> frame_of s (dest + Z.of_nat j) <> Some p) -> in_mem s' !! p = in_mem s !! p.
Proof.
  intros Hn Hbd Hbs Hbyte Htlb Hseen Hplaced Hapart.
  destruct (vmemcpy_loop_ok (length l) s dest src 0 l) as (s' & Hrun & Ht & Hm & Hs & Ho); rewrite ?Z.add_0_r in *; try done.
  exists s'. split; [|done]. unfold vmemcpy. by rewrite <- Hn, Nat2Z.id.
Qed.

(** [memcpy] while a program's directory is current: what the program then
    reads at the destination are the bytes the kernel saw at the source, in
    order; no byte outside the frames of the destination changes, and the page
    tables are as they were.  The two blocks lie in different frames and no
    frame appears twice in the destination. *)
Theorem vmemcpy_spec s dest src n l :
  Z.of_nat (length l) = n -> block dest (length l) -> block src (length l) -> Forall is_byte l -> tlb_ok (mmu_of s) ->
  seen s src l -> placed s dest (length l) -> apart s dest src (length l) ->
  exists s', vmemcpy dest src n s = Some (tt, s') /\ tlb_ok (mmu_of s') /\ moved s s' /\ seen s' dest l /\
    forall p, (forall j, (j < length l)%nat -> frame_of s (dest + Z.of_nat j) <> Some p) -> in_mem s' !! p = in_mem s !! p.
Proof. apply vmemcpy_ok. Qed.
End copy.

(** ** The capabilities of the first program *)

Section caps.
Context {A : Type}.
Implicit Types (s : cap_store A).

(** the permission to modify a space is that of its own entry *)
Definition modifiable s (sp t : Z) : Prop :=
  (exists c, st_spaces s !! sp = Some c /\ cs_table c = t) /\
  exists e0, slot s t 0 = Some e0 /\ flag_set (ce_permissions e0) CAP_MODIFY = true.

(** replacing a slot of the space's own table *)
Lemma replace_slot s sp t (i : nat) e entry :
  cap_wf s -> modifiable s sp t -> (0 < i < 256)%nat -> slot s t i = Some e ->
  ce_type e <> CAP_TYPE_CAP_SPACE -> ce_type entry <> CAP_TYPE_CAP_SPACE ->
  cap_space_replace sp (Z.of_nat i) entry s = Some (true, slot_write s t i entry) /\
  cap_wf (slot_write s t i entry) /\ modifiable (slot_write s t i entry) sp t.
Proof.
  intros Hw [(c & Hc & <-) (e0 & He0 & Hmod)] Hi He Hty Hty'. destruct (slot_Some _ _ _ _ Hw He) as (_ & _ & Htab).
  pose proof (is_entry_ok s _ _ _ Hw He) as Hent.
  destruct (cap_root_permissions_ok s _ _ _ _ Hw Hent) as (e1 & He1 & Hperm).
  assert (e1 = e0) as -> by congruence.
  assert (Hl : cap_table_lookup (cs_table c) (Z.of_nat i) s = Some (entry_ptr (cs_table c) (Z.of_nat i), s)).
  { pose proof (cap_lookup_follow 4 s (cs_table c) [] i (cs_table c) e Hw Htab) as H. simpl in H.
    rewrite Z.mul_0_r, Z.add_0_r, (proj2 (Z.eqb_neq _ _) Hty) in H. apply H; (done || lia || constructor). }
  split; [|split].
  - rewrite (cap_space_replace_ok s sp c _ _ _ _ _ _ entry Hw Hc Hl (Build_found _ _ _ _ _ _ _ _ Hent (reach_refl _ _) (or_intror Hty) He0) Hperm).
    by rewrite Hmod.
  - apply (cap_wf_write s _ i e); [done|done|by intros ?|lia].
  - split; [by exists c|]. exists e0. split; [|done]. rewrite slot_write_slot by eauto. rewrite decide_False; [done|]. intros [_ <-]. lia.
Qed.

(** the three slots, one after the other *)
Lemma sigma0_caps_ok s sp t msgq new_space info :
  cap_wf s -> modifiable s sp t -> is_Some (st_tables s !! t) ->
  (forall i e, (1 <= i <= 3)%nat -> slot s t i = Some e -> ce_type e <> CAP_TYPE_CAP_SPACE) ->
  exists s', sigma0_caps sp msgq new_space info s = Some (tt, s') /\ cap_wf s' /\ st_spaces s' = st_spaces s /\
    slot s' t 1 = Some (sigma0_msgq_cap msgq) /\ slot s' t 2 = Some (sigma0_space_cap new_space) /\
    slot s' t 3 = Some (sigma0_info_cap info) /\
    forall t' i, ~ (t' = t /\ (1 <= i <= 3)%nat) -> slot s' t' i = slot s t' i.
Proof.
  intros Hw Hm Ht Hty.
  destruct (slot_is_Some s t 1 Hw Ht ltac:(lia)) as [e1 He1], (slot_is_Some s t 2 Hw Ht ltac:(lia)) as [e2 He2],
    (slot_is_Some s t 3 Hw Ht ltac:(lia)) as [e3 He3].
  destruct (replace_slot s sp t 1 e1 (sigma0_msgq_cap msgq) Hw Hm) as (Hr1 & Hw1 & Hm1); [lia|done|apply (Hty 1%nat); done || lia|done|].
  set (s1 := slot_write s t 1 _) in *. assert (He2' : slot s1 t 2 = Some e2) by (unfold s1; rewrite slot_write_slot by eauto; by rewrite decide_False by lia).
  destruct (replace_slot s1 sp t 2 e2 (sigma0_space_cap new_space) Hw1 Hm1) as (Hr2 & Hw2 & Hm2); [lia|done|apply (Hty 2%nat); done || lia|done|].
  set (s2 := slot_write s1 t 2 _) in *.
  assert (He3' : slot s2 t 3 = Some e3) by (unfold s2, s1; rewrite !slot_write_slot by (rewrite ?slot_write_slot by eauto; rewrite ?decide_False by lia; eauto); by rewrite !decide_False by lia).
  destruct (replace_slot s2 sp t 3 e3 (sigma0_info_cap info) Hw2 Hm2) as (Hr3 & Hw3 & _); [lia|done|apply (Hty 3%nat); done || lia|done|].
  exists (slot_write s2 t 3 (sigma0_info_cap info)). split; [|split; [done|split; [done|]]].
  { unfold sigma0_caps. by rewrite (ST_run _ _ _ _ _ Hr1), (ST_run _ _ _ _ _ Hr2), (ST_run _ _ _ _ _ Hr3). }
  assert (Hs : forall t' i, slot (slot_write s2 t 3 (sigma0_info_cap info)) t' i =
    if decide (t' = t /\ i = 3%nat) then Some (sigma0_info_cap info)
    else if decide (t' = t /\ i = 2%nat) then Some (sigma0_space_cap new_space)
    else if decide (t' = t /\ i = 1%nat) then Some (sigma0_msgq_cap msgq) else slot s t' i).
  { intros t' i. rewrite slot_write_slot by eauto. case_decide; [done|]. unfold s2. rewrite slot_write_slot by eauto.
    case_decide; [done|]. unfold s1. by rewrite slot_write_slot by eauto. }
  split; [|split; [|split]]; [rewrite Hs..|]; repeat first [rewrite decide_True by done|rewrite decide_False by lia]; try done.
  intros t' i Hne. rewrite Hs. by rewrite !decide_False by lia.
Qed.
End caps.

(** the sum of the four rights *)
Definition all_rights : Z := CAP_ACCESS + CAP_MODIFY + CAP_SHARE + CAP_MULTI_USE.

Section first_caps.
Context {A : Type} `{!Allocator A} `{!Pages A} `{!AllocatorLaws A} `{!PagesLaws A}.
Context (stale : Z -> list cap_entry).
Context (Hlen : forall t, length (stale t) = 256%nat).
Context (Hnull : forall t i e, stale t !! i = Some e -> ce_type e = CAP_TYPE_NULL).
Implicit Types (s : cap_store A).

(** a new space over a page of null entries keeps the store well formed *)
Lemma cap_space_create_wf s :
  cap_wf s -> cap_mem s -> alloc_room (st_alloc s) -> (forall p a, alloc (st_alloc s) = Some (p, a) -> page_room a) ->
  exists sp t s', cap_space_create stale s = Some (sp, s') /\ cap_wf s' /\ st_spaces s !! sp = None /\
    st_tables s !! t = None /\ st_spaces s' = <[sp := CapSpace t 0]> (st_spaces s) /\
    slot s' t 0 = Some (CapEntry CAP_TYPE_CAP_SPACE 15 sp) /\
    (forall i e, i <> 0%nat -> slot s' t i = Some e -> ce_type e = CAP_TYPE_NULL) /\
    (forall t' i, t' <> t -> slot s' t' i = slot s t' i).
Proof using All.
  intros Hw Hcm Hroom Hpage.
  destruct (cap_space_create_spec stale s Hcm Hroom Hlen Hpage)
    as (sp & t & s' & Hrun & _ & Hsp0 & Hsp & Ht & Haddr & Hspaces & Htabs & H0 & Hrest).
  assert (Hslot : forall t' i, t' <> t -> slot s' t' i = slot s t' i) by (intros t' i Hne; unfold slot; by rewrite Htabs).
  assert (Hnulls : forall i e, i <> 0%nat -> slot s' t i = Some e -> ce_type e = CAP_TYPE_NULL).
  { intros i e Hi He. rewrite Hrest in He by done. by eapply Hnull. }
  exists sp, t, s'. split; [done|]. split; [|done].
  destruct (st_tables s' !! t) as [l|] eqn:Hl; [|unfold slot in H0; by rewrite Hl in H0].
  split.
  - intros t' l' Hl'. destruct (decide (t' = t)) as [->|]; [|rewrite Htabs in Hl' by done; by apply (cw_table _ Hw)].
    split; [done|]. assert (l' = l) as -> by congruence.
    assert (Heq : forall i, i <> 0%nat -> l !! i = stale t !! i) by (intros i Hi; pose proof (Hrest i Hi) as H; unfold slot in H; by rewrite Hl in H).
    assert (Hge : (length l <= 256)%nat) by (apply lookup_ge_None; rewrite Heq by done; apply lookup_ge_None; by rewrite Hlen).
    assert (Hlt : (255 < length l)%nat) by (apply lookup_lt_is_Some; rewrite Heq by done; apply lookup_lt_is_Some; rewrite Hlen; lia).
    lia.
  - intros p c. rewrite Hspaces, lookup_insert. case_decide; [intros [= <-]; by exists l|]. intros Hc.
    destruct (cw_space _ Hw p c Hc) as [l' Hl']. exists l'. rewrite Htabs; [done|]. intros Heq. congruence.
  - intros t' i e He Hty. rewrite Hspaces, lookup_insert. case_decide; [by eexists|].
    destruct (decide (t' = t)) as [->|]; [|rewrite Hslot in He by done; by eapply (cw_cap _ Hw)].
    destruct i as [|i]; [rewrite H0 in He; injection He as <-; by destruct H|]. rewrite (Hnulls (S i) e ltac:(done) He) in Hty. done.
  - intros t' Ht'. destruct (decide (t' = t)) as [->|Hne].
    + eexists _, (CapSpace t 0). split; [done|]. split; [|done]. rewrite Hspaces. by apply lookup_insert_eq.
    + rewrite Htabs in Ht' by done. destruct (cw_root _ Hw t' Ht') as (e & c & He & Hc & Hct).
      exists e, c. rewrite Hslot by done. split; [done|]. split; [|done]. rewrite Hspaces, lookup_insert_ne; [done|]. congruence.
Qed.

(** a new space, and the three slots of it filled, for whatever objects *)
Lemma first_caps_ok s :
  cap_wf s -> cap_mem s -> alloc_room (st_alloc s) -> (forall p a, alloc (st_alloc s) = Some (p, a) -> page_room a) ->
  exists sp t s1, cap_space_create stale s = Some (sp, s1) /\ st_spaces s !! sp = None /\
    forall msgq new_space info, exists s', sigma0_caps sp msgq new_space info s1 = Some (tt, s') /\
      cap_wf s' /\ st_spaces s' = <[sp := CapSpace t 0]> (st_spaces s) /\
      (forall i e, slot s' t i = Some e /\ ce_type e <> CAP_TYPE_NULL <->
         (i, e) ∈ [(0%nat, CapEntry CAP_TYPE_CAP_SPACE all_rights sp);
                   (1%nat, CapEntry CAP_TYPE_IPC_SYNC_ENDPOINT all_rights msgq);
                   (2%nat, CapEntry CAP_TYPE_ADDR_SPACE all_rights new_space);
                   (3%nat, CapEntry CAP_TYPE_PHYS_MEMORY (all_rights - CAP_MODIFY) info)]) /\
      forall t' i, t' <> t -> slot s' t' i = slot s t' i.
Proof using All.
  intros Hw Hcm Hroom Hpage.
  destruct (cap_space_create_wf s Hw Hcm Hroom Hpage) as (sp & t & s1 & Hrun & Hw1 & Hsp & Ht & Hspaces & H0 & Hnulls & Hother).
  exists sp, t, s1. split; [done|]. split; [done|]. intros msgq new_space info.
  destruct (sigma0_caps_ok s1 sp t msgq new_space info) as (s2 & Hrun2 & Hw2 & Hspaces2 & H1 & H2 & H3 & Hother2); [done|..].
  { split; [exists (CapSpace t 0); split; [rewrite Hspaces; by apply lookup_insert_eq|done]|by eexists]. }
  { unfold slot in H0. by destruct (st_tables s1 !! t). }
  { intros i e Hi He. rewrite (Hnulls i e) by (done || lia). done. }
  exists s2. split; [done|]. split; [done|]. split; [by rewrite Hspaces2|]. split.
  - intros i e. rewrite !elem_of_cons, elem_of_nil. split.
    + intros [He Hn]. destruct (decide (1 <= i <= 3)%nat) as [Hi|Hi].
      * destruct i as [|[|[|[|i]]]]; try lia; simplify_eq; tauto.
      * rewrite Hother2 in He by tauto. destruct i as [|i]; [simplify_eq; tauto|]. by rewrite (Hnulls (S i) e) in Hn.
    + intros [[= -> ->]|[[= -> ->]|[[= -> ->]|[[= -> ->]|[]]]]]; [rewrite Hother2 by lia|..]; done.
  - intros t' i Hne. rewrite Hother2 by tauto. by apply Hother.
Qed.
End first_caps.

(** ** On concrete states *)

(** directory entry 4 maps the first 4 MB *)
Definition copy_ex : init BumpPages.t :=
  Init (set_k_spaces (SpaceStore clone_ex ∅ ∅ ∅ NULL BumpPages.init BumpPages.init) kernel_ex)
    (list_to_map [(0x100, 7); (0x101, 8); (0x102, 9); (0x200, 0); (0x201, 0); (0x202, 0)]) ∅ NULL NULL.

Lemma copy_ex_frame v : 0x1000000 <= v < 0x1000300 -> frame_of copy_ex v = Some (v - 0x1000000).
Proof.
  intros Hv. change (walk clone_ex v = Some (v - 0x1000000)). change (v - 0x1000000) with (v - 0x1000000).
  assert (v = vaddr_of 4 0 (v - 0x1000000)) as E by (unfold vaddr_of; lia).
  rewrite E at 1. rewrite walk_eq by (unfold indices; lia). change (pde clone_ex 4) with 0x83.
  change (flag_set 0x83 PAGE_ARCH_PRESENT) with true. change (flag_set 0x83 PAGE_ARCH_4MB_ENTRY) with true.
  change (0x83 / 2 ^ 22) with 0. reflexivity.
Qed.

Lemma vmemcpy_spec_witness : exists s', vmemcpy 0x1000200 0x1000100 3 copy_ex = Some (tt, s') /\ seen s' 0x1000200 [7; 8; 9].
Proof.
  destruct (vmemcpy_spec copy_ex 0x1000200 0x1000100 3 [7; 8; 9]) as (s' & Hrun & _ & _ & Hseen & _).
  - done.
  - by split.
  - by split.
  - by repeat constructor.
  - done.
  - intros i b Hi. unfold byte_at. pose proof (lookup_lt_Some _ _ _ Hi) as Hl. simpl in Hl. rewrite copy_ex_frame by lia.
    destruct i as [|[|[|i]]]; [injection Hi as <-; vm_compute; reflexivity..|lia].
  - intros i Hi. simpl in Hi. exists (0x200 + Z.of_nat i). rewrite copy_ex_frame by lia. split; [f_equal; lia|]. split.
    + destruct i as [|[|[|i]]]; [vm_compute; by eexists..|lia].
    + intros j Hj. simpl in Hj. rewrite copy_ex_frame by lia. intros [= H]. lia.
  - intros i j p Hi Hj. simpl in Hi, Hj. rewrite !copy_ex_frame by lia. intros [= <-] [= H]. lia.
  - exists s'. split; [exact Hrun|exact Hseen].
Defined.
