(* ===== verification/Load.v ===== *)
(** The first program: what [sigma0_load] of [Init] leaves behind.

    The new space gets its tables on the way: the three areas lie in entries of
    the directory that were empty.  What the kernel saw before it still sees,
    at the same places, so it can copy from there to the new areas.  Its own
    directory is not touched meanwhile, and is as it was when the kernel comes
    back to it; the space keeps what was put there for the thread. *)
From S2P Require Export Init.

Section room.
Context {A : Type} `{!Allocator A} `{!Pages A}.

(** the objects of the store are those their slabs handed out *)
Record space_mem (s : space_store A) : Prop := {
  sm_inv : alloc_inv (sp_alloc s) /\ alloc_inv (sp_frame_slab s);
  sm_spaces : forall p, is_Some (sp_spaces s !! p) -> alloc_live (sp_alloc s) p;
  sm_frames : forall p, is_Some (sp_frames s !! p) -> alloc_live (sp_frame_slab s) p;
  sm_maps : forall p, is_Some (sp_maps s !! p) -> page_live (sp_alloc s) p;
}.

Context `{!AllocatorLaws A} `{!PagesLaws A}.

(** a frame made where there is room *)
Lemma frame_create_ok s addr size flags n : space_mem s -> rooms (S n) (sp_frame_slab s) ->
  exists p a, phys_frame_create addr size flags s =
      Some (p, set_sp_frame_slab a (set_frames (<[p := PhysFrame (kobject_init KOBJECT_TYPE_PHYS_MEMORY) addr size flags 0]> (sp_frames s)) s)) /\
    space_mem (set_sp_frame_slab a (set_frames (<[p := PhysFrame (kobject_init KOBJECT_TYPE_PHYS_MEMORY) addr size flags 0]> (sp_frames s)) s)) /\
    rooms n a /\ sp_frames s !! p = None.
Proof using All.
  intros [[Hia Hi] Hs Hf Hm] (Hr & _ & Hn). destruct (alloc_total _ Hi Hr) as (p & a & Ha).
  destruct (alloc_ok _ _ _ Hi Ha) as (Hi' & _ & Hp & Hlive). exists p, a. split; [|split; [|split]].
  - unfold phys_frame_create, on_frame_slab, zoom, frame_put. by rewrite ST_bind_eq, Ha.
  - split; simpl; [done|done| |done]. intros q Hq. apply Hlive. rewrite lookup_insert in Hq.
    case_decide as E; [by right|]. left. by apply Hf.
  - apply (Hn p). by left.
  - by apply (not_live_None _ (alloc_live (sp_frame_slab s))).
Qed.

(** the kernel's space cloned, and the clone entered *)
Lemma space_clone_ok cur num_cpus s K x m gd n :
  space_mem s -> rooms (S (S n)) (sp_alloc s) -> sp_spaces s !! K = Some x -> obj_free (as_object x) ->
  sp_maps s !! as_map x = Some m -> can_clone (sp_mmu s) (as_page_dir x) gd ->
  exists new s1 s2 y, addr_space_clone cur num_cpus K s = Some (new, s1) /\ addr_space_set new s1 = Some (tt, s2) /\
    space_mem s2 /\ rooms n (sp_alloc s2) /\ sp_frame_slab s2 = sp_frame_slab s /\ new <> K /\ sp_frames s2 = sp_frames s /\ sp_kernel s2 = sp_kernel s /\
    sp_spaces s2 !! new = Some y /\ obj_free (as_object y) /\ sp_maps s2 !! as_map y = Some m /\
    exists t N b m1, cloned (sp_mmu s) gd (as_page_dir y) t N b m1 (sp_mmu s2).
Proof using All.
  intros [[Hi Hif] Hs Hf Hm] (Hr & _ & Hn) HK Hfree Hmap Hcc.
  destruct (alloc_total _ Hi Hr) as (p & a & Ha). destruct (alloc_ok _ _ _ Hi Ha) as (Hi1 & _ & Hp & Hlive).
  destruct (Hn p a (or_introl Ha)) as (_ & Hpr & Hn2).
  destruct (page_alloc_ok a Hi1 Hpr) as (q & a2 & Hq & Hi2 & Hq0 & _ & Hqnew & Hqlive & Hlive2).
  pose proof (alloc_pages _ _ _ Hi Ha) as Hpages.
  destruct (obj_free_cycle cur num_cpus _ Hfree) as (o1 & o2 & Hlock & Hrel & Hfree2).
  destruct (clone_page_dir_ok _ _ _ Hcc) as (newdir & t & N & b & m1 & m2 & Hclone & Hset & Hcl).
  assert (HpK : p <> K). { intros ->. apply Hp, Hs. by eexists. }
  assert (Hqm : q <> as_map x). { intros ->. apply Hqnew, Hpages, Hm. by eexists. }
  set (y := AddrSpace (kobject_init KOBJECT_TYPE_ADDR_SPACE) newdir q).
  set (sps := <[K := AddrSpace o2 (as_page_dir x) (as_map x)]> (<[p := y]> (<[K := AddrSpace o1 (as_page_dir x) (as_map x)]> (sp_spaces s)))).
  set (mps := <[q := m]> (<[q := AddrMap ADDR_MAP_ENTRIES_PER_PAGE 0 (replicate (Z.to_nat ADDR_MAP_ENTRIES_PER_PAGE) zero_entry)]> (sp_maps s))).
  assert (Hpy : sps !! p = Some y) by (unfold sps; rewrite lookup_insert_ne by done; apply lookup_insert_eq).
  exists p, (SpaceStore m1 sps (sp_frames s) mps (sp_kernel s) a2 (sp_frame_slab s)), (SpaceStore m2 sps (sp_frames s) mps (sp_kernel s) a2 (sp_frame_slab s)), y.
  split_and!; try done.
  - unfold addr_space_clone, addr_map_create, space_lock, space_unlock, space_get, space_put, map_get, map_put, on_alloc, on_mmu, zoom.
    set (fresh_map := AddrMap ADDR_MAP_ENTRIES_PER_PAGE 0 _).
    repeat (first [rewrite ST_bind_eq|rewrite HK|rewrite Hlock|rewrite Ha|rewrite lookup_insert_eq|rewrite Hclone|rewrite Hq
      |rewrite (proj2 (Z.eqb_neq q NULL)) by (unfold NULL; lia)|rewrite (lookup_insert_ne _ q) by done|rewrite Hmap
      |rewrite (lookup_insert_ne _ p K) by done|rewrite Hrel]; simpl).
    reflexivity.
  - unfold addr_space_set, space_get, on_mmu, zoom. simpl. rewrite ST_bind_eq. simpl. rewrite ST_bind_eq. simpl. rewrite Hpy. simpl. by rewrite Hset.
  - split; simpl; [done|..].
    + intros r Hr'. apply Hlive2, Hlive. unfold sps in Hr'. rewrite !lookup_insert in Hr'. repeat case_decide; try (by right); left; apply Hs; try done; subst; by eexists.
    + exact Hf.
    + intros r Hr'. apply Hqlive. unfold mps in Hr'. rewrite insert_insert_eq, lookup_insert in Hr'. case_decide; [by right|]. left. by apply Hpages, Hm.
  - apply (Hn2 q). by right.
  - unfold mps. apply lookup_insert_eq.
  - by exists t, N, b, m1.
Qed.
End room.

(** ** A space that is being filled *)

Section target.
Context {A : Type} (cur num_cpus : Z).
Implicit Types (s : space_store A).

(** the space is unlocked and has the directory [dir], its map takes one more entry for each of [ds], which
    are entries of the current directory without a table, and there is a page
    for each of the tables *)
Record target s (space dir : Z) (ds : list Z) : Prop := {
  tg_wf : mmu_wf (sp_mmu s);
  tg_space : exists y m, sp_spaces s !! space = Some y /\ obj_free (as_object y) /\ as_page_dir y = dir /\ sp_maps s !! as_map y = Some m /\
    AddrSpace.map_wf m /\ am_used m + Z.of_nat (length ds) <= ADDR_MAP_ENTRIES_PER_PAGE;
  tg_absent : forall d, d ∈ ds -> 0 <= d < 1023 /\ pde (sp_mmu s) d = 0;
  tg_nodup : NoDup ds;
  tg_pages : Z.of_nat (length ds) <= r_available (pm_physical (sp_mmu s));
}.

(** a frame nobody has locked *)
Definition frame_at s (frame addr size : Z) : Prop :=
  exists f, sp_frames s !! frame = Some f /\ obj_free (pf_object f) /\ pf_address f = addr /\ pf_size f = size.

(** mapping a frame in a fresh entry of the directory *)
Lemma map_new_ok s space dir d ds perms V P size frame :
  target s space dir (d :: ds) -> frame_at s frame (P * 4096) size -> 0 <= V < 2 ^ 20 -> V / 1024 = d ->
  0 < size -> V mod 1024 + size <= 1024 -> 0 <= P -> P + size <= 2 ^ 20 ->
  exists s', addr_space_insert_map cur num_cpus space (addr_space_make_ent (V * 4096) perms frame) s = Some (0, s') /\
    target s' space dir ds /\ pm_tlb (sp_mmu s') = pm_tlb (sp_mmu s) /\ extends (sp_mmu s) (sp_mmu s') /\
    (forall k o, 0 <= k < size -> 0 <= o < 4096 -> walk (sp_mmu s') ((V + k) * 4096 + o) = Some ((P + k) * 4096 + o)) /\
    sp_kernel s' = sp_kernel s /\ sp_alloc s' = sp_alloc s /\
    (forall q, q <> space -> sp_spaces s' !! q = sp_spaces s !! q) /\
    (forall q, q <> frame -> sp_frames s' !! q = sp_frames s !! q).
Proof.
  intros [Hw (y & m & Hy & Hyf & Hyd & Hm & Hmw & Hused) Habs Hnd Hpages] (f & Hf & Hff & Hfa & Hfs) HV Hd Hsz Hrun HP HPn.
  destruct (Habs d) as [Hd1 Hzero]; [by left|]. apply NoDup_cons in Hnd as [Hnin Hnd]. simpl in Hused, Hpages.
  destruct (obj_free_cycle cur num_cpus _ Hyf) as (oy & oy2 & Hl1 & Hr1 & Hyf2).
  destruct (obj_free_cycle cur num_cpus _ Hff) as (og & og2 & Hl2 & Hr2 & _).
  destruct (addr_map_insert_at m (addr_space_make_ent (V * 4096) perms frame) Hmw) as (i & m' & Hins & Hmw' & Hused' & _); [lia|].
  destruct (map_run_ok (Z.to_nat size - 1) perms V P (sp_mmu s) Hw HV) as (mm & Hloop & Hw' & Hin & Hext & Htlb & Hpde & Hav);
    [lia|done|lia|lia|by rewrite Hd|lia|]. 
  replace (S (Z.to_nat size - 1)) with (Z.to_nat size) in * by lia. rewrite Z2Nat.id in Hin by lia.
  eexists. split; [|split].
  - apply (insert_map_run cur num_cpus s space _ y f m (Some i) m' mm oy oy2 og og2); simpl; try done.
    { pose proof (Z.mod_pos_bound V 1024 ltac:(lia)). lia. }
    rewrite Hfa, Hfs, !Z.div_mul by done. exact Hloop.
  - split; simpl; [done|..].
    + exists (AddrSpace oy2 (as_page_dir y) (as_map y)), m'. rewrite !lookup_insert_eq. split_and!; try done. lia.
    + intros e He. destruct (Habs e) as [He1 He0]; [by right|]. split; [done|]. rewrite Hpde; [done|lia|]. rewrite Hd. intros ->. by apply Hnin.
    + done.
    + lia.
  - simpl. split_and!; try done; intros q Hq; by apply lookup_insert_ne.
Qed.

Lemma same_tables_pde (m m' : mmu) i : same_tables m m' -> pde m' i = pde m i.
Proof. intros (H1 & H2 & _). unfold pde, pd, mem_get. by rewrite H1, H2. Qed.

(** only the TLB changed *)
Lemma target_same_tables s m space dir ds : same_tables (sp_mmu s) m -> target s space dir ds -> target (AddrSpace.set_mmu m s) space dir ds.
Proof.
  intros Hs [Hw Hsp Habs Hnd Hp]. pose proof Hs as (H1 & H2 & H3 & H4).
  assert (Hget : forall a, mem_get m a = mem_get (sp_mmu s) a) by (intros a; unfold mem_get; by rewrite H1).
  assert (Hpde : forall i, pde m i = pde (sp_mmu s) i) by (intros i; unfold pde, pd; by rewrite Hget, H2).
  assert (Ht : forall i, is_table m i <-> is_table (sp_mmu s) i) by (intros i; unfold is_table; by rewrite Hpde).
  assert (Hto : forall i, table_of m i = table_of (sp_mmu s) i) by (intros i; unfold table_of; by rewrite Hpde).
  split; simpl; try done.
  - destruct Hw as [W1 W2 W3 W4 W5 W6]. split.
    + intros a. by rewrite Hget.
    + by rewrite H2.
    + rewrite Ht, Hto. unfold pd. by rewrite H2.
    + intros i j Hi Hj. rewrite !Hto. apply W4; by apply Ht.
    + by rewrite H3.
    + intros d Hd. rewrite H3, Hto. apply W6. by apply Ht.
  - intros d Hd. rewrite Hpde. by apply Habs.
  - by rewrite H3.
Qed.
End target.

(** ** Reading and writing while the tables grow *)

Section memory.
Context {A : Type}.
Implicit Types (s : init A) (sp : space_store A).

(** [s] with this store and these bytes *)
Definition with_sp sp (mem : bytes) s : init A := set_in_kernel (set_k_spaces sp (in_kernel s)) (set_in_mem mem s).

Lemma with_sp_same s : with_sp (k_spaces (in_kernel s)) (in_mem s) s = s.
Proof. by destruct s as [[] ? ? ? ?]. Qed.
Lemma on_sp_run {B} (m : ST (space_store A) B) sp mem s b sp' :
  m sp = Some (b, sp') -> on_sp m (with_sp sp mem s) = Some (b, with_sp sp' mem s).
Proof. intros H. unfold on_sp, on_k, on_spaces, zoom. simpl. by rewrite H. Qed.
Lemma moved_with sp mem s s' : moved (with_sp sp mem s) s' ->
  s' = with_sp (AddrSpace.set_mmu (mmu_of s') sp) (in_mem s') s /\ same_tables (sp_mmu sp) (mmu_of s').
Proof. intros [H1 H2]. split; [|exact H1]. rewrite H2 at 1. done. Qed.

(** where the areas of the new space are taken from *)
Definition reserved (p : Z) : Prop := 0x200000 <= p < 0x400000.
(** the bytes [l] can be read at [v], from other memory *)
Definition readable (m : mmu) (mem : bytes) (v : Z) (l : list Z) : Prop :=
  forall i b, l !! i = Some b -> exists p, walk m (v + Z.of_nat i) = Some p /\ ~ reserved p /\ mem !! p = Some b.
(** the [n] bytes at [v] are the ones from [P] on *)
Definition laid (m : mmu) (v P : Z) (n : nat) : Prop := forall i, (i < n)%nat -> walk m (v + Z.of_nat i) = Some (P + Z.of_nat i).

Lemma readable_step m m' mem mem' v l : block v (length l) -> extends m m' -> (forall p, ~ reserved p -> mem' !! p = mem !! p) ->
  readable m mem v l -> readable m' mem' v l.
Proof.
  intros [Hv0 Hv] He Hm H i b Hi. destruct (H i b Hi) as (p & Hp & Hr & Hb). pose proof (lookup_lt_Some _ _ _ Hi).
  exists p. split; [apply (ex_walk _ _ He); [lia|done]|]. split; [done|]. by rewrite Hm.
Qed.
Lemma laid_step m m' v P n : block v n -> extends m m' -> laid m v P n -> laid m' v P n.
Proof. intros [Hv0 Hv] He H i Hi. apply (ex_walk _ _ He); [lia|by apply H]. Qed.
Lemma laid_pages m V P size n : 0 <= V -> Z.of_nat n <= size * 4096 ->
  (forall k o, 0 <= k < size -> 0 <= o < 4096 -> walk m ((V + k) * 4096 + o) = Some ((P + k) * 4096 + o)) ->
  laid m (V * 4096) (P * 4096) n.
Proof.
  intros HV Hn Hw i Hi. pose proof (Z.div_mod (Z.of_nat i) 4096 ltac:(done)). pose proof (Z.mod_pos_bound (Z.of_nat i) 4096 ltac:(lia)).
  specialize (Hw (Z.of_nat i / 4096) (Z.of_nat i mod 4096) ltac:(lia) ltac:(lia)).
  replace (V * 4096 + Z.of_nat i) with ((V + Z.of_nat i / 4096) * 4096 + Z.of_nat i mod 4096) by lia.
  rewrite Hw. f_equal. lia.
Qed.
Lemma same_tables_extends m m' : same_tables m m' -> extends m m'.
Proof.
  intros H. pose proof H as (H1 & H2 & H3 & _). assert (Hpde : forall i, pde m' i = pde m i) by (intros i; by apply same_tables_pde).
  split; [intros v p _ Hp; by rewrite (same_tables_walk m)|done|done|by rewrite H3|].
  intros F (HF & Hs & Ht). split; [|intros i _; unfold mem_get; by rewrite H1]. split; [done|]. rewrite H3. split; [done|].
  intros d. unfold is_table, table_of. rewrite Hpde. apply Ht.
Qed.
Lemma tlb_ok_extends m m' : tlb_ok m -> extends m m' -> pm_tlb m' = pm_tlb m -> tlb_ok m'.
Proof. intros Ht He Heq v p Hv. rewrite Heq. intros Hp. apply (ex_walk _ _ He); [done|]. by apply Ht. Qed.

(** a word of the boot loader *)
Definition le32 (l : list Z) : Z := foldr (fun b x => b + 2 ^ 8 * x) 0 l.
Lemma vload32_ok s v l : length l = 4%nat -> block v 4 -> tlb_ok (mmu_of s) -> readable (mmu_of s) (in_mem s) v l ->
  exists s', vload32 v s = Some (le32 l, s') /\ tlb_ok (mmu_of s') /\ moved s s' /\ in_mem s' = in_mem s.
Proof.
  intros Hl [Hv0 Hv] Ht Hr. destruct l as [|a [|b [|c [|d [|]]]]]; try done.
  assert (Hb : forall s' i x, [a; b; c; d] !! i = Some x -> moved s s' -> in_mem s' = in_mem s -> byte_at s' (v + Z.of_nat i) = Some x).
  { intros s' i x Hi Hm Hmem. destruct (Hr i x Hi) as (p & Hp & _ & Hx). unfold byte_at. rewrite (moved_frame s s') by done.
    unfold frame_of. rewrite Hp. simpl. by rewrite Hmem. }
  destruct (vload_ok s v a ltac:(lia) Ht) as (s1 & H1 & T1 & M1 & E1).
  { rewrite <- (Z.add_0_r v). apply (Hb s 0%nat); [done|apply moved_refl|done]. }
  destruct (vload_ok s1 (v + 1) b ltac:(lia) T1 ltac:(by apply (Hb s1 1%nat))) as (s2 & H2 & T2 & M2 & E2).
  pose proof (moved_trans _ _ _ M1 M2) as M2'.
  destruct (vload_ok s2 (v + 2) c ltac:(lia) T2 ltac:(apply (Hb s2 2%nat); [done|done|congruence])) as (s3 & H3 & T3 & M3 & E3).
  pose proof (moved_trans _ _ _ M2' M3) as M3'.
  destruct (vload_ok s3 (v + 3) d ltac:(lia) T3 ltac:(apply (Hb s3 3%nat); [done|done|congruence])) as (s4 & H4 & T4 & M4 & E4).
  exists s4. split; [|split; [done|split; [by apply (moved_trans _ s3)|congruence]]].
  unfold vload32. rewrite (ST_run _ _ _ _ _ H1), (ST_run _ _ _ _ _ H2), (ST_run _ _ _ _ _ H3), (ST_run _ _ _ _ _ H4).
  unfold le32. simpl. unfold mret, ST_ret. do 2 f_equal. change (2 ^ 8) with 256. change (2 ^ 16) with 65536. change (2 ^ 24) with 16777216. lia.
Qed.

(** a copy into reserved memory *)
Lemma copy_ok s dest src P n l :
  Z.of_nat (length l) = n -> block dest (length l) -> block src (length l) -> Forall is_byte l -> tlb_ok (mmu_of s) ->
  readable (mmu_of s) (in_mem s) src l -> laid (mmu_of s) dest P (length l) ->
  0x200000 <= P -> P + Z.of_nat (length l) <= 0x400000 -> writable (in_mem s) P (Z.of_nat (length l)) ->
  exists s', vmemcpy dest src n s = Some (tt, s') /\ tlb_ok (mmu_of s') /\ moved s s' /\ seen s' dest l /\
    forall p, ~ (P <= p < P + Z.of_nat (length l)) -> in_mem s' !! p = in_mem s !! p.
Proof.
  intros Hn Hbd Hbs Hbyte Ht Hr Hlaid HP0 HP1 Hmem.
  destruct (vmemcpy_ok s dest src n l Hn Hbd Hbs Hbyte Ht) as (s' & Hrun & Ht' & Hm & Hseen & Hother).
  - intros i b Hi. destruct (Hr i b Hi) as (p & Hp & _ & Hb). unfold byte_at, frame_of. by rewrite Hp.
  - intros i Hi. exists (P + Z.of_nat i). split; [by apply Hlaid|]. split; [apply Hmem; unfold within; lia|].
    intros j Hj Hj'. unfold frame_of in Hj'. rewrite Hlaid in Hj' by done. injection Hj' as Hj'. lia.
  - intros i j p Hi Hj Hp Hq. unfold frame_of in *. rewrite Hlaid in Hp by done. injection Hp as <-.
    destruct (lookup_lt_is_Some_2 l j Hj) as [b Hb]. destruct (Hr j b Hb) as (q & Hq' & Hres & _).
    apply Hres. unfold reserved. assert (q = P + Z.of_nat i) by congruence. lia.
  - exists s'. split_and!; try done. intros p Hp. apply Hother. intros j Hj Hj'. unfold frame_of in Hj'.
    rewrite Hlaid in Hj' by done. injection Hj' as <-. apply Hp. lia.
Qed.
End memory.

(** ** The three areas *)

Section fill.
Context {A : Type} (cur num_cpus : Z).
Implicit Types (s : init A) (sp : space_store A).

(** the pages of the areas *)
Definition info_page : Z := 0xfcfff.
Definition code_page : Z := 0xc0000.
Definition data_page : Z := 0xd0000.
(** the entries of the directory they lie in *)
Definition area_entries : list Z := [1011; 768; 832].

(** bytes to copy to and from, whatever else happens to reserved memory *)
Definition supply (m : mmu) (mem : bytes) (v : Z) (l : list Z) : Prop :=
  block v (length l) /\ Forall is_byte l /\ readable m mem v l.

Lemma supply_step m m' mem mem' v l : extends m m' -> (forall p, ~ reserved p -> mem' !! p = mem !! p) ->
  supply m mem v l -> supply m' mem' v l.
Proof. intros He Hm (Hb & Hl & Hr). split; [done|]. split; [done|]. by apply (readable_step m m' mem). Qed.

(** a frame is mapped, with the state of [init] around it *)
Lemma sigma0_map_ok s sp mem space dir d ds perms V P size frame :
  target sp space dir (d :: ds) -> frame_at sp frame (P * 4096) size -> tlb_ok (sp_mmu sp) -> 0 <= V < 2 ^ 20 -> V / 1024 = d ->
  0 < size -> V mod 1024 + size <= 1024 -> 0 <= P -> P + size <= 2 ^ 20 ->
  exists sp', sigma0_map num_cpus cur space (V * 4096) perms frame (with_sp sp mem s) = Some (tt, with_sp sp' mem s) /\
    target sp' space dir ds /\ tlb_ok (sp_mmu sp') /\ extends (sp_mmu sp) (sp_mmu sp') /\
    (forall n, Z.of_nat n <= size * 4096 -> laid (sp_mmu sp') (V * 4096) (P * 4096) n) /\
    (forall q a z, q <> frame -> frame_at sp q a z -> frame_at sp' q a z) /\
    sp_kernel sp' = sp_kernel sp /\ sp_alloc sp' = sp_alloc sp /\ (forall q, q <> space -> sp_spaces sp' !! q = sp_spaces sp !! q).
Proof.
  intros Ht Hf Htlb HV Hd H0 H1 H2 H3.
  destruct (map_new_ok cur num_cpus sp space dir d ds perms V P size frame Ht Hf HV Hd H0 H1 H2 H3)
    as (sp' & Hrun & Ht' & Heq & He & Hin & Hk & Ha & Hsp & Hfr).
  exists sp'. split; [unfold sigma0_map; by rewrite (ST_run _ _ _ _ _ (on_sp_run _ sp mem s _ _ Hrun))|].
  split_and!; try done.
  - by apply (tlb_ok_extends (sp_mmu sp)).
  - intros n Hn. by apply (laid_pages _ V P size); [lia|..].
  - intros q a z Hq (f & Hfq & Hf'). exists f. by rewrite Hfr.
Qed.

(** what is in place after [sigma0_fill] *)
Record filled (sp : space_store A) (mem : bytes) (space dir : Z) (image info : list Z) : Prop := {
  fi_code : forall i b, image !! i = Some b -> exists p, walk (sp_mmu sp) (code_start + Z.of_nat i) = Some p /\ mem !! p = Some b;
  fi_info : forall i b, info !! i = Some b -> exists p, walk (sp_mmu sp) (BOOTINFO_ADDR + Z.of_nat i) = Some p /\ mem !! p = Some b;
  fi_room : laid (sp_mmu sp) code_start 0x201000 (Z.to_nat (255 * 4096));
  fi_data : laid (sp_mmu sp) data_start 0x300000 (Z.to_nat (256 * 4096));
  fi_target : target sp space dir [];
}.

Lemma sigma0_fill_ok s sp mem space dir info code data bootinfo addr bytes_info image :
  target sp space dir area_entries -> tlb_ok (sp_mmu sp) -> code <> info -> data <> info -> data <> code ->
  frame_at sp info 0x200000 1 -> frame_at sp code 0x201000 255 -> frame_at sp data 0x300000 256 ->
  supply (sp_mmu sp) mem bootinfo bytes_info -> supply (sp_mmu sp) mem addr image ->
  Z.of_nat (length bytes_info) = Info.sizeof_bootinfo -> (length image <= Z.to_nat (255 * 4096))%nat ->
  writable mem 0x200000 Info.sizeof_bootinfo -> writable mem 0x201000 (Z.of_nat (length image)) ->
  exists sp' mem', sigma0_fill num_cpus cur space info code data bootinfo addr (Z.of_nat (length image)) (with_sp sp mem s) =
      Some (tt, with_sp sp' mem' s) /\ filled sp' mem' space dir image bytes_info /\ extends (sp_mmu sp) (sp_mmu sp') /\
    (forall p, ~ reserved p -> mem' !! p = mem !! p) /\ sp_kernel sp' = sp_kernel sp /\ sp_alloc sp' = sp_alloc sp /\
    (forall q, q <> space -> sp_spaces sp' !! q = sp_spaces sp !! q).
Proof.
  intros Ht Htlb Hci Hdi Hdc Fi Fc Fd Si Sc Hli Hlc Wi Wc. unfold sigma0_fill.
  destruct (sigma0_map_ok s sp mem space dir 1011 [768; 832] PAGE_READ info_page 0x200 1 info) as
    (sp1 & R1 & T1 & B1 & E1 & L1 & F1 & K1 & A1 & S1); try done.
  change (info_page * 4096) with BOOTINFO_ADDR in *. rewrite (ST_run _ _ _ _ _ R1).
  pose proof (supply_step _ _ _ mem _ _ E1 ltac:(done) Si) as (Si1 & Si2 & Si3).
  destruct (copy_ok (with_sp sp1 mem s) BOOTINFO_ADDR bootinfo 0x200000 Info.sizeof_bootinfo bytes_info) as
    (s2 & R2 & B2 & M2 & C2 & O2); try done.
  { unfold block, BOOTINFO_ADDR, KERNEL_BASE, PAGE_SIZE. rewrite Hli. by vm_compute. }
  { apply L1. rewrite Hli. by vm_compute. }
  { rewrite Hli. by vm_compute. }
  { by rewrite Hli. }
  destruct (moved_with _ _ _ _ M2) as [Es2 Hs2]. set (sp2 := AddrSpace.set_mmu (mmu_of s2) sp1) in *. set (mem2 := in_mem s2) in *.
  rewrite (ST_run _ _ _ _ _ R2), Es2. rewrite Hli in O2. change (in_mem (with_sp sp1 mem s)) with mem in O2.
  assert (Hm2 : forall p, ~ reserved p -> mem2 !! p = mem !! p).
  { intros p Hp. apply O2. intros Hp2. apply Hp. unfold reserved. change Info.sizeof_bootinfo with 296 in Hp2. lia. }
  assert (T2 : target sp2 space dir [768; 832]) by (by apply target_same_tables).
  assert (E2 : extends (sp_mmu sp1) (sp_mmu sp2)) by (by apply same_tables_extends).
  destruct (sigma0_map_ok s sp2 mem2 space dir 768 [832] (Z.lor PAGE_READ PAGE_WRITE) code_page 0x201 255 code) as
    (sp3 & R3 & T3 & B3 & E3 & L3 & F3 & K3 & A3 & S3); try done; [by apply F1|].
  change (code_page * 4096) with code_start in *. rewrite (ST_run _ _ _ _ _ R3).
  destruct (sigma0_map_ok s sp3 mem2 space dir 832 [] (Z.lor PAGE_READ PAGE_WRITE) data_page 0x300 256 data) as
    (sp4 & R4 & T4 & B4 & E4 & L4 & F4 & K4 & A4 & S4); try done; [by apply F3, F1|].
  change (data_page * 4096) with data_start in *. rewrite (ST_run _ _ _ _ _ R4).
  pose proof (extends_trans _ _ _ E1 (extends_trans _ _ _ E2 (extends_trans _ _ _ E3 E4))) as E14.
  destruct (supply_step _ _ mem mem2 _ _ E14 Hm2 Sc) as (Sc1 & Sc2 & Sc3).
  assert (Hcode : forall n, Z.of_nat n <= 255 * 4096 -> laid (sp_mmu sp4) code_start 0x201000 n).
  { intros n Hn. apply (laid_step (sp_mmu sp3)); [|done|by apply L3]. unfold block, code_start. lia. }
  destruct (copy_ok (with_sp sp4 mem2 s) code_start addr 0x201000 (Z.of_nat (length image)) image) as
    (s5 & R5 & B5 & M5 & C5 & O5); try done.
  { unfold block, code_start. lia. }
  { apply Hcode. lia. }
  { lia. }
  { intros p Hp. destruct (Wc p Hp) as [b Hb]. exists b. rewrite <- Hb. apply O2. unfold within in Hp. change Info.sizeof_bootinfo with 296. lia. }
  destruct (moved_with _ _ _ _ M5) as [Es5 Hs5]. exists (AddrSpace.set_mmu (mmu_of s5) sp4), (in_mem s5).
  pose proof (same_tables_extends _ _ Hs5) as E5.
  split; [by rewrite R5, <- Es5|]. split; [split|split_and!].
  - intros i b Hi. pose proof (C5 i b Hi) as Hb. unfold byte_at, frame_of in Hb.
    destruct (walk (mmu_of s5) (code_start + Z.of_nat i)) as [p|] eqn:Hp; [|done]. by exists p.
  - intros i b Hi. pose proof (C2 i b Hi) as Hb. unfold byte_at, frame_of in Hb.
    destruct (walk (mmu_of s2) (BOOTINFO_ADDR + Z.of_nat i)) as [p|] eqn:Hp; [|done]. exists p.
    pose proof (lookup_lt_Some _ _ _ Hi) as Hil.
    assert (Hir : 0 <= BOOTINFO_ADDR + Z.of_nat i < 2 ^ 32).
    { unfold BOOTINFO_ADDR, KERNEL_BASE, PAGE_SIZE. change Info.sizeof_bootinfo with 296 in Hli. lia. }
    split; [by apply (ex_walk _ _ E5), (ex_walk _ _ E4), (ex_walk _ _ E3)|]. rewrite O5; [done|].
    assert (Hpi : p = 0x200000 + Z.of_nat i).
    { assert (Hw : walk (mmu_of s2) (BOOTINFO_ADDR + Z.of_nat i) = Some (0x200000 + Z.of_nat i)).
      { apply (ex_walk _ _ E2); [done|]. apply (L1 (length bytes_info)); [|done]. rewrite Hli. by vm_compute. }
      congruence. }
    change Info.sizeof_bootinfo with 296 in Hli. lia.
  - apply (laid_step (sp_mmu sp4)); [unfold block, code_start; rewrite Z2Nat.id; lia|done|]. apply Hcode. rewrite Z2Nat.id; lia.
  - apply (laid_step (sp_mmu sp4)); [unfold block, data_start; rewrite Z2Nat.id; lia|done|]. apply L4. rewrite Z2Nat.id; lia.
  - by apply target_same_tables.
  - apply (extends_trans _ _ _ E14 E5).
  - intros p Hp. rewrite O5; [by apply Hm2|]. intros Hp5. apply Hp. unfold reserved. lia.
  - exact (eq_trans K4 (eq_trans K3 K1)).
  - exact (eq_trans A4 (eq_trans A3 A1)).
  - intros q Hq. exact (eq_trans (S4 q Hq) (eq_trans (S3 q Hq) (S1 q Hq))).
Qed.
End fill.

(** ** The image *)

Section image.
Context {A : Type} `{!Allocator A} `{!Pages A} `{!AllocatorLaws A} `{!PagesLaws A}.
Context (cpu : nat) (num_cpus : Z).
Implicit Types (s : init A) (sp : space_store A).

(** the kernel has been set up: its space [K], unlocked and with room for three
    mappings, is the current one; [gd] is the entry of the directory for the
    pages of the kernel's region; no program's area has a table yet *)
Record booted s (cur K : Z) (x : addr_space) (m : addr_map) (gd : Z) : Prop := {
  bo_cur : k_current (in_kernel s) !! cpu = Some cur;
  bo_kernel : sp_kernel (k_spaces (in_kernel s)) = K;
  bo_space : sp_spaces (k_spaces (in_kernel s)) !! K = Some x;
  bo_free : obj_free (as_object x);
  bo_map : sp_maps (k_spaces (in_kernel s)) !! as_map x = Some m;
  bo_map_wf : AddrSpace.map_wf m;
  bo_map_room : am_used m + 3 <= ADDR_MAP_ENTRIES_PER_PAGE;
  bo_mem : space_mem (k_spaces (in_kernel s));
  bo_rooms : rooms 2 (sp_alloc (k_spaces (in_kernel s))) /\ rooms 3 (sp_frame_slab (k_spaces (in_kernel s)));
  bo_clone : can_clone (mmu_of s) (as_page_dir x) gd;
  bo_dir : big_dir (mmu_of s) (as_page_dir x);
  bo_absent : (gd ∉ area_entries) /\ forall d, d ∈ area_entries -> pde (mmu_of s) d = 0;
  bo_pages : 5 <= r_available (pm_physical (mmu_of s));
}.

(** bytes the kernel reads outside the region's pages and outside the memory
    reserved for the program *)
Definition source s (gd v : Z) (l : list Z) : Prop :=
  block v (length l) /\ Forall is_byte l /\ readable (mmu_of s) (in_mem s) v l /\
  forall i, (i < length l)%nat -> let d := (v + Z.of_nat i) / 2 ^ 22 in d <> gd /\ d <> 1023.

Lemma source_supply s gd v l m' :
  (forall d t o, indices d t o -> d <> gd -> d <> 1023 -> walk m' (vaddr_of d t o) = walk (mmu_of s) (vaddr_of d t o)) ->
  source s gd v l -> supply m' (in_mem s) v l.
Proof.
  intros Hw (Hb & Hl & Hr & Hd). split; [done|]. split; [done|]. intros i b Hi.
  destruct (Hr i b Hi) as (p & Hp & Hres & Hx). exists p. split; [|done].
  pose proof (lookup_lt_Some _ _ _ Hi) as Hil. destruct Hb as [Hv0 Hv].
  destruct (address_indices (v + Z.of_nat i)) as (d & t & o & E & Hix & Hdi); [lia|]. rewrite E in Hp |- *.
  destruct (Hd i Hil) as [H1 H2]. assert (Hdd : (v + Z.of_nat i) / 2 ^ 22 = d).
  { rewrite Hdi. rewrite Z.div_div by done. done. }
  rewrite Hw; [done|done|by rewrite <- Hdd|by rewrite <- Hdd].
Qed.

Lemma clean_zero : clean 0 = 0.
Proof. done. Qed.

(** making a frame leaves the tables and the spaces alone *)
Lemma target_frames sp a f space dir ds : target sp space dir ds -> target (set_sp_frame_slab a (set_frames f sp)) space dir ds.
Proof. by intros [H1 H2 H3 H4 H5]. Qed.

Lemma sigma0_frames_ok {B} s sp mem n (F : Z -> Z -> Z -> ST (init A) B) :
  space_mem sp -> rooms (3 + n) (sp_frame_slab sp) ->
  exists info code data a f, let sp' := set_sp_frame_slab a (set_frames f sp) in
    (info ← on_sp (phys_frame_create 0x200000 1 0); code ← on_sp (phys_frame_create 0x201000 255 0);
     data ← on_sp (phys_frame_create 0x300000 256 0); F info code data) (with_sp sp mem s) = F info code data (with_sp sp' mem s) /\
    space_mem sp' /\ rooms n a /\ code <> info /\ data <> info /\ data <> code /\
    frame_at sp' info 0x200000 1 /\ frame_at sp' code 0x201000 255 /\ frame_at sp' data 0x300000 256.
Proof using All.
  intros Hm Hr.
  destruct (frame_create_ok sp 0x200000 1 0 _ Hm Hr) as (info & a1 & R1 & M1 & Q1 & _). set (sp1 := set_sp_frame_slab a1 _) in *.
  destruct (frame_create_ok sp1 0x201000 255 0 _ M1 Q1) as (code & a2 & R2 & M2 & Q2 & N2). set (sp2 := set_sp_frame_slab a2 _) in *.
  destruct (frame_create_ok sp2 0x300000 256 0 _ M2 Q2) as (data & a3 & R3 & M3 & Q3 & N3). set (sp3 := set_sp_frame_slab a3 _) in *.
  simpl in N2, N3.
  assert (H1 : code <> info) by (intros ->; by rewrite lookup_insert_eq in N2).
  assert (H2 : data <> code) by (intros ->; by rewrite lookup_insert_eq in N3).
  assert (H3 : data <> info) by (intros ->; by rewrite lookup_insert_ne, lookup_insert_eq in N3).
  exists info, code, data, a3, (sp_frames sp3). cbn zeta.
  split; [by rewrite (ST_run _ _ _ _ _ (on_sp_run _ _ mem s _ _ R1)), (ST_run _ _ _ _ _ (on_sp_run _ _ mem s _ _ R2)),
    (ST_run _ _ _ _ _ (on_sp_run _ _ mem s _ _ R3))|].
  split; [exact M3|]. split_and!; try done; eexists; (split; [simpl|]).
  - by rewrite !lookup_insert_ne, lookup_insert_eq by done.
  - by repeat split.
  - by rewrite lookup_insert_ne, lookup_insert_eq by done.
  - by repeat split.
  - apply lookup_insert_eq.
  - by repeat split.
Qed.

(** the old directory is no table of the new one *)
Lemma cloned_old m gd newdir t N b m1 m2 : cloned m gd newdir t N b m1 m2 -> unused m2 (pd b).
Proof.
  intros [_ [Hw _ _ _ _ _ _ _ Hnt _ _ _] _ Hw2 _ _ Hpd2 _ _ _ _ Hpde Hphys _ _]. destruct (mw_rec b Hw) as [Hrec Htab].
  split; [by apply pd_mult|]. split; [rewrite Hphys, <- Htab; exact (mw_used b Hw 1023 Hrec)|]. intros d Hd E.
  destruct (decide (d = 1023)) as [->|Hne].
  - destruct (mw_rec m2 Hw2) as [_ Htab2]. apply (Hnt 1023 Hrec). congruence.
  - pose proof Hd as (Hd1 & Hp & H4). rewrite Hpde in Hp, H4 by lia. rewrite clean_present in Hp. rewrite clean_4mb in H4.
    unfold table_of in E. rewrite Hpde, clean_mask in E by lia. apply Hne, (mw_tables b Hw); [done..|].
    by rewrite Htab.
Qed.

(** the clone of the kernel's space can take the three areas *)
Lemma clone_target s cur K x m gd : booted s cur K x m gd ->
  exists new sp1 sp2 newdir t N b m1, addr_space_clone cur num_cpus K (k_spaces (in_kernel s)) = Some (new, sp1) /\
    addr_space_set new sp1 = Some (tt, sp2) /\ space_mem sp2 /\ rooms 3 (sp_frame_slab sp2) /\ new <> K /\
    sp_kernel sp2 = K /\ target sp2 new newdir area_entries /\ tlb_ok (sp_mmu sp2) /\
    cloned (mmu_of s) gd newdir t N b m1 (sp_mmu sp2) /\
    forall v l, source s gd v l -> supply (sp_mmu sp2) (in_mem s) v l.
Proof using All.
  intros [Hc HK Hx Hfree Hm Hmw Hroom Hmem [Hrooms Hfrooms] Hclone _ [Hapart Habs] Hpages].
  destruct (space_clone_ok cur num_cpus (k_spaces (in_kernel s)) K x m gd 0 Hmem Hrooms Hx Hfree Hm Hclone)
    as (new & sp1 & sp2 & y & R1 & R2 & M2 & _ & Q2 & Hne & _ & HK2 & Hy & Hyf & Hym & t & N & b & m1 & Hcl).
  pose proof Hcl as [_ [_ _ _ _ Hpde0 _ _ _ _ _ Hwalk0 Hav] _ Hw _ _ _ _ Htlb Hwalk1 Hwalk2 Hpde Hphys _ _].
  exists new, sp1, sp2, (as_page_dir y), t, N, b, m1. split_and!; try done; [by rewrite Q2|congruence|split; try done| |].
  - by exists y, m.
  - intros d Hd. assert (0 <= d < 1023) as Hr by (revert Hd; unfold area_entries; rewrite !elem_of_cons, elem_of_nil; lia).
    split; [done|]. rewrite Hpde, Hpde0 by (done || lia || (left; by intros ->)). unfold mmu_of in Habs. by rewrite Habs.
  - apply (bool_decide_unpack _). by vm_compute.
  - unfold mmu_of in Hpages. rewrite Hphys. change (length area_entries) with 3%nat. lia.
  - intros v p _. by rewrite Htlb, lookup_empty.
  - intros v l. apply source_supply. intros d t' o Hin Hd1 Hd2. rewrite Hwalk2, Hwalk1 by done. apply Hwalk0; [done|done|by intros [-> _]].
Qed.

(** the module, as the boot loader left it: the words of its record, and its
    bytes with the 0x200 that follow; the boot information; and memory for the
    areas *)
Record module_at s gd module bootinfo (image info : list Z) : Prop := {
  ma_image : exists mstart mend, source s gd (module + sizeof_modules_start) mstart /\ length mstart = 4%nat /\
    source s gd (module + sizeof_modules_end) mend /\ length mend = 4%nat /\
    source s gd (low_phys_to_virt (le32 mstart)) image /\
    Z.of_nat (length image) = w32 (w32 (le32 mend - le32 mstart) + 0x200);
  ma_size : (length image <= Z.to_nat (255 * 4096))%nat;
  ma_info : source s gd bootinfo info;
  ma_info_size : Z.of_nat (length info) = Info.sizeof_bootinfo;
  ma_info_room : writable (in_mem s) 0x200000 Info.sizeof_bootinfo;
  ma_image_room : writable (in_mem s) 0x201000 (Z.of_nat (length image));
}.

(** what a program finds in the current space *)
Record program_at s (image info : list Z) : Prop := {
  pa_image : seen s code_start image;
  pa_info : seen s BOOTINFO_ADDR info;
  pa_code : forall i, 0 <= i < 255 * 4096 -> frame_of s (code_start + i) = Some (0x201000 + i);
  pa_data : forall i, 0 <= i < 256 * 4096 -> frame_of s (data_start + i) = Some (0x300000 + i);
}.

(** the state in which the image is complete: [new] is the space, with the
    directory [newdir], in the page [N]; [b] are the tables the kernel's
    directory was copied from, those at the start with the page mapped *)
Record image_done s s' (gd new newdir t N : Z) (b : mmu) (image info : list Z) : Prop := {
  im_program : program_at s' image info;
  im_sources : forall v l, source s gd v l -> seen s' v l;
  im_rest : s' = with_sp (k_spaces (in_kernel s')) (in_mem s') s;
  im_target : target (k_spaces (in_kernel s')) new newdir [];
  im_wf : mmu_wf (mmu_of s');
  im_dir : 0 <= t < 1024 /\ newdir = vaddr_of gd t 0;
  im_base : mmu_wf b /\ pd b = pd (mmu_of s) /\ is_table b gd;
  im_entries : forall i, 0 <= i < 1024 -> i <> gd -> pde b i = pde (mmu_of s) i;
  im_pde : forall i, 0 <= i < 1023 -> flag_set (pde b i) PAGE_ARCH_PRESENT = true ->
    pde (mmu_of s') i = clean (pde b i);
  im_pd : pd (mmu_of s') = N;
  im_mapped : walk (mmu_of s') newdir = Some N;
  im_old : forall i, 0 <= i < 1024 -> mem_get (mmu_of s') (pd b + 4 * i) = pde b i;
  im_spare : forall p, region_spare (pm_physical (mmu_of s')) p -> region_spare (pm_physical b) p;
}.

Lemma sigma0_image_ok s module bootinfo cur K x m gd image info :
  booted s cur K x m gd -> module_at s gd module bootinfo image info ->
  exists new frame newdir t N b s', sigma0_image cpu num_cpus module bootinfo s = Some ((new, frame), s') /\
    new <> K /\ image_done s s' gd new newdir t N b image info.
Proof using All.
  intros Hb [(mstart & mend & Hs & Hsl & He & Hel & Hc & Hlen) Hcm Hi Hil Wi Wc]. pose proof Hb as [Hcur HK _ _ _ _ _ _ _ _ _ _].
  destruct (clone_target s cur K x m gd Hb) as (new & sp1 & sp2 & newdir & t & N & bs & m1 & R1 & R2 & M2 & Q2 & Hne & HK2 & T2 & B2 & Hcl & Hsup).
  destruct (cc_table _ _ _ (bo_clone _ _ _ _ _ _ Hb)) as [Hgr _].
  set (mem := in_mem s) in *. set (sp0 := k_spaces (in_kernel s)) in *.
  assert (sigma0_image cpu num_cpus module bootinfo s = sigma0_image cpu num_cpus module bootinfo (with_sp sp0 mem s)) as ->
    by (unfold sp0, mem; by rewrite with_sp_same).
  unfold sigma0_image.
  rewrite (ST_run _ _ _ cur (with_sp sp0 mem s)).
  2: { unfold on_k, zoom, sched_current_thread. simpl. by rewrite Hcur. }
  rewrite (ST_run _ _ _ _ _ (on_sp_run addr_space_kernel sp0 mem s K sp0
    ltac:(unfold addr_space_kernel; rewrite ST_bind_eq; simpl; by rewrite HK))).
  rewrite (ST_run _ _ _ _ _ (on_sp_run _ _ mem s _ _ R1)), (ST_run _ _ _ _ _ (on_sp_run _ _ mem s _ _ R2)).
  destruct (Hsup _ _ He) as ([He0 He1] & _ & He3). destruct (Hsup _ _ Hs) as ([Hs0 Hs1] & _ & Hs3).
  destruct (vload32_ok (with_sp sp2 mem s) (module + sizeof_modules_end) mend Hel ltac:(rewrite Hel in He1; by split) B2 He3) as (s3 & R3 & B3 & M3 & E3).
  destruct (moved_with _ _ _ _ M3) as [Es3 Hs_3].
  assert (Hs3' : readable (mmu_of s3) (in_mem s3) (module + sizeof_modules_start) mstart).
  { apply (readable_step (sp_mmu sp2) _ mem); [by split|by apply same_tables_extends|intros p _; by rewrite E3|done]. }
  destruct (vload32_ok s3 (module + sizeof_modules_start) mstart Hsl ltac:(rewrite Hsl in Hs1; by split) B3 Hs3') as (s4 & R4 & B4 & M4 & E4).
  destruct (moved_with sp2 mem s s4 (moved_trans _ _ _ M3 M4)) as [Es4 Hs_4].
  rewrite (ST_run _ _ _ _ _ R3), (ST_run _ _ _ _ _ R4), Es4. cbn zeta.
  set (sp4 := AddrSpace.set_mmu (mmu_of s4) sp2) in *. rewrite E4, E3. change (in_mem (with_sp sp2 mem s)) with mem. rewrite <- Hlen.
  destruct (sigma0_frames_ok s sp4 mem 0 (fun info code data => _ ← sigma0_fill num_cpus cur new info code data bootinfo
    (low_phys_to_virt (le32 mstart)) (Z.of_nat (length image)); mret (new, info)) ltac:(by destruct M2) Q2)
    as (fi & fc & fd & a & f & R5 & _ & _ & N1 & N2 & N3 & F1 & F2 & F3).
  rewrite R5. set (sp5 := set_sp_frame_slab a (set_frames f sp4)) in *.
  pose proof (same_tables_extends _ _ Hs_4) as X4.
  assert (Hsup5 : forall v l, source s gd v l -> supply (sp_mmu sp5) mem v l) by (intros v l Hv; apply (supply_step (sp_mmu sp2) _ mem); [done|done|by apply Hsup]).
  destruct (sigma0_fill_ok cur num_cpus s sp5 mem new newdir fi fc fd bootinfo (low_phys_to_virt (le32 mstart)) info image)
    as (sp6 & mem6 & R6 & [G1 G2 G3 G4 G5] & X6 & O6 & _); try done; try (by apply Hsup5).
  { by apply target_frames, target_same_tables. }
  assert (Hbyte : forall v b, (exists p, walk (sp_mmu sp6) v = Some p /\ mem6 !! p = Some b) -> byte_at (with_sp sp6 mem6 s) v = Some b).
  { intros v b (p & Hp & Hx). unfold byte_at, frame_of. change (mmu_of (with_sp sp6 mem6 s)) with (sp_mmu sp6). by rewrite Hp. }
  destruct (ex_unused _ _ (extends_trans _ _ _ X4 X6) _ (cloned_old _ _ _ _ _ _ _ _ Hcl)) as [_ Hkept].
  pose proof (extends_trans _ _ _ X4 X6) as X46. destruct Hcl as [[Ht Hnd] [Hwb Hpdb _ Htab Hpdeb _ _ _ _ _ _ _] _ _ _ _ Hpd2 _ _ _ _ Hclean Hphys Hold Hmapped].
  exists new, fi, newdir, t, N, bs, (with_sp sp6 mem6 s). split; [by rewrite (ST_run _ _ _ _ _ R6)|]. split; [done|]. split; try done.
  - split.
    + intros i b Hib. by apply Hbyte, G1.
    + intros i b Hib. by apply Hbyte, G2.
    + intros i Hr. rewrite <- (Z2Nat.id i) by lia. apply G3. lia.
    + intros i Hr. rewrite <- (Z2Nat.id i) by lia. apply G4. lia.
  - intros v l Hv. destruct (supply_step _ _ _ mem6 _ _ X6 O6 (Hsup5 v l Hv)) as (_ & _ & Hr).
    intros i b Hib. apply Hbyte. destruct (Hr i b Hib) as (p & Hp & _ & Hx). by exists p.
  - apply (tg_wf _ _ _ _ G5).
  - intros i Hi' Hgd. apply Hpdeb; [done|by left].
  - intros i Hr Hp. rewrite <- Hclean by done. apply (ex_pde _ _ X46); [lia|].
    rewrite Hclean by done. intros E. by rewrite <- clean_present, E in Hp.
  - unfold pd. change (mmu_of (with_sp sp6 mem6 s)) with (sp_mmu sp6). rewrite (ex_cr3 _ _ X46). exact Hpd2.
  - apply (ex_walk _ _ X46); [|done]. rewrite Hnd. unfold vaddr_of. lia.
  - intros i Hi'. rewrite <- (Hold i Hi'). exact (Hkept i Hi').
  - intros p Hp. rewrite <- Hphys. by apply (ex_spare _ _ X46).
Qed.

End image.

(** ** The thread *)

Section thread.
Context {A : Type} `{!Allocator A} `{!Pages A} `{!AllocatorLaws A} `{!PagesLaws A}.
Context (stale_table : Z -> list cap_entry) (stale_object : kobject).
Context (Hlen : forall t, length (stale_table t) = 256%nat).
Context (Hnull : forall t i e, stale_table t !! i = Some e -> ce_type e = CAP_TYPE_NULL).
Implicit Types (k : kernel A).

(** there is room for a thread with its stack, a capability space with its
    table, and an endpoint, and then [n] more objects and pages of the threads *)
Record can_start (n : nat) k : Prop := {
  cs_threads : thread_room (2 + n) k;
  cs_caps : cap_wf (k_caps k);
  cs_cap_mem : cap_mem (k_caps k);
  cs_cap_rooms : rooms 2 (st_alloc (k_caps k));
  cs_queues : alloc_inv (k_queue_slab k);
  cs_queue_room : alloc_room (k_queue_slab k);
}.

Lemma sigma0_thread_ok n k new_space info :
  can_start n k ->
  exists t th msgq sp tb k', sigma0_thread stale_table stale_object new_space info k = Some ((t, msgq), k') /\
    k_threads k !! t = None /\ k_threads k' = <[t := th]> (k_threads k) /\
    th_registers th = ThreadRegs 0 0xd0000ff8 0xc0000000 1 /\ th_flags th = THREAD_FLAG_USER /\
    th_addr_space th = new_space /\ th_cap_space th = sp /\ th_id th = k_thread_counter k /\ obj_free (th_object th) /\
    k_syncs k' = <[msgq := MsgQueue stale_object [] []]> (k_syncs k) /\ k_spaces k' = k_spaces k /\
    k_run_tree k' = k_run_tree k /\ cap_wf (k_caps k') /\ st_spaces (k_caps k) !! sp = None /\
    st_spaces (k_caps k') = <[sp := CapSpace tb 0]> (st_spaces (k_caps k)) /\
    (forall i e, slot (k_caps k') tb i = Some e /\ ce_type e <> CAP_TYPE_NULL <->
       (i, e) ∈ [(0%nat, CapEntry CAP_TYPE_CAP_SPACE all_rights sp);
                 (1%nat, CapEntry CAP_TYPE_IPC_SYNC_ENDPOINT all_rights msgq);
                 (2%nat, CapEntry CAP_TYPE_ADDR_SPACE all_rights new_space);
                 (3%nat, CapEntry CAP_TYPE_PHYS_MEMORY (all_rights - CAP_MODIFY) info)]) /\
    (forall tb' i, tb' <> tb -> slot (k_caps k') tb' i = slot (k_caps k) tb' i) /\
    (th_state th = SCHED_STATE_RUNNING /\ vruntime th = 0 /\ t <> NULL /\ thread_room n k') /\
    k' = set_k_caps (k_caps k') (set_k_syncs (k_syncs k') (set_k_queue_slab (k_queue_slab k') (set_k_threads (k_threads k')
      (set_k_thread_counter (k_thread_counter k') (set_k_thread_slab (k_thread_slab k') k))))).
Proof using All.
  intros [Htr Hcw Hcm Hcr Hqi Hqr].
  destruct (thread_create_ok n k code_start new_space (data_start + 0xff8) THREAD_FLAG_USER Htr) as (t & a & page & R1 & Ht & Htn & _ & Htr').
  cbn zeta in R1, Htr'. set (k1 := set_k_thread_counter _ _) in R1. set (th0 := Thread _ _ _ _ _ _ _ _ _ _ _ _ _ _) in *.
  destruct Hcr as (Hcr & _ & Hcn).
  destruct (first_caps_ok stale_table Hlen Hnull (k_caps k) Hcw Hcm Hcr ltac:(intros p b Hb; by destruct (Hcn p b (or_introl Hb)) as (_ & ? & _)))
    as (sp & tb & s1 & R2 & Hsp & Hcaps).
  set (k2 := set_k_caps s1 k1). set (th := set_th_cap_space sp th0). set (k3 := set_k_threads (<[t := th]> (k_threads k2)) k2).
  destruct (alloc_total _ Hqi Hqr) as (q & b & R4).
  set (k4 := set_k_syncs (<[q := MsgQueue stale_object [] []]> (k_syncs k3)) (set_k_queue_slab b k3)).
  destruct (Hcaps q new_space info) as (s2 & R5 & Hw2 & Hsp2 & Hslots & Hother).
  assert (Htr4 : thread_room n (set_k_caps s2 k4)).
  { destruct Htr' as [H1 H2 H3]. split; [done|done|]. simpl. rewrite insert_insert_eq. intros p Hp. apply (H3 p). simpl.
    revert Hp. rewrite !lookup_insert. by case_decide. }
  exists t, th, q, sp, tb, (set_k_caps s2 k4). split_and!; try done.
  - unfold sigma0_thread. rewrite (ST_run _ _ _ _ _ R1).
    rewrite (ST_run _ _ _ sp k2) by (unfold on_caps, zoom; change (k_caps k1) with (k_caps k); by rewrite R2).
    rewrite (ST_run _ _ _ tt k3) by (apply thread_update_ok; apply lookup_insert_eq).
    rewrite (ST_run _ _ _ q k4).
    2: { unfold message_queue_create, on_queue_slab, zoom. rewrite ST_bind_eq. cbv beta.
       change (k_queue_slab k3) with (k_queue_slab k). by rewrite R4. }
    rewrite (ST_run _ _ _ tt (set_k_caps s2 k4)); [done|]. unfold on_caps, zoom. change (k_caps k4) with s1. by rewrite R5.
  - simpl. by rewrite insert_insert_eq.
Qed.

(** C34: making the first thread, with room for its objects and where the page that
    becomes its capability table, which the code does not clear, holds no
    capability: the thread is a program at
    the start of the code area, with its stack in the data area; it is in the new
    space, and its capability space holds the space itself, the endpoint, the
    address space and the frame of the boot information, the last without the
    right to modify it.  The endpoint has nobody waiting; the other threads,
    endpoints, capability spaces and tables, the address spaces and the run tree
    are as they were. *)
Theorem sigma0_thread_spec k new_space info :
  can_start 0 k ->
  exists t th msgq sp tb k', sigma0_thread stale_table stale_object new_space info k = Some ((t, msgq), k') /\
    k_threads k !! t = None /\ k_threads k' = <[t := th]> (k_threads k) /\
    th_registers th = ThreadRegs 0 0xd0000ff8 0xc0000000 1 /\ th_flags th = THREAD_FLAG_USER /\
    th_addr_space th = new_space /\ th_cap_space th = sp /\ th_id th = k_thread_counter k /\ obj_free (th_object th) /\
    k_syncs k' = <[msgq := MsgQueue stale_object [] []]> (k_syncs k) /\ k_spaces k' = k_spaces k /\
    k_run_tree k' = k_run_tree k /\ cap_wf (k_caps k') /\ st_spaces (k_caps k) !! sp = None /\
    st_spaces (k_caps k') = <[sp := CapSpace tb 0]> (st_spaces (k_caps k)) /\
    (forall i e, slot (k_caps k') tb i = Some e /\ ce_type e <> CAP_TYPE_NULL <->
       (i, e) ∈ [(0%nat, CapEntry CAP_TYPE_CAP_SPACE all_rights sp);
                 (1%nat, CapEntry CAP_TYPE_IPC_SYNC_ENDPOINT all_rights msgq);
                 (2%nat, CapEntry CAP_TYPE_ADDR_SPACE all_rights new_space);
                 (3%nat, CapEntry CAP_TYPE_PHYS_MEMORY (all_rights - CAP_MODIFY) info)]) /\
    forall tb' i, tb' <> tb -> slot (k_caps k') tb' i = slot (k_caps k) tb' i.
Proof using All.
  intros H. destruct (sigma0_thread_ok 0 k new_space info H) as (t & th & msgq & sp & tb & k' & H'). exists t, th, msgq, sp, tb, k'. tauto.
Qed.
End thread.

(** ** The whole of [sigma0_load] *)

(** translation depends on the tables and on where the directory is *)
Lemma walk_same m m' v : pm_mem m' = pm_mem m -> pd m' = pd m -> walk m' v = walk m v.
Proof. unfold pd. intros H1 H2. unfold walk, mem_get. by rewrite H1, H2. Qed.

Section load.
Context {A : Type} `{!Allocator A} `{!Pages A} `{!AllocatorLaws A} `{!PagesLaws A}.
Context (cpu : nat) (num_cpus : Z) (apic_is_enabled : bool) (clock : nat -> Z).
Context (stale_table : Z -> list cap_entry) (stale_object : kobject) (kernel_page_dir : Z).
Implicit Types (k : kernel A).
Context (Hlen : forall t, length (stale_table t) = 256%nat).
Context (Hnull : forall t i e, stale_table t !! i = Some e -> ce_type e = CAP_TYPE_NULL).
Implicit Types (s : init A).

Lemma program_at_same s s' image info : in_mem s' = in_mem s -> (forall v, frame_of s' v = frame_of s v) ->
  program_at s image info -> program_at s' image info.
Proof.
  intros Hm Hf [H1 H2 H3 H4]. assert (Hb : forall v, byte_at s' v = byte_at s v) by (intros v; unfold byte_at; by rewrite Hf, Hm).
  split; intros; rewrite ?Hb, ?Hf; auto.
  - intros i b Hi. rewrite Hb. by apply H1.
  - intros i b Hi. rewrite Hb. by apply H2.
Qed.

(** from the complete image back to the kernel's directory, and from there
    into the new space *)
Lemma image_left s s1 cur K x m gd new newdir t N b image info :
  booted cpu s cur K x m gd -> image_done s s1 gd new newdir t N b image info ->
  kernel_page_dir = as_page_dir x -> pde (mmu_of s) (page_dir_entry kernel_page_dir) mod 2 ^ 22 < 4096 ->
  exists m2, set_page_dir kernel_page_dir (mmu_of s1) = Some (tt, m2) /\ mmu_wf m2 /\ pd m2 = pd (mmu_of s) /\
    (forall v l, source s gd v l -> forall i b, l !! i = Some b ->
       exists p, walk m2 (v + Z.of_nat i) = Some p /\ in_mem s1 !! p = Some b) /\
    exists m3, set_page_dir newdir m2 = Some (tt, m3) /\ forall v, walk m3 v = walk (mmu_of s1) v.
Proof using All.
  intros Hb [_ Hsrc _ _ Hw1 [Ht Hnd] (Hwb & Hpdb & Hgd) Hent Hpde Hpd Hmap Hold Hsp] -> Hlow.
  destruct (bo_clone _ _ _ _ _ _ _ Hb) as [Hws _ [Hgr Hroom] _ _].
  destruct (bo_dir _ _ _ _ _ _ _ Hb) as (dd & dt & Hdi & Hdir & Hdp & Hd4 & Hdv). assert (Hg1 : gd <> 1023) by lia.
  assert (Hdg : dd <> gd). { intros ->. destruct Hroom as [[(_ & _ & E) _]|[E _]]; [congruence|by rewrite E in Hdp]. }
  rewrite Hdir in Hlow |- *. rewrite (vaddr_dirent dd dt 0) in Hlow by done. pose proof Hdi as (Hdd & _ & _).
  assert (Hd1 : dd <> 1023). { intros ->. destruct (mw_rec _ Hws) as [(_ & _ & H) _]. congruence. }
  assert (Hc : pde (mmu_of s1) dd = clean (pde (mmu_of s) dd)) by (rewrite Hpde, Hent; [done|lia|done|lia|by rewrite Hent by done]).
  pose proof (mw_range _ Hws (pd (mmu_of s) + 4 * dd)) as Hr. fold (pde (mmu_of s) dd) in Hr.
  assert (Hlow1 : pde (mmu_of s1) dd mod 2 ^ 22 < 4096).
  { pose proof (clean_range _ Hr) as Hcr. rewrite Hc. rewrite <- Z.land_ones by done. unfold clean.
    rewrite <- Z.land_assoc, (Z.land_comm (w32 _)), Z.land_assoc, Z.land_ones by done.
    set (y := pde (mmu_of s) dd mod 2 ^ 22) in *. assert (0 <= y) by (by apply Z.mod_pos_bound).
    rewrite <- (Z.mod_small y (2 ^ 12)) by (change (2 ^ 12) with 4096; lia). rewrite <- Z.land_ones by done.
    rewrite <- Z.land_assoc, (Z.land_comm (Z.ones 12)), Z.land_assoc, Z.land_ones by done. by apply Z.mod_pos_bound. }
  destruct (set_page_dir_big (mmu_of s1) dd dt Hw1 Hdi) as (c & R2 & Hcm & Hcr); [by rewrite Hc, clean_present|by rewrite Hc, clean_4mb|done|].
  rewrite Hc, clean_big, Hdv, <- Hpdb in Hcm by done.
  assert (Hw2 : mmu_wf (set_tlb ∅ (set_cr3 c (mmu_of s1)))) by (by apply (view_wf b)).
  assert (Hview : forall d t' o, indices d t' o -> d <> 1023 -> flag_set (pde b d) PAGE_ARCH_PRESENT = true ->
    walk (set_tlb ∅ (set_cr3 c (mmu_of s1))) (vaddr_of d t' o) = walk (mmu_of s1) (vaddr_of d t' o))
    by (intros; by apply (view_walk b)).
  exists (set_tlb ∅ (set_cr3 c (mmu_of s1))). split; [done|]. split; [done|]. split; [by rewrite <- Hpdb|]. split.
  - intros v l Hv i c' Hi. pose proof (Hsrc v l Hv i c' Hi) as Hbyte. unfold byte_at, frame_of in Hbyte.
    destruct Hv as ([Hv0 Hv1] & _ & Hrd & Hnot). pose proof (lookup_lt_Some _ _ _ Hi) as Hil.
    destruct (Hrd i c' Hi) as (q & Hq & _). destruct (Hnot i Hil) as [Hn1 Hn].
    destruct (address_indices (v + Z.of_nat i)) as (d & t' & o & E & Hin & Hdd'); [lia|].
    assert (Hdiv : (v + Z.of_nat i) / 2 ^ 22 = d) by (by rewrite Hdd', Z.div_div by done).
    rewrite Hdiv in Hn, Hn1. rewrite E in Hq, Hbyte |- *. pose proof Hin as (Hd & _).
    rewrite Hview by (done || (rewrite walk_eq in Hq by done; rewrite Hent by done; by destruct (flag_set (pde (mmu_of s) d) _))).
    destruct (walk (mmu_of s1) (vaddr_of d t' o)) as [p|]; [|done]. by exists p.
  - assert (Hg2 : is_table (set_tlb ∅ (set_cr3 c (mmu_of s1))) gd) by (by apply (view_table b)).
    assert (Hgi : indices gd t 0) by (unfold indices; pose proof (proj1 Hgd); lia).
    rewrite Hnd in Hmap |- *. rewrite <- (Hview gd t 0 Hgi Hg1 (proj1 (proj2 Hgd))) in Hmap.
    destruct (set_page_dir_table _ gd t N Hw2 Hg2 Hg1 Ht Hmap) as (v3 & R3 & Hv3 & _).
    eexists. split; [exact R3|]. intros v. apply walk_same; [done|]. unfold pd at 1. simpl. by rewrite Hv3, Hpd.
Qed.
(** a thread that has not run does not take the processor from the one that
    starts it *)
Lemma first_thread_waits k cur t th :
  k_threads k !! t = Some th -> vruntime th = 0 -> 0 <= sched_thread_vruntime (k_threads k) cur ->
  gives_way apic_is_enabled k cur t = false.
Proof.
  intros Ht Hv Hc. unfold gives_way. assert (sched_thread_vruntime (k_threads k) t = 0) as -> by (unfold sched_thread_vruntime; by rewrite Ht).
  rewrite (proj2 (Z.ltb_ge _ 0)) by done. by rewrite andb_false_r.
Qed.

(** the scheduler's invariant only looks at the threads, the trees and what the
    processors run *)
Lemma sched_wf_more k k' t th : sched_wf cpu k -> k_threads k' = <[t := th]> (k_threads k) -> k_run_tree k' = k_run_tree k ->
  k_sleep_tree k' = k_sleep_tree k -> k_atree_slab k' = k_atree_slab k -> k_sched_lock k' = k_sched_lock k ->
  k_current k' = k_current k -> k_idle k' = k_idle k -> sched_wf cpu k'.
Proof.
  intros [[W1 W2 W3 W4 W5] Hl Hq Hsl Hc Hi] Ht Hr Hs Ha Hlk Hcu Hid.
  assert (Hex : forall p, is_Some (k_threads k !! p) -> is_Some (k_threads k' !! p)).
  { intros p Hp. rewrite Ht, lookup_insert. by case_decide. }
  split; rewrite ?Hr, ?Hs, ?Hlk, ?Hcu, ?Hid; try done.
  - by split; rewrite ?Hr, ?Hs, ?Ha.
  - eapply Forall_impl; [exact Hq|]. exact Hex.
  - eapply Forall_impl; [exact Hsl|]. exact Hex.
  - destruct Hc as (c & Hc & [->|Hc2]); exists c || exists NULL; (split; [done|]); [by left|right; by apply Hex].
Qed.

(** the kernel has started the first program: it is on its own directory again
    and sees what it saw; the program's thread is in the run tree, and nothing
    else is new there; and in the thread's space, once it is entered, the
    program is in place *)
Record first_started (n : nat) s s' (gd : Z) (image info : list Z) (msgq new t : Z) (th : thread) : Prop := {
  fs_wf : mmu_wf (mmu_of s');
  fs_pd : pd (mmu_of s') = pd (mmu_of s);
  fs_sources : forall v l, source s gd v l -> seen s' v l;
  fs_sched : sched_wf cpu (in_kernel s');
  fs_threads : k_threads (in_kernel s') = <[t := th]> (k_threads (in_kernel s)) /\ k_threads (in_kernel s) !! t = None;
  fs_thread : th_registers th = ThreadRegs 0 0xd0000ff8 0xc0000000 1 /\ th_state th = SCHED_STATE_RUNNING /\ th_addr_space th = new;
  fs_run : Permutation (AA.contents (k_run_tree (in_kernel s'))) (t :: AA.contents (k_run_tree (in_kernel s)));
  fs_current : k_current (in_kernel s') = k_current (in_kernel s);
  fs_queue : k_syncs (in_kernel s') = <[msgq := MsgQueue stale_object [] []]> (k_syncs (in_kernel s));
  fs_maps : in_maps s' = in_maps s;
  fs_room : thread_room n (in_kernel s') /\ exists node, alloc (k_atree_slab (in_kernel s)) = Some (node, k_atree_slab (in_kernel s'));
  fs_null : t <> NULL;
  fs_entered : exists s'', on_sp (addr_space_set new) s' = Some (tt, s'') /\ program_at s'' image info;
}.

Lemma sigma0_load_ok n s module bootinfo cur K x m gd image info :
  booted cpu s cur K x m gd -> module_at s gd module bootinfo image info -> can_start n (in_kernel s) ->
  kernel_page_dir = as_page_dir x -> pde (mmu_of s) (page_dir_entry kernel_page_dir) mod 2 ^ 22 < 4096 ->
  sched_wf cpu (in_kernel s) -> alloc_room (k_atree_slab (in_kernel s)) -> 0 <= sched_thread_vruntime (k_threads (in_kernel s)) cur ->
  exists msgq new t th s',
    sigma0_load cpu num_cpus apic_is_enabled clock stale_table stale_object kernel_page_dir module bootinfo s = Some (Done msgq s') /\
    first_started n s s' gd image info msgq new t th.
Proof using All.
  intros Hb Hm Hcs Hkd Hlow Hsw Hroom Hcv.
  destruct (sigma0_image_ok cpu num_cpus s module bootinfo cur K x m gd image info Hb Hm) as (new & frame & nd & tt' & N & b & s1 & R1 & Hne & Him).
  destruct (image_left s s1 cur K x m gd new nd tt' N b image info Hb Him Hkd Hlow) as (m2 & R3 & Hw2 & Hpd2 & Hsrc & m3 & R5 & Hwalk3).
  destruct Him as [Hprog _ Hs1 Htarget _ _ _ _ _ _ _ _ _]. set (sp1 := k_spaces (in_kernel s1)) in *. set (mem1 := in_mem s1) in *.
  assert (Hk1 : in_kernel s1 = set_k_spaces sp1 (in_kernel s)) by (by rewrite Hs1).
  assert (Hcs1 : can_start n (in_kernel s1)) by (rewrite Hk1; destruct Hcs as [[] ? ? ? ? ?]; split; [by split|done..]).
  destruct (sigma0_thread_ok stale_table stale_object Hlen Hnull n (in_kernel s1) new frame Hcs1)
    as (t & th & msgq & sp & tb & k2 & R2 & Hfresh & Hth & Hregs & _ & Hspace & _ & _ & _ & Hsync & Hsp2 & _ & _ & _ & _ & _ & _ & (Hst & Hvr & Htn & Htr) & Hk2).
  set (k3 := set_k_spaces (AddrSpace.set_mmu m2 sp1) k2).
  assert (Hthk : k_threads k2 = <[t := th]> (k_threads (in_kernel s))) by (rewrite Hth, Hk1; done).
  assert (Hsw3 : sched_wf cpu k3).
  { apply (sched_wf_more (in_kernel s) k3 t th Hsw); unfold k3; rewrite Hk2; simpl; rewrite ?Hk1; try done. }
  assert (Ht3 : k_threads k3 !! t = Some th) by (change (k_threads k3) with (k_threads k2); rewrite Hthk; apply lookup_insert_eq).
  assert (Hcur3 : k_current k3 !! cpu = Some cur) by (unfold k3; rewrite Hk2; simpl; rewrite Hk1; apply Hb).
  destruct (sched_add_ok cpu apic_is_enabled k3 t th cur Hsw3 ltac:(unfold k3; rewrite Hk2; simpl; by rewrite Hk1) Ht3 Hst Hcur3)
    as (tree & a & R4 & Hsw4 & Hperm & _ & node & Halloc).
  rewrite (first_thread_waits k3 cur t th Ht3 Hvr) in R4.
  2: { change (k_threads k3) with (k_threads k2). rewrite Hthk. unfold sched_thread_vruntime in *. rewrite lookup_insert.
       case_decide; [by rewrite Hvr|done]. }
  set (k4 := set_k_ipis _ _) in *. exists msgq, new, t, th, (set_in_kernel k4 s1).
  assert (Hm4 : mmu_of (set_in_kernel k4 s1) = m2) by done.
  split.
  - unfold sigma0_load. rewrite (R_lift _ _ _ _ _ R1). rewrite (R_lift _ _ s1 (t, msgq) (set_in_kernel k2 s1)).
    2: { unfold on_k, zoom. cbn [fst snd]. by rewrite R2. }
    rewrite (R_lift _ _ (set_in_kernel k2 s1) tt (set_in_kernel k3 s1)).
    2: { unfold on_sp, on_k, on_spaces, AddrSpace.on_mmu, zoom. cbn [in_kernel set_in_kernel]. rewrite Hsp2. fold sp1.
         change (sp_mmu sp1) with (mmu_of s1). by rewrite R3. }
    rewrite (R_done _ _ _ tt (set_in_kernel k4 s1)); [done|].
    unfold on_kr. rewrite (rzoom_done _ _ _ _ tt k4); [done|]. unfold sched_add_thread. by rewrite (R_lift _ _ _ _ _ R4).
  - split; rewrite ?Hm4; try done.
    + intros v l Hv i c Hi. destruct (Hsrc v l Hv i c Hi) as (p & Hp & Hx). unfold byte_at, frame_of. rewrite Hm4, Hp. exact Hx.
    + rewrite Hk1 in Hfresh. split; [exact Hthk|exact Hfresh].
    + simpl. rewrite Hperm. unfold k3. rewrite Hk2. simpl. by rewrite Hk1.
    + simpl. unfold k3. rewrite Hk2. simpl. by rewrite Hk1.
    + simpl. unfold k3. simpl. rewrite Hsync. by rewrite Hk1.
    + simpl. by rewrite Hs1.
    + split; [destruct Htr; by split|]. exists node. simpl. rewrite <- Halloc. unfold k3. rewrite Hk2. simpl. by rewrite Hk1.
    + destruct Htarget as [_ (y & my & Hy & _ & Hyd & _) _ _ _].
      assert (R6 : addr_space_set new (AddrSpace.set_mmu m2 sp1) = Some (tt, AddrSpace.set_mmu m3 sp1)).
      { unfold addr_space_set. rewrite (ST_run _ _ _ y (AddrSpace.set_mmu m2 sp1)).
        2: { unfold space_get. rewrite ST_bind_eq. cbv beta. simpl. unfold lift_opt. by rewrite Hy. }
        unfold AddrSpace.on_mmu, zoom. simpl. by rewrite Hyd, R5. }
      exists (set_in_kernel (set_k_spaces (AddrSpace.set_mmu m3 sp1) k4) s1). split.
      * unfold on_sp, on_k, on_spaces, zoom. cbn [in_kernel set_in_kernel]. change (k_spaces k4) with (AddrSpace.set_mmu m2 sp1).
        by rewrite R6.
      * apply (program_at_same s1); [done| |done]. intros v. apply Hwalk3.
Qed.

(** C32: loading the first program, in a kernel that is set up ([booted]: its own
    space is current, unlocked and mapped by a 4 MB entry, with room in its map
    and no table yet where the program goes), with the module, the boot
    information and memory for both areas in place ([module_at]), room for the
    objects ([can_start]) and for a tree node, the scheduler's queues in order and
    the running thread's virtual runtime not negative, and where the page that becomes
    the program's capability table, which the code does not clear, holds no
    capability: nothing faults; the kernel is back on its own directory
    and sees what it saw; the program's thread waits in the run tree, not started
    before the kernel goes on; and whoever enters the thread's space, as the
    scheduler will, finds there the bytes of the module, the boot information and
    the room for data. *)
Theorem sigma0_load_spec s module bootinfo cur K x m gd image info :
  booted cpu s cur K x m gd -> module_at s gd module bootinfo image info -> can_start 0 (in_kernel s) ->
  kernel_page_dir = as_page_dir x -> pde (mmu_of s) (page_dir_entry kernel_page_dir) mod 2 ^ 22 < 4096 ->
  sched_wf cpu (in_kernel s) -> alloc_room (k_atree_slab (in_kernel s)) -> 0 <= sched_thread_vruntime (k_threads (in_kernel s)) cur ->
  exists msgq new t th s',
    sigma0_load cpu num_cpus apic_is_enabled clock stale_table stale_object kernel_page_dir module bootinfo s = Some (Done msgq s') /\
    first_started 0 s s' gd image info msgq new t th.
Proof using All. apply sigma0_load_ok. Qed.
End load.

(** ** A machine that has booted *)

(** directory entry 1012 maps the first 4 MB at [KERNEL_BASE], 1013 has the
    table of the kernel's region *)
Definition boot_dir : mmu :=
  Mmu {[0x1ffc := 0x1003; 0x1fd0 := 0x83; 0x1fd4 := 0x2003]} 0x1000 ∅
    (Region [0; 0; 0; 0] 0x800000 128 128 0 REGION_MODE_PHYSICAL) (Region [0] 0xfd400000 32 32 0 REGION_MODE_VIRTUAL).

Lemma boot_dir_mem a v : pm_mem boot_dir !! a = Some v ->
  (a = 0x1ffc /\ v = 0x1003) \/ (a = 0x1fd0 /\ v = 0x83) \/ (a = 0x1fd4 /\ v = 0x2003).
Proof.
  simpl. intros [[<- <-]|[_ [[<- <-]|[_ [<- <-]%lookup_singleton_Some]]%lookup_insert_Some]]%lookup_insert_Some; tauto.
Qed.

Lemma boot_dir_table i : is_table boot_dir i -> i = 1013 \/ i = 1023.
Proof.
  intros (Hi & Hp & H4). unfold pde in Hp, H4. change (pd boot_dir) with 0x1000 in Hp, H4. unfold mem_get in Hp, H4.
  destruct (pm_mem boot_dir !! (0x1000 + 4 * i)) as [v|] eqn:E; [|done].
  apply boot_dir_mem in E as [[? ->]|[[? ->]|[? ->]]]; [lia|done|lia].
Qed.

Lemma boot_dir_wf : mmu_wf boot_dir.
Proof.
  split; simpl; try done.
  - intros a. unfold mem_get. destruct (pm_mem boot_dir !! a) as [v|] eqn:E; simpl; [|lia]. apply boot_dir_mem in E. lia.
  - intros i j [-> | ->]%boot_dir_table [-> | ->]%boot_dir_table; done.
  - split; [|done]. split; unfold region_pages; simpl; try (unfold PAGE_SIZE; lia); [by repeat constructor|vm_compute; lia].
  - intros d [-> | ->]%boot_dir_table (k & Hk & Hp & _).
    + change (table_of boot_dir 1013) with 0x2000 in Hp. simpl in Hp. unfold PAGE_SIZE in Hp. lia.
    + change (table_of boot_dir 1023) with 0x1000 in Hp. simpl in Hp. unfold PAGE_SIZE in Hp. lia.
Qed.

Lemma boot_dir_big : big_dir boot_dir 0xfd001000.
Proof. exists 1012, 1. split; [unfold indices; lia|]. repeat (split; [reflexivity|]). reflexivity. Qed.

Lemma boot_dir_can_clone : can_clone boot_dir 0xfd001000 1013.
Proof.
  split.
  - apply boot_dir_wf.
  - apply big_dir_mapped; [apply boot_dir_wf|left; by split; [split; [lia|]|]|exact boot_dir_big].
  - split; [lia|]. left. by split; [split; [lia|]|].
  - split; [|by split]. split; unfold region_pages; simpl; try (unfold PAGE_SIZE; lia); [by repeat constructor|vm_compute; lia].
  - intros k Hk. exists (Z.of_nat k). change (region_pages (pm_global boot_dir)) with 32%nat in Hk.
    split; [lia|]. unfold vaddr_of, PAGE_SIZE. simpl. lia.
Qed.

Lemma boot_dir_low p : 0 <= p < 2 ^ 22 -> walk boot_dir (KERNEL_BASE + p) = Some p.
Proof.
  intros Hp. pose proof (Z.div_mod p 4096 ltac:(done)). pose proof (Z.mod_pos_bound p 4096 ltac:(lia)).
  assert (0 <= p / 4096 < 1024) by (split; [apply Z.div_pos; lia|apply Z.div_lt_upper_bound; lia]).
  replace (KERNEL_BASE + p) with (vaddr_of 1012 (p / 4096) (p mod 4096)) by (unfold vaddr_of, KERNEL_BASE; lia).
  rewrite walk_eq by (unfold indices; lia). change (pde boot_dir 1012) with 0x83.
  change (flag_set 0x83 PAGE_ARCH_PRESENT) with true. change (flag_set 0x83 PAGE_ARCH_4MB_ENTRY) with true.
  change (0x83 / 2 ^ 22) with 0. cbn [negb]. f_equal. lia.
Qed.

(** the store of the kernel's space, and the bytes: a module of three bytes, the
    memory after it, the boot information, and room for the areas *)
Definition boot_store : space_store BumpPages.t :=
  SpaceStore boot_dir {[0x8000 := AddrSpace (kobject_init KOBJECT_TYPE_ADDR_SPACE) 0xfd001000 0x100000]} ∅
    {[0x100000 := AddrSpace.map_empty]} 0x8000 (BumpPages.BumpPages (Bump.Bump 0x9000 {[0x8000]}) 0x101000 {[0x100000]})
    BumpPages.init.
Definition block_of (p : Z) (l : list Z) : list (Z * Z) := imap (fun i b => (p + Z.of_nat i, b)) l.
Definition boot_image : list Z := [7; 8; 9] ++ replicate 0x200 0.
Definition boot_info : list Z := replicate 296 1.
Definition boot_bytes : bytes := list_to_map
  (block_of 0x3000 [0; 0x40; 0; 0; 3; 0x40; 0; 0] ++ block_of 0x4000 boot_image ++ block_of 0x5000 boot_info ++
   block_of 0x200000 (replicate 296 0) ++ block_of 0x201000 (replicate 515 0)).
(** no thread yet but the idle one *)
Definition boot_kernel : kernel BumpPages.t :=
  set_k_threads {[0x30 := thread_ex 0 SCHED_STATE_RUNNING 0 0 0]} (set_k_run_tree AA.E (set_k_sleep_tree AA.E
    (set_k_atree_slab (slab_of 0x2000 ∅) (set_k_thread_slab (slab_of 0x1000 {[0x30]}) (set_k_current [NULL; NULL]
    (set_k_spaces boot_store kernel_ex)))))).
Definition boot_state : init BumpPages.t := Init boot_kernel boot_bytes ∅ NULL NULL.

(** the blocks are there *)
Definition bytes_check (mem : bytes) (p : Z) (l : list Z) : bool :=
  forallb (fun i => bool_decide (mem !! (p + Z.of_nat i) = l !! i)) (seq 0 (length l)).
Lemma bytes_check_ok mem p l : bytes_check mem p l = true -> forall i, (i < length l)%nat -> mem !! (p + Z.of_nat i) = l !! i.
Proof.
  intros H i Hi. unfold bytes_check in H. rewrite forallb_forall in H. apply (bool_decide_eq_true _), H, in_seq. lia.
Qed.
Definition is_byteb (b : Z) : bool := (0 <=? b) && (b <? 256).
Lemma bytes_all l : forallb is_byteb l = true -> Forall is_byte l.
Proof.
  intros H. apply Forall_forall. intros b Hb. rewrite forallb_forall in H. specialize (H b (proj1 (list_elem_of_In _ _) Hb)).
  unfold is_byteb in H. unfold is_byte. lia.
Qed.

Lemma boot_source p l : 0 <= p -> p + Z.of_nat (length l) <= 0x200000 -> bytes_check boot_bytes p l = true -> forallb is_byteb l = true ->
  source boot_state 1013 (KERNEL_BASE + p) l.
Proof.
  intros Hp0 Hp Hb Hl. assert (Hw : forall i, (i < length l)%nat -> walk boot_dir (KERNEL_BASE + p + Z.of_nat i) = Some (p + Z.of_nat i)).
  { intros i Hi. rewrite <- Z.add_assoc. apply boot_dir_low. lia. }
  split; [unfold block, KERNEL_BASE; lia|]. split; [by apply bytes_all|]. split.
  - intros i b Hi. pose proof (lookup_lt_Some _ _ _ Hi) as Hil. exists (p + Z.of_nat i). split; [by apply Hw|].
    split; [unfold reserved; lia|]. change (in_mem boot_state) with boot_bytes. by rewrite (bytes_check_ok _ _ _ Hb).
  - intros i Hi. cbn zeta. assert ((KERNEL_BASE + p + Z.of_nat i) / 2 ^ 22 = 1012) as ->; [|done].
    symmetry. apply Z.div_unique with (p + Z.of_nat i); unfold KERNEL_BASE; lia.
Qed.

Lemma boot_writable p l : bytes_check boot_bytes p l = true -> writable boot_bytes p (Z.of_nat (length l)).
Proof.
  intros Hb q Hq. unfold within in Hq. replace q with (p + Z.of_nat (Z.to_nat (q - p))) by lia.
  rewrite (bytes_check_ok _ _ _ Hb) by lia. apply lookup_lt_is_Some. lia.
Qed.

Lemma boot_state_booted : booted 0 boot_state NULL 0x8000
  (AddrSpace (kobject_init KOBJECT_TYPE_ADDR_SPACE) 0xfd001000 0x100000) AddrSpace.map_empty 1013.
Proof.
  split; try done.
  - split; simpl.
    + split; [|exact BumpPages.bump_pages_init_inv]. split; [split; [done|intros p ->%elem_of_singleton; done]|]. split; [done|].
      split; [done|]. by intros p ->%elem_of_singleton.
    + intros p [x [<- _]%lookup_singleton_Some]. set_solver.
    + intros p [x Hx]. by rewrite lookup_empty in Hx.
    + intros p [x [<- _]%lookup_singleton_Some]. set_solver.
  - split; apply BumpPages.bump_rooms; simpl; lia.
  - apply boot_dir_can_clone.
  - exact boot_dir_big.
  - split; [by apply (bool_decide_unpack _); vm_compute|]. intros d. unfold area_entries. rewrite !elem_of_cons, elem_of_nil. intros [->|[->|[->|[]]]]; reflexivity.
Qed.

Lemma boot_module : module_at boot_state 1013 (KERNEL_BASE + 0x3000) (KERNEL_BASE + 0x5000) boot_image boot_info.
Proof.
  split.
  - exists [0; 0x40; 0; 0], [3; 0x40; 0; 0]. split; [|split; [done|split; [|split; [done|split]]]].
    + apply (boot_source 0x3000); [done|done|by vm_compute|done].
    + apply (boot_source 0x3004); [done|done|by vm_compute|done].
    + apply (boot_source 0x4000); [done|by vm_compute|by vm_compute|by vm_compute].
    + by vm_compute.
  - apply Nat2Z.inj_le. rewrite Z2Nat.id by lia. by vm_compute.
  - apply (boot_source 0x5000); [done|by vm_compute|by vm_compute|by vm_compute].
  - by vm_compute.
  - apply (boot_writable 0x200000 (replicate 296 0)). by vm_compute.
  - apply (boot_writable 0x201000 (replicate 515 0)). by vm_compute.
Qed.

Lemma empty_caps_wf {A} (a : A) : cap_wf (CapStore ∅ ∅ a).
Proof. split; simpl; try done. intros t [l Hl]. by rewrite lookup_empty in Hl. Qed.
Lemma empty_caps_mem : cap_mem (CapStore ∅ ∅ (slab_of 0x1000 ∅)).
Proof. split; simpl; [by split; [split; [done|set_solver]|split_and!; [done|done|set_solver]]|..]; by intros ? [? ?]. Qed.

Lemma boot_can_start : can_start 0 boot_kernel.
Proof.
  split; [split|..].
  - split; [split; [done|]|split_and!; [done|done|set_solver]]. simpl. by intros p ->%elem_of_singleton.
  - apply BumpPages.bump_rooms. simpl. lia.
  - simpl. intros p [x [<- _]%lookup_singleton_Some]. by apply elem_of_singleton.
  - apply empty_caps_wf.
  - apply empty_caps_mem.
  - apply BumpPages.bump_rooms. simpl. lia.
  - split; [split; [done|set_solver]|split_and!; [done|done|set_solver]].
  - done.
Qed.

Lemma boot_sched_wf : sched_wf 0 boot_kernel.
Proof.
  split; try done.
  - split.
    + done.
    + done.
    + apply slab_of_inv. by vm_compute.
    + intros p. change (p ∈ (∅ : gset Z) <-> p ∈ []). set_solver.
    + constructor.
  - exists NULL. by split; [|left].
  - by exists 0x30.
Qed.

Definition stale_ex (t : Z) : list cap_entry := replicate 256 null_entry.
Lemma stale_ex_null t i e : stale_ex t !! i = Some e -> ce_type e = CAP_TYPE_NULL.
Proof. by intros [-> _]%lookup_replicate. Qed.
Lemma stale_ex_length t : length (stale_ex t) = 256%nat.
Proof. apply length_replicate. Qed.

Lemma sigma0_thread_spec_witness : exists t msgq k',
  sigma0_thread stale_ex (kobject_init 0) 0x8000 0x9000 boot_kernel = Some ((t, msgq), k') /\
  (th_registers <$> k_threads k' !! t) = Some (ThreadRegs 0 0xd0000ff8 0xc0000000 1).
Proof.
  destruct (sigma0_thread_spec stale_ex (kobject_init 0) stale_ex_length stale_ex_null boot_kernel 0x8000 0x9000 boot_can_start)
    as (t & th & msgq & sp & tb & k' & Hrun & _ & Hts & Hregs & _).
  exists t, msgq, k'. split; [exact Hrun|]. rewrite Hts, lookup_insert_eq. simpl. by rewrite Hregs.
Defined.

Lemma sigma0_load_spec_witness : exists msgq new t s' s'',
  sigma0_load 0 2 false clock_ex stale_ex (kobject_init 0) 0xfd001000 (KERNEL_BASE + 0x3000) (KERNEL_BASE + 0x5000) boot_state =
    Some (Done msgq s') /\
  AA.contents (k_run_tree (in_kernel s')) = [t] /\ on_sp (addr_space_set new) s' = Some (tt, s'') /\ byte_at s'' 0xc0000001 = Some 8.
Proof.
  destruct (sigma0_load_spec 0 2 false clock_ex stale_ex (kobject_init 0) 0xfd001000 stale_ex_length stale_ex_null
    boot_state (KERNEL_BASE + 0x3000) (KERNEL_BASE + 0x5000) NULL 0x8000 _ AddrSpace.map_empty 1013 boot_image boot_info
    boot_state_booted boot_module boot_can_start eq_refl eq_refl boot_sched_wf I ltac:(by apply Z.leb_le))
    as (msgq & new & t & th & s' & Hrun & Hst).
  destruct (fs_entered _ _ _ _ _ _ _ _ _ _ _ _ Hst) as (s'' & Hent & [Hcode _ _ _]). pose proof (fs_run _ _ _ _ _ _ _ _ _ _ _ _ Hst) as Hperm.
  exists msgq, new, t, s', s''. split; [exact Hrun|]. split; [by apply Permutation_singleton_r|]. split; [exact Hent|].
  apply (Hcode 1%nat). reflexivity.
Defined.
