(* ===== verification/Handout.v ===== *)
(** The thread that gives the first program the memory of the machine:
    [send_memmaps_thread] of [arch/x86/init.c].

    It walks the list of the free areas.  Between one area and the next it may
    wait for the first program, and everything else runs; here is that, as long
    as the others leave the list and the kernel's memory in order, the walk
    ends, and what it sends. *)
From S2P Require Export Load.

Section handout.
Context {A : Type} `{!Allocator A} `{!Pages A} `{!AllocatorLaws A} `{!PagesLaws A}.
Context (cpu : nat) (num_cpus : Z) (apic_is_enabled : bool) (clock : nat -> Z).
Implicit Types (s : init A).

Abbreviation run := (RST (init A) unit).
Abbreviation send := (message_send cpu num_cpus apic_is_enabled clock).

Definition in_space s : space_store A := k_spaces (in_kernel s).

(** a fresh frame for [size] pages from [addr] on, and nothing else new *)
Definition frame_made (addr size frame : Z) s s' : Prop :=
  sp_frames (in_space s) !! frame = None /\ exists a,
  s' = set_in_kernel (set_k_spaces (set_sp_frame_slab a (set_frames (<[frame := PhysFrame (kobject_init KOBJECT_TYPE_PHYS_MEMORY)
         addr size 0 0]> (sp_frames (in_space s))) (in_space s))) (in_kernel s)) s.

(** what the thread finds again when it goes on after waiting, with room for
    [n] more frames: the other parts of the state may be any *)
Record undisturbed s (n : nat) s' : Prop := {
  ud_maps : in_maps s' = in_maps s;
  ud_queue : in_sigma0_msgq s' = in_sigma0_msgq s;
  ud_mem : space_mem (in_space s');
  ud_room : rooms n (sp_frame_slab (in_space s'));
}.

(** a capability to [frame] with every right, as a message *)
Definition frame_message (frame : Z) : message :=
  Message MESSAGE_TYPE_GRANT_OBJECT 0 [CAP_TYPE_PHYS_MEMORY; 15; frame; 0; 0; 0].

(** from [s] on, [m] hands out the areas [l] in order, each as a capability with
    every right to a frame of its pages, then sends the message that there are
    no more, and stops *)
Fixpoint hands_out (queue : Z) (l : list (Z * Z)) (m : run) s : Prop :=
  match l with
  | [] =>
      m s ≡ (_ ← on_kr (send queue (Local (Message 1234 0 [0; 0; 0; 0; 0; 0]))); on_kr (sched_thread_exit cpu num_cpus clock)) s
  | (a, n) :: l =>
      exists frame s1 rest, frame_made a (n / PAGE_SIZE) frame s s1 /\
        m s ≡ (_ ← on_kr (send queue (Local (frame_message frame))); rest) s1 /\
        forall s2, undisturbed s1 (length l) s2 -> hands_out queue l rest s2
  end.

Lemma hands_out_equiv queue l (m n : run) s : m s ≡ n s -> hands_out queue l n s -> hands_out queue l m s.
Proof using All.
  intros H. destruct l as [|[a k] l]; simpl.
  - intros Hn. by rewrite H.
  - intros (frame & s1 & rest & Hf & Hn & Hl). exists frame, s1, rest. split; [done|]. split; [by rewrite H|done].
Qed.

(** after the loop *)
Definition finish : run :=
  s ← lift get_st;
  _ ← on_kr (send (in_sigma0_msgq s) (Local (msg_init 1234 [0])));
  on_kr (sched_thread_exit cpu num_cpus clock).

Lemma send_memmaps_loop_ok l : forall fuel p s,
  maps_at (in_maps s) p l -> (length l < fuel)%nat -> space_mem (in_space s) -> rooms (length l) (sp_frame_slab (in_space s)) ->
  hands_out (in_sigma0_msgq s) l (send_memmaps_loop cpu num_cpus apic_is_enabled clock fuel p ≫= fun _ => finish) s.
Proof using All.
  induction l as [|[a n] l IH]; intros [|fuel] p s Hp Hfuel Hmem Hroom; cbn [length] in *; try lia; cbn [send_memmaps_loop hands_out].
  - simpl in Hp. subst p. reflexivity.
  - destruct Hp as (Hnz & next & Hx & Hnext). rewrite (proj2 (Z.eqb_neq p NULL) Hnz).
    destruct (frame_create_ok (in_space s) a (n / PAGE_SIZE) 0 (length l) Hmem Hroom) as (frame & al & R & _ & _ & Hfresh).
    match type of R with _ = Some (_, ?sp) => set (s1 := set_in_kernel (set_k_spaces sp (in_kernel s)) s) end.
    pose (after := x ← lift (memmap_get p); send_memmaps_loop cpu num_cpus apic_is_enabled clock fuel (mm_next x)).
    assert (Rx : forall s', in_maps s' = in_maps s -> memmap_get p s' = Some (PhysMemmap next a n, s')).
    { intros s' E. unfold memmap_get. by rewrite E, Hx. }
    exists frame, s1, (after ≫= fun _ => finish). split; [split; [exact Hfresh|by exists al]|]. split.
    + rewrite <- (R_assoc (on_kr (send (in_sigma0_msgq s) (Local (frame_message frame)))) (fun _ => after) (fun _ => finish) s1).
      apply equiv_of_eq, R_same. rewrite (R_lift _ _ _ _ _ (Rx s eq_refl)). cbn [mm_addr mm_length].
      rewrite (R_lift (on_sp _) _ s frame s1); [|exact (zoom_run in_kernel set_in_kernel _ s _ _ (zoom_run k_spaces set_k_spaces _ (in_kernel s) _ _ R))]. by rewrite (R_lift _ _ _ s1 s1).
    + intros s2 [Um Uq Us Ur].
      apply hands_out_equiv with (n := send_memmaps_loop cpu num_cpus apic_is_enabled clock fuel next ≫= fun _ => finish).
      * apply equiv_of_eq, R_same. unfold after. by rewrite (R_lift _ _ _ _ _ (Rx s2 Um)).
      * change (in_sigma0_msgq s) with (in_sigma0_msgq s1). rewrite <- Uq. apply IH; [by rewrite Um|lia|done|done].
Qed.

Lemma send_memmaps_thread_ok l s :
  maps_at (in_maps s) (in_sigma0_maps s) l -> space_mem (in_space s) -> rooms (length l) (sp_frame_slab (in_space s)) ->
  hands_out (in_sigma0_msgq s) l (send_memmaps_thread cpu num_cpus apic_is_enabled clock) s.
Proof using All.
  intros Hl Hmem Hroom. eapply hands_out_equiv; [|apply (send_memmaps_loop_ok l (S (base.size (in_maps s))) (in_sigma0_maps s) s Hl)].
  - apply equiv_of_eq. unfold send_memmaps_thread. by rewrite (R_lift _ _ _ s s).
  - pose proof (maps_at_size _ _ _ Hl). lia.
  - done.
  - done.
Qed.

(** C33: whatever runs in between, as long as it keeps the list of the areas and
    the kernel's memory in order: the thread makes, for each area of the list
    and in its order, a frame of the area's pages, and sends the capability to
    it with every right; then it sends the message that ends the list, and
    stops.  It follows no pointer that is not there, and the walk ends. *)
Theorem send_memmaps_thread_spec l s :
  maps_at (in_maps s) (in_sigma0_maps s) l -> space_mem (in_space s) -> rooms (length l) (sp_frame_slab (in_space s)) ->
  hands_out (in_sigma0_msgq s) l (send_memmaps_thread cpu num_cpus apic_is_enabled clock) s.
Proof using All. apply send_memmaps_thread_ok. Qed.
End handout.

(** ** On a concrete state *)

(** two areas, and nothing else going on *)
Definition handout_state : init BumpPages.t :=
  Init boot_kernel boot_bytes
    {[0x40 := PhysMemmap 0x60 0x8000000 0x3000; 0x60 := PhysMemmap NULL 0x900000 0x76e0000]} 0x40 0x8000.

Lemma send_memmaps_thread_spec_witness : exists frame s1 rest,
  frame_made 0x8000000 3 frame handout_state s1 /\
  send_memmaps_thread 0 2 false clock_ex handout_state ≡
    (_ ← on_kr (message_send 0 2 false clock_ex 0x8000 (Local (frame_message frame))); rest) s1 /\
  forall s2, undisturbed s1 1 s2 -> exists frame2 s3 rest2,
    frame_made 0x900000 0x76e0 frame2 s2 s3 /\
    rest s2 ≡ (_ ← on_kr (message_send 0 2 false clock_ex 0x8000 (Local (frame_message frame2))); rest2) s3.
Proof.
  destruct (send_memmaps_thread_spec 0 2 false clock_ex [(0x8000000, 0x3000); (0x900000, 0x76e0000)] handout_state)
    as (frame & s1 & rest & Hf & Hrun & Hnext).
  - split; [done|]. exists 0x60. split; [reflexivity|]. split; [done|]. exists NULL. split; reflexivity.
  - exact (bo_mem _ _ _ _ _ _ _ boot_state_booted).
  - apply BumpPages.bump_rooms. simpl. lia.
  - exists frame, s1, rest. split; [exact Hf|]. split; [exact Hrun|]. intros s2 Hs2.
    destruct (Hnext s2 Hs2) as (frame2 & s3 & rest2 & Hf2 & Hrun2 & _). by exists frame2, s3, rest2.
Defined.
