(* ===== verification/Main.v ===== *)
(** The kernel from its entry to the first program: [arch_init] of
    [arch/x86/init.c].

    Every step runs on the state of its own component; here is the machine they
    are all parts of.  Memory is what [Init] has, by physical address: until
    there is a first program the code sees the low 4 MB of it, at
    [KERNEL_BASE].  The messages to the console are left out. *)
From S2P Require Export Setup Smp Timer Start Load.

(** the slabs the code sets up on the way, but for that of the address spaces,
    which has a flag for more ([sy_spaces_ready]) *)
Inductive slab_id := CapSpaceSlab | FrameSlab | ThreadSlab | AtreeSlab | MessageQueueSlab.
#[export] Instance slab_id_eq_dec : EqDecision slab_id.
Proof. solve_decision. Defined.

Record system (A : Type) := System {
  sy_init : init A;
  sy_heap : Z;  (** of [kealloc] *)
  sy_global_ready : bool;  (** of [region_init_global] *)
  sy_slabs_ready : list slab_id;  (** their [initialized] *)
  sy_spaces_ready : bool;  (** of [addr_space_init] *)
  sy_timers : timers;
  sy_ioapics : list Z;
  sy_cpu_count : Z;
  sy_segments : segments;
  sy_idt : idt A;
  sy_interrupts : bool;  (** the interrupt flag *)
}.
Arguments System {A} _ _ _ _ _ _ _ _ _ _ _.
Arguments sy_init {A} _.
Arguments sy_heap {A} _.
Arguments sy_global_ready {A} _.
Arguments sy_slabs_ready {A} _.
Arguments sy_spaces_ready {A} _.
Arguments sy_timers {A} _.
Arguments sy_ioapics {A} _.
Arguments sy_cpu_count {A} _.
Arguments sy_segments {A} _.
Arguments sy_idt {A} _.
Arguments sy_interrupts {A} _.

(** ** The window at [KERNEL_BASE] *)

(** the first 4 MB, by the addresses the kernel uses *)
Definition low (m : bytes) : bytes := kmap (fun p => p + KERNEL_BASE) (filter (fun pb => 0 <= pb.1 < 2 ^ 22) m).
(** the memory when the window holds [w] *)
Definition unlow (w m : bytes) : bytes :=
  kmap (fun v => v - KERNEL_BASE) w ∪ filter (fun pb => ~ (0 <= pb.1 < 2 ^ 22)) m.

Section main.
Context {A : Type} `{!Allocator A} `{!Pages A} `{!SlabSetup A}.
Context (device : list port_event -> query -> Z) (arrivals : list port_event -> list Z) (fuel : nat).
(** where the linker puts things, and the code of interrupts and threads *)
Context (boot_page_dir bootinfo str_c4 descripts_addr task_segments_addr intr_table_addr : Z) (stubs : list Z).
Context (idle_entry send_memmaps_entry : Z).
(** what starting the other processors needs *)
Context (stale_redirect buses str_isa str_pci str_mp smp_boot_start smp_boot_size : Z).
(** what memory holds before it is written *)
Context (stale_bitmap : Z -> list Z) (stale_table : Z -> list cap_entry) (stale_object : kobject)
  (stale_async : msg_queue_async) (stale_node paddr_var : Z).
(** this processor, as the scheduler and the handlers know it *)
Context (cpu : nat) (num_cpus : Z) (apic_is_enabled : bool) (clock : nat -> Z) (port_in : Z -> Z -> Z).

Abbreviation SYS := (ST (system A)).
Abbreviation SYR := (RST (system A)).

(** ** The parts *)

Definition set_sy_init (x : init A) (s : system A) : system A :=
  System x (sy_heap s) (sy_global_ready s) (sy_slabs_ready s) (sy_spaces_ready s) (sy_timers s) (sy_ioapics s) (sy_cpu_count s)
    (sy_segments s) (sy_idt s) (sy_interrupts s).
Definition set_sy_heap (x : Z) (s : system A) : system A :=
  System (sy_init s) x (sy_global_ready s) (sy_slabs_ready s) (sy_spaces_ready s) (sy_timers s) (sy_ioapics s) (sy_cpu_count s)
    (sy_segments s) (sy_idt s) (sy_interrupts s).
Definition set_sy_global_ready (x : bool) (s : system A) : system A :=
  System (sy_init s) (sy_heap s) x (sy_slabs_ready s) (sy_spaces_ready s) (sy_timers s) (sy_ioapics s) (sy_cpu_count s)
    (sy_segments s) (sy_idt s) (sy_interrupts s).
Definition set_sy_slabs_ready (x : list slab_id) (s : system A) : system A :=
  System (sy_init s) (sy_heap s) (sy_global_ready s) x (sy_spaces_ready s) (sy_timers s) (sy_ioapics s) (sy_cpu_count s)
    (sy_segments s) (sy_idt s) (sy_interrupts s).
Definition set_sy_spaces_ready (x : bool) (s : system A) : system A :=
  System (sy_init s) (sy_heap s) (sy_global_ready s) (sy_slabs_ready s) x (sy_timers s) (sy_ioapics s) (sy_cpu_count s)
    (sy_segments s) (sy_idt s) (sy_interrupts s).
Definition set_sy_timers (x : timers) (s : system A) : system A :=
  System (sy_init s) (sy_heap s) (sy_global_ready s) (sy_slabs_ready s) (sy_spaces_ready s) x (sy_ioapics s) (sy_cpu_count s)
    (sy_segments s) (sy_idt s) (sy_interrupts s).
Definition set_sy_routers (x : list Z) (n : Z) (s : system A) : system A :=
  System (sy_init s) (sy_heap s) (sy_global_ready s) (sy_slabs_ready s) (sy_spaces_ready s) (sy_timers s) x n
    (sy_segments s) (sy_idt s) (sy_interrupts s).
Definition set_sy_segments (x : segments) (s : system A) : system A :=
  System (sy_init s) (sy_heap s) (sy_global_ready s) (sy_slabs_ready s) (sy_spaces_ready s) (sy_timers s) (sy_ioapics s) (sy_cpu_count s)
    x (sy_idt s) (sy_interrupts s).
Definition set_sy_idt (x : idt A) (s : system A) : system A :=
  System (sy_init s) (sy_heap s) (sy_global_ready s) (sy_slabs_ready s) (sy_spaces_ready s) (sy_timers s) (sy_ioapics s) (sy_cpu_count s)
    (sy_segments s) x (sy_interrupts s).
Definition set_sy_interrupts (x : bool) (s : system A) : system A :=
  System (sy_init s) (sy_heap s) (sy_global_ready s) (sy_slabs_ready s) (sy_spaces_ready s) (sy_timers s) (sy_ioapics s) (sy_cpu_count s)
    (sy_segments s) (sy_idt s) x.

Definition sy_kernel (s : system A) : kernel A := in_kernel (sy_init s).
Definition set_sy_kernel (k : kernel A) (s : system A) : system A := set_sy_init (set_in_kernel k (sy_init s)) s.
Definition sy_mmu (s : system A) : mmu := mmu_of (sy_init s).
Definition set_sy_mmu (m : mmu) (s : system A) : system A :=
  set_sy_kernel (set_k_spaces (AddrSpace.set_mmu m (k_spaces (sy_kernel s))) (sy_kernel s)) s.
Definition sy_low (s : system A) : bytes := low (in_mem (sy_init s)).
Definition set_sy_low (w : bytes) (s : system A) : system A :=
  set_sy_init (set_in_mem (unlow w (in_mem (sy_init s))) (sy_init s)) s.
Definition sy_lapic (s : system A) : lapic := tm_lapic (sy_timers s).
Definition set_sy_lapic (l : lapic) (s : system A) : system A :=
  set_sy_timers (Timers l (tm_starting_cpu (sy_timers s)) (tm_cpu_frequency (sy_timers s))) s.

(** the parts as the components have them *)
Definition sy_boot (s : system A) : boot := Boot (sy_low s) (sy_heap s) (in_maps (sy_init s)).
Definition set_sy_boot (b : boot) (s : system A) : system A :=
  let x := sy_init s in
  set_sy_heap (bt_heap b) (set_sy_init (Init (in_kernel x) (unlow (bt_mem b) (in_mem x)) (bt_maps b) (in_sigma0_maps x) (in_sigma0_msgq x)) s).
Definition sy_memory (s : system A) : memory := Memory (sy_boot s) (sy_mmu s) (sy_global_ready s).
Definition set_sy_memory (m : memory) (s : system A) : system A :=
  set_sy_global_ready (my_initialized m) (set_sy_mmu (my_mmu m) (set_sy_boot (my_boot m) s)).
Definition sy_smp (s : system A) : smp :=
  Smp (Machine (sy_lapic s) (sy_ioapics s) (sy_cpu_count s) (sy_low s)) (sy_mmu s).
Definition set_sy_smp (x : smp) (s : system A) : system A :=
  let m := sm_machine x in
  set_sy_mmu (sm_mmu x) (set_sy_low (mc_mem m) (set_sy_routers (mc_ioapics m) (mc_cpu_count m) (set_sy_lapic (mc_lapic m) s))).

Definition in_low {B} (m : MEM B) : SYS B := zoom sy_low set_sy_low m.
Definition in_boot {B} (m : BOOT B) : SYS B := zoom sy_boot set_sy_boot m.
Definition in_memory {B} (m : ST memory B) : SYS B := zoom sy_memory set_sy_memory m.
Definition in_smp {B} (m : SMP B) : SYS B := zoom sy_smp set_sy_smp m.
Definition in_timers {B} (m : TM B) : SYS B := zoom sy_timers set_sy_timers m.
Definition in_lapic {B} (m : LA B) : SYS B := zoom sy_lapic set_sy_lapic m.
Definition in_segments {B} (m : ST segments B) : SYS B := zoom sy_segments set_sy_segments m.
Definition in_idt {B} (m : ST (idt A) B) : SYS B := zoom sy_idt set_sy_idt m.
Definition in_kern {B} (m : ST (kernel A) B) : SYS B := zoom sy_kernel set_sy_kernel m.
Definition in_start {B} (m : RST (init A) B) : SYR B := rzoom sy_init set_sy_init m.

(** ** The slabs *)

(** a function that sets up a slab at its first call *)
Definition once (id : slab_id) (m : ST (kernel A) unit) : SYS unit := fun s =>
  if decide (id ∈ sy_slabs_ready s) then Some (tt, s)
  else (_ ← in_kern m; modify (set_sy_slabs_ready (id :: sy_slabs_ready s))) s.

Definition cap_space_init : SYS unit :=
  once CapSpaceSlab (modify (fun k =>
    set_k_caps (CapStore (st_spaces (k_caps k)) (st_tables (k_caps k)) (slab_setup sizeof_cap_space (st_alloc (k_caps k)))) k)).
Definition phys_frame_init : SYS unit :=
  once FrameSlab (modify (fun k =>
    set_k_spaces (set_sp_frame_slab (slab_setup sizeof_phys_frame (sp_frame_slab (k_spaces k))) (k_spaces k)) k)).
Definition init_threading : SYS unit :=
  once ThreadSlab (modify (fun k => set_k_thread_slab (slab_setup sizeof_thread (k_thread_slab k)) k)).
Definition atree_setup : SYS unit :=
  once AtreeSlab (modify (fun k => set_k_atree_slab (slab_setup sizeof_anode (k_atree_slab k)) k)).
(** the first lines of [message_queue_create] *)
Definition message_queue_setup : SYS unit :=
  once MessageQueueSlab (modify (fun k => set_k_queue_slab (slab_setup sizeof_msg_queue (k_queue_slab k)) k)).

Definition addr_space_init : SYS unit := fun s =>
  if sy_spaces_ready s then Some (tt, s)
  else
    (_ ← in_kern (on_spaces (modify (fun sp => set_sp_alloc (slab_setup sizeof_addr_space (sp_alloc sp)) sp)));
     _ ← in_kern (on_spaces (AddrSpace.addr_space_init boot_page_dir)); modify (set_sy_spaces_ready true)) s.

(** each of the two trees sets the slab of their nodes up *)
Definition sched_init : SYS unit :=
  _ ← atree_setup; _ ← atree_setup; in_kern Scheduler.sched_init.

(** ** [arch_init] *)

(** the work of [timer_handler] on the kernel; what it does to the local APIC is
    in [Handlers] *)
Definition timer_interrupt : handler A := fun frame =>
  _ ← sched_switch_thread cpu num_cpus clock; mret (Some frame).

(** up to the devices *)
Definition init_system (header : Z) : SYS Z :=
  _ ← in_timers (timers_init device arrivals fuel);
  _ ← in_low (bootinfo_init str_c4 bootinfo header);
  mk ← in_boot (memmaps_init header NULL);
  _ ← in_segments (init_segment_descs descripts_addr task_segments_addr);
  _ ← in_lapic (on_io (remap_pic_vectors_default device));
  _ ← in_idt (init_interrupts cpu num_cpus apic_is_enabled clock stale_table stale_object stale_async stale_node paddr_var
        fuel port_in intr_table_addr stubs);
  kernel_mem ← zoom sy_init set_sy_init (memmap_get (snd mk));
  _ ← in_memory (init_memory boot_page_dir stale_bitmap kernel_mem);
  mret (fst mk).

(** the objects of the kernel *)
Definition init_slabs : SYS unit :=
  _ ← cap_space_init;
  _ ← phys_frame_init;
  _ ← addr_space_init;
  _ ← init_threading;
  sched_init.

Definition init_objects : SYS unit :=
  _ ← init_slabs;
  cur ← in_lapic (sched_current_cpu device arrivals);
  _ ← in_kern (sched_init_cpu (Z.to_nat cur) idle_entry);
  in_idt (register_interrupt timer_vector timer_interrupt).

(** with a module, it ends in a loop in which only interrupts happen; without
    one it returns, to code that stops the processor *)
Definition arch_init (header : Z) : SYR unit :=
  memmaps ← lift (init_system header);
  _ ← lift init_objects;
  _ ← lift (in_smp (smp_init device arrivals stale_redirect fuel buses str_isa str_pci str_mp smp_boot_start smp_boot_size));
  sigma0 ← lift (in_low (sigma0_find_module header));
  if sigma0 =? NULL then mret tt
  else
    _ ← lift message_queue_setup;
    msgq ← in_start (sigma0_load cpu num_cpus apic_is_enabled clock stale_table stale_object boot_page_dir sigma0 bootinfo);
    _ ← in_start (sigma0_send_memmaps cpu num_cpus apic_is_enabled clock send_memmaps_entry memmaps msgq);
    lift (modify (set_sy_interrupts true)).
End main.

(** ** The window *)

#[local] Instance shift_inj k : Inj (=) (=) (fun p : Z => p + k).
Proof. intros a b. lia. Qed.
#[local] Instance unshift_inj k : Inj (=) (=) (fun p : Z => p - k).
Proof. intros a b. lia. Qed.

Lemma low_lookup m v : low m !! v = if decide (0 <= v - KERNEL_BASE < 2 ^ 22) then m !! (v - KERNEL_BASE) else None.
Proof.
  unfold low. set (w := filter _ m). pose proof (lookup_kmap (M2 := gmap Z) (fun p => p + KERNEL_BASE) w (v - KERNEL_BASE)) as E.
  cbv beta in E. replace (v - KERNEL_BASE + KERNEL_BASE) with v in E by lia. rewrite E. unfold w.
  rewrite map_lookup_filter. set (p := v - KERNEL_BASE). destruct (m !! p) as [b|]; simpl; [|by case_decide]. unfold guard. by case_decide.
Qed.

Lemma unlow_lookup w m p : unlow w m !! p =
  match w !! (p + KERNEL_BASE) with Some b => Some b | None => if decide (0 <= p < 2 ^ 22) then None else m !! p end.
Proof.
  unfold unlow. pose proof (lookup_kmap (M2 := gmap Z) (fun v => v - KERNEL_BASE) w (p + KERNEL_BASE)) as E.
  cbv beta in E. replace (p + KERNEL_BASE - KERNEL_BASE) with p in E by lia.
  destruct (w !! _) as [b|] eqn:Hw; [by apply lookup_union_Some_l|]. rewrite lookup_union_r by done.
  rewrite map_lookup_filter. destruct (m !! p) as [b|]; simpl; [|by case_decide]. unfold guard.
  destruct (decide (0 <= p < 2 ^ 22)), (decide (~ (0 <= p < 2 ^ 22))); simpl; tauto || done.
Qed.

Lemma unlow_low m : unlow (low m) m = m.
Proof.
  apply map_eq. intros p. rewrite unlow_lookup, low_lookup. replace (p + KERNEL_BASE - KERNEL_BASE) with p by lia.
  case_decide; [|done]. by destruct (m !! p).
Qed.

Lemma low_unlow w m : (forall v, is_Some (w !! v) <-> is_Some (low m !! v)) -> low (unlow w m) = w.
Proof.
  intros H. apply map_eq. intros v. rewrite low_lookup, unlow_lookup. replace (v - KERNEL_BASE + KERNEL_BASE) with v by lia.
  specialize (H v). rewrite low_lookup in H. case_decide as E; [by destruct (w !! v)|].
  destruct (w !! v) as [b|]; [|done]. by destruct (proj1 H (mk_is_Some _ _ eq_refl)).
Qed.

(** what was not in the window, or not written there, is as it was *)
Lemma unlow_same w m p : (forall v, is_Some (w !! v) <-> is_Some (low m !! v)) -> w !! (p + KERNEL_BASE) = low m !! (p + KERNEL_BASE) ->
  unlow w m !! p = m !! p.
Proof.
  intros _ E. rewrite unlow_lookup, E, low_lookup. replace (p + KERNEL_BASE - KERNEL_BASE) with p by lia.
  case_decide; [|done]. by destruct (m !! p).
Qed.

Lemma unlow_domain w m p : (forall v, is_Some (w !! v) <-> is_Some (low m !! v)) -> is_Some (unlow w m !! p) <-> is_Some (m !! p).
Proof.
  intros H. rewrite unlow_lookup. specialize (H (p + KERNEL_BASE)). rewrite low_lookup in H.
  replace (p + KERNEL_BASE - KERNEL_BASE) with p in H by lia. destruct (w !! _) as [b|].
  - split; [|by eexists]. intros _. case_decide as E; [by apply H; eexists|]. by destruct (proj1 H (mk_is_Some _ _ eq_refl)).
  - case_decide as E; [|done]. split; [by intros [? ?]|]. intros Hm. by apply H in Hm.
Qed.

(** ** Bytes stay bytes *)

Definition all_bytes (m : bytes) : Prop := map_Forall (fun _ b => is_byte b) m.
Definition keeps_bytes {B} (f : MEM B) : Prop := forall m b m', f m = Some (b, m') -> all_bytes m -> all_bytes m'.

Lemma keeps_ret {B} (b : B) : keeps_bytes (mret b).
Proof. by intros m b' m' [= _ <-]. Qed.
Lemma keeps_bind {B C} (f : MEM B) (g : B -> MEM C) : keeps_bytes f -> (forall b, keeps_bytes (g b)) -> keeps_bytes (f ≫= g).
Proof. intros Hf Hg m c m' (b & m1 & H1 & H2)%ST_bind_Some H. eapply Hg; [exact H2|]. by eapply Hf. Qed.
Lemma keeps_load p : keeps_bytes (load p).
Proof. intros m b m'. unfold load. by destruct (m !! p); [intros [= _ <-]|]. Qed.
Lemma keeps_store p v : keeps_bytes (store p v).
Proof.
  intros m b m'. unfold store. destruct (m !! p); [|done]. intros [= _ <-] H. apply map_Forall_insert_2; [|done].
  unfold is_byte, w8. pose proof (Z.mod_pos_bound v (2 ^ 8) ltac:(lia)). lia.
Qed.
Lemma keeps_fault {B} : keeps_bytes (@fault bytes B).
Proof. by intros m b m'. Qed.
Create HintDb keeps.
#[local] Hint Resolve keeps_ret keeps_load keeps_store keeps_fault : keeps.
(** binds and branches apart, then the hints *)
Ltac keeps := repeat first [solve [auto with keeps]|apply keeps_bind; [|intros ?]|progress cbv zeta|case_match].

Lemma keeps_load32 p : keeps_bytes (load32 p).
Proof. unfold load32, load16. keeps. Qed.
Lemma keeps_load16 p : keeps_bytes (load16 p).
Proof. unfold load16. keeps. Qed.
Lemma keeps_store32 p v : keeps_bytes (store32 p v).
Proof. unfold store32. keeps. Qed.
#[local] Hint Resolve keeps_load32 keeps_load16 keeps_store32 : keeps.

Lemma keeps_strncpy dest src n : keeps_bytes (strncpy dest src n).
Proof.
  unfold strncpy. keeps. intros m. unfold with_bytes. generalize (S (base.size m)). intros fuel.
  enough (H : forall i, keeps_bytes (strncpy_loop fuel dest src n i)) by (intros b m'; apply (H 0 m b m')).
  induction fuel as [|fuel IH]; intros i; cbn [strncpy_loop]; keeps.
Qed.
#[local] Hint Resolve keeps_strncpy : keeps.

Lemma keeps_bootinfo_init str_c4 info header : keeps_bytes (bootinfo_init str_c4 info header).
Proof. unfold bootinfo_init, bootinfo_framebuffer, is_valid_vbe. keeps. Qed.

(** ** What the boot loader leaves *)

(** the words of its tables, the entries of the memory map, the command line,
    the block of the video mode, and the module *)
Record loader := Loader {
  ld_flags : Z; ld_cmdline : Z; ld_mods_count : Z; ld_mods_addr : Z; ld_mmap_length : Z; ld_mmap_addr : Z; ld_vbe : Z;
  ld_block : list Z; ld_entries : list mb_entry; ld_command : list Z;
  ld_start : Z; ld_end : Z; ld_image : list Z;
}.

(** where the command line, the map, the module and its bytes are *)
Definition ld_cmd (str_c4 : Z) (d : loader) : Z := if Z.testbit (ld_flags d) 2 then low_phys_to_virt (ld_cmdline d) else str_c4.
Definition ld_map (d : loader) : Z := low_phys_to_virt (ld_mmap_addr d).
Definition ld_module (d : loader) : Z := low_phys_to_virt (ld_mods_addr d).
Definition ld_code (d : loader) : Z := low_phys_to_virt (ld_start d).

(** apart from the boot information at [info] *)
Definition clear_of (info p n : Z) : Prop := p + n <= info \/ info + Info.sizeof_bootinfo <= p.
(** within the window, below the memory reserved for the program *)
Definition placed_low (p n : Z) : Prop := KERNEL_BASE <= p /\ p + n <= KERNEL_BASE + 0x200000.

Record loaded (w : bytes) (info str_c4 header : Z) (d : loader) : Prop := {
  lo_flags : le_word w header (ld_flags d);
  lo_cmdline : le_word w (header + 16) (ld_cmdline d);
  lo_mods : le_word w (header + 20) (ld_mods_count d) /\ le_word w (header + 24) (ld_mods_addr d);
  lo_mmap : le_word w (header + 44) (ld_mmap_length d) /\ le_word w (header + 48) (ld_mmap_addr d);
  lo_vbe : le_word w (header + 76) (ld_vbe d);
  lo_header : clear_of info header 80;
  lo_has_map : Z.testbit (ld_flags d) 6 = true;
  lo_command : cstring w (ld_cmd str_c4 d) (ld_command d) /\ Forall is_byte (ld_command d) /\
    clear_of info (ld_cmd str_c4 d) (Z.of_nat (length (ld_command d)) + 1);
  lo_mode : Z.testbit (ld_flags d) 11 = true -> let mode := low_phys_to_virt (ld_vbe d) in
    bytes_at w mode (ld_block d) /\ length (ld_block d) = 44%nat /\ clear_of info mode 44;
  lo_entries : entries_at w (ld_map d) (ld_mmap_length d) 0 (ld_entries d) /\
    0 <= ld_map d /\ ld_map d + ld_mmap_length d + 24 <= 2 ^ 32 /\ clear_of info (ld_map d) (ld_mmap_length d + 24);
  lo_base : has_base (ld_entries d) = true;
  lo_info : writable w info Info.sizeof_bootinfo /\ placed_low info Info.sizeof_bootinfo;
}.

(** a module that fits in the area for code *)
Record module_loaded (w : bytes) (info : Z) (d : loader) : Prop := {
  ml_count : 0 < ld_mods_count d;
  ml_module : le_word w (ld_module d) (ld_start d) /\ le_word w (ld_module d + 4) (ld_end d) /\
    clear_of info (ld_module d) 8 /\ placed_low (ld_module d) 8;
  ml_code : bytes_at w (ld_code d) (ld_image d) /\ clear_of info (ld_code d) (Z.of_nat (length (ld_image d))) /\
    placed_low (ld_code d) (Z.of_nat (length (ld_image d)));
  ml_length : Z.of_nat (length (ld_image d)) = w32 (w32 (ld_end d - ld_start d) + 0x200) /\ Z.of_nat (length (ld_image d)) <= 255 * 4096;
}.

(** writing the boot information leaves the tables alone *)
Lemma load32_wrote w w' p v info : wrote w w' info Info.sizeof_bootinfo -> clear_of info p 4 ->
  load32 p w = Some (v, w) -> load32 p w' = Some (v, w').
Proof.
  intros [_ Hw] Hc. assert (E : forall i, 0 <= i < 4 -> w' !! (p + i) = w !! (p + i)).
  { intros i Hi. apply Hw. unfold within. destruct Hc; lia. }
  pose proof (E 0 ltac:(lia)) as E0. rewrite Z.add_0_r in E0. pose proof (E 1 ltac:(lia)) as E1.
  pose proof (E 2 ltac:(lia)) as E2. pose proof (E 3 ltac:(lia)) as E3. replace (p + 3) with (p + 2 + 1) in E3 by lia.
  unfold load32, load16, load. rewrite !ST_bind_eq, E0. destruct (w !! p); [|done]. rewrite !ST_bind_eq, E1.
  destruct (w !! (p + 1)); [|done]. unfold mret, ST_ret. rewrite !ST_bind_eq, E2. destruct (w !! (p + 2)); [|done].
  rewrite !ST_bind_eq, E3. destruct (w !! (p + 2 + 1)); [|done]. unfold mret, ST_ret. by intros [= <-].
Qed.

Lemma entries_at_wrote w w' map len info es : wrote w w' info Info.sizeof_bootinfo -> 0 <= map -> map + len + 24 <= 2 ^ 32 ->
  clear_of info map (len + 24) -> forall o, 0 <= o -> entries_at w map len o es -> entries_at w' map len o es.
Proof.
  intros Hw H0 Htop Hc. induction es as [|e es IH]; intros o Ho; [done|]. cbn [entries_at].
  intros (Hlt & Hsz & H32 & R1 & R2 & R3 & R4 & He). assert (E : w32 (map + o) = map + o) by (apply w32_small; lia). rewrite E in *.
  assert (Hr : forall k v, 0 <= k <= 20 -> load32 (map + o + k) w = Some (v, w) -> load32 (map + o + k) w' = Some (v, w')).
  { intros k v Hk. apply (load32_wrote w w' _ _ info Hw). unfold clear_of in *. lia. }
  split_and!; try done; [|by apply Hr|by apply Hr|by apply Hr|by apply IH; [lia|]].
  rewrite <- (Z.add_0_r (map + o)) in R1 |- *. by apply Hr.
Qed.

(** ** The tables of the kernel *)

(** the directory of the boot code, once it maps itself: the first 4 MB at
    [KERNEL_BASE], the directory among them, and nothing where the first program
    and the kernel's pages will be *)
Definition boot_entries (m : mmu) : Prop :=
  (flag_set (pde m 1012) PAGE_ARCH_PRESENT = true /\ flag_set (pde m 1012) PAGE_ARCH_4MB_ENTRY = true /\ 0 <= pde m 1012 < 4096) /\
  forall d, d ∈ [768; 832; 1011; 1013] -> pde m d = 0.

Record kernel_dir (m : mmu) (dir : Z) : Prop := {
  kd_wf : mmu_wf m;
  kd_entries : boot_entries m;
  kd_dir : exists t, 0 <= t < 1024 /\ dir = vaddr_of 1012 t 0 /\ pd m = t * 4096;
  kd_global : region_inv (pm_global m) /\ r_mode (pm_global m) = REGION_MODE_VIRTUAL /\
    r_available (pm_global m) = 1024 /\ r_vaddress (pm_global m) = 0xfd400000 /\ region_pages (pm_global m) = 1024%nat;
  kd_physical : r_available (pm_physical m) = 2048;
}.

Lemma kernel_dir_big m dir : kernel_dir m dir -> big_dir m dir.
Proof.
  intros [Hw [(Hp & H4 & Hr) Hz] (t & Ht & -> & Hpd) _ _].
  exists 1012, t. split; [unfold indices; lia|]. split; [done|]. split; [done|]. split; [done|].
  rewrite Hpd. rewrite (Z.div_small (pde m 1012)) by lia. lia.
Qed.

Lemma kernel_dir_can_clone m dir : kernel_dir m dir -> can_clone m dir 1013.
Proof.
  intros Hk. pose proof (kernel_dir_big m dir Hk) as Hbig.
  destruct Hk as [Hw [_ Hz] _ (Hg & Hm & Ha & Hv & Hn) Hav].
  assert (Hroom : table_or_room m 1013) by (right; split; [apply Hz; set_solver|lia]). split.
  - done.
  - by apply big_dir_mapped.
  - split; [lia|exact Hroom].
  - split; [done|]. split; [done|lia].
  - intros k Hk. rewrite Hn in Hk. exists (Z.of_nat k). split; [lia|]. rewrite Hv. unfold vaddr_of, PAGE_SIZE. lia.
Qed.

Lemma kernel_dir_low m dir p : kernel_dir m dir -> 0 <= p < 2 ^ 22 -> walk m (KERNEL_BASE + p) = Some p.
Proof.
  intros Hk Hp. destruct (kd_entries _ _ Hk) as [(Hpr & H4 & Hr) _].
  pose proof (Z.div_mod p 4096 ltac:(done)). pose proof (Z.mod_pos_bound p 4096 ltac:(lia)).
  assert (0 <= p / 4096 < 1024) by (split; [apply Z.div_pos; lia|apply Z.div_lt_upper_bound; lia]).
  replace (KERNEL_BASE + p) with (vaddr_of 1012 (p / 4096) (p mod 4096)) by (unfold vaddr_of, KERNEL_BASE; lia).
  rewrite walk_eq by (unfold indices; lia). rewrite Hpr, H4. cbn [negb]. rewrite (Z.div_small (pde m 1012)) by lia. f_equal. lia.
Qed.

(** what the device mapping adds is elsewhere *)
Lemma kernel_dir_words m m' dir : kernel_dir m dir -> mmu_wf m' -> words_only m m' ->
  (forall i, 0 <= i < 1024 -> i < 1018 \/ i = 1023 -> pde m' i = pde m i) -> kernel_dir m' dir.
Proof.
  intros [Hw [He Hz] (t & Ht & Hd & Hpd) Hg Hav] Hw' Hwo Hpde. split; try done.
  - split; [by rewrite Hpde by lia|]. intros d Hd'. rewrite Hpde; [by apply Hz|..];
      revert Hd'; rewrite !elem_of_cons, elem_of_nil; lia.
  - exists t. split; [done|]. split; [done|]. rewrite Hwo. exact Hpd.
  - by rewrite Hwo.
  - by rewrite Hwo.
Qed.

(** the memory that is held back for the kernel *)
Definition kernel_memory : phys_memmap := PhysMemmap NULL 0x400000 0x800000.

(** the directory of the boot code as [init_memory] finds it, and after it *)
Lemma init_memory_dir (stale_bitmap : Z -> list Z) s dir t :
  boot_mmu (my_mmu s) dir kernel_memory -> boot_entries (my_mmu s) -> dir = vaddr_of 1012 t 0 -> 0 <= t < 1024 ->
  my_initialized s = false -> (forall h, bm_wf (stale_bitmap h) /\ (64 <= length (stale_bitmap h))%nat) ->
  bm_wf (r_bitmap (pm_global (my_mmu s))) -> length (r_bitmap (pm_global (my_mmu s))) = 32%nat ->
  exists h m, init_memory dir stale_bitmap kernel_memory s =
      Some (tt, Memory (Boot (mem_drop (bt_heap (my_boot s)) bitmap_bytes (bt_mem (my_boot s))) h (bt_maps (my_boot s))) m true) /\
      kernel_dir m dir.
Proof.
  intros Hb He Hd Ht Hi Hst Hgw Hgl.
  destruct (init_memory_ok s dir stale_bitmap kernel_memory) as (r & g & h & Hrun & Hw & Hg & Hgm & Hgv & Hgn & Hr & Hga & _); try done.
  - apply Hst.
  - destruct (Hst (bt_heap (my_boot s))) as [_ Hl]. simpl. unfold PAGE_SIZE. change (0x800000 / 4096) with 2048. lia.
  - pose proof Hb as [_ (Hcr & Ha & Hlv) _ _ _]. exists h, (my_mmu (memory_up r g (0x800000 / PAGE_SIZE / 8) h s)). split; [exact Hrun|].
    assert (Hpd0 : pd (my_mmu s) = pm_cr3 (my_mmu s)) by (unfold pd; rewrite page_mask_eq by lia; lia).
    assert (Hpde : forall d, 0 <= d < 1023 -> pde (my_mmu (memory_up r g (0x800000 / PAGE_SIZE / 8) h s)) d = pde (my_mmu s) d).
    { intros d Hd'. unfold pde. change (pd (my_mmu (memory_up r g (0x800000 / PAGE_SIZE / 8) h s))) with (pd (my_mmu s)). rewrite Hpd0.
      change (mem_get (mem_set (pm_cr3 (my_mmu s) + 4 * 1023) (pm_cr3 (my_mmu s) + 3) (my_mmu s)) (pm_cr3 (my_mmu s) + 4 * d) =
        mem_get (my_mmu s) (pm_cr3 (my_mmu s) + 4 * d)). rewrite mem_get_set, decide_False by lia. done. }
    split; try done.
    + destruct He as [Hbig Hz]. split; [by rewrite Hpde by lia|]. intros d Hd'. rewrite Hpde; [by apply Hz|].
      revert Hd'. rewrite !elem_of_cons, elem_of_nil. lia.
    + exists t. split; [done|]. split; [done|]. change (pd (my_mmu s) = t * 4096). rewrite Hpd0, <- Hlv, Hd.
      unfold low_virt_to_phys, vaddr_of, KERNEL_BASE. rewrite w32_small; lia.
Qed.

(** ** Up to the devices *)

(** the only processor is number 0 *)
Lemma current_cpu_alone device arrivals (l : lapic) : (forall t, arrivals t = []) -> 0 <= la_num_booted l <= 1 ->
  sched_current_cpu device arrivals l = Some (0, l).
Proof.
  intros Halone Hn. unfold sched_current_cpu, sched_num_cpus, num_booted_cpus. rewrite ST_bind_eq. cbv beta. rewrite Halone.
  rewrite w32_small by (simpl; lia). rewrite (proj2 (Z.ltb_ge 1 _)) by (simpl; lia). done.
Qed.

Section boot.
Context {A : Type} `{!Allocator A} `{!Pages A} `{!SlabSetup A}.
Context (device : list port_event -> query -> Z) (arrivals : list port_event -> list Z) (fuel : nat).
Context (boot_page_dir bootinfo str_c4 descripts_addr task_segments_addr intr_table_addr : Z) (stubs : list Z).
Context (stale_bitmap : Z -> list Z) (stale_table : Z -> list cap_entry) (stale_object : kobject)
  (stale_async : msg_queue_async) (stale_node paddr_var : Z).
Context (cpu : nat) (num_cpus : Z) (apic_is_enabled : bool) (clock : nat -> Z) (port_in : Z -> Z -> Z).
Implicit Types (s : system A).

(** one processor; the interval timer reaches its end; a stub for each vector *)
Context (Halone : forall t, arrivals t = []).
Context (Htimer : forall t, exists k, (k + 1 < fuel)%nat /\ Z.testbit (poll_answer device t k) 7 = true).
Context (Hstubs : length stubs = 256%nat /\ Forall (fun p => 0 <= p < 2 ^ 32) stubs).
Context (Htasks : 0 <= task_segments_addr /\ task_segments_addr + MAX_CPUS * sizeof_task_seg <= 2 ^ 32).
Context (Hstale : forall h, bm_wf (stale_bitmap h) /\ (64 <= length (stale_bitmap h))%nat).

Lemma timers_init_ok (t : timers) : 0 <= la_num_booted (tm_lapic t) <= 1 ->
  exists p f, timers_init device arrivals fuel t = Some (tt, Timers (with_ports p (tm_lapic t)) 0 f).
Proof using All.
  intros Hn. destruct t as [l c f0]. cbn [tm_lapic] in *. set (p0 := la_ports l).
  assert (Hts : forall p, exists v p', timer_get_timestamp device p = Some (v, p')) by (intros p; unfold timer_get_timestamp, gets, emit, modify, mbind, ST_bind, mret, ST_ret; by eexists _, _).
  destruct (Hts p0) as (v1 & p1 & R1). destruct (pit_wait_ok device fuel Htimer PIT_WAIT_10MS p1) as (j & R2). set (p2 := Ports _ _) in R2.
  destruct (Hts p2) as (v2 & p3 & R3). exists p3, (w64 (w64 (v2 - v1) * 100)).
  unfold timers_init. rewrite (ST_run _ _ _ 0 (Timers l c f0)) by (unfold on_la, zoom; cbn [tm_lapic]; by rewrite current_cpu_alone).
  rewrite (ST_run _ _ _ tt (Timers l 0 f0)) by done.
  rewrite (ST_run _ _ _ (w64 (w64 (v2 - v1) * 100)) (Timers (with_ports p3 l) 0 f0)); [done|].
  unfold on_la, zoom. cbn [tm_lapic]. rewrite (on_io_run _ l (w64 (w64 (v2 - v1) * 100)) p3); [done|].
  unfold measure_cpu_freq. by rewrite (ST_run _ _ _ _ _ R1), (ST_run _ _ _ _ _ R2), (ST_run _ _ _ _ _ R3).
Qed.

(** a machine when the boot code jumps to [arch_init] *)
Record at_entry s : Prop := {
  en_cpus : 0 <= la_num_booted (sy_lapic s) <= 1;
  en_mmu : boot_mmu (sy_mmu s) boot_page_dir kernel_memory;
  en_entries : boot_entries (sy_mmu s);
  en_dir : exists t, 0 <= t < 1024 /\ boot_page_dir = vaddr_of 1012 t 0;
  en_global : sy_global_ready s = false /\ bm_wf (r_bitmap (pm_global (sy_mmu s))) /\ length (r_bitmap (pm_global (sy_mmu s))) = 32%nat;
  en_bytes : all_bytes (in_mem (sy_init s));
}.

(** what [init_system] leaves of the machine, with the list of the memory at
    [maps] *)
Record system_up s s' (d : loader) (maps : Z) : Prop := {
  su_maps : maps_at (in_maps (sy_init s')) maps (rev (areas (ld_entries d)));
  su_low : wrote (sy_low s) (sy_low s') bootinfo Info.sizeof_bootinfo;
  su_domain : forall p, is_Some (in_mem (sy_init s') !! p) <-> is_Some (in_mem (sy_init s) !! p);
  su_bytes : all_bytes (sy_low s');
  su_info : le_word (sy_low s') bootinfo BOOTINFO_MAGIC /\ cstring (sy_low s') (bootinfo + 16) (take 255 (ld_command d));
  su_kernel : sy_kernel s' = set_k_spaces (AddrSpace.set_mmu (sy_mmu s') (k_spaces (sy_kernel s))) (sy_kernel s);
  su_dir : kernel_dir (sy_mmu s') boot_page_dir;
  su_cpus : la_num_booted (sy_lapic s') = la_num_booted (sy_lapic s);
  su_ready : sy_slabs_ready s' = sy_slabs_ready s /\ sy_spaces_ready s' = sy_spaces_ready s;
  su_tables : sg_gdtr (sy_segments s') = Some (295, w32 descripts_addr) /\ sg_tr (sy_segments s') = Some 0x28 /\
    it_loaded (sy_idt s') = Some (2047, w32 intr_table_addr);
  su_syscall : it_handlers (sy_idt s') !! Z.to_nat INTERRUPT_SYSCALL = Some (Some (syscall_interrupt cpu num_cpus apic_is_enabled
    clock stale_table stale_object stale_async stale_node paddr_var fuel port_in));
  su_handlers : forall n, (n < 256)%nat -> is_Some (it_handlers (sy_idt s') !! n);
}.

Lemma low_bytes (m : bytes) : all_bytes m -> all_bytes (low m).
Proof. intros H v b. rewrite low_lookup. case_decide; [|done]. apply H. Qed.

Lemma maps_at_single m p a n : maps_at m p [(a, n)] -> m !! p = Some (PhysMemmap NULL a n).
Proof. by intros (_ & next & H & ->). Qed.

(** the first steps leave the list of the memory, the tables of the processor
    and the kernel's own page tables, and write nothing but the boot
    information *)
Lemma init_system_ok s d header :
  at_entry s -> loaded (sy_low s) bootinfo str_c4 header d -> heap_ok (sy_boot s) (length (ld_entries d)) ->
  exists maps s', init_system device arrivals fuel boot_page_dir bootinfo str_c4 descripts_addr task_segments_addr intr_table_addr stubs
      stale_bitmap stale_table stale_object stale_async stale_node paddr_var cpu num_cpus apic_is_enabled clock port_in header s =
      Some (maps, s') /\ system_up s s' d maps.
Proof using All.
  intros [Hn Hmmu Hent (dt & Hdt & Hdir) (Hgr & Hgw & Hgl) Hby] Hl Hheap.
  destruct Hl as [L1 L2 _ [L5 L6] L7 L8 L9 (L10 & L11 & L12) L13 (L14 & L15 & L16 & L17) L18 [L19 L20]].
  destruct (timers_init_ok (sy_timers s) Hn) as (p & f & R1). set (s1 := set_sy_timers (Timers (with_ports p (tm_lapic (sy_timers s))) 0 f) s).
  destruct (bootinfo_init_spec bootinfo (sy_low s) str_c4 header (ld_flags d) (ld_cmdline d) (ld_vbe d) (ld_block d) (ld_command d))
    as (w & R2 & Hmagic & Hcmd & _ & Hwrote); try done.
  pose proof (keeps_bootinfo_init _ _ _ _ _ _ R2 (low_bytes _ Hby)) as Hwb.
  set (s2 := set_sy_low w s1).
  assert (Hlow2 : sy_low s2 = w) by (apply low_unlow; apply Hwrote).
  assert (Hword : forall q v, clear_of bootinfo q 4 -> le_word (sy_low s) q v -> load32 q w = Some (v, w)).
  { intros q v Hc Hv. apply word_load. by apply (word_wrote (sy_low s) w q v bootinfo Info.sizeof_bootinfo). }
  assert (Hsub : forall k, 0 <= k <= 76 -> clear_of bootinfo (header + k) 4) by (unfold clear_of in *; lia).
  destruct (memmaps_init_ok header (ld_flags d) (ld_mmap_addr d) (ld_mmap_length d) (ld_entries d) (sy_boot s2))
    as (maps & kmem & b & R3 & (Hbm & _) & (_ & _ & Hfree & _) & _ & Hmaps%maps_at_newer & Hk%maps_at_newer).
  { rewrite Z.add_0_r. change (bt_mem (sy_boot s2)) with (sy_low s2). rewrite Hlow2.
    apply Hword; [|done]. rewrite <- (Z.add_0_r header). apply Hsub. lia. }
  { done. }
  { change (bt_mem (sy_boot s2)) with (sy_low s2). rewrite Hlow2. apply Hword; [apply Hsub; lia|done]. }
  { change (bt_mem (sy_boot s2)) with (sy_low s2). rewrite Hlow2. apply Hword; [apply Hsub; lia|done]. }
  { change (bt_mem (sy_boot s2)) with (sy_low s2). rewrite Hlow2. by apply (entries_at_wrote (sy_low s) w _ _ bootinfo). }
  { destruct Hheap as (H0 & Htop & Hnone & Hold). split; [exact H0|]. split; [exact Htop|]. split; [|exact Hold].
    intros q Hq. specialize (Hnone q Hq). change (bt_mem (sy_boot s2)) with (sy_low s2). rewrite Hlow2.
    apply eq_None_not_Some. rewrite (proj1 Hwrote q). by apply eq_None_not_Some. }
  change (bt_mem (sy_boot s2)) with (sy_low s2) in Hbm. rewrite L18 in Hk. apply maps_at_single in Hk.
  set (s3 := set_sy_boot b s2).
  destruct (init_segment_descs_spec descripts_addr task_segments_addr (sy_segments s)) as (sg & R4 & Hgdt & Htr & _); [apply Htasks..|].
  set (s4 := set_sy_segments sg s3).
  assert (exists p', remap_pic_vectors_default device p = Some (tt, p')) as (p' & R5) by (by eexists).
  set (s5 := set_sy_lapic (with_ports p' (sy_lapic s4)) s4).
  destruct (init_interrupts_spec cpu num_cpus apic_is_enabled clock stale_table stale_object stale_async stale_node paddr_var
    fuel port_in intr_table_addr stubs (sy_idt s)) as (ih & R6 & Hidt & _ & Hhan); [apply Hstubs..|].
  pose proof (Hhan (Z.to_nat INTERRUPT_SYSCALL) ltac:(unfold INTERRUPT_SYSCALL; lia)) as Hsys.
  rewrite !decide_False, decide_True in Hsys by (unfold INTERRUPT_SYSCALL; lia).
  set (s6 := set_sy_idt ih s5).
  destruct (init_memory_dir stale_bitmap (sy_memory s6) boot_page_dir dt Hmmu Hent Hdir Hdt Hgr Hstale Hgw Hgl) as (h & m & R7 & Hkd).
  assert (Hmem3 : in_mem (sy_init s3) = unlow w (in_mem (sy_init s))).
  { change (unlow (bt_mem b) (in_mem (sy_init s2)) = in_mem (sy_init s2)). rewrite Hbm. apply unlow_low. }
  assert (Hlow6 : bt_mem (my_boot (sy_memory s6)) = bt_mem b).
  { change (low (unlow (bt_mem b) (in_mem (sy_init s2))) = bt_mem b). apply low_unlow. intros v. by rewrite Hbm. }
  rewrite mem_drop_id in R7.
  2: { intros q Hq. rewrite Hlow6. apply Hfree. change (bt_heap (my_boot (sy_memory s6))) with (bt_heap b) in Hq. lia. }
  set (s7 := set_sy_memory (Memory (Boot (bt_mem (my_boot (sy_memory s6))) h (bt_maps (my_boot (sy_memory s6)))) m true) s6).
  assert (Hmem7 : in_mem (sy_init s7) = unlow w (in_mem (sy_init s))).
  { rewrite <- Hmem3. change (unlow (low (in_mem (sy_init s3))) (in_mem (sy_init s3)) = in_mem (sy_init s3)). apply unlow_low. }
  assert (Hlow7 : sy_low s7 = w) by (unfold sy_low; rewrite Hmem7; exact Hlow2).
  assert (Hg6 : memmap_get kmem (sy_init s6) = Some (kernel_memory, sy_init s6)).
  { unfold memmap_get. change (in_maps (sy_init s6)) with (bt_maps b). by rewrite Hk. }
  exists maps, s7. split; [|split].
  - unfold init_system. rewrite (ST_run _ _ _ _ _ (zoom_run sy_timers set_sy_timers _ s _ _ R1)). fold s1.
    rewrite (ST_run _ _ _ _ _ (zoom_run sy_low set_sy_low _ s1 _ _ R2)). fold s2.
    rewrite (ST_run _ _ _ _ _ (zoom_run sy_boot set_sy_boot _ s2 _ _ R3)). fold s3.
    rewrite (ST_run _ _ _ _ _ (zoom_run sy_segments set_sy_segments _ s3 _ _ R4)). fold s4.
    rewrite (ST_run _ _ _ _ _ (zoom_run sy_lapic set_sy_lapic _ s4 _ _ (on_io_run _ (sy_lapic s4) _ _ R5))). fold s5.
    rewrite (ST_run _ _ _ _ _ (zoom_run sy_idt set_sy_idt _ s5 _ _ R6)). fold s6.
    rewrite (ST_run _ _ _ kernel_memory s6) by exact (zoom_run sy_init set_sy_init _ s6 _ _ Hg6).
    by rewrite (ST_run _ _ _ _ _ (zoom_run sy_memory set_sy_memory _ s6 _ _ R7)).
  - exact Hmaps.
  - rewrite Hlow7. exact Hwrote.
  - intros q. rewrite Hmem7. apply unlow_domain, Hwrote.
  - rewrite Hlow7. exact Hwb.
  - rewrite Hlow7. exact (conj Hmagic Hcmd).
  - reflexivity.
  - exact Hkd.
  - reflexivity.
  - split; reflexivity.
  - split; [exact Hgdt|split; [exact Htr|exact Hidt]].
  - rewrite <- Hsys. reflexivity.
  - intros n Hlt. change (it_handlers (sy_idt s7)) with (it_handlers ih). rewrite (Hhan n Hlt). eexists. reflexivity.
Qed.
End boot.

(** ** The objects of the kernel *)

Section objects.
Context {A : Type} `{!Allocator A} `{!Pages A} `{!SlabSetup A} `{!AllocatorLaws A} `{!PagesLaws A} `{!SlabSetupLaws A}.
Context (device : list port_event -> query -> Z) (arrivals : list port_event -> list Z).
Context (boot_page_dir idle_entry : Z) (cpu : nat) (num_cpus : Z) (clock : nat -> Z).
Context (Halone : forall t, arrivals t = []) (Hcpu : (cpu < 32)%nat).
Implicit Types (s : system A) (k : kernel A).

(** the space of the kernel, the first of all *)
Lemma addr_space_init_ok (sp : space_store A) dir n :
  alloc_inv (sp_alloc sp) -> rooms (2 + n) (sp_alloc sp) -> alloc_inv (sp_frame_slab sp) -> sp_spaces sp = ∅ -> sp_frames sp = ∅ -> sp_maps sp = ∅ ->
  exists K q a, let sp' := SpaceStore (sp_mmu sp) {[K := AddrSpace (kobject_init KOBJECT_TYPE_ADDR_SPACE) dir q]} ∅
      {[q := AddrSpace.map_empty]} K a (sp_frame_slab sp) in
    AddrSpace.addr_space_init dir sp = Some (tt, sp') /\ space_mem sp' /\ rooms n a.
Proof using All.
  intros Hi (Hr & _ & Hn) Hf E1 E2 E3. destruct sp as [m sps fs ms kn a0 fa]. simpl in *. subst.
  destruct (alloc_total _ Hi Hr) as (K & a1 & Ha). destruct (alloc_ok _ _ _ Hi Ha) as (Hi1 & _ & _ & Hl1).
  destruct (Hn K a1 (or_introl Ha)) as (_ & Hp & Hn1).
  destruct (page_alloc_ok a1 Hi1 Hp) as (q & a2 & Hq & Hi2 & Hq0 & _ & _ & Hql & Hl2).
  exists K, q, a2. split; [|split; [split|by apply (Hn1 q); right]]; simpl.
  - unfold AddrSpace.addr_space_init, addr_map_create, on_alloc, zoom, space_put, map_put, modify. rewrite ST_bind_eq. simpl. rewrite Ha.
    rewrite ST_bind_eq. rewrite ST_bind_eq. simpl. rewrite Hq. rewrite (proj2 (Z.eqb_neq q NULL)) by (unfold NULL; lia). cbn [negb].
    reflexivity.
  - done.
  - intros p [x [<- _]%lookup_singleton_Some]. apply Hl2, Hl1. by right.
  - intros p [x Hx]. by rewrite lookup_empty in Hx.
  - intros p [x [<- _]%lookup_singleton_Some]. apply Hql. by right.
Qed.

(** a kernel whose slabs were never used and whose stores are empty, with
    enough memory for what [arch_init] allocates *)
Record untouched k : Prop := {
  ut_threads : k_threads k = ∅ /\ slab_static (k_thread_slab k) /\ rooms 8 (slab_setup sizeof_thread (k_thread_slab k));
  ut_caps : st_spaces (k_caps k) = ∅ /\ st_tables (k_caps k) = ∅ /\ slab_static (st_alloc (k_caps k)) /\
    rooms 2 (slab_setup sizeof_cap_space (st_alloc (k_caps k)));
  ut_spaces : sp_spaces (k_spaces k) = ∅ /\ sp_frames (k_spaces k) = ∅ /\ sp_maps (k_spaces k) = ∅ /\
    slab_static (sp_alloc (k_spaces k)) /\ rooms 4 (slab_setup sizeof_addr_space (sp_alloc (k_spaces k))) /\
    slab_static (sp_frame_slab (k_spaces k)) /\ rooms 3 (slab_setup sizeof_phys_frame (sp_frame_slab (k_spaces k)));
  ut_trees : slab_static (k_atree_slab k) /\ rooms 2 (slab_setup sizeof_anode (k_atree_slab k));
  ut_queues : k_syncs k = ∅ /\ slab_static (k_queue_slab k) /\ alloc_room (slab_setup sizeof_msg_queue (k_queue_slab k));
  ut_lock : k_sched_lock k = false;
}.

(** the kernel has its space, its idle thread and nothing to run *)
Record objects_up k (k' : kernel A) : Prop := {
  ob_sched : sched_wf cpu k' /\ rooms 2 (k_atree_slab k') /\ AA.contents (k_run_tree k') = [];
  ob_threads : thread_room 5 k' /\ exists t th, k_threads k' = {[t := th]} /\ t <> NULL /\ tr_eip (th_registers th) = idle_entry;
  ob_current : k_current k' !! cpu = Some NULL;
  ob_caps : cap_wf (k_caps k') /\ cap_mem (k_caps k') /\ rooms 2 (st_alloc (k_caps k'));
  ob_spaces : space_mem (k_spaces k') /\ rooms 2 (sp_alloc (k_spaces k')) /\ rooms 3 (sp_frame_slab (k_spaces k'));
  ob_kernel : exists q, sp_spaces (k_spaces k') !! sp_kernel (k_spaces k') =
      Some (AddrSpace (kobject_init KOBJECT_TYPE_ADDR_SPACE) boot_page_dir q) /\
    sp_maps (k_spaces k') !! q = Some AddrSpace.map_empty;
  ob_mmu : sp_mmu (k_spaces k') = sp_mmu (k_spaces k);
  ob_queues : k_queue_slab k' = k_queue_slab k /\ k_syncs k' = k_syncs k;
}.

Lemma once_fresh id m s k : id ∉ sy_slabs_ready s -> m (sy_kernel s) = Some (tt, k) ->
  once id m s = Some (tt, set_sy_slabs_ready (id :: sy_slabs_ready s) (set_sy_kernel k s)).
Proof.
  intros Hid Hm. unfold once. rewrite decide_False by done.
  unfold in_kern. by rewrite (ST_run _ _ _ _ _ (zoom_run sy_kernel set_sy_kernel m s _ _ Hm)).
Qed.
Lemma once_again id m s : id ∈ sy_slabs_ready s -> once id m s = Some (tt, s).
Proof. intros H. unfold once. by rewrite decide_True. Qed.

(** which slabs are ready *)
Ltac slabs := apply (bool_decide_unpack _); reflexivity.

(** the interrupt of the timer, in the table of handlers *)
Definition with_timer (i : idt A) : idt A :=
  Idt (it_table i) (<[32%nat := Some (timer_interrupt cpu num_cpus clock)]> (it_handlers i)) (it_stats i) (it_idtr i) (it_loaded i).

(** the kernel when its slabs are set up, its trees are empty and [sp] holds its
    space *)
Definition slabs_up k (sp : space_store A) : kernel A :=
  set_k_idle (replicate 32 NULL) (set_k_current (replicate 32 NULL) (set_k_sleep_tree AA.E (set_k_run_tree AA.E
    (set_k_atree_slab (slab_setup sizeof_anode (k_atree_slab k)) (set_k_thread_slab (slab_setup sizeof_thread (k_thread_slab k))
      (set_k_spaces sp (set_k_caps (CapStore (st_spaces (k_caps k)) (st_tables (k_caps k)) (slab_setup sizeof_cap_space (st_alloc (k_caps k)))) k))))))).

Definition system_at s (k : kernel A) r b : system A := set_sy_slabs_ready r (set_sy_spaces_ready b (set_sy_kernel k s)).

Lemma once_at id m s k k' r b : id ∉ r -> m k = Some (tt, k') -> once id m (system_at s k r b) = Some (tt, system_at s k' (id :: r) b).
Proof. intros Hid Hm. exact (once_fresh id m (system_at s k r b) k' Hid Hm). Qed.

Lemma objects_up_slabs k K q a fa t th a2 : untouched k ->
  let sp := SpaceStore (sp_mmu (k_spaces k)) {[K := AddrSpace (kobject_init KOBJECT_TYPE_ADDR_SPACE) boot_page_dir q]} ∅
    {[q := AddrSpace.map_empty]} K a fa in
  space_mem sp -> rooms 2 a -> rooms 3 fa -> t <> NULL -> tr_eip (th_registers th) = idle_entry ->
  let k6 := slabs_up k sp in
  let k' := set_k_current (<[0%nat := NULL]> (k_current k6)) (set_k_idle (<[0%nat := t]> (k_idle k6))
    (set_k_thread_counter (w32 (k_thread_counter k6 + 1)) (set_k_threads (<[t := th]> (k_threads k6)) (set_k_thread_slab a2 k6)))) in
  thread_room 5 k' -> objects_up k k'.
Proof using All.
  intros [(T1 & T2 & T3) (C1 & C2 & C3 & C4) _ (A1 & A2) _ Hlock] sp M3 Q3 Q4 Htn Heip k6 k' Hroom.
  assert (Hcur : k_current k' !! cpu = Some NULL) by exact (lookup_replicate_2 32 NULL cpu Hcpu).
  destruct (slab_setup_ok sizeof_anode _ ltac:(done) A1) as [Hai Hal].
  destruct (slab_setup_ok sizeof_cap_space _ ltac:(done) C3) as [Hci _]. constructor.
  + split; [|split; [exact A2|reflexivity]]. constructor.
    * split; [exact I|exact I|exact Hai| |constructor]. intros p.
      split; [intros Hp; destruct (Hal p Hp)|intros Hp; by apply elem_of_nil in Hp].
    * exact Hlock.
    * constructor.
    * constructor.
    * exists NULL. split; [exact Hcur|by left].
    * apply lookup_lt_is_Some_2. change (k_idle k') with (<[0%nat := t]> (replicate 32 NULL)). by rewrite length_insert, length_replicate.
  + split; [exact Hroom|]. exists t, th. split; [|split; [exact Htn|exact Heip]].
    change (k_threads k') with (<[t := th]> (k_threads k)). by rewrite T1.
  + exact Hcur.
  + assert (E : k_caps k' = CapStore ∅ ∅ (slab_setup sizeof_cap_space (st_alloc (k_caps k)))) by (rewrite <- C1, <- C2; reflexivity).
    rewrite E. split; [apply empty_caps_wf|split; [|exact C4]]. split; simpl; [exact Hci|..]; intros ? H; rewrite lookup_empty in H; by destruct H.
  + change (k_spaces k') with sp. split; [exact M3|split; [exact Q3|exact Q4]].
  + exists q. change (k_spaces k') with sp. split; apply lookup_insert_eq.
  + reflexivity.
  + split; reflexivity.
Qed.

(** each slab is set up when it is first asked for *)
Lemma slabs_up_run s K q a : let k := sy_kernel s in
  let sp2 := set_sp_frame_slab (slab_setup sizeof_phys_frame (sp_frame_slab (k_spaces k))) (k_spaces k) in
  let sp3 := set_sp_alloc (slab_setup sizeof_addr_space (sp_alloc sp2)) sp2 in
  let sp := SpaceStore (sp_mmu (k_spaces k)) {[K := AddrSpace (kobject_init KOBJECT_TYPE_ADDR_SPACE) boot_page_dir q]} ∅
    {[q := AddrSpace.map_empty]} K a (sp_frame_slab sp2) in
  sy_slabs_ready s = [] -> sy_spaces_ready s = false -> AddrSpace.addr_space_init boot_page_dir sp3 = Some (tt, sp) ->
  init_slabs boot_page_dir s =
    Some (tt, system_at s (slabs_up k sp) [AtreeSlab; ThreadSlab; FrameSlab; CapSpaceSlab] true).
Proof using All.
  intros k sp2 sp3 sp Hready Hspaces R3.
  set (k1 := set_k_caps (CapStore (st_spaces (k_caps k)) (st_tables (k_caps k)) (slab_setup sizeof_cap_space (st_alloc (k_caps k)))) k).
  set (k4 := set_k_thread_slab (slab_setup sizeof_thread (k_thread_slab k)) (set_k_spaces sp k1)).
  set (k5 := set_k_atree_slab (slab_setup sizeof_anode (k_atree_slab k)) k4).
  assert (E0 : s = system_at s k [] false).
  { unfold system_at, k. destruct s as [[] ? ? ? ? ? ? ? ? ? ?]. simpl in *. by subst. }
  assert (H1 : cap_space_init (system_at s k [] false) = Some (tt, system_at s k1 [CapSpaceSlab] false)) by (apply once_at; [slabs|reflexivity]).
  assert (H2 : phys_frame_init (system_at s k1 [CapSpaceSlab] false) = Some (tt, system_at s (set_k_spaces sp2 k1) [FrameSlab; CapSpaceSlab] false))
    by (apply once_at; [slabs|reflexivity]).
  assert (H3 : addr_space_init boot_page_dir (system_at s (set_k_spaces sp2 k1) [FrameSlab; CapSpaceSlab] false) =
    Some (tt, system_at s (set_k_spaces sp k1) [FrameSlab; CapSpaceSlab] true)).
  { unfold addr_space_init. cbn [sy_spaces_ready system_at set_sy_slabs_ready set_sy_spaces_ready].
    rewrite (ST_run _ _ _ tt (system_at s (set_k_spaces sp3 k1) [FrameSlab; CapSpaceSlab] false)) by reflexivity.
    by rewrite (ST_run _ _ _ _ _ (zoom_run sy_kernel set_sy_kernel _ (system_at s (set_k_spaces sp3 k1) _ false) _ _
      (zoom_run k_spaces set_k_spaces _ (set_k_spaces sp3 k1) _ _ R3))). }
  assert (H4 : init_threading (system_at s (set_k_spaces sp k1) [FrameSlab; CapSpaceSlab] true) =
    Some (tt, system_at s k4 [ThreadSlab; FrameSlab; CapSpaceSlab] true)) by (apply once_at; [slabs|reflexivity]).
  assert (H5 : atree_setup (system_at s k4 [ThreadSlab; FrameSlab; CapSpaceSlab] true) =
    Some (tt, system_at s k5 [AtreeSlab; ThreadSlab; FrameSlab; CapSpaceSlab] true)) by (apply once_at; [slabs|reflexivity]).
  assert (H6 : atree_setup (system_at s k5 [AtreeSlab; ThreadSlab; FrameSlab; CapSpaceSlab] true) =
    Some (tt, system_at s k5 [AtreeSlab; ThreadSlab; FrameSlab; CapSpaceSlab] true)) by (apply once_again; slabs).
  rewrite E0 at 1. unfold init_slabs. rewrite (ST_run _ _ _ _ _ H1), (ST_run _ _ _ _ _ H2), (ST_run _ _ _ _ _ H3), (ST_run _ _ _ _ _ H4).
  assert (H7 : Scheduler.sched_init k5 = Some (tt, slabs_up k sp)) by reflexivity. clearbody k4 k5.
  unfold sched_init. rewrite (ST_run _ _ _ _ _ H5), (ST_run _ _ _ _ _ H6).
  exact (zoom_run sy_kernel set_sy_kernel _ (system_at s k5 _ true) _ _ H7).
Qed.

Lemma register_timer s k k0 r b : is_Some (it_handlers (sy_idt s) !! 32%nat) ->
  in_idt (register_interrupt timer_vector (timer_interrupt cpu num_cpus clock)) (set_sy_kernel k (system_at s k0 r b)) =
    Some (tt, set_sy_idt (with_timer (sy_idt s)) (system_at s k r b)).
Proof.
  intros [h Hh]. unfold in_idt, zoom, register_interrupt. change (Z.to_nat timer_vector) with 32%nat.
  cbn [sy_idt system_at set_sy_kernel set_sy_slabs_ready set_sy_spaces_ready set_sy_init]. by rewrite Hh.
Qed.

Lemma init_objects_ok s : untouched (sy_kernel s) -> sy_slabs_ready s = [] -> sy_spaces_ready s = false ->
  0 <= la_num_booted (sy_lapic s) <= 1 -> is_Some (it_handlers (sy_idt s) !! 32%nat) ->
  exists k, init_objects device arrivals boot_page_dir idle_entry cpu num_cpus clock s =
      Some (tt, set_sy_idt (with_timer (sy_idt s)) (system_at s k [AtreeSlab; ThreadSlab; FrameSlab; CapSpaceSlab] true)) /\
    objects_up (sy_kernel s) k.
Proof using All.
  intros Hut Hready Hspaces Hn Hh. pose proof Hut as [(T1 & T2 & T3) _ (S1 & S2 & S3 & S4 & S5 & S6 & S7) _ _ _].
  destruct (slab_setup_ok sizeof_addr_space _ ltac:(done) S4) as [Hsi _]. destruct (slab_setup_ok sizeof_phys_frame _ ltac:(done) S6) as [Hfi _].
  set (sp2 := set_sp_frame_slab (slab_setup sizeof_phys_frame (sp_frame_slab (k_spaces (sy_kernel s)))) (k_spaces (sy_kernel s))).
  destruct (addr_space_init_ok (set_sp_alloc (slab_setup sizeof_addr_space (sp_alloc (k_spaces (sy_kernel s)))) sp2)
    boot_page_dir 2 Hsi S5 Hfi S1 S2 S3) as (K & q & a & R3 & M3 & Q3). cbn zeta in R3, M3.
  pose proof (slabs_up_run s K q a Hready Hspaces R3) as R. cbn zeta in R. set (sp := SpaceStore _ _ _ _ _ _ _) in R, M3.
  set (k6 := slabs_up (sy_kernel s) sp) in *. destruct (slab_setup_ok sizeof_thread _ ltac:(done) T2) as [Hti _].
  destruct (sched_init_cpu_ok idle_entry 5 0 k6) as (t & th & a2 & R7 & _ & Htn & Heip & Hroom); [change (k_idle k6) with (replicate 32 NULL); rewrite length_replicate; lia| |].
  { split; [exact Hti|exact T3|]. intros p Hp. change (k_threads k6) with (k_threads (sy_kernel s)) in Hp.
    rewrite T1, lookup_empty in Hp. by destruct Hp. }
  cbn zeta in R7, Hroom. eexists. split; [|exact (objects_up_slabs (sy_kernel s) K q a (slab_setup sizeof_phys_frame (sp_frame_slab (k_spaces (sy_kernel s)))) t th a2 Hut M3 Q3 S7 Htn Heip Hroom)].
  set (r := [AtreeSlab; ThreadSlab; FrameSlab; CapSpaceSlab]) in *.
  unfold init_objects. rewrite (ST_run _ _ _ _ _ R).
  assert (El : set_sy_lapic (sy_lapic s) (system_at s k6 r true) = system_at s k6 r true).
  { unfold system_at. by destruct s as [? ? ? ? ? [] ? ? ? ? ?]. }
  pose proof (zoom_run sy_lapic set_sy_lapic _ (system_at s k6 r true) 0 (sy_lapic s) (current_cpu_alone device _ _ Halone Hn)) as Rc.
  rewrite El in Rc. rewrite (ST_run _ _ _ _ _ Rc).
  rewrite (ST_run _ _ _ _ _ (zoom_run sy_kernel set_sy_kernel _ (system_at s k6 r true) _ _ R7)).
  by apply register_timer.
Qed.
End objects.

(** ** The thread that hands out the memory *)

Section memmaps.
Context {A : Type} `{!Allocator A} `{!Pages A} `{!AllocatorLaws A} `{!PagesLaws A}.
Context (cpu : nat) (num_cpus : Z) (apic_is_enabled : bool) (clock : nat -> Z) (send_memmaps_entry : Z).

(** it is made and waits for its turn, while nothing runs *)
Lemma sigma0_send_memmaps_ok (s : init A) maps queue :
  sched_wf cpu (in_kernel s) -> thread_room 3 (in_kernel s) -> alloc_room (k_atree_slab (in_kernel s)) ->
  k_current (in_kernel s) !! cpu = Some NULL ->
  exists t th k, sigma0_send_memmaps cpu num_cpus apic_is_enabled clock send_memmaps_entry maps queue s =
      Some (Done tt (Init k (in_mem s) (in_maps s) maps queue)) /\
    k_threads (in_kernel s) !! t = None /\ t <> NULL /\ k_threads k = <[t := th]> (k_threads (in_kernel s)) /\
    tr_eip (th_registers th) = send_memmaps_entry /\ th_addr_space th = sp_kernel (k_spaces (in_kernel s)) /\
    th_state th = SCHED_STATE_RUNNING /\ sched_wf cpu k /\
    Permutation (AA.contents (k_run_tree k)) (t :: AA.contents (k_run_tree (in_kernel s))) /\
    k_spaces k = k_spaces (in_kernel s) /\ k_syncs k = k_syncs (in_kernel s) /\ k_current k = k_current (in_kernel s).
Proof using All.
  intros Hw Hroom Ha Hcur. set (k0 := in_kernel s) in *.
  destruct (thread_create_kthread_ok 0 k0 send_memmaps_entry Hroom) as (t & th & a & R1 & Ht & Htn & Heip & Hsp & Hst & Hv & _).
  cbn zeta in R1. set (k1 := set_k_thread_counter _ _) in R1.
  assert (Hw1 : sched_wf cpu k1) by (by apply (sched_wf_more cpu k0 k1 t th)).
  assert (Ht1 : k_threads k1 !! t = Some th) by apply lookup_insert_eq.
  destruct (sched_add_ok cpu apic_is_enabled k1 t th NULL Hw1 Ha Ht1 Hst Hcur) as (tree & a2 & R2 & Hw2 & Hperm & _ & _).
  assert (Hg : gives_way apic_is_enabled k1 NULL t = false) by (unfold gives_way; by rewrite andb_false_r).
  rewrite Hg in R2. cbn zeta in R2, Hw2. set (k2 := set_k_ipis _ _) in R2, Hw2.
  exists t, th, k2. split.
  - unfold sigma0_send_memmaps. set (s0 := Init (in_kernel s) (in_mem s) (in_maps s) maps queue).
    rewrite (R_lift _ _ _ tt s0) by done. rewrite (R_lift _ _ s0 t (set_in_kernel k1 s0)).
    2: { unfold on_k. exact (zoom_run in_kernel set_in_kernel _ s0 _ _ R1). }
    unfold on_kr. rewrite (rzoom_done _ _ _ _ tt k2); [done|]. unfold sched_add_thread. by rewrite (R_lift _ _ _ _ _ R2).
  - by split_and!.
Qed.
End memmaps.

(** ** What the kernel reads of the loader's memory *)

Lemma bytes_exist w p n : writable w p (Z.of_nat n) -> exists l, length l = n /\ bytes_at w p l.
Proof.
  revert p. induction n as [|n IH]; intros p H; [exists []; split; [done|apply bytes_at_nil]|].
  destruct (H p) as [b Hb]; [unfold within; lia|]. destruct (IH (p + 1)) as (l & Hl & Hbl).
  { intros q Hq. apply H. unfold within in *. lia. }
  exists (b :: l). split; [simpl; lia|]. by apply bytes_at_cons.
Qed.

Lemma bytes_at_drop w p l k : bytes_at w p l -> bytes_at w (p + Z.of_nat k) (drop k l).
Proof. intros H i b Hi. rewrite lookup_drop in Hi. specialize (H _ _ Hi). rewrite <- H. f_equal. lia. Qed.

Lemma bytes_at_prefix w p l1 l2 : bytes_at w p l1 -> bytes_at w p l2 -> (length l1 <= length l2)%nat -> exists l, l2 = l1 ++ l.
Proof.
  intros H1 H2 Hlen. exists (drop (length l1) l2). rewrite <- (take_drop (length l1) l2) at 1. f_equal.
  apply list_eq. intros i. destruct (decide (i < length l1)%nat) as [Hi|Hi].
  - rewrite lookup_take_lt by done. destruct (lookup_lt_is_Some_2 l1 i Hi) as [b Hb], (lookup_lt_is_Some_2 l2 i) as [c Hc]; [lia|].
    pose proof (H1 _ _ Hb) as E1. pose proof (H2 _ _ Hc) as E2. congruence.
  - rewrite lookup_take_ge, (lookup_ge_None_2 l1) by lia. done.
Qed.

Lemma word_bytes w p v : le_word w p v -> exists l, length l = 4%nat /\ bytes_at w p l /\ Load.le32 l = v.
Proof. intros (a & b & c & e & H & ->). exists [a; b; c; e]. split; [done|]. split; [done|]. unfold Load.le32. simpl. lia. Qed.

Lemma bytes_at_all w p l : all_bytes w -> bytes_at w p l -> Forall is_byte l.
Proof. intros Hw H. apply Forall_forall. intros b [i Hi]%list_elem_of_lookup. exact (Hw _ _ (H _ _ Hi)). Qed.

Section sources.
Context {A : Type} (s : init A) (dir : Z) (Hd : kernel_dir (mmu_of s) dir) (Hb : all_bytes (low (in_mem s))).

Lemma low_source v l : bytes_at (low (in_mem s)) v l -> placed_low v (Z.of_nat (length l)) -> source s 1013 v l.
Proof using All.
  intros Hl [H1 H2]. unfold KERNEL_BASE in H1, H2. split; [unfold block; lia|]. split; [by apply (bytes_at_all (low (in_mem s)) v)|].
  assert (Hw : forall i, (i < length l)%nat -> walk (mmu_of s) (v + Z.of_nat i) = Some (v + Z.of_nat i - KERNEL_BASE)).
  { intros i Hi. rewrite <- (kernel_dir_low _ _ (v + Z.of_nat i - KERNEL_BASE) Hd) by (unfold KERNEL_BASE; lia). f_equal. lia. }
  split.
  - intros i b Hi. pose proof (lookup_lt_Some _ _ _ Hi). eexists. split; [by apply Hw|].
    split; [unfold reserved, KERNEL_BASE; lia|]. specialize (Hl _ _ Hi). rewrite low_lookup in Hl. by case_decide.
  - intros i Hi. cbn zeta. assert ((v + Z.of_nat i) / 2 ^ 22 = 1012) as ->; [|done].
    symmetry. apply Z.div_unique with (v + Z.of_nat i - KERNEL_BASE); unfold KERNEL_BASE; lia.
Qed.

Lemma word_source p v : le_word (low (in_mem s)) p v -> placed_low p 4 ->
  exists l, source s 1013 p l /\ length l = 4%nat /\ Load.le32 l = v.
Proof using All.
  intros (l & Hl & Hbl & Hv)%word_bytes Hp. exists l. split; [|done]. apply low_source; [done|]. by rewrite Hl.
Qed.

Lemma module_source w d bootinfo info :
  wrote w (low (in_mem s)) bootinfo Info.sizeof_bootinfo -> module_loaded w bootinfo d ->
  bytes_at (low (in_mem s)) bootinfo info -> length info = 296%nat -> placed_low bootinfo 296 ->
  writable (in_mem s) 0x200000 296 -> writable (in_mem s) 0x201000 (Z.of_nat (length (ld_image d))) ->
  module_at s 1013 (ld_module d) bootinfo (ld_image d) info.
Proof using All.
  intros Hw [_ (M1 & M2 & M3 & M4) (C1 & C2 & C3) [N1 N2]] Hi Hil Hip W1 W2.
  assert (Hword : forall p v, clear_of bootinfo p 4 -> le_word w p v -> le_word (low (in_mem s)) p v).
  { intros p v Hc Hv. by apply (word_wrote w _ p v bootinfo Info.sizeof_bootinfo). }
  destruct (word_source (ld_module d) (ld_start d)) as (ms & S1 & S2 & S3); [apply Hword; [|done]|..]; [unfold clear_of in *; lia|unfold placed_low in *; lia|].
  destruct (word_source (ld_module d + 4) (ld_end d)) as (me & E1 & E2 & E3); [apply Hword; [|done]|..]; [unfold clear_of in *; lia|unfold placed_low in *; lia|].
  split; try done.
  - exists ms, me. rewrite S3, E3. unfold sizeof_modules_start, sizeof_modules_end. rewrite Z.add_0_r. split_and!; try done.
    apply low_source; [|done]. by apply (bytes_at_wrote w _ _ _ bootinfo Info.sizeof_bootinfo).
  - lia.
  - apply low_source; [done|]. by rewrite Hil.
  - by rewrite Hil.
Qed.
End sources.
