(* ===== verification/Entry.v ===== *)
(** What [arch_init] of [Main] comes to, on a machine with one processor and
    no local APIC: from what the boot loader left, to the point where the timer
    will start the first program.

    Nothing on the way faults and every loop ends, with the objects, tables and
    slabs in the order the theorems on the other components assume. *)
From S2P Require Export Main Handout.

Section entry.
Context {A : Type} `{!Allocator A} `{!Pages A} `{!SlabSetup A} `{!AllocatorLaws A} `{!PagesLaws A} `{!SlabSetupLaws A}.
Context (device : list port_event -> query -> Z) (arrivals : list port_event -> list Z) (fuel : nat).
Context (boot_page_dir bootinfo str_c4 descripts_addr task_segments_addr intr_table_addr : Z) (stubs : list Z).
Context (idle_entry send_memmaps_entry : Z).
Context (stale_redirect buses str_isa str_pci str_mp smp_boot_start smp_boot_size : Z).
Context (stale_bitmap : Z -> list Z) (stale_table : Z -> list cap_entry) (stale_object : kobject)
  (stale_async : msg_queue_async) (stale_node paddr_var : Z).
Context (cpu : nat) (num_cpus : Z) (apic_is_enabled : bool) (clock : nat -> Z) (port_in : Z -> Z -> Z).
Implicit Types (s : system A) (k : kernel A).

(** one processor, without a local APIC; the interval timer reaches its end *)
Context (Halone : forall t, arrivals t = []) (Hcpu : (cpu < 32)%nat).
Context (Htimer : forall t, exists n, (n + 1 < fuel)%nat /\ Z.testbit (poll_answer device t n) 7 = true).
Context (Hcpuid : forall t, Z.testbit (Z.shiftr (w64 (device t (QCpuid CPUID_GET_FEATURES))) 32) 9 = false).
(** what the linker and the stale memory give *)
Context (Hstubs : length stubs = 256%nat /\ Forall (fun p => 0 <= p < 2 ^ 32) stubs).
Context (Htasks : 0 <= task_segments_addr /\ task_segments_addr + MAX_CPUS * sizeof_task_seg <= 2 ^ 32).
Context (Hstale : forall h, bm_wf (stale_bitmap h) /\ (64 <= length (stale_bitmap h))%nat).
Context (Hlen : forall t, length (stale_table t) = 256%nat).
Context (Hnull : forall t i e, stale_table t !! i = Some e -> ce_type e = CAP_TYPE_NULL).

(** the machine and its memory when [arch_init] is called with the tables of the
    loader at [header] *)
Record bootable s (header : Z) (d : loader) : Prop := {
  bb_entry : at_entry boot_page_dir s;
  bb_untouched : untouched (sy_kernel s);
  bb_flags : sy_slabs_ready s = [] /\ sy_spaces_ready s = false;
  bb_heap : heap_ok (sy_boot s) (length (ld_entries d));
  bb_loaded : loaded (sy_low s) bootinfo str_c4 header d;
}.

(** the kernel with its devices mapped and everything set up *)
Record kernel_up s s' (d : loader) (maps : Z) : Prop := {
  ku_maps : maps_at (in_maps (sy_init s')) maps (rev (areas (ld_entries d)));
  ku_low : wrote (sy_low s) (sy_low s') bootinfo Info.sizeof_bootinfo;
  ku_domain : forall p, is_Some (in_mem (sy_init s') !! p) <-> is_Some (in_mem (sy_init s) !! p);
  ku_bytes : all_bytes (sy_low s');
  ku_info : le_word (sy_low s') bootinfo BOOTINFO_MAGIC /\ cstring (sy_low s') (bootinfo + 16) (take 255 (ld_command d));
  ku_objects : exists k1 k, objects_up boot_page_dir idle_entry cpu k1 k /\ k_queue_slab k = k_queue_slab (sy_kernel s) /\
    k_syncs k = k_syncs (sy_kernel s) /\
    sy_kernel s' = set_k_spaces (AddrSpace.set_mmu (sy_mmu s') (k_spaces k)) k;
  ku_dir : kernel_dir (sy_mmu s') boot_page_dir;
  ku_ready : sy_slabs_ready s' = [AtreeSlab; ThreadSlab; FrameSlab; CapSpaceSlab];
  ku_tables : sg_gdtr (sy_segments s') = Some (295, w32 descripts_addr) /\ sg_tr (sy_segments s') = Some 0x28 /\
    it_loaded (sy_idt s') = Some (2047, w32 intr_table_addr);
  ku_handlers : it_handlers (sy_idt s') !! 32%nat = Some (Some (timer_interrupt cpu num_cpus clock)) /\
    it_handlers (sy_idt s') !! Z.to_nat INTERRUPT_SYSCALL = Some (Some (syscall_interrupt cpu num_cpus apic_is_enabled
      clock stale_table stale_object stale_async stale_node paddr_var fuel port_in));
}.

Lemma untouched_mmu k m : untouched k -> untouched (set_k_spaces (AddrSpace.set_mmu m (k_spaces k)) k).
Proof using All. intros [H1 H2 H3 H4 H5 H6]. split; assumption. Qed.

Lemma set_sy_low_same s : set_sy_low (sy_low s) s = s.
Proof using All. unfold set_sy_low, sy_low. rewrite unlow_low. by destruct s as [[] ? ? ? ? ? ? ? ? ? ?]. Qed.

(** up to here the kernel only looks at itself *)
Lemma kernel_up_ok s header d : bootable s header d ->
  exists maps s1 s2 s3,
    init_system device arrivals fuel boot_page_dir bootinfo str_c4 descripts_addr task_segments_addr intr_table_addr stubs
      stale_bitmap stale_table stale_object stale_async stale_node paddr_var cpu num_cpus apic_is_enabled clock port_in header s = Some (maps, s1) /\
    init_objects device arrivals boot_page_dir idle_entry cpu num_cpus clock s1 = Some (tt, s2) /\
    in_smp (smp_init device arrivals stale_redirect fuel buses str_isa str_pci str_mp smp_boot_start smp_boot_size) s2 = Some (tt, s3) /\
    kernel_up s s3 d maps.
Proof using All.
  intros [He Hu [Hr Hs] Hh Hl].
  destruct (init_system_ok device arrivals fuel boot_page_dir bootinfo str_c4 descripts_addr task_segments_addr intr_table_addr stubs
    stale_bitmap stale_table stale_object stale_async stale_node paddr_var cpu num_cpus apic_is_enabled clock port_in
    Halone Htimer Hstubs Htasks Hstale s d header He Hl Hh) as (maps & s1 & R1 & [U1 U2 U3 U4 U5 U6 U7 U8 [U9 U10] U11 U12 U13]).
  destruct (init_objects_ok device arrivals boot_page_dir idle_entry cpu num_cpus clock Halone Hcpu s1) as (k & R2 & Hob).
  { rewrite U6. by apply untouched_mmu. }
  { congruence. } { congruence. } { rewrite U8. apply He. } { apply U13. lia. }
  set (s2 := set_sy_idt _ _) in R2. pose proof Hob as [_ _ _ _ _ _ Hm [Q1 Q2]].
  assert (Hdir2 : kernel_dir (sy_mmu s2) boot_page_dir) by (change (sy_mmu s2) with (sp_mmu (k_spaces k)); rewrite Hm; exact U7).
  destruct (smp_init_alone device arrivals stale_redirect fuel buses str_isa str_pci str_mp smp_boot_start smp_boot_size (sy_smp s2)
    (kd_wf _ _ Hdir2) (Hcpuid _)) as (p & m & R3 & Hw3 & Hwo & Hpde).
  set (s3 := set_sy_smp (Smp (Machine (with_ports p (mc_lapic (sm_machine (sy_smp s2)))) (mc_ioapics (sm_machine (sy_smp s2)))
    (mc_cpu_count (sm_machine (sy_smp s2))) (mc_mem (sm_machine (sy_smp s2)))) m) s2).
  assert (Hmem : in_mem (sy_init s3) = in_mem (sy_init s1)) by exact (unlow_low (in_mem (sy_init s1))).
  assert (Hlow : sy_low s3 = sy_low s1) by (unfold sy_low; by rewrite Hmem).
  exists maps, s1, s2, s3. split; [exact R1|]. split; [exact R2|]. split; [exact (zoom_run sy_smp set_sy_smp _ s2 _ _ R3)|].
  split; rewrite ?Hlow, ?Hmem; try assumption.
  - exists (sy_kernel s1), k. split; [exact Hob|]. rewrite Q1, Q2, U6. split_and!; reflexivity.
  - exact (kernel_dir_words (sy_mmu s2) m boot_page_dir Hdir2 Hw3 Hwo Hpde).
  - reflexivity.
  - assert (Eh : it_handlers (sy_idt s3) = <[32%nat := Some (timer_interrupt cpu num_cpus clock)]> (it_handlers (sy_idt s1))) by reflexivity.
    rewrite Eh. split.
    + apply list_lookup_insert_eq. apply lookup_lt_is_Some. apply U13. lia.
    + rewrite list_lookup_insert_ne by (unfold INTERRUPT_SYSCALL; lia). exact U12.
Qed.

(** *** The first program *)

(** the state in which [sigma0_load] is called *)
Definition queues_up s : system A :=
  set_sy_slabs_ready (MessageQueueSlab :: sy_slabs_ready s)
    (set_sy_kernel (set_k_queue_slab (slab_setup sizeof_msg_queue (k_queue_slab (sy_kernel s))) (sy_kernel s)) s).

Lemma queues_up_run s : MessageQueueSlab ∉ sy_slabs_ready s -> message_queue_setup s = Some (tt, queues_up s).
Proof using All. intros H. by apply once_fresh. Qed.

(** the kernel is as [sigma0_load] needs it *)
Lemma queues_up_ready s s3 d maps : untouched (sy_kernel s) -> kernel_up s s3 d maps ->
  exists x, booted cpu (sy_init (queues_up s3)) NULL (sp_kernel (k_spaces (sy_kernel s3))) x AddrSpace.map_empty 1013 /\
    as_page_dir x = boot_page_dir /\ can_start 3 (sy_kernel (queues_up s3)) /\ sched_wf cpu (sy_kernel (queues_up s3)) /\
    rooms 2 (k_atree_slab (sy_kernel (queues_up s3))) /\ AA.contents (k_run_tree (sy_kernel (queues_up s3))) = [] /\
    k_threads (sy_kernel (queues_up s3)) !! NULL = None.
Proof using All.
  intros [_ _ _ _ (Q0 & Q1 & Q2) _] [_ _ _ _ _ (k1 & k & Hob & Eq & Es & Ek) Hdir Hr _ _].
  destruct Hob as [(O1 & O2 & O3) (O4 & t & th & O5 & O6 & _) O7 (O8 & O9 & O10) (O11 & O12 & O12') (q & O13 & O14) _ _].
  pose proof (kernel_dir_can_clone _ _ Hdir) as Hcc. pose proof (kernel_dir_big _ _ Hdir) as Hbig. pose proof (kd_entries _ _ Hdir) as [_ Hz].
  assert (Em : mmu_of (sy_init (queues_up s3)) = sy_mmu s3) by reflexivity.
  assert (Ek4 : sy_kernel (queues_up s3) = set_k_queue_slab (slab_setup sizeof_msg_queue (k_queue_slab (sy_kernel s)))
    (set_k_spaces (AddrSpace.set_mmu (sy_mmu s3) (k_spaces k)) k)).
  { change (sy_kernel (queues_up s3)) with (set_k_queue_slab (slab_setup sizeof_msg_queue (k_queue_slab (sy_kernel s3))) (sy_kernel s3)).
    rewrite Ek. by rewrite <- Eq. }
  assert (Esp : k_spaces (sy_kernel (queues_up s3)) = AddrSpace.set_mmu (sy_mmu s3) (k_spaces k)) by (by rewrite Ek4).
  destruct (slab_setup_ok sizeof_msg_queue _ ltac:(done) Q1) as [Hqi _].
  exists (AddrSpace (kobject_init KOBJECT_TYPE_ADDR_SPACE) boot_page_dir q). split_and!.
  - change (in_kernel (sy_init (queues_up s3))) with (sy_kernel (queues_up s3)). split; rewrite ?Em;
      change (in_kernel (sy_init (queues_up s3))) with (sy_kernel (queues_up s3)); rewrite ?Esp; try done.
    + by rewrite Ek4.
    + change (sp_kernel (k_spaces (sy_kernel s3))) with (sp_kernel (k_spaces (sy_kernel s3))). by rewrite Ek.
    + rewrite Ek. exact O13.
    + destruct O11. by split.
    + split; [apply (bool_decide_unpack _); reflexivity|]. intros e He. apply Hz. revert He. unfold area_entries. rewrite !elem_of_cons, elem_of_nil. tauto.
    + rewrite (kd_physical _ _ Hdir). lia.
  - done.
  - rewrite Ek4. split; [destruct O4; by split|exact O8|exact O9|exact O10|exact Hqi|exact Q2].
  - rewrite Ek4. destruct O1 as [[] ? ? ? ? ?]. split; [by split|assumption..].
  - by rewrite Ek4.
  - by rewrite Ek4.
  - rewrite Ek4. change (k_threads k !! NULL = None). rewrite O5. by apply lookup_singleton_ne.
Qed.

(** the kernel has started the first program and the thread that will send it
    the memory: [th1] and [th2] wait in the run tree, the processor takes
    interrupts, in the space of the one its code and the boot information
    [info] are in place, and the other, when it runs, hands out the areas of
    the loader's map *)
Record running s (d : loader) (msgq new t1 t2 : Z) (th1 th2 : thread) (info : list Z) : Prop := {
  rn_interrupts : sy_interrupts s = true;
  rn_tables : sg_gdtr (sy_segments s) = Some (295, w32 descripts_addr) /\ sg_tr (sy_segments s) = Some 0x28 /\
    it_loaded (sy_idt s) = Some (2047, w32 intr_table_addr);
  rn_handlers : it_handlers (sy_idt s) !! 32%nat = Some (Some (timer_interrupt cpu num_cpus clock)) /\
    it_handlers (sy_idt s) !! Z.to_nat INTERRUPT_SYSCALL = Some (Some (syscall_interrupt cpu num_cpus apic_is_enabled
      clock stale_table stale_object stale_async stale_node paddr_var fuel port_in));
  rn_mmu : mmu_wf (sy_mmu s);
  rn_sched : sched_wf cpu (sy_kernel s) /\ k_current (sy_kernel s) !! cpu = Some NULL;
  rn_threads : k_threads (sy_kernel s) !! t1 = Some th1 /\ k_threads (sy_kernel s) !! t2 = Some th2 /\ t1 <> t2;
  rn_run : Permutation (AA.contents (k_run_tree (sy_kernel s))) [t1; t2];
  rn_program : th_registers th1 = ThreadRegs 0 0xd0000ff8 0xc0000000 1 /\ th_state th1 = SCHED_STATE_RUNNING /\ th_addr_space th1 = new;
  rn_sender : tr_eip (th_registers th2) = send_memmaps_entry /\ th_state th2 = SCHED_STATE_RUNNING /\
    th_addr_space th2 = sp_kernel (k_spaces (sy_kernel s));
  rn_memory : maps_at (in_maps (sy_init s)) (in_sigma0_maps (sy_init s)) (rev (areas (ld_entries d))) /\ in_sigma0_msgq (sy_init s) = msgq;
  rn_queue : k_syncs (sy_kernel s) !! msgq = Some (MsgQueue stale_object [] []);
  rn_info : length info = 296%nat /\ Load.le32 (take 4 info) = BOOTINFO_MAGIC /\
    exists rest, drop 16 info = (take 255 (ld_command d) ++ [0]) ++ rest;
  rn_handout : forall i, undisturbed (sy_init s) (length (areas (ld_entries d))) i -> in_sigma0_maps i = in_sigma0_maps (sy_init s) ->
    hands_out cpu num_cpus apic_is_enabled clock msgq (rev (areas (ld_entries d)))
      (send_memmaps_thread cpu num_cpus apic_is_enabled clock) i;
  rn_entered : exists i, on_sp (addr_space_set new) (sy_init s) = Some (tt, i) /\ program_at i (ld_image d) info;
}.

(** the boot information as the list of its bytes *)
Lemma info_bytes (w w' : bytes) (cmd : list Z) : wrote w w' bootinfo Info.sizeof_bootinfo -> writable w bootinfo Info.sizeof_bootinfo ->
  le_word w' bootinfo BOOTINFO_MAGIC -> cstring w' (bootinfo + 16) (take 255 cmd) ->
  exists info, length info = 296%nat /\ bytes_at w' bootinfo info /\ Load.le32 (take 4 info) = BOOTINFO_MAGIC /\
    exists rest, drop 16 info = (take 255 cmd ++ [0]) ++ rest.
Proof using All.
  intros Hw Hwr Hm [Hc _]. destruct (bytes_exist w' bootinfo 296) as (info & Hl & Hb).
  { exact (wrote_writable w w' bootinfo Info.sizeof_bootinfo bootinfo Info.sizeof_bootinfo Hw Hwr). }
  exists info. split; [done|]. split; [done|]. split.
  - destruct (word_bytes _ _ _ Hm) as (l & Hl4 & Hb4 & <-).
    destruct (bytes_at_prefix _ _ _ _ Hb4 Hb) as [r ->]; [lia|]. f_equal. rewrite <- Hl4. apply take_app_length.
  - apply (bytes_at_prefix w' (bootinfo + 16)); [done|exact (bytes_at_drop w' bootinfo info 16 Hb)|].
    rewrite length_drop, length_app, length_take. cbn [length]. lia.
Qed.

(** entering a space only needs the spaces *)
Lemma entered_later (s s' : init A) new image info : k_spaces (in_kernel s') = k_spaces (in_kernel s) -> in_mem s' = in_mem s ->
  (exists i, on_sp (addr_space_set new) s = Some (tt, i) /\ program_at i image info) ->
  exists i, on_sp (addr_space_set new) s' = Some (tt, i) /\ program_at i image info.
Proof using All.
  intros Hk Hm (i & R & Hp). unfold on_sp, on_k, on_spaces, zoom in *. rewrite Hk. destruct (addr_space_set new _) as [[[] sp]|]; [|done].
  injection R as <-. eexists. split; [done|]. apply (program_at_same (set_in_kernel (set_k_spaces sp (in_kernel s)) s)); [done| |done]. done.
Qed.

(** the header is still there *)
Lemma header_word s s3 d maps header j v : loaded (sy_low s) bootinfo str_c4 header d -> kernel_up s s3 d maps ->
  0 <= j <= 76 -> le_word (sy_low s) (header + j) v -> load32 (header + j) (sy_low s3) = Some (v, sy_low s3).
Proof using All.
  intros Hl [_ Hw _ _ _ _ _ _ _ _] Hj Hv. pose proof (lo_header _ _ _ _ _ Hl) as Hh.
  apply word_load, (word_wrote (sy_low s) _ _ _ bootinfo Info.sizeof_bootinfo); [done| |done]. unfold clear_of in Hh. lia.
Qed.

Lemma find_module_ok s s3 d maps header : loaded (sy_low s) bootinfo str_c4 header d -> module_loaded (sy_low s) bootinfo d ->
  kernel_up s s3 d maps -> in_low (sigma0_find_module header) s3 = Some (ld_module d, s3) /\ ld_module d <> NULL.
Proof using All.
  intros Hl [Hn (_ & _ & _ & Hp) _ _] Hup. pose proof (lo_mods _ _ _ _ _ Hl) as [W1 W2].
  split; [|destruct Hp; unfold NULL, KERNEL_BASE in *; lia].
  assert (R : sigma0_find_module header (sy_low s3) = Some (ld_module d, sy_low s3)).
  { unfold sigma0_find_module, Mboot.mods_count, Mboot.mods_addr.
    rewrite (ST_run _ _ _ _ _ (header_word s s3 d maps header 20 _ Hl Hup ltac:(lia) W1)), (proj2 (Z.ltb_lt 0 _) Hn).
    by rewrite (ST_run _ _ _ _ _ (header_word s s3 d maps header 24 _ Hl Hup ltac:(lia) W2)). }
  unfold in_low. rewrite (zoom_run sy_low set_sy_low _ s3 _ _ R). by rewrite set_sy_low_same.
Qed.

(** without a module there is nothing to start: [arch_init] returns, the
    interrupts off and the kernel's own structures in order *)
Theorem arch_init_alone s header d : bootable s header d -> ld_mods_count d <= 0 ->
  exists maps s',
    arch_init device arrivals fuel boot_page_dir bootinfo str_c4 descripts_addr task_segments_addr intr_table_addr stubs idle_entry
      send_memmaps_entry stale_redirect buses str_isa str_pci str_mp smp_boot_start smp_boot_size stale_bitmap stale_table stale_object
      stale_async stale_node paddr_var cpu num_cpus apic_is_enabled clock port_in header s = Some (Done tt s') /\
    kernel_up s s' d maps.
Proof using All.
  intros Hb Hn. destruct (kernel_up_ok s header d Hb) as (maps & s1 & s2 & s3 & R1 & R2 & R3 & Hup).
  pose proof Hb as [_ _ _ _ Hld]. exists maps, s3. split; [|exact Hup].
  unfold arch_init. rewrite (R_lift _ _ _ _ _ R1), (R_lift _ _ _ _ _ R2), (R_lift _ _ _ _ _ R3).
  assert (R : sigma0_find_module header (sy_low s3) = Some (NULL, sy_low s3)).
  { unfold sigma0_find_module, Mboot.mods_count. rewrite (ST_run _ _ _ _ _ (header_word s s3 d maps header 20 _ Hld Hup ltac:(lia) (proj1 (lo_mods _ _ _ _ _ Hld)))).
    by rewrite (proj2 (Z.ltb_ge 0 _)). }
  rewrite (R_lift _ _ s3 NULL s3); [done|]. unfold in_low. rewrite (zoom_run sy_low set_sy_low _ s3 _ _ R). by rewrite set_sy_low_same.
Qed.

(** C8: from what the boot loader left, the kernel starts the module it was given.
    This is on a machine with one processor, no other ever arriving, whose CPUID
    reports no local APIC and whose interval timer reaches its end within the polls
    counted; with the tables of the loader in order and its memory map, module,
    command line and boot information in the first 2 MB, apart from each other
    and from the heap ([bootable], [module_loaded]), bytes of memory at 2 MB for the
    program, a kernel whose slabs are unused with memory for the objects made,
    the linker's stubs and task segments in the 32-bit address space,
    and where the page that becomes the program's capability table, which the
    code does not clear, holds no capability. Then [arch_init] does not fault
    and reaches the loop in which only interrupts happen, with two threads to
    run and the interrupts on.  The first is the module's code, at the start of
    the code area of a space of its own, where it finds the boot information with
    the loader's command line; the second will send it the memory of the loader's
    map, area by area.  The timer's handler and the system calls' are in the
    table the processor uses, and the kernel's own structures are in order. *)
Theorem arch_init_spec s header d :
  bootable s header d -> module_loaded (sy_low s) bootinfo d ->
  writable (in_mem (sy_init s)) 0x200000 296 -> writable (in_mem (sy_init s)) 0x201000 (Z.of_nat (length (ld_image d))) ->
  exists msgq new t1 t2 th1 th2 info s',
    arch_init device arrivals fuel boot_page_dir bootinfo str_c4 descripts_addr task_segments_addr intr_table_addr stubs idle_entry
      send_memmaps_entry stale_redirect buses str_isa str_pci str_mp smp_boot_start smp_boot_size stale_bitmap stale_table stale_object
      stale_async stale_node paddr_var cpu num_cpus apic_is_enabled clock port_in header s = Some (Done tt s') /\
    running s' d msgq new t1 t2 th1 th2 info.
Proof using All.
  intros Hb Hml W1 W2. destruct (kernel_up_ok s header d Hb) as (maps & s1 & s2 & s3 & R1 & R2 & R3 & Hup).
  pose proof Hb as [_ Hut _ _ Hld]. destruct (find_module_ok s s3 d maps header Hld Hml Hup) as [R4 Hmod].
  pose proof Hup as [Hmaps Hlow Hdom Hbytes [Hmagic Hcmd] _ Hdir Hready Htab Hhan].
  pose proof (queues_up_run s3 ltac:(rewrite Hready; apply (bool_decide_unpack _); reflexivity)) as R5.
  destruct (queues_up_ready s s3 d maps Hut Hup) as (x & Hbo & Hx & Hcs & Hsw & (Ha & _ & Han) & Hempty & Hnt).
  destruct (lo_info _ _ _ _ _ Hld) as [Hiw Hip]. set (s4 := queues_up s3) in *.
  destruct (info_bytes _ _ _ Hlow Hiw Hmagic Hcmd) as (info & Hil & Hib & Him & Hrest).
  assert (Hsrc : module_at (sy_init s4) 1013 (ld_module d) bootinfo (ld_image d) info).
  { apply (module_source (sy_init s4) boot_page_dir Hdir Hbytes (sy_low s) d bootinfo info Hlow Hml Hib Hil Hip).
    - intros q Hq. apply Hdom. by apply W1.
    - intros q Hq. apply Hdom. by apply W2. }
  destruct (kd_dir _ _ Hdir) as (dt & Hdt & Hde & _). destruct (kd_entries _ _ Hdir) as [(_ & _ & Hbig) _].
  destruct (sigma0_load_ok cpu num_cpus apic_is_enabled clock stale_table stale_object boot_page_dir Hlen Hnull 3 (sy_init s4)
    (ld_module d) bootinfo NULL _ x AddrSpace.map_empty 1013 (ld_image d) info Hbo Hsrc Hcs (eq_sym Hx))
    as (msgq & new & t1 & th1 & i5 & R6 & Hst); [|exact Hsw|exact Ha| |].
  { rewrite Hde, (vaddr_dirent 1012 dt 0) by (unfold indices; lia). change (mmu_of (sy_init s4)) with (sy_mmu s3).
    rewrite Z.mod_small by lia. lia. }
  { change (k_threads (in_kernel (sy_init s4))) with (k_threads (sy_kernel s4)). unfold sched_thread_vruntime. by rewrite Hnt. }
  destruct Hst as [Fw Fp _ Fsw [Fts Ft] (Freg & Fst & Fas) Frun Fcur Fsync Fmaps (Froom & node & Fnode) Ftn Fent].
  set (s5 := set_sy_init i5 s4). destruct (Han node _ (or_introl Fnode)) as (Ha2 & _ & _).
  destruct (sigma0_send_memmaps_ok cpu num_cpus apic_is_enabled clock send_memmaps_entry i5 maps msgq Fsw Froom Ha2)
    as (t2 & th2 & k6 & R7 & Gt & Gtn & Gts & Geip & Gas & Gst & Gsw & Grun & Gsp & Gsy & Gcur); [by rewrite Fcur; apply Hbo|].
  set (i6 := Init k6 (in_mem i5) (in_maps i5) maps msgq) in R7. set (s6 := set_sy_init i6 s5).
  exists msgq, new, t1, t2, th1, th2, info, (set_sy_interrupts true s6). split.
  - unfold arch_init. rewrite (R_lift _ _ _ _ _ R1), (R_lift _ _ _ _ _ R2), (R_lift _ _ _ _ _ R3), (R_lift _ _ _ _ _ R4).
    rewrite (proj2 (Z.eqb_neq _ _) Hmod). rewrite (R_lift _ _ _ _ _ R5). fold s4.
    rewrite (R_done _ _ _ _ _ (rzoom_done sy_init set_sy_init _ s4 _ _ R6)). fold s5.
    by rewrite (R_done _ _ _ _ _ (rzoom_done sy_init set_sy_init _ s5 _ _ R7)).
  - assert (Hne : t1 <> t2) by (intros ->; rewrite Fts, lookup_insert_eq in Gt; discriminate).
    assert (Hk : sp_kernel (k_spaces (in_kernel i6)) = sp_kernel (k_spaces (in_kernel i5))) by (change (in_kernel i6) with k6; by rewrite Gsp).
    constructor.
    + reflexivity.
    + exact Htab.
    + exact Hhan.
    + change (mmu_wf (sp_mmu (k_spaces k6))). rewrite Gsp. exact Fw.
    + split; [exact Gsw|]. change (k_current k6 !! cpu = Some NULL). rewrite Gcur, Fcur. apply (bo_cur _ _ _ _ _ _ _ Hbo).
    + change (k_threads k6 !! t1 = Some th1 /\ k_threads k6 !! t2 = Some th2 /\ t1 <> t2). rewrite Gts, Fts.
      split; [by rewrite lookup_insert_ne, lookup_insert_eq|]. split; [apply lookup_insert_eq|done].
    + change (Permutation (AA.contents (k_run_tree k6)) [t1; t2]). rewrite Grun, Frun.
      change (AA.contents (k_run_tree (in_kernel (sy_init s4)))) with (AA.contents (k_run_tree (sy_kernel s4))). rewrite Hempty. apply perm_swap.
    + split; [exact Freg|]. split; [exact Fst|exact Fas].
    + split; [exact Geip|]. split; [exact Gst|]. rewrite Gas. exact (eq_sym Hk).
    + split; [|reflexivity]. change (maps_at (in_maps i5) maps (rev (areas (ld_entries d)))). rewrite Fmaps. exact Hmaps.
    + change (k_syncs k6 !! msgq = Some (MsgQueue stale_object [] [])). rewrite Gsy, Fsync. apply lookup_insert_eq.
    + split; [exact Hil|]. split; [exact Him|exact Hrest].
    + intros i [Um Uq Us Ur] Umaps. change msgq with (in_sigma0_msgq i6). change (in_sigma0_msgq i6) with (in_sigma0_msgq (sy_init (set_sy_interrupts true s6))).
      rewrite <- Uq. apply send_memmaps_thread_ok; [|exact Us|by rewrite length_rev].
      rewrite Um, Umaps. change (maps_at (in_maps i5) maps (rev (areas (ld_entries d)))). rewrite Fmaps. exact Hmaps.
    + apply (entered_later i5 i6 new (ld_image d) info); [exact Gsp|reflexivity|exact Fent].
Qed.
End entry.

(** ** On a concrete machine *)

(** the loader's tables from 0x1000 on: its header, a map of the memory, the
    command line "quiet", and a module of three bytes and the memory after it *)
Definition entry_loader : loader :=
  Loader 0x4c 0x3000 1 0x4000 72 0x2000 0 [] ex_entries [113; 117; 105; 101; 116] 0x5000 0x5003 boot_image.
Definition entry_header : list Z :=
  Boot.le32 0x4c ++ replicate 12 0 ++ Boot.le32 0x3000 ++ Boot.le32 1 ++ Boot.le32 0x4000 ++ replicate 16 0 ++
  Boot.le32 72 ++ Boot.le32 0x2000 ++ replicate 24 0 ++ Boot.le32 0.
Definition entry_bytes : bytes := mem_of
  [(0x1000, entry_header); (0x2000, ex_entries ≫= ex_entry_bytes); (0x3000, [113; 117; 105; 101; 116; 0]);
   (0x4000, Boot.le32 0x5000 ++ Boot.le32 0x5003); (0x5000, boot_image); (0x6000, replicate 296 0xff);
   (0x200000, replicate 296 0); (0x201000, replicate 515 0)].
(** nothing is allocated *)
Definition entry_kernel : kernel BumpPages.t :=
  set_k_threads ∅ (set_k_thread_slab BumpPages.init (set_k_atree_slab BumpPages.init (set_k_caps (CapStore ∅ ∅ BumpPages.init)
    (set_k_spaces (SpaceStore ex_boot_mmu ∅ ∅ ∅ NULL BumpPages.init BumpPages.init) (set_k_syncs ∅ (set_k_queue_slab BumpPages.init kernel_ex)))))).
Definition entry_system : system BumpPages.t :=
  System (Init entry_kernel entry_bytes ∅ NULL NULL) 0xfd140000 false [] false
    (Timers (Lapic (Ports [] false) false 0 0 0) 0 0) [] 0 ex_segments ex_idt false.

(** what the kernel sees of its memory *)
Definition entry_low : bytes := sy_low entry_system.
(** the words and the bytes it reads there *)
Definition entry_facts : list (Z * list Z) := Eval vm_compute in
  [(0xfd001000, Boot.le32 0x4c); (0xfd001010, Boot.le32 0x3000); (0xfd001014, Boot.le32 1); (0xfd001018, Boot.le32 0x4000);
   (0xfd00102c, Boot.le32 72); (0xfd001030, Boot.le32 0x2000); (0xfd00104c, Boot.le32 0);
   (0xfd003000, [113; 117; 105; 101; 116; 0]); (0xfd004000, Boot.le32 0x5000); (0xfd004004, Boot.le32 0x5003);
   (0xfd005000, boot_image)] ++
  mjoin (imap (fun i e => let p := 0xfd002000 + 24 * Z.of_nat i in [(p, Boot.le32 (me_size e)); (p + 4, Boot.le32 (me_addr e));
    (p + 12, Boot.le32 (me_length e)); (p + 20, Boot.le32 (me_type e))]) ex_entries).

Lemma entry_facts_at : forall f, f ∈ entry_facts -> bytes_at entry_low f.1 f.2.
Proof.
  apply Forall_forall. assert (H : forallb (fun f => bytes_check entry_low f.1 f.2) entry_facts = true) by (vm_compute; exact eq_refl).
  apply Forall_forall. intros f Hf i b Hi. rewrite forallb_forall in H. specialize (H f (proj1 (list_elem_of_In _ _) Hf)).
  pose proof (lookup_lt_Some _ _ _ Hi). by rewrite (bytes_check_ok _ _ _ H).
Qed.
Ltac entry_at := lazymatch goal with |- bytes_at _ ?p ?l =>
  let p' := eval vm_compute in p in let l' := eval vm_compute in l in
  change (bytes_at entry_low p' l'); apply (entry_facts_at (p', l')); decide_vm end.

Lemma entry_boot_entries : boot_entries ex_boot_mmu.
Proof.
  split; [by vm_compute|]. intros d. rewrite !elem_of_cons, elem_of_nil. by intros [->|[->|[->|[->|[]]]]].
Qed.

Lemma entry_untouched : untouched entry_kernel.
Proof.
  assert (Hi : slab_static BumpPages.init) by (split; [exact BumpPages.bump_pages_init_inv|reflexivity]).
  assert (Hr : forall n size, (n <= 8)%nat -> rooms n (slab_setup size BumpPages.init)) by (intros n size Hn; apply BumpPages.bump_rooms; simpl; lia).
  split; repeat match goal with |- _ /\ _ => split end; try reflexivity; try exact Hi; apply Hr; lia.
Qed.

Ltac entry_word := apply word_check; [vm_compute; split; congruence|entry_at].

Lemma entry_loaded : loaded entry_low 0xfd006000 0xfd007000 0xfd001000 entry_loader.
Proof.
  split.
  - entry_word.
  - entry_word.
  - split; entry_word.
  - split; entry_word.
  - entry_word.
  - left. vm_compute. congruence.
  - reflexivity.
  - split; [split; [entry_at|]|split].
    + repeat (apply Forall_cons; split; [discriminate|]). apply Forall_nil. exact I.
    + by apply bytes_all.
    + left. vm_compute. congruence.
  - discriminate.
  - split; [|split; [|split; [|left]]]; [|vm_compute; congruence..].
    cbn [entries_at ex_entries ld_entries entry_loader me_size me_addr me_length me_type].
    split_and!; try (apply word_load; entry_word); vm_compute; congruence.
  - reflexivity.
  - split; [mem_vm|]. split; vm_compute; congruence.
Qed.

Lemma entry_module : module_loaded entry_low 0xfd006000 entry_loader.
Proof.
  split.
  - reflexivity.
  - split; [entry_word|]. split; [entry_word|]. split; [left; vm_compute; congruence|]. split; vm_compute; congruence.
  - split; [entry_at|]. split; [left; vm_compute; congruence|]. split; vm_compute; congruence.
  - split; vm_compute; congruence.
Qed.

Lemma entry_heap_free q : 0xfd140000 <= q < 0xfd140000 + 32 * Z.of_nat (length (ld_entries entry_loader)) + bitmap_bytes ->
  bt_mem (sy_boot entry_system) !! q = None.
Proof. intros Hq. apply (none_between _ 0xfd140000 360); [by vm_compute|]. rewrite bitmap_bytes_eq in Hq. simpl in Hq. lia. Qed.

Lemma entry_bootable : bootable 0xfd101000 0xfd006000 0xfd007000 entry_system 0xfd001000 entry_loader.
Proof.
  split.
  - split.
    + simpl. lia.
    + exact ex_boot_mmu_ok.
    + exact entry_boot_entries.
    + exists 0x101. by split.
    + split; [done|]. split; [apply Forall_replicate; vm_compute; split; congruence|done].
    + apply map_Forall_to_list. by decide_vm.
  - exact entry_untouched.
  - done.
  - split; [done|]. split; [done|]. split; [exact entry_heap_free|]. intros p x Hx. change (bt_maps (sy_boot entry_system)) with (∅ : gmap Z phys_memmap) in Hx.
    by rewrite lookup_empty in Hx.
  - exact entry_loaded.
Qed.

Lemma arch_init_spec_witness : exists s' t1 t2,
  arch_init ex_apic_device (fun _ => []) 2 0xfd101000 0xfd006000 0xfd007000 0xfd110000 0xfd120000 0xfd130000 ex_stubs 0xfd100100
    0xfd100200 0 0 0 0 0 0 0 (fun _ => replicate 64 0xdeadbeef) stale_ex (kobject_init 0) (MsgQueueAsync (kobject_init 2) [] 0 0 0)
    0 0 0 1 false clock_ex (fun _ _ => 0) 0xfd001000 entry_system = Some (Done tt s') /\
  sy_interrupts s' = true /\ Permutation (AA.contents (k_run_tree (sy_kernel s'))) [t1; t2] /\
  maps_at (in_maps (sy_init s')) (in_sigma0_maps (sy_init s')) [(0x900000, 0x76e0000)].
Proof.
  destruct (arch_init_spec ex_apic_device (fun _ => []) 2 0xfd101000 0xfd006000 0xfd007000 0xfd110000 0xfd120000 0xfd130000 ex_stubs
    0xfd100100 0xfd100200 0 0 0 0 0 0 0 (fun _ => replicate 64 0xdeadbeef) stale_ex (kobject_init 0)
    (MsgQueueAsync (kobject_init 2) [] 0 0 0) 0 0 0 1 false clock_ex (fun _ _ => 0) (fun _ => eq_refl) ltac:(lia) ex_timer
    ltac:(intros t; by vm_compute) ltac:(split; [reflexivity|decide_vm]) ltac:(vm_compute; split; congruence)
    ltac:(intros h; split; [apply Forall_replicate; vm_compute; split; congruence|by rewrite length_replicate]) stale_ex_length stale_ex_null
    entry_system 0xfd001000 entry_loader entry_bootable entry_module ltac:(mem_vm) ltac:(mem_vm))
    as (msgq & new & t1 & t2 & th1 & th2 & info & s' & Hrun & Hup).
  exists s', t1, t2. split; [exact Hrun|]. destruct Hup as [Hi _ _ _ _ _ Hperm _ _ [Hmaps _] _ _ _ _]. split; [exact Hi|].
  split; [exact Hperm|exact Hmaps].
Defined.
